(* ===== verification/_CoqProject ===== *)
-Q . S2P
Prelude.v
GraphTypes.v
GraphBuilder.v
GraphCheck.v
GraphCheckFacts.v
GraphSpec.v
GraphCombine.v
GraphTheorems.v
GraphDenote.v
Country.v
Currency.v
PaymentEnums.v
EuclidEnums.v
EuclidTypes.v
EuclidAst.v
EuclidDir.v
EuclidLowering.v
EuclidVir.v
EuclidFacts.v
EuclidLoweringFacts.v
EuclidTheorems.v
StateMachine.v
StateMachineFacts.v
StateMachineTheorems.v
Analyzer.v
AnalyzerFacts.v
AnalyzerTheorems.v
KgraphValues.v
Kgraph.v
KgraphFacts.v
KgraphContext.v
KgraphTheorems.v
RoutingInput.v
Routing.v
RoutingFacts.v
DecideConnector.v
RoutingTheorems.v
RoutingCaches.v
RoutingExample.v
PaymentStatus.v
Captures.v
CaptureFacts.v
CaptureTheorems.v
Cards.v
CardTheorems.v
Scheduler.v
SchedulerFacts.v
SchedulerTheorems.v
Disputes.v
Refunds.v
RefundFacts.v
RefundTheorems.v
RefundSync.v
DisputeTheorems.v
LockUtils.v
ApiLocking.v
ApiLockingFacts.v
ApiLockingBounds.v
ApiLockingAlone.v
ApiLockingTheorems.v
Gsm.v
GsmTheorems.v
AutoRetry.v
AutoRetryTheorems.v
AutoRetryAttempts.v
AutoRetryExample.v
PaymentRows.v
PaymentGates.v
PaymentResponse.v
PaymentFlows.v
PaymentFlowFacts.v
PaymentFlowTheorems.v
PaymentAmounts.v
PaymentExample.v
