(* ===== verification/Prelude.v ===== *)
(** * Hyperswitch: a verification development

    Hyperswitch is a payment router written in Rust.  This library models the
    parts of it that decide: which connectors a payment may go to and goes to,
    which operations its status admits and what the answers of connectors make of
    it, when it is retried, captured, refunded and disputed, and how requests on
    one payment exclude each other.  The definitions are translated function by
    function from the sources under [src/crates], keep the names of the sources
    where possible, and are executable; the theorems are about these definitions.

    ** The parts and how they interact

    - Constraint graphs ([hyperswitch_constraint_graph]): nodes are values or
      aggregators, edges carry a strength, a relation and a domain, and a check
      asks whether a node is satisfied under a context.  Euclid's analyzer checks
      contexts against such a graph, and routing filters connectors with one.
    - Euclid ([euclid]): routing rules in an abstract syntax are evaluated by an
      interpreter, or lowered to the DIR and then to values over which a compiled
      backend runs.  The analyzer enumerates the contexts that a program can test
      with state machines and checks each.
    - The knowledge graph ([kgraph_utils]): the payment methods, limits and
      filters of the merchant's accounts as a constraint graph over the DIR.
    - Routing ([router/src/core/payments/routing.rs], [core/payments.rs]): a
      routing algorithm chooses connectors for the input of a payment, the
      knowledge graph filters them, and the choice is recorded in the attempt.
      Algorithms and graphs are cached.
    - Retries ([core/payments/retry.rs], [core/gsm.rs]): rules on the errors of
      connectors decide whether a failed payment goes to the next connector.
    - Payment operations ([core/payments/operations]): a request on a payment is
      admitted by the status of the intent, changes the rows, calls the connector
      where that makes sense, and records the answer in the attempt and the
      intent.  Captures in parts, refunds and disputes have state of their own:
      refunds and disputes share the captured amount through the state metadata
      of the intent, which tasks update after the handler has returned.
    - Locks ([core/api_locking.rs]): a request on a payment takes keys in Redis
      before its handler runs and deletes them afterwards.
    - The scheduler ([scheduler]): handlers insert tasks, the producer moves due
      tasks into a stream, the consumer starts the workflow of each, and the
      workflow finishes the task or schedules a retry.
    - Cards ([cards]): parsing, checksum, masking and expiry.

    ** The files

    [Prelude]: results, the state-and-error monad [sr] of the handlers with its
    Hoare-style rules ([sr_preserves], [safe]) and tactics, machine integers,
    enumerations with the names strum gives them, and lemmas on lists.

    Constraint graphs.
    - [GraphTypes]: identifiers, dense maps, edges, nodes, errors, graphs and
      their serialised form ([types.rs], [dense_map.rs], [error.rs], [graph.rs]).
    - [GraphBuilder]: every method of the builder ([builder.rs]) and the
      well-formedness of what it builds.
    - [GraphCheck], [GraphCheckFacts]: [check_node] with its memo table and cycle
      map; fuel, termination and the life of error traces.
    - [GraphSpec]: the declarative meaning of a graph, and that the checker
      computes it.  [GraphCombine]: [combine].  [GraphTheorems]: the theorems.
    - [GraphDenote]: the truth of a node while the rest of the graph is built.

    Enumerations ([common_enums]).
    - [Country], [Currency], [PaymentEnums], [PaymentStatus].

    Euclid.
    - [EuclidEnums], [EuclidTypes]: enums, keys and values.
    - [EuclidAst]: programs, inputs and the interpreter.  [EuclidDir]: the DIR
      and the output types.  [EuclidLowering]: both lowerings.  [EuclidVir]: the
      compiled backend.
    - [EuclidFacts], [EuclidLoweringFacts], [EuclidTheorems]: agreement of the
      backends and the programs that compile.
    - [StateMachine], [StateMachineFacts], [StateMachineTheorems]: the
      enumeration of contexts ([dssa/state_machine.rs]).
    - [Analyzer], [AnalyzerFacts], [AnalyzerTheorems]: the analyses
      ([dssa/analyzer.rs], [dssa/graph.rs]).

    Knowledge graph and routing.
    - [KgraphValues], [Kgraph]: the conversions and the construction
      ([kgraph_utils/src/mca.rs], [transformers.rs]) and the filtering of
      connectors.  [KgraphFacts], [KgraphContext]: what its nodes and the context
      of a payment mean.  [KgraphTheorems]: the theorems.
    - [RoutingInput], [Routing], [DecideConnector]: the input of a payment, static
      routing with its caches and the eligibility analysis, and
      [decide_connector].  [RoutingFacts], [RoutingTheorems], [RoutingCaches],
      [RoutingExample]: facts, theorems, caches and examples.
    - [Gsm], [GsmTheorems]: the gateway status mapping.
    - [AutoRetry], [AutoRetryTheorems], [AutoRetryAttempts], [AutoRetryExample]:
      the loop of retries and the attempts it leaves.

    Payments.
    - [Captures], [CaptureFacts], [CaptureTheorems]: captures in parts
      ([router/src/core/payments], [diesel_models/src/capture.rs]).
    - [PaymentRows]: intents, attempts, authorizations and their updates
      ([diesel_models]).  [PaymentGates]: the statuses that admit an operation,
      [should_call_connector] and manual retries ([core/payments/helpers.rs]).
      [PaymentResponse]: the record of an answer ([payment_response.rs]), with the
      trait [Capturable] as a class.  [PaymentFlows]: confirmation, completion,
      capture, cancellation, void after the capture, retrieval, extended and
      incremental authorization, approval and rejection.
    - [PaymentFlowFacts]: the invariant [payment_inv] and that every operation
      keeps it.  [PaymentFlowTheorems], [PaymentAmounts], [PaymentExample]: the
      theorems and a payment on which they are applied.
    - [Cards], [CardTheorems].
    - [Scheduler], [SchedulerFacts], [SchedulerTheorems]: tasks, retry
      schedules, producer and consumer.
    - [Disputes]: stages, statuses, transitions and rows.
    - [Refunds]: rows, validations, handlers, workflows and webhooks of refunds,
      with the state metadata and the dispute webhooks
      ([router/src/core/refunds.rs], [core/webhooks/incoming.rs],
      [core/payments.rs]).
    - [RefundFacts]: the invariant [refund_inv] and that every handler keeps it.
    - [RefundTheorems], [RefundSync], [DisputeTheorems]: the theorems.

    Locks.
    - [LockUtils]: flows and the identifiers of their locks.  [ApiLocking]: the
      actions as trees of Redis commands, Redis as a class with laws, and the
      server as a system of interleaved requests.
    - [ApiLockingFacts]: ownership of keys.  [ApiLockingBounds]: the number of
      commands.  [ApiLockingAlone]: runs without interference.
      [ApiLockingTheorems]: the theorems.

    ** What the theorems show

    A theorem that is a stated property carries its number in brackets.
    - Constraint graphs: on a well-formed graph without cycles the checker
      returns the declarative verdict; it returns on every graph; builders build
      well-formed graphs; [combine] embeds both graphs; serialisation loses
      nothing that a check uses; error traces are alive; edge conflicts.
    - Euclid: the compiled backend refines the interpreter where both know the
      keys and nothing that the payment lacks, and no amount, is negated; which
      programs compile; the context of a payment; where the two
      backends differ (negated amounts, the fraud rate).
    - The analyzer: the machines terminate and enumerate every context of a
      program without empty lists of values; contexts characterise the compiled
      statements without empty lists of nested statements; the verdict of
      [analyze] is that of the checks of all contexts; a rejected context is dead;
      and what becomes of empty lists.
    - The knowledge graph: the check of a connector is the direct reading of the
      accounts and the configuration; filtering keeps exactly the connectors with
      an account that accepts the payment.
    - Routing: every connector that a routed payment is sent to is permitted by the
      request and the installments, admits the payment under the configured
      filters and has an account that takes it, as long as the graph of the
      accounts can be built; what the attempt records; fresh caches do not show.
    - Retries: they end, only what the code takes for a failure is retried, each
      call has an attempt of its own; the mapping of errors is a map of rules.
    - Payment operations: through any sequence of operations, with errors and
      lost calls, the status of the intent follows that of the active attempt; a
      payment that has succeeded is kept; what the API tells about retries is
      what a confirmation does where they are enabled and in time; the rows after
      a single manual capture, incremental authorizations and reviews; and three
      outcomes that the code does not seem to intend, a refused void that fails a captured payment, a void after a refund, and
      cancellations that the connector never hears of.
    - Captures: the row of a capture is inserted by [capture_get_trackers] and
      counted by [capture_update_trackers].  Through any sequence of requests,
      requests that end between the two, lost answers and synchronisations, with a
      transaction, an error, a list of captures or any other answer, the captures
      stay within the authorization; the exact verdict on a request and the effect
      of an answer; a row that is left uncounted blocks all later captures.
    - Refunds: a request is admitted ([admit_refund]), stored ([store_refund]) and
      executed ([execute_refund]), and the call of the connector answers or fails.
      Through any sequence of handlers, workflows and delayed updates, with
      requests waiting for the connector, the refunds stay within the captured
      amount as long as the checks of a request and the insertion of its row are
      not interleaved with those of another; when they are, both are stored; the
      exact verdict on a request; a synchronisation task ends, or is left started
      when a call fails; the limits are not applied to long transaction ids.
    - Disputes: webhooks settle a dispute.  The scheduler: what the producer
      hands over.
    - Locks: in any interleaving with lost commands and replies, requests on one
      payment that take its lock do not run their handlers together as long as no
      lock expires; handlers that take none do; the commands of a request end;
      taking and freeing a lock restores Redis.
    - Cards: the checksum is the textbook one without overflow, the errors it
      detects, the strings that parse, what masking shows, when a card expires.

    ** Modelling choices

    A Rust integer is a [Z] with its range: [checked_i64] and its like give an
    error where a debug build panics, [wrap_i32] wraps.  A handler is a function
    from a store to a result and a store that is kept when it fails.  The store
    holds the rows of one payment, without the key-value mode.  A spawned task is
    recorded with the values it captures and runs at any later time, in any
    order.  A hash map that is iterated is a list in the order of the iteration.
    The call of a connector in a payment operation fails before the rows change,
    fails after, or answers with any data.  What the sources do not contain is an
    argument or a class with the laws the code relies on: the answers of
    connectors, Redis, the database behind routing, generated ids, clocks, random
    numbers, the decision engine, the hash of long ids, the outcome of appending
    to a stream, the outcomes of the fraud check and of the authentication.

    Fuel: [check_node] needs one unit more than the graph has nodes
    ([GraphCheckFacts]); the state machines need one more than the contexts they
    enumerate ([StateMachineTheorems]); the loop of retries needs two more than
    there are connectors ([retry_fuel]); [chunks_of] gets the length of the list.
    A theorem about such a function says that it returns.

    Refund steps: the connector does not report a refund as alive that it has
    reported as failed ([honest], [execution_honest]), and an operator's manual update is not a
    step; both could raise what the refunds take.  Capture steps: a list of
    captures does not report a failed capture before the latest one as alive
    ([no_revival]).  Payment operations: an answer has the shape of its request
    ([answer_fits]).

    ** Not modelled

    The HTTP server, the creation, update and session of payments, the fraud
    check itself and what it does after a call, payment methods, mandates and payouts, dynamic routing and the
    decision engine, connector integrations, API and storage types without logic,
    analytics, the second version of the API, the rule parser, the macro-built
    knowledge graph, currency conversion and the WebAssembly bindings.  They are
    I/O, glue, generated code, floating-point or decimal arithmetic of libraries,
    or parser combinators of a library. *)

From stdpp Require Export base tactics list gmap strings fin_maps sorting.
From Stdlib Require Export ZArith Lia.

(** ** Results: Rust's [Result<A, E>]

    [Err] carries the error first so that [result E] is a monad; the [?]
    operator is the monadic bind. *)

Inductive result (E A : Type) : Type :=
| Ok (a : A)
| Err (e : E).
Arguments Ok {E A} a.
Arguments Err {E A} e.

#[export] Instance result_ret E : MRet (result E) := λ A a, Ok a.
#[export] Instance result_bind E : MBind (result E) := λ A B f r,
  match r with Ok a => f a | Err e => Err e end.
#[export] Instance result_fmap E : FMap (result E) := λ A B f r,
  match r with Ok a => Ok (f a) | Err e => Err e end.

#[export] Instance result_eq_dec E A `{EqDecision E, EqDecision A} : EqDecision (result E A).
Proof. solve_decision. Defined.

(** [Option::ok_or]. *)
Definition ok_or {E A} (e : E) (o : option A) : result E A :=
  match o with Some a => Ok a | None => Err e end.

(** [Result::map_err]. *)
Definition map_err {E F A} (f : E → F) (r : result E A) : result F A :=
  match r with Ok a => Ok a | Err e => Err (f e) end.

Definition is_ok {E A} (r : result E A) : bool :=
  match r with Ok _ => true | Err _ => false end.

(** [Option<Result<A, E>>::transpose]. *)
Definition transpose {E A} (o : option (result E A)) : result E (option A) :=
  match o with
  | None => Ok None
  | Some (Ok a) => Ok (Some a)
  | Some (Err e) => Err e
  end.

(** Loops over a list whose body can fail; the first error ends the loop.  The
    body is a section variable, so that a recursive function can be passed. *)
Section try_loops.
Context {E A : Type}.

(** [iter.map(f).collect::<Result<Vec<_>, _>>()]. *)
Definition try_collect {B} (f : A → result E B) : list A → result E (list B) :=
  fix go l :=
    match l with
    | [] => Ok []
    | x :: l => y ← f x; ys ← go l; Ok (y :: ys)
    end.

(** [for x in l { if f(x)? { return Ok(true) } } Ok(false)]. *)
Definition try_any (f : A → result E bool) : list A → result E bool :=
  fix go l :=
    match l with
    | [] => Ok false
    | x :: l => b ← f x; if b : bool then Ok true else go l
    end.

(** [for x in l { if !f(x)? { return Ok(false) } } Ok(true)]. *)
Definition try_all (f : A → result E bool) : list A → result E bool :=
  fix go l :=
    match l with
    | [] => Ok true
    | x :: l => b ← f x; if b : bool then go l else Ok false
    end.

(** [for x in l { f(x)? }]. *)
Definition try_each (f : A → result E unit) : list A → result E unit :=
  fix go l :=
    match l with
    | [] => Ok tt
    | x :: l => _ ← f x; go l
    end.

End try_loops.

(** ** Stateful operations that can fail

    An operation on [&mut self] that returns a [Result] keeps the changes it
    made before the error, so the state is returned on both outcomes. *)

Definition sr (S E A : Type) : Type := S → result E A * S.

Definition sr_ret {S E A} (a : A) : sr S E A := λ s, (Ok a, s).
Definition sr_err {S E A} (e : E) : sr S E A := λ s, (Err e, s).
Definition sr_bind {S E A B} (c : sr S E A) (k : A → sr S E B) : sr S E B := λ s,
  match c s with
  | (Ok a, s') => k a s'
  | (Err e, s') => (Err e, s')
  end.
Definition sr_get {S E A} (f : S → A) : sr S E A := λ s, (Ok (f s), s).
Definition sr_modify {S E} (f : S → S) : sr S E unit := λ s, (Ok tt, f s).
Definition sr_lift {S E A} (r : result E A) : sr S E A := λ s, (r, s).

Lemma sr_bind_ret_snd {S E A B} (c : sr S E A) (f : A → B) s :
  (sr_bind c (λ a, sr_ret (f a)) s).2 = (c s).2.
Proof. unfold sr_bind. by destruct (c s) as [[]]. Qed.

Declare Scope sr_scope.
Delimit Scope sr_scope with sr.
Notation "x <- c ;; k" := (sr_bind c (λ x, k))
  (at level 100, c at next level, right associativity) : sr_scope.
Notation "c ;;; k" := (sr_bind c (λ _, k))
  (at level 100, right associativity) : sr_scope.

(** A [for] loop whose body can fail: the first error ends it. *)
Fixpoint sr_for {S E A} (f : A → sr S E unit) (l : list A) : sr S E unit :=
  match l with
  | [] => sr_ret tt
  | x :: l => (f x ;;; sr_for f l)%sr
  end.

(** The same, collecting the values the body returns. *)
Fixpoint sr_map {S E A B} (f : A → sr S E B) (l : list A) : sr S E (list B) :=
  match l with
  | [] => sr_ret []
  | x :: l => (y <- f x ;; ys <- sr_map f l ;; sr_ret (y :: ys))%sr
  end.

(** *** Hoare triples

    From a state in [P] the operation returns a value and a state in [Q], or
    an error and a state in [F]. *)
Definition sr_triple {S E A} (P : S → Prop) (c : sr S E A)
    (Q : A → S → Prop) (F : E → S → Prop) : Prop :=
  ∀ s, P s → match c s with (Ok a, s') => Q a s' | (Err e, s') => F e s' end.

Create HintDb sr.

Section triples.
Context {S E : Type}.
Implicit Types P : S → Prop.

Lemma triple_ret {A} P (Q : A → S → Prop) (F : E → S → Prop) (a : A) :
  (∀ s, P s → Q a s) → sr_triple P (sr_ret a) Q F.
Proof. by intros H s Hs; apply H. Qed.

Lemma triple_bind {A B} P (c : sr S E A) (k : A → sr S E B) Q R F :
  sr_triple P c Q F → (∀ a, sr_triple (Q a) (k a) R F) → sr_triple P (sr_bind c k) R F.
Proof.
  intros Hc Hk s Hs. unfold sr_bind. specialize (Hc s Hs).
  destruct (c s) as [[a|e] s']; [by apply Hk | done].
Qed.

Lemma triple_conseq {A} (P P' : S → Prop) (c : sr S E A) (Q Q' : A → S → Prop) (F F' : E → S → Prop) :
  sr_triple P' c Q' F' → (∀ s, P s → P' s) → (∀ a s, Q' a s → Q a s) → (∀ e s, F' e s → F e s) →
  sr_triple P c Q F.
Proof.
  intros Hc HP HQ HF s Hs. specialize (Hc s (HP _ Hs)).
  destruct (c s) as [[a|e] s']; auto.
Qed.

(** A loop keeps an invariant indexed by the elements already visited. *)
Lemma triple_for_all {A} (I : list A → S → Prop) (f : A → sr S E unit) F l :
  (∀ done x rest, l = done ++ x :: rest →
    sr_triple (I done) (f x) (λ _, I (done ++ [x])) F) →
  sr_triple (I []) (sr_for f l) (λ _, I l) F.
Proof.
  intros Hf.
  assert (∀ rest done, l = done ++ rest →
    sr_triple (I done) (sr_for f rest) (λ _, I l) F) as H.
  { induction rest as [|x rest IH]; intros done Hl; simpl.
    - apply triple_ret. rewrite app_nil_r in Hl. by rewrite Hl.
    - eapply triple_bind; [by eapply Hf|]. intros u. simpl. apply IH. by rewrite <- app_assoc. }
  by apply H.
Qed.

(** The same for a loop that collects values. *)
Lemma triple_map {A B} (I : list A → list B → S → Prop) (f : A → sr S E B) F l :
  (∀ done ys x rest, l = done ++ x :: rest →
    sr_triple (I done ys) (f x) (λ y, I (done ++ [x]) (ys ++ [y])) F) →
  sr_triple (I [] []) (sr_map f l) (I l) F.
Proof.
  intros Hf.
  assert (∀ rest done ys, l = done ++ rest →
    sr_triple (I done ys) (sr_map f rest) (λ zs, I l (ys ++ zs)) F) as H.
  { induction rest as [|x rest IH]; intros done ys Hl; simpl.
    - apply triple_ret. rewrite !app_nil_r in *. by rewrite Hl.
    - eapply triple_bind; [by eapply Hf|]. intros y. simpl.
      eapply triple_bind; [apply (IH (done ++ [x]) (ys ++ [y])); by rewrite <- app_assoc|].
      intros zs. simpl. apply triple_ret. by rewrite <- app_assoc. }
  by apply (H l [] []).
Qed.

(** An invariant that an operation keeps on both outcomes. *)
Definition sr_preserves {A} (I : S → Prop) (c : sr S E A) : Prop :=
  sr_triple I c (λ _, I) (λ _, I).

Lemma sr_preserves_intro {A} (I : S → Prop) (c : sr S E A) :
  (∀ s, I s → I (c s).2) → sr_preserves I c.
Proof. intros H s Hs. specialize (H s Hs). by destruct (c s) as [[]]. Qed.

Lemma sr_preserves_elim {A} (I : S → Prop) (c : sr S E A) s :
  sr_preserves I c → I s → I (c s).2.
Proof. intros H Hs. specialize (H s Hs). by destruct (c s) as [[]]. Qed.

Lemma sr_preserves_ret {A} (I : S → Prop) (a : A) : sr_preserves I (sr_ret a).
Proof. by apply triple_ret. Qed.

Lemma sr_preserves_bind {A B} (I : S → Prop) (c : sr S E A) (k : A → sr S E B) :
  sr_preserves I c → (∀ a, sr_preserves I (k a)) → sr_preserves I (sr_bind c k).
Proof. apply triple_bind. Qed.

Lemma sr_preserves_for {A} (I : S → Prop) (f : A → sr S E unit) l :
  (∀ a, sr_preserves I (f a)) → sr_preserves I (sr_for f l).
Proof. intros Hf. apply (triple_for_all (λ _, I)). intros. apply Hf. Qed.

Lemma sr_preserves_map {A B} (I : S → Prop) (f : A → sr S E B) l :
  (∀ a, sr_preserves I (f a)) → sr_preserves I (sr_map f l).
Proof. intros Hf. apply (triple_map (λ _ _, I)). intros. apply Hf. Qed.

End triples.

#[export] Hint Resolve sr_preserves_ret sr_preserves_bind sr_preserves_for
  sr_preserves_map : sr.

(** *** Safety from a state

    The operation leaves a state in [I], whatever it returns. *)
Definition safe {S E A} (I : S → Prop) (c : sr S E A) (s : S) : Prop := I (c s).2.

Section safety.
Context {S E : Type} (I : S → Prop).

Lemma safe_ret {A} (a : A) s : I s → safe (E := E) I (sr_ret a) s.
Proof. done. Qed.

Lemma safe_err {A} (e : E) s : I s → safe (A := A) I (sr_err e) s.
Proof. done. Qed.

Lemma safe_lift {A} (r : result E A) s : I s → safe I (sr_lift r) s.
Proof. done. Qed.

Lemma safe_bind {A B} (c : sr S E A) (k : A → sr S E B) s :
  safe I c s → (∀ a s', c s = (Ok a, s') → I s' → safe I (k a) s') → safe I (sr_bind c k) s.
Proof.
  unfold safe, sr_bind. intros Hc Hk. destruct (c s) as [[a|e] s'] eqn:Heq; [by apply Hk|done].
Qed.

Lemma safe_get_bind {A B} (f : S → A) (k : A → sr S E B) s :
  safe I (k (f s)) s → safe I (sr_bind (sr_get f) k) s.
Proof. done. Qed.

Lemma safe_lift_bind {A B} (r : result E A) (k : A → sr S E B) s :
  I s → (∀ a, r = Ok a → safe I (k a) s) → safe I (sr_bind (sr_lift r) k) s.
Proof. unfold safe, sr_bind, sr_lift. intros Hs Hk. destruct r as [a|e]; [by apply Hk|done]. Qed.

Lemma safe_modify_bind {B} (f : S → S) (k : unit → sr S E B) s :
  safe I (k tt) (f s) → safe I (sr_bind (sr_modify f) k) s.
Proof. done. Qed.

(** A guard that returns or fails. *)
Lemma safe_guard_bind {B} (b : bool) (e : E) (k : unit → sr S E B) s :
  I s → (b = true → safe I (k tt) s) → safe I (sr_bind (if b then sr_ret tt else sr_err e) k) s.
Proof. destruct b; [|done]. intros Hs Hk. by apply Hk. Qed.

Lemma safe_guard_neg_bind {B} (b : bool) (e : E) (k : unit → sr S E B) s :
  I s → (b = false → safe I (k tt) s) → safe I (sr_bind (if b then sr_err e else sr_ret tt) k) s.
Proof. destruct b; [done|]. intros Hs Hk. by apply Hk. Qed.

Lemma safe_preserves {A} (c : sr S E A) s : sr_preserves I c → I s → safe I c s.
Proof. intros H Hs. exact (sr_preserves_elim I c s H Hs). Qed.

End safety.

#[export] Hint Resolve safe_ret safe_err safe_lift : sr.

(** Steps through a handler. *)
Ltac safe_step :=
  lazymatch goal with
  | |- safe _ (sr_bind (sr_get _) _) _ => apply safe_get_bind
  | |- safe _ (sr_bind (sr_lift _) _) _ => apply safe_lift_bind; [|intros ? ?]
  | |- safe _ (sr_bind (sr_modify _) _) _ => apply safe_modify_bind
  | |- safe _ (sr_bind (sr_bind _ _) _) _ => fail
  | |- safe _ (sr_bind (if _ then sr_ret tt else sr_err _) _) _ => apply safe_guard_bind; [|intros ?]
  | |- safe _ (sr_bind (if _ then sr_err _ else sr_ret tt) _) _ => apply safe_guard_neg_bind; [|intros ?]
  | |- safe _ (sr_bind _ _) _ => apply safe_bind; [|intros ? ? ? ?]
  | |- safe _ (sr_ret _) _ => apply safe_ret
  | |- safe _ (sr_err _) _ => apply safe_err
  | |- safe _ (sr_lift _) _ => apply safe_lift
  end.

(** ** Machine integers

    A Rust integer is a [Z] in the range of its width. *)

Definition i64_min : Z := - 2 ^ 63.
Definition i64_max : Z := 2 ^ 63 - 1.
Definition u64_max : Z := 2 ^ 64 - 1.
Definition u32_max : Z := 2 ^ 32 - 1.

Definition in_i64 (z : Z) : bool := (i64_min <=? z)%Z && (z <=? i64_max)%Z.

(** Two's complement wrap-around of [i64] arithmetic (release build). *)
Definition wrap_i64 (z : Z) : Z := (z + 2 ^ 63) `mod` 2 ^ 64 - 2 ^ 63.

Definition checked_i64 (z : Z) : option Z := if in_i64 z then Some z else None.

Lemma in_i64_spec z : in_i64 z = true ↔ (i64_min ≤ z ≤ i64_max)%Z.
Proof. unfold in_i64. rewrite andb_true_iff, !Z.leb_le. done. Qed.

Lemma wrap_i64_range z : in_i64 (wrap_i64 z) = true.
Proof.
  apply in_i64_spec. unfold wrap_i64, i64_min, i64_max.
  pose proof (Z.mod_pos_bound (z + 2 ^ 63) (2 ^ 64) ltac:(lia)). lia.
Qed.

Lemma wrap_i64_id z : in_i64 z = true → wrap_i64 z = z.
Proof.
  rewrite in_i64_spec. unfold wrap_i64, i64_min, i64_max. intros Hz.
  rewrite Z.mod_small; lia.
Qed.

(** The same for [i32]. *)
Definition i32_max : Z := 2 ^ 31 - 1.
Definition wrap_i32 (z : Z) : Z := (z + 2 ^ 31) `mod` 2 ^ 32 - 2 ^ 31.

Lemma wrap_i32_id z : (- 2 ^ 31 ≤ z ≤ i32_max)%Z → wrap_i32 z = z.
Proof. unfold wrap_i32, i32_max. intros Hz. rewrite Z.mod_small; lia. Qed.

(** ** Enumerations without payload

    A Rust enum whose variants carry no data.  [variants] lists them in
    declaration order and [discriminant] is the index of a variant; the law
    gives decidable equality, countability and proofs by evaluation. *)

Class Enumerated (A : Type) : Type := {
  variants : list A;
  discriminant : A → nat;
  variants_discriminant : ∀ a, variants !! discriminant a = Some a;
}.
Arguments variants A {_}.

Section enumerated.
Context `{Enumerated A}.

Lemma discriminant_inj (a b : A) : discriminant a = discriminant b → a = b.
Proof.
  intros Heq. pose proof (variants_discriminant a) as Ha.
  rewrite Heq, variants_discriminant in Ha. congruence.
Qed.

#[export] Instance enumerated_eq_dec : EqDecision A | 5.
Proof.
  intros a b. destruct (decide (discriminant a = discriminant b)) as [E|E].
  - left. by apply discriminant_inj.
  - right. congruence.
Defined.

#[export] Program Instance enumerated_countable : Countable A | 5 := {|
  encode a := encode (discriminant a);
  decode p := decode p ≫= λ i, variants A !! i;
|}.
Next Obligation. intros a. simpl. rewrite decode_encode. apply variants_discriminant. Qed.

Lemma elem_of_variants (a : A) : a ∈ variants A.
Proof. apply list_elem_of_lookup. eauto using variants_discriminant. Qed.

(** A decidable statement on all variants is checked by evaluation. *)
Lemma enumerated_forall (p : A → bool) :
  forallb p (variants A) = true → ∀ a, p a = true.
Proof.
  intros Hall a. rewrite forallb_forall in Hall.
  apply Hall, list_elem_of_In, elem_of_variants.
Qed.

End enumerated.

(** ** Names of the variants: strum's [EnumString] and [Display]

    [serialized] lists the strings [from_str] accepts for a variant, in the
    order of the attributes; [to_string] is the one [Display] prints. *)

Class EnumString (A : Type) : Type := {
  serialized : A → list string;
  to_string : A → string;
}.

(** An enum whose variants have one name each. *)
Definition one_name {A} (f : A → string) : EnumString A := {|
  serialized a := [f a];
  to_string := f;
|}.

(** The derived [FromStr]: the variant one of whose names is the string. *)
Definition from_str {A} `{Enumerated A, EnumString A} (s : string) : option A :=
  List.find (λ a, bool_decide (s ∈ serialized a)) (variants A).

(** What the code relies on: printing and parsing agree. *)
Class EnumStringLaws (A : Type) `{Enumerated A, EnumString A} : Prop :=
  from_str_to_string : ∀ a : A, from_str (to_string a) = Some a.

Lemma enum_string_laws_check A `{Enumerated A, EnumString A} :
  forallb (λ a : A, bool_decide (from_str (to_string a) = Some a)) (variants A) = true →
  EnumStringLaws A.
Proof. intros Hall a. pose proof (enumerated_forall _ Hall a) as Ha. by apply bool_decide_eq_true in Ha. Qed.

Lemma from_str_serialized {A} `{Enumerated A, EnumString A} s (a : A) :
  from_str s = Some a → s ∈ serialized a.
Proof. intros [_ Ha]%List.find_some. by apply bool_decide_eq_true in Ha. Qed.

(** An enum whose variants are read under the name they are printed with. *)
Class SingleName (A : Type) `{EnumString A} : Prop :=
  serialized_single : ∀ a : A, serialized a = [to_string a].

#[export] Instance one_name_single A (f : A → string) : SingleName A (H := one_name f).
Proof. done. Qed.

Lemma from_str_single {A} `{Enumerated A, EnumString A, !SingleName A} s (a : A) :
  from_str s = Some a → s = to_string a.
Proof. intros Hs%from_str_serialized. rewrite serialized_single in Hs. set_solver. Qed.

Lemma to_string_inj {A} `{EnumStringLaws A} (a b : A) : to_string a = to_string b → a = b.
Proof.
  intros Heq. pose proof (from_str_to_string a) as Ha. rewrite Heq, from_str_to_string in Ha.
  congruence.
Qed.

(** ** Lists *)

(** [iter().any]. *)
Definition any {A} (p : A → bool) (l : list A) : bool := existsb p l.
(** [iter().all]. *)
Definition all {A} (p : A → bool) (l : list A) : bool := forallb p l.

Section lists.
Context {A B : Type}.
Implicit Types l : list A.

Lemma any_true p l : any p l = true ↔ ∃ x, x ∈ l ∧ p x = true.
Proof.
  unfold any. rewrite existsb_exists. by setoid_rewrite list_elem_of_In.
Qed.

Lemma find_ext (p q : A → bool) l : (∀ x, p x = q x) → List.find p l = List.find q l.
Proof. intros Heq. induction l as [|x l IH]; simpl; [done|]. by rewrite Heq, IH. Qed.

Lemma find_snoc (p : A → bool) l x :
  (∀ y, y ∈ l → p y = false) → p x = true → List.find p (l ++ [x]) = Some x.
Proof.
  intros Hl Hx. induction l as [|y l IH]; simpl; [by rewrite Hx|].
  rewrite Hl by set_solver. apply IH. set_solver.
Qed.

Lemma find_fmap (p : A → bool) (f : A → A) l :
  (∀ x, x ∈ l → p (f x) = p x) → List.find p (f <$> l) = f <$> List.find p l.
Proof.
  induction l as [|x l IH]; intros Hp; [done|]. cbn. rewrite Hp by set_solver. destruct (p x); [done|].
  apply IH. set_solver.
Qed.

(** Rows with a key. *)
Lemma key_inj {K} (f : A → K) l x y : NoDup (f <$> l) → x ∈ l → y ∈ l → f x = f y → x = y.
Proof.
  intros Hnd Hx Hy Heq. apply list_elem_of_lookup in Hx as [i Hi], Hy as [j Hj].
  assert (i = j) as ->; [|congruence].
  eapply (NoDup_lookup (f <$> l)); [done|by rewrite list_lookup_fmap, Hi|].
  by rewrite list_lookup_fmap, Hj, Heq.
Qed.

Lemma find_by_key `{EqDecision K} (f : A → K) l x :
  NoDup (f <$> l) → x ∈ l → List.find (λ y, bool_decide (f y = f x)) l = Some x.
Proof.
  intros Hnd Hx. destruct (List.find _ l) as [y|] eqn:Hfind.
  - apply find_some in Hfind as [Hy%list_elem_of_In Hf%bool_decide_eq_true]. f_equal. by apply (key_inj f l).
  - apply list_elem_of_In in Hx. apply (List.find_none _ _ Hfind) in Hx. by rewrite bool_decide_true in Hx.
Qed.

Lemma filter_true (p : A → bool) l : (∀ x, x ∈ l → p x = true) → List.filter p l = l.
Proof.
  induction l as [|x l IH]; intros Hp; [done|]. simpl. rewrite Hp, IH; [done|set_solver|set_solver].
Qed.

Lemma all_true p l : all p l = true ↔ ∀ x, x ∈ l → p x = true.
Proof.
  unfold all. rewrite forallb_forall. by setoid_rewrite list_elem_of_In.
Qed.

Lemma all_negb p l : all (λ x, negb (p x)) l = negb (any p l).
Proof. induction l as [|x l IH]; simpl; [done|]. by rewrite IH, negb_orb. Qed.

Lemma any_map (f : B → A) (p : A → bool) (l : list B) :
  any p (map f l) = any (λ x, p (f x)) l.
Proof.
  unfold any. induction l as [|x l IH]; simpl; [done|]. by rewrite IH.
Qed.

Lemma any_bind (f : B → list A) (p : A → bool) (l : list B) :
  any p (l ≫= f) = any (λ x, any p (f x)) l.
Proof.
  unfold any. induction l as [|x l IH]; [done|]. rewrite bind_cons, existsb_app. simpl. by rewrite IH.
Qed.

Lemma any_andb (b : bool) (p : A → bool) l : any (λ x, b && p x) l = b && any p l.
Proof.
  unfold any. induction l as [|x l IH]; simpl; [by rewrite andb_false_r|].
  by rewrite IH, andb_orb_distrib_r.
Qed.

Lemma any_ext p q l : (∀ x, x ∈ l → p x = q x) → any p l = any q l.
Proof.
  induction l as [|x l IH]; simpl; intros Heq; [done|].
  rewrite Heq by set_solver. f_equal. apply IH. set_solver.
Qed.

Lemma all_ext p q l : (∀ x, x ∈ l → p x = q x) → all p l = all q l.
Proof.
  induction l as [|x l IH]; simpl; intros Heq; [done|].
  rewrite Heq by set_solver. f_equal. apply IH. set_solver.
Qed.

End lists.

(** Laws of the list monad. *)
Lemma list_bind_bind {A B C} (f : A → list B) (g : B → list C) l :
  (l ≫= f) ≫= g = l ≫= λ x, f x ≫= g.
Proof. induction l as [|x l IH]; [done|]. by rewrite !bind_cons, bind_app, IH. Qed.

Lemma fmap_list_bind {A B C} (f : A → list B) (g : B → C) l :
  g <$> (l ≫= f) = l ≫= λ x, g <$> f x.
Proof. induction l as [|x l IH]; [done|]. by rewrite !bind_cons, fmap_app, IH. Qed.

Lemma Forall2_impl_elem {A B} (R S : A → B → Prop) l k :
  Forall2 R l k → (∀ x y, x ∈ l → R x y → S x y) → Forall2 S l k.
Proof.
  induction 1 as [|x y l k Hxy _ IH]; intros HRS; constructor; [apply HRS; set_solver|].
  apply IH. set_solver.
Qed.

Lemma NoDup_omap {A B} (f : A → option B) (l : list A) :
  (∀ x y z, x ∈ l → y ∈ l → f x = Some z → f y = Some z → x = y) →
  NoDup l → NoDup (omap f l).
Proof.
  intros Hf. induction 1 as [|x l Hx Hl IH]; simpl; [constructor|].
  destruct (f x) as [z|] eqn:Hz; [|apply IH; set_solver].
  apply NoDup_cons. split; [|apply IH; set_solver].
  intros (y & Hy & Hyz)%list_elem_of_omap. destruct Hx.
  rewrite (Hf x y z); [done|set_solver..|done|done].
Qed.

(** A loop whose body returns [p] of the corresponding element is the pure one. *)
Lemma try_any_Forall2 {E A B} (f : A → result E bool) (p : B → bool) l k :
  Forall2 (λ x y, f x = Ok (p y)) l k → try_any f l = Ok (any p k).
Proof.
  induction 1 as [|x y l k Hxy _ IH]; simpl; [done|].
  rewrite Hxy. simpl. by destruct (p y).
Qed.

Lemma try_all_Forall2 {E A B} (f : A → result E bool) (p : B → bool) l k :
  Forall2 (λ x y, f x = Ok (p y)) l k → try_all f l = Ok (all p k).
Proof.
  induction 1 as [|x y l k Hxy _ IH]; simpl; [done|].
  rewrite Hxy. simpl. by destruct (p y).
Qed.

Lemma try_collect_length {E A B} (f : A → result E B) l ys :
  try_collect f l = Ok ys → length ys = length l.
Proof.
  revert ys. induction l as [|x l IH]; simpl; intros ys Hys; [by simplify_eq|].
  destruct (f x); simpl in Hys; [|done].
  destruct (try_collect f l); simpl in Hys; [|done].
  simplify_eq. simpl. f_equal. by apply IH.
Qed.

Lemma try_collect_Forall2 {E A B} (f : A → result E B) l ys :
  try_collect f l = Ok ys ↔ Forall2 (λ x y, f x = Ok y) l ys.
Proof.
  split.
  - revert ys. induction l as [|x l IH]; simpl; intros ys Hys.
    + simplify_eq. constructor.
    + destruct (f x) eqn:Hf; simpl in Hys; [|done].
      destruct (try_collect f l); simpl in Hys; [|done].
      simplify_eq. constructor; auto.
  - induction 1 as [|x y l ys Hxy _ IH]; simpl; [done|].
    by rewrite Hxy; simpl; rewrite IH.
Qed.

Lemma is_ok_try_collect {E A B} (f : A → result E B) l :
  is_ok (try_collect f l) = true ↔ Forall (λ x, is_ok (f x) = true) l.
Proof.
  induction l as [|x l IH]; [by split|]. rewrite Forall_cons, <- IH. simpl.
  destruct (f x); simpl; [|naive_solver]. destruct (try_collect f l); naive_solver.
Qed.

(** Two loops that collect, one after the other, relate their elements. *)
Lemma try_collect_compose {E F A B C} (f : A → result E B) (g : B → result F C) l k m :
  try_collect f l = Ok k → try_collect g k = Ok m →
  Forall2 (λ x z, ∃ y, f x = Ok y ∧ g y = Ok z) l m.
Proof.
  intros Hf%try_collect_Forall2. revert m.
  induction Hf as [|x y l k Hxy Hlk IH]; intros m Hm%try_collect_Forall2.
  - inversion Hm. constructor.
  - inversion Hm; simplify_eq. constructor; [eauto|]. apply IH. by apply try_collect_Forall2.
Qed.

Lemma try_collect_fmap {E A B C} (f : B → result E C) (g : A → B) (h : A → C) l :
  (∀ a, f (g a) = Ok (h a)) → try_collect f (g <$> l) = Ok (h <$> l).
Proof.
  intros Hf. apply try_collect_Forall2, Forall2_fmap. induction l; constructor; auto.
Qed.

(** ** Tactics *)

(** Case analysis on the scrutinee of a [match] in the goal or a hypothesis. *)
Ltac case_on_match :=
  match goal with
  | |- context [match ?x with _ => _ end] => destruct x eqn:?
  | H : context [match ?x with _ => _ end] |- _ => destruct x eqn:?
  end.

(** Break the booleans of the context into propositions. *)
Ltac bool_facts :=
  repeat match goal with
  | H : _ && _ = true |- _ => apply andb_true_iff in H as [? ?]
  | H : _ || _ = false |- _ => apply orb_false_iff in H as [? ?]
  | H : negb _ = true |- _ => apply negb_true_iff in H
  | H : negb _ = false |- _ => apply negb_false_iff in H
  | H : bool_decide _ = true |- _ => apply bool_decide_eq_true in H
  | H : bool_decide _ = false |- _ => apply bool_decide_eq_false in H
  | H : Z.leb _ _ = true |- _ => apply Z.leb_le in H
  | H : Z.leb _ _ = false |- _ => apply Z.leb_gt in H
  | H : Z.ltb _ _ = true |- _ => apply Z.ltb_lt in H
  | H : Z.ltb _ _ = false |- _ => apply Z.ltb_ge in H
  | H : Z.eqb _ _ = true |- _ => apply Z.eqb_eq in H
  | H : Z.eqb _ _ = false |- _ => apply Z.eqb_neq in H
  end.

(** A finite statement about an enumeration, decided by evaluation. *)
Ltac by_evaluation := vm_compute; reflexivity.
