(* ===== verification/GraphTypes.v ===== *)
(** * The data of the constraint graph

    [crates/hyperswitch_constraint_graph]: the dense maps ([dense_map.rs]),
    the node, edge and domain types ([types.rs]), the errors ([error.rs]) and
    the finished graph with its wire format ([graph.rs]).  Ids are the
    indices the dense maps hand out. *)

From S2P Require Import Prelude.

(** ** Dense maps: a vector indexed by the ids it returned *)

Module DenseMap.

Abbreviation t V := (list V) (only parsing).

Definition new {V} : t V := [].

(** [push]: the id is the length before the push. *)
Definition push {V} (m : t V) (elem : V) : nat * t V := (length m, m ++ [elem]).

Definition get {V} (m : t V) (idx : nat) : option V := m !! idx.

(** [get_mut] followed by an update of the element; absent ids do nothing. *)
Definition update {V} (m : t V) (idx : nat) (f : V → V) : t V := alter f idx m.

Definition contains_key {V} (m : t V) (key : nat) : bool := bool_decide (key < length m).

Definition values {V} (m : t V) : list V := m.

(** [keys]: the range [0..len]. *)
Definition keys {V} (m : t V) : list nat := seq 0 (length m).

(** [iter]: the elements paired with their ids, in order. *)
Definition iter {V} (m : t V) : list (nat * V) := imap (λ i v, (i, v)) m.

Section facts.
Context {V : Type}.
Implicit Types m : t V.

Lemma get_push_eq m v : get (push m v).2 (push m v).1 = Some v.
Proof. unfold get, push; simpl. by apply list_lookup_middle. Qed.

Lemma get_push_old m v i w : get m i = Some w → get (push m v).2 i = Some w.
Proof. unfold get, push; simpl. intros. by apply lookup_app_l_Some. Qed.

Lemma get_push_inv m v i w :
  get (push m v).2 i = Some w → get m i = Some w ∨ (i = length m ∧ w = v).
Proof.
  unfold get, push; simpl. rewrite lookup_app_Some.
  intros [?|[Hle Hl]]; [by left|right].
  apply list_lookup_singleton_Some in Hl as [? ->]. split; [lia|done].
Qed.

Lemma contains_key_get m i : contains_key m i = true ↔ is_Some (get m i).
Proof. unfold contains_key, get. by rewrite bool_decide_eq_true, lookup_lt_is_Some. Qed.

Lemma elem_of_iter m i v : (i, v) ∈ iter m ↔ get m i = Some v.
Proof.
  unfold iter, get. rewrite list_elem_of_lookup. split.
  - intros [j Hj]. rewrite list_lookup_imap in Hj.
    destruct (m !! j) eqn:?; simplify_option_eq. done.
  - intros Hi. exists i. by rewrite list_lookup_imap, Hi.
Qed.

Lemma iter_snoc m v : iter (m ++ [v]) = iter m ++ [(length m, v)].
Proof. unfold iter. rewrite imap_app. simpl. by rewrite Nat.add_0_r. Qed.

Lemma NoDup_iter m : NoDup (iter m).
Proof.
  apply (NoDup_fmap_1 fst).
  assert ((iter m).*1 = seq 0 (length m)) as ->; [|apply NoDup_seq].
  induction m as [|v m IH] using rev_ind; [done|].
  rewrite iter_snoc, fmap_app, IH, length_app. simpl. by rewrite Nat.add_1_r, seq_S.
Qed.

End facts.
End DenseMap.



(** ** Values and keys: the [ValueNode] trait *)

Class ValueNode : Type := {
  key : Type;
  value : Type;
  key_eq_dec :: EqDecision key;
  key_countable :: Countable key;
  value_eq_dec :: EqDecision value;
  value_countable :: Countable value;
  get_key : value → key;
}.

Abbreviation NodeId := nat (only parsing).
Abbreviation EdgeId := nat (only parsing).
Abbreviation DomainId := nat (only parsing).

(** A [dyn Metadata] object is only ever serialised. *)
Abbreviation Metadata := string (only parsing).

Inductive Strength := Weak | Normal | Strong.

#[export] Program Instance Strength_enum : Enumerated Strength := {|
  variants := [Weak; Normal; Strong];
  discriminant s := match s with Weak => 0 | Normal => 1 | Strong => 2 end;
|}.
Next Obligation. by intros []. Qed.

(** The derived [Ord]: declaration order. *)
Definition Strength_le (a b : Strength) : bool := bool_decide (discriminant a ≤ discriminant b).

(** [std::cmp::max] keeps the second argument on a tie. *)
Definition get_resolved_strength (prev_strength curr_strength : Strength) : Strength :=
  if Strength_le prev_strength curr_strength then curr_strength else prev_strength.

Module Relation.
Inductive t := Positive | Negative.

#[export] Program Instance enum : Enumerated t := {|
  variants := [Positive; Negative];
  discriminant r := match r with Positive => 0 | Negative => 1 end;
|}.
Next Obligation. by intros []. Qed.

(** [impl From<Relation> for bool]. *)
Definition to_bool (r : t) : bool := match r with Positive => true | Negative => false end.
End Relation.
Export (hints) Relation.

Module RelationResolution.
Inductive t := Positive | Negative | Contradiction.

#[export] Program Instance enum : Enumerated t := {|
  variants := [Positive; Negative; Contradiction];
  discriminant r := match r with Positive => 0 | Negative => 1 | Contradiction => 2 end;
|}.
Next Obligation. by intros []. Qed.

(** [impl From<Relation> for RelationResolution]. *)
Definition from_relation (r : Relation.t) : t :=
  match r with Relation.Positive => Positive | Relation.Negative => Negative end.

Definition get_resolved_relation (prev_relation curr_relation : t) : t :=
  if decide (prev_relation ≠ curr_relation) then Contradiction else curr_relation.
End RelationResolution.
Export (hints) RelationResolution.

Record Edge := mkEdge {
  strength : Strength;
  relation : Relation.t;
  pred : NodeId;
  succ : NodeId;
  edge_domain : option DomainId;
}.

#[export] Instance Edge_eq_dec : EqDecision Edge.
Proof. solve_decision. Defined.

(** [DomainIdentifier] is a newtype over [String]. *)
Abbreviation DomainIdentifier := string (only parsing).

Record DomainInfo := mkDomainInfo {
  domain_identifier : DomainIdentifier;
  domain_description : string;
}.

Section graph_types.
Context `{VN : ValueNode}.

Inductive NodeValue : Type :=
| NodeValue_Key (k : key)
| NodeValue_Value (v : value).

#[export] Instance NodeValue_eq_dec : EqDecision NodeValue.
Proof. solve_decision. Defined.

#[export] Instance NodeValue_countable : Countable NodeValue.
Proof.
  refine (inj_countable'
    (λ n, match n with NodeValue_Key k => inl k | NodeValue_Value v => inr v end)
    (λ s, match s with inl k => NodeValue_Key k | inr v => NodeValue_Value v end) _).
  by intros [].
Defined.

Inductive NodeType : Type :=
| AllAggregator
| AnyAggregator
| InAggregator (expected : gset value)
| Value (val : NodeValue).

Record Node := mkNode {
  node_type : NodeType;
  preds : list EdgeId;
  succs : list EdgeId;
}.

(** [Node::new]. *)
Definition new_node (ty : NodeType) : Node := mkNode ty [] [].

Definition push_succ (e : EdgeId) (n : Node) : Node :=
  mkNode (node_type n) (preds n) (succs n ++ [e]).
Definition push_pred (e : EdgeId) (n : Node) : Node :=
  mkNode (node_type n) (preds n ++ [e]) (succs n).

(** ** Errors

    A [Weak] reference to a trace is modelled by the trace it points to; that
    the memo table keeps every trace it hands out alive is a theorem
    of the checker. *)

Inductive AnalysisTrace : Type :=
| Trace_Value (val : NodeValue) (rel : Relation.t)
    (predecessors : option ValueTracePredecessor)
    (info : option string) (metadata : option Metadata)
| Trace_AllAggregation (unsatisfied : list AnalysisTrace)
    (info : option string) (metadata : option Metadata)
| Trace_AnyAggregation (unsatisfied : list AnalysisTrace)
    (info : option string) (metadata : option Metadata)
| Trace_InAggregation (expected : list value) (found : option value) (rel : Relation.t)
    (info : option string) (metadata : option Metadata)
| Trace_Contradiction (rel : RelationResolution.t)
with ValueTracePredecessor : Type :=
| Mandatory (t : AnalysisTrace)
| OneOf (ts : list AnalysisTrace).

Inductive GraphError : Type :=
| EdgeNotFound
| ConflictingEdgeCreated
| CycleDetected
| DomainNotFound
| MalformedGraph (reason : string)
| NodeNotFound
| ValueNodeNotFound (v : value)
| NoInAggregatorValues
| AnalysisError (t : AnalysisTrace).

Definition get_analysis_trace (e : GraphError) : result GraphError AnalysisTrace :=
  match e with
  | AnalysisError trace => Ok trace
  | _ => Err e
  end.

(** ** The finished graph *)

Record ConstraintGraph := mkGraph {
  domain : DenseMap.t DomainInfo;
  domain_identifier_map : gmap DomainIdentifier DomainId;
  nodes : DenseMap.t Node;
  edges : DenseMap.t Edge;
  value_map : gmap NodeValue NodeId;
  node_info : DenseMap.t (option string);
  node_metadata : DenseMap.t (option Metadata);
}.

(** The shape that is serialised. *)
Record ConstraintGraphWire := mkWire {
  wire_domain : DenseMap.t DomainInfo;
  wire_domain_identifier_map : gmap DomainIdentifier DomainId;
  wire_nodes : DenseMap.t Node;
  wire_edges : DenseMap.t Edge;
}.

(** [#[derive(Serialize)]] with the [#[serde(skip)]] fields left out. *)
Definition to_wire (g : ConstraintGraph) : ConstraintGraphWire :=
  mkWire (domain g) (domain_identifier_map g) (nodes g) (edges g).

(** The [filter_map] of [From<ConstraintGraphWire>]. *)
Definition value_entry (p : NodeId * Node) : option (NodeValue * NodeId) :=
  match node_type p.2 with
  | Value v => Some (v, p.1)
  | _ => None
  end.

(** [collect] into a hash map: a later entry replaces an earlier one. *)
Definition collect_map `{Countable A} {B} (l : list (A * B)) : gmap A B :=
  foldl (λ m p, <[p.1 := p.2]> m) ∅ l.

Definition from_wire (w : ConstraintGraphWire) : ConstraintGraph :=
  mkGraph (wire_domain w) (wire_domain_identifier_map w) (wire_nodes w) (wire_edges w)
    (collect_map (omap value_entry (DenseMap.iter (wire_nodes w))))
    DenseMap.new DenseMap.new.

(** ** The context a graph is checked against: the [CheckingContext] trait *)

Record CheckingContext := mkContext {
  check_presence : NodeValue → Strength → bool;
  get_values_by_key : key → option (list value);
}.

(** ** Collecting a map *)

Lemma collect_map_foldl `{Countable A} {B} (l : list (A * B)) (m : gmap A B) k :
  k ∉ l.*1 → foldl (λ m p, <[p.1 := p.2]> m) m l !! k = m !! k.
Proof.
  revert m. induction l as [|[a b] l IH]; simpl; intros m Hk; [done|].
  rewrite IH by set_solver. apply lookup_insert_ne. set_solver.
Qed.

(** With distinct keys the collected map holds exactly the entries. *)
Lemma collect_map_foldl_Some `{Countable A} {B} (l : list (A * B)) (m : gmap A B) k v :
  NoDup l.*1 → (∀ p, p ∈ l → m !! p.1 = None) →
  foldl (λ m p, <[p.1 := p.2]> m) m l !! k = Some v ↔ (k, v) ∈ l ∨ m !! k = Some v.
Proof.
  revert m. induction l as [|[a b] l IH]; simpl; intros m Hnd Hm.
  { set_solver. }
  apply NoDup_cons in Hnd as [Ha Hnd].
  assert (∀ p, p ∈ l → <[a:=b]> m !! p.1 = None) as Hm'.
  { intros p Hp. rewrite lookup_insert_ne; [apply Hm; set_solver|].
    intros ->. apply Ha. apply list_elem_of_fmap. eauto. }
  rewrite (IH _ Hnd Hm'). destruct (decide (a = k)) as [->|Hne].
  - rewrite lookup_insert_eq. pose proof (Hm (k, b) ltac:(set_solver)) as Hk. simpl in Hk.
    rewrite Hk. split.
    + intros [Hin|Heq]; simplify_eq; set_solver.
    + intros [Hin|Heq]; [|done]. apply elem_of_cons in Hin as [Heq|Hin]; simplify_eq; auto.
  - rewrite lookup_insert_ne by done. set_solver.
Qed.

Lemma collect_map_Some `{Countable A} {B} (l : list (A * B)) k v :
  NoDup l.*1 → collect_map l !! k = Some v ↔ (k, v) ∈ l.
Proof.
  intros Hnd. unfold collect_map. rewrite collect_map_foldl_Some; [|done|].
  - rewrite lookup_empty. naive_solver.
  - intros. apply lookup_empty.
Qed.

End graph_types.
