(* ===== verification/GraphBuilder.v ===== *)
(** * Building a constraint graph

    [crates/hyperswitch_constraint_graph/src/builder.rs].  Every builder
    operation is a state transformer that keeps its changes when it fails;
    the invariant [builder_wf] says that the lookup tables agree with the
    vectors they index, that the adjacency lists are exactly the edges of
    each node, and that every 'in' aggregator has values of one key. *)

From S2P Require Import Prelude GraphTypes.

Section builder.
Context `{VN : ValueNode}.

Record ConstraintGraphBuilder := mkBuilder {
  b_domain : DenseMap.t DomainInfo;
  b_nodes : DenseMap.t Node;
  b_edges : DenseMap.t Edge;
  b_domain_identifier_map : gmap DomainIdentifier DomainId;
  b_value_map : gmap NodeValue NodeId;
  b_edges_map : gmap (NodeId * NodeId * option DomainId) EdgeId;
  b_node_info : DenseMap.t (option string);
  b_node_metadata : DenseMap.t (option Metadata);
}.

Inductive DomainIdOrIdentifier :=
| ById (d : DomainId)
| ByIdentifier (i : DomainIdentifier).

Definition builder_new : ConstraintGraphBuilder :=
  mkBuilder DenseMap.new DenseMap.new DenseMap.new ∅ ∅ ∅ DenseMap.new DenseMap.new.

Definition build (b : ConstraintGraphBuilder) : ConstraintGraph :=
  mkGraph (b_domain b) (b_domain_identifier_map b) (b_nodes b) (b_edges b)
    (b_value_map b) (b_node_info b) (b_node_metadata b).

Definition retrieve_domain_from_identifier (b : ConstraintGraphBuilder)
    (domain_ident : DomainIdentifier) : result GraphError DomainId :=
  ok_or DomainNotFound (b_domain_identifier_map b !! domain_ident).

Definition ensure_node_exists (b : ConstraintGraphBuilder) (id : NodeId) : result GraphError unit :=
  if DenseMap.contains_key (b_nodes b) id then Ok tt else Err NodeNotFound.

Definition ensure_domain_exists (b : ConstraintGraphBuilder) (id : DomainId) : result GraphError unit :=
  if DenseMap.contains_key (b_domain b) id then Ok tt else Err DomainNotFound.

Definition make_domain (domain_ident : string) (description : string) :
    sr ConstraintGraphBuilder GraphError DomainId := λ b,
  match b_domain_identifier_map b !! domain_ident with
  | Some domain_id => (Ok domain_id, b)
  | None =>
      let '(domain_id, dom) := DenseMap.push (b_domain b) (mkDomainInfo domain_ident description) in
      (Ok domain_id,
       mkBuilder dom (b_nodes b) (b_edges b)
         (<[domain_ident := domain_id]> (b_domain_identifier_map b))
         (b_value_map b) (b_edges_map b) (b_node_info b) (b_node_metadata b))
  end.

(** The three pushes that create a node: the node, its info, its metadata. *)
Definition push_node (ty : NodeType) (info : option string) (metadata : option Metadata)
    (b : ConstraintGraphBuilder) : NodeId * ConstraintGraphBuilder :=
  let '(node_id, ns) := DenseMap.push (b_nodes b) (new_node ty) in
  (node_id,
   mkBuilder (b_domain b) ns (b_edges b) (b_domain_identifier_map b) (b_value_map b)
     (b_edges_map b) (DenseMap.push (b_node_info b) info).2
     (DenseMap.push (b_node_metadata b) metadata).2).

Definition record_value (v : NodeValue) (id : NodeId) (b : ConstraintGraphBuilder) :
    ConstraintGraphBuilder :=
  mkBuilder (b_domain b) (b_nodes b) (b_edges b) (b_domain_identifier_map b)
    (<[v := id]> (b_value_map b)) (b_edges_map b) (b_node_info b) (b_node_metadata b).

Definition make_value_node (v : NodeValue) (info : option string) (metadata : option Metadata) :
    sr ConstraintGraphBuilder GraphError NodeId := λ b,
  match b_value_map b !! v with
  | Some node_id => (Ok node_id, b)
  | None =>
      let '(node_id, b') := push_node (Value v) info metadata b in
      (Ok node_id, record_value v node_id b')
  end.

(** The closure of [make_edge] that resolves the domain argument. *)
Definition resolve_domain (b : ConstraintGraphBuilder) (d : DomainIdOrIdentifier) :
    result GraphError DomainId :=
  match d with
  | ByIdentifier ident => retrieve_domain_from_identifier b ident
  | ById domain_id => _ ← ensure_domain_exists b domain_id; Ok domain_id
  end.

(** The new edge of [make_edge]: pushed, recorded, and linked at both ends. *)
Definition push_edge (e : Edge) (b : ConstraintGraphBuilder) : EdgeId * ConstraintGraphBuilder :=
  let '(edge_id, es) := DenseMap.push (b_edges b) e in
  let ns1 := DenseMap.update (b_nodes b) (pred e) (push_succ edge_id) in
  let ns2 := DenseMap.update ns1 (succ e) (push_pred edge_id) in
  (edge_id,
   mkBuilder (b_domain b) ns2 es (b_domain_identifier_map b) (b_value_map b)
     (<[(pred e, succ e, edge_domain e) := edge_id]> (b_edges_map b))
     (b_node_info b) (b_node_metadata b)).

Definition make_edge (pred_id succ_id : NodeId) (str : Strength) (rel : Relation.t)
    (dom : option DomainIdOrIdentifier) : sr ConstraintGraphBuilder GraphError EdgeId := λ b,
  match (_ ← ensure_node_exists b pred_id;
         _ ← ensure_node_exists b succ_id;
         transpose (resolve_domain b <$> dom)) with
  | Err e => (Err e, b)
  | Ok domain_id =>
      match b_edges_map b !! (pred_id, succ_id, domain_id) ≫= λ edge_id,
            edge ← DenseMap.get (b_edges b) edge_id; Some (edge_id, edge) with
      | None =>
          let '(edge_id, b') := push_edge (mkEdge str rel pred_id succ_id domain_id) b in
          (Ok edge_id, b')
      | Some (edge_id, edge) =>
          if decide (strength edge = str ∧ relation edge = rel)
          then (Ok edge_id, b)
          else (Err ConflictingEdgeCreated, b)
      end
  end.

(** The body [make_all_aggregator] and [make_any_aggregator] share. *)
Definition make_aggregator (ty : NodeType) (ns : list (NodeId * Relation.t * Strength))
    (info : option string) (metadata : option Metadata) (domain_id : option DomainId) :
    sr ConstraintGraphBuilder GraphError NodeId :=
  (sr_for (λ p b, (ensure_node_exists b p.1.1, b)) ns ;;;
   aggregator_id <- (λ b, let '(id, b') := push_node ty info metadata b in (Ok id, b')) ;;
   sr_for (λ p, make_edge p.1.1 aggregator_id p.2 p.1.2 (ById <$> domain_id) ;;; sr_ret tt) ns ;;;
   sr_ret aggregator_id)%sr.

Definition make_all_aggregator := make_aggregator AllAggregator.
Definition make_any_aggregator := make_aggregator AnyAggregator.

Definition make_in_aggregator (vs : list value) (info : option string)
    (metadata : option Metadata) : sr ConstraintGraphBuilder GraphError NodeId := λ b,
  match vs with
  | [] => (Err NoInAggregatorValues, b)
  | v0 :: _ =>
      if any (λ v, bool_decide (get_key v ≠ get_key v0)) vs
      then (Err (MalformedGraph "Values for 'In' aggregator not of same key"), b)
      else let '(id, b') := push_node (InAggregator (list_to_set vs)) info metadata b in (Ok id, b')
  end.

(** ** The invariant *)

(** The ids of the edges that satisfy [p], in creation order. *)
Definition edge_ids (p : Edge → bool) (es : DenseMap.t Edge) : list EdgeId :=
  omap (λ x : EdgeId * Edge, if p x.2 then Some x.1 else None) (DenseMap.iter es).

Definition in_values_ok (expected : gset value) : Prop :=
  expected ≠ ∅ ∧ ∀ v w, v ∈ expected → w ∈ expected → get_key v = get_key w.

Definition node_ok (es : DenseMap.t Edge) (n : NodeId) (nd : Node) : Prop :=
  preds nd = edge_ids (λ e, bool_decide (succ e = n)) es ∧
  succs nd = edge_ids (λ e, bool_decide (pred e = n)) es ∧
  match node_type nd with InAggregator expected => in_values_ok expected | _ => True end.

Definition edge_ok (nnodes ndomains : nat) (e : Edge) : Prop :=
  pred e < nnodes ∧ succ e < nnodes ∧
  match edge_domain e with Some d => d < ndomains | None => True end.

Definition edge_triple (e : Edge) : NodeId * NodeId * option DomainId :=
  (pred e, succ e, edge_domain e).

Record graph_wf (g : ConstraintGraph) : Prop := {
  wf_nodes : ∀ n nd, nodes g !! n = Some nd → node_ok (edges g) n nd;
  wf_edges : ∀ i e, edges g !! i = Some e → edge_ok (length (nodes g)) (length (domain g)) e;
  wf_edges_unique : ∀ i j e f, edges g !! i = Some e → edges g !! j = Some f →
    edge_triple e = edge_triple f → i = j;
  wf_value_map : ∀ v n, value_map g !! v = Some n ↔
    ∃ nd, nodes g !! n = Some nd ∧ node_type nd = Value v;
  wf_domain_map : ∀ i d, domain_identifier_map g !! i = Some d ↔
    ∃ info, domain g !! d = Some info ∧ domain_identifier info = i;
}.

Definition edges_map_ok (b : ConstraintGraphBuilder) : Prop :=
  ∀ t i, b_edges_map b !! t = Some i ↔ ∃ e, b_edges b !! i = Some e ∧ edge_triple e = t.

(** One info and one metadata entry per node. *)
Definition info_ok (b : ConstraintGraphBuilder) : Prop :=
  length (b_node_info b) = length (b_nodes b) ∧ length (b_node_metadata b) = length (b_nodes b).

Definition builder_wf (b : ConstraintGraphBuilder) : Prop :=
  graph_wf (build b) ∧ edges_map_ok b ∧ info_ok b.

(** ** Adjacency lists *)

Lemma edge_ids_snoc p es e :
  edge_ids p (es ++ [e]) = edge_ids p es ++ (if p e then [length es] else []).
Proof.
  unfold edge_ids. rewrite DenseMap.iter_snoc, omap_app. simpl. by destruct (p e).
Qed.

Lemma elem_of_edge_ids p es i :
  i ∈ edge_ids p es ↔ ∃ e, es !! i = Some e ∧ p e = true.
Proof.
  unfold edge_ids. rewrite list_elem_of_omap. split.
  - intros ([j e] & Hin & Hp). apply DenseMap.elem_of_iter in Hin. simpl in *.
    destruct (p e) eqn:?; simplify_eq. eauto.
  - intros (e & He & Hp). exists (i, e). rewrite DenseMap.elem_of_iter. simpl.
    by rewrite Hp.
Qed.

Lemma edge_ids_none p es :
  (∀ i e, es !! i = Some e → p e = false) → edge_ids p es = [].
Proof.
  intros Hp. destruct (edge_ids p es) as [|i l] eqn:Hl; [done|].
  assert (i ∈ edge_ids p es) as Hi by (rewrite Hl; set_solver).
  apply elem_of_edge_ids in Hi as (e & He & Hpe). apply Hp in He. congruence.
Qed.

Lemma new_node_ok es n ty nd0 :
  (∀ i e, es !! i = Some e → edge_ok n nd0 e) →
  match ty with InAggregator expected => in_values_ok expected | _ => True end →
  node_ok es n (new_node ty).
Proof.
  intros Hes Hty. repeat split; simpl; [| |done].
  - symmetry. apply edge_ids_none. intros i e He.
    apply Hes in He as (_ & ? & _). apply bool_decide_eq_false. lia.
  - symmetry. apply edge_ids_none. intros i e He.
    apply Hes in He as (? & _ & _). apply bool_decide_eq_false. lia.
Qed.

Lemma edge_ok_mono n n' d d' e : edge_ok n d e → n ≤ n' → d ≤ d' → edge_ok n' d' e.
Proof. unfold edge_ok. destruct (edge_domain e); intuition lia. Qed.

(** ** Preservation *)

Lemma builder_new_wf : builder_wf builder_new.
Proof.
  split; [constructor|split]; unfold edges_map_ok; simpl; try done.
  1,2: intros ??; rewrite lookup_empty, lookup_nil; naive_solver.
  intros t i. rewrite lookup_empty, lookup_nil. naive_solver.
Qed.

(** A pushed node keeps the graph well formed once the value table knows
    about it. *)
Lemma push_node_wf b ty info metadata vm :
  builder_wf b →
  match ty with InAggregator expected => in_values_ok expected | _ => True end →
  (∀ v n, vm !! v = Some n ↔
    b_value_map b !! v = Some n ∨ (n = length (b_nodes b) ∧ ty = Value v)) →
  builder_wf (mkBuilder (b_domain b) (b_nodes b ++ [new_node ty]) (b_edges b)
    (b_domain_identifier_map b) vm (b_edges_map b)
    (b_node_info b ++ [info]) (b_node_metadata b ++ [metadata])).
Proof.
  intros (Hg & He & [Hi Hm]) Hty Hvm.
  split; [|split; [done|split; simpl; rewrite !length_app; simpl; lia]].
  destruct Hg as [Hn Hed Hu Hv Hd]; simpl in *.
  constructor; simpl; try done.
  - intros n nd [Hnd|[-> ->]]%DenseMap.get_push_inv; [by apply Hn|].
    eapply new_node_ok; eauto.
  - intros i e Hie. eapply edge_ok_mono; [by eapply Hed| |done].
    rewrite length_app. lia.
  - intros v n. rewrite Hvm, Hv. split.
    + intros [(nd & Hnd & Hty')|[-> ->]].
      * exists nd. split; [|done]. by apply lookup_app_l_Some.
      * exists (new_node (Value v)). split; [|done]. by apply list_lookup_middle.
    + intros (nd & [Hnd|[-> ->]]%DenseMap.get_push_inv & Hty'); [left; eauto|right; eauto].
Qed.

Lemma push_node_plain_wf b ty info metadata :
  builder_wf b →
  match ty with InAggregator expected => in_values_ok expected | Value _ => False | _ => True end →
  builder_wf (push_node ty info metadata b).2.
Proof.
  intros Hwf Hty. apply push_node_wf; [done|by destruct ty|].
  intros v n. split; [by left|]. intros [?|[-> ->]]; [done|]. by simpl in Hty.
Qed.

Lemma make_domain_wf ident descr : sr_preserves builder_wf (make_domain ident descr).
Proof.
  apply sr_preserves_intro. intros b (Hg & He & Hi). unfold make_domain.
  destruct (b_domain_identifier_map b !! ident) eqn:Hid; simpl; [by split|].
  split; [|by split]. destruct Hg as [Hn Hed Hu Hv Hd]; simpl in *.
  constructor; simpl; try done.
  - intros i e Hie. eapply edge_ok_mono; [by eapply Hed|done|]. rewrite length_app. lia.
  - intros i d. destruct (decide (i = ident)) as [->|Hne].
    + rewrite lookup_insert_eq. split.
      * intros [= <-]. eexists. split; [by apply list_lookup_middle|done].
      * intros (info & [Hin|[-> ->]]%DenseMap.get_push_inv & Heq); [|done].
        rewrite (proj2 (Hd ident d)) in Hid by eauto. done.
    + rewrite lookup_insert_ne by done. rewrite Hd. split.
      * intros (info & Hin & Heq). exists info. split; [|done]. by apply lookup_app_l_Some.
      * intros (info & [Hin|[-> ->]]%DenseMap.get_push_inv & Heq); [by eauto|].
        simpl in Heq. congruence.
Qed.

Lemma make_value_node_wf v info metadata :
  sr_preserves builder_wf (make_value_node v info metadata).
Proof.
  apply sr_preserves_intro. intros b Hwf. unfold make_value_node.
  destruct (b_value_map b !! v) eqn:Hv; simpl; [done|].
  refine (push_node_wf b (Value v) info metadata _ Hwf I _). intros w n.
  destruct (decide (v = w)) as [->|Hne].
  - rewrite lookup_insert_eq. rewrite Hv. split; [intros [= <-]; by right|].
    intros [?|[-> _]]; done.
  - rewrite lookup_insert_ne by done. split; [by left|].
    intros [?|[_ ?]]; [done|congruence].
Qed.

(** What a new edge does to a node. *)
Definition link (e : Edge) (id : EdgeId) (n : NodeId) (nd : Node) : Node :=
  mkNode (node_type nd)
    (preds nd ++ (if bool_decide (succ e = n) then [id] else []))
    (succs nd ++ (if bool_decide (pred e = n) then [id] else [])).

Lemma push_edge_lookup e b n :
  b_nodes (push_edge e b).2 !! n = link e (length (b_edges b)) n <$> b_nodes b !! n.
Proof.
  unfold push_edge, DenseMap.update, link; simpl.
  rewrite !list_lookup_alter. unfold push_pred, push_succ.
  destruct (b_nodes b !! n) as [[ty ps ss]|] eqn:E;
    repeat case_decide; simplify_eq; rewrite ?E; simpl; try done;
    repeat case_bool_decide; rewrite ?app_nil_r; try done;
    by match goal with H : pred _ = succ _ |- _ => rewrite H, E end.
Qed.

Lemma push_edge_length e b : length (b_nodes (push_edge e b).2) = length (b_nodes b).
Proof. unfold push_edge, DenseMap.update; simpl. by rewrite !length_alter. Qed.

Lemma push_edge_wf e b :
  builder_wf b →
  edge_ok (length (b_nodes b)) (length (b_domain b)) e →
  b_edges_map b !! edge_triple e = None →
  builder_wf (push_edge e b).2.
Proof.
  intros (Hg & He & [Hi Hm]) Hok Hfresh.
  assert (∀ i f, b_edges b !! i = Some f → edge_triple f ≠ edge_triple e) as Hnew.
  { intros i f Hf Heq. rewrite (proj2 (He _ i)) in Hfresh by eauto. done. }
  destruct Hg as [Hn Hed Hu Hv Hd]; simpl in * |-.
  split; [constructor|split; [|split]]; try done.
  - intros n nd. cbn [build nodes edges]. rewrite push_edge_lookup.
    intros (nd0 & Hnd0 & ->)%fmap_Some. destruct (Hn _ _ Hnd0) as (Hp & Hs & Hty).
    unfold node_ok, link; simpl. rewrite !edge_ids_snoc, Hp, Hs. done.
  - intros i f. cbn [build nodes edges domain]. rewrite push_edge_length.
    intros [Hf|[-> ->]]%DenseMap.get_push_inv; [by eapply Hed|done].
  - intros i j f f' Hf Hf' Heq. cbn [build edges] in *.
    apply DenseMap.get_push_inv in Hf as [Hf|[-> ->]], Hf' as [Hf'|[-> ->]]; eauto.
    + exfalso. by eapply Hnew.
    + exfalso. by eapply Hnew.
  - intros v n. cbn [build nodes value_map]. rewrite push_edge_lookup. simpl. rewrite Hv. split.
    + intros (nd & Hnd & Hty). rewrite Hnd. simpl. eauto.
    + intros (nd & (nd0 & Hnd0 & ->)%fmap_Some & Hty). eauto.
  - intros t i. simpl. destruct (decide (t = edge_triple e)) as [->|Hne].
    + rewrite lookup_insert_eq. split.
      * intros [= <-]. exists e. split; [by apply list_lookup_middle|done].
      * intros (f & [Hf|[-> ->]]%DenseMap.get_push_inv & Heq); [|done].
        exfalso. by eapply Hnew.
    + rewrite lookup_insert_ne by done. rewrite (He t i). split.
      * intros (f & Hf & Heq). exists f. split; [by apply lookup_app_l_Some|done].
      * intros (f & [Hf|[-> ->]]%DenseMap.get_push_inv & Heq); [eauto|congruence].
  - rewrite push_edge_length. exact Hi.
  - rewrite push_edge_length. exact Hm.
Qed.

Lemma ensure_node_exists_ok b n u : ensure_node_exists b n = Ok u → n < length (b_nodes b).
Proof.
  unfold ensure_node_exists, DenseMap.contains_key. case_bool_decide; naive_solver.
Qed.

Lemma resolve_domain_ok b dom d :
  builder_wf b → transpose (resolve_domain b <$> dom) = Ok d →
  match d with Some d => d < length (b_domain b) | None => True end.
Proof.
  intros [[_ _ _ _ Hd] _] Ht. destruct dom as [[i|i]|]; simpl in *; simplify_eq; [| |done].
  - unfold ensure_domain_exists, DenseMap.contains_key in Ht.
    case_bool_decide; simpl in Ht; by simplify_eq.
  - unfold retrieve_domain_from_identifier in Ht.
    destruct (b_domain_identifier_map b !! i) eqn:E; simpl in Ht; simplify_eq.
    apply Hd in E as (info & Hinfo & _). by eapply lookup_lt_Some.
Qed.

Lemma make_edge_wf p s str rel dom : sr_preserves builder_wf (make_edge p s str rel dom).
Proof.
  apply sr_preserves_intro. intros b Hwf. unfold make_edge.
  destruct (ensure_node_exists b p) eqn:Hp; simpl; [|done].
  destruct (ensure_node_exists b s) eqn:Hs; simpl; [|done].
  destruct (transpose _) as [d|e] eqn:Hd; simpl; [|done].
  destruct (b_edges_map b !! (p, s, d)) as [id|] eqn:Hm; simpl.
  - unfold DenseMap.get. destruct (b_edges b !! id) eqn:Hid; simpl.
    + by case_decide.
    + destruct Hwf as (_ & He & _). apply He in Hm as (e & He' & _). congruence.
  - apply (push_edge_wf (mkEdge str rel p s d)); [done| |done].
    repeat split; simpl; eauto using ensure_node_exists_ok.
    by eapply resolve_domain_ok.
Qed.

Lemma make_aggregator_wf ty ns info metadata d :
  match ty with AllAggregator | AnyAggregator => True | _ => False end →
  sr_preserves builder_wf (make_aggregator ty ns info metadata d).
Proof.
  intros Hty. unfold make_aggregator.
  apply sr_preserves_bind; [apply sr_preserves_for; intros p; by apply sr_preserves_intro|]. intros _.
  apply sr_preserves_bind.
  { apply sr_preserves_intro. intros b Hb. apply push_node_plain_wf; [done|by destruct ty]. }
  intros id. auto using make_edge_wf with sr.
Qed.

Lemma make_in_aggregator_wf vs info metadata :
  sr_preserves builder_wf (make_in_aggregator vs info metadata).
Proof.
  apply sr_preserves_intro. intros b Hb. unfold make_in_aggregator. destruct vs as [|v0 vs]; [done|].
  destruct (any _ (v0 :: vs)) eqn:Hany; [done|].
  apply push_node_plain_wf; [done|]. split; [set_solver|].
  assert (∀ v, v ∈ v0 :: vs → get_key v = get_key v0) as Hk.
  { intros v Hv. destruct (decide (get_key v = get_key v0)) as [|Hne]; [done|].
    assert (any (λ v, bool_decide (get_key v ≠ get_key v0)) (v0 :: vs) = true) as Ht.
    { apply any_true. exists v. split; [done|]. by apply bool_decide_eq_true. }
    congruence. }
  intros v w Hv%elem_of_list_to_set Hw%elem_of_list_to_set. by rewrite (Hk v Hv), (Hk w Hw).
Qed.

(** ** The wire format *)

Lemma value_entry_Some x v n :
  value_entry x = Some (v, n) ↔ x.1 = n ∧ node_type x.2 = Value v.
Proof. unfold value_entry. destruct x as [i nd]; simpl. destruct (node_type nd); naive_solver. Qed.

(** The rebuilt value table is the table the builder kept. *)
Lemma value_map_rebuilt g :
  graph_wf g → collect_map (omap value_entry (DenseMap.iter (nodes g))) = value_map g.
Proof.
  intros Hwf. apply map_eq. intros v. apply option_eq. intros n.
  assert (∀ v n, (v, n) ∈ omap value_entry (DenseMap.iter (nodes g)) ↔ value_map g !! v = Some n) as Hin.
  { intros v' n'. rewrite (wf_value_map _ Hwf), list_elem_of_omap. split.
    - intros ([i nd] & Hi & [<- Hty]%value_entry_Some). exists nd. by apply DenseMap.elem_of_iter in Hi.
    - intros (nd & Hnd & Hty). exists (n', nd). by rewrite value_entry_Some, DenseMap.elem_of_iter. }
  rewrite collect_map_Some; [apply Hin|].
  apply NoDup_fmap_fst.
  - intros v' n1 n2 H1%Hin H2%Hin. congruence.
  - apply NoDup_omap; [|apply DenseMap.NoDup_iter].
    intros [i1 nd1] [i2 nd2] [v' n'] H1 H2 [<- _]%value_entry_Some [Heq _]%value_entry_Some.
    simpl in Heq. subst. apply DenseMap.elem_of_iter in H1, H2. simpl in *. congruence.
Qed.

Lemma from_wire_wf g : graph_wf g → graph_wf (from_wire (to_wire g)).
Proof.
  intros Hwf. destruct Hwf as [Hn He Hu Hv Hd] eqn:E. constructor; simpl; try done.
  rewrite value_map_rebuilt by done. exact Hv.
Qed.

(** ** Reachable builders *)

(** One call of the public interface of the builder, whatever it returns. *)
Inductive builder_step : ConstraintGraphBuilder → ConstraintGraphBuilder → Prop :=
| step_domain b ident descr : builder_step b (make_domain ident descr b).2
| step_value b v info metadata : builder_step b (make_value_node v info metadata b).2
| step_edge b p s str rel dom : builder_step b (make_edge p s str rel dom b).2
| step_all b ns info metadata d : builder_step b (make_all_aggregator ns info metadata d b).2
| step_any b ns info metadata d : builder_step b (make_any_aggregator ns info metadata d b).2
| step_in b vs info metadata : builder_step b (make_in_aggregator vs info metadata b).2.

Definition reachable (b : ConstraintGraphBuilder) : Prop := rtc builder_step builder_new b.

Lemma builder_step_wf b b' : builder_step b b' → builder_wf b → builder_wf b'.
Proof.
  destruct 1; apply sr_preserves_elim; auto using make_domain_wf, make_value_node_wf, make_edge_wf,
    make_in_aggregator_wf; by apply make_aggregator_wf.
Qed.

End builder.
