(* ===== verification/GraphCheck.v ===== *)
(** * Checking a node of the constraint graph

    [crates/hyperswitch_constraint_graph/src/graph.rs]: [check_node],
    [check_node_inner] and the four validators it dispatches to.  The memo
    table and the cycle map are the [&mut] arguments of the code; the
    recursion of [check_node_inner] is not structural (it follows edges), so
    the model takes fuel and returns [None] when it runs out.  One more unit of
    fuel than there are nodes suffices (GraphCheckFacts). *)

From S2P Require Import Prelude GraphTypes GraphBuilder.

Section check.
Context `{VN : ValueNode}.

Abbreviation memo_key := (NodeId * Relation.t * Strength)%type (only parsing).

(** [Memoization] and [CycleCheck]. *)
Record check_state := mkState {
  memo : gmap (NodeId * Relation.t * Strength) (result AnalysisTrace unit);
  cycle_map : gmap NodeId (Strength * RelationResolution.t);
}.

Definition empty_state : check_state := mkState ∅ ∅.

Definition memo_insert (k : memo_key) (r : result AnalysisTrace unit) (st : check_state) :
    check_state := mkState (<[k := r]> (memo st)) (cycle_map st).

Definition cycle_insert (n : NodeId) (v : Strength * RelationResolution.t) (st : check_state) :
    check_state := mkState (memo st) (<[n := v]> (cycle_map st)).

Definition cycle_remove (n : NodeId) (st : check_state) : check_state :=
  mkState (memo st) (delete n (cycle_map st)).

(** The outcome of a check with the state it leaves. *)
Abbreviation outcome := (result GraphError unit * check_state)%type (only parsing).

(** Record an analysis error in the memo table and return it. *)
Definition fail_with (k : memo_key) (t : AnalysisTrace) (st : check_state) : outcome :=
  (Err (AnalysisError t), memo_insert k (Err t) st).

Definition succeed (k : memo_key) (st : check_state) : outcome :=
  (Ok tt, memo_insert k (Ok tt) st).

Section graph.
Variable g : ConstraintGraph.
Variable ctx : CheckingContext.
Variable domains : option (list DomainId).

Definition info_of (n : NodeId) : option string := mjoin (DenseMap.get (node_info g) n).
Definition metadata_of (n : NodeId) : option Metadata := mjoin (DenseMap.get (node_metadata g) n).

(** The test of [get_predecessor_edges_by_domain] on one edge. *)
Definition edge_in_domains (e : Edge) : bool :=
  match edge_domain e, domains with
  | Some d, Some ds => bool_decide (d ∈ ds)
  | Some _, None => false
  | None, _ => true
  end.

Definition get_predecessor_edges_by_domain (n : NodeId) : result GraphError (list Edge) :=
  node ← ok_or NodeNotFound (DenseMap.get (nodes g) n);
  es ← try_collect (λ i, ok_or EdgeNotFound (DenseMap.get (edges g) i)) (preds node);
  Ok (List.filter edge_in_domains es).

Definition context_analysis (n : NodeId) (rel : Relation.t) (str : Strength)
    (val : NodeValue) (st : check_state) : outcome :=
  let in_context := check_presence ctx val str in
  let relation_bool := Relation.to_bool rel in
  if negb (Bool.eqb in_context relation_bool) then
    fail_with (n, rel, str) (Trace_Value val rel None (info_of n) (metadata_of n)) st
  else if negb relation_bool then succeed (n, rel, str) st
  else (Ok tt, st).

Definition validate_in_aggregator (n : NodeId) (rel : Relation.t) (str : Strength)
    (expected : gset value) (st : check_state) : outcome :=
  match elements expected with
  | [] => (Err (MalformedGraph "An OnlyIn aggregator node must have at least one expected value"), st)
  | v0 :: _ =>
      match get_values_by_key ctx (get_key v0) with
      | None =>
          match str with
          | Weak => succeed (n, rel, str) st
          | _ => fail_with (n, rel, str)
                   (Trace_InAggregation (elements expected) None rel (info_of n) (metadata_of n)) st
          end
      | Some vals =>
          match List.find (λ v, negb (Bool.eqb (bool_decide (v ∈ expected)) (Relation.to_bool rel))) vals with
          | Some v => fail_with (n, rel, str)
                        (Trace_InAggregation (elements expected) (Some v) rel (info_of n) (metadata_of n)) st
          | None => succeed (n, rel, str) st
          end
      end
  end.

(** The validators that follow edges are written against the recursive call. *)
Variable check : NodeId → Relation.t → Strength → check_state → option outcome.

(** The loop over the predecessor edges that the two aggregators share: the
    traces of the unsatisfied ones, and whether one was satisfied. *)
Fixpoint aggregator_loop (n : NodeId) (rel : Relation.t) (str : Strength) (es : list Edge)
    (unsatisfied : list AnalysisTrace) (matched_one : bool) (st : check_state) :
    option (result GraphError (list AnalysisTrace * bool) * check_state) :=
  match es with
  | [] => Some (Ok (unsatisfied, matched_one), st)
  | e :: es =>
      let st := cycle_insert n (str, RelationResolution.from_relation rel) st in
      '(res, st) ← check (pred e) (relation e) (strength e) st;
      match (match res with
             | Ok _ => Ok (unsatisfied, true)
             | Err err => t ← get_analysis_trace err; Ok (unsatisfied ++ [t], matched_one)
             end) with
      | Err err => Some (Err err, st)
      | Ok (unsatisfied, matched_one) =>
          match cycle_map st !! n with
          | Some (_, RelationResolution.Contradiction) =>
              let t := Trace_Contradiction RelationResolution.Contradiction in
              Some (Err (AnalysisError t), memo_insert (n, rel, str) (Err t) (cycle_remove n st))
          | _ => aggregator_loop n rel str es unsatisfied matched_one (cycle_remove n st)
          end
      end
  end.

Definition validate_all_aggregator (n : NodeId) (rel : Relation.t) (str : Strength)
    (st : check_state) : option outcome :=
  match get_predecessor_edges_by_domain n with
  | Err err => Some (Err err, st)
  | Ok es =>
      '(res, st) ← aggregator_loop n rel str es [] false st;
      match res with
      | Err err => Some (Err err, st)
      | Ok ([], _) => Some (succeed (n, rel, str) st)
      | Ok (unsatisfied, _) =>
          Some (fail_with (n, rel, str)
            (Trace_AllAggregation unsatisfied (info_of n) (metadata_of n)) st)
      end
  end.

Definition validate_any_aggregator (n : NodeId) (node : Node) (rel : Relation.t)
    (str : Strength) (st : check_state) : option outcome :=
  match get_predecessor_edges_by_domain n with
  | Err err => Some (Err err, st)
  | Ok es =>
      '(res, st) ← aggregator_loop n rel str es [] false st;
      match res with
      | Err err => Some (Err err, st)
      | Ok (unsatisfied, matched_one) =>
          if matched_one || bool_decide (preds node = [])
          then Some (succeed (n, rel, str) st)
          else Some (fail_with (n, rel, str)
                 (Trace_AnyAggregation unsatisfied (info_of n) (metadata_of n)) st)
      end
  end.

(** What the value validator does with the cycle entry it takes back. *)
Definition resolve_cycle (n : NodeId) (rel : Relation.t) (str : Strength) (val : NodeValue)
    (st : check_state) : outcome :=
  match cycle_map st !! n with
  | Some (resolved_strength, resolved_relation) =>
      let st := cycle_remove n st in
      match resolved_relation with
      | RelationResolution.Contradiction =>
          fail_with (n, rel, str) (Trace_Contradiction RelationResolution.Contradiction) st
      | _ =>
          if decide (resolved_strength ≠ str)
          then context_analysis n rel resolved_strength val st
          else (Ok tt, st)
      end
  | None => (Ok tt, st)
  end.

Fixpoint value_loop (n : NodeId) (rel : Relation.t) (str : Strength) (val : NodeValue)
    (es : list Edge) (errors : list AnalysisTrace) (matched_one : bool) (st : check_state) :
    option (result GraphError (list AnalysisTrace * bool) * check_state) :=
  match es with
  | [] => Some (Ok (errors, matched_one), st)
  | e :: es =>
      let st := cycle_insert n (str, RelationResolution.from_relation rel) st in
      '(res, st) ← check (pred e) (relation e) (strength e) st;
      match resolve_cycle n rel str val st with
      | (Err err, st) => Some (Err err, st)
      | (Ok _, st) =>
          match strength e, res with
          | _, Ok _ => value_loop n rel str val es errors true st
          | Strong, Err trace =>
              match get_analysis_trace trace with
              | Err err => Some (Err err, st)
              | Ok t =>
                  let t := Trace_Value val rel (Some (Mandatory t)) (info_of n) (metadata_of n) in
                  Some (Err (AnalysisError t), memo_insert (n, rel, str) (Err t) st)
              end
          | _, Err trace =>
              match get_analysis_trace trace with
              | Err err => Some (Err err, st)
              | Ok t => value_loop n rel str val es (errors ++ [t]) matched_one st
              end
          end
      end
  end.

Definition validate_value_node (n : NodeId) (node : Node) (rel : Relation.t) (str : Strength)
    (val : NodeValue) (st : check_state) : option outcome :=
  match context_analysis n rel str val st with
  | (Err err, st) => Some (Err err, st)
  | (Ok _, st) =>
      match get_predecessor_edges_by_domain n with
      | Err err => Some (Err err, st)
      | Ok es =>
          '(res, st) ← value_loop n rel str val es [] false st;
          match res with
          | Err err => Some (Err err, st)
          | Ok (errors, matched_one) =>
              if matched_one || bool_decide (preds node = [])
              then Some (succeed (n, rel, str) st)
              else Some (fail_with (n, rel, str)
                     (Trace_Value val rel (Some (OneOf errors)) (info_of n) (metadata_of n)) st)
          end
      end
  end.

(** The dispatch of [check_node_inner] on the node type. *)
Definition validate_node (n : NodeId) (node : Node) (rel : Relation.t) (str : Strength)
    (st : check_state) : option outcome :=
  match node_type node with
  | AllAggregator => validate_all_aggregator n rel str st
  | AnyAggregator => validate_any_aggregator n node rel str st
  | InAggregator expected => Some (validate_in_aggregator n rel str expected st)
  | Value val => validate_value_node n node rel str val st
  end.

(** The body of [check_node_inner]. *)
Definition check_node_body (n : NodeId) (rel : Relation.t) (str : Strength)
    (st : check_state) : option outcome :=
  match DenseMap.get (nodes g) n with
  | None => Some (Err NodeNotFound, st)
  | Some node =>
      match memo st !! (n, rel, str) with
      | Some already_memo => Some (map_err AnalysisError already_memo, st)
      | None =>
          match cycle_map st !! n with
          | Some (initial_strength, initial_relation) =>
              let strength_relation := get_resolved_strength initial_strength str in
              let relation_resolve := RelationResolution.get_resolved_relation initial_relation
                                        (RelationResolution.from_relation rel) in
              Some (Ok tt, cycle_insert n (strength_relation, relation_resolve) st)
          | None => validate_node n node rel str st
          end
      end
  end.

End graph.

Fixpoint check_node_inner (fuel : nat) (g : ConstraintGraph) (ctx : CheckingContext)
    (domains : option (list DomainId)) (n : NodeId) (rel : Relation.t) (str : Strength)
    (st : check_state) : option outcome :=
  match fuel with
  | 0 => None
  | S fuel => check_node_body g ctx domains (check_node_inner fuel g ctx domains) n rel str st
  end.

(** The domain names of a request, as ids. *)
Definition resolve_domains (g : ConstraintGraph) (domains : option (list string)) :
    result GraphError (option (list DomainId)) :=
  transpose ((λ idents, try_collect
    (λ ident, ok_or DomainNotFound (domain_identifier_map g !! ident)) idents) <$> domains).

(** [check_node]: the domain names are resolved first. *)
Definition check_node (fuel : nat) (g : ConstraintGraph) (ctx : CheckingContext)
    (n : NodeId) (rel : Relation.t) (str : Strength) (domains : option (list string))
    (st : check_state) : option outcome :=
  match resolve_domains g domains with
  | Err err => Some (Err err, st)
  | Ok ds => check_node_inner fuel g ctx ds n rel str st
  end.

End check.
