(* ===== verification/GraphCheckFacts.v ===== *)
(** * Termination and memory safety of the checker

    Lemmas on [check_node_inner]: every node on the recursion stack is in the
    cycle map, so the number of nodes outside it bounds the depth; more fuel
    never changes an answer; and an analysis error that is returned is held by
    the memo table, so the weak reference in it can be upgraded. *)

From S2P Require Import Prelude GraphTypes GraphBuilder GraphCheck.

Section facts.
Context `{VN : ValueNode}.
Variable g : ConstraintGraph.
Variable ctx : CheckingContext.
Variable domains : option (list DomainId).

(** ** The recursion depth *)

(** The nodes that can still be entered. *)
Definition pending (st : check_state) : gset NodeId :=
  set_seq 0 (length (nodes g)) ∖ dom (cycle_map st).

Definition cycle_grows (st st' : check_state) : Prop :=
  dom (cycle_map st) ⊆ dom (cycle_map st').

Lemma pending_insert_lt st0 st n v :
  n < length (nodes g) → cycle_map st0 !! n = None → cycle_grows st0 st →
  size (pending (cycle_insert n v st)) < size (pending st0).
Proof.
  intros Hn Hc Hg. apply subset_size. apply not_elem_of_dom in Hc.
  unfold pending, cycle_insert, cycle_grows in *; simpl. rewrite dom_insert_L.
  split; [set_solver|]. intros Hsub.
  assert (n ∈ (set_seq 0 (length (nodes g)) : gset nat)) by (apply elem_of_set_seq; lia).
  set_solver.
Qed.

Lemma cycle_grows_remove st0 st n v :
  cycle_map st0 !! n = None → ∀ st', cycle_grows (cycle_insert n v st) st' →
  cycle_grows st0 st → cycle_grows st0 (cycle_remove n st').
Proof.
  intros Hc%not_elem_of_dom st'. unfold cycle_grows, cycle_insert, cycle_remove; simpl.
  rewrite dom_insert_L, dom_delete_L. set_solver.
Qed.

(** Everything the checker returns, on every path. *)
Definition returns {A} (st0 : check_state) (c : option (result GraphError A * check_state)) : Prop :=
  ∃ r st, c = Some (r, st) ∧ cycle_grows st0 st.

Ltac returns_now :=
  eexists _, _; split; [reflexivity | unfold cycle_grows in *; first [assumption | set_solver]].

Section step.
Variable check : NodeId → Relation.t → Strength → check_state →
  option (result GraphError unit * check_state).
Variable st0 : check_state.
Hypothesis Hcheck : ∀ n r s st,
  size (pending st) < size (pending st0) → returns st (check n r s st).

Variable n : NodeId.
Hypothesis Hn : n < length (nodes g).
Hypothesis Hcyc : cycle_map st0 !! n = None.

Lemma aggregator_loop_returns r s es : ∀ unsat m st,
  cycle_grows st0 st → returns st0 (aggregator_loop check n r s es unsat m st).
Proof.
  induction es as [|e es IH]; intros unsat m st Hst; simpl; [returns_now|].
  set (st1 := cycle_insert n _ st).
  destruct (Hcheck (pred e) (relation e) (strength e) st1) as (res & st2 & -> & Hg2).
  { by apply pending_insert_lt. }
  assert (cycle_grows st0 (cycle_remove n st2)) as Hg3.
  { by eapply cycle_grows_remove. }
  assert (cycle_grows st0 st2) as Hg2'.
  { unfold cycle_grows in *. subst st1. simpl in Hg2. rewrite dom_insert_L in Hg2. set_solver. }
  simpl. destruct res as [[]|err]; simpl.
  - destruct (cycle_map st2 !! n) as [[s' []]|]; eauto. returns_now.
  - destruct (get_analysis_trace err); simpl; [|returns_now].
    destruct (cycle_map st2 !! n) as [[s' []]|]; eauto. returns_now.
Qed.

Lemma context_analysis_cycle m r s val st :
  cycle_map (context_analysis g ctx m r s val st).2 = cycle_map st.
Proof. unfold context_analysis. by repeat case_on_match. Qed.

Lemma resolve_cycle_map r s val st :
  cycle_map (resolve_cycle g ctx n r s val st).2 = delete n (cycle_map st).
Proof.
  unfold resolve_cycle. destruct (cycle_map st !! n) as [[s' r']|] eqn:E.
  - destruct r'; try case_decide; simpl; try done; by rewrite context_analysis_cycle.
  - simpl. by rewrite delete_id.
Qed.

Lemma value_loop_returns r s val es : ∀ errs m st,
  cycle_grows st0 st → returns st0 (value_loop g ctx check n r s val es errs m st).
Proof.
  induction es as [|e es IH]; intros errs m st Hst; simpl; [returns_now|].
  set (st1 := cycle_insert n _ st).
  destruct (Hcheck (pred e) (relation e) (strength e) st1) as (res & st2 & -> & Hg2).
  { by apply pending_insert_lt. }
  simpl. pose proof (resolve_cycle_map r s val st2) as Hr.
  destruct (resolve_cycle g ctx n r s val st2) as [[[]|err] st3]; simpl in Hr.
  all: assert (cycle_grows st0 st3) as Hg3 by
    (unfold cycle_grows; rewrite Hr;
     change (cycle_grows st0 (cycle_remove n st2)); by eapply cycle_grows_remove).
  - destruct (strength e), res as [[]|err]; eauto;
      destruct (get_analysis_trace err); eauto; returns_now.
  - returns_now.
Qed.

Lemma validate_node_returns node r s :
  returns st0 (validate_node g ctx domains check n node r s st0).
Proof.
  unfold validate_node. destruct (node_type node) as [| |expected|val].
  - unfold validate_all_aggregator.
    destruct (get_predecessor_edges_by_domain g domains n); [|returns_now].
    destruct (aggregator_loop_returns r s a [] false st0) as (res & st & -> & Hst); [unfold cycle_grows in *; set_solver|].
    destruct res as [[[] ?]|]; returns_now.
  - unfold validate_any_aggregator.
    destruct (get_predecessor_edges_by_domain g domains n); [|returns_now].
    destruct (aggregator_loop_returns r s a [] false st0) as (res & st & -> & Hst); [unfold cycle_grows in *; set_solver|].
    destruct res as [[? ?]|]; simpl; try case_on_match; returns_now.
  - eexists _, _. split; [by rewrite <- surjective_pairing|].
    unfold cycle_grows, validate_in_aggregator. by repeat case_on_match.
  - unfold validate_value_node. pose proof (context_analysis_cycle n r s val st0) as Hc.
    destruct (context_analysis g ctx n r s val st0) as [[[]|err] st1]; simpl in Hc.
    all: assert (cycle_grows st0 st1) as Hg1 by (unfold cycle_grows; by rewrite Hc).
    + destruct (get_predecessor_edges_by_domain g domains n); [|returns_now].
      destruct (value_loop_returns r s val a [] false st1) as (res & st & -> & Hst); [unfold cycle_grows in *; set_solver|].
      destruct res as [[? ?]|]; simpl; try case_on_match; returns_now.
    + returns_now.
Qed.

End step.

Lemma check_node_inner_returns fuel : ∀ n r s st,
  size (pending st) < fuel → returns st (check_node_inner fuel g ctx domains n r s st).
Proof.
  induction fuel as [|fuel IH]; intros n r s st Hlt; [lia|]. simpl. unfold check_node_body.
  destruct (DenseMap.get (nodes g) n) as [node|] eqn:Hn; [|returns_now].
  destruct (memo st !! (n, r, s)); [returns_now|].
  destruct (cycle_map st !! n) as [[s' r']|] eqn:Hc.
  { eexists _, _. split; [done|]. unfold cycle_grows, cycle_insert; simpl. rewrite dom_insert_L. set_solver. }
  apply validate_node_returns; [|by eapply lookup_lt_Some|done].
  intros n' r' s' st' Hlt'. apply IH. lia.
Qed.

Lemma pending_bound st : size (pending st) ≤ length (nodes g).
Proof.
  unfold pending. etransitivity; [apply subseteq_size; apply subseteq_difference_l; reflexivity|].
  by rewrite size_set_seq.
Qed.

(** ** Fuel *)

Definition extends (c d : NodeId → Relation.t → Strength → check_state →
    option (result GraphError unit * check_state)) : Prop :=
  ∀ n r s st o, c n r s st = Some o → d n r s st = Some o.

Section mono.
Variables c d : NodeId → Relation.t → Strength → check_state →
  option (result GraphError unit * check_state).
Hypothesis Hcd : extends c d.

Lemma aggregator_loop_mono n r s es : ∀ unsat m st o,
  aggregator_loop c n r s es unsat m st = Some o →
  aggregator_loop d n r s es unsat m st = Some o.
Proof.
  induction es as [|e es IH]; simpl; intros unsat m st o; [done|].
  intros ([res st'] & Hc & Ho)%bind_Some. rewrite (Hcd _ _ _ _ _ Hc). simpl.
  destruct res as [[]|err]; simpl in *.
  - destruct (cycle_map st' !! n) as [[? []]|]; eauto.
  - destruct (get_analysis_trace err); simpl in *; [|done].
    destruct (cycle_map st' !! n) as [[? []]|]; eauto.
Qed.

Lemma value_loop_mono n r s val es : ∀ errs m st o,
  value_loop g ctx c n r s val es errs m st = Some o →
  value_loop g ctx d n r s val es errs m st = Some o.
Proof.
  induction es as [|e es IH]; simpl; intros errs m st o; [done|].
  intros ([res st'] & Hc & Ho)%bind_Some. rewrite (Hcd _ _ _ _ _ Hc). simpl.
  destruct (resolve_cycle _ _ _ _ _ _ _) as [[[]|] ?]; [|done].
  destruct (strength e), res as [[]|err]; eauto;
    destruct (get_analysis_trace err); eauto.
Qed.

Lemma check_node_body_mono n r s st o :
  check_node_body g ctx domains c n r s st = Some o →
  check_node_body g ctx domains d n r s st = Some o.
Proof.
  unfold check_node_body. destruct (DenseMap.get (nodes g) n) as [node|]; [|done].
  destruct (memo st !! (n, r, s)); [done|].
  destruct (cycle_map st !! n) as [[? ?]|]; [done|].
  unfold validate_node. destruct (node_type node) as [| |expected|val]; [| |done|].
  - unfold validate_all_aggregator.
    destruct (get_predecessor_edges_by_domain g domains n); [|done].
    intros (x & Hl & Ho)%bind_Some. by rewrite (aggregator_loop_mono _ _ _ _ _ _ _ _ Hl).
  - unfold validate_any_aggregator.
    destruct (get_predecessor_edges_by_domain g domains n); [|done].
    intros (x & Hl & Ho)%bind_Some. by rewrite (aggregator_loop_mono _ _ _ _ _ _ _ _ Hl).
  - unfold validate_value_node. destruct (context_analysis _ _ _ _ _ _ _) as [[[]|] ?]; [|done].
    destruct (get_predecessor_edges_by_domain g domains n); [|done].
    intros (x & Hl & Ho)%bind_Some. by rewrite (value_loop_mono _ _ _ _ _ _ _ _ _ Hl).
Qed.
End mono.

Lemma check_node_inner_fuel fuel fuel' :
  fuel ≤ fuel' →
  extends (check_node_inner fuel g ctx domains) (check_node_inner fuel' g ctx domains).
Proof.
  revert fuel'. induction fuel as [|fuel IH]; intros fuel' Hle n r s st o; [done|].
  destruct fuel' as [|fuel']; [lia|]. simpl.
  apply check_node_body_mono. apply IH. lia.
Qed.

(** ** Returned traces are alive *)

(** A returned analysis error is held by some entry of the memo table. *)
Definition alive {A} (o : result GraphError A * check_state) : Prop :=
  ∀ t, o.1 = Err (AnalysisError t) → ∃ k, memo o.2 !! k = Some (Err t).

Lemma alive_fail k t st : alive (fail_with k t st).
Proof. intros t' [= <-]. exists k. simpl. by rewrite lookup_insert_eq. Qed.

Lemma alive_other {A} (r : result GraphError A) st :
  (∀ t, r ≠ Err (AnalysisError t)) → alive (r, st).
Proof. intros Hr t Ht. by destruct (Hr t). Qed.

Lemma get_analysis_trace_err e e' : get_analysis_trace e = Err e' → ∀ t, e' ≠ AnalysisError t.
Proof. destruct e; naive_solver. Qed.

Lemma context_analysis_alive n r s val st : alive (context_analysis g ctx n r s val st).
Proof.
  unfold context_analysis. repeat case_on_match; auto using alive_fail; by apply alive_other.
Qed.

Section alive.
Variable check : NodeId → Relation.t → Strength → check_state →
  option (result GraphError unit * check_state).

Lemma aggregator_loop_alive n r s es : ∀ unsat m st o,
  aggregator_loop check n r s es unsat m st = Some o → alive o.
Proof.
  induction es as [|e es IH]; simpl; intros unsat m st o; [intros [= <-]; by apply alive_other|].
  intros ([res st'] & _ & Ho)%bind_Some.
  destruct (match res with Ok _ => _ | Err _ => _ end) as [[u m']|err] eqn:E.
  - destruct (cycle_map st' !! n) as [[? []]|]; try (by eapply IH).
    injection Ho as <-. intros t [= <-]. exists (n, r, s). simpl. by rewrite lookup_insert_eq.
  - injection Ho as <-. apply alive_other. intros t [= ->]. destruct res as [|err']; [done|].
    destruct (get_analysis_trace err') eqn:E'; simpl in E; [done|]. simplify_eq.
    by eapply get_analysis_trace_err.
Qed.

Lemma resolve_cycle_alive n r s val st : alive (resolve_cycle g ctx n r s val st).
Proof.
  unfold resolve_cycle. repeat case_on_match; auto using alive_fail, context_analysis_alive;
    by apply alive_other.
Qed.

Lemma value_loop_alive n r s val es : ∀ errs m st o,
  value_loop g ctx check n r s val es errs m st = Some o → alive o.
Proof.
  induction es as [|e es IH]; simpl; intros errs m st o; [intros [= <-]; by apply alive_other|].
  intros ([res st'] & _ & Ho)%bind_Some.
  pose proof (resolve_cycle_alive n r s val st') as Hr.
  destruct (resolve_cycle g ctx n r s val st') as [[[]|err] st1]; last first.
  { injection Ho as <-. intros t [= ->]. by apply Hr. }
  destruct (strength e), res as [[]|err]; try (by eapply IH);
    destruct (get_analysis_trace err) eqn:E; try (by eapply IH); injection Ho as <-;
    try (apply alive_other; intros t' [= ->]; by eapply get_analysis_trace_err).
  intros t [= <-]. exists (n, r, s). simpl. by rewrite lookup_insert_eq.
Qed.

Lemma get_predecessor_edges_err n e :
  get_predecessor_edges_by_domain g domains n = Err e → ∀ t, e ≠ AnalysisError t.
Proof.
  unfold get_predecessor_edges_by_domain. destruct (DenseMap.get (nodes g) n); simpl; [|naive_solver].
  assert (∀ l, try_collect (λ i, ok_or EdgeNotFound (DenseMap.get (edges g) i)) l = Err e →
    e = EdgeNotFound) as H.
  { induction l as [|i l IH]; simpl; [done|]. destruct (DenseMap.get (edges g) i); simpl; [|naive_solver].
    destruct (try_collect _ l); simpl; [done|]. intros [= <-]. by apply IH. }
  destruct (try_collect _ _) eqn:E; simpl; [done|]. intros [= <-] t ->. by apply H in E.
Qed.

Lemma check_node_body_alive n r s st o :
  check_node_body g ctx domains check n r s st = Some o → alive o.
Proof.
  unfold check_node_body. destruct (DenseMap.get (nodes g) n) as [node|];
    [|intros [= <-]; by apply alive_other].
  destruct (memo st !! (n, r, s)) as [res|] eqn:Hm.
  { intros [= <-] t. destruct res; simpl; [done|]. intros [= <-]. eauto. }
  destruct (cycle_map st !! n) as [[? ?]|]; [intros [= <-]; by apply alive_other|].
  assert (∀ e st0, get_predecessor_edges_by_domain g domains n = Err e → alive (Err (A:=unit) e, st0)) as Hpe.
  { intros e st0 He. apply alive_other. intros t [= ->]. by eapply get_predecessor_edges_err. }
  unfold validate_node. destruct (node_type node) as [| |expected|val].
  - unfold validate_all_aggregator.
    destruct (get_predecessor_edges_by_domain g domains n) as [es|] eqn:E; [|intros [= <-]; eauto].
    intros ([res st'] & Hl%aggregator_loop_alive & Ho)%bind_Some.
    destruct res as [[[] ?]|err]; injection Ho as <-; [by apply alive_other|apply alive_fail|].
    intros t [= ->]. by apply Hl.
  - unfold validate_any_aggregator.
    destruct (get_predecessor_edges_by_domain g domains n) as [es|] eqn:E; [|intros [= <-]; eauto].
    intros ([res st'] & Hl%aggregator_loop_alive & Ho)%bind_Some.
    destruct res as [[u m]|err]; [case_on_match|]; injection Ho as <-; [by apply alive_other|apply alive_fail|].
    intros t [= ->]. by apply Hl.
  - intros [= <-]. unfold validate_in_aggregator.
    repeat case_on_match; auto using alive_fail; by apply alive_other.
  - unfold validate_value_node. pose proof (context_analysis_alive n r s val st) as Hc.
    destruct (context_analysis g ctx n r s val st) as [[[]|err] st1]; [|intros [= <-] t [= ->]; by apply Hc].
    destruct (get_predecessor_edges_by_domain g domains n) as [es|] eqn:E; [|intros [= <-]; eauto].
    intros ([res st'] & Hl%value_loop_alive & Ho)%bind_Some.
    destruct res as [[u m]|err]; [case_on_match|]; injection Ho as <-; [by apply alive_other|apply alive_fail|].
    intros t [= ->]. by apply Hl.
Qed.
End alive.

End facts.
