(* ===== verification/GraphSpec.v ===== *)
(** * What a check means

    The declarative reading of a constraint graph: [sat_node] gives the truth
    of a node from the truth of its predecessors, with no memo table, no cycle
    map and no order of evaluation.  On a graph without cycles these equations
    have exactly one solution, and [check_node_inner] computes it from any
    memo table that agrees with it. *)

From S2P Require Import Prelude GraphTypes GraphBuilder GraphCheck GraphCheckFacts.

Section spec.
Context `{VN : ValueNode}.
Variable g : ConstraintGraph.
Variable ctx : CheckingContext.
Variable domains : option (list DomainId).

(** An edge counts when it has no domain or its domain was asked for. *)
Definition counts (e : Edge) : bool :=
  match edge_domain e with Some d => bool_decide (d ∈ default [] domains) | None => true end.

(** The edges into a node, and those of them that count. *)
Definition all_incoming (n : NodeId) : list Edge :=
  List.filter (λ e, bool_decide (succ e = n)) (edges g).
Definition incoming (n : NodeId) : list Edge :=
  List.filter counts (all_incoming n).

Section truth.
Variable T : NodeId → Relation.t → Strength → bool.

Definition sat_edge (e : Edge) : bool := T (pred e) (relation e) (strength e).

(** One satisfied predecessor, or no predecessor in any domain. *)
Definition sat_some (n : NodeId) : bool :=
  any sat_edge (incoming n) || bool_decide (all_incoming n = []).

Definition sat_strong (n : NodeId) : bool :=
  all (λ e, bool_decide (strength e ≠ Strong) || sat_edge e) (incoming n).

Definition sat_in (rel : Relation.t) (str : Strength) (expected : gset value) : bool :=
  match elements expected with
  | [] => false
  | v0 :: _ =>
      match get_values_by_key ctx (get_key v0) with
      | None => bool_decide (str = Weak)
      | Some vals => all (λ v, Bool.eqb (bool_decide (v ∈ expected)) (Relation.to_bool rel)) vals
      end
  end.

Definition sat_node (n : NodeId) (nd : Node) (rel : Relation.t) (str : Strength) : bool :=
  match node_type nd with
  | AllAggregator => all sat_edge (incoming n)
  | AnyAggregator => sat_some n
  | InAggregator expected => sat_in rel str expected
  | Value val =>
      Bool.eqb (check_presence ctx val str) (Relation.to_bool rel) && sat_strong n && sat_some n
  end.

Definition solution : Prop :=
  ∀ n nd rel str, nodes g !! n = Some nd → T n rel str = sat_node n nd rel str.
End truth.

(** The solution, by depth. *)
Fixpoint eval (depth : nat) (n : NodeId) (rel : Relation.t) (str : Strength) : bool :=
  match depth with
  | 0 => false
  | S depth => match nodes g !! n with
               | Some nd => sat_node (eval depth) n nd rel str
               | None => false
               end
  end.

(** No cycle: edges go up a ranking of the nodes. *)
Definition ranked (rank : NodeId → nat) : Prop :=
  ∀ i e, edges g !! i = Some e → rank (pred e) < rank (succ e).

Lemma elem_of_all_incoming n e :
  e ∈ all_incoming n ↔ e ∈ edges g ∧ succ e = n.
Proof.
  unfold all_incoming. rewrite !list_elem_of_In, filter_In. by rewrite bool_decide_eq_true.
Qed.

Lemma elem_of_incoming n e :
  e ∈ incoming n ↔ e ∈ edges g ∧ succ e = n ∧ counts e = true.
Proof.
  unfold incoming. rewrite list_elem_of_In, filter_In, <- list_elem_of_In, elem_of_all_incoming.
  naive_solver.
Qed.

Lemma ranked_incoming rank n e :
  ranked rank → e ∈ incoming n → rank (pred e) < rank n.
Proof.
  intros Hr (He & <- & _)%elem_of_incoming.
  apply list_elem_of_lookup in He as [i Hi]. by eapply Hr.
Qed.

(** The equations only look at lower ranks. *)
Lemma sat_node_ext T1 T2 n nd rel str :
  (∀ e, e ∈ incoming n → sat_edge T1 e = sat_edge T2 e) →
  sat_node T1 n nd rel str = sat_node T2 n nd rel str.
Proof.
  intros Heq. unfold sat_node, sat_some, sat_strong.
  assert (∀ p : Edge → bool → bool,
    all (λ e, p e (sat_edge T1 e)) (incoming n) = all (λ e, p e (sat_edge T2 e)) (incoming n)) as Hall.
  { intros p. apply all_ext. intros e He. by rewrite Heq. }
  assert (any (sat_edge T1) (incoming n) = any (sat_edge T2) (incoming n)) as Hany.
  { by apply any_ext. }
  destruct (node_type nd).
  - exact (Hall (λ _ b, b)).
  - by rewrite Hany.
  - done.
  - rewrite Hany. f_equal. f_equal. exact (Hall (λ e b, bool_decide (strength e ≠ Strong) || b)).
Qed.

Lemma eval_stable rank d1 : ∀ d2 n rel str,
  ranked rank → rank n < d1 → rank n < d2 → eval d1 n rel str = eval d2 n rel str.
Proof.
  induction d1 as [|d1 IH]; intros d2 n rel str Hr H1 H2; [lia|].
  destruct d2 as [|d2]; [lia|]. simpl. destruct (nodes g !! n) as [nd|]; [|done].
  apply sat_node_ext. intros e He. pose proof (ranked_incoming _ _ _ Hr He).
  unfold sat_edge. apply IH; [done|lia..].
Qed.

Lemma eval_solution rank :
  ranked rank → solution (λ n, eval (S (rank n)) n).
Proof.
  intros Hr n nd rel str Hnd. simpl. rewrite Hnd. apply sat_node_ext. intros e He.
  pose proof (ranked_incoming _ _ _ Hr He).
  exact (eval_stable rank (rank n) (S (rank (pred e))) (pred e) (relation e) (strength e) Hr ltac:(lia) ltac:(lia)).
Qed.

Lemma solution_eval rank T d : ∀ n nd rel str,
  graph_wf g → ranked rank → solution T → nodes g !! n = Some nd → rank n < d →
  T n rel str = eval d n rel str.
Proof.
  induction d as [|d IH]; intros n nd rel str Hwf Hr HT Hnd Hlt; [lia|].
  rewrite (HT _ _ _ _ Hnd). simpl. rewrite Hnd. apply sat_node_ext. intros e He.
  pose proof (ranked_incoming _ _ _ Hr He).
  apply elem_of_incoming in He as (He & _ & _).
  apply list_elem_of_lookup in He as [i Hi].
  destruct (wf_edges _ Hwf _ _ Hi) as (Hp & _ & _).
  apply lookup_lt_is_Some in Hp as [nd' Hnd']. unfold sat_edge.
  eapply IH; eauto with lia.
Qed.

(** ** The edges the code walks are the incoming edges *)

Lemma edge_in_domains_counts e : edge_in_domains domains e = counts e.
Proof. unfold edge_in_domains, counts. by destruct (edge_domain e), domains. Qed.

Lemma try_collect_edge_ids p (es : DenseMap.t Edge) :
  try_collect (λ i, ok_or (EdgeNotFound (VN:=VN)) (DenseMap.get es i)) (edge_ids p es) =
  Ok (List.filter p es).
Proof.
  apply try_collect_Forall2. induction es as [|e es IH] using rev_ind.
  - simpl. constructor.
  - rewrite edge_ids_snoc, List.filter_app. apply Forall2_app.
    + eapply Forall2_impl; [exact IH|]. intros i f Hf. unfold DenseMap.get in *.
      destruct (es !! i) eqn:E; simpl in Hf; [|done].
      by rewrite (lookup_app_l_Some _ _ _ _ E).
    + simpl. destruct (p e); repeat constructor. unfold DenseMap.get.
      by rewrite list_lookup_middle.
Qed.

Lemma get_predecessor_edges_wf n nd :
  graph_wf g → nodes g !! n = Some nd →
  get_predecessor_edges_by_domain g domains n = Ok (incoming n).
Proof.
  intros Hwf Hnd. unfold get_predecessor_edges_by_domain, incoming.
  rewrite <- (filter_ext _ _ edge_in_domains_counts).
  rewrite (Hnd : DenseMap.get (nodes g) n = Some nd). cbn [mbind result_bind ok_or].
  destruct (wf_nodes _ Hwf _ _ Hnd) as (-> & _ & _).
  by rewrite try_collect_edge_ids.
Qed.

Lemma preds_nil n nd :
  graph_wf g → nodes g !! n = Some nd → preds nd = [] ↔ all_incoming n = [].
Proof.
  intros Hwf Hnd. destruct (wf_nodes _ Hwf _ _ Hnd) as (-> & _ & _).
  pose proof (try_collect_length _ _ _
    (try_collect_edge_ids (λ e, bool_decide (succ e = n)) (edges g))) as Hlen.
  unfold all_incoming. rewrite <- !length_zero_iff_nil, Hlen. done.
Qed.

(** ** The checker computes the solution *)

Variable T : NodeId → Relation.t → Strength → bool.

(** The memo table agrees with the solution outside [X], the keys under
    evaluation. *)
Definition memo_ok (X : gset (NodeId * Relation.t * Strength)) (st : check_state) : Prop :=
  ∀ n rel str res, memo st !! (n, rel, str) = Some res →
    (n, rel, str) ∈ X ∨ is_ok res = T n rel str.

(** The verdict is [b] and nothing else went wrong. *)
Definition verdict {A : Type} (b : bool) (res : result GraphError A) : Prop :=
  match res with
  | Ok _ => b = true
  | Err (AnalysisError _) => b = false
  | Err _ => False
  end.

Lemma memo_ok_insert X st n rel str res :
  memo_ok ({[(n, rel, str)]} ∪ X) st → is_ok res = T n rel str →
  memo_ok X (memo_insert (n, rel, str) res st).
Proof.
  intros Hm Hres n' rel' str' res'. unfold memo_insert; simpl.
  destruct (decide ((n, rel, str) = (n', rel', str'))) as [Heq|Hne].
  - simplify_eq. rewrite lookup_insert_eq. intros [= <-]. by right.
  - rewrite lookup_insert_ne by done. intros Hl.
    destruct (Hm _ _ _ _ Hl) as [Hin|]; [left|by right]. set_solver.
Qed.

Lemma memo_ok_weaken X Y st : memo_ok X st → X ⊆ Y → memo_ok Y st.
Proof. intros Hm Hsub n rel str res Hl. destruct (Hm _ _ _ _ Hl); [left; set_solver|by right]. Qed.

Lemma memo_ok_touch X st n rel str res :
  memo_ok ({[(n, rel, str)]} ∪ X) st →
  memo_ok ({[(n, rel, str)]} ∪ X) (memo_insert (n, rel, str) res st).
Proof.
  intros Hm n' rel' str' res'. unfold memo_insert; simpl.
  destruct (decide ((n, rel, str) = (n', rel', str'))) as [Heq|Hne].
  - simplify_eq. intros _. left. set_solver.
  - rewrite lookup_insert_ne by done. apply Hm.
Qed.

Definition computes {A : Type} (X : gset (NodeId * Relation.t * Strength)) (st : check_state) (b : bool)
    (c : option (result GraphError A * check_state)) : Prop :=
  ∃ res st', c = Some (res, st') ∧ verdict b res ∧ memo_ok X st' ∧ cycle_map st' = cycle_map st.

Lemma computes_succeed X st st' n rel str :
  memo_ok ({[(n, rel, str)]} ∪ X) st' → cycle_map st' = cycle_map st → T n rel str = true →
  computes X st (T n rel str) (Some (succeed (n, rel, str) st')).
Proof.
  intros Hm Hc HT. eexists _, _. split; [reflexivity|]. rewrite HT. split; [done|].
  split; [|done]. by apply memo_ok_insert.
Qed.

Lemma computes_fail X st st' n rel str t :
  memo_ok ({[(n, rel, str)]} ∪ X) st' → cycle_map st' = cycle_map st → T n rel str = false →
  computes X st (T n rel str) (Some (fail_with (n, rel, str) t st')).
Proof.
  intros Hm Hc HT. eexists _, _. split; [reflexivity|]. rewrite HT. split; [done|].
  split; [|done]. by apply memo_ok_insert.
Qed.

Section correct.
Variable rank : NodeId → nat.
Hypothesis Hwf : graph_wf g.
Hypothesis Hrank : ranked rank.
Hypothesis HT : solution T.

(** The nodes on the stack, and the keys under evaluation, rank higher. *)
Definition above (n : NodeId) (X : gset (NodeId * Relation.t * Strength)) (st : check_state) : Prop :=
  (∀ k, k ∈ X → rank n < rank k.1.1) ∧ (∀ m, is_Some (cycle_map st !! m) → rank n < rank m).

Definition check_correct (check : NodeId → Relation.t → Strength → check_state →
    option (result GraphError unit * check_state)) (bound : nat) : Prop :=
  ∀ n nd rel str X st, nodes g !! n = Some nd → rank n < bound → above n X st → memo_ok X st →
    computes X st (T n rel str) (check n rel str st).

Section step.
Variable check : NodeId → Relation.t → Strength → check_state →
  option (result GraphError unit * check_state).
Variables (n : NodeId) (nd : Node) (rel : Relation.t) (str : Strength).
Variable X : gset (NodeId * Relation.t * Strength).
Variable st0 : check_state.
Hypothesis Hcheck : check_correct check (rank n).
Hypothesis Hnd : nodes g !! n = Some nd.
Hypothesis Habove : above n X st0.

Abbreviation X' := ({[(n, rel, str)]} ∪ X).

Lemma stack_free : cycle_map st0 !! n = None.
Proof.
  destruct (cycle_map st0 !! n) eqn:E; [|done]. destruct Habove as [_ Hc].
  specialize (Hc n ltac:(by rewrite E)). lia.
Qed.

(** One recursive call of a loop: the stack entry comes back unchanged. *)
Lemma check_child e st :
  e ∈ incoming n → memo_ok X' st → cycle_map st = cycle_map st0 →
  ∃ res st', check (pred e) (relation e) (strength e)
      (cycle_insert n (str, RelationResolution.from_relation rel) st) = Some (res, st') ∧
    verdict (sat_edge T e) res ∧ memo_ok X' st' ∧
    cycle_map st' !! n = Some (str, RelationResolution.from_relation rel) ∧
    delete n (cycle_map st') = cycle_map st0.
Proof.
  intros He Hm Hc. pose proof (ranked_incoming _ _ _ Hrank He) as Hlt.
  assert (∃ nd', nodes g !! pred e = Some nd') as [nd' Hnd'].
  { apply elem_of_incoming in He as (Hin & _ & _). apply list_elem_of_lookup in Hin as [i Hi].
    destruct (wf_edges _ Hwf _ _ Hi) as (Hp & _ & _). by apply lookup_lt_is_Some in Hp. }
  destruct (Hcheck (pred e) nd' (relation e) (strength e) X'
    (cycle_insert n (str, RelationResolution.from_relation rel) st))
    as (res & st' & Hres & Hv & Hm' & Hc'); [done|done| |done|].
  - destruct Habove as [HX Hst]. split.
    + intros k [->%elem_of_singleton|Hk]%elem_of_union; simpl; [done|].
      specialize (HX k Hk). lia.
    + intros m. simpl. rewrite Hc. destruct (decide (n = m)) as [<-|Hne]; [done|].
      rewrite lookup_insert_ne by done. intros Hsm. specialize (Hst m Hsm). lia.
  - exists res, st'. split; [done|]. split; [done|]. split; [done|].
    rewrite Hc'. simpl. rewrite lookup_insert_eq, Hc. split; [done|].
    rewrite delete_insert_id; [done|]. apply stack_free.
Qed.

Lemma from_relation_consistent :
  RelationResolution.from_relation rel ≠ RelationResolution.Contradiction.
Proof. by destruct rel. Qed.

Lemma aggregator_loop_correct es : ∀ unsat m st,
  (∀ e, e ∈ es → e ∈ incoming n) → memo_ok X' st → cycle_map st = cycle_map st0 →
  ∃ unsat' st', aggregator_loop check n rel str es unsat m st =
      Some (Ok (unsat', m || any (sat_edge T) es), st') ∧
    (unsat' = [] ↔ unsat = [] ∧ all (sat_edge T) es = true) ∧
    memo_ok X' st' ∧ cycle_map st' = cycle_map st0.
Proof.
  induction es as [|e es IH]; intros unsat m st Hin Hm Hc.
  { exists unsat, st. simpl. rewrite orb_false_r. naive_solver. }
  destruct (check_child e st) as (res & st1 & Hres & Hv & Hm1 & Hn1 & Hd1); [set_solver|done|done|].
  simpl aggregator_loop. rewrite Hres. cbn [mbind option_bind].
  assert (memo_ok X' (cycle_remove n st1)) as Hm2 by done.
  pose proof from_relation_consistent as Hcons.
  destruct res as [[]|err]; simpl in Hv.
  - cbn. rewrite Hn1. destruct (IH unsat true (cycle_remove n st1)) as (u & st2 & Hl & Hu & Hm3 & Hc3);
      [set_solver|done|done|].
    exists u, st2. rewrite Hv. cbn. rewrite orb_true_r.
    destruct (RelationResolution.from_relation rel); done.
  - destruct err as [| | | | | | | |t]; try done.
    cbn. rewrite Hn1.
    destruct (IH (unsat ++ [t]) m (cycle_remove n st1)) as (u & st2 & Hl & Hu & Hm3 & Hc3);
      [set_solver|done|done|].
    exists u, st2. rewrite Hv. cbn.
    split; [destruct (RelationResolution.from_relation rel); done|].
    split; [|done]. rewrite Hu. split; [intros [Ht _]; by destruct unsat|by intros [_ ?]].
Qed.

Lemma value_loop_correct val es : ∀ errs m st,
  (∀ e, e ∈ es → e ∈ incoming n) → memo_ok X' st → cycle_map st = cycle_map st0 →
  ∃ res st', value_loop g ctx check n rel str val es errs m st = Some (res, st') ∧
    memo_ok X' st' ∧ cycle_map st' = cycle_map st0 ∧
    if all (λ e, bool_decide (strength e ≠ Strong) || sat_edge T e) es
    then ∃ errs', res = Ok (errs', m || any (sat_edge T) es)
    else ∃ t, res = Err (AnalysisError t) ∧ memo st' !! (n, rel, str) = Some (Err t).
Proof.
  induction es as [|e es IH]; intros errs m st Hin Hm Hc.
  { eexists _, st. simpl. rewrite orb_false_r. eauto. }
  destruct (check_child e st) as (res & st1 & Hres & Hv & Hm1 & Hn1 & Hd1); [set_solver|done|done|].
  simpl value_loop. rewrite Hres. cbn [mbind option_bind].
  assert (resolve_cycle g ctx n rel str val st1 = (Ok tt, cycle_remove n st1)) as ->.
  { unfold resolve_cycle. rewrite Hn1. pose proof from_relation_consistent.
    destruct (RelationResolution.from_relation rel); [| |done]; by rewrite decide_False by tauto. }
  assert (memo_ok X' (cycle_remove n st1)) as Hm2 by done.
  assert (∀ errs m, ∃ res st', value_loop g ctx check n rel str val es errs m (cycle_remove n st1) =
      Some (res, st') ∧ memo_ok X' st' ∧ cycle_map st' = cycle_map st0 ∧
    if all (λ e, bool_decide (strength e ≠ Strong) || sat_edge T e) es
    then ∃ errs', res = Ok (errs', m || any (sat_edge T) es)
    else ∃ t, res = Err (AnalysisError t) ∧ memo st' !! (n, rel, str) = Some (Err t)) as IH'.
  { intros. apply IH; [set_solver|done|done]. }
  destruct res as [[]|err]; simpl in Hv.
  - destruct (IH' errs true) as (r & st2 & Hl & H3).
    exists r, st2. cbn. rewrite Hv, !orb_true_r.
    split; [by destruct (strength e)|]. exact H3.
  - destruct err as [| | | | | | | |t]; try done. cbn. rewrite Hv.
    destruct (decide (strength e = Strong)) as [Hs|Hs].
    + rewrite Hs. eexists _, _. split; [reflexivity|]. cbn. split; [by apply memo_ok_touch|].
      split; [done|]. eexists. split; [reflexivity|]. by rewrite lookup_insert_eq.
    + destruct (IH' (errs ++ [t]) m) as (r & st2 & Hl & H3).
      exists r, st2. rewrite bool_decide_true by done. cbn.
      split; [by destruct (strength e)|]. exact H3.
Qed.

Hypothesis Hmemo : memo_ok X st0.

Lemma Hmemo' : memo_ok X' st0.
Proof. eapply memo_ok_weaken; [exact Hmemo|set_solver]. Qed.

Lemma validate_all_correct :
  node_type nd = AllAggregator →
  computes X st0 (T n rel str) (validate_all_aggregator g domains check n rel str st0).
Proof.
  intros Hty. unfold validate_all_aggregator. rewrite (get_predecessor_edges_wf n nd) by done.
  destruct (aggregator_loop_correct (incoming n) [] false st0) as (u & st & -> & Hu & Hm & Hc);
    [done|apply Hmemo'|done|].
  pose proof (HT n nd rel str Hnd) as HTn. unfold sat_node in HTn. rewrite Hty in HTn. simpl.
  destruct u as [|t u].
  - apply computes_succeed; [done|done|]. rewrite HTn. by apply Hu.
  - apply computes_fail; [done|done|]. rewrite HTn.
    apply not_true_is_false. intros Ha. by specialize (proj2 Hu (conj eq_refl Ha)).
Qed.

Lemma sat_some_preds b :
  b = any (sat_edge T) (incoming n) → b || bool_decide (preds nd = []) = sat_some T n.
Proof.
  intros ->. unfold sat_some. f_equal. apply bool_decide_ext. by apply preds_nil.
Qed.

Lemma validate_any_correct :
  node_type nd = AnyAggregator →
  computes X st0 (T n rel str) (validate_any_aggregator g domains check n nd rel str st0).
Proof.
  intros Hty. unfold validate_any_aggregator. rewrite (get_predecessor_edges_wf n nd) by done.
  destruct (aggregator_loop_correct (incoming n) [] false st0) as (u & st & -> & Hu & Hm & Hc);
    [done|apply Hmemo'|done|].
  pose proof (HT n nd rel str Hnd) as HTn. unfold sat_node in HTn. rewrite Hty in HTn. simpl.
  rewrite sat_some_preds by done.
  destruct (sat_some T n); [by apply computes_succeed|by apply computes_fail].
Qed.

Lemma validate_in_correct expected :
  node_type nd = InAggregator expected →
  computes X st0 (T n rel str) (Some (validate_in_aggregator g ctx n rel str expected st0)).
Proof.
  intros Hty. destruct (wf_nodes _ Hwf _ _ Hnd) as (_ & _ & Hin). rewrite Hty in Hin.
  destruct Hin as [Hne _]. pose proof Hmemo' as Hm.
  pose proof (HT n nd rel str Hnd) as HTn. unfold sat_node, sat_in in HTn. rewrite Hty in HTn.
  unfold validate_in_aggregator. destruct (elements expected) as [|v0 vs] eqn:Hel.
  { by apply elements_empty_inv, leibniz_equiv in Hel. }
  destruct (get_values_by_key ctx (get_key v0)) as [vals|].
  - destruct (List.find _ vals) as [v|] eqn:Hf.
    + apply computes_fail; [done|done|]. rewrite HTn. apply find_some in Hf as [Hv Hb].
      apply not_true_is_false. rewrite all_true. intros Hall.
      rewrite Hall in Hb by (by apply list_elem_of_In). done.
    + apply computes_succeed; [done|done|]. rewrite HTn, all_true. intros v Hv.
      pose proof (find_none _ _ Hf v (proj1 (list_elem_of_In _ _) Hv)) as Hb. by apply negb_false_iff in Hb.
  - destruct str; [by apply computes_succeed|by apply computes_fail..].
Qed.

Lemma validate_value_correct val :
  node_type nd = Value val →
  computes X st0 (T n rel str) (validate_value_node g ctx domains check n nd rel str val st0).
Proof.
  intros Hty. pose proof (HT n nd rel str Hnd) as HTn. unfold sat_node in HTn. rewrite Hty in HTn.
  unfold validate_value_node, context_analysis.
  destruct (Bool.eqb (check_presence ctx val str) (Relation.to_bool rel)); simpl in *; last first.
  { apply computes_fail; [apply Hmemo'|done|done]. }
  set (st1 := if negb (Relation.to_bool rel) then memo_insert (n, rel, str) (Ok tt) st0 else st0).
  assert (memo_ok X' st1 ∧ cycle_map st1 = cycle_map st0) as [Hm1 Hc1].
  { subst st1. pose proof Hmemo'. destruct rel; simpl; split; try done. by apply memo_ok_touch. }
  assert (∀ o, match (if negb (Relation.to_bool rel) then succeed (n, rel, str) st0 else (Ok tt, st0)) with
    | (Ok _, st) => o st | (Err err, st) => Some (Err (A:=unit) err, st) end = o st1) as ->.
  { intros o. subst st1. by destruct rel. }
  rewrite (get_predecessor_edges_wf n nd) by done.
  destruct (value_loop_correct val (incoming n) [] false st1)
    as (res & st & -> & Hm & Hc & Hres); [done|done|done|]. simpl.
  unfold sat_strong in HTn. destruct (all _ (incoming n)); simpl in *.
  - destruct Hres as [errs ->]. rewrite sat_some_preds by done.
    destruct (sat_some T n); [by apply computes_succeed|by apply computes_fail].
  - destruct Hres as (t & -> & Hk). eexists _, _. split; [reflexivity|]. rewrite HTn.
    split; [done|]. split; [|done]. intros n' rel' str' res' Hl.
    destruct (decide ((n', rel', str') = (n, rel, str))) as [Heq|Hne].
    + simplify_eq. by right.
    + destruct (Hm _ _ _ _ Hl) as [Hx|]; [left; set_solver|by right].
Qed.

End step.

Lemma check_node_inner_correct fuel : check_correct (check_node_inner fuel g ctx domains) fuel.
Proof.
  induction fuel as [|fuel IH]; intros n nd rel str X st Hnd Hlt Habove Hm; [lia|].
  simpl. unfold check_node_body. rewrite (Hnd : DenseMap.get (nodes g) n = Some nd).
  destruct (memo st !! (n, rel, str)) as [res|] eqn:Hmm.
  { destruct (Hm _ _ _ _ Hmm) as [Hx|Hok].
    - apply Habove in Hx. simpl in Hx. lia.
    - eexists _, _. split; [reflexivity|]. rewrite <- Hok. by destruct res. }
  rewrite (stack_free n X st) by done.
  assert (check_correct (check_node_inner fuel g ctx domains) (rank n)) as Hcheck.
  { intros n' nd' rel' str' X1 st' Hnd' Hlt' Hab Hmo. eapply IH; [exact Hnd'|lia|done|done]. }
  unfold validate_node. destruct (node_type nd) eqn:Hty.
  - by eapply validate_all_correct.
  - by eapply validate_any_correct.
  - by eapply validate_in_correct.
  - by eapply validate_value_correct.
Qed.

End correct.

End spec.
