(* ===== verification/GraphCombine.v ===== *)
(** * Combining two constraint graphs

    [ConstraintGraph::combine] of
    [crates/hyperswitch_constraint_graph/src/graph.rs]: both graphs are
    replayed into one builder, the nodes through a renumbering and the domains
    through their identifiers. *)

From S2P Require Import Prelude GraphTypes GraphBuilder.

Section combine.
Context `{VN : ValueNode}.
Implicit Types (b : ConstraintGraphBuilder) (g : ConstraintGraph).

(** The closure [add_domain]. *)
Definition add_domain (d : DomainInfo) : sr ConstraintGraphBuilder GraphError DomainId :=
  make_domain (domain_identifier d) (domain_description d).

(** The closure [add_node]. *)
Definition add_node (nd : Node) : sr ConstraintGraphBuilder GraphError NodeId :=
  match node_type nd with
  | Value node_value => make_value_node node_value None None
  | AllAggregator => make_all_aggregator [] None None None
  | AnyAggregator => make_any_aggregator [] None None None
  | InAggregator expected => make_in_aggregator (elements expected) None None
  end.

(** The body of the two edge loops. *)
Definition add_edge g (old2new : list NodeId) (e : Edge) : sr ConstraintGraphBuilder GraphError unit :=
  (new_pred_id <- sr_lift (ok_or NodeNotFound (old2new !! pred e)) ;;
   new_succ_id <- sr_lift (ok_or NodeNotFound (old2new !! succ e)) ;;
   dom <- sr_lift (transpose ((λ d, ok_or DomainNotFound (DenseMap.get (domain g) d)) <$> edge_domain e)) ;;
   make_edge new_pred_id new_succ_id (strength e) (relation e)
     ((λ d, ByIdentifier (domain_identifier d)) <$> dom) ;;;
   sr_ret tt)%sr.

Definition combine_builder g1 g2 : sr ConstraintGraphBuilder GraphError (list NodeId * list NodeId) :=
  (sr_map add_domain (DenseMap.values (domain g1)) ;;;
   sr_map add_domain (DenseMap.values (domain g2)) ;;;
   g1_old2new_id <- sr_map add_node (DenseMap.values (nodes g1)) ;;
   g2_old2new_id <- sr_map add_node (DenseMap.values (nodes g2)) ;;
   sr_for (add_edge g1 g1_old2new_id) (DenseMap.values (edges g1)) ;;;
   sr_for (add_edge g2 g2_old2new_id) (DenseMap.values (edges g2)) ;;;
   sr_ret (g1_old2new_id, g2_old2new_id))%sr.

Definition combine g1 g2 : result GraphError ConstraintGraph :=
  match combine_builder g1 g2 builder_new with
  | (Ok _, b) => Ok (build b)
  | (Err e, _) => Err e
  end.

(** ** Nothing that was built is lost *)

Record bext b b' : Prop := {
  ext_nodes : ∀ n nd, b_nodes b !! n = Some nd →
    ∃ nd', b_nodes b' !! n = Some nd' ∧ node_type nd' = node_type nd;
  ext_edges : ∀ i e, b_edges b !! i = Some e → b_edges b' !! i = Some e;
  ext_domain : ∀ d info, b_domain b !! d = Some info → b_domain b' !! d = Some info;
  ext_domain_map : ∀ i d, b_domain_identifier_map b !! i = Some d →
    b_domain_identifier_map b' !! i = Some d;
}.

#[export] Instance bext_preorder : PreOrder bext.
Proof.
  split.
  - intros b. constructor; eauto.
  - intros b1 b2 b3 [Hn He Hd Hm] [Hn' He' Hd' Hm']. constructor; eauto.
    intros n nd Hnd. destruct (Hn _ _ Hnd) as (nd' & Hnd' & <-). eauto.
Qed.

Lemma make_domain_spec b ident descr :
  builder_wf b → ∃ d b', make_domain ident descr b = (Ok d, b') ∧ builder_wf b' ∧ bext b b' ∧
    b_domain_identifier_map b' !! ident = Some d.
Proof.
  intros Hwf. pose proof (sr_preserves_elim _ _ b (make_domain_wf ident descr) Hwf) as Hwf'.
  unfold make_domain in *. destruct (b_domain_identifier_map b !! ident) eqn:E; simpl in *.
  - eexists _, _. split; [reflexivity|]. split; [done|]. by split.
  - eexists _, _. split; [reflexivity|]. split; [done|].
    split; [|simpl; by rewrite lookup_insert_eq]. constructor; simpl; eauto.
    + intros. by apply lookup_app_l_Some.
    + intros i d Hd. rewrite lookup_insert_ne; [done|congruence].
Qed.

Lemma push_node_ext b ty info metadata vm :
  bext b (mkBuilder (b_domain b) (b_nodes b ++ [new_node ty]) (b_edges b)
    (b_domain_identifier_map b) vm (b_edges_map b)
    (b_node_info b ++ [info]) (b_node_metadata b ++ [metadata])).
Proof.
  constructor; simpl; eauto. intros n nd Hnd. exists nd. split; [by apply lookup_app_l_Some|done].
Qed.

Lemma add_node_spec b nd :
  builder_wf b → match node_type nd with InAggregator expected => in_values_ok expected | _ => True end →
  ∃ n b', add_node nd b = (Ok n, b') ∧ builder_wf b' ∧ bext b b' ∧
    ∃ nd', b_nodes b' !! n = Some nd' ∧ node_type nd' = node_type nd.
Proof.
  intros Hwf Hin. unfold add_node. destruct (node_type nd) as [| |expected|val] eqn:Hty.
  1,2: eexists _, _; split; [reflexivity|]; simpl;
    split; [by apply (push_node_plain_wf b _ None None)|]; split; [apply push_node_ext|];
    eexists; split; [by apply list_lookup_middle|done].
  - pose proof (sr_preserves_elim _ _ b (make_in_aggregator_wf (elements expected) None None) Hwf) as Hwf'.
    destruct Hin as [Hne Hk]. unfold make_in_aggregator in *.
    destruct (elements expected) as [|v0 vs] eqn:Hel.
    { by apply elements_empty_inv, leibniz_equiv in Hel. }
    assert (∀ v, v ∈ v0 :: vs → v ∈ expected) as Hin by (intros v; rewrite <- Hel; apply elem_of_elements).
    destruct (any _ _) eqn:Hany.
    { apply any_true in Hany as (v & Hv & Hb%bool_decide_eq_true). destruct Hb. apply Hk; apply Hin; set_solver. }
    eexists _, _. split; [reflexivity|]. split; [done|]. split; [apply push_node_ext|].
    eexists. split; [by apply list_lookup_middle|]. cbn [new_node node_type].
    by rewrite <- Hel, list_to_set_elements_L.
  - pose proof (sr_preserves_elim _ _ b (make_value_node_wf val None None) Hwf) as Hwf'.
    unfold make_value_node in *. destruct (b_value_map b !! val) as [n|] eqn:Hv; simpl in *.
    + eexists _, _. split; [reflexivity|]. split; [done|]. split; [done|].
      destruct Hwf as [Hg _]. by apply (wf_value_map _ Hg) in Hv.
    + eexists _, _. split; [reflexivity|]. split; [done|]. split; [apply (push_node_ext b (Value val))|].
      eexists. split; [by apply list_lookup_middle|done].
Qed.

Lemma push_edge_ext b e : bext b (push_edge e b).2.
Proof.
  constructor; eauto.
  - intros n nd Hnd. rewrite push_edge_lookup, Hnd. simpl. eauto.
  - intros i f Hf. simpl. by apply lookup_app_l_Some.
Qed.

(** An edge between existing nodes is there afterwards, unless one with the
    same ends and domain but another strength or relation was there before. *)
Lemma make_edge_spec b p s str rel dom d :
  builder_wf b → p < length (b_nodes b) → s < length (b_nodes b) →
  transpose (resolve_domain b <$> dom) = Ok d →
  (∃ i b', make_edge p s str rel dom b = (Ok i, b') ∧ builder_wf b' ∧ bext b b' ∧
    b_edges b' !! i = Some (mkEdge str rel p s d)) ∨
  make_edge p s str rel dom b = (Err ConflictingEdgeCreated, b).
Proof.
  intros Hwf Hp Hs Hd. pose proof (sr_preserves_elim _ _ b (make_edge_wf p s str rel dom) Hwf) as Hwf'.
  unfold make_edge, ensure_node_exists, DenseMap.contains_key in *.
  rewrite !bool_decide_true in * by done. cbn [mbind result_bind] in *. rewrite Hd in *.
  destruct (b_edges_map b !! (p, s, d)) as [i|] eqn:Hm; simpl in *; last first.
  - left. eexists _, _. split; [reflexivity|]. split; [done|].
    split; [apply (push_edge_ext b (mkEdge str rel p s d))|]. by apply list_lookup_middle.
  - destruct Hwf as (Hg & He & _). apply He in Hm as (e & Hi & Ht). unfold DenseMap.get in *.
    rewrite Hi in *. simpl in *. case_decide as Hc; [left|by right].
    eexists _, _. split; [reflexivity|]. split; [done|]. split; [done|].
    rewrite Hi. destruct Hc as [<- <-], e; unfold edge_triple in Ht; simpl in *. by simplify_eq.
Qed.

(** ** The image of a graph in a builder *)

(** The identifier of the domain of an edge. *)
Definition domain_name (doms : DenseMap.t DomainInfo) (e : Edge) : option DomainIdentifier :=
  d ← edge_domain e; domain_identifier <$> doms !! d.

Definition same_type (nd nd' : Node) : Prop := node_type nd' = node_type nd.

Definition node_image b (nd : Node) (n : NodeId) : Prop :=
  ∃ nd', b_nodes b !! n = Some nd' ∧ same_type nd nd'.

Definition edge_image g b (f : list NodeId) (e : Edge) : Prop :=
  ∃ i e', b_edges b !! i = Some e' ∧ strength e' = strength e ∧ relation e' = relation e ∧
    f !! pred e = Some (pred e') ∧ f !! succ e = Some (succ e') ∧
    domain_name (b_domain b) e' = domain_name (domain g) e.

Lemma node_image_ext b b' nd n : bext b b' → node_image b nd n → node_image b' nd n.
Proof.
  intros Hb (nd' & Hn & Hty). destruct (ext_nodes _ _ Hb _ _ Hn) as (nd'' & Hn' & Hty').
  exists nd''. split; [done|]. unfold same_type in *. congruence.
Qed.

Lemma edge_image_ext g b b' f e :
  builder_wf b → bext b b' → edge_image g b f e → edge_image g b' f e.
Proof.
  intros [Hg _] Hb (i & e' & Hi & Hs & Hr & Hp & Hq & Hd).
  exists i, e'. split; [by apply (ext_edges _ _ Hb)|]. repeat (split; [done|]).
  rewrite <- Hd. unfold domain_name. destruct (edge_domain e') as [d|] eqn:Hed; [|done]. simpl.
  destruct (wf_edges _ Hg _ _ Hi) as (_ & _ & Hlt). rewrite Hed in Hlt. simpl in Hlt.
  apply lookup_lt_is_Some in Hlt as [info Hinfo].
  by rewrite Hinfo, (ext_domain _ _ Hb _ _ Hinfo).
Qed.

Abbreviation conflict := (λ (e : GraphError) (_ : ConstraintGraphBuilder), e = ConflictingEdgeCreated).

(** Later states keep what held before. *)
Definition after b0 (P : ConstraintGraphBuilder → Prop) b : Prop :=
  builder_wf b ∧ bext b0 b ∧ P b.

Lemma add_domains_spec doms b0 :
  sr_triple (after b0 (λ _, True)) (sr_map add_domain doms)
    (λ _, after b0 (λ b, ∀ d, d ∈ doms → is_Some (b_domain_identifier_map b !! domain_identifier d)))
    conflict.
Proof.
  eapply triple_conseq; [apply (triple_map (λ l _, after b0 (λ b, ∀ d, d ∈ l →
    is_Some (b_domain_identifier_map b !! domain_identifier d))))| | |intros ?? Hx; exact Hx].
  - intros l ys x rest _ b (Hwf & Hext & Hl).
    destruct (make_domain_spec b (domain_identifier x) (domain_description x) Hwf)
      as (d & b' & Heq & Hwf' & Hext' & Hd).
    unfold add_domain. rewrite Heq. split; [done|]. split; [by etrans|].
    intros d' [Hd'|Hd']%elem_of_app.
    + destruct (Hl d' Hd') as [i Hi]. exists i. by apply (ext_domain_map _ _ Hext').
    + apply list_elem_of_singleton in Hd' as ->. eauto.
  - intros b (Hwf & Hext & _). split; [done|]. split; [done|]. set_solver.
  - done.
Qed.

Lemma add_nodes_spec g b0 :
  graph_wf g →
  sr_triple (after b0 (λ _, True)) (sr_map add_node (nodes g))
    (λ f, after b0 (λ b, Forall2 (node_image b) (nodes g) f)) conflict.
Proof.
  intros Hg. eapply triple_conseq; [apply (triple_map (λ l ys, after b0 (λ b, Forall2 (node_image b) l ys)))| | |intros ?? Hx; exact Hx].
  - intros l ys x rest Hl b (Hwf & Hext & HF).
    assert (nodes g !! length l = Some x) as Hx by (rewrite Hl; by apply list_lookup_middle).
    destruct (wf_nodes _ Hg _ _ Hx) as (_ & _ & Hty).
    destruct (add_node_spec b x Hwf Hty) as (n & b' & -> & Hwf' & Hext' & Hnd).
    split; [done|]. split; [by etrans|]. apply Forall2_app.
    + eapply Forall2_impl; [exact HF|]. intros nd m. by apply node_image_ext.
    + by repeat constructor.
  - intros b (Hwf & Hext & _). split; [done|]. split; [done|]. constructor.
  - done.
Qed.

Lemma add_edges_spec g f b0 :
  graph_wf g → builder_wf b0 → Forall2 (node_image b0) (nodes g) f →
  (∀ d, d ∈ domain g → is_Some (b_domain_identifier_map b0 !! domain_identifier d)) →
  sr_triple (after b0 (λ _, True)) (sr_for (add_edge g f) (edges g))
    (λ _, after b0 (λ b, ∀ e, e ∈ edges g → edge_image g b f e)) conflict.
Proof.
  intros Hg Hb0 Hf Hdoms.
  eapply triple_conseq; [apply (triple_for_all (λ l, after b0 (λ b, ∀ e, e ∈ l → edge_image g b f e)))| | |intros ?? Hx; exact Hx].
  - intros l e rest Hl b (Hwf & Hext & HI).
    assert (edges g !! length l = Some e) as He by (rewrite Hl; by apply list_lookup_middle).
    destruct (wf_edges _ Hg _ _ He) as (Hp & Hs & Hd).
    assert (∀ n, n < length (nodes g) → ∃ m, f !! n = Some m ∧ m < length (b_nodes b)) as Hren.
    { intros n [nd Hnd]%lookup_lt_is_Some.
      destruct (Forall2_lookup_l _ _ _ _ _ Hf Hnd) as (m & Hm & Him).
      apply (node_image_ext _ _ _ _ Hext) in Him as (nd' & Hnd' & _).
      exists m. split; [done|]. by eapply lookup_lt_Some. }
    destruct (Hren _ Hp) as (p' & Hp' & Hpl), (Hren _ Hs) as (s' & Hs' & Hsl).
    assert (∃ dom d, transpose ((λ d, ok_or DomainNotFound (DenseMap.get (domain g) d)) <$> edge_domain e) = Ok dom ∧
      transpose (resolve_domain b <$> ((λ d, ByIdentifier (domain_identifier d)) <$> dom)) = Ok d ∧
      domain_name (b_domain b) (mkEdge (strength e) (relation e) p' s' d) = domain_name (domain g) e)
      as (dom & d & Hdom & Hd' & Hname).
    { unfold domain_name. destruct (edge_domain e) as [d|]; simpl; [|by eexists None, None].
      apply lookup_lt_is_Some in Hd as [info Hinfo]. unfold DenseMap.get. rewrite Hinfo. simpl.
      destruct (Hdoms info) as [d' Hd'%(ext_domain_map _ _ Hext)]; [apply list_elem_of_lookup; eauto|].
      exists (Some info), (Some d'). split; [done|]. simpl. unfold retrieve_domain_from_identifier.
      rewrite Hd'. split; [done|]. simpl. destruct Hwf as [Hgb _].
      apply (wf_domain_map _ Hgb) in Hd' as (info' & Hinfo' & <-). simpl in Hinfo'. by rewrite Hinfo'. }
    unfold add_edge, sr_bind, sr_lift. rewrite Hp', Hs', Hdom. simpl.
    destruct (make_edge_spec b p' s' (strength e) (relation e) _ d Hwf Hpl Hsl Hd')
      as [(i & b' & -> & Hwf' & Hext' & Hi)| ->]; [|done].
    simpl. split; [done|]. split; [by etrans|]. intros e' [He'|He']%elem_of_app.
    + apply (edge_image_ext _ b); auto.
    + apply list_elem_of_singleton in He' as ->. exists i, (mkEdge (strength e) (relation e) p' s' d).
      repeat (split; [done|]). rewrite <- Hname. unfold domain_name; simpl. destruct d as [d|]; [|done].
      simpl. pose proof (resolve_domain_ok _ _ _ Hwf Hd') as Hlt. simpl in Hlt.
      apply lookup_lt_is_Some in Hlt as [info Hinfo]. by rewrite Hinfo, (ext_domain _ _ Hext' _ _ Hinfo).
  - intros b (Hwf & Hext & _). split; [done|]. split; [done|]. set_solver.
  - done.
Qed.

(** What an earlier phase established survives a later one. *)
Definition stable (R : ConstraintGraphBuilder → Prop) : Prop :=
  ∀ b b', builder_wf b → bext b b' → R b → R b'.

Definition domains_known g b : Prop :=
  ∀ d, d ∈ domain g → is_Some (b_domain_identifier_map b !! domain_identifier d).
Definition nodes_known g f b : Prop := Forall2 (node_image b) (nodes g) f.
Definition edges_known g f b : Prop := ∀ e, e ∈ edges g → edge_image g b f e.

Lemma domains_known_stable g : stable (domains_known g).
Proof.
  intros b b' _ Hext Hb d Hd. destruct (Hb d Hd) as [i Hi]. exists i.
  by apply (ext_domain_map _ _ Hext).
Qed.

Lemma nodes_known_stable g f : stable (nodes_known g f).
Proof.
  intros b b' _ Hext Hb. eapply Forall2_impl; [exact Hb|]. intros nd n. by apply node_image_ext.
Qed.

Lemma edges_known_stable g f : stable (edges_known g f).
Proof. intros b b' Hwf Hext Hb e He. apply (edge_image_ext _ b); auto. Qed.

Lemma stable_and R1 R2 : stable R1 → stable R2 → stable (λ b, R1 b ∧ R2 b).
Proof. intros H1 H2 b b' Hwf Hext [? ?]. split; [by apply (H1 b)|by apply (H2 b)]. Qed.

Lemma stable_true : stable (λ _, True).
Proof. done. Qed.

Lemma phase {A} (R : ConstraintGraphBuilder → Prop) (c : sr ConstraintGraphBuilder GraphError A)
    (P : A → ConstraintGraphBuilder → Prop) :
  stable R →
  (∀ b0, builder_wf b0 → R b0 → sr_triple (after b0 (λ _, True)) c (λ a, after b0 (P a)) conflict) →
  sr_triple (λ b, builder_wf b ∧ R b) c (λ a b, builder_wf b ∧ R b ∧ P a b) conflict.
Proof.
  intros HR Hc b [Hwf Hb]. specialize (Hc b Hwf Hb b ltac:(done)).
  destruct (c b) as [[a|e] b']; [|done]. destruct Hc as (Hwf' & Hext & HP).
  split; [done|]. split; [by apply (HR b)|done].
Qed.

#[local] Hint Resolve domains_known_stable nodes_known_stable edges_known_stable
  stable_and stable_true : combine.

Lemma combine_builder_spec g1 g2 :
  graph_wf g1 → graph_wf g2 →
  sr_triple (λ b, builder_wf b ∧ True) (combine_builder g1 g2)
    (λ f b, builder_wf b ∧ nodes_known g1 f.1 b ∧ nodes_known g2 f.2 b ∧
       edges_known g1 f.1 b ∧ edges_known g2 f.2 b) conflict.
Proof.
  intros Hg1 Hg2. unfold combine_builder, DenseMap.values.
  set (R0 := λ _ : ConstraintGraphBuilder, True).
  set (R1 := λ b, R0 b ∧ domains_known g1 b).
  set (R2 := λ b, R1 b ∧ domains_known g2 b).
  set (R3 := λ f b, R2 b ∧ nodes_known g1 f b).
  set (R4 := λ f f' b, R3 f b ∧ nodes_known g2 f' b).
  set (R5 := λ f f' b, R4 f f' b ∧ edges_known g1 f b).
  eapply (triple_bind _ _ _ (λ _ b, builder_wf b ∧ R1 b)).
  { apply (phase R0); [apply stable_true|]. intros. apply add_domains_spec. }
  intros ds1. eapply (triple_bind _ _ _ (λ _ b, builder_wf b ∧ R2 b)).
  { apply (phase R1); [apply stable_and; auto with combine|]. intros. apply add_domains_spec. }
  assert (stable R2) as HR2 by (repeat apply stable_and; auto with combine).
  intros ds2. eapply (triple_bind _ _ _ (λ f b, builder_wf b ∧ R3 f b)).
  { apply (phase R2); [done|]. intros. by apply add_nodes_spec. }
  intros f1. eapply (triple_bind _ _ _ (λ f b, builder_wf b ∧ R4 f1 f b)).
  { apply (phase (R3 f1)); [apply stable_and; auto with combine|]. intros. by apply add_nodes_spec. }
  assert (∀ f f', stable (R4 f f')) as HR4 by (intros; repeat apply stable_and; auto with combine).
  intros f2. eapply (triple_bind _ _ _ (λ _ b, builder_wf b ∧ R5 f1 f2 b)).
  { apply (phase (R4 f1 f2)); [done|]. intros b0 Hwf ((((_ & H1) & H2) & H3) & H4).
    by apply add_edges_spec. }
  intros u1. eapply (triple_bind _ _ _ (λ _ b, builder_wf b ∧ R5 f1 f2 b ∧ edges_known g2 f2 b)).
  { apply (phase (R5 f1 f2)); [apply stable_and; auto with combine|].
    intros b0 Hwf (((((_ & H1) & H2) & H3) & H4) & H5). by apply add_edges_spec. }
  intros u2. apply triple_ret. subst R5 R4 R3. simpl. tauto.
Qed.

(** [f] renumbers the nodes of [g] into [h], keeping node types and edges
    with their strength, relation and domain identifier. *)
Definition embeds g (f : list NodeId) (h : ConstraintGraph) : Prop :=
  Forall2 (λ nd n, ∃ nd', nodes h !! n = Some nd' ∧ node_type nd' = node_type nd) (nodes g) f ∧
  ∀ e, e ∈ edges g → ∃ i e', edges h !! i = Some e' ∧
    strength e' = strength e ∧ relation e' = relation e ∧
    f !! pred e = Some (pred e') ∧ f !! succ e = Some (succ e') ∧
    domain_name (domain h) e' = domain_name (domain g) e.

Lemma combine_spec g1 g2 :
  graph_wf g1 → graph_wf g2 →
  match combine g1 g2 with
  | Ok h => graph_wf h ∧ ∃ f1 f2, embeds g1 f1 h ∧ embeds g2 f2 h
  | Err e => e = ConflictingEdgeCreated
  end.
Proof.
  intros Hg1 Hg2. unfold combine.
  pose proof (combine_builder_spec g1 g2 Hg1 Hg2 builder_new (conj builder_new_wf I)) as H.
  destruct (combine_builder g1 g2 builder_new) as [[f|e] b]; [|done].
  destruct H as ([Hg _] & Hn1 & Hn2 & He1 & He2). split; [done|].
  exists f.1, f.2. by repeat split.
Qed.

End combine.
