(* ===== verification/GraphTheorems.v ===== *)
(** * The constraint graph: theorems

    The properties of the constraint graph crate, with the concrete graph the
    witnesses are evaluated on. *)

From S2P Require Import Prelude GraphTypes GraphBuilder GraphCheck GraphCheckFacts GraphSpec GraphCombine.

Section lemmas.
Context `{VN : ValueNode}.

Lemma check_node_inner_computes g ctx ds rank T fuel n nd rel str st :
  graph_wf g → ranked g rank → solution g ctx ds T → nodes g !! n = Some nd →
  length (nodes g) < fuel → cycle_map st = ∅ → memo_ok T ∅ st →
  ∃ res st', check_node_inner fuel g ctx ds n rel str st = Some (res, st') ∧
    verdict (T n rel str) res ∧ memo_ok T ∅ st' ∧ cycle_map st' = ∅.
Proof.
  intros Hwf Hr HT Hnd Hlt Hc Hm.
  destruct (check_node_inner_returns g ctx ds fuel n rel str st) as (res & st' & Heq & _).
  { pose proof (pending_bound g st). lia. }
  destruct (check_node_inner_correct g ctx ds T rank Hwf Hr HT (fuel + S (rank n))
    n nd rel str ∅ st) as (res' & st'' & Heq' & Hv & Hm' & Hc'); [done|lia| |done|].
  { split; [set_solver|]. intros m. rewrite Hc, lookup_empty. by intros []. }
  assert (Some (res', st'') = Some (res, st')) as [= -> ->].
  { rewrite <- Heq'. by apply (check_node_inner_fuel g ctx ds fuel); [lia|]. }
  exists res, st'. by rewrite Hc in Hc'.
Qed.

Lemma memo_ok_empty T X : memo_ok T X (empty_state (VN:=VN)).
Proof. intros n rel str res. simpl. by rewrite lookup_empty. Qed.

Lemma reachable_builder_wf b : reachable b → builder_wf b.
Proof.
  unfold reachable. generalize builder_new_wf. intros Hwf Hr. revert Hwf.
  induction Hr; eauto using builder_step_wf.
Qed.

Lemma verdict_is_ok {A} b (res : result GraphError A) : verdict b res → is_ok res = b.
Proof. destruct res as [|[]]; simpl; congruence || done. Qed.

(** [C1] For a well-formed graph without cycles, [check_node] with more fuel than there
    are nodes returns, from any memo table that agrees with the declarative
    meaning [T] of the graph, exactly the verdict [T] gives: [Ok] when the
    node is satisfied and an analysis error otherwise, and it leaves a memo
    table that still agrees and an empty cycle map. *)
Theorem check_node_computes_solution g ctx domains ds rank T fuel n nd rel str st :
  graph_wf g → ranked g rank → resolve_domains g domains = Ok ds → solution g ctx ds T →
  nodes g !! n = Some nd → length (nodes g) < fuel → cycle_map st = ∅ → memo_ok T ∅ st →
  ∃ res st', check_node fuel g ctx n rel str domains st = Some (res, st') ∧
    verdict (T n rel str) res ∧ memo_ok T ∅ st' ∧ cycle_map st' = ∅.
Proof.
  intros Hwf Hr Hd. unfold check_node. rewrite Hd. intros. by eapply check_node_inner_computes.
Qed.

(** [C28] [check_node] always returns: on any graph, cyclic or malformed, from
    any memo table and cycle map, fuel above the number of nodes gives an
    answer, and it is the answer of every larger amount of fuel. *)
Theorem check_node_terminates g ctx n rel str domains st fuel :
  length (nodes g) < fuel →
  ∃ o, check_node fuel g ctx n rel str domains st = Some o ∧
    ∀ fuel', fuel ≤ fuel' → check_node fuel' g ctx n rel str domains st = Some o.
Proof.
  intros Hlt. unfold check_node. destruct (resolve_domains g domains) as [ds|e]; [|by eauto].
  destruct (check_node_inner_returns g ctx ds fuel n rel str st) as (res & st' & Heq & _).
  { pose proof (pending_bound g st). lia. }
  exists (res, st'). split; [done|]. intros fuel' Hle. by apply (check_node_inner_fuel g ctx ds fuel).
Qed.

(** An analysis error that [check_node] returns refers to a trace that the
    memo table it leaves still holds, so the weak reference in the error is
    alive as long as the caller keeps the table. *)
Theorem check_node_trace_alive fuel g ctx n rel str domains st t st' :
  check_node fuel g ctx n rel str domains st = Some (Err (AnalysisError t), st') →
  ∃ k, memo st' !! k = Some (Err t).
Proof.
  unfold check_node. destruct (resolve_domains g domains) as [ds|e] eqn:Hd.
  - destruct fuel as [|fuel]; [done|]. simpl. intros H%check_node_body_alive. by apply H.
  - intros [= -> <-]. unfold resolve_domains in Hd. destruct domains as [l|]; [|done]. simpl in Hd.
    destruct (try_collect _ l) eqn:E; [done|]. simplify_eq. exfalso. revert E.
    induction l as [|i l IH]; simpl; [done|].
    destruct (domain_identifier_map g !! i); simpl; [|done].
    destruct (try_collect _ l); simpl; [done|]. intros [= ->]. by apply IH.
Qed.

(** Whether a check passed; [None] if it did not return. *)
Definition passes (o : option (result GraphError unit * check_state)) : option bool :=
  (λ o, is_ok o.1) <$> o.

(** A memo table can be shared: a check of node [m] with the tables that a
    check of node [n] left returns, with the verdict fresh tables give. *)
Theorem memo_sharing_sound g ctx domains rank fuel n ndn m ndm rel1 str1 rel2 str2 :
  graph_wf g → ranked g rank → nodes g !! n = Some ndn → nodes g !! m = Some ndm →
  length (nodes g) < fuel →
  ∃ b, passes (check_node fuel g ctx m rel2 str2 domains empty_state) = Some b ∧
    passes ('(_, st) ← check_node fuel g ctx n rel1 str1 domains empty_state;
            check_node fuel g ctx m rel2 str2 domains st) = Some b.
Proof.
  intros Hwf Hr Hn Hm Hlt. unfold check_node, passes.
  destruct (resolve_domains g domains) as [ds|e]; [|by eauto].
  set (T := λ n, eval g ctx ds (S (rank n)) n).
  pose proof (eval_solution g ctx ds rank Hr) as HT. fold T in HT.
  destruct (check_node_inner_computes g ctx ds rank T fuel n ndn rel1 str1 empty_state)
    as (? & st1 & E1 & _ & Hm1 & Hc1); auto using memo_ok_empty.
  destruct (check_node_inner_computes g ctx ds rank T fuel m ndm rel2 str2 empty_state)
    as (? & ? & E3 & Hv3 & _); auto using memo_ok_empty.
  destruct (check_node_inner_computes g ctx ds rank T fuel m ndm rel2 str2 st1)
    as (? & ? & E2 & Hv2 & _); auto.
  exists (T m rel2 str2). rewrite E1, E3. simpl. rewrite E2. simpl.
  by rewrite (verdict_is_ok _ _ Hv2), (verdict_is_ok _ _ Hv3).
Qed.

(** [C29] Every sequence of builder calls, failing calls included, leaves a graph
    whose adjacency lists, value table and domain table agree with its
    vectors, whose edges have existing ends, and whose 'in' aggregators have
    values of a single key. *)
Theorem built_graph_wf b : reachable b → graph_wf (build b) ∧ edges_map_ok b ∧ info_ok b.
Proof. apply reachable_builder_wf. Qed.

(** A deserialised graph answers every check as the original does. *)
Lemma deserialised_verdict g ctx domains rank fuel n nd rel str :
  graph_wf g → ranked g rank → nodes g !! n = Some nd → length (nodes g) < fuel →
  ∃ b, passes (check_node fuel g ctx n rel str domains empty_state) = Some b ∧
    passes (check_node fuel (from_wire (to_wire g)) ctx n rel str domains empty_state) = Some b.
Proof.
  intros Hwf Hr Hn Hlt. unfold check_node, passes.
  replace (resolve_domains (from_wire (to_wire g)) domains) with (resolve_domains g domains) by done.
  destruct (resolve_domains g domains) as [ds|e]; [|by eauto].
  set (T := λ n, eval g ctx ds (S (rank n)) n).
  pose proof (eval_solution g ctx ds rank Hr) as HT. fold T in HT.
  destruct (check_node_inner_computes g ctx ds rank T fuel n nd rel str empty_state)
    as (? & ? & E1 & Hv1 & _); auto using memo_ok_empty.
  destruct (check_node_inner_computes (from_wire (to_wire g)) ctx ds rank T fuel n nd rel str empty_state)
    as (? & ? & E2 & Hv2 & _); auto using memo_ok_empty, from_wire_wf.
  exists (T n rel str). rewrite E1, E2. simpl.
  by rewrite (verdict_is_ok _ _ Hv1), (verdict_is_ok _ _ Hv2).
Qed.

(** [C31] Deserialising a serialised graph gives the graph back with the value
    table the builder had kept, only the diagnostics being dropped, and the
    deserialised graph answers every check as the original does. *)
Theorem wire_roundtrip g :
  graph_wf g →
  from_wire (to_wire g) =
    mkGraph (domain g) (domain_identifier_map g) (nodes g) (edges g) (value_map g)
      DenseMap.new DenseMap.new ∧
  (∀ ctx domains rank fuel n nd rel str, ranked g rank → nodes g !! n = Some nd → length (nodes g) < fuel →
     ∃ b, passes (check_node fuel g ctx n rel str domains empty_state) = Some b ∧
       passes (check_node fuel (from_wire (to_wire g)) ctx n rel str domains empty_state) = Some b).
Proof.
  intros Hwf. split; [|by intros; eapply deserialised_verdict].
  unfold from_wire, to_wire; simpl. by rewrite value_map_rebuilt.
Qed.

(** [C30] Combining two well-formed graphs either reports a conflicting edge, and
    no other error, or gives a well-formed graph in which both are embedded:
    node types, and edges with their strength, relation and domain name. *)
Theorem combine_embeds_both g1 g2 :
  graph_wf g1 → graph_wf g2 →
  match combine g1 g2 with
  | Ok h => graph_wf h ∧ ∃ f1 f2, embeds g1 f1 h ∧ embeds g2 f2 h
  | Err e => e = ConflictingEdgeCreated
  end.
Proof. apply combine_spec. Qed.

(** [make_edge] between existing nodes: either the edge with exactly the
    requested strength, relation, ends and resolved domain is in the graph
    afterwards and everything built before is kept, or an edge with the same
    ends and domain but another strength or relation was there, and nothing
    changes. *)
Theorem make_edge_outcome b p s str rel dom d :
  builder_wf b → p < length (b_nodes b) → s < length (b_nodes b) →
  transpose (resolve_domain b <$> dom) = Ok d →
  (∃ i b', make_edge p s str rel dom b = (Ok i, b') ∧ bext b b' ∧
    b_edges b' !! i = Some (mkEdge str rel p s d)) ∨
  (make_edge p s str rel dom b = (Err ConflictingEdgeCreated, b) ∧
   ∃ i e, b_edges b !! i = Some e ∧ edge_triple e = (p, s, d) ∧
     (strength e ≠ str ∨ relation e ≠ rel)).
Proof.
  intros Hwf Hp Hs Hd.
  destruct (make_edge_spec b p s str rel dom d Hwf Hp Hs Hd) as [(i & b' & H1 & _ & H2 & H3)|Hc].
  { left. eauto 10. }
  right. split; [done|]. unfold make_edge, ensure_node_exists, DenseMap.contains_key in Hc.
  rewrite !bool_decide_true in Hc by done. cbn [mbind result_bind] in Hc. rewrite Hd in Hc.
  destruct (b_edges_map b !! (p, s, d)) as [i|] eqn:Hm; simpl in Hc; [|done].
  destruct Hwf as (_ & He & _). apply He in Hm as (e & Hi & Ht). unfold DenseMap.get in Hc.
  rewrite Hi in Hc. simpl in Hc. case_decide as Hne; [done|]. exists i, e. split; [done|]. split; [done|].
  destruct (decide (strength e = str)); [right; naive_solver|by left].
Qed.

End lemmas.

Lemma ranked_check `{VN : ValueNode} (g : ConstraintGraph) rank :
  forallb (λ e, rank (pred e) <? rank (succ e)) (edges g) = true → ranked g rank.
Proof.
  intros Hall i e Hi. rewrite forallb_forall in Hall. apply Nat.ltb_lt, Hall.
  apply list_elem_of_In, list_elem_of_lookup. eauto.
Qed.

(** ** A concrete graph

    Stripe may be chosen when the method is a card, the currency is USD and
    the billing country, if known, is the US or Canada. *)

Module GraphExample.

#[export] Instance payment_values : ValueNode := {|
  key := string; value := string * string; get_key := fst
|}.

Definition b1 := (make_domain "eligibility" "connector eligibility" builder_new).2.
Definition b2 := (make_value_node (NodeValue_Value ("method", "card")) (Some "card"%string) None b1).2.
Definition b3 := (make_value_node (NodeValue_Value ("currency", "USD")) None None b2).2.
Definition b4 := (make_in_aggregator [("country", "US"); ("country", "CA")] None None b3).2.
Definition b5 := (make_all_aggregator
  [(0, Relation.Positive, Strong); (1, Relation.Positive, Normal); (2, Relation.Positive, Weak)]
  None None (Some 0) b4).2.
Definition b6 := (make_value_node (NodeValue_Value ("connector", "stripe")) None None b5).2.
Definition b7 := (make_edge 3 4 Strong Relation.Positive (Some (ByIdentifier "eligibility")) b6).2.

Definition graph : ConstraintGraph := build b7.

Definition context (present : list (string * string)) : CheckingContext := {|
  check_presence v _ := match v with
                        | NodeValue_Value v => bool_decide (v ∈ present)
                        | NodeValue_Key k => bool_decide (k ∈ present.*1)
                        end;
  get_values_by_key k :=
    match List.filter (λ v, bool_decide (v.1 = k)) present with [] => None | l => Some l end;
|}.

Definition card_usd := context [("method", "card"); ("currency", "USD"); ("connector", "stripe")].
Definition rank (n : nat) : nat := n.
Definition truth := λ n, eval graph card_usd (Some [0]) (S (rank n)) n.
Definition all_domains : option (list string) := Some ["eligibility"%string].

Lemma graph_reachable : reachable b7.
Proof.
  unfold reachable. do 7 (eapply rtc_r; [|constructor]). apply rtc_refl.
Qed.

Lemma graph_is_wf : graph_wf graph.
Proof. apply (reachable_builder_wf b7 graph_reachable). Qed.

Lemma graph_is_ranked : ranked graph rank.
Proof. apply ranked_check. by_evaluation. Qed.

Lemma truth_solution : solution graph card_usd (Some [0]) truth.
Proof. apply eval_solution, graph_is_ranked. Qed.

(** The verdicts on this graph, evaluated. *)
Example stripe_ok :
  passes (check_node 6 graph card_usd 4 Relation.Positive Strong all_domains empty_state) = Some true.
Proof. by_evaluation. Qed.

Example stripe_rejected :
  passes (check_node 6 graph (context [("connector", "stripe"); ("method", "card"); ("currency", "EUR")])
      4 Relation.Positive Strong all_domains empty_state) = Some false.
Proof. by_evaluation. Qed.

Definition node_at (n : nat) : Node := default (new_node AllAggregator) (nodes graph !! n).

Lemma check_node_computes_solution_witness :
  ∃ res st', check_node 6 graph card_usd 4 Relation.Positive Strong all_domains empty_state =
      Some (res, st') ∧
    verdict (truth 4 Relation.Positive Strong) res ∧ memo_ok truth ∅ st' ∧ cycle_map st' = ∅.
Proof.
  apply (check_node_computes_solution graph card_usd all_domains (Some [0]) rank truth 6 4 (node_at 4)).
  - exact graph_is_wf.
  - exact graph_is_ranked.
  - vm_compute. reflexivity.
  - exact truth_solution.
  - vm_compute. reflexivity.
  - vm_compute. lia.
  - reflexivity.
  - apply memo_ok_empty.
Defined.

Lemma check_node_terminates_witness :
  ∃ o, check_node 6 graph card_usd 4 Relation.Positive Strong all_domains empty_state = Some o ∧
    ∀ fuel', 6 ≤ fuel' →
      check_node fuel' graph card_usd 4 Relation.Positive Strong all_domains empty_state = Some o.
Proof. apply (check_node_terminates graph card_usd). vm_compute. lia. Defined.

Lemma check_node_trace_alive_witness :
  match check_node 6 graph (context []) 4 Relation.Positive Strong all_domains empty_state with
  | Some (Err (AnalysisError t), st') => ∃ k, memo st' !! k = Some (Err t)
  | _ => False
  end.
Proof.
  assert (passes (check_node 6 graph (context []) 4 Relation.Positive Strong all_domains empty_state)
    = Some false) as Hp by (vm_compute; reflexivity).
  assert (match check_node 6 graph (context []) 4 Relation.Positive Strong all_domains empty_state with
    | Some (Err (AnalysisError _), _) => true | _ => false end = true) as Ha by (vm_compute; reflexivity).
  destruct (check_node 6 graph (context []) 4 Relation.Positive Strong all_domains empty_state)
    as [[[u|[| | | | | | | |t]] st']|] eqn:E; try discriminate.
  exact (check_node_trace_alive 6 graph (context []) 4 Relation.Positive Strong all_domains
    empty_state t st' E).
Defined.

Lemma memo_sharing_sound_witness :
  ∃ b, passes (check_node 6 graph card_usd 4 Relation.Positive Strong all_domains empty_state) = Some b ∧
    passes ('(_, st) ← check_node 6 graph card_usd 3 Relation.Positive Strong all_domains empty_state;
            check_node 6 graph card_usd 4 Relation.Positive Strong all_domains st) = Some b.
Proof.
  apply (memo_sharing_sound graph card_usd all_domains rank 6 3 (node_at 3) 4 (node_at 4)
    Relation.Positive Strong Relation.Positive Strong);
    [exact graph_is_wf|exact graph_is_ranked|vm_compute; reflexivity|vm_compute; reflexivity
    |vm_compute; lia].
Defined.

Lemma built_graph_wf_witness : graph_wf (build b7) ∧ edges_map_ok b7 ∧ info_ok b7.
Proof. apply (built_graph_wf b7). exact graph_reachable. Defined.

Lemma wire_roundtrip_witness :
  value_map (from_wire (to_wire graph)) = value_map graph ∧
  ∃ b, passes (check_node 6 graph card_usd 4 Relation.Positive Strong all_domains empty_state) = Some b ∧
    passes (check_node 6 (from_wire (to_wire graph)) card_usd 4 Relation.Positive Strong
      all_domains empty_state) = Some b.
Proof.
  destruct (wire_roundtrip graph graph_is_wf) as [Heq Hsame]. split; [by rewrite Heq|].
  apply (Hsame card_usd all_domains rank 6 4 (node_at 4) Relation.Positive Strong);
    [exact graph_is_ranked|vm_compute; reflexivity|vm_compute; lia].
Defined.

Lemma combine_embeds_both_witness :
  ∃ h, combine graph graph = Ok h ∧ graph_wf h.
Proof.
  pose proof (combine_embeds_both graph graph graph_is_wf graph_is_wf) as H.
  assert (is_ok (combine graph graph) = true) as Hok by (vm_compute; reflexivity).
  destruct (combine graph graph) as [h|e].
  - exists h. split; [reflexivity|]. apply H.
  - discriminate Hok.
Defined.

Lemma make_edge_outcome_witness :
  (∃ i b', make_edge 0 4 Weak Relation.Positive None b7 = (Ok i, b') ∧ bext b7 b' ∧
    b_edges b' !! i = Some (mkEdge Weak Relation.Positive 0 4 None)) ∨
  (make_edge 0 4 Weak Relation.Positive None b7 = (Err ConflictingEdgeCreated, b7) ∧
   ∃ i e, b_edges b7 !! i = Some e ∧ edge_triple e = (0, 4, None) ∧
     (strength e ≠ Weak ∨ relation e ≠ Relation.Positive)).
Proof.
  apply (make_edge_outcome b7 0 4 Weak Relation.Positive None None).
  - exact (reachable_builder_wf b7 graph_reachable).
  - vm_compute. lia.
  - vm_compute. lia.
  - reflexivity.
Defined.

End GraphExample.
