(* ===== verification/GraphDenote.v ===== *)
(** * The meaning of nodes while a graph is built

    A node that a builder creates has a truth value that later operations do not
    change, as long as they add edges only into nodes that they create and into
    the nodes of root values.  [holds] states the truth of a node under every
    later extension of the builder; each builder operation has a rule for it. *)

From S2P Require Import Prelude GraphTypes GraphBuilder GraphCheck GraphCheckFacts GraphSpec GraphCombine.

Section denote.
Context `{VN : ValueNode} (ctx : CheckingContext) (root : NodeValue → bool).
Implicit Types b : ConstraintGraphBuilder.
Implicit Types T : NodeId → Relation.t → Strength → bool.

Definition is_root (ty : NodeType) : bool := match ty with Value v => root v | _ => false end.

Definition typed b (n : NodeId) (ty : NodeType) : Prop :=
  ∃ nd, b_nodes b !! n = Some nd ∧ node_type nd = ty.

(** The edges into a node of a builder. *)
Abbreviation into b n := (all_incoming (build b) n).

(** ** Layered builders: edges lead from older nodes to aggregators, and to
    roots, which have no edge out of them *)

Definition edge_layered b (e : Edge) : Prop :=
  edge_domain e = None ∧
  (∃ ty, typed b (pred e) ty ∧ is_root ty = false) ∧
  (∃ ty, typed b (succ e) ty ∧
    (is_root ty = true ∨ (ty = AllAggregator ∨ ty = AnyAggregator) ∧ pred e < succ e)).

Record layered b : Prop := {
  ly_wf : builder_wf b;
  ly_edges : ∀ e, e ∈ b_edges b → edge_layered b e;
}.

(** An extension that adds no edge into an old node that is not a root. *)
Record kext b b' : Prop := {
  kx_ext : bext b b';
  kx_into : ∀ n ty, typed b n ty → is_root ty = false → into b' n = into b n;
}.

Lemma typed_ext b b' n ty : bext b b' → typed b n ty → typed b' n ty.
Proof. intros Hb (nd & Hn & <-). destruct (ext_nodes _ _ Hb _ _ Hn) as (nd' & ? & ?). by exists nd'. Qed.

Lemma typed_fun b n ty ty' : typed b n ty → typed b n ty' → ty = ty'.
Proof. intros (nd & Hn & <-) (nd' & Hn' & <-). congruence. Qed.

Lemma typed_lt b n ty : typed b n ty → n < length (b_nodes b).
Proof. intros (nd & Hn & _). by apply lookup_lt_Some in Hn. Qed.

#[export] Instance kext_preorder : PreOrder kext.
Proof.
  split.
  - intros b. by split.
  - intros b1 b2 b3 [H1 H2] [H3 H4]. split; [by etrans|]. intros n ty Hty Hr.
    rewrite (H4 n ty) by (done || by eapply typed_ext). by eapply H2.
Qed.

Lemma edge_layered_ext b b' e : bext b b' → edge_layered b e → edge_layered b' e.
Proof. intros Hb (H1 & (t & H2 & H3) & (t' & H4 & H5)). split_and!; eauto using typed_ext. Qed.

(** ** A layered graph has no cycle *)

Definition layer b (n : NodeId) : nat :=
  match b_nodes b !! n with
  | Some nd => if is_root (node_type nd) then length (b_nodes b) else n
  | None => n
  end.

Lemma layer_typed b n ty : typed b n ty → layer b n = if is_root ty then length (b_nodes b) else n.
Proof. intros (nd & Hn & <-). unfold layer. by rewrite Hn. Qed.

Lemma layered_ranked b : layered b → ranked (build b) (layer b).
Proof.
  intros [_ He] i e Hi. destruct (He e) as (_ & (t & Ht & Hr) & (t' & Ht' & Hs)).
  { by eapply list_elem_of_lookup_2. }
  rewrite (layer_typed _ _ _ Ht), (layer_typed _ _ _ Ht'), Hr. pose proof (typed_lt _ _ _ Ht).
  destruct Hs as [->|[[-> | ->] Hlt]]; [done|done|done].
Qed.

Lemma layer_lt b n ty : typed b n ty → layer b n ≤ length (b_nodes b).
Proof. intros Ht. rewrite (layer_typed _ _ _ Ht). pose proof (typed_lt _ _ _ Ht). destruct (is_root ty); lia. Qed.

(** ** The truth of a node under every extension *)

Definition holds b (p : NodeId * Relation.t * Strength) (v : bool) : Prop :=
  (∃ ty, typed b p.1.1 ty ∧ is_root ty = false) ∧
  ∀ b' T, kext b b' → builder_wf b' → solution (build b') ctx None T → T p.1.1 p.1.2 p.2 = v.

Lemma holds_ext b b' p v : kext b b' → holds b p v → holds b' p v.
Proof.
  intros Hb [(ty & Ht & Hr) Hv]. split.
  - exists ty. split; [|done]. eapply typed_ext; [apply Hb|done].
  - intros b'' T Hb'. apply Hv. by etrans.
Qed.

Lemma Forall2_holds_ext b b' ps vs : kext b b' → Forall2 (holds b) ps vs → Forall2 (holds b') ps vs.
Proof. intros Hb Hps. eapply Forall2_impl; [exact Hps|]. intros p v. by apply holds_ext. Qed.

(** A builder whose edges and older nodes are kept. *)
Lemma push_node_kext b ty info metadata vm :
  kext b (mkBuilder (b_domain b) (b_nodes b ++ [new_node ty]) (b_edges b)
    (b_domain_identifier_map b) vm (b_edges_map b)
    (b_node_info b ++ [info]) (b_node_metadata b ++ [metadata])).
Proof. split; [apply push_node_ext|done]. Qed.

Lemma layered_same_edges b b' :
  bext b b' → b_edges b' = b_edges b → builder_wf b' → layered b → layered b'.
Proof.
  intros Hb He Hwf [_ Hl]. split; [done|]. intros e. rewrite He. intros Hin.
  by eapply edge_layered_ext; [|apply Hl].
Qed.

(** Nothing leads into a node that is neither an aggregator of nodes nor a root. *)
Lemma layered_into_nil b n ty :
  layered b → typed b n ty → is_root ty = false → ty ≠ AllAggregator → ty ≠ AnyAggregator → into b n = [].
Proof.
  intros Hl Ht Hr H1 H2. destruct (into b n) as [|e es] eqn:Hin; [done|].
  assert (e ∈ into b n) as He by (rewrite Hin; set_solver).
  apply elem_of_all_incoming in He as [He Hs]. destruct (ly_edges _ Hl e He) as (_ & _ & (t & Ht' & Hd)).
  rewrite Hs in Ht'. rewrite (typed_fun _ _ _ _ Ht' Ht) in Hd. destruct Hd as [?|[[?|?] _]]; congruence.
Qed.

(** The same in every extension. *)
Lemma kext_into b b' n ty : kext b b' → typed b n ty → is_root ty = false → into b' n = into b n.
Proof. intros Hb. apply Hb. Qed.

Lemma incoming_nil (g : ConstraintGraph) n : all_incoming g n = [] → incoming g None n = [].
Proof. unfold incoming. by intros ->. Qed.

(** ** Value nodes *)

Lemma make_value_node_holds b v info metadata :
  layered b →
  ∃ n b', make_value_node v info metadata b = (Ok n, b') ∧ layered b' ∧ kext b b' ∧ typed b' n (Value v) ∧
    (root v = false → ∀ rel str, holds b' (n, rel, str) (Bool.eqb (check_presence ctx v str) (Relation.to_bool rel))) ∧
    b_value_map b' = <[v := n]> (b_value_map b) ∧ (b_value_map b !! v = None → into b' n = []) ∧
    (∀ m, into b' m = into b m).
Proof.
  intros Hl. pose proof (sr_preserves_elim _ _ b (make_value_node_wf v info metadata) (ly_wf _ Hl)) as Hwf'.
  assert (∃ n b', make_value_node v info metadata b = (Ok n, b') ∧ kext b b' ∧ b_edges b' = b_edges b ∧
    typed b' n (Value v) ∧ b_value_map b' = <[v := n]> (b_value_map b) ∧
    (b_value_map b !! v = None → n = length (b_nodes b))) as (n & b' & Heq & Hk & He & Ht & Hm & Hn).
  { unfold make_value_node. destruct (b_value_map b !! v) as [n|] eqn:Hv.
    - exists n, b. split_and!; [done|done|done| |by rewrite insert_id|done].
      destruct (ly_wf _ Hl) as [Hg _]. by apply (wf_value_map _ Hg) in Hv as (nd & Hnd & Hty); exists nd.
    - eexists _, _. split; [reflexivity|]. split_and!; [apply (push_node_kext b (Value v))|done| |done|done].
      eexists. split; [by apply list_lookup_middle|done]. }
  exists n, b'. rewrite Heq in Hwf'. simpl in Hwf'.
  assert (layered b') as Hl' by (eapply layered_same_edges; [apply Hk|done..]).
  split_and!; [done|done|done|done| |done| |].
  - intros Hr rel str. split; [by exists (Value v)|]. intros b'' T Hk' Hwf'' HT.
    destruct (typed_ext _ _ _ _ (kx_ext _ _ Hk') Ht) as (nd & Hnd & Hty).
    cbn [fst snd]. rewrite (HT n nd rel str Hnd). unfold sat_node. rewrite Hty.
    assert (into b'' n = []) as Hin.
    { rewrite (kext_into _ _ _ _ Hk' Ht Hr). by eapply layered_into_nil. }
    unfold sat_strong, sat_some. rewrite (incoming_nil _ _ Hin), Hin. simpl. by rewrite !andb_true_r.
  - intros Hnone. destruct (into b' n) as [|e es] eqn:Hin; [done|].
    assert (e ∈ into b' n) as Hine by (rewrite Hin; set_solver).
    apply elem_of_all_incoming in Hine as [Hine Hs]. simpl in Hine. rewrite He in Hine.
    destruct (ly_edges _ Hl e Hine) as (_ & _ & (t & Ht' & _)). apply typed_lt in Ht'.
    rewrite Hs, (Hn Hnone) in Ht'. lia.
  - intros m. unfold all_incoming. simpl. by rewrite He.
Qed.

(** ** Aggregators of values *)

(** The truth of an aggregator of values. *)
Definition in_holds (vs : list value) (rel : Relation.t) (str : Strength) : bool :=
  match vs with
  | [] => false
  | v0 :: _ =>
      match get_values_by_key ctx (get_key v0) with
      | None => bool_decide (str = Weak)
      | Some vals => all (λ v, Bool.eqb (bool_decide (v ∈ vs)) (Relation.to_bool rel)) vals
      end
  end.

Lemma sat_in_list vs rel str :
  vs ≠ [] → (∀ v w, v ∈ vs → w ∈ vs → get_key v = get_key w) →
  sat_in ctx rel str (list_to_set vs) = in_holds vs rel str.
Proof.
  intros Hne Hk. unfold sat_in, in_holds. destruct vs as [|v0 vs]; [done|].
  destruct (elements (list_to_set (v0 :: vs))) as [|w ws] eqn:Hel.
  { apply elements_empty_inv in Hel. set_solver. }
  assert (w ∈ v0 :: vs) as Hw.
  { apply (elem_of_list_to_set (C := gset value)). rewrite <- elem_of_elements, Hel. set_solver. }
  rewrite (Hk w v0) by set_solver. destruct (get_values_by_key ctx (get_key v0)) as [vals|]; [|done].
  apply all_ext. intros v _. f_equal. apply bool_decide_ext. apply elem_of_list_to_set.
Qed.

Lemma make_in_aggregator_holds b vs info metadata :
  layered b → vs ≠ [] → (∀ v w, v ∈ vs → w ∈ vs → get_key v = get_key w) →
  ∃ n b', make_in_aggregator vs info metadata b = (Ok n, b') ∧ layered b' ∧ kext b b' ∧
    typed b' n (InAggregator (list_to_set vs)) ∧ b_value_map b' = b_value_map b ∧
    (∀ m, into b' m = into b m) ∧
    ∀ rel str, holds b' (n, rel, str) (in_holds vs rel str).
Proof.
  intros Hl Hne Hk. pose proof (sr_preserves_elim _ _ b (make_in_aggregator_wf vs info metadata) (ly_wf _ Hl)) as Hwf'.
  unfold make_in_aggregator in *. destruct vs as [|v0 vs]; [done|].
  destruct (any _ _) eqn:Hany.
  { apply any_true in Hany as (v & Hv & Hb%bool_decide_eq_true). destruct Hb. apply Hk; set_solver. }
  eexists _, _. split; [reflexivity|].
  assert (layered (push_node (InAggregator (list_to_set (v0 :: vs))) info metadata b).2) as Hl'.
  { eapply layered_same_edges; [apply push_node_ext|done|done|done]. }
  assert (typed (push_node (InAggregator (list_to_set (v0 :: vs))) info metadata b).2 (length (b_nodes b))
    (InAggregator (list_to_set (v0 :: vs)))) as Ht.
  { eexists. split; [by apply list_lookup_middle|done]. }
  split_and!; [done|apply push_node_kext|done|done|done|]. intros rel str. split; [by eexists|].
  intros b'' T Hk' Hwf'' HT. destruct (typed_ext _ _ _ _ (kx_ext _ _ Hk') Ht) as (nd & Hnd & Hty).
  change (T (length (b_nodes b)) rel str = in_holds (v0 :: vs) rel str).
  rewrite (HT _ nd rel str Hnd). unfold sat_node. rewrite Hty. by apply sat_in_list.
Qed.

(** ** Edges *)

(** [make_edge] without a domain: the edge with these ends is there, or it is
    pushed. *)
Lemma make_edge_cases b p s str rel :
  builder_wf b → p < length (b_nodes b) → s < length (b_nodes b) →
  (∃ e i, e ∈ b_edges b ∧ pred e = p ∧ succ e = s ∧ edge_domain e = None ∧
    make_edge p s str rel None b =
      if decide (strength e = str ∧ relation e = rel) then (Ok i, b) else (Err ConflictingEdgeCreated, b)) ∨
  (b_edges_map b !! (p, s, None) = None ∧
   make_edge p s str rel None b =
     (Ok (push_edge (mkEdge str rel p s None) b).1, (push_edge (mkEdge str rel p s None) b).2)).
Proof.
  intros (Hg & He & _) Hp Hs. unfold make_edge, ensure_node_exists, DenseMap.contains_key.
  rewrite !bool_decide_true by done. simpl.
  destruct (b_edges_map b !! (p, s, None)) as [i|] eqn:Hm; simpl; [left|by right].
  apply He in Hm as (e & Hi & Ht). unfold DenseMap.get. rewrite Hi. simpl.
  unfold edge_triple in Ht. simplify_eq. exists e, i. split_and!; try done.
  by eapply list_elem_of_lookup_2.
Qed.

Lemma into_push_edge b e n :
  into (push_edge e b).2 n = into b n ++ (if bool_decide (succ e = n) then [e] else []).
Proof. unfold all_incoming. simpl. rewrite List.filter_app. simpl. by case_bool_decide. Qed.

(** A new edge into a node that was not there in [b0], or into a root. *)
Lemma push_edge_layered b e :
  layered b → b_edges_map b !! edge_triple e = None → edge_layered b e → layered (push_edge e b).2.
Proof.
  intros Hl Hnew He. split.
  - apply push_edge_wf; [apply Hl| |done].
    destruct He as (Hd & (t & Ht & _) & (t' & Ht' & _)). unfold edge_ok. rewrite Hd.
    eauto using typed_lt.
  - intros f Hf. simpl in Hf. apply (edge_layered_ext b); [apply push_edge_ext|].
    apply elem_of_app in Hf as [Hf|Hf]; [by apply Hl|]. apply list_elem_of_singleton in Hf as ->. done.
Qed.

Lemma push_edge_kext b0 b e :
  kext b0 b → (∀ ty, typed b0 (succ e) ty → is_root ty = true) → kext b0 (push_edge e b).2.
Proof.
  intros Hb Hs. split; [etrans; [apply Hb|apply push_edge_ext]|]. intros n ty Ht Hr.
  rewrite into_push_edge, (kx_into _ _ Hb n ty Ht Hr). case_bool_decide as Heq; [|by rewrite app_nil_r].
  subst n. rewrite (Hs ty Ht) in Hr. done.
Qed.

(** ** Aggregators of nodes *)

(** No two entries give the same node different weights. *)
Definition compatible (ns : list (NodeId * Relation.t * Strength)) : Prop :=
  ∀ p q, p ∈ ns → q ∈ ns → p.1.1 = q.1.1 → p = q.

Lemma compatible_uniform rel str ns : (∀ p, p ∈ ns → p.1.2 = rel ∧ p.2 = str) → compatible ns.
Proof. intros H [[m r] t] [[m' r'] t'] Hp%H Hq%H. simpl in *. naive_solver. Qed.

(** The edges of an aggregator. *)
Definition edges_of (n : NodeId) (ns : list (NodeId * Relation.t * Strength)) (es : list Edge) : Prop :=
  ∀ e, e ∈ es ↔ ∃ p, p ∈ ns ∧ e = mkEdge p.2 p.1.2 p.1.1 n None.

Lemma edges_of_all T n ns vs es :
  edges_of n ns es → Forall2 (λ p v, T p.1.1 p.1.2 p.2 = v) ns vs →
  all (sat_edge T) es = all id vs ∧ any (sat_edge T) es = any id vs ∧ (es = [] ↔ vs = []).
Proof.
  intros He Hns. split_and!.
  - apply eq_iff_eq_true. rewrite !all_true. split.
    + intros Hall v Hv. apply list_elem_of_lookup in Hv as [i Hi].
      destruct (Forall2_lookup_r _ _ _ _ _ Hns Hi) as (p & Hp & <-).
      apply (Hall (mkEdge p.2 p.1.2 p.1.1 n None)). apply He. exists p. split; [|done].
      by eapply list_elem_of_lookup_2.
    + intros Hall e (p & Hp & ->)%He. apply list_elem_of_lookup in Hp as [i Hi].
      destruct (Forall2_lookup_l _ _ _ _ _ Hns Hi) as (v & Hv & Heq). unfold sat_edge. simpl. rewrite Heq.
      apply Hall. by eapply list_elem_of_lookup_2.
  - apply eq_iff_eq_true. rewrite !any_true. split.
    + intros (e & (p & Hp & ->)%He & Ht). apply list_elem_of_lookup in Hp as [i Hi].
      destruct (Forall2_lookup_l _ _ _ _ _ Hns Hi) as (v & Hv & Heq). exists v.
      split; [by eapply list_elem_of_lookup_2|]. unfold sat_edge in Ht. simpl in Ht. by rewrite <- Heq.
    + intros (v & Hv & Ht). apply list_elem_of_lookup in Hv as [i Hi].
      destruct (Forall2_lookup_r _ _ _ _ _ Hns Hi) as (p & Hp & Heq).
      exists (mkEdge p.2 p.1.2 p.1.1 n None). split.
      * apply He. exists p. split; [by eapply list_elem_of_lookup_2|done].
      * unfold sat_edge. simpl. by rewrite Heq.
  - assert (ns = [] ↔ vs = []) as <- by (split; intros ->; by inversion Hns). split.
    + intros ->. destruct ns as [|p ns]; [done|]. exfalso.
      assert (mkEdge p.2 p.1.2 p.1.1 n None ∈ []) as Hin by (apply He; exists p; set_solver). set_solver.
    + intros ->. destruct es as [|e es]; [done|]. exfalso.
      assert (e ∈ e :: es) as (p & Hp & _)%He by set_solver. set_solver.
Qed.

(** What is there while the edges of a new aggregator [n] are made: the ones
    [made] so far, and what was there in [b]. *)
Record aggregating (b : ConstraintGraphBuilder) (n : NodeId) (ty : NodeType)
    (made : list (NodeId * Relation.t * Strength)) (b' : ConstraintGraphBuilder) : Prop := {
  ag_layered : layered b';
  ag_kext : kext b b';
  ag_typed : typed b' n ty;
  ag_values : b_value_map b' = b_value_map b;
  ag_into : ∀ m tm, typed b m tm → into b' m = into b m;
  ag_edges : edges_of n made (into b' n);
}.

Section aggregator.
Context (b : ConstraintGraphBuilder) (ty : NodeType) (Hty : ty = AllAggregator ∨ ty = AnyAggregator).

Abbreviation n := (length (b_nodes b)).

Lemma aggregating_start info metadata :
  layered b → aggregating b n ty [] (push_node ty info metadata b).2.
Proof.
  intros Hl. set (b1 := (push_node ty info metadata b).2).
  assert (kext b b1) as Hk1 by apply push_node_kext.
  assert (layered b1) as Hl1.
  { eapply layered_same_edges; [apply Hk1|done| |done]. apply push_node_plain_wf; [apply Hl|].
    by destruct Hty as [-> | ->]. }
  split; try done.
  - eexists. split; [by apply list_lookup_middle|done].
  - intros e. split; [|by intros (p & ? & _); set_solver].
    intros [He Hs]%elem_of_all_incoming. destruct (ly_edges _ Hl e He) as (_ & _ & (t & Ht & _)).
    apply typed_lt in Ht. rewrite Hs in Ht. lia.
Qed.

(** An edge that is pushed. *)
Lemma aggregating_push made p t b2 :
  aggregating b n ty made b2 → typed b p.1.1 t → is_root t = false →
  b_edges_map b2 !! (p.1.1, n, None) = None →
  aggregating b n ty (made ++ [p]) (push_edge (mkEdge p.2 p.1.2 p.1.1 n None) b2).2.
Proof.
  intros [H1 H2 H3 H4 H5 H6] Ht Hr Hnew. set (e := mkEdge p.2 p.1.2 p.1.1 n None) in *. split.
  - apply push_edge_layered; [done|done|]. split_and!; [done|exists t; split; [|done]|].
    + eapply typed_ext; [apply H2|done].
    + exists ty. split; [done|]. right. split; [by destruct Hty as [-> | ->]|]. apply typed_lt in Ht. simpl. lia.
  - apply push_edge_kext; [done|]. intros t' Ht'%typed_lt. simpl in Ht'. lia.
  - eapply typed_ext; [apply push_edge_ext|done].
  - done.
  - intros m tm Htm. rewrite into_push_edge, (H5 m tm Htm), bool_decide_eq_false_2; [by rewrite app_nil_r|].
    intros <-. apply typed_lt in Htm. simpl in Htm. lia.
  - intros f. rewrite into_push_edge, bool_decide_eq_true_2 by done. rewrite elem_of_app, (H6 f).
    rewrite list_elem_of_singleton. split.
    + intros [(q & Hq & ->)| ->]; [exists q|exists p]; set_solver.
    + intros (q & [Hq|Hq%list_elem_of_singleton]%elem_of_app & ->); [left; eauto|right; by subst].
Qed.

(** One edge: pushed, or there already with the same weight. *)
Lemma aggregating_step ns made p t b2 :
  compatible ns → (∀ q, q ∈ made ++ [p] → q ∈ ns) → typed b p.1.1 t → is_root t = false →
  aggregating b n ty made b2 →
  ∃ i b3, make_edge p.1.1 n p.2 p.1.2 None b2 = (Ok i, b3) ∧ aggregating b n ty (made ++ [p]) b3.
Proof.
  intros Hcomp Hin Ht Hr Ha. pose proof Ha as [H1 H2 H3 H4 H5 H6].
  pose proof (typed_ext _ _ _ _ (kx_ext _ _ H2) Ht) as Ht2.
  destruct (make_edge_cases b2 p.1.1 n p.2 p.1.2) as [(e & i & He & Hp & Hs & Hd & ->)|[Hnew ->]];
    [apply H1|by eapply typed_lt|by eapply typed_lt|..].
  - destruct (proj1 (H6 e)) as (q & Hq & ->); [by apply elem_of_all_incoming|]. simpl in *.
    assert (p = q) as <- by (apply Hcomp; [apply Hin; set_solver..|done]).
    rewrite decide_True by done. exists i, b2. split; [done|]. split; try done. intros e. rewrite (H6 e).
    split; intros (q & Hq' & ->); exists q; set_solver.
  - eexists _, _. split; [done|]. by eapply aggregating_push.
Qed.

Lemma ensure_nodes_exist (l : list (NodeId * Relation.t * Strength)) :
  (∀ p, p ∈ l → p.1.1 < length (b_nodes b)) →
  sr_for (λ p b, (ensure_node_exists b p.1.1, b)) l b = (Ok tt, b).
Proof.
  induction l as [|p l IH]; intros Hin; [done|]. simpl. unfold sr_bind at 1.
  unfold ensure_node_exists, DenseMap.contains_key. rewrite bool_decide_true by (apply Hin; set_solver).
  apply IH. set_solver.
Qed.

Lemma make_aggregator_holds ns vs info metadata :
  layered b → compatible ns → Forall2 (holds b) ns vs →
  ∃ b', make_aggregator ty ns info metadata None b = (Ok n, b') ∧ aggregating b n ty ns b'.
Proof.
  intros Hl Hcomp Hns.
  assert (∀ p, p ∈ ns → ∃ t, typed b p.1.1 t ∧ is_root t = false) as Hvalid.
  { intros p Hp. apply list_elem_of_lookup in Hp as [i Hi].
    by destruct (Forall2_lookup_l _ _ _ _ _ Hns Hi) as (v & _ & Ht & _). }
  set (b1 := (push_node ty info metadata b).2).
  assert (sr_triple (aggregating b n ty []) (sr_for (λ p, make_edge p.1.1 n p.2 p.1.2 None ;;; sr_ret tt)%sr ns)
    (λ _, aggregating b n ty ns) (λ _ _, False)) as Hfor.
  { apply triple_for_all. intros made p rest Heq b2 Ha.
    destruct (Hvalid p) as (t & Ht & Hr); [subst ns; set_solver|]. unfold sr_bind, sr_ret.
    by destruct (aggregating_step ns made p t b2 Hcomp) as (i & b3 & -> & Ha'); [subst ns; set_solver|..]. }
  specialize (Hfor b1 (aggregating_start info metadata Hl)). unfold make_aggregator.
  destruct (sr_for _ ns b1) as [[u|e] b2] eqn:Hrun; [|done]. exists b2. split; [|done].
  unfold sr_bind at 1. rewrite ensure_nodes_exist.
  2: { intros p (t & Ht & _)%Hvalid. by eapply typed_lt. }
  change (sr_bind (sr_for (λ p, make_edge p.1.1 n p.2 p.1.2 None ;;; sr_ret tt)%sr ns)
    (λ _, sr_ret n) b1 = (Ok n, b2)).
  unfold sr_bind at 1. by rewrite Hrun.
Qed.

End aggregator.

(** The edges of a layered builder have no domain: all of them count. *)
Lemma layered_incoming b b' n ty :
  layered b → kext b b' → typed b n ty → is_root ty = false → incoming (build b') None n = into b n.
Proof.
  intros Hl Hk Ht Hr. unfold incoming. rewrite (kext_into _ _ _ _ Hk Ht Hr).
  apply filter_true. intros e [He _]%elem_of_all_incoming. unfold counts.
  by destruct (ly_edges _ Hl e He) as (-> & _).
Qed.

(** The truth of an aggregator from its edges. *)
Lemma all_aggregator_holds b n ns vs :
  layered b → typed b n AllAggregator → edges_of n ns (into b n) → Forall2 (holds b) ns vs →
  ∀ rel str, holds b (n, rel, str) (all id vs).
Proof.
  intros Hl Ht He Hns rel str. split; [by eexists|]. intros b' T Hk Hwf HT.
  destruct (typed_ext _ _ _ _ (kx_ext _ _ Hk) Ht) as (nd & Hnd & Hty). cbn [fst snd].
  rewrite (HT n nd rel str Hnd). unfold sat_node. rewrite Hty, (layered_incoming b b' n AllAggregator) by done.
  eapply (edges_of_all T); [done|]. eapply Forall2_impl; [exact Hns|]. intros p v [_ Hv]. by eapply Hv.
Qed.

(** One of the values, or there is none. *)
Definition any_holds (vs : list bool) : bool := any id vs || bool_decide (vs = []).

Lemma any_aggregator_holds b n ns vs :
  layered b → typed b n AnyAggregator → edges_of n ns (into b n) → Forall2 (holds b) ns vs →
  ∀ rel str, holds b (n, rel, str) (any_holds vs).
Proof.
  intros Hl Ht He Hns rel str. split; [by eexists|]. intros b' T Hk Hwf HT.
  destruct (typed_ext _ _ _ _ (kx_ext _ _ Hk) Ht) as (nd & Hnd & Hty). cbn [fst snd].
  rewrite (HT n nd rel str Hnd). unfold sat_node, sat_some. rewrite Hty.
  rewrite (layered_incoming b b' n AnyAggregator), (kext_into _ _ _ _ Hk Ht) by done.
  assert (Forall2 (λ p v, T p.1.1 p.1.2 p.2 = v) ns vs) as Hns'.
  { eapply Forall2_impl; [exact Hns|]. intros p v [_ Hv]. by eapply Hv. }
  destruct (edges_of_all T n ns vs _ He Hns') as (_ & -> & Hnil). unfold any_holds. f_equal.
  by apply bool_decide_ext.
Qed.

(** ** Roots *)

(** The truth of a root all of whose edges are of normal strength. *)
Lemma root_solution b n v ns vs T rel str :
  layered b → typed b n (Value v) → edges_of n ns (into b n) → (∀ p, p ∈ ns → p.2 = Normal) →
  Forall2 (holds b) ns vs → solution (build b) ctx None T →
  T n rel str = Bool.eqb (check_presence ctx v str) (Relation.to_bool rel) && any_holds vs.
Proof.
  intros Hl (nd & Hnd & Hty) He Hnormal Hns HT. rewrite (HT n nd rel str Hnd). unfold sat_node. rewrite Hty.
  assert (incoming (build b) None n = into b n) as Hin.
  { apply filter_true. intros e [Hin _]%elem_of_all_incoming. unfold counts.
    by destruct (ly_edges _ Hl e Hin) as (-> & _). }
  assert (sat_strong (build b) None T n = true) as ->.
  { unfold sat_strong. rewrite Hin. apply all_true. intros e (p & Hp & ->)%He. simpl.
    by rewrite (Hnormal p Hp). }
  rewrite andb_true_r. f_equal. unfold sat_some. rewrite Hin.
  assert (Forall2 (λ p v, T p.1.1 p.1.2 p.2 = v) ns vs) as Hns'.
  { eapply Forall2_impl; [exact Hns|]. intros p w [_ Hv]. by eapply Hv; [|apply Hl|]. }
  destruct (edges_of_all T n ns vs _ He Hns') as (_ & -> & Hnil). unfold any_holds. f_equal.
  by apply bool_decide_ext.
Qed.

(** A new edge into a root. *)
Lemma make_root_edge b n v m w :
  layered b → typed b n (Value v) → root v = true → holds b (m, Relation.Positive, Normal) w →
  (∀ e, e ∈ into b n → pred e ≠ m) →
  ∃ i b', make_edge m n Normal Relation.Positive None b = (Ok i, b') ∧ layered b' ∧ kext b b' ∧
    b_value_map b' = b_value_map b ∧ into b' n = into b n ++ [mkEdge Normal Relation.Positive m n None] ∧
    (∀ k, k ≠ n → into b' k = into b k).
Proof.
  intros Hl Ht Hr [(t & Htm & Hrm) _] Hfresh. simpl in Htm.
  destruct (make_edge_cases b m n Normal Relation.Positive) as [(e & i & He & Hp & Hs & _)|[Hnew Heq]];
    [apply Hl|by eapply typed_lt|by eapply typed_lt|..].
  - exfalso. apply (Hfresh e); [|done]. by apply elem_of_all_incoming.
  - eexists _, _. split; [exact Heq|]. set (e := mkEdge Normal Relation.Positive m n None) in *.
    split_and!.
    + apply push_edge_layered; [done|done|]. split_and!; [done|by exists t|].
      exists (Value v). split; [done|]. by left.
    + apply push_edge_kext; [done|]. intros t' Ht'. by rewrite (typed_fun _ _ _ _ Ht' Ht).
    + done.
    + rewrite into_push_edge. by rewrite bool_decide_eq_true_2.
    + intros k Hk. rewrite into_push_edge, bool_decide_eq_false_2; [by rewrite app_nil_r|]. simpl. congruence.
Qed.

End denote.
