(* ===== verification/Country.v ===== *)
(** * Country codes

    [crates/common_enums]: the three enumerations of countries of [enums.rs]
    and the conversions between names, ISO 3166-1 alpha-2 and alpha-3 codes and
    numeric codes of [transformers.rs], arm by arm. *)

From S2P Require Import Prelude.

Inductive CountryAlpha2 : Set :=
  | CountryAlpha2_AF | CountryAlpha2_AX | CountryAlpha2_AL | CountryAlpha2_DZ
  | CountryAlpha2_AS | CountryAlpha2_AD | CountryAlpha2_AO | CountryAlpha2_AI
  | CountryAlpha2_AQ | CountryAlpha2_AG | CountryAlpha2_AR | CountryAlpha2_AM
  | CountryAlpha2_AW | CountryAlpha2_AU | CountryAlpha2_AT | CountryAlpha2_AZ
  | CountryAlpha2_BS | CountryAlpha2_BH | CountryAlpha2_BD | CountryAlpha2_BB
  | CountryAlpha2_BY | CountryAlpha2_BE | CountryAlpha2_BZ | CountryAlpha2_BJ
  | CountryAlpha2_BM | CountryAlpha2_BT | CountryAlpha2_BO | CountryAlpha2_BQ
  | CountryAlpha2_BA | CountryAlpha2_BW | CountryAlpha2_BV | CountryAlpha2_BR
  | CountryAlpha2_IO | CountryAlpha2_BN | CountryAlpha2_BG | CountryAlpha2_BF
  | CountryAlpha2_BI | CountryAlpha2_KH | CountryAlpha2_CM | CountryAlpha2_CA
  | CountryAlpha2_CV | CountryAlpha2_KY | CountryAlpha2_CF | CountryAlpha2_TD
  | CountryAlpha2_CL | CountryAlpha2_CN | CountryAlpha2_CX | CountryAlpha2_CC
  | CountryAlpha2_CO | CountryAlpha2_KM | CountryAlpha2_CG | CountryAlpha2_CD
  | CountryAlpha2_CK | CountryAlpha2_CR | CountryAlpha2_CI | CountryAlpha2_HR
  | CountryAlpha2_CU | CountryAlpha2_CW | CountryAlpha2_CY | CountryAlpha2_CZ
  | CountryAlpha2_DK | CountryAlpha2_DJ | CountryAlpha2_DM | CountryAlpha2_DO
  | CountryAlpha2_EC | CountryAlpha2_EG | CountryAlpha2_SV | CountryAlpha2_GQ
  | CountryAlpha2_ER | CountryAlpha2_EE | CountryAlpha2_ET | CountryAlpha2_FK
  | CountryAlpha2_FO | CountryAlpha2_FJ | CountryAlpha2_FI | CountryAlpha2_FR
  | CountryAlpha2_GF | CountryAlpha2_PF | CountryAlpha2_TF | CountryAlpha2_GA
  | CountryAlpha2_GM | CountryAlpha2_GE | CountryAlpha2_DE | CountryAlpha2_GH
  | CountryAlpha2_GI | CountryAlpha2_GR | CountryAlpha2_GL | CountryAlpha2_GD
  | CountryAlpha2_GP | CountryAlpha2_GU | CountryAlpha2_GT | CountryAlpha2_GG
  | CountryAlpha2_GN | CountryAlpha2_GW | CountryAlpha2_GY | CountryAlpha2_HT
  | CountryAlpha2_HM | CountryAlpha2_VA | CountryAlpha2_HN | CountryAlpha2_HK
  | CountryAlpha2_HU | CountryAlpha2_IS | CountryAlpha2_IN | CountryAlpha2_ID
  | CountryAlpha2_IR | CountryAlpha2_IQ | CountryAlpha2_IE | CountryAlpha2_IM
  | CountryAlpha2_IL | CountryAlpha2_IT | CountryAlpha2_JM | CountryAlpha2_JP
  | CountryAlpha2_JE | CountryAlpha2_JO | CountryAlpha2_KZ | CountryAlpha2_KE
  | CountryAlpha2_KI | CountryAlpha2_KP | CountryAlpha2_KR | CountryAlpha2_KW
  | CountryAlpha2_KG | CountryAlpha2_LA | CountryAlpha2_LV | CountryAlpha2_LB
  | CountryAlpha2_LS | CountryAlpha2_LR | CountryAlpha2_LY | CountryAlpha2_LI
  | CountryAlpha2_LT | CountryAlpha2_LU | CountryAlpha2_MO | CountryAlpha2_MK
  | CountryAlpha2_MG | CountryAlpha2_MW | CountryAlpha2_MY | CountryAlpha2_MV
  | CountryAlpha2_ML | CountryAlpha2_MT | CountryAlpha2_MH | CountryAlpha2_MQ
  | CountryAlpha2_MR | CountryAlpha2_MU | CountryAlpha2_YT | CountryAlpha2_MX
  | CountryAlpha2_FM | CountryAlpha2_MD | CountryAlpha2_MC | CountryAlpha2_MN
  | CountryAlpha2_ME | CountryAlpha2_MS | CountryAlpha2_MA | CountryAlpha2_MZ
  | CountryAlpha2_MM | CountryAlpha2_NA | CountryAlpha2_NR | CountryAlpha2_NP
  | CountryAlpha2_NL | CountryAlpha2_NC | CountryAlpha2_NZ | CountryAlpha2_NI
  | CountryAlpha2_NE | CountryAlpha2_NG | CountryAlpha2_NU | CountryAlpha2_NF
  | CountryAlpha2_MP | CountryAlpha2_NO | CountryAlpha2_OM | CountryAlpha2_PK
  | CountryAlpha2_PW | CountryAlpha2_PS | CountryAlpha2_PA | CountryAlpha2_PG
  | CountryAlpha2_PY | CountryAlpha2_PE | CountryAlpha2_PH | CountryAlpha2_PN
  | CountryAlpha2_PL | CountryAlpha2_PT | CountryAlpha2_PR | CountryAlpha2_QA
  | CountryAlpha2_RE | CountryAlpha2_RO | CountryAlpha2_RU | CountryAlpha2_RW
  | CountryAlpha2_BL | CountryAlpha2_SH | CountryAlpha2_KN | CountryAlpha2_LC
  | CountryAlpha2_MF | CountryAlpha2_PM | CountryAlpha2_VC | CountryAlpha2_WS
  | CountryAlpha2_SM | CountryAlpha2_ST | CountryAlpha2_SA | CountryAlpha2_SN
  | CountryAlpha2_RS | CountryAlpha2_SC | CountryAlpha2_SL | CountryAlpha2_SG
  | CountryAlpha2_SX | CountryAlpha2_SK | CountryAlpha2_SI | CountryAlpha2_SB
  | CountryAlpha2_SO | CountryAlpha2_ZA | CountryAlpha2_GS | CountryAlpha2_SS
  | CountryAlpha2_ES | CountryAlpha2_LK | CountryAlpha2_SD | CountryAlpha2_SR
  | CountryAlpha2_SJ | CountryAlpha2_SZ | CountryAlpha2_SE | CountryAlpha2_CH
  | CountryAlpha2_SY | CountryAlpha2_TW | CountryAlpha2_TJ | CountryAlpha2_TZ
  | CountryAlpha2_TH | CountryAlpha2_TL | CountryAlpha2_TG | CountryAlpha2_TK
  | CountryAlpha2_TO | CountryAlpha2_TT | CountryAlpha2_TN | CountryAlpha2_TR
  | CountryAlpha2_TM | CountryAlpha2_TC | CountryAlpha2_TV | CountryAlpha2_UG
  | CountryAlpha2_UA | CountryAlpha2_AE | CountryAlpha2_GB | CountryAlpha2_UM
  | CountryAlpha2_UY | CountryAlpha2_UZ | CountryAlpha2_VU | CountryAlpha2_VE
  | CountryAlpha2_VN | CountryAlpha2_VG | CountryAlpha2_VI | CountryAlpha2_WF
  | CountryAlpha2_EH | CountryAlpha2_YE | CountryAlpha2_ZM | CountryAlpha2_ZW
  | CountryAlpha2_US.

#[export] Program Instance CountryAlpha2_enumerated : Enumerated CountryAlpha2 := {|
  variants := [
    CountryAlpha2_AF; CountryAlpha2_AX; CountryAlpha2_AL; CountryAlpha2_DZ; CountryAlpha2_AS;
    CountryAlpha2_AD; CountryAlpha2_AO; CountryAlpha2_AI; CountryAlpha2_AQ; CountryAlpha2_AG;
    CountryAlpha2_AR; CountryAlpha2_AM; CountryAlpha2_AW; CountryAlpha2_AU; CountryAlpha2_AT;
    CountryAlpha2_AZ; CountryAlpha2_BS; CountryAlpha2_BH; CountryAlpha2_BD; CountryAlpha2_BB;
    CountryAlpha2_BY; CountryAlpha2_BE; CountryAlpha2_BZ; CountryAlpha2_BJ; CountryAlpha2_BM;
    CountryAlpha2_BT; CountryAlpha2_BO; CountryAlpha2_BQ; CountryAlpha2_BA; CountryAlpha2_BW;
    CountryAlpha2_BV; CountryAlpha2_BR; CountryAlpha2_IO; CountryAlpha2_BN; CountryAlpha2_BG;
    CountryAlpha2_BF; CountryAlpha2_BI; CountryAlpha2_KH; CountryAlpha2_CM; CountryAlpha2_CA;
    CountryAlpha2_CV; CountryAlpha2_KY; CountryAlpha2_CF; CountryAlpha2_TD; CountryAlpha2_CL;
    CountryAlpha2_CN; CountryAlpha2_CX; CountryAlpha2_CC; CountryAlpha2_CO; CountryAlpha2_KM;
    CountryAlpha2_CG; CountryAlpha2_CD; CountryAlpha2_CK; CountryAlpha2_CR; CountryAlpha2_CI;
    CountryAlpha2_HR; CountryAlpha2_CU; CountryAlpha2_CW; CountryAlpha2_CY; CountryAlpha2_CZ;
    CountryAlpha2_DK; CountryAlpha2_DJ; CountryAlpha2_DM; CountryAlpha2_DO; CountryAlpha2_EC;
    CountryAlpha2_EG; CountryAlpha2_SV; CountryAlpha2_GQ; CountryAlpha2_ER; CountryAlpha2_EE;
    CountryAlpha2_ET; CountryAlpha2_FK; CountryAlpha2_FO; CountryAlpha2_FJ; CountryAlpha2_FI;
    CountryAlpha2_FR; CountryAlpha2_GF; CountryAlpha2_PF; CountryAlpha2_TF; CountryAlpha2_GA;
    CountryAlpha2_GM; CountryAlpha2_GE; CountryAlpha2_DE; CountryAlpha2_GH; CountryAlpha2_GI;
    CountryAlpha2_GR; CountryAlpha2_GL; CountryAlpha2_GD; CountryAlpha2_GP; CountryAlpha2_GU;
    CountryAlpha2_GT; CountryAlpha2_GG; CountryAlpha2_GN; CountryAlpha2_GW; CountryAlpha2_GY;
    CountryAlpha2_HT; CountryAlpha2_HM; CountryAlpha2_VA; CountryAlpha2_HN; CountryAlpha2_HK;
    CountryAlpha2_HU; CountryAlpha2_IS; CountryAlpha2_IN; CountryAlpha2_ID; CountryAlpha2_IR;
    CountryAlpha2_IQ; CountryAlpha2_IE; CountryAlpha2_IM; CountryAlpha2_IL; CountryAlpha2_IT;
    CountryAlpha2_JM; CountryAlpha2_JP; CountryAlpha2_JE; CountryAlpha2_JO; CountryAlpha2_KZ;
    CountryAlpha2_KE; CountryAlpha2_KI; CountryAlpha2_KP; CountryAlpha2_KR; CountryAlpha2_KW;
    CountryAlpha2_KG; CountryAlpha2_LA; CountryAlpha2_LV; CountryAlpha2_LB; CountryAlpha2_LS;
    CountryAlpha2_LR; CountryAlpha2_LY; CountryAlpha2_LI; CountryAlpha2_LT; CountryAlpha2_LU;
    CountryAlpha2_MO; CountryAlpha2_MK; CountryAlpha2_MG; CountryAlpha2_MW; CountryAlpha2_MY;
    CountryAlpha2_MV; CountryAlpha2_ML; CountryAlpha2_MT; CountryAlpha2_MH; CountryAlpha2_MQ;
    CountryAlpha2_MR; CountryAlpha2_MU; CountryAlpha2_YT; CountryAlpha2_MX; CountryAlpha2_FM;
    CountryAlpha2_MD; CountryAlpha2_MC; CountryAlpha2_MN; CountryAlpha2_ME; CountryAlpha2_MS;
    CountryAlpha2_MA; CountryAlpha2_MZ; CountryAlpha2_MM; CountryAlpha2_NA; CountryAlpha2_NR;
    CountryAlpha2_NP; CountryAlpha2_NL; CountryAlpha2_NC; CountryAlpha2_NZ; CountryAlpha2_NI;
    CountryAlpha2_NE; CountryAlpha2_NG; CountryAlpha2_NU; CountryAlpha2_NF; CountryAlpha2_MP;
    CountryAlpha2_NO; CountryAlpha2_OM; CountryAlpha2_PK; CountryAlpha2_PW; CountryAlpha2_PS;
    CountryAlpha2_PA; CountryAlpha2_PG; CountryAlpha2_PY; CountryAlpha2_PE; CountryAlpha2_PH;
    CountryAlpha2_PN; CountryAlpha2_PL; CountryAlpha2_PT; CountryAlpha2_PR; CountryAlpha2_QA;
    CountryAlpha2_RE; CountryAlpha2_RO; CountryAlpha2_RU; CountryAlpha2_RW; CountryAlpha2_BL;
    CountryAlpha2_SH; CountryAlpha2_KN; CountryAlpha2_LC; CountryAlpha2_MF; CountryAlpha2_PM;
    CountryAlpha2_VC; CountryAlpha2_WS; CountryAlpha2_SM; CountryAlpha2_ST; CountryAlpha2_SA;
    CountryAlpha2_SN; CountryAlpha2_RS; CountryAlpha2_SC; CountryAlpha2_SL; CountryAlpha2_SG;
    CountryAlpha2_SX; CountryAlpha2_SK; CountryAlpha2_SI; CountryAlpha2_SB; CountryAlpha2_SO;
    CountryAlpha2_ZA; CountryAlpha2_GS; CountryAlpha2_SS; CountryAlpha2_ES; CountryAlpha2_LK;
    CountryAlpha2_SD; CountryAlpha2_SR; CountryAlpha2_SJ; CountryAlpha2_SZ; CountryAlpha2_SE;
    CountryAlpha2_CH; CountryAlpha2_SY; CountryAlpha2_TW; CountryAlpha2_TJ; CountryAlpha2_TZ;
    CountryAlpha2_TH; CountryAlpha2_TL; CountryAlpha2_TG; CountryAlpha2_TK; CountryAlpha2_TO;
    CountryAlpha2_TT; CountryAlpha2_TN; CountryAlpha2_TR; CountryAlpha2_TM; CountryAlpha2_TC;
    CountryAlpha2_TV; CountryAlpha2_UG; CountryAlpha2_UA; CountryAlpha2_AE; CountryAlpha2_GB;
    CountryAlpha2_UM; CountryAlpha2_UY; CountryAlpha2_UZ; CountryAlpha2_VU; CountryAlpha2_VE;
    CountryAlpha2_VN; CountryAlpha2_VG; CountryAlpha2_VI; CountryAlpha2_WF; CountryAlpha2_EH;
    CountryAlpha2_YE; CountryAlpha2_ZM; CountryAlpha2_ZW; CountryAlpha2_US];
  discriminant x := match x with
    | CountryAlpha2_AF => 0 | CountryAlpha2_AX => 1 | CountryAlpha2_AL => 2
    | CountryAlpha2_DZ => 3 | CountryAlpha2_AS => 4 | CountryAlpha2_AD => 5
    | CountryAlpha2_AO => 6 | CountryAlpha2_AI => 7 | CountryAlpha2_AQ => 8
    | CountryAlpha2_AG => 9 | CountryAlpha2_AR => 10 | CountryAlpha2_AM => 11
    | CountryAlpha2_AW => 12 | CountryAlpha2_AU => 13 | CountryAlpha2_AT => 14
    | CountryAlpha2_AZ => 15 | CountryAlpha2_BS => 16 | CountryAlpha2_BH => 17
    | CountryAlpha2_BD => 18 | CountryAlpha2_BB => 19 | CountryAlpha2_BY => 20
    | CountryAlpha2_BE => 21 | CountryAlpha2_BZ => 22 | CountryAlpha2_BJ => 23
    | CountryAlpha2_BM => 24 | CountryAlpha2_BT => 25 | CountryAlpha2_BO => 26
    | CountryAlpha2_BQ => 27 | CountryAlpha2_BA => 28 | CountryAlpha2_BW => 29
    | CountryAlpha2_BV => 30 | CountryAlpha2_BR => 31 | CountryAlpha2_IO => 32
    | CountryAlpha2_BN => 33 | CountryAlpha2_BG => 34 | CountryAlpha2_BF => 35
    | CountryAlpha2_BI => 36 | CountryAlpha2_KH => 37 | CountryAlpha2_CM => 38
    | CountryAlpha2_CA => 39 | CountryAlpha2_CV => 40 | CountryAlpha2_KY => 41
    | CountryAlpha2_CF => 42 | CountryAlpha2_TD => 43 | CountryAlpha2_CL => 44
    | CountryAlpha2_CN => 45 | CountryAlpha2_CX => 46 | CountryAlpha2_CC => 47
    | CountryAlpha2_CO => 48 | CountryAlpha2_KM => 49 | CountryAlpha2_CG => 50
    | CountryAlpha2_CD => 51 | CountryAlpha2_CK => 52 | CountryAlpha2_CR => 53
    | CountryAlpha2_CI => 54 | CountryAlpha2_HR => 55 | CountryAlpha2_CU => 56
    | CountryAlpha2_CW => 57 | CountryAlpha2_CY => 58 | CountryAlpha2_CZ => 59
    | CountryAlpha2_DK => 60 | CountryAlpha2_DJ => 61 | CountryAlpha2_DM => 62
    | CountryAlpha2_DO => 63 | CountryAlpha2_EC => 64 | CountryAlpha2_EG => 65
    | CountryAlpha2_SV => 66 | CountryAlpha2_GQ => 67 | CountryAlpha2_ER => 68
    | CountryAlpha2_EE => 69 | CountryAlpha2_ET => 70 | CountryAlpha2_FK => 71
    | CountryAlpha2_FO => 72 | CountryAlpha2_FJ => 73 | CountryAlpha2_FI => 74
    | CountryAlpha2_FR => 75 | CountryAlpha2_GF => 76 | CountryAlpha2_PF => 77
    | CountryAlpha2_TF => 78 | CountryAlpha2_GA => 79 | CountryAlpha2_GM => 80
    | CountryAlpha2_GE => 81 | CountryAlpha2_DE => 82 | CountryAlpha2_GH => 83
    | CountryAlpha2_GI => 84 | CountryAlpha2_GR => 85 | CountryAlpha2_GL => 86
    | CountryAlpha2_GD => 87 | CountryAlpha2_GP => 88 | CountryAlpha2_GU => 89
    | CountryAlpha2_GT => 90 | CountryAlpha2_GG => 91 | CountryAlpha2_GN => 92
    | CountryAlpha2_GW => 93 | CountryAlpha2_GY => 94 | CountryAlpha2_HT => 95
    | CountryAlpha2_HM => 96 | CountryAlpha2_VA => 97 | CountryAlpha2_HN => 98
    | CountryAlpha2_HK => 99 | CountryAlpha2_HU => 100 | CountryAlpha2_IS => 101
    | CountryAlpha2_IN => 102 | CountryAlpha2_ID => 103 | CountryAlpha2_IR => 104
    | CountryAlpha2_IQ => 105 | CountryAlpha2_IE => 106 | CountryAlpha2_IM => 107
    | CountryAlpha2_IL => 108 | CountryAlpha2_IT => 109 | CountryAlpha2_JM => 110
    | CountryAlpha2_JP => 111 | CountryAlpha2_JE => 112 | CountryAlpha2_JO => 113
    | CountryAlpha2_KZ => 114 | CountryAlpha2_KE => 115 | CountryAlpha2_KI => 116
    | CountryAlpha2_KP => 117 | CountryAlpha2_KR => 118 | CountryAlpha2_KW => 119
    | CountryAlpha2_KG => 120 | CountryAlpha2_LA => 121 | CountryAlpha2_LV => 122
    | CountryAlpha2_LB => 123 | CountryAlpha2_LS => 124 | CountryAlpha2_LR => 125
    | CountryAlpha2_LY => 126 | CountryAlpha2_LI => 127 | CountryAlpha2_LT => 128
    | CountryAlpha2_LU => 129 | CountryAlpha2_MO => 130 | CountryAlpha2_MK => 131
    | CountryAlpha2_MG => 132 | CountryAlpha2_MW => 133 | CountryAlpha2_MY => 134
    | CountryAlpha2_MV => 135 | CountryAlpha2_ML => 136 | CountryAlpha2_MT => 137
    | CountryAlpha2_MH => 138 | CountryAlpha2_MQ => 139 | CountryAlpha2_MR => 140
    | CountryAlpha2_MU => 141 | CountryAlpha2_YT => 142 | CountryAlpha2_MX => 143
    | CountryAlpha2_FM => 144 | CountryAlpha2_MD => 145 | CountryAlpha2_MC => 146
    | CountryAlpha2_MN => 147 | CountryAlpha2_ME => 148 | CountryAlpha2_MS => 149
    | CountryAlpha2_MA => 150 | CountryAlpha2_MZ => 151 | CountryAlpha2_MM => 152
    | CountryAlpha2_NA => 153 | CountryAlpha2_NR => 154 | CountryAlpha2_NP => 155
    | CountryAlpha2_NL => 156 | CountryAlpha2_NC => 157 | CountryAlpha2_NZ => 158
    | CountryAlpha2_NI => 159 | CountryAlpha2_NE => 160 | CountryAlpha2_NG => 161
    | CountryAlpha2_NU => 162 | CountryAlpha2_NF => 163 | CountryAlpha2_MP => 164
    | CountryAlpha2_NO => 165 | CountryAlpha2_OM => 166 | CountryAlpha2_PK => 167
    | CountryAlpha2_PW => 168 | CountryAlpha2_PS => 169 | CountryAlpha2_PA => 170
    | CountryAlpha2_PG => 171 | CountryAlpha2_PY => 172 | CountryAlpha2_PE => 173
    | CountryAlpha2_PH => 174 | CountryAlpha2_PN => 175 | CountryAlpha2_PL => 176
    | CountryAlpha2_PT => 177 | CountryAlpha2_PR => 178 | CountryAlpha2_QA => 179
    | CountryAlpha2_RE => 180 | CountryAlpha2_RO => 181 | CountryAlpha2_RU => 182
    | CountryAlpha2_RW => 183 | CountryAlpha2_BL => 184 | CountryAlpha2_SH => 185
    | CountryAlpha2_KN => 186 | CountryAlpha2_LC => 187 | CountryAlpha2_MF => 188
    | CountryAlpha2_PM => 189 | CountryAlpha2_VC => 190 | CountryAlpha2_WS => 191
    | CountryAlpha2_SM => 192 | CountryAlpha2_ST => 193 | CountryAlpha2_SA => 194
    | CountryAlpha2_SN => 195 | CountryAlpha2_RS => 196 | CountryAlpha2_SC => 197
    | CountryAlpha2_SL => 198 | CountryAlpha2_SG => 199 | CountryAlpha2_SX => 200
    | CountryAlpha2_SK => 201 | CountryAlpha2_SI => 202 | CountryAlpha2_SB => 203
    | CountryAlpha2_SO => 204 | CountryAlpha2_ZA => 205 | CountryAlpha2_GS => 206
    | CountryAlpha2_SS => 207 | CountryAlpha2_ES => 208 | CountryAlpha2_LK => 209
    | CountryAlpha2_SD => 210 | CountryAlpha2_SR => 211 | CountryAlpha2_SJ => 212
    | CountryAlpha2_SZ => 213 | CountryAlpha2_SE => 214 | CountryAlpha2_CH => 215
    | CountryAlpha2_SY => 216 | CountryAlpha2_TW => 217 | CountryAlpha2_TJ => 218
    | CountryAlpha2_TZ => 219 | CountryAlpha2_TH => 220 | CountryAlpha2_TL => 221
    | CountryAlpha2_TG => 222 | CountryAlpha2_TK => 223 | CountryAlpha2_TO => 224
    | CountryAlpha2_TT => 225 | CountryAlpha2_TN => 226 | CountryAlpha2_TR => 227
    | CountryAlpha2_TM => 228 | CountryAlpha2_TC => 229 | CountryAlpha2_TV => 230
    | CountryAlpha2_UG => 231 | CountryAlpha2_UA => 232 | CountryAlpha2_AE => 233
    | CountryAlpha2_GB => 234 | CountryAlpha2_UM => 235 | CountryAlpha2_UY => 236
    | CountryAlpha2_UZ => 237 | CountryAlpha2_VU => 238 | CountryAlpha2_VE => 239
    | CountryAlpha2_VN => 240 | CountryAlpha2_VG => 241 | CountryAlpha2_VI => 242
    | CountryAlpha2_WF => 243 | CountryAlpha2_EH => 244 | CountryAlpha2_YE => 245
    | CountryAlpha2_ZM => 246 | CountryAlpha2_ZW => 247 | CountryAlpha2_US => 248
    end;
|}.
Next Obligation. by intros []. Qed.

#[export] Instance CountryAlpha2_strum : EnumString CountryAlpha2 := one_name (λ x, match x with
    | CountryAlpha2_AF => "AF" | CountryAlpha2_AX => "AX" | CountryAlpha2_AL => "AL"
    | CountryAlpha2_DZ => "DZ" | CountryAlpha2_AS => "AS" | CountryAlpha2_AD => "AD"
    | CountryAlpha2_AO => "AO" | CountryAlpha2_AI => "AI" | CountryAlpha2_AQ => "AQ"
    | CountryAlpha2_AG => "AG" | CountryAlpha2_AR => "AR" | CountryAlpha2_AM => "AM"
    | CountryAlpha2_AW => "AW" | CountryAlpha2_AU => "AU" | CountryAlpha2_AT => "AT"
    | CountryAlpha2_AZ => "AZ" | CountryAlpha2_BS => "BS" | CountryAlpha2_BH => "BH"
    | CountryAlpha2_BD => "BD" | CountryAlpha2_BB => "BB" | CountryAlpha2_BY => "BY"
    | CountryAlpha2_BE => "BE" | CountryAlpha2_BZ => "BZ" | CountryAlpha2_BJ => "BJ"
    | CountryAlpha2_BM => "BM" | CountryAlpha2_BT => "BT" | CountryAlpha2_BO => "BO"
    | CountryAlpha2_BQ => "BQ" | CountryAlpha2_BA => "BA" | CountryAlpha2_BW => "BW"
    | CountryAlpha2_BV => "BV" | CountryAlpha2_BR => "BR" | CountryAlpha2_IO => "IO"
    | CountryAlpha2_BN => "BN" | CountryAlpha2_BG => "BG" | CountryAlpha2_BF => "BF"
    | CountryAlpha2_BI => "BI" | CountryAlpha2_KH => "KH" | CountryAlpha2_CM => "CM"
    | CountryAlpha2_CA => "CA" | CountryAlpha2_CV => "CV" | CountryAlpha2_KY => "KY"
    | CountryAlpha2_CF => "CF" | CountryAlpha2_TD => "TD" | CountryAlpha2_CL => "CL"
    | CountryAlpha2_CN => "CN" | CountryAlpha2_CX => "CX" | CountryAlpha2_CC => "CC"
    | CountryAlpha2_CO => "CO" | CountryAlpha2_KM => "KM" | CountryAlpha2_CG => "CG"
    | CountryAlpha2_CD => "CD" | CountryAlpha2_CK => "CK" | CountryAlpha2_CR => "CR"
    | CountryAlpha2_CI => "CI" | CountryAlpha2_HR => "HR" | CountryAlpha2_CU => "CU"
    | CountryAlpha2_CW => "CW" | CountryAlpha2_CY => "CY" | CountryAlpha2_CZ => "CZ"
    | CountryAlpha2_DK => "DK" | CountryAlpha2_DJ => "DJ" | CountryAlpha2_DM => "DM"
    | CountryAlpha2_DO => "DO" | CountryAlpha2_EC => "EC" | CountryAlpha2_EG => "EG"
    | CountryAlpha2_SV => "SV" | CountryAlpha2_GQ => "GQ" | CountryAlpha2_ER => "ER"
    | CountryAlpha2_EE => "EE" | CountryAlpha2_ET => "ET" | CountryAlpha2_FK => "FK"
    | CountryAlpha2_FO => "FO" | CountryAlpha2_FJ => "FJ" | CountryAlpha2_FI => "FI"
    | CountryAlpha2_FR => "FR" | CountryAlpha2_GF => "GF" | CountryAlpha2_PF => "PF"
    | CountryAlpha2_TF => "TF" | CountryAlpha2_GA => "GA" | CountryAlpha2_GM => "GM"
    | CountryAlpha2_GE => "GE" | CountryAlpha2_DE => "DE" | CountryAlpha2_GH => "GH"
    | CountryAlpha2_GI => "GI" | CountryAlpha2_GR => "GR" | CountryAlpha2_GL => "GL"
    | CountryAlpha2_GD => "GD" | CountryAlpha2_GP => "GP" | CountryAlpha2_GU => "GU"
    | CountryAlpha2_GT => "GT" | CountryAlpha2_GG => "GG" | CountryAlpha2_GN => "GN"
    | CountryAlpha2_GW => "GW" | CountryAlpha2_GY => "GY" | CountryAlpha2_HT => "HT"
    | CountryAlpha2_HM => "HM" | CountryAlpha2_VA => "VA" | CountryAlpha2_HN => "HN"
    | CountryAlpha2_HK => "HK" | CountryAlpha2_HU => "HU" | CountryAlpha2_IS => "IS"
    | CountryAlpha2_IN => "IN" | CountryAlpha2_ID => "ID" | CountryAlpha2_IR => "IR"
    | CountryAlpha2_IQ => "IQ" | CountryAlpha2_IE => "IE" | CountryAlpha2_IM => "IM"
    | CountryAlpha2_IL => "IL" | CountryAlpha2_IT => "IT" | CountryAlpha2_JM => "JM"
    | CountryAlpha2_JP => "JP" | CountryAlpha2_JE => "JE" | CountryAlpha2_JO => "JO"
    | CountryAlpha2_KZ => "KZ" | CountryAlpha2_KE => "KE" | CountryAlpha2_KI => "KI"
    | CountryAlpha2_KP => "KP" | CountryAlpha2_KR => "KR" | CountryAlpha2_KW => "KW"
    | CountryAlpha2_KG => "KG" | CountryAlpha2_LA => "LA" | CountryAlpha2_LV => "LV"
    | CountryAlpha2_LB => "LB" | CountryAlpha2_LS => "LS" | CountryAlpha2_LR => "LR"
    | CountryAlpha2_LY => "LY" | CountryAlpha2_LI => "LI" | CountryAlpha2_LT => "LT"
    | CountryAlpha2_LU => "LU" | CountryAlpha2_MO => "MO" | CountryAlpha2_MK => "MK"
    | CountryAlpha2_MG => "MG" | CountryAlpha2_MW => "MW" | CountryAlpha2_MY => "MY"
    | CountryAlpha2_MV => "MV" | CountryAlpha2_ML => "ML" | CountryAlpha2_MT => "MT"
    | CountryAlpha2_MH => "MH" | CountryAlpha2_MQ => "MQ" | CountryAlpha2_MR => "MR"
    | CountryAlpha2_MU => "MU" | CountryAlpha2_YT => "YT" | CountryAlpha2_MX => "MX"
    | CountryAlpha2_FM => "FM" | CountryAlpha2_MD => "MD" | CountryAlpha2_MC => "MC"
    | CountryAlpha2_MN => "MN" | CountryAlpha2_ME => "ME" | CountryAlpha2_MS => "MS"
    | CountryAlpha2_MA => "MA" | CountryAlpha2_MZ => "MZ" | CountryAlpha2_MM => "MM"
    | CountryAlpha2_NA => "NA" | CountryAlpha2_NR => "NR" | CountryAlpha2_NP => "NP"
    | CountryAlpha2_NL => "NL" | CountryAlpha2_NC => "NC" | CountryAlpha2_NZ => "NZ"
    | CountryAlpha2_NI => "NI" | CountryAlpha2_NE => "NE" | CountryAlpha2_NG => "NG"
    | CountryAlpha2_NU => "NU" | CountryAlpha2_NF => "NF" | CountryAlpha2_MP => "MP"
    | CountryAlpha2_NO => "NO" | CountryAlpha2_OM => "OM" | CountryAlpha2_PK => "PK"
    | CountryAlpha2_PW => "PW" | CountryAlpha2_PS => "PS" | CountryAlpha2_PA => "PA"
    | CountryAlpha2_PG => "PG" | CountryAlpha2_PY => "PY" | CountryAlpha2_PE => "PE"
    | CountryAlpha2_PH => "PH" | CountryAlpha2_PN => "PN" | CountryAlpha2_PL => "PL"
    | CountryAlpha2_PT => "PT" | CountryAlpha2_PR => "PR" | CountryAlpha2_QA => "QA"
    | CountryAlpha2_RE => "RE" | CountryAlpha2_RO => "RO" | CountryAlpha2_RU => "RU"
    | CountryAlpha2_RW => "RW" | CountryAlpha2_BL => "BL" | CountryAlpha2_SH => "SH"
    | CountryAlpha2_KN => "KN" | CountryAlpha2_LC => "LC" | CountryAlpha2_MF => "MF"
    | CountryAlpha2_PM => "PM" | CountryAlpha2_VC => "VC" | CountryAlpha2_WS => "WS"
    | CountryAlpha2_SM => "SM" | CountryAlpha2_ST => "ST" | CountryAlpha2_SA => "SA"
    | CountryAlpha2_SN => "SN" | CountryAlpha2_RS => "RS" | CountryAlpha2_SC => "SC"
    | CountryAlpha2_SL => "SL" | CountryAlpha2_SG => "SG" | CountryAlpha2_SX => "SX"
    | CountryAlpha2_SK => "SK" | CountryAlpha2_SI => "SI" | CountryAlpha2_SB => "SB"
    | CountryAlpha2_SO => "SO" | CountryAlpha2_ZA => "ZA" | CountryAlpha2_GS => "GS"
    | CountryAlpha2_SS => "SS" | CountryAlpha2_ES => "ES" | CountryAlpha2_LK => "LK"
    | CountryAlpha2_SD => "SD" | CountryAlpha2_SR => "SR" | CountryAlpha2_SJ => "SJ"
    | CountryAlpha2_SZ => "SZ" | CountryAlpha2_SE => "SE" | CountryAlpha2_CH => "CH"
    | CountryAlpha2_SY => "SY" | CountryAlpha2_TW => "TW" | CountryAlpha2_TJ => "TJ"
    | CountryAlpha2_TZ => "TZ" | CountryAlpha2_TH => "TH" | CountryAlpha2_TL => "TL"
    | CountryAlpha2_TG => "TG" | CountryAlpha2_TK => "TK" | CountryAlpha2_TO => "TO"
    | CountryAlpha2_TT => "TT" | CountryAlpha2_TN => "TN" | CountryAlpha2_TR => "TR"
    | CountryAlpha2_TM => "TM" | CountryAlpha2_TC => "TC" | CountryAlpha2_TV => "TV"
    | CountryAlpha2_UG => "UG" | CountryAlpha2_UA => "UA" | CountryAlpha2_AE => "AE"
    | CountryAlpha2_GB => "GB" | CountryAlpha2_UM => "UM" | CountryAlpha2_UY => "UY"
    | CountryAlpha2_UZ => "UZ" | CountryAlpha2_VU => "VU" | CountryAlpha2_VE => "VE"
    | CountryAlpha2_VN => "VN" | CountryAlpha2_VG => "VG" | CountryAlpha2_VI => "VI"
    | CountryAlpha2_WF => "WF" | CountryAlpha2_EH => "EH" | CountryAlpha2_YE => "YE"
    | CountryAlpha2_ZM => "ZM" | CountryAlpha2_ZW => "ZW" | CountryAlpha2_US => "US"
    end).

Inductive CountryAlpha3 : Set :=
  | CountryAlpha3_AFG | CountryAlpha3_ALA | CountryAlpha3_ALB | CountryAlpha3_DZA
  | CountryAlpha3_ASM | CountryAlpha3_AND | CountryAlpha3_AGO | CountryAlpha3_AIA
  | CountryAlpha3_ATA | CountryAlpha3_ATG | CountryAlpha3_ARG | CountryAlpha3_ARM
  | CountryAlpha3_ABW | CountryAlpha3_AUS | CountryAlpha3_AUT | CountryAlpha3_AZE
  | CountryAlpha3_BHS | CountryAlpha3_BHR | CountryAlpha3_BGD | CountryAlpha3_BRB
  | CountryAlpha3_BLR | CountryAlpha3_BEL | CountryAlpha3_BLZ | CountryAlpha3_BEN
  | CountryAlpha3_BMU | CountryAlpha3_BTN | CountryAlpha3_BOL | CountryAlpha3_BES
  | CountryAlpha3_BIH | CountryAlpha3_BWA | CountryAlpha3_BVT | CountryAlpha3_BRA
  | CountryAlpha3_IOT | CountryAlpha3_BRN | CountryAlpha3_BGR | CountryAlpha3_BFA
  | CountryAlpha3_BDI | CountryAlpha3_CPV | CountryAlpha3_KHM | CountryAlpha3_CMR
  | CountryAlpha3_CAN | CountryAlpha3_CYM | CountryAlpha3_CAF | CountryAlpha3_TCD
  | CountryAlpha3_CHL | CountryAlpha3_CHN | CountryAlpha3_CXR | CountryAlpha3_CCK
  | CountryAlpha3_COL | CountryAlpha3_COM | CountryAlpha3_COG | CountryAlpha3_COD
  | CountryAlpha3_COK | CountryAlpha3_CRI | CountryAlpha3_CIV | CountryAlpha3_HRV
  | CountryAlpha3_CUB | CountryAlpha3_CUW | CountryAlpha3_CYP | CountryAlpha3_CZE
  | CountryAlpha3_DNK | CountryAlpha3_DJI | CountryAlpha3_DMA | CountryAlpha3_DOM
  | CountryAlpha3_ECU | CountryAlpha3_EGY | CountryAlpha3_SLV | CountryAlpha3_GNQ
  | CountryAlpha3_ERI | CountryAlpha3_EST | CountryAlpha3_ETH | CountryAlpha3_FLK
  | CountryAlpha3_FRO | CountryAlpha3_FJI | CountryAlpha3_FIN | CountryAlpha3_FRA
  | CountryAlpha3_GUF | CountryAlpha3_PYF | CountryAlpha3_ATF | CountryAlpha3_GAB
  | CountryAlpha3_GMB | CountryAlpha3_GEO | CountryAlpha3_DEU | CountryAlpha3_GHA
  | CountryAlpha3_GIB | CountryAlpha3_GRC | CountryAlpha3_GRL | CountryAlpha3_GRD
  | CountryAlpha3_GLP | CountryAlpha3_GUM | CountryAlpha3_GTM | CountryAlpha3_GGY
  | CountryAlpha3_GIN | CountryAlpha3_GNB | CountryAlpha3_GUY | CountryAlpha3_HTI
  | CountryAlpha3_HMD | CountryAlpha3_VAT | CountryAlpha3_HND | CountryAlpha3_HKG
  | CountryAlpha3_HUN | CountryAlpha3_ISL | CountryAlpha3_IND | CountryAlpha3_IDN
  | CountryAlpha3_IRN | CountryAlpha3_IRQ | CountryAlpha3_IRL | CountryAlpha3_IMN
  | CountryAlpha3_ISR | CountryAlpha3_ITA | CountryAlpha3_JAM | CountryAlpha3_JPN
  | CountryAlpha3_JEY | CountryAlpha3_JOR | CountryAlpha3_KAZ | CountryAlpha3_KEN
  | CountryAlpha3_KIR | CountryAlpha3_PRK | CountryAlpha3_KOR | CountryAlpha3_KWT
  | CountryAlpha3_KGZ | CountryAlpha3_LAO | CountryAlpha3_LVA | CountryAlpha3_LBN
  | CountryAlpha3_LSO | CountryAlpha3_LBR | CountryAlpha3_LBY | CountryAlpha3_LIE
  | CountryAlpha3_LTU | CountryAlpha3_LUX | CountryAlpha3_MAC | CountryAlpha3_MKD
  | CountryAlpha3_MDG | CountryAlpha3_MWI | CountryAlpha3_MYS | CountryAlpha3_MDV
  | CountryAlpha3_MLI | CountryAlpha3_MLT | CountryAlpha3_MHL | CountryAlpha3_MTQ
  | CountryAlpha3_MRT | CountryAlpha3_MUS | CountryAlpha3_MYT | CountryAlpha3_MEX
  | CountryAlpha3_FSM | CountryAlpha3_MDA | CountryAlpha3_MCO | CountryAlpha3_MNG
  | CountryAlpha3_MNE | CountryAlpha3_MSR | CountryAlpha3_MAR | CountryAlpha3_MOZ
  | CountryAlpha3_MMR | CountryAlpha3_NAM | CountryAlpha3_NRU | CountryAlpha3_NPL
  | CountryAlpha3_NLD | CountryAlpha3_NCL | CountryAlpha3_NZL | CountryAlpha3_NIC
  | CountryAlpha3_NER | CountryAlpha3_NGA | CountryAlpha3_NIU | CountryAlpha3_NFK
  | CountryAlpha3_MNP | CountryAlpha3_NOR | CountryAlpha3_OMN | CountryAlpha3_PAK
  | CountryAlpha3_PLW | CountryAlpha3_PSE | CountryAlpha3_PAN | CountryAlpha3_PNG
  | CountryAlpha3_PRY | CountryAlpha3_PER | CountryAlpha3_PHL | CountryAlpha3_PCN
  | CountryAlpha3_POL | CountryAlpha3_PRT | CountryAlpha3_PRI | CountryAlpha3_QAT
  | CountryAlpha3_REU | CountryAlpha3_ROU | CountryAlpha3_RUS | CountryAlpha3_RWA
  | CountryAlpha3_BLM | CountryAlpha3_SHN | CountryAlpha3_KNA | CountryAlpha3_LCA
  | CountryAlpha3_MAF | CountryAlpha3_SPM | CountryAlpha3_VCT | CountryAlpha3_WSM
  | CountryAlpha3_SMR | CountryAlpha3_STP | CountryAlpha3_SAU | CountryAlpha3_SEN
  | CountryAlpha3_SRB | CountryAlpha3_SYC | CountryAlpha3_SLE | CountryAlpha3_SGP
  | CountryAlpha3_SXM | CountryAlpha3_SVK | CountryAlpha3_SVN | CountryAlpha3_SLB
  | CountryAlpha3_SOM | CountryAlpha3_ZAF | CountryAlpha3_SGS | CountryAlpha3_SSD
  | CountryAlpha3_ESP | CountryAlpha3_LKA | CountryAlpha3_SDN | CountryAlpha3_SUR
  | CountryAlpha3_SJM | CountryAlpha3_SWZ | CountryAlpha3_SWE | CountryAlpha3_CHE
  | CountryAlpha3_SYR | CountryAlpha3_TWN | CountryAlpha3_TJK | CountryAlpha3_TZA
  | CountryAlpha3_THA | CountryAlpha3_TLS | CountryAlpha3_TGO | CountryAlpha3_TKL
  | CountryAlpha3_TON | CountryAlpha3_TTO | CountryAlpha3_TUN | CountryAlpha3_TUR
  | CountryAlpha3_TKM | CountryAlpha3_TCA | CountryAlpha3_TUV | CountryAlpha3_UGA
  | CountryAlpha3_UKR | CountryAlpha3_ARE | CountryAlpha3_GBR | CountryAlpha3_USA
  | CountryAlpha3_UMI | CountryAlpha3_URY | CountryAlpha3_UZB | CountryAlpha3_VUT
  | CountryAlpha3_VEN | CountryAlpha3_VNM | CountryAlpha3_VGB | CountryAlpha3_VIR
  | CountryAlpha3_WLF | CountryAlpha3_ESH | CountryAlpha3_YEM | CountryAlpha3_ZMB
  | CountryAlpha3_ZWE.

#[export] Program Instance CountryAlpha3_enumerated : Enumerated CountryAlpha3 := {|
  variants := [
    CountryAlpha3_AFG; CountryAlpha3_ALA; CountryAlpha3_ALB; CountryAlpha3_DZA;
    CountryAlpha3_ASM; CountryAlpha3_AND; CountryAlpha3_AGO; CountryAlpha3_AIA;
    CountryAlpha3_ATA; CountryAlpha3_ATG; CountryAlpha3_ARG; CountryAlpha3_ARM;
    CountryAlpha3_ABW; CountryAlpha3_AUS; CountryAlpha3_AUT; CountryAlpha3_AZE;
    CountryAlpha3_BHS; CountryAlpha3_BHR; CountryAlpha3_BGD; CountryAlpha3_BRB;
    CountryAlpha3_BLR; CountryAlpha3_BEL; CountryAlpha3_BLZ; CountryAlpha3_BEN;
    CountryAlpha3_BMU; CountryAlpha3_BTN; CountryAlpha3_BOL; CountryAlpha3_BES;
    CountryAlpha3_BIH; CountryAlpha3_BWA; CountryAlpha3_BVT; CountryAlpha3_BRA;
    CountryAlpha3_IOT; CountryAlpha3_BRN; CountryAlpha3_BGR; CountryAlpha3_BFA;
    CountryAlpha3_BDI; CountryAlpha3_CPV; CountryAlpha3_KHM; CountryAlpha3_CMR;
    CountryAlpha3_CAN; CountryAlpha3_CYM; CountryAlpha3_CAF; CountryAlpha3_TCD;
    CountryAlpha3_CHL; CountryAlpha3_CHN; CountryAlpha3_CXR; CountryAlpha3_CCK;
    CountryAlpha3_COL; CountryAlpha3_COM; CountryAlpha3_COG; CountryAlpha3_COD;
    CountryAlpha3_COK; CountryAlpha3_CRI; CountryAlpha3_CIV; CountryAlpha3_HRV;
    CountryAlpha3_CUB; CountryAlpha3_CUW; CountryAlpha3_CYP; CountryAlpha3_CZE;
    CountryAlpha3_DNK; CountryAlpha3_DJI; CountryAlpha3_DMA; CountryAlpha3_DOM;
    CountryAlpha3_ECU; CountryAlpha3_EGY; CountryAlpha3_SLV; CountryAlpha3_GNQ;
    CountryAlpha3_ERI; CountryAlpha3_EST; CountryAlpha3_ETH; CountryAlpha3_FLK;
    CountryAlpha3_FRO; CountryAlpha3_FJI; CountryAlpha3_FIN; CountryAlpha3_FRA;
    CountryAlpha3_GUF; CountryAlpha3_PYF; CountryAlpha3_ATF; CountryAlpha3_GAB;
    CountryAlpha3_GMB; CountryAlpha3_GEO; CountryAlpha3_DEU; CountryAlpha3_GHA;
    CountryAlpha3_GIB; CountryAlpha3_GRC; CountryAlpha3_GRL; CountryAlpha3_GRD;
    CountryAlpha3_GLP; CountryAlpha3_GUM; CountryAlpha3_GTM; CountryAlpha3_GGY;
    CountryAlpha3_GIN; CountryAlpha3_GNB; CountryAlpha3_GUY; CountryAlpha3_HTI;
    CountryAlpha3_HMD; CountryAlpha3_VAT; CountryAlpha3_HND; CountryAlpha3_HKG;
    CountryAlpha3_HUN; CountryAlpha3_ISL; CountryAlpha3_IND; CountryAlpha3_IDN;
    CountryAlpha3_IRN; CountryAlpha3_IRQ; CountryAlpha3_IRL; CountryAlpha3_IMN;
    CountryAlpha3_ISR; CountryAlpha3_ITA; CountryAlpha3_JAM; CountryAlpha3_JPN;
    CountryAlpha3_JEY; CountryAlpha3_JOR; CountryAlpha3_KAZ; CountryAlpha3_KEN;
    CountryAlpha3_KIR; CountryAlpha3_PRK; CountryAlpha3_KOR; CountryAlpha3_KWT;
    CountryAlpha3_KGZ; CountryAlpha3_LAO; CountryAlpha3_LVA; CountryAlpha3_LBN;
    CountryAlpha3_LSO; CountryAlpha3_LBR; CountryAlpha3_LBY; CountryAlpha3_LIE;
    CountryAlpha3_LTU; CountryAlpha3_LUX; CountryAlpha3_MAC; CountryAlpha3_MKD;
    CountryAlpha3_MDG; CountryAlpha3_MWI; CountryAlpha3_MYS; CountryAlpha3_MDV;
    CountryAlpha3_MLI; CountryAlpha3_MLT; CountryAlpha3_MHL; CountryAlpha3_MTQ;
    CountryAlpha3_MRT; CountryAlpha3_MUS; CountryAlpha3_MYT; CountryAlpha3_MEX;
    CountryAlpha3_FSM; CountryAlpha3_MDA; CountryAlpha3_MCO; CountryAlpha3_MNG;
    CountryAlpha3_MNE; CountryAlpha3_MSR; CountryAlpha3_MAR; CountryAlpha3_MOZ;
    CountryAlpha3_MMR; CountryAlpha3_NAM; CountryAlpha3_NRU; CountryAlpha3_NPL;
    CountryAlpha3_NLD; CountryAlpha3_NCL; CountryAlpha3_NZL; CountryAlpha3_NIC;
    CountryAlpha3_NER; CountryAlpha3_NGA; CountryAlpha3_NIU; CountryAlpha3_NFK;
    CountryAlpha3_MNP; CountryAlpha3_NOR; CountryAlpha3_OMN; CountryAlpha3_PAK;
    CountryAlpha3_PLW; CountryAlpha3_PSE; CountryAlpha3_PAN; CountryAlpha3_PNG;
    CountryAlpha3_PRY; CountryAlpha3_PER; CountryAlpha3_PHL; CountryAlpha3_PCN;
    CountryAlpha3_POL; CountryAlpha3_PRT; CountryAlpha3_PRI; CountryAlpha3_QAT;
    CountryAlpha3_REU; CountryAlpha3_ROU; CountryAlpha3_RUS; CountryAlpha3_RWA;
    CountryAlpha3_BLM; CountryAlpha3_SHN; CountryAlpha3_KNA; CountryAlpha3_LCA;
    CountryAlpha3_MAF; CountryAlpha3_SPM; CountryAlpha3_VCT; CountryAlpha3_WSM;
    CountryAlpha3_SMR; CountryAlpha3_STP; CountryAlpha3_SAU; CountryAlpha3_SEN;
    CountryAlpha3_SRB; CountryAlpha3_SYC; CountryAlpha3_SLE; CountryAlpha3_SGP;
    CountryAlpha3_SXM; CountryAlpha3_SVK; CountryAlpha3_SVN; CountryAlpha3_SLB;
    CountryAlpha3_SOM; CountryAlpha3_ZAF; CountryAlpha3_SGS; CountryAlpha3_SSD;
    CountryAlpha3_ESP; CountryAlpha3_LKA; CountryAlpha3_SDN; CountryAlpha3_SUR;
    CountryAlpha3_SJM; CountryAlpha3_SWZ; CountryAlpha3_SWE; CountryAlpha3_CHE;
    CountryAlpha3_SYR; CountryAlpha3_TWN; CountryAlpha3_TJK; CountryAlpha3_TZA;
    CountryAlpha3_THA; CountryAlpha3_TLS; CountryAlpha3_TGO; CountryAlpha3_TKL;
    CountryAlpha3_TON; CountryAlpha3_TTO; CountryAlpha3_TUN; CountryAlpha3_TUR;
    CountryAlpha3_TKM; CountryAlpha3_TCA; CountryAlpha3_TUV; CountryAlpha3_UGA;
    CountryAlpha3_UKR; CountryAlpha3_ARE; CountryAlpha3_GBR; CountryAlpha3_USA;
    CountryAlpha3_UMI; CountryAlpha3_URY; CountryAlpha3_UZB; CountryAlpha3_VUT;
    CountryAlpha3_VEN; CountryAlpha3_VNM; CountryAlpha3_VGB; CountryAlpha3_VIR;
    CountryAlpha3_WLF; CountryAlpha3_ESH; CountryAlpha3_YEM; CountryAlpha3_ZMB;
    CountryAlpha3_ZWE];
  discriminant x := match x with
    | CountryAlpha3_AFG => 0 | CountryAlpha3_ALA => 1 | CountryAlpha3_ALB => 2
    | CountryAlpha3_DZA => 3 | CountryAlpha3_ASM => 4 | CountryAlpha3_AND => 5
    | CountryAlpha3_AGO => 6 | CountryAlpha3_AIA => 7 | CountryAlpha3_ATA => 8
    | CountryAlpha3_ATG => 9 | CountryAlpha3_ARG => 10 | CountryAlpha3_ARM => 11
    | CountryAlpha3_ABW => 12 | CountryAlpha3_AUS => 13 | CountryAlpha3_AUT => 14
    | CountryAlpha3_AZE => 15 | CountryAlpha3_BHS => 16 | CountryAlpha3_BHR => 17
    | CountryAlpha3_BGD => 18 | CountryAlpha3_BRB => 19 | CountryAlpha3_BLR => 20
    | CountryAlpha3_BEL => 21 | CountryAlpha3_BLZ => 22 | CountryAlpha3_BEN => 23
    | CountryAlpha3_BMU => 24 | CountryAlpha3_BTN => 25 | CountryAlpha3_BOL => 26
    | CountryAlpha3_BES => 27 | CountryAlpha3_BIH => 28 | CountryAlpha3_BWA => 29
    | CountryAlpha3_BVT => 30 | CountryAlpha3_BRA => 31 | CountryAlpha3_IOT => 32
    | CountryAlpha3_BRN => 33 | CountryAlpha3_BGR => 34 | CountryAlpha3_BFA => 35
    | CountryAlpha3_BDI => 36 | CountryAlpha3_CPV => 37 | CountryAlpha3_KHM => 38
    | CountryAlpha3_CMR => 39 | CountryAlpha3_CAN => 40 | CountryAlpha3_CYM => 41
    | CountryAlpha3_CAF => 42 | CountryAlpha3_TCD => 43 | CountryAlpha3_CHL => 44
    | CountryAlpha3_CHN => 45 | CountryAlpha3_CXR => 46 | CountryAlpha3_CCK => 47
    | CountryAlpha3_COL => 48 | CountryAlpha3_COM => 49 | CountryAlpha3_COG => 50
    | CountryAlpha3_COD => 51 | CountryAlpha3_COK => 52 | CountryAlpha3_CRI => 53
    | CountryAlpha3_CIV => 54 | CountryAlpha3_HRV => 55 | CountryAlpha3_CUB => 56
    | CountryAlpha3_CUW => 57 | CountryAlpha3_CYP => 58 | CountryAlpha3_CZE => 59
    | CountryAlpha3_DNK => 60 | CountryAlpha3_DJI => 61 | CountryAlpha3_DMA => 62
    | CountryAlpha3_DOM => 63 | CountryAlpha3_ECU => 64 | CountryAlpha3_EGY => 65
    | CountryAlpha3_SLV => 66 | CountryAlpha3_GNQ => 67 | CountryAlpha3_ERI => 68
    | CountryAlpha3_EST => 69 | CountryAlpha3_ETH => 70 | CountryAlpha3_FLK => 71
    | CountryAlpha3_FRO => 72 | CountryAlpha3_FJI => 73 | CountryAlpha3_FIN => 74
    | CountryAlpha3_FRA => 75 | CountryAlpha3_GUF => 76 | CountryAlpha3_PYF => 77
    | CountryAlpha3_ATF => 78 | CountryAlpha3_GAB => 79 | CountryAlpha3_GMB => 80
    | CountryAlpha3_GEO => 81 | CountryAlpha3_DEU => 82 | CountryAlpha3_GHA => 83
    | CountryAlpha3_GIB => 84 | CountryAlpha3_GRC => 85 | CountryAlpha3_GRL => 86
    | CountryAlpha3_GRD => 87 | CountryAlpha3_GLP => 88 | CountryAlpha3_GUM => 89
    | CountryAlpha3_GTM => 90 | CountryAlpha3_GGY => 91 | CountryAlpha3_GIN => 92
    | CountryAlpha3_GNB => 93 | CountryAlpha3_GUY => 94 | CountryAlpha3_HTI => 95
    | CountryAlpha3_HMD => 96 | CountryAlpha3_VAT => 97 | CountryAlpha3_HND => 98
    | CountryAlpha3_HKG => 99 | CountryAlpha3_HUN => 100 | CountryAlpha3_ISL => 101
    | CountryAlpha3_IND => 102 | CountryAlpha3_IDN => 103 | CountryAlpha3_IRN => 104
    | CountryAlpha3_IRQ => 105 | CountryAlpha3_IRL => 106 | CountryAlpha3_IMN => 107
    | CountryAlpha3_ISR => 108 | CountryAlpha3_ITA => 109 | CountryAlpha3_JAM => 110
    | CountryAlpha3_JPN => 111 | CountryAlpha3_JEY => 112 | CountryAlpha3_JOR => 113
    | CountryAlpha3_KAZ => 114 | CountryAlpha3_KEN => 115 | CountryAlpha3_KIR => 116
    | CountryAlpha3_PRK => 117 | CountryAlpha3_KOR => 118 | CountryAlpha3_KWT => 119
    | CountryAlpha3_KGZ => 120 | CountryAlpha3_LAO => 121 | CountryAlpha3_LVA => 122
    | CountryAlpha3_LBN => 123 | CountryAlpha3_LSO => 124 | CountryAlpha3_LBR => 125
    | CountryAlpha3_LBY => 126 | CountryAlpha3_LIE => 127 | CountryAlpha3_LTU => 128
    | CountryAlpha3_LUX => 129 | CountryAlpha3_MAC => 130 | CountryAlpha3_MKD => 131
    | CountryAlpha3_MDG => 132 | CountryAlpha3_MWI => 133 | CountryAlpha3_MYS => 134
    | CountryAlpha3_MDV => 135 | CountryAlpha3_MLI => 136 | CountryAlpha3_MLT => 137
    | CountryAlpha3_MHL => 138 | CountryAlpha3_MTQ => 139 | CountryAlpha3_MRT => 140
    | CountryAlpha3_MUS => 141 | CountryAlpha3_MYT => 142 | CountryAlpha3_MEX => 143
    | CountryAlpha3_FSM => 144 | CountryAlpha3_MDA => 145 | CountryAlpha3_MCO => 146
    | CountryAlpha3_MNG => 147 | CountryAlpha3_MNE => 148 | CountryAlpha3_MSR => 149
    | CountryAlpha3_MAR => 150 | CountryAlpha3_MOZ => 151 | CountryAlpha3_MMR => 152
    | CountryAlpha3_NAM => 153 | CountryAlpha3_NRU => 154 | CountryAlpha3_NPL => 155
    | CountryAlpha3_NLD => 156 | CountryAlpha3_NCL => 157 | CountryAlpha3_NZL => 158
    | CountryAlpha3_NIC => 159 | CountryAlpha3_NER => 160 | CountryAlpha3_NGA => 161
    | CountryAlpha3_NIU => 162 | CountryAlpha3_NFK => 163 | CountryAlpha3_MNP => 164
    | CountryAlpha3_NOR => 165 | CountryAlpha3_OMN => 166 | CountryAlpha3_PAK => 167
    | CountryAlpha3_PLW => 168 | CountryAlpha3_PSE => 169 | CountryAlpha3_PAN => 170
    | CountryAlpha3_PNG => 171 | CountryAlpha3_PRY => 172 | CountryAlpha3_PER => 173
    | CountryAlpha3_PHL => 174 | CountryAlpha3_PCN => 175 | CountryAlpha3_POL => 176
    | CountryAlpha3_PRT => 177 | CountryAlpha3_PRI => 178 | CountryAlpha3_QAT => 179
    | CountryAlpha3_REU => 180 | CountryAlpha3_ROU => 181 | CountryAlpha3_RUS => 182
    | CountryAlpha3_RWA => 183 | CountryAlpha3_BLM => 184 | CountryAlpha3_SHN => 185
    | CountryAlpha3_KNA => 186 | CountryAlpha3_LCA => 187 | CountryAlpha3_MAF => 188
    | CountryAlpha3_SPM => 189 | CountryAlpha3_VCT => 190 | CountryAlpha3_WSM => 191
    | CountryAlpha3_SMR => 192 | CountryAlpha3_STP => 193 | CountryAlpha3_SAU => 194
    | CountryAlpha3_SEN => 195 | CountryAlpha3_SRB => 196 | CountryAlpha3_SYC => 197
    | CountryAlpha3_SLE => 198 | CountryAlpha3_SGP => 199 | CountryAlpha3_SXM => 200
    | CountryAlpha3_SVK => 201 | CountryAlpha3_SVN => 202 | CountryAlpha3_SLB => 203
    | CountryAlpha3_SOM => 204 | CountryAlpha3_ZAF => 205 | CountryAlpha3_SGS => 206
    | CountryAlpha3_SSD => 207 | CountryAlpha3_ESP => 208 | CountryAlpha3_LKA => 209
    | CountryAlpha3_SDN => 210 | CountryAlpha3_SUR => 211 | CountryAlpha3_SJM => 212
    | CountryAlpha3_SWZ => 213 | CountryAlpha3_SWE => 214 | CountryAlpha3_CHE => 215
    | CountryAlpha3_SYR => 216 | CountryAlpha3_TWN => 217 | CountryAlpha3_TJK => 218
    | CountryAlpha3_TZA => 219 | CountryAlpha3_THA => 220 | CountryAlpha3_TLS => 221
    | CountryAlpha3_TGO => 222 | CountryAlpha3_TKL => 223 | CountryAlpha3_TON => 224
    | CountryAlpha3_TTO => 225 | CountryAlpha3_TUN => 226 | CountryAlpha3_TUR => 227
    | CountryAlpha3_TKM => 228 | CountryAlpha3_TCA => 229 | CountryAlpha3_TUV => 230
    | CountryAlpha3_UGA => 231 | CountryAlpha3_UKR => 232 | CountryAlpha3_ARE => 233
    | CountryAlpha3_GBR => 234 | CountryAlpha3_USA => 235 | CountryAlpha3_UMI => 236
    | CountryAlpha3_URY => 237 | CountryAlpha3_UZB => 238 | CountryAlpha3_VUT => 239
    | CountryAlpha3_VEN => 240 | CountryAlpha3_VNM => 241 | CountryAlpha3_VGB => 242
    | CountryAlpha3_VIR => 243 | CountryAlpha3_WLF => 244 | CountryAlpha3_ESH => 245
    | CountryAlpha3_YEM => 246 | CountryAlpha3_ZMB => 247 | CountryAlpha3_ZWE => 248
    end;
|}.
Next Obligation. by intros []. Qed.

Inductive Country : Set :=
  | Country_Afghanistan | Country_AlandIslands | Country_Albania | Country_Algeria
  | Country_AmericanSamoa | Country_Andorra | Country_Angola | Country_Anguilla
  | Country_Antarctica | Country_AntiguaAndBarbuda | Country_Argentina | Country_Armenia
  | Country_Aruba | Country_Australia | Country_Austria | Country_Azerbaijan | Country_Bahamas
  | Country_Bahrain | Country_Bangladesh | Country_Barbados | Country_Belarus | Country_Belgium
  | Country_Belize | Country_Benin | Country_Bermuda | Country_Bhutan
  | Country_BoliviaPlurinationalState | Country_BonaireSintEustatiusAndSaba
  | Country_BosniaAndHerzegovina | Country_Botswana | Country_BouvetIsland | Country_Brazil
  | Country_BritishIndianOceanTerritory | Country_BruneiDarussalam | Country_Bulgaria
  | Country_BurkinaFaso | Country_Burundi | Country_CaboVerde | Country_Cambodia
  | Country_Cameroon | Country_Canada | Country_CaymanIslands | Country_CentralAfricanRepublic
  | Country_Chad | Country_Chile | Country_China | Country_ChristmasIsland
  | Country_CocosKeelingIslands | Country_Colombia | Country_Comoros | Country_Congo
  | Country_CongoDemocraticRepublic | Country_CookIslands | Country_CostaRica
  | Country_CotedIvoire | Country_Croatia | Country_Cuba | Country_Curacao | Country_Cyprus
  | Country_Czechia | Country_Denmark | Country_Djibouti | Country_Dominica
  | Country_DominicanRepublic | Country_Ecuador | Country_Egypt | Country_ElSalvador
  | Country_EquatorialGuinea | Country_Eritrea | Country_Estonia | Country_Ethiopia
  | Country_FalklandIslandsMalvinas | Country_FaroeIslands | Country_Fiji | Country_Finland
  | Country_France | Country_FrenchGuiana | Country_FrenchPolynesia
  | Country_FrenchSouthernTerritories | Country_Gabon | Country_Gambia | Country_Georgia
  | Country_Germany | Country_Ghana | Country_Gibraltar | Country_Greece | Country_Greenland
  | Country_Grenada | Country_Guadeloupe | Country_Guam | Country_Guatemala | Country_Guernsey
  | Country_Guinea | Country_GuineaBissau | Country_Guyana | Country_Haiti
  | Country_HeardIslandAndMcDonaldIslands | Country_HolySee | Country_Honduras
  | Country_HongKong | Country_Hungary | Country_Iceland | Country_India | Country_Indonesia
  | Country_IranIslamicRepublic | Country_Iraq | Country_Ireland | Country_IsleOfMan
  | Country_Israel | Country_Italy | Country_Jamaica | Country_Japan | Country_Jersey
  | Country_Jordan | Country_Kazakhstan | Country_Kenya | Country_Kiribati
  | Country_KoreaDemocraticPeoplesRepublic | Country_KoreaRepublic | Country_Kuwait
  | Country_Kyrgyzstan | Country_LaoPeoplesDemocraticRepublic | Country_Latvia
  | Country_Lebanon | Country_Lesotho | Country_Liberia | Country_Libya | Country_Liechtenstein
  | Country_Lithuania | Country_Luxembourg | Country_Macao
  | Country_MacedoniaTheFormerYugoslavRepublic | Country_Madagascar | Country_Malawi
  | Country_Malaysia | Country_Maldives | Country_Mali | Country_Malta
  | Country_MarshallIslands | Country_Martinique | Country_Mauritania | Country_Mauritius
  | Country_Mayotte | Country_Mexico | Country_MicronesiaFederatedStates
  | Country_MoldovaRepublic | Country_Monaco | Country_Mongolia | Country_Montenegro
  | Country_Montserrat | Country_Morocco | Country_Mozambique | Country_Myanmar
  | Country_Namibia | Country_Nauru | Country_Nepal | Country_Netherlands
  | Country_NewCaledonia | Country_NewZealand | Country_Nicaragua | Country_Niger
  | Country_Nigeria | Country_Niue | Country_NorfolkIsland | Country_NorthernMarianaIslands
  | Country_Norway | Country_Oman | Country_Pakistan | Country_Palau | Country_PalestineState
  | Country_Panama | Country_PapuaNewGuinea | Country_Paraguay | Country_Peru
  | Country_Philippines | Country_Pitcairn | Country_Poland | Country_Portugal
  | Country_PuertoRico | Country_Qatar | Country_Reunion | Country_Romania
  | Country_RussianFederation | Country_Rwanda | Country_SaintBarthelemy
  | Country_SaintHelenaAscensionAndTristandaCunha | Country_SaintKittsAndNevis
  | Country_SaintLucia | Country_SaintMartinFrenchpart | Country_SaintPierreAndMiquelon
  | Country_SaintVincentAndTheGrenadines | Country_Samoa | Country_SanMarino
  | Country_SaoTomeAndPrincipe | Country_SaudiArabia | Country_Senegal | Country_Serbia
  | Country_Seychelles | Country_SierraLeone | Country_Singapore | Country_SintMaartenDutchpart
  | Country_Slovakia | Country_Slovenia | Country_SolomonIslands | Country_Somalia
  | Country_SouthAfrica | Country_SouthGeorgiaAndTheSouthSandwichIslands | Country_SouthSudan
  | Country_Spain | Country_SriLanka | Country_Sudan | Country_Suriname
  | Country_SvalbardAndJanMayen | Country_Swaziland | Country_Sweden | Country_Switzerland
  | Country_SyrianArabRepublic | Country_TaiwanProvinceOfChina | Country_Tajikistan
  | Country_TanzaniaUnitedRepublic | Country_Thailand | Country_TimorLeste | Country_Togo
  | Country_Tokelau | Country_Tonga | Country_TrinidadAndTobago | Country_Tunisia
  | Country_Turkey | Country_Turkmenistan | Country_TurksAndCaicosIslands | Country_Tuvalu
  | Country_Uganda | Country_Ukraine | Country_UnitedArabEmirates
  | Country_UnitedKingdomOfGreatBritainAndNorthernIreland | Country_UnitedStatesOfAmerica
  | Country_UnitedStatesMinorOutlyingIslands | Country_Uruguay | Country_Uzbekistan
  | Country_Vanuatu | Country_VenezuelaBolivarianRepublic | Country_Vietnam
  | Country_VirginIslandsBritish | Country_VirginIslandsUS | Country_WallisAndFutuna
  | Country_WesternSahara | Country_Yemen | Country_Zambia | Country_Zimbabwe.

#[export] Program Instance Country_enumerated : Enumerated Country := {|
  variants := [
    Country_Afghanistan; Country_AlandIslands; Country_Albania; Country_Algeria;
    Country_AmericanSamoa; Country_Andorra; Country_Angola; Country_Anguilla;
    Country_Antarctica; Country_AntiguaAndBarbuda; Country_Argentina; Country_Armenia;
    Country_Aruba; Country_Australia; Country_Austria; Country_Azerbaijan; Country_Bahamas;
    Country_Bahrain; Country_Bangladesh; Country_Barbados; Country_Belarus; Country_Belgium;
    Country_Belize; Country_Benin; Country_Bermuda; Country_Bhutan;
    Country_BoliviaPlurinationalState; Country_BonaireSintEustatiusAndSaba;
    Country_BosniaAndHerzegovina; Country_Botswana; Country_BouvetIsland; Country_Brazil;
    Country_BritishIndianOceanTerritory; Country_BruneiDarussalam; Country_Bulgaria;
    Country_BurkinaFaso; Country_Burundi; Country_CaboVerde; Country_Cambodia;
    Country_Cameroon; Country_Canada; Country_CaymanIslands; Country_CentralAfricanRepublic;
    Country_Chad; Country_Chile; Country_China; Country_ChristmasIsland;
    Country_CocosKeelingIslands; Country_Colombia; Country_Comoros; Country_Congo;
    Country_CongoDemocraticRepublic; Country_CookIslands; Country_CostaRica;
    Country_CotedIvoire; Country_Croatia; Country_Cuba; Country_Curacao; Country_Cyprus;
    Country_Czechia; Country_Denmark; Country_Djibouti; Country_Dominica;
    Country_DominicanRepublic; Country_Ecuador; Country_Egypt; Country_ElSalvador;
    Country_EquatorialGuinea; Country_Eritrea; Country_Estonia; Country_Ethiopia;
    Country_FalklandIslandsMalvinas; Country_FaroeIslands; Country_Fiji; Country_Finland;
    Country_France; Country_FrenchGuiana; Country_FrenchPolynesia;
    Country_FrenchSouthernTerritories; Country_Gabon; Country_Gambia; Country_Georgia;
    Country_Germany; Country_Ghana; Country_Gibraltar; Country_Greece; Country_Greenland;
    Country_Grenada; Country_Guadeloupe; Country_Guam; Country_Guatemala; Country_Guernsey;
    Country_Guinea; Country_GuineaBissau; Country_Guyana; Country_Haiti;
    Country_HeardIslandAndMcDonaldIslands; Country_HolySee; Country_Honduras; Country_HongKong;
    Country_Hungary; Country_Iceland; Country_India; Country_Indonesia;
    Country_IranIslamicRepublic; Country_Iraq; Country_Ireland; Country_IsleOfMan;
    Country_Israel; Country_Italy; Country_Jamaica; Country_Japan; Country_Jersey;
    Country_Jordan; Country_Kazakhstan; Country_Kenya; Country_Kiribati;
    Country_KoreaDemocraticPeoplesRepublic; Country_KoreaRepublic; Country_Kuwait;
    Country_Kyrgyzstan; Country_LaoPeoplesDemocraticRepublic; Country_Latvia; Country_Lebanon;
    Country_Lesotho; Country_Liberia; Country_Libya; Country_Liechtenstein; Country_Lithuania;
    Country_Luxembourg; Country_Macao; Country_MacedoniaTheFormerYugoslavRepublic;
    Country_Madagascar; Country_Malawi; Country_Malaysia; Country_Maldives; Country_Mali;
    Country_Malta; Country_MarshallIslands; Country_Martinique; Country_Mauritania;
    Country_Mauritius; Country_Mayotte; Country_Mexico; Country_MicronesiaFederatedStates;
    Country_MoldovaRepublic; Country_Monaco; Country_Mongolia; Country_Montenegro;
    Country_Montserrat; Country_Morocco; Country_Mozambique; Country_Myanmar; Country_Namibia;
    Country_Nauru; Country_Nepal; Country_Netherlands; Country_NewCaledonia;
    Country_NewZealand; Country_Nicaragua; Country_Niger; Country_Nigeria; Country_Niue;
    Country_NorfolkIsland; Country_NorthernMarianaIslands; Country_Norway; Country_Oman;
    Country_Pakistan; Country_Palau; Country_PalestineState; Country_Panama;
    Country_PapuaNewGuinea; Country_Paraguay; Country_Peru; Country_Philippines;
    Country_Pitcairn; Country_Poland; Country_Portugal; Country_PuertoRico; Country_Qatar;
    Country_Reunion; Country_Romania; Country_RussianFederation; Country_Rwanda;
    Country_SaintBarthelemy; Country_SaintHelenaAscensionAndTristandaCunha;
    Country_SaintKittsAndNevis; Country_SaintLucia; Country_SaintMartinFrenchpart;
    Country_SaintPierreAndMiquelon; Country_SaintVincentAndTheGrenadines; Country_Samoa;
    Country_SanMarino; Country_SaoTomeAndPrincipe; Country_SaudiArabia; Country_Senegal;
    Country_Serbia; Country_Seychelles; Country_SierraLeone; Country_Singapore;
    Country_SintMaartenDutchpart; Country_Slovakia; Country_Slovenia; Country_SolomonIslands;
    Country_Somalia; Country_SouthAfrica; Country_SouthGeorgiaAndTheSouthSandwichIslands;
    Country_SouthSudan; Country_Spain; Country_SriLanka; Country_Sudan; Country_Suriname;
    Country_SvalbardAndJanMayen; Country_Swaziland; Country_Sweden; Country_Switzerland;
    Country_SyrianArabRepublic; Country_TaiwanProvinceOfChina; Country_Tajikistan;
    Country_TanzaniaUnitedRepublic; Country_Thailand; Country_TimorLeste; Country_Togo;
    Country_Tokelau; Country_Tonga; Country_TrinidadAndTobago; Country_Tunisia; Country_Turkey;
    Country_Turkmenistan; Country_TurksAndCaicosIslands; Country_Tuvalu; Country_Uganda;
    Country_Ukraine; Country_UnitedArabEmirates;
    Country_UnitedKingdomOfGreatBritainAndNorthernIreland; Country_UnitedStatesOfAmerica;
    Country_UnitedStatesMinorOutlyingIslands; Country_Uruguay; Country_Uzbekistan;
    Country_Vanuatu; Country_VenezuelaBolivarianRepublic; Country_Vietnam;
    Country_VirginIslandsBritish; Country_VirginIslandsUS; Country_WallisAndFutuna;
    Country_WesternSahara; Country_Yemen; Country_Zambia; Country_Zimbabwe];
  discriminant x := match x with
    | Country_Afghanistan => 0 | Country_AlandIslands => 1 | Country_Albania => 2
    | Country_Algeria => 3 | Country_AmericanSamoa => 4 | Country_Andorra => 5
    | Country_Angola => 6 | Country_Anguilla => 7 | Country_Antarctica => 8
    | Country_AntiguaAndBarbuda => 9 | Country_Argentina => 10 | Country_Armenia => 11
    | Country_Aruba => 12 | Country_Australia => 13 | Country_Austria => 14
    | Country_Azerbaijan => 15 | Country_Bahamas => 16 | Country_Bahrain => 17
    | Country_Bangladesh => 18 | Country_Barbados => 19 | Country_Belarus => 20
    | Country_Belgium => 21 | Country_Belize => 22 | Country_Benin => 23
    | Country_Bermuda => 24 | Country_Bhutan => 25 | Country_BoliviaPlurinationalState => 26
    | Country_BonaireSintEustatiusAndSaba => 27 | Country_BosniaAndHerzegovina => 28
    | Country_Botswana => 29 | Country_BouvetIsland => 30 | Country_Brazil => 31
    | Country_BritishIndianOceanTerritory => 32 | Country_BruneiDarussalam => 33
    | Country_Bulgaria => 34 | Country_BurkinaFaso => 35 | Country_Burundi => 36
    | Country_CaboVerde => 37 | Country_Cambodia => 38 | Country_Cameroon => 39
    | Country_Canada => 40 | Country_CaymanIslands => 41 | Country_CentralAfricanRepublic => 42
    | Country_Chad => 43 | Country_Chile => 44 | Country_China => 45
    | Country_ChristmasIsland => 46 | Country_CocosKeelingIslands => 47
    | Country_Colombia => 48 | Country_Comoros => 49 | Country_Congo => 50
    | Country_CongoDemocraticRepublic => 51 | Country_CookIslands => 52
    | Country_CostaRica => 53 | Country_CotedIvoire => 54 | Country_Croatia => 55
    | Country_Cuba => 56 | Country_Curacao => 57 | Country_Cyprus => 58 | Country_Czechia => 59
    | Country_Denmark => 60 | Country_Djibouti => 61 | Country_Dominica => 62
    | Country_DominicanRepublic => 63 | Country_Ecuador => 64 | Country_Egypt => 65
    | Country_ElSalvador => 66 | Country_EquatorialGuinea => 67 | Country_Eritrea => 68
    | Country_Estonia => 69 | Country_Ethiopia => 70 | Country_FalklandIslandsMalvinas => 71
    | Country_FaroeIslands => 72 | Country_Fiji => 73 | Country_Finland => 74
    | Country_France => 75 | Country_FrenchGuiana => 76 | Country_FrenchPolynesia => 77
    | Country_FrenchSouthernTerritories => 78 | Country_Gabon => 79 | Country_Gambia => 80
    | Country_Georgia => 81 | Country_Germany => 82 | Country_Ghana => 83
    | Country_Gibraltar => 84 | Country_Greece => 85 | Country_Greenland => 86
    | Country_Grenada => 87 | Country_Guadeloupe => 88 | Country_Guam => 89
    | Country_Guatemala => 90 | Country_Guernsey => 91 | Country_Guinea => 92
    | Country_GuineaBissau => 93 | Country_Guyana => 94 | Country_Haiti => 95
    | Country_HeardIslandAndMcDonaldIslands => 96 | Country_HolySee => 97
    | Country_Honduras => 98 | Country_HongKong => 99 | Country_Hungary => 100
    | Country_Iceland => 101 | Country_India => 102 | Country_Indonesia => 103
    | Country_IranIslamicRepublic => 104 | Country_Iraq => 105 | Country_Ireland => 106
    | Country_IsleOfMan => 107 | Country_Israel => 108 | Country_Italy => 109
    | Country_Jamaica => 110 | Country_Japan => 111 | Country_Jersey => 112
    | Country_Jordan => 113 | Country_Kazakhstan => 114 | Country_Kenya => 115
    | Country_Kiribati => 116 | Country_KoreaDemocraticPeoplesRepublic => 117
    | Country_KoreaRepublic => 118 | Country_Kuwait => 119 | Country_Kyrgyzstan => 120
    | Country_LaoPeoplesDemocraticRepublic => 121 | Country_Latvia => 122
    | Country_Lebanon => 123 | Country_Lesotho => 124 | Country_Liberia => 125
    | Country_Libya => 126 | Country_Liechtenstein => 127 | Country_Lithuania => 128
    | Country_Luxembourg => 129 | Country_Macao => 130
    | Country_MacedoniaTheFormerYugoslavRepublic => 131 | Country_Madagascar => 132
    | Country_Malawi => 133 | Country_Malaysia => 134 | Country_Maldives => 135
    | Country_Mali => 136 | Country_Malta => 137 | Country_MarshallIslands => 138
    | Country_Martinique => 139 | Country_Mauritania => 140 | Country_Mauritius => 141
    | Country_Mayotte => 142 | Country_Mexico => 143 | Country_MicronesiaFederatedStates => 144
    | Country_MoldovaRepublic => 145 | Country_Monaco => 146 | Country_Mongolia => 147
    | Country_Montenegro => 148 | Country_Montserrat => 149 | Country_Morocco => 150
    | Country_Mozambique => 151 | Country_Myanmar => 152 | Country_Namibia => 153
    | Country_Nauru => 154 | Country_Nepal => 155 | Country_Netherlands => 156
    | Country_NewCaledonia => 157 | Country_NewZealand => 158 | Country_Nicaragua => 159
    | Country_Niger => 160 | Country_Nigeria => 161 | Country_Niue => 162
    | Country_NorfolkIsland => 163 | Country_NorthernMarianaIslands => 164
    | Country_Norway => 165 | Country_Oman => 166 | Country_Pakistan => 167
    | Country_Palau => 168 | Country_PalestineState => 169 | Country_Panama => 170
    | Country_PapuaNewGuinea => 171 | Country_Paraguay => 172 | Country_Peru => 173
    | Country_Philippines => 174 | Country_Pitcairn => 175 | Country_Poland => 176
    | Country_Portugal => 177 | Country_PuertoRico => 178 | Country_Qatar => 179
    | Country_Reunion => 180 | Country_Romania => 181 | Country_RussianFederation => 182
    | Country_Rwanda => 183 | Country_SaintBarthelemy => 184
    | Country_SaintHelenaAscensionAndTristandaCunha => 185 | Country_SaintKittsAndNevis => 186
    | Country_SaintLucia => 187 | Country_SaintMartinFrenchpart => 188
    | Country_SaintPierreAndMiquelon => 189 | Country_SaintVincentAndTheGrenadines => 190
    | Country_Samoa => 191 | Country_SanMarino => 192 | Country_SaoTomeAndPrincipe => 193
    | Country_SaudiArabia => 194 | Country_Senegal => 195 | Country_Serbia => 196
    | Country_Seychelles => 197 | Country_SierraLeone => 198 | Country_Singapore => 199
    | Country_SintMaartenDutchpart => 200 | Country_Slovakia => 201 | Country_Slovenia => 202
    | Country_SolomonIslands => 203 | Country_Somalia => 204 | Country_SouthAfrica => 205
    | Country_SouthGeorgiaAndTheSouthSandwichIslands => 206 | Country_SouthSudan => 207
    | Country_Spain => 208 | Country_SriLanka => 209 | Country_Sudan => 210
    | Country_Suriname => 211 | Country_SvalbardAndJanMayen => 212 | Country_Swaziland => 213
    | Country_Sweden => 214 | Country_Switzerland => 215 | Country_SyrianArabRepublic => 216
    | Country_TaiwanProvinceOfChina => 217 | Country_Tajikistan => 218
    | Country_TanzaniaUnitedRepublic => 219 | Country_Thailand => 220
    | Country_TimorLeste => 221 | Country_Togo => 222 | Country_Tokelau => 223
    | Country_Tonga => 224 | Country_TrinidadAndTobago => 225 | Country_Tunisia => 226
    | Country_Turkey => 227 | Country_Turkmenistan => 228
    | Country_TurksAndCaicosIslands => 229 | Country_Tuvalu => 230 | Country_Uganda => 231
    | Country_Ukraine => 232 | Country_UnitedArabEmirates => 233
    | Country_UnitedKingdomOfGreatBritainAndNorthernIreland => 234
    | Country_UnitedStatesOfAmerica => 235 | Country_UnitedStatesMinorOutlyingIslands => 236
    | Country_Uruguay => 237 | Country_Uzbekistan => 238 | Country_Vanuatu => 239
    | Country_VenezuelaBolivarianRepublic => 240 | Country_Vietnam => 241
    | Country_VirginIslandsBritish => 242 | Country_VirginIslandsUS => 243
    | Country_WallisAndFutuna => 244 | Country_WesternSahara => 245 | Country_Yemen => 246
    | Country_Zambia => 247 | Country_Zimbabwe => 248
    end;
|}.
Next Obligation. by intros []. Qed.

#[export] Instance Country_strum : EnumString Country := one_name (λ x, match x with
    | Country_Afghanistan => "Afghanistan" | Country_AlandIslands => "AlandIslands"
    | Country_Albania => "Albania" | Country_Algeria => "Algeria"
    | Country_AmericanSamoa => "AmericanSamoa" | Country_Andorra => "Andorra"
    | Country_Angola => "Angola" | Country_Anguilla => "Anguilla"
    | Country_Antarctica => "Antarctica" | Country_AntiguaAndBarbuda => "AntiguaAndBarbuda"
    | Country_Argentina => "Argentina" | Country_Armenia => "Armenia"
    | Country_Aruba => "Aruba" | Country_Australia => "Australia"
    | Country_Austria => "Austria" | Country_Azerbaijan => "Azerbaijan"
    | Country_Bahamas => "Bahamas" | Country_Bahrain => "Bahrain"
    | Country_Bangladesh => "Bangladesh" | Country_Barbados => "Barbados"
    | Country_Belarus => "Belarus" | Country_Belgium => "Belgium" | Country_Belize => "Belize"
    | Country_Benin => "Benin" | Country_Bermuda => "Bermuda" | Country_Bhutan => "Bhutan"
    | Country_BoliviaPlurinationalState => "BoliviaPlurinationalState"
    | Country_BonaireSintEustatiusAndSaba => "BonaireSintEustatiusAndSaba"
    | Country_BosniaAndHerzegovina => "BosniaAndHerzegovina" | Country_Botswana => "Botswana"
    | Country_BouvetIsland => "BouvetIsland" | Country_Brazil => "Brazil"
    | Country_BritishIndianOceanTerritory => "BritishIndianOceanTerritory"
    | Country_BruneiDarussalam => "BruneiDarussalam" | Country_Bulgaria => "Bulgaria"
    | Country_BurkinaFaso => "BurkinaFaso" | Country_Burundi => "Burundi"
    | Country_CaboVerde => "CaboVerde" | Country_Cambodia => "Cambodia"
    | Country_Cameroon => "Cameroon" | Country_Canada => "Canada"
    | Country_CaymanIslands => "CaymanIslands"
    | Country_CentralAfricanRepublic => "CentralAfricanRepublic" | Country_Chad => "Chad"
    | Country_Chile => "Chile" | Country_China => "China"
    | Country_ChristmasIsland => "ChristmasIsland"
    | Country_CocosKeelingIslands => "CocosKeelingIslands" | Country_Colombia => "Colombia"
    | Country_Comoros => "Comoros" | Country_Congo => "Congo"
    | Country_CongoDemocraticRepublic => "CongoDemocraticRepublic"
    | Country_CookIslands => "CookIslands" | Country_CostaRica => "CostaRica"
    | Country_CotedIvoire => "CotedIvoire" | Country_Croatia => "Croatia"
    | Country_Cuba => "Cuba" | Country_Curacao => "Curacao" | Country_Cyprus => "Cyprus"
    | Country_Czechia => "Czechia" | Country_Denmark => "Denmark"
    | Country_Djibouti => "Djibouti" | Country_Dominica => "Dominica"
    | Country_DominicanRepublic => "DominicanRepublic" | Country_Ecuador => "Ecuador"
    | Country_Egypt => "Egypt" | Country_ElSalvador => "ElSalvador"
    | Country_EquatorialGuinea => "EquatorialGuinea" | Country_Eritrea => "Eritrea"
    | Country_Estonia => "Estonia" | Country_Ethiopia => "Ethiopia"
    | Country_FalklandIslandsMalvinas => "FalklandIslandsMalvinas"
    | Country_FaroeIslands => "FaroeIslands" | Country_Fiji => "Fiji"
    | Country_Finland => "Finland" | Country_France => "France"
    | Country_FrenchGuiana => "FrenchGuiana" | Country_FrenchPolynesia => "FrenchPolynesia"
    | Country_FrenchSouthernTerritories => "FrenchSouthernTerritories"
    | Country_Gabon => "Gabon" | Country_Gambia => "Gambia" | Country_Georgia => "Georgia"
    | Country_Germany => "Germany" | Country_Ghana => "Ghana"
    | Country_Gibraltar => "Gibraltar" | Country_Greece => "Greece"
    | Country_Greenland => "Greenland" | Country_Grenada => "Grenada"
    | Country_Guadeloupe => "Guadeloupe" | Country_Guam => "Guam"
    | Country_Guatemala => "Guatemala" | Country_Guernsey => "Guernsey"
    | Country_Guinea => "Guinea" | Country_GuineaBissau => "GuineaBissau"
    | Country_Guyana => "Guyana" | Country_Haiti => "Haiti"
    | Country_HeardIslandAndMcDonaldIslands => "HeardIslandAndMcDonaldIslands"
    | Country_HolySee => "HolySee" | Country_Honduras => "Honduras"
    | Country_HongKong => "HongKong" | Country_Hungary => "Hungary"
    | Country_Iceland => "Iceland" | Country_India => "India"
    | Country_Indonesia => "Indonesia" | Country_IranIslamicRepublic => "IranIslamicRepublic"
    | Country_Iraq => "Iraq" | Country_Ireland => "Ireland" | Country_IsleOfMan => "IsleOfMan"
    | Country_Israel => "Israel" | Country_Italy => "Italy" | Country_Jamaica => "Jamaica"
    | Country_Japan => "Japan" | Country_Jersey => "Jersey" | Country_Jordan => "Jordan"
    | Country_Kazakhstan => "Kazakhstan" | Country_Kenya => "Kenya"
    | Country_Kiribati => "Kiribati"
    | Country_KoreaDemocraticPeoplesRepublic => "KoreaDemocraticPeoplesRepublic"
    | Country_KoreaRepublic => "KoreaRepublic" | Country_Kuwait => "Kuwait"
    | Country_Kyrgyzstan => "Kyrgyzstan"
    | Country_LaoPeoplesDemocraticRepublic => "LaoPeoplesDemocraticRepublic"
    | Country_Latvia => "Latvia" | Country_Lebanon => "Lebanon" | Country_Lesotho => "Lesotho"
    | Country_Liberia => "Liberia" | Country_Libya => "Libya"
    | Country_Liechtenstein => "Liechtenstein" | Country_Lithuania => "Lithuania"
    | Country_Luxembourg => "Luxembourg" | Country_Macao => "Macao"
    | Country_MacedoniaTheFormerYugoslavRepublic => "MacedoniaTheFormerYugoslavRepublic"
    | Country_Madagascar => "Madagascar" | Country_Malawi => "Malawi"
    | Country_Malaysia => "Malaysia" | Country_Maldives => "Maldives" | Country_Mali => "Mali"
    | Country_Malta => "Malta" | Country_MarshallIslands => "MarshallIslands"
    | Country_Martinique => "Martinique" | Country_Mauritania => "Mauritania"
    | Country_Mauritius => "Mauritius" | Country_Mayotte => "Mayotte"
    | Country_Mexico => "Mexico"
    | Country_MicronesiaFederatedStates => "MicronesiaFederatedStates"
    | Country_MoldovaRepublic => "MoldovaRepublic" | Country_Monaco => "Monaco"
    | Country_Mongolia => "Mongolia" | Country_Montenegro => "Montenegro"
    | Country_Montserrat => "Montserrat" | Country_Morocco => "Morocco"
    | Country_Mozambique => "Mozambique" | Country_Myanmar => "Myanmar"
    | Country_Namibia => "Namibia" | Country_Nauru => "Nauru" | Country_Nepal => "Nepal"
    | Country_Netherlands => "Netherlands" | Country_NewCaledonia => "NewCaledonia"
    | Country_NewZealand => "NewZealand" | Country_Nicaragua => "Nicaragua"
    | Country_Niger => "Niger" | Country_Nigeria => "Nigeria" | Country_Niue => "Niue"
    | Country_NorfolkIsland => "NorfolkIsland"
    | Country_NorthernMarianaIslands => "NorthernMarianaIslands" | Country_Norway => "Norway"
    | Country_Oman => "Oman" | Country_Pakistan => "Pakistan" | Country_Palau => "Palau"
    | Country_PalestineState => "PalestineState" | Country_Panama => "Panama"
    | Country_PapuaNewGuinea => "PapuaNewGuinea" | Country_Paraguay => "Paraguay"
    | Country_Peru => "Peru" | Country_Philippines => "Philippines"
    | Country_Pitcairn => "Pitcairn" | Country_Poland => "Poland"
    | Country_Portugal => "Portugal" | Country_PuertoRico => "PuertoRico"
    | Country_Qatar => "Qatar" | Country_Reunion => "Reunion" | Country_Romania => "Romania"
    | Country_RussianFederation => "RussianFederation" | Country_Rwanda => "Rwanda"
    | Country_SaintBarthelemy => "SaintBarthelemy"
    | Country_SaintHelenaAscensionAndTristandaCunha => "SaintHelenaAscensionAndTristandaCunha"
    | Country_SaintKittsAndNevis => "SaintKittsAndNevis" | Country_SaintLucia => "SaintLucia"
    | Country_SaintMartinFrenchpart => "SaintMartinFrenchpart"
    | Country_SaintPierreAndMiquelon => "SaintPierreAndMiquelon"
    | Country_SaintVincentAndTheGrenadines => "SaintVincentAndTheGrenadines"
    | Country_Samoa => "Samoa" | Country_SanMarino => "SanMarino"
    | Country_SaoTomeAndPrincipe => "SaoTomeAndPrincipe" | Country_SaudiArabia => "SaudiArabia"
    | Country_Senegal => "Senegal" | Country_Serbia => "Serbia"
    | Country_Seychelles => "Seychelles" | Country_SierraLeone => "SierraLeone"
    | Country_Singapore => "Singapore" | Country_SintMaartenDutchpart => "SintMaartenDutchpart"
    | Country_Slovakia => "Slovakia" | Country_Slovenia => "Slovenia"
    | Country_SolomonIslands => "SolomonIslands" | Country_Somalia => "Somalia"
    | Country_SouthAfrica => "SouthAfrica"
    | Country_SouthGeorgiaAndTheSouthSandwichIslands => "SouthGeorgiaAndTheSouthSandwichIslands"
    | Country_SouthSudan => "SouthSudan" | Country_Spain => "Spain"
    | Country_SriLanka => "SriLanka" | Country_Sudan => "Sudan"
    | Country_Suriname => "Suriname" | Country_SvalbardAndJanMayen => "SvalbardAndJanMayen"
    | Country_Swaziland => "Swaziland" | Country_Sweden => "Sweden"
    | Country_Switzerland => "Switzerland" | Country_SyrianArabRepublic => "SyrianArabRepublic"
    | Country_TaiwanProvinceOfChina => "TaiwanProvinceOfChina"
    | Country_Tajikistan => "Tajikistan"
    | Country_TanzaniaUnitedRepublic => "TanzaniaUnitedRepublic"
    | Country_Thailand => "Thailand" | Country_TimorLeste => "TimorLeste"
    | Country_Togo => "Togo" | Country_Tokelau => "Tokelau" | Country_Tonga => "Tonga"
    | Country_TrinidadAndTobago => "TrinidadAndTobago" | Country_Tunisia => "Tunisia"
    | Country_Turkey => "Turkey" | Country_Turkmenistan => "Turkmenistan"
    | Country_TurksAndCaicosIslands => "TurksAndCaicosIslands" | Country_Tuvalu => "Tuvalu"
    | Country_Uganda => "Uganda" | Country_Ukraine => "Ukraine"
    | Country_UnitedArabEmirates => "UnitedArabEmirates"
    | Country_UnitedKingdomOfGreatBritainAndNorthernIreland => "UnitedKingdomOfGreatBritainAndNorthernIreland"
    | Country_UnitedStatesOfAmerica => "UnitedStatesOfAmerica"
    | Country_UnitedStatesMinorOutlyingIslands => "UnitedStatesMinorOutlyingIslands"
    | Country_Uruguay => "Uruguay" | Country_Uzbekistan => "Uzbekistan"
    | Country_Vanuatu => "Vanuatu"
    | Country_VenezuelaBolivarianRepublic => "VenezuelaBolivarianRepublic"
    | Country_Vietnam => "Vietnam" | Country_VirginIslandsBritish => "VirginIslandsBritish"
    | Country_VirginIslandsUS => "VirginIslandsUS"
    | Country_WallisAndFutuna => "WallisAndFutuna" | Country_WesternSahara => "WesternSahara"
    | Country_Yemen => "Yemen" | Country_Zambia => "Zambia" | Country_Zimbabwe => "Zimbabwe"
    end).

Definition from_alpha2_to_alpha3 (x : CountryAlpha2) : CountryAlpha3 :=
  match x with
  | CountryAlpha2_AF => CountryAlpha3_AFG | CountryAlpha2_AX => CountryAlpha3_ALA
  | CountryAlpha2_AL => CountryAlpha3_ALB | CountryAlpha2_DZ => CountryAlpha3_DZA
  | CountryAlpha2_AS => CountryAlpha3_ASM | CountryAlpha2_AD => CountryAlpha3_AND
  | CountryAlpha2_AO => CountryAlpha3_AGO | CountryAlpha2_AI => CountryAlpha3_AIA
  | CountryAlpha2_AQ => CountryAlpha3_ATA | CountryAlpha2_AG => CountryAlpha3_ATG
  | CountryAlpha2_AR => CountryAlpha3_ARG | CountryAlpha2_AM => CountryAlpha3_ARM
  | CountryAlpha2_AW => CountryAlpha3_ABW | CountryAlpha2_AU => CountryAlpha3_AUS
  | CountryAlpha2_AT => CountryAlpha3_AUT | CountryAlpha2_AZ => CountryAlpha3_AZE
  | CountryAlpha2_BS => CountryAlpha3_BHS | CountryAlpha2_BH => CountryAlpha3_BHR
  | CountryAlpha2_BD => CountryAlpha3_BGD | CountryAlpha2_BB => CountryAlpha3_BRB
  | CountryAlpha2_BY => CountryAlpha3_BLR | CountryAlpha2_BE => CountryAlpha3_BEL
  | CountryAlpha2_BZ => CountryAlpha3_BLZ | CountryAlpha2_BJ => CountryAlpha3_BEN
  | CountryAlpha2_BM => CountryAlpha3_BMU | CountryAlpha2_BT => CountryAlpha3_BTN
  | CountryAlpha2_BO => CountryAlpha3_BOL | CountryAlpha2_BQ => CountryAlpha3_BES
  | CountryAlpha2_BA => CountryAlpha3_BIH | CountryAlpha2_BW => CountryAlpha3_BWA
  | CountryAlpha2_BV => CountryAlpha3_BVT | CountryAlpha2_BR => CountryAlpha3_BRA
  | CountryAlpha2_IO => CountryAlpha3_IOT | CountryAlpha2_BN => CountryAlpha3_BRN
  | CountryAlpha2_BG => CountryAlpha3_BGR | CountryAlpha2_BF => CountryAlpha3_BFA
  | CountryAlpha2_BI => CountryAlpha3_BDI | CountryAlpha2_CV => CountryAlpha3_CPV
  | CountryAlpha2_KH => CountryAlpha3_KHM | CountryAlpha2_CM => CountryAlpha3_CMR
  | CountryAlpha2_CA => CountryAlpha3_CAN | CountryAlpha2_KY => CountryAlpha3_CYM
  | CountryAlpha2_CF => CountryAlpha3_CAF | CountryAlpha2_TD => CountryAlpha3_TCD
  | CountryAlpha2_CL => CountryAlpha3_CHL | CountryAlpha2_CN => CountryAlpha3_CHN
  | CountryAlpha2_CX => CountryAlpha3_CXR | CountryAlpha2_CC => CountryAlpha3_CCK
  | CountryAlpha2_CO => CountryAlpha3_COL | CountryAlpha2_KM => CountryAlpha3_COM
  | CountryAlpha2_CG => CountryAlpha3_COG | CountryAlpha2_CD => CountryAlpha3_COD
  | CountryAlpha2_CK => CountryAlpha3_COK | CountryAlpha2_CR => CountryAlpha3_CRI
  | CountryAlpha2_CI => CountryAlpha3_CIV | CountryAlpha2_HR => CountryAlpha3_HRV
  | CountryAlpha2_CU => CountryAlpha3_CUB | CountryAlpha2_CW => CountryAlpha3_CUW
  | CountryAlpha2_CY => CountryAlpha3_CYP | CountryAlpha2_CZ => CountryAlpha3_CZE
  | CountryAlpha2_DK => CountryAlpha3_DNK | CountryAlpha2_DJ => CountryAlpha3_DJI
  | CountryAlpha2_DM => CountryAlpha3_DMA | CountryAlpha2_DO => CountryAlpha3_DOM
  | CountryAlpha2_EC => CountryAlpha3_ECU | CountryAlpha2_EG => CountryAlpha3_EGY
  | CountryAlpha2_SV => CountryAlpha3_SLV | CountryAlpha2_GQ => CountryAlpha3_GNQ
  | CountryAlpha2_ER => CountryAlpha3_ERI | CountryAlpha2_EE => CountryAlpha3_EST
  | CountryAlpha2_ET => CountryAlpha3_ETH | CountryAlpha2_FK => CountryAlpha3_FLK
  | CountryAlpha2_FO => CountryAlpha3_FRO | CountryAlpha2_FJ => CountryAlpha3_FJI
  | CountryAlpha2_FI => CountryAlpha3_FIN | CountryAlpha2_FR => CountryAlpha3_FRA
  | CountryAlpha2_GF => CountryAlpha3_GUF | CountryAlpha2_PF => CountryAlpha3_PYF
  | CountryAlpha2_TF => CountryAlpha3_ATF | CountryAlpha2_GA => CountryAlpha3_GAB
  | CountryAlpha2_GM => CountryAlpha3_GMB | CountryAlpha2_GE => CountryAlpha3_GEO
  | CountryAlpha2_DE => CountryAlpha3_DEU | CountryAlpha2_GH => CountryAlpha3_GHA
  | CountryAlpha2_GI => CountryAlpha3_GIB | CountryAlpha2_GR => CountryAlpha3_GRC
  | CountryAlpha2_GL => CountryAlpha3_GRL | CountryAlpha2_GD => CountryAlpha3_GRD
  | CountryAlpha2_GP => CountryAlpha3_GLP | CountryAlpha2_GU => CountryAlpha3_GUM
  | CountryAlpha2_GT => CountryAlpha3_GTM | CountryAlpha2_GG => CountryAlpha3_GGY
  | CountryAlpha2_GN => CountryAlpha3_GIN | CountryAlpha2_GW => CountryAlpha3_GNB
  | CountryAlpha2_GY => CountryAlpha3_GUY | CountryAlpha2_HT => CountryAlpha3_HTI
  | CountryAlpha2_HM => CountryAlpha3_HMD | CountryAlpha2_VA => CountryAlpha3_VAT
  | CountryAlpha2_HN => CountryAlpha3_HND | CountryAlpha2_HK => CountryAlpha3_HKG
  | CountryAlpha2_HU => CountryAlpha3_HUN | CountryAlpha2_IS => CountryAlpha3_ISL
  | CountryAlpha2_IN => CountryAlpha3_IND | CountryAlpha2_ID => CountryAlpha3_IDN
  | CountryAlpha2_IR => CountryAlpha3_IRN | CountryAlpha2_IQ => CountryAlpha3_IRQ
  | CountryAlpha2_IE => CountryAlpha3_IRL | CountryAlpha2_IM => CountryAlpha3_IMN
  | CountryAlpha2_IL => CountryAlpha3_ISR | CountryAlpha2_IT => CountryAlpha3_ITA
  | CountryAlpha2_JM => CountryAlpha3_JAM | CountryAlpha2_JP => CountryAlpha3_JPN
  | CountryAlpha2_JE => CountryAlpha3_JEY | CountryAlpha2_JO => CountryAlpha3_JOR
  | CountryAlpha2_KZ => CountryAlpha3_KAZ | CountryAlpha2_KE => CountryAlpha3_KEN
  | CountryAlpha2_KI => CountryAlpha3_KIR | CountryAlpha2_KP => CountryAlpha3_PRK
  | CountryAlpha2_KR => CountryAlpha3_KOR | CountryAlpha2_KW => CountryAlpha3_KWT
  | CountryAlpha2_KG => CountryAlpha3_KGZ | CountryAlpha2_LA => CountryAlpha3_LAO
  | CountryAlpha2_LV => CountryAlpha3_LVA | CountryAlpha2_LB => CountryAlpha3_LBN
  | CountryAlpha2_LS => CountryAlpha3_LSO | CountryAlpha2_LR => CountryAlpha3_LBR
  | CountryAlpha2_LY => CountryAlpha3_LBY | CountryAlpha2_LI => CountryAlpha3_LIE
  | CountryAlpha2_LT => CountryAlpha3_LTU | CountryAlpha2_LU => CountryAlpha3_LUX
  | CountryAlpha2_MO => CountryAlpha3_MAC | CountryAlpha2_MK => CountryAlpha3_MKD
  | CountryAlpha2_MG => CountryAlpha3_MDG | CountryAlpha2_MW => CountryAlpha3_MWI
  | CountryAlpha2_MY => CountryAlpha3_MYS | CountryAlpha2_MV => CountryAlpha3_MDV
  | CountryAlpha2_ML => CountryAlpha3_MLI | CountryAlpha2_MT => CountryAlpha3_MLT
  | CountryAlpha2_MH => CountryAlpha3_MHL | CountryAlpha2_MQ => CountryAlpha3_MTQ
  | CountryAlpha2_MR => CountryAlpha3_MRT | CountryAlpha2_MU => CountryAlpha3_MUS
  | CountryAlpha2_YT => CountryAlpha3_MYT | CountryAlpha2_MX => CountryAlpha3_MEX
  | CountryAlpha2_FM => CountryAlpha3_FSM | CountryAlpha2_MD => CountryAlpha3_MDA
  | CountryAlpha2_MC => CountryAlpha3_MCO | CountryAlpha2_MN => CountryAlpha3_MNG
  | CountryAlpha2_ME => CountryAlpha3_MNE | CountryAlpha2_MS => CountryAlpha3_MSR
  | CountryAlpha2_MA => CountryAlpha3_MAR | CountryAlpha2_MZ => CountryAlpha3_MOZ
  | CountryAlpha2_MM => CountryAlpha3_MMR | CountryAlpha2_NA => CountryAlpha3_NAM
  | CountryAlpha2_NR => CountryAlpha3_NRU | CountryAlpha2_NP => CountryAlpha3_NPL
  | CountryAlpha2_NL => CountryAlpha3_NLD | CountryAlpha2_NC => CountryAlpha3_NCL
  | CountryAlpha2_NZ => CountryAlpha3_NZL | CountryAlpha2_NI => CountryAlpha3_NIC
  | CountryAlpha2_NE => CountryAlpha3_NER | CountryAlpha2_NG => CountryAlpha3_NGA
  | CountryAlpha2_NU => CountryAlpha3_NIU | CountryAlpha2_NF => CountryAlpha3_NFK
  | CountryAlpha2_MP => CountryAlpha3_MNP | CountryAlpha2_NO => CountryAlpha3_NOR
  | CountryAlpha2_OM => CountryAlpha3_OMN | CountryAlpha2_PK => CountryAlpha3_PAK
  | CountryAlpha2_PW => CountryAlpha3_PLW | CountryAlpha2_PS => CountryAlpha3_PSE
  | CountryAlpha2_PA => CountryAlpha3_PAN | CountryAlpha2_PG => CountryAlpha3_PNG
  | CountryAlpha2_PY => CountryAlpha3_PRY | CountryAlpha2_PE => CountryAlpha3_PER
  | CountryAlpha2_PH => CountryAlpha3_PHL | CountryAlpha2_PN => CountryAlpha3_PCN
  | CountryAlpha2_PL => CountryAlpha3_POL | CountryAlpha2_PT => CountryAlpha3_PRT
  | CountryAlpha2_PR => CountryAlpha3_PRI | CountryAlpha2_QA => CountryAlpha3_QAT
  | CountryAlpha2_RE => CountryAlpha3_REU | CountryAlpha2_RO => CountryAlpha3_ROU
  | CountryAlpha2_RU => CountryAlpha3_RUS | CountryAlpha2_RW => CountryAlpha3_RWA
  | CountryAlpha2_BL => CountryAlpha3_BLM | CountryAlpha2_SH => CountryAlpha3_SHN
  | CountryAlpha2_KN => CountryAlpha3_KNA | CountryAlpha2_LC => CountryAlpha3_LCA
  | CountryAlpha2_MF => CountryAlpha3_MAF | CountryAlpha2_PM => CountryAlpha3_SPM
  | CountryAlpha2_VC => CountryAlpha3_VCT | CountryAlpha2_WS => CountryAlpha3_WSM
  | CountryAlpha2_SM => CountryAlpha3_SMR | CountryAlpha2_ST => CountryAlpha3_STP
  | CountryAlpha2_SA => CountryAlpha3_SAU | CountryAlpha2_SN => CountryAlpha3_SEN
  | CountryAlpha2_RS => CountryAlpha3_SRB | CountryAlpha2_SC => CountryAlpha3_SYC
  | CountryAlpha2_SL => CountryAlpha3_SLE | CountryAlpha2_SG => CountryAlpha3_SGP
  | CountryAlpha2_SX => CountryAlpha3_SXM | CountryAlpha2_SK => CountryAlpha3_SVK
  | CountryAlpha2_SI => CountryAlpha3_SVN | CountryAlpha2_SB => CountryAlpha3_SLB
  | CountryAlpha2_SO => CountryAlpha3_SOM | CountryAlpha2_ZA => CountryAlpha3_ZAF
  | CountryAlpha2_GS => CountryAlpha3_SGS | CountryAlpha2_SS => CountryAlpha3_SSD
  | CountryAlpha2_ES => CountryAlpha3_ESP | CountryAlpha2_LK => CountryAlpha3_LKA
  | CountryAlpha2_SD => CountryAlpha3_SDN | CountryAlpha2_SR => CountryAlpha3_SUR
  | CountryAlpha2_SJ => CountryAlpha3_SJM | CountryAlpha2_SZ => CountryAlpha3_SWZ
  | CountryAlpha2_SE => CountryAlpha3_SWE | CountryAlpha2_CH => CountryAlpha3_CHE
  | CountryAlpha2_SY => CountryAlpha3_SYR | CountryAlpha2_TW => CountryAlpha3_TWN
  | CountryAlpha2_TJ => CountryAlpha3_TJK | CountryAlpha2_TZ => CountryAlpha3_TZA
  | CountryAlpha2_TH => CountryAlpha3_THA | CountryAlpha2_TL => CountryAlpha3_TLS
  | CountryAlpha2_TG => CountryAlpha3_TGO | CountryAlpha2_TK => CountryAlpha3_TKL
  | CountryAlpha2_TO => CountryAlpha3_TON | CountryAlpha2_TT => CountryAlpha3_TTO
  | CountryAlpha2_TN => CountryAlpha3_TUN | CountryAlpha2_TR => CountryAlpha3_TUR
  | CountryAlpha2_TM => CountryAlpha3_TKM | CountryAlpha2_TC => CountryAlpha3_TCA
  | CountryAlpha2_TV => CountryAlpha3_TUV | CountryAlpha2_UG => CountryAlpha3_UGA
  | CountryAlpha2_UA => CountryAlpha3_UKR | CountryAlpha2_AE => CountryAlpha3_ARE
  | CountryAlpha2_GB => CountryAlpha3_GBR | CountryAlpha2_US => CountryAlpha3_USA
  | CountryAlpha2_UM => CountryAlpha3_UMI | CountryAlpha2_UY => CountryAlpha3_URY
  | CountryAlpha2_UZ => CountryAlpha3_UZB | CountryAlpha2_VU => CountryAlpha3_VUT
  | CountryAlpha2_VE => CountryAlpha3_VEN | CountryAlpha2_VN => CountryAlpha3_VNM
  | CountryAlpha2_VG => CountryAlpha3_VGB | CountryAlpha2_VI => CountryAlpha3_VIR
  | CountryAlpha2_WF => CountryAlpha3_WLF | CountryAlpha2_EH => CountryAlpha3_ESH
  | CountryAlpha2_YE => CountryAlpha3_YEM | CountryAlpha2_ZM => CountryAlpha3_ZMB
  | CountryAlpha2_ZW => CountryAlpha3_ZWE
  end.

Definition from_alpha2 (x : CountryAlpha2) : Country :=
  match x with
  | CountryAlpha2_AF => Country_Afghanistan | CountryAlpha2_AX => Country_AlandIslands
  | CountryAlpha2_AL => Country_Albania | CountryAlpha2_DZ => Country_Algeria
  | CountryAlpha2_AS => Country_AmericanSamoa | CountryAlpha2_AD => Country_Andorra
  | CountryAlpha2_AO => Country_Angola | CountryAlpha2_AI => Country_Anguilla
  | CountryAlpha2_AQ => Country_Antarctica | CountryAlpha2_AG => Country_AntiguaAndBarbuda
  | CountryAlpha2_AR => Country_Argentina | CountryAlpha2_AM => Country_Armenia
  | CountryAlpha2_AW => Country_Aruba | CountryAlpha2_AU => Country_Australia
  | CountryAlpha2_AT => Country_Austria | CountryAlpha2_AZ => Country_Azerbaijan
  | CountryAlpha2_BS => Country_Bahamas | CountryAlpha2_BH => Country_Bahrain
  | CountryAlpha2_BD => Country_Bangladesh | CountryAlpha2_BB => Country_Barbados
  | CountryAlpha2_BY => Country_Belarus | CountryAlpha2_BE => Country_Belgium
  | CountryAlpha2_BZ => Country_Belize | CountryAlpha2_BJ => Country_Benin
  | CountryAlpha2_BM => Country_Bermuda | CountryAlpha2_BT => Country_Bhutan
  | CountryAlpha2_BO => Country_BoliviaPlurinationalState
  | CountryAlpha2_BQ => Country_BonaireSintEustatiusAndSaba
  | CountryAlpha2_BA => Country_BosniaAndHerzegovina | CountryAlpha2_BW => Country_Botswana
  | CountryAlpha2_BV => Country_BouvetIsland | CountryAlpha2_BR => Country_Brazil
  | CountryAlpha2_IO => Country_BritishIndianOceanTerritory
  | CountryAlpha2_BN => Country_BruneiDarussalam | CountryAlpha2_BG => Country_Bulgaria
  | CountryAlpha2_BF => Country_BurkinaFaso | CountryAlpha2_BI => Country_Burundi
  | CountryAlpha2_CV => Country_CaboVerde | CountryAlpha2_KH => Country_Cambodia
  | CountryAlpha2_CM => Country_Cameroon | CountryAlpha2_CA => Country_Canada
  | CountryAlpha2_KY => Country_CaymanIslands
  | CountryAlpha2_CF => Country_CentralAfricanRepublic | CountryAlpha2_TD => Country_Chad
  | CountryAlpha2_CL => Country_Chile | CountryAlpha2_CN => Country_China
  | CountryAlpha2_CX => Country_ChristmasIsland
  | CountryAlpha2_CC => Country_CocosKeelingIslands | CountryAlpha2_CO => Country_Colombia
  | CountryAlpha2_KM => Country_Comoros | CountryAlpha2_CG => Country_Congo
  | CountryAlpha2_CD => Country_CongoDemocraticRepublic
  | CountryAlpha2_CK => Country_CookIslands | CountryAlpha2_CR => Country_CostaRica
  | CountryAlpha2_CI => Country_CotedIvoire | CountryAlpha2_HR => Country_Croatia
  | CountryAlpha2_CU => Country_Cuba | CountryAlpha2_CW => Country_Curacao
  | CountryAlpha2_CY => Country_Cyprus | CountryAlpha2_CZ => Country_Czechia
  | CountryAlpha2_DK => Country_Denmark | CountryAlpha2_DJ => Country_Djibouti
  | CountryAlpha2_DM => Country_Dominica | CountryAlpha2_DO => Country_DominicanRepublic
  | CountryAlpha2_EC => Country_Ecuador | CountryAlpha2_EG => Country_Egypt
  | CountryAlpha2_SV => Country_ElSalvador | CountryAlpha2_GQ => Country_EquatorialGuinea
  | CountryAlpha2_ER => Country_Eritrea | CountryAlpha2_EE => Country_Estonia
  | CountryAlpha2_ET => Country_Ethiopia | CountryAlpha2_FK => Country_FalklandIslandsMalvinas
  | CountryAlpha2_FO => Country_FaroeIslands | CountryAlpha2_FJ => Country_Fiji
  | CountryAlpha2_FI => Country_Finland | CountryAlpha2_FR => Country_France
  | CountryAlpha2_GF => Country_FrenchGuiana | CountryAlpha2_PF => Country_FrenchPolynesia
  | CountryAlpha2_TF => Country_FrenchSouthernTerritories | CountryAlpha2_GA => Country_Gabon
  | CountryAlpha2_GM => Country_Gambia | CountryAlpha2_GE => Country_Georgia
  | CountryAlpha2_DE => Country_Germany | CountryAlpha2_GH => Country_Ghana
  | CountryAlpha2_GI => Country_Gibraltar | CountryAlpha2_GR => Country_Greece
  | CountryAlpha2_GL => Country_Greenland | CountryAlpha2_GD => Country_Grenada
  | CountryAlpha2_GP => Country_Guadeloupe | CountryAlpha2_GU => Country_Guam
  | CountryAlpha2_GT => Country_Guatemala | CountryAlpha2_GG => Country_Guernsey
  | CountryAlpha2_GN => Country_Guinea | CountryAlpha2_GW => Country_GuineaBissau
  | CountryAlpha2_GY => Country_Guyana | CountryAlpha2_HT => Country_Haiti
  | CountryAlpha2_HM => Country_HeardIslandAndMcDonaldIslands
  | CountryAlpha2_VA => Country_HolySee | CountryAlpha2_HN => Country_Honduras
  | CountryAlpha2_HK => Country_HongKong | CountryAlpha2_HU => Country_Hungary
  | CountryAlpha2_IS => Country_Iceland | CountryAlpha2_IN => Country_India
  | CountryAlpha2_ID => Country_Indonesia | CountryAlpha2_IR => Country_IranIslamicRepublic
  | CountryAlpha2_IQ => Country_Iraq | CountryAlpha2_IE => Country_Ireland
  | CountryAlpha2_IM => Country_IsleOfMan | CountryAlpha2_IL => Country_Israel
  | CountryAlpha2_IT => Country_Italy | CountryAlpha2_JM => Country_Jamaica
  | CountryAlpha2_JP => Country_Japan | CountryAlpha2_JE => Country_Jersey
  | CountryAlpha2_JO => Country_Jordan | CountryAlpha2_KZ => Country_Kazakhstan
  | CountryAlpha2_KE => Country_Kenya | CountryAlpha2_KI => Country_Kiribati
  | CountryAlpha2_KP => Country_KoreaDemocraticPeoplesRepublic
  | CountryAlpha2_KR => Country_KoreaRepublic | CountryAlpha2_KW => Country_Kuwait
  | CountryAlpha2_KG => Country_Kyrgyzstan
  | CountryAlpha2_LA => Country_LaoPeoplesDemocraticRepublic
  | CountryAlpha2_LV => Country_Latvia | CountryAlpha2_LB => Country_Lebanon
  | CountryAlpha2_LS => Country_Lesotho | CountryAlpha2_LR => Country_Liberia
  | CountryAlpha2_LY => Country_Libya | CountryAlpha2_LI => Country_Liechtenstein
  | CountryAlpha2_LT => Country_Lithuania | CountryAlpha2_LU => Country_Luxembourg
  | CountryAlpha2_MO => Country_Macao
  | CountryAlpha2_MK => Country_MacedoniaTheFormerYugoslavRepublic
  | CountryAlpha2_MG => Country_Madagascar | CountryAlpha2_MW => Country_Malawi
  | CountryAlpha2_MY => Country_Malaysia | CountryAlpha2_MV => Country_Maldives
  | CountryAlpha2_ML => Country_Mali | CountryAlpha2_MT => Country_Malta
  | CountryAlpha2_MH => Country_MarshallIslands | CountryAlpha2_MQ => Country_Martinique
  | CountryAlpha2_MR => Country_Mauritania | CountryAlpha2_MU => Country_Mauritius
  | CountryAlpha2_YT => Country_Mayotte | CountryAlpha2_MX => Country_Mexico
  | CountryAlpha2_FM => Country_MicronesiaFederatedStates
  | CountryAlpha2_MD => Country_MoldovaRepublic | CountryAlpha2_MC => Country_Monaco
  | CountryAlpha2_MN => Country_Mongolia | CountryAlpha2_ME => Country_Montenegro
  | CountryAlpha2_MS => Country_Montserrat | CountryAlpha2_MA => Country_Morocco
  | CountryAlpha2_MZ => Country_Mozambique | CountryAlpha2_MM => Country_Myanmar
  | CountryAlpha2_NA => Country_Namibia | CountryAlpha2_NR => Country_Nauru
  | CountryAlpha2_NP => Country_Nepal | CountryAlpha2_NL => Country_Netherlands
  | CountryAlpha2_NC => Country_NewCaledonia | CountryAlpha2_NZ => Country_NewZealand
  | CountryAlpha2_NI => Country_Nicaragua | CountryAlpha2_NE => Country_Niger
  | CountryAlpha2_NG => Country_Nigeria | CountryAlpha2_NU => Country_Niue
  | CountryAlpha2_NF => Country_NorfolkIsland
  | CountryAlpha2_MP => Country_NorthernMarianaIslands | CountryAlpha2_NO => Country_Norway
  | CountryAlpha2_OM => Country_Oman | CountryAlpha2_PK => Country_Pakistan
  | CountryAlpha2_PW => Country_Palau | CountryAlpha2_PS => Country_PalestineState
  | CountryAlpha2_PA => Country_Panama | CountryAlpha2_PG => Country_PapuaNewGuinea
  | CountryAlpha2_PY => Country_Paraguay | CountryAlpha2_PE => Country_Peru
  | CountryAlpha2_PH => Country_Philippines | CountryAlpha2_PN => Country_Pitcairn
  | CountryAlpha2_PL => Country_Poland | CountryAlpha2_PT => Country_Portugal
  | CountryAlpha2_PR => Country_PuertoRico | CountryAlpha2_QA => Country_Qatar
  | CountryAlpha2_RE => Country_Reunion | CountryAlpha2_RO => Country_Romania
  | CountryAlpha2_RU => Country_RussianFederation | CountryAlpha2_RW => Country_Rwanda
  | CountryAlpha2_BL => Country_SaintBarthelemy
  | CountryAlpha2_SH => Country_SaintHelenaAscensionAndTristandaCunha
  | CountryAlpha2_KN => Country_SaintKittsAndNevis | CountryAlpha2_LC => Country_SaintLucia
  | CountryAlpha2_MF => Country_SaintMartinFrenchpart
  | CountryAlpha2_PM => Country_SaintPierreAndMiquelon
  | CountryAlpha2_VC => Country_SaintVincentAndTheGrenadines
  | CountryAlpha2_WS => Country_Samoa | CountryAlpha2_SM => Country_SanMarino
  | CountryAlpha2_ST => Country_SaoTomeAndPrincipe | CountryAlpha2_SA => Country_SaudiArabia
  | CountryAlpha2_SN => Country_Senegal | CountryAlpha2_RS => Country_Serbia
  | CountryAlpha2_SC => Country_Seychelles | CountryAlpha2_SL => Country_SierraLeone
  | CountryAlpha2_SG => Country_Singapore | CountryAlpha2_SX => Country_SintMaartenDutchpart
  | CountryAlpha2_SK => Country_Slovakia | CountryAlpha2_SI => Country_Slovenia
  | CountryAlpha2_SB => Country_SolomonIslands | CountryAlpha2_SO => Country_Somalia
  | CountryAlpha2_ZA => Country_SouthAfrica
  | CountryAlpha2_GS => Country_SouthGeorgiaAndTheSouthSandwichIslands
  | CountryAlpha2_SS => Country_SouthSudan | CountryAlpha2_ES => Country_Spain
  | CountryAlpha2_LK => Country_SriLanka | CountryAlpha2_SD => Country_Sudan
  | CountryAlpha2_SR => Country_Suriname | CountryAlpha2_SJ => Country_SvalbardAndJanMayen
  | CountryAlpha2_SZ => Country_Swaziland | CountryAlpha2_SE => Country_Sweden
  | CountryAlpha2_CH => Country_Switzerland | CountryAlpha2_SY => Country_SyrianArabRepublic
  | CountryAlpha2_TW => Country_TaiwanProvinceOfChina | CountryAlpha2_TJ => Country_Tajikistan
  | CountryAlpha2_TZ => Country_TanzaniaUnitedRepublic | CountryAlpha2_TH => Country_Thailand
  | CountryAlpha2_TL => Country_TimorLeste | CountryAlpha2_TG => Country_Togo
  | CountryAlpha2_TK => Country_Tokelau | CountryAlpha2_TO => Country_Tonga
  | CountryAlpha2_TT => Country_TrinidadAndTobago | CountryAlpha2_TN => Country_Tunisia
  | CountryAlpha2_TR => Country_Turkey | CountryAlpha2_TM => Country_Turkmenistan
  | CountryAlpha2_TC => Country_TurksAndCaicosIslands | CountryAlpha2_TV => Country_Tuvalu
  | CountryAlpha2_UG => Country_Uganda | CountryAlpha2_UA => Country_Ukraine
  | CountryAlpha2_AE => Country_UnitedArabEmirates
  | CountryAlpha2_GB => Country_UnitedKingdomOfGreatBritainAndNorthernIreland
  | CountryAlpha2_US => Country_UnitedStatesOfAmerica
  | CountryAlpha2_UM => Country_UnitedStatesMinorOutlyingIslands
  | CountryAlpha2_UY => Country_Uruguay | CountryAlpha2_UZ => Country_Uzbekistan
  | CountryAlpha2_VU => Country_Vanuatu
  | CountryAlpha2_VE => Country_VenezuelaBolivarianRepublic
  | CountryAlpha2_VN => Country_Vietnam | CountryAlpha2_VG => Country_VirginIslandsBritish
  | CountryAlpha2_VI => Country_VirginIslandsUS | CountryAlpha2_WF => Country_WallisAndFutuna
  | CountryAlpha2_EH => Country_WesternSahara | CountryAlpha2_YE => Country_Yemen
  | CountryAlpha2_ZM => Country_Zambia | CountryAlpha2_ZW => Country_Zimbabwe
  end.

Definition to_alpha2 (x : Country) : CountryAlpha2 :=
  match x with
  | Country_Afghanistan => CountryAlpha2_AF | Country_AlandIslands => CountryAlpha2_AX
  | Country_Albania => CountryAlpha2_AL | Country_Algeria => CountryAlpha2_DZ
  | Country_AmericanSamoa => CountryAlpha2_AS | Country_Andorra => CountryAlpha2_AD
  | Country_Angola => CountryAlpha2_AO | Country_Anguilla => CountryAlpha2_AI
  | Country_Antarctica => CountryAlpha2_AQ | Country_AntiguaAndBarbuda => CountryAlpha2_AG
  | Country_Argentina => CountryAlpha2_AR | Country_Armenia => CountryAlpha2_AM
  | Country_Aruba => CountryAlpha2_AW | Country_Australia => CountryAlpha2_AU
  | Country_Austria => CountryAlpha2_AT | Country_Azerbaijan => CountryAlpha2_AZ
  | Country_Bahamas => CountryAlpha2_BS | Country_Bahrain => CountryAlpha2_BH
  | Country_Bangladesh => CountryAlpha2_BD | Country_Barbados => CountryAlpha2_BB
  | Country_Belarus => CountryAlpha2_BY | Country_Belgium => CountryAlpha2_BE
  | Country_Belize => CountryAlpha2_BZ | Country_Benin => CountryAlpha2_BJ
  | Country_Bermuda => CountryAlpha2_BM | Country_Bhutan => CountryAlpha2_BT
  | Country_BoliviaPlurinationalState => CountryAlpha2_BO
  | Country_BonaireSintEustatiusAndSaba => CountryAlpha2_BQ
  | Country_BosniaAndHerzegovina => CountryAlpha2_BA | Country_Botswana => CountryAlpha2_BW
  | Country_BouvetIsland => CountryAlpha2_BV | Country_Brazil => CountryAlpha2_BR
  | Country_BritishIndianOceanTerritory => CountryAlpha2_IO
  | Country_BruneiDarussalam => CountryAlpha2_BN | Country_Bulgaria => CountryAlpha2_BG
  | Country_BurkinaFaso => CountryAlpha2_BF | Country_Burundi => CountryAlpha2_BI
  | Country_CaboVerde => CountryAlpha2_CV | Country_Cambodia => CountryAlpha2_KH
  | Country_Cameroon => CountryAlpha2_CM | Country_Canada => CountryAlpha2_CA
  | Country_CaymanIslands => CountryAlpha2_KY
  | Country_CentralAfricanRepublic => CountryAlpha2_CF | Country_Chad => CountryAlpha2_TD
  | Country_Chile => CountryAlpha2_CL | Country_China => CountryAlpha2_CN
  | Country_ChristmasIsland => CountryAlpha2_CX
  | Country_CocosKeelingIslands => CountryAlpha2_CC | Country_Colombia => CountryAlpha2_CO
  | Country_Comoros => CountryAlpha2_KM | Country_Congo => CountryAlpha2_CG
  | Country_CongoDemocraticRepublic => CountryAlpha2_CD
  | Country_CookIslands => CountryAlpha2_CK | Country_CostaRica => CountryAlpha2_CR
  | Country_CotedIvoire => CountryAlpha2_CI | Country_Croatia => CountryAlpha2_HR
  | Country_Cuba => CountryAlpha2_CU | Country_Curacao => CountryAlpha2_CW
  | Country_Cyprus => CountryAlpha2_CY | Country_Czechia => CountryAlpha2_CZ
  | Country_Denmark => CountryAlpha2_DK | Country_Djibouti => CountryAlpha2_DJ
  | Country_Dominica => CountryAlpha2_DM | Country_DominicanRepublic => CountryAlpha2_DO
  | Country_Ecuador => CountryAlpha2_EC | Country_Egypt => CountryAlpha2_EG
  | Country_ElSalvador => CountryAlpha2_SV | Country_EquatorialGuinea => CountryAlpha2_GQ
  | Country_Eritrea => CountryAlpha2_ER | Country_Estonia => CountryAlpha2_EE
  | Country_Ethiopia => CountryAlpha2_ET | Country_FalklandIslandsMalvinas => CountryAlpha2_FK
  | Country_FaroeIslands => CountryAlpha2_FO | Country_Fiji => CountryAlpha2_FJ
  | Country_Finland => CountryAlpha2_FI | Country_France => CountryAlpha2_FR
  | Country_FrenchGuiana => CountryAlpha2_GF | Country_FrenchPolynesia => CountryAlpha2_PF
  | Country_FrenchSouthernTerritories => CountryAlpha2_TF | Country_Gabon => CountryAlpha2_GA
  | Country_Gambia => CountryAlpha2_GM | Country_Georgia => CountryAlpha2_GE
  | Country_Germany => CountryAlpha2_DE | Country_Ghana => CountryAlpha2_GH
  | Country_Gibraltar => CountryAlpha2_GI | Country_Greece => CountryAlpha2_GR
  | Country_Greenland => CountryAlpha2_GL | Country_Grenada => CountryAlpha2_GD
  | Country_Guadeloupe => CountryAlpha2_GP | Country_Guam => CountryAlpha2_GU
  | Country_Guatemala => CountryAlpha2_GT | Country_Guernsey => CountryAlpha2_GG
  | Country_Guinea => CountryAlpha2_GN | Country_GuineaBissau => CountryAlpha2_GW
  | Country_Guyana => CountryAlpha2_GY | Country_Haiti => CountryAlpha2_HT
  | Country_HeardIslandAndMcDonaldIslands => CountryAlpha2_HM
  | Country_HolySee => CountryAlpha2_VA | Country_Honduras => CountryAlpha2_HN
  | Country_HongKong => CountryAlpha2_HK | Country_Hungary => CountryAlpha2_HU
  | Country_Iceland => CountryAlpha2_IS | Country_India => CountryAlpha2_IN
  | Country_Indonesia => CountryAlpha2_ID | Country_IranIslamicRepublic => CountryAlpha2_IR
  | Country_Iraq => CountryAlpha2_IQ | Country_Ireland => CountryAlpha2_IE
  | Country_IsleOfMan => CountryAlpha2_IM | Country_Israel => CountryAlpha2_IL
  | Country_Italy => CountryAlpha2_IT | Country_Jamaica => CountryAlpha2_JM
  | Country_Japan => CountryAlpha2_JP | Country_Jersey => CountryAlpha2_JE
  | Country_Jordan => CountryAlpha2_JO | Country_Kazakhstan => CountryAlpha2_KZ
  | Country_Kenya => CountryAlpha2_KE | Country_Kiribati => CountryAlpha2_KI
  | Country_KoreaDemocraticPeoplesRepublic => CountryAlpha2_KP
  | Country_KoreaRepublic => CountryAlpha2_KR | Country_Kuwait => CountryAlpha2_KW
  | Country_Kyrgyzstan => CountryAlpha2_KG
  | Country_LaoPeoplesDemocraticRepublic => CountryAlpha2_LA
  | Country_Latvia => CountryAlpha2_LV | Country_Lebanon => CountryAlpha2_LB
  | Country_Lesotho => CountryAlpha2_LS | Country_Liberia => CountryAlpha2_LR
  | Country_Libya => CountryAlpha2_LY | Country_Liechtenstein => CountryAlpha2_LI
  | Country_Lithuania => CountryAlpha2_LT | Country_Luxembourg => CountryAlpha2_LU
  | Country_Macao => CountryAlpha2_MO
  | Country_MacedoniaTheFormerYugoslavRepublic => CountryAlpha2_MK
  | Country_Madagascar => CountryAlpha2_MG | Country_Malawi => CountryAlpha2_MW
  | Country_Malaysia => CountryAlpha2_MY | Country_Maldives => CountryAlpha2_MV
  | Country_Mali => CountryAlpha2_ML | Country_Malta => CountryAlpha2_MT
  | Country_MarshallIslands => CountryAlpha2_MH | Country_Martinique => CountryAlpha2_MQ
  | Country_Mauritania => CountryAlpha2_MR | Country_Mauritius => CountryAlpha2_MU
  | Country_Mayotte => CountryAlpha2_YT | Country_Mexico => CountryAlpha2_MX
  | Country_MicronesiaFederatedStates => CountryAlpha2_FM
  | Country_MoldovaRepublic => CountryAlpha2_MD | Country_Monaco => CountryAlpha2_MC
  | Country_Mongolia => CountryAlpha2_MN | Country_Montenegro => CountryAlpha2_ME
  | Country_Montserrat => CountryAlpha2_MS | Country_Morocco => CountryAlpha2_MA
  | Country_Mozambique => CountryAlpha2_MZ | Country_Myanmar => CountryAlpha2_MM
  | Country_Namibia => CountryAlpha2_NA | Country_Nauru => CountryAlpha2_NR
  | Country_Nepal => CountryAlpha2_NP | Country_Netherlands => CountryAlpha2_NL
  | Country_NewCaledonia => CountryAlpha2_NC | Country_NewZealand => CountryAlpha2_NZ
  | Country_Nicaragua => CountryAlpha2_NI | Country_Niger => CountryAlpha2_NE
  | Country_Nigeria => CountryAlpha2_NG | Country_Niue => CountryAlpha2_NU
  | Country_NorfolkIsland => CountryAlpha2_NF
  | Country_NorthernMarianaIslands => CountryAlpha2_MP | Country_Norway => CountryAlpha2_NO
  | Country_Oman => CountryAlpha2_OM | Country_Pakistan => CountryAlpha2_PK
  | Country_Palau => CountryAlpha2_PW | Country_PalestineState => CountryAlpha2_PS
  | Country_Panama => CountryAlpha2_PA | Country_PapuaNewGuinea => CountryAlpha2_PG
  | Country_Paraguay => CountryAlpha2_PY | Country_Peru => CountryAlpha2_PE
  | Country_Philippines => CountryAlpha2_PH | Country_Pitcairn => CountryAlpha2_PN
  | Country_Poland => CountryAlpha2_PL | Country_Portugal => CountryAlpha2_PT
  | Country_PuertoRico => CountryAlpha2_PR | Country_Qatar => CountryAlpha2_QA
  | Country_Reunion => CountryAlpha2_RE | Country_Romania => CountryAlpha2_RO
  | Country_RussianFederation => CountryAlpha2_RU | Country_Rwanda => CountryAlpha2_RW
  | Country_SaintBarthelemy => CountryAlpha2_BL
  | Country_SaintHelenaAscensionAndTristandaCunha => CountryAlpha2_SH
  | Country_SaintKittsAndNevis => CountryAlpha2_KN | Country_SaintLucia => CountryAlpha2_LC
  | Country_SaintMartinFrenchpart => CountryAlpha2_MF
  | Country_SaintPierreAndMiquelon => CountryAlpha2_PM
  | Country_SaintVincentAndTheGrenadines => CountryAlpha2_VC
  | Country_Samoa => CountryAlpha2_WS | Country_SanMarino => CountryAlpha2_SM
  | Country_SaoTomeAndPrincipe => CountryAlpha2_ST | Country_SaudiArabia => CountryAlpha2_SA
  | Country_Senegal => CountryAlpha2_SN | Country_Serbia => CountryAlpha2_RS
  | Country_Seychelles => CountryAlpha2_SC | Country_SierraLeone => CountryAlpha2_SL
  | Country_Singapore => CountryAlpha2_SG | Country_SintMaartenDutchpart => CountryAlpha2_SX
  | Country_Slovakia => CountryAlpha2_SK | Country_Slovenia => CountryAlpha2_SI
  | Country_SolomonIslands => CountryAlpha2_SB | Country_Somalia => CountryAlpha2_SO
  | Country_SouthAfrica => CountryAlpha2_ZA
  | Country_SouthGeorgiaAndTheSouthSandwichIslands => CountryAlpha2_GS
  | Country_SouthSudan => CountryAlpha2_SS | Country_Spain => CountryAlpha2_ES
  | Country_SriLanka => CountryAlpha2_LK | Country_Sudan => CountryAlpha2_SD
  | Country_Suriname => CountryAlpha2_SR | Country_SvalbardAndJanMayen => CountryAlpha2_SJ
  | Country_Swaziland => CountryAlpha2_SZ | Country_Sweden => CountryAlpha2_SE
  | Country_Switzerland => CountryAlpha2_CH | Country_SyrianArabRepublic => CountryAlpha2_SY
  | Country_TaiwanProvinceOfChina => CountryAlpha2_TW | Country_Tajikistan => CountryAlpha2_TJ
  | Country_TanzaniaUnitedRepublic => CountryAlpha2_TZ | Country_Thailand => CountryAlpha2_TH
  | Country_TimorLeste => CountryAlpha2_TL | Country_Togo => CountryAlpha2_TG
  | Country_Tokelau => CountryAlpha2_TK | Country_Tonga => CountryAlpha2_TO
  | Country_TrinidadAndTobago => CountryAlpha2_TT | Country_Tunisia => CountryAlpha2_TN
  | Country_Turkey => CountryAlpha2_TR | Country_Turkmenistan => CountryAlpha2_TM
  | Country_TurksAndCaicosIslands => CountryAlpha2_TC | Country_Tuvalu => CountryAlpha2_TV
  | Country_Uganda => CountryAlpha2_UG | Country_Ukraine => CountryAlpha2_UA
  | Country_UnitedArabEmirates => CountryAlpha2_AE
  | Country_UnitedKingdomOfGreatBritainAndNorthernIreland => CountryAlpha2_GB
  | Country_UnitedStatesOfAmerica => CountryAlpha2_US
  | Country_UnitedStatesMinorOutlyingIslands => CountryAlpha2_UM
  | Country_Uruguay => CountryAlpha2_UY | Country_Uzbekistan => CountryAlpha2_UZ
  | Country_Vanuatu => CountryAlpha2_VU
  | Country_VenezuelaBolivarianRepublic => CountryAlpha2_VE
  | Country_Vietnam => CountryAlpha2_VN | Country_VirginIslandsBritish => CountryAlpha2_VG
  | Country_VirginIslandsUS => CountryAlpha2_VI | Country_WallisAndFutuna => CountryAlpha2_WF
  | Country_WesternSahara => CountryAlpha2_EH | Country_Yemen => CountryAlpha2_YE
  | Country_Zambia => CountryAlpha2_ZM | Country_Zimbabwe => CountryAlpha2_ZW
  end.

Definition from_alpha3 (x : CountryAlpha3) : Country :=
  match x with
  | CountryAlpha3_AFG => Country_Afghanistan | CountryAlpha3_ALA => Country_AlandIslands
  | CountryAlpha3_ALB => Country_Albania | CountryAlpha3_DZA => Country_Algeria
  | CountryAlpha3_ASM => Country_AmericanSamoa | CountryAlpha3_AND => Country_Andorra
  | CountryAlpha3_AGO => Country_Angola | CountryAlpha3_AIA => Country_Anguilla
  | CountryAlpha3_ATA => Country_Antarctica | CountryAlpha3_ATG => Country_AntiguaAndBarbuda
  | CountryAlpha3_ARG => Country_Argentina | CountryAlpha3_ARM => Country_Armenia
  | CountryAlpha3_ABW => Country_Aruba | CountryAlpha3_AUS => Country_Australia
  | CountryAlpha3_AUT => Country_Austria | CountryAlpha3_AZE => Country_Azerbaijan
  | CountryAlpha3_BHS => Country_Bahamas | CountryAlpha3_BHR => Country_Bahrain
  | CountryAlpha3_BGD => Country_Bangladesh | CountryAlpha3_BRB => Country_Barbados
  | CountryAlpha3_BLR => Country_Belarus | CountryAlpha3_BEL => Country_Belgium
  | CountryAlpha3_BLZ => Country_Belize | CountryAlpha3_BEN => Country_Benin
  | CountryAlpha3_BMU => Country_Bermuda | CountryAlpha3_BTN => Country_Bhutan
  | CountryAlpha3_BOL => Country_BoliviaPlurinationalState
  | CountryAlpha3_BES => Country_BonaireSintEustatiusAndSaba
  | CountryAlpha3_BIH => Country_BosniaAndHerzegovina | CountryAlpha3_BWA => Country_Botswana
  | CountryAlpha3_BVT => Country_BouvetIsland | CountryAlpha3_BRA => Country_Brazil
  | CountryAlpha3_IOT => Country_BritishIndianOceanTerritory
  | CountryAlpha3_BRN => Country_BruneiDarussalam | CountryAlpha3_BGR => Country_Bulgaria
  | CountryAlpha3_BFA => Country_BurkinaFaso | CountryAlpha3_BDI => Country_Burundi
  | CountryAlpha3_CPV => Country_CaboVerde | CountryAlpha3_KHM => Country_Cambodia
  | CountryAlpha3_CMR => Country_Cameroon | CountryAlpha3_CAN => Country_Canada
  | CountryAlpha3_CYM => Country_CaymanIslands
  | CountryAlpha3_CAF => Country_CentralAfricanRepublic | CountryAlpha3_TCD => Country_Chad
  | CountryAlpha3_CHL => Country_Chile | CountryAlpha3_CHN => Country_China
  | CountryAlpha3_CXR => Country_ChristmasIsland
  | CountryAlpha3_CCK => Country_CocosKeelingIslands | CountryAlpha3_COL => Country_Colombia
  | CountryAlpha3_COM => Country_Comoros | CountryAlpha3_COG => Country_Congo
  | CountryAlpha3_COD => Country_CongoDemocraticRepublic
  | CountryAlpha3_COK => Country_CookIslands | CountryAlpha3_CRI => Country_CostaRica
  | CountryAlpha3_CIV => Country_CotedIvoire | CountryAlpha3_HRV => Country_Croatia
  | CountryAlpha3_CUB => Country_Cuba | CountryAlpha3_CUW => Country_Curacao
  | CountryAlpha3_CYP => Country_Cyprus | CountryAlpha3_CZE => Country_Czechia
  | CountryAlpha3_DNK => Country_Denmark | CountryAlpha3_DJI => Country_Djibouti
  | CountryAlpha3_DMA => Country_Dominica | CountryAlpha3_DOM => Country_DominicanRepublic
  | CountryAlpha3_ECU => Country_Ecuador | CountryAlpha3_EGY => Country_Egypt
  | CountryAlpha3_SLV => Country_ElSalvador | CountryAlpha3_GNQ => Country_EquatorialGuinea
  | CountryAlpha3_ERI => Country_Eritrea | CountryAlpha3_EST => Country_Estonia
  | CountryAlpha3_ETH => Country_Ethiopia
  | CountryAlpha3_FLK => Country_FalklandIslandsMalvinas
  | CountryAlpha3_FRO => Country_FaroeIslands | CountryAlpha3_FJI => Country_Fiji
  | CountryAlpha3_FIN => Country_Finland | CountryAlpha3_FRA => Country_France
  | CountryAlpha3_GUF => Country_FrenchGuiana | CountryAlpha3_PYF => Country_FrenchPolynesia
  | CountryAlpha3_ATF => Country_FrenchSouthernTerritories | CountryAlpha3_GAB => Country_Gabon
  | CountryAlpha3_GMB => Country_Gambia | CountryAlpha3_GEO => Country_Georgia
  | CountryAlpha3_DEU => Country_Germany | CountryAlpha3_GHA => Country_Ghana
  | CountryAlpha3_GIB => Country_Gibraltar | CountryAlpha3_GRC => Country_Greece
  | CountryAlpha3_GRL => Country_Greenland | CountryAlpha3_GRD => Country_Grenada
  | CountryAlpha3_GLP => Country_Guadeloupe | CountryAlpha3_GUM => Country_Guam
  | CountryAlpha3_GTM => Country_Guatemala | CountryAlpha3_GGY => Country_Guernsey
  | CountryAlpha3_GIN => Country_Guinea | CountryAlpha3_GNB => Country_GuineaBissau
  | CountryAlpha3_GUY => Country_Guyana | CountryAlpha3_HTI => Country_Haiti
  | CountryAlpha3_HMD => Country_HeardIslandAndMcDonaldIslands
  | CountryAlpha3_VAT => Country_HolySee | CountryAlpha3_HND => Country_Honduras
  | CountryAlpha3_HKG => Country_HongKong | CountryAlpha3_HUN => Country_Hungary
  | CountryAlpha3_ISL => Country_Iceland | CountryAlpha3_IND => Country_India
  | CountryAlpha3_IDN => Country_Indonesia | CountryAlpha3_IRN => Country_IranIslamicRepublic
  | CountryAlpha3_IRQ => Country_Iraq | CountryAlpha3_IRL => Country_Ireland
  | CountryAlpha3_IMN => Country_IsleOfMan | CountryAlpha3_ISR => Country_Israel
  | CountryAlpha3_ITA => Country_Italy | CountryAlpha3_JAM => Country_Jamaica
  | CountryAlpha3_JPN => Country_Japan | CountryAlpha3_JEY => Country_Jersey
  | CountryAlpha3_JOR => Country_Jordan | CountryAlpha3_KAZ => Country_Kazakhstan
  | CountryAlpha3_KEN => Country_Kenya | CountryAlpha3_KIR => Country_Kiribati
  | CountryAlpha3_PRK => Country_KoreaDemocraticPeoplesRepublic
  | CountryAlpha3_KOR => Country_KoreaRepublic | CountryAlpha3_KWT => Country_Kuwait
  | CountryAlpha3_KGZ => Country_Kyrgyzstan
  | CountryAlpha3_LAO => Country_LaoPeoplesDemocraticRepublic
  | CountryAlpha3_LVA => Country_Latvia | CountryAlpha3_LBN => Country_Lebanon
  | CountryAlpha3_LSO => Country_Lesotho | CountryAlpha3_LBR => Country_Liberia
  | CountryAlpha3_LBY => Country_Libya | CountryAlpha3_LIE => Country_Liechtenstein
  | CountryAlpha3_LTU => Country_Lithuania | CountryAlpha3_LUX => Country_Luxembourg
  | CountryAlpha3_MAC => Country_Macao
  | CountryAlpha3_MKD => Country_MacedoniaTheFormerYugoslavRepublic
  | CountryAlpha3_MDG => Country_Madagascar | CountryAlpha3_MWI => Country_Malawi
  | CountryAlpha3_MYS => Country_Malaysia | CountryAlpha3_MDV => Country_Maldives
  | CountryAlpha3_MLI => Country_Mali | CountryAlpha3_MLT => Country_Malta
  | CountryAlpha3_MHL => Country_MarshallIslands | CountryAlpha3_MTQ => Country_Martinique
  | CountryAlpha3_MRT => Country_Mauritania | CountryAlpha3_MUS => Country_Mauritius
  | CountryAlpha3_MYT => Country_Mayotte | CountryAlpha3_MEX => Country_Mexico
  | CountryAlpha3_FSM => Country_MicronesiaFederatedStates
  | CountryAlpha3_MDA => Country_MoldovaRepublic | CountryAlpha3_MCO => Country_Monaco
  | CountryAlpha3_MNG => Country_Mongolia | CountryAlpha3_MNE => Country_Montenegro
  | CountryAlpha3_MSR => Country_Montserrat | CountryAlpha3_MAR => Country_Morocco
  | CountryAlpha3_MOZ => Country_Mozambique | CountryAlpha3_MMR => Country_Myanmar
  | CountryAlpha3_NAM => Country_Namibia | CountryAlpha3_NRU => Country_Nauru
  | CountryAlpha3_NPL => Country_Nepal | CountryAlpha3_NLD => Country_Netherlands
  | CountryAlpha3_NCL => Country_NewCaledonia | CountryAlpha3_NZL => Country_NewZealand
  | CountryAlpha3_NIC => Country_Nicaragua | CountryAlpha3_NER => Country_Niger
  | CountryAlpha3_NGA => Country_Nigeria | CountryAlpha3_NIU => Country_Niue
  | CountryAlpha3_NFK => Country_NorfolkIsland
  | CountryAlpha3_MNP => Country_NorthernMarianaIslands | CountryAlpha3_NOR => Country_Norway
  | CountryAlpha3_OMN => Country_Oman | CountryAlpha3_PAK => Country_Pakistan
  | CountryAlpha3_PLW => Country_Palau | CountryAlpha3_PSE => Country_PalestineState
  | CountryAlpha3_PAN => Country_Panama | CountryAlpha3_PNG => Country_PapuaNewGuinea
  | CountryAlpha3_PRY => Country_Paraguay | CountryAlpha3_PER => Country_Peru
  | CountryAlpha3_PHL => Country_Philippines | CountryAlpha3_PCN => Country_Pitcairn
  | CountryAlpha3_POL => Country_Poland | CountryAlpha3_PRT => Country_Portugal
  | CountryAlpha3_PRI => Country_PuertoRico | CountryAlpha3_QAT => Country_Qatar
  | CountryAlpha3_REU => Country_Reunion | CountryAlpha3_ROU => Country_Romania
  | CountryAlpha3_RUS => Country_RussianFederation | CountryAlpha3_RWA => Country_Rwanda
  | CountryAlpha3_BLM => Country_SaintBarthelemy
  | CountryAlpha3_SHN => Country_SaintHelenaAscensionAndTristandaCunha
  | CountryAlpha3_KNA => Country_SaintKittsAndNevis | CountryAlpha3_LCA => Country_SaintLucia
  | CountryAlpha3_MAF => Country_SaintMartinFrenchpart
  | CountryAlpha3_SPM => Country_SaintPierreAndMiquelon
  | CountryAlpha3_VCT => Country_SaintVincentAndTheGrenadines
  | CountryAlpha3_WSM => Country_Samoa | CountryAlpha3_SMR => Country_SanMarino
  | CountryAlpha3_STP => Country_SaoTomeAndPrincipe | CountryAlpha3_SAU => Country_SaudiArabia
  | CountryAlpha3_SEN => Country_Senegal | CountryAlpha3_SRB => Country_Serbia
  | CountryAlpha3_SYC => Country_Seychelles | CountryAlpha3_SLE => Country_SierraLeone
  | CountryAlpha3_SGP => Country_Singapore | CountryAlpha3_SXM => Country_SintMaartenDutchpart
  | CountryAlpha3_SVK => Country_Slovakia | CountryAlpha3_SVN => Country_Slovenia
  | CountryAlpha3_SLB => Country_SolomonIslands | CountryAlpha3_SOM => Country_Somalia
  | CountryAlpha3_ZAF => Country_SouthAfrica
  | CountryAlpha3_SGS => Country_SouthGeorgiaAndTheSouthSandwichIslands
  | CountryAlpha3_SSD => Country_SouthSudan | CountryAlpha3_ESP => Country_Spain
  | CountryAlpha3_LKA => Country_SriLanka | CountryAlpha3_SDN => Country_Sudan
  | CountryAlpha3_SUR => Country_Suriname | CountryAlpha3_SJM => Country_SvalbardAndJanMayen
  | CountryAlpha3_SWZ => Country_Swaziland | CountryAlpha3_SWE => Country_Sweden
  | CountryAlpha3_CHE => Country_Switzerland | CountryAlpha3_SYR => Country_SyrianArabRepublic
  | CountryAlpha3_TWN => Country_TaiwanProvinceOfChina
  | CountryAlpha3_TJK => Country_Tajikistan
  | CountryAlpha3_TZA => Country_TanzaniaUnitedRepublic | CountryAlpha3_THA => Country_Thailand
  | CountryAlpha3_TLS => Country_TimorLeste | CountryAlpha3_TGO => Country_Togo
  | CountryAlpha3_TKL => Country_Tokelau | CountryAlpha3_TON => Country_Tonga
  | CountryAlpha3_TTO => Country_TrinidadAndTobago | CountryAlpha3_TUN => Country_Tunisia
  | CountryAlpha3_TUR => Country_Turkey | CountryAlpha3_TKM => Country_Turkmenistan
  | CountryAlpha3_TCA => Country_TurksAndCaicosIslands | CountryAlpha3_TUV => Country_Tuvalu
  | CountryAlpha3_UGA => Country_Uganda | CountryAlpha3_UKR => Country_Ukraine
  | CountryAlpha3_ARE => Country_UnitedArabEmirates
  | CountryAlpha3_GBR => Country_UnitedKingdomOfGreatBritainAndNorthernIreland
  | CountryAlpha3_USA => Country_UnitedStatesOfAmerica
  | CountryAlpha3_UMI => Country_UnitedStatesMinorOutlyingIslands
  | CountryAlpha3_URY => Country_Uruguay | CountryAlpha3_UZB => Country_Uzbekistan
  | CountryAlpha3_VUT => Country_Vanuatu
  | CountryAlpha3_VEN => Country_VenezuelaBolivarianRepublic
  | CountryAlpha3_VNM => Country_Vietnam | CountryAlpha3_VGB => Country_VirginIslandsBritish
  | CountryAlpha3_VIR => Country_VirginIslandsUS | CountryAlpha3_WLF => Country_WallisAndFutuna
  | CountryAlpha3_ESH => Country_WesternSahara | CountryAlpha3_YEM => Country_Yemen
  | CountryAlpha3_ZMB => Country_Zambia | CountryAlpha3_ZWE => Country_Zimbabwe
  end.

Definition to_alpha3 (x : Country) : CountryAlpha3 :=
  match x with
  | Country_Afghanistan => CountryAlpha3_AFG | Country_AlandIslands => CountryAlpha3_ALA
  | Country_Albania => CountryAlpha3_ALB | Country_Algeria => CountryAlpha3_DZA
  | Country_AmericanSamoa => CountryAlpha3_ASM | Country_Andorra => CountryAlpha3_AND
  | Country_Angola => CountryAlpha3_AGO | Country_Anguilla => CountryAlpha3_AIA
  | Country_Antarctica => CountryAlpha3_ATA | Country_AntiguaAndBarbuda => CountryAlpha3_ATG
  | Country_Argentina => CountryAlpha3_ARG | Country_Armenia => CountryAlpha3_ARM
  | Country_Aruba => CountryAlpha3_ABW | Country_Australia => CountryAlpha3_AUS
  | Country_Austria => CountryAlpha3_AUT | Country_Azerbaijan => CountryAlpha3_AZE
  | Country_Bahamas => CountryAlpha3_BHS | Country_Bahrain => CountryAlpha3_BHR
  | Country_Bangladesh => CountryAlpha3_BGD | Country_Barbados => CountryAlpha3_BRB
  | Country_Belarus => CountryAlpha3_BLR | Country_Belgium => CountryAlpha3_BEL
  | Country_Belize => CountryAlpha3_BLZ | Country_Benin => CountryAlpha3_BEN
  | Country_Bermuda => CountryAlpha3_BMU | Country_Bhutan => CountryAlpha3_BTN
  | Country_BoliviaPlurinationalState => CountryAlpha3_BOL
  | Country_BonaireSintEustatiusAndSaba => CountryAlpha3_BES
  | Country_BosniaAndHerzegovina => CountryAlpha3_BIH | Country_Botswana => CountryAlpha3_BWA
  | Country_BouvetIsland => CountryAlpha3_BVT | Country_Brazil => CountryAlpha3_BRA
  | Country_BritishIndianOceanTerritory => CountryAlpha3_IOT
  | Country_BruneiDarussalam => CountryAlpha3_BRN | Country_Bulgaria => CountryAlpha3_BGR
  | Country_BurkinaFaso => CountryAlpha3_BFA | Country_Burundi => CountryAlpha3_BDI
  | Country_CaboVerde => CountryAlpha3_CPV | Country_Cambodia => CountryAlpha3_KHM
  | Country_Cameroon => CountryAlpha3_CMR | Country_Canada => CountryAlpha3_CAN
  | Country_CaymanIslands => CountryAlpha3_CYM
  | Country_CentralAfricanRepublic => CountryAlpha3_CAF | Country_Chad => CountryAlpha3_TCD
  | Country_Chile => CountryAlpha3_CHL | Country_China => CountryAlpha3_CHN
  | Country_ChristmasIsland => CountryAlpha3_CXR
  | Country_CocosKeelingIslands => CountryAlpha3_CCK | Country_Colombia => CountryAlpha3_COL
  | Country_Comoros => CountryAlpha3_COM | Country_Congo => CountryAlpha3_COG
  | Country_CongoDemocraticRepublic => CountryAlpha3_COD
  | Country_CookIslands => CountryAlpha3_COK | Country_CostaRica => CountryAlpha3_CRI
  | Country_CotedIvoire => CountryAlpha3_CIV | Country_Croatia => CountryAlpha3_HRV
  | Country_Cuba => CountryAlpha3_CUB | Country_Curacao => CountryAlpha3_CUW
  | Country_Cyprus => CountryAlpha3_CYP | Country_Czechia => CountryAlpha3_CZE
  | Country_Denmark => CountryAlpha3_DNK | Country_Djibouti => CountryAlpha3_DJI
  | Country_Dominica => CountryAlpha3_DMA | Country_DominicanRepublic => CountryAlpha3_DOM
  | Country_Ecuador => CountryAlpha3_ECU | Country_Egypt => CountryAlpha3_EGY
  | Country_ElSalvador => CountryAlpha3_SLV | Country_EquatorialGuinea => CountryAlpha3_GNQ
  | Country_Eritrea => CountryAlpha3_ERI | Country_Estonia => CountryAlpha3_EST
  | Country_Ethiopia => CountryAlpha3_ETH
  | Country_FalklandIslandsMalvinas => CountryAlpha3_FLK
  | Country_FaroeIslands => CountryAlpha3_FRO | Country_Fiji => CountryAlpha3_FJI
  | Country_Finland => CountryAlpha3_FIN | Country_France => CountryAlpha3_FRA
  | Country_FrenchGuiana => CountryAlpha3_GUF | Country_FrenchPolynesia => CountryAlpha3_PYF
  | Country_FrenchSouthernTerritories => CountryAlpha3_ATF | Country_Gabon => CountryAlpha3_GAB
  | Country_Gambia => CountryAlpha3_GMB | Country_Georgia => CountryAlpha3_GEO
  | Country_Germany => CountryAlpha3_DEU | Country_Ghana => CountryAlpha3_GHA
  | Country_Gibraltar => CountryAlpha3_GIB | Country_Greece => CountryAlpha3_GRC
  | Country_Greenland => CountryAlpha3_GRL | Country_Grenada => CountryAlpha3_GRD
  | Country_Guadeloupe => CountryAlpha3_GLP | Country_Guam => CountryAlpha3_GUM
  | Country_Guatemala => CountryAlpha3_GTM | Country_Guernsey => CountryAlpha3_GGY
  | Country_Guinea => CountryAlpha3_GIN | Country_GuineaBissau => CountryAlpha3_GNB
  | Country_Guyana => CountryAlpha3_GUY | Country_Haiti => CountryAlpha3_HTI
  | Country_HeardIslandAndMcDonaldIslands => CountryAlpha3_HMD
  | Country_HolySee => CountryAlpha3_VAT | Country_Honduras => CountryAlpha3_HND
  | Country_HongKong => CountryAlpha3_HKG | Country_Hungary => CountryAlpha3_HUN
  | Country_Iceland => CountryAlpha3_ISL | Country_India => CountryAlpha3_IND
  | Country_Indonesia => CountryAlpha3_IDN | Country_IranIslamicRepublic => CountryAlpha3_IRN
  | Country_Iraq => CountryAlpha3_IRQ | Country_Ireland => CountryAlpha3_IRL
  | Country_IsleOfMan => CountryAlpha3_IMN | Country_Israel => CountryAlpha3_ISR
  | Country_Italy => CountryAlpha3_ITA | Country_Jamaica => CountryAlpha3_JAM
  | Country_Japan => CountryAlpha3_JPN | Country_Jersey => CountryAlpha3_JEY
  | Country_Jordan => CountryAlpha3_JOR | Country_Kazakhstan => CountryAlpha3_KAZ
  | Country_Kenya => CountryAlpha3_KEN | Country_Kiribati => CountryAlpha3_KIR
  | Country_KoreaDemocraticPeoplesRepublic => CountryAlpha3_PRK
  | Country_KoreaRepublic => CountryAlpha3_KOR | Country_Kuwait => CountryAlpha3_KWT
  | Country_Kyrgyzstan => CountryAlpha3_KGZ
  | Country_LaoPeoplesDemocraticRepublic => CountryAlpha3_LAO
  | Country_Latvia => CountryAlpha3_LVA | Country_Lebanon => CountryAlpha3_LBN
  | Country_Lesotho => CountryAlpha3_LSO | Country_Liberia => CountryAlpha3_LBR
  | Country_Libya => CountryAlpha3_LBY | Country_Liechtenstein => CountryAlpha3_LIE
  | Country_Lithuania => CountryAlpha3_LTU | Country_Luxembourg => CountryAlpha3_LUX
  | Country_Macao => CountryAlpha3_MAC
  | Country_MacedoniaTheFormerYugoslavRepublic => CountryAlpha3_MKD
  | Country_Madagascar => CountryAlpha3_MDG | Country_Malawi => CountryAlpha3_MWI
  | Country_Malaysia => CountryAlpha3_MYS | Country_Maldives => CountryAlpha3_MDV
  | Country_Mali => CountryAlpha3_MLI | Country_Malta => CountryAlpha3_MLT
  | Country_MarshallIslands => CountryAlpha3_MHL | Country_Martinique => CountryAlpha3_MTQ
  | Country_Mauritania => CountryAlpha3_MRT | Country_Mauritius => CountryAlpha3_MUS
  | Country_Mayotte => CountryAlpha3_MYT | Country_Mexico => CountryAlpha3_MEX
  | Country_MicronesiaFederatedStates => CountryAlpha3_FSM
  | Country_MoldovaRepublic => CountryAlpha3_MDA | Country_Monaco => CountryAlpha3_MCO
  | Country_Mongolia => CountryAlpha3_MNG | Country_Montenegro => CountryAlpha3_MNE
  | Country_Montserrat => CountryAlpha3_MSR | Country_Morocco => CountryAlpha3_MAR
  | Country_Mozambique => CountryAlpha3_MOZ | Country_Myanmar => CountryAlpha3_MMR
  | Country_Namibia => CountryAlpha3_NAM | Country_Nauru => CountryAlpha3_NRU
  | Country_Nepal => CountryAlpha3_NPL | Country_Netherlands => CountryAlpha3_NLD
  | Country_NewCaledonia => CountryAlpha3_NCL | Country_NewZealand => CountryAlpha3_NZL
  | Country_Nicaragua => CountryAlpha3_NIC | Country_Niger => CountryAlpha3_NER
  | Country_Nigeria => CountryAlpha3_NGA | Country_Niue => CountryAlpha3_NIU
  | Country_NorfolkIsland => CountryAlpha3_NFK
  | Country_NorthernMarianaIslands => CountryAlpha3_MNP | Country_Norway => CountryAlpha3_NOR
  | Country_Oman => CountryAlpha3_OMN | Country_Pakistan => CountryAlpha3_PAK
  | Country_Palau => CountryAlpha3_PLW | Country_PalestineState => CountryAlpha3_PSE
  | Country_Panama => CountryAlpha3_PAN | Country_PapuaNewGuinea => CountryAlpha3_PNG
  | Country_Paraguay => CountryAlpha3_PRY | Country_Peru => CountryAlpha3_PER
  | Country_Philippines => CountryAlpha3_PHL | Country_Pitcairn => CountryAlpha3_PCN
  | Country_Poland => CountryAlpha3_POL | Country_Portugal => CountryAlpha3_PRT
  | Country_PuertoRico => CountryAlpha3_PRI | Country_Qatar => CountryAlpha3_QAT
  | Country_Reunion => CountryAlpha3_REU | Country_Romania => CountryAlpha3_ROU
  | Country_RussianFederation => CountryAlpha3_RUS | Country_Rwanda => CountryAlpha3_RWA
  | Country_SaintBarthelemy => CountryAlpha3_BLM
  | Country_SaintHelenaAscensionAndTristandaCunha => CountryAlpha3_SHN
  | Country_SaintKittsAndNevis => CountryAlpha3_KNA | Country_SaintLucia => CountryAlpha3_LCA
  | Country_SaintMartinFrenchpart => CountryAlpha3_MAF
  | Country_SaintPierreAndMiquelon => CountryAlpha3_SPM
  | Country_SaintVincentAndTheGrenadines => CountryAlpha3_VCT
  | Country_Samoa => CountryAlpha3_WSM | Country_SanMarino => CountryAlpha3_SMR
  | Country_SaoTomeAndPrincipe => CountryAlpha3_STP | Country_SaudiArabia => CountryAlpha3_SAU
  | Country_Senegal => CountryAlpha3_SEN | Country_Serbia => CountryAlpha3_SRB
  | Country_Seychelles => CountryAlpha3_SYC | Country_SierraLeone => CountryAlpha3_SLE
  | Country_Singapore => CountryAlpha3_SGP | Country_SintMaartenDutchpart => CountryAlpha3_SXM
  | Country_Slovakia => CountryAlpha3_SVK | Country_Slovenia => CountryAlpha3_SVN
  | Country_SolomonIslands => CountryAlpha3_SLB | Country_Somalia => CountryAlpha3_SOM
  | Country_SouthAfrica => CountryAlpha3_ZAF
  | Country_SouthGeorgiaAndTheSouthSandwichIslands => CountryAlpha3_SGS
  | Country_SouthSudan => CountryAlpha3_SSD | Country_Spain => CountryAlpha3_ESP
  | Country_SriLanka => CountryAlpha3_LKA | Country_Sudan => CountryAlpha3_SDN
  | Country_Suriname => CountryAlpha3_SUR | Country_SvalbardAndJanMayen => CountryAlpha3_SJM
  | Country_Swaziland => CountryAlpha3_SWZ | Country_Sweden => CountryAlpha3_SWE
  | Country_Switzerland => CountryAlpha3_CHE | Country_SyrianArabRepublic => CountryAlpha3_SYR
  | Country_TaiwanProvinceOfChina => CountryAlpha3_TWN
  | Country_Tajikistan => CountryAlpha3_TJK
  | Country_TanzaniaUnitedRepublic => CountryAlpha3_TZA | Country_Thailand => CountryAlpha3_THA
  | Country_TimorLeste => CountryAlpha3_TLS | Country_Togo => CountryAlpha3_TGO
  | Country_Tokelau => CountryAlpha3_TKL | Country_Tonga => CountryAlpha3_TON
  | Country_TrinidadAndTobago => CountryAlpha3_TTO | Country_Tunisia => CountryAlpha3_TUN
  | Country_Turkey => CountryAlpha3_TUR | Country_Turkmenistan => CountryAlpha3_TKM
  | Country_TurksAndCaicosIslands => CountryAlpha3_TCA | Country_Tuvalu => CountryAlpha3_TUV
  | Country_Uganda => CountryAlpha3_UGA | Country_Ukraine => CountryAlpha3_UKR
  | Country_UnitedArabEmirates => CountryAlpha3_ARE
  | Country_UnitedKingdomOfGreatBritainAndNorthernIreland => CountryAlpha3_GBR
  | Country_UnitedStatesOfAmerica => CountryAlpha3_USA
  | Country_UnitedStatesMinorOutlyingIslands => CountryAlpha3_UMI
  | Country_Uruguay => CountryAlpha3_URY | Country_Uzbekistan => CountryAlpha3_UZB
  | Country_Vanuatu => CountryAlpha3_VUT
  | Country_VenezuelaBolivarianRepublic => CountryAlpha3_VEN
  | Country_Vietnam => CountryAlpha3_VNM | Country_VirginIslandsBritish => CountryAlpha3_VGB
  | Country_VirginIslandsUS => CountryAlpha3_VIR | Country_WallisAndFutuna => CountryAlpha3_WLF
  | Country_WesternSahara => CountryAlpha3_ESH | Country_Yemen => CountryAlpha3_YEM
  | Country_Zambia => CountryAlpha3_ZMB | Country_Zimbabwe => CountryAlpha3_ZWE
  end.

Definition to_numeric (x : Country) : Z :=
  match x with
  | Country_Afghanistan => 4%Z | Country_AlandIslands => 248%Z | Country_Albania => 8%Z
  | Country_Algeria => 12%Z | Country_AmericanSamoa => 16%Z | Country_Andorra => 20%Z
  | Country_Angola => 24%Z | Country_Anguilla => 660%Z | Country_Antarctica => 10%Z
  | Country_AntiguaAndBarbuda => 28%Z | Country_Argentina => 32%Z | Country_Armenia => 51%Z
  | Country_Aruba => 533%Z | Country_Australia => 36%Z | Country_Austria => 40%Z
  | Country_Azerbaijan => 31%Z | Country_Bahamas => 44%Z | Country_Bahrain => 48%Z
  | Country_Bangladesh => 50%Z | Country_Barbados => 52%Z | Country_Belarus => 112%Z
  | Country_Belgium => 56%Z | Country_Belize => 84%Z | Country_Benin => 204%Z
  | Country_Bermuda => 60%Z | Country_Bhutan => 64%Z
  | Country_BoliviaPlurinationalState => 68%Z | Country_BonaireSintEustatiusAndSaba => 535%Z
  | Country_BosniaAndHerzegovina => 70%Z | Country_Botswana => 72%Z
  | Country_BouvetIsland => 74%Z | Country_Brazil => 76%Z
  | Country_BritishIndianOceanTerritory => 86%Z | Country_BruneiDarussalam => 96%Z
  | Country_Bulgaria => 100%Z | Country_BurkinaFaso => 854%Z | Country_Burundi => 108%Z
  | Country_CaboVerde => 132%Z | Country_Cambodia => 116%Z | Country_Cameroon => 120%Z
  | Country_Canada => 124%Z | Country_CaymanIslands => 136%Z
  | Country_CentralAfricanRepublic => 140%Z | Country_Chad => 148%Z | Country_Chile => 152%Z
  | Country_China => 156%Z | Country_ChristmasIsland => 162%Z
  | Country_CocosKeelingIslands => 166%Z | Country_Colombia => 170%Z | Country_Comoros => 174%Z
  | Country_Congo => 178%Z | Country_CongoDemocraticRepublic => 180%Z
  | Country_CookIslands => 184%Z | Country_CostaRica => 188%Z | Country_CotedIvoire => 384%Z
  | Country_Croatia => 191%Z | Country_Cuba => 192%Z | Country_Curacao => 531%Z
  | Country_Cyprus => 196%Z | Country_Czechia => 203%Z | Country_Denmark => 208%Z
  | Country_Djibouti => 262%Z | Country_Dominica => 212%Z | Country_DominicanRepublic => 214%Z
  | Country_Ecuador => 218%Z | Country_Egypt => 818%Z | Country_ElSalvador => 222%Z
  | Country_EquatorialGuinea => 226%Z | Country_Eritrea => 232%Z | Country_Estonia => 233%Z
  | Country_Ethiopia => 231%Z | Country_FalklandIslandsMalvinas => 238%Z
  | Country_FaroeIslands => 234%Z | Country_Fiji => 242%Z | Country_Finland => 246%Z
  | Country_France => 250%Z | Country_FrenchGuiana => 254%Z | Country_FrenchPolynesia => 258%Z
  | Country_FrenchSouthernTerritories => 260%Z | Country_Gabon => 266%Z
  | Country_Gambia => 270%Z | Country_Georgia => 268%Z | Country_Germany => 276%Z
  | Country_Ghana => 288%Z | Country_Gibraltar => 292%Z | Country_Greece => 300%Z
  | Country_Greenland => 304%Z | Country_Grenada => 308%Z | Country_Guadeloupe => 312%Z
  | Country_Guam => 316%Z | Country_Guatemala => 320%Z | Country_Guernsey => 831%Z
  | Country_Guinea => 324%Z | Country_GuineaBissau => 624%Z | Country_Guyana => 328%Z
  | Country_Haiti => 332%Z | Country_HeardIslandAndMcDonaldIslands => 334%Z
  | Country_HolySee => 336%Z | Country_Honduras => 340%Z | Country_HongKong => 344%Z
  | Country_Hungary => 348%Z | Country_Iceland => 352%Z | Country_India => 356%Z
  | Country_Indonesia => 360%Z | Country_IranIslamicRepublic => 364%Z | Country_Iraq => 368%Z
  | Country_Ireland => 372%Z | Country_IsleOfMan => 833%Z | Country_Israel => 376%Z
  | Country_Italy => 380%Z | Country_Jamaica => 388%Z | Country_Japan => 392%Z
  | Country_Jersey => 832%Z | Country_Jordan => 400%Z | Country_Kazakhstan => 398%Z
  | Country_Kenya => 404%Z | Country_Kiribati => 296%Z
  | Country_KoreaDemocraticPeoplesRepublic => 408%Z | Country_KoreaRepublic => 410%Z
  | Country_Kuwait => 414%Z | Country_Kyrgyzstan => 417%Z
  | Country_LaoPeoplesDemocraticRepublic => 418%Z | Country_Latvia => 428%Z
  | Country_Lebanon => 422%Z | Country_Lesotho => 426%Z | Country_Liberia => 430%Z
  | Country_Libya => 434%Z | Country_Liechtenstein => 438%Z | Country_Lithuania => 440%Z
  | Country_Luxembourg => 442%Z | Country_Macao => 446%Z
  | Country_MacedoniaTheFormerYugoslavRepublic => 807%Z | Country_Madagascar => 450%Z
  | Country_Malawi => 454%Z | Country_Malaysia => 458%Z | Country_Maldives => 462%Z
  | Country_Mali => 466%Z | Country_Malta => 470%Z | Country_MarshallIslands => 584%Z
  | Country_Martinique => 474%Z | Country_Mauritania => 478%Z | Country_Mauritius => 480%Z
  | Country_Mayotte => 175%Z | Country_Mexico => 484%Z
  | Country_MicronesiaFederatedStates => 583%Z | Country_MoldovaRepublic => 498%Z
  | Country_Monaco => 492%Z | Country_Mongolia => 496%Z | Country_Montenegro => 499%Z
  | Country_Montserrat => 500%Z | Country_Morocco => 504%Z | Country_Mozambique => 508%Z
  | Country_Myanmar => 104%Z | Country_Namibia => 516%Z | Country_Nauru => 520%Z
  | Country_Nepal => 524%Z | Country_Netherlands => 528%Z | Country_NewCaledonia => 540%Z
  | Country_NewZealand => 554%Z | Country_Nicaragua => 558%Z | Country_Niger => 562%Z
  | Country_Nigeria => 566%Z | Country_Niue => 570%Z | Country_NorfolkIsland => 574%Z
  | Country_NorthernMarianaIslands => 580%Z | Country_Norway => 578%Z | Country_Oman => 512%Z
  | Country_Pakistan => 586%Z | Country_Palau => 585%Z | Country_PalestineState => 275%Z
  | Country_Panama => 591%Z | Country_PapuaNewGuinea => 598%Z | Country_Paraguay => 600%Z
  | Country_Peru => 604%Z | Country_Philippines => 608%Z | Country_Pitcairn => 612%Z
  | Country_Poland => 616%Z | Country_Portugal => 620%Z | Country_PuertoRico => 630%Z
  | Country_Qatar => 634%Z | Country_Reunion => 638%Z | Country_Romania => 642%Z
  | Country_RussianFederation => 643%Z | Country_Rwanda => 646%Z
  | Country_SaintBarthelemy => 652%Z | Country_SaintHelenaAscensionAndTristandaCunha => 654%Z
  | Country_SaintKittsAndNevis => 659%Z | Country_SaintLucia => 662%Z
  | Country_SaintMartinFrenchpart => 663%Z | Country_SaintPierreAndMiquelon => 666%Z
  | Country_SaintVincentAndTheGrenadines => 670%Z | Country_Samoa => 882%Z
  | Country_SanMarino => 674%Z | Country_SaoTomeAndPrincipe => 678%Z
  | Country_SaudiArabia => 682%Z | Country_Senegal => 686%Z | Country_Serbia => 688%Z
  | Country_Seychelles => 690%Z | Country_SierraLeone => 694%Z | Country_Singapore => 702%Z
  | Country_SintMaartenDutchpart => 534%Z | Country_Slovakia => 703%Z
  | Country_Slovenia => 705%Z | Country_SolomonIslands => 90%Z | Country_Somalia => 706%Z
  | Country_SouthAfrica => 710%Z | Country_SouthGeorgiaAndTheSouthSandwichIslands => 239%Z
  | Country_SouthSudan => 728%Z | Country_Spain => 724%Z | Country_SriLanka => 144%Z
  | Country_Sudan => 729%Z | Country_Suriname => 740%Z | Country_SvalbardAndJanMayen => 744%Z
  | Country_Swaziland => 748%Z | Country_Sweden => 752%Z | Country_Switzerland => 756%Z
  | Country_SyrianArabRepublic => 760%Z | Country_TaiwanProvinceOfChina => 158%Z
  | Country_Tajikistan => 762%Z | Country_TanzaniaUnitedRepublic => 834%Z
  | Country_Thailand => 764%Z | Country_TimorLeste => 626%Z | Country_Togo => 768%Z
  | Country_Tokelau => 772%Z | Country_Tonga => 776%Z | Country_TrinidadAndTobago => 780%Z
  | Country_Tunisia => 788%Z | Country_Turkey => 792%Z | Country_Turkmenistan => 795%Z
  | Country_TurksAndCaicosIslands => 796%Z | Country_Tuvalu => 798%Z | Country_Uganda => 800%Z
  | Country_Ukraine => 804%Z | Country_UnitedArabEmirates => 784%Z
  | Country_UnitedKingdomOfGreatBritainAndNorthernIreland => 826%Z
  | Country_UnitedStatesOfAmerica => 840%Z | Country_UnitedStatesMinorOutlyingIslands => 581%Z
  | Country_Uruguay => 858%Z | Country_Uzbekistan => 860%Z | Country_Vanuatu => 548%Z
  | Country_VenezuelaBolivarianRepublic => 862%Z | Country_Vietnam => 704%Z
  | Country_VirginIslandsBritish => 92%Z | Country_VirginIslandsUS => 850%Z
  | Country_WallisAndFutuna => 876%Z | Country_WesternSahara => 732%Z | Country_Yemen => 887%Z
  | Country_Zambia => 894%Z | Country_Zimbabwe => 716%Z
  end.

Inductive NumericCountryCodeParseError : Set := InvalidCountryCode.

(** The arms of [from_numeric], in order. *)
Definition numeric_codes : list (Z * Country) := [
  (4%Z, Country_Afghanistan); (248%Z, Country_AlandIslands); (8%Z, Country_Albania);
  (12%Z, Country_Algeria); (16%Z, Country_AmericanSamoa); (20%Z, Country_Andorra);
  (24%Z, Country_Angola); (660%Z, Country_Anguilla); (10%Z, Country_Antarctica);
  (28%Z, Country_AntiguaAndBarbuda); (32%Z, Country_Argentina); (51%Z, Country_Armenia);
  (533%Z, Country_Aruba); (36%Z, Country_Australia); (40%Z, Country_Austria);
  (31%Z, Country_Azerbaijan); (44%Z, Country_Bahamas); (48%Z, Country_Bahrain);
  (50%Z, Country_Bangladesh); (52%Z, Country_Barbados); (112%Z, Country_Belarus);
  (56%Z, Country_Belgium); (84%Z, Country_Belize); (204%Z, Country_Benin);
  (60%Z, Country_Bermuda); (64%Z, Country_Bhutan); (68%Z, Country_BoliviaPlurinationalState);
  (535%Z, Country_BonaireSintEustatiusAndSaba); (70%Z, Country_BosniaAndHerzegovina);
  (72%Z, Country_Botswana); (74%Z, Country_BouvetIsland); (76%Z, Country_Brazil);
  (86%Z, Country_BritishIndianOceanTerritory); (96%Z, Country_BruneiDarussalam);
  (100%Z, Country_Bulgaria); (854%Z, Country_BurkinaFaso); (108%Z, Country_Burundi);
  (132%Z, Country_CaboVerde); (116%Z, Country_Cambodia); (120%Z, Country_Cameroon);
  (124%Z, Country_Canada); (136%Z, Country_CaymanIslands);
  (140%Z, Country_CentralAfricanRepublic); (148%Z, Country_Chad); (152%Z, Country_Chile);
  (156%Z, Country_China); (162%Z, Country_ChristmasIsland);
  (166%Z, Country_CocosKeelingIslands); (170%Z, Country_Colombia); (174%Z, Country_Comoros);
  (178%Z, Country_Congo); (180%Z, Country_CongoDemocraticRepublic);
  (184%Z, Country_CookIslands); (188%Z, Country_CostaRica); (384%Z, Country_CotedIvoire);
  (191%Z, Country_Croatia); (192%Z, Country_Cuba); (531%Z, Country_Curacao);
  (196%Z, Country_Cyprus); (203%Z, Country_Czechia); (208%Z, Country_Denmark);
  (262%Z, Country_Djibouti); (212%Z, Country_Dominica); (214%Z, Country_DominicanRepublic);
  (218%Z, Country_Ecuador); (818%Z, Country_Egypt); (222%Z, Country_ElSalvador);
  (226%Z, Country_EquatorialGuinea); (232%Z, Country_Eritrea); (233%Z, Country_Estonia);
  (231%Z, Country_Ethiopia); (238%Z, Country_FalklandIslandsMalvinas);
  (234%Z, Country_FaroeIslands); (242%Z, Country_Fiji); (246%Z, Country_Finland);
  (250%Z, Country_France); (254%Z, Country_FrenchGuiana); (258%Z, Country_FrenchPolynesia);
  (260%Z, Country_FrenchSouthernTerritories); (266%Z, Country_Gabon); (270%Z, Country_Gambia);
  (268%Z, Country_Georgia); (276%Z, Country_Germany); (288%Z, Country_Ghana);
  (292%Z, Country_Gibraltar); (300%Z, Country_Greece); (304%Z, Country_Greenland);
  (308%Z, Country_Grenada); (312%Z, Country_Guadeloupe); (316%Z, Country_Guam);
  (320%Z, Country_Guatemala); (831%Z, Country_Guernsey); (324%Z, Country_Guinea);
  (624%Z, Country_GuineaBissau); (328%Z, Country_Guyana); (332%Z, Country_Haiti);
  (334%Z, Country_HeardIslandAndMcDonaldIslands); (336%Z, Country_HolySee);
  (340%Z, Country_Honduras); (344%Z, Country_HongKong); (348%Z, Country_Hungary);
  (352%Z, Country_Iceland); (356%Z, Country_India); (360%Z, Country_Indonesia);
  (364%Z, Country_IranIslamicRepublic); (368%Z, Country_Iraq); (372%Z, Country_Ireland);
  (833%Z, Country_IsleOfMan); (376%Z, Country_Israel); (380%Z, Country_Italy);
  (388%Z, Country_Jamaica); (392%Z, Country_Japan); (832%Z, Country_Jersey);
  (400%Z, Country_Jordan); (398%Z, Country_Kazakhstan); (404%Z, Country_Kenya);
  (296%Z, Country_Kiribati); (408%Z, Country_KoreaDemocraticPeoplesRepublic);
  (410%Z, Country_KoreaRepublic); (414%Z, Country_Kuwait); (417%Z, Country_Kyrgyzstan);
  (418%Z, Country_LaoPeoplesDemocraticRepublic); (428%Z, Country_Latvia);
  (422%Z, Country_Lebanon); (426%Z, Country_Lesotho); (430%Z, Country_Liberia);
  (434%Z, Country_Libya); (438%Z, Country_Liechtenstein); (440%Z, Country_Lithuania);
  (442%Z, Country_Luxembourg); (446%Z, Country_Macao);
  (807%Z, Country_MacedoniaTheFormerYugoslavRepublic); (450%Z, Country_Madagascar);
  (454%Z, Country_Malawi); (458%Z, Country_Malaysia); (462%Z, Country_Maldives);
  (466%Z, Country_Mali); (470%Z, Country_Malta); (584%Z, Country_MarshallIslands);
  (474%Z, Country_Martinique); (478%Z, Country_Mauritania); (480%Z, Country_Mauritius);
  (175%Z, Country_Mayotte); (484%Z, Country_Mexico);
  (583%Z, Country_MicronesiaFederatedStates); (498%Z, Country_MoldovaRepublic);
  (492%Z, Country_Monaco); (496%Z, Country_Mongolia); (499%Z, Country_Montenegro);
  (500%Z, Country_Montserrat); (504%Z, Country_Morocco); (508%Z, Country_Mozambique);
  (104%Z, Country_Myanmar); (516%Z, Country_Namibia); (520%Z, Country_Nauru);
  (524%Z, Country_Nepal); (528%Z, Country_Netherlands); (540%Z, Country_NewCaledonia);
  (554%Z, Country_NewZealand); (558%Z, Country_Nicaragua); (562%Z, Country_Niger);
  (566%Z, Country_Nigeria); (570%Z, Country_Niue); (574%Z, Country_NorfolkIsland);
  (580%Z, Country_NorthernMarianaIslands); (578%Z, Country_Norway); (512%Z, Country_Oman);
  (586%Z, Country_Pakistan); (585%Z, Country_Palau); (275%Z, Country_PalestineState);
  (591%Z, Country_Panama); (598%Z, Country_PapuaNewGuinea); (600%Z, Country_Paraguay);
  (604%Z, Country_Peru); (608%Z, Country_Philippines); (612%Z, Country_Pitcairn);
  (616%Z, Country_Poland); (620%Z, Country_Portugal); (630%Z, Country_PuertoRico);
  (634%Z, Country_Qatar); (638%Z, Country_Reunion); (642%Z, Country_Romania);
  (643%Z, Country_RussianFederation); (646%Z, Country_Rwanda);
  (652%Z, Country_SaintBarthelemy); (654%Z, Country_SaintHelenaAscensionAndTristandaCunha);
  (659%Z, Country_SaintKittsAndNevis); (662%Z, Country_SaintLucia);
  (663%Z, Country_SaintMartinFrenchpart); (666%Z, Country_SaintPierreAndMiquelon);
  (670%Z, Country_SaintVincentAndTheGrenadines); (882%Z, Country_Samoa);
  (674%Z, Country_SanMarino); (678%Z, Country_SaoTomeAndPrincipe);
  (682%Z, Country_SaudiArabia); (686%Z, Country_Senegal); (688%Z, Country_Serbia);
  (690%Z, Country_Seychelles); (694%Z, Country_SierraLeone); (702%Z, Country_Singapore);
  (534%Z, Country_SintMaartenDutchpart); (703%Z, Country_Slovakia); (705%Z, Country_Slovenia);
  (90%Z, Country_SolomonIslands); (706%Z, Country_Somalia); (710%Z, Country_SouthAfrica);
  (239%Z, Country_SouthGeorgiaAndTheSouthSandwichIslands); (728%Z, Country_SouthSudan);
  (724%Z, Country_Spain); (144%Z, Country_SriLanka); (729%Z, Country_Sudan);
  (740%Z, Country_Suriname); (744%Z, Country_SvalbardAndJanMayen); (748%Z, Country_Swaziland);
  (752%Z, Country_Sweden); (756%Z, Country_Switzerland); (760%Z, Country_SyrianArabRepublic);
  (158%Z, Country_TaiwanProvinceOfChina); (762%Z, Country_Tajikistan);
  (834%Z, Country_TanzaniaUnitedRepublic); (764%Z, Country_Thailand);
  (626%Z, Country_TimorLeste); (768%Z, Country_Togo); (772%Z, Country_Tokelau);
  (776%Z, Country_Tonga); (780%Z, Country_TrinidadAndTobago); (788%Z, Country_Tunisia);
  (792%Z, Country_Turkey); (795%Z, Country_Turkmenistan);
  (796%Z, Country_TurksAndCaicosIslands); (798%Z, Country_Tuvalu); (800%Z, Country_Uganda);
  (804%Z, Country_Ukraine); (784%Z, Country_UnitedArabEmirates);
  (826%Z, Country_UnitedKingdomOfGreatBritainAndNorthernIreland);
  (840%Z, Country_UnitedStatesOfAmerica); (581%Z, Country_UnitedStatesMinorOutlyingIslands);
  (858%Z, Country_Uruguay); (860%Z, Country_Uzbekistan); (548%Z, Country_Vanuatu);
  (862%Z, Country_VenezuelaBolivarianRepublic); (704%Z, Country_Vietnam);
  (92%Z, Country_VirginIslandsBritish); (850%Z, Country_VirginIslandsUS);
  (876%Z, Country_WallisAndFutuna); (732%Z, Country_WesternSahara); (887%Z, Country_Yemen);
  (894%Z, Country_Zambia); (716%Z, Country_Zimbabwe)].

(** A [match] on a [u32]: the first arm with the code. *)
Definition from_numeric (code : Z) : result NumericCountryCodeParseError Country :=
  match List.find (λ p, (p.1 =? code)%Z) numeric_codes with
  | Some (_, c) => Ok c
  | None => Err InvalidCountryCode
  end.

(** ** The conversions agree *)

Lemma alpha2_roundtrip c : from_alpha2 (to_alpha2 c) = c.
Proof. by destruct c. Qed.

Lemma alpha2_roundtrip_inv a : to_alpha2 (from_alpha2 a) = a.
Proof. by destruct a. Qed.

Lemma alpha3_roundtrip c : from_alpha3 (to_alpha3 c) = c.
Proof. by destruct c. Qed.

Lemma alpha3_roundtrip_inv a : to_alpha3 (from_alpha3 a) = a.
Proof. by destruct a. Qed.

Lemma numeric_codes_sound : forallb (λ p, (to_numeric p.2 =? p.1)%Z) numeric_codes = true.
Proof. by_evaluation. Qed.

Lemma from_numeric_in code c : from_numeric code = Ok c → In (code, c) numeric_codes.
Proof.
  unfold from_numeric. destruct (List.find _ _) as [[z c']|] eqn:E; [|done].
  intros [= <-]. apply find_some in E as [Hin Heq]. simpl in Heq. bool_facts. by subst.
Qed.

(** [from_numeric] accepts exactly the numeric codes of the countries: it
    inverts [to_numeric], and every code it accepts is the code of the country
    it returns. *)
Lemma numeric_code_exact code c : from_numeric code = Ok c ↔ code = to_numeric c.
Proof.
  split.
  - intros Hin%from_numeric_in. pose proof numeric_codes_sound as Hs.
    rewrite forallb_forall in Hs. specialize (Hs _ Hin). simpl in Hs. by bool_facts.
  - intros ->. by destruct c.
Qed.

(** Country names, alpha-2 codes and alpha-3 codes are in one-to-one
    correspondence: the conversions invert each other both ways, and the
    direct conversion from alpha-2 to alpha-3 is the one through the name;
    [from_numeric] accepts exactly the numeric codes of the countries and
    inverts [to_numeric]. *)
Theorem country_codes_bijective :
  (∀ c, from_alpha2 (to_alpha2 c) = c ∧ from_alpha3 (to_alpha3 c) = c) ∧
  (∀ a, to_alpha2 (from_alpha2 a) = a ∧ from_alpha2_to_alpha3 a = to_alpha3 (from_alpha2 a)) ∧
  (∀ a, to_alpha3 (from_alpha3 a) = a) ∧
  (∀ code c, from_numeric code = Ok c ↔ code = to_numeric c).
Proof.
  split; [intros c; split; [apply alpha2_roundtrip|apply alpha3_roundtrip]|].
  split; [|split; [apply alpha3_roundtrip_inv|apply numeric_code_exact]].
  intros a. split; [apply alpha2_roundtrip_inv|]. by destruct a.
Qed.
