(* ===== verification/Currency.v ===== *)
(** * Currencies

    [Currency] of [crates/common_enums/src/enums.rs]: the ISO 4217 numeric
    codes and the number of decimal places of each currency, arm by arm. *)

From S2P Require Import Prelude.

Inductive Currency : Set :=
  | Currency_AED | Currency_AFN | Currency_ALL | Currency_AMD | Currency_ANG | Currency_AOA
  | Currency_ARS | Currency_AUD | Currency_AWG | Currency_AZN | Currency_BAM | Currency_BBD
  | Currency_BDT | Currency_BGN | Currency_BHD | Currency_BIF | Currency_BMD | Currency_BND
  | Currency_BOB | Currency_BRL | Currency_BSD | Currency_BTN | Currency_BWP | Currency_BYN
  | Currency_BZD | Currency_CAD | Currency_CDF | Currency_CHF | Currency_CLF | Currency_CLP
  | Currency_CNY | Currency_COP | Currency_CRC | Currency_CUC | Currency_CUP | Currency_CVE
  | Currency_CZK | Currency_DJF | Currency_DKK | Currency_DOP | Currency_DZD | Currency_EGP
  | Currency_ERN | Currency_ETB | Currency_EUR | Currency_FJD | Currency_FKP | Currency_GBP
  | Currency_GEL | Currency_GHS | Currency_GIP | Currency_GMD | Currency_GNF | Currency_GTQ
  | Currency_GYD | Currency_HKD | Currency_HNL | Currency_HRK | Currency_HTG | Currency_HUF
  | Currency_IDR | Currency_ILS | Currency_INR | Currency_IQD | Currency_IRR | Currency_ISK
  | Currency_JMD | Currency_JOD | Currency_JPY | Currency_KES | Currency_KGS | Currency_KHR
  | Currency_KMF | Currency_KPW | Currency_KRW | Currency_KWD | Currency_KYD | Currency_KZT
  | Currency_LAK | Currency_LBP | Currency_LKR | Currency_LRD | Currency_LSL | Currency_LYD
  | Currency_MAD | Currency_MDL | Currency_MGA | Currency_MKD | Currency_MMK | Currency_MNT
  | Currency_MOP | Currency_MRU | Currency_MUR | Currency_MVR | Currency_MWK | Currency_MXN
  | Currency_MYR | Currency_MZN | Currency_NAD | Currency_NGN | Currency_NIO | Currency_NOK
  | Currency_NPR | Currency_NZD | Currency_OMR | Currency_PAB | Currency_PEN | Currency_PGK
  | Currency_PHP | Currency_PKR | Currency_PLN | Currency_PYG | Currency_QAR | Currency_RON
  | Currency_RSD | Currency_RUB | Currency_RWF | Currency_SAR | Currency_SBD | Currency_SCR
  | Currency_SDG | Currency_SEK | Currency_SGD | Currency_SHP | Currency_SLE | Currency_SLL
  | Currency_SOS | Currency_SRD | Currency_SSP | Currency_STD | Currency_STN | Currency_SVC
  | Currency_SYP | Currency_SZL | Currency_THB | Currency_TJS | Currency_TMT | Currency_TND
  | Currency_TOP | Currency_TRY | Currency_TTD | Currency_TWD | Currency_TZS | Currency_UAH
  | Currency_UGX | Currency_USD | Currency_UYU | Currency_UZS | Currency_VES | Currency_VND
  | Currency_VUV | Currency_WST | Currency_XAF | Currency_XCD | Currency_XOF | Currency_XPF
  | Currency_YER | Currency_ZAR | Currency_ZMW | Currency_ZWL.

#[export] Program Instance Currency_enumerated : Enumerated Currency := {|
  variants := [
    Currency_AED; Currency_AFN; Currency_ALL; Currency_AMD; Currency_ANG; Currency_AOA;
    Currency_ARS; Currency_AUD; Currency_AWG; Currency_AZN; Currency_BAM; Currency_BBD;
    Currency_BDT; Currency_BGN; Currency_BHD; Currency_BIF; Currency_BMD; Currency_BND;
    Currency_BOB; Currency_BRL; Currency_BSD; Currency_BTN; Currency_BWP; Currency_BYN;
    Currency_BZD; Currency_CAD; Currency_CDF; Currency_CHF; Currency_CLF; Currency_CLP;
    Currency_CNY; Currency_COP; Currency_CRC; Currency_CUC; Currency_CUP; Currency_CVE;
    Currency_CZK; Currency_DJF; Currency_DKK; Currency_DOP; Currency_DZD; Currency_EGP;
    Currency_ERN; Currency_ETB; Currency_EUR; Currency_FJD; Currency_FKP; Currency_GBP;
    Currency_GEL; Currency_GHS; Currency_GIP; Currency_GMD; Currency_GNF; Currency_GTQ;
    Currency_GYD; Currency_HKD; Currency_HNL; Currency_HRK; Currency_HTG; Currency_HUF;
    Currency_IDR; Currency_ILS; Currency_INR; Currency_IQD; Currency_IRR; Currency_ISK;
    Currency_JMD; Currency_JOD; Currency_JPY; Currency_KES; Currency_KGS; Currency_KHR;
    Currency_KMF; Currency_KPW; Currency_KRW; Currency_KWD; Currency_KYD; Currency_KZT;
    Currency_LAK; Currency_LBP; Currency_LKR; Currency_LRD; Currency_LSL; Currency_LYD;
    Currency_MAD; Currency_MDL; Currency_MGA; Currency_MKD; Currency_MMK; Currency_MNT;
    Currency_MOP; Currency_MRU; Currency_MUR; Currency_MVR; Currency_MWK; Currency_MXN;
    Currency_MYR; Currency_MZN; Currency_NAD; Currency_NGN; Currency_NIO; Currency_NOK;
    Currency_NPR; Currency_NZD; Currency_OMR; Currency_PAB; Currency_PEN; Currency_PGK;
    Currency_PHP; Currency_PKR; Currency_PLN; Currency_PYG; Currency_QAR; Currency_RON;
    Currency_RSD; Currency_RUB; Currency_RWF; Currency_SAR; Currency_SBD; Currency_SCR;
    Currency_SDG; Currency_SEK; Currency_SGD; Currency_SHP; Currency_SLE; Currency_SLL;
    Currency_SOS; Currency_SRD; Currency_SSP; Currency_STD; Currency_STN; Currency_SVC;
    Currency_SYP; Currency_SZL; Currency_THB; Currency_TJS; Currency_TMT; Currency_TND;
    Currency_TOP; Currency_TRY; Currency_TTD; Currency_TWD; Currency_TZS; Currency_UAH;
    Currency_UGX; Currency_USD; Currency_UYU; Currency_UZS; Currency_VES; Currency_VND;
    Currency_VUV; Currency_WST; Currency_XAF; Currency_XCD; Currency_XOF; Currency_XPF;
    Currency_YER; Currency_ZAR; Currency_ZMW; Currency_ZWL];
  discriminant x := match x with
    | Currency_AED => 0 | Currency_AFN => 1 | Currency_ALL => 2 | Currency_AMD => 3
    | Currency_ANG => 4 | Currency_AOA => 5 | Currency_ARS => 6 | Currency_AUD => 7
    | Currency_AWG => 8 | Currency_AZN => 9 | Currency_BAM => 10 | Currency_BBD => 11
    | Currency_BDT => 12 | Currency_BGN => 13 | Currency_BHD => 14 | Currency_BIF => 15
    | Currency_BMD => 16 | Currency_BND => 17 | Currency_BOB => 18 | Currency_BRL => 19
    | Currency_BSD => 20 | Currency_BTN => 21 | Currency_BWP => 22 | Currency_BYN => 23
    | Currency_BZD => 24 | Currency_CAD => 25 | Currency_CDF => 26 | Currency_CHF => 27
    | Currency_CLF => 28 | Currency_CLP => 29 | Currency_CNY => 30 | Currency_COP => 31
    | Currency_CRC => 32 | Currency_CUC => 33 | Currency_CUP => 34 | Currency_CVE => 35
    | Currency_CZK => 36 | Currency_DJF => 37 | Currency_DKK => 38 | Currency_DOP => 39
    | Currency_DZD => 40 | Currency_EGP => 41 | Currency_ERN => 42 | Currency_ETB => 43
    | Currency_EUR => 44 | Currency_FJD => 45 | Currency_FKP => 46 | Currency_GBP => 47
    | Currency_GEL => 48 | Currency_GHS => 49 | Currency_GIP => 50 | Currency_GMD => 51
    | Currency_GNF => 52 | Currency_GTQ => 53 | Currency_GYD => 54 | Currency_HKD => 55
    | Currency_HNL => 56 | Currency_HRK => 57 | Currency_HTG => 58 | Currency_HUF => 59
    | Currency_IDR => 60 | Currency_ILS => 61 | Currency_INR => 62 | Currency_IQD => 63
    | Currency_IRR => 64 | Currency_ISK => 65 | Currency_JMD => 66 | Currency_JOD => 67
    | Currency_JPY => 68 | Currency_KES => 69 | Currency_KGS => 70 | Currency_KHR => 71
    | Currency_KMF => 72 | Currency_KPW => 73 | Currency_KRW => 74 | Currency_KWD => 75
    | Currency_KYD => 76 | Currency_KZT => 77 | Currency_LAK => 78 | Currency_LBP => 79
    | Currency_LKR => 80 | Currency_LRD => 81 | Currency_LSL => 82 | Currency_LYD => 83
    | Currency_MAD => 84 | Currency_MDL => 85 | Currency_MGA => 86 | Currency_MKD => 87
    | Currency_MMK => 88 | Currency_MNT => 89 | Currency_MOP => 90 | Currency_MRU => 91
    | Currency_MUR => 92 | Currency_MVR => 93 | Currency_MWK => 94 | Currency_MXN => 95
    | Currency_MYR => 96 | Currency_MZN => 97 | Currency_NAD => 98 | Currency_NGN => 99
    | Currency_NIO => 100 | Currency_NOK => 101 | Currency_NPR => 102 | Currency_NZD => 103
    | Currency_OMR => 104 | Currency_PAB => 105 | Currency_PEN => 106 | Currency_PGK => 107
    | Currency_PHP => 108 | Currency_PKR => 109 | Currency_PLN => 110 | Currency_PYG => 111
    | Currency_QAR => 112 | Currency_RON => 113 | Currency_RSD => 114 | Currency_RUB => 115
    | Currency_RWF => 116 | Currency_SAR => 117 | Currency_SBD => 118 | Currency_SCR => 119
    | Currency_SDG => 120 | Currency_SEK => 121 | Currency_SGD => 122 | Currency_SHP => 123
    | Currency_SLE => 124 | Currency_SLL => 125 | Currency_SOS => 126 | Currency_SRD => 127
    | Currency_SSP => 128 | Currency_STD => 129 | Currency_STN => 130 | Currency_SVC => 131
    | Currency_SYP => 132 | Currency_SZL => 133 | Currency_THB => 134 | Currency_TJS => 135
    | Currency_TMT => 136 | Currency_TND => 137 | Currency_TOP => 138 | Currency_TRY => 139
    | Currency_TTD => 140 | Currency_TWD => 141 | Currency_TZS => 142 | Currency_UAH => 143
    | Currency_UGX => 144 | Currency_USD => 145 | Currency_UYU => 146 | Currency_UZS => 147
    | Currency_VES => 148 | Currency_VND => 149 | Currency_VUV => 150 | Currency_WST => 151
    | Currency_XAF => 152 | Currency_XCD => 153 | Currency_XOF => 154 | Currency_XPF => 155
    | Currency_YER => 156 | Currency_ZAR => 157 | Currency_ZMW => 158 | Currency_ZWL => 159
    end;
|}.
Next Obligation. by intros []. Qed.

#[export] Instance Currency_strum : EnumString Currency := one_name (λ x, match x with
    | Currency_AED => "AED" | Currency_AFN => "AFN" | Currency_ALL => "ALL"
    | Currency_AMD => "AMD" | Currency_ANG => "ANG" | Currency_AOA => "AOA"
    | Currency_ARS => "ARS" | Currency_AUD => "AUD" | Currency_AWG => "AWG"
    | Currency_AZN => "AZN" | Currency_BAM => "BAM" | Currency_BBD => "BBD"
    | Currency_BDT => "BDT" | Currency_BGN => "BGN" | Currency_BHD => "BHD"
    | Currency_BIF => "BIF" | Currency_BMD => "BMD" | Currency_BND => "BND"
    | Currency_BOB => "BOB" | Currency_BRL => "BRL" | Currency_BSD => "BSD"
    | Currency_BTN => "BTN" | Currency_BWP => "BWP" | Currency_BYN => "BYN"
    | Currency_BZD => "BZD" | Currency_CAD => "CAD" | Currency_CDF => "CDF"
    | Currency_CHF => "CHF" | Currency_CLF => "CLF" | Currency_CLP => "CLP"
    | Currency_CNY => "CNY" | Currency_COP => "COP" | Currency_CRC => "CRC"
    | Currency_CUC => "CUC" | Currency_CUP => "CUP" | Currency_CVE => "CVE"
    | Currency_CZK => "CZK" | Currency_DJF => "DJF" | Currency_DKK => "DKK"
    | Currency_DOP => "DOP" | Currency_DZD => "DZD" | Currency_EGP => "EGP"
    | Currency_ERN => "ERN" | Currency_ETB => "ETB" | Currency_EUR => "EUR"
    | Currency_FJD => "FJD" | Currency_FKP => "FKP" | Currency_GBP => "GBP"
    | Currency_GEL => "GEL" | Currency_GHS => "GHS" | Currency_GIP => "GIP"
    | Currency_GMD => "GMD" | Currency_GNF => "GNF" | Currency_GTQ => "GTQ"
    | Currency_GYD => "GYD" | Currency_HKD => "HKD" | Currency_HNL => "HNL"
    | Currency_HRK => "HRK" | Currency_HTG => "HTG" | Currency_HUF => "HUF"
    | Currency_IDR => "IDR" | Currency_ILS => "ILS" | Currency_INR => "INR"
    | Currency_IQD => "IQD" | Currency_IRR => "IRR" | Currency_ISK => "ISK"
    | Currency_JMD => "JMD" | Currency_JOD => "JOD" | Currency_JPY => "JPY"
    | Currency_KES => "KES" | Currency_KGS => "KGS" | Currency_KHR => "KHR"
    | Currency_KMF => "KMF" | Currency_KPW => "KPW" | Currency_KRW => "KRW"
    | Currency_KWD => "KWD" | Currency_KYD => "KYD" | Currency_KZT => "KZT"
    | Currency_LAK => "LAK" | Currency_LBP => "LBP" | Currency_LKR => "LKR"
    | Currency_LRD => "LRD" | Currency_LSL => "LSL" | Currency_LYD => "LYD"
    | Currency_MAD => "MAD" | Currency_MDL => "MDL" | Currency_MGA => "MGA"
    | Currency_MKD => "MKD" | Currency_MMK => "MMK" | Currency_MNT => "MNT"
    | Currency_MOP => "MOP" | Currency_MRU => "MRU" | Currency_MUR => "MUR"
    | Currency_MVR => "MVR" | Currency_MWK => "MWK" | Currency_MXN => "MXN"
    | Currency_MYR => "MYR" | Currency_MZN => "MZN" | Currency_NAD => "NAD"
    | Currency_NGN => "NGN" | Currency_NIO => "NIO" | Currency_NOK => "NOK"
    | Currency_NPR => "NPR" | Currency_NZD => "NZD" | Currency_OMR => "OMR"
    | Currency_PAB => "PAB" | Currency_PEN => "PEN" | Currency_PGK => "PGK"
    | Currency_PHP => "PHP" | Currency_PKR => "PKR" | Currency_PLN => "PLN"
    | Currency_PYG => "PYG" | Currency_QAR => "QAR" | Currency_RON => "RON"
    | Currency_RSD => "RSD" | Currency_RUB => "RUB" | Currency_RWF => "RWF"
    | Currency_SAR => "SAR" | Currency_SBD => "SBD" | Currency_SCR => "SCR"
    | Currency_SDG => "SDG" | Currency_SEK => "SEK" | Currency_SGD => "SGD"
    | Currency_SHP => "SHP" | Currency_SLE => "SLE" | Currency_SLL => "SLL"
    | Currency_SOS => "SOS" | Currency_SRD => "SRD" | Currency_SSP => "SSP"
    | Currency_STD => "STD" | Currency_STN => "STN" | Currency_SVC => "SVC"
    | Currency_SYP => "SYP" | Currency_SZL => "SZL" | Currency_THB => "THB"
    | Currency_TJS => "TJS" | Currency_TMT => "TMT" | Currency_TND => "TND"
    | Currency_TOP => "TOP" | Currency_TRY => "TRY" | Currency_TTD => "TTD"
    | Currency_TWD => "TWD" | Currency_TZS => "TZS" | Currency_UAH => "UAH"
    | Currency_UGX => "UGX" | Currency_USD => "USD" | Currency_UYU => "UYU"
    | Currency_UZS => "UZS" | Currency_VES => "VES" | Currency_VND => "VND"
    | Currency_VUV => "VUV" | Currency_WST => "WST" | Currency_XAF => "XAF"
    | Currency_XCD => "XCD" | Currency_XOF => "XOF" | Currency_XPF => "XPF"
    | Currency_YER => "YER" | Currency_ZAR => "ZAR" | Currency_ZMW => "ZMW"
    | Currency_ZWL => "ZWL"
    end).

Definition iso_4217 (x : Currency) : string :=
  match x with
  | Currency_AED => "784" | Currency_AFN => "971" | Currency_ALL => "008"
  | Currency_AMD => "051" | Currency_ANG => "532" | Currency_AOA => "973"
  | Currency_ARS => "032" | Currency_AUD => "036" | Currency_AWG => "533"
  | Currency_AZN => "944" | Currency_BAM => "977" | Currency_BBD => "052"
  | Currency_BDT => "050" | Currency_BGN => "975" | Currency_BHD => "048"
  | Currency_BIF => "108" | Currency_BMD => "060" | Currency_BND => "096"
  | Currency_BOB => "068" | Currency_BRL => "986" | Currency_BSD => "044"
  | Currency_BTN => "064" | Currency_BWP => "072" | Currency_BYN => "933"
  | Currency_BZD => "084" | Currency_CAD => "124" | Currency_CDF => "976"
  | Currency_CHF => "756" | Currency_CLF => "990" | Currency_CLP => "152"
  | Currency_COP => "170" | Currency_CRC => "188" | Currency_CUC => "931"
  | Currency_CUP => "192" | Currency_CVE => "132" | Currency_CZK => "203"
  | Currency_DJF => "262" | Currency_DKK => "208" | Currency_DOP => "214"
  | Currency_DZD => "012" | Currency_EGP => "818" | Currency_ERN => "232"
  | Currency_ETB => "230" | Currency_EUR => "978" | Currency_FJD => "242"
  | Currency_FKP => "238" | Currency_GBP => "826" | Currency_GEL => "981"
  | Currency_GHS => "936" | Currency_GIP => "292" | Currency_GMD => "270"
  | Currency_GNF => "324" | Currency_GTQ => "320" | Currency_GYD => "328"
  | Currency_HKD => "344" | Currency_HNL => "340" | Currency_HTG => "332"
  | Currency_HUF => "348" | Currency_HRK => "191" | Currency_IDR => "360"
  | Currency_ILS => "376" | Currency_INR => "356" | Currency_IQD => "368"
  | Currency_IRR => "364" | Currency_ISK => "352" | Currency_JMD => "388"
  | Currency_JOD => "400" | Currency_JPY => "392" | Currency_KES => "404"
  | Currency_KGS => "417" | Currency_KHR => "116" | Currency_KMF => "174"
  | Currency_KPW => "408" | Currency_KRW => "410" | Currency_KWD => "414"
  | Currency_KYD => "136" | Currency_KZT => "398" | Currency_LAK => "418"
  | Currency_LBP => "422" | Currency_LKR => "144" | Currency_LRD => "430"
  | Currency_LSL => "426" | Currency_LYD => "434" | Currency_MAD => "504"
  | Currency_MDL => "498" | Currency_MGA => "969" | Currency_MKD => "807"
  | Currency_MMK => "104" | Currency_MNT => "496" | Currency_MOP => "446"
  | Currency_MRU => "929" | Currency_MUR => "480" | Currency_MVR => "462"
  | Currency_MWK => "454" | Currency_MXN => "484" | Currency_MYR => "458"
  | Currency_MZN => "943" | Currency_NAD => "516" | Currency_NGN => "566"
  | Currency_NIO => "558" | Currency_NOK => "578" | Currency_NPR => "524"
  | Currency_NZD => "554" | Currency_OMR => "512" | Currency_PAB => "590"
  | Currency_PEN => "604" | Currency_PGK => "598" | Currency_PHP => "608"
  | Currency_PKR => "586" | Currency_PLN => "985" | Currency_PYG => "600"
  | Currency_QAR => "634" | Currency_RON => "946" | Currency_CNY => "156"
  | Currency_RSD => "941" | Currency_RUB => "643" | Currency_RWF => "646"
  | Currency_SAR => "682" | Currency_SBD => "090" | Currency_SCR => "690"
  | Currency_SDG => "938" | Currency_SEK => "752" | Currency_SGD => "702"
  | Currency_SHP => "654" | Currency_SLE => "925" | Currency_SLL => "694"
  | Currency_SOS => "706" | Currency_SRD => "968" | Currency_SSP => "728"
  | Currency_STD => "678" | Currency_STN => "930" | Currency_SVC => "222"
  | Currency_SYP => "760" | Currency_SZL => "748" | Currency_THB => "764"
  | Currency_TJS => "972" | Currency_TMT => "934" | Currency_TND => "788"
  | Currency_TOP => "776" | Currency_TRY => "949" | Currency_TTD => "780"
  | Currency_TWD => "901" | Currency_TZS => "834" | Currency_UAH => "980"
  | Currency_UGX => "800" | Currency_USD => "840" | Currency_UYU => "858"
  | Currency_UZS => "860" | Currency_VES => "928" | Currency_VND => "704"
  | Currency_VUV => "548" | Currency_WST => "882" | Currency_XAF => "950"
  | Currency_XCD => "951" | Currency_XOF => "952" | Currency_XPF => "953"
  | Currency_YER => "886" | Currency_ZAR => "710" | Currency_ZMW => "967"
  | Currency_ZWL => "932"
  end.

Definition is_zero_decimal_currency (x : Currency) : bool :=
  match x with
  | Currency_BIF | Currency_CLP | Currency_DJF | Currency_GNF | Currency_IRR | Currency_JPY
  | Currency_KMF | Currency_KRW | Currency_MGA | Currency_PYG | Currency_RWF | Currency_UGX
  | Currency_VND | Currency_VUV | Currency_XAF | Currency_XOF | Currency_XPF => true
  | Currency_AED | Currency_AFN | Currency_ALL | Currency_AMD | Currency_ANG | Currency_AOA
  | Currency_ARS | Currency_AUD | Currency_AWG | Currency_AZN | Currency_BAM | Currency_BBD
  | Currency_BDT | Currency_BGN | Currency_BHD | Currency_BMD | Currency_BND | Currency_BOB
  | Currency_BRL | Currency_BSD | Currency_BTN | Currency_BWP | Currency_BYN | Currency_BZD
  | Currency_CAD | Currency_CDF | Currency_CHF | Currency_CLF | Currency_CNY | Currency_COP
  | Currency_CRC | Currency_CUC | Currency_CUP | Currency_CVE | Currency_CZK | Currency_DKK
  | Currency_DOP | Currency_DZD | Currency_EGP | Currency_ERN | Currency_ETB | Currency_EUR
  | Currency_FJD | Currency_FKP | Currency_GBP | Currency_GEL | Currency_GHS | Currency_GIP
  | Currency_GMD | Currency_GTQ | Currency_GYD | Currency_HKD | Currency_HNL | Currency_HRK
  | Currency_HTG | Currency_HUF | Currency_IDR | Currency_ILS | Currency_INR | Currency_IQD
  | Currency_ISK | Currency_JMD | Currency_JOD | Currency_KES | Currency_KGS | Currency_KHR
  | Currency_KPW | Currency_KWD | Currency_KYD | Currency_KZT | Currency_LAK | Currency_LBP
  | Currency_LKR | Currency_LRD | Currency_LSL | Currency_LYD | Currency_MAD | Currency_MDL
  | Currency_MKD | Currency_MMK | Currency_MNT | Currency_MOP | Currency_MRU | Currency_MUR
  | Currency_MVR | Currency_MWK | Currency_MXN | Currency_MYR | Currency_MZN | Currency_NAD
  | Currency_NGN | Currency_NIO | Currency_NOK | Currency_NPR | Currency_NZD | Currency_OMR
  | Currency_PAB | Currency_PEN | Currency_PGK | Currency_PHP | Currency_PKR | Currency_PLN
  | Currency_QAR | Currency_RON | Currency_RSD | Currency_RUB | Currency_SAR | Currency_SBD
  | Currency_SCR | Currency_SDG | Currency_SEK | Currency_SGD | Currency_SHP | Currency_SLE
  | Currency_SLL | Currency_SOS | Currency_SRD | Currency_SSP | Currency_STD | Currency_STN
  | Currency_SVC | Currency_SYP | Currency_SZL | Currency_THB | Currency_TJS | Currency_TMT
  | Currency_TND | Currency_TOP | Currency_TRY | Currency_TTD | Currency_TWD | Currency_TZS
  | Currency_UAH | Currency_USD | Currency_UYU | Currency_UZS | Currency_VES | Currency_WST
  | Currency_XCD | Currency_YER | Currency_ZAR | Currency_ZMW | Currency_ZWL => false
  end.

Definition is_three_decimal_currency (x : Currency) : bool :=
  match x with
  | Currency_BHD | Currency_IQD | Currency_JOD | Currency_KWD | Currency_LYD | Currency_OMR
  | Currency_TND => true
  | Currency_AED | Currency_AFN | Currency_ALL | Currency_AMD | Currency_AOA | Currency_ANG
  | Currency_ARS | Currency_AUD | Currency_AWG | Currency_AZN | Currency_BAM | Currency_BBD
  | Currency_BDT | Currency_BGN | Currency_BIF | Currency_BMD | Currency_BND | Currency_BOB
  | Currency_BRL | Currency_BSD | Currency_BTN | Currency_BWP | Currency_BYN | Currency_BZD
  | Currency_CAD | Currency_CDF | Currency_CHF | Currency_CLF | Currency_CLP | Currency_CNY
  | Currency_COP | Currency_CRC | Currency_CUC | Currency_CUP | Currency_CVE | Currency_CZK
  | Currency_DJF | Currency_DKK | Currency_DOP | Currency_DZD | Currency_EGP | Currency_ERN
  | Currency_ETB | Currency_EUR | Currency_FJD | Currency_FKP | Currency_GBP | Currency_GEL
  | Currency_GHS | Currency_GIP | Currency_GMD | Currency_GNF | Currency_GTQ | Currency_GYD
  | Currency_HKD | Currency_HNL | Currency_HRK | Currency_HTG | Currency_HUF | Currency_IDR
  | Currency_ILS | Currency_INR | Currency_IRR | Currency_ISK | Currency_JMD | Currency_JPY
  | Currency_KES | Currency_KGS | Currency_KHR | Currency_KMF | Currency_KPW | Currency_KRW
  | Currency_KYD | Currency_KZT | Currency_LAK | Currency_LBP | Currency_LKR | Currency_LRD
  | Currency_LSL | Currency_MAD | Currency_MDL | Currency_MGA | Currency_MKD | Currency_MMK
  | Currency_MNT | Currency_MOP | Currency_MRU | Currency_MUR | Currency_MVR | Currency_MWK
  | Currency_MXN | Currency_MYR | Currency_MZN | Currency_NAD | Currency_NGN | Currency_NIO
  | Currency_NOK | Currency_NPR | Currency_NZD | Currency_PAB | Currency_PEN | Currency_PGK
  | Currency_PHP | Currency_PKR | Currency_PLN | Currency_PYG | Currency_QAR | Currency_RON
  | Currency_RSD | Currency_RUB | Currency_RWF | Currency_SAR | Currency_SBD | Currency_SCR
  | Currency_SDG | Currency_SEK | Currency_SGD | Currency_SHP | Currency_SLE | Currency_SLL
  | Currency_SOS | Currency_SRD | Currency_SSP | Currency_STD | Currency_STN | Currency_SVC
  | Currency_SYP | Currency_SZL | Currency_THB | Currency_TJS | Currency_TMT | Currency_TOP
  | Currency_TRY | Currency_TTD | Currency_TWD | Currency_TZS | Currency_UAH | Currency_UGX
  | Currency_USD | Currency_UYU | Currency_UZS | Currency_VES | Currency_VND | Currency_VUV
  | Currency_WST | Currency_XAF | Currency_XCD | Currency_XPF | Currency_XOF | Currency_YER
  | Currency_ZAR | Currency_ZMW | Currency_ZWL => false
  end.

Definition is_four_decimal_currency (x : Currency) : bool :=
  match x with
  | Currency_CLF => true
  | Currency_AED | Currency_AFN | Currency_ALL | Currency_AMD | Currency_AOA | Currency_ANG
  | Currency_ARS | Currency_AUD | Currency_AWG | Currency_AZN | Currency_BAM | Currency_BBD
  | Currency_BDT | Currency_BGN | Currency_BHD | Currency_BIF | Currency_BMD | Currency_BND
  | Currency_BOB | Currency_BRL | Currency_BSD | Currency_BTN | Currency_BWP | Currency_BYN
  | Currency_BZD | Currency_CAD | Currency_CDF | Currency_CHF | Currency_CLP | Currency_CNY
  | Currency_COP | Currency_CRC | Currency_CUC | Currency_CUP | Currency_CVE | Currency_CZK
  | Currency_DJF | Currency_DKK | Currency_DOP | Currency_DZD | Currency_EGP | Currency_ERN
  | Currency_ETB | Currency_EUR | Currency_FJD | Currency_FKP | Currency_GBP | Currency_GEL
  | Currency_GHS | Currency_GIP | Currency_GMD | Currency_GNF | Currency_GTQ | Currency_GYD
  | Currency_HKD | Currency_HNL | Currency_HRK | Currency_HTG | Currency_HUF | Currency_IDR
  | Currency_ILS | Currency_INR | Currency_IQD | Currency_IRR | Currency_ISK | Currency_JMD
  | Currency_JOD | Currency_JPY | Currency_KES | Currency_KGS | Currency_KHR | Currency_KMF
  | Currency_KPW | Currency_KRW | Currency_KWD | Currency_KYD | Currency_KZT | Currency_LAK
  | Currency_LBP | Currency_LKR | Currency_LRD | Currency_LSL | Currency_LYD | Currency_MAD
  | Currency_MDL | Currency_MGA | Currency_MKD | Currency_MMK | Currency_MNT | Currency_MOP
  | Currency_MRU | Currency_MUR | Currency_MVR | Currency_MWK | Currency_MXN | Currency_MYR
  | Currency_MZN | Currency_NAD | Currency_NGN | Currency_NIO | Currency_NOK | Currency_NPR
  | Currency_NZD | Currency_OMR | Currency_PAB | Currency_PEN | Currency_PGK | Currency_PHP
  | Currency_PKR | Currency_PLN | Currency_PYG | Currency_QAR | Currency_RON | Currency_RSD
  | Currency_RUB | Currency_RWF | Currency_SAR | Currency_SBD | Currency_SCR | Currency_SDG
  | Currency_SEK | Currency_SGD | Currency_SHP | Currency_SLE | Currency_SLL | Currency_SOS
  | Currency_SRD | Currency_SSP | Currency_STD | Currency_STN | Currency_SVC | Currency_SYP
  | Currency_SZL | Currency_THB | Currency_TJS | Currency_TMT | Currency_TND | Currency_TOP
  | Currency_TRY | Currency_TTD | Currency_TWD | Currency_TZS | Currency_UAH | Currency_UGX
  | Currency_USD | Currency_UYU | Currency_UZS | Currency_VES | Currency_VND | Currency_VUV
  | Currency_WST | Currency_XAF | Currency_XCD | Currency_XPF | Currency_XOF | Currency_YER
  | Currency_ZAR | Currency_ZMW | Currency_ZWL => false
  end.

Definition number_of_digits_after_decimal_point (self : Currency) : Z :=
  if is_zero_decimal_currency self then 0
  else if is_three_decimal_currency self then 3
  else if is_four_decimal_currency self then 4
  else 2.

(** ** Facts *)

#[export] Instance Currency_laws : EnumStringLaws Currency.
Proof. apply enum_string_laws_check. by_evaluation. Qed.

(** At most one of the three classes. *)
Definition decimal_classes_disjoint (c : Currency) : bool :=
  negb (is_zero_decimal_currency c && is_three_decimal_currency c) &&
  negb (is_zero_decimal_currency c && is_four_decimal_currency c) &&
  negb (is_three_decimal_currency c && is_four_decimal_currency c).

Lemma decimal_classes_check : forallb decimal_classes_disjoint (variants Currency) = true.
Proof. by_evaluation. Qed.

(** Three decimal digits. *)
Definition is_digit (a : Ascii.ascii) : bool :=
  let n := Ascii.nat_of_ascii a in (48 <=? n) && (n <=? 57).

Definition three_digits (s : string) : bool :=
  match s with
  | String.String a (String.String b (String.String c String.EmptyString)) =>
      is_digit a && is_digit b && is_digit c
  | _ => false
  end.

Lemma iso_4217_nodup : bool_decide (NoDup (map iso_4217 (variants Currency))) = true.
Proof. by_evaluation. Qed.

(** The numeric ISO 4217 code of a currency is three decimal digits and
    identifies the currency. *)
Lemma iso_4217_identifies :
  (∀ c, three_digits (iso_4217 c) = true) ∧ (∀ c d, iso_4217 c = iso_4217 d → c = d).
Proof.
  split; [apply enumerated_forall; by_evaluation|]. intros c d Heq.
  pose proof iso_4217_nodup as Hnd%bool_decide_eq_true.
  apply discriminant_inj. apply (NoDup_lookup _ _ _ (iso_4217 c) Hnd).
  - rewrite list_lookup_fmap, variants_discriminant. done.
  - rewrite list_lookup_fmap, variants_discriminant. simpl. by f_equal.
Qed.

(** The decimal classes of a currency exclude each other, and the number of
    digits after the decimal point is 0, 3 or 4 exactly in the zero-, three-
    and four-decimal class and 2 otherwise. *)
Lemma number_of_digits_by_class c :
  decimal_classes_disjoint c = true ∧
  (number_of_digits_after_decimal_point c = 0%Z ↔ is_zero_decimal_currency c = true) ∧
  (number_of_digits_after_decimal_point c = 3%Z ↔ is_three_decimal_currency c = true) ∧
  (number_of_digits_after_decimal_point c = 4%Z ↔ is_four_decimal_currency c = true) ∧
  (number_of_digits_after_decimal_point c ∈ [0; 2; 3; 4]%Z).
Proof.
  pose proof (enumerated_forall _ decimal_classes_check c) as Hd. split; [done|].
  unfold decimal_classes_disjoint in Hd. unfold number_of_digits_after_decimal_point.
  destruct (is_zero_decimal_currency c), (is_three_decimal_currency c), (is_four_decimal_currency c);
    simpl in Hd; try done; repeat split; try done; set_solver.
Qed.

(** The tables of the currencies are consistent: the ISO 4217 code is three
    digits and identifies the currency, and the digits after the decimal point
    are 0, 3 or 4 exactly in the zero-, three- and four-decimal class, which
    exclude each other, and 2 otherwise. *)
Theorem currency_tables_consistent :
  (∀ c, three_digits (iso_4217 c) = true) ∧ (∀ c d, iso_4217 c = iso_4217 d → c = d) ∧
  (∀ c, decimal_classes_disjoint c = true ∧
     (number_of_digits_after_decimal_point c = 0%Z ↔ is_zero_decimal_currency c = true) ∧
     (number_of_digits_after_decimal_point c = 3%Z ↔ is_three_decimal_currency c = true) ∧
     (number_of_digits_after_decimal_point c = 4%Z ↔ is_four_decimal_currency c = true) ∧
     number_of_digits_after_decimal_point c ∈ [0; 2; 3; 4]%Z).
Proof.
  split; [apply iso_4217_identifies|]. split; [apply iso_4217_identifies|apply number_of_digits_by_class].
Qed.
