(* ===== verification/PaymentEnums.v ===== *)
(** * Enumerations of a payment

    The enums of [crates/common_enums/src/enums.rs] that the routing engine
    compares: payment methods and their types, card networks, authentication
    and capture modes; and the conversion of a payment method type to its
    payment method ([crates/common_enums/src/transformers.rs]). *)

From S2P Require Import Prelude.

Inductive PaymentMethod : Set :=
  | PaymentMethod_Card | PaymentMethod_CardRedirect | PaymentMethod_PayLater
  | PaymentMethod_Wallet | PaymentMethod_BankRedirect | PaymentMethod_BankTransfer
  | PaymentMethod_Crypto | PaymentMethod_BankDebit | PaymentMethod_Reward
  | PaymentMethod_RealTimePayment | PaymentMethod_Upi | PaymentMethod_Voucher
  | PaymentMethod_GiftCard | PaymentMethod_OpenBanking | PaymentMethod_MobilePayment
  | PaymentMethod_NetworkToken.

#[export] Program Instance PaymentMethod_enumerated : Enumerated PaymentMethod := {|
  variants := [
    PaymentMethod_Card; PaymentMethod_CardRedirect; PaymentMethod_PayLater;
    PaymentMethod_Wallet; PaymentMethod_BankRedirect; PaymentMethod_BankTransfer;
    PaymentMethod_Crypto; PaymentMethod_BankDebit; PaymentMethod_Reward;
    PaymentMethod_RealTimePayment; PaymentMethod_Upi; PaymentMethod_Voucher;
    PaymentMethod_GiftCard; PaymentMethod_OpenBanking; PaymentMethod_MobilePayment;
    PaymentMethod_NetworkToken];
  discriminant x := match x with
    | PaymentMethod_Card => 0 | PaymentMethod_CardRedirect => 1 | PaymentMethod_PayLater => 2
    | PaymentMethod_Wallet => 3 | PaymentMethod_BankRedirect => 4
    | PaymentMethod_BankTransfer => 5 | PaymentMethod_Crypto => 6
    | PaymentMethod_BankDebit => 7 | PaymentMethod_Reward => 8
    | PaymentMethod_RealTimePayment => 9 | PaymentMethod_Upi => 10
    | PaymentMethod_Voucher => 11 | PaymentMethod_GiftCard => 12
    | PaymentMethod_OpenBanking => 13 | PaymentMethod_MobilePayment => 14
    | PaymentMethod_NetworkToken => 15
    end;
|}.
Next Obligation. by intros []. Qed.

#[export] Instance PaymentMethod_strum : EnumString PaymentMethod := one_name (λ x, match x with
    | PaymentMethod_Card => "card" | PaymentMethod_CardRedirect => "card_redirect"
    | PaymentMethod_PayLater => "pay_later" | PaymentMethod_Wallet => "wallet"
    | PaymentMethod_BankRedirect => "bank_redirect"
    | PaymentMethod_BankTransfer => "bank_transfer" | PaymentMethod_Crypto => "crypto"
    | PaymentMethod_BankDebit => "bank_debit" | PaymentMethod_Reward => "reward"
    | PaymentMethod_RealTimePayment => "real_time_payment" | PaymentMethod_Upi => "upi"
    | PaymentMethod_Voucher => "voucher" | PaymentMethod_GiftCard => "gift_card"
    | PaymentMethod_OpenBanking => "open_banking"
    | PaymentMethod_MobilePayment => "mobile_payment"
    | PaymentMethod_NetworkToken => "network_token"
    end).

Inductive PaymentMethodType : Set :=
  | PaymentMethodType_Ach | PaymentMethodType_Affirm | PaymentMethodType_AfterpayClearpay
  | PaymentMethodType_Alfamart | PaymentMethodType_AliPay | PaymentMethodType_AliPayHk
  | PaymentMethodType_Alma | PaymentMethodType_AmazonPay | PaymentMethodType_Paysera
  | PaymentMethodType_ApplePay | PaymentMethodType_Atome | PaymentMethodType_Bacs
  | PaymentMethodType_BancontactCard | PaymentMethodType_Becs | PaymentMethodType_Benefit
  | PaymentMethodType_Bizum | PaymentMethodType_Blik | PaymentMethodType_Bluecode
  | PaymentMethodType_Boleto | PaymentMethodType_BcaBankTransfer | PaymentMethodType_BniVa
  | PaymentMethodType_Breadpay | PaymentMethodType_BriVa | PaymentMethodType_BhnCardNetwork
  | PaymentMethodType_CardRedirect | PaymentMethodType_CimbVa | PaymentMethodType_ClassicReward
  | PaymentMethodType_Credit | PaymentMethodType_CryptoCurrency | PaymentMethodType_Cashapp
  | PaymentMethodType_Dana | PaymentMethodType_DanamonVa | PaymentMethodType_Debit
  | PaymentMethodType_DuitNow | PaymentMethodType_Efecty | PaymentMethodType_Eft
  | PaymentMethodType_EftDebitOrder | PaymentMethodType_Eps | PaymentMethodType_Flexiti
  | PaymentMethodType_Fps | PaymentMethodType_Evoucher | PaymentMethodType_Giropay
  | PaymentMethodType_Givex | PaymentMethodType_GooglePay | PaymentMethodType_GoPay
  | PaymentMethodType_Gcash | PaymentMethodType_Ideal | PaymentMethodType_Interac
  | PaymentMethodType_Indomaret | PaymentMethodType_Klarna | PaymentMethodType_KakaoPay
  | PaymentMethodType_LocalBankRedirect | PaymentMethodType_MandiriVa | PaymentMethodType_Knet
  | PaymentMethodType_MbWay | PaymentMethodType_MobilePay | PaymentMethodType_Momo
  | PaymentMethodType_MomoAtm | PaymentMethodType_Multibanco
  | PaymentMethodType_OnlineBankingThailand | PaymentMethodType_OnlineBankingCzechRepublic
  | PaymentMethodType_OnlineBankingFinland | PaymentMethodType_OnlineBankingFpx
  | PaymentMethodType_OnlineBankingPoland | PaymentMethodType_OnlineBankingSlovakia
  | PaymentMethodType_Oxxo | PaymentMethodType_PagoEfectivo
  | PaymentMethodType_PermataBankTransfer | PaymentMethodType_OpenBankingUk
  | PaymentMethodType_PayBright | PaymentMethodType_Payjustnow | PaymentMethodType_Paypal
  | PaymentMethodType_Paze | PaymentMethodType_Pix | PaymentMethodType_PixKey
  | PaymentMethodType_PixEmv | PaymentMethodType_PixQr | PaymentMethodType_PixAutomaticoQr
  | PaymentMethodType_PixAutomaticoPush | PaymentMethodType_PaySafeCard
  | PaymentMethodType_Przelewy24 | PaymentMethodType_PromptPay | PaymentMethodType_Pse
  | PaymentMethodType_Qris | PaymentMethodType_RedCompra | PaymentMethodType_RedPagos
  | PaymentMethodType_SamsungPay | PaymentMethodType_Sepa | PaymentMethodType_SepaBankTransfer
  | PaymentMethodType_SepaGuarenteedDebit | PaymentMethodType_Skrill | PaymentMethodType_Sofort
  | PaymentMethodType_Swish | PaymentMethodType_TouchNGo | PaymentMethodType_Trustly
  | PaymentMethodType_Twint | PaymentMethodType_UpiCollect | PaymentMethodType_UpiIntent
  | PaymentMethodType_UpiQr | PaymentMethodType_Vipps | PaymentMethodType_VietQr
  | PaymentMethodType_Venmo | PaymentMethodType_Walley | PaymentMethodType_WeChatPay
  | PaymentMethodType_SevenEleven | PaymentMethodType_Lawson | PaymentMethodType_MiniStop
  | PaymentMethodType_FamilyMart | PaymentMethodType_Seicomart | PaymentMethodType_PayEasy
  | PaymentMethodType_LocalBankTransfer | PaymentMethodType_Mifinity
  | PaymentMethodType_OpenBankingPIS | PaymentMethodType_DirectCarrierBilling
  | PaymentMethodType_InstantBankTransfer | PaymentMethodType_InstantBankTransferFinland
  | PaymentMethodType_InstantBankTransferPoland | PaymentMethodType_RevolutPay
  | PaymentMethodType_IndonesianBankTransfer | PaymentMethodType_OpenBanking
  | PaymentMethodType_NetworkToken.

#[export] Program Instance PaymentMethodType_enumerated : Enumerated PaymentMethodType := {|
  variants := [
    PaymentMethodType_Ach; PaymentMethodType_Affirm; PaymentMethodType_AfterpayClearpay;
    PaymentMethodType_Alfamart; PaymentMethodType_AliPay; PaymentMethodType_AliPayHk;
    PaymentMethodType_Alma; PaymentMethodType_AmazonPay; PaymentMethodType_Paysera;
    PaymentMethodType_ApplePay; PaymentMethodType_Atome; PaymentMethodType_Bacs;
    PaymentMethodType_BancontactCard; PaymentMethodType_Becs; PaymentMethodType_Benefit;
    PaymentMethodType_Bizum; PaymentMethodType_Blik; PaymentMethodType_Bluecode;
    PaymentMethodType_Boleto; PaymentMethodType_BcaBankTransfer; PaymentMethodType_BniVa;
    PaymentMethodType_Breadpay; PaymentMethodType_BriVa; PaymentMethodType_BhnCardNetwork;
    PaymentMethodType_CardRedirect; PaymentMethodType_CimbVa; PaymentMethodType_ClassicReward;
    PaymentMethodType_Credit; PaymentMethodType_CryptoCurrency; PaymentMethodType_Cashapp;
    PaymentMethodType_Dana; PaymentMethodType_DanamonVa; PaymentMethodType_Debit;
    PaymentMethodType_DuitNow; PaymentMethodType_Efecty; PaymentMethodType_Eft;
    PaymentMethodType_EftDebitOrder; PaymentMethodType_Eps; PaymentMethodType_Flexiti;
    PaymentMethodType_Fps; PaymentMethodType_Evoucher; PaymentMethodType_Giropay;
    PaymentMethodType_Givex; PaymentMethodType_GooglePay; PaymentMethodType_GoPay;
    PaymentMethodType_Gcash; PaymentMethodType_Ideal; PaymentMethodType_Interac;
    PaymentMethodType_Indomaret; PaymentMethodType_Klarna; PaymentMethodType_KakaoPay;
    PaymentMethodType_LocalBankRedirect; PaymentMethodType_MandiriVa; PaymentMethodType_Knet;
    PaymentMethodType_MbWay; PaymentMethodType_MobilePay; PaymentMethodType_Momo;
    PaymentMethodType_MomoAtm; PaymentMethodType_Multibanco;
    PaymentMethodType_OnlineBankingThailand; PaymentMethodType_OnlineBankingCzechRepublic;
    PaymentMethodType_OnlineBankingFinland; PaymentMethodType_OnlineBankingFpx;
    PaymentMethodType_OnlineBankingPoland; PaymentMethodType_OnlineBankingSlovakia;
    PaymentMethodType_Oxxo; PaymentMethodType_PagoEfectivo;
    PaymentMethodType_PermataBankTransfer; PaymentMethodType_OpenBankingUk;
    PaymentMethodType_PayBright; PaymentMethodType_Payjustnow; PaymentMethodType_Paypal;
    PaymentMethodType_Paze; PaymentMethodType_Pix; PaymentMethodType_PixKey;
    PaymentMethodType_PixEmv; PaymentMethodType_PixQr; PaymentMethodType_PixAutomaticoQr;
    PaymentMethodType_PixAutomaticoPush; PaymentMethodType_PaySafeCard;
    PaymentMethodType_Przelewy24; PaymentMethodType_PromptPay; PaymentMethodType_Pse;
    PaymentMethodType_Qris; PaymentMethodType_RedCompra; PaymentMethodType_RedPagos;
    PaymentMethodType_SamsungPay; PaymentMethodType_Sepa; PaymentMethodType_SepaBankTransfer;
    PaymentMethodType_SepaGuarenteedDebit; PaymentMethodType_Skrill; PaymentMethodType_Sofort;
    PaymentMethodType_Swish; PaymentMethodType_TouchNGo; PaymentMethodType_Trustly;
    PaymentMethodType_Twint; PaymentMethodType_UpiCollect; PaymentMethodType_UpiIntent;
    PaymentMethodType_UpiQr; PaymentMethodType_Vipps; PaymentMethodType_VietQr;
    PaymentMethodType_Venmo; PaymentMethodType_Walley; PaymentMethodType_WeChatPay;
    PaymentMethodType_SevenEleven; PaymentMethodType_Lawson; PaymentMethodType_MiniStop;
    PaymentMethodType_FamilyMart; PaymentMethodType_Seicomart; PaymentMethodType_PayEasy;
    PaymentMethodType_LocalBankTransfer; PaymentMethodType_Mifinity;
    PaymentMethodType_OpenBankingPIS; PaymentMethodType_DirectCarrierBilling;
    PaymentMethodType_InstantBankTransfer; PaymentMethodType_InstantBankTransferFinland;
    PaymentMethodType_InstantBankTransferPoland; PaymentMethodType_RevolutPay;
    PaymentMethodType_IndonesianBankTransfer; PaymentMethodType_OpenBanking;
    PaymentMethodType_NetworkToken];
  discriminant x := match x with
    | PaymentMethodType_Ach => 0 | PaymentMethodType_Affirm => 1
    | PaymentMethodType_AfterpayClearpay => 2 | PaymentMethodType_Alfamart => 3
    | PaymentMethodType_AliPay => 4 | PaymentMethodType_AliPayHk => 5
    | PaymentMethodType_Alma => 6 | PaymentMethodType_AmazonPay => 7
    | PaymentMethodType_Paysera => 8 | PaymentMethodType_ApplePay => 9
    | PaymentMethodType_Atome => 10 | PaymentMethodType_Bacs => 11
    | PaymentMethodType_BancontactCard => 12 | PaymentMethodType_Becs => 13
    | PaymentMethodType_Benefit => 14 | PaymentMethodType_Bizum => 15
    | PaymentMethodType_Blik => 16 | PaymentMethodType_Bluecode => 17
    | PaymentMethodType_Boleto => 18 | PaymentMethodType_BcaBankTransfer => 19
    | PaymentMethodType_BniVa => 20 | PaymentMethodType_Breadpay => 21
    | PaymentMethodType_BriVa => 22 | PaymentMethodType_BhnCardNetwork => 23
    | PaymentMethodType_CardRedirect => 24 | PaymentMethodType_CimbVa => 25
    | PaymentMethodType_ClassicReward => 26 | PaymentMethodType_Credit => 27
    | PaymentMethodType_CryptoCurrency => 28 | PaymentMethodType_Cashapp => 29
    | PaymentMethodType_Dana => 30 | PaymentMethodType_DanamonVa => 31
    | PaymentMethodType_Debit => 32 | PaymentMethodType_DuitNow => 33
    | PaymentMethodType_Efecty => 34 | PaymentMethodType_Eft => 35
    | PaymentMethodType_EftDebitOrder => 36 | PaymentMethodType_Eps => 37
    | PaymentMethodType_Flexiti => 38 | PaymentMethodType_Fps => 39
    | PaymentMethodType_Evoucher => 40 | PaymentMethodType_Giropay => 41
    | PaymentMethodType_Givex => 42 | PaymentMethodType_GooglePay => 43
    | PaymentMethodType_GoPay => 44 | PaymentMethodType_Gcash => 45
    | PaymentMethodType_Ideal => 46 | PaymentMethodType_Interac => 47
    | PaymentMethodType_Indomaret => 48 | PaymentMethodType_Klarna => 49
    | PaymentMethodType_KakaoPay => 50 | PaymentMethodType_LocalBankRedirect => 51
    | PaymentMethodType_MandiriVa => 52 | PaymentMethodType_Knet => 53
    | PaymentMethodType_MbWay => 54 | PaymentMethodType_MobilePay => 55
    | PaymentMethodType_Momo => 56 | PaymentMethodType_MomoAtm => 57
    | PaymentMethodType_Multibanco => 58 | PaymentMethodType_OnlineBankingThailand => 59
    | PaymentMethodType_OnlineBankingCzechRepublic => 60
    | PaymentMethodType_OnlineBankingFinland => 61 | PaymentMethodType_OnlineBankingFpx => 62
    | PaymentMethodType_OnlineBankingPoland => 63
    | PaymentMethodType_OnlineBankingSlovakia => 64 | PaymentMethodType_Oxxo => 65
    | PaymentMethodType_PagoEfectivo => 66 | PaymentMethodType_PermataBankTransfer => 67
    | PaymentMethodType_OpenBankingUk => 68 | PaymentMethodType_PayBright => 69
    | PaymentMethodType_Payjustnow => 70 | PaymentMethodType_Paypal => 71
    | PaymentMethodType_Paze => 72 | PaymentMethodType_Pix => 73
    | PaymentMethodType_PixKey => 74 | PaymentMethodType_PixEmv => 75
    | PaymentMethodType_PixQr => 76 | PaymentMethodType_PixAutomaticoQr => 77
    | PaymentMethodType_PixAutomaticoPush => 78 | PaymentMethodType_PaySafeCard => 79
    | PaymentMethodType_Przelewy24 => 80 | PaymentMethodType_PromptPay => 81
    | PaymentMethodType_Pse => 82 | PaymentMethodType_Qris => 83
    | PaymentMethodType_RedCompra => 84 | PaymentMethodType_RedPagos => 85
    | PaymentMethodType_SamsungPay => 86 | PaymentMethodType_Sepa => 87
    | PaymentMethodType_SepaBankTransfer => 88 | PaymentMethodType_SepaGuarenteedDebit => 89
    | PaymentMethodType_Skrill => 90 | PaymentMethodType_Sofort => 91
    | PaymentMethodType_Swish => 92 | PaymentMethodType_TouchNGo => 93
    | PaymentMethodType_Trustly => 94 | PaymentMethodType_Twint => 95
    | PaymentMethodType_UpiCollect => 96 | PaymentMethodType_UpiIntent => 97
    | PaymentMethodType_UpiQr => 98 | PaymentMethodType_Vipps => 99
    | PaymentMethodType_VietQr => 100 | PaymentMethodType_Venmo => 101
    | PaymentMethodType_Walley => 102 | PaymentMethodType_WeChatPay => 103
    | PaymentMethodType_SevenEleven => 104 | PaymentMethodType_Lawson => 105
    | PaymentMethodType_MiniStop => 106 | PaymentMethodType_FamilyMart => 107
    | PaymentMethodType_Seicomart => 108 | PaymentMethodType_PayEasy => 109
    | PaymentMethodType_LocalBankTransfer => 110 | PaymentMethodType_Mifinity => 111
    | PaymentMethodType_OpenBankingPIS => 112 | PaymentMethodType_DirectCarrierBilling => 113
    | PaymentMethodType_InstantBankTransfer => 114
    | PaymentMethodType_InstantBankTransferFinland => 115
    | PaymentMethodType_InstantBankTransferPoland => 116 | PaymentMethodType_RevolutPay => 117
    | PaymentMethodType_IndonesianBankTransfer => 118 | PaymentMethodType_OpenBanking => 119
    | PaymentMethodType_NetworkToken => 120
    end;
|}.
Next Obligation. by intros []. Qed.

#[export] Instance PaymentMethodType_strum : EnumString PaymentMethodType := one_name (λ x, match x with
    | PaymentMethodType_Ach => "ach" | PaymentMethodType_Affirm => "affirm"
    | PaymentMethodType_AfterpayClearpay => "afterpay_clearpay"
    | PaymentMethodType_Alfamart => "alfamart" | PaymentMethodType_AliPay => "ali_pay"
    | PaymentMethodType_AliPayHk => "ali_pay_hk" | PaymentMethodType_Alma => "alma"
    | PaymentMethodType_AmazonPay => "amazon_pay" | PaymentMethodType_Paysera => "paysera"
    | PaymentMethodType_ApplePay => "apple_pay" | PaymentMethodType_Atome => "atome"
    | PaymentMethodType_Bacs => "bacs" | PaymentMethodType_BancontactCard => "bancontact_card"
    | PaymentMethodType_Becs => "becs" | PaymentMethodType_Benefit => "benefit"
    | PaymentMethodType_Bizum => "bizum" | PaymentMethodType_Blik => "blik"
    | PaymentMethodType_Bluecode => "bluecode" | PaymentMethodType_Boleto => "boleto"
    | PaymentMethodType_BcaBankTransfer => "bca_bank_transfer"
    | PaymentMethodType_BniVa => "bni_va" | PaymentMethodType_Breadpay => "breadpay"
    | PaymentMethodType_BriVa => "bri_va"
    | PaymentMethodType_BhnCardNetwork => "bhn_card_network"
    | PaymentMethodType_CardRedirect => "card_redirect" | PaymentMethodType_CimbVa => "cimb_va"
    | PaymentMethodType_ClassicReward => "classic_reward"
    | PaymentMethodType_Credit => "credit"
    | PaymentMethodType_CryptoCurrency => "crypto_currency"
    | PaymentMethodType_Cashapp => "cashapp" | PaymentMethodType_Dana => "dana"
    | PaymentMethodType_DanamonVa => "danamon_va" | PaymentMethodType_Debit => "debit"
    | PaymentMethodType_DuitNow => "duit_now" | PaymentMethodType_Efecty => "efecty"
    | PaymentMethodType_Eft => "eft" | PaymentMethodType_EftDebitOrder => "eft_debit_order"
    | PaymentMethodType_Eps => "eps" | PaymentMethodType_Flexiti => "flexiti"
    | PaymentMethodType_Fps => "fps" | PaymentMethodType_Evoucher => "evoucher"
    | PaymentMethodType_Giropay => "giropay" | PaymentMethodType_Givex => "givex"
    | PaymentMethodType_GooglePay => "google_pay" | PaymentMethodType_GoPay => "go_pay"
    | PaymentMethodType_Gcash => "gcash" | PaymentMethodType_Ideal => "ideal"
    | PaymentMethodType_Interac => "interac" | PaymentMethodType_Indomaret => "indomaret"
    | PaymentMethodType_Klarna => "klarna" | PaymentMethodType_KakaoPay => "kakao_pay"
    | PaymentMethodType_LocalBankRedirect => "local_bank_redirect"
    | PaymentMethodType_MandiriVa => "mandiri_va" | PaymentMethodType_Knet => "knet"
    | PaymentMethodType_MbWay => "mb_way" | PaymentMethodType_MobilePay => "mobile_pay"
    | PaymentMethodType_Momo => "momo" | PaymentMethodType_MomoAtm => "momo_atm"
    | PaymentMethodType_Multibanco => "multibanco"
    | PaymentMethodType_OnlineBankingThailand => "online_banking_thailand"
    | PaymentMethodType_OnlineBankingCzechRepublic => "online_banking_czech_republic"
    | PaymentMethodType_OnlineBankingFinland => "online_banking_finland"
    | PaymentMethodType_OnlineBankingFpx => "online_banking_fpx"
    | PaymentMethodType_OnlineBankingPoland => "online_banking_poland"
    | PaymentMethodType_OnlineBankingSlovakia => "online_banking_slovakia"
    | PaymentMethodType_Oxxo => "oxxo" | PaymentMethodType_PagoEfectivo => "pago_efectivo"
    | PaymentMethodType_PermataBankTransfer => "permata_bank_transfer"
    | PaymentMethodType_OpenBankingUk => "open_banking_uk"
    | PaymentMethodType_PayBright => "pay_bright"
    | PaymentMethodType_Payjustnow => "payjustnow" | PaymentMethodType_Paypal => "paypal"
    | PaymentMethodType_Paze => "paze" | PaymentMethodType_Pix => "pix"
    | PaymentMethodType_PixKey => "pix_key" | PaymentMethodType_PixEmv => "pix_emv"
    | PaymentMethodType_PixQr => "pix_qr"
    | PaymentMethodType_PixAutomaticoQr => "pix_automatico_qr"
    | PaymentMethodType_PixAutomaticoPush => "pix_automatico_push"
    | PaymentMethodType_PaySafeCard => "pay_safe_card"
    | PaymentMethodType_Przelewy24 => "przelewy24"
    | PaymentMethodType_PromptPay => "prompt_pay" | PaymentMethodType_Pse => "pse"
    | PaymentMethodType_Qris => "qris" | PaymentMethodType_RedCompra => "red_compra"
    | PaymentMethodType_RedPagos => "red_pagos" | PaymentMethodType_SamsungPay => "samsung_pay"
    | PaymentMethodType_Sepa => "sepa"
    | PaymentMethodType_SepaBankTransfer => "sepa_bank_transfer"
    | PaymentMethodType_SepaGuarenteedDebit => "sepa_guarenteed_debit"
    | PaymentMethodType_Skrill => "skrill" | PaymentMethodType_Sofort => "sofort"
    | PaymentMethodType_Swish => "swish" | PaymentMethodType_TouchNGo => "touch_n_go"
    | PaymentMethodType_Trustly => "trustly" | PaymentMethodType_Twint => "twint"
    | PaymentMethodType_UpiCollect => "upi_collect"
    | PaymentMethodType_UpiIntent => "upi_intent" | PaymentMethodType_UpiQr => "upi_qr"
    | PaymentMethodType_Vipps => "vipps" | PaymentMethodType_VietQr => "viet_qr"
    | PaymentMethodType_Venmo => "venmo" | PaymentMethodType_Walley => "walley"
    | PaymentMethodType_WeChatPay => "we_chat_pay"
    | PaymentMethodType_SevenEleven => "seven_eleven" | PaymentMethodType_Lawson => "lawson"
    | PaymentMethodType_MiniStop => "mini_stop" | PaymentMethodType_FamilyMart => "family_mart"
    | PaymentMethodType_Seicomart => "seicomart" | PaymentMethodType_PayEasy => "pay_easy"
    | PaymentMethodType_LocalBankTransfer => "local_bank_transfer"
    | PaymentMethodType_Mifinity => "mifinity"
    | PaymentMethodType_OpenBankingPIS => "open_banking_pis"
    | PaymentMethodType_DirectCarrierBilling => "direct_carrier_billing"
    | PaymentMethodType_InstantBankTransfer => "instant_bank_transfer"
    | PaymentMethodType_InstantBankTransferFinland => "instant_bank_transfer_finland"
    | PaymentMethodType_InstantBankTransferPoland => "instant_bank_transfer_poland"
    | PaymentMethodType_RevolutPay => "revolut_pay"
    | PaymentMethodType_IndonesianBankTransfer => "indonesian_bank_transfer"
    | PaymentMethodType_OpenBanking => "open_banking"
    | PaymentMethodType_NetworkToken => "network_token"
    end).

Inductive CardNetwork : Set :=
  | CardNetwork_Visa | CardNetwork_Mastercard | CardNetwork_AmericanExpress | CardNetwork_JCB
  | CardNetwork_DinersClub | CardNetwork_Discover | CardNetwork_CartesBancaires
  | CardNetwork_UnionPay | CardNetwork_Interac | CardNetwork_RuPay | CardNetwork_Maestro
  | CardNetwork_Star | CardNetwork_Pulse | CardNetwork_Accel | CardNetwork_Nyce
  | CardNetwork_Prop | CardNetwork_PrivateLabel | CardNetwork_Dinacard.

#[export] Program Instance CardNetwork_enumerated : Enumerated CardNetwork := {|
  variants := [
    CardNetwork_Visa; CardNetwork_Mastercard; CardNetwork_AmericanExpress; CardNetwork_JCB;
    CardNetwork_DinersClub; CardNetwork_Discover; CardNetwork_CartesBancaires;
    CardNetwork_UnionPay; CardNetwork_Interac; CardNetwork_RuPay; CardNetwork_Maestro;
    CardNetwork_Star; CardNetwork_Pulse; CardNetwork_Accel; CardNetwork_Nyce; CardNetwork_Prop;
    CardNetwork_PrivateLabel; CardNetwork_Dinacard];
  discriminant x := match x with
    | CardNetwork_Visa => 0 | CardNetwork_Mastercard => 1 | CardNetwork_AmericanExpress => 2
    | CardNetwork_JCB => 3 | CardNetwork_DinersClub => 4 | CardNetwork_Discover => 5
    | CardNetwork_CartesBancaires => 6 | CardNetwork_UnionPay => 7 | CardNetwork_Interac => 8
    | CardNetwork_RuPay => 9 | CardNetwork_Maestro => 10 | CardNetwork_Star => 11
    | CardNetwork_Pulse => 12 | CardNetwork_Accel => 13 | CardNetwork_Nyce => 14
    | CardNetwork_Prop => 15 | CardNetwork_PrivateLabel => 16 | CardNetwork_Dinacard => 17
    end;
|}.
Next Obligation. by intros []. Qed.

#[export] Instance CardNetwork_strum : EnumString CardNetwork := one_name (λ x, match x with
    | CardNetwork_Visa => "Visa" | CardNetwork_Mastercard => "Mastercard"
    | CardNetwork_AmericanExpress => "AmericanExpress" | CardNetwork_JCB => "JCB"
    | CardNetwork_DinersClub => "DinersClub" | CardNetwork_Discover => "Discover"
    | CardNetwork_CartesBancaires => "CartesBancaires" | CardNetwork_UnionPay => "UnionPay"
    | CardNetwork_Interac => "Interac" | CardNetwork_RuPay => "RuPay"
    | CardNetwork_Maestro => "Maestro" | CardNetwork_Star => "Star"
    | CardNetwork_Pulse => "Pulse" | CardNetwork_Accel => "Accel" | CardNetwork_Nyce => "Nyce"
    | CardNetwork_Prop => "Prop" | CardNetwork_PrivateLabel => "PrivateLabel"
    | CardNetwork_Dinacard => "Dinacard"
    end).

Inductive AuthenticationType : Set :=
  | AuthenticationType_ThreeDs | AuthenticationType_NoThreeDs.

#[export] Program Instance AuthenticationType_enumerated : Enumerated AuthenticationType := {|
  variants := [
    AuthenticationType_ThreeDs; AuthenticationType_NoThreeDs];
  discriminant x := match x with
    | AuthenticationType_ThreeDs => 0 | AuthenticationType_NoThreeDs => 1
    end;
|}.
Next Obligation. by intros []. Qed.

#[export] Instance AuthenticationType_strum : EnumString AuthenticationType := one_name (λ x, match x with
    | AuthenticationType_ThreeDs => "three_ds" | AuthenticationType_NoThreeDs => "no_three_ds"
    end).

Inductive CaptureMethod : Set :=
  | CaptureMethod_Automatic | CaptureMethod_Manual | CaptureMethod_ManualMultiple
  | CaptureMethod_Scheduled | CaptureMethod_SequentialAutomatic.

#[export] Program Instance CaptureMethod_enumerated : Enumerated CaptureMethod := {|
  variants := [
    CaptureMethod_Automatic; CaptureMethod_Manual; CaptureMethod_ManualMultiple;
    CaptureMethod_Scheduled; CaptureMethod_SequentialAutomatic];
  discriminant x := match x with
    | CaptureMethod_Automatic => 0 | CaptureMethod_Manual => 1
    | CaptureMethod_ManualMultiple => 2 | CaptureMethod_Scheduled => 3
    | CaptureMethod_SequentialAutomatic => 4
    end;
|}.
Next Obligation. by intros []. Qed.

#[export] Instance CaptureMethod_strum : EnumString CaptureMethod := one_name (λ x, match x with
    | CaptureMethod_Automatic => "automatic" | CaptureMethod_Manual => "manual"
    | CaptureMethod_ManualMultiple => "manual_multiple"
    | CaptureMethod_Scheduled => "scheduled"
    | CaptureMethod_SequentialAutomatic => "sequential_automatic"
    end).

Inductive FutureUsage : Set :=
  | FutureUsage_OffSession | FutureUsage_OnSession.

#[export] Program Instance FutureUsage_enumerated : Enumerated FutureUsage := {|
  variants := [
    FutureUsage_OffSession; FutureUsage_OnSession];
  discriminant x := match x with
    | FutureUsage_OffSession => 0 | FutureUsage_OnSession => 1
    end;
|}.
Next Obligation. by intros []. Qed.

#[export] Instance FutureUsage_strum : EnumString FutureUsage := one_name (λ x, match x with
    | FutureUsage_OffSession => "off_session" | FutureUsage_OnSession => "on_session"
    end).

Inductive CardDiscovery : Set :=
  | CardDiscovery_Manual | CardDiscovery_SavedCard | CardDiscovery_ClickToPay.

#[export] Program Instance CardDiscovery_enumerated : Enumerated CardDiscovery := {|
  variants := [
    CardDiscovery_Manual; CardDiscovery_SavedCard; CardDiscovery_ClickToPay];
  discriminant x := match x with
    | CardDiscovery_Manual => 0 | CardDiscovery_SavedCard => 1 | CardDiscovery_ClickToPay => 2
    end;
|}.
Next Obligation. by intros []. Qed.

#[export] Instance CardDiscovery_strum : EnumString CardDiscovery := one_name (λ x, match x with
    | CardDiscovery_Manual => "manual" | CardDiscovery_SavedCard => "saved_card"
    | CardDiscovery_ClickToPay => "click_to_pay"
    end).

(** [PaymentMethod::from(PaymentMethodType)]. *)
Definition payment_method_of_type (x : PaymentMethodType) : PaymentMethod :=
  match x with
  | PaymentMethodType_Ach => PaymentMethod_BankDebit
  | PaymentMethodType_Affirm => PaymentMethod_PayLater
  | PaymentMethodType_AfterpayClearpay => PaymentMethod_PayLater
  | PaymentMethodType_AliPay => PaymentMethod_Wallet
  | PaymentMethodType_AliPayHk => PaymentMethod_Wallet
  | PaymentMethodType_Alma => PaymentMethod_PayLater
  | PaymentMethodType_AmazonPay => PaymentMethod_Wallet
  | PaymentMethodType_Paysera => PaymentMethod_Wallet
  | PaymentMethodType_Skrill => PaymentMethod_Wallet
  | PaymentMethodType_ApplePay => PaymentMethod_Wallet
  | PaymentMethodType_Bacs => PaymentMethod_BankDebit
  | PaymentMethodType_BancontactCard => PaymentMethod_BankRedirect
  | PaymentMethodType_BcaBankTransfer => PaymentMethod_BankTransfer
  | PaymentMethodType_Becs => PaymentMethod_BankDebit
  | PaymentMethodType_BniVa => PaymentMethod_BankTransfer
  | PaymentMethodType_Breadpay => PaymentMethod_PayLater
  | PaymentMethodType_BriVa => PaymentMethod_BankTransfer
  | PaymentMethodType_Benefit => PaymentMethod_CardRedirect
  | PaymentMethodType_Bizum => PaymentMethod_BankRedirect
  | PaymentMethodType_Blik => PaymentMethod_BankRedirect
  | PaymentMethodType_Bluecode => PaymentMethod_Wallet
  | PaymentMethodType_Alfamart => PaymentMethod_Voucher
  | PaymentMethodType_CardRedirect => PaymentMethod_CardRedirect
  | PaymentMethodType_CimbVa => PaymentMethod_BankTransfer
  | PaymentMethodType_ClassicReward => PaymentMethod_Reward
  | PaymentMethodType_Credit => PaymentMethod_Card
  | PaymentMethodType_CryptoCurrency => PaymentMethod_Crypto
  | PaymentMethodType_Dana => PaymentMethod_Wallet
  | PaymentMethodType_DanamonVa => PaymentMethod_BankTransfer
  | PaymentMethodType_Debit => PaymentMethod_Card
  | PaymentMethodType_Flexiti => PaymentMethod_PayLater
  | PaymentMethodType_Fps => PaymentMethod_RealTimePayment
  | PaymentMethodType_DuitNow => PaymentMethod_RealTimePayment
  | PaymentMethodType_Eft => PaymentMethod_BankRedirect
  | PaymentMethodType_EftDebitOrder => PaymentMethod_BankDebit
  | PaymentMethodType_Eps => PaymentMethod_BankRedirect
  | PaymentMethodType_Evoucher => PaymentMethod_Reward
  | PaymentMethodType_Giropay => PaymentMethod_BankRedirect
  | PaymentMethodType_GooglePay => PaymentMethod_Wallet
  | PaymentMethodType_GoPay => PaymentMethod_Wallet
  | PaymentMethodType_Gcash => PaymentMethod_Wallet
  | PaymentMethodType_Mifinity => PaymentMethod_Wallet
  | PaymentMethodType_Ideal => PaymentMethod_BankRedirect
  | PaymentMethodType_Qris => PaymentMethod_RealTimePayment
  | PaymentMethodType_Klarna => PaymentMethod_PayLater
  | PaymentMethodType_KakaoPay => PaymentMethod_Wallet
  | PaymentMethodType_Knet => PaymentMethod_CardRedirect
  | PaymentMethodType_LocalBankRedirect => PaymentMethod_BankRedirect
  | PaymentMethodType_MbWay => PaymentMethod_Wallet
  | PaymentMethodType_MobilePay => PaymentMethod_Wallet
  | PaymentMethodType_Momo => PaymentMethod_Wallet
  | PaymentMethodType_MomoAtm => PaymentMethod_CardRedirect
  | PaymentMethodType_Multibanco => PaymentMethod_BankTransfer
  | PaymentMethodType_MandiriVa => PaymentMethod_BankTransfer
  | PaymentMethodType_Interac => PaymentMethod_BankRedirect
  | PaymentMethodType_InstantBankTransfer => PaymentMethod_BankTransfer
  | PaymentMethodType_InstantBankTransferFinland => PaymentMethod_BankTransfer
  | PaymentMethodType_InstantBankTransferPoland => PaymentMethod_BankTransfer
  | PaymentMethodType_Indomaret => PaymentMethod_Voucher
  | PaymentMethodType_OnlineBankingCzechRepublic => PaymentMethod_BankRedirect
  | PaymentMethodType_OnlineBankingFinland => PaymentMethod_BankRedirect
  | PaymentMethodType_OnlineBankingFpx => PaymentMethod_BankRedirect
  | PaymentMethodType_OnlineBankingThailand => PaymentMethod_BankRedirect
  | PaymentMethodType_OnlineBankingPoland => PaymentMethod_BankRedirect
  | PaymentMethodType_OnlineBankingSlovakia => PaymentMethod_BankRedirect
  | PaymentMethodType_Paze => PaymentMethod_Wallet
  | PaymentMethodType_PermataBankTransfer => PaymentMethod_BankTransfer
  | PaymentMethodType_Pix => PaymentMethod_BankTransfer
  | PaymentMethodType_PixKey => PaymentMethod_BankTransfer
  | PaymentMethodType_PixEmv | PaymentMethodType_PixQr => PaymentMethod_BankTransfer
  | PaymentMethodType_PixAutomaticoPush => PaymentMethod_BankTransfer
  | PaymentMethodType_PixAutomaticoQr => PaymentMethod_BankTransfer
  | PaymentMethodType_Pse => PaymentMethod_BankTransfer
  | PaymentMethodType_LocalBankTransfer => PaymentMethod_BankTransfer
  | PaymentMethodType_PayBright => PaymentMethod_PayLater
  | PaymentMethodType_Paypal => PaymentMethod_Wallet
  | PaymentMethodType_PaySafeCard => PaymentMethod_GiftCard
  | PaymentMethodType_Przelewy24 => PaymentMethod_BankRedirect
  | PaymentMethodType_PromptPay => PaymentMethod_RealTimePayment
  | PaymentMethodType_SamsungPay => PaymentMethod_Wallet
  | PaymentMethodType_Sepa => PaymentMethod_BankDebit
  | PaymentMethodType_SepaGuarenteedDebit => PaymentMethod_BankDebit
  | PaymentMethodType_SepaBankTransfer => PaymentMethod_BankTransfer
  | PaymentMethodType_Sofort => PaymentMethod_BankRedirect
  | PaymentMethodType_Swish => PaymentMethod_BankRedirect
  | PaymentMethodType_Trustly => PaymentMethod_BankRedirect
  | PaymentMethodType_Twint => PaymentMethod_Wallet
  | PaymentMethodType_UpiCollect => PaymentMethod_Upi
  | PaymentMethodType_UpiIntent => PaymentMethod_Upi
  | PaymentMethodType_UpiQr => PaymentMethod_Upi
  | PaymentMethodType_Vipps => PaymentMethod_Wallet
  | PaymentMethodType_Venmo => PaymentMethod_Wallet
  | PaymentMethodType_VietQr => PaymentMethod_RealTimePayment
  | PaymentMethodType_Walley => PaymentMethod_PayLater
  | PaymentMethodType_WeChatPay => PaymentMethod_Wallet
  | PaymentMethodType_TouchNGo => PaymentMethod_Wallet
  | PaymentMethodType_Atome => PaymentMethod_PayLater
  | PaymentMethodType_Payjustnow => PaymentMethod_PayLater
  | PaymentMethodType_Boleto => PaymentMethod_Voucher
  | PaymentMethodType_Efecty => PaymentMethod_Voucher
  | PaymentMethodType_PagoEfectivo => PaymentMethod_Voucher
  | PaymentMethodType_RedCompra => PaymentMethod_Voucher
  | PaymentMethodType_RedPagos => PaymentMethod_Voucher
  | PaymentMethodType_Cashapp => PaymentMethod_Wallet
  | PaymentMethodType_BhnCardNetwork => PaymentMethod_GiftCard
  | PaymentMethodType_Givex => PaymentMethod_GiftCard
  | PaymentMethodType_Oxxo => PaymentMethod_Voucher
  | PaymentMethodType_OpenBankingUk => PaymentMethod_BankRedirect
  | PaymentMethodType_SevenEleven => PaymentMethod_Voucher
  | PaymentMethodType_Lawson => PaymentMethod_Voucher
  | PaymentMethodType_MiniStop => PaymentMethod_Voucher
  | PaymentMethodType_FamilyMart => PaymentMethod_Voucher
  | PaymentMethodType_Seicomart => PaymentMethod_Voucher
  | PaymentMethodType_PayEasy => PaymentMethod_Voucher
  | PaymentMethodType_OpenBankingPIS => PaymentMethod_OpenBanking
  | PaymentMethodType_DirectCarrierBilling => PaymentMethod_MobilePayment
  | PaymentMethodType_RevolutPay => PaymentMethod_Wallet
  | PaymentMethodType_IndonesianBankTransfer => PaymentMethod_BankTransfer
  | PaymentMethodType_OpenBanking => PaymentMethod_BankRedirect
  | PaymentMethodType_NetworkToken => PaymentMethod_NetworkToken
  end.

#[export] Instance PaymentMethod_laws : EnumStringLaws PaymentMethod.
Proof. apply enum_string_laws_check. by_evaluation. Qed.
#[export] Instance PaymentMethodType_laws : EnumStringLaws PaymentMethodType.
Proof. apply enum_string_laws_check. by_evaluation. Qed.
#[export] Instance CardNetwork_laws : EnumStringLaws CardNetwork.
Proof. apply enum_string_laws_check. by_evaluation. Qed.
#[export] Instance AuthenticationType_laws : EnumStringLaws AuthenticationType.
Proof. apply enum_string_laws_check. by_evaluation. Qed.
#[export] Instance CaptureMethod_laws : EnumStringLaws CaptureMethod.
Proof. apply enum_string_laws_check. by_evaluation. Qed.
#[export] Instance FutureUsage_laws : EnumStringLaws FutureUsage.
Proof. apply enum_string_laws_check. by_evaluation. Qed.
#[export] Instance CardDiscovery_laws : EnumStringLaws CardDiscovery.
Proof. apply enum_string_laws_check. by_evaluation. Qed.
