(* ===== verification/EuclidEnums.v ===== *)
(** * Enumerations of the routing language

    The enums of [crates/euclid/src/frontend/dir/enums.rs] (the values a
    rule's key can take) and of [crates/euclid/src/enums.rs], for a build
    without the [payouts] and [v2] features. *)

From S2P Require Import Prelude.

Inductive MandateAcceptanceType : Set :=
  | MandateAcceptanceType_Online | MandateAcceptanceType_Offline.

#[export] Program Instance MandateAcceptanceType_enumerated : Enumerated MandateAcceptanceType := {|
  variants := [
    MandateAcceptanceType_Online; MandateAcceptanceType_Offline];
  discriminant x := match x with
    | MandateAcceptanceType_Online => 0 | MandateAcceptanceType_Offline => 1
    end;
|}.
Next Obligation. by intros []. Qed.

#[export] Instance MandateAcceptanceType_strum : EnumString MandateAcceptanceType := one_name (λ x, match x with
    | MandateAcceptanceType_Online => "online" | MandateAcceptanceType_Offline => "offline"
    end).

Inductive PaymentType : Set :=
  | PaymentType_SetupMandate | PaymentType_NonMandate | PaymentType_NewMandate
  | PaymentType_UpdateMandate | PaymentType_PptMandate.

#[export] Program Instance PaymentType_enumerated : Enumerated PaymentType := {|
  variants := [
    PaymentType_SetupMandate; PaymentType_NonMandate; PaymentType_NewMandate;
    PaymentType_UpdateMandate; PaymentType_PptMandate];
  discriminant x := match x with
    | PaymentType_SetupMandate => 0 | PaymentType_NonMandate => 1 | PaymentType_NewMandate => 2
    | PaymentType_UpdateMandate => 3 | PaymentType_PptMandate => 4
    end;
|}.
Next Obligation. by intros []. Qed.

#[export] Instance PaymentType_strum : EnumString PaymentType := one_name (λ x, match x with
    | PaymentType_SetupMandate => "setup_mandate" | PaymentType_NonMandate => "non_mandate"
    | PaymentType_NewMandate => "new_mandate" | PaymentType_UpdateMandate => "update_mandate"
    | PaymentType_PptMandate => "ppt_mandate"
    end).

Inductive MandateType : Set :=
  | MandateType_SingleUse | MandateType_MultiUse.

#[export] Program Instance MandateType_enumerated : Enumerated MandateType := {|
  variants := [
    MandateType_SingleUse; MandateType_MultiUse];
  discriminant x := match x with
    | MandateType_SingleUse => 0 | MandateType_MultiUse => 1
    end;
|}.
Next Obligation. by intros []. Qed.

#[export] Instance MandateType_strum : EnumString MandateType := one_name (λ x, match x with
    | MandateType_SingleUse => "single_use" | MandateType_MultiUse => "multi_use"
    end).

Inductive RoutableConnectors : Set :=
  | RoutableConnectors_AbsaSanlam | RoutableConnectors_Authipay
  | RoutableConnectors_Adyenplatform | RoutableConnectors_DummyBillingConnector
  | RoutableConnectors_DummyConnector1 | RoutableConnectors_DummyConnector2
  | RoutableConnectors_DummyConnector3 | RoutableConnectors_DummyConnector4
  | RoutableConnectors_DummyConnector5 | RoutableConnectors_DummyConnector6
  | RoutableConnectors_DummyConnector7 | RoutableConnectors_Aci | RoutableConnectors_Adyen
  | RoutableConnectors_Affirm | RoutableConnectors_Airwallex | RoutableConnectors_Amazonpay
  | RoutableConnectors_Archipel | RoutableConnectors_Authorizedotnet
  | RoutableConnectors_Bankofamerica | RoutableConnectors_Barclaycard
  | RoutableConnectors_Billwerk | RoutableConnectors_Bitpay | RoutableConnectors_Bambora
  | RoutableConnectors_Blackhawknetwork | RoutableConnectors_Bamboraapac
  | RoutableConnectors_Bluesnap | RoutableConnectors_Calida | RoutableConnectors_Boku
  | RoutableConnectors_Braintree | RoutableConnectors_Breadpay | RoutableConnectors_Cashtocode
  | RoutableConnectors_Celero | RoutableConnectors_Chargebee | RoutableConnectors_Custombilling
  | RoutableConnectors_Checkbook | RoutableConnectors_Checkout | RoutableConnectors_Citigate
  | RoutableConnectors_Coinbase | RoutableConnectors_Coingate | RoutableConnectors_Cryptopay
  | RoutableConnectors_Cybersource | RoutableConnectors_Cybersourcedecisionmanager
  | RoutableConnectors_Datatrans | RoutableConnectors_Deutschebank
  | RoutableConnectors_Digitalvirgo | RoutableConnectors_Dlocal | RoutableConnectors_Dwolla
  | RoutableConnectors_Ebanx | RoutableConnectors_Elavon | RoutableConnectors_Envoy
  | RoutableConnectors_Facilitapay | RoutableConnectors_Finix | RoutableConnectors_Fiserv
  | RoutableConnectors_Fiservemea | RoutableConnectors_Fiservcommercehub
  | RoutableConnectors_Fiuu | RoutableConnectors_Flexiti | RoutableConnectors_Forte
  | RoutableConnectors_Getnet | RoutableConnectors_Gigadat | RoutableConnectors_Givepayments
  | RoutableConnectors_Globalpay | RoutableConnectors_Globepay | RoutableConnectors_Gocardless
  | RoutableConnectors_Hipay | RoutableConnectors_Helcim | RoutableConnectors_Hyperpg
  | RoutableConnectors_Iatapay | RoutableConnectors_Ilixium
  | RoutableConnectors_Imerchantsolutions | RoutableConnectors_Inespay
  | RoutableConnectors_Interpayments | RoutableConnectors_Itaubank
  | RoutableConnectors_Jpmorgan | RoutableConnectors_Klarna | RoutableConnectors_Loonio
  | RoutableConnectors_Mifinity | RoutableConnectors_Mollie | RoutableConnectors_Moneris
  | RoutableConnectors_Multisafepay | RoutableConnectors_Nexinets | RoutableConnectors_Nexixpay
  | RoutableConnectors_Nmi | RoutableConnectors_Nomupay | RoutableConnectors_Noon
  | RoutableConnectors_Nordea | RoutableConnectors_Novalnet | RoutableConnectors_Nuvei
  | RoutableConnectors_Opennode | RoutableConnectors_Paybox | RoutableConnectors_Payme
  | RoutableConnectors_Payload | RoutableConnectors_Payone | RoutableConnectors_Paypal
  | RoutableConnectors_Paysafe | RoutableConnectors_Paystack | RoutableConnectors_Paytm
  | RoutableConnectors_Payconex | RoutableConnectors_Payu | RoutableConnectors_Peachpayments
  | RoutableConnectors_Payjustnow | RoutableConnectors_Payjustnowinstore
  | RoutableConnectors_Phonepe | RoutableConnectors_Placetopay | RoutableConnectors_Powertranz
  | RoutableConnectors_Prophetpay | RoutableConnectors_Rapyd | RoutableConnectors_Razorpay
  | RoutableConnectors_Recurly | RoutableConnectors_Redsys | RoutableConnectors_Revolv3
  | RoutableConnectors_Riskified | RoutableConnectors_Santander | RoutableConnectors_Shift4
  | RoutableConnectors_Signifyd | RoutableConnectors_Silverflow | RoutableConnectors_Square
  | RoutableConnectors_Stax | RoutableConnectors_Stripe | RoutableConnectors_Stripebilling
  | RoutableConnectors_Tesouro | RoutableConnectors_Truelayer | RoutableConnectors_Trustly
  | RoutableConnectors_Trustpay | RoutableConnectors_Trustpayments | RoutableConnectors_Tokenio
  | RoutableConnectors_Tsys | RoutableConnectors_TsysTransit | RoutableConnectors_Volt
  | RoutableConnectors_Wellsfargo | RoutableConnectors_Wise | RoutableConnectors_Worldline
  | RoutableConnectors_Worldpay | RoutableConnectors_Worldpaymodular
  | RoutableConnectors_Worldpayvantiv | RoutableConnectors_Worldpayxml
  | RoutableConnectors_Xendit | RoutableConnectors_Zen | RoutableConnectors_Zift
  | RoutableConnectors_Plaid | RoutableConnectors_Zsl | RoutableConnectors_Juspaythreedsserver
  | RoutableConnectors_CtpMastercard | RoutableConnectors_CtpVisa
  | RoutableConnectors_Netcetera | RoutableConnectors_Vgs | RoutableConnectors_Cardinal
  | RoutableConnectors_Threedsecureio.

#[export] Program Instance RoutableConnectors_enumerated : Enumerated RoutableConnectors := {|
  variants := [
    RoutableConnectors_AbsaSanlam; RoutableConnectors_Authipay;
    RoutableConnectors_Adyenplatform; RoutableConnectors_DummyBillingConnector;
    RoutableConnectors_DummyConnector1; RoutableConnectors_DummyConnector2;
    RoutableConnectors_DummyConnector3; RoutableConnectors_DummyConnector4;
    RoutableConnectors_DummyConnector5; RoutableConnectors_DummyConnector6;
    RoutableConnectors_DummyConnector7; RoutableConnectors_Aci; RoutableConnectors_Adyen;
    RoutableConnectors_Affirm; RoutableConnectors_Airwallex; RoutableConnectors_Amazonpay;
    RoutableConnectors_Archipel; RoutableConnectors_Authorizedotnet;
    RoutableConnectors_Bankofamerica; RoutableConnectors_Barclaycard;
    RoutableConnectors_Billwerk; RoutableConnectors_Bitpay; RoutableConnectors_Bambora;
    RoutableConnectors_Blackhawknetwork; RoutableConnectors_Bamboraapac;
    RoutableConnectors_Bluesnap; RoutableConnectors_Calida; RoutableConnectors_Boku;
    RoutableConnectors_Braintree; RoutableConnectors_Breadpay; RoutableConnectors_Cashtocode;
    RoutableConnectors_Celero; RoutableConnectors_Chargebee; RoutableConnectors_Custombilling;
    RoutableConnectors_Checkbook; RoutableConnectors_Checkout; RoutableConnectors_Citigate;
    RoutableConnectors_Coinbase; RoutableConnectors_Coingate; RoutableConnectors_Cryptopay;
    RoutableConnectors_Cybersource; RoutableConnectors_Cybersourcedecisionmanager;
    RoutableConnectors_Datatrans; RoutableConnectors_Deutschebank;
    RoutableConnectors_Digitalvirgo; RoutableConnectors_Dlocal; RoutableConnectors_Dwolla;
    RoutableConnectors_Ebanx; RoutableConnectors_Elavon; RoutableConnectors_Envoy;
    RoutableConnectors_Facilitapay; RoutableConnectors_Finix; RoutableConnectors_Fiserv;
    RoutableConnectors_Fiservemea; RoutableConnectors_Fiservcommercehub;
    RoutableConnectors_Fiuu; RoutableConnectors_Flexiti; RoutableConnectors_Forte;
    RoutableConnectors_Getnet; RoutableConnectors_Gigadat; RoutableConnectors_Givepayments;
    RoutableConnectors_Globalpay; RoutableConnectors_Globepay; RoutableConnectors_Gocardless;
    RoutableConnectors_Hipay; RoutableConnectors_Helcim; RoutableConnectors_Hyperpg;
    RoutableConnectors_Iatapay; RoutableConnectors_Ilixium;
    RoutableConnectors_Imerchantsolutions; RoutableConnectors_Inespay;
    RoutableConnectors_Interpayments; RoutableConnectors_Itaubank; RoutableConnectors_Jpmorgan;
    RoutableConnectors_Klarna; RoutableConnectors_Loonio; RoutableConnectors_Mifinity;
    RoutableConnectors_Mollie; RoutableConnectors_Moneris; RoutableConnectors_Multisafepay;
    RoutableConnectors_Nexinets; RoutableConnectors_Nexixpay; RoutableConnectors_Nmi;
    RoutableConnectors_Nomupay; RoutableConnectors_Noon; RoutableConnectors_Nordea;
    RoutableConnectors_Novalnet; RoutableConnectors_Nuvei; RoutableConnectors_Opennode;
    RoutableConnectors_Paybox; RoutableConnectors_Payme; RoutableConnectors_Payload;
    RoutableConnectors_Payone; RoutableConnectors_Paypal; RoutableConnectors_Paysafe;
    RoutableConnectors_Paystack; RoutableConnectors_Paytm; RoutableConnectors_Payconex;
    RoutableConnectors_Payu; RoutableConnectors_Peachpayments; RoutableConnectors_Payjustnow;
    RoutableConnectors_Payjustnowinstore; RoutableConnectors_Phonepe;
    RoutableConnectors_Placetopay; RoutableConnectors_Powertranz;
    RoutableConnectors_Prophetpay; RoutableConnectors_Rapyd; RoutableConnectors_Razorpay;
    RoutableConnectors_Recurly; RoutableConnectors_Redsys; RoutableConnectors_Revolv3;
    RoutableConnectors_Riskified; RoutableConnectors_Santander; RoutableConnectors_Shift4;
    RoutableConnectors_Signifyd; RoutableConnectors_Silverflow; RoutableConnectors_Square;
    RoutableConnectors_Stax; RoutableConnectors_Stripe; RoutableConnectors_Stripebilling;
    RoutableConnectors_Tesouro; RoutableConnectors_Truelayer; RoutableConnectors_Trustly;
    RoutableConnectors_Trustpay; RoutableConnectors_Trustpayments; RoutableConnectors_Tokenio;
    RoutableConnectors_Tsys; RoutableConnectors_TsysTransit; RoutableConnectors_Volt;
    RoutableConnectors_Wellsfargo; RoutableConnectors_Wise; RoutableConnectors_Worldline;
    RoutableConnectors_Worldpay; RoutableConnectors_Worldpaymodular;
    RoutableConnectors_Worldpayvantiv; RoutableConnectors_Worldpayxml;
    RoutableConnectors_Xendit; RoutableConnectors_Zen; RoutableConnectors_Zift;
    RoutableConnectors_Plaid; RoutableConnectors_Zsl; RoutableConnectors_Juspaythreedsserver;
    RoutableConnectors_CtpMastercard; RoutableConnectors_CtpVisa; RoutableConnectors_Netcetera;
    RoutableConnectors_Vgs; RoutableConnectors_Cardinal; RoutableConnectors_Threedsecureio];
  discriminant x := match x with
    | RoutableConnectors_AbsaSanlam => 0 | RoutableConnectors_Authipay => 1
    | RoutableConnectors_Adyenplatform => 2 | RoutableConnectors_DummyBillingConnector => 3
    | RoutableConnectors_DummyConnector1 => 4 | RoutableConnectors_DummyConnector2 => 5
    | RoutableConnectors_DummyConnector3 => 6 | RoutableConnectors_DummyConnector4 => 7
    | RoutableConnectors_DummyConnector5 => 8 | RoutableConnectors_DummyConnector6 => 9
    | RoutableConnectors_DummyConnector7 => 10 | RoutableConnectors_Aci => 11
    | RoutableConnectors_Adyen => 12 | RoutableConnectors_Affirm => 13
    | RoutableConnectors_Airwallex => 14 | RoutableConnectors_Amazonpay => 15
    | RoutableConnectors_Archipel => 16 | RoutableConnectors_Authorizedotnet => 17
    | RoutableConnectors_Bankofamerica => 18 | RoutableConnectors_Barclaycard => 19
    | RoutableConnectors_Billwerk => 20 | RoutableConnectors_Bitpay => 21
    | RoutableConnectors_Bambora => 22 | RoutableConnectors_Blackhawknetwork => 23
    | RoutableConnectors_Bamboraapac => 24 | RoutableConnectors_Bluesnap => 25
    | RoutableConnectors_Calida => 26 | RoutableConnectors_Boku => 27
    | RoutableConnectors_Braintree => 28 | RoutableConnectors_Breadpay => 29
    | RoutableConnectors_Cashtocode => 30 | RoutableConnectors_Celero => 31
    | RoutableConnectors_Chargebee => 32 | RoutableConnectors_Custombilling => 33
    | RoutableConnectors_Checkbook => 34 | RoutableConnectors_Checkout => 35
    | RoutableConnectors_Citigate => 36 | RoutableConnectors_Coinbase => 37
    | RoutableConnectors_Coingate => 38 | RoutableConnectors_Cryptopay => 39
    | RoutableConnectors_Cybersource => 40
    | RoutableConnectors_Cybersourcedecisionmanager => 41 | RoutableConnectors_Datatrans => 42
    | RoutableConnectors_Deutschebank => 43 | RoutableConnectors_Digitalvirgo => 44
    | RoutableConnectors_Dlocal => 45 | RoutableConnectors_Dwolla => 46
    | RoutableConnectors_Ebanx => 47 | RoutableConnectors_Elavon => 48
    | RoutableConnectors_Envoy => 49 | RoutableConnectors_Facilitapay => 50
    | RoutableConnectors_Finix => 51 | RoutableConnectors_Fiserv => 52
    | RoutableConnectors_Fiservemea => 53 | RoutableConnectors_Fiservcommercehub => 54
    | RoutableConnectors_Fiuu => 55 | RoutableConnectors_Flexiti => 56
    | RoutableConnectors_Forte => 57 | RoutableConnectors_Getnet => 58
    | RoutableConnectors_Gigadat => 59 | RoutableConnectors_Givepayments => 60
    | RoutableConnectors_Globalpay => 61 | RoutableConnectors_Globepay => 62
    | RoutableConnectors_Gocardless => 63 | RoutableConnectors_Hipay => 64
    | RoutableConnectors_Helcim => 65 | RoutableConnectors_Hyperpg => 66
    | RoutableConnectors_Iatapay => 67 | RoutableConnectors_Ilixium => 68
    | RoutableConnectors_Imerchantsolutions => 69 | RoutableConnectors_Inespay => 70
    | RoutableConnectors_Interpayments => 71 | RoutableConnectors_Itaubank => 72
    | RoutableConnectors_Jpmorgan => 73 | RoutableConnectors_Klarna => 74
    | RoutableConnectors_Loonio => 75 | RoutableConnectors_Mifinity => 76
    | RoutableConnectors_Mollie => 77 | RoutableConnectors_Moneris => 78
    | RoutableConnectors_Multisafepay => 79 | RoutableConnectors_Nexinets => 80
    | RoutableConnectors_Nexixpay => 81 | RoutableConnectors_Nmi => 82
    | RoutableConnectors_Nomupay => 83 | RoutableConnectors_Noon => 84
    | RoutableConnectors_Nordea => 85 | RoutableConnectors_Novalnet => 86
    | RoutableConnectors_Nuvei => 87 | RoutableConnectors_Opennode => 88
    | RoutableConnectors_Paybox => 89 | RoutableConnectors_Payme => 90
    | RoutableConnectors_Payload => 91 | RoutableConnectors_Payone => 92
    | RoutableConnectors_Paypal => 93 | RoutableConnectors_Paysafe => 94
    | RoutableConnectors_Paystack => 95 | RoutableConnectors_Paytm => 96
    | RoutableConnectors_Payconex => 97 | RoutableConnectors_Payu => 98
    | RoutableConnectors_Peachpayments => 99 | RoutableConnectors_Payjustnow => 100
    | RoutableConnectors_Payjustnowinstore => 101 | RoutableConnectors_Phonepe => 102
    | RoutableConnectors_Placetopay => 103 | RoutableConnectors_Powertranz => 104
    | RoutableConnectors_Prophetpay => 105 | RoutableConnectors_Rapyd => 106
    | RoutableConnectors_Razorpay => 107 | RoutableConnectors_Recurly => 108
    | RoutableConnectors_Redsys => 109 | RoutableConnectors_Revolv3 => 110
    | RoutableConnectors_Riskified => 111 | RoutableConnectors_Santander => 112
    | RoutableConnectors_Shift4 => 113 | RoutableConnectors_Signifyd => 114
    | RoutableConnectors_Silverflow => 115 | RoutableConnectors_Square => 116
    | RoutableConnectors_Stax => 117 | RoutableConnectors_Stripe => 118
    | RoutableConnectors_Stripebilling => 119 | RoutableConnectors_Tesouro => 120
    | RoutableConnectors_Truelayer => 121 | RoutableConnectors_Trustly => 122
    | RoutableConnectors_Trustpay => 123 | RoutableConnectors_Trustpayments => 124
    | RoutableConnectors_Tokenio => 125 | RoutableConnectors_Tsys => 126
    | RoutableConnectors_TsysTransit => 127 | RoutableConnectors_Volt => 128
    | RoutableConnectors_Wellsfargo => 129 | RoutableConnectors_Wise => 130
    | RoutableConnectors_Worldline => 131 | RoutableConnectors_Worldpay => 132
    | RoutableConnectors_Worldpaymodular => 133 | RoutableConnectors_Worldpayvantiv => 134
    | RoutableConnectors_Worldpayxml => 135 | RoutableConnectors_Xendit => 136
    | RoutableConnectors_Zen => 137 | RoutableConnectors_Zift => 138
    | RoutableConnectors_Plaid => 139 | RoutableConnectors_Zsl => 140
    | RoutableConnectors_Juspaythreedsserver => 141 | RoutableConnectors_CtpMastercard => 142
    | RoutableConnectors_CtpVisa => 143 | RoutableConnectors_Netcetera => 144
    | RoutableConnectors_Vgs => 145 | RoutableConnectors_Cardinal => 146
    | RoutableConnectors_Threedsecureio => 147
    end;
|}.
Next Obligation. by intros []. Qed.

#[export] Instance RoutableConnectors_strum : EnumString RoutableConnectors := one_name (λ x, match x with
    | RoutableConnectors_AbsaSanlam => "absa_sanlam"
    | RoutableConnectors_Authipay => "authipay"
    | RoutableConnectors_Adyenplatform => "adyenplatform"
    | RoutableConnectors_DummyBillingConnector => "stripe_billing_test"
    | RoutableConnectors_DummyConnector1 => "phonypay"
    | RoutableConnectors_DummyConnector2 => "fauxpay"
    | RoutableConnectors_DummyConnector3 => "pretendpay"
    | RoutableConnectors_DummyConnector4 => "stripe_test"
    | RoutableConnectors_DummyConnector5 => "adyen_test"
    | RoutableConnectors_DummyConnector6 => "checkout_test"
    | RoutableConnectors_DummyConnector7 => "paypal_test" | RoutableConnectors_Aci => "aci"
    | RoutableConnectors_Adyen => "adyen" | RoutableConnectors_Affirm => "affirm"
    | RoutableConnectors_Airwallex => "airwallex" | RoutableConnectors_Amazonpay => "amazonpay"
    | RoutableConnectors_Archipel => "archipel"
    | RoutableConnectors_Authorizedotnet => "authorizedotnet"
    | RoutableConnectors_Bankofamerica => "bankofamerica"
    | RoutableConnectors_Barclaycard => "barclaycard"
    | RoutableConnectors_Billwerk => "billwerk" | RoutableConnectors_Bitpay => "bitpay"
    | RoutableConnectors_Bambora => "bambora"
    | RoutableConnectors_Blackhawknetwork => "blackhawknetwork"
    | RoutableConnectors_Bamboraapac => "bamboraapac"
    | RoutableConnectors_Bluesnap => "bluesnap" | RoutableConnectors_Calida => "calida"
    | RoutableConnectors_Boku => "boku" | RoutableConnectors_Braintree => "braintree"
    | RoutableConnectors_Breadpay => "breadpay" | RoutableConnectors_Cashtocode => "cashtocode"
    | RoutableConnectors_Celero => "celero" | RoutableConnectors_Chargebee => "chargebee"
    | RoutableConnectors_Custombilling => "custombilling"
    | RoutableConnectors_Checkbook => "checkbook" | RoutableConnectors_Checkout => "checkout"
    | RoutableConnectors_Citigate => "citigate" | RoutableConnectors_Coinbase => "coinbase"
    | RoutableConnectors_Coingate => "coingate" | RoutableConnectors_Cryptopay => "cryptopay"
    | RoutableConnectors_Cybersource => "cybersource"
    | RoutableConnectors_Cybersourcedecisionmanager => "cybersourcedecisionmanager"
    | RoutableConnectors_Datatrans => "datatrans"
    | RoutableConnectors_Deutschebank => "deutschebank"
    | RoutableConnectors_Digitalvirgo => "digitalvirgo" | RoutableConnectors_Dlocal => "dlocal"
    | RoutableConnectors_Dwolla => "dwolla" | RoutableConnectors_Ebanx => "ebanx"
    | RoutableConnectors_Elavon => "elavon" | RoutableConnectors_Envoy => "envoy"
    | RoutableConnectors_Facilitapay => "facilitapay" | RoutableConnectors_Finix => "finix"
    | RoutableConnectors_Fiserv => "fiserv" | RoutableConnectors_Fiservemea => "fiservemea"
    | RoutableConnectors_Fiservcommercehub => "fiservcommercehub"
    | RoutableConnectors_Fiuu => "fiuu" | RoutableConnectors_Flexiti => "flexiti"
    | RoutableConnectors_Forte => "forte" | RoutableConnectors_Getnet => "getnet"
    | RoutableConnectors_Gigadat => "gigadat"
    | RoutableConnectors_Givepayments => "givepayments"
    | RoutableConnectors_Globalpay => "globalpay" | RoutableConnectors_Globepay => "globepay"
    | RoutableConnectors_Gocardless => "gocardless" | RoutableConnectors_Hipay => "hipay"
    | RoutableConnectors_Helcim => "helcim" | RoutableConnectors_Hyperpg => "hyperpg"
    | RoutableConnectors_Iatapay => "iatapay" | RoutableConnectors_Ilixium => "ilixium"
    | RoutableConnectors_Imerchantsolutions => "imerchantsolutions"
    | RoutableConnectors_Inespay => "inespay"
    | RoutableConnectors_Interpayments => "interpayments"
    | RoutableConnectors_Itaubank => "itaubank" | RoutableConnectors_Jpmorgan => "jpmorgan"
    | RoutableConnectors_Klarna => "klarna" | RoutableConnectors_Loonio => "loonio"
    | RoutableConnectors_Mifinity => "mifinity" | RoutableConnectors_Mollie => "mollie"
    | RoutableConnectors_Moneris => "moneris"
    | RoutableConnectors_Multisafepay => "multisafepay"
    | RoutableConnectors_Nexinets => "nexinets" | RoutableConnectors_Nexixpay => "nexixpay"
    | RoutableConnectors_Nmi => "nmi" | RoutableConnectors_Nomupay => "nomupay"
    | RoutableConnectors_Noon => "noon" | RoutableConnectors_Nordea => "nordea"
    | RoutableConnectors_Novalnet => "novalnet" | RoutableConnectors_Nuvei => "nuvei"
    | RoutableConnectors_Opennode => "opennode" | RoutableConnectors_Paybox => "paybox"
    | RoutableConnectors_Payme => "payme" | RoutableConnectors_Payload => "payload"
    | RoutableConnectors_Payone => "payone" | RoutableConnectors_Paypal => "paypal"
    | RoutableConnectors_Paysafe => "paysafe" | RoutableConnectors_Paystack => "paystack"
    | RoutableConnectors_Paytm => "paytm" | RoutableConnectors_Payconex => "payconex"
    | RoutableConnectors_Payu => "payu" | RoutableConnectors_Peachpayments => "peachpayments"
    | RoutableConnectors_Payjustnow => "payjustnow"
    | RoutableConnectors_Payjustnowinstore => "payjustnowinstore"
    | RoutableConnectors_Phonepe => "phonepe" | RoutableConnectors_Placetopay => "placetopay"
    | RoutableConnectors_Powertranz => "powertranz"
    | RoutableConnectors_Prophetpay => "prophetpay" | RoutableConnectors_Rapyd => "rapyd"
    | RoutableConnectors_Razorpay => "razorpay" | RoutableConnectors_Recurly => "recurly"
    | RoutableConnectors_Redsys => "redsys" | RoutableConnectors_Revolv3 => "revolv3"
    | RoutableConnectors_Riskified => "riskified" | RoutableConnectors_Santander => "santander"
    | RoutableConnectors_Shift4 => "shift4" | RoutableConnectors_Signifyd => "signifyd"
    | RoutableConnectors_Silverflow => "silverflow" | RoutableConnectors_Square => "square"
    | RoutableConnectors_Stax => "stax" | RoutableConnectors_Stripe => "stripe"
    | RoutableConnectors_Stripebilling => "stripebilling"
    | RoutableConnectors_Tesouro => "tesouro" | RoutableConnectors_Truelayer => "truelayer"
    | RoutableConnectors_Trustly => "trustly" | RoutableConnectors_Trustpay => "trustpay"
    | RoutableConnectors_Trustpayments => "trustpayments"
    | RoutableConnectors_Tokenio => "tokenio" | RoutableConnectors_Tsys => "tsys"
    | RoutableConnectors_TsysTransit => "tsys_transit" | RoutableConnectors_Volt => "volt"
    | RoutableConnectors_Wellsfargo => "wellsfargo" | RoutableConnectors_Wise => "wise"
    | RoutableConnectors_Worldline => "worldline" | RoutableConnectors_Worldpay => "worldpay"
    | RoutableConnectors_Worldpaymodular => "worldpaymodular"
    | RoutableConnectors_Worldpayvantiv => "worldpayvantiv"
    | RoutableConnectors_Worldpayxml => "worldpayxml" | RoutableConnectors_Xendit => "xendit"
    | RoutableConnectors_Zen => "zen" | RoutableConnectors_Zift => "zift"
    | RoutableConnectors_Plaid => "plaid" | RoutableConnectors_Zsl => "zsl"
    | RoutableConnectors_Juspaythreedsserver => "juspaythreedsserver"
    | RoutableConnectors_CtpMastercard => "ctp_mastercard"
    | RoutableConnectors_CtpVisa => "ctp_visa" | RoutableConnectors_Netcetera => "netcetera"
    | RoutableConnectors_Vgs => "vgs" | RoutableConnectors_Cardinal => "cardinal"
    | RoutableConnectors_Threedsecureio => "threedsecureio"
    end).

Inductive CardType : Set :=
  | CardType_Credit | CardType_Debit.

#[export] Program Instance CardType_enumerated : Enumerated CardType := {|
  variants := [
    CardType_Credit; CardType_Debit];
  discriminant x := match x with
    | CardType_Credit => 0 | CardType_Debit => 1
    end;
|}.
Next Obligation. by intros []. Qed.

#[export] Instance CardType_strum : EnumString CardType := one_name (λ x, match x with
    | CardType_Credit => "credit" | CardType_Debit => "debit"
    end).

Inductive PayLaterType : Set :=
  | PayLaterType_Affirm | PayLaterType_AfterpayClearpay | PayLaterType_Alma
  | PayLaterType_Klarna | PayLaterType_PayBright | PayLaterType_Walley | PayLaterType_Flexiti
  | PayLaterType_Atome | PayLaterType_Breadpay | PayLaterType_Payjustnow.

#[export] Program Instance PayLaterType_enumerated : Enumerated PayLaterType := {|
  variants := [
    PayLaterType_Affirm; PayLaterType_AfterpayClearpay; PayLaterType_Alma; PayLaterType_Klarna;
    PayLaterType_PayBright; PayLaterType_Walley; PayLaterType_Flexiti; PayLaterType_Atome;
    PayLaterType_Breadpay; PayLaterType_Payjustnow];
  discriminant x := match x with
    | PayLaterType_Affirm => 0 | PayLaterType_AfterpayClearpay => 1 | PayLaterType_Alma => 2
    | PayLaterType_Klarna => 3 | PayLaterType_PayBright => 4 | PayLaterType_Walley => 5
    | PayLaterType_Flexiti => 6 | PayLaterType_Atome => 7 | PayLaterType_Breadpay => 8
    | PayLaterType_Payjustnow => 9
    end;
|}.
Next Obligation. by intros []. Qed.

#[export] Instance PayLaterType_strum : EnumString PayLaterType := one_name (λ x, match x with
    | PayLaterType_Affirm => "affirm" | PayLaterType_AfterpayClearpay => "afterpay_clearpay"
    | PayLaterType_Alma => "alma" | PayLaterType_Klarna => "klarna"
    | PayLaterType_PayBright => "pay_bright" | PayLaterType_Walley => "walley"
    | PayLaterType_Flexiti => "flexiti" | PayLaterType_Atome => "atome"
    | PayLaterType_Breadpay => "breadpay" | PayLaterType_Payjustnow => "payjustnow"
    end).

Inductive WalletType : Set :=
  | WalletType_Bluecode | WalletType_GooglePay | WalletType_AmazonPay | WalletType_Skrill
  | WalletType_Paysera | WalletType_ApplePay | WalletType_Paypal | WalletType_AliPay
  | WalletType_AliPayHk | WalletType_MbWay | WalletType_MobilePay | WalletType_WeChatPay
  | WalletType_SamsungPay | WalletType_GoPay | WalletType_KakaoPay | WalletType_Twint
  | WalletType_Gcash | WalletType_Vipps | WalletType_Momo | WalletType_Dana
  | WalletType_TouchNGo | WalletType_Swish | WalletType_Cashapp | WalletType_Venmo
  | WalletType_Mifinity | WalletType_Paze | WalletType_RevolutPay.

#[export] Program Instance WalletType_enumerated : Enumerated WalletType := {|
  variants := [
    WalletType_Bluecode; WalletType_GooglePay; WalletType_AmazonPay; WalletType_Skrill;
    WalletType_Paysera; WalletType_ApplePay; WalletType_Paypal; WalletType_AliPay;
    WalletType_AliPayHk; WalletType_MbWay; WalletType_MobilePay; WalletType_WeChatPay;
    WalletType_SamsungPay; WalletType_GoPay; WalletType_KakaoPay; WalletType_Twint;
    WalletType_Gcash; WalletType_Vipps; WalletType_Momo; WalletType_Dana; WalletType_TouchNGo;
    WalletType_Swish; WalletType_Cashapp; WalletType_Venmo; WalletType_Mifinity;
    WalletType_Paze; WalletType_RevolutPay];
  discriminant x := match x with
    | WalletType_Bluecode => 0 | WalletType_GooglePay => 1 | WalletType_AmazonPay => 2
    | WalletType_Skrill => 3 | WalletType_Paysera => 4 | WalletType_ApplePay => 5
    | WalletType_Paypal => 6 | WalletType_AliPay => 7 | WalletType_AliPayHk => 8
    | WalletType_MbWay => 9 | WalletType_MobilePay => 10 | WalletType_WeChatPay => 11
    | WalletType_SamsungPay => 12 | WalletType_GoPay => 13 | WalletType_KakaoPay => 14
    | WalletType_Twint => 15 | WalletType_Gcash => 16 | WalletType_Vipps => 17
    | WalletType_Momo => 18 | WalletType_Dana => 19 | WalletType_TouchNGo => 20
    | WalletType_Swish => 21 | WalletType_Cashapp => 22 | WalletType_Venmo => 23
    | WalletType_Mifinity => 24 | WalletType_Paze => 25 | WalletType_RevolutPay => 26
    end;
|}.
Next Obligation. by intros []. Qed.

#[export] Instance WalletType_strum : EnumString WalletType := one_name (λ x, match x with
    | WalletType_Bluecode => "bluecode" | WalletType_GooglePay => "google_pay"
    | WalletType_AmazonPay => "amazon_pay" | WalletType_Skrill => "skrill"
    | WalletType_Paysera => "paysera" | WalletType_ApplePay => "apple_pay"
    | WalletType_Paypal => "paypal" | WalletType_AliPay => "ali_pay"
    | WalletType_AliPayHk => "ali_pay_hk" | WalletType_MbWay => "mb_way"
    | WalletType_MobilePay => "mobile_pay" | WalletType_WeChatPay => "we_chat_pay"
    | WalletType_SamsungPay => "samsung_pay" | WalletType_GoPay => "go_pay"
    | WalletType_KakaoPay => "kakao_pay" | WalletType_Twint => "twint"
    | WalletType_Gcash => "gcash" | WalletType_Vipps => "vipps" | WalletType_Momo => "momo"
    | WalletType_Dana => "dana" | WalletType_TouchNGo => "touch_n_go"
    | WalletType_Swish => "swish" | WalletType_Cashapp => "cashapp"
    | WalletType_Venmo => "venmo" | WalletType_Mifinity => "mifinity"
    | WalletType_Paze => "paze" | WalletType_RevolutPay => "revolut_pay"
    end).

Inductive VoucherType : Set :=
  | VoucherType_Boleto | VoucherType_Efecty | VoucherType_PagoEfectivo | VoucherType_RedCompra
  | VoucherType_RedPagos | VoucherType_Alfamart | VoucherType_Indomaret
  | VoucherType_SevenEleven | VoucherType_Lawson | VoucherType_MiniStop
  | VoucherType_FamilyMart | VoucherType_Seicomart | VoucherType_PayEasy | VoucherType_Oxxo.

#[export] Program Instance VoucherType_enumerated : Enumerated VoucherType := {|
  variants := [
    VoucherType_Boleto; VoucherType_Efecty; VoucherType_PagoEfectivo; VoucherType_RedCompra;
    VoucherType_RedPagos; VoucherType_Alfamart; VoucherType_Indomaret; VoucherType_SevenEleven;
    VoucherType_Lawson; VoucherType_MiniStop; VoucherType_FamilyMart; VoucherType_Seicomart;
    VoucherType_PayEasy; VoucherType_Oxxo];
  discriminant x := match x with
    | VoucherType_Boleto => 0 | VoucherType_Efecty => 1 | VoucherType_PagoEfectivo => 2
    | VoucherType_RedCompra => 3 | VoucherType_RedPagos => 4 | VoucherType_Alfamart => 5
    | VoucherType_Indomaret => 6 | VoucherType_SevenEleven => 7 | VoucherType_Lawson => 8
    | VoucherType_MiniStop => 9 | VoucherType_FamilyMart => 10 | VoucherType_Seicomart => 11
    | VoucherType_PayEasy => 12 | VoucherType_Oxxo => 13
    end;
|}.
Next Obligation. by intros []. Qed.

#[export] Instance VoucherType_strum : EnumString VoucherType := one_name (λ x, match x with
    | VoucherType_Boleto => "boleto" | VoucherType_Efecty => "efecty"
    | VoucherType_PagoEfectivo => "pago_efectivo" | VoucherType_RedCompra => "red_compra"
    | VoucherType_RedPagos => "red_pagos" | VoucherType_Alfamart => "alfamart"
    | VoucherType_Indomaret => "indomaret" | VoucherType_SevenEleven => "seven_eleven"
    | VoucherType_Lawson => "lawson" | VoucherType_MiniStop => "mini_stop"
    | VoucherType_FamilyMart => "family_mart" | VoucherType_Seicomart => "seicomart"
    | VoucherType_PayEasy => "pay_easy" | VoucherType_Oxxo => "oxxo"
    end).

Inductive BankRedirectType : Set :=
  | BankRedirectType_Bizum | BankRedirectType_Giropay | BankRedirectType_Ideal
  | BankRedirectType_Sofort | BankRedirectType_Eft | BankRedirectType_Eps
  | BankRedirectType_BancontactCard | BankRedirectType_Blik | BankRedirectType_Interac
  | BankRedirectType_LocalBankRedirect | BankRedirectType_OnlineBankingCzechRepublic
  | BankRedirectType_OnlineBankingFinland | BankRedirectType_OnlineBankingPoland
  | BankRedirectType_OnlineBankingSlovakia | BankRedirectType_OnlineBankingFpx
  | BankRedirectType_OnlineBankingThailand | BankRedirectType_OpenBankingUk
  | BankRedirectType_Przelewy24 | BankRedirectType_Trustly | BankRedirectType_OpenBanking.

#[export] Program Instance BankRedirectType_enumerated : Enumerated BankRedirectType := {|
  variants := [
    BankRedirectType_Bizum; BankRedirectType_Giropay; BankRedirectType_Ideal;
    BankRedirectType_Sofort; BankRedirectType_Eft; BankRedirectType_Eps;
    BankRedirectType_BancontactCard; BankRedirectType_Blik; BankRedirectType_Interac;
    BankRedirectType_LocalBankRedirect; BankRedirectType_OnlineBankingCzechRepublic;
    BankRedirectType_OnlineBankingFinland; BankRedirectType_OnlineBankingPoland;
    BankRedirectType_OnlineBankingSlovakia; BankRedirectType_OnlineBankingFpx;
    BankRedirectType_OnlineBankingThailand; BankRedirectType_OpenBankingUk;
    BankRedirectType_Przelewy24; BankRedirectType_Trustly; BankRedirectType_OpenBanking];
  discriminant x := match x with
    | BankRedirectType_Bizum => 0 | BankRedirectType_Giropay => 1 | BankRedirectType_Ideal => 2
    | BankRedirectType_Sofort => 3 | BankRedirectType_Eft => 4 | BankRedirectType_Eps => 5
    | BankRedirectType_BancontactCard => 6 | BankRedirectType_Blik => 7
    | BankRedirectType_Interac => 8 | BankRedirectType_LocalBankRedirect => 9
    | BankRedirectType_OnlineBankingCzechRepublic => 10
    | BankRedirectType_OnlineBankingFinland => 11 | BankRedirectType_OnlineBankingPoland => 12
    | BankRedirectType_OnlineBankingSlovakia => 13 | BankRedirectType_OnlineBankingFpx => 14
    | BankRedirectType_OnlineBankingThailand => 15 | BankRedirectType_OpenBankingUk => 16
    | BankRedirectType_Przelewy24 => 17 | BankRedirectType_Trustly => 18
    | BankRedirectType_OpenBanking => 19
    end;
|}.
Next Obligation. by intros []. Qed.

#[export] Instance BankRedirectType_strum : EnumString BankRedirectType := one_name (λ x, match x with
    | BankRedirectType_Bizum => "bizum" | BankRedirectType_Giropay => "giropay"
    | BankRedirectType_Ideal => "ideal" | BankRedirectType_Sofort => "sofort"
    | BankRedirectType_Eft => "eft" | BankRedirectType_Eps => "eps"
    | BankRedirectType_BancontactCard => "bancontact_card" | BankRedirectType_Blik => "blik"
    | BankRedirectType_Interac => "interac"
    | BankRedirectType_LocalBankRedirect => "local_bank_redirect"
    | BankRedirectType_OnlineBankingCzechRepublic => "online_banking_czech_republic"
    | BankRedirectType_OnlineBankingFinland => "online_banking_finland"
    | BankRedirectType_OnlineBankingPoland => "online_banking_poland"
    | BankRedirectType_OnlineBankingSlovakia => "online_banking_slovakia"
    | BankRedirectType_OnlineBankingFpx => "online_banking_fpx"
    | BankRedirectType_OnlineBankingThailand => "online_banking_thailand"
    | BankRedirectType_OpenBankingUk => "open_banking_uk"
    | BankRedirectType_Przelewy24 => "przelewy24" | BankRedirectType_Trustly => "trustly"
    | BankRedirectType_OpenBanking => "open_banking"
    end).

Inductive OpenBankingType : Set :=
  | OpenBankingType_OpenBankingPIS.

#[export] Program Instance OpenBankingType_enumerated : Enumerated OpenBankingType := {|
  variants := [
    OpenBankingType_OpenBankingPIS];
  discriminant x := match x with
    | OpenBankingType_OpenBankingPIS => 0
    end;
|}.
Next Obligation. by intros []. Qed.

#[export] Instance OpenBankingType_strum : EnumString OpenBankingType := one_name (λ x, match x with
    | OpenBankingType_OpenBankingPIS => "open_banking_pis"
    end).

Inductive BankTransferType : Set :=
  | BankTransferType_Multibanco | BankTransferType_Ach | BankTransferType_SepaBankTransfer
  | BankTransferType_Bacs | BankTransferType_BcaBankTransfer | BankTransferType_BniVa
  | BankTransferType_BriVa | BankTransferType_CimbVa | BankTransferType_DanamonVa
  | BankTransferType_MandiriVa | BankTransferType_PermataBankTransfer | BankTransferType_Pix
  | BankTransferType_PixKey | BankTransferType_PixEmv | BankTransferType_PixQr
  | BankTransferType_PixAutomaticoPush | BankTransferType_PixAutomaticoQr
  | BankTransferType_Pse | BankTransferType_LocalBankTransfer
  | BankTransferType_InstantBankTransfer | BankTransferType_InstantBankTransferFinland
  | BankTransferType_InstantBankTransferPoland | BankTransferType_IndonesianBankTransfer.

#[export] Program Instance BankTransferType_enumerated : Enumerated BankTransferType := {|
  variants := [
    BankTransferType_Multibanco; BankTransferType_Ach; BankTransferType_SepaBankTransfer;
    BankTransferType_Bacs; BankTransferType_BcaBankTransfer; BankTransferType_BniVa;
    BankTransferType_BriVa; BankTransferType_CimbVa; BankTransferType_DanamonVa;
    BankTransferType_MandiriVa; BankTransferType_PermataBankTransfer; BankTransferType_Pix;
    BankTransferType_PixKey; BankTransferType_PixEmv; BankTransferType_PixQr;
    BankTransferType_PixAutomaticoPush; BankTransferType_PixAutomaticoQr; BankTransferType_Pse;
    BankTransferType_LocalBankTransfer; BankTransferType_InstantBankTransfer;
    BankTransferType_InstantBankTransferFinland; BankTransferType_InstantBankTransferPoland;
    BankTransferType_IndonesianBankTransfer];
  discriminant x := match x with
    | BankTransferType_Multibanco => 0 | BankTransferType_Ach => 1
    | BankTransferType_SepaBankTransfer => 2 | BankTransferType_Bacs => 3
    | BankTransferType_BcaBankTransfer => 4 | BankTransferType_BniVa => 5
    | BankTransferType_BriVa => 6 | BankTransferType_CimbVa => 7
    | BankTransferType_DanamonVa => 8 | BankTransferType_MandiriVa => 9
    | BankTransferType_PermataBankTransfer => 10 | BankTransferType_Pix => 11
    | BankTransferType_PixKey => 12 | BankTransferType_PixEmv => 13
    | BankTransferType_PixQr => 14 | BankTransferType_PixAutomaticoPush => 15
    | BankTransferType_PixAutomaticoQr => 16 | BankTransferType_Pse => 17
    | BankTransferType_LocalBankTransfer => 18 | BankTransferType_InstantBankTransfer => 19
    | BankTransferType_InstantBankTransferFinland => 20
    | BankTransferType_InstantBankTransferPoland => 21
    | BankTransferType_IndonesianBankTransfer => 22
    end;
|}.
Next Obligation. by intros []. Qed.

#[export] Instance BankTransferType_strum : EnumString BankTransferType := one_name (λ x, match x with
    | BankTransferType_Multibanco => "multibanco" | BankTransferType_Ach => "ach"
    | BankTransferType_SepaBankTransfer => "sepa_bank_transfer"
    | BankTransferType_Bacs => "bacs" | BankTransferType_BcaBankTransfer => "bca_bank_transfer"
    | BankTransferType_BniVa => "bni_va" | BankTransferType_BriVa => "bri_va"
    | BankTransferType_CimbVa => "cimb_va" | BankTransferType_DanamonVa => "danamon_va"
    | BankTransferType_MandiriVa => "mandiri_va"
    | BankTransferType_PermataBankTransfer => "permata_bank_transfer"
    | BankTransferType_Pix => "pix" | BankTransferType_PixKey => "pix_key"
    | BankTransferType_PixEmv => "pix_emv" | BankTransferType_PixQr => "pix_qr"
    | BankTransferType_PixAutomaticoPush => "pix_automatico_push"
    | BankTransferType_PixAutomaticoQr => "pix_automatico_qr" | BankTransferType_Pse => "pse"
    | BankTransferType_LocalBankTransfer => "local_bank_transfer"
    | BankTransferType_InstantBankTransfer => "instant_bank_transfer"
    | BankTransferType_InstantBankTransferFinland => "instant_bank_transfer_finland"
    | BankTransferType_InstantBankTransferPoland => "instant_bank_transfer_poland"
    | BankTransferType_IndonesianBankTransfer => "indonesian_bank_transfer"
    end).

Inductive GiftCardType : Set :=
  | GiftCardType_PaySafeCard | GiftCardType_Givex | GiftCardType_BhnCardNetwork.

#[export] Program Instance GiftCardType_enumerated : Enumerated GiftCardType := {|
  variants := [
    GiftCardType_PaySafeCard; GiftCardType_Givex; GiftCardType_BhnCardNetwork];
  discriminant x := match x with
    | GiftCardType_PaySafeCard => 0 | GiftCardType_Givex => 1
    | GiftCardType_BhnCardNetwork => 2
    end;
|}.
Next Obligation. by intros []. Qed.

#[export] Instance GiftCardType_strum : EnumString GiftCardType := one_name (λ x, match x with
    | GiftCardType_PaySafeCard => "pay_safe_card" | GiftCardType_Givex => "givex"
    | GiftCardType_BhnCardNetwork => "bhn_card_network"
    end).

Inductive CardRedirectType : Set :=
  | CardRedirectType_Benefit | CardRedirectType_Knet | CardRedirectType_MomoAtm
  | CardRedirectType_CardRedirect.

#[export] Program Instance CardRedirectType_enumerated : Enumerated CardRedirectType := {|
  variants := [
    CardRedirectType_Benefit; CardRedirectType_Knet; CardRedirectType_MomoAtm;
    CardRedirectType_CardRedirect];
  discriminant x := match x with
    | CardRedirectType_Benefit => 0 | CardRedirectType_Knet => 1
    | CardRedirectType_MomoAtm => 2 | CardRedirectType_CardRedirect => 3
    end;
|}.
Next Obligation. by intros []. Qed.

#[export] Instance CardRedirectType_strum : EnumString CardRedirectType := one_name (λ x, match x with
    | CardRedirectType_Benefit => "benefit" | CardRedirectType_Knet => "knet"
    | CardRedirectType_MomoAtm => "momo_atm" | CardRedirectType_CardRedirect => "card_redirect"
    end).

Inductive MobilePaymentType : Set :=
  | MobilePaymentType_DirectCarrierBilling.

#[export] Program Instance MobilePaymentType_enumerated : Enumerated MobilePaymentType := {|
  variants := [
    MobilePaymentType_DirectCarrierBilling];
  discriminant x := match x with
    | MobilePaymentType_DirectCarrierBilling => 0
    end;
|}.
Next Obligation. by intros []. Qed.

#[export] Instance MobilePaymentType_strum : EnumString MobilePaymentType := one_name (λ x, match x with
    | MobilePaymentType_DirectCarrierBilling => "direct_carrier_billing"
    end).

Inductive NetworkTokenType : Set :=
  | NetworkTokenType_NetworkToken.

#[export] Program Instance NetworkTokenType_enumerated : Enumerated NetworkTokenType := {|
  variants := [
    NetworkTokenType_NetworkToken];
  discriminant x := match x with
    | NetworkTokenType_NetworkToken => 0
    end;
|}.
Next Obligation. by intros []. Qed.

#[export] Instance NetworkTokenType_strum : EnumString NetworkTokenType := one_name (λ x, match x with
    | NetworkTokenType_NetworkToken => "network_token"
    end).

Inductive CryptoType : Set :=
  | CryptoType_CryptoCurrency.

#[export] Program Instance CryptoType_enumerated : Enumerated CryptoType := {|
  variants := [
    CryptoType_CryptoCurrency];
  discriminant x := match x with
    | CryptoType_CryptoCurrency => 0
    end;
|}.
Next Obligation. by intros []. Qed.

#[export] Instance CryptoType_strum : EnumString CryptoType := one_name (λ x, match x with
    | CryptoType_CryptoCurrency => "crypto_currency"
    end).

Inductive RealTimePaymentType : Set :=
  | RealTimePaymentType_Fps | RealTimePaymentType_DuitNow | RealTimePaymentType_PromptPay
  | RealTimePaymentType_VietQr | RealTimePaymentType_Qris.

#[export] Program Instance RealTimePaymentType_enumerated : Enumerated RealTimePaymentType := {|
  variants := [
    RealTimePaymentType_Fps; RealTimePaymentType_DuitNow; RealTimePaymentType_PromptPay;
    RealTimePaymentType_VietQr; RealTimePaymentType_Qris];
  discriminant x := match x with
    | RealTimePaymentType_Fps => 0 | RealTimePaymentType_DuitNow => 1
    | RealTimePaymentType_PromptPay => 2 | RealTimePaymentType_VietQr => 3
    | RealTimePaymentType_Qris => 4
    end;
|}.
Next Obligation. by intros []. Qed.

#[export] Instance RealTimePaymentType_strum : EnumString RealTimePaymentType := one_name (λ x, match x with
    | RealTimePaymentType_Fps => "fps" | RealTimePaymentType_DuitNow => "duit_now"
    | RealTimePaymentType_PromptPay => "prompt_pay" | RealTimePaymentType_VietQr => "viet_qr"
    | RealTimePaymentType_Qris => "qris"
    end).

Inductive UpiType : Set :=
  | UpiType_UpiCollect | UpiType_UpiIntent | UpiType_UpiQr.

#[export] Program Instance UpiType_enumerated : Enumerated UpiType := {|
  variants := [
    UpiType_UpiCollect; UpiType_UpiIntent; UpiType_UpiQr];
  discriminant x := match x with
    | UpiType_UpiCollect => 0 | UpiType_UpiIntent => 1 | UpiType_UpiQr => 2
    end;
|}.
Next Obligation. by intros []. Qed.

#[export] Instance UpiType_strum : EnumString UpiType := one_name (λ x, match x with
    | UpiType_UpiCollect => "upi_collect" | UpiType_UpiIntent => "upi_intent"
    | UpiType_UpiQr => "upi_qr"
    end).

Inductive BankDebitType : Set :=
  | BankDebitType_Ach | BankDebitType_EftDebitOrder | BankDebitType_Sepa
  | BankDebitType_SepaGuarenteedDebit | BankDebitType_Bacs | BankDebitType_Becs.

#[export] Program Instance BankDebitType_enumerated : Enumerated BankDebitType := {|
  variants := [
    BankDebitType_Ach; BankDebitType_EftDebitOrder; BankDebitType_Sepa;
    BankDebitType_SepaGuarenteedDebit; BankDebitType_Bacs; BankDebitType_Becs];
  discriminant x := match x with
    | BankDebitType_Ach => 0 | BankDebitType_EftDebitOrder => 1 | BankDebitType_Sepa => 2
    | BankDebitType_SepaGuarenteedDebit => 3 | BankDebitType_Bacs => 4
    | BankDebitType_Becs => 5
    end;
|}.
Next Obligation. by intros []. Qed.

#[export] Instance BankDebitType_strum : EnumString BankDebitType := one_name (λ x, match x with
    | BankDebitType_Ach => "ach" | BankDebitType_EftDebitOrder => "eft_debit_order"
    | BankDebitType_Sepa => "sepa"
    | BankDebitType_SepaGuarenteedDebit => "sepa_guarenteed_debit"
    | BankDebitType_Bacs => "bacs" | BankDebitType_Becs => "becs"
    end).

Inductive RewardType : Set :=
  | RewardType_ClassicReward | RewardType_Evoucher.

#[export] Program Instance RewardType_enumerated : Enumerated RewardType := {|
  variants := [
    RewardType_ClassicReward; RewardType_Evoucher];
  discriminant x := match x with
    | RewardType_ClassicReward => 0 | RewardType_Evoucher => 1
    end;
|}.
Next Obligation. by intros []. Qed.

#[export] Instance RewardType_strum : EnumString RewardType := one_name (λ x, match x with
    | RewardType_ClassicReward => "classic_reward" | RewardType_Evoucher => "evoucher"
    end).

Inductive TransactionInitiator : Set :=
  | TransactionInitiator_Customer | TransactionInitiator_Merchant.

#[export] Program Instance TransactionInitiator_enumerated : Enumerated TransactionInitiator := {|
  variants := [
    TransactionInitiator_Customer; TransactionInitiator_Merchant];
  discriminant x := match x with
    | TransactionInitiator_Customer => 0 | TransactionInitiator_Merchant => 1
    end;
|}.
Next Obligation. by intros []. Qed.

#[export] Instance TransactionInitiator_strum : EnumString TransactionInitiator := one_name (λ x, match x with
    | TransactionInitiator_Customer => "customer" | TransactionInitiator_Merchant => "merchant"
    end).

Inductive CustomerDevicePlatform : Set :=
  | CustomerDevicePlatform_Web | CustomerDevicePlatform_Android | CustomerDevicePlatform_Ios.

#[export] Program Instance CustomerDevicePlatform_enumerated : Enumerated CustomerDevicePlatform := {|
  variants := [
    CustomerDevicePlatform_Web; CustomerDevicePlatform_Android; CustomerDevicePlatform_Ios];
  discriminant x := match x with
    | CustomerDevicePlatform_Web => 0 | CustomerDevicePlatform_Android => 1
    | CustomerDevicePlatform_Ios => 2
    end;
|}.
Next Obligation. by intros []. Qed.

#[export] Instance CustomerDevicePlatform_strum : EnumString CustomerDevicePlatform := one_name (λ x, match x with
    | CustomerDevicePlatform_Web => "web" | CustomerDevicePlatform_Android => "android"
    | CustomerDevicePlatform_Ios => "ios"
    end).

Inductive CustomerDeviceType : Set :=
  | CustomerDeviceType_Mobile | CustomerDeviceType_Tablet | CustomerDeviceType_Desktop
  | CustomerDeviceType_GamingConsole.

#[export] Program Instance CustomerDeviceType_enumerated : Enumerated CustomerDeviceType := {|
  variants := [
    CustomerDeviceType_Mobile; CustomerDeviceType_Tablet; CustomerDeviceType_Desktop;
    CustomerDeviceType_GamingConsole];
  discriminant x := match x with
    | CustomerDeviceType_Mobile => 0 | CustomerDeviceType_Tablet => 1
    | CustomerDeviceType_Desktop => 2 | CustomerDeviceType_GamingConsole => 3
    end;
|}.
Next Obligation. by intros []. Qed.

#[export] Instance CustomerDeviceType_strum : EnumString CustomerDeviceType := one_name (λ x, match x with
    | CustomerDeviceType_Mobile => "mobile" | CustomerDeviceType_Tablet => "tablet"
    | CustomerDeviceType_Desktop => "desktop"
    | CustomerDeviceType_GamingConsole => "gaming_console"
    end).

Inductive CustomerDeviceDisplaySize : Set :=
  | CustomerDeviceDisplaySize_Size320x568 | CustomerDeviceDisplaySize_Size375x667
  | CustomerDeviceDisplaySize_Size390x844 | CustomerDeviceDisplaySize_Size414x896
  | CustomerDeviceDisplaySize_Size428x926 | CustomerDeviceDisplaySize_Size768x1024
  | CustomerDeviceDisplaySize_Size834x1112 | CustomerDeviceDisplaySize_Size834x1194
  | CustomerDeviceDisplaySize_Size1024x1366 | CustomerDeviceDisplaySize_Size1280x720
  | CustomerDeviceDisplaySize_Size1366x768 | CustomerDeviceDisplaySize_Size1440x900
  | CustomerDeviceDisplaySize_Size1920x1080 | CustomerDeviceDisplaySize_Size2560x1440
  | CustomerDeviceDisplaySize_Size3840x2160 | CustomerDeviceDisplaySize_Size500x600
  | CustomerDeviceDisplaySize_Size600x400 | CustomerDeviceDisplaySize_Size360x640
  | CustomerDeviceDisplaySize_Size412x915 | CustomerDeviceDisplaySize_Size800x1280.

#[export] Program Instance CustomerDeviceDisplaySize_enumerated : Enumerated CustomerDeviceDisplaySize := {|
  variants := [
    CustomerDeviceDisplaySize_Size320x568; CustomerDeviceDisplaySize_Size375x667;
    CustomerDeviceDisplaySize_Size390x844; CustomerDeviceDisplaySize_Size414x896;
    CustomerDeviceDisplaySize_Size428x926; CustomerDeviceDisplaySize_Size768x1024;
    CustomerDeviceDisplaySize_Size834x1112; CustomerDeviceDisplaySize_Size834x1194;
    CustomerDeviceDisplaySize_Size1024x1366; CustomerDeviceDisplaySize_Size1280x720;
    CustomerDeviceDisplaySize_Size1366x768; CustomerDeviceDisplaySize_Size1440x900;
    CustomerDeviceDisplaySize_Size1920x1080; CustomerDeviceDisplaySize_Size2560x1440;
    CustomerDeviceDisplaySize_Size3840x2160; CustomerDeviceDisplaySize_Size500x600;
    CustomerDeviceDisplaySize_Size600x400; CustomerDeviceDisplaySize_Size360x640;
    CustomerDeviceDisplaySize_Size412x915; CustomerDeviceDisplaySize_Size800x1280];
  discriminant x := match x with
    | CustomerDeviceDisplaySize_Size320x568 => 0 | CustomerDeviceDisplaySize_Size375x667 => 1
    | CustomerDeviceDisplaySize_Size390x844 => 2 | CustomerDeviceDisplaySize_Size414x896 => 3
    | CustomerDeviceDisplaySize_Size428x926 => 4 | CustomerDeviceDisplaySize_Size768x1024 => 5
    | CustomerDeviceDisplaySize_Size834x1112 => 6 | CustomerDeviceDisplaySize_Size834x1194 => 7
    | CustomerDeviceDisplaySize_Size1024x1366 => 8
    | CustomerDeviceDisplaySize_Size1280x720 => 9
    | CustomerDeviceDisplaySize_Size1366x768 => 10
    | CustomerDeviceDisplaySize_Size1440x900 => 11
    | CustomerDeviceDisplaySize_Size1920x1080 => 12
    | CustomerDeviceDisplaySize_Size2560x1440 => 13
    | CustomerDeviceDisplaySize_Size3840x2160 => 14
    | CustomerDeviceDisplaySize_Size500x600 => 15 | CustomerDeviceDisplaySize_Size600x400 => 16
    | CustomerDeviceDisplaySize_Size360x640 => 17 | CustomerDeviceDisplaySize_Size412x915 => 18
    | CustomerDeviceDisplaySize_Size800x1280 => 19
    end;
|}.
Next Obligation. by intros []. Qed.

#[export] Instance CustomerDeviceDisplaySize_strum : EnumString CustomerDeviceDisplaySize := one_name (λ x, match x with
    | CustomerDeviceDisplaySize_Size320x568 => "size320x568"
    | CustomerDeviceDisplaySize_Size375x667 => "size375x667"
    | CustomerDeviceDisplaySize_Size390x844 => "size390x844"
    | CustomerDeviceDisplaySize_Size414x896 => "size414x896"
    | CustomerDeviceDisplaySize_Size428x926 => "size428x926"
    | CustomerDeviceDisplaySize_Size768x1024 => "size768x1024"
    | CustomerDeviceDisplaySize_Size834x1112 => "size834x1112"
    | CustomerDeviceDisplaySize_Size834x1194 => "size834x1194"
    | CustomerDeviceDisplaySize_Size1024x1366 => "size1024x1366"
    | CustomerDeviceDisplaySize_Size1280x720 => "size1280x720"
    | CustomerDeviceDisplaySize_Size1366x768 => "size1366x768"
    | CustomerDeviceDisplaySize_Size1440x900 => "size1440x900"
    | CustomerDeviceDisplaySize_Size1920x1080 => "size1920x1080"
    | CustomerDeviceDisplaySize_Size2560x1440 => "size2560x1440"
    | CustomerDeviceDisplaySize_Size3840x2160 => "size3840x2160"
    | CustomerDeviceDisplaySize_Size500x600 => "size500x600"
    | CustomerDeviceDisplaySize_Size600x400 => "size600x400"
    | CustomerDeviceDisplaySize_Size360x640 => "size360x640"
    | CustomerDeviceDisplaySize_Size412x915 => "size412x915"
    | CustomerDeviceDisplaySize_Size800x1280 => "size800x1280"
    end).

#[export] Instance MandateAcceptanceType_laws : EnumStringLaws MandateAcceptanceType.
Proof. apply enum_string_laws_check. by_evaluation. Qed.
#[export] Instance PaymentType_laws : EnumStringLaws PaymentType.
Proof. apply enum_string_laws_check. by_evaluation. Qed.
#[export] Instance MandateType_laws : EnumStringLaws MandateType.
Proof. apply enum_string_laws_check. by_evaluation. Qed.
#[export] Instance CardType_laws : EnumStringLaws CardType.
Proof. apply enum_string_laws_check. by_evaluation. Qed.
#[export] Instance PayLaterType_laws : EnumStringLaws PayLaterType.
Proof. apply enum_string_laws_check. by_evaluation. Qed.
#[export] Instance WalletType_laws : EnumStringLaws WalletType.
Proof. apply enum_string_laws_check. by_evaluation. Qed.
#[export] Instance VoucherType_laws : EnumStringLaws VoucherType.
Proof. apply enum_string_laws_check. by_evaluation. Qed.
#[export] Instance BankRedirectType_laws : EnumStringLaws BankRedirectType.
Proof. apply enum_string_laws_check. by_evaluation. Qed.
#[export] Instance OpenBankingType_laws : EnumStringLaws OpenBankingType.
Proof. apply enum_string_laws_check. by_evaluation. Qed.
#[export] Instance BankTransferType_laws : EnumStringLaws BankTransferType.
Proof. apply enum_string_laws_check. by_evaluation. Qed.
#[export] Instance GiftCardType_laws : EnumStringLaws GiftCardType.
Proof. apply enum_string_laws_check. by_evaluation. Qed.
#[export] Instance CardRedirectType_laws : EnumStringLaws CardRedirectType.
Proof. apply enum_string_laws_check. by_evaluation. Qed.
#[export] Instance MobilePaymentType_laws : EnumStringLaws MobilePaymentType.
Proof. apply enum_string_laws_check. by_evaluation. Qed.
#[export] Instance NetworkTokenType_laws : EnumStringLaws NetworkTokenType.
Proof. apply enum_string_laws_check. by_evaluation. Qed.
#[export] Instance CryptoType_laws : EnumStringLaws CryptoType.
Proof. apply enum_string_laws_check. by_evaluation. Qed.
#[export] Instance RealTimePaymentType_laws : EnumStringLaws RealTimePaymentType.
Proof. apply enum_string_laws_check. by_evaluation. Qed.
#[export] Instance UpiType_laws : EnumStringLaws UpiType.
Proof. apply enum_string_laws_check. by_evaluation. Qed.
#[export] Instance BankDebitType_laws : EnumStringLaws BankDebitType.
Proof. apply enum_string_laws_check. by_evaluation. Qed.
#[export] Instance RewardType_laws : EnumStringLaws RewardType.
Proof. apply enum_string_laws_check. by_evaluation. Qed.
#[export] Instance TransactionInitiator_laws : EnumStringLaws TransactionInitiator.
Proof. apply enum_string_laws_check. by_evaluation. Qed.
#[export] Instance CustomerDevicePlatform_laws : EnumStringLaws CustomerDevicePlatform.
Proof. apply enum_string_laws_check. by_evaluation. Qed.
#[export] Instance CustomerDeviceType_laws : EnumStringLaws CustomerDeviceType.
Proof. apply enum_string_laws_check. by_evaluation. Qed.
#[export] Instance CustomerDeviceDisplaySize_laws : EnumStringLaws CustomerDeviceDisplaySize.
Proof. apply enum_string_laws_check. by_evaluation. Qed.
