(* ===== verification/EuclidTypes.v ===== *)
(** * Keys and values of the routing language

    [crates/euclid/src/types.rs]: the keys and values the compiled rules are
    evaluated on ([EuclidKey], [EuclidValue], [NumValue]);
    [crates/euclid/src/frontend/dir.rs]: the keys and values a rule is written
    with ([DirKeyKind], [DirValue]).  The build has neither the [payouts] nor
    the [v2] feature.  Sets and maps of values need countable types: a value
    is encoded as its key with the encoding of its payload. *)

From S2P Require Import Prelude Country Currency PaymentEnums EuclidEnums.

Inductive DataType : Set :=
  | DataType_Number | DataType_EnumVariant | DataType_MetadataValue | DataType_StrValue.

#[export] Program Instance DataType_enumerated : Enumerated DataType := {|
  variants := [
    DataType_Number; DataType_EnumVariant; DataType_MetadataValue; DataType_StrValue];
  discriminant x := match x with
    | DataType_Number => 0 | DataType_EnumVariant => 1 | DataType_MetadataValue => 2
    | DataType_StrValue => 3
    end;
|}.
Next Obligation. by intros []. Qed.

(** [ast::ComparisonType]. *)
Inductive ComparisonType : Set :=
  | ComparisonType_Equal | ComparisonType_NotEqual | ComparisonType_LessThan
  | ComparisonType_LessThanEqual | ComparisonType_GreaterThan | ComparisonType_GreaterThanEqual.

#[export] Program Instance ComparisonType_enumerated : Enumerated ComparisonType := {|
  variants := [
    ComparisonType_Equal; ComparisonType_NotEqual; ComparisonType_LessThan;
    ComparisonType_LessThanEqual; ComparisonType_GreaterThan; ComparisonType_GreaterThanEqual];
  discriminant x := match x with
    | ComparisonType_Equal => 0 | ComparisonType_NotEqual => 1 | ComparisonType_LessThan => 2
    | ComparisonType_LessThanEqual => 3 | ComparisonType_GreaterThan => 4
    | ComparisonType_GreaterThanEqual => 5
    end;
|}.
Next Obligation. by intros []. Qed.

Inductive NumValueRefinement : Set :=
  | NumValueRefinement_NotEqual | NumValueRefinement_GreaterThan | NumValueRefinement_LessThan
  | NumValueRefinement_GreaterThanEqual | NumValueRefinement_LessThanEqual.

#[export] Program Instance NumValueRefinement_enumerated : Enumerated NumValueRefinement := {|
  variants := [
    NumValueRefinement_NotEqual; NumValueRefinement_GreaterThan; NumValueRefinement_LessThan;
    NumValueRefinement_GreaterThanEqual; NumValueRefinement_LessThanEqual];
  discriminant x := match x with
    | NumValueRefinement_NotEqual => 0 | NumValueRefinement_GreaterThan => 1
    | NumValueRefinement_LessThan => 2 | NumValueRefinement_GreaterThanEqual => 3
    | NumValueRefinement_LessThanEqual => 4
    end;
|}.
Next Obligation. by intros []. Qed.

(** [From<ast::ComparisonType> for Option<NumValueRefinement>]. *)
Definition refinement_of_comparison (c : ComparisonType) : option NumValueRefinement :=
  match c with
  | ComparisonType_Equal => None
  | ComparisonType_NotEqual => Some NumValueRefinement_NotEqual
  | ComparisonType_GreaterThan => Some NumValueRefinement_GreaterThan
  | ComparisonType_LessThan => Some NumValueRefinement_LessThan
  | ComparisonType_LessThanEqual => Some NumValueRefinement_LessThanEqual
  | ComparisonType_GreaterThanEqual => Some NumValueRefinement_GreaterThanEqual
  end.

(** [From<NumValueRefinement> for ast::ComparisonType]. *)
Definition comparison_of_refinement (r : NumValueRefinement) : ComparisonType :=
  match r with
  | NumValueRefinement_NotEqual => ComparisonType_NotEqual
  | NumValueRefinement_LessThan => ComparisonType_LessThan
  | NumValueRefinement_GreaterThan => ComparisonType_GreaterThan
  | NumValueRefinement_GreaterThanEqual => ComparisonType_GreaterThanEqual
  | NumValueRefinement_LessThanEqual => ComparisonType_LessThanEqual
  end.

Record StrValue := mkStrValue { str_value : string }.
Record MetadataValue := mkMetadataValue { md_key : string; md_value : string }.
(** [number] is a [MinorUnit], an [i64]; the code only compares it. *)
Record NumValue := mkNumValue { number : Z; refinement : option NumValueRefinement }.
(** [ast::ConnectorChoice]. *)
Record ConnectorChoice := mkConnectorChoice { connector : RoutableConnectors }.

#[export] Instance StrValue_eq_dec : EqDecision StrValue.
Proof. solve_decision. Defined.
#[export] Instance MetadataValue_eq_dec : EqDecision MetadataValue.
Proof. solve_decision. Defined.
#[export] Instance NumValue_eq_dec : EqDecision NumValue.
Proof. solve_decision. Defined.
#[export] Instance ConnectorChoice_eq_dec : EqDecision ConnectorChoice.
Proof. solve_decision. Defined.

(** [NumValue::fits]. *)
Definition fits (self other : NumValue) : bool :=
  let this_num := number self in
  let other_num := number other in
  match refinement self, refinement other with
  | None, None => (this_num =? other_num)%Z
  | Some NumValueRefinement_GreaterThan, None => (this_num <? other_num)%Z
  | Some NumValueRefinement_LessThan, None => (other_num <? this_num)%Z
  | Some NumValueRefinement_NotEqual, Some NumValueRefinement_NotEqual =>
      (other_num =? this_num)%Z
  | Some NumValueRefinement_GreaterThan, Some NumValueRefinement_GreaterThan =>
      (this_num <? other_num)%Z
  | Some NumValueRefinement_LessThan, Some NumValueRefinement_LessThan =>
      (other_num <? this_num)%Z
  | Some NumValueRefinement_GreaterThanEqual, None => (this_num <=? other_num)%Z
  | Some NumValueRefinement_LessThanEqual, None => (other_num <=? this_num)%Z
  | Some NumValueRefinement_GreaterThanEqual, Some NumValueRefinement_GreaterThanEqual =>
      (this_num <=? other_num)%Z
  | Some NumValueRefinement_LessThanEqual, Some NumValueRefinement_LessThanEqual =>
      (other_num <=? this_num)%Z
  | _, _ => false
  end.

(** ** Payloads of the value enums *)

Abbreviation payload :=
  (nat + (string + (string * string + Z * option NumValueRefinement)))%type.

Class Payload (A : Type) : Type := {
  to_payload : A → payload;
  of_payload : payload → option A;
  of_to_payload : ∀ a, of_payload (to_payload a) = Some a;
}.

#[export] Instance enum_payload `{Enumerated A} : Payload A | 5.
Proof.
  refine {| to_payload := λ a, inl (discriminant a);
    of_payload := λ p, match p with inl n => variants A !! n | _ => None end |}.
  intros. simpl. apply variants_discriminant.
Defined.

#[export] Instance StrValue_payload : Payload StrValue.
Proof.
  refine {| to_payload := λ a, inr (inl (str_value a));
    of_payload := λ p, match p with inr (inl s) => Some (mkStrValue s) | _ => None end |}.
  by intros [].
Defined.

#[export] Instance MetadataValue_payload : Payload MetadataValue.
Proof.
  refine {| to_payload := λ a, inr (inr (inl (md_key a, md_value a)));
    of_payload := λ p, match p with inr (inr (inl (k, v))) => Some (mkMetadataValue k v) | _ => None end |}.
  by intros [].
Defined.

#[export] Instance NumValue_payload : Payload NumValue.
Proof.
  refine {| to_payload := λ a, inr (inr (inr (number a, refinement a)));
    of_payload := λ p, match p with inr (inr (inr (n, r))) => Some (mkNumValue n r) | _ => None end |}.
  by intros [].
Defined.

#[export] Instance ConnectorChoice_payload : Payload ConnectorChoice.
Proof.
  refine {| to_payload := λ a, inl (discriminant (connector a));
    of_payload := λ p, match p with inl n => mkConnectorChoice <$> variants RoutableConnectors !! n | _ => None end |}.
  intros [c]. cbv beta iota. by rewrite variants_discriminant.
Defined.

(** A type that embeds in a countable one is countable. *)
Section embed.
Context {A B : Type} `{Countable B} (f : A → B) (g : B → option A) (gf : ∀ a, g (f a) = Some a).

Definition embed_eq_dec : EqDecision A.
Proof using All.
  intros a b. destruct (decide (f a = f b)) as [E|E].
  - left. pose proof (gf a) as Ha. rewrite E, gf in Ha. congruence.
  - right. congruence.
Defined.

End embed.

(** ** Values of the compiled rules *)

Inductive EuclidKey : Set :=
  | EuclidKey_PaymentMethod | EuclidKey_CardBin | EuclidKey_ExtendedCardBin
  | EuclidKey_Metadata | EuclidKey_MandateType | EuclidKey_MandateAcceptanceType
  | EuclidKey_PaymentType | EuclidKey_PaymentMethodType | EuclidKey_CardNetwork
  | EuclidKey_AuthenticationType | EuclidKey_CaptureMethod | EuclidKey_PaymentAmount
  | EuclidKey_SurchargeAmount | EuclidKey_PaymentCurrency | EuclidKey_BusinessCountry
  | EuclidKey_BillingCountry | EuclidKey_BusinessLabel | EuclidKey_SetupFutureUsage
  | EuclidKey_IssuerName | EuclidKey_IssuerCountry | EuclidKey_AcquirerCountry
  | EuclidKey_AcquirerFraudRate | EuclidKey_CustomerDeviceType
  | EuclidKey_CustomerDeviceDisplaySize | EuclidKey_CustomerDevicePlatform
  | EuclidKey_TransactionInitiator | EuclidKey_CardDiscovery.

#[export] Program Instance EuclidKey_enumerated : Enumerated EuclidKey := {|
  variants := [
    EuclidKey_PaymentMethod; EuclidKey_CardBin; EuclidKey_ExtendedCardBin; EuclidKey_Metadata;
    EuclidKey_MandateType; EuclidKey_MandateAcceptanceType; EuclidKey_PaymentType;
    EuclidKey_PaymentMethodType; EuclidKey_CardNetwork; EuclidKey_AuthenticationType;
    EuclidKey_CaptureMethod; EuclidKey_PaymentAmount; EuclidKey_SurchargeAmount;
    EuclidKey_PaymentCurrency; EuclidKey_BusinessCountry; EuclidKey_BillingCountry;
    EuclidKey_BusinessLabel; EuclidKey_SetupFutureUsage; EuclidKey_IssuerName;
    EuclidKey_IssuerCountry; EuclidKey_AcquirerCountry; EuclidKey_AcquirerFraudRate;
    EuclidKey_CustomerDeviceType; EuclidKey_CustomerDeviceDisplaySize;
    EuclidKey_CustomerDevicePlatform; EuclidKey_TransactionInitiator; EuclidKey_CardDiscovery];
  discriminant x := match x with
    | EuclidKey_PaymentMethod => 0 | EuclidKey_CardBin => 1 | EuclidKey_ExtendedCardBin => 2
    | EuclidKey_Metadata => 3 | EuclidKey_MandateType => 4
    | EuclidKey_MandateAcceptanceType => 5 | EuclidKey_PaymentType => 6
    | EuclidKey_PaymentMethodType => 7 | EuclidKey_CardNetwork => 8
    | EuclidKey_AuthenticationType => 9 | EuclidKey_CaptureMethod => 10
    | EuclidKey_PaymentAmount => 11 | EuclidKey_SurchargeAmount => 12
    | EuclidKey_PaymentCurrency => 13 | EuclidKey_BusinessCountry => 14
    | EuclidKey_BillingCountry => 15 | EuclidKey_BusinessLabel => 16
    | EuclidKey_SetupFutureUsage => 17 | EuclidKey_IssuerName => 18
    | EuclidKey_IssuerCountry => 19 | EuclidKey_AcquirerCountry => 20
    | EuclidKey_AcquirerFraudRate => 21 | EuclidKey_CustomerDeviceType => 22
    | EuclidKey_CustomerDeviceDisplaySize => 23 | EuclidKey_CustomerDevicePlatform => 24
    | EuclidKey_TransactionInitiator => 25 | EuclidKey_CardDiscovery => 26
    end;
|}.
Next Obligation. by intros []. Qed.

#[export] Instance EuclidKey_strum : EnumString EuclidKey := {|
  serialized x := match x with
    | EuclidKey_PaymentMethod => ["payment_method"] | EuclidKey_CardBin => ["card_bin"]
    | EuclidKey_ExtendedCardBin => ["extended_card_bin"] | EuclidKey_Metadata => ["metadata"]
    | EuclidKey_MandateType => ["mandate_type"]
    | EuclidKey_MandateAcceptanceType => ["mandate_acceptance_type"]
    | EuclidKey_PaymentType => ["payment_type"]
    | EuclidKey_PaymentMethodType => ["payment_method_type"]
    | EuclidKey_CardNetwork => ["card_network"]
    | EuclidKey_AuthenticationType => ["authentication_type"]
    | EuclidKey_CaptureMethod => ["capture_method"] | EuclidKey_PaymentAmount => ["amount"]
    | EuclidKey_SurchargeAmount => ["surcharge_amount"]
    | EuclidKey_PaymentCurrency => ["currency"]
    | EuclidKey_BusinessCountry => ["country"; "business_country"]
    | EuclidKey_BillingCountry => ["billing_country"]
    | EuclidKey_BusinessLabel => ["business_label"]
    | EuclidKey_SetupFutureUsage => ["setup_future_usage"]
    | EuclidKey_IssuerName => ["issuer_name"] | EuclidKey_IssuerCountry => ["issuer_country"]
    | EuclidKey_AcquirerCountry => ["acquirer_country"]
    | EuclidKey_AcquirerFraudRate => ["acquirer_fraud_rate"]
    | EuclidKey_CustomerDeviceType => ["customer_device_type"]
    | EuclidKey_CustomerDeviceDisplaySize => ["customer_device_display_size"]
    | EuclidKey_CustomerDevicePlatform => ["customer_device_platform"]
    | EuclidKey_TransactionInitiator => ["transaction_initiator"]
    | EuclidKey_CardDiscovery => ["card_discovery"]
    end;
  to_string x := match x with
    | EuclidKey_PaymentMethod => "payment_method" | EuclidKey_CardBin => "card_bin"
    | EuclidKey_ExtendedCardBin => "extended_card_bin" | EuclidKey_Metadata => "metadata"
    | EuclidKey_MandateType => "mandate_type"
    | EuclidKey_MandateAcceptanceType => "mandate_acceptance_type"
    | EuclidKey_PaymentType => "payment_type"
    | EuclidKey_PaymentMethodType => "payment_method_type"
    | EuclidKey_CardNetwork => "card_network"
    | EuclidKey_AuthenticationType => "authentication_type"
    | EuclidKey_CaptureMethod => "capture_method" | EuclidKey_PaymentAmount => "amount"
    | EuclidKey_SurchargeAmount => "surcharge_amount" | EuclidKey_PaymentCurrency => "currency"
    | EuclidKey_BusinessCountry => "business_country"
    | EuclidKey_BillingCountry => "billing_country"
    | EuclidKey_BusinessLabel => "business_label"
    | EuclidKey_SetupFutureUsage => "setup_future_usage"
    | EuclidKey_IssuerName => "issuer_name" | EuclidKey_IssuerCountry => "issuer_country"
    | EuclidKey_AcquirerCountry => "acquirer_country"
    | EuclidKey_AcquirerFraudRate => "acquirer_fraud_rate"
    | EuclidKey_CustomerDeviceType => "customer_device_type"
    | EuclidKey_CustomerDeviceDisplaySize => "customer_device_display_size"
    | EuclidKey_CustomerDevicePlatform => "customer_device_platform"
    | EuclidKey_TransactionInitiator => "transaction_initiator"
    | EuclidKey_CardDiscovery => "card_discovery"
    end;
|}.

(** [EuclidKey::key_type]. *)
Definition key_type (x : EuclidKey) : DataType :=
  match x with
  | EuclidKey_PaymentMethod => DataType_EnumVariant | EuclidKey_CardBin => DataType_StrValue
  | EuclidKey_ExtendedCardBin => DataType_StrValue
  | EuclidKey_Metadata => DataType_MetadataValue
  | EuclidKey_PaymentMethodType => DataType_EnumVariant
  | EuclidKey_CardNetwork => DataType_EnumVariant
  | EuclidKey_AuthenticationType => DataType_EnumVariant
  | EuclidKey_CaptureMethod => DataType_EnumVariant
  | EuclidKey_PaymentAmount => DataType_Number | EuclidKey_SurchargeAmount => DataType_Number
  | EuclidKey_PaymentCurrency => DataType_EnumVariant
  | EuclidKey_BusinessCountry => DataType_EnumVariant
  | EuclidKey_BillingCountry => DataType_EnumVariant
  | EuclidKey_MandateType => DataType_EnumVariant
  | EuclidKey_MandateAcceptanceType => DataType_EnumVariant
  | EuclidKey_PaymentType => DataType_EnumVariant
  | EuclidKey_BusinessLabel => DataType_StrValue
  | EuclidKey_SetupFutureUsage => DataType_EnumVariant
  | EuclidKey_IssuerName => DataType_StrValue | EuclidKey_IssuerCountry => DataType_EnumVariant
  | EuclidKey_AcquirerCountry => DataType_EnumVariant
  | EuclidKey_AcquirerFraudRate => DataType_Number
  | EuclidKey_CustomerDeviceType => DataType_EnumVariant
  | EuclidKey_CustomerDeviceDisplaySize => DataType_EnumVariant
  | EuclidKey_CustomerDevicePlatform => DataType_EnumVariant
  | EuclidKey_TransactionInitiator => DataType_EnumVariant
  | EuclidKey_CardDiscovery => DataType_EnumVariant
  end.

Inductive EuclidValue : Set :=
| EuclidValue_PaymentMethod (x : PaymentMethod)
| EuclidValue_CardBin (x : StrValue)
| EuclidValue_ExtendedCardBin (x : StrValue)
| EuclidValue_Metadata (x : MetadataValue)
| EuclidValue_PaymentMethodType (x : PaymentMethodType)
| EuclidValue_CardNetwork (x : CardNetwork)
| EuclidValue_AuthenticationType (x : AuthenticationType)
| EuclidValue_CaptureMethod (x : CaptureMethod)
| EuclidValue_PaymentType (x : PaymentType)
| EuclidValue_MandateAcceptanceType (x : MandateAcceptanceType)
| EuclidValue_MandateType (x : MandateType)
| EuclidValue_PaymentAmount (x : NumValue)
| EuclidValue_SurchargeAmount (x : NumValue)
| EuclidValue_PaymentCurrency (x : Currency)
| EuclidValue_BusinessCountry (x : Country)
| EuclidValue_BillingCountry (x : Country)
| EuclidValue_BusinessLabel (x : StrValue)
| EuclidValue_SetupFutureUsage (x : FutureUsage)
| EuclidValue_IssuerName (x : StrValue)
| EuclidValue_IssuerCountry (x : Country)
| EuclidValue_AcquirerCountry (x : Country)
| EuclidValue_AcquirerFraudRate (x : NumValue)
| EuclidValue_CustomerDeviceType (x : CustomerDeviceType)
| EuclidValue_CustomerDeviceDisplaySize (x : CustomerDeviceDisplaySize)
| EuclidValue_CustomerDevicePlatform (x : CustomerDevicePlatform)
| EuclidValue_TransactionInitiator (x : TransactionInitiator)
| EuclidValue_CardDiscovery (x : CardDiscovery).

(** [EuclidValue::get_key]. *)
Definition euclid_key (x : EuclidValue) : EuclidKey :=
  match x with
  | EuclidValue_PaymentMethod _ => EuclidKey_PaymentMethod
  | EuclidValue_CardBin _ => EuclidKey_CardBin
  | EuclidValue_ExtendedCardBin _ => EuclidKey_ExtendedCardBin
  | EuclidValue_Metadata _ => EuclidKey_Metadata
  | EuclidValue_PaymentMethodType _ => EuclidKey_PaymentMethodType
  | EuclidValue_MandateType _ => EuclidKey_MandateType
  | EuclidValue_PaymentType _ => EuclidKey_PaymentType
  | EuclidValue_MandateAcceptanceType _ => EuclidKey_MandateAcceptanceType
  | EuclidValue_CardNetwork _ => EuclidKey_CardNetwork
  | EuclidValue_AuthenticationType _ => EuclidKey_AuthenticationType
  | EuclidValue_CaptureMethod _ => EuclidKey_CaptureMethod
  | EuclidValue_PaymentAmount _ => EuclidKey_PaymentAmount
  | EuclidValue_SurchargeAmount _ => EuclidKey_SurchargeAmount
  | EuclidValue_PaymentCurrency _ => EuclidKey_PaymentCurrency
  | EuclidValue_BusinessCountry _ => EuclidKey_BusinessCountry
  | EuclidValue_BillingCountry _ => EuclidKey_BillingCountry
  | EuclidValue_BusinessLabel _ => EuclidKey_BusinessLabel
  | EuclidValue_SetupFutureUsage _ => EuclidKey_SetupFutureUsage
  | EuclidValue_IssuerName _ => EuclidKey_IssuerName
  | EuclidValue_IssuerCountry _ => EuclidKey_IssuerCountry
  | EuclidValue_AcquirerCountry _ => EuclidKey_AcquirerCountry
  | EuclidValue_AcquirerFraudRate _ => EuclidKey_AcquirerFraudRate
  | EuclidValue_CustomerDeviceType _ => EuclidKey_CustomerDeviceType
  | EuclidValue_CustomerDeviceDisplaySize _ => EuclidKey_CustomerDeviceDisplaySize
  | EuclidValue_CustomerDevicePlatform _ => EuclidKey_CustomerDevicePlatform
  | EuclidValue_TransactionInitiator _ => EuclidKey_TransactionInitiator
  | EuclidValue_CardDiscovery _ => EuclidKey_CardDiscovery
  end.

(** [EuclidValue::get_num_value]. *)
Definition euclid_num_value (v : EuclidValue) : option NumValue :=
  match v with
  | EuclidValue_PaymentAmount val => Some val
  | EuclidValue_SurchargeAmount val => Some val
  | _ => None
  end.

Definition EuclidValue_payload (v : EuclidValue) : payload :=
  match v with
  | EuclidValue_PaymentMethod x => to_payload x | EuclidValue_CardBin x => to_payload x
  | EuclidValue_ExtendedCardBin x => to_payload x | EuclidValue_Metadata x => to_payload x
  | EuclidValue_PaymentMethodType x => to_payload x | EuclidValue_CardNetwork x => to_payload x
  | EuclidValue_AuthenticationType x => to_payload x
  | EuclidValue_CaptureMethod x => to_payload x | EuclidValue_PaymentType x => to_payload x
  | EuclidValue_MandateAcceptanceType x => to_payload x
  | EuclidValue_MandateType x => to_payload x | EuclidValue_PaymentAmount x => to_payload x
  | EuclidValue_SurchargeAmount x => to_payload x
  | EuclidValue_PaymentCurrency x => to_payload x
  | EuclidValue_BusinessCountry x => to_payload x
  | EuclidValue_BillingCountry x => to_payload x | EuclidValue_BusinessLabel x => to_payload x
  | EuclidValue_SetupFutureUsage x => to_payload x | EuclidValue_IssuerName x => to_payload x
  | EuclidValue_IssuerCountry x => to_payload x | EuclidValue_AcquirerCountry x => to_payload x
  | EuclidValue_AcquirerFraudRate x => to_payload x
  | EuclidValue_CustomerDeviceType x => to_payload x
  | EuclidValue_CustomerDeviceDisplaySize x => to_payload x
  | EuclidValue_CustomerDevicePlatform x => to_payload x
  | EuclidValue_TransactionInitiator x => to_payload x
  | EuclidValue_CardDiscovery x => to_payload x
  end.

Definition EuclidValue_make (k : EuclidKey) (p : payload) : option EuclidValue :=
  match k with
  | EuclidKey_PaymentMethod => EuclidValue_PaymentMethod <$> of_payload p
  | EuclidKey_CardBin => EuclidValue_CardBin <$> of_payload p
  | EuclidKey_ExtendedCardBin => EuclidValue_ExtendedCardBin <$> of_payload p
  | EuclidKey_Metadata => EuclidValue_Metadata <$> of_payload p
  | EuclidKey_MandateType => EuclidValue_MandateType <$> of_payload p
  | EuclidKey_MandateAcceptanceType => EuclidValue_MandateAcceptanceType <$> of_payload p
  | EuclidKey_PaymentType => EuclidValue_PaymentType <$> of_payload p
  | EuclidKey_PaymentMethodType => EuclidValue_PaymentMethodType <$> of_payload p
  | EuclidKey_CardNetwork => EuclidValue_CardNetwork <$> of_payload p
  | EuclidKey_AuthenticationType => EuclidValue_AuthenticationType <$> of_payload p
  | EuclidKey_CaptureMethod => EuclidValue_CaptureMethod <$> of_payload p
  | EuclidKey_PaymentAmount => EuclidValue_PaymentAmount <$> of_payload p
  | EuclidKey_SurchargeAmount => EuclidValue_SurchargeAmount <$> of_payload p
  | EuclidKey_PaymentCurrency => EuclidValue_PaymentCurrency <$> of_payload p
  | EuclidKey_BusinessCountry => EuclidValue_BusinessCountry <$> of_payload p
  | EuclidKey_BillingCountry => EuclidValue_BillingCountry <$> of_payload p
  | EuclidKey_BusinessLabel => EuclidValue_BusinessLabel <$> of_payload p
  | EuclidKey_SetupFutureUsage => EuclidValue_SetupFutureUsage <$> of_payload p
  | EuclidKey_IssuerName => EuclidValue_IssuerName <$> of_payload p
  | EuclidKey_IssuerCountry => EuclidValue_IssuerCountry <$> of_payload p
  | EuclidKey_AcquirerCountry => EuclidValue_AcquirerCountry <$> of_payload p
  | EuclidKey_AcquirerFraudRate => EuclidValue_AcquirerFraudRate <$> of_payload p
  | EuclidKey_CustomerDeviceType => EuclidValue_CustomerDeviceType <$> of_payload p
  | EuclidKey_CustomerDeviceDisplaySize => EuclidValue_CustomerDeviceDisplaySize <$> of_payload p
  | EuclidKey_CustomerDevicePlatform => EuclidValue_CustomerDevicePlatform <$> of_payload p
  | EuclidKey_TransactionInitiator => EuclidValue_TransactionInitiator <$> of_payload p
  | EuclidKey_CardDiscovery => EuclidValue_CardDiscovery <$> of_payload p
  end.

Lemma EuclidValue_make_payload v : EuclidValue_make (euclid_key v) (EuclidValue_payload v) = Some v.
Proof.
  destruct v; cbv beta iota delta [euclid_key EuclidValue_payload EuclidValue_make]; by rewrite of_to_payload.
Qed.

Definition EuclidValue_repr (v : EuclidValue) : EuclidKey * payload := (euclid_key v, EuclidValue_payload v).

#[export] Instance EuclidValue_eq_dec : EqDecision EuclidValue :=
  embed_eq_dec EuclidValue_repr (λ p, EuclidValue_make p.1 p.2) EuclidValue_make_payload.
#[export] Instance EuclidValue_countable : Countable EuclidValue :=
  inj_countable EuclidValue_repr (λ p, EuclidValue_make p.1 p.2) EuclidValue_make_payload.

(** ** Values of the rules as written *)

Inductive DirKeyKind : Set :=
  | DirKeyKind_PaymentMethod | DirKeyKind_CardBin | DirKeyKind_ExtendedCardBin
  | DirKeyKind_CardType | DirKeyKind_CardNetwork | DirKeyKind_PayLaterType
  | DirKeyKind_GiftCardType | DirKeyKind_MandateAcceptanceType | DirKeyKind_MandateType
  | DirKeyKind_PaymentType | DirKeyKind_WalletType | DirKeyKind_UpiType
  | DirKeyKind_VoucherType | DirKeyKind_BankTransferType | DirKeyKind_BankRedirectType
  | DirKeyKind_BankDebitType | DirKeyKind_CryptoType | DirKeyKind_MetaData
  | DirKeyKind_RewardType | DirKeyKind_PaymentAmount | DirKeyKind_SurchargeAmount
  | DirKeyKind_PaymentCurrency | DirKeyKind_AuthenticationType | DirKeyKind_CaptureMethod
  | DirKeyKind_BusinessCountry | DirKeyKind_BillingCountry | DirKeyKind_Connector
  | DirKeyKind_BusinessLabel | DirKeyKind_SetupFutureUsage | DirKeyKind_CardRedirectType
  | DirKeyKind_RealTimePaymentType | DirKeyKind_OpenBankingType | DirKeyKind_MobilePaymentType
  | DirKeyKind_IssuerName | DirKeyKind_IssuerCountry | DirKeyKind_CustomerDevicePlatform
  | DirKeyKind_CustomerDeviceType | DirKeyKind_CustomerDeviceDisplaySize
  | DirKeyKind_AcquirerCountry | DirKeyKind_AcquirerFraudRate | DirKeyKind_TransactionInitiator
  | DirKeyKind_NetworkTokenType | DirKeyKind_CardDiscovery.

#[export] Program Instance DirKeyKind_enumerated : Enumerated DirKeyKind := {|
  variants := [
    DirKeyKind_PaymentMethod; DirKeyKind_CardBin; DirKeyKind_ExtendedCardBin;
    DirKeyKind_CardType; DirKeyKind_CardNetwork; DirKeyKind_PayLaterType;
    DirKeyKind_GiftCardType; DirKeyKind_MandateAcceptanceType; DirKeyKind_MandateType;
    DirKeyKind_PaymentType; DirKeyKind_WalletType; DirKeyKind_UpiType; DirKeyKind_VoucherType;
    DirKeyKind_BankTransferType; DirKeyKind_BankRedirectType; DirKeyKind_BankDebitType;
    DirKeyKind_CryptoType; DirKeyKind_MetaData; DirKeyKind_RewardType;
    DirKeyKind_PaymentAmount; DirKeyKind_SurchargeAmount; DirKeyKind_PaymentCurrency;
    DirKeyKind_AuthenticationType; DirKeyKind_CaptureMethod; DirKeyKind_BusinessCountry;
    DirKeyKind_BillingCountry; DirKeyKind_Connector; DirKeyKind_BusinessLabel;
    DirKeyKind_SetupFutureUsage; DirKeyKind_CardRedirectType; DirKeyKind_RealTimePaymentType;
    DirKeyKind_OpenBankingType; DirKeyKind_MobilePaymentType; DirKeyKind_IssuerName;
    DirKeyKind_IssuerCountry; DirKeyKind_CustomerDevicePlatform; DirKeyKind_CustomerDeviceType;
    DirKeyKind_CustomerDeviceDisplaySize; DirKeyKind_AcquirerCountry;
    DirKeyKind_AcquirerFraudRate; DirKeyKind_TransactionInitiator; DirKeyKind_NetworkTokenType;
    DirKeyKind_CardDiscovery];
  discriminant x := match x with
    | DirKeyKind_PaymentMethod => 0 | DirKeyKind_CardBin => 1 | DirKeyKind_ExtendedCardBin => 2
    | DirKeyKind_CardType => 3 | DirKeyKind_CardNetwork => 4 | DirKeyKind_PayLaterType => 5
    | DirKeyKind_GiftCardType => 6 | DirKeyKind_MandateAcceptanceType => 7
    | DirKeyKind_MandateType => 8 | DirKeyKind_PaymentType => 9 | DirKeyKind_WalletType => 10
    | DirKeyKind_UpiType => 11 | DirKeyKind_VoucherType => 12
    | DirKeyKind_BankTransferType => 13 | DirKeyKind_BankRedirectType => 14
    | DirKeyKind_BankDebitType => 15 | DirKeyKind_CryptoType => 16 | DirKeyKind_MetaData => 17
    | DirKeyKind_RewardType => 18 | DirKeyKind_PaymentAmount => 19
    | DirKeyKind_SurchargeAmount => 20 | DirKeyKind_PaymentCurrency => 21
    | DirKeyKind_AuthenticationType => 22 | DirKeyKind_CaptureMethod => 23
    | DirKeyKind_BusinessCountry => 24 | DirKeyKind_BillingCountry => 25
    | DirKeyKind_Connector => 26 | DirKeyKind_BusinessLabel => 27
    | DirKeyKind_SetupFutureUsage => 28 | DirKeyKind_CardRedirectType => 29
    | DirKeyKind_RealTimePaymentType => 30 | DirKeyKind_OpenBankingType => 31
    | DirKeyKind_MobilePaymentType => 32 | DirKeyKind_IssuerName => 33
    | DirKeyKind_IssuerCountry => 34 | DirKeyKind_CustomerDevicePlatform => 35
    | DirKeyKind_CustomerDeviceType => 36 | DirKeyKind_CustomerDeviceDisplaySize => 37
    | DirKeyKind_AcquirerCountry => 38 | DirKeyKind_AcquirerFraudRate => 39
    | DirKeyKind_TransactionInitiator => 40 | DirKeyKind_NetworkTokenType => 41
    | DirKeyKind_CardDiscovery => 42
    end;
|}.
Next Obligation. by intros []. Qed.

#[export] Instance DirKeyKind_strum : EnumString DirKeyKind := {|
  serialized x := match x with
    | DirKeyKind_PaymentMethod => ["payment_method"] | DirKeyKind_CardBin => ["card_bin"]
    | DirKeyKind_ExtendedCardBin => ["extended_card_bin"]
    | DirKeyKind_CardType => ["card_type"] | DirKeyKind_CardNetwork => ["card_network"]
    | DirKeyKind_PayLaterType => ["pay_later"] | DirKeyKind_GiftCardType => ["gift_card"]
    | DirKeyKind_MandateAcceptanceType => ["mandate_acceptance_type"]
    | DirKeyKind_MandateType => ["mandate_type"] | DirKeyKind_PaymentType => ["payment_type"]
    | DirKeyKind_WalletType => ["wallet"] | DirKeyKind_UpiType => ["upi"]
    | DirKeyKind_VoucherType => ["voucher"] | DirKeyKind_BankTransferType => ["bank_transfer"]
    | DirKeyKind_BankRedirectType => ["bank_redirect"]
    | DirKeyKind_BankDebitType => ["bank_debit"] | DirKeyKind_CryptoType => ["crypto"]
    | DirKeyKind_MetaData => ["metadata"] | DirKeyKind_RewardType => ["reward"]
    | DirKeyKind_PaymentAmount => ["amount"]
    | DirKeyKind_SurchargeAmount => ["surcharge_amount"]
    | DirKeyKind_PaymentCurrency => ["currency"]
    | DirKeyKind_AuthenticationType => ["authentication_type"]
    | DirKeyKind_CaptureMethod => ["capture_method"]
    | DirKeyKind_BusinessCountry => ["country"; "business_country"]
    | DirKeyKind_BillingCountry => ["billing_country"] | DirKeyKind_Connector => ["Connector"]
    | DirKeyKind_BusinessLabel => ["business_label"]
    | DirKeyKind_SetupFutureUsage => ["setup_future_usage"]
    | DirKeyKind_CardRedirectType => ["card_redirect"]
    | DirKeyKind_RealTimePaymentType => ["real_time_payment"]
    | DirKeyKind_OpenBankingType => ["open_banking"]
    | DirKeyKind_MobilePaymentType => ["mobile_payment"]
    | DirKeyKind_IssuerName => ["issuer_name"] | DirKeyKind_IssuerCountry => ["issuer_country"]
    | DirKeyKind_CustomerDevicePlatform => ["customer_device_platform"]
    | DirKeyKind_CustomerDeviceType => ["customer_device_type"]
    | DirKeyKind_CustomerDeviceDisplaySize => ["customer_device_display_size"]
    | DirKeyKind_AcquirerCountry => ["acquirer_country"]
    | DirKeyKind_AcquirerFraudRate => ["acquirer_fraud_rate"]
    | DirKeyKind_TransactionInitiator => ["transaction_initiator"]
    | DirKeyKind_NetworkTokenType => ["network_token"]
    | DirKeyKind_CardDiscovery => ["card_discovery"]
    end;
  to_string x := match x with
    | DirKeyKind_PaymentMethod => "payment_method" | DirKeyKind_CardBin => "card_bin"
    | DirKeyKind_ExtendedCardBin => "extended_card_bin" | DirKeyKind_CardType => "card_type"
    | DirKeyKind_CardNetwork => "card_network" | DirKeyKind_PayLaterType => "pay_later"
    | DirKeyKind_GiftCardType => "gift_card"
    | DirKeyKind_MandateAcceptanceType => "mandate_acceptance_type"
    | DirKeyKind_MandateType => "mandate_type" | DirKeyKind_PaymentType => "payment_type"
    | DirKeyKind_WalletType => "wallet" | DirKeyKind_UpiType => "upi"
    | DirKeyKind_VoucherType => "voucher" | DirKeyKind_BankTransferType => "bank_transfer"
    | DirKeyKind_BankRedirectType => "bank_redirect" | DirKeyKind_BankDebitType => "bank_debit"
    | DirKeyKind_CryptoType => "crypto" | DirKeyKind_MetaData => "metadata"
    | DirKeyKind_RewardType => "reward" | DirKeyKind_PaymentAmount => "amount"
    | DirKeyKind_SurchargeAmount => "surcharge_amount"
    | DirKeyKind_PaymentCurrency => "currency"
    | DirKeyKind_AuthenticationType => "authentication_type"
    | DirKeyKind_CaptureMethod => "capture_method"
    | DirKeyKind_BusinessCountry => "business_country"
    | DirKeyKind_BillingCountry => "billing_country" | DirKeyKind_Connector => "Connector"
    | DirKeyKind_BusinessLabel => "business_label"
    | DirKeyKind_SetupFutureUsage => "setup_future_usage"
    | DirKeyKind_CardRedirectType => "card_redirect"
    | DirKeyKind_RealTimePaymentType => "real_time_payment"
    | DirKeyKind_OpenBankingType => "open_banking"
    | DirKeyKind_MobilePaymentType => "mobile_payment" | DirKeyKind_IssuerName => "issuer_name"
    | DirKeyKind_IssuerCountry => "issuer_country"
    | DirKeyKind_CustomerDevicePlatform => "customer_device_platform"
    | DirKeyKind_CustomerDeviceType => "customer_device_type"
    | DirKeyKind_CustomerDeviceDisplaySize => "customer_device_display_size"
    | DirKeyKind_AcquirerCountry => "acquirer_country"
    | DirKeyKind_AcquirerFraudRate => "acquirer_fraud_rate"
    | DirKeyKind_TransactionInitiator => "transaction_initiator"
    | DirKeyKind_NetworkTokenType => "network_token"
    | DirKeyKind_CardDiscovery => "card_discovery"
    end;
|}.

(** [DirKeyKind::get_type]. *)
Definition get_type (x : DirKeyKind) : DataType :=
  match x with
  | DirKeyKind_PaymentMethod => DataType_EnumVariant | DirKeyKind_CardBin => DataType_StrValue
  | DirKeyKind_ExtendedCardBin => DataType_StrValue
  | DirKeyKind_CardType => DataType_EnumVariant
  | DirKeyKind_CardNetwork => DataType_EnumVariant
  | DirKeyKind_MetaData => DataType_MetadataValue
  | DirKeyKind_MandateType => DataType_EnumVariant
  | DirKeyKind_PaymentType => DataType_EnumVariant
  | DirKeyKind_MandateAcceptanceType => DataType_EnumVariant
  | DirKeyKind_PayLaterType => DataType_EnumVariant
  | DirKeyKind_WalletType => DataType_EnumVariant | DirKeyKind_UpiType => DataType_EnumVariant
  | DirKeyKind_VoucherType => DataType_EnumVariant
  | DirKeyKind_BankTransferType => DataType_EnumVariant
  | DirKeyKind_GiftCardType => DataType_EnumVariant
  | DirKeyKind_BankRedirectType => DataType_EnumVariant
  | DirKeyKind_CryptoType => DataType_EnumVariant
  | DirKeyKind_RewardType => DataType_EnumVariant | DirKeyKind_PaymentAmount => DataType_Number
  | DirKeyKind_SurchargeAmount => DataType_Number
  | DirKeyKind_PaymentCurrency => DataType_EnumVariant
  | DirKeyKind_AuthenticationType => DataType_EnumVariant
  | DirKeyKind_CaptureMethod => DataType_EnumVariant
  | DirKeyKind_BusinessCountry => DataType_EnumVariant
  | DirKeyKind_BillingCountry => DataType_EnumVariant
  | DirKeyKind_Connector => DataType_EnumVariant
  | DirKeyKind_BankDebitType => DataType_EnumVariant
  | DirKeyKind_BusinessLabel => DataType_StrValue
  | DirKeyKind_SetupFutureUsage => DataType_EnumVariant
  | DirKeyKind_CardRedirectType => DataType_EnumVariant
  | DirKeyKind_RealTimePaymentType => DataType_EnumVariant
  | DirKeyKind_OpenBankingType => DataType_EnumVariant
  | DirKeyKind_MobilePaymentType => DataType_EnumVariant
  | DirKeyKind_IssuerName => DataType_StrValue
  | DirKeyKind_IssuerCountry => DataType_EnumVariant
  | DirKeyKind_CustomerDevicePlatform => DataType_EnumVariant
  | DirKeyKind_CustomerDeviceType => DataType_EnumVariant
  | DirKeyKind_CustomerDeviceDisplaySize => DataType_EnumVariant
  | DirKeyKind_AcquirerCountry => DataType_EnumVariant
  | DirKeyKind_AcquirerFraudRate => DataType_Number
  | DirKeyKind_TransactionInitiator => DataType_EnumVariant
  | DirKeyKind_NetworkTokenType => DataType_EnumVariant
  | DirKeyKind_CardDiscovery => DataType_EnumVariant
  end.

Record DirKey := mkDirKey { kind : DirKeyKind; key_value : option string }.

#[export] Instance DirKey_eq_dec : EqDecision DirKey.
Proof. solve_decision. Defined.
#[export] Instance DirKey_countable : Countable DirKey.
Proof. apply (inj_countable' (λ k, (kind k, key_value k)) (λ p, mkDirKey p.1 p.2)). by intros []. Defined.

Inductive DirValue : Set :=
| DirValue_PaymentMethod (x : PaymentMethod)
| DirValue_CardBin (x : StrValue)
| DirValue_ExtendedCardBin (x : StrValue)
| DirValue_CardType (x : CardType)
| DirValue_CardNetwork (x : CardNetwork)
| DirValue_MetaData (x : MetadataValue)
| DirValue_PayLaterType (x : PayLaterType)
| DirValue_WalletType (x : WalletType)
| DirValue_MandateAcceptanceType (x : MandateAcceptanceType)
| DirValue_MandateType (x : MandateType)
| DirValue_PaymentType (x : PaymentType)
| DirValue_UpiType (x : UpiType)
| DirValue_VoucherType (x : VoucherType)
| DirValue_BankTransferType (x : BankTransferType)
| DirValue_BankRedirectType (x : BankRedirectType)
| DirValue_BankDebitType (x : BankDebitType)
| DirValue_CryptoType (x : CryptoType)
| DirValue_RewardType (x : RewardType)
| DirValue_GiftCardType (x : GiftCardType)
| DirValue_PaymentAmount (x : NumValue)
| DirValue_SurchargeAmount (x : NumValue)
| DirValue_PaymentCurrency (x : Currency)
| DirValue_AuthenticationType (x : AuthenticationType)
| DirValue_CaptureMethod (x : CaptureMethod)
| DirValue_BusinessCountry (x : Country)
| DirValue_BillingCountry (x : Country)
| DirValue_Connector (x : ConnectorChoice)
| DirValue_BusinessLabel (x : StrValue)
| DirValue_SetupFutureUsage (x : FutureUsage)
| DirValue_CardRedirectType (x : CardRedirectType)
| DirValue_RealTimePaymentType (x : RealTimePaymentType)
| DirValue_OpenBankingType (x : OpenBankingType)
| DirValue_MobilePaymentType (x : MobilePaymentType)
| DirValue_IssuerName (x : StrValue)
| DirValue_IssuerCountry (x : Country)
| DirValue_CustomerDevicePlatform (x : CustomerDevicePlatform)
| DirValue_CustomerDeviceType (x : CustomerDeviceType)
| DirValue_CustomerDeviceDisplaySize (x : CustomerDeviceDisplaySize)
| DirValue_AcquirerCountry (x : Country)
| DirValue_AcquirerFraudRate (x : NumValue)
| DirValue_TransactionInitiator (x : TransactionInitiator)
| DirValue_NetworkTokenType (x : NetworkTokenType)
| DirValue_CardDiscovery (x : CardDiscovery).

(** The kind part of [DirValue::get_key]. *)
Definition dir_kind (x : DirValue) : DirKeyKind :=
  match x with
  | DirValue_PaymentMethod _ => DirKeyKind_PaymentMethod
  | DirValue_CardBin _ => DirKeyKind_CardBin
  | DirValue_ExtendedCardBin _ => DirKeyKind_ExtendedCardBin
  | DirValue_RewardType _ => DirKeyKind_RewardType
  | DirValue_BusinessCountry _ => DirKeyKind_BusinessCountry
  | DirValue_BillingCountry _ => DirKeyKind_BillingCountry
  | DirValue_BankTransferType _ => DirKeyKind_BankTransferType
  | DirValue_UpiType _ => DirKeyKind_UpiType | DirValue_CardType _ => DirKeyKind_CardType
  | DirValue_CardNetwork _ => DirKeyKind_CardNetwork
  | DirValue_MetaData _ => DirKeyKind_MetaData
  | DirValue_PayLaterType _ => DirKeyKind_PayLaterType
  | DirValue_WalletType _ => DirKeyKind_WalletType
  | DirValue_BankRedirectType _ => DirKeyKind_BankRedirectType
  | DirValue_CryptoType _ => DirKeyKind_CryptoType
  | DirValue_AuthenticationType _ => DirKeyKind_AuthenticationType
  | DirValue_CaptureMethod _ => DirKeyKind_CaptureMethod
  | DirValue_PaymentAmount _ => DirKeyKind_PaymentAmount
  | DirValue_SurchargeAmount _ => DirKeyKind_SurchargeAmount
  | DirValue_PaymentCurrency _ => DirKeyKind_PaymentCurrency
  | DirValue_Connector _ => DirKeyKind_Connector
  | DirValue_BankDebitType _ => DirKeyKind_BankDebitType
  | DirValue_MandateAcceptanceType _ => DirKeyKind_MandateAcceptanceType
  | DirValue_MandateType _ => DirKeyKind_MandateType
  | DirValue_PaymentType _ => DirKeyKind_PaymentType
  | DirValue_BusinessLabel _ => DirKeyKind_BusinessLabel
  | DirValue_SetupFutureUsage _ => DirKeyKind_SetupFutureUsage
  | DirValue_CardRedirectType _ => DirKeyKind_CardRedirectType
  | DirValue_VoucherType _ => DirKeyKind_VoucherType
  | DirValue_GiftCardType _ => DirKeyKind_GiftCardType
  | DirValue_RealTimePaymentType _ => DirKeyKind_RealTimePaymentType
  | DirValue_OpenBankingType _ => DirKeyKind_OpenBankingType
  | DirValue_MobilePaymentType _ => DirKeyKind_MobilePaymentType
  | DirValue_IssuerName _ => DirKeyKind_IssuerName
  | DirValue_IssuerCountry _ => DirKeyKind_IssuerCountry
  | DirValue_CustomerDevicePlatform _ => DirKeyKind_CustomerDevicePlatform
  | DirValue_CustomerDeviceType _ => DirKeyKind_CustomerDeviceType
  | DirValue_CustomerDeviceDisplaySize _ => DirKeyKind_CustomerDeviceDisplaySize
  | DirValue_AcquirerCountry _ => DirKeyKind_AcquirerCountry
  | DirValue_AcquirerFraudRate _ => DirKeyKind_AcquirerFraudRate
  | DirValue_TransactionInitiator _ => DirKeyKind_TransactionInitiator
  | DirValue_NetworkTokenType _ => DirKeyKind_NetworkTokenType
  | DirValue_CardDiscovery _ => DirKeyKind_CardDiscovery
  end.

(** [DirValue::get_key]: a metadata value is keyed by its own key too. *)
Definition dir_key (v : DirValue) : DirKey :=
  mkDirKey (dir_kind v) (match v with DirValue_MetaData met => Some (md_key met) | _ => None end).

(** [DirValue::get_metadata_val]. *)
Definition get_metadata_val (v : DirValue) : option MetadataValue :=
  match v with DirValue_MetaData val => Some val | _ => None end.

(** [DirValue::get_str_val]. *)
Definition get_str_val (v : DirValue) : option StrValue :=
  match v with
  | DirValue_CardBin val | DirValue_ExtendedCardBin val | DirValue_IssuerName val => Some val
  | _ => None
  end.

(** [DirValue::get_num_value]. *)
Definition dir_num_value (v : DirValue) : option NumValue :=
  match v with
  | DirValue_PaymentAmount val | DirValue_SurchargeAmount val
  | DirValue_AcquirerFraudRate val => Some val
  | _ => None
  end.

Definition DirValue_payload (v : DirValue) : payload :=
  match v with
  | DirValue_PaymentMethod x => to_payload x | DirValue_CardBin x => to_payload x
  | DirValue_ExtendedCardBin x => to_payload x | DirValue_CardType x => to_payload x
  | DirValue_CardNetwork x => to_payload x | DirValue_MetaData x => to_payload x
  | DirValue_PayLaterType x => to_payload x | DirValue_WalletType x => to_payload x
  | DirValue_MandateAcceptanceType x => to_payload x | DirValue_MandateType x => to_payload x
  | DirValue_PaymentType x => to_payload x | DirValue_UpiType x => to_payload x
  | DirValue_VoucherType x => to_payload x | DirValue_BankTransferType x => to_payload x
  | DirValue_BankRedirectType x => to_payload x | DirValue_BankDebitType x => to_payload x
  | DirValue_CryptoType x => to_payload x | DirValue_RewardType x => to_payload x
  | DirValue_GiftCardType x => to_payload x | DirValue_PaymentAmount x => to_payload x
  | DirValue_SurchargeAmount x => to_payload x | DirValue_PaymentCurrency x => to_payload x
  | DirValue_AuthenticationType x => to_payload x | DirValue_CaptureMethod x => to_payload x
  | DirValue_BusinessCountry x => to_payload x | DirValue_BillingCountry x => to_payload x
  | DirValue_Connector x => to_payload x | DirValue_BusinessLabel x => to_payload x
  | DirValue_SetupFutureUsage x => to_payload x | DirValue_CardRedirectType x => to_payload x
  | DirValue_RealTimePaymentType x => to_payload x | DirValue_OpenBankingType x => to_payload x
  | DirValue_MobilePaymentType x => to_payload x | DirValue_IssuerName x => to_payload x
  | DirValue_IssuerCountry x => to_payload x
  | DirValue_CustomerDevicePlatform x => to_payload x
  | DirValue_CustomerDeviceType x => to_payload x
  | DirValue_CustomerDeviceDisplaySize x => to_payload x
  | DirValue_AcquirerCountry x => to_payload x | DirValue_AcquirerFraudRate x => to_payload x
  | DirValue_TransactionInitiator x => to_payload x
  | DirValue_NetworkTokenType x => to_payload x | DirValue_CardDiscovery x => to_payload x
  end.

Definition DirValue_make (k : DirKeyKind) (p : payload) : option DirValue :=
  match k with
  | DirKeyKind_PaymentMethod => DirValue_PaymentMethod <$> of_payload p
  | DirKeyKind_CardBin => DirValue_CardBin <$> of_payload p
  | DirKeyKind_ExtendedCardBin => DirValue_ExtendedCardBin <$> of_payload p
  | DirKeyKind_CardType => DirValue_CardType <$> of_payload p
  | DirKeyKind_CardNetwork => DirValue_CardNetwork <$> of_payload p
  | DirKeyKind_PayLaterType => DirValue_PayLaterType <$> of_payload p
  | DirKeyKind_GiftCardType => DirValue_GiftCardType <$> of_payload p
  | DirKeyKind_MandateAcceptanceType => DirValue_MandateAcceptanceType <$> of_payload p
  | DirKeyKind_MandateType => DirValue_MandateType <$> of_payload p
  | DirKeyKind_PaymentType => DirValue_PaymentType <$> of_payload p
  | DirKeyKind_WalletType => DirValue_WalletType <$> of_payload p
  | DirKeyKind_UpiType => DirValue_UpiType <$> of_payload p
  | DirKeyKind_VoucherType => DirValue_VoucherType <$> of_payload p
  | DirKeyKind_BankTransferType => DirValue_BankTransferType <$> of_payload p
  | DirKeyKind_BankRedirectType => DirValue_BankRedirectType <$> of_payload p
  | DirKeyKind_BankDebitType => DirValue_BankDebitType <$> of_payload p
  | DirKeyKind_CryptoType => DirValue_CryptoType <$> of_payload p
  | DirKeyKind_MetaData => DirValue_MetaData <$> of_payload p
  | DirKeyKind_RewardType => DirValue_RewardType <$> of_payload p
  | DirKeyKind_PaymentAmount => DirValue_PaymentAmount <$> of_payload p
  | DirKeyKind_SurchargeAmount => DirValue_SurchargeAmount <$> of_payload p
  | DirKeyKind_PaymentCurrency => DirValue_PaymentCurrency <$> of_payload p
  | DirKeyKind_AuthenticationType => DirValue_AuthenticationType <$> of_payload p
  | DirKeyKind_CaptureMethod => DirValue_CaptureMethod <$> of_payload p
  | DirKeyKind_BusinessCountry => DirValue_BusinessCountry <$> of_payload p
  | DirKeyKind_BillingCountry => DirValue_BillingCountry <$> of_payload p
  | DirKeyKind_Connector => DirValue_Connector <$> of_payload p
  | DirKeyKind_BusinessLabel => DirValue_BusinessLabel <$> of_payload p
  | DirKeyKind_SetupFutureUsage => DirValue_SetupFutureUsage <$> of_payload p
  | DirKeyKind_CardRedirectType => DirValue_CardRedirectType <$> of_payload p
  | DirKeyKind_RealTimePaymentType => DirValue_RealTimePaymentType <$> of_payload p
  | DirKeyKind_OpenBankingType => DirValue_OpenBankingType <$> of_payload p
  | DirKeyKind_MobilePaymentType => DirValue_MobilePaymentType <$> of_payload p
  | DirKeyKind_IssuerName => DirValue_IssuerName <$> of_payload p
  | DirKeyKind_IssuerCountry => DirValue_IssuerCountry <$> of_payload p
  | DirKeyKind_CustomerDevicePlatform => DirValue_CustomerDevicePlatform <$> of_payload p
  | DirKeyKind_CustomerDeviceType => DirValue_CustomerDeviceType <$> of_payload p
  | DirKeyKind_CustomerDeviceDisplaySize => DirValue_CustomerDeviceDisplaySize <$> of_payload p
  | DirKeyKind_AcquirerCountry => DirValue_AcquirerCountry <$> of_payload p
  | DirKeyKind_AcquirerFraudRate => DirValue_AcquirerFraudRate <$> of_payload p
  | DirKeyKind_TransactionInitiator => DirValue_TransactionInitiator <$> of_payload p
  | DirKeyKind_NetworkTokenType => DirValue_NetworkTokenType <$> of_payload p
  | DirKeyKind_CardDiscovery => DirValue_CardDiscovery <$> of_payload p
  end.

Lemma DirValue_make_payload v : DirValue_make (dir_kind v) (DirValue_payload v) = Some v.
Proof.
  destruct v; cbv beta iota delta [dir_kind DirValue_payload DirValue_make]; by rewrite of_to_payload.
Qed.

Definition DirValue_repr (v : DirValue) : DirKeyKind * payload := (dir_kind v, DirValue_payload v).

#[export] Instance DirValue_eq_dec : EqDecision DirValue :=
  embed_eq_dec DirValue_repr (λ p, DirValue_make p.1 p.2) DirValue_make_payload.
#[export] Instance DirValue_countable : Countable DirValue :=
  inj_countable DirValue_repr (λ p, DirValue_make p.1 p.2) DirValue_make_payload.

(** [DirKeyKind::get_value_set]: the values of an enumerated key. *)
Definition get_value_set (k : DirKeyKind) : option (list DirValue) :=
  match k with
  | DirKeyKind_PaymentMethod => Some (DirValue_PaymentMethod <$> variants PaymentMethod)
  | DirKeyKind_CardBin => None
  | DirKeyKind_ExtendedCardBin => None
  | DirKeyKind_CardType => Some (DirValue_CardType <$> variants CardType)
  | DirKeyKind_MandateAcceptanceType => Some (DirValue_MandateAcceptanceType <$> variants MandateAcceptanceType)
  | DirKeyKind_PaymentType => Some (DirValue_PaymentType <$> variants PaymentType)
  | DirKeyKind_MandateType => Some (DirValue_MandateType <$> variants MandateType)
  | DirKeyKind_CardNetwork => Some (DirValue_CardNetwork <$> variants CardNetwork)
  | DirKeyKind_PayLaterType => Some (DirValue_PayLaterType <$> variants PayLaterType)
  | DirKeyKind_MetaData => None
  | DirKeyKind_WalletType => Some (DirValue_WalletType <$> variants WalletType)
  | DirKeyKind_UpiType => Some (DirValue_UpiType <$> variants UpiType)
  | DirKeyKind_VoucherType => Some (DirValue_VoucherType <$> variants VoucherType)
  | DirKeyKind_BankTransferType => Some (DirValue_BankTransferType <$> variants BankTransferType)
  | DirKeyKind_GiftCardType => Some (DirValue_GiftCardType <$> variants GiftCardType)
  | DirKeyKind_BankRedirectType => Some (DirValue_BankRedirectType <$> variants BankRedirectType)
  | DirKeyKind_CryptoType => Some (DirValue_CryptoType <$> variants CryptoType)
  | DirKeyKind_RewardType => Some (DirValue_RewardType <$> variants RewardType)
  | DirKeyKind_PaymentAmount => None
  | DirKeyKind_SurchargeAmount => None
  | DirKeyKind_PaymentCurrency => Some (DirValue_PaymentCurrency <$> variants Currency)
  | DirKeyKind_AuthenticationType => Some (DirValue_AuthenticationType <$> variants AuthenticationType)
  | DirKeyKind_CaptureMethod => Some (DirValue_CaptureMethod <$> variants CaptureMethod)
  | DirKeyKind_BankDebitType => Some (DirValue_BankDebitType <$> variants BankDebitType)
  | DirKeyKind_BusinessCountry => Some (DirValue_BusinessCountry <$> variants Country)
  | DirKeyKind_BillingCountry => Some (DirValue_BillingCountry <$> variants Country)
  | DirKeyKind_Connector =>
      Some ((λ c, DirValue_Connector (mkConnectorChoice c)) <$> variants RoutableConnectors)
  | DirKeyKind_BusinessLabel => None
  | DirKeyKind_SetupFutureUsage => Some (DirValue_SetupFutureUsage <$> variants FutureUsage)
  | DirKeyKind_CardRedirectType => Some (DirValue_CardRedirectType <$> variants CardRedirectType)
  | DirKeyKind_RealTimePaymentType => Some (DirValue_RealTimePaymentType <$> variants RealTimePaymentType)
  | DirKeyKind_OpenBankingType => Some (DirValue_OpenBankingType <$> variants OpenBankingType)
  | DirKeyKind_MobilePaymentType => Some (DirValue_MobilePaymentType <$> variants MobilePaymentType)
  | DirKeyKind_IssuerName => None
  | DirKeyKind_IssuerCountry => Some (DirValue_IssuerCountry <$> variants Country)
  | DirKeyKind_CustomerDevicePlatform => Some (DirValue_CustomerDevicePlatform <$> variants CustomerDevicePlatform)
  | DirKeyKind_CustomerDeviceType => Some (DirValue_CustomerDeviceType <$> variants CustomerDeviceType)
  | DirKeyKind_CustomerDeviceDisplaySize => Some (DirValue_CustomerDeviceDisplaySize <$> variants CustomerDeviceDisplaySize)
  | DirKeyKind_AcquirerCountry => Some (DirValue_AcquirerCountry <$> variants Country)
  | DirKeyKind_AcquirerFraudRate => None
  | DirKeyKind_TransactionInitiator => Some (DirValue_TransactionInitiator <$> variants TransactionInitiator)
  | DirKeyKind_NetworkTokenType => Some (DirValue_NetworkTokenType <$> variants NetworkTokenType)
  | DirKeyKind_CardDiscovery => Some (DirValue_CardDiscovery <$> variants CardDiscovery)
  end.

(** [DirValue::check_equality]. *)
Definition check_equality (v1 v2 : DirValue) : bool :=
  match v1, v2 with
  | DirValue_PaymentMethod a, DirValue_PaymentMethod b => bool_decide (a = b)
  | DirValue_CardType a, DirValue_CardType b => bool_decide (a = b)
  | DirValue_CardNetwork a, DirValue_CardNetwork b => bool_decide (a = b)
  | DirValue_MetaData a, DirValue_MetaData b => bool_decide (a = b)
  | DirValue_PayLaterType a, DirValue_PayLaterType b => bool_decide (a = b)
  | DirValue_WalletType a, DirValue_WalletType b => bool_decide (a = b)
  | DirValue_BankDebitType a, DirValue_BankDebitType b => bool_decide (a = b)
  | DirValue_BankRedirectType a, DirValue_BankRedirectType b => bool_decide (a = b)
  | DirValue_BankTransferType a, DirValue_BankTransferType b => bool_decide (a = b)
  | DirValue_GiftCardType a, DirValue_GiftCardType b => bool_decide (a = b)
  | DirValue_CryptoType a, DirValue_CryptoType b => bool_decide (a = b)
  | DirValue_AuthenticationType a, DirValue_AuthenticationType b => bool_decide (a = b)
  | DirValue_CaptureMethod a, DirValue_CaptureMethod b => bool_decide (a = b)
  | DirValue_PaymentCurrency a, DirValue_PaymentCurrency b => bool_decide (a = b)
  | DirValue_BusinessCountry a, DirValue_BusinessCountry b => bool_decide (a = b)
  | DirValue_BillingCountry a, DirValue_BillingCountry b => bool_decide (a = b)
  | DirValue_PaymentType a, DirValue_PaymentType b => bool_decide (a = b)
  | DirValue_MandateType a, DirValue_MandateType b => bool_decide (a = b)
  | DirValue_MandateAcceptanceType a, DirValue_MandateAcceptanceType b => bool_decide (a = b)
  | DirValue_RewardType a, DirValue_RewardType b => bool_decide (a = b)
  | DirValue_RealTimePaymentType a, DirValue_RealTimePaymentType b => bool_decide (a = b)
  | DirValue_Connector a, DirValue_Connector b => bool_decide (a = b)
  | DirValue_BusinessLabel a, DirValue_BusinessLabel b => bool_decide (a = b)
  | DirValue_SetupFutureUsage a, DirValue_SetupFutureUsage b => bool_decide (a = b)
  | DirValue_UpiType a, DirValue_UpiType b => bool_decide (a = b)
  | DirValue_VoucherType a, DirValue_VoucherType b => bool_decide (a = b)
  | DirValue_CardRedirectType a, DirValue_CardRedirectType b => bool_decide (a = b)
  | DirValue_IssuerName a, DirValue_IssuerName b => bool_decide (a = b)
  | DirValue_IssuerCountry a, DirValue_IssuerCountry b => bool_decide (a = b)
  | DirValue_CustomerDevicePlatform a, DirValue_CustomerDevicePlatform b => bool_decide (a = b)
  | DirValue_CustomerDeviceType a, DirValue_CustomerDeviceType b => bool_decide (a = b)
  | DirValue_CustomerDeviceDisplaySize a, DirValue_CustomerDeviceDisplaySize b => bool_decide (a = b)
  | DirValue_AcquirerCountry a, DirValue_AcquirerCountry b => bool_decide (a = b)
  | DirValue_AcquirerFraudRate a, DirValue_AcquirerFraudRate b => bool_decide (a = b)
  | DirValue_TransactionInitiator a, DirValue_TransactionInitiator b => bool_decide (a = b)
  | DirValue_NetworkTokenType a, DirValue_NetworkTokenType b => bool_decide (a = b)
  | _, _ => false
  end.
