(* ===== verification/EuclidAst.v ===== *)
(** * The routing language and its reference interpreter

    [crates/euclid/src/frontend/ast.rs]: programs of routing rules as they are
    parsed; [crates/euclid/src/backend/inputs.rs]: the payment a program is
    evaluated on; [crates/euclid/src/backend/interpreter.rs] and
    [interpreter/types.rs]: the interpreter that evaluates a program as it is
    written, comparing the names of enum variants.

    The rules of the AST, of the DIR and of the VIR have the same shape and
    differ in their comparisons only, so the shape is declared once, over the
    type of comparisons. *)

From S2P Require Import Prelude Country Currency PaymentEnums EuclidEnums EuclidTypes.

(** ** Programs *)

Inductive IfStatement (C : Type) : Type :=
| mkIf (condition : list C) (nested : option (list (IfStatement C))).
Arguments mkIf {C} condition nested.

Definition condition {C} (s : IfStatement C) : list C := let 'mkIf c _ := s in c.
Definition nested {C} (s : IfStatement C) : option (list (IfStatement C)) := let 'mkIf _ n := s in n.

(** Induction over a statement and all the statements nested in it. *)
Lemma IfStatement_ind' {C} (P : IfStatement C → Prop) :
  (∀ cond, P (mkIf cond None)) →
  (∀ cond ns, Forall P ns → P (mkIf cond (Some ns))) →
  ∀ s, P s.
Proof.
  intros Hleaf Hnode. fix IH 1. intros [cond [ns|]]; [|apply Hleaf].
  apply Hnode. induction ns as [|n ns IHns]; constructor; [apply IH | apply IHns].
Qed.

(** The comparisons of a statement, nested ones included, satisfy [P]. *)
Inductive stmt_all {C} (P : C → Prop) : IfStatement C → Prop :=
| stmt_all_leaf cond : Forall P cond → stmt_all P (mkIf cond None)
| stmt_all_node cond ns : Forall P cond → Forall (stmt_all P) ns → stmt_all P (mkIf cond (Some ns)).

Record Rule (C O : Type) := mkRule {
  name : string;
  connector_selection : O;
  statements : list (IfStatement C);
}.
Arguments mkRule {C O}. Arguments name {C O}. Arguments connector_selection {C O}.
Arguments statements {C O}.

Record Program (M C O : Type) := mkProgram {
  default_selection : O;
  rules : list (Rule C O);
  program_metadata : M;
}.
Arguments mkProgram {M C O}. Arguments default_selection {M C O}. Arguments rules {M C O}.
Arguments program_metadata {M C O}.

Definition program_all {M C O} (P : C → Prop) (p : Program M C O) : Prop :=
  ∀ r s, r ∈ rules p → s ∈ statements r → stmt_all P s.

(** [BackendOutput]. *)
Record BackendOutput (O : Type) := mkOutput { rule_name : option string; selection : O }.
Arguments mkOutput {O}. Arguments rule_name {O}. Arguments selection {O}.

(** ** Comparisons of the AST *)

Record NumberComparison := mkNumberComparison { nc_type : ComparisonType; nc_number : Z }.

Inductive ValueType :=
| Number (n : Z)
| EnumVariant (v : string)
| MetadataVariant (m : MetadataValue)
| StrVal (s : string)
| NumberArray (ns : list Z)
| EnumVariantArray (vs : list string)
| NumberComparisonArray (ncs : list NumberComparison).

(** [ValueType::get_type]. *)
Definition value_type (v : ValueType) : DataType :=
  match v with
  | Number _ => DataType_Number
  | StrVal _ => DataType_StrValue
  | MetadataVariant _ => DataType_MetadataValue
  | EnumVariant _ => DataType_EnumVariant
  | NumberComparisonArray _ => DataType_Number
  | NumberArray _ => DataType_Number
  | EnumVariantArray _ => DataType_EnumVariant
  end.

(** [metadata] is a JSON object that no code here inspects: its type is a
    parameter. *)
Record Comparison (M : Type) := mkComparison {
  lhs : string;
  comparison : ComparisonType;
  value : ValueType;
  metadata : M;
}.
Arguments mkComparison {M}. Arguments lhs {M}. Arguments comparison {M}.
Arguments value {M}. Arguments metadata {M}.

(** ** The input of a program *)

Record MandateData := mkMandateData {
  mandate_acceptance_type : option MandateAcceptanceType;
  mandate_type : option MandateType;
  payment_type : option PaymentType;
}.

Record PaymentMethodInput := mkPaymentMethodInput {
  payment_method : option PaymentMethod;
  payment_method_type : option PaymentMethodType;
  card_network : option CardNetwork;
  card_discovery : option CardDiscovery;
}.

Record PaymentInput := mkPaymentInput {
  amount : Z;
  currency : Currency;
  authentication_type : option AuthenticationType;
  card_bin : option string;
  extended_card_bin : option string;
  capture_method : option CaptureMethod;
  business_country : option Country;
  billing_country : option Country;
  business_label : option string;
  setup_future_usage : option FutureUsage;
  transaction_initiator : option TransactionInitiator;
  surcharge_amount : option Z;
}.

(** [fraud_rate] is an [f64], here by its bits: no interpreter reads it. *)
Record AcquirerDataInput := mkAcquirerDataInput {
  acquirer_country : option Country;
  fraud_rate : option Z;
}.

Record CustomerDeviceDataInput := mkCustomerDeviceDataInput {
  platform : option CustomerDevicePlatform;
  device_type : option CustomerDeviceType;
  display_size : option CustomerDeviceDisplaySize;
}.

Record IssuerDataInput := mkIssuerDataInput {
  issuer_name : option string;
  issuer_country : option Country;
}.

Record BackendInput := mkBackendInput {
  input_metadata : option (gmap string string);
  payment : PaymentInput;
  method : PaymentMethodInput;
  acquirer_data : option AcquirerDataInput;
  customer_device_data : option CustomerDeviceDataInput;
  issuer_data : option IssuerDataInput;
  mandate : MandateData;
}.

(** ** The interpreter *)

Module Interpreter.

Inductive InterpreterErrorType :=
| InvalidKey (key : string)
| InvalidComparison.

Record InterpreterError (M : Type) := mkError {
  error_type : InterpreterErrorType;
  error_metadata : M;
}.
Arguments mkError {M}. Arguments error_type {M}. Arguments error_metadata {M}.

Abbreviation Context := (gmap string (option ValueType)) (only parsing).

(** [From<BackendInput> for Context]. *)
Definition context_of_input (input : BackendInput) : Context :=
  list_to_map [
    (to_string EuclidKey_PaymentMethod,
      (λ pm, EnumVariant (to_string pm)) <$> payment_method (method input));
    (to_string EuclidKey_PaymentMethodType,
      (λ pt, EnumVariant (to_string pt)) <$> payment_method_type (method input));
    (to_string EuclidKey_AuthenticationType,
      (λ a, EnumVariant (to_string a)) <$> authentication_type (payment input));
    (to_string EuclidKey_CaptureMethod,
      (λ cm, EnumVariant (to_string cm)) <$> capture_method (payment input));
    (to_string EuclidKey_PaymentAmount, Some (Number (amount (payment input))));
    (to_string EuclidKey_PaymentCurrency,
      Some (EnumVariant (to_string (currency (payment input)))))
  ].

(** The comparison of two numbers a [ComparisonType] denotes. *)
Definition compare_numbers (c : ComparisonType) (num other : Z) : bool :=
  match c with
  | ComparisonType_GreaterThan => (other <? num)%Z
  | ComparisonType_LessThan => (num <? other)%Z
  | ComparisonType_LessThanEqual => (num <=? other)%Z
  | ComparisonType_GreaterThanEqual => (other <=? num)%Z
  | ComparisonType_Equal => (num =? other)%Z
  | ComparisonType_NotEqual => negb (num =? other)%Z
  end.

Definition eval_number_comparison_array (num : Z) (array : list NumberComparison) : bool :=
  any (λ c, compare_numbers (nc_type c) num (nc_number c)) array.

Section interpreter.
Context {M O : Type}.

Definition eval_comparison (c : Comparison M) (ctx : Context) : result (InterpreterError M) bool :=
  val ← ok_or (mkError (InvalidKey (lhs c)) (metadata c)) (ctx !! lhs c);
  match val with
  | None => Ok false
  | Some val =>
      match val, comparison c, value c with
      | EnumVariant e1, ComparisonType_Equal, EnumVariant e2 => Ok (bool_decide (e1 = e2))
      | EnumVariant e1, ComparisonType_NotEqual, EnumVariant e2 => Ok (bool_decide (e1 ≠ e2))
      | EnumVariant e, ComparisonType_Equal, EnumVariantArray evec =>
          Ok (any (λ v, bool_decide (e = v)) evec)
      | EnumVariant e, ComparisonType_NotEqual, EnumVariantArray evec =>
          Ok (all (λ v, bool_decide (e ≠ v)) evec)
      | Number n1, op, Number n2 => Ok (compare_numbers op n1 n2)
      | Number n, ComparisonType_Equal, NumberArray nvec => Ok (any (λ v, (v =? n)%Z) nvec)
      | Number n, ComparisonType_NotEqual, NumberArray nvec =>
          Ok (all (λ v, negb (v =? n)%Z) nvec)
      | Number n, ComparisonType_Equal, NumberComparisonArray ncvec =>
          Ok (eval_number_comparison_array n ncvec)
      | _, _, _ => Err (mkError InvalidComparison (metadata c))
      end
  end.

Definition eval_if_condition (cond : list (Comparison M)) (ctx : Context) :
    result (InterpreterError M) bool :=
  try_all (λ c, eval_comparison c ctx) cond.

Fixpoint eval_if_statement (ctx : Context) (stmt : IfStatement (Comparison M)) :
    result (InterpreterError M) bool :=
  match stmt with
  | mkIf cond nested =>
      cond_res ← eval_if_condition cond ctx;
      if negb cond_res then Ok false
      else match nested with
           | Some nested => try_any (eval_if_statement ctx) nested
           | None => Ok true
           end
  end.

Definition eval_rule_statements (stmts : list (IfStatement (Comparison M))) (ctx : Context) :
    result (InterpreterError M) bool :=
  try_any (eval_if_statement ctx) stmts.

Definition eval_rule (rule : Rule (Comparison M) O) (ctx : Context) :
    result (InterpreterError M) bool :=
  eval_rule_statements (statements rule) ctx.

(** The loop of [eval_program] over the rules. *)
Fixpoint eval_rules (rs : list (Rule (Comparison M) O)) (default : O) (ctx : Context) :
    result (InterpreterError M) (BackendOutput O) :=
  match rs with
  | [] => Ok (mkOutput None default)
  | rule :: rs =>
      res ← eval_rule rule ctx;
      if res : bool then Ok (mkOutput (Some (name rule)) (connector_selection rule))
      else eval_rules rs default ctx
  end.

Definition eval_program (p : Program M (Comparison M) O) (ctx : Context) :
    result (InterpreterError M) (BackendOutput O) :=
  eval_rules (rules p) (default_selection p) ctx.

Definition execute (p : Program M (Comparison M) O) (input : BackendInput) :
    result (InterpreterError M) (BackendOutput O) :=
  eval_program p (context_of_input input).

End interpreter.
End Interpreter.
