(* ===== verification/EuclidDir.v ===== *)
(** * The domain intermediate representation (DIR)

    [crates/euclid/src/frontend/dir.rs] (comparisons and programs of the DIR,
    the filter of the keys an output type admits), the errors of the analysis
    ([crates/euclid/src/dssa/types.rs]) and the output types of the engine with
    their filters.  [DirValue] is a node value of the constraint graph. *)

From stdpp Require Import pretty.
From S2P Require Import Prelude GraphTypes GraphCheck.
From S2P Require Import Country Currency PaymentEnums EuclidEnums EuclidTypes EuclidAst.

(** [impl cgraph::ValueNode for dir::DirValue]. *)
#[export] Instance dir_value_node : ValueNode := {|
  GraphTypes.key := DirKey; GraphTypes.value := DirValue; GraphTypes.get_key := dir_key
|}.

(** ** Programs of the DIR *)

Inductive DirComparisonLogic := NegativeConjunction | PositiveDisjunction.

#[export] Instance DirComparisonLogic_eq_dec : EqDecision DirComparisonLogic.
Proof. solve_decision. Defined.

Record DirComparison (M : Type) := mkDirComparison {
  dir_values : list DirValue;
  dir_logic : DirComparisonLogic;
  dir_metadata : M;
}.
Arguments mkDirComparison {M}. Arguments dir_values {M}. Arguments dir_logic {M}.
Arguments dir_metadata {M}.

(** ** Errors *)

(** [state_machine::StateMachineError]. *)
Inductive StateMachineError := IndexOutOfBounds (place : string).

(** [dssa::graph::AnalysisError]. *)
Inductive GraphAnalysisError (M : Type) :=
| Graph (e : GraphError)
| AssertionTrace (trace : AnalysisTrace) (metadata : M)
| NegationTrace (trace : AnalysisTrace) (metadata : list M).
Arguments Graph {M}. Arguments AssertionTrace {M}. Arguments NegationTrace {M}.

(** [dssa::types::AnalysisErrorType]. *)
Inductive AnalysisErrorType (M : Type) :=
| InvalidKey (key : string)
| InvalidVariant (key : string) (expected : list string) (got : string)
| InvalidType (key : string) (expected got : DataType)
| InvalidComparison (operator : ComparisonType) (value_type : DataType)
| InvalidValue (key : DirKeyKind) (value : string) (message : option string)
| ConflictingAssertions (key : DirKey) (values : list (DirValue * M))
| ExhaustiveNegation (key : DirKey) (metadata : list M)
| NegatedAssertion (value : DirValue) (assertion_metadata negation_metadata : M)
| GraphAnalysis (e : GraphAnalysisError M)
    (memo : gmap (nat * Relation.t * Strength) (result AnalysisTrace unit))
| StateMachine (e : StateMachineError)
| UnsupportedProgramKey (key : DirKeyKind)
| NotImplemented
| NotSupported.
Arguments InvalidKey {M}. Arguments InvalidVariant {M}. Arguments InvalidType {M}.
Arguments InvalidComparison {M}. Arguments InvalidValue {M}.
Arguments ConflictingAssertions {M}. Arguments ExhaustiveNegation {M}.
Arguments NegatedAssertion {M}. Arguments GraphAnalysis {M}. Arguments StateMachine {M}.
Arguments UnsupportedProgramKey {M}. Arguments NotImplemented {M}. Arguments NotSupported {M}.

(** [dssa::types::AnalysisError]. *)
Record EuclidError (M : Type) := mkEuclidError {
  analysis_error_type : AnalysisErrorType M;
  analysis_metadata : M;
}.
Arguments mkEuclidError {M}. Arguments analysis_error_type {M}. Arguments analysis_metadata {M}.

(** ** Metadata: JSON objects *)

(** [serde_json::Value], as far as the sources build it. *)
Inductive Json :=
| JNull
| JString (s : string)
| JObject (fields : list (string * Json)).

(** [types::Metadata]. *)
Abbreviation Metadata := (gmap string Json).

(** ** Output types: the [EuclidDirFilter] and [EuclidAnalysable] traits *)

Class EuclidDirFilter (O : Type) : Type := ALLOWED : list DirKeyKind.
Arguments ALLOWED O {_}.

Definition is_key_allowed (O : Type) `{EuclidDirFilter O} (key : DirKeyKind) : bool :=
  bool_decide (key ∈ ALLOWED O).

(** The metadata type is left open, as everywhere in the model. *)
Class EuclidAnalysable (M O : Type) : Type :=
  get_dir_value_for_analysis : O → string → list (DirValue * M).

(** [RoutableChoiceKind], [RoutableConnectorChoice], [ConnectorVolumeSplit] and
    [ConnectorSelection]: the outputs of payment routing. *)
Inductive RoutableChoiceKind := OnlyConnector | FullStruct.

Record RoutableConnectorChoice := mkChoice {
  choice_kind : RoutableChoiceKind;
  choice_connector : RoutableConnectors;
  merchant_connector_id : option string;
}.

Record ConnectorVolumeSplit := mkVolumeSplit {
  split_connector : RoutableConnectorChoice;
  split : Z;
}.

Inductive ConnectorSelection :=
| Priority (choices : list RoutableConnectorChoice)
| VolumeSplit (splits : list ConnectorVolumeSplit).

(** [ConnectorSelection::get_connector_list]. *)
Definition get_connector_list (s : ConnectorSelection) : list RoutableConnectorChoice :=
  match s with
  | Priority l => l
  | VolumeSplit splits => split_connector <$> splits
  end.

(** [impl EuclidAnalysable for ConnectorSelection]: the connectors of a rule are
    assertions of each of its contexts. *)
#[export] Instance ConnectorSelection_analysable : EuclidAnalysable Metadata ConnectorSelection :=
  λ self rule_name,
    (λ choice,
      (DirValue_Connector (mkConnectorChoice (choice_connector choice)),
       {["CONNECTOR_SELECTION" := JObject [
         ("rule_name", JString rule_name);
         ("connector_name", JString (to_string (choice_connector choice)));
         ("mca_id", match merchant_connector_id choice with Some id => JString id | None => JNull end)]]}))
    <$> get_connector_list self.

(** [impl EuclidAnalysable for AuthenticationType]: a rule that decides the
    authentication asserts its decision. *)
#[export] Instance AuthenticationType_analysable : EuclidAnalysable Metadata AuthenticationType :=
  λ self rule_name,
    let dir_value :=
      match self with
      | AuthenticationType_ThreeDs => DirValue_AuthenticationType AuthenticationType_ThreeDs
      | AuthenticationType_NoThreeDs => DirValue_AuthenticationType AuthenticationType_NoThreeDs
      end in
    [(dir_value,
      {["AUTHENTICATION_TYPE" := JObject [
        ("rule_name", JString rule_name); ("Authentication_type", JString (to_string self))]]})].

(** [DummyOutput]. *)
Record DummyOutput := mkDummyOutput { outputs : list string }.

#[export] Instance DummyOutput_analysable : EuclidAnalysable Metadata DummyOutput :=
  λ self rule_name,
    (λ dummyc,
      (DirValue_MetaData (mkMetadataValue "MetadataKey" dummyc),
       {["DUMMY_OUTPUT" := JObject [
         ("rule_name", JString rule_name); ("Metadata_Key", JString "MetadataKey");
         ("Metadata_Value", JString dummyc)]]}))
    <$> outputs self.

(** [common_types::three_ds_decision_rule_engine]. *)
Inductive ThreeDSDecision : Set :=
  | ThreeDSDecision_NoThreeDs | ThreeDSDecision_ChallengeRequested
  | ThreeDSDecision_ChallengePreferred | ThreeDSDecision_NoPreference
  | ThreeDSDecision_ThreeDsExemptionRequestedTra
  | ThreeDSDecision_ThreeDsExemptionRequestedLowValue
  | ThreeDSDecision_IssuerThreeDsExemptionRequested.

#[export] Program Instance ThreeDSDecision_enumerated : Enumerated ThreeDSDecision := {|
  variants := [
    ThreeDSDecision_NoThreeDs; ThreeDSDecision_ChallengeRequested;
    ThreeDSDecision_ChallengePreferred; ThreeDSDecision_NoPreference;
    ThreeDSDecision_ThreeDsExemptionRequestedTra;
    ThreeDSDecision_ThreeDsExemptionRequestedLowValue;
    ThreeDSDecision_IssuerThreeDsExemptionRequested];
  discriminant x := match x with
    | ThreeDSDecision_NoThreeDs => 0 | ThreeDSDecision_ChallengeRequested => 1
    | ThreeDSDecision_ChallengePreferred => 2 | ThreeDSDecision_NoPreference => 3
    | ThreeDSDecision_ThreeDsExemptionRequestedTra => 4
    | ThreeDSDecision_ThreeDsExemptionRequestedLowValue => 5
    | ThreeDSDecision_IssuerThreeDsExemptionRequested => 6
    end;
|}.
Next Obligation. by intros []. Qed.

Record ThreeDSDecisionRule := mkThreeDSDecisionRule { decision : ThreeDSDecision }.

#[export] Instance ConnectorSelection_filter : EuclidDirFilter ConnectorSelection := [
  DirKeyKind_PaymentMethod; DirKeyKind_CardBin; DirKeyKind_ExtendedCardBin;
  DirKeyKind_CardType; DirKeyKind_CardNetwork; DirKeyKind_PayLaterType; DirKeyKind_WalletType;
  DirKeyKind_UpiType; DirKeyKind_BankRedirectType; DirKeyKind_BankDebitType;
  DirKeyKind_CryptoType; DirKeyKind_MetaData; DirKeyKind_PaymentAmount;
  DirKeyKind_SurchargeAmount; DirKeyKind_PaymentCurrency; DirKeyKind_AuthenticationType;
  DirKeyKind_MandateAcceptanceType; DirKeyKind_MandateType; DirKeyKind_PaymentType;
  DirKeyKind_SetupFutureUsage; DirKeyKind_CaptureMethod; DirKeyKind_BillingCountry;
  DirKeyKind_IssuerCountry; DirKeyKind_BusinessCountry; DirKeyKind_BusinessLabel;
  DirKeyKind_MetaData; DirKeyKind_RewardType; DirKeyKind_VoucherType;
  DirKeyKind_CardRedirectType; DirKeyKind_BankTransferType; DirKeyKind_RealTimePaymentType;
  DirKeyKind_TransactionInitiator; DirKeyKind_NetworkTokenType].

#[export] Instance DummyOutput_filter : EuclidDirFilter DummyOutput := [
  DirKeyKind_AuthenticationType; DirKeyKind_PaymentMethod; DirKeyKind_CardType;
  DirKeyKind_PaymentCurrency; DirKeyKind_CaptureMethod; DirKeyKind_AuthenticationType;
  DirKeyKind_CardBin; DirKeyKind_ExtendedCardBin; DirKeyKind_PayLaterType;
  DirKeyKind_PaymentAmount; DirKeyKind_MetaData; DirKeyKind_MandateAcceptanceType;
  DirKeyKind_MandateType; DirKeyKind_PaymentType; DirKeyKind_SetupFutureUsage;
  DirKeyKind_TransactionInitiator].

#[export] Instance ThreeDSDecisionRule_filter : EuclidDirFilter ThreeDSDecisionRule := [
  DirKeyKind_CardBin; DirKeyKind_ExtendedCardBin; DirKeyKind_CardNetwork;
  DirKeyKind_PaymentAmount; DirKeyKind_PaymentCurrency; DirKeyKind_IssuerName;
  DirKeyKind_IssuerCountry; DirKeyKind_CustomerDevicePlatform; DirKeyKind_CustomerDeviceType;
  DirKeyKind_CustomerDeviceDisplaySize; DirKeyKind_AcquirerCountry;
  DirKeyKind_AcquirerFraudRate; DirKeyKind_CardDiscovery; DirKeyKind_BusinessCountry;
  DirKeyKind_MetaData].

(** [impl cgraph::NodeViz for dir::DirValue]: the name of a value. *)
Definition viz (v : DirValue) : string :=
  match v with
  | DirValue_PaymentMethod x => to_string x
  | DirValue_CardBin x => str_value x
  | DirValue_ExtendedCardBin x => str_value x
  | DirValue_CardType x => to_string x
  | DirValue_CardNetwork x => to_string x
  | DirValue_PayLaterType x => to_string x
  | DirValue_WalletType x => to_string x
  | DirValue_UpiType x => to_string x
  | DirValue_BankTransferType x => to_string x
  | DirValue_BankRedirectType x => to_string x
  | DirValue_BankDebitType x => to_string x
  | DirValue_CryptoType x => to_string x
  | DirValue_RewardType x => to_string x
  | DirValue_PaymentAmount x => pretty (number x)
  | DirValue_SurchargeAmount x => pretty (number x)
  | DirValue_PaymentCurrency x => to_string x
  | DirValue_AuthenticationType x => to_string x
  | DirValue_CaptureMethod x => to_string x
  | DirValue_BusinessCountry x => to_string x
  | DirValue_BillingCountry x => to_string x
  | DirValue_Connector x => to_string (connector x)
  | DirValue_MetaData x => ("[" +:+ md_key x +:+ " = " +:+ md_value x +:+ "]")
  | DirValue_MandateAcceptanceType x => to_string x
  | DirValue_MandateType x => to_string x
  | DirValue_PaymentType x => to_string x
  | DirValue_VoucherType x => to_string x
  | DirValue_GiftCardType x => to_string x
  | DirValue_BusinessLabel x => str_value x
  | DirValue_SetupFutureUsage x => to_string x
  | DirValue_CardRedirectType x => to_string x
  | DirValue_RealTimePaymentType x => to_string x
  | DirValue_OpenBankingType x => to_string x
  | DirValue_MobilePaymentType x => to_string x
  | DirValue_IssuerName x => str_value x
  | DirValue_IssuerCountry x => to_string x
  | DirValue_CustomerDevicePlatform x => to_string x
  | DirValue_CustomerDeviceType x => to_string x
  | DirValue_CustomerDeviceDisplaySize x => to_string x
  | DirValue_AcquirerCountry x => to_string x
  | DirValue_AcquirerFraudRate x => pretty (number x)
  | DirValue_TransactionInitiator x => to_string x
  | DirValue_NetworkTokenType x => to_string x
  | DirValue_CardDiscovery x => to_string x
  end.
