(* ===== verification/EuclidLowering.v ===== *)
(** * Lowering the routing language

    [crates/euclid/src/frontend/ast/lowering.rs]: from the AST to the DIR, where
    the names of a rule become keys and values;
    [crates/euclid/src/frontend/dir/lowering.rs]: from the DIR to the VIR, whose
    comparisons are over [EuclidValue]s;
    [crates/euclid/src/frontend/dir/transformers.rs]: the DIR value of a payment
    method type. *)

From S2P Require Import Prelude.
From S2P Require Import Country Currency PaymentEnums EuclidEnums EuclidTypes EuclidAst EuclidDir.

(** ** From the AST to the DIR *)

Module AstLowering.
Section ast.
Context {M : Type}.

(** [variants()] of [CollectVariants]: strum's [VARIANTS]. *)
Definition variant_names (A : Type) `{Enumerated A, EnumString A} : list string :=
  to_string <$> variants A.

(** One name of the [lower_enum!] macro. *)
Definition lower_variant {A} `{Enumerated A, EnumString A} (key : DirKeyKind) (mk : A → DirValue)
    (ev : string) : result (AnalysisErrorType M) DirValue :=
  match from_str (A:=A) ev with
  | Some a => Ok (mk a)
  | None => Err (InvalidVariant (to_string key) (variant_names A) ev)
  end.

(** [lower_enum!]. *)
Definition lower_enum {A} `{Enumerated A, EnumString A} (key : DirKeyKind) (mk : A → DirValue)
    (v : ValueType) : result (AnalysisErrorType M) (list DirValue) :=
  match v with
  | EnumVariant ev => d ← lower_variant key mk ev; Ok [d]
  | EnumVariantArray eva => try_collect (lower_variant key mk) eva
  | _ => Err (InvalidType (to_string key) DataType_EnumVariant (value_type v))
  end.

(** [lower_number!]. *)
Definition lower_number (key : DirKeyKind) (mk : NumValue → DirValue) (v : ValueType)
    (comp : ComparisonType) : result (AnalysisErrorType M) (list DirValue) :=
  match v with
  | Number num => Ok [mk (mkNumValue num (refinement_of_comparison comp))]
  | NumberArray na => Ok ((λ num, mk (mkNumValue num (refinement_of_comparison comp))) <$> na)
  | NumberComparisonArray nca =>
      Ok ((λ nc, mk (mkNumValue (nc_number nc) (refinement_of_comparison (nc_type nc)))) <$> nca)
  | _ => Err (InvalidType (to_string key) DataType_Number (value_type v))
  end.

(** [lower_str!] with its optional validation. *)
Definition lower_str (key : DirKeyKind) (mk : StrValue → DirValue) (v : ValueType)
    (validation : string → result (AnalysisErrorType M) unit) :
    result (AnalysisErrorType M) (list DirValue) :=
  match v with
  | StrVal st => _ ← validation st; Ok [mk (mkStrValue st)]
  | _ => Err (InvalidType (to_string key) DataType_StrValue (value_type v))
  end.

(** [lower_metadata!]. *)
Definition lower_metadata (key : DirKeyKind) (mk : MetadataValue → DirValue) (v : ValueType) :
    result (AnalysisErrorType M) (list DirValue) :=
  match v with
  | MetadataVariant md => Ok [mk (mkMetadataValue (md_key md) (md_value md))]
  | _ => Err (InvalidType (to_string key) DataType_MetadataValue (value_type v))
  end.

Definition is_ascii_digit (c : Ascii.ascii) : bool :=
  let n := Ascii.N_of_ascii c in (48 <=? n)%N && (n <=? 57)%N.

(** The validation closure of the two card bin keys. *)
Definition digits_of_length (key : DirKeyKind) (len : nat) (message : string) (st : string) :
    result (AnalysisErrorType M) unit :=
  if bool_decide (String.length st = len) && all is_ascii_digit (String.list_ascii_of_string st)
  then Ok tt
  else Err (InvalidValue key st (Some message)).

Definition no_validation (st : string) : result (AnalysisErrorType M) unit := Ok tt.

Definition is_ordering (c : ComparisonType) : bool :=
  match c with
  | ComparisonType_LessThan | ComparisonType_GreaterThan
  | ComparisonType_GreaterThanEqual | ComparisonType_LessThanEqual => true
  | ComparisonType_Equal | ComparisonType_NotEqual => false
  end.

(** The comparisons [lower_comparison_inner] rejects before it looks at the key. *)
Definition check_operator (c : ComparisonType) (v : ValueType) :
    result (AnalysisErrorType M) unit :=
  match v with
  | EnumVariant _ | EnumVariantArray _ =>
      if is_ordering c then Err (InvalidComparison c DataType_EnumVariant) else Ok tt
  | NumberArray _ | NumberComparisonArray _ =>
      if is_ordering c then Err (InvalidComparison c DataType_Number) else Ok tt
  | _ => Ok tt
  end.

(** The dispatch of [lower_comparison_inner] on the key. *)
Definition lower_by_key (key : DirKeyKind) (v : ValueType) (comp : ComparisonType) :
    result (AnalysisErrorType M) (list DirValue) :=
  match key with
  | DirKeyKind_PaymentMethod => lower_enum key DirValue_PaymentMethod v
  | DirKeyKind_CardType => lower_enum key DirValue_CardType v
  | DirKeyKind_CardNetwork => lower_enum key DirValue_CardNetwork v
  | DirKeyKind_PayLaterType => lower_enum key DirValue_PayLaterType v
  | DirKeyKind_WalletType => lower_enum key DirValue_WalletType v
  | DirKeyKind_BankDebitType => lower_enum key DirValue_BankDebitType v
  | DirKeyKind_BankRedirectType => lower_enum key DirValue_BankRedirectType v
  | DirKeyKind_CryptoType => lower_enum key DirValue_CryptoType v
  | DirKeyKind_PaymentType => lower_enum key DirValue_PaymentType v
  | DirKeyKind_MandateType => lower_enum key DirValue_MandateType v
  | DirKeyKind_MandateAcceptanceType => lower_enum key DirValue_MandateAcceptanceType v
  | DirKeyKind_RewardType => lower_enum key DirValue_RewardType v
  | DirKeyKind_PaymentCurrency => lower_enum key DirValue_PaymentCurrency v
  | DirKeyKind_AuthenticationType => lower_enum key DirValue_AuthenticationType v
  | DirKeyKind_CaptureMethod => lower_enum key DirValue_CaptureMethod v
  | DirKeyKind_BusinessCountry => lower_enum key DirValue_BusinessCountry v
  | DirKeyKind_BillingCountry => lower_enum key DirValue_BillingCountry v
  | DirKeyKind_SetupFutureUsage => lower_enum key DirValue_SetupFutureUsage v
  | DirKeyKind_UpiType => lower_enum key DirValue_UpiType v
  | DirKeyKind_OpenBankingType => lower_enum key DirValue_OpenBankingType v
  | DirKeyKind_VoucherType => lower_enum key DirValue_VoucherType v
  | DirKeyKind_GiftCardType => lower_enum key DirValue_GiftCardType v
  | DirKeyKind_BankTransferType => lower_enum key DirValue_BankTransferType v
  | DirKeyKind_CardRedirectType => lower_enum key DirValue_CardRedirectType v
  | DirKeyKind_MobilePaymentType => lower_enum key DirValue_MobilePaymentType v
  | DirKeyKind_RealTimePaymentType => lower_enum key DirValue_RealTimePaymentType v
  | DirKeyKind_IssuerCountry => lower_enum key DirValue_IssuerCountry v
  | DirKeyKind_CustomerDevicePlatform => lower_enum key DirValue_CustomerDevicePlatform v
  | DirKeyKind_CustomerDeviceType => lower_enum key DirValue_CustomerDeviceType v
  | DirKeyKind_CustomerDeviceDisplaySize => lower_enum key DirValue_CustomerDeviceDisplaySize v
  | DirKeyKind_AcquirerCountry => lower_enum key DirValue_AcquirerCountry v
  | DirKeyKind_TransactionInitiator => lower_enum key DirValue_TransactionInitiator v
  | DirKeyKind_NetworkTokenType => lower_enum key DirValue_NetworkTokenType v
  | DirKeyKind_CardDiscovery => lower_enum key DirValue_CardDiscovery v
  | DirKeyKind_CardBin =>
      lower_str key DirValue_CardBin v (digits_of_length key 6 "Expected 6 digits")
  | DirKeyKind_ExtendedCardBin =>
      lower_str key DirValue_ExtendedCardBin v (digits_of_length key 8 "Expected 8 digits")
  | DirKeyKind_BusinessLabel => lower_str key DirValue_BusinessLabel v no_validation
  | DirKeyKind_MetaData => lower_metadata key DirValue_MetaData v
  | DirKeyKind_PaymentAmount => lower_number key DirValue_PaymentAmount v comp
  | DirKeyKind_SurchargeAmount => lower_number key DirValue_SurchargeAmount v comp
  | DirKeyKind_Connector => Err (InvalidKey (to_string key))
  | DirKeyKind_IssuerName => lower_str key DirValue_IssuerName v no_validation
  | DirKeyKind_AcquirerFraudRate => lower_number key DirValue_AcquirerFraudRate v comp
  end.

Section filter.
Context (O : Type) `{EuclidDirFilter O}.

Definition lower_comparison_inner (comp : Comparison M) :
    result (AnalysisErrorType M) (list DirValue) :=
  key ← ok_or (InvalidKey (lhs comp)) (from_str (A:=DirKeyKind) (lhs comp));
  if negb (is_key_allowed O key) then Err (InvalidKey (to_string key))
  else
    _ ← check_operator (comparison comp) (value comp);
    lower_by_key key (value comp) (comparison comp).

Definition lower_logic (c : ComparisonType) : DirComparisonLogic :=
  match c with
  | ComparisonType_NotEqual => NegativeConjunction
  | _ => PositiveDisjunction
  end.

Definition lower_comparison (comp : Comparison M) : result (EuclidError M) (DirComparison M) :=
  values ← map_err (λ etype, mkEuclidError etype (metadata comp)) (lower_comparison_inner comp);
  Ok (mkDirComparison values (lower_logic (comparison comp)) (metadata comp)).

Fixpoint lower_if_statement (stmt : IfStatement (Comparison M)) :
    result (EuclidError M) (IfStatement (DirComparison M)) :=
  match stmt with
  | mkIf cond nested =>
      cond ← try_collect lower_comparison cond;
      match nested with
      | None => Ok (mkIf cond None)
      | Some n => n ← try_collect lower_if_statement n; Ok (mkIf cond (Some n))
      end
  end.

Definition lower_rule (rule : Rule (Comparison M) O) :
    result (EuclidError M) (Rule (DirComparison M) O) :=
  stmts ← try_collect lower_if_statement (statements rule);
  Ok (mkRule (name rule) (connector_selection rule) stmts).

Definition lower_program (program : Program M (Comparison M) O) :
    result (EuclidError M) (Program M (DirComparison M) O) :=
  rs ← try_collect lower_rule (rules program);
  Ok (mkProgram (default_selection program) rs (program_metadata program)).

End filter.
End ast.
End AstLowering.

(** ** From the DIR to the VIR *)

Module DirLowering.

Definition pmt_of_CardType (x : CardType) : PaymentMethodType :=
  match x with
  | CardType_Credit => PaymentMethodType_Credit | CardType_Debit => PaymentMethodType_Debit
  end.

Definition pmt_of_PayLaterType (x : PayLaterType) : PaymentMethodType :=
  match x with
  | PayLaterType_Affirm => PaymentMethodType_Affirm
  | PayLaterType_AfterpayClearpay => PaymentMethodType_AfterpayClearpay
  | PayLaterType_Alma => PaymentMethodType_Alma
  | PayLaterType_Flexiti => PaymentMethodType_Flexiti
  | PayLaterType_Klarna => PaymentMethodType_Klarna
  | PayLaterType_PayBright => PaymentMethodType_PayBright
  | PayLaterType_Walley => PaymentMethodType_Walley
  | PayLaterType_Atome => PaymentMethodType_Atome
  | PayLaterType_Breadpay => PaymentMethodType_Breadpay
  | PayLaterType_Payjustnow => PaymentMethodType_Payjustnow
  end.

Definition pmt_of_WalletType (x : WalletType) : PaymentMethodType :=
  match x with
  | WalletType_Bluecode => PaymentMethodType_Bluecode
  | WalletType_GooglePay => PaymentMethodType_GooglePay
  | WalletType_AmazonPay => PaymentMethodType_AmazonPay
  | WalletType_Skrill => PaymentMethodType_Skrill
  | WalletType_Paysera => PaymentMethodType_Paysera
  | WalletType_ApplePay => PaymentMethodType_ApplePay
  | WalletType_Paypal => PaymentMethodType_Paypal
  | WalletType_AliPay => PaymentMethodType_AliPay
  | WalletType_AliPayHk => PaymentMethodType_AliPayHk
  | WalletType_MbWay => PaymentMethodType_MbWay
  | WalletType_MobilePay => PaymentMethodType_MobilePay
  | WalletType_WeChatPay => PaymentMethodType_WeChatPay
  | WalletType_SamsungPay => PaymentMethodType_SamsungPay
  | WalletType_GoPay => PaymentMethodType_GoPay
  | WalletType_KakaoPay => PaymentMethodType_KakaoPay
  | WalletType_Twint => PaymentMethodType_Twint | WalletType_Gcash => PaymentMethodType_Gcash
  | WalletType_Vipps => PaymentMethodType_Vipps | WalletType_Momo => PaymentMethodType_Momo
  | WalletType_Dana => PaymentMethodType_Dana
  | WalletType_TouchNGo => PaymentMethodType_TouchNGo
  | WalletType_Swish => PaymentMethodType_Swish
  | WalletType_Cashapp => PaymentMethodType_Cashapp
  | WalletType_Venmo => PaymentMethodType_Venmo
  | WalletType_Mifinity => PaymentMethodType_Mifinity
  | WalletType_Paze => PaymentMethodType_Paze
  | WalletType_RevolutPay => PaymentMethodType_RevolutPay
  end.

Definition pmt_of_BankDebitType (x : BankDebitType) : PaymentMethodType :=
  match x with
  | BankDebitType_Ach => PaymentMethodType_Ach
  | BankDebitType_EftDebitOrder => PaymentMethodType_EftDebitOrder
  | BankDebitType_Sepa => PaymentMethodType_Sepa
  | BankDebitType_SepaGuarenteedDebit => PaymentMethodType_SepaGuarenteedDebit
  | BankDebitType_Bacs => PaymentMethodType_Bacs | BankDebitType_Becs => PaymentMethodType_Becs
  end.

Definition pmt_of_UpiType (x : UpiType) : PaymentMethodType :=
  match x with
  | UpiType_UpiCollect => PaymentMethodType_UpiCollect
  | UpiType_UpiIntent => PaymentMethodType_UpiIntent | UpiType_UpiQr => PaymentMethodType_UpiQr
  end.

Definition pmt_of_VoucherType (x : VoucherType) : PaymentMethodType :=
  match x with
  | VoucherType_Boleto => PaymentMethodType_Boleto
  | VoucherType_Efecty => PaymentMethodType_Efecty
  | VoucherType_PagoEfectivo => PaymentMethodType_PagoEfectivo
  | VoucherType_RedCompra => PaymentMethodType_RedCompra
  | VoucherType_RedPagos => PaymentMethodType_RedPagos
  | VoucherType_Alfamart => PaymentMethodType_Alfamart
  | VoucherType_Indomaret => PaymentMethodType_Indomaret
  | VoucherType_SevenEleven => PaymentMethodType_SevenEleven
  | VoucherType_Lawson => PaymentMethodType_Lawson
  | VoucherType_MiniStop => PaymentMethodType_MiniStop
  | VoucherType_FamilyMart => PaymentMethodType_FamilyMart
  | VoucherType_Seicomart => PaymentMethodType_Seicomart
  | VoucherType_PayEasy => PaymentMethodType_PayEasy
  | VoucherType_Oxxo => PaymentMethodType_Oxxo
  end.

Definition pmt_of_BankTransferType (x : BankTransferType) : PaymentMethodType :=
  match x with
  | BankTransferType_Multibanco => PaymentMethodType_Multibanco
  | BankTransferType_Pix => PaymentMethodType_Pix
  | BankTransferType_PixKey => PaymentMethodType_PixKey
  | BankTransferType_PixEmv => PaymentMethodType_PixEmv
  | BankTransferType_PixQr => PaymentMethodType_PixQr
  | BankTransferType_PixAutomaticoPush => PaymentMethodType_PixAutomaticoPush
  | BankTransferType_PixAutomaticoQr => PaymentMethodType_PixAutomaticoQr
  | BankTransferType_Pse => PaymentMethodType_Pse
  | BankTransferType_Ach => PaymentMethodType_Ach
  | BankTransferType_SepaBankTransfer => PaymentMethodType_Sepa
  | BankTransferType_Bacs => PaymentMethodType_Bacs
  | BankTransferType_BcaBankTransfer => PaymentMethodType_BcaBankTransfer
  | BankTransferType_BniVa => PaymentMethodType_BniVa
  | BankTransferType_BriVa => PaymentMethodType_BriVa
  | BankTransferType_CimbVa => PaymentMethodType_CimbVa
  | BankTransferType_DanamonVa => PaymentMethodType_DanamonVa
  | BankTransferType_MandiriVa => PaymentMethodType_MandiriVa
  | BankTransferType_PermataBankTransfer => PaymentMethodType_PermataBankTransfer
  | BankTransferType_LocalBankTransfer => PaymentMethodType_LocalBankTransfer
  | BankTransferType_InstantBankTransfer => PaymentMethodType_InstantBankTransfer
  | BankTransferType_InstantBankTransferFinland => PaymentMethodType_InstantBankTransferFinland
  | BankTransferType_InstantBankTransferPoland => PaymentMethodType_InstantBankTransferPoland
  | BankTransferType_IndonesianBankTransfer => PaymentMethodType_IndonesianBankTransfer
  end.

Definition pmt_of_GiftCardType (x : GiftCardType) : PaymentMethodType :=
  match x with
  | GiftCardType_PaySafeCard => PaymentMethodType_PaySafeCard
  | GiftCardType_Givex => PaymentMethodType_Givex
  | GiftCardType_BhnCardNetwork => PaymentMethodType_BhnCardNetwork
  end.

Definition pmt_of_CardRedirectType (x : CardRedirectType) : PaymentMethodType :=
  match x with
  | CardRedirectType_Benefit => PaymentMethodType_Benefit
  | CardRedirectType_Knet => PaymentMethodType_Knet
  | CardRedirectType_MomoAtm => PaymentMethodType_MomoAtm
  | CardRedirectType_CardRedirect => PaymentMethodType_CardRedirect
  end.

Definition pmt_of_MobilePaymentType (x : MobilePaymentType) : PaymentMethodType :=
  match x with
  | MobilePaymentType_DirectCarrierBilling => PaymentMethodType_DirectCarrierBilling
  end.

Definition pmt_of_NetworkTokenType (x : NetworkTokenType) : PaymentMethodType :=
  match x with
  | NetworkTokenType_NetworkToken => PaymentMethodType_NetworkToken
  end.

Definition pmt_of_BankRedirectType (x : BankRedirectType) : PaymentMethodType :=
  match x with
  | BankRedirectType_Bizum => PaymentMethodType_Bizum
  | BankRedirectType_Giropay => PaymentMethodType_Giropay
  | BankRedirectType_Ideal => PaymentMethodType_Ideal
  | BankRedirectType_Sofort => PaymentMethodType_Sofort
  | BankRedirectType_Eft => PaymentMethodType_Eft
  | BankRedirectType_Eps => PaymentMethodType_Eps
  | BankRedirectType_BancontactCard => PaymentMethodType_BancontactCard
  | BankRedirectType_Blik => PaymentMethodType_Blik
  | BankRedirectType_Interac => PaymentMethodType_Interac
  | BankRedirectType_LocalBankRedirect => PaymentMethodType_LocalBankRedirect
  | BankRedirectType_OnlineBankingCzechRepublic => PaymentMethodType_OnlineBankingCzechRepublic
  | BankRedirectType_OnlineBankingFinland => PaymentMethodType_OnlineBankingFinland
  | BankRedirectType_OnlineBankingPoland => PaymentMethodType_OnlineBankingPoland
  | BankRedirectType_OnlineBankingSlovakia => PaymentMethodType_OnlineBankingSlovakia
  | BankRedirectType_OnlineBankingFpx => PaymentMethodType_OnlineBankingFpx
  | BankRedirectType_OnlineBankingThailand => PaymentMethodType_OnlineBankingThailand
  | BankRedirectType_OpenBankingUk => PaymentMethodType_OpenBankingUk
  | BankRedirectType_Przelewy24 => PaymentMethodType_Przelewy24
  | BankRedirectType_Trustly => PaymentMethodType_Trustly
  | BankRedirectType_OpenBanking => PaymentMethodType_OpenBanking
  end.

Definition pmt_of_OpenBankingType (x : OpenBankingType) : PaymentMethodType :=
  match x with
  | OpenBankingType_OpenBankingPIS => PaymentMethodType_OpenBankingPIS
  end.

Definition pmt_of_CryptoType (x : CryptoType) : PaymentMethodType :=
  match x with
  | CryptoType_CryptoCurrency => PaymentMethodType_CryptoCurrency
  end.

Definition pmt_of_RewardType (x : RewardType) : PaymentMethodType :=
  match x with
  | RewardType_ClassicReward => PaymentMethodType_ClassicReward
  | RewardType_Evoucher => PaymentMethodType_Evoucher
  end.

Definition pmt_of_RealTimePaymentType (x : RealTimePaymentType) : PaymentMethodType :=
  match x with
  | RealTimePaymentType_Fps => PaymentMethodType_Fps
  | RealTimePaymentType_DuitNow => PaymentMethodType_DuitNow
  | RealTimePaymentType_PromptPay => PaymentMethodType_PromptPay
  | RealTimePaymentType_VietQr => PaymentMethodType_VietQr
  | RealTimePaymentType_Qris => PaymentMethodType_Qris
  end.

(** [lower_value]. *)
Definition lower_value {M} (dir_value : DirValue) : result (AnalysisErrorType M) EuclidValue :=
  match dir_value with
  | DirValue_PaymentMethod x => Ok (EuclidValue_PaymentMethod x)
  | DirValue_CardBin x => Ok (EuclidValue_CardBin x)
  | DirValue_ExtendedCardBin x => Ok (EuclidValue_ExtendedCardBin x)
  | DirValue_CardType x => Ok (EuclidValue_PaymentMethodType (pmt_of_CardType x))
  | DirValue_CardNetwork x => Ok (EuclidValue_CardNetwork x)
  | DirValue_MetaData x => Ok (EuclidValue_Metadata x)
  | DirValue_PayLaterType x => Ok (EuclidValue_PaymentMethodType (pmt_of_PayLaterType x))
  | DirValue_WalletType x => Ok (EuclidValue_PaymentMethodType (pmt_of_WalletType x))
  | DirValue_UpiType x => Ok (EuclidValue_PaymentMethodType (pmt_of_UpiType x))
  | DirValue_VoucherType x => Ok (EuclidValue_PaymentMethodType (pmt_of_VoucherType x))
  | DirValue_BankTransferType x => Ok (EuclidValue_PaymentMethodType (pmt_of_BankTransferType x))
  | DirValue_GiftCardType x => Ok (EuclidValue_PaymentMethodType (pmt_of_GiftCardType x))
  | DirValue_CardRedirectType x => Ok (EuclidValue_PaymentMethodType (pmt_of_CardRedirectType x))
  | DirValue_BankRedirectType x => Ok (EuclidValue_PaymentMethodType (pmt_of_BankRedirectType x))
  | DirValue_CryptoType x => Ok (EuclidValue_PaymentMethodType (pmt_of_CryptoType x))
  | DirValue_RealTimePaymentType x => Ok (EuclidValue_PaymentMethodType (pmt_of_RealTimePaymentType x))
  | DirValue_AuthenticationType x => Ok (EuclidValue_AuthenticationType x)
  | DirValue_CaptureMethod x => Ok (EuclidValue_CaptureMethod x)
  | DirValue_PaymentAmount x => Ok (EuclidValue_PaymentAmount x)
  | DirValue_SurchargeAmount x => Ok (EuclidValue_SurchargeAmount x)
  | DirValue_PaymentCurrency x => Ok (EuclidValue_PaymentCurrency x)
  | DirValue_BusinessCountry x => Ok (EuclidValue_BusinessCountry x)
  | DirValue_BillingCountry x => Ok (EuclidValue_BillingCountry x)
  | DirValue_MandateAcceptanceType x => Ok (EuclidValue_MandateAcceptanceType x)
  | DirValue_MandateType x => Ok (EuclidValue_MandateType x)
  | DirValue_PaymentType x => Ok (EuclidValue_PaymentType x)
  | DirValue_BankDebitType x => Ok (EuclidValue_PaymentMethodType (pmt_of_BankDebitType x))
  | DirValue_RewardType x => Ok (EuclidValue_PaymentMethodType (pmt_of_RewardType x))
  | DirValue_BusinessLabel x => Ok (EuclidValue_BusinessLabel x)
  | DirValue_SetupFutureUsage x => Ok (EuclidValue_SetupFutureUsage x)
  | DirValue_OpenBankingType x => Ok (EuclidValue_PaymentMethodType (pmt_of_OpenBankingType x))
  | DirValue_MobilePaymentType x => Ok (EuclidValue_PaymentMethodType (pmt_of_MobilePaymentType x))
  | DirValue_IssuerName x => Ok (EuclidValue_IssuerName x)
  | DirValue_IssuerCountry x => Ok (EuclidValue_IssuerCountry x)
  | DirValue_CustomerDevicePlatform x => Ok (EuclidValue_CustomerDevicePlatform x)
  | DirValue_CustomerDeviceType x => Ok (EuclidValue_CustomerDeviceType x)
  | DirValue_CustomerDeviceDisplaySize x => Ok (EuclidValue_CustomerDeviceDisplaySize x)
  | DirValue_AcquirerCountry x => Ok (EuclidValue_AcquirerCountry x)
  | DirValue_AcquirerFraudRate x => Ok (EuclidValue_AcquirerFraudRate x)
  | DirValue_TransactionInitiator x => Ok (EuclidValue_TransactionInitiator x)
  | DirValue_NetworkTokenType x => Ok (EuclidValue_PaymentMethodType (pmt_of_NetworkTokenType x))
  | DirValue_CardDiscovery x => Ok (EuclidValue_CardDiscovery x)
  | DirValue_Connector _ => Err (UnsupportedProgramKey DirKeyKind_Connector)
  end.

(** [vir::ValuedComparison]. *)
Record ValuedComparison (M : Type) := mkValuedComparison {
  vir_values : list EuclidValue;
  vir_logic : DirComparisonLogic;
  vir_metadata : M;
}.
Arguments mkValuedComparison {M}. Arguments vir_values {M}. Arguments vir_logic {M}.
Arguments vir_metadata {M}.

Section dir.
Context {M : Type} {O : Type}.

(** The two enums of comparison logic have the same variants: the match of
    [lower_comparison] on them is the identity. *)
Definition lower_comparison (c : DirComparison M) :
    result (AnalysisErrorType M) (ValuedComparison M) :=
  values ← try_collect lower_value (dir_values c);
  Ok (mkValuedComparison values (dir_logic c) (dir_metadata c)).

Fixpoint lower_if_statement (stmt : IfStatement (DirComparison M)) :
    result (AnalysisErrorType M) (IfStatement (ValuedComparison M)) :=
  match stmt with
  | mkIf cond nested =>
      cond ← try_collect lower_comparison cond;
      match nested with
      | None => Ok (mkIf cond None)
      | Some n => n ← try_collect lower_if_statement n; Ok (mkIf cond (Some n))
      end
  end.

Definition lower_rule (rule : Rule (DirComparison M) O) :
    result (AnalysisErrorType M) (Rule (ValuedComparison M) O) :=
  stmts ← try_collect lower_if_statement (statements rule);
  Ok (mkRule (name rule) (connector_selection rule) stmts).

(** [default_metadata] is [Metadata::default()], the empty object. *)
Definition lower_program (default_metadata : M) (program : Program M (DirComparison M) O) :
    result (EuclidError M) (Program M (ValuedComparison M) O) :=
  rs ← map_err (λ e, mkEuclidError e default_metadata) (try_collect lower_rule (rules program));
  Ok (mkProgram (default_selection program) rs (program_metadata program)).

End dir.

(** ** From a payment method type to the DIR *)

(** [into_dir_value] on a payment method type and its payment method. *)
Definition into_dir_value {M} (p : PaymentMethodType * PaymentMethod) : result (AnalysisErrorType M) DirValue :=
  match p.1 with
  | PaymentMethodType_Credit => Ok (DirValue_CardType CardType_Credit)
  | PaymentMethodType_Debit => Ok (DirValue_CardType CardType_Debit)
  | PaymentMethodType_Giropay => Ok (DirValue_BankRedirectType BankRedirectType_Giropay)
  | PaymentMethodType_Ideal => Ok (DirValue_BankRedirectType BankRedirectType_Ideal)
  | PaymentMethodType_Sofort => Ok (DirValue_BankRedirectType BankRedirectType_Sofort)
  | PaymentMethodType_DuitNow => Ok (DirValue_RealTimePaymentType RealTimePaymentType_DuitNow)
  | PaymentMethodType_Eps => Ok (DirValue_BankRedirectType BankRedirectType_Eps)
  | PaymentMethodType_Fps => Ok (DirValue_RealTimePaymentType RealTimePaymentType_Fps)
  | PaymentMethodType_Klarna => Ok (DirValue_PayLaterType PayLaterType_Klarna)
  | PaymentMethodType_Affirm => Ok (DirValue_PayLaterType PayLaterType_Affirm)
  | PaymentMethodType_Payjustnow => Ok (DirValue_PayLaterType PayLaterType_Payjustnow)
  | PaymentMethodType_AfterpayClearpay => Ok (DirValue_PayLaterType PayLaterType_AfterpayClearpay)
  | PaymentMethodType_AmazonPay => Ok (DirValue_WalletType WalletType_AmazonPay)
  | PaymentMethodType_Skrill => Ok (DirValue_WalletType WalletType_Skrill)
  | PaymentMethodType_Paysera => Ok (DirValue_WalletType WalletType_Paysera)
  | PaymentMethodType_GooglePay => Ok (DirValue_WalletType WalletType_GooglePay)
  | PaymentMethodType_Bluecode => Ok (DirValue_WalletType WalletType_Bluecode)
  | PaymentMethodType_ApplePay => Ok (DirValue_WalletType WalletType_ApplePay)
  | PaymentMethodType_Paypal => Ok (DirValue_WalletType WalletType_Paypal)
  | PaymentMethodType_RevolutPay => Ok (DirValue_WalletType WalletType_RevolutPay)
  | PaymentMethodType_CryptoCurrency => Ok (DirValue_CryptoType CryptoType_CryptoCurrency)
  | PaymentMethodType_Becs => Ok (DirValue_BankDebitType BankDebitType_Becs)
  | PaymentMethodType_Sepa => Ok (DirValue_BankDebitType BankDebitType_Sepa)
  | PaymentMethodType_SepaGuarenteedDebit => Ok (DirValue_BankDebitType BankDebitType_SepaGuarenteedDebit)
  | PaymentMethodType_SepaBankTransfer => Ok (DirValue_BankTransferType BankTransferType_SepaBankTransfer)
  | PaymentMethodType_AliPay => Ok (DirValue_WalletType WalletType_AliPay)
  | PaymentMethodType_AliPayHk => Ok (DirValue_WalletType WalletType_AliPayHk)
  | PaymentMethodType_BancontactCard => Ok (DirValue_BankRedirectType BankRedirectType_BancontactCard)
  | PaymentMethodType_Blik => Ok (DirValue_BankRedirectType BankRedirectType_Blik)
  | PaymentMethodType_MbWay => Ok (DirValue_WalletType WalletType_MbWay)
  | PaymentMethodType_MobilePay => Ok (DirValue_WalletType WalletType_MobilePay)
  | PaymentMethodType_Cashapp => Ok (DirValue_WalletType WalletType_Cashapp)
  | PaymentMethodType_Multibanco => Ok (DirValue_BankTransferType BankTransferType_Multibanco)
  | PaymentMethodType_Pix => Ok (DirValue_BankTransferType BankTransferType_Pix)
  | PaymentMethodType_PixKey => Ok (DirValue_BankTransferType BankTransferType_PixKey)
  | PaymentMethodType_PixEmv => Ok (DirValue_BankTransferType BankTransferType_PixEmv)
  | PaymentMethodType_PixQr => Ok (DirValue_BankTransferType BankTransferType_PixQr)
  | PaymentMethodType_PixAutomaticoPush => Ok (DirValue_BankTransferType BankTransferType_PixAutomaticoPush)
  | PaymentMethodType_PixAutomaticoQr => Ok (DirValue_BankTransferType BankTransferType_PixAutomaticoQr)
  | PaymentMethodType_Pse => Ok (DirValue_BankTransferType BankTransferType_Pse)
  | PaymentMethodType_Interac => Ok (DirValue_BankRedirectType BankRedirectType_Interac)
  | PaymentMethodType_OnlineBankingCzechRepublic => Ok (DirValue_BankRedirectType BankRedirectType_OnlineBankingCzechRepublic)
  | PaymentMethodType_OnlineBankingFinland => Ok (DirValue_BankRedirectType BankRedirectType_OnlineBankingFinland)
  | PaymentMethodType_OnlineBankingPoland => Ok (DirValue_BankRedirectType BankRedirectType_OnlineBankingPoland)
  | PaymentMethodType_OnlineBankingSlovakia => Ok (DirValue_BankRedirectType BankRedirectType_OnlineBankingSlovakia)
  | PaymentMethodType_Swish => Ok (DirValue_WalletType WalletType_Swish)
  | PaymentMethodType_Trustly => Ok (DirValue_BankRedirectType BankRedirectType_Trustly)
  | PaymentMethodType_Bizum => Ok (DirValue_BankRedirectType BankRedirectType_Bizum)
  | PaymentMethodType_PayBright => Ok (DirValue_PayLaterType PayLaterType_PayBright)
  | PaymentMethodType_Flexiti => Ok (DirValue_PayLaterType PayLaterType_Flexiti)
  | PaymentMethodType_Walley => Ok (DirValue_PayLaterType PayLaterType_Walley)
  | PaymentMethodType_Breadpay => Ok (DirValue_PayLaterType PayLaterType_Breadpay)
  | PaymentMethodType_Przelewy24 => Ok (DirValue_BankRedirectType BankRedirectType_Przelewy24)
  | PaymentMethodType_PromptPay => Ok (DirValue_RealTimePaymentType RealTimePaymentType_PromptPay)
  | PaymentMethodType_WeChatPay => Ok (DirValue_WalletType WalletType_WeChatPay)
  | PaymentMethodType_ClassicReward => Ok (DirValue_RewardType RewardType_ClassicReward)
  | PaymentMethodType_Evoucher => Ok (DirValue_RewardType RewardType_Evoucher)
  | PaymentMethodType_UpiCollect => Ok (DirValue_UpiType UpiType_UpiCollect)
  | PaymentMethodType_UpiIntent => Ok (DirValue_UpiType UpiType_UpiIntent)
  | PaymentMethodType_UpiQr => Ok (DirValue_UpiType UpiType_UpiQr)
  | PaymentMethodType_SamsungPay => Ok (DirValue_WalletType WalletType_SamsungPay)
  | PaymentMethodType_GoPay => Ok (DirValue_WalletType WalletType_GoPay)
  | PaymentMethodType_KakaoPay => Ok (DirValue_WalletType WalletType_KakaoPay)
  | PaymentMethodType_Twint => Ok (DirValue_WalletType WalletType_Twint)
  | PaymentMethodType_Gcash => Ok (DirValue_WalletType WalletType_Gcash)
  | PaymentMethodType_Vipps => Ok (DirValue_WalletType WalletType_Vipps)
  | PaymentMethodType_VietQr => Ok (DirValue_RealTimePaymentType RealTimePaymentType_VietQr)
  | PaymentMethodType_Momo => Ok (DirValue_WalletType WalletType_Momo)
  | PaymentMethodType_Alma => Ok (DirValue_PayLaterType PayLaterType_Alma)
  | PaymentMethodType_Dana => Ok (DirValue_WalletType WalletType_Dana)
  | PaymentMethodType_OnlineBankingFpx => Ok (DirValue_BankRedirectType BankRedirectType_OnlineBankingFpx)
  | PaymentMethodType_LocalBankRedirect => Ok (DirValue_BankRedirectType BankRedirectType_LocalBankRedirect)
  | PaymentMethodType_OnlineBankingThailand => Ok (DirValue_BankRedirectType BankRedirectType_OnlineBankingThailand)
  | PaymentMethodType_TouchNGo => Ok (DirValue_WalletType WalletType_TouchNGo)
  | PaymentMethodType_Atome => Ok (DirValue_PayLaterType PayLaterType_Atome)
  | PaymentMethodType_Boleto => Ok (DirValue_VoucherType VoucherType_Boleto)
  | PaymentMethodType_Efecty => Ok (DirValue_VoucherType VoucherType_Efecty)
  | PaymentMethodType_PagoEfectivo => Ok (DirValue_VoucherType VoucherType_PagoEfectivo)
  | PaymentMethodType_RedCompra => Ok (DirValue_VoucherType VoucherType_RedCompra)
  | PaymentMethodType_RedPagos => Ok (DirValue_VoucherType VoucherType_RedPagos)
  | PaymentMethodType_Alfamart => Ok (DirValue_VoucherType VoucherType_Alfamart)
  | PaymentMethodType_BcaBankTransfer => Ok (DirValue_BankTransferType BankTransferType_BcaBankTransfer)
  | PaymentMethodType_BniVa => Ok (DirValue_BankTransferType BankTransferType_BniVa)
  | PaymentMethodType_BriVa => Ok (DirValue_BankTransferType BankTransferType_BriVa)
  | PaymentMethodType_CimbVa => Ok (DirValue_BankTransferType BankTransferType_CimbVa)
  | PaymentMethodType_DanamonVa => Ok (DirValue_BankTransferType BankTransferType_DanamonVa)
  | PaymentMethodType_Indomaret => Ok (DirValue_VoucherType VoucherType_Indomaret)
  | PaymentMethodType_MandiriVa => Ok (DirValue_BankTransferType BankTransferType_MandiriVa)
  | PaymentMethodType_LocalBankTransfer => Ok (DirValue_BankTransferType BankTransferType_LocalBankTransfer)
  | PaymentMethodType_InstantBankTransfer => Ok (DirValue_BankTransferType BankTransferType_InstantBankTransfer)
  | PaymentMethodType_InstantBankTransferFinland => Ok (DirValue_BankTransferType BankTransferType_InstantBankTransferFinland)
  | PaymentMethodType_InstantBankTransferPoland => Ok (DirValue_BankTransferType BankTransferType_InstantBankTransferPoland)
  | PaymentMethodType_Qris => Ok (DirValue_RealTimePaymentType RealTimePaymentType_Qris)
  | PaymentMethodType_PermataBankTransfer => Ok (DirValue_BankTransferType BankTransferType_PermataBankTransfer)
  | PaymentMethodType_PaySafeCard => Ok (DirValue_GiftCardType GiftCardType_PaySafeCard)
  | PaymentMethodType_SevenEleven => Ok (DirValue_VoucherType VoucherType_SevenEleven)
  | PaymentMethodType_Lawson => Ok (DirValue_VoucherType VoucherType_Lawson)
  | PaymentMethodType_MiniStop => Ok (DirValue_VoucherType VoucherType_MiniStop)
  | PaymentMethodType_FamilyMart => Ok (DirValue_VoucherType VoucherType_FamilyMart)
  | PaymentMethodType_Seicomart => Ok (DirValue_VoucherType VoucherType_Seicomart)
  | PaymentMethodType_PayEasy => Ok (DirValue_VoucherType VoucherType_PayEasy)
  | PaymentMethodType_Givex => Ok (DirValue_GiftCardType GiftCardType_Givex)
  | PaymentMethodType_Benefit => Ok (DirValue_CardRedirectType CardRedirectType_Benefit)
  | PaymentMethodType_Knet => Ok (DirValue_CardRedirectType CardRedirectType_Knet)
  | PaymentMethodType_OpenBankingUk => Ok (DirValue_BankRedirectType BankRedirectType_OpenBankingUk)
  | PaymentMethodType_MomoAtm => Ok (DirValue_CardRedirectType CardRedirectType_MomoAtm)
  | PaymentMethodType_Oxxo => Ok (DirValue_VoucherType VoucherType_Oxxo)
  | PaymentMethodType_CardRedirect => Ok (DirValue_CardRedirectType CardRedirectType_CardRedirect)
  | PaymentMethodType_Venmo => Ok (DirValue_WalletType WalletType_Venmo)
  | PaymentMethodType_Mifinity => Ok (DirValue_WalletType WalletType_Mifinity)
  | PaymentMethodType_OpenBankingPIS => Ok (DirValue_OpenBankingType OpenBankingType_OpenBankingPIS)
  | PaymentMethodType_Paze => Ok (DirValue_WalletType WalletType_Paze)
  | PaymentMethodType_DirectCarrierBilling => Ok (DirValue_MobilePaymentType MobilePaymentType_DirectCarrierBilling)
  | PaymentMethodType_Eft => Ok (DirValue_BankRedirectType BankRedirectType_Eft)
  | PaymentMethodType_EftDebitOrder => Ok (DirValue_BankDebitType BankDebitType_EftDebitOrder)
  | PaymentMethodType_IndonesianBankTransfer => Ok (DirValue_BankTransferType BankTransferType_IndonesianBankTransfer)
  | PaymentMethodType_BhnCardNetwork => Ok (DirValue_GiftCardType GiftCardType_BhnCardNetwork)
  | PaymentMethodType_OpenBanking => Ok (DirValue_BankRedirectType BankRedirectType_OpenBanking)
  | PaymentMethodType_NetworkToken => Ok (DirValue_NetworkTokenType NetworkTokenType_NetworkToken)
  | PaymentMethodType_Ach =>
      match p.2 with
      | PaymentMethod_BankDebit => Ok (DirValue_BankDebitType BankDebitType_Ach)
      | PaymentMethod_BankTransfer => Ok (DirValue_BankTransferType BankTransferType_Ach)
      | _ => Err NotSupported
      end
  | PaymentMethodType_Bacs =>
      match p.2 with
      | PaymentMethod_BankDebit => Ok (DirValue_BankDebitType BankDebitType_Bacs)
      | PaymentMethod_BankTransfer => Ok (DirValue_BankTransferType BankTransferType_Bacs)
      | _ => Err NotSupported
      end
  end.

End DirLowering.
