(* ===== verification/EuclidVir.v ===== *)
(** * The compiled backend

    [crates/euclid/src/backend/vir_interpreter.rs] and
    [vir_interpreter/types.rs]: a program is lowered to values once, and a
    payment is turned into the set of values it has, against which the
    comparisons are evaluated. *)

From S2P Require Import Prelude.
From S2P Require Import Country Currency PaymentEnums EuclidEnums EuclidTypes EuclidAst EuclidDir.
From S2P Require Import EuclidLowering.

Module Vir.
Import DirLowering.

(** [types::Context]. *)
Record Context := mkContext {
  atomic_values : gset EuclidValue;
  numeric_values : gmap EuclidKey EuclidValue;
}.

(** The comparison of [check_presence] of a number of the program with the
    number of the payment. *)
Definition number_matches (program_value ctx_value : NumValue) : bool :=
  let program_num := number program_value in
  let ctx_num := number ctx_value in
  match refinement program_value with
  | None => (program_num =? ctx_num)%Z
  | Some NumValueRefinement_NotEqual => negb (ctx_num =? program_num)%Z
  | Some NumValueRefinement_GreaterThan => (program_num <? ctx_num)%Z
  | Some NumValueRefinement_GreaterThanEqual => (program_num <=? ctx_num)%Z
  | Some NumValueRefinement_LessThanEqual => (ctx_num <=? program_num)%Z
  | Some NumValueRefinement_LessThan => (ctx_num <? program_num)%Z
  end.

(** [Context::check_presence]. *)
Definition check_presence (ctx : Context) (value : EuclidValue) : bool :=
  let key := euclid_key value in
  match key_type key with
  | DataType_MetadataValue => bool_decide (value ∈ atomic_values ctx)
  | DataType_StrValue => bool_decide (value ∈ atomic_values ctx)
  | DataType_EnumVariant => bool_decide (value ∈ atomic_values ctx)
  | DataType_Number =>
      let ctx_num_value := numeric_values ctx !! key ≫= euclid_num_value in
      match euclid_num_value value, ctx_num_value with
      | Some program_value, Some ctx_value => number_matches program_value ctx_value
      | _, _ => false
      end
  end.

(** [if let Some(x) = o { enum_values.insert(f(x)); }]. *)
Definition insert_some {A} (f : A → EuclidValue) (o : option A) (s : gset EuclidValue) :
    gset EuclidValue :=
  match o with Some x => {[f x]} ∪ s | None => s end.

(** The loop of [from_input] over the metadata of the payment. *)
Definition insert_metadata (met : option (gmap string string)) (s : gset EuclidValue) :
    gset EuclidValue :=
  match met with
  | Some met => foldl (λ s p, {[EuclidValue_Metadata (mkMetadataValue p.1 p.2)]} ∪ s) s
                  (map_to_list met)
  | None => s
  end.

(** The set of values [from_input] builds, in the order of its insertions. *)
Definition enum_values (input : BackendInput) : gset EuclidValue :=
  let p := payment input in
  let pm := method input in
  let s := {[EuclidValue_PaymentCurrency (currency p)]} in
  let s := insert_some EuclidValue_PaymentMethod (payment_method pm) s in
  let s := insert_some EuclidValue_PaymentMethodType (payment_method_type pm) s in
  let s := insert_metadata (input_metadata input) s in
  let s := insert_some EuclidValue_CardNetwork (card_network pm) s in
  let s := insert_some EuclidValue_CardDiscovery (card_discovery pm) s in
  let s := insert_some EuclidValue_AuthenticationType (authentication_type p) s in
  let s := insert_some EuclidValue_CaptureMethod (capture_method p) s in
  let s := insert_some EuclidValue_BusinessCountry (business_country p) s in
  let s := insert_some EuclidValue_TransactionInitiator (transaction_initiator p) s in
  let s := insert_some EuclidValue_BillingCountry (billing_country p) s in
  let s := insert_some (λ x, EuclidValue_CardBin (mkStrValue x)) (card_bin p) s in
  let s := insert_some (λ x, EuclidValue_ExtendedCardBin (mkStrValue x)) (extended_card_bin p) s in
  let s := insert_some (λ x, EuclidValue_BusinessLabel (mkStrValue x)) (business_label p) s in
  let s := insert_some EuclidValue_SetupFutureUsage (setup_future_usage p) s in
  let s := insert_some EuclidValue_PaymentType (payment_type (mandate input)) s in
  let s := insert_some EuclidValue_MandateType (mandate_type (mandate input)) s in
  let s := insert_some EuclidValue_MandateAcceptanceType
             (mandate_acceptance_type (mandate input)) s in
  let s := insert_some EuclidValue_AcquirerCountry
             (acquirer_data input ≫= acquirer_country) s in
  let s := insert_some EuclidValue_CustomerDevicePlatform
             (customer_device_data input ≫= platform) s in
  let s := insert_some EuclidValue_CustomerDeviceType
             (customer_device_data input ≫= device_type) s in
  let s := insert_some EuclidValue_CustomerDeviceDisplaySize
             (customer_device_data input ≫= display_size) s in
  let s := insert_some (λ x, EuclidValue_IssuerName (mkStrValue x))
             (issuer_data input ≫= issuer_name) s in
  insert_some EuclidValue_IssuerCountry (issuer_data input ≫= issuer_country) s.

(** [Context::from_input]. *)
Definition from_input (input : BackendInput) : Context :=
  mkContext (enum_values input)
    (list_to_map [
      (EuclidKey_PaymentAmount,
        EuclidValue_PaymentAmount (mkNumValue (amount (payment input)) None));
      (EuclidKey_SurchargeAmount,
        EuclidValue_SurchargeAmount
          (mkNumValue (default 0%Z (surcharge_amount (payment input))) None))
    ]).

Section backend.
Context {M O : Type}.

Definition eval_comparison (comp : ValuedComparison M) (ctx : Context) : bool :=
  match vir_logic comp with
  | PositiveDisjunction => any (check_presence ctx) (vir_values comp)
  | NegativeConjunction => all (λ v, negb (check_presence ctx v)) (vir_values comp)
  end.

Definition eval_condition (cond : list (ValuedComparison M)) (ctx : Context) : bool :=
  all (λ comp, eval_comparison comp ctx) cond.

Fixpoint eval_statement (ctx : Context) (stmt : IfStatement (ValuedComparison M)) : bool :=
  match stmt with
  | mkIf cond nested =>
      if eval_condition cond ctx then
        match nested with
        | None => true
        | Some nested_stmts => any (eval_statement ctx) nested_stmts
        end
      else false
  end.

Definition eval_rule (rule : Rule (ValuedComparison M) O) (ctx : Context) : bool :=
  any (eval_statement ctx) (statements rule).

Definition eval_program (program : Program M (ValuedComparison M) O) (ctx : Context) :
    BackendOutput O :=
  match List.find (λ rule, eval_rule rule ctx) (rules program) with
  | None => mkOutput None (default_selection program)
  | Some rule => mkOutput (Some (name rule)) (connector_selection rule)
  end.

(** [EuclidBackend::with_program]: both lowerings. *)
Definition with_program `{EuclidDirFilter O} (default_metadata : M)
    (program : Program M (Comparison M) O) :
    result (EuclidError M) (Program M (ValuedComparison M) O) :=
  dir_program ← AstLowering.lower_program O program;
  DirLowering.lower_program default_metadata dir_program.

(** [EuclidBackend::execute]. *)
Definition execute (program : Program M (ValuedComparison M) O) (input : BackendInput) :
    BackendOutput O :=
  eval_program program (from_input input).

End backend.
End Vir.
