(* ===== verification/EuclidFacts.v ===== *)
(** * Facts about the two backends

    What a payment contributes to the context of the compiled backend, how the
    lowering acts on one comparison, and the agreement of the two backends
    comparison by comparison, lifted to statements, rules and programs. *)

From S2P Require Import Prelude.
From S2P Require Import Country Currency PaymentEnums EuclidEnums EuclidTypes EuclidAst EuclidDir.
From S2P Require Import EuclidLowering EuclidVir.

(** ** The context of a payment *)

Definition has_metadata (input : BackendInput) (md : MetadataValue) : bool :=
  match input_metadata input with
  | Some m => bool_decide (m !! md_key md = Some (md_value md))
  | None => false
  end.

Abbreviation given o x := (bool_decide (o = Some x)) (only parsing).

(** What it means for a payment to have a value of a compiled rule. *)
Definition payment_has (input : BackendInput) (v : EuclidValue) : bool :=
  let p := payment input in
  let pm := method input in
  match v with
  | EuclidValue_PaymentMethod x => given (payment_method pm) x
  | EuclidValue_CardBin x => given (card_bin p) (str_value x)
  | EuclidValue_ExtendedCardBin x => given (extended_card_bin p) (str_value x)
  | EuclidValue_Metadata x => has_metadata input x
  | EuclidValue_PaymentMethodType x => given (payment_method_type pm) x
  | EuclidValue_CardNetwork x => given (card_network pm) x
  | EuclidValue_AuthenticationType x => given (authentication_type p) x
  | EuclidValue_CaptureMethod x => given (capture_method p) x
  | EuclidValue_PaymentType x => given (payment_type (mandate input)) x
  | EuclidValue_MandateAcceptanceType x => given (mandate_acceptance_type (mandate input)) x
  | EuclidValue_MandateType x => given (mandate_type (mandate input)) x
  | EuclidValue_PaymentAmount x => Vir.number_matches x (mkNumValue (amount p) None)
  | EuclidValue_SurchargeAmount x =>
      Vir.number_matches x (mkNumValue (default 0%Z (surcharge_amount p)) None)
  | EuclidValue_PaymentCurrency x => given (Some (currency p)) x
  | EuclidValue_BusinessCountry x => given (business_country p) x
  | EuclidValue_BillingCountry x => given (billing_country p) x
  | EuclidValue_BusinessLabel x => given (business_label p) (str_value x)
  | EuclidValue_SetupFutureUsage x => given (setup_future_usage p) x
  | EuclidValue_IssuerName x => given (issuer_data input ≫= issuer_name) (str_value x)
  | EuclidValue_IssuerCountry x => given (issuer_data input ≫= issuer_country) x
  | EuclidValue_AcquirerCountry x => given (acquirer_data input ≫= acquirer_country) x
  | EuclidValue_AcquirerFraudRate _ => false
  | EuclidValue_CustomerDeviceType x => given (customer_device_data input ≫= device_type) x
  | EuclidValue_CustomerDeviceDisplaySize x => given (customer_device_data input ≫= display_size) x
  | EuclidValue_CustomerDevicePlatform x => given (customer_device_data input ≫= platform) x
  | EuclidValue_TransactionInitiator x => given (transaction_initiator p) x
  | EuclidValue_CardDiscovery x => given (card_discovery pm) x
  end.

Lemma elem_of_insert_some {A} (f : A → EuclidValue) o s v :
  v ∈ Vir.insert_some f o s ↔ (∃ x, o = Some x ∧ v = f x) ∨ v ∈ s.
Proof. destruct o; simpl; set_solver. Qed.

Lemma elem_of_insert_metadata met s v :
  v ∈ Vir.insert_metadata met s ↔
  (∃ m k x, met = Some m ∧ m !! k = Some x ∧ v = EuclidValue_Metadata (mkMetadataValue k x)) ∨ v ∈ s.
Proof.
  destruct met as [m|]; simpl; [|set_solver].
  assert (∀ l (s : gset EuclidValue), v ∈ foldl (λ s p, {[EuclidValue_Metadata (mkMetadataValue p.1 p.2)]} ∪ s) s l ↔
    (∃ k x, (k, x) ∈ l ∧ v = EuclidValue_Metadata (mkMetadataValue k x)) ∨ v ∈ s) as Hfold.
  { induction l as [|[k x] l IH]; intros s'; simpl; [set_solver|].
    rewrite IH, elem_of_union, elem_of_singleton. set_solver. }
  rewrite Hfold. setoid_rewrite elem_of_map_to_list. naive_solver.
Qed.

(** Pick the disjunct of the insertion that put the value in the set. *)
Ltac pick_insertion :=
  repeat first
    [ left; eexists; split; [eassumption|reflexivity]
    | left; do 3 eexists; split_and!; [reflexivity|eassumption|reflexivity]
    | right ];
  try (simplify_eq; done).

(** Follow the disjuncts of a membership, discarding those of other keys. *)
Ltac visit_insertions Hin :=
  repeat lazymatch type of Hin with
  | (∃ m k x, _) ∨ _ =>
      destruct Hin as [(? & ? & ? & Hm & Hx & Heq)|Hin];
      [first [discriminate Heq | injection Heq as <- <-; rewrite Hm; by apply bool_decide_eq_true]|]
  | _ ∨ _ =>
      destruct Hin as [(? & Hx & Heq)|Hin];
      [first [discriminate Heq | injection Heq as <-; by apply bool_decide_eq_true]|]
  | _ = _ => first [discriminate Hin | injection Hin as ->; by apply bool_decide_eq_true]
  end.

(** The set of a payment holds its non-numeric values and nothing else. *)
Lemma elem_of_enum_values input v :
  key_type (euclid_key v) ≠ DataType_Number →
  v ∈ Vir.enum_values input ↔ payment_has input v = true.
Proof.
  intros Hty. unfold Vir.enum_values. cbv zeta.
  rewrite !elem_of_insert_some, elem_of_insert_metadata, !elem_of_insert_some, elem_of_singleton.
  destruct v as [|[]|[]|[]| | | | | | | | | | | | |[]| |[]| | | | | | | |];
    simpl in Hty; try congruence; clear Hty; cbv beta iota delta [payment_has has_metadata];
    split.
  all: try solve [intros Hin; visit_insertions Hin].
  all: try solve [intros Hin%bool_decide_eq_true; simpl in Hin; pick_insertion].
  destruct (input_metadata input) eqn:Hm; intros Hin; [|done]. apply bool_decide_eq_true in Hin.
  simpl in Hin. pick_insertion.
Qed.

(** [check_presence] against the context of a payment is [payment_has]. *)
Lemma check_presence_payment input v :
  Vir.check_presence (Vir.from_input input) v = payment_has input v.
Proof.
  unfold Vir.check_presence.
  change (Vir.atomic_values (Vir.from_input input)) with (Vir.enum_values input).
  destruct (key_type (euclid_key v)) eqn:Hty; [by destruct v|..];
    (destruct (payment_has input v) eqn:Hp;
     [apply bool_decide_eq_true | apply bool_decide_eq_false];
     rewrite elem_of_enum_values; congruence).
Qed.

(** ** Agreement on one comparison *)

Section comparison.
Context {M : Type} (input : BackendInput).
Implicit Types c : Comparison M.

Abbreviation ctx := (Interpreter.context_of_input input).
Abbreviation holds := (Vir.check_presence (Vir.from_input input)).

(** The value of a comparison that was lowered to [vs]. *)
Definition vir_value (op : ComparisonType) (vs : list EuclidValue) : bool :=
  match AstLowering.lower_logic op with
  | PositiveDisjunction => any holds vs
  | NegativeConjunction => all (λ v, negb (holds v)) vs
  end.

(** A key whose values are the variants of an enum, which the interpreter
    knows by the names of the variants. *)
Section enum.
Context {A : Type} `{EnumStringLaws A, !SingleName A}.
Context (key : DirKeyKind) (mk : A → DirValue) (emk : A → EuclidValue) (given : option A).
Context (mk_lower : ∀ a, DirLowering.lower_value (M:=M) (mk a) = Ok (emk a)).
Context (emk_holds : ∀ a, holds (emk a) = bool_decide (given = Some a)).

Lemma lower_variant_Ok ev d :
  AstLowering.lower_variant (M:=M) key mk ev = Ok d → ∃ a, ev = to_string a ∧ d = mk a.
Proof.
  unfold AstLowering.lower_variant. destruct (from_str ev) as [a|] eqn:Ha; [|done].
  intros [= <-]. eauto using from_str_single.
Qed.

(** A lowered enum comparison is about a list of variants. *)
Lemma lower_enum_Ok v ds vs :
  AstLowering.lower_enum (M:=M) key mk v = Ok ds → try_collect (DirLowering.lower_value (M:=M)) ds = Ok vs →
  ∃ l, vs = emk <$> l ∧
    ((∃ a, v = EnumVariant (to_string a) ∧ l = [a]) ∨ v = EnumVariantArray (to_string <$> l)).
Proof.
  intros Hds Hvs.
  assert (∀ l, ds = mk <$> l → vs = emk <$> l) as Hl.
  { intros l ->. rewrite (try_collect_fmap _ _ _ _ mk_lower) in Hvs. congruence. }
  destruct v as [|ev| | | |eva|]; simpl in Hds; try done.
  - destruct (AstLowering.lower_variant key mk ev) as [d|] eqn:Hd; simpl in Hds; [|done].
    simplify_eq. apply lower_variant_Ok in Hd as (a & -> & ->).
    exists [a]. split; [by apply Hl|]. left. eauto.
  - apply try_collect_Forall2 in Hds.
    assert (∃ l, eva = to_string <$> l ∧ ds = mk <$> l) as (l & -> & ->).
    { clear Hvs Hl. induction Hds as [|ev d eva ds Hd _ (l & -> & ->)]; [by exists []|].
      apply lower_variant_Ok in Hd as (a & -> & ->). by exists (a :: l). }
    exists l. split; [by apply Hl | by right].
Qed.

Lemma holds_any l : any holds (emk <$> l) = any (λ a, bool_decide (given = Some a)) l.
Proof.
  change (emk <$> l) with (map emk l). rewrite any_map. apply any_ext. intros. apply emk_holds.
Qed.

Lemma enum_comparison c ds vs :
  ctx !! lhs c = Some ((λ a, EnumVariant (to_string a)) <$> given) →
  AstLowering.is_ordering (comparison c) = false →
  (comparison c = ComparisonType_NotEqual → is_Some given) →
  AstLowering.lower_enum (M:=M) key mk (value c) = Ok ds → try_collect (DirLowering.lower_value (M:=M)) ds = Ok vs →
  Interpreter.eval_comparison c ctx = Ok (vir_value (comparison c) vs).
Proof.
  intros Hctx Hop Hne Hds Hvs.
  destruct (lower_enum_Ok _ _ _ Hds Hvs) as (l & -> & Hval). clear Hds Hvs.
  unfold Interpreter.eval_comparison, vir_value. rewrite Hctx. simpl. rewrite all_negb, holds_any.
  destruct given as [x|]; simpl.
  - assert (∀ a, bool_decide (to_string x = to_string a) = bool_decide (Some x = Some a)) as Heq.
    { intros a. apply bool_decide_ext. split; [|congruence]. by intros ->%to_string_inj. }
    assert (any (λ v, bool_decide (to_string x = v)) (to_string <$> l)
            = any (λ a, bool_decide (Some x = Some a)) l) as Hany.
    { change (to_string <$> l) with (map to_string l). rewrite any_map. apply any_ext. intros. apply Heq. }
    destruct Hval as [(a & -> & ->)| ->]; destruct (comparison c); simpl in Hop |- *; try done.
    all: rewrite ?orb_false_r, <- ?Heq, ?bool_decide_not, ?Hany; try done.
    f_equal. rewrite <- Hany, <- all_negb. apply all_ext. intros. by rewrite bool_decide_not.
  - destruct (comparison c) eqn:Hc; simpl in Hop |- *; try done.
    + f_equal. symmetry. apply not_true_is_false. rewrite any_true. by intros (a & _ & Ha).
    + by destruct (Hne eq_refl).
Qed.

End enum.

(** The amount, which the interpreter compares as a number. *)
Lemma amount_matches n op :
  holds (EuclidValue_PaymentAmount (mkNumValue n (refinement_of_comparison op))) =
  Interpreter.compare_numbers op (amount (payment input)) n.
Proof.
  rewrite check_presence_payment. destruct op; simpl; unfold Vir.number_matches; simpl;
    try done. apply Z.eqb_sym.
Qed.

(** A lowered number comparison is a list of numbers with their operators. *)
Lemma lower_number_Ok op v ds vs :
  AstLowering.lower_number (M:=M) DirKeyKind_PaymentAmount DirValue_PaymentAmount v op = Ok ds →
  try_collect (DirLowering.lower_value (M:=M)) ds = Ok vs →
  ∃ l, any holds vs = any (λ p, Interpreter.compare_numbers p.1 (amount (payment input)) p.2) l ∧
    ((∃ n, v = Number n ∧ l = [(op, n)]) ∨ (∃ ns, v = NumberArray ns ∧ l = pair op <$> ns) ∨
     (∃ ncs, v = NumberComparisonArray ncs ∧ l = (λ nc, (nc_type nc, nc_number nc)) <$> ncs)).
Proof.
  intros Hds Hvs.
  set (mk := λ p : ComparisonType * Z, mkNumValue p.2 (refinement_of_comparison p.1)).
  assert (∀ l, ds = (λ p, DirValue_PaymentAmount (mk p)) <$> l →
    any holds vs = any (λ p, Interpreter.compare_numbers p.1 (amount (payment input)) p.2) l) as Hl.
  { intros l ->. rewrite (try_collect_fmap _ _ (λ p, EuclidValue_PaymentAmount (mk p))) in Hvs by done.
    simplify_eq. change (any holds (map (λ p, EuclidValue_PaymentAmount (mk p)) l) =
      any (λ p, Interpreter.compare_numbers p.1 (amount (payment input)) p.2) l).
    rewrite any_map. apply any_ext. intros [] _. apply amount_matches. }
  destruct v as [n| | | |ns| |ncs]; simpl in Hds; try done; simplify_eq.
  - exists [(op, n)]. split; [by apply Hl | eauto].
  - exists (pair op <$> ns). split; [apply Hl; by rewrite <- list_fmap_compose | eauto 6].
  - exists ((λ nc, (nc_type nc, nc_number nc)) <$> ncs).
    split; [apply Hl; by rewrite <- list_fmap_compose | eauto 6].
Qed.

Lemma amount_comparison c ds vs :
  ctx !! lhs c = Some (Some (Number (amount (payment input)))) →
  comparison c ≠ ComparisonType_NotEqual →
  AstLowering.check_operator (M:=M) (comparison c) (value c) = Ok tt →
  AstLowering.lower_number (M:=M) DirKeyKind_PaymentAmount DirValue_PaymentAmount (value c)
    (comparison c) = Ok ds →
  try_collect (DirLowering.lower_value (M:=M)) ds = Ok vs →
  Interpreter.eval_comparison c ctx = Ok (vir_value (comparison c) vs).
Proof.
  intros Hctx Hne Hop Hds Hvs.
  destruct (lower_number_Ok _ _ _ _ Hds Hvs) as (l & Hany & Hval).
  assert (vir_value (comparison c) vs = any holds vs) as ->.
  { unfold vir_value. by destruct (comparison c). }
  rewrite Hany. unfold Interpreter.eval_comparison. rewrite Hctx. simpl.
  destruct Hval as [(n & Hv & ->)|[(ns & Hv & ->)|(ncs & Hv & ->)]]; rewrite Hv in Hop |- *; simpl in Hop.
  - unfold any. simpl. rewrite orb_false_r. by destruct (comparison c).
  - destruct (comparison c); simpl in Hop; try done.
    change (pair ComparisonType_Equal <$> ns) with (map (pair ComparisonType_Equal) ns).
    rewrite any_map. f_equal. apply any_ext. intros. apply Z.eqb_sym.
  - destruct (comparison c); simpl in Hop; try done.
    unfold Interpreter.eval_number_comparison_array.
    change ((λ nc, (nc_type nc, nc_number nc)) <$> ncs)
      with (map (λ nc, (nc_type nc, nc_number nc)) ncs). by rewrite any_map.
Qed.

(** ** The fragment on which the backends agree

    The keys the interpreter knows and the lowering accepts.  The interpreter
    takes a comparison with a missing value as false, also a negative one; and
    the compiled form of a negated amount is treated below. *)
Definition is_not_equal (op : ComparisonType) : bool :=
  match op with ComparisonType_NotEqual => true | _ => false end.

Definition comparable (c : Comparison M) : bool :=
  let positive := negb (is_not_equal (comparison c)) in
  match from_str (A:=DirKeyKind) (lhs c) with
  | Some DirKeyKind_PaymentMethod => positive || bool_decide (is_Some (payment_method (method input)))
  | Some DirKeyKind_AuthenticationType =>
      positive || bool_decide (is_Some (authentication_type (payment input)))
  | Some DirKeyKind_CaptureMethod => positive || bool_decide (is_Some (capture_method (payment input)))
  | Some DirKeyKind_PaymentCurrency => true
  | Some DirKeyKind_PaymentAmount => positive
  | _ => false
  end.

(** The comparison [c] is compiled to [vc]. *)
Definition compiles_to (O : Type) `{EuclidDirFilter O} (c : Comparison M)
    (vc : DirLowering.ValuedComparison M) : Prop :=
  ∃ d, AstLowering.lower_comparison O c = Ok d ∧ DirLowering.lower_comparison d = Ok vc.

Lemma compiles_to_values (O : Type) `{EuclidDirFilter O} c vc :
  compiles_to O c vc →
  ∃ k ds, from_str (lhs c) = Some k ∧
    AstLowering.check_operator (M:=M) (comparison c) (value c) = Ok tt ∧
    AstLowering.lower_by_key (M:=M) k (value c) (comparison c) = Ok ds ∧
    try_collect (DirLowering.lower_value (M:=M)) ds = Ok (DirLowering.vir_values vc) ∧
    DirLowering.vir_logic vc = AstLowering.lower_logic (comparison c).
Proof.
  intros (d & Hd & Hv). unfold AstLowering.lower_comparison, AstLowering.lower_comparison_inner in Hd.
  destruct (from_str (lhs c)) as [k|]; simpl in Hd; [|done].
  destruct (is_key_allowed O k); simpl in Hd; [|done].
  destruct (AstLowering.check_operator (comparison c) (value c)) as [[]|] eqn:Hop; simpl in Hd; [|done].
  destruct (AstLowering.lower_by_key k (value c) (comparison c)) as [ds|] eqn:Hds; simpl in Hd; [|done].
  simplify_eq. unfold DirLowering.lower_comparison in Hv. simpl in Hv.
  destruct (try_collect DirLowering.lower_value ds) as [vs|] eqn:Hvs; simpl in Hv; [|done].
  simplify_eq. exists k, ds. eauto 10.
Qed.

Lemma check_operator_enum op v (ds : list DirValue) {A} `{Enumerated A, EnumString A} key (mk : A → DirValue) :
  AstLowering.check_operator (M:=M) op v = Ok tt →
  AstLowering.lower_enum (M:=M) key mk v = Ok ds → AstLowering.is_ordering op = false.
Proof. destruct v; simpl; try done; by destruct (AstLowering.is_ordering op). Qed.

(** The four enum keys the interpreter knows. *)
Ltac by_enum_key mk emk given :=
  match goal with
  | Hlhs : lhs _ = _, Hop : AstLowering.check_operator _ _ = _,
    Hds : AstLowering.lower_enum _ _ _ = Ok ?ds |- _ =>
      eapply (enum_comparison _ mk emk given (λ _, eq_refl)
               (λ a, check_presence_payment input (emk a)) _ ds);
      [by rewrite Hlhs | exact (check_operator_enum _ _ _ _ _ Hop Hds) | | exact Hds | assumption]
  end.

Lemma comparison_agrees (O : Type) `{EuclidDirFilter O} c vc :
  comparable c = true → compiles_to O c vc →
  Interpreter.eval_comparison c ctx = Ok (Vir.eval_comparison vc (Vir.from_input input)).
Proof.
  intros Hc (k & ds & Hk & Hop & Hds & Hvs & Hlogic)%compiles_to_values.
  assert (Vir.eval_comparison vc (Vir.from_input input) =
    vir_value (comparison c) (DirLowering.vir_values vc)) as ->.
  { unfold Vir.eval_comparison, vir_value. by rewrite Hlogic. }
  unfold comparable in Hc. rewrite Hk in Hc.
  pose proof (from_str_serialized _ _ Hk) as Hlhs.
  assert (∀ P `{Decision P}, negb (is_not_equal (comparison c)) || bool_decide P = true →
    comparison c = ComparisonType_NotEqual → P) as Hpresent.
  { intros P ? HP Heq. rewrite Heq in HP. by apply bool_decide_eq_true in HP. }
  destruct k; try done; simpl in Hlhs, Hds; apply list_elem_of_singleton in Hlhs.
  - by_enum_key DirValue_PaymentMethod EuclidValue_PaymentMethod (payment_method (method input)).
    by apply (Hpresent _ _ Hc).
  - apply amount_comparison with ds; [by rewrite Hlhs | | done..]. by destruct (comparison c).
  - by_enum_key DirValue_PaymentCurrency EuclidValue_PaymentCurrency (Some (currency (payment input))).
    done.
  - by_enum_key DirValue_AuthenticationType EuclidValue_AuthenticationType
      (authentication_type (payment input)).
    by apply (Hpresent _ _ Hc).
  - by_enum_key DirValue_CaptureMethod EuclidValue_CaptureMethod (capture_method (payment input)).
    by apply (Hpresent _ _ Hc).
Qed.

(** ** From comparisons to programs *)

Section programs.
Context {O : Type} `{EuclidDirFilter O}.

(** [s] is compiled to [v] by the two lowerings. *)
Definition stmt_compiles_to (s : IfStatement (Comparison M))
    (v : IfStatement (DirLowering.ValuedComparison M)) : Prop :=
  ∃ d, AstLowering.lower_if_statement O s = Ok d ∧ DirLowering.lower_if_statement d = Ok v.

Lemma stmt_compiles_inv s v :
  stmt_compiles_to s v →
  Forall2 (compiles_to O) (condition s) (condition v) ∧
  match nested s, nested v with
  | None, None => True
  | Some ss, Some vs => Forall2 stmt_compiles_to ss vs
  | _, _ => False
  end.
Proof.
  intros (d & Hd & Hv). destruct s as [cond n]. simpl in Hd.
  destruct (try_collect (AstLowering.lower_comparison O) cond) as [cd|] eqn:Hcd; simpl in Hd; [|done].
  destruct n as [n|]; [|simplify_eq; simpl in Hv].
  - destruct (try_collect (AstLowering.lower_if_statement O) n) as [nd|] eqn:Hnd; simpl in Hd; [|done].
    simplify_eq. simpl in Hv.
    destruct (try_collect DirLowering.lower_comparison cd) as [cv|] eqn:Hcv; simpl in Hv; [|done].
    destruct (try_collect DirLowering.lower_if_statement nd) as [nv|] eqn:Hnv; simpl in Hv; [|done].
    simplify_eq. simpl. split; by eapply try_collect_compose.
  - destruct (try_collect DirLowering.lower_comparison cd) as [cv|] eqn:Hcv; simpl in Hv; [|done].
    simplify_eq. simpl. split; [by eapply try_collect_compose | done].
Qed.

Lemma condition_agrees cond vcond :
  Forall (λ c, comparable c = true) cond → Forall2 (compiles_to O) cond vcond →
  Interpreter.eval_if_condition cond ctx = Ok (Vir.eval_condition vcond (Vir.from_input input)).
Proof.
  intros Hc Hcv. rewrite Forall_forall in Hc. apply try_all_Forall2.
  eapply Forall2_impl_elem; [done|]. intros c vc Hin Hv. eapply comparison_agrees; eauto.
Qed.

Lemma statement_agrees s v :
  stmt_all (λ c, comparable c = true) s → stmt_compiles_to s v →
  Interpreter.eval_if_statement ctx s = Ok (Vir.eval_statement (Vir.from_input input) v).
Proof.
  revert v. induction s as [cond|cond ns IH] using IfStatement_ind'; intros [vcond vn] Hall Hv;
    apply stmt_compiles_inv in Hv as [Hcond Hn]; simpl in Hcond, Hn;
    inversion Hall as [? Hc|? ? Hc Hns]; simplify_eq; destruct vn as [vn|]; try done; simpl;
    rewrite (condition_agrees cond vcond Hc Hcond); simpl; destruct (Vir.eval_condition _ _); try done.
  simpl. apply try_any_Forall2. rewrite Forall_forall in IH, Hns.
  eapply Forall2_impl_elem; [done|]. intros s v Hin Hv. by apply IH; [| apply Hns |].
Qed.

Lemma rules_agree rs vrs (d : O) :
  (∀ r s, r ∈ rs → s ∈ statements r → stmt_all (λ c, comparable c = true) s) →
  Forall2 (λ r vr, ∃ dr, AstLowering.lower_rule O r = Ok dr ∧ DirLowering.lower_rule dr = Ok vr) rs vrs →
  Interpreter.eval_rules rs d ctx =
  Ok (match List.find (λ r, Vir.eval_rule r (Vir.from_input input)) vrs with
      | None => mkOutput None d
      | Some r => mkOutput (Some (name r)) (connector_selection r)
      end).
Proof.
  intros Hall Hrs. induction Hrs as [|r vr rs vrs (dr & Hdr & Hvr) _ IH]; simpl; [done|].
  unfold AstLowering.lower_rule in Hdr.
  destruct (try_collect _ (statements r)) as [ds|] eqn:Hds; simpl in Hdr; [|done]. simplify_eq.
  unfold DirLowering.lower_rule in Hvr. simpl in Hvr.
  destruct (try_collect _ ds) as [vs|] eqn:Hvs; simpl in Hvr; [|done]. simplify_eq. simpl.
  unfold Interpreter.eval_rule, Interpreter.eval_rule_statements, Vir.eval_rule. simpl.
  rewrite (try_any_Forall2 _ (Vir.eval_statement (Vir.from_input input)) _ vs).
  - simpl. destruct (any _ vs); [done|]. apply IH. set_solver.
  - eapply Forall2_impl_elem; [by eapply try_collect_compose|].
    intros s v Hin Hv. apply statement_agrees; [|done]. eapply Hall; [|done]. set_solver.
Qed.

End programs.
End comparison.
