(* ===== verification/EuclidLoweringFacts.v ===== *)
(** * Which programs compile

    The names a key accepts are the printed names of the values in its value
    set; a comparison is lowered exactly when its key is known and admitted by
    the output type, its operator applies to its value and its value is one the
    key accepts; the second lowering never fails on the output of the first. *)

From S2P Require Import Prelude.
From S2P Require Import Country Currency PaymentEnums EuclidEnums EuclidTypes EuclidAst EuclidDir.
From S2P Require Import EuclidLowering EuclidVir EuclidFacts.

#[export] Instance Country_laws : EnumStringLaws Country.
Proof. apply enum_string_laws_check. by_evaluation. Qed.

Definition digits (len : nat) (st : string) : bool :=
  bool_decide (String.length st = len) && all AstLowering.is_ascii_digit (String.list_ascii_of_string st).

(** [s] is the name of a value of the key. *)
Definition names_value (k : DirKeyKind) (s : string) : Prop :=
  ∃ d, d ∈ default [] (get_value_set k) ∧ viz d = s.

(** The values a key accepts. *)
Definition value_accepted (k : DirKeyKind) (v : ValueType) : Prop :=
  get_type k = value_type v ∧
  match v with
  | EnumVariant s => names_value k s
  | EnumVariantArray ss => Forall (names_value k) ss
  | StrVal s =>
      match k with
      | DirKeyKind_CardBin => digits 6 s = true
      | DirKeyKind_ExtendedCardBin => digits 8 s = true
      | _ => True
      end
  | Number _ | NumberArray _ | NumberComparisonArray _ | MetadataVariant _ => True
  end.

(** An ordering applies to a single number; on a string and on metadata it is
    let through. *)
Definition operator_accepted (op : ComparisonType) (v : ValueType) : Prop :=
  AstLowering.is_ordering op = true →
  match v with Number _ | StrVal _ | MetadataVariant _ => True | _ => False end.

Definition accepted {M} (O : Type) `{EuclidDirFilter O} (c : Comparison M) : Prop :=
  ∃ k, from_str (lhs c) = Some k ∧ k ∈ ALLOWED O ∧ k ≠ DirKeyKind_Connector ∧
    operator_accepted (comparison c) (value c) ∧ value_accepted k (value c).

(** ** Enumerated keys *)

Section enum_key.
Context {M A : Type} `{EnumStringLaws A, !SingleName A}.
Context (k : DirKeyKind) (mk : A → DirValue).
Context (Hset : get_value_set k = Some (mk <$> variants A)).
Context (Hviz : ∀ a, viz (mk a) = to_string a).

Lemma lower_variant_accepts s :
  is_ok (AstLowering.lower_variant (M:=M) k mk s) = true ↔ names_value k s.
Proof using All.
  unfold AstLowering.lower_variant, names_value. rewrite Hset. simpl. split.
  - destruct (from_str s) as [a|] eqn:Ha; [|done]. intros _. apply from_str_single in Ha as ->.
    exists (mk a). split; [|apply Hviz]. apply list_elem_of_fmap. exists a. split; [done|].
    apply elem_of_variants.
  - intros (d & (a & -> & _)%list_elem_of_fmap & Hd). rewrite Hviz in Hd. subst s.
    by rewrite from_str_to_string.
Qed.

Lemma lower_enum_accepts v :
  get_type k = DataType_EnumVariant →
  is_ok (AstLowering.lower_enum (M:=M) k mk v) = true ↔ value_accepted k v.
Proof using All.
  intros Hty. unfold value_accepted. rewrite Hty.
  destruct v as [|s| | | |ss|]; simpl; try (split; [done | by intros []]).
  - rewrite <- lower_variant_accepts. destruct (AstLowering.lower_variant k mk s); naive_solver.
  - rewrite is_ok_try_collect. setoid_rewrite lower_variant_accepts. naive_solver.
Qed.

Lemma lower_enum_kind v ds :
  (∀ a, dir_kind (mk a) = k) →
  AstLowering.lower_enum (M:=M) k mk v = Ok ds → Forall (λ d, dir_kind d = k) ds.
Proof.
  intros Hk. assert (∀ s d, AstLowering.lower_variant (M:=M) k mk s = Ok d → dir_kind d = k) as Hd.
  { intros s d. unfold AstLowering.lower_variant. destruct (from_str s); naive_solver. }
  destruct v as [|s| | | |ss|]; simpl; try done.
  - destruct (AstLowering.lower_variant k mk s) eqn:Hs; simpl; [|done]. intros [= <-].
    constructor; [by eapply Hd | constructor].
  - intros Hss%try_collect_Forall2. induction Hss; constructor; eauto.
Qed.

End enum_key.

(** ** One comparison *)

Section comparison.
Context {M : Type}.

Lemma lower_by_key_accepts k v op :
  k ≠ DirKeyKind_Connector →
  is_ok (AstLowering.lower_by_key (M:=M) k v op) = true ↔ value_accepted k v.
Proof.
  intros Hk. destruct k; try done;
    try (by apply lower_enum_accepts); clear Hk; unfold value_accepted;
    destruct v as [| | |s| | |]; cbn; try (split; [done | by intros []]); try (by split);
    unfold AstLowering.digits_of_length;
    [destruct (digits 6 s) eqn:Hd | destruct (digits 8 s) eqn:Hd]; unfold digits in Hd; rewrite Hd;
    naive_solver.
Qed.

Lemma lower_by_key_kind k v op ds :
  AstLowering.lower_by_key (M:=M) k v op = Ok ds → Forall (λ d, dir_kind d = k) ds.
Proof.
  destruct k; cbn [AstLowering.lower_by_key]; try done;
    try (by apply lower_enum_kind);
    destruct v as [| | |s| | |]; simpl; try done;
    try (destruct (AstLowering.digits_of_length _ _ _ _); simpl; try done);
    intros Hds; injection Hds as <-; first [by apply Forall_singleton | by apply Forall_fmap, Forall_true].
Qed.

Lemma check_operator_accepts op v :
  is_ok (AstLowering.check_operator (M:=M) op v) = true ↔ operator_accepted op v.
Proof.
  unfold operator_accepted. destruct v; simpl; try (by split);
    destruct (AstLowering.is_ordering op); naive_solver.
Qed.

Lemma lower_comparison_accepts (O : Type) `{EuclidDirFilter O} (c : Comparison M) :
  is_ok (AstLowering.lower_comparison O c) = true ↔ accepted O c.
Proof.
  unfold accepted, AstLowering.lower_comparison, AstLowering.lower_comparison_inner.
  destruct (from_str (lhs c)) as [k|]; simpl; [|naive_solver].
  unfold is_key_allowed. destruct (decide (k ∈ ALLOWED O)) as [Hin|Hin].
  2:{ rewrite bool_decide_eq_false_2 by done. naive_solver. }
  rewrite bool_decide_eq_true_2 by done. simpl.
  pose proof (check_operator_accepts (comparison c) (value c)) as Hop.
  destruct (AstLowering.check_operator _ _) as [[]|]; simpl in Hop |- *; [|naive_solver].
  destruct (decide (k = DirKeyKind_Connector)) as [->|Hk]; [naive_solver|].
  pose proof (lower_by_key_accepts k (value c) (comparison c) Hk) as Hv.
  destruct (AstLowering.lower_by_key _ _ _); naive_solver.
Qed.

(** The values of a lowered comparison are of its key, so they lower again. *)
Lemma lower_value_total d :
  dir_kind d ≠ DirKeyKind_Connector → is_ok (DirLowering.lower_value (M:=M) d) = true.
Proof. by destruct d. Qed.

Lemma lowered_comparison_lowers (O : Type) `{EuclidDirFilter O} (c : Comparison M) d :
  AstLowering.lower_comparison O c = Ok d → is_ok (DirLowering.lower_comparison d) = true.
Proof.
  unfold AstLowering.lower_comparison, AstLowering.lower_comparison_inner.
  destruct (from_str (lhs c)) as [k|]; simpl; [|done].
  destruct (is_key_allowed O k); simpl; [|done].
  destruct (AstLowering.check_operator _ _); simpl; [|done].
  destruct (AstLowering.lower_by_key _ _ _) as [ds|] eqn:Hds; simpl; [|done]. intros [= <-].
  unfold DirLowering.lower_comparison. simpl.
  assert (is_ok (try_collect (DirLowering.lower_value (M:=M)) ds) = true) as Hok.
  { apply is_ok_try_collect. pose proof (lower_by_key_kind _ _ _ _ Hds) as Hkind.
    eapply Forall_impl; [exact Hkind|]. intros x Hx. apply lower_value_total. rewrite Hx.
    by intros ->. }
  by destruct (try_collect _ ds).
Qed.

End comparison.

(** ** Statements and programs *)

Section programs.
Context {M : Type} (O : Type) `{EuclidDirFilter O}.

Lemma lower_condition_accepts cond :
  is_ok (try_collect (AstLowering.lower_comparison (M:=M) O) cond) = true ↔ Forall (accepted O) cond.
Proof. rewrite is_ok_try_collect. by setoid_rewrite lower_comparison_accepts. Qed.

Lemma lower_if_statement_accepts s :
  is_ok (AstLowering.lower_if_statement (M:=M) O s) = true ↔ stmt_all (accepted O) s.
Proof.
  induction s as [cond|cond ns IH] using IfStatement_ind'; simpl.
  - pose proof (lower_condition_accepts cond) as Hc.
    destruct (try_collect _ cond); simpl in Hc |- *; split; intros Hs; try done.
    + constructor. by apply Hc.
    + inversion Hs; subst. by apply Hc.
  - pose proof (lower_condition_accepts cond) as Hc.
    assert (is_ok (try_collect (AstLowering.lower_if_statement (M:=M) O) ns) = true ↔
      Forall (stmt_all (accepted O)) ns) as Hns.
    { rewrite is_ok_try_collect, !Forall_forall. rewrite Forall_forall in IH. naive_solver. }
    destruct (try_collect _ cond); simpl in Hc |- *;
      [destruct (try_collect _ ns); simpl in Hns |- *|]; split; intros Hs; try done.
    + constructor; [by apply Hc | by apply Hns].
    + inversion Hs; subst. by apply Hns.
    + inversion Hs; subst. by apply Hc.
Qed.

(** Two collecting loops in a row succeed when the second accepts what the
    first produces. *)
Lemma try_collect_then {E F A B C} (f : A → result E B) (g : B → result F C) l k :
  (∀ x y, x ∈ l → f x = Ok y → is_ok (g y) = true) →
  try_collect f l = Ok k → is_ok (try_collect g k) = true.
Proof.
  intros Hfg Hk%try_collect_Forall2. apply is_ok_try_collect.
  induction Hk as [|x y l k Hxy _ IH]; constructor.
  - eapply Hfg; [|done]. set_solver.
  - apply IH. intros. eapply Hfg; [|done]. set_solver.
Qed.

Lemma lowered_statement_lowers s d :
  AstLowering.lower_if_statement (M:=M) O s = Ok d → is_ok (DirLowering.lower_if_statement d) = true.
Proof.
  revert d. induction s as [cond|cond ns IH] using IfStatement_ind'; intros d; simpl;
    destruct (try_collect _ cond) as [cd|] eqn:Hcd; simpl; try done.
  all: apply (try_collect_then _ (DirLowering.lower_comparison (M:=M))) in Hcd;
    [|intros ? ? _; apply lowered_comparison_lowers].
  - intros [= <-]. simpl. by destruct (try_collect _ cd).
  - destruct (try_collect _ ns) as [nd|] eqn:Hnd; simpl; [|done]. intros [= <-]. simpl.
    rewrite Forall_forall in IH.
    apply (try_collect_then _ (DirLowering.lower_if_statement (M:=M))) in Hnd; [|naive_solver].
    destruct (try_collect _ cd); simpl; [|done]. by destruct (try_collect _ nd).
Qed.

Lemma lower_rule_accepts (r : Rule (Comparison M) O) :
  is_ok (AstLowering.lower_rule O r) = true ↔ ∀ s, s ∈ statements r → stmt_all (accepted O) s.
Proof.
  transitivity (is_ok (try_collect (AstLowering.lower_if_statement (M:=M) O) (statements r)) = true).
  - unfold AstLowering.lower_rule. by destruct (try_collect _ _).
  - rewrite is_ok_try_collect, Forall_forall. by setoid_rewrite lower_if_statement_accepts.
Qed.

Lemma lowered_rule_lowers (r : Rule (Comparison M) O) d :
  AstLowering.lower_rule O r = Ok d → is_ok (DirLowering.lower_rule d) = true.
Proof.
  unfold AstLowering.lower_rule. destruct (try_collect _ _) as [ds|] eqn:Hds; simpl; [|done].
  intros [= <-]. unfold DirLowering.lower_rule. simpl.
  apply (try_collect_then _ (DirLowering.lower_if_statement (M:=M))) in Hds;
    [|intros ? ? _; apply lowered_statement_lowers].
  by destruct (try_collect _ ds).
Qed.

End programs.
