(* ===== verification/EuclidTheorems.v ===== *)
(** * The routing engine: theorems

    The compiled backend against the reference interpreter, the programs that
    compile, what a payment's context holds, and the conversions between
    payment method types and the values of rules. *)

From S2P Require Import Prelude.
From S2P Require Import Country Currency PaymentEnums EuclidEnums EuclidTypes EuclidAst EuclidDir.
From S2P Require Import EuclidLowering EuclidVir EuclidFacts EuclidLoweringFacts.

(** [C6] The compiled backend refines the reference interpreter on a program that
    compiles and whose comparisons are over the payment method, the authentication
    type, the capture method, the currency and the amount, where no comparison of the
    amount is a negation and a negated comparison of another key is over a value the
    payment has: compilation followed by [execute] returns the selection the
    interpreter returns, and the interpreter returns no error.  On a negated amount
    the backends disagree ([negated_amount_inverted]). *)
Theorem backends_agree {M} (O : Type) `{EuclidDirFilter O} (md : M)
    (p : Program M (Comparison M) O) vp input :
  program_all (λ c, comparable input c = true) p →
  Vir.with_program md p = Ok vp →
  Interpreter.execute p input = Ok (Vir.execute vp input).
Proof.
  intros Hall Hvp. unfold Vir.with_program, AstLowering.lower_program, DirLowering.lower_program in Hvp.
  destruct (try_collect _ (rules p)) as [rs|] eqn:Hrs; simpl in Hvp; [|done].
  destruct (try_collect _ rs) as [vrs|] eqn:Hvrs; simpl in Hvp; [|done]. simplify_eq.
  unfold Interpreter.execute, Interpreter.eval_program.
  apply (rules_agree input); [done|]. by eapply try_collect_compose.
Qed.

(** [C32] A program compiles exactly when every comparison in it, nested ones
    included, is accepted: its key is known, admitted by the output type and
    not the connector, its operator applies to its value, and its value is of
    the key's type, each name in it being the printed name of a value in the
    key's value set and card bins having their number of digits. *)
Theorem with_program_accepts {M} (O : Type) `{EuclidDirFilter O} (md : M)
    (p : Program M (Comparison M) O) :
  is_ok (Vir.with_program md p) = true ↔ program_all (accepted O) p.
Proof.
  transitivity (is_ok (try_collect (AstLowering.lower_rule O) (rules p)) = true).
  - unfold Vir.with_program, AstLowering.lower_program, DirLowering.lower_program.
    destruct (try_collect _ (rules p)) as [rs|] eqn:Hrs; simpl; [|done].
    apply (try_collect_then _ (DirLowering.lower_rule (M:=M))) in Hrs;
      [|intros ? ? _; apply lowered_rule_lowers].
    by destruct (try_collect _ rs).
  - rewrite is_ok_try_collect, Forall_forall. setoid_rewrite lower_rule_accepts.
    unfold program_all. naive_solver.
Qed.

(** The context built from a payment contains a value of a compiled rule
    exactly when the payment has it: the non-numeric values are those of the
    fields of the input, the amounts are compared with the rule's operator (a
    missing surcharge counts as zero), and no payment has an acquirer fraud
    rate. *)
Theorem payment_context_exact input v :
  Vir.check_presence (Vir.from_input input) v = payment_has input v.
Proof. apply check_presence_payment. Qed.

(** A compiled comparison [amount != n] holds exactly of the payments
    whose amount is [n]: the negation is in the refinement of the value and
    again in the logic of the comparison.  The interpreter evaluates the same
    comparison to its negation. *)
Theorem negated_amount_inverted {M} (O : Type) `{EuclidDirFilter O} n (m : M) vc input :
  let c := mkComparison "amount" ComparisonType_NotEqual (Number n) m in
  compiles_to O c vc →
  Vir.eval_comparison vc (Vir.from_input input) = (amount (payment input) =? n)%Z ∧
  Interpreter.eval_comparison c (Interpreter.context_of_input input) =
    Ok (negb (amount (payment input) =? n)%Z).
Proof.
  intros c (k & ds & Hk & _ & Hds & Hvs & Hlogic)%compiles_to_values. split; [|done].
  vm_compute in Hk. injection Hk as <-. simpl in Hds. injection Hds as <-. simpl in Hvs.
  unfold Vir.eval_comparison. rewrite Hlogic. injection Hvs as <-. simpl.
  rewrite check_presence_payment. simpl. unfold Vir.number_matches. simpl.
  by rewrite negb_involutive, andb_true_r.
Qed.

(** No compiled comparison on the acquirer's fraud rate depends on the
    payment: a negated one always holds and every other one never does. *)
Theorem fraud_rate_ignored {M} (O : Type) `{EuclidDirFilter O} (c : Comparison M) vc input :
  lhs c = "acquirer_fraud_rate" → compiles_to O c vc →
  Vir.eval_comparison vc (Vir.from_input input) = is_not_equal (comparison c).
Proof.
  intros Hlhs (k & ds & Hk & _ & Hds & Hvs & Hlogic)%compiles_to_values.
  rewrite Hlhs in Hk. vm_compute in Hk. injection Hk as <-.
  assert (∀ v, v ∈ DirLowering.vir_values vc →
    Vir.check_presence (Vir.from_input input) v = false) as Hno.
  { intros v Hv. rewrite check_presence_payment.
    pose proof (lower_by_key_kind _ _ _ _ Hds) as Hkind. apply try_collect_Forall2 in Hvs.
    apply list_elem_of_lookup in Hv as [i Hi]. eapply Forall2_lookup_r in Hvs as (d & Hd & Hdv); [|done].
    eapply Forall_lookup_1 in Hkind; [|done]. destruct d; try done. simpl in Hdv. by simplify_eq. }
  unfold Vir.eval_comparison. rewrite Hlogic.
  assert (any (Vir.check_presence (Vir.from_input input)) (DirLowering.vir_values vc) = false) as Hany.
  { apply not_true_is_false. rewrite any_true. intros (v & Hv & Ht). by rewrite Hno in Ht. }
  destruct (comparison c); simpl; try done. by rewrite all_negb, Hany.
Qed.

(** Payment method types survive the trip through the values of rules,
    with one exception: the rule value of [SepaBankTransfer] is compiled to
    [Sepa].  The trip is refused only for [Ach] and [Bacs] under a payment
    method that is neither a bank debit nor a bank transfer. *)
Theorem payment_method_type_roundtrip {M} pmt pm :
  match DirLowering.into_dir_value (M:=M) (pmt, pm) with
  | Ok v =>
      DirLowering.lower_value (M:=M) v = Ok (EuclidValue_PaymentMethodType
        (if decide (pmt = PaymentMethodType_SepaBankTransfer) then PaymentMethodType_Sepa else pmt))
  | Err e =>
      e = NotSupported ∧ (pmt = PaymentMethodType_Ach ∨ pmt = PaymentMethodType_Bacs) ∧
      pm ≠ PaymentMethod_BankDebit ∧ pm ≠ PaymentMethod_BankTransfer
  end.
Proof.
  destruct (decide (pmt = PaymentMethodType_Ach ∨ pmt = PaymentMethodType_Bacs)) as [[->| ->]|Hpmt];
    [destruct pm; simpl; auto 10..|].
  destruct pmt; try reflexivity; exfalso; apply Hpmt; auto.
Qed.

(** The subsumption test on numbers is sound: a number constraint that
    [fits] another is implied by it, for every number. *)
Theorem fits_sound program_value ctx_value x :
  fits program_value ctx_value = true →
  Vir.number_matches ctx_value (mkNumValue x None) = true →
  Vir.number_matches program_value (mkNumValue x None) = true.
Proof.
  destruct program_value as [n [[]|]], ctx_value as [m [[]|]]; unfold fits, Vir.number_matches; simpl;
    intros Hfit Hm; try done; bool_facts; subst; rewrite ?negb_true_iff, ?Z.eqb_eq, ?Z.eqb_neq, ?Z.ltb_lt, ?Z.leb_le; lia.
Qed.

(** The keys on which [check_equality] has no case. *)
Definition never_equal_keys : list DirKeyKind :=
  [DirKeyKind_CardBin; DirKeyKind_ExtendedCardBin; DirKeyKind_PaymentAmount;
   DirKeyKind_SurchargeAmount; DirKeyKind_OpenBankingType; DirKeyKind_MobilePaymentType;
   DirKeyKind_CardDiscovery].

(** [check_equality] is equality of values, except that it has no case
    for seven of the keys and says of two equal values of these that they
    differ. *)
Theorem check_equality_exact v1 v2 :
  check_equality v1 v2 = true ↔ v1 = v2 ∧ dir_kind v1 ∉ never_equal_keys.
Proof.
  split.
  - intros Heq. assert (dir_kind v1 ∉ never_equal_keys) as Hk.
    { destruct v1; try (refine (bool_decide_unpack _ _); vm_compute; exact I); destruct v2; simpl in Heq; done. }
    split; [|done]. destruct v1, v2; try done; simpl in Heq; apply bool_decide_eq_true in Heq; congruence.
  - intros [-> Hk]. destruct v2; simpl; try (by apply bool_decide_eq_true);
      destruct Hk; refine (bool_decide_unpack _ _); vm_compute; exact I.
Qed.

(** ** A concrete program

    [cards_abroad]: card payments above 100 in dollars or euros, or payments
    without 3DS, go to Stripe; the others to Adyen. *)

Module EuclidExample.

Definition to_connector (c : RoutableConnectors) : ConnectorSelection := Priority [mkChoice FullStruct c None].
Definition cmp (key : string) (op : ComparisonType) (v : ValueType) : Comparison string :=
  mkComparison key op v ""%string.

Definition program : Program string (Comparison string) ConnectorSelection := {|
  default_selection := to_connector RoutableConnectors_Adyen;
  rules := [mkRule "cards_abroad" (to_connector RoutableConnectors_Stripe) [
    mkIf [cmp "payment_method" ComparisonType_Equal (EnumVariant "card");
          cmp "amount" ComparisonType_GreaterThan (Number 100)]
      (Some [mkIf [cmp "currency" ComparisonType_Equal (EnumVariantArray ["USD"; "EUR"])] None]);
    mkIf [cmp "authentication_type" ComparisonType_NotEqual (EnumVariant "three_ds")] None]];
  program_metadata := ""%string;
|}.

Definition pay (amt : Z) : BackendInput := {|
  input_metadata := None;
  payment := {| amount := amt; currency := Currency_EUR;
    authentication_type := Some AuthenticationType_ThreeDs; card_bin := None;
    extended_card_bin := None; capture_method := None; business_country := None;
    billing_country := None; business_label := None; setup_future_usage := None;
    transaction_initiator := None; surcharge_amount := None |};
  method := mkPaymentMethodInput (Some PaymentMethod_Card) (Some PaymentMethodType_Credit) None None;
  acquirer_data := Some (mkAcquirerDataInput None (Some 0%Z));
  customer_device_data := None;
  issuer_data := None;
  mandate := mkMandateData None None None;
|}.

Definition compiled : Program string (DirLowering.ValuedComparison string) ConnectorSelection :=
  match Vir.with_program ""%string program with
  | Ok vp => vp
  | Err _ => mkProgram (to_connector RoutableConnectors_Adyen) [] ""%string
  end.

Example chosen :
  (rule_name (Vir.execute compiled (pay 150)), rule_name (Vir.execute compiled (pay 50)))
  = (Some "cards_abroad"%string, None).
Proof. vm_compute. reflexivity. Qed.

Lemma program_comparable : program_all (λ c, comparable (pay 150) c = true) program.
Proof.
  intros r s Hr Hs. apply list_elem_of_singleton in Hr as ->.
  apply elem_of_cons in Hs as [-> |Hs]; [|apply list_elem_of_singleton in Hs as ->];
    repeat constructor.
Qed.

Lemma backends_agree_witness :
  Interpreter.execute program (pay 150) = Ok (Vir.execute compiled (pay 150)) ∧
  rule_name (Vir.execute compiled (pay 150)) = Some "cards_abroad"%string.
Proof.
  split; [|vm_compute; reflexivity].
  apply (backends_agree ConnectorSelection ""%string); [apply program_comparable|].
  vm_compute. reflexivity.
Defined.

Definition not_100 := cmp "amount" ComparisonType_NotEqual (Number 100).

Definition not_100_compiled : DirLowering.ValuedComparison string :=
  DirLowering.mkValuedComparison
    [EuclidValue_PaymentAmount (mkNumValue 100 (Some NumValueRefinement_NotEqual))]
    NegativeConjunction ""%string.

Lemma not_100_compiles : compiles_to ConnectorSelection not_100 not_100_compiled.
Proof.
  eexists (mkDirComparison
    [DirValue_PaymentAmount (mkNumValue 100 (Some NumValueRefinement_NotEqual))]
    NegativeConjunction ""%string).
  split; vm_compute; reflexivity.
Qed.

Lemma negated_amount_inverted_witness :
  Vir.eval_comparison not_100_compiled (Vir.from_input (pay 100)) = true ∧
  Vir.eval_comparison not_100_compiled (Vir.from_input (pay 150)) = false.
Proof.
  split.
  - apply (negated_amount_inverted ConnectorSelection 100 ""%string _ (pay 100) not_100_compiles).
  - apply (negated_amount_inverted ConnectorSelection 100 ""%string _ (pay 150) not_100_compiles).
Defined.

Definition risky := cmp "acquirer_fraud_rate" ComparisonType_GreaterThanEqual (Number 0).

Definition risky_compiled : DirLowering.ValuedComparison string :=
  DirLowering.mkValuedComparison
    [EuclidValue_AcquirerFraudRate (mkNumValue 0 (Some NumValueRefinement_GreaterThanEqual))]
    PositiveDisjunction ""%string.

Lemma fraud_rate_ignored_witness :
  Vir.eval_comparison risky_compiled (Vir.from_input (pay 100)) = false.
Proof.
  apply (fraud_rate_ignored ThreeDSDecisionRule risky); [reflexivity|].
  eexists (mkDirComparison
    [DirValue_AcquirerFraudRate (mkNumValue 0 (Some NumValueRefinement_GreaterThanEqual))]
    PositiveDisjunction ""%string).
  split; vm_compute; reflexivity.
Defined.

Lemma fits_sound_witness :
  Vir.number_matches (mkNumValue 10 (Some NumValueRefinement_GreaterThan)) (mkNumValue 40 None) = true.
Proof.
  apply (fits_sound _ (mkNumValue 30 (Some NumValueRefinement_GreaterThan))); reflexivity.
Defined.

End EuclidExample.
