(* ===== verification/StateMachine.v ===== *)
(** * Enumerating the contexts of a routing program

    [crates/euclid/src/dssa/state_machine.rs]: the state machines with which
    the static analyzer walks every conjunction of conditions a program can
    test, and the context values of [crates/euclid/src/dssa/types.rs].

    The vectors the code uses as stacks are lists with the top at the head.
    Every [?] hands an error to the caller, who drops the machine and the
    context, so an error carries no state. *)

From S2P Require Import Prelude.
From S2P Require Import EuclidTypes EuclidAst EuclidDir.

Section machines.
Context {M : Type}.

(** ** Context values *)

Inductive CtxValueKind :=
| Assertion (v : DirValue)
| Negation (vs : list DirValue).

Definition get_assertion (k : CtxValueKind) : option DirValue :=
  match k with Assertion v => Some v | Negation _ => None end.

Definition get_negation (k : CtxValueKind) : option (list DirValue) :=
  match k with Negation vs => Some vs | Assertion _ => None end.

(** [CtxValueKind::get_key]. *)
Definition ctx_key (k : CtxValueKind) : option DirKey :=
  match k with
  | Assertion v => Some (dir_key v)
  | Negation vs => dir_key <$> head vs
  end.

Record ContextValue := mkContextValue { ctx_value : CtxValueKind; ctx_metadata : M }.

Definition assertion (v : DirValue) (md : M) : ContextValue := mkContextValue (Assertion v) md.
Definition negation (vs : list DirValue) (md : M) : ContextValue := mkContextValue (Negation vs) md.

Abbreviation ConjunctiveContext := (list ContextValue) (only parsing).

(** [context.truncate(n)]. *)
Definition truncate (n : nat) (context : ConjunctiveContext) : ConjunctiveContext := take n context.

(** ** One comparison *)

Record ComparisonStateMachine := mkCSM {
  csm_values : list DirValue;
  csm_logic : DirComparisonLogic;
  csm_metadata : M;
  count : nat;
  ctx_idx : nat;
}.

Definition set_count (n : nat) (m : ComparisonStateMachine) : ComparisonStateMachine :=
  mkCSM (csm_values m) (csm_logic m) (csm_metadata m) n (ctx_idx m).

Definition csm_is_finished (m : ComparisonStateMachine) : bool :=
  (length (csm_values m) <=? count m + 1) ||
  match csm_logic m with NegativeConjunction => true | PositiveDisjunction => false end.

(** Called on unfinished machines only, which have values. *)
Definition csm_advance (m : ComparisonStateMachine) : ComparisonStateMachine :=
  match csm_logic m with
  | PositiveDisjunction => set_count ((count m + 1) `mod` length (csm_values m)) m
  | NegativeConjunction => m
  end.

Definition csm_reset (m : ComparisonStateMachine) : ComparisonStateMachine := set_count 0 m.

(** The right-hand side of the assignment is evaluated before the place. *)
Definition csm_put (m : ComparisonStateMachine) (context : ConjunctiveContext) :
    result StateMachineError ConjunctiveContext :=
  match csm_logic m with
  | PositiveDisjunction =>
      v ← ok_or (IndexOutOfBounds "in ComparisonStateMachine while indexing into values")
            (csm_values m !! count m);
      _ ← ok_or (IndexOutOfBounds "in ComparisonStateMachine while indexing into context")
            (context !! ctx_idx m);
      Ok (<[ctx_idx m := assertion v (csm_metadata m)]> context)
  | NegativeConjunction => Ok context
  end.

Definition csm_push (m : ComparisonStateMachine) (context : ConjunctiveContext) :
    result StateMachineError ConjunctiveContext :=
  match csm_logic m with
  | PositiveDisjunction =>
      v ← ok_or (IndexOutOfBounds "in ComparisonStateMachine while pushing")
            (csm_values m !! count m);
      Ok (context ++ [assertion v (csm_metadata m)])
  | NegativeConjunction => Ok (context ++ [negation (csm_values m) (csm_metadata m)])
  end.

(** ** A condition *)

Record ConditionStateMachine := mkCond {
  state_machines : list ComparisonStateMachine;
  start_ctx_idx : nat;
}.

(** [ConditionStateMachine::new]. *)
Definition cond_new (cond : list (DirComparison M)) (start_idx : nat) : ConditionStateMachine :=
  mkCond (imap (λ i c, mkCSM (dir_values c) (dir_logic c) (dir_metadata c) 0 (start_idx + i)) cond)
    start_idx.

Fixpoint push_all (ms : list ComparisonStateMachine) (context : ConjunctiveContext) :
    result StateMachineError ConjunctiveContext :=
  match ms with
  | [] => Ok context
  | m :: ms => context ← csm_push m context; push_all ms context
  end.

Definition cond_init (m : ConditionStateMachine) (context : ConjunctiveContext) :
    result StateMachineError ConjunctiveContext :=
  push_all (state_machines m) context.

Definition cond_destroy (m : ConditionStateMachine) (context : ConjunctiveContext) :
    ConjunctiveContext := truncate (start_ctx_idx m) context.

Definition cond_is_finished (m : ConditionStateMachine) : bool :=
  negb (any (λ machine, negb (csm_is_finished machine)) (state_machines m)).

Definition get_next_ctx_idx (m : ConditionStateMachine) : nat :=
  start_ctx_idx m + length (state_machines m).

(** The loop of [advance], over the machines in reverse order. *)
Fixpoint advance_rev (ms : list ComparisonStateMachine) (context : ConjunctiveContext) :
    result StateMachineError (list ComparisonStateMachine * ConjunctiveContext) :=
  match ms with
  | [] => Ok ([], context)
  | machine :: ms =>
      if csm_is_finished machine then
        let machine := csm_reset machine in
        context ← csm_put machine context;
        '(ms, context) ← advance_rev ms context;
        Ok (machine :: ms, context)
      else
        let machine := csm_advance machine in
        context ← csm_put machine context;
        Ok (machine :: ms, context)
  end.

Definition cond_advance (m : ConditionStateMachine) (context : ConjunctiveContext) :
    result StateMachineError (ConditionStateMachine * ConjunctiveContext) :=
  '(ms, context) ← advance_rev (reverse (state_machines m)) context;
  Ok (mkCond (reverse ms) (start_ctx_idx m), context).

(** ** An if statement *)

Record IfStmtStateMachine := mkStmtMachine {
  condition_machine : ConditionStateMachine;
  nested_stmts : list (IfStatement (DirComparison M));
  nested_idx : nat;
}.

(** [IfStmtStateMachine::new]. *)
Definition stmt_new (stmt : IfStatement (DirComparison M)) (ctx_start_idx : nat) : IfStmtStateMachine :=
  mkStmtMachine (cond_new (condition stmt) ctx_start_idx) (default [] (nested stmt)) 0.

(** [init]: the machine of the first nested statement is returned. *)
Definition stmt_init (m : IfStmtStateMachine) (context : ConjunctiveContext) :
    result StateMachineError (option IfStmtStateMachine * ConjunctiveContext) :=
  context ← cond_init (condition_machine m) context;
  Ok ((λ n, stmt_new n (get_next_ctx_idx (condition_machine m))) <$> head (nested_stmts m), context).

Definition stmt_is_finished (m : IfStmtStateMachine) : bool :=
  length (nested_stmts m) <=? nested_idx m + 1.

Definition stmt_destroy (m : IfStmtStateMachine) (context : ConjunctiveContext) :
    ConjunctiveContext := cond_destroy (condition_machine m) context.

Definition advance_condition_machine (m : IfStmtStateMachine) (context : ConjunctiveContext) :
    result StateMachineError (IfStmtStateMachine * ConjunctiveContext) :=
  '(cm, context) ← cond_advance (condition_machine m) context;
  Ok (mkStmtMachine cm (nested_stmts m) (nested_idx m), context).

Definition stmt_advance (m : IfStmtStateMachine) :
    result StateMachineError (option IfStmtStateMachine * IfStmtStateMachine) :=
  match nested_stmts m with
  | [] => Ok (None, m)
  | ns =>
      let idx := (nested_idx m + 1) `mod` length ns in
      let m := mkStmtMachine (condition_machine m) ns idx in
      n ← ok_or (IndexOutOfBounds "in IfStmtStateMachine while advancing") (ns !! idx);
      Ok (Some (stmt_new n (get_next_ctx_idx (condition_machine m))), m)
  end.

(** ** A rule *)

Record RuleStateMachine := mkRuleMachine {
  connector_selection_data : list (DirValue * M);
  connectors_added : bool;
  if_stmt_machines : list IfStmtStateMachine;
  running_stack : list IfStmtStateMachine;
}.

(** [RuleStateMachine::new]: the statements are pushed in reverse, so the first
    one is on top. *)
Definition rule_new {O} (rule : Rule (DirComparison M) O) (data : list (DirValue * M)) :
    RuleStateMachine :=
  mkRuleMachine data false ((λ s, stmt_new s (length data)) <$> statements rule) [].

Definition rule_is_finished (m : RuleStateMachine) : bool :=
  match if_stmt_machines m, running_stack m with [], [] => true | _, _ => false end.

(** The loop [while let Some(nested_running) = next_running.init(context)?] from
    the machine of the statement [stmt]: every machine but the last goes on the
    stack in the loop, the last one after it. *)
Fixpoint descend_stmt (stmt : IfStatement (DirComparison M)) (idx : nat)
    (stack : list IfStmtStateMachine) (context : ConjunctiveContext) :
    result StateMachineError (list IfStmtStateMachine * ConjunctiveContext) :=
  let next_running := stmt_new stmt idx in
  '(_, context) ← stmt_init next_running context;
  match stmt with
  | mkIf _ (Some (n :: _)) =>
      descend_stmt n (get_next_ctx_idx (condition_machine next_running))
        (next_running :: stack) context
  | _ => Ok (next_running :: stack, context)
  end.

(** The same loop from a machine. *)
Definition descend (next_running : IfStmtStateMachine) (stack : list IfStmtStateMachine)
    (context : ConjunctiveContext) :
    result StateMachineError (list IfStmtStateMachine * ConjunctiveContext) :=
  '(_, context) ← stmt_init next_running context;
  match nested_stmts next_running with
  | n :: _ =>
      descend_stmt n (get_next_ctx_idx (condition_machine next_running))
        (next_running :: stack) context
  | [] => Ok (next_running :: stack, context)
  end.

Definition init_next (m : RuleStateMachine) (context : ConjunctiveContext) :
    result StateMachineError (RuleStateMachine * ConjunctiveContext) :=
  match if_stmt_machines m, running_stack m with
  | [], _ | _, _ :: _ => Ok (m, context)
  | next_running :: rest, [] =>
      let data := connector_selection_data m in
      let context := if connectors_added m then context
                     else context ++ ((λ p, assertion p.1 p.2) <$> data) in
      let context := truncate (length data) context in
      '(stack, context) ← descend next_running [] context;
      Ok (mkRuleMachine data true rest stack, context)
  end.

(** The first loop of [advance]: from the top of the stack, condition machines
    are advanced up to the first that was not finished; the flag is
    [condition_machines_finished]. *)
Fixpoint advance_conditions (stack : list IfStmtStateMachine) (context : ConjunctiveContext) :
    result StateMachineError (bool * list IfStmtStateMachine * ConjunctiveContext) :=
  match stack with
  | [] => Ok (true, [], context)
  | m :: stack =>
      if negb (cond_is_finished (condition_machine m)) then
        '(m, context) ← advance_condition_machine m context;
        Ok (false, m :: stack, context)
      else
        '(m, context) ← advance_condition_machine m context;
        '(fin, stack, context) ← advance_conditions stack context;
        Ok (fin, m :: stack, context)
  end.

(** The second loop: finished statements are popped. *)
Fixpoint pop_finished (stack : list IfStmtStateMachine) (context : ConjunctiveContext) :
    result StateMachineError
      (option IfStmtStateMachine * list IfStmtStateMachine * ConjunctiveContext) :=
  match stack with
  | [] => Ok (None, [], context)
  | last :: stack =>
      if negb (stmt_is_finished last) then
        '(next, last) ← stmt_advance last;
        Ok (next, last :: stack, context)
      else pop_finished stack (stmt_destroy last context)
  end.

Definition rule_advance (m : RuleStateMachine) (context : ConjunctiveContext) :
    result StateMachineError (RuleStateMachine * ConjunctiveContext) :=
  '(condition_machines_finished, stack, context) ← advance_conditions (running_stack m) context;
  let with_stack stack :=
    mkRuleMachine (connector_selection_data m) (connectors_added m) (if_stmt_machines m) stack in
  if negb condition_machines_finished then Ok (with_stack stack, context)
  else
    '(maybe_next_running, stack, context) ← pop_finished stack context;
    match maybe_next_running with
    | Some next_running =>
        '(stack, context) ← descend next_running stack context;
        Ok (with_stack stack, context)
    | None => init_next (with_stack stack) context
    end.

(** ** [RuleContextManager] *)

Record RuleContextManager := mkRuleManager {
  rm_context : ConjunctiveContext;
  rm_machine : RuleStateMachine;
  rm_init : bool;
}.

Definition rule_manager_new {O} (rule : Rule (DirComparison M) O) (data : list (DirValue * M)) :
    RuleContextManager := mkRuleManager [] (rule_new rule data) false.

(** [advance] and [advance_mut]: the returned context is the manager's own. *)
Definition rule_manager_advance (m : RuleContextManager) :
    result StateMachineError (option ConjunctiveContext * RuleContextManager) :=
  if negb (rm_init m) then
    '(machine, context) ← init_next (rm_machine m) (rm_context m);
    Ok (Some context, mkRuleManager context machine true)
  else if rule_is_finished (rm_machine m) then Ok (None, m)
  else
    '(machine, context) ← rule_advance (rm_machine m) (rm_context m);
    let m := mkRuleManager context machine true in
    if rule_is_finished machine then Ok (None, m) else Ok (Some context, m).

(** ** A program *)

Record ProgramStateMachine := mkProgramMachine {
  rule_machines : list RuleStateMachine;
  current_rule_machine : option RuleStateMachine;
  is_init : bool;
}.

(** [ProgramStateMachine::new]: built in reverse and popped from the end. *)
Definition program_machine_new {O} (program : Program M (DirComparison M) O)
    (data : list (list (DirValue * M))) : ProgramStateMachine :=
  let machines := zip_with rule_new (rules program) data in
  mkProgramMachine (tail machines) (head machines) false.

Definition program_is_finished (m : ProgramStateMachine) : bool :=
  match current_rule_machine m with None => true | Some rsm => rule_is_finished rsm end &&
  match rule_machines m with [] => true | _ => false end.

Definition program_init (m : ProgramStateMachine) (context : ConjunctiveContext) :
    result StateMachineError (ProgramStateMachine * ConjunctiveContext) :=
  if is_init m then Ok (m, context)
  else match current_rule_machine m with
       | Some rsm =>
           '(rsm, context) ← init_next rsm context;
           Ok (mkProgramMachine (rule_machines m) (Some rsm) true, context)
       | None => Ok (mkProgramMachine (rule_machines m) None true, context)
       end.

(** The branch of [advance] that starts the next rule with an empty context. *)
Definition next_rule (m : ProgramStateMachine) :
    result StateMachineError (ProgramStateMachine * ConjunctiveContext) :=
  match rule_machines m with
  | rsm :: rest =>
      '(rsm, context) ← init_next rsm [];
      Ok (mkProgramMachine rest (Some rsm) (is_init m), context)
  | [] => Ok (mkProgramMachine [] None (is_init m), [])
  end.

Definition program_advance (m : ProgramStateMachine) (context : ConjunctiveContext) :
    result StateMachineError (ProgramStateMachine * ConjunctiveContext) :=
  match current_rule_machine m with
  | None => next_rule m
  | Some rsm =>
      if rule_is_finished rsm then next_rule m
      else
        '(rsm, context) ← rule_advance rsm context;
        Ok (mkProgramMachine (rule_machines m) (Some rsm) (is_init m), context)
  end.

(** ** [AnalysisContextManager] *)

Record AnalysisContextManager := mkAnalysisManager {
  am_context : ConjunctiveContext;
  am_machine : ProgramStateMachine;
  am_init : bool;
}.

Definition analysis_manager_new {O} (program : Program M (DirComparison M) O)
    (data : list (list (DirValue * M))) : AnalysisContextManager :=
  mkAnalysisManager [] (program_machine_new program data) false.

Definition analysis_manager_advance (m : AnalysisContextManager) :
    result StateMachineError (option ConjunctiveContext * AnalysisContextManager) :=
  if negb (am_init m) then
    '(machine, context) ← program_init (am_machine m) (am_context m);
    Ok (Some context, mkAnalysisManager context machine true)
  else if program_is_finished (am_machine m) then Ok (None, m)
  else
    '(machine, context) ← program_advance (am_machine m) (am_context m);
    let m := mkAnalysisManager context machine true in
    if program_is_finished machine then Ok (None, m) else Ok (Some context, m).

(** The loop [while let Some(ctx) = manager.advance()? { ... }]: the contexts it
    visits; [None] when the fuel runs out. *)
Fixpoint drain {S A} (advance : S → result StateMachineError (option A * S)) (fuel : nat) (s : S) :
    option (result StateMachineError (list A)) :=
  match fuel with
  | 0 => None
  | S fuel =>
      match advance s with
      | Err e => Some (Err e)
      | Ok (None, _) => Some (Ok [])
      | Ok (Some a, s) =>
          match drain advance fuel s with
          | Some (Ok l) => Some (Ok (a :: l))
          | o => o
          end
      end
  end.

(** [make_connector_selection_data]. *)
Definition make_connector_selection_data {O} `{EuclidAnalysable M O}
    (program : Program M (DirComparison M) O) : list (list (DirValue * M)) :=
  (λ rule, get_dir_value_for_analysis (connector_selection rule) (name rule)) <$> rules program.

End machines.

Arguments ContextValue : clear implicits.
Arguments ComparisonStateMachine : clear implicits.
Arguments ConditionStateMachine : clear implicits.
Arguments IfStmtStateMachine : clear implicits.
Arguments RuleStateMachine : clear implicits.
Arguments RuleContextManager : clear implicits.
Arguments ProgramStateMachine : clear implicits.
Arguments AnalysisContextManager : clear implicits.
