(* ===== verification/StateMachineFacts.v ===== *)
(** * The machines enumerate every path of a program

    The abstract view of a running machine is the list of contexts it has still
    to produce.  The comparison machines of the running statements, from the
    innermost to the outermost, form an odometer ([turns]); the statements not
    yet visited are the [alternatives] of the stack.  Each [advance] moves the
    machine to the next context of the list. *)

From S2P Require Import Prelude.
From S2P Require Import EuclidTypes EuclidAst EuclidDir StateMachine.

Section facts.
Context {M : Type}.
Implicit Types c : DirComparison M.

(** ** The specification: the contexts of a statement *)

(** What a comparison contributes to a context. *)
Definition choices c : list (ContextValue M) :=
  match dir_logic c with
  | PositiveDisjunction => (λ v, assertion v (dir_metadata c)) <$> dir_values c
  | NegativeConjunction => [negation (dir_values c) (dir_metadata c)]
  end.

(** The ways to choose one contribution per comparison, the last varying fastest. *)
Fixpoint expand (cs : list (DirComparison M)) : list (list (ContextValue M)) :=
  match cs with
  | [] => [[]]
  | c :: cs => v ← choices c; (v ::.) <$> expand cs
  end.

(** The comparisons on the way from a statement to each innermost one. *)
Fixpoint stmt_paths (s : IfStatement (DirComparison M)) : list (list (DirComparison M)) :=
  match s with
  | mkIf cond (Some ((_ :: _) as ns)) => (cond ++.) <$> (ns ≫= stmt_paths)
  | mkIf cond _ => [cond]
  end.

(** A comparison the machines can assert. *)
Definition inhabited c : Prop := dir_logic c = PositiveDisjunction → dir_values c ≠ [].

Lemma expand_snoc cs c :
  expand (cs ++ [c]) = x ← expand cs; (λ v, x ++ [v]) <$> choices c.
Proof.
  induction cs as [|d cs IH]; simpl.
  - rewrite app_nil_r. induction (choices c) as [|v l IHl]; [done|]. simpl. by f_equal.
  - rewrite list_bind_bind. apply list_bind_ext; [|done]. intros v.
    rewrite IH, fmap_list_bind, list_fmap_bind. apply list_bind_ext; [|done]. intros x.
    by rewrite <- list_fmap_compose.
Qed.

(** ** The odometer

    The comparison machines of the running statements, fastest first. *)
Implicit Types m : ComparisonStateMachine M.
Implicit Types ms : list (ComparisonStateMachine M).

Definition csm_comparison m : DirComparison M :=
  mkDirComparison (csm_values m) (csm_logic m) (csm_metadata m).

Definition csm_choices m : list (ContextValue M) := choices (csm_comparison m).

(** The contribution a machine shows. *)
Definition shown m : ContextValue M :=
  match csm_logic m, csm_values m !! count m with
  | PositiveDisjunction, Some v => assertion v (csm_metadata m)
  | _, _ => negation (csm_values m) (csm_metadata m)
  end.

Definition valid m : Prop := count m < length (csm_choices m).

Definition shown_all ms : list (ContextValue M) := reverse (shown <$> ms).

(** The contexts from the current one on. *)
Fixpoint turns ms : list (list (ContextValue M)) :=
  match ms with
  | [] => [[]]
  | m :: ms =>
      ((λ v, shown_all ms ++ [v]) <$> drop (count m) (csm_choices m)) ++
      (x ← tail (turns ms); (λ v, x ++ [v]) <$> csm_choices m)
  end.

(** One step of the odometer. *)
Fixpoint tick ms : list (ComparisonStateMachine M) :=
  match ms with
  | [] => []
  | m :: ms => if csm_is_finished m then csm_reset m :: tick ms else csm_advance m :: ms
  end.

Lemma shown_lookup m : valid m → csm_choices m !! count m = Some (shown m).
Proof.
  unfold valid, csm_choices, choices, shown. simpl. destruct (csm_logic m); simpl; intros Hm.
  - by assert (count m = 0) as -> by lia.
  - rewrite length_fmap in Hm. rewrite list_lookup_fmap.
    by apply lookup_lt_is_Some in Hm as [v ->].
Qed.

Lemma shown_all_cons m ms : shown_all (m :: ms) = shown_all ms ++ [shown m].
Proof. unfold shown_all. by rewrite fmap_cons, reverse_cons. Qed.

Lemma length_shown_all ms : length (shown_all ms) = length ms.
Proof. unfold shown_all. by rewrite length_reverse, length_fmap. Qed.

Lemma turns_head ms : Forall valid ms → turns ms = shown_all ms :: tail (turns ms).
Proof.
  destruct ms as [|m ms]; [done|]. intros [Hm _]%Forall_cons. simpl.
  rewrite (drop_S _ _ _ (shown_lookup _ Hm)), fmap_cons. simpl. by rewrite shown_all_cons.
Qed.

Lemma finished_spec m :
  valid m → csm_is_finished m = true ↔ S (count m) = length (csm_choices m).
Proof.
  unfold valid, csm_is_finished, csm_choices, choices. simpl.
  destruct (csm_logic m); simpl.
  - rewrite orb_true_r. lia.
  - rewrite length_fmap, orb_false_r, Nat.leb_le. lia.
Qed.

Lemma unfinished_advance m :
  valid m → csm_is_finished m = false → csm_advance m = set_count (S (count m)) m ∧ valid (csm_advance m).
Proof.
  intros Hm Hfin. assert (S (count m) ≠ length (csm_choices m)) as Hne.
  { intros Heq. apply finished_spec in Heq; congruence. }
  unfold valid in *. unfold csm_advance. unfold csm_choices, choices in *. simpl in *.
  unfold csm_is_finished in Hfin. destruct (csm_logic m) eqn:Hl; simpl in *.
  { by rewrite orb_true_r in Hfin. }
  rewrite length_fmap in *. rewrite Nat.mod_small by lia.
  replace (count m + 1) with (S (count m)) by lia. rewrite Hl. rewrite length_fmap. split; [done|]. simpl. lia.
Qed.

Lemma reset_valid m : valid m → valid (csm_reset m).
Proof. unfold valid, csm_reset, csm_choices. simpl. intros. change (csm_comparison (set_count 0 m)) with (csm_comparison m). lia. Qed.

Lemma tick_valid ms : Forall valid ms → Forall valid (tick ms).
Proof.
  induction 1 as [|m ms Hm Hms IH]; simpl; [constructor|].
  destruct (csm_is_finished m) eqn:Hfin; constructor; eauto using reset_valid.
  by apply unfinished_advance.
Qed.

(** When every machine is finished the current context is the last one, and
    the step takes the machines back to the start. *)
Lemma tick_finished ms :
  Forall valid ms → forallb csm_is_finished ms = true →
  turns ms = [shown_all ms] ∧ tick ms = csm_reset <$> ms.
Proof.
  induction 1 as [|m ms Hm Hms IH]; simpl; [done|].
  intros [Hfin Hall]%andb_true_iff. destruct (IH Hall) as [Hturns Htick].
  rewrite Hfin, Hturns, Htick. split; [|done]. simpl.
  apply finished_spec in Hfin; [|done].
  rewrite (drop_S _ _ _ (shown_lookup _ Hm)), (drop_ge _ (S (count m))) by lia.
  simpl. by rewrite shown_all_cons.
Qed.

(** Otherwise the step moves on to the next context. *)
Lemma tick_unfinished ms :
  Forall valid ms → forallb csm_is_finished ms = false → turns ms = shown_all ms :: turns (tick ms).
Proof.
  induction 1 as [|m ms Hm Hms IH]; simpl; [done|].
  destruct (csm_is_finished m) eqn:Hfin; simpl; intros Hall.
  - specialize (IH Hall). apply finished_spec in Hfin; [|done].
    rewrite (drop_S _ _ _ (shown_lookup _ Hm)), (drop_ge _ (S (count m))) by lia.
    rewrite fmap_cons. simpl. rewrite shown_all_cons. f_equal. rewrite IH. simpl.
    change (csm_choices (csm_reset m)) with (csm_choices m). rewrite drop_0.
    pose proof (turns_head (tick ms) (tick_valid _ Hms)) as Hhead. rewrite Hhead at 1.
    by rewrite bind_cons.
  - destruct (unfinished_advance _ Hm Hfin) as [-> _].
    rewrite (drop_S _ _ _ (shown_lookup _ Hm)), fmap_cons. simpl. by rewrite shown_all_cons.
Qed.

(** Machines at the start show every combination. *)
Lemma turns_start ms :
  Forall valid ms → Forall (λ m, count m = 0) ms → turns ms = expand (reverse (csm_comparison <$> ms)).
Proof.
  induction ms as [|m ms IH]; intros Hv Hz; [done|].
  apply Forall_cons in Hv as [Hm Hv], Hz as [Hz Hzs].
  rewrite fmap_cons, reverse_cons, expand_snoc, <- IH by done. simpl. rewrite Hz, drop_0.
  rewrite (turns_head ms Hv) at 2. by rewrite bind_cons.
Qed.

(** ** The context shows the machines

    [conn] are the values of the rule's connectors, at the bottom of the
    context; machine number [i] of the running statements writes the entry
    [i] above them. *)

Fixpoint idx_ok (base : nat) ms : Prop :=
  match ms with
  | [] => True
  | m :: ms => ctx_idx m = base + length ms ∧ idx_ok base ms
  end.

Lemma csm_put_spec conn ms m x suf :
  valid m → ctx_idx m = length conn + length ms →
  (csm_logic m = NegativeConjunction → x = shown m) →
  csm_put m (conn ++ shown_all ms ++ x :: suf) = Ok (conn ++ shown_all ms ++ shown m :: suf).
Proof.
  intros Hv Hidx Hx. unfold csm_put. destruct (csm_logic m) eqn:Hl.
  { by rewrite Hx. }
  pose proof (shown_lookup _ Hv) as Hs. unfold csm_choices, choices in Hs. simpl in Hs.
  rewrite Hl, list_lookup_fmap in Hs.
  destruct (csm_values m !! count m) as [v|]; simpl in Hs |- *; [|done].
  injection Hs as Hs. rewrite Hs. assert (length (conn ++ shown_all ms) = ctx_idx m) as Hlen.
  { rewrite length_app, length_shown_all. lia. }
  rewrite app_assoc, <- Hlen, list_lookup_middle by done. simpl.
  rewrite insert_app_r_alt, Nat.sub_diag by done. simpl. by rewrite <- app_assoc.
Qed.

Lemma reset_shown m : csm_logic m = NegativeConjunction → shown m = shown (csm_reset m).
Proof. intros Hl. unfold shown. simpl. by rewrite Hl. Qed.

Lemma advance_rev_spec conn ms suf :
  Forall valid ms → idx_ok (length conn) ms →
  advance_rev ms (conn ++ shown_all ms ++ suf) = Ok (tick ms, conn ++ shown_all (tick ms) ++ suf).
Proof.
  intros Hv. revert suf. induction Hv as [|m ms Hm Hms IH]; intros suf Hidx; simpl; [done|].
  destruct Hidx as [Hi Hidx]. rewrite shown_all_cons, <- app_assoc. simpl.
  destruct (csm_is_finished m) eqn:Hfin.
  - rewrite csm_put_spec; [|by apply reset_valid|done|exact (reset_shown m)].
    simpl. rewrite IH by done. simpl. by rewrite shown_all_cons, <- app_assoc.
  - destruct (unfinished_advance _ Hm Hfin) as [Hadv Hv'].
    rewrite csm_put_spec; [|done|by rewrite Hadv|].
    + simpl. by rewrite shown_all_cons, <- app_assoc.
    + rewrite Hadv. simpl. intros Hl. unfold csm_is_finished in Hfin. rewrite Hl in Hfin.
      by rewrite orb_true_r in Hfin.
Qed.

Lemma push_all_spec ms ctx : Forall valid ms → push_all ms ctx = Ok (ctx ++ (shown <$> ms)).
Proof.
  intros Hv. revert ctx. induction Hv as [|m ms Hm _ IH]; intros ctx; simpl.
  { by rewrite app_nil_r. }
  assert (csm_push m ctx = Ok (ctx ++ [shown m])) as ->.
  { unfold csm_push, shown. destruct (csm_logic m) eqn:Hl; [done|].
    unfold valid, csm_choices, choices in Hm. simpl in Hm. rewrite Hl, length_fmap in Hm.
    by apply lookup_lt_is_Some in Hm as [v ->]. }
  simpl. by rewrite IH, <- app_assoc.
Qed.

(** ** The running stack *)

Implicit Types f : IfStmtStateMachine M.
Implicit Types stack : list (IfStmtStateMachine M).

Definition frame_machines f : list (ComparisonStateMachine M) :=
  reverse (state_machines (condition_machine f)).

(** All machines of the stack, fastest first. *)
Definition flat stack : list (ComparisonStateMachine M) := stack ≫= frame_machines.

(** The comparisons from the outermost to the innermost. *)
Definition path stack : list (DirComparison M) := reverse (csm_comparison <$> flat stack).

(** The contexts under the statements the stack has not visited. *)
Fixpoint alternatives stack : list (list (ContextValue M)) :=
  match stack with
  | [] => []
  | f :: rest =>
      (n ← drop (S (nested_idx f)) (nested_stmts f); p ← stmt_paths n; expand (path (f :: rest) ++ p))
      ++ alternatives rest
  end.

Fixpoint frames_ok (base : nat) stack : Prop :=
  match stack with
  | [] => True
  | f :: rest =>
      start_ctx_idx (condition_machine f) = base + length (flat rest) ∧
      Forall (stmt_all inhabited) (nested_stmts f) ∧ frames_ok base rest
  end.

Record stack_ok (base : nat) stack : Prop := {
  stack_valid : Forall valid (flat stack);
  stack_idx : idx_ok base (flat stack);
  stack_frames : frames_ok base stack;
}.

Lemma flat_cons f stack : flat (f :: stack) = frame_machines f ++ flat stack.
Proof. done. Qed.

Lemma tick_app ms ms' :
  tick (ms ++ ms') =
  if forallb csm_is_finished ms then (csm_reset <$> ms) ++ tick ms' else tick ms ++ ms'.
Proof.
  induction ms as [|m ms IH]; simpl; [done|]. destruct (csm_is_finished m); simpl; [|done].
  rewrite IH. by destruct (forallb _ _).
Qed.

Lemma tick_comparisons ms : csm_comparison <$> tick ms = csm_comparison <$> ms.
Proof.
  induction ms as [|m ms IH]; [done|]. simpl tick.
  destruct (csm_is_finished m); rewrite !fmap_cons; [by rewrite IH|].
  f_equal. unfold csm_advance. by destruct (csm_logic m).
Qed.

Lemma shown_all_app ms ms' : shown_all (ms ++ ms') = shown_all ms' ++ shown_all ms.
Proof. unfold shown_all. by rewrite fmap_app, reverse_app. Qed.

Lemma idx_ok_app base ms ms' : idx_ok base (ms ++ ms') ↔ idx_ok (base + length ms') ms ∧ idx_ok base ms'.
Proof.
  induction ms as [|m ms IH]; simpl; [naive_solver|]. rewrite IH, length_app. naive_solver lia.
Qed.

Lemma idx_ok_tick base ms : idx_ok base ms → idx_ok base (tick ms).
Proof.
  assert (∀ ms, length (tick ms) = length ms) as Hlen.
  { intros ms0. by rewrite <- (length_fmap csm_comparison), tick_comparisons, length_fmap. }
  induction ms as [|m ms IH]; simpl; [done|]. intros [Hi Hidx].
  destruct (csm_is_finished m); simpl; rewrite ?Hlen; split; auto.
  unfold csm_advance. by destruct (csm_logic m).
Qed.

Lemma cond_is_finished_spec f :
  cond_is_finished (condition_machine f) = forallb csm_is_finished (frame_machines f).
Proof.
  unfold cond_is_finished, frame_machines. rewrite <- all_negb.
  destruct (forallb csm_is_finished (reverse _)) eqn:Hall.
  - apply all_true. intros x Hx. rewrite negb_involutive. rewrite forallb_forall in Hall.
    apply Hall. apply list_elem_of_In. by apply elem_of_reverse.
  - apply not_true_is_false. intros Ht. rewrite all_true in Ht. apply not_true_iff_false in Hall.
    apply Hall. apply forallb_forall. intros x Hx%list_elem_of_In. rewrite <- (negb_involutive (_ x)).
    apply Ht. by apply elem_of_reverse.
Qed.

Definition set_frame f ms : IfStmtStateMachine M :=
  mkStmtMachine (mkCond (reverse ms) (start_ctx_idx (condition_machine f)))
    (nested_stmts f) (nested_idx f).

Lemma frame_machines_set f ms : frame_machines (set_frame f ms) = ms.
Proof. unfold frame_machines. simpl. apply reverse_involutive. Qed.

Lemma advance_condition_machine_spec conn f R suf :
  Forall valid (frame_machines f) → idx_ok (length conn) (frame_machines f ++ R) →
  advance_condition_machine f (conn ++ shown_all (frame_machines f ++ R) ++ suf) =
  Ok (set_frame f (tick (frame_machines f)),
      conn ++ shown_all (tick (frame_machines f) ++ R) ++ suf).
Proof.
  intros Hv [Hidx _]%idx_ok_app. unfold advance_condition_machine, cond_advance.
  rewrite shown_all_app, <- app_assoc, app_assoc. fold (frame_machines f).
  rewrite advance_rev_spec; [|done|].
  - simpl. by rewrite shown_all_app, <- !app_assoc.
  - by rewrite length_app, length_shown_all.
Qed.

(** The same frame up to the counts of its machines. *)
Record same_frame f f' : Prop := {
  same_nested : nested_stmts f' = nested_stmts f;
  same_idx : nested_idx f' = nested_idx f;
  same_start : start_ctx_idx (condition_machine f') = start_ctx_idx (condition_machine f);
  same_comparisons : csm_comparison <$> frame_machines f' = csm_comparison <$> frame_machines f;
}.

Lemma set_frame_same f ms :
  csm_comparison <$> ms = csm_comparison <$> frame_machines f → same_frame f (set_frame f ms).
Proof. intros Hms. split; [done..|]. by rewrite frame_machines_set. Qed.

Lemma same_frame_refl f : same_frame f f.
Proof. by split. Qed.

Lemma same_stack_path stack stack' :
  Forall2 same_frame stack stack' → csm_comparison <$> flat stack' = csm_comparison <$> flat stack.
Proof.
  induction 1 as [|f f' stack stack' [_ _ _ Hc] _ IH]; [done|].
  by rewrite !flat_cons, !fmap_app, Hc, IH.
Qed.

Lemma same_stack_alternatives stack stack' :
  Forall2 same_frame stack stack' → alternatives stack' = alternatives stack.
Proof.
  intros Hs. induction Hs as [|f f' stack stack' Hf Hs IH]; [done|]. simpl.
  rewrite IH, (same_nested _ _ Hf), (same_idx _ _ Hf). unfold path.
  by rewrite (same_stack_path (f :: stack) (f' :: stack')) by by constructor.
Qed.

Lemma length_comparisons ms ms' :
  csm_comparison <$> ms = csm_comparison <$> ms' → length ms = length ms'.
Proof. intros Heq%(f_equal length). by rewrite !length_fmap in Heq. Qed.

Lemma same_stack_frames base stack stack' :
  Forall2 same_frame stack stack' → frames_ok base stack → frames_ok base stack'.
Proof.
  induction 1 as [|f f' stack stack' Hf Hs IH]; [done|]. simpl. intros (Hst & Hn & Hok).
  rewrite (same_start _ _ Hf), (same_nested _ _ Hf),
    (length_comparisons _ _ (same_stack_path _ _ Hs)). auto.
Qed.

Lemma advance_conditions_spec conn stack suf :
  Forall valid (flat stack) → idx_ok (length conn) (flat stack) →
  ∃ stack',
    advance_conditions stack (conn ++ shown_all (flat stack) ++ suf) =
      Ok (forallb csm_is_finished (flat stack), stack',
          conn ++ shown_all (tick (flat stack)) ++ suf) ∧
    flat stack' = tick (flat stack) ∧ Forall2 same_frame stack stack'.
Proof.
  revert suf. induction stack as [|f stack IH]; intros suf Hv Hidx.
  { exists []. by split_and!. }
  rewrite flat_cons in *. pose proof Hv as [HvF HvR]%Forall_app.
  pose proof Hidx as [_ HidxR]%idx_ok_app. simpl.
  rewrite cond_is_finished_spec, (advance_condition_machine_spec conn f (flat stack)) by done.
  rewrite tick_app, forallb_app. destruct (forallb csm_is_finished (frame_machines f)) eqn:Hfin; simpl.
  - destruct (tick_finished _ HvF Hfin) as [_ Ht].
    rewrite shown_all_app, <- app_assoc.
    destruct (IH (shown_all (tick (frame_machines f)) ++ suf) HvR HidxR) as (stack' & Hadv & Hflat & Hsame).
    rewrite Hadv. simpl. exists (set_frame f (tick (frame_machines f)) :: stack'). split_and!.
    + rewrite shown_all_app, <- app_assoc. by rewrite Ht.
    + rewrite flat_cons, frame_machines_set, Hflat. by rewrite Ht.
    + constructor; [|done]. apply set_frame_same, tick_comparisons.
  - exists (set_frame f (tick (frame_machines f)) :: stack). split_and!; [done| |].
    + by rewrite flat_cons, frame_machines_set.
    + constructor; [apply set_frame_same, tick_comparisons|].
      clear. induction stack; constructor; auto using same_frame_refl.
Qed.

(** ** Descending into a statement *)

Definition at_start stack : Prop := Forall (λ m, count m = 0) (flat stack).

(** The machines of a new frame. *)
Lemma stmt_new_machines s idx :
  csm_comparison <$> frame_machines (stmt_new s idx) = reverse (condition s) ∧
  Forall (λ m, count m = 0) (frame_machines (stmt_new s idx)) ∧
  idx_ok idx (frame_machines (stmt_new s idx)).
Proof.
  unfold frame_machines, stmt_new, cond_new. simpl. generalize (condition s) as cs.
  induction cs as [|c cs (IHc & IHz & IHi)] using rev_ind; [done|].
  rewrite imap_app. simpl. rewrite reverse_snoc, reverse_snoc. rewrite fmap_cons, IHc.
  rewrite Nat.add_0_r. split_and!.
  - f_equal. by destruct c.
  - by constructor.
  - simpl. rewrite length_reverse, length_imap. done.
Qed.

Lemma inhabited_valid ms :
  Forall (λ m, count m = 0) ms → Forall inhabited (csm_comparison <$> ms) → Forall valid ms.
Proof.
  rewrite Forall_fmap. intros Hz Hi. induction Hz as [|m ms Hm _ IH]; [constructor|].
  apply Forall_cons in Hi as [Hc Hi]. constructor; [|by apply IH].
  unfold valid, inhabited, csm_choices, choices in *. simpl in *. rewrite Hm.
  destruct (csm_logic m); simpl; [lia|]. rewrite length_fmap.
  destruct (csm_values m); [by destruct Hc | simpl; lia].
Qed.

Lemma stmt_all_parts (P : DirComparison M → Prop) s :
  stmt_all P s → Forall P (condition s) ∧ Forall (stmt_all P) (default [] (nested s)).
Proof. by intros []. Qed.

(** A statement entered on top of a stack at the start. *)
Record entered (conn : list (ContextValue M)) stack (s : IfStatement (DirComparison M)) f : Prop := {
  entered_nested : nested_stmts f = default [] (nested s);
  entered_idx : nested_idx f = 0;
  entered_init : ∃ o, stmt_init f (conn ++ shown_all (flat stack)) =
    Ok (o, conn ++ shown_all (flat (f :: stack)));
  entered_ok : stack_ok (length conn) (f :: stack);
  entered_start : at_start (f :: stack);
  entered_path : path (f :: stack) = path stack ++ condition s;
  entered_next : get_next_ctx_idx (condition_machine f) = length conn + length (flat (f :: stack));
}.

Lemma stmt_new_entered conn stack s :
  stack_ok (length conn) stack → at_start stack → stmt_all inhabited s →
  entered conn stack s (stmt_new s (length conn + length (flat stack))).
Proof.
  intros [Hv Hi Hf] Hz [Hc Hn]%stmt_all_parts.
  set (f := stmt_new s _).
  destruct (stmt_new_machines s (length conn + length (flat stack))) as (Hcmp & Hz' & Hi').
  fold f in Hcmp, Hz', Hi'.
  assert (Forall valid (frame_machines f)) as Hv'.
  { apply inhabited_valid; [done|]. rewrite Hcmp. by apply Forall_reverse. }
  split; [done|done| | | | |].
  - eexists. unfold stmt_init, cond_init. rewrite push_all_spec.
    + assert (shown <$> state_machines (condition_machine f) = shown_all (frame_machines f)) as ->.
      { unfold shown_all, frame_machines. by rewrite fmap_reverse, reverse_involutive. }
      by rewrite flat_cons, shown_all_app, <- app_assoc.
    + unfold frame_machines in Hv'. by rewrite Forall_reverse in Hv'.
  - split.
    + rewrite flat_cons. by apply Forall_app.
    + rewrite flat_cons. by apply idx_ok_app.
    + by split_and!.
  - unfold at_start. rewrite flat_cons. by apply Forall_app.
  - unfold path. rewrite flat_cons, fmap_app, reverse_app, Hcmp. by rewrite reverse_involutive.
  - unfold get_next_ctx_idx. rewrite flat_cons, length_app. unfold frame_machines.
    rewrite length_reverse. simpl. lia.
Qed.

(** The contexts under a statement entered on a stack. *)
Definition under stack (s : IfStatement (DirComparison M)) : list (list (ContextValue M)) :=
  p ← stmt_paths s; expand (path stack ++ p).

(** What descending into a statement establishes. *)
Record descended (conn : list (ContextValue M)) stack (ctxs : list (list (ContextValue M)))
    (r : result StateMachineError (list (IfStmtStateMachine M) * list (ContextValue M))) : Prop := {
  descended_ok : ∃ stack', r = Ok (stack', conn ++ shown_all (flat stack')) ∧
    stack' ≠ [] ∧ stack_ok (length conn) stack' ∧ at_start stack' ∧
    turns (flat stack') ++ alternatives stack' = ctxs ++ alternatives stack;
}.

Lemma turns_path stack :
  Forall valid (flat stack) → at_start stack → turns (flat stack) = expand (path stack).
Proof. apply turns_start. Qed.

(** The context of a leaf is the path to it. *)
Lemma leaf_descended conn stack s f :
  entered conn stack s f → nested_stmts f = [] → stmt_paths s = [condition s] →
  descended conn stack (under stack s) (Ok (f :: stack, conn ++ shown_all (flat (f :: stack)))).
Proof.
  intros He Hn Hp. split. exists (f :: stack).
  split_and!; [done|done|apply He|apply He|].
  rewrite turns_path by apply He. simpl. rewrite Hn, drop_nil. simpl.
  unfold under. rewrite Hp, bind_singleton. f_equal. by rewrite <- (entered_path _ _ _ _ He).
Qed.

Lemma under_node stack s f n ns conn :
  entered conn stack s f → nested s = Some (n :: ns) →
  under (f :: stack) n ++ alternatives (f :: stack) = under stack s ++ alternatives stack.
Proof.
  intros He Hn. cbn [alternatives].
  rewrite (entered_nested _ _ _ _ He), (entered_idx _ _ _ _ He), Hn. cbn [default id drop].
  rewrite app_assoc. f_equal. unfold under. rewrite (entered_path _ _ _ _ He).
  destruct s as [cond o]. cbn [nested condition] in Hn |- *. subst o.
  change (stmt_paths (mkIf cond (Some (n :: ns)))) with ((cond ++.) <$> ((n :: ns) ≫= stmt_paths)).
  rewrite list_fmap_bind, list_bind_bind, bind_cons. 
  f_equal; [|apply list_bind_ext; [|done]; intros n'];
    (apply list_bind_ext; [|done]; intros p; unfold compose; by rewrite <- app_assoc).
Qed.

Lemma descend_stmt_spec conn s stack :
  stack_ok (length conn) stack → at_start stack → stmt_all inhabited s →
  descended conn stack (under stack s)
    (descend_stmt s (length conn + length (flat stack)) stack (conn ++ shown_all (flat stack))).
Proof.
  revert stack. induction s as [cond|cond ns IH] using IfStatement_ind'; intros stack Hok Hz Hs;
    pose proof (stmt_new_entered conn stack _ Hok Hz Hs) as He;
    destruct (entered_init _ _ _ _ He) as [o Hinit].
  - cbn [descend_stmt]. rewrite Hinit. by apply leaf_descended.
  - destruct ns as [|n ns]; cbn [descend_stmt]; rewrite Hinit; [by apply leaf_descended|].
    apply Forall_cons in IH as [IH _]. apply stmt_all_parts in Hs as [_ [Hn _]%Forall_cons].
    cbn [mbind result_bind]. rewrite (entered_next _ _ _ _ He).
    destruct (IH _ (entered_ok _ _ _ _ He) (entered_start _ _ _ _ He) Hn) as [(stack' & Hd & Hne & Hok' & Hz' & Hctx)].
    rewrite Hd. split. exists stack'. split_and!; try done.
    rewrite Hctx. by eapply under_node.
Qed.

Lemma descend_stmt_new s idx stack ctx : descend (stmt_new s idx) stack ctx = descend_stmt s idx stack ctx.
Proof. destruct s as [cond [[|n ns]|]]; reflexivity. Qed.

(** ** Leaving finished statements *)

Lemma truncate_frame conn f stack :
  stack_ok (length conn) (f :: stack) →
  stmt_destroy f (conn ++ shown_all (flat (f :: stack))) = conn ++ shown_all (flat stack).
Proof.
  intros [_ _ (Hst & _)]. unfold stmt_destroy, cond_destroy, truncate.
  rewrite Hst, flat_cons, shown_all_app, app_assoc.
  apply take_app_length'. by rewrite length_app, length_shown_all.
Qed.

Lemma stack_ok_tail base f stack : stack_ok base (f :: stack) → stack_ok base stack.
Proof.
  intros [Hv Hi Hf]. rewrite flat_cons in Hv, Hi. apply Forall_app in Hv as [_ Hv].
  apply idx_ok_app in Hi as [_ Hi]. destruct Hf as (_ & _ & Hf). by split.
Qed.

Definition with_idx f (i : nat) : IfStmtStateMachine M :=
  mkStmtMachine (condition_machine f) (nested_stmts f) i.

Lemma stack_ok_with_idx base f i stack : stack_ok base (f :: stack) → stack_ok base (with_idx f i :: stack).
Proof. by intros []. Qed.

(** Either the contexts under the next statement of some frame come next, or
    no alternative is left. *)
Lemma pop_finished_spec conn stack :
  stack_ok (length conn) stack → at_start stack →
  (∃ n stack', pop_finished stack (conn ++ shown_all (flat stack)) =
      Ok (Some (stmt_new n (length conn + length (flat stack'))), stack',
          conn ++ shown_all (flat stack')) ∧
    stack_ok (length conn) stack' ∧ at_start stack' ∧ stmt_all inhabited n ∧
    alternatives stack = under stack' n ++ alternatives stack') ∨
  (pop_finished stack (conn ++ shown_all (flat stack)) = Ok (None, [], conn) ∧ alternatives stack = []).
Proof.
  induction stack as [|f stack IH]; intros Hok Hz.
  { right. simpl. by rewrite app_nil_r. }
  cbn [pop_finished alternatives]. unfold stmt_is_finished.
  destruct (Nat.leb_spec (length (nested_stmts f)) (nested_idx f + 1)) as [Hfin|Hfin]; cbn [negb].
  - rewrite truncate_frame by done. rewrite drop_ge by lia.
    apply IH; [by eapply stack_ok_tail|]. unfold at_start in *. rewrite flat_cons in Hz.
    by apply Forall_app in Hz as [_ Hz].
  - left. destruct (lookup_lt_is_Some_2 (nested_stmts f) (nested_idx f + 1)) as [n Hn]; [lia|].
    assert (stmt_advance f = Ok (Some (stmt_new n (get_next_ctx_idx (condition_machine f))),
      with_idx f (nested_idx f + 1))) as ->.
    { unfold stmt_advance. destruct (nested_stmts f) as [|n0 ns] eqn:Hns; [simpl in Hfin; lia|].
      rewrite Nat.mod_small by (simpl; simpl in Hfin; lia). rewrite Hn. unfold with_idx. by rewrite Hns. }
    exists n, (with_idx f (nested_idx f + 1) :: stack).
    destruct Hok as [Hv Hi (Hst & Hall & Hfr)]. split_and!; [|done|done| |].
    + cbn [mbind result_bind]. unfold get_next_ctx_idx. rewrite Hst.
      assert (length (flat (with_idx f (nested_idx f + 1) :: stack)) =
        length (flat stack) + length (state_machines (condition_machine f))) as ->.
      { rewrite flat_cons, length_app. unfold frame_machines. rewrite length_reverse. simpl. lia. }
      by rewrite Nat.add_assoc.
    + by eapply Forall_lookup_1.
    + cbn [alternatives]. rewrite app_assoc. f_equal.
      replace (S (nested_idx f)) with (nested_idx f + 1) by lia.
      rewrite (drop_S _ _ _ Hn), bind_cons. done.
Qed.

(** ** A rule *)

Implicit Types ss : list (IfStatement (DirComparison M)).

Definition connector_values (data : list (DirValue * M)) : list (ContextValue M) :=
  (λ p, assertion p.1 p.2) <$> data.

(** The contexts of the statements of a rule. *)
Definition rule_contexts (data : list (DirValue * M)) ss : list (list (ContextValue M)) :=
  (connector_values data ++.) <$> (ss ≫= λ s, stmt_paths s ≫= expand).

Section rule.
Variable data : list (DirValue * M).
Let conn := connector_values data.

Lemma length_conn : length conn = length data.
Proof. unfold conn, connector_values. by rewrite length_fmap. Qed.

(** The machine of a rule with the statements [ss] to come. *)
Definition rule_state ss stack (added : bool) : RuleStateMachine M :=
  mkRuleMachine data added ((λ s, stmt_new s (length data)) <$> ss) stack.

(** Running on [stack], with [ss] to come, the machine has [ctxs] to produce. *)
Inductive running : RuleStateMachine M → list (ContextValue M) → list (list (ContextValue M)) → Prop :=
| running_intro ss stack :
    stack ≠ [] → stack_ok (length conn) stack → Forall (stmt_all inhabited) ss →
    running (rule_state ss stack true) (conn ++ shown_all (flat stack))
      (((conn ++.) <$> (turns (flat stack) ++ alternatives stack)) ++ rule_contexts data ss).

Lemma descended_running ss stack ctxs r :
  descended conn stack ctxs r → Forall (stmt_all inhabited) ss →
  ∃ stack' ctx, r = Ok (stack', ctx) ∧
    running (rule_state ss stack' true) ctx
      (((conn ++.) <$> (ctxs ++ alternatives stack)) ++ rule_contexts data ss).
Proof.
  intros [(stack' & -> & Hne & Hok & _ & <-)] Hss. exists stack', (conn ++ shown_all (flat stack')).
  split; [done|]. by constructor.
Qed.

(** Starting the next statement: the first one, or one after the last
    context of the one before. *)
Lemma init_next_spec s ss (added : bool) ctx :
  Forall (stmt_all inhabited) (s :: ss) → (if added then ctx = conn else ctx = []) →
  ∃ rm ctx', init_next (rule_state (s :: ss) [] added) ctx = Ok (rm, ctx') ∧
    running rm ctx' (rule_contexts data (s :: ss)).
Proof.
  intros [Hs Hss]%Forall_cons Hctx. unfold init_next. cbn [rule_state if_stmt_machines running_stack].
  rewrite fmap_cons.
  change (connector_selection_data (rule_state (s :: ss) [] added)) with data.
  change (connectors_added (rule_state (s :: ss) [] added)) with added.
  match goal with |- context [truncate (length data) ?c] =>
    assert (truncate (length data) c = conn) as -> end.
  { unfold truncate. rewrite <- length_conn. destruct added; subst ctx; by apply take_ge. }
  rewrite descend_stmt_new.
  assert (stack_ok (length conn) []) as Hok0 by (split; constructor).
  pose proof (descend_stmt_spec conn s [] Hok0 (Forall_nil_2 _) Hs) as Hd.
  simpl in Hd. rewrite app_nil_r, Nat.add_0_r, length_conn in Hd.
  destruct (descended_running ss _ _ _ Hd Hss) as (stack' & ctx' & -> & Hrun).
  simpl. eexists _, ctx'. split; [done|]. simpl in Hrun. rewrite app_nil_r in Hrun.
  unfold rule_contexts in Hrun |- *. rewrite bind_cons, fmap_app. exact Hrun.
Qed.

(** Each [advance] of a running rule moves to its next context. *)
Definition moves (rm : RuleStateMachine M) (ctx : list (ContextValue M))
    (rest : list (list (ContextValue M))) : Prop :=
  ∃ rm' ctx', rule_advance rm ctx = Ok (rm', ctx') ∧
    (running rm' ctx' rest ∨ rest = [] ∧ rm' = rule_state [] [] true ∧ ctx' = conn).

Lemma stack_advanced stack stack' :
  stack_ok (length conn) stack → flat stack' = tick (flat stack) → Forall2 same_frame stack stack' →
  stack_ok (length conn) stack'.
Proof.
  intros [Hv Hi Hf] Hflat Hsame. split.
  - rewrite Hflat. by apply tick_valid.
  - rewrite Hflat. by apply idx_ok_tick.
  - by eapply same_stack_frames.
Qed.

(** The case where every condition machine has gone round. *)
Lemma next_statement ss stack :
  stack_ok (length conn) stack → at_start stack → Forall (stmt_all inhabited) ss →
  ∃ rm' ctx',
    ('(maybe_next_running, stack, context) ← pop_finished stack (conn ++ shown_all (flat stack));
     match maybe_next_running with
     | Some next_running =>
         '(stack, context) ← descend next_running stack context;
         Ok (rule_state ss stack true, context)
     | None => init_next (rule_state ss stack true) context
     end) = Ok (rm', ctx') ∧
    (running rm' ctx' (((conn ++.) <$> alternatives stack) ++ rule_contexts data ss) ∨
     ((conn ++.) <$> alternatives stack) ++ rule_contexts data ss = [] ∧
     rm' = rule_state [] [] true ∧ ctx' = conn).
Proof.
  intros Hok Hz Hss.
  destruct (pop_finished_spec conn stack Hok Hz) as
    [(n & stack' & Hpop & Hok' & Hz' & Hn & Halt)|[Hpop Halt]]; rewrite Hpop; cbn [mbind result_bind].
  - rewrite descend_stmt_new.
    destruct (descended_running ss _ _ _ (descend_stmt_spec conn n stack' Hok' Hz' Hn) Hss)
      as (stack'' & ctx'' & Hd & Hrun).
    rewrite Hd. cbn [mbind result_bind]. eexists _, ctx''. split; [done|]. left. by rewrite Halt.
  - rewrite Halt. simpl. destruct ss as [|s ss].
    + eexists _, conn. split; [done|]. right. by split_and!.
    + destruct (init_next_spec s ss true conn Hss eq_refl) as (rm' & ctx' & -> & Hrun). eauto 10.
Qed.

Lemma rule_advance_spec rm ctx ctxs :
  running rm ctx ctxs → ∃ rest, ctxs = ctx :: rest ∧ moves rm ctx rest.
Proof.
  intros [ss stack Hne Hok Hss].
  destruct (advance_conditions_spec conn stack [] (stack_valid _ _ Hok) (stack_idx _ _ Hok))
    as (stack' & Hadv & Hflat & Hsame).
  rewrite !app_nil_r in Hadv. rewrite <- Hflat in Hadv.
  pose proof (stack_advanced _ _ Hok Hflat Hsame) as Hok'.
  unfold moves, rule_advance. cbn [rule_state running_stack]. rewrite Hadv.
  cbn [mbind result_bind].
  destruct (forallb csm_is_finished (flat stack)) eqn:Hfin; cbn [negb].
  - destruct (tick_finished _ (stack_valid _ _ Hok) Hfin) as [-> Htick].
    eexists. split; [reflexivity|].
    rewrite <- (same_stack_alternatives _ _ Hsame).
    apply next_statement; [done| |done].
    unfold at_start. rewrite Hflat, Htick. apply Forall_fmap, Forall_true. done.
  - rewrite (tick_unfinished _ (stack_valid _ _ Hok) Hfin). eexists. split; [reflexivity|].
    eexists _, _. split; [reflexivity|]. left.
    rewrite <- (same_stack_alternatives _ _ Hsame), <- Hflat.
    apply (running_intro ss stack'); [|done|done].
    intros ->. inversion Hsame; by subst.
Qed.

Lemma running_not_finished rm ctx ctxs : running rm ctx ctxs → rule_is_finished rm = false.
Proof.
  intros [ss [|f stack] Hne _ _]; [done|]. unfold rule_is_finished. simpl. by destruct (_ <$> ss).
Qed.

End rule.
(** ** A rule manager *)

Lemma drain_rule data rest fuel rm ctx :
  running data rm ctx (ctx :: rest) → length rest < fuel →
  drain rule_manager_advance fuel (mkRuleManager ctx rm true) = Some (Ok rest).
Proof.
  revert fuel rm ctx. induction rest as [|c rest IH]; intros [|fuel] rm ctx Hrun Hf; simpl in Hf; try lia;
    cbn [drain]; unfold rule_manager_advance; cbn [rm_init rm_machine rm_context negb];
    rewrite (running_not_finished _ _ _ _ Hrun);
    destruct (rule_advance_spec _ _ _ _ Hrun) as (rest' & Heq & rm' & ctx' & -> & Hcase);
    injection Heq as <-; cbn [mbind result_bind].
  - destruct Hcase as [Hrun'|(_ & -> & ->)]; [|done].
    destruct (rule_advance_spec _ _ _ _ Hrun') as (? & ? & _). done.
  - destruct Hcase as [Hrun'|[? _]]; [|done]. rewrite (running_not_finished _ _ _ _ Hrun').
    destruct (rule_advance_spec _ _ _ _ Hrun') as (? & [= -> <-] & _).
    by rewrite (IH fuel) by (done || lia).
Qed.

(** ** A program manager *)

Implicit Types rs : list (list (DirValue * M) * list (IfStatement (DirComparison M))).

Definition machines_of rs : list (RuleStateMachine M) :=
  (λ r, rule_state r.1 r.2 [] false) <$> rs.

(** What the manager produces from the next rule on: the contexts of each
    rule, and between two rules the connectors of the rule that ended; a rule
    without statements shows the empty context, except at the end. *)
Fixpoint emitted_from rs : list (list (ContextValue M)) :=
  match rs with
  | [] => []
  | (data, ss) :: rs =>
      match ss, rs with
      | [], [] => []
      | [], _ :: _ => [[]]
      | _ :: _, [] => rule_contexts data ss
      | _ :: _, _ :: _ => rule_contexts data ss ++ [connector_values data]
      end ++ emitted_from rs
  end.

Definition rules_inhabited rs : Prop := Forall (λ r, Forall (stmt_all inhabited) r.2) rs.

(** The context of a running rule is followed by the rest of its contexts and
    by what the rules after it produce. *)
Definition ended (data : list (DirValue * M)) rs : list (list (ContextValue M)) :=
  match rs with [] => [] | _ :: _ => [connector_values data] end.

Abbreviation drain_program := (drain analysis_manager_advance).

Lemma drain_running data rs :
  (∀ fuel rm ctx, rule_is_finished rm = true → length (emitted_from rs) < fuel →
    drain_program fuel (mkAnalysisManager ctx (mkProgramMachine (machines_of rs) (Some rm) true) true)
    = Some (Ok (emitted_from rs))) →
  ∀ rest fuel rm ctx, running data rm ctx (ctx :: rest) →
    length (rest ++ ended data rs ++ emitted_from rs) < fuel →
    drain_program fuel (mkAnalysisManager ctx (mkProgramMachine (machines_of rs) (Some rm) true) true)
    = Some (Ok (rest ++ ended data rs ++ emitted_from rs)).
Proof.
  intros Hfinished. induction rest as [|c rest IH]; intros [|fuel] rm ctx Hrun Hf; simpl in Hf; try lia;
    cbn [drain]; unfold analysis_manager_advance, program_is_finished, program_advance;
    cbn [am_init am_machine am_context negb current_rule_machine rule_machines is_init];
    rewrite (running_not_finished _ _ _ _ Hrun); cbn [andb];
    destruct (rule_advance_spec _ _ _ _ Hrun) as (rest' & Heq & rm' & ctx' & -> & Hcase);
    injection Heq as <-; cbn [mbind result_bind current_rule_machine rule_machines].
  - destruct Hcase as [Hrun'|(_ & -> & ->)].
    { destruct (rule_advance_spec _ _ _ _ Hrun') as (? & ? & _). done. }
    destruct rs as [|r rs]; [done|]. simpl in Hf |- *.
    rewrite (Hfinished fuel) by (done || simpl; lia). done.
  - destruct Hcase as [Hrun'|[? _]]; [|done]. rewrite (running_not_finished _ _ _ _ Hrun').
    destruct (rule_advance_spec _ _ _ _ Hrun') as (? & [= -> <-] & _). cbn [andb].
    by rewrite (IH fuel) by (done || lia).
Qed.

Lemma drain_finished rs fuel rm ctx :
  rules_inhabited rs → rule_is_finished rm = true → length (emitted_from rs) < fuel →
  drain_program fuel (mkAnalysisManager ctx (mkProgramMachine (machines_of rs) (Some rm) true) true)
  = Some (Ok (emitted_from rs)).
Proof.
  intros Hrs. revert fuel rm ctx. induction Hrs as [|[data ss] rs Hr Hrs IH]; intros [|fuel] rm ctx Hfin Hf;
    simpl in Hf; try lia; cbn [drain]; unfold analysis_manager_advance, program_is_finished;
    cbn [am_init am_machine am_context negb current_rule_machine rule_machines]; rewrite Hfin;
    cbn [andb machines_of fmap list_fmap]; [done|].
  unfold program_advance. cbn [current_rule_machine]. rewrite Hfin. unfold next_rule. cbn [rule_machines].
  destruct ss as [|s ss]; cbn [fst snd].
  - cbn [mbind result_bind current_rule_machine rule_machines rule_state]. simpl.
    destruct rs as [|r rs]; [done|]. simpl in Hf |- *.
    rewrite (IH fuel) by (done || simpl; lia). done.
  - destruct (init_next_spec data s ss false [] Hr eq_refl) as (rm' & ctx' & -> & Hrun).
    cbn [mbind result_bind current_rule_machine rule_machines].
    rewrite (running_not_finished _ _ _ _ Hrun). cbn [andb].
    destruct (rule_advance_spec _ _ _ _ Hrun) as (rest & Heq & _). rewrite Heq in Hrun.
    assert (emitted_from ((data, s :: ss) :: rs) = ctx' :: rest ++ ended data rs ++ emitted_from rs) as Hem.
    { simpl. rewrite Heq. destruct rs; simpl; by rewrite ?app_nil_r, <- ?app_assoc. }
    assert (length (emitted_from ((data, s :: ss) :: rs)) < S fuel) as Hf' by exact Hf.
    rewrite Hem in Hf' |- *. simpl in Hf'.
    rewrite (drain_running data rs (λ fuel rm ctx, IH fuel rm ctx) rest fuel) by (done || lia). done.
Qed.

End facts.
