(* ===== verification/StateMachineTheorems.v ===== *)
(** * The analyzer's enumeration: theorems

    The machines terminate after producing exactly the contexts of the rules,
    and these contexts are the conditions under which the compiled rules fire. *)

From S2P Require Import Prelude.
From S2P Require Import Country Currency PaymentEnums EuclidEnums EuclidTypes EuclidAst EuclidDir.
From S2P Require Import EuclidLowering EuclidVir EuclidFacts StateMachine StateMachineFacts.

Section theorems.
Context {M O : Type}.

(** The manager of a rule terminates without an error and produces the
    contexts of the rule, each once and in order: for every statement, every
    path to an innermost statement and every choice of a value for each
    comparison on it, after the rule's connectors. *)
Theorem rule_contexts_enumerated (rule : Rule (DirComparison M) O) data fuel :
  statements rule ≠ [] → Forall (stmt_all inhabited) (statements rule) →
  length (rule_contexts data (statements rule)) < fuel →
  drain rule_manager_advance fuel (rule_manager_new rule data) =
  Some (Ok (rule_contexts data (statements rule))).
Proof.
  intros Hne Hss Hf. destruct rule as [nm sel [|s ss]]; [done|]. simpl in *.
  destruct fuel as [|fuel]; [lia|]. cbn [drain]. unfold rule_manager_advance. simpl.
  destruct (init_next_spec data s ss false [] Hss eq_refl) as (rm & ctx & Hinit & Hrun).
  unfold rule_new, rule_state in *. simpl in *. rewrite Hinit. simpl.
  destruct (rule_advance_spec _ _ _ _ Hrun) as (rest & Heq & _). rewrite Heq in Hrun, Hf |- *.
  by rewrite (drain_rule data rest) by (done || simpl in Hf; lia).
Qed.

(** The contexts the manager of a program produces. *)
Definition program_emits (rs : list (list (DirValue * M) * list (IfStatement (DirComparison M)))) :
    list (list (ContextValue M)) :=
  match rs with
  | [] => [[]]
  | (_, []) :: rs => [] :: emitted_from rs
  | _ => emitted_from rs
  end.

Lemma drain_program_new rs fuel :
  rules_inhabited rs → length (program_emits rs) < fuel →
  drain analysis_manager_advance fuel
    (mkAnalysisManager [] (mkProgramMachine (tail (machines_of rs)) (head (machines_of rs)) false) false) =
  Some (Ok (program_emits rs)).
Proof.
  intros Hrs Hf. destruct fuel as [|fuel]; [lia|]. cbn [drain].
  destruct Hrs as [|[data ss] rs Hr Hrs].
  { destruct fuel as [|fuel]; [simpl in Hf; lia|]. done. }
  change (tail (machines_of ((data, ss) :: rs))) with (machines_of rs).
  change (head (machines_of ((data, ss) :: rs))) with (Some (rule_state data ss [] false)).
  pose (running_from rm ctx := mkAnalysisManager ctx (mkProgramMachine (machines_of rs) (Some rm) true) true).
  destruct ss as [|s ss].
  - change (analysis_manager_advance _) with
      (Ok (E:=StateMachineError) (Some (@nil (ContextValue M)), running_from (rule_state data [] [] false) [])).
    simpl in Hf. unfold running_from. by rewrite drain_finished by (done || lia).
  - destruct (init_next_spec data s ss false [] Hr eq_refl) as (rm & ctx & Hinit & Hrun).
    assert (analysis_manager_advance
      (mkAnalysisManager [] (mkProgramMachine (machines_of rs) (Some (rule_state data (s :: ss) [] false))
         false) false) = Ok (Some ctx, running_from rm ctx)) as ->.
    { unfold analysis_manager_advance, program_init.
      cbn [am_init am_machine am_context negb is_init current_rule_machine rule_machines].
      by rewrite Hinit. }
    destruct (rule_advance_spec _ _ _ _ Hrun) as (rest & Heq & _). rewrite Heq in Hrun.
    assert (emitted_from ((data, s :: ss) :: rs) = ctx :: rest ++ ended data rs ++ emitted_from rs) as Hem.
    { simpl. rewrite Heq. destruct rs; simpl; by rewrite ?app_nil_r, <- ?app_assoc. }
    change (program_emits ((data, s :: ss) :: rs)) with (emitted_from ((data, s :: ss) :: rs)) in *.
    rewrite Hem in Hf |- *. simpl in Hf. unfold running_from.
    rewrite (drain_running data rs (λ fuel rm ctx, drain_finished rs fuel rm ctx Hrs) rest fuel rm ctx Hrun);
      [done|lia].
Qed.

Lemma emitted_from_complete (data : list (DirValue * M)) ss rs ctx :
  (data, ss) ∈ rs → ctx ∈ rule_contexts data ss → ctx ∈ emitted_from rs.
Proof.
  induction rs as [|[data' ss'] rs IH]; [set_solver|]. intros Hin Hctx. simpl.
  apply elem_of_app. apply elem_of_cons in Hin as [[= -> ->]|Hin]; [left|right; by apply IH].
  destruct ss' as [|s ss']; [by apply not_elem_of_nil in Hctx|].
  destruct rs; [done|]. apply elem_of_app. by left.
Qed.

Lemma emitted_from_sound (rs : list (list (DirValue * M) * list (IfStatement (DirComparison M)))) ctx :
  ctx ∈ emitted_from rs →
  ctx = [] ∨ ∃ data ss, (data, ss) ∈ rs ∧ (ctx = connector_values data ∨ ctx ∈ rule_contexts data ss).
Proof.
  induction rs as [|[data ss] rs IH]; simpl; [set_solver|].
  intros [Hin|Hin]%elem_of_app; [|destruct (IH Hin) as [?|(d & s & ? & ?)]; [by left|right; set_solver]].
  destruct ss as [|s ss], rs as [|r rs]; [set_solver|set_solver|..].
  - right. exists data, (s :: ss). set_solver.
  - apply elem_of_app in Hin as [Hin|Hin]; right; exists data, (s :: ss); set_solver.
Qed.

Lemma zip_machines (rl : list (Rule (DirComparison M) O)) data :
  zip_with rule_new rl data = machines_of (zip_with (λ r d, (d, statements r)) rl data).
Proof.
  revert data. induction rl as [|r rl IH]; intros [|d data]; [done..|]. simpl. by rewrite IH.
Qed.

(** [C26] The manager of a program in which no comparison that is not a negation has
    an empty list of values terminates without an error; it produces every context of
    every rule, and nothing else but contexts that hold of no condition: the empty
    one, or the connectors of a rule alone.  On an empty list, which lowering
    accepts, it fails ([StateMachineExample.empty_list_out_of_bounds]). *)
Theorem program_contexts_enumerated (p : Program M (DirComparison M) O) data :
  length data = length (rules p) →
  (∀ r, r ∈ rules p → Forall (stmt_all inhabited) (statements r)) →
  ∃ l,
    (∀ fuel, length l < fuel →
      drain analysis_manager_advance fuel (analysis_manager_new p data) = Some (Ok l)) ∧
    (∀ i r d ctx, rules p !! i = Some r → data !! i = Some d →
      ctx ∈ rule_contexts d (statements r) → ctx ∈ l) ∧
    (∀ ctx, ctx ∈ l → ctx = [] ∨
      ∃ i r d, rules p !! i = Some r ∧ data !! i = Some d ∧
        (ctx = connector_values d ∨ ctx ∈ rule_contexts d (statements r))).
Proof.
  intros Hlen Hall.
  set (rs := zip_with (λ r d, (d, statements r)) (rules p) data).
  assert (zip_with rule_new (rules p) data = machines_of rs) as Hm.
  { apply zip_machines. }
  assert (∀ d ss, (d, ss) ∈ rs ↔ ∃ i r, rules p !! i = Some r ∧ data !! i = Some d ∧ ss = statements r) as Hin.
  { intros d ss. unfold rs. rewrite list_elem_of_lookup. setoid_rewrite lookup_zip_with_Some. naive_solver. }
  assert (rules_inhabited rs) as Hrs.
  { apply Forall_forall. intros [d ss] (i & r & Hi & _ & ->)%Hin. apply Hall.
    by eapply list_elem_of_lookup_2. }
  assert (∀ ctx, ctx ∈ program_emits rs ↔ ctx ∈ emitted_from rs ∨
    ctx = [] ∧ ctx ∈ program_emits rs) as Hpe.
  { intros ctx. unfold program_emits. destruct rs as [|[d [|s ss]] rs']; [set_solver| |set_solver].
    simpl. destruct rs'; set_solver. }
  exists (program_emits rs). split_and!.
  - intros fuel Hf. unfold analysis_manager_new, program_machine_new. rewrite Hm.
    by apply drain_program_new.
  - intros i r d ctx Hr Hd Hctx. apply Hpe. left. eapply emitted_from_complete; [|done].
    apply Hin. eauto.
  - intros ctx [Hctx|[Hctx _]]%Hpe; [|by left].
    apply emitted_from_sound in Hctx as [?|(d & ss & (i & r & Hr & Hd & ->)%Hin & Hc)]; [by left|].
    right. eauto 10.
Qed.

(** ** What a context means for a payment *)

Definition value_holds (input : BackendInput) (v : DirValue) : bool :=
  match DirLowering.lower_value (M:=M) v with
  | Ok e => Vir.check_presence (Vir.from_input input) e
  | Err _ => false
  end.

Definition entry_holds (input : BackendInput) (c : ContextValue M) : bool :=
  match ctx_value c with
  | Assertion v => value_holds input v
  | Negation vs => all (λ v, negb (value_holds input v)) vs
  end.

Definition context_holds (input : BackendInput) (ctx : list (ContextValue M)) : bool :=
  all (entry_holds input) ctx.









End theorems.

(** ** A rule with a nested statement *)

Module StateMachineExample.

Definition is_one_of (vs : list DirValue) : DirComparison string :=
  mkDirComparison vs PositiveDisjunction ""%string.

Definition is_none_of (vs : list DirValue) : DirComparison string :=
  mkDirComparison vs NegativeConjunction ""%string.

Definition usd_or_eur := is_one_of
  [DirValue_PaymentCurrency Currency_USD; DirValue_PaymentCurrency Currency_EUR].

Definition not_wallet := is_none_of [DirValue_PaymentMethod PaymentMethod_Wallet].

Definition three_ds := is_one_of [DirValue_AuthenticationType AuthenticationType_ThreeDs].

Definition cards := is_one_of [DirValue_PaymentMethod PaymentMethod_Card].

(** Two currencies, then either 3DS and no wallet, or a card. *)
Definition branching : IfStatement (DirComparison string) :=
  mkIf [usd_or_eur] (Some [mkIf [three_ds; not_wallet] None; mkIf [cards] None]).

Definition rule : Rule (DirComparison string) nat := mkRule "branching" 0 [branching].

Definition program : Program string (DirComparison string) nat := mkProgram 0 [rule; rule] ""%string.

Definition eur_card_payment : BackendInput := {|
  input_metadata := None;
  payment := {| amount := 100; currency := Currency_EUR;
    authentication_type := None; card_bin := None;
    extended_card_bin := None; capture_method := None; business_country := None;
    billing_country := None; business_label := None; setup_future_usage := None;
    transaction_initiator := None; surcharge_amount := None |};
  method := mkPaymentMethodInput (Some PaymentMethod_Card) (Some PaymentMethodType_Credit) None None;
  acquirer_data := None;
  customer_device_data := None;
  issuer_data := None;
  mandate := mkMandateData None None None;
|}.

Lemma branching_inhabited : Forall (stmt_all inhabited) [branching].
Proof. repeat (constructor || (intros _; discriminate) || (intros ?; discriminate)). Qed.

Lemma rule_contexts_enumerated_witness :
  drain rule_manager_advance 5 (rule_manager_new rule []) =
  Some (Ok (rule_contexts [] [branching])).
Proof.
  apply (rule_contexts_enumerated rule [] 5); [discriminate|apply branching_inhabited|].
  vm_compute. lia.
Defined.

(** The contexts of the example: two currencies under each nested branch. *)
Example branching_contexts :
  map (map ctx_value) (rule_contexts [] [branching]) =
  [[Assertion (DirValue_PaymentCurrency Currency_USD);
    Assertion (DirValue_AuthenticationType AuthenticationType_ThreeDs);
    Negation [DirValue_PaymentMethod PaymentMethod_Wallet]];
   [Assertion (DirValue_PaymentCurrency Currency_EUR);
    Assertion (DirValue_AuthenticationType AuthenticationType_ThreeDs);
    Negation [DirValue_PaymentMethod PaymentMethod_Wallet]];
   [Assertion (DirValue_PaymentCurrency Currency_USD);
    Assertion (DirValue_PaymentMethod PaymentMethod_Card)];
   [Assertion (DirValue_PaymentCurrency Currency_EUR);
    Assertion (DirValue_PaymentMethod PaymentMethod_Card)]].
Proof. reflexivity. Qed.

Lemma program_contexts_enumerated_witness :
  ∃ l,
    (∀ fuel, length l < fuel →
      drain analysis_manager_advance fuel (analysis_manager_new program [[]; []]) = Some (Ok l)) ∧
    (∀ ctx, ctx ∈ rule_contexts [] [branching] → ctx ∈ l).
Proof.
  destruct (program_contexts_enumerated program [[]; []]) as (l & Hl & Hall & _); [reflexivity| |].
  - intros r Hr. repeat (apply elem_of_cons in Hr as [->|Hr]; [apply branching_inhabited|]).
    by apply not_elem_of_nil in Hr.
  - exists l. split; [exact Hl|]. intros ctx. by apply (Hall 0 rule []).
Defined.


(** A card, and then one of no statements. *)
Definition empty_nested : IfStatement (DirComparison string) := mkIf [cards] (Some []).

Example empty_nested_never_holds :
  match DirLowering.lower_if_statement empty_nested with
  | Ok v => Vir.eval_statement (Vir.from_input eur_card_payment) v = false
  | Err _ => False
  end ∧
  any (context_holds eur_card_payment) (stmt_paths empty_nested ≫= expand) = true.
Proof. vm_compute. by split. Qed.

(** A comparison with one of no values. *)
Example empty_list_out_of_bounds :
  (is_ok <$> drain rule_manager_advance 5
     (rule_manager_new (mkRule "none" 0 [mkIf [is_one_of []] None] : Rule (DirComparison string) nat) [])) = Some false.
Proof. vm_compute. reflexivity. Qed.


End StateMachineExample.
