(* ===== verification/Analyzer.v ===== *)
(** * The static analyzer

    [crates/euclid/src/dssa/analyzer.rs]: the checks of each context a program
    can test; [crates/euclid/src/dssa/graph.rs]: the context of a constraint
    graph check and the analyses of a context against a knowledge graph.

    The code iterates over hash maps, in an order that is not specified; the
    model iterates over [map_to_list], and the theorems do not depend on the
    order. *)

From S2P Require Import Prelude GraphTypes GraphBuilder GraphCheck.
From S2P Require Import EuclidTypes EuclidAst EuclidDir EuclidLowering StateMachine.

(** ** The context of a graph check: [AnalysisContext] *)

Abbreviation AnalysisContext := (gmap DirKey (gset DirValue)) (only parsing).

(** [AnalysisContext::insert]; also the body of the loop of [from_dir_values]
    and of [from_node_values]. *)
Definition ctx_insert (value : DirValue) (ctx : AnalysisContext) : AnalysisContext :=
  <[dir_key value := {[value]} ∪ default ∅ (ctx !! dir_key value)]> ctx.

(** [AnalysisContext::remove]. *)
Definition ctx_remove (value : DirValue) (ctx : AnalysisContext) : AnalysisContext :=
  let set := default ∅ (ctx !! dir_key value) ∖ {[value]} in
  if decide (set = ∅) then delete (dir_key value) ctx else <[dir_key value := set]> ctx.

Definition from_dir_values (vals : list DirValue) : AnalysisContext :=
  foldl (λ ctx v, ctx_insert v ctx) ∅ vals.

(** [impl cgraph::CheckingContext for AnalysisContext]. *)
Definition is_weak (s : Strength) : bool := match s with Weak => true | _ => false end.

Definition ctx_check_presence (ctx : AnalysisContext) (value : NodeValue) (strength : Strength) : bool :=
  match value with
  | NodeValue_Key k => bool_decide (is_Some (ctx !! k)) || is_weak strength
  | NodeValue_Value val =>
      let key := dir_key val in
      match ctx !! key with
      | None => is_weak strength
      | Some value_set =>
          match get_type (kind key) with
          | DataType_EnumVariant | DataType_StrValue | DataType_MetadataValue =>
              bool_decide (val ∈ value_set)
          | DataType_Number =>
              match dir_num_value val with
              | None => false
              | Some num_val =>
                  any (λ ctx_val, match dir_num_value ctx_val with
                                  | None => false
                                  | Some ctx_num_val => fits num_val ctx_num_val
                                  end) (elements value_set)
              end
          end
      end
  end.

Definition checking_context (ctx : AnalysisContext) : CheckingContext := {|
  check_presence := ctx_check_presence ctx;
  get_values_by_key k := elements <$> (ctx !! k);
|}.

(** ** Analyses against a knowledge graph: [CgraphExt] *)

Section graph_analyses.
Variable M : Type.
Variable default_metadata : M.
Variable fuel : nat.
Variable g : ConstraintGraph.
Variable domains : option (list string).

(** An analysis threads the memo table and the cycle map; [None] is the fuel
    of the graph check running out. *)
Abbreviation analysis E A := (check_state → option (result E A * check_state)) (only parsing).

Definition key_analysis (key : DirKey) (ctx : AnalysisContext) : analysis GraphError unit := λ st,
  match value_map g !! NodeValue_Key key with
  | None => Some (Ok tt, st)
  | Some node_id =>
      check_node fuel g (checking_context ctx) node_id Relation.Positive Strong domains st
  end.

Definition value_analysis (val : DirValue) (ctx : AnalysisContext) : analysis GraphError unit := λ st,
  match value_map g !! NodeValue_Value val with
  | None => Some (Ok tt, st)
  | Some node_id =>
      check_node fuel g (checking_context ctx) node_id Relation.Positive Strong domains st
  end.

Definition check_value_validity (val : DirValue) (ctx : AnalysisContext) : analysis GraphError bool := λ st,
  match value_map g !! NodeValue_Value val with
  | None => Some (Ok false, st)
  | Some node_id =>
      '(res, st) ← check_node fuel g (checking_context ctx) node_id Relation.Positive Weak domains st;
      match res with
      | Ok _ => Some (Ok true, st)
      | Err e => Some (_ ← get_analysis_trace e; Ok false, st)
      end
  end.

Definition key_value_analysis (val : DirValue) (ctx : AnalysisContext) : analysis GraphError unit := λ st,
  '(res, st) ← key_analysis (dir_key val) ctx st;
  match res with
  | Ok _ => value_analysis val ctx st
  | Err e => Some (Err e, st)
  end.

Definition assertion_from_graph_error (metadata : M) (e : GraphError) : GraphAnalysisError M :=
  match e with
  | AnalysisError trace => AssertionTrace trace metadata
  | other => Graph other
  end.

Definition negation_from_graph_error (metadata : list M) (e : GraphError) : GraphAnalysisError M :=
  match e with
  | AnalysisError trace => NegationTrace trace metadata
  | other => Graph other
  end.

(** [try_for_each] over the assertions. *)
Fixpoint assertion_analysis (positive_ctx : list (DirValue * M)) (ctx : AnalysisContext) :
    analysis (GraphAnalysisError M) unit := λ st,
  match positive_ctx with
  | [] => Some (Ok tt, st)
  | (value, metadata) :: rest =>
      '(res, st) ← key_value_analysis value ctx st;
      match res with
      | Ok _ => assertion_analysis rest ctx st
      | Err e => Some (Err (assertion_from_graph_error metadata e), st)
      end
  end.

(** The first loop of [negation_analysis] on one entry of the context: every
    value under its own key, the metadata under the key of the first. *)
Definition collect_negation (maps : gmap DirKey (list M) * gmap DirKey (gset DirValue))
    (entry : list DirValue * M) : gmap DirKey (list M) * gmap DirKey (gset DirValue) :=
  let '(mds, negs) := maps in
  (match entry.1 with
   | [] => mds
   | v :: _ => <[dir_key v := default [] (mds !! dir_key v) ++ [entry.2]]> mds
   end,
   foldl (λ negs v, ctx_insert v negs) negs entry.1).

(** The loop over the values of a key that are not negated: each is assumed
    in turn. *)
Fixpoint remaining_values (all_metadata : list M) (vals : list DirValue) (ctx : AnalysisContext)
    (st : check_state) :
    option (result (GraphAnalysisError M) AnalysisContext * check_state) :=
  match vals with
  | [] => Some (Ok ctx, st)
  | value :: vals =>
      let ctx := ctx_insert value ctx in
      '(res, st) ← value_analysis value ctx st;
      match res with
      | Ok _ => remaining_values all_metadata vals (ctx_remove value ctx) st
      | Err e => Some (Err (negation_from_graph_error all_metadata e), st)
      end
  end.

(** The second loop of [negation_analysis]. *)
Fixpoint negated_keys (negations : list (DirKey * gset DirValue)) (mds : gmap DirKey (list M))
    (ctx : AnalysisContext) (st : check_state) : option (result (GraphAnalysisError M) unit * check_state) :=
  match negations with
  | [] => Some (Ok tt, st)
  | (key, negation_set) :: rest =>
      let all_metadata := default [] (mds !! key) in
      let first_metadata := default default_metadata (head all_metadata) in
      '(res, st) ← key_analysis key ctx st;
      match res with
      | Err e => Some (Err (assertion_from_graph_error first_metadata e), st)
      | Ok _ =>
          match get_value_set (kind key) with
          | None => negated_keys rest (delete key mds) ctx st
          | Some value_set =>
              '(res, st) ← remaining_values all_metadata
                (List.filter (λ v, bool_decide (v ∉ negation_set)) value_set) ctx st;
              match res with
              | Err e => Some (Err e, st)
              | Ok ctx => negated_keys rest (delete key mds) ctx st
              end
          end
      end
  end.

Definition negation_analysis (negative_ctx : list (list DirValue * M)) (ctx : AnalysisContext) :
    analysis (GraphAnalysisError M) unit := λ st,
  let '(mds, negs) := foldl collect_negation (∅, ∅) negative_ctx in
  negated_keys (map_to_list negs) mds ctx st.

(** [CycleCheck::new()] with the memo table kept. *)
Definition fresh_cycles (st : check_state) : check_state := mkState (memo st) ∅.

Definition positives (ctx : list (ContextValue M)) : list (DirValue * M) :=
  omap (λ c, (λ v, (v, ctx_metadata c)) <$> get_assertion (ctx_value c)) ctx.

Definition negatives (ctx : list (ContextValue M)) : list (list DirValue * M) :=
  omap (λ c, (λ vs, (vs, ctx_metadata c)) <$> get_negation (ctx_value c)) ctx.

Definition perform_context_analysis (ctx : list (ContextValue M)) :
    analysis (GraphAnalysisError M) unit := λ st,
  let analysis_ctx := from_dir_values (fst <$> positives ctx) in
  '(res, st) ← assertion_analysis (positives ctx) analysis_ctx (fresh_cycles st);
  match res with
  | Err e => Some (Err e, st)
  | Ok _ => negation_analysis (negatives ctx) analysis_ctx (fresh_cycles st)
  end.

End graph_analyses.

(** ** Checks of the condition itself *)

Section conditions.
Context {M : Type}.
Variable default_metadata : M.

(** The five maps of [perform_condition_analyses]. *)
Record collected := mkCollected {
  assertion_metadata : gmap DirValue M;
  keywise_assertions : gmap DirKey (gset DirValue);
  negation_metadata : gmap DirValue M;
  keywise_negation_metadata : gmap DirKey (list M);
  keywise_negations : gmap DirKey (gset DirValue);
}.

Definition insert_into (key : DirKey) (vals : list DirValue) (m : gmap DirKey (gset DirValue)) :
    gmap DirKey (gset DirValue) :=
  <[key := list_to_set vals ∪ default ∅ (m !! key)]> m.

(** The body of the loop over the context. *)
Definition collect (st : collected) (c : ContextValue M) : collected :=
  match ctx_key (ctx_value c) with
  | None => st
  | Some key =>
      if decide (kind key = DirKeyKind_Connector) then st
      else if decide (get_type (kind key) ≠ DataType_EnumVariant) then st
      else
        match ctx_value c with
        | Assertion val =>
            mkCollected (<[val := ctx_metadata c]> (assertion_metadata st))
              (insert_into key [val] (keywise_assertions st)) (negation_metadata st)
              (keywise_negation_metadata st) (keywise_negations st)
        | Negation vals =>
            mkCollected (assertion_metadata st) (keywise_assertions st)
              (foldl (λ m val, <[val := ctx_metadata c]> m) (negation_metadata st) vals)
              (<[key := default [] (keywise_negation_metadata st !! key) ++ [ctx_metadata c]]>
                 (keywise_negation_metadata st))
              (insert_into key vals (keywise_negations st))
        end
  end.

Definition collect_context (context : list (ContextValue M)) : collected :=
  foldl collect (mkCollected ∅ ∅ ∅ ∅ ∅) context.

Definition default_error (e : AnalysisErrorType M) : EuclidError M := mkEuclidError e default_metadata.

Definition analyze_conflicting_assertions (assertions : gmap DirKey (gset DirValue))
    (metadata : gmap DirValue M) : result (EuclidError M) unit :=
  try_each (λ p : DirKey * gset DirValue,
    if decide (1 < size p.2) then
      Err (default_error (ConflictingAssertions p.1
        ((λ val, (val, default default_metadata (metadata !! val))) <$> elements p.2)))
    else Ok tt) (map_to_list assertions).

Definition analyze_exhaustive_negations (negations : gmap DirKey (gset DirValue))
    (metadata : gmap DirKey (list M)) : result (EuclidError M) unit :=
  try_each (λ p : DirKey * gset DirValue,
    match get_value_set (kind p.1) with
    | None => Ok tt
    | Some value_set =>
        match List.filter (λ val, bool_decide (val ∉ p.2)) value_set with
        | [] => Err (default_error (ExhaustiveNegation p.1 (default [] (metadata !! p.1))))
        | _ => Ok tt
        end
    end) (map_to_list negations).

Definition analyze_negated_assertions (assertions : gmap DirKey (gset DirValue))
    (assertion_md : gmap DirValue M) (negations : gmap DirKey (gset DirValue))
    (negation_md : gmap DirValue M) : result (EuclidError M) unit :=
  try_each (λ p : DirKey * gset DirValue,
    match assertions !! p.1 with
    | None => Ok tt
    | Some assertion_set =>
        match elements (p.2 ∩ assertion_set) with
        | [] => Ok tt
        | val :: _ =>
            Err (default_error (NegatedAssertion val (default default_metadata (assertion_md !! val))
              (default default_metadata (negation_md !! val))))
        end
    end) (map_to_list negations).

Definition perform_condition_analyses (context : list (ContextValue M)) : result (EuclidError M) unit :=
  let c := collect_context context in
  _ ← analyze_conflicting_assertions (keywise_assertions c) (assertion_metadata c);
  _ ← analyze_exhaustive_negations (keywise_negations c) (keywise_negation_metadata c);
  analyze_negated_assertions (keywise_assertions c) (assertion_metadata c)
    (keywise_negations c) (negation_metadata c).

(** [perform_context_analyses], with a new memo table. *)
Definition perform_context_analyses (fuel : nat) (g : ConstraintGraph) (context : list (ContextValue M)) :
    option (result (EuclidError M) unit) :=
  match perform_condition_analyses context with
  | Err e => Some (Err e)
  | Ok _ =>
      '(res, st) ← perform_context_analysis M default_metadata fuel g None context empty_state;
      Some (map_err (λ e, default_error (GraphAnalysis e (memo st))) res)
  end.

(** The loop of [analyze] over the contexts of the program. *)
Fixpoint analyze_contexts (fuel graph_fuel : nat) (g : ConstraintGraph) (manager : AnalysisContextManager M) :
    option (result (EuclidError M) unit) :=
  match fuel with
  | 0 => None
  | S fuel =>
      match analysis_manager_advance manager with
      | Err e => Some (Err (default_error (StateMachine e)))
      | Ok (None, _) => Some (Ok tt)
      | Ok (Some ctx, manager) =>
          res ← perform_context_analyses graph_fuel g ctx;
          match res with
          | Err e => Some (Err e)
          | Ok _ => analyze_contexts fuel graph_fuel g manager
          end
      end
  end.

(** [analyze]; the knowledge graph is given. *)
Definition analyze {O} `{EuclidDirFilter O} `{EuclidAnalysable M O} (fuel graph_fuel : nat)
    (program : Program M (Comparison M) O) (knowledge_graph : ConstraintGraph) :
    option (result (EuclidError M) (Program M (DirLowering.ValuedComparison M) O)) :=
  match AstLowering.lower_program O program with
  | Err e => Some (Err e)
  | Ok dir_program =>
      let selection_data := make_connector_selection_data dir_program in
      res ← analyze_contexts fuel graph_fuel knowledge_graph (analysis_manager_new dir_program selection_data);
      match res with
      | Err e => Some (Err e)
      | Ok _ => Some (DirLowering.lower_program default_metadata dir_program)
      end
  end.

End conditions.
