(* ===== verification/AnalyzerFacts.v ===== *)
(** * Facts on the analyzer

    What the maps of [perform_condition_analyses] collect from a context; that
    a payment has at most one value of an enumerated key; and that every
    analysis against a graph returns with fuel above the number of nodes. *)

From S2P Require Import Prelude GraphTypes GraphBuilder GraphCheck GraphCheckFacts.
From S2P Require Import Country Currency PaymentEnums EuclidEnums EuclidTypes EuclidAst EuclidDir.
From S2P Require Import EuclidLowering EuclidVir EuclidFacts StateMachine StateMachineFacts.
From S2P Require Import StateMachineTheorems Analyzer.

(** ** A payment has one value per enumerated key *)

Lemma euclid_value_unique input v w :
  key_type (euclid_key v) = DataType_EnumVariant → euclid_key v = euclid_key w →
  payment_has input v = true → payment_has input w = true → v = w.
Proof.
  intros Hty Hk. destruct v; simpl in Hty; try discriminate; destruct w; simpl in Hk; try discriminate;
    unfold payment_has; intros Hv%bool_decide_eq_true Hw%bool_decide_eq_true; congruence.
Qed.

(** Two variants of one enum with equal images under a conversion of it. *)
Ltac by_variants H :=
  match type of H with
  | _ ?x = _ ?y => destruct x, y; first [reflexivity | discriminate H]
  end.

(** Lowering loses nothing within a kind: the conversions of the payment method
    types of one kind are injective. *)
Lemma lower_value_inj {M} v w e :
  DirLowering.lower_value (M:=M) v = Ok e → DirLowering.lower_value (M:=M) w = Ok e →
  dir_kind v = dir_kind w → v = w.
Proof.
  intros Hv Hw Hk. rewrite <- Hw in Hv.
  destruct v; destruct w; simpl in Hk; try discriminate; clear Hk; try discriminate Hw;
    injection Hv as Hv; f_equal; first [exact Hv | by_variants Hv].
Qed.

Lemma value_holds_unique {M} input v w :
  get_type (dir_kind v) = DataType_EnumVariant → dir_key v = dir_key w →
  value_holds (M:=M) input v = true → value_holds (M:=M) input w = true → v = w.
Proof.
  intros Hty [= Hk _]. unfold value_holds.
  destruct (DirLowering.lower_value v) as [e|] eqn:He; [|done].
  destruct (DirLowering.lower_value w) as [f|] eqn:Hf; [|done].
  rewrite !check_presence_payment. intros Hv Hw. apply (lower_value_inj (M:=M) v w e); [done| |done].
  rewrite Hf. f_equal. symmetry. apply (euclid_value_unique input); [| |done..].
  - destruct v; simpl in Hty; try discriminate; simpl in He; by simplify_eq.
  - destruct v; simpl in Hty; try discriminate; destruct w; simpl in Hk; try discriminate;
      simpl in He, Hf; by simplify_eq.
Qed.

(** ** The collected maps *)

Section collected.
Context {M : Type}.
Implicit Types (ctx : list (ContextValue M)) (key : DirKey).

(** The keys the checks are about. *)
Definition checked (key : DirKey) : Prop :=
  kind key ≠ DirKeyKind_Connector ∧ get_type (kind key) = DataType_EnumVariant.

Definition asserted (ctx : list (ContextValue M)) (v : DirValue) : Prop :=
  ∃ md, mkContextValue (Assertion v) md ∈ ctx.

(** Some negation in the context is filed under the key, and [v] is in it. *)
Definition negated_under (ctx : list (ContextValue M)) (key : DirKey) (v : DirValue) : Prop :=
  ∃ vs md, mkContextValue (Negation vs) md ∈ ctx ∧ dir_key <$> head vs = Some key ∧ v ∈ vs.

(** Two maps from keys to sets, seen as sets of pairs. *)
Definition at_key (m : gmap DirKey (gset DirValue)) (key : DirKey) : gset DirValue := default ∅ (m !! key).

Lemma at_insert_into m key vals key' v :
  v ∈ at_key (insert_into key vals m) key' ↔ (key = key' ∧ v ∈ vals) ∨ v ∈ at_key m key'.
Proof.
  unfold at_key, insert_into. destruct (decide (key = key')) as [<-|Hne].
  - rewrite lookup_insert_eq. simpl. set_solver.
  - rewrite lookup_insert_ne by done. naive_solver.
Qed.

Lemma collect_context_snoc ctx c : collect_context (ctx ++ [c]) = collect (collect_context ctx) c.
Proof. unfold collect_context. by rewrite foldl_app. Qed.

Lemma asserted_snoc ctx c v :
  asserted (ctx ++ [c]) v ↔ asserted ctx v ∨ ctx_value c = Assertion v.
Proof.
  unfold asserted. setoid_rewrite elem_of_app. setoid_rewrite list_elem_of_singleton.
  destruct c as [k md]. simpl. naive_solver.
Qed.

Lemma negated_under_snoc ctx c key v :
  negated_under (ctx ++ [c]) key v ↔
  negated_under ctx key v ∨
  ∃ vs, ctx_value c = Negation vs ∧ dir_key <$> head vs = Some key ∧ v ∈ vs.
Proof.
  unfold negated_under. setoid_rewrite elem_of_app. setoid_rewrite list_elem_of_singleton.
  destruct c as [k md]. simpl. naive_solver.
Qed.

Lemma collected_assertions ctx key v :
  v ∈ at_key (keywise_assertions (collect_context ctx)) key ↔
  checked key ∧ dir_key v = key ∧ asserted ctx v.
Proof.
  induction ctx as [|c ctx IH] using rev_ind.
  { unfold at_key, asserted. simpl. rewrite lookup_empty. set_solver. }
  rewrite collect_context_snoc, asserted_snoc. unfold collect, checked in *.
  destruct c as [[w|vs] md]; simpl.
  - repeat case_decide; simpl; rewrite ?at_insert_into, ?IH; set_solver.
  - destruct (dir_key <$> head vs) as [k|]; repeat case_decide; simpl; rewrite IH; naive_solver.
Qed.

Lemma collected_negations ctx key v :
  v ∈ at_key (keywise_negations (collect_context ctx)) key ↔
  checked key ∧ negated_under ctx key v.
Proof.
  induction ctx as [|c ctx IH] using rev_ind.
  { unfold at_key, negated_under. simpl. rewrite lookup_empty. set_solver. }
  rewrite collect_context_snoc, negated_under_snoc. unfold collect, checked in *.
  destruct c as [[w|vs] md]; simpl.
  - repeat case_decide; simpl; rewrite IH; naive_solver.
  - destruct (dir_key <$> head vs) as [k|] eqn:Hk; repeat case_decide; simpl;
      rewrite ?at_insert_into, ?IH; naive_solver.
Qed.

Lemma collected_negations_nonempty ctx key S :
  keywise_negations (collect_context ctx) !! key = Some S → S ≠ ∅.
Proof.
  revert S. induction ctx as [|c ctx IH] using rev_ind; [done|].
  rewrite collect_context_snoc. unfold collect. intros S.
  destruct c as [[w|vs] md]; simpl.
  - repeat case_decide; simpl; apply IH.
  - destruct vs as [|v vs]; simpl; [apply IH|]. repeat case_decide; simpl; try apply IH.
    unfold insert_into. rewrite lookup_insert_Some. intros [[<- <-]|[_ HS]]; [set_solver|by apply IH in HS].
Qed.

End collected.

(** ** Loops over maps *)

Lemma try_each_ok {A E} (f : A → result E unit) l :
  try_each f l = Ok tt ↔ ∀ x, x ∈ l → f x = Ok tt.
Proof.
  induction l as [|x l IH]; simpl; [set_solver|]. destruct (f x) as [[]|e] eqn:Hx; simpl.
  - rewrite IH. set_solver.
  - split; [done|]. intros Hall. rewrite <- (Hall x), Hx by set_solver. done.
Qed.

Lemma try_each_err {A E} (f : A → result E unit) l e :
  try_each f l = Err e → ∃ x, x ∈ l ∧ f x = Err e.
Proof.
  induction l as [|x l IH]; simpl; [done|]. destruct (f x) as [[]|e'] eqn:Hx; simpl.
  - intros (y & Hy & Hf)%IH. exists y. set_solver.
  - intros [= ->]. exists x. set_solver.
Qed.

(** ** Every analysis returns *)

Section returns.
Context {M : Type} (md : M) (fuel : nat) (g : ConstraintGraph (VN:=dir_value_node)).
Hypothesis Hfuel : length (nodes g) < fuel.

Lemma check_node_some ctx n rel str domains st :
  ∃ o, check_node fuel g ctx n rel str domains st = Some o.
Proof using Hfuel.
  unfold check_node. destruct (resolve_domains g domains) as [ds|e]; [|by eauto].
  destruct (check_node_inner_returns g ctx ds fuel n rel str st) as (res & st' & Heq & _); [|by eauto].
  pose proof (pending_bound g st). lia.
Qed.

Lemma key_analysis_some domains k ctx st : ∃ o, key_analysis fuel g domains k ctx st = Some o.
Proof using Hfuel. unfold key_analysis. case_match; [apply check_node_some|eauto]. Qed.

Lemma value_analysis_some domains v ctx st : ∃ o, value_analysis fuel g domains v ctx st = Some o.
Proof using Hfuel. unfold value_analysis. case_match; [apply check_node_some|eauto]. Qed.

Lemma assertion_analysis_some domains l ctx : ∀ st,
  ∃ o, assertion_analysis M fuel g domains l ctx st = Some o.
Proof using Hfuel.
  induction l as [|[v m] l IH]; intros st; simpl; [eauto|]. unfold key_value_analysis.
  destruct (key_analysis_some domains (dir_key v) ctx st) as [[[u|e] st1] ->]; simpl; [|eauto].
  destruct (value_analysis_some domains v ctx st1) as [[[u'|e] st2] ->]; simpl; eauto.
Qed.

Lemma remaining_values_some domains mds vals : ∀ ctx st,
  ∃ o, remaining_values M fuel g domains mds vals ctx st = Some o.
Proof using Hfuel.
  induction vals as [|v vals IH]; intros ctx st; simpl; [eauto|].
  destruct (value_analysis_some domains v (ctx_insert v ctx) st) as [[[u|e] st1] ->]; simpl; eauto.
Qed.

Lemma negated_keys_some domains l : ∀ mds ctx st,
  ∃ o, negated_keys M md fuel g domains l mds ctx st = Some o.
Proof using Hfuel.
  induction l as [|[k S] l IH]; intros mds ctx st; simpl; [eauto|].
  destruct (key_analysis_some domains k ctx st) as [[[u|e] st1] ->]; simpl; [|eauto].
  destruct (get_value_set (kind k)) as [vs|]; [|eauto].
  edestruct (remaining_values_some domains) as [[[ctx'|e] st2] ->]; simpl; eauto.
Qed.

Lemma perform_context_analysis_some domains ctx st :
  ∃ o, perform_context_analysis M md fuel g domains ctx st = Some o.
Proof using Hfuel.
  unfold perform_context_analysis, negation_analysis.
  edestruct assertion_analysis_some as [[[u|e] st1] ->]; simpl; [|eauto].
  destruct (foldl _ _ _) as [mds negs]. apply negated_keys_some.
Qed.

Lemma perform_context_analyses_some ctx : ∃ r, perform_context_analyses md fuel g ctx = Some r.
Proof using Hfuel.
  unfold perform_context_analyses. destruct (perform_condition_analyses md ctx); [|eauto].
  edestruct perform_context_analysis_some as [[res st] ->]. simpl. eauto.
Qed.

(** The verdict on a list of contexts: the first error. *)
Fixpoint contexts_verdict (l : list (list (ContextValue M))) : option (result (EuclidError M) unit) :=
  match l with
  | [] => Some (Ok tt)
  | ctx :: l =>
      res ← perform_context_analyses md fuel g ctx;
      match res with Err e => Some (Err e) | Ok _ => contexts_verdict l end
  end.

Lemma contexts_verdict_some l :
  ∃ r, contexts_verdict l = Some r ∧
    (is_ok r = true ↔ ∀ ctx, ctx ∈ l → perform_context_analyses md fuel g ctx = Some (Ok tt)).
Proof using Hfuel.
  induction l as [|ctx l (r & Hr & IH)]; simpl; [exists (Ok tt); set_solver|].
  destruct (perform_context_analyses_some ctx) as [[[]|e] Hc]; rewrite Hc; simpl.
  - exists r. split; [done|]. rewrite IH. set_solver.
  - eexists. split; [done|]. split; [done|]. intros Hall. by rewrite Hall in Hc by set_solver.
Qed.

End returns.

(** The loop of [analyze] gives the verdict on the contexts of the manager. *)
Lemma analyze_contexts_drain {M} (md : M) gf g fuel : ∀ m l,
  drain analysis_manager_advance fuel m = Some (Ok l) →
  analyze_contexts md fuel gf g m = contexts_verdict md gf g l.
Proof.
  induction fuel as [|fuel IH]; intros m l; simpl; [done|].
  destruct (analysis_manager_advance m) as [[[ctx|] m']|e]; simpl; [|by intros [= <-]|done].
  destruct (drain _ fuel m') as [[l'|e]|] eqn:Hd; intros; simplify_eq. simpl.
  destruct (perform_context_analyses md gf g ctx) as [[[]|e]|]; simpl; [|done..]. by apply IH.
Qed.
