(* ===== verification/AnalyzerTheorems.v ===== *)
(** * The static analyzer: theorems

    Which contexts the checks of a condition accept and what a rejection
    means for payments; and that [analyze] returns, with the verdict on every
    context of the program. *)

From S2P Require Import Prelude GraphTypes GraphBuilder GraphCheck GraphSpec GraphTheorems.
From S2P Require Import Country Currency PaymentEnums EuclidEnums EuclidTypes EuclidAst EuclidDir.
From S2P Require Import EuclidLowering EuclidVir EuclidTheorems StateMachine StateMachineFacts.
From S2P Require Import StateMachineTheorems Analyzer AnalyzerFacts.

Section conditions.
Context {M : Type} (md : M).
Implicit Types ctx : list (ContextValue M).

(** No key has two asserted values, no key has all its values negated, and no
    asserted value is negated; over the enumerated keys but the connector. *)
Record consistent ctx : Prop := {
  one_value : ∀ v w, checked (dir_key v) → asserted ctx v → asserted ctx w →
    dir_key v = dir_key w → v = w;
  some_value_left : ∀ key v vs, checked key → negated_under ctx key v →
    get_value_set (kind key) = Some vs → ∃ w, w ∈ vs ∧ ¬ negated_under ctx key w;
  not_negated : ∀ v, checked (dir_key v) → asserted ctx v → ¬ negated_under ctx (dir_key v) v;
}.

Lemma conflicting_ok ctx :
  analyze_conflicting_assertions md (keywise_assertions (collect_context ctx))
    (assertion_metadata (collect_context ctx)) = Ok tt ↔
  ∀ v w, checked (dir_key v) → asserted ctx v → asserted ctx w → dir_key v = dir_key w → v = w.
Proof.
  unfold analyze_conflicting_assertions. rewrite try_each_ok. split.
  - intros Hall v w Hc Hv Hw Hk.
    assert (v ∈ at_key (keywise_assertions (collect_context ctx)) (dir_key v)) as Hv'
      by by apply collected_assertions.
    assert (w ∈ at_key (keywise_assertions (collect_context ctx)) (dir_key v)) as Hw'
      by (by apply collected_assertions).
    unfold at_key in Hv', Hw'. destruct (_ !! dir_key v) as [S|] eqn:HS; simpl in *; [|set_solver].
    specialize (Hall (dir_key v, S)). rewrite elem_of_map_to_list in Hall. specialize (Hall HS).
    simpl in Hall. case_decide as Hsz; [done|].
    assert (size S = 1) as (x & Hx)%size_1_elem_of; [|set_solver].
    assert (size S ≠ 0); [|lia]. intros Hz%size_empty_inv. set_solver.
  - intros Hall [key S] HS%elem_of_map_to_list. simpl. case_decide as Hsz; [|done]. exfalso.
    assert (∀ v, v ∈ S → checked key ∧ dir_key v = key ∧ asserted ctx v) as HinS.
    { intros v Hv. apply collected_assertions. unfold at_key. by rewrite HS. }
    destruct (set_choose_L S) as [v Hv]; [intros ->; rewrite size_empty in Hsz; lia|].
    assert (S = {[v]}) as ->; [|rewrite size_singleton in Hsz; lia].
    apply set_eq. intros w. rewrite elem_of_singleton. split; [|by intros ->].
    intros Hw. destruct (HinS v Hv) as (Hc & <- & Hav), (HinS w Hw) as (_ & Hkw & Haw). symmetry. by apply Hall.
Qed.

Lemma at_collected_negations ctx key S v :
  keywise_negations (collect_context ctx) !! key = Some S →
  v ∈ S ↔ checked key ∧ negated_under ctx key v.
Proof. intros HS. rewrite <- collected_negations. unfold at_key. by rewrite HS. Qed.

Lemma collected_negations_some ctx key v :
  checked key → negated_under ctx key v →
  ∃ S, keywise_negations (collect_context ctx) !! key = Some S.
Proof.
  intros Hc Hn. pose proof (proj2 (collected_negations ctx key v) (conj Hc Hn)) as Hv.
  unfold at_key in Hv. destruct (_ !! key); [eauto|set_solver].
Qed.

Lemma exhaustive_ok ctx :
  analyze_exhaustive_negations md (keywise_negations (collect_context ctx))
    (keywise_negation_metadata (collect_context ctx)) = Ok tt ↔
  ∀ key v vs, checked key → negated_under ctx key v → get_value_set (kind key) = Some vs →
    ∃ w, w ∈ vs ∧ ¬ negated_under ctx key w.
Proof.
  unfold analyze_exhaustive_negations. rewrite try_each_ok. split.
  - intros Hall key v vs Hc Hn Hvs. destruct (collected_negations_some ctx key v Hc Hn) as [S HS].
    specialize (Hall (key, S)). rewrite elem_of_map_to_list in Hall. specialize (Hall HS).
    simpl in Hall. rewrite Hvs in Hall.
    destruct (List.filter _ vs) as [|w ws] eqn:Hf; [done|].
    assert (In w (w :: ws)) as Hw by (by left). rewrite <- Hf in Hw.
    apply filter_In in Hw as [Hw%list_elem_of_In HwS%bool_decide_eq_true].
    exists w. split; [done|]. intros Hnw. by apply HwS, (at_collected_negations ctx key S).
  - intros Hall [key S] HS%elem_of_map_to_list. simpl.
    destruct (get_value_set (kind key)) as [vs|] eqn:Hvs; [|done].
    destruct (set_choose_L S) as [v Hv]; [by eapply collected_negations_nonempty|].
    apply (at_collected_negations _ _ _ _ HS) in Hv as [Hc Hv].
    destruct (Hall key v vs Hc Hv Hvs) as (w & Hw & Hnw).
    destruct (List.filter _ vs) as [|u us] eqn:Hf; [|done].
    assert (In w []) as []. rewrite <- Hf. apply filter_In. split; [by apply list_elem_of_In|].
    apply bool_decide_eq_true. rewrite (at_collected_negations _ _ _ _ HS). naive_solver.
Qed.

Lemma negated_ok ctx :
  let c := collect_context ctx in
  analyze_negated_assertions md (keywise_assertions c) (assertion_metadata c) (keywise_negations c)
    (negation_metadata c) = Ok tt ↔
  ∀ v, checked (dir_key v) → asserted ctx v → ¬ negated_under ctx (dir_key v) v.
Proof.
  simpl. unfold analyze_negated_assertions. rewrite try_each_ok. split.
  - intros Hall v Hc Ha Hn. destruct (collected_negations_some ctx _ v Hc Hn) as [S HS].
    specialize (Hall (dir_key v, S)). rewrite elem_of_map_to_list in Hall. specialize (Hall HS).
    simpl in Hall. pose proof (proj2 (collected_assertions ctx (dir_key v) v) (conj Hc (conj eq_refl Ha))) as Hv.
    unfold at_key in Hv. destruct (keywise_assertions _ !! _) as [A|]; [|set_solver]. simpl in Hv.
    assert (v ∈ S ∩ A) as Hin by (apply elem_of_intersection; by rewrite (at_collected_negations _ _ _ _ HS)).
    apply elem_of_elements in Hin. destruct (elements (S ∩ A)); [set_solver|done].
  - intros Hall [key S] HS%elem_of_map_to_list. simpl.
    destruct (keywise_assertions _ !! key) as [A|] eqn:HA; [|done].
    destruct (elements (S ∩ A)) as [|v l] eqn:Hel; [done|]. exfalso.
    assert (v ∈ S ∩ A) as [HvS HvA]%elem_of_intersection by (apply elem_of_elements; rewrite Hel; set_solver).
    apply (at_collected_negations _ _ _ _ HS) in HvS as [Hc Hn].
    assert (v ∈ at_key (keywise_assertions (collect_context ctx)) key) as (_ & <- & Ha)%collected_assertions
      by (unfold at_key; by rewrite HA).
    by apply (Hall v).
Qed.

(** The checks of a condition accept a context exactly when it is
    consistent: no enumerated key is asserted to have two values, no asserted
    value is negated, and no enumerated key has all its values negated. *)
Theorem condition_analyses_exact ctx :
  perform_condition_analyses md ctx = Ok tt ↔ consistent ctx.
Proof.
  unfold perform_condition_analyses.
  pose proof (conflicting_ok ctx) as H1. pose proof (exhaustive_ok ctx) as H2.
  pose proof (negated_ok ctx) as H3. simpl in H3.
  destruct (analyze_conflicting_assertions _ _ _) as [[]|e]; simpl;
    [|split; [done|intros [Hc _ _]; by apply H1 in Hc]].
  destruct (analyze_exhaustive_negations _ _ _) as [[]|e]; simpl;
    [|split; [done|intros [_ Hc _]; by apply H2 in Hc]].
  rewrite H3. split; [intros Hn; split; [by apply H1|by apply H2|done]|by intros []].
Qed.

(** A context that the checks reject can hold of no payment, with one
    exception: one whose error is an exhaustive negation holds of payments
    that have no value at all for the key. *)
Theorem rejected_context_dead ctx e input :
  perform_condition_analyses md ctx = Err e → context_holds input ctx = true →
  ∃ key mds vs, analysis_error_type e = ExhaustiveNegation key mds ∧ get_value_set (kind key) = Some vs ∧
    ∀ v, v ∈ vs → value_holds (M:=M) input v = false.
Proof.
  intros Herr Hctx.
  assert (∀ v, asserted ctx v → value_holds (M:=M) input v = true) as Hpos.
  { intros v [m Hm]. by apply (proj1 (all_true _ _) Hctx) in Hm. }
  assert (∀ key v, negated_under ctx key v → value_holds (M:=M) input v = false) as Hneg.
  { intros key v (vs & m & Hm & _ & Hv). apply (proj1 (all_true _ _) Hctx) in Hm.
    apply (proj1 (all_true _ _) Hm) in Hv. by apply negb_true_iff. }
  unfold perform_condition_analyses in Herr.
  assert (analyze_conflicting_assertions md (keywise_assertions (collect_context ctx))
    (assertion_metadata (collect_context ctx)) = Ok tt) as Hok.
  { apply conflicting_ok. intros v w [_ Hty] Hv Hw Hk. by apply (value_holds_unique (M:=M) input); auto. }
  rewrite Hok in Herr. simpl in Herr.
  destruct (analyze_exhaustive_negations _ _ _) as [[]|e'] eqn:Hex; simpl in Herr.
  - pose proof (negated_ok ctx) as [_ Hnok]. simpl in Hnok. rewrite Hnok in Herr; [done|].
    intros v _ Hv%Hpos Hn%Hneg. congruence.
  - injection Herr as ->. apply try_each_err in Hex as ([key S] & HS%elem_of_map_to_list & Hex). simpl in Hex.
    destruct (get_value_set (kind key)) as [vs|] eqn:Hvs; [|done].
    destruct (List.filter _ vs) as [|u us] eqn:Hf; [|done]. injection Hex as <-.
    eexists key, _, vs. split_and!; [done|done|]. intros v Hv. apply (Hneg key).
    apply (at_collected_negations _ _ S _ HS). apply dec_stable. intros HvS.
    assert (In v []) as []. rewrite <- Hf. apply filter_In. split; [by apply list_elem_of_In|].
    by apply bool_decide_eq_true.
Qed.

End conditions.

Section analysis.
Context {M O : Type} `{EuclidDirFilter O} `{EuclidAnalysable M O} (md : M).

(** The contexts of a program, with the connectors of its rules. *)
Definition program_contexts (dp : Program M (DirComparison M) O) : list (list (ContextValue M)) :=
  program_emits (zip_with (λ r d, (d, statements r)) (rules dp)
    (make_connector_selection_data dp)).

(** [C10] The analysis of a program that lowers, in which no comparison that is not a
    negation has an empty list of values, returns, and it succeeds exactly when every
    context of the program passes the checks of its condition and of the knowledge
    graph; the program it then returns is the one the compiled backend builds.  The
    fuel is above the number of contexts and of nodes.  A program with an empty list
    has no context that could fail and is rejected all the same
    ([AnalyzerExample.empty_list_rejected]). *)
Theorem analyze_verdict (p : Program M (Comparison M) O) dp g fuel graph_fuel :
  AstLowering.lower_program O p = Ok dp →
  (∀ r, r ∈ rules dp → Forall (stmt_all inhabited) (statements r)) →
  length (program_contexts dp) < fuel → length (nodes g) < graph_fuel →
  ∃ r, analyze md fuel graph_fuel p g = Some r ∧
    ∀ vp, r = Ok vp ↔ Vir.with_program md p = Ok vp ∧
      ∀ ctx, ctx ∈ program_contexts dp → perform_context_analyses md graph_fuel g ctx = Some (Ok tt).
Proof.
  intros Hdp Hinh Hf Hgf. unfold analyze, Vir.with_program. rewrite Hdp. simpl.
  set (data := make_connector_selection_data dp).
  assert (drain analysis_manager_advance fuel (analysis_manager_new dp data) =
    Some (Ok (program_contexts dp))) as Hd.
  { unfold analysis_manager_new, program_machine_new. rewrite zip_machines.
    apply drain_program_new; [|done]. apply Forall_forall. intros [d ss].
    rewrite list_elem_of_lookup. setoid_rewrite lookup_zip_with_Some. intros (i & r & d' & ? & Hr & _).
    simplify_eq. apply Hinh. by eapply list_elem_of_lookup_2. }
  rewrite (analyze_contexts_drain md graph_fuel g fuel _ _ Hd).
  destruct (contexts_verdict_some md graph_fuel g Hgf (program_contexts dp)) as (r & -> & Hr). simpl.
  destruct r as [[]|e]; simpl in Hr; eexists; (split; [done|]); intros vp.
  - naive_solver.
  - split; [done|]. intros [_ Hall%Hr]. done.
Qed.

End analysis.

(** ** Assertions against the knowledge graph *)

Section assertions.
Context {M : Type} (md : M) (g : ConstraintGraph (VN:=dir_value_node)) (rank : NodeId → nat).
Context (Hwf : graph_wf g) (Hranked : ranked g rank).

Abbreviation key_node v := (NodeValue_Key (VN:=dir_value_node) (dir_key v)).
Abbreviation value_node v := (NodeValue_Value (VN:=dir_value_node) v).

(** A key or value the graph has no node for is unconstrained. *)
Definition satisfied (T : NodeId → Relation.t → Strength → bool) (v : NodeValue (VN:=dir_value_node)) : bool :=
  match value_map g !! v with Some n => T n Relation.Positive Strong | None => true end.

Section truth.
Context (ctx : AnalysisContext) (T : NodeId → Relation.t → Strength → bool) (fuel : nat).
Context (HT : solution g (checking_context ctx) None T) (Hfuel : length (nodes g) < fuel).

Definition tables_ok (st : check_state) : Prop := memo_ok T ∅ st ∧ cycle_map st = ∅.

Lemma node_analysis_exact (v : NodeValue (VN:=dir_value_node)) st :
  tables_ok st →
  ∃ res st', tables_ok st' ∧ is_ok res = satisfied T v ∧
    match value_map g !! v with
    | None => Some (Ok tt, st)
    | Some n => check_node fuel g (checking_context ctx) n Relation.Positive Strong None st
    end = Some (res, st').
Proof using Hwf Hranked HT Hfuel.
  intros [Hm Hc]. unfold satisfied. destruct (value_map g !! v) as [n|] eqn:Hv; [|by exists (Ok tt), st].
  apply (wf_value_map _ Hwf) in Hv as (nd & Hnd & _).
  destruct (check_node_inner_computes g (checking_context ctx) None rank T fuel n nd Relation.Positive Strong st)
    as (res & st' & Heq & Hverd & Hm' & Hc'); [done..|].
  exists res, st'. split; [done|]. split; [by apply verdict_is_ok|]. exact Heq.
Qed.

Lemma assertion_analysis_exact l : ∀ st,
  tables_ok st →
  ∃ res st', assertion_analysis M fuel g None l ctx st = Some (res, st') ∧
    is_ok res = all (λ p, satisfied T (key_node p.1) && satisfied T (value_node p.1)) l.
Proof using Hwf Hranked HT Hfuel.
  induction l as [|[v m] l IH]; intros st Hst; simpl; [by exists (Ok tt), st|].
  unfold key_value_analysis, key_analysis, value_analysis.
  destruct (node_analysis_exact (key_node v) st Hst) as (res1 & st1 & Hst1 & Hok1 & ->).
  simpl. rewrite <- Hok1. destruct res1 as [[]|e1]; simpl; [|by eexists _, _].
  destruct (node_analysis_exact (value_node v) st1 Hst1) as (res2 & st2 & Hst2 & Hok2 & ->).
  simpl. rewrite <- Hok2. destruct res2 as [[]|e2]; simpl; [by apply IH|by eexists _, _].
Qed.

End truth.

(** [C27] The graph analysis of a context without negations succeeds exactly
    when the graph's declarative meaning under the asserted values satisfies
    the node of every asserted value and of its key; the memo table the
    checks of one context share does not change the outcome. *)
Theorem assertions_match_graph ctx T fuel :
  negatives M ctx = [] →
  solution g (checking_context (from_dir_values (fst <$> positives M ctx))) None T →
  length (nodes g) < fuel →
  ∃ res st, perform_context_analysis M md fuel g None ctx empty_state = Some (res, st) ∧
    (is_ok res = true ↔ ∀ v, asserted ctx v →
      satisfied T (key_node v) = true ∧ satisfied T (value_node v) = true).
Proof using Hwf Hranked.
  intros Hneg HT Hfuel. unfold perform_context_analysis.
  destruct (assertion_analysis_exact _ T fuel HT Hfuel (positives M ctx) (fresh_cycles empty_state))
    as (res & st & -> & Hok).
  { split; [apply memo_ok_empty|done]. }
  assert (is_ok res = true ↔ ∀ v, asserted ctx v →
    satisfied T (key_node v) = true ∧ satisfied T (value_node v) = true) as Hiff.
  { rewrite Hok, all_true. setoid_rewrite andb_true_iff. unfold positives, asserted. split.
    - intros Hall v [m Hm]. apply (Hall (v, m)). apply list_elem_of_omap. by eexists.
    - intros Hall [v m] ([k m'] & Hin & Heq)%list_elem_of_omap. apply Hall. destruct k; simplify_eq/=. eauto. }
  simpl. destruct res as [[]|e]; [|by eexists _, _]. rewrite Hneg. by eexists _, _.
Qed.

End assertions.

(** ** A knowledge graph

    Automatic and manual capture are for cards, and cards are captured
    automatically. *)

Module AnalyzerExample.
Import EuclidExample StateMachineExample.

Abbreviation capture c := (DirValue_CaptureMethod c).
Abbreviation a_card := (DirValue_PaymentMethod PaymentMethod_Card).

Definition b1 := (make_in_aggregator (VN:=dir_value_node)
  [capture CaptureMethod_Automatic] None None builder_new).2.
Definition b2 := (make_value_node (NodeValue_Value a_card) None None b1).2.
Definition b3 := (make_value_node (NodeValue_Value (capture CaptureMethod_Automatic)) None None b2).2.
Definition b4 := (make_value_node (NodeValue_Value (capture CaptureMethod_Manual)) None None b3).2.
Definition b5 := (make_edge 0 1 Normal Relation.Positive None b4).2.
Definition b6 := (make_edge 1 2 Weak Relation.Positive None b5).2.
Definition b7 := (make_edge 1 3 Weak Relation.Positive None b6).2.

Definition capture_graph : ConstraintGraph := build b7.

Lemma capture_graph_wf : graph_wf capture_graph.
Proof.
  apply (reachable_builder_wf b7). unfold reachable. do 7 (eapply rtc_r; [|constructor]). apply rtc_refl.
Qed.

Lemma capture_graph_ranked : ranked capture_graph id.
Proof. apply ranked_check. by_evaluation. Qed.

(** Neither of the other ways to capture. *)
Definition automatic_or_manual : list (ContextValue string) :=
  [negation [capture CaptureMethod_ManualMultiple; capture CaptureMethod_Scheduled;
             capture CaptureMethod_SequentialAutomatic] ""%string].

Definition outcome_of {E A} (o : option (result E A * check_state (VN:=dir_value_node))) : option bool :=
  (λ o, is_ok o.1) <$> o.

(** The memo table is shared between the values a negation leaves, though
    each is checked under a context of its own: on this graph the analysis of
    a context accepts it, and manual capture, which the context leaves open,
    is rejected when its check starts from an empty table. *)
Theorem negation_memo_stale :
  outcome_of (perform_context_analysis string ""%string 5 capture_graph None
    automatic_or_manual empty_state) = Some true ∧
  outcome_of (value_analysis 5 capture_graph None (capture CaptureMethod_Manual)
    (ctx_insert (capture CaptureMethod_Manual) ∅) empty_state) = Some false.
Proof. split; vm_compute; reflexivity. Qed.

(** A context that negates both types of authentication. *)
Definition no_authentication : list (ContextValue string) :=
  [negation [DirValue_AuthenticationType AuthenticationType_ThreeDs] ""%string;
   negation [DirValue_AuthenticationType AuthenticationType_NoThreeDs] ""%string].

Lemma rejected_context_dead_witness :
  ∃ e key mds vs, perform_condition_analyses ""%string no_authentication = Err e ∧
    context_holds eur_card_payment no_authentication = true ∧
    analysis_error_type e = ExhaustiveNegation key mds ∧ get_value_set (kind key) = Some vs ∧
    ∀ v, v ∈ vs → value_holds (M:=string) eur_card_payment v = false.
Proof.
  destruct (perform_condition_analyses ""%string no_authentication) as [u|e] eqn:He;
    [vm_compute in He; discriminate|].
  assert (context_holds eur_card_payment no_authentication = true) as Hh by (vm_compute; reflexivity).
  destruct (rejected_context_dead ""%string no_authentication e eur_card_payment He Hh)
    as (key & mds & vs & H1 & H2 & H3).
  exists e, key, mds, vs. auto.
Defined.

Definition card_automatic : list (ContextValue string) :=
  [assertion a_card ""%string; assertion (capture CaptureMethod_Automatic) ""%string].

Lemma assertions_match_graph_witness :
  ∃ res st, perform_context_analysis string ""%string 5 capture_graph None card_automatic empty_state =
    Some (res, st) ∧ is_ok res = true.
Proof.
  destruct (assertions_match_graph ""%string capture_graph id capture_graph_wf capture_graph_ranked
    card_automatic _ 5 eq_refl (eval_solution _ _ _ id capture_graph_ranked)) as (res & st & Heq & Hiff);
    [vm_compute; lia|].
  exists res, st. split; [exact Heq|]. apply Hiff.
  intros v [m Hm]. unfold card_automatic in Hm.
  repeat (apply elem_of_cons in Hm as [[= -> ->]|Hm]; [split; vm_compute; reflexivity|]).
  destruct (not_elem_of_nil _ Hm).
Defined.

(** The routing program of the example, analysed without constraints. *)
#[local] Instance selection_analysable : EuclidAnalysable string ConnectorSelection :=
  λ self _, (λ c, (DirValue_Connector (mkConnectorChoice (choice_connector c)), ""%string))
    <$> get_connector_list self.

Definition routing := EuclidExample.program.

(** The currency is one of no currencies: the program lowers and has no context that
    fails a check, but its analysis fails. *)
Definition no_currency : Program string (Comparison string) ConnectorSelection := {|
  default_selection := to_connector RoutableConnectors_Adyen;
  rules := [mkRule "none" (to_connector RoutableConnectors_Stripe)
              [mkIf [cmp "currency" ComparisonType_Equal (EnumVariantArray [])] None]];
  program_metadata := ""%string;
|}.

Example empty_list_rejected :
  is_ok (Vir.with_program ""%string no_currency) = true ∧
  (is_ok <$> analyze ""%string 20 5 no_currency capture_graph) = Some false ∧
  match AstLowering.lower_program ConnectorSelection no_currency with
  | Ok dp => forallb (λ ctx, match perform_context_analyses ""%string 5 capture_graph ctx with
                             | Some r => is_ok r | None => false end) (program_contexts dp) = true
  | Err _ => False
  end.
Proof. vm_compute. by split_and!. Qed.

Lemma analyze_verdict_witness :
  ∃ dp, AstLowering.lower_program ConnectorSelection routing = Ok dp ∧
  ∃ r, analyze ""%string 20 5 routing capture_graph = Some r ∧
    ∀ vp, r = Ok vp ↔ Vir.with_program ""%string routing = Ok vp ∧
      ∀ ctx, ctx ∈ program_contexts dp →
        perform_context_analyses ""%string 5 capture_graph ctx = Some (Ok tt).
Proof.
  destruct (AstLowering.lower_program ConnectorSelection routing) as [dp|e] eqn:Hdp;
    [|vm_compute in Hdp; discriminate].
  exists dp. split; [reflexivity|].
  apply (analyze_verdict ""%string routing dp capture_graph 20 5 Hdp).
  - intros r Hr. vm_compute in Hdp. injection Hdp as <-.
    apply elem_of_cons in Hr as [->|Hr]; [|destruct (not_elem_of_nil _ Hr)].
    repeat (constructor || (intros ?; discriminate)).
  - vm_compute in Hdp. injection Hdp as <-. vm_compute. lia.
  - vm_compute. lia.
Defined.

End AnalyzerExample.
