(* ===== verification/KgraphValues.v ===== *)
(** * Values of the knowledge graph

    The conversions of [crates/kgraph_utils/src/transformers.rs] and
    [crates/kgraph_utils/src/mca.rs] into values of the DIR, and the errors of
    [crates/kgraph_utils/src/error.rs]. *)

From S2P Require Import Prelude GraphTypes Country Currency PaymentEnums EuclidEnums EuclidTypes EuclidAst EuclidDir.

(** [KgraphError]. *)
Inductive KgraphError :=
| InvalidConnectorName (name : string)
| DomainCreationError
| GraphConstructionError (e : GraphError)
| ContextConstructionError (e : AnalysisErrorType unit)
| IndexingError.

(** [IntoDirValue]. *)
Class IntoDirValue (A : Type) : Type := into_dir_value : A → result KgraphError DirValue.

(** [PaymentMethod::into_dir_value]. *)
Definition payment_method_into (x : PaymentMethod) : result KgraphError DirValue :=
  match x with
  | PaymentMethod_Card => Ok (DirValue_PaymentMethod PaymentMethod_Card)
  | PaymentMethod_Wallet => Ok (DirValue_PaymentMethod PaymentMethod_Wallet)
  | PaymentMethod_PayLater => Ok (DirValue_PaymentMethod PaymentMethod_PayLater)
  | PaymentMethod_BankRedirect => Ok (DirValue_PaymentMethod PaymentMethod_BankRedirect)
  | PaymentMethod_Crypto => Ok (DirValue_PaymentMethod PaymentMethod_Crypto)
  | PaymentMethod_BankDebit => Ok (DirValue_PaymentMethod PaymentMethod_BankDebit)
  | PaymentMethod_BankTransfer => Ok (DirValue_PaymentMethod PaymentMethod_BankTransfer)
  | PaymentMethod_Reward => Ok (DirValue_PaymentMethod PaymentMethod_Reward)
  | PaymentMethod_RealTimePayment => Ok (DirValue_PaymentMethod PaymentMethod_RealTimePayment)
  | PaymentMethod_Upi => Ok (DirValue_PaymentMethod PaymentMethod_Upi)
  | PaymentMethod_Voucher => Ok (DirValue_PaymentMethod PaymentMethod_Voucher)
  | PaymentMethod_GiftCard => Ok (DirValue_PaymentMethod PaymentMethod_GiftCard)
  | PaymentMethod_CardRedirect => Ok (DirValue_PaymentMethod PaymentMethod_CardRedirect)
  | PaymentMethod_OpenBanking => Ok (DirValue_PaymentMethod PaymentMethod_OpenBanking)
  | PaymentMethod_MobilePayment => Ok (DirValue_PaymentMethod PaymentMethod_MobilePayment)
  | PaymentMethod_NetworkToken => Ok (DirValue_PaymentMethod PaymentMethod_NetworkToken)
  end.

(** [AuthenticationType::into_dir_value]. *)
Definition authentication_type_into (x : AuthenticationType) : result KgraphError DirValue :=
  match x with
  | AuthenticationType_ThreeDs => Ok (DirValue_AuthenticationType AuthenticationType_ThreeDs)
  | AuthenticationType_NoThreeDs => Ok (DirValue_AuthenticationType AuthenticationType_NoThreeDs)
  end.

(** [FutureUsage::into_dir_value]. *)
Definition future_usage_into (x : FutureUsage) : result KgraphError DirValue :=
  match x with
  | FutureUsage_OnSession => Ok (DirValue_SetupFutureUsage FutureUsage_OnSession)
  | FutureUsage_OffSession => Ok (DirValue_SetupFutureUsage FutureUsage_OffSession)
  end.

(** [(PaymentMethodType, PaymentMethod)::into_dir_value]. *)
Definition payment_method_type_into (p : PaymentMethodType * PaymentMethod) : result KgraphError DirValue :=
  match p.1 with
  | PaymentMethodType_AmazonPay => Ok (DirValue_WalletType WalletType_AmazonPay)
  | PaymentMethodType_Paysera => Ok (DirValue_WalletType WalletType_Paysera)
  | PaymentMethodType_Skrill => Ok (DirValue_WalletType WalletType_Skrill)
  | PaymentMethodType_Credit => Ok (DirValue_CardType CardType_Credit)
  | PaymentMethodType_Debit => Ok (DirValue_CardType CardType_Debit)
  | PaymentMethodType_Giropay => Ok (DirValue_BankRedirectType BankRedirectType_Giropay)
  | PaymentMethodType_Ideal => Ok (DirValue_BankRedirectType BankRedirectType_Ideal)
  | PaymentMethodType_Sofort => Ok (DirValue_BankRedirectType BankRedirectType_Sofort)
  | PaymentMethodType_Eft => Ok (DirValue_BankRedirectType BankRedirectType_Eft)
  | PaymentMethodType_EftDebitOrder => Ok (DirValue_BankDebitType BankDebitType_EftDebitOrder)
  | PaymentMethodType_Eps => Ok (DirValue_BankRedirectType BankRedirectType_Eps)
  | PaymentMethodType_Klarna => Ok (DirValue_PayLaterType PayLaterType_Klarna)
  | PaymentMethodType_Affirm => Ok (DirValue_PayLaterType PayLaterType_Affirm)
  | PaymentMethodType_Payjustnow => Ok (DirValue_PayLaterType PayLaterType_Payjustnow)
  | PaymentMethodType_AfterpayClearpay => Ok (DirValue_PayLaterType PayLaterType_AfterpayClearpay)
  | PaymentMethodType_GooglePay => Ok (DirValue_WalletType WalletType_GooglePay)
  | PaymentMethodType_Bluecode => Ok (DirValue_WalletType WalletType_Bluecode)
  | PaymentMethodType_ApplePay => Ok (DirValue_WalletType WalletType_ApplePay)
  | PaymentMethodType_Paypal => Ok (DirValue_WalletType WalletType_Paypal)
  | PaymentMethodType_CryptoCurrency => Ok (DirValue_CryptoType CryptoType_CryptoCurrency)
  | PaymentMethodType_RevolutPay => Ok (DirValue_WalletType WalletType_RevolutPay)
  | PaymentMethodType_Becs => Ok (DirValue_BankDebitType BankDebitType_Becs)
  | PaymentMethodType_Sepa => Ok (DirValue_BankDebitType BankDebitType_Sepa)
  | PaymentMethodType_SepaGuarenteedDebit => Ok (DirValue_BankDebitType BankDebitType_SepaGuarenteedDebit)
  | PaymentMethodType_SepaBankTransfer => Ok (DirValue_BankTransferType BankTransferType_SepaBankTransfer)
  | PaymentMethodType_AliPay => Ok (DirValue_WalletType WalletType_AliPay)
  | PaymentMethodType_AliPayHk => Ok (DirValue_WalletType WalletType_AliPayHk)
  | PaymentMethodType_BancontactCard => Ok (DirValue_BankRedirectType BankRedirectType_BancontactCard)
  | PaymentMethodType_Blik => Ok (DirValue_BankRedirectType BankRedirectType_Blik)
  | PaymentMethodType_MbWay => Ok (DirValue_WalletType WalletType_MbWay)
  | PaymentMethodType_MobilePay => Ok (DirValue_WalletType WalletType_MobilePay)
  | PaymentMethodType_Cashapp => Ok (DirValue_WalletType WalletType_Cashapp)
  | PaymentMethodType_Multibanco => Ok (DirValue_BankTransferType BankTransferType_Multibanco)
  | PaymentMethodType_Pix => Ok (DirValue_BankTransferType BankTransferType_Pix)
  | PaymentMethodType_PixKey => Ok (DirValue_BankTransferType BankTransferType_PixKey)
  | PaymentMethodType_PixEmv => Ok (DirValue_BankTransferType BankTransferType_PixEmv)
  | PaymentMethodType_PixQr => Ok (DirValue_BankTransferType BankTransferType_PixQr)
  | PaymentMethodType_PixAutomaticoPush => Ok (DirValue_BankTransferType BankTransferType_PixAutomaticoPush)
  | PaymentMethodType_PixAutomaticoQr => Ok (DirValue_BankTransferType BankTransferType_PixAutomaticoQr)
  | PaymentMethodType_Pse => Ok (DirValue_BankTransferType BankTransferType_Pse)
  | PaymentMethodType_Interac => Ok (DirValue_BankRedirectType BankRedirectType_Interac)
  | PaymentMethodType_OnlineBankingCzechRepublic => Ok (DirValue_BankRedirectType BankRedirectType_OnlineBankingCzechRepublic)
  | PaymentMethodType_OnlineBankingFinland => Ok (DirValue_BankRedirectType BankRedirectType_OnlineBankingFinland)
  | PaymentMethodType_OnlineBankingPoland => Ok (DirValue_BankRedirectType BankRedirectType_OnlineBankingPoland)
  | PaymentMethodType_OnlineBankingSlovakia => Ok (DirValue_BankRedirectType BankRedirectType_OnlineBankingSlovakia)
  | PaymentMethodType_Swish => Ok (DirValue_WalletType WalletType_Swish)
  | PaymentMethodType_Trustly => Ok (DirValue_BankRedirectType BankRedirectType_Trustly)
  | PaymentMethodType_Bizum => Ok (DirValue_BankRedirectType BankRedirectType_Bizum)
  | PaymentMethodType_PayBright => Ok (DirValue_PayLaterType PayLaterType_PayBright)
  | PaymentMethodType_Flexiti => Ok (DirValue_PayLaterType PayLaterType_Flexiti)
  | PaymentMethodType_Walley => Ok (DirValue_PayLaterType PayLaterType_Walley)
  | PaymentMethodType_Breadpay => Ok (DirValue_PayLaterType PayLaterType_Breadpay)
  | PaymentMethodType_Przelewy24 => Ok (DirValue_BankRedirectType BankRedirectType_Przelewy24)
  | PaymentMethodType_WeChatPay => Ok (DirValue_WalletType WalletType_WeChatPay)
  | PaymentMethodType_ClassicReward => Ok (DirValue_RewardType RewardType_ClassicReward)
  | PaymentMethodType_Evoucher => Ok (DirValue_RewardType RewardType_Evoucher)
  | PaymentMethodType_UpiCollect => Ok (DirValue_UpiType UpiType_UpiCollect)
  | PaymentMethodType_UpiIntent => Ok (DirValue_UpiType UpiType_UpiIntent)
  | PaymentMethodType_UpiQr => Ok (DirValue_UpiType UpiType_UpiQr)
  | PaymentMethodType_SamsungPay => Ok (DirValue_WalletType WalletType_SamsungPay)
  | PaymentMethodType_GoPay => Ok (DirValue_WalletType WalletType_GoPay)
  | PaymentMethodType_KakaoPay => Ok (DirValue_WalletType WalletType_KakaoPay)
  | PaymentMethodType_Twint => Ok (DirValue_WalletType WalletType_Twint)
  | PaymentMethodType_Gcash => Ok (DirValue_WalletType WalletType_Gcash)
  | PaymentMethodType_Vipps => Ok (DirValue_WalletType WalletType_Vipps)
  | PaymentMethodType_Momo => Ok (DirValue_WalletType WalletType_Momo)
  | PaymentMethodType_Alma => Ok (DirValue_PayLaterType PayLaterType_Alma)
  | PaymentMethodType_Dana => Ok (DirValue_WalletType WalletType_Dana)
  | PaymentMethodType_OnlineBankingFpx => Ok (DirValue_BankRedirectType BankRedirectType_OnlineBankingFpx)
  | PaymentMethodType_LocalBankRedirect => Ok (DirValue_BankRedirectType BankRedirectType_LocalBankRedirect)
  | PaymentMethodType_OnlineBankingThailand => Ok (DirValue_BankRedirectType BankRedirectType_OnlineBankingThailand)
  | PaymentMethodType_TouchNGo => Ok (DirValue_WalletType WalletType_TouchNGo)
  | PaymentMethodType_Atome => Ok (DirValue_PayLaterType PayLaterType_Atome)
  | PaymentMethodType_Boleto => Ok (DirValue_VoucherType VoucherType_Boleto)
  | PaymentMethodType_Efecty => Ok (DirValue_VoucherType VoucherType_Efecty)
  | PaymentMethodType_PagoEfectivo => Ok (DirValue_VoucherType VoucherType_PagoEfectivo)
  | PaymentMethodType_RedCompra => Ok (DirValue_VoucherType VoucherType_RedCompra)
  | PaymentMethodType_RedPagos => Ok (DirValue_VoucherType VoucherType_RedPagos)
  | PaymentMethodType_Alfamart => Ok (DirValue_VoucherType VoucherType_Alfamart)
  | PaymentMethodType_BcaBankTransfer => Ok (DirValue_BankTransferType BankTransferType_BcaBankTransfer)
  | PaymentMethodType_BniVa => Ok (DirValue_BankTransferType BankTransferType_BniVa)
  | PaymentMethodType_BriVa => Ok (DirValue_BankTransferType BankTransferType_BriVa)
  | PaymentMethodType_CimbVa => Ok (DirValue_BankTransferType BankTransferType_CimbVa)
  | PaymentMethodType_DanamonVa => Ok (DirValue_BankTransferType BankTransferType_DanamonVa)
  | PaymentMethodType_Indomaret => Ok (DirValue_VoucherType VoucherType_Indomaret)
  | PaymentMethodType_MandiriVa => Ok (DirValue_BankTransferType BankTransferType_MandiriVa)
  | PaymentMethodType_LocalBankTransfer => Ok (DirValue_BankTransferType BankTransferType_LocalBankTransfer)
  | PaymentMethodType_InstantBankTransfer => Ok (DirValue_BankTransferType BankTransferType_InstantBankTransfer)
  | PaymentMethodType_InstantBankTransferFinland => Ok (DirValue_BankTransferType BankTransferType_InstantBankTransferFinland)
  | PaymentMethodType_InstantBankTransferPoland => Ok (DirValue_BankTransferType BankTransferType_InstantBankTransferPoland)
  | PaymentMethodType_Qris => Ok (DirValue_RealTimePaymentType RealTimePaymentType_Qris)
  | PaymentMethodType_PermataBankTransfer => Ok (DirValue_BankTransferType BankTransferType_PermataBankTransfer)
  | PaymentMethodType_PaySafeCard => Ok (DirValue_GiftCardType GiftCardType_PaySafeCard)
  | PaymentMethodType_SevenEleven => Ok (DirValue_VoucherType VoucherType_SevenEleven)
  | PaymentMethodType_Lawson => Ok (DirValue_VoucherType VoucherType_Lawson)
  | PaymentMethodType_MiniStop => Ok (DirValue_VoucherType VoucherType_MiniStop)
  | PaymentMethodType_FamilyMart => Ok (DirValue_VoucherType VoucherType_FamilyMart)
  | PaymentMethodType_Seicomart => Ok (DirValue_VoucherType VoucherType_Seicomart)
  | PaymentMethodType_PayEasy => Ok (DirValue_VoucherType VoucherType_PayEasy)
  | PaymentMethodType_Givex => Ok (DirValue_GiftCardType GiftCardType_Givex)
  | PaymentMethodType_BhnCardNetwork => Ok (DirValue_GiftCardType GiftCardType_BhnCardNetwork)
  | PaymentMethodType_Benefit => Ok (DirValue_CardRedirectType CardRedirectType_Benefit)
  | PaymentMethodType_Knet => Ok (DirValue_CardRedirectType CardRedirectType_Knet)
  | PaymentMethodType_OpenBankingUk => Ok (DirValue_BankRedirectType BankRedirectType_OpenBankingUk)
  | PaymentMethodType_MomoAtm => Ok (DirValue_CardRedirectType CardRedirectType_MomoAtm)
  | PaymentMethodType_Oxxo => Ok (DirValue_VoucherType VoucherType_Oxxo)
  | PaymentMethodType_CardRedirect => Ok (DirValue_CardRedirectType CardRedirectType_CardRedirect)
  | PaymentMethodType_Venmo => Ok (DirValue_WalletType WalletType_Venmo)
  | PaymentMethodType_Mifinity => Ok (DirValue_WalletType WalletType_Mifinity)
  | PaymentMethodType_Fps => Ok (DirValue_RealTimePaymentType RealTimePaymentType_Fps)
  | PaymentMethodType_DuitNow => Ok (DirValue_RealTimePaymentType RealTimePaymentType_DuitNow)
  | PaymentMethodType_PromptPay => Ok (DirValue_RealTimePaymentType RealTimePaymentType_PromptPay)
  | PaymentMethodType_VietQr => Ok (DirValue_RealTimePaymentType RealTimePaymentType_VietQr)
  | PaymentMethodType_OpenBankingPIS => Ok (DirValue_OpenBankingType OpenBankingType_OpenBankingPIS)
  | PaymentMethodType_Paze => Ok (DirValue_WalletType WalletType_Paze)
  | PaymentMethodType_DirectCarrierBilling => Ok (DirValue_MobilePaymentType MobilePaymentType_DirectCarrierBilling)
  | PaymentMethodType_IndonesianBankTransfer => Ok (DirValue_BankTransferType BankTransferType_IndonesianBankTransfer)
  | PaymentMethodType_OpenBanking => Ok (DirValue_BankRedirectType BankRedirectType_OpenBanking)
  | PaymentMethodType_NetworkToken => Ok (DirValue_NetworkTokenType NetworkTokenType_NetworkToken)
  | PaymentMethodType_Ach =>
      match p.2 with
      | PaymentMethod_BankDebit => Ok (DirValue_BankDebitType BankDebitType_Ach)
      | PaymentMethod_BankTransfer => Ok (DirValue_BankTransferType BankTransferType_Ach)
      | _ => Err (ContextConstructionError NotSupported)
      end
  | PaymentMethodType_Bacs =>
      match p.2 with
      | PaymentMethod_BankDebit => Ok (DirValue_BankDebitType BankDebitType_Bacs)
      | PaymentMethod_BankTransfer => Ok (DirValue_BankTransferType BankTransferType_Bacs)
      | _ => Err (ContextConstructionError NotSupported)
      end
  end.

(** [CardNetwork::into_dir_value]. *)
Definition card_network_into (x : CardNetwork) : result KgraphError DirValue :=
  match x with
  | CardNetwork_Visa => Ok (DirValue_CardNetwork CardNetwork_Visa)
  | CardNetwork_Mastercard => Ok (DirValue_CardNetwork CardNetwork_Mastercard)
  | CardNetwork_AmericanExpress => Ok (DirValue_CardNetwork CardNetwork_AmericanExpress)
  | CardNetwork_JCB => Ok (DirValue_CardNetwork CardNetwork_JCB)
  | CardNetwork_DinersClub => Ok (DirValue_CardNetwork CardNetwork_DinersClub)
  | CardNetwork_Discover => Ok (DirValue_CardNetwork CardNetwork_Discover)
  | CardNetwork_CartesBancaires => Ok (DirValue_CardNetwork CardNetwork_CartesBancaires)
  | CardNetwork_UnionPay => Ok (DirValue_CardNetwork CardNetwork_UnionPay)
  | CardNetwork_Interac => Ok (DirValue_CardNetwork CardNetwork_Interac)
  | CardNetwork_RuPay => Ok (DirValue_CardNetwork CardNetwork_RuPay)
  | CardNetwork_Maestro => Ok (DirValue_CardNetwork CardNetwork_Maestro)
  | CardNetwork_Star => Ok (DirValue_CardNetwork CardNetwork_Star)
  | CardNetwork_Accel => Ok (DirValue_CardNetwork CardNetwork_Accel)
  | CardNetwork_Pulse => Ok (DirValue_CardNetwork CardNetwork_Pulse)
  | CardNetwork_Nyce => Ok (DirValue_CardNetwork CardNetwork_Nyce)
  | CardNetwork_Prop => Ok (DirValue_CardNetwork CardNetwork_Prop)
  | CardNetwork_PrivateLabel => Ok (DirValue_CardNetwork CardNetwork_PrivateLabel)
  | CardNetwork_Dinacard => Ok (DirValue_CardNetwork CardNetwork_Dinacard)
  end.

(** [Currency::into_dir_value]. *)
Definition currency_into (x : Currency) : result KgraphError DirValue :=
  match x with
  | Currency_AED => Ok (DirValue_PaymentCurrency Currency_AED)
  | Currency_AFN => Ok (DirValue_PaymentCurrency Currency_AFN)
  | Currency_ALL => Ok (DirValue_PaymentCurrency Currency_ALL)
  | Currency_AMD => Ok (DirValue_PaymentCurrency Currency_AMD)
  | Currency_ANG => Ok (DirValue_PaymentCurrency Currency_ANG)
  | Currency_AOA => Ok (DirValue_PaymentCurrency Currency_AOA)
  | Currency_ARS => Ok (DirValue_PaymentCurrency Currency_ARS)
  | Currency_AUD => Ok (DirValue_PaymentCurrency Currency_AUD)
  | Currency_AWG => Ok (DirValue_PaymentCurrency Currency_AWG)
  | Currency_AZN => Ok (DirValue_PaymentCurrency Currency_AZN)
  | Currency_BAM => Ok (DirValue_PaymentCurrency Currency_BAM)
  | Currency_BBD => Ok (DirValue_PaymentCurrency Currency_BBD)
  | Currency_BDT => Ok (DirValue_PaymentCurrency Currency_BDT)
  | Currency_BGN => Ok (DirValue_PaymentCurrency Currency_BGN)
  | Currency_BHD => Ok (DirValue_PaymentCurrency Currency_BHD)
  | Currency_BIF => Ok (DirValue_PaymentCurrency Currency_BIF)
  | Currency_BMD => Ok (DirValue_PaymentCurrency Currency_BMD)
  | Currency_BND => Ok (DirValue_PaymentCurrency Currency_BND)
  | Currency_BOB => Ok (DirValue_PaymentCurrency Currency_BOB)
  | Currency_BRL => Ok (DirValue_PaymentCurrency Currency_BRL)
  | Currency_BSD => Ok (DirValue_PaymentCurrency Currency_BSD)
  | Currency_BTN => Ok (DirValue_PaymentCurrency Currency_BTN)
  | Currency_BWP => Ok (DirValue_PaymentCurrency Currency_BWP)
  | Currency_BYN => Ok (DirValue_PaymentCurrency Currency_BYN)
  | Currency_BZD => Ok (DirValue_PaymentCurrency Currency_BZD)
  | Currency_CAD => Ok (DirValue_PaymentCurrency Currency_CAD)
  | Currency_CDF => Ok (DirValue_PaymentCurrency Currency_CDF)
  | Currency_CHF => Ok (DirValue_PaymentCurrency Currency_CHF)
  | Currency_CLF => Ok (DirValue_PaymentCurrency Currency_CLF)
  | Currency_CLP => Ok (DirValue_PaymentCurrency Currency_CLP)
  | Currency_CNY => Ok (DirValue_PaymentCurrency Currency_CNY)
  | Currency_COP => Ok (DirValue_PaymentCurrency Currency_COP)
  | Currency_CRC => Ok (DirValue_PaymentCurrency Currency_CRC)
  | Currency_CUC => Ok (DirValue_PaymentCurrency Currency_CUC)
  | Currency_CUP => Ok (DirValue_PaymentCurrency Currency_CUP)
  | Currency_CVE => Ok (DirValue_PaymentCurrency Currency_CVE)
  | Currency_CZK => Ok (DirValue_PaymentCurrency Currency_CZK)
  | Currency_DJF => Ok (DirValue_PaymentCurrency Currency_DJF)
  | Currency_DKK => Ok (DirValue_PaymentCurrency Currency_DKK)
  | Currency_DOP => Ok (DirValue_PaymentCurrency Currency_DOP)
  | Currency_DZD => Ok (DirValue_PaymentCurrency Currency_DZD)
  | Currency_EGP => Ok (DirValue_PaymentCurrency Currency_EGP)
  | Currency_ERN => Ok (DirValue_PaymentCurrency Currency_ERN)
  | Currency_ETB => Ok (DirValue_PaymentCurrency Currency_ETB)
  | Currency_EUR => Ok (DirValue_PaymentCurrency Currency_EUR)
  | Currency_FJD => Ok (DirValue_PaymentCurrency Currency_FJD)
  | Currency_FKP => Ok (DirValue_PaymentCurrency Currency_FKP)
  | Currency_GBP => Ok (DirValue_PaymentCurrency Currency_GBP)
  | Currency_GEL => Ok (DirValue_PaymentCurrency Currency_GEL)
  | Currency_GHS => Ok (DirValue_PaymentCurrency Currency_GHS)
  | Currency_GIP => Ok (DirValue_PaymentCurrency Currency_GIP)
  | Currency_GMD => Ok (DirValue_PaymentCurrency Currency_GMD)
  | Currency_GNF => Ok (DirValue_PaymentCurrency Currency_GNF)
  | Currency_GTQ => Ok (DirValue_PaymentCurrency Currency_GTQ)
  | Currency_GYD => Ok (DirValue_PaymentCurrency Currency_GYD)
  | Currency_HKD => Ok (DirValue_PaymentCurrency Currency_HKD)
  | Currency_HNL => Ok (DirValue_PaymentCurrency Currency_HNL)
  | Currency_HRK => Ok (DirValue_PaymentCurrency Currency_HRK)
  | Currency_HTG => Ok (DirValue_PaymentCurrency Currency_HTG)
  | Currency_HUF => Ok (DirValue_PaymentCurrency Currency_HUF)
  | Currency_IDR => Ok (DirValue_PaymentCurrency Currency_IDR)
  | Currency_ILS => Ok (DirValue_PaymentCurrency Currency_ILS)
  | Currency_INR => Ok (DirValue_PaymentCurrency Currency_INR)
  | Currency_IQD => Ok (DirValue_PaymentCurrency Currency_IQD)
  | Currency_IRR => Ok (DirValue_PaymentCurrency Currency_IRR)
  | Currency_ISK => Ok (DirValue_PaymentCurrency Currency_ISK)
  | Currency_JMD => Ok (DirValue_PaymentCurrency Currency_JMD)
  | Currency_JOD => Ok (DirValue_PaymentCurrency Currency_JOD)
  | Currency_JPY => Ok (DirValue_PaymentCurrency Currency_JPY)
  | Currency_KES => Ok (DirValue_PaymentCurrency Currency_KES)
  | Currency_KGS => Ok (DirValue_PaymentCurrency Currency_KGS)
  | Currency_KHR => Ok (DirValue_PaymentCurrency Currency_KHR)
  | Currency_KMF => Ok (DirValue_PaymentCurrency Currency_KMF)
  | Currency_KPW => Ok (DirValue_PaymentCurrency Currency_KPW)
  | Currency_KRW => Ok (DirValue_PaymentCurrency Currency_KRW)
  | Currency_KWD => Ok (DirValue_PaymentCurrency Currency_KWD)
  | Currency_KYD => Ok (DirValue_PaymentCurrency Currency_KYD)
  | Currency_KZT => Ok (DirValue_PaymentCurrency Currency_KZT)
  | Currency_LAK => Ok (DirValue_PaymentCurrency Currency_LAK)
  | Currency_LBP => Ok (DirValue_PaymentCurrency Currency_LBP)
  | Currency_LKR => Ok (DirValue_PaymentCurrency Currency_LKR)
  | Currency_LRD => Ok (DirValue_PaymentCurrency Currency_LRD)
  | Currency_LSL => Ok (DirValue_PaymentCurrency Currency_LSL)
  | Currency_LYD => Ok (DirValue_PaymentCurrency Currency_LYD)
  | Currency_MAD => Ok (DirValue_PaymentCurrency Currency_MAD)
  | Currency_MDL => Ok (DirValue_PaymentCurrency Currency_MDL)
  | Currency_MGA => Ok (DirValue_PaymentCurrency Currency_MGA)
  | Currency_MKD => Ok (DirValue_PaymentCurrency Currency_MKD)
  | Currency_MMK => Ok (DirValue_PaymentCurrency Currency_MMK)
  | Currency_MNT => Ok (DirValue_PaymentCurrency Currency_MNT)
  | Currency_MOP => Ok (DirValue_PaymentCurrency Currency_MOP)
  | Currency_MRU => Ok (DirValue_PaymentCurrency Currency_MRU)
  | Currency_MUR => Ok (DirValue_PaymentCurrency Currency_MUR)
  | Currency_MVR => Ok (DirValue_PaymentCurrency Currency_MVR)
  | Currency_MWK => Ok (DirValue_PaymentCurrency Currency_MWK)
  | Currency_MXN => Ok (DirValue_PaymentCurrency Currency_MXN)
  | Currency_MYR => Ok (DirValue_PaymentCurrency Currency_MYR)
  | Currency_MZN => Ok (DirValue_PaymentCurrency Currency_MZN)
  | Currency_NAD => Ok (DirValue_PaymentCurrency Currency_NAD)
  | Currency_NGN => Ok (DirValue_PaymentCurrency Currency_NGN)
  | Currency_NIO => Ok (DirValue_PaymentCurrency Currency_NIO)
  | Currency_NOK => Ok (DirValue_PaymentCurrency Currency_NOK)
  | Currency_NPR => Ok (DirValue_PaymentCurrency Currency_NPR)
  | Currency_NZD => Ok (DirValue_PaymentCurrency Currency_NZD)
  | Currency_OMR => Ok (DirValue_PaymentCurrency Currency_OMR)
  | Currency_PAB => Ok (DirValue_PaymentCurrency Currency_PAB)
  | Currency_PEN => Ok (DirValue_PaymentCurrency Currency_PEN)
  | Currency_PGK => Ok (DirValue_PaymentCurrency Currency_PGK)
  | Currency_PHP => Ok (DirValue_PaymentCurrency Currency_PHP)
  | Currency_PKR => Ok (DirValue_PaymentCurrency Currency_PKR)
  | Currency_PLN => Ok (DirValue_PaymentCurrency Currency_PLN)
  | Currency_PYG => Ok (DirValue_PaymentCurrency Currency_PYG)
  | Currency_QAR => Ok (DirValue_PaymentCurrency Currency_QAR)
  | Currency_RON => Ok (DirValue_PaymentCurrency Currency_RON)
  | Currency_RSD => Ok (DirValue_PaymentCurrency Currency_RSD)
  | Currency_RUB => Ok (DirValue_PaymentCurrency Currency_RUB)
  | Currency_RWF => Ok (DirValue_PaymentCurrency Currency_RWF)
  | Currency_SAR => Ok (DirValue_PaymentCurrency Currency_SAR)
  | Currency_SBD => Ok (DirValue_PaymentCurrency Currency_SBD)
  | Currency_SCR => Ok (DirValue_PaymentCurrency Currency_SCR)
  | Currency_SDG => Ok (DirValue_PaymentCurrency Currency_SDG)
  | Currency_SEK => Ok (DirValue_PaymentCurrency Currency_SEK)
  | Currency_SGD => Ok (DirValue_PaymentCurrency Currency_SGD)
  | Currency_SHP => Ok (DirValue_PaymentCurrency Currency_SHP)
  | Currency_SLE => Ok (DirValue_PaymentCurrency Currency_SLE)
  | Currency_SLL => Ok (DirValue_PaymentCurrency Currency_SLL)
  | Currency_SOS => Ok (DirValue_PaymentCurrency Currency_SOS)
  | Currency_SRD => Ok (DirValue_PaymentCurrency Currency_SRD)
  | Currency_SSP => Ok (DirValue_PaymentCurrency Currency_SSP)
  | Currency_STD => Ok (DirValue_PaymentCurrency Currency_STD)
  | Currency_STN => Ok (DirValue_PaymentCurrency Currency_STN)
  | Currency_SVC => Ok (DirValue_PaymentCurrency Currency_SVC)
  | Currency_SYP => Ok (DirValue_PaymentCurrency Currency_SYP)
  | Currency_SZL => Ok (DirValue_PaymentCurrency Currency_SZL)
  | Currency_THB => Ok (DirValue_PaymentCurrency Currency_THB)
  | Currency_TJS => Ok (DirValue_PaymentCurrency Currency_TJS)
  | Currency_TMT => Ok (DirValue_PaymentCurrency Currency_TMT)
  | Currency_TND => Ok (DirValue_PaymentCurrency Currency_TND)
  | Currency_TOP => Ok (DirValue_PaymentCurrency Currency_TOP)
  | Currency_TRY => Ok (DirValue_PaymentCurrency Currency_TRY)
  | Currency_TTD => Ok (DirValue_PaymentCurrency Currency_TTD)
  | Currency_TWD => Ok (DirValue_PaymentCurrency Currency_TWD)
  | Currency_TZS => Ok (DirValue_PaymentCurrency Currency_TZS)
  | Currency_UAH => Ok (DirValue_PaymentCurrency Currency_UAH)
  | Currency_UGX => Ok (DirValue_PaymentCurrency Currency_UGX)
  | Currency_USD => Ok (DirValue_PaymentCurrency Currency_USD)
  | Currency_UYU => Ok (DirValue_PaymentCurrency Currency_UYU)
  | Currency_UZS => Ok (DirValue_PaymentCurrency Currency_UZS)
  | Currency_VES => Ok (DirValue_PaymentCurrency Currency_VES)
  | Currency_VND => Ok (DirValue_PaymentCurrency Currency_VND)
  | Currency_VUV => Ok (DirValue_PaymentCurrency Currency_VUV)
  | Currency_WST => Ok (DirValue_PaymentCurrency Currency_WST)
  | Currency_XAF => Ok (DirValue_PaymentCurrency Currency_XAF)
  | Currency_XCD => Ok (DirValue_PaymentCurrency Currency_XCD)
  | Currency_XOF => Ok (DirValue_PaymentCurrency Currency_XOF)
  | Currency_XPF => Ok (DirValue_PaymentCurrency Currency_XPF)
  | Currency_YER => Ok (DirValue_PaymentCurrency Currency_YER)
  | Currency_ZAR => Ok (DirValue_PaymentCurrency Currency_ZAR)
  | Currency_ZMW => Ok (DirValue_PaymentCurrency Currency_ZMW)
  | Currency_ZWL => Ok (DirValue_PaymentCurrency Currency_ZWL)
  end.

(** [get_dir_value_payment_method]. *)
Definition get_dir_value_payment_method (x : PaymentMethodType) : result KgraphError DirValue :=
  match x with
  | PaymentMethodType_AmazonPay => Ok (DirValue_WalletType WalletType_AmazonPay)
  | PaymentMethodType_Skrill => Ok (DirValue_WalletType WalletType_Skrill)
  | PaymentMethodType_Paysera => Ok (DirValue_WalletType WalletType_Paysera)
  | PaymentMethodType_Credit => Ok (DirValue_CardType CardType_Credit)
  | PaymentMethodType_Debit => Ok (DirValue_CardType CardType_Debit)
  | PaymentMethodType_Giropay => Ok (DirValue_BankRedirectType BankRedirectType_Giropay)
  | PaymentMethodType_Ideal => Ok (DirValue_BankRedirectType BankRedirectType_Ideal)
  | PaymentMethodType_Sofort => Ok (DirValue_BankRedirectType BankRedirectType_Sofort)
  | PaymentMethodType_Eps => Ok (DirValue_BankRedirectType BankRedirectType_Eps)
  | PaymentMethodType_Eft => Ok (DirValue_BankRedirectType BankRedirectType_Eft)
  | PaymentMethodType_EftDebitOrder => Ok (DirValue_BankDebitType BankDebitType_EftDebitOrder)
  | PaymentMethodType_Klarna => Ok (DirValue_PayLaterType PayLaterType_Klarna)
  | PaymentMethodType_Flexiti => Ok (DirValue_PayLaterType PayLaterType_Flexiti)
  | PaymentMethodType_Affirm => Ok (DirValue_PayLaterType PayLaterType_Affirm)
  | PaymentMethodType_Payjustnow => Ok (DirValue_PayLaterType PayLaterType_Payjustnow)
  | PaymentMethodType_AfterpayClearpay => Ok (DirValue_PayLaterType PayLaterType_AfterpayClearpay)
  | PaymentMethodType_GooglePay => Ok (DirValue_WalletType WalletType_GooglePay)
  | PaymentMethodType_Bluecode => Ok (DirValue_WalletType WalletType_Bluecode)
  | PaymentMethodType_ApplePay => Ok (DirValue_WalletType WalletType_ApplePay)
  | PaymentMethodType_Paypal => Ok (DirValue_WalletType WalletType_Paypal)
  | PaymentMethodType_CryptoCurrency => Ok (DirValue_CryptoType CryptoType_CryptoCurrency)
  | PaymentMethodType_Ach => Ok (DirValue_BankDebitType BankDebitType_Ach)
  | PaymentMethodType_Bacs => Ok (DirValue_BankDebitType BankDebitType_Bacs)
  | PaymentMethodType_Becs => Ok (DirValue_BankDebitType BankDebitType_Becs)
  | PaymentMethodType_Sepa => Ok (DirValue_BankDebitType BankDebitType_Sepa)
  | PaymentMethodType_SepaGuarenteedDebit => Ok (DirValue_BankDebitType BankDebitType_SepaGuarenteedDebit)
  | PaymentMethodType_AliPay => Ok (DirValue_WalletType WalletType_AliPay)
  | PaymentMethodType_AliPayHk => Ok (DirValue_WalletType WalletType_AliPayHk)
  | PaymentMethodType_BancontactCard => Ok (DirValue_BankRedirectType BankRedirectType_BancontactCard)
  | PaymentMethodType_Blik => Ok (DirValue_BankRedirectType BankRedirectType_Blik)
  | PaymentMethodType_MbWay => Ok (DirValue_WalletType WalletType_MbWay)
  | PaymentMethodType_MobilePay => Ok (DirValue_WalletType WalletType_MobilePay)
  | PaymentMethodType_Cashapp => Ok (DirValue_WalletType WalletType_Cashapp)
  | PaymentMethodType_Multibanco => Ok (DirValue_BankTransferType BankTransferType_Multibanco)
  | PaymentMethodType_Pix => Ok (DirValue_BankTransferType BankTransferType_Pix)
  | PaymentMethodType_PixKey => Ok (DirValue_BankTransferType BankTransferType_PixKey)
  | PaymentMethodType_PixEmv => Ok (DirValue_BankTransferType BankTransferType_PixEmv)
  | PaymentMethodType_PixQr => Ok (DirValue_BankTransferType BankTransferType_PixQr)
  | PaymentMethodType_PixAutomaticoPush => Ok (DirValue_BankTransferType BankTransferType_PixAutomaticoPush)
  | PaymentMethodType_PixAutomaticoQr => Ok (DirValue_BankTransferType BankTransferType_PixAutomaticoQr)
  | PaymentMethodType_Pse => Ok (DirValue_BankTransferType BankTransferType_Pse)
  | PaymentMethodType_Interac => Ok (DirValue_BankRedirectType BankRedirectType_Interac)
  | PaymentMethodType_OnlineBankingCzechRepublic => Ok (DirValue_BankRedirectType BankRedirectType_OnlineBankingCzechRepublic)
  | PaymentMethodType_OnlineBankingFinland => Ok (DirValue_BankRedirectType BankRedirectType_OnlineBankingFinland)
  | PaymentMethodType_OnlineBankingPoland => Ok (DirValue_BankRedirectType BankRedirectType_OnlineBankingPoland)
  | PaymentMethodType_OnlineBankingSlovakia => Ok (DirValue_BankRedirectType BankRedirectType_OnlineBankingSlovakia)
  | PaymentMethodType_Swish => Ok (DirValue_WalletType WalletType_Swish)
  | PaymentMethodType_Trustly => Ok (DirValue_BankRedirectType BankRedirectType_Trustly)
  | PaymentMethodType_Bizum => Ok (DirValue_BankRedirectType BankRedirectType_Bizum)
  | PaymentMethodType_PayBright => Ok (DirValue_PayLaterType PayLaterType_PayBright)
  | PaymentMethodType_Walley => Ok (DirValue_PayLaterType PayLaterType_Walley)
  | PaymentMethodType_Przelewy24 => Ok (DirValue_BankRedirectType BankRedirectType_Przelewy24)
  | PaymentMethodType_WeChatPay => Ok (DirValue_WalletType WalletType_WeChatPay)
  | PaymentMethodType_ClassicReward => Ok (DirValue_RewardType RewardType_ClassicReward)
  | PaymentMethodType_Evoucher => Ok (DirValue_RewardType RewardType_Evoucher)
  | PaymentMethodType_SamsungPay => Ok (DirValue_WalletType WalletType_SamsungPay)
  | PaymentMethodType_GoPay => Ok (DirValue_WalletType WalletType_GoPay)
  | PaymentMethodType_KakaoPay => Ok (DirValue_WalletType WalletType_KakaoPay)
  | PaymentMethodType_Twint => Ok (DirValue_WalletType WalletType_Twint)
  | PaymentMethodType_Gcash => Ok (DirValue_WalletType WalletType_Gcash)
  | PaymentMethodType_Vipps => Ok (DirValue_WalletType WalletType_Vipps)
  | PaymentMethodType_Momo => Ok (DirValue_WalletType WalletType_Momo)
  | PaymentMethodType_Alma => Ok (DirValue_PayLaterType PayLaterType_Alma)
  | PaymentMethodType_Dana => Ok (DirValue_WalletType WalletType_Dana)
  | PaymentMethodType_OnlineBankingFpx => Ok (DirValue_BankRedirectType BankRedirectType_OnlineBankingFpx)
  | PaymentMethodType_OnlineBankingThailand => Ok (DirValue_BankRedirectType BankRedirectType_OnlineBankingThailand)
  | PaymentMethodType_LocalBankRedirect => Ok (DirValue_BankRedirectType BankRedirectType_LocalBankRedirect)
  | PaymentMethodType_TouchNGo => Ok (DirValue_WalletType WalletType_TouchNGo)
  | PaymentMethodType_Atome => Ok (DirValue_PayLaterType PayLaterType_Atome)
  | PaymentMethodType_Boleto => Ok (DirValue_VoucherType VoucherType_Boleto)
  | PaymentMethodType_Efecty => Ok (DirValue_VoucherType VoucherType_Efecty)
  | PaymentMethodType_PagoEfectivo => Ok (DirValue_VoucherType VoucherType_PagoEfectivo)
  | PaymentMethodType_RedCompra => Ok (DirValue_VoucherType VoucherType_RedCompra)
  | PaymentMethodType_RedPagos => Ok (DirValue_VoucherType VoucherType_RedPagos)
  | PaymentMethodType_Alfamart => Ok (DirValue_VoucherType VoucherType_Alfamart)
  | PaymentMethodType_BcaBankTransfer => Ok (DirValue_BankTransferType BankTransferType_BcaBankTransfer)
  | PaymentMethodType_BniVa => Ok (DirValue_BankTransferType BankTransferType_BniVa)
  | PaymentMethodType_BriVa => Ok (DirValue_BankTransferType BankTransferType_BriVa)
  | PaymentMethodType_Breadpay => Ok (DirValue_PayLaterType PayLaterType_Breadpay)
  | PaymentMethodType_CimbVa => Ok (DirValue_BankTransferType BankTransferType_CimbVa)
  | PaymentMethodType_DanamonVa => Ok (DirValue_BankTransferType BankTransferType_DanamonVa)
  | PaymentMethodType_Indomaret => Ok (DirValue_VoucherType VoucherType_Indomaret)
  | PaymentMethodType_MandiriVa => Ok (DirValue_BankTransferType BankTransferType_MandiriVa)
  | PaymentMethodType_LocalBankTransfer => Ok (DirValue_BankTransferType BankTransferType_LocalBankTransfer)
  | PaymentMethodType_InstantBankTransfer => Ok (DirValue_BankTransferType BankTransferType_InstantBankTransfer)
  | PaymentMethodType_InstantBankTransferFinland => Ok (DirValue_BankTransferType BankTransferType_InstantBankTransferFinland)
  | PaymentMethodType_InstantBankTransferPoland => Ok (DirValue_BankTransferType BankTransferType_InstantBankTransferPoland)
  | PaymentMethodType_Qris => Ok (DirValue_RealTimePaymentType RealTimePaymentType_Qris)
  | PaymentMethodType_SepaBankTransfer => Ok (DirValue_BankTransferType BankTransferType_SepaBankTransfer)
  | PaymentMethodType_PermataBankTransfer => Ok (DirValue_BankTransferType BankTransferType_PermataBankTransfer)
  | PaymentMethodType_IndonesianBankTransfer => Ok (DirValue_BankTransferType BankTransferType_IndonesianBankTransfer)
  | PaymentMethodType_PaySafeCard => Ok (DirValue_GiftCardType GiftCardType_PaySafeCard)
  | PaymentMethodType_SevenEleven => Ok (DirValue_VoucherType VoucherType_SevenEleven)
  | PaymentMethodType_Lawson => Ok (DirValue_VoucherType VoucherType_Lawson)
  | PaymentMethodType_MiniStop => Ok (DirValue_VoucherType VoucherType_MiniStop)
  | PaymentMethodType_FamilyMart => Ok (DirValue_VoucherType VoucherType_FamilyMart)
  | PaymentMethodType_Seicomart => Ok (DirValue_VoucherType VoucherType_Seicomart)
  | PaymentMethodType_PayEasy => Ok (DirValue_VoucherType VoucherType_PayEasy)
  | PaymentMethodType_Givex => Ok (DirValue_GiftCardType GiftCardType_Givex)
  | PaymentMethodType_BhnCardNetwork => Ok (DirValue_GiftCardType GiftCardType_BhnCardNetwork)
  | PaymentMethodType_Benefit => Ok (DirValue_CardRedirectType CardRedirectType_Benefit)
  | PaymentMethodType_Knet => Ok (DirValue_CardRedirectType CardRedirectType_Knet)
  | PaymentMethodType_OpenBankingUk => Ok (DirValue_BankRedirectType BankRedirectType_OpenBankingUk)
  | PaymentMethodType_MomoAtm => Ok (DirValue_CardRedirectType CardRedirectType_MomoAtm)
  | PaymentMethodType_Oxxo => Ok (DirValue_VoucherType VoucherType_Oxxo)
  | PaymentMethodType_CardRedirect => Ok (DirValue_CardRedirectType CardRedirectType_CardRedirect)
  | PaymentMethodType_Venmo => Ok (DirValue_WalletType WalletType_Venmo)
  | PaymentMethodType_UpiIntent => Ok (DirValue_UpiType UpiType_UpiIntent)
  | PaymentMethodType_UpiCollect => Ok (DirValue_UpiType UpiType_UpiCollect)
  | PaymentMethodType_UpiQr => Ok (DirValue_UpiType UpiType_UpiQr)
  | PaymentMethodType_Mifinity => Ok (DirValue_WalletType WalletType_Mifinity)
  | PaymentMethodType_Fps => Ok (DirValue_RealTimePaymentType RealTimePaymentType_Fps)
  | PaymentMethodType_DuitNow => Ok (DirValue_RealTimePaymentType RealTimePaymentType_DuitNow)
  | PaymentMethodType_PromptPay => Ok (DirValue_RealTimePaymentType RealTimePaymentType_PromptPay)
  | PaymentMethodType_VietQr => Ok (DirValue_RealTimePaymentType RealTimePaymentType_VietQr)
  | PaymentMethodType_OpenBankingPIS => Ok (DirValue_OpenBankingType OpenBankingType_OpenBankingPIS)
  | PaymentMethodType_Paze => Ok (DirValue_WalletType WalletType_Paze)
  | PaymentMethodType_DirectCarrierBilling => Ok (DirValue_MobilePaymentType MobilePaymentType_DirectCarrierBilling)
  | PaymentMethodType_RevolutPay => Ok (DirValue_WalletType WalletType_RevolutPay)
  | PaymentMethodType_OpenBanking => Ok (DirValue_BankRedirectType BankRedirectType_OpenBanking)
  | PaymentMethodType_NetworkToken => Ok (DirValue_NetworkTokenType NetworkTokenType_NetworkToken)
  end.

#[export] Instance ConnectorChoice_into : IntoDirValue ConnectorChoice := λ c, Ok (DirValue_Connector c).
#[export] Instance PaymentMethod_into : IntoDirValue PaymentMethod := payment_method_into.
#[export] Instance AuthenticationType_into : IntoDirValue AuthenticationType := authentication_type_into.
#[export] Instance FutureUsage_into : IntoDirValue FutureUsage := future_usage_into.
#[export] Instance PaymentMethodType_into : IntoDirValue (PaymentMethodType * PaymentMethod) :=
  payment_method_type_into.
#[export] Instance CardNetwork_into : IntoDirValue CardNetwork := card_network_into.
#[export] Instance Currency_into : IntoDirValue Currency := currency_into.

(** The conversions that every arm of the code makes to the variant of the same
    name. *)
Lemma payment_method_into_eq p : payment_method_into p = Ok (DirValue_PaymentMethod p).
Proof. by destruct p. Qed.

Lemma card_network_into_eq n : card_network_into n = Ok (DirValue_CardNetwork n).
Proof. by destruct n. Qed.

Lemma currency_into_eq c : currency_into c = Ok (DirValue_PaymentCurrency c).
Proof. by destruct c. Qed.
