(* ===== verification/Kgraph.v ===== *)
(** * The knowledge graph of merchant connector accounts

    [crates/kgraph_utils/src/mca.rs] (version 1 of the API) builds a constraint
    graph whose connector nodes hold when an account of the connector accepts a
    payment; [perform_cgraph_filtering] of
    [crates/router/src/core/payments/routing.rs] keeps the connectors whose nodes
    hold in the context of a payment ([into_context] of
    [crates/kgraph_utils/src/transformers.rs]).

    A hash map or set is a list in the order in which the code happens to
    iterate over it. *)

From S2P Require Import Prelude GraphTypes GraphBuilder GraphCheck.
From S2P Require Import Country Currency PaymentEnums EuclidEnums EuclidTypes EuclidAst EuclidDir Analyzer.
From S2P Require Import KgraphValues.

(** ** Configuration and accounts *)

Inductive PaymentMethodFilterKey :=
| FilterPaymentMethodType (pm : PaymentMethodType)
| FilterCardNetwork (cn : CardNetwork).

(** [NotAvailableFlows] is its [capture_method]. *)
Record CurrencyCountryFlowFilter := {
  filter_currency : option (list Currency);
  filter_country : option (list CountryAlpha2);
  not_available_flows : option (option CaptureMethod);
}.

Abbreviation PaymentMethodFilters := (list (PaymentMethodFilterKey * CurrencyCountryFlowFilter)) (only parsing).

Record CountryCurrencyFilter := {
  connector_configs : gmap RoutableConnectors PaymentMethodFilters;
  default_configs : option PaymentMethodFilters;
}.

Inductive AcceptedCurrencies :=
| EnableOnly (curr : list Currency)
| DisableOnly (curr : list Currency)
| AllAccepted.

(** The fields of [RequestPaymentMethodTypes] that the graph is built from. *)
Record RequestPaymentMethodTypes := {
  request_pm_type : PaymentMethodType;
  card_networks : option (list CardNetwork);
  accepted_currencies : option AcceptedCurrencies;
  minimum_amount : option Z;
  maximum_amount : option Z;
}.

Record PaymentMethodsEnabled := {
  enabled_pm : PaymentMethod;
  payment_method_types : option (list RequestPaymentMethodTypes);
}.

Record MCACGraphData := {
  connector_name : string;
  payment_methods_enabled : option (list PaymentMethodsEnabled);
}.

(** ** Building *)

Abbreviation kbuild A := (sr ConstraintGraphBuilder KgraphError A) (only parsing).
Abbreviation weighted := (NodeId * Relation.t * Strength)%type (only parsing).

(** [.map_err(KgraphError::GraphConstructionError)]. *)
Definition graph_err {A} (c : sr ConstraintGraphBuilder GraphError A) : kbuild A := λ b,
  let '(r, b) := c b in (map_err GraphConstructionError r, b).

Definition value_node (v : DirValue) (info : string) : kbuild NodeId :=
  graph_err (make_value_node (NodeValue_Value v) (Some info) None).

Definition in_aggregator (vs : list DirValue) (info : string) : kbuild NodeId :=
  graph_err (make_in_aggregator vs (Some info) None).

Definition all_aggregator (ns : list weighted) (info : string) : kbuild NodeId :=
  graph_err (make_all_aggregator ns (Some info) None None).

Definition any_aggregator (ns : list weighted) (info : string) : kbuild NodeId :=
  graph_err (make_any_aggregator ns (Some info) None None).

(** The aggregator of a list that is left out when there is none. *)
Definition optional_node (o : option (kbuild NodeId)) (rel : Relation.t) (str : Strength) :
    kbuild (list weighted) :=
  match o with
  | None => sr_ret []
  | Some c => (n <- c ;; sr_ret [(n, rel, str)])%sr
  end.

(** [collect] of converted values. *)
Definition into_dir_values {A} `{IntoDirValue A} (l : list A) : result KgraphError (list DirValue) :=
  try_collect into_dir_value l.

(** The card networks of a payment method type, when there are any. *)
Definition networks_node (networks : option (list CardNetwork)) : kbuild (list weighted) :=
  match networks with
  | None | Some [] => sr_ret []
  | Some networks =>
      (dir_vals <- sr_lift (into_dir_values networks) ;;
       card_network_id <- in_aggregator dir_vals "Card Networks" ;;
       sr_ret [(card_network_id, Relation.Positive, Weak)])%sr
  end.

(** [currencies_data]: [and_then] with [.ok()?] drops an error. *)
Definition currencies_data (accepted : option AcceptedCurrencies) : option (list DirValue * Relation.t) :=
  match accepted with
  | Some (EnableOnly ((_ :: _) as curr)) =>
      match into_dir_values curr with Ok vs => Some (vs, Relation.Positive) | Err _ => None end
  | Some (DisableOnly ((_ :: _) as curr)) =>
      match into_dir_values curr with Ok vs => Some (vs, Relation.Negative) | Err _ => None end
  | _ => None
  end.

Definition currencies_node (accepted : option AcceptedCurrencies) : kbuild (list weighted) :=
  match currencies_data accepted with
  | None => sr_ret []
  | Some (currencies, relation) =>
      (accepted_currencies_id <- in_aggregator currencies "Accepted Currencies" ;;
       sr_ret [(accepted_currencies_id, relation, Strong)])%sr
  end.

(** The node of an amount limit, when there is one. *)
Definition limit_node (limit : option Z) (refinement : NumValueRefinement) (info : string) :
    kbuild (list NodeId) :=
  match limit with
  | None => sr_ret []
  | Some amt =>
      (n <- value_node (DirValue_PaymentAmount (mkNumValue amt (Some refinement))) info ;; sr_ret [n])%sr
  end.

Definition amount_nodes (minimum maximum : option Z) : kbuild (list weighted) :=
  (min_nodes <- limit_node minimum NumValueRefinement_GreaterThanEqual "Minimum Amount" ;;
   max_nodes <- limit_node maximum NumValueRefinement_LessThanEqual "Maximum Amount" ;;
   match min_nodes ++ max_nodes with
   | [] => sr_ret []
   | first :: rest =>
       zero_amt_id <- value_node (DirValue_PaymentAmount (mkNumValue 0 None)) "zero_amount" ;;
       or_node_neighbor_id <-
         match rest with
         | [] => sr_ret first
         | _ => all_aggregator ((λ n, (n, Relation.Positive, Strong)) <$> first :: rest)
                  "amount_constraint_aggregator"
         end ;;
       any_id <- any_aggregator [(zero_amt_id, Relation.Positive, Strong);
                                 (or_node_neighbor_id, Relation.Positive, Strong)]
                   "zero_plus_limits_amount_aggregator" ;;
       sr_ret [(any_id, Relation.Positive, Strong)]
   end)%sr.

Definition is_card_type (t : PaymentMethodType) : bool :=
  match t with PaymentMethodType_Credit | PaymentMethodType_Debit => true | _ => false end.

(** [compile_request_pm_types]. *)
Definition compile_request_pm_types (pm_types : RequestPaymentMethodTypes) (pm : PaymentMethod) :
    kbuild NodeId :=
  (pmt <- sr_lift (into_dir_value (request_pm_type pm_types, pm)) ;;
   pmt_id <- value_node pmt "PaymentMethodType" ;;
   networks <- networks_node (card_networks pm_types) ;;
   currencies <- currencies_node (accepted_currencies pm_types) ;;
   amounts <- amount_nodes (minimum_amount pm_types) (maximum_amount pm_types) ;;
   all_aggregator
     ((pmt_id, Relation.Positive, if is_card_type (request_pm_type pm_types) then Weak else Strong)
        :: networks ++ currencies ++ amounts)
     "All Aggregator for PaymentMethodType")%sr.

(** [compile_payment_method_enabled]. *)
Definition compile_payment_method_enabled (enabled : PaymentMethodsEnabled) : kbuild (option NodeId) :=
  match payment_method_types enabled with
  | None | Some [] => sr_ret None
  | Some pm_types =>
      (pm <- sr_lift (into_dir_value (enabled_pm enabled)) ;;
       pm_id <- value_node pm "PaymentMethod" ;;
       agg_nodes <- sr_map (λ pm_type,
         node_id <- compile_request_pm_types pm_type (enabled_pm enabled) ;;
         sr_ret (node_id, Relation.Positive, Strong)) pm_types ;;
       pm_type_agg_id <- any_aggregator agg_nodes "Any aggregation for PaymentMethodsType" ;;
       enabled_pm_agg_id <-
         all_aggregator [(pm_id, Relation.Positive, Strong); (pm_type_agg_id, Relation.Positive, Strong)]
           "All aggregation for PaymentMethod" ;;
       sr_ret (Some enabled_pm_agg_id))%sr
  end.

(** The values of all payment method types, and the payment method card. *)
Definition global_values : list DirValue :=
  (DirValue_PayLaterType <$> variants PayLaterType) ++
  (DirValue_WalletType <$> variants WalletType) ++
  (DirValue_BankRedirectType <$> variants BankRedirectType) ++
  (DirValue_BankDebitType <$> variants BankDebitType) ++
  (DirValue_CryptoType <$> variants CryptoType) ++
  (DirValue_RewardType <$> variants RewardType) ++
  (DirValue_RealTimePaymentType <$> variants RealTimePaymentType) ++
  (DirValue_UpiType <$> variants UpiType) ++
  (DirValue_VoucherType <$> variants VoucherType) ++
  (DirValue_GiftCardType <$> variants GiftCardType) ++
  (DirValue_BankTransferType <$> variants BankTransferType) ++
  (DirValue_CardRedirectType <$> variants CardRedirectType) ++
  (DirValue_OpenBankingType <$> variants OpenBankingType) ++
  (DirValue_MobilePaymentType <$> variants MobilePaymentType) ++
  (DirValue_NetworkTokenType <$> variants NetworkTokenType) ++
  [DirValue_PaymentMethod PaymentMethod_Card].

(** [global_vec_pmt]. *)
Definition global_vec_pmt (enabled_pmt : list DirValue) : kbuild (list NodeId) :=
  sr_map (λ dir_v, value_node dir_v "Payment Method Type")
    (List.filter (λ v, negb (bool_decide (v ∈ enabled_pmt))) global_values).

(** [compile_graph_for_countries_and_currencies]. *)
Definition compile_graph_for_countries_and_currencies (config : CurrencyCountryFlowFilter)
    (payment_method_type_node : NodeId) : kbuild NodeId :=
  (country <- optional_node
     ((λ country, in_aggregator ((λ c, DirValue_BillingCountry (from_alpha2 c)) <$> country)
         "Configs for Country") <$> filter_country config) Relation.Positive Weak ;;
   currency <- optional_node
     ((λ currency,
         vs <- sr_lift (into_dir_values currency) ;; in_aggregator vs "Configs for Currency")
        <$> filter_currency config) Relation.Positive Normal ;;
   capture <- optional_node
     ((λ capture, value_node (DirValue_CaptureMethod capture) "Configs for CaptureMethod")
        <$> (not_available_flows config ≫= id)) Relation.Negative Normal ;;
   all_aggregator ((payment_method_type_node, Relation.Positive, Normal) :: country ++ currency ++ capture)
     "Country & Currency Configs With Payment Method Type")%sr.

(** The value of a filter's key, and the name of its node. *)
Definition filter_value (key : PaymentMethodFilterKey) : result KgraphError (DirValue * string) :=
  match key with
  | FilterPaymentMethodType pm =>
      dir_val_pm ← get_dir_value_payment_method pm;
      Ok (if is_card_type pm then (DirValue_PaymentMethod PaymentMethod_Card, "PaymentMethod"%string)
          else (dir_val_pm, "PaymentMethodType"%string))
  | FilterCardNetwork cn => dir_val_cn ← into_dir_value cn; Ok (dir_val_cn, "CardNetwork"%string)
  end.

(** The body of the loop over the filters of a connector. *)
Definition compile_filter (pm_filter_key : PaymentMethodFilterKey * CurrencyCountryFlowFilter) :
    kbuild (DirValue * weighted) :=
  (v <- sr_lift (filter_value pm_filter_key.1) ;;
   node <- value_node v.1 v.2 ;;
   node_config <- compile_graph_for_countries_and_currencies pm_filter_key.2 node ;;
   sr_ret (v.1, (node_config, Relation.Positive, Normal)))%sr.

(** The filters of a connector: its own, or the default ones. *)
Definition connector_filters (config : CountryCurrencyFilter) (connector : RoutableConnectors) :
    PaymentMethodFilters :=
  default [] (match connector_configs config !! connector with
              | Some filters => Some filters
              | None => default_configs config
              end).

(** [compile_config_graph]. *)
Definition compile_config_graph (config : CountryCurrencyFilter) (connector : RoutableConnectors) :
    kbuild NodeId :=
  (filters <- sr_map compile_filter (connector_filters config connector) ;;
   global_vector_pmt <- global_vec_pmt filters.*1 ;;
   any_agg_node <- any_aggregator ((λ node, (node, Relation.Positive, Normal)) <$> global_vector_pmt)
     "Any Aggregator For Payment Method Types" ;;
   any_aggregator (filters.*2 ++ [(any_agg_node, Relation.Positive, Normal)]) "Configs")%sr.

(** [compile_merchant_connector_graph]. *)
Definition compile_merchant_connector_graph (config : CountryCurrencyFilter) (mca : MCACGraphData) :
    kbuild unit :=
  (connector <- sr_lift (ok_or (InvalidConnectorName (connector_name mca))
     (from_str (A := RoutableConnectors) (connector_name mca))) ;;
   agg_nodes <- sr_map compile_payment_method_enabled (default [] (payment_methods_enabled mca)) ;;
   pms_enabled_agg_id <- any_aggregator
     ((λ id, (id, Relation.Positive, Strong)) <$> omap id agg_nodes)
     "Available Payment methods for connector" ;;
   config_enabled_agg_id <- compile_config_graph config connector ;;
   domain_level_node_id <- all_aggregator
     [(config_enabled_agg_id, Relation.Positive, Normal); (pms_enabled_agg_id, Relation.Positive, Normal)]
     "Config for respective PaymentMethodType for the connector" ;;
   connector_node_id <- value_node (DirValue_Connector (mkConnectorChoice connector)) "Connector" ;;
   graph_err (make_edge domain_level_node_id connector_node_id Normal Relation.Positive None) ;;;
   sr_ret tt)%sr.

Definition DOMAIN_IDENTIFIER : string := "payment_methods_enabled_for_merchantconnectoraccount".

(** [make_mca_graph]. *)
Definition make_mca_graph (accts : list MCACGraphData) (config : CountryCurrencyFilter) :
    result KgraphError ConstraintGraph :=
  match (graph_err (make_domain DOMAIN_IDENTIFIER "Payment methods enabled for MerchantConnectorAccount") ;;;
         sr_for (compile_merchant_connector_graph config) accts)%sr builder_new with
  | (Ok _, b) => Ok (build b)
  | (Err e, _) => Err e
  end.

(** ** The context of a payment *)

(** [BackendInput::into_context]. *)
Definition into_context (self : BackendInput) : result KgraphError (list DirValue) :=
  let pay := payment self in
  let pm := method self in
  let opt {A} (f : A → DirValue) (o : option A) : list DirValue := option_list (f <$> o) in
  pm_type ← match payment_method_type pm, payment_method pm with
            | Some pm_type, Some payment_method => v ← into_dir_value (pm_type, payment_method); Ok [v]
            | _, _ => Ok []
            end;
  Ok ([DirValue_PaymentAmount (mkNumValue (amount pay) None); DirValue_PaymentCurrency (currency pay)] ++
      opt DirValue_AuthenticationType (authentication_type pay) ++
      opt DirValue_CaptureMethod (capture_method pay) ++
      opt DirValue_BusinessCountry (business_country pay) ++
      opt (λ l, DirValue_BusinessLabel (mkStrValue l)) (business_label pay) ++
      opt DirValue_BillingCountry (billing_country pay) ++
      opt DirValue_PaymentMethod (payment_method pm) ++
      pm_type ++
      opt DirValue_CardNetwork (card_network pm) ++
      opt DirValue_SetupFutureUsage (setup_future_usage pay) ++
      opt DirValue_MandateAcceptanceType (mandate_acceptance_type (mandate self)) ++
      opt DirValue_MandateType (mandate_type (mandate self)) ++
      opt DirValue_PaymentType (payment_type (mandate self))).

(** ** Filtering the connectors of a payment *)

(** [RoutingError], the variants that static routing and eligibility use. *)
Inductive RoutingError :=
| ConnectorSelectionFailed
| DslMissingInDb
| DslParsingError
| DslBackendInitError
| DslExecutionError
| DslFinalConnectorSelectionFailed
| DslIncorrectSelectionAlgorithm
| KgraphCacheRefreshFailed
| MerchantConnectorAccountsFetchFailed
| KgraphAnalysisError
| ProfileIdMissing
| FallbackConfigFetchFailed
| RoutingInvalidConnectorName (name : string)
| InvalidRoutingAlgorithmStructure
| VolumeSplitFailed.

(** [perform_cgraph_filtering] with the graph of the merchant.  [None]: the fuel
    of a check ran out. *)
Fixpoint filter_choices (fuel : nat) (g : ConstraintGraph) (context : gmap DirKey (gset DirValue))
    (eligible_connectors : option (list RoutableConnectors)) (active_mca_ids : gset string)
    (chosen : list RoutableConnectorChoice) : option (result RoutingError (list RoutableConnectorChoice)) :=
  match chosen with
  | [] => Some (Ok [])
  | choice :: chosen =>
      '(res, _) ← check_value_validity fuel g None
        (DirValue_Connector (mkConnectorChoice (choice_connector choice))) context empty_state;
      match res with
      | Err _ => Some (Err KgraphAnalysisError)
      | Ok cgraph_eligible =>
          let filter_eligible :=
            match eligible_connectors with
            | None => true
            | Some list => bool_decide (choice_connector choice ∈ list)
            end in
          let mca_active :=
            match merchant_connector_id choice with
            | Some id => bool_decide (id ∈ active_mca_ids)
            | None => false
            end in
          rest ← filter_choices fuel g context eligible_connectors active_mca_ids chosen;
          Some (rest ← rest;
                Ok (if cgraph_eligible && filter_eligible && mca_active then choice :: rest else rest))
      end
  end.

Definition perform_cgraph_filtering (fuel : nat) (g : ConstraintGraph) (chosen : list RoutableConnectorChoice)
    (backend_input : BackendInput) (eligible_connectors : option (list RoutableConnectors))
    (active_mca_ids : gset string) : option (result RoutingError (list RoutableConnectorChoice)) :=
  match into_context backend_input with
  | Err _ => Some (Err KgraphAnalysisError)
  | Ok vs => filter_choices fuel g (from_dir_values vs) eligible_connectors active_mca_ids chosen
  end.
