(* ===== verification/KgraphFacts.v ===== *)
(** * What the knowledge graph of the accounts means

    The constraints of an account and of the configuration, read directly from
    the data, and that the nodes which [Kgraph] builds for them have exactly
    that truth. *)

From S2P Require Import Prelude GraphTypes GraphBuilder GraphCheck GraphCheckFacts GraphSpec GraphCombine GraphDenote.
From S2P Require Import Country Currency PaymentEnums EuclidEnums EuclidTypes EuclidAst EuclidDir Analyzer.
From S2P Require Import KgraphValues Kgraph.

(** ** The direct reading *)

Section reading.
Context (ctx : CheckingContext).

(** The context has the value, or lacks it. *)
Definition value_holds (v : DirValue) (rel : Relation.t) (str : Strength) : bool :=
  Bool.eqb (check_presence ctx (NodeValue_Value v) str) (Relation.to_bool rel).

(** A list of card networks restricts a payment with a network. *)
Definition networks_hold (networks : option (list CardNetwork)) : bool :=
  match networks with
  | None | Some [] => true
  | Some l => in_holds ctx (DirValue_CardNetwork <$> l) Relation.Positive Weak
  end.

Definition currencies_hold (accepted : option AcceptedCurrencies) : bool :=
  match accepted with
  | Some (EnableOnly ((_ :: _) as l)) => in_holds ctx (DirValue_PaymentCurrency <$> l) Relation.Positive Strong
  | Some (DisableOnly ((_ :: _) as l)) => in_holds ctx (DirValue_PaymentCurrency <$> l) Relation.Negative Strong
  | _ => true
  end.

Definition limit_holds (limit : option Z) (r : NumValueRefinement) : bool :=
  match limit with
  | None => true
  | Some amt => value_holds (DirValue_PaymentAmount (mkNumValue amt (Some r))) Relation.Positive Strong
  end.

(** The amount is zero or within the limits; no limit asks for no amount. *)
Definition amounts_hold (minimum maximum : option Z) : bool :=
  match minimum, maximum with
  | None, None => true
  | _, _ =>
      value_holds (DirValue_PaymentAmount (mkNumValue 0 None)) Relation.Positive Strong ||
      limit_holds minimum NumValueRefinement_GreaterThanEqual && limit_holds maximum NumValueRefinement_LessThanEqual
  end.

Definition request_holds (pm : PaymentMethod) (t : RequestPaymentMethodTypes) : result KgraphError bool :=
  pmt ← into_dir_value (request_pm_type t, pm);
  Ok (value_holds pmt Relation.Positive (if is_card_type (request_pm_type t) then Weak else Strong) &&
      networks_hold (card_networks t) && currencies_hold (accepted_currencies t) &&
      amounts_hold (minimum_amount t) (maximum_amount t)).

(** A payment method without types is left out. *)
Definition enabled_holds (enabled : PaymentMethodsEnabled) : result KgraphError (option bool) :=
  match payment_method_types enabled with
  | None | Some [] => Ok None
  | Some types =>
      hs ← try_collect (request_holds (enabled_pm enabled)) types;
      Ok (Some (value_holds (DirValue_PaymentMethod (enabled_pm enabled)) Relation.Positive Strong && any id hs))
  end.

(** A list of a filter: no list is no restriction, an empty one is an error. *)
Definition list_holds {A} (f : A → DirValue) (l : option (list A)) (str : Strength) : result KgraphError bool :=
  match l with
  | None => Ok true
  | Some [] => Err (GraphConstructionError NoInAggregatorValues)
  | Some l => Ok (in_holds ctx (f <$> l) Relation.Positive str)
  end.

Definition capture_holds (flows : option (option CaptureMethod)) : bool :=
  match flows ≫= id with
  | None => true
  | Some m => value_holds (DirValue_CaptureMethod m) Relation.Negative Normal
  end.

Definition filter_holds (p : PaymentMethodFilterKey * CurrencyCountryFlowFilter) :
    result KgraphError (DirValue * bool) :=
  v ← filter_value p.1;
  country ← list_holds (λ c, DirValue_BillingCountry (from_alpha2 c)) (filter_country p.2) Weak;
  currency ← list_holds DirValue_PaymentCurrency (filter_currency p.2) Normal;
  Ok (v.1, value_holds v.1 Relation.Positive Normal && country && currency &&
           capture_holds (not_available_flows p.2)).

(** The payment has a payment method type that no filter names. *)
Definition unfiltered_holds (named : list DirValue) : bool :=
  any_holds ((λ v, value_holds v Relation.Positive Normal) <$>
    List.filter (λ v, negb (bool_decide (v ∈ named))) global_values).

Definition config_holds (config : CountryCurrencyFilter) (connector : RoutableConnectors) :
    result KgraphError bool :=
  fs ← try_collect filter_holds (connector_filters config connector);
  Ok (any id fs.*2 || unfiltered_holds fs.*1).

(** The connector of an account and whether the account accepts. *)
Definition account_holds (config : CountryCurrencyFilter) (mca : MCACGraphData) :
    result KgraphError (RoutableConnectors * bool) :=
  connector ← ok_or (InvalidConnectorName (connector_name mca))
    (from_str (A := RoutableConnectors) (connector_name mca));
  pms ← try_collect enabled_holds (default [] (payment_methods_enabled mca));
  cfg ← config_holds config connector;
  Ok (connector, cfg && any_holds (omap id pms)).

End reading.

(** ** Builders *)

(** The roots of the graph are the connectors. *)
Definition connector_value (v : NodeValue) : bool :=
  match v with NodeValue_Value (DirValue_Connector _) => true | _ => false end.

Section nodes.
Context (ctx : CheckingContext).

Abbreviation layered := (layered connector_value).
Abbreviation holds := (holds ctx connector_value).
Abbreviation into b n := (all_incoming (build b) n).

(** The builder grows: no edge into a node that was there, no new connector. *)
Record grows (b b' : ConstraintGraphBuilder) : Prop := {
  gr_layered : layered b';
  gr_ext : bext b b';
  gr_into : ∀ n ty, typed b n ty → into b' n = into b n;
  gr_roots : ∀ v, connector_value v = true → b_value_map b' !! v = b_value_map b !! v;
}.

Lemma grows_kext b b' : grows b b' → kext connector_value b b'.
Proof. intros []. split; [done|]. intros n ty Ht _. eauto. Qed.

Lemma grows_trans b1 b2 b3 : grows b1 b2 → grows b2 b3 → grows b1 b3.
Proof.
  intros [] []. split; [done|by etrans| |].
  - intros n ty Ht. transitivity (into b2 n); eauto using typed_ext.
  - intros v Hv. rewrite gr_roots1 by done. auto.
Qed.

Lemma grows_refl b : layered b → grows b b.
Proof. by split. Qed.

(** The operation ends like the reading: with its error, or with a node, or
    nodes, of which [Q] holds in the builder it leaves. *)
Definition ends {A B} (c : kbuild A) (r : result KgraphError B) (Q : A → B → ConstraintGraphBuilder → Prop)
    (b : ConstraintGraphBuilder) : Prop :=
  match r with
  | Ok v => ∃ a b', c b = (Ok a, b') ∧ grows b b' ∧ Q a v b'
  | Err e => ∃ b', c b = (Err e, b')
  end.

#[local] Arguments ends : simpl never.

(** Properties of a builder that last. *)
Definition lasts (P : ConstraintGraphBuilder → Prop) : Prop := ∀ b b', grows b b' → P b → P b'.

Lemma holds_lasts p v : lasts (λ b, holds b p v).
Proof. intros b b' Hg. apply holds_ext. by apply grows_kext. Qed.

Lemma typed_lasts n ty : lasts (λ b, typed b n ty).
Proof. intros b b' Hg. apply typed_ext. by destruct Hg. Qed.

Lemma Forall2_lasts {A B} (R : A → B → ConstraintGraphBuilder → Prop) l k :
  (∀ a v, lasts (R a v)) → lasts (λ b, Forall2 (λ a v, R a v b) l k).
Proof. intros HR b b' Hg Hl. eapply Forall2_impl; [exact Hl|]. intros a v. by apply HR. Qed.

Lemma ends_ret {A B} (a : A) (v : B) (Q : A → B → ConstraintGraphBuilder → Prop) b :
  layered b → Q a v b → ends (sr_ret a) (Ok v) Q b.
Proof. intros Hl HQ. exists a, b. split_and!; [done|by apply grows_refl|done]. Qed.

Lemma ends_bind {A B A' B'} (c : kbuild A) (r : result KgraphError B) (k : A → kbuild A')
    (f : B → result KgraphError B') Q Q' b :
  ends c r Q b →
  (∀ a v b', r = Ok v → grows b b' → Q a v b' → ends (k a) (f v) Q' b') →
  ends (sr_bind c k) (v ← r; f v) Q' b.
Proof.
  unfold ends at 1. destruct r as [v|e]; simpl.
  - intros (a & b' & Hc & Hg & HQ) Hk. specialize (Hk a v b' eq_refl Hg HQ). unfold ends, sr_bind in *. rewrite Hc.
    destruct (f v) as [v'|e]; [|done]. destruct Hk as (a' & b'' & Hc' & Hg' & HQ').
    exists a', b''. split_and!; [done|by eapply grows_trans|done].
  - intros (b' & Hc) _. exists b'. unfold sr_bind. by rewrite Hc.
Qed.

(** An operation that does not fail. *)
Lemma ends_then {A B A' B'} (c : kbuild A) (v : B) (k : A → kbuild A') (r : result KgraphError B') Q Q' b :
  ends c (Ok v) Q b →
  (∀ a b', grows b b' → Q a v b' → ends (k a) r Q' b') →
  ends (sr_bind c k) r Q' b.
Proof.
  intros (a & b' & Hc & Hg & HQ) Hk. specialize (Hk a b' Hg HQ). unfold ends, sr_bind in *. rewrite Hc.
  destruct r as [v'|e]; [|done]. destruct Hk as (a' & b'' & Hc' & Hg' & HQ').
  exists a', b''. split_and!; [done|by eapply grows_trans|done].
Qed.

(** A conversion that can fail. *)
Lemma ends_lift {A} (r : result KgraphError A) b : layered b → ends (sr_lift r) r (λ a v _, a = v) b.
Proof.
  intros Hl. destruct r as [v|e]; [|by exists b].
  exists v, b. split; [done|]. split; [by apply grows_refl|done].
Qed.

(** A loop that collects. *)
Lemma ends_map {A B C} (f : A → kbuild B) (r : A → result KgraphError C) (Q : B → C → ConstraintGraphBuilder → Prop) l b :
  (∀ a v, lasts (Q a v)) → layered b →
  (∀ x b', x ∈ l → grows b b' → ends (f x) (r x) Q b') →
  ends (sr_map f l) (try_collect r l) (λ ys vs b', Forall2 (λ y v, Q y v b') ys vs) b.
Proof.
  intros HQ. revert b. induction l as [|x l IH]; intros b Hl Hf; simpl.
  - apply ends_ret; [done|constructor].
  - eapply ends_bind; [apply Hf; [set_solver|by apply grows_refl]|]. intros y v b1 _ Hg1 Hy. simpl.
    eapply ends_bind.
    + apply IH; [apply Hg1|]. intros x' b' Hx' Hg'. apply Hf; [set_solver|by eapply grows_trans].
    + intros ys vs b2 _ Hg2 Hys. simpl. apply ends_ret; [apply Hg2|]. constructor; [|done].
      by eapply HQ.
Qed.

Lemma ends_conseq {A B} (c : kbuild A) (r : result KgraphError B) (Q Q' : A → B → ConstraintGraphBuilder → Prop) b :
  ends c r Q b → (∀ a v b', grows b b' → Q a v b' → Q' a v b') → ends c r Q' b.
Proof.
  unfold ends. destruct r; [|done]. intros (x & b' & H1 & H2 & H3) HQ. exists x, b'. eauto.
Qed.

(** The value that an operation returns, wrapped. *)
Lemma ends_wrap {A A' B} (c : kbuild A) (f : A → A') (r : result KgraphError B) (Q : A → B → ConstraintGraphBuilder → Prop)
    (Q' : A' → B → ConstraintGraphBuilder → Prop) b :
  ends c r Q b → (∀ a v b', Q a v b' → Q' (f a) v b') → ends (sr_bind c (λ a, sr_ret (f a))) r Q' b.
Proof.
  unfold ends, sr_bind. destruct r as [v|e].
  - intros (a & b' & -> & Hg & HQ) Hf. exists (f a), b'. eauto.
  - intros (b' & ->) _. by exists b'.
Qed.

(** ** The operations of the builder *)

(** A node and its truth in any position. *)
Definition node_means (n : NodeId) (f : Relation.t → Strength → bool) (b : ConstraintGraphBuilder) : Prop :=
  ∀ rel str, holds b (n, rel, str) (f rel str).

Lemma node_means_lasts n f : lasts (node_means n f).
Proof. intros b b' Hg Hn rel str. by eapply holds_lasts. Qed.

Lemma ends_value_node v info b :
  layered b → connector_value (NodeValue_Value v) = false →
  ends (value_node v info) (Ok tt)
    (λ n _ b', typed b' n (Value (NodeValue_Value v)) ∧ node_means n (value_holds ctx v) b') b.
Proof.
  intros Hl Hv. destruct (make_value_node_holds ctx connector_value b (NodeValue_Value v) (Some info) None Hl)
    as (n & b' & Heq & Hl' & Hk & Ht & Hh & Hm & Hfresh & Hold).
  exists n, b'. unfold value_node, graph_err. rewrite Heq. split; [done|]. split; [|split; [done|exact (Hh Hv)]].
  split; [done|apply Hk| |].
  - intros m ty _. apply Hold.
  - intros w Hw. rewrite Hm. apply lookup_insert_ne. intros <-. congruence.
Qed.

Lemma ends_in_aggregator vs info b :
  layered b → vs ≠ [] → (∀ v w, v ∈ vs → w ∈ vs → dir_key v = dir_key w) →
  ends (in_aggregator vs info) (Ok tt)
    (λ n _ b', typed b' n (InAggregator (list_to_set vs)) ∧ node_means n (in_holds ctx vs) b') b.
Proof.
  intros Hl Hne Hk.
  destruct (make_in_aggregator_holds ctx connector_value b vs (Some info) None Hl)
    as (n & b' & Heq & Hl' & Hk' & Ht & Hm & Hin & Hh); [done|done|].
  exists n, b'. unfold in_aggregator, graph_err. rewrite Heq. split; [done|]. split; [|split; [done|exact Hh]].
  split; [done|apply Hk'| |].
  - intros m ty _. apply Hin.
  - intros w _. by rewrite Hm.
Qed.

Lemma ends_all_aggregator ns vs info b :
  layered b → compatible ns → Forall2 (holds b) ns vs →
  ends (all_aggregator ns info) (Ok tt)
    (λ n _ b', length (b_nodes b) ≤ n ∧ node_means n (λ _ _, all id vs) b') b.
Proof.
  intros Hl Hc Hns.
  destruct (make_aggregator_holds ctx connector_value b AllAggregator (or_introl eq_refl) ns vs (Some info) None Hl Hc Hns)
    as (b' & Heq & [Hl' Hk Ht Hm Hin He]).
  exists (length (b_nodes b)), b'. unfold all_aggregator, make_all_aggregator, graph_err. rewrite Heq.
  split; [done|]. split; [split; [done|apply Hk|done|intros w _; by rewrite Hm]|]. split; [lia|].
  intros rel str. eapply all_aggregator_holds; [done|done|exact He|]. by eapply Forall2_holds_ext.
Qed.

Lemma ends_any_aggregator ns vs info b :
  layered b → compatible ns → Forall2 (holds b) ns vs →
  ends (any_aggregator ns info) (Ok tt)
    (λ n _ b', typed b' n AnyAggregator ∧ node_means n (λ _ _, any_holds vs) b') b.
Proof.
  intros Hl Hc Hns.
  destruct (make_aggregator_holds ctx connector_value b AnyAggregator (or_intror eq_refl) ns vs (Some info) None Hl Hc Hns)
    as (b' & Heq & [Hl' Hk Ht Hm Hin He]).
  exists (length (b_nodes b)), b'. unfold any_aggregator, make_any_aggregator, graph_err. rewrite Heq.
  split; [done|]. split; [split; [done|apply Hk|done|intros w _; by rewrite Hm]|]. split; [done|].
  intros rel str. eapply any_aggregator_holds; [done|done|exact He|]. by eapply Forall2_holds_ext.
Qed.

(** ** Lists of weighted nodes *)

(** What tells the nodes of one aggregator apart. *)
Inductive Tag := TagAll | TagAny | TagIn (k : option DirKeyKind) | TagValue (k : option DirKeyKind).

Definition tag (ty : NodeType) : Tag :=
  match ty with
  | AllAggregator => TagAll
  | AnyAggregator => TagAny
  | InAggregator s => TagIn (dir_kind <$> head (elements s))
  | Value (NodeValue_Value v) => TagValue (Some (dir_kind v))
  | Value (NodeValue_Key _) => TagValue None
  end.

Lemma tag_in k (vs : list DirValue) :
  vs ≠ [] → (∀ v, v ∈ vs → dir_kind v = k) → tag (InAggregator (list_to_set vs)) = TagIn (Some k).
Proof.
  intros Hne Hk. simpl. destruct (elements (list_to_set vs)) as [|w ws] eqn:Hel.
  { apply elements_empty_inv in Hel. destruct vs; set_solver. }
  simpl. do 2 f_equal. apply Hk. apply (elem_of_list_to_set (C := gset DirValue)).
  rewrite <- elem_of_elements, Hel. set_solver.
Qed.

Ltac tags_differ := repeat first [apply NoDup_nil_2 | apply NoDup_cons_2; [set_unfold; naive_solver|]].

(** At most one node, of a tag, whose truth is the value; none is true. *)
Definition piece (t : Tag) (ns : list weighted) (v : bool) (b : ConstraintGraphBuilder) : Prop :=
  match ns with
  | [] => v = true
  | [p] => holds b p v ∧ ∃ ty, typed b p.1.1 ty ∧ tag ty = t
  | _ => False
  end.

Lemma piece_lasts t ns v : lasts (piece t ns v).
Proof.
  intros b b' Hg. destruct ns as [|p [|q ns]]; simpl; [done| |done].
  intros [Hp (ty & Ht & Htag)]. split; [by eapply holds_lasts|]. exists ty. split; [by eapply typed_lasts|done].
Qed.

Lemma piece_grows t ns v b b' : grows b b' → piece t ns v b → piece t ns v b'.
Proof. apply piece_lasts. Qed.

(** Pieces of different tags together. *)
Fixpoint assembled (ts : list Tag) (nss : list (list weighted)) (vs : list bool)
    (b : ConstraintGraphBuilder) : Prop :=
  match ts, nss, vs with
  | [], [], [] => True
  | t :: ts, ns :: nss, v :: vs => piece t ns v b ∧ assembled ts nss vs b
  | _, _, _ => False
  end.

Lemma assembled_cons t ts ns nss v vs b :
  piece t ns v b → assembled ts nss vs b → assembled (t :: ts) (ns :: nss) (v :: vs) b.
Proof. done. Qed.

Lemma assembled_tags ts nss vs b p :
  assembled ts nss vs b → p ∈ concat nss → ∃ ty, typed b p.1.1 ty ∧ tag ty ∈ ts.
Proof.
  revert nss vs. induction ts as [|t ts IH]; intros [|ns nss] [|v vs]; simpl; try done; [set_solver|].
  intros [Hp Hrest] [Hin|Hin]%elem_of_app.
  - destruct ns as [|q [|]]; [set_solver| |done]. apply list_elem_of_singleton in Hin as ->.
    destruct Hp as [_ (ty & Ht & <-)]. exists ty. split; [done|set_solver].
  - destruct (IH _ _ Hrest Hin) as (ty & Ht & Htag). exists ty. split; [done|set_solver].
Qed.

Lemma assembled_spec ts nss vs b :
  NoDup ts → assembled ts nss vs b →
  compatible (concat nss) ∧ ∃ ws, Forall2 (holds b) (concat nss) ws ∧ all id ws = all id vs.
Proof.
  intros Hnd. revert nss vs. induction Hnd as [|t ts Ht Hnd IH]; intros [|ns nss] [|v vs]; simpl; try done.
  { intros _. split; [intros p q Hp; set_solver|]. exists []. by split. }
  intros [Hp Hrest]. destruct (IH _ _ Hrest) as [Hc (ws & Hws & Hall)].
  destruct ns as [|p [|]]; [|destruct Hp as [Hp (ty & Hty & Htag)]|done].
  - simpl in Hp. subst v. split; [done|]. exists ws. by split.
  - split; [|exists (v :: ws); split; [by constructor|simpl; by rewrite Hall]].
    assert (∀ q, q ∈ concat nss → p.1.1 ≠ q.1.1) as Hne.
    { intros q Hq Heq. destruct (assembled_tags _ _ _ _ _ Hrest Hq) as (ty' & Hty' & Htag').
      rewrite <- Heq in Hty'. rewrite (typed_fun _ _ _ _ Hty' Hty), Htag in Htag'. done. }
    intros q q' [Hq|Hq]%elem_of_cons [Hq'|Hq']%elem_of_cons Heq; subst; [done| | |by apply Hc].
    + by destruct (Hne q').
    + by destruct (Hne q).
Qed.

(** ** Payment method types *)

Lemma try_collect_total {E A B} (f : A → result E B) (g : A → B) l :
  (∀ x, f x = Ok (g x)) → try_collect f l = Ok (g <$> l).
Proof. intros Hf. induction l as [|x l IH]; [done|]. csimpl. rewrite Hf. simpl. rewrite IH. done. Qed.

Lemma into_networks l : into_dir_values (A := CardNetwork) l = Ok (DirValue_CardNetwork <$> l).
Proof. apply try_collect_total. apply card_network_into_eq. Qed.

Lemma into_currencies l : into_dir_values (A := Currency) l = Ok (DirValue_PaymentCurrency <$> l).
Proof. apply try_collect_total. apply currency_into_eq. Qed.

(** An aggregator of values of one kind, as a piece. *)
Lemma ends_in_piece {A} (f : A → DirValue) k (x : A) l info rel str b :
  layered b → (∀ a, dir_kind (f a) = k ∧ dir_key (f a) = mkDirKey k None) →
  ends (n <- in_aggregator (f <$> x :: l) info ;; sr_ret [(n, rel, str)])%sr
    (Ok (in_holds ctx (f <$> x :: l) rel str)) (piece (TagIn (Some k))) b.
Proof.
  intros Hl Hf. eapply ends_then.
  - apply ends_in_aggregator; [done|done|].
    intros v w (a & -> & _)%list_elem_of_fmap (a' & -> & _)%list_elem_of_fmap.
    destruct (Hf a) as [_ ->], (Hf a') as [_ ->]. done.
  - intros n b' Hg [Ht Hm]. apply ends_ret; [apply Hg|]. split; [apply Hm|]. eexists. split; [exact Ht|].
    apply tag_in; [done|]. intros v (a & -> & _)%list_elem_of_fmap. apply Hf.
Qed.

Lemma ends_networks networks b :
  layered b →
  ends (networks_node networks) (Ok (networks_hold ctx networks)) (piece (TagIn (Some DirKeyKind_CardNetwork))) b.
Proof.
  intros Hl. unfold networks_node, networks_hold. destruct networks as [[|x l]|]; [by apply ends_ret| |by apply ends_ret].
  rewrite into_networks. apply (ends_in_piece DirValue_CardNetwork); [done|]. by intros [].
Qed.

Lemma ends_currencies accepted b :
  layered b →
  ends (currencies_node accepted) (Ok (currencies_hold ctx accepted))
    (piece (TagIn (Some DirKeyKind_PaymentCurrency))) b.
Proof.
  intros Hl. unfold currencies_node, currencies_data, currencies_hold.
  destruct accepted as [[[|x l]|[|x l]|]|]; try by apply ends_ret.
  all: rewrite into_currencies; apply (ends_in_piece DirValue_PaymentCurrency); [done|by intros []].
Qed.

Lemma ends_limit limit r info b :
  layered b →
  ends (limit_node limit r info) (Ok tt)
    (λ ns _ b', Forall2 (holds b') ((λ n, (n, Relation.Positive, Strong)) <$> ns)
       (option_list ((λ amt, value_holds ctx (DirValue_PaymentAmount (mkNumValue amt (Some r))) Relation.Positive Strong)
         <$> limit))) b.
Proof.
  intros Hl. unfold limit_node. destruct limit as [amt|]; simpl; [|apply ends_ret; [done|constructor]].
  eapply ends_then; [by apply ends_value_node|]. intros n b' Hg [_ Hm]. apply ends_ret; [apply Hg|].
  repeat constructor; apply Hm.
Qed.

Lemma compatible_positive_strong (ns : list NodeId) :
  compatible ((λ n, (n, Relation.Positive, Strong)) <$> ns).
Proof. apply (compatible_uniform Relation.Positive Strong). intros p (n & -> & _)%list_elem_of_fmap. done. Qed.

Lemma ends_amounts minimum maximum b :
  layered b → ends (amount_nodes minimum maximum) (Ok (amounts_hold ctx minimum maximum)) (piece TagAny) b.
Proof.
  intros Hl. unfold amount_nodes.
  eapply ends_then; [by apply ends_limit|]. intros mins b1 Hg1 Hmin.
  eapply ends_then; [apply ends_limit; apply Hg1|]. intros maxs b2 Hg2 Hmax.
  assert (Forall2 (holds b2) ((λ n, (n, Relation.Positive, Strong)) <$> mins ++ maxs)
    (option_list ((λ amt, value_holds ctx (DirValue_PaymentAmount (mkNumValue amt (Some NumValueRefinement_GreaterThanEqual)))
         Relation.Positive Strong) <$> minimum) ++
     option_list ((λ amt, value_holds ctx (DirValue_PaymentAmount (mkNumValue amt (Some NumValueRefinement_LessThanEqual)))
         Relation.Positive Strong) <$> maximum))) as Hlim.
  { rewrite fmap_app. apply Forall2_app; [|done].
    eapply Forall2_impl; [exact Hmin|]. intros p v. by apply holds_lasts. }
  clear Hmin Hmax. set (vs := option_list _ ++ option_list _) in Hlim.
  destruct (mins ++ maxs) as [|first rest] eqn:Hns; simpl in Hlim.
  - assert (vs = []) as Hvs by (by inversion Hlim). unfold vs in Hvs.
    destruct minimum, maximum; simpl in Hvs; try done. apply ends_ret; [apply Hg2|done].
  - eapply ends_then; [apply ends_value_node; [apply Hg2|done]|]. intros zero b3 Hg3 [_ Hzero].
    assert (Forall2 (holds b3) ((λ n, (n, Relation.Positive, Strong)) <$> first :: rest) vs) as Hlim3.
    { eapply Forall2_impl; [exact Hlim|]. intros p v. by apply holds_lasts. }
    eapply (ends_then _ tt _ _ (λ n _ b', holds b' (n, Relation.Positive, Strong) (all id vs))).
    + destruct rest as [|second rest].
      * simpl in Hlim3. apply Forall2_cons_inv_l in Hlim3 as (v & vs' & Hv & Hnil & Heq).
        apply Forall2_nil_inv_l in Hnil as ->. rewrite Heq. apply ends_ret; [apply Hg3|]. simpl. by rewrite andb_true_r.
      * eapply ends_conseq; [apply ends_all_aggregator; [apply Hg3|apply compatible_positive_strong|exact Hlim3]|].
        intros n [] b' _ [_ Hm]. apply Hm.
    + intros neighbor b4 Hg4 Hn.
      eapply ends_then.
      { apply (ends_any_aggregator _
          [value_holds ctx (DirValue_PaymentAmount (mkNumValue 0 None)) Relation.Positive Strong; all id vs]);
          [apply Hg4|apply (compatible_positive_strong [zero; neighbor])|].
        apply Forall2_cons_2; [by eapply holds_lasts; [|apply Hzero]|]. apply Forall2_cons_2; [done|constructor]. }
      intros any_id b5 Hg5 [Ht Hm]. apply ends_ret; [apply Hg5|]. split; [|by eexists].
      replace (amounts_hold ctx minimum maximum) with (any_holds
        [value_holds ctx (DirValue_PaymentAmount (mkNumValue 0 None)) Relation.Positive Strong; all id vs]); [apply Hm|].
      unfold amounts_hold, any_holds, vs, limit_holds. apply Forall2_length in Hlim3.
      unfold vs in Hlim3. destruct minimum, maximum; simpl in *; try done;
        by rewrite ?andb_true_r, ?orb_false_r.
Qed.

(** A weighted node as a piece. *)
Lemma piece_node n rel str ty v t b :
  typed b n ty → holds b (n, rel, str) v → tag ty = t → piece t [(n, rel, str)] v b.
Proof. intros Ht Hh Htag. split; [done|]. by exists ty. Qed.

Lemma payment_method_type_into_plain p v :
  payment_method_type_into p = Ok v → connector_value (NodeValue_Value v) = false ∧ dir_kind v ≠ DirKeyKind_CaptureMethod.
Proof.
  destruct p as [t pm]. unfold payment_method_type_into. simpl. destruct t; try (by intros [= <-]);
    destruct pm; by intros [= <-].
Qed.

(** An [All] aggregator of pieces. *)
Lemma ends_all_pieces ts nss vs ns v info b :
  layered b → NoDup ts → assembled ts nss vs b → ns = concat nss → v = all id vs →
  ends (all_aggregator ns info) (Ok v) (λ n v b', node_means n (λ _ _, v) b') b.
Proof.
  intros Hl Hnd Ha -> ->. destruct (assembled_spec ts nss vs b Hnd Ha) as [Hc (ws & Hws & Hall)].
  destruct (ends_all_aggregator _ _ info b Hl Hc Hws) as (n & b' & Heq & Hg & _ & Hn).
  exists n, b'. split_and!; [done|done|]. by rewrite <- Hall.
Qed.

Lemma ends_request pm t b :
  layered b →
  ends (compile_request_pm_types t pm) (request_holds ctx pm t)
    (λ n v b', holds b' (n, Relation.Positive, Strong) v) b.
Proof.
  intros Hl. unfold compile_request_pm_types, request_holds.
  eapply ends_bind; [by apply ends_lift|]. intros pmt v b0 Hv Hg0 ->.
  apply payment_method_type_into_plain in Hv as [Hv _].
  eapply ends_then; [by apply ends_value_node; [apply Hg0|]|]. intros pmt_id b1 Hg1 [Ht Hm].
  eapply ends_then; [apply ends_networks; apply Hg1|]. intros ns b2 Hg2 Hns.
  eapply ends_then; [apply ends_currencies; apply Hg2|]. intros cs b3 Hg3 Hcs.
  eapply ends_then; [apply ends_amounts; apply Hg3|]. intros am b4 Hg4 Ham.
  set (str := if is_card_type (request_pm_type t) then Weak else Strong).
  eapply ends_conseq; [|intros n w b' _ Hn; apply (Hn Relation.Positive Strong)].
  apply (ends_all_pieces
    [TagValue (Some (dir_kind v)); TagIn (Some DirKeyKind_CardNetwork); TagIn (Some DirKeyKind_PaymentCurrency); TagAny]
    [[(pmt_id, Relation.Positive, str)]; ns; cs; am]
    [value_holds ctx v Relation.Positive str; networks_hold ctx (card_networks t);
     currencies_hold ctx (accepted_currencies t); amounts_hold ctx (minimum_amount t) (maximum_amount t)]).
  - apply Hg4.
  - tags_differ.
  - apply assembled_cons; [|repeat (apply assembled_cons; [by eauto using grows_trans, piece_grows|]); done].
    apply (piece_grows _ _ _ b1); [by eauto using grows_trans|]. by eapply piece_node; [exact Ht|apply Hm|].
  - simpl. by rewrite app_nil_r.
  - simpl. by rewrite andb_true_r, !andb_assoc.
Qed.

(** ** Payment methods *)

Lemma ends_enabled enabled b :
  layered b →
  ends (compile_payment_method_enabled enabled) (enabled_holds ctx enabled)
    (λ o v b', match o, v with
               | None, None => True
               | Some n, Some v => holds b' (n, Relation.Positive, Strong) v
               | _, _ => False
               end) b.
Proof.
  intros Hl. unfold compile_payment_method_enabled, enabled_holds.
  destruct (payment_method_types enabled) as [[|t types]|]; [by apply ends_ret| |by apply ends_ret].
  change (into_dir_value (enabled_pm enabled)) with (payment_method_into (enabled_pm enabled)).
  rewrite payment_method_into_eq.
  eapply ends_then; [by apply (ends_lift (Ok (DirValue_PaymentMethod (enabled_pm enabled))))|].
  intros pm b0 Hg0 ->.
  eapply ends_then; [by apply ends_value_node; [apply Hg0|]|]. intros pm_id b1 Hg1 [_ Hpm].
  eapply ends_bind.
  { apply (ends_map _ (request_holds ctx (enabled_pm enabled)) (λ p v b', holds b' p v ∧ p.1.2 = Relation.Positive ∧ p.2 = Strong)).
    - intros p v b2 b3 Hg (Hp & H1 & H2). split_and!; [by eapply holds_lasts|done|done].
    - apply Hg1.
    - intros x b' _ Hg. eapply ends_wrap; [apply ends_request; apply Hg|]. by intros n v b2 Hn. }
  intros ns vs b2 Hvs Hg2 Hns. cbn beta in Hns.
  assert (Forall2 (holds b2) ns vs) as Hns' by (eapply Forall2_impl; [exact Hns|]; naive_solver).
  eapply ends_then.
  { apply (ends_any_aggregator ns vs); [apply Hg2| |done]. apply (compatible_uniform Relation.Positive Strong).
    intros p Hp. apply list_elem_of_lookup in Hp as [i Hi].
    by destruct (Forall2_lookup_l _ _ _ _ _ Hns Hi) as (v & _ & _ & ? & ?). }
  intros agg b3 Hg3 [_ Hagg].
  eapply ends_then.
  { apply (ends_all_aggregator _ [value_holds ctx (DirValue_PaymentMethod (enabled_pm enabled)) Relation.Positive Strong;
      any_holds vs]); [apply Hg3|apply (compatible_positive_strong [pm_id; agg])|].
    apply Forall2_cons_2; [|apply Forall2_cons_2; [apply Hagg|constructor]].
    eapply holds_lasts; [exact Hg3|]. eapply holds_lasts; [exact Hg2|]. apply Hpm. }
  intros n b4 Hg4 [_ Hn]. apply ends_ret; [apply Hg4|].
  specialize (Hn Relation.Positive Strong). apply try_collect_length in Hvs.
  destruct vs as [|v vs]; [done|]. unfold any_holds in Hn. simpl in *.
  by rewrite orb_false_r, andb_true_r in Hn.
Qed.

(** ** Filters *)

Lemma ends_optional_list {A} (f : A → DirValue) k (o : option (list A)) info str b :
  layered b → (∀ a, dir_kind (f a) = k ∧ dir_key (f a) = mkDirKey k None) →
  ends (optional_node ((λ l, in_aggregator (f <$> l) info) <$> o) Relation.Positive str)
    (list_holds ctx f o str) (piece (TagIn (Some k))) b.
Proof.
  intros Hl Hf. destruct o as [[|x l]|]; simpl.
  - by exists b.
  - by apply (ends_in_piece f).
  - by apply ends_ret.
Qed.

Lemma ends_capture flows b :
  layered b →
  ends (optional_node ((λ capture, value_node (DirValue_CaptureMethod capture) "Configs for CaptureMethod")
      <$> (flows ≫= id)) Relation.Negative Normal)
    (Ok (capture_holds ctx flows)) (piece (TagValue (Some DirKeyKind_CaptureMethod))) b.
Proof.
  intros Hl. unfold capture_holds. destruct (flows ≫= id) as [m|]; simpl; [|by apply ends_ret].
  eapply ends_then; [by apply ends_value_node|]. intros n b' Hg [Ht Hm]. apply ends_ret; [apply Hg|].
  by eapply piece_node; [exact Ht|apply Hm|].
Qed.

Lemma get_dir_value_plain pm v :
  get_dir_value_payment_method pm = Ok v →
  connector_value (NodeValue_Value v) = false ∧ dir_kind v ≠ DirKeyKind_CaptureMethod.
Proof. destruct pm; by intros [= <-]. Qed.

Lemma filter_value_plain key v :
  filter_value key = Ok v →
  connector_value (NodeValue_Value v.1) = false ∧ dir_kind v.1 ≠ DirKeyKind_CaptureMethod.
Proof.
  destruct key as [pm|cn]; simpl.
  - destruct (get_dir_value_payment_method pm) as [w|e] eqn:Hw; simpl; [|done]. apply get_dir_value_plain in Hw.
    destruct (is_card_type pm); by intros [= <-].
  - change (into_dir_value cn) with (card_network_into cn). rewrite card_network_into_eq. by intros [= <-].
Qed.

Lemma ends_countries_currencies v config node b :
  layered b → dir_kind v ≠ DirKeyKind_CaptureMethod →
  typed b node (Value (NodeValue_Value v)) → node_means node (value_holds ctx v) b →
  ends (compile_graph_for_countries_and_currencies config node)
    (country ← list_holds ctx (λ c, DirValue_BillingCountry (from_alpha2 c)) (filter_country config) Weak;
     currency ← list_holds ctx DirValue_PaymentCurrency (filter_currency config) Normal;
     Ok (value_holds ctx v Relation.Positive Normal && country && currency && capture_holds ctx (not_available_flows config)))
    (λ n w b', holds b' (n, Relation.Positive, Normal) w) b.
Proof.
  intros Hl Hk Ht Hm. unfold compile_graph_for_countries_and_currencies.
  eapply ends_bind.
  { apply (ends_optional_list (λ c, DirValue_BillingCountry (from_alpha2 c)) DirKeyKind_BillingCountry); [done|done]. }
  intros ns country b1 _ Hg1 Hns.
  eapply ends_bind.
  { replace (_ <$> filter_currency config) with
      ((λ l, in_aggregator (DirValue_PaymentCurrency <$> l) "Configs for Currency") <$> filter_currency config).
    - apply (ends_optional_list DirValue_PaymentCurrency DirKeyKind_PaymentCurrency); [apply Hg1|done].
    - destruct (filter_currency config) as [l|]; simpl; [|done]. by rewrite into_currencies. }
  intros cs currency b2 _ Hg2 Hcs.
  eapply ends_then; [apply ends_capture; apply Hg2|]. intros ks b3 Hg3 Hks.
  eapply ends_conseq; [|intros n w b' _ Hn; apply (Hn Relation.Positive Normal)].
  apply (ends_all_pieces
    [TagValue (Some (dir_kind v)); TagIn (Some DirKeyKind_BillingCountry); TagIn (Some DirKeyKind_PaymentCurrency);
     TagValue (Some DirKeyKind_CaptureMethod)]
    [[(node, Relation.Positive, Normal)]; ns; cs; ks]
    [value_holds ctx v Relation.Positive Normal; country; currency; capture_holds ctx (not_available_flows config)]).
  - apply Hg3.
  - tags_differ.
  - apply assembled_cons; [|repeat (apply assembled_cons; [by eauto using grows_trans, piece_grows|]); done].
    apply (piece_grows _ _ _ b); [by eauto using grows_trans|]. by eapply piece_node; [exact Ht|apply Hm|].
  - simpl. by rewrite app_nil_r.
  - simpl. by rewrite andb_true_r, !andb_assoc.
Qed.

(** The value a filter names, its node and the node's truth. *)
Definition filter_means (a : DirValue * weighted) (v : DirValue * bool) (b : ConstraintGraphBuilder) : Prop :=
  a.1 = v.1 ∧ a.2.1.2 = Relation.Positive ∧ a.2.2 = Normal ∧ holds b a.2 v.2.

Lemma ends_filter p b : layered b → ends (compile_filter p) (filter_holds ctx p) filter_means b.
Proof.
  intros Hl. unfold compile_filter, filter_holds.
  eapply ends_bind; [by apply ends_lift|]. intros w v b0 Hv Hg0 ->.
  apply filter_value_plain in Hv as [Hv Hk].
  eapply ends_then; [by apply ends_value_node; [apply Hg0|]|]. intros node b1 Hg1 [Ht Hm].
  pose proof (ends_countries_currencies v.1 p.2 node b1 (gr_layered _ _ Hg1) Hk Ht Hm) as Hc.
  destruct (list_holds ctx (λ c, DirValue_BillingCountry (from_alpha2 c)) (filter_country p.2) Weak) as [country|e];
    simpl in *; [|destruct Hc as (b2 & Hc); exists b2; unfold sr_bind; by rewrite Hc].
  destruct (list_holds ctx DirValue_PaymentCurrency (filter_currency p.2) Normal) as [currency|e];
    simpl in *; [|destruct Hc as (b2 & Hc); exists b2; unfold sr_bind; by rewrite Hc].
  destruct Hc as (n & b2 & Hc & Hg2 & Hn). exists (v.1, (n, Relation.Positive, Normal)), b2.
  split; [unfold sr_bind; by rewrite Hc|]. by split_and!.
Qed.

(** The nodes of values, with the same weight. *)
Lemma ends_value_nodes l info b :
  layered b → (∀ v, v ∈ l → connector_value (NodeValue_Value v) = false) →
  ends (sr_map (λ v, value_node v info) l) (Ok tt)
    (λ ns _ b', Forall2 (holds b') ((λ n, (n, Relation.Positive, Normal)) <$> ns)
       ((λ v, value_holds ctx v Relation.Positive Normal) <$> l)) b.
Proof.
  revert b. induction l as [|v l IH]; intros b Hl Hplain; simpl.
  - apply ends_ret; [done|constructor].
  - eapply ends_then; [apply ends_value_node; [done|apply Hplain; set_solver]|]. intros n b1 Hg1 [_ Hm].
    eapply ends_then; [apply IH; [apply Hg1|intros w Hw; apply Hplain; set_solver]|]. intros ns b2 Hg2 Hns.
    apply ends_ret; [apply Hg2|]. csimpl. apply Forall2_cons_2; [|done]. eapply holds_lasts; [exact Hg2|]. apply Hm.
Qed.

Lemma compatible_positive_normal (ns : list weighted) :
  (∀ p, p ∈ ns → p.1.2 = Relation.Positive ∧ p.2 = Normal) → compatible ns.
Proof. apply compatible_uniform. Qed.

Lemma global_values_plain v : v ∈ global_values → connector_value (NodeValue_Value v) = false.
Proof.
  intros Hv. assert (forallb (λ v, negb (connector_value (NodeValue_Value v))) global_values = true) as Hall by
    (vm_compute; reflexivity).
  rewrite forallb_forall in Hall. apply negb_true_iff, Hall. by apply list_elem_of_In.
Qed.

Lemma ends_config config connector b :
  layered b →
  ends (compile_config_graph config connector) (config_holds ctx config connector)
    (λ n v b', holds b' (n, Relation.Positive, Normal) v) b.
Proof.
  intros Hl. unfold compile_config_graph, config_holds.
  eapply ends_bind.
  { apply (ends_map _ (filter_holds ctx) filter_means); [|done|].
    - intros a v b1 b2 Hg (H1 & H2 & H3 & H4). split_and!; [done..|]. by eapply holds_lasts.
    - intros p b' _ Hg. apply ends_filter. apply Hg. }
  intros fs vs b1 _ Hg1 Hfs.
  assert (fs.*1 = vs.*1) as Hnames.
  { clear -Hfs. induction Hfs as [|a v fs vs (H & _) Hfs IH]; csimpl; [done|]. by rewrite H, IH. }
  eapply ends_then.
  { unfold global_vec_pmt. apply ends_value_nodes; [apply Hg1|].
    intros v [Hv _]%list_elem_of_In%filter_In. apply global_values_plain. by apply list_elem_of_In. }
  intros globals b2 Hg2 Hglobals.
  eapply ends_then.
  { eapply ends_any_aggregator; [apply Hg2| |exact Hglobals]. apply compatible_positive_normal.
    by intros p (n & -> & _)%list_elem_of_fmap. }
  intros any_node b3 Hg3 [_ Hany].
  assert (Forall2 (holds b3) (fs.*2 ++ [(any_node, Relation.Positive, Normal)])
    (vs.*2 ++ [unfiltered_holds ctx vs.*1])) as Hall.
  { apply Forall2_app.
    - clear -Hfs Hg2 Hg3. induction Hfs as [|a v fs vs (_ & _ & _ & H) Hfs IH]; csimpl; [constructor|].
      apply Forall2_cons_2; [|done]. eapply holds_lasts; [exact Hg3|]. by eapply holds_lasts.
    - apply Forall2_cons_2; [|constructor]. specialize (Hany Relation.Positive Normal). rewrite Hnames in Hany. done. }
  assert (any_holds (vs.*2 ++ [unfiltered_holds ctx vs.*1]) = any id vs.*2 || unfiltered_holds ctx vs.*1) as <-.
  { unfold any_holds. rewrite bool_decide_eq_false_2 by (by intros []%app_eq_nil).
    unfold any. rewrite existsb_app. simpl. by rewrite !orb_false_r. }
  destruct (ends_any_aggregator (fs.*2 ++ [(any_node, Relation.Positive, Normal)])
    (vs.*2 ++ [unfiltered_holds ctx vs.*1]) "Configs" b3) as (n & b4 & Heq & Hg4 & _ & Hn); [apply Hg3| |done|].
  - apply compatible_positive_normal. intros p [Hp|Hp]%elem_of_app.
    + apply list_elem_of_fmap in Hp as (a & -> & Ha). apply list_elem_of_lookup in Ha as [i Hi].
      by destruct (Forall2_lookup_l _ _ _ _ _ Hfs Hi) as (v & _ & _ & ? & ? & _).
    + by apply list_elem_of_singleton in Hp as ->.
  - exists n, b4. split_and!; [done|done|apply Hn].
Qed.

Lemma grows_length b b' : grows b b' → length (b_nodes b) ≤ length (b_nodes b').
Proof.
  intros Hg. destruct (decide (length (b_nodes b) ≤ length (b_nodes b'))) as [|Hlt]; [done|exfalso].
  destruct (lookup_lt_is_Some_2 (b_nodes b) (length (b_nodes b'))) as [nd Hnd]; [lia|].
  destruct (ext_nodes _ _ (gr_ext _ _ Hg) _ _ Hnd) as (nd' & Hnd' & _). apply lookup_lt_Some in Hnd'. lia.
Qed.

(** ** Accounts *)

Definition connector_node (c : RoutableConnectors) : NodeValue :=
  NodeValue_Value (DirValue_Connector (mkConnectorChoice c)).

(** The verdicts on the accounts of a connector. *)
Definition verdicts_of (c : RoutableConnectors) (vs : list (RoutableConnectors * bool)) : list bool :=
  omap (λ v, if bool_decide (v.1 = c) then Some v.2 else None) vs.

(** The node of a connector has an edge from the node of each of its accounts. *)
Definition connector_inv (c : RoutableConnectors) (bs : list bool) (b : ConstraintGraphBuilder) : Prop :=
  match bs with
  | [] => b_value_map b !! connector_node c = None
  | _ => ∃ n ms, b_value_map b !! connector_node c = Some n ∧ edges_of n ms (into b n) ∧
           (∀ p, p ∈ ms → p.1.2 = Relation.Positive ∧ p.2 = Normal) ∧ Forall2 (holds b) ms bs
  end.

Definition accounts_inv (vs : list (RoutableConnectors * bool)) (b : ConstraintGraphBuilder) : Prop :=
  layered b ∧ ∀ c, connector_inv c (verdicts_of c vs) b.

(** The node of an account, before it is linked to its connector. *)
Definition compile_account (config : CountryCurrencyFilter) (mca : MCACGraphData) :
    kbuild (RoutableConnectors * NodeId) :=
  (connector <- sr_lift (ok_or (InvalidConnectorName (connector_name mca))
     (from_str (A := RoutableConnectors) (connector_name mca))) ;;
   agg_nodes <- sr_map compile_payment_method_enabled (default [] (payment_methods_enabled mca)) ;;
   pms_enabled_agg_id <- any_aggregator
     ((λ id, (id, Relation.Positive, Strong)) <$> omap id agg_nodes)
     "Available Payment methods for connector" ;;
   config_enabled_agg_id <- compile_config_graph config connector ;;
   domain_level_node_id <- all_aggregator
     [(config_enabled_agg_id, Relation.Positive, Normal); (pms_enabled_agg_id, Relation.Positive, Normal)]
     "Config for respective PaymentMethodType for the connector" ;;
   sr_ret (connector, domain_level_node_id))%sr.

Definition link_account (p : RoutableConnectors * NodeId) : kbuild unit :=
  (connector_node_id <- value_node (DirValue_Connector (mkConnectorChoice p.1)) "Connector" ;;
   graph_err (make_edge p.2 connector_node_id Normal Relation.Positive None) ;;;
   sr_ret tt)%sr.

Lemma compile_account_link config mca b :
  compile_merchant_connector_graph config mca b = sr_bind (compile_account config mca) link_account b.
Proof.
  unfold compile_merchant_connector_graph, compile_account, sr_bind, sr_lift, sr_ret.
  repeat (case_match; try done; simplify_eq).
Qed.

Lemma ends_account config mca b :
  layered b →
  ends (compile_account config mca) (account_holds ctx config mca)
    (λ p v b', p.1 = v.1 ∧ length (b_nodes b) ≤ p.2 ∧ holds b' (p.2, Relation.Positive, Normal) v.2) b.
Proof.
  intros Hl. unfold compile_account, account_holds.
  eapply ends_bind; [by apply ends_lift|]. intros c c' b0 _ Hg0 ->.
  eapply ends_bind.
  { apply (ends_map _ (enabled_holds ctx)); [|apply Hg0|intros x b' _ Hg; apply ends_enabled; apply Hg].
    intros [n|] [v|] b1 b2 Hg; try done. by apply holds_lasts. }
  intros os vs b1 _ Hg1 Hos.
  assert (Forall2 (holds b1) ((λ id, (id, Relation.Positive, Strong)) <$> omap id os) (omap id vs)) as Hns.
  { clear -Hos. induction Hos as [|o v os vs Ho Hos IH]; csimpl; [constructor|].
    destruct o as [n|], v as [v|]; simpl; try done. csimpl. by apply Forall2_cons_2. }
  eapply ends_then.
  { eapply ends_any_aggregator; [apply Hg1|apply compatible_positive_strong|exact Hns]. }
  intros pms b2 Hg2 [_ Hpms].
  eapply ends_bind; [apply ends_config; apply Hg2|]. intros cfg vcfg b3 _ Hg3 Hcfg.
  eapply ends_then.
  { apply (ends_all_aggregator _ [vcfg; any_holds (omap id vs)]); [apply Hg3| |].
    - apply compatible_positive_normal. set_solver.
    - apply Forall2_cons_2; [done|]. apply Forall2_cons_2; [|constructor].
      eapply holds_lasts; [exact Hg3|]. apply Hpms. }
  intros n b4 Hg4 [Hfresh Hn]. apply ends_ret; [apply Hg4|]. split_and!; [done| |].
  - pose proof (grows_length b b3). simpl. etrans; [|exact Hfresh]. eauto using grows_trans.
  - specialize (Hn Relation.Positive Normal). simpl in *. by rewrite andb_true_r in Hn.
Qed.

Lemma connector_inv_kext c bs b b' :
  kext connector_value b b' → b_value_map b' !! connector_node c = b_value_map b !! connector_node c →
  (∀ n, b_value_map b !! connector_node c = Some n → into b' n = into b n) →
  connector_inv c bs b → connector_inv c bs b'.
Proof.
  intros Hk Hm Hin. unfold connector_inv. destruct bs as [|v bs]; [by rewrite Hm|].
  intros (n & ms & H1 & H2 & H3 & H4). exists n, ms. rewrite Hm, (Hin n H1). split_and!; [done..|].
  by eapply Forall2_holds_ext.
Qed.

(** The edges into a connector come from nodes that are there. *)
Lemma into_lt b n e : layered b → e ∈ into b n → pred e < length (b_nodes b).
Proof.
  intros Hl [He _]%elem_of_all_incoming. destruct (ly_edges _ _ Hl e He) as (_ & (t & Ht & _) & _).
  by eapply typed_lt.
Qed.

Lemma value_map_typed b v n : layered b → b_value_map b !! v = Some n → typed b n (Value v).
Proof. intros Hl Hv. destruct (ly_wf _ _ Hl) as [Hg _]. by apply (wf_value_map _ Hg) in Hv. Qed.

Lemma edges_of_snoc n ms p es :
  edges_of n ms es → edges_of n (ms ++ [p]) (es ++ [mkEdge p.2 p.1.2 p.1.1 n None]).
Proof.
  intros Hms e. rewrite elem_of_app, (Hms e), list_elem_of_singleton. split.
  - intros [(q & Hq & ->)| ->]; [exists q|exists p]; set_solver.
  - intros (q & [Hq| ->%list_elem_of_singleton]%elem_of_app & ->); [left; by exists q|by right].
Qed.

(** The node of a connector, made or found: its edges are those of its accounts. *)
Record connector_found (vs : list (RoutableConnectors * bool)) (c : RoutableConnectors)
    (b0 b : ConstraintGraphBuilder) (n : NodeId) (b1 : ConstraintGraphBuilder) (ms : list weighted) : Prop := {
  cf_layered : layered b1;
  cf_kext : kext connector_value b b1;
  cf_typed : typed b1 n (Value (connector_node c));
  cf_values : b_value_map b1 = <[connector_node c := n]> (b_value_map b);
  cf_into : ∀ m, into b1 m = into b m;
  cf_edges : edges_of n ms (into b1 n);
  cf_weights : ∀ p, p ∈ ms → p.1.2 = Relation.Positive ∧ p.2 = Normal;
  cf_verdicts : Forall2 (holds b1) ms (verdicts_of c vs);
  cf_old : ∀ e, e ∈ into b1 n → pred e < length (b_nodes b0);
}.

Lemma find_connector vs c b0 b :
  accounts_inv vs b0 → grows b0 b →
  ∃ n b1 ms, value_node (DirValue_Connector (mkConnectorChoice c)) "Connector" b = (Ok n, b1) ∧
    connector_found vs c b0 b n b1 ms.
Proof.
  intros [Hl0 Hinv] Hg. specialize (Hinv c).
  destruct (make_value_node_holds ctx connector_value b (connector_node c) (Some "Connector"%string) None (gr_layered _ _ Hg))
    as (n & b1 & Heq & Hl1 & Hk1 & Ht1 & _ & Hmap1 & Hnew & Hin1).
  unfold value_node, graph_err. unfold connector_node in Heq. rewrite Heq. exists n, b1.
  unfold connector_inv in Hinv. destruct (verdicts_of c vs) as [|w bs] eqn:Hbs.
  - assert (into b1 n = []) as Hnil by (apply Hnew; by rewrite (gr_roots _ _ Hg)).
    exists []. split; [done|]. split; try done; rewrite ?Hnil, ?Hbs; try set_solver.
    intros e. split; [set_solver|intros (p & ? & _); set_solver].
  - destruct Hinv as (n' & ms & H1 & H2 & H3 & H4). exists ms. split; [done|].
    assert (n' = n) as -> by (unfold make_value_node in Heq; rewrite <- (gr_roots _ _ Hg) in H1 by done;
      unfold connector_node in H1; rewrite H1 in Heq; by simplify_eq).
    assert (into b1 n = into b0 n) as Hin by (rewrite Hin1; apply (gr_into _ _ Hg n _ (value_map_typed _ _ _ Hl0 H1))).
    split; rewrite ?Hin, ?Hbs; try done.
    + eapply Forall2_holds_ext; [exact Hk1|]. eapply Forall2_holds_ext; [by apply grows_kext|done].
    + intros e He. by eapply into_lt.
Qed.

Lemma link_account_inv vs c m v b0 b :
  accounts_inv vs b0 → grows b0 b → length (b_nodes b0) ≤ m → holds b (m, Relation.Positive, Normal) v →
  ∃ b', link_account (c, m) b = (Ok tt, b') ∧ accounts_inv (vs ++ [(c, v)]) b'.
Proof.
  intros Hacc Hg Hfresh Hm. destruct (find_connector vs c b0 b Hacc Hg) as (n & b1 & ms & Heq & Hf).
  destruct Hacc as [Hl0 Hinv]. destruct Hf as [Hl1 Hk1 Ht1 Hmap1 Hin1 Hms1 Hms2 Hms3 Hold].
  destruct (make_root_edge ctx connector_value b1 n (connector_node c) m v Hl1 Ht1 eq_refl) as
    (i & b2 & Heq2 & Hl2 & Hk2 & Hmap2 & Hin2 & Hother).
  { by eapply holds_ext. }
  { intros e He Hp. apply Hold in He. lia. }
  unfold link_account, sr_bind. simpl fst. rewrite Heq. simpl. unfold graph_err. rewrite Heq2. simpl.
  exists b2. split; [done|]. split; [done|]. intros c'. unfold verdicts_of at 1. rewrite omap_app. simpl.
  fold (verdicts_of c' vs). case_bool_decide as Hc; simpl.
  - subst c'. destruct (verdicts_of c vs ++ [v]) as [|w ws] eqn:Hws; [by destruct (verdicts_of c vs)|].
    exists n, (ms ++ [(m, Relation.Positive, Normal)]). split_and!.
    + by rewrite Hmap2, Hmap1, lookup_insert_eq.
    + rewrite Hin2. by apply (edges_of_snoc n ms (m, Relation.Positive, Normal)).
    + intros p [Hp| ->%list_elem_of_singleton]%elem_of_app; [by apply Hms2|done].
    + rewrite <- Hws. apply Forall2_app; [by eapply Forall2_holds_ext|]. apply Forall2_cons_2; [|constructor].
      eapply holds_ext; [exact Hk2|]. by eapply holds_ext.
  - rewrite app_nil_r. eapply connector_inv_kext; [| | |apply Hinv].
    + etrans; [by apply grows_kext|by etrans].
    + rewrite Hmap2, Hmap1, lookup_insert_ne by (intros [= ?]; done). by apply (gr_roots _ _ Hg).
    + intros n' Hn'. pose proof (value_map_typed _ _ _ Hl0 Hn') as Ht'.
      rewrite Hother, Hin1; [by apply (gr_into _ _ Hg n' _ Ht')|]. intros ->.
      pose proof (typed_ext _ _ _ _ (kx_ext _ _ _ Hk1) (typed_ext _ _ _ _ (gr_ext _ _ Hg) Ht')) as Ht''.
      pose proof (typed_fun _ _ _ _ Ht'' Ht1) as [= ?]. done.
Qed.

(** The loop over the accounts. *)
Lemma accounts_run config accts : ∀ vs b,
  accounts_inv vs b →
  match try_collect (account_holds ctx config) accts with
  | Ok ws => ∃ b', sr_for (compile_merchant_connector_graph config) accts b = (Ok tt, b') ∧ accounts_inv (vs ++ ws) b'
  | Err e => ∃ b', sr_for (compile_merchant_connector_graph config) accts b = (Err e, b')
  end.
Proof.
  induction accts as [|mca accts IH]; intros vs b Hinv; simpl.
  { exists b. by rewrite app_nil_r. }
  pose proof (ends_account config mca b (proj1 Hinv)) as Hacct. unfold sr_bind.
  rewrite compile_account_link. unfold sr_bind.
  destruct (account_holds ctx config mca) as [[c v]|e]; simpl.
  - destruct Hacct as ([c' m] & b1 & Heq & Hg & H1 & H2 & H3). simpl in *. subst c'. rewrite Heq.
    destruct (link_account_inv vs c m v b b1 Hinv Hg H2 H3) as (b2 & Heq2 & Hinv2). rewrite Heq2.
    specialize (IH (vs ++ [(c, v)]) b2 Hinv2). destruct (try_collect _ accts) as [ws|e]; [|done]. simpl.
    by rewrite <- app_assoc in IH.
  - destruct Hacct as (b1 & Heq). rewrite Heq. by exists b1.
Qed.

End nodes.
