(* ===== verification/KgraphContext.v ===== *)
(** * The context of a payment in the knowledge graph

    What the context that [into_context] makes of a payment says on the values
    that the nodes of the graph ask for. *)

From S2P Require Import Prelude GraphTypes GraphBuilder GraphCheck GraphDenote.
From S2P Require Import Country Currency PaymentEnums EuclidEnums EuclidTypes EuclidAst EuclidDir Analyzer.
From S2P Require Import KgraphValues Kgraph KgraphFacts.

(** ** Contexts of values *)

Lemma eqb_true_r c : Bool.eqb c true = c.
Proof. by destruct c. Qed.

Definition at_key (k : DirKey) (vals : list DirValue) : list DirValue :=
  List.filter (λ v, bool_decide (dir_key v = k)) vals.

Lemma at_key_app k l l' : at_key k (l ++ l') = at_key k l ++ at_key k l'.
Proof. apply List.filter_app. Qed.

(** The context has, under a key, the values with the key. *)
Lemma from_dir_values_lookup vals k :
  from_dir_values vals !! k = match at_key k vals with [] => None | l => Some (list_to_set l) end.
Proof.
  induction vals as [|v vals IH] using rev_ind; [apply lookup_empty|].
  unfold from_dir_values in *. rewrite foldl_snoc, at_key_app. unfold ctx_insert at 1. simpl.
  destruct (decide (dir_key v = k)) as [<-|Hne].
  - rewrite bool_decide_eq_true_2 by done. rewrite lookup_insert_eq, IH.
    destruct (at_key (dir_key v) vals) as [|w l] eqn:Hl; simpl; f_equal; set_solver.
  - rewrite bool_decide_eq_false_2 by done. rewrite lookup_insert_ne, app_nil_r by done. exact IH.
Qed.

Section optional.
Context {A : Type} (f : A → DirValue) (o : option A) (k : DirKey).

Lemma at_key_same : (∀ a, dir_key (f a) = k) → at_key k (option_list (f <$> o)) = option_list (f <$> o).
Proof. intros Hk. destruct o as [a|]; [|done]. simpl. by rewrite bool_decide_eq_true_2. Qed.

Lemma at_key_other : (∀ a, dir_key (f a) ≠ k) → at_key k (option_list (f <$> o)) = [].
Proof. intros Hk. destruct o as [a|]; [|done]. simpl. by rewrite bool_decide_eq_false_2. Qed.
End optional.

(** ** The payment's values *)

(** The kinds of values that come from one field of the payment. *)
Definition field_values (input : BackendInput) (k : DirKeyKind) : option (list DirValue) :=
  match k with
  | DirKeyKind_PaymentAmount => Some [DirValue_PaymentAmount (mkNumValue (amount (payment input)) None)]
  | DirKeyKind_PaymentCurrency => Some [DirValue_PaymentCurrency (currency (payment input))]
  | DirKeyKind_PaymentMethod => Some (option_list (DirValue_PaymentMethod <$> payment_method (method input)))
  | DirKeyKind_CardNetwork => Some (option_list (DirValue_CardNetwork <$> card_network (method input)))
  | DirKeyKind_BillingCountry => Some (option_list (DirValue_BillingCountry <$> billing_country (payment input)))
  | DirKeyKind_CaptureMethod => Some (option_list (DirValue_CaptureMethod <$> capture_method (payment input)))
  | DirKeyKind_Connector => Some []
  | _ => None
  end.

Lemma pm_type_not_field input p v :
  payment_method_type_into p = Ok v → field_values input (dir_kind v) = None.
Proof.
  destruct p as [t pm]. unfold payment_method_type_into. simpl. destruct t; try (by intros [= <-]);
    destruct pm; by intros [= <-].
Qed.

Lemma into_context_field input vals k l :
  into_context input = Ok vals → field_values input k = Some l → at_key (mkDirKey k None) vals = l.
Proof.
  intros Hvals Hl. unfold into_context in Hvals.
  destruct (match payment_method_type (method input), payment_method (method input) with
            | Some pm_type, Some pm => v ← into_dir_value (pm_type, pm); Ok [v] | _, _ => Ok [] end)
    as [pmt|e] eqn:Hpmt; [|done]. simpl in Hvals. injection Hvals as <-.
  assert (at_key (mkDirKey k None) pmt = []) as Hnone.
  { destruct (payment_method_type (method input)) as [t|], (payment_method (method input)) as [pm|];
      simpl in Hpmt; simplify_eq; try done.
    destruct (into_dir_value (t, pm)) as [v|] eqn:Hv; simpl in Hpmt; simplify_eq.
    simpl. rewrite bool_decide_eq_false_2; [done|]. intros Hk. apply (f_equal kind) in Hk. simpl in Hk.
    apply (pm_type_not_field input) in Hv. congruence. }
  match goal with |- at_key _ (?a :: ?c :: ?rest) = _ => change (a :: c :: rest) with ([a; c] ++ rest) end.
  rewrite !at_key_app, Hnone.
  destruct k; simpl in Hl; simplify_eq;
    repeat first [rewrite at_key_same by done | rewrite at_key_other by done]; simpl; by rewrite ?app_nil_r.
Qed.

(** ** The constraints on a payment *)

Definition network_accepted (networks : option (list CardNetwork)) (network : option CardNetwork) : bool :=
  match networks, network with
  | Some ((_ :: _) as l), Some n => bool_decide (n ∈ l)
  | _, _ => true
  end.

Definition currency_accepted (accepted : option AcceptedCurrencies) (c : Currency) : bool :=
  match accepted with
  | Some (EnableOnly ((_ :: _) as l)) => bool_decide (c ∈ l)
  | Some (DisableOnly ((_ :: _) as l)) => bool_decide (c ∉ l)
  | _ => true
  end.

(** The amount is zero or within the limits. *)
Definition amount_accepted (minimum maximum : option Z) (a : Z) : bool :=
  match minimum, maximum with
  | None, None => true
  | _, _ => (a =? 0)%Z || default true ((λ m, m <=? a)%Z <$> minimum) && default true ((λ m, a <=? m)%Z <$> maximum)
  end.

Section payment.
Context (input : BackendInput) (vals : list DirValue) (Hvals : into_context input = Ok vals).

Abbreviation ctx := (checking_context (from_dir_values vals)).

(** The values of the payment under a key. *)
Lemma context_field k l :
  field_values input k = Some l →
  from_dir_values vals !! mkDirKey k None = match l with [] => None | _ => Some (list_to_set l) end.
Proof. intros Hl. rewrite from_dir_values_lookup, (into_context_field input vals k l Hvals Hl). by destruct l. Qed.

Lemma connector_weakly_present c : value_holds ctx (DirValue_Connector (mkConnectorChoice c)) Relation.Positive Weak = true.
Proof.
  unfold value_holds. simpl. unfold dir_key. simpl.
  by rewrite (context_field DirKeyKind_Connector [] eq_refl).
Qed.

Lemma method_reading pm :
  value_holds ctx (DirValue_PaymentMethod pm) Relation.Positive Strong =
    bool_decide (payment_method (method input) = Some pm).
Proof.
  unfold value_holds. simpl. unfold dir_key. simpl.
  rewrite (context_field DirKeyKind_PaymentMethod _ eq_refl).
  destruct (payment_method (method input)) as [pm'|]; simpl; [|done].
  rewrite eqb_true_r. apply bool_decide_ext. set_solver.
Qed.

(** The payment has at most one value of the kind of the aggregator. *)
Lemma in_holds_reading `{EqDecision A} (f : A → DirValue) k (l : list A) (o : option A) rel str :
  Inj eq eq f → (∀ a, dir_key (f a) = mkDirKey k None) → l ≠ [] →
  field_values input k = Some (option_list (f <$> o)) →
  in_holds ctx (f <$> l) rel str =
    match o with
    | None => bool_decide (str = Weak)
    | Some a => Bool.eqb (bool_decide (a ∈ l)) (Relation.to_bool rel)
    end.
Proof.
  intros Hinj Hk Hne Ho. destruct l as [|a0 l]; [done|]. unfold in_holds. csimpl.
  rewrite Hk, (context_field k _ Ho).
  destruct o as [a|]; simpl; [|done]. rewrite union_empty_r_L, elements_singleton. simpl.
  rewrite andb_true_r. f_equal. apply bool_decide_ext. rewrite <- fmap_cons. by apply list_elem_of_fmap_inj.
Qed.

Lemma networks_reading networks : networks_hold ctx networks = network_accepted networks (card_network (method input)).
Proof.
  destruct networks as [[|n l]|]; [done| |done]. unfold networks_hold.
  rewrite (in_holds_reading DirValue_CardNetwork DirKeyKind_CardNetwork _ (card_network (method input)));
    [|by intros ?? [= ->]|done..].
  destruct (card_network (method input)); simpl; [|done]. by rewrite eqb_true_r.
Qed.

Lemma currencies_reading accepted : currencies_hold ctx accepted = currency_accepted accepted (currency (payment input)).
Proof.
  destruct accepted as [[[|c l]|[|c l]|]|]; try done; unfold currencies_hold;
    rewrite (in_holds_reading DirValue_PaymentCurrency DirKeyKind_PaymentCurrency _ (Some (currency (payment input))));
    try (by intros ?? [= ->]); try done; simpl.
  - by rewrite eqb_true_r.
  - rewrite bool_decide_not. by destruct (bool_decide _).
Qed.

Lemma amount_reading n r :
  value_holds ctx (DirValue_PaymentAmount (mkNumValue n r)) Relation.Positive Strong =
    fits (mkNumValue n r) (mkNumValue (amount (payment input)) None).
Proof.
  unfold value_holds. simpl. unfold dir_key. simpl.
  rewrite (context_field DirKeyKind_PaymentAmount _ eq_refl). simpl.
  rewrite union_empty_r_L, elements_singleton. simpl. by rewrite orb_false_r, eqb_true_r.
Qed.

Lemma amounts_reading minimum maximum :
  amounts_hold ctx minimum maximum = amount_accepted minimum maximum (amount (payment input)).
Proof.
  unfold amounts_hold, amount_accepted, limit_holds.
  destruct minimum, maximum; rewrite ?amount_reading; unfold fits; simpl; rewrite ?(Z.eqb_sym 0); done.
Qed.

(** A payment method type, on the payment. *)
Lemma request_reading pm t :
  request_holds ctx pm t =
    (pmt ← into_dir_value (request_pm_type t, pm);
     Ok (value_holds ctx pmt Relation.Positive (if is_card_type (request_pm_type t) then Weak else Strong) &&
         network_accepted (card_networks t) (card_network (method input)) &&
         currency_accepted (accepted_currencies t) (currency (payment input)) &&
         amount_accepted (minimum_amount t) (maximum_amount t) (amount (payment input)))).
Proof. unfold request_holds. by rewrite networks_reading, currencies_reading, amounts_reading. Qed.

End payment.
