(* ===== verification/KgraphTheorems.v ===== *)
(** * The knowledge graph of merchant connector accounts: the theorems

    The check of a connector's node in the graph that [make_mca_graph] builds is
    the direct reading of the accounts and of the configuration, and the
    connectors that routing keeps are those with an account that accepts the
    payment. *)

From S2P Require Import Prelude GraphTypes GraphBuilder GraphCheck GraphCheckFacts GraphSpec GraphCombine GraphTheorems GraphDenote.
From S2P Require Import Country Currency PaymentEnums EuclidEnums EuclidTypes EuclidAst EuclidDir Analyzer.
From S2P Require Import KgraphValues Kgraph KgraphFacts KgraphContext.

Section verdict.
Context (config : CountryCurrencyFilter).

Lemma builder_start_inv ctx :
  ∃ b, graph_err (make_domain DOMAIN_IDENTIFIER "Payment methods enabled for MerchantConnectorAccount") builder_new =
    (Ok 0, b) ∧ accounts_inv ctx [] b.
Proof.
  eexists. split; [reflexivity|]. split.
  - split; [|simpl; set_solver].
    exact (sr_preserves_elim _ _ builder_new (make_domain_wf DOMAIN_IDENTIFIER _) builder_new_wf).
  - intros c. apply lookup_empty.
Qed.

(** The graph of the accounts, or the error of the first account that has one. *)
Lemma make_mca_graph_spec ctx accts :
  match try_collect (account_holds ctx config) accts with
  | Ok vs => ∃ b, make_mca_graph accts config = Ok (build b) ∧ accounts_inv ctx vs b
  | Err e => make_mca_graph accts config = Err e
  end.
Proof.
  destruct (builder_start_inv ctx) as (b & Heq & Hinv). pose proof (accounts_run ctx config accts [] b Hinv) as Hrun.
  unfold make_mca_graph, sr_bind. rewrite Heq.
  destruct (try_collect _ accts) as [vs|e].
  - destruct Hrun as (b' & -> & Hinv'). eauto.
  - by destruct Hrun as (b' & ->).
Qed.

Lemma check_connector ctx vs b c fuel :
  accounts_inv (checking_context ctx) vs b → length (b_nodes b) < fuel →
  ∃ st, check_value_validity fuel (build b) None (DirValue_Connector (mkConnectorChoice c)) ctx empty_state =
    Some (Ok (value_holds (checking_context ctx) (DirValue_Connector (mkConnectorChoice c)) Relation.Positive Weak &&
              any id (verdicts_of c vs)), st).
Proof.
  intros [Hl Hinv] Hfuel. specialize (Hinv c). unfold connector_inv in Hinv. unfold check_value_validity.
  destruct (verdicts_of c vs) as [|v bs] eqn:Hbs; simpl value_map.
  { unfold connector_node in Hinv. rewrite Hinv. eexists. by rewrite andb_false_r. }
  destruct Hinv as (n & ms & Hn & He & Hw & Hms). unfold connector_node in Hn. rewrite Hn.
  pose proof (value_map_typed _ _ _ Hl Hn) as Ht. destruct Ht as (nd & Hnd & Hty).
  pose proof (layered_ranked _ _ Hl) as Hr.
  pose proof (eval_solution (build b) (checking_context ctx) None _ Hr) as HT.
  set (T := λ n, eval _ _ _ _ n) in HT.
  destruct (check_node_inner_computes (build b) (checking_context ctx) None (layer connector_value b)
    T fuel n nd Relation.Positive Weak empty_state) as (res & st & Hres & Hv & _); try done.
  { apply Hl. }
  rewrite (root_solution (checking_context ctx) connector_value b n (connector_node c) ms (v :: bs) T) in Hv;
    [|done|by exists nd|exact He|intros p Hp; by apply Hw|exact Hms|exact HT].
  exists st. unfold check_node. change (resolve_domains (build b) None) with (Ok (E := GraphError) (@None (list DomainId))).
  cbv iota beta. rewrite Hres. simpl.
  unfold any_holds in Hv. rewrite orb_false_r in Hv. unfold value_holds.
  destruct res as [u|[]]; simpl in Hv |- *; try done; by rewrite Hv.
Qed.

(** [C8] The graph of the accounts says of every connector, in every context,
    what the accounts and the configuration say when they are read directly: with
    enough fuel for the nodes of the graph the connector is valid when the context
    has it (or names no connector) and an account of it accepts; [make_mca_graph]
    fails exactly when the direct reading of an account fails, with the error of
    the first such account. *)
Theorem mca_graph_verdict accts ctx :
  match try_collect (account_holds (checking_context ctx) config) accts with
  | Err e => make_mca_graph accts config = Err e
  | Ok vs => ∃ g, make_mca_graph accts config = Ok g ∧
      ∀ c fuel, length (nodes g) < fuel →
        fst <$> check_value_validity fuel g None (DirValue_Connector (mkConnectorChoice c)) ctx empty_state =
          Some (Ok (value_holds (checking_context ctx) (DirValue_Connector (mkConnectorChoice c)) Relation.Positive Weak &&
                    any id (verdicts_of c vs)))
  end.
Proof.
  pose proof (make_mca_graph_spec (checking_context ctx) accts) as Hspec.
  destruct (try_collect _ accts) as [vs|e]; [|done]. destruct Hspec as (b & Hg & Hinv).
  exists (build b). split; [done|]. intros c fuel Hfuel.
  destruct (check_connector ctx vs b c fuel Hinv Hfuel) as (st & ->). done.
Qed.

(** The other conditions on a choice of routing. *)
Definition permitted (eligible_connectors : option (list RoutableConnectors)) (active_mca_ids : gset string)
    (choice : RoutableConnectorChoice) : bool :=
  match eligible_connectors with None => true | Some l => bool_decide (choice_connector choice ∈ l) end &&
  match merchant_connector_id choice with Some id => bool_decide (id ∈ active_mca_ids) | None => false end.

Lemma filter_choices_spec fuel g ctx eligible active chosen p :
  (∀ c, ∃ st, check_value_validity fuel g None (DirValue_Connector (mkConnectorChoice c)) ctx empty_state =
    Some (Ok (p c), st)) →
  filter_choices fuel g ctx eligible active chosen =
    Some (Ok (List.filter (λ ch, p (choice_connector ch) && permitted eligible active ch) chosen)).
Proof.
  intros Hp. induction chosen as [|ch chosen IH]; [done|]. simpl.
  destruct (Hp (choice_connector ch)) as (st & ->). simpl. rewrite IH. simpl. rewrite <- andb_assoc.
  fold (permitted eligible active ch). by destruct (_ && _).
Qed.

(** The graph of the accounts and a payment: the choices that are kept. *)
Lemma filtering_run accts input g vals eligible active chosen fuel :
  make_mca_graph accts config = Ok g → into_context input = Ok vals → length (nodes g) < fuel →
  ∃ vs, try_collect (account_holds (checking_context (from_dir_values vals)) config) accts = Ok vs ∧
    perform_cgraph_filtering fuel g chosen input eligible active =
      Some (Ok (List.filter (λ ch, any id (verdicts_of (choice_connector ch) vs) && permitted eligible active ch) chosen)).
Proof.
  intros Hg Hvals Hfuel.
  pose proof (make_mca_graph_spec (checking_context (from_dir_values vals)) accts) as Hspec.
  destruct (try_collect _ accts) as [vs|e]; [|congruence]. destruct Hspec as (b & Hb & Hinv).
  exists vs. split; [done|]. unfold perform_cgraph_filtering. rewrite Hvals. rewrite Hb in Hg. injection Hg as <-.
  apply (filter_choices_spec _ _ _ _ _ _ (λ c, any id (verdicts_of c vs))). intros c.
  destruct (check_connector _ vs b c fuel Hinv Hfuel) as (st & Hc). exists st. rewrite Hc.
  by rewrite (connector_weakly_present input vals Hvals).
Qed.

(** [C11] Filtering the connectors of a payment with the graph of the merchant's
    accounts fails only when the payment has no context; otherwise it keeps, in
    their order, exactly the choices whose connector has an account that accepts
    the payment, that are eligible, and whose own account is active. *)
Theorem cgraph_filtering_outcome accts input g eligible active chosen fuel :
  make_mca_graph accts config = Ok g → length (nodes g) < fuel →
  match into_context input with
  | Err _ => perform_cgraph_filtering fuel g chosen input eligible active = Some (Err KgraphAnalysisError)
  | Ok vals => ∃ vs, try_collect (account_holds (checking_context (from_dir_values vals)) config) accts = Ok vs ∧
      perform_cgraph_filtering fuel g chosen input eligible active =
        Some (Ok (List.filter (λ ch, any id (verdicts_of (choice_connector ch) vs) && permitted eligible active ch) chosen))
  end.
Proof.
  intros Hg Hfuel. destruct (into_context input) as [vals|e] eqn:Hvals; [by apply filtering_run|].
  unfold perform_cgraph_filtering. by rewrite Hvals.
Qed.

(** ** What a kept choice was offered *)

(** A payment method type of an account takes the payment. *)
Definition offered (input : BackendInput) (t : RequestPaymentMethodTypes) : bool :=
  network_accepted (card_networks t) (card_network (method input)) &&
  currency_accepted (accepted_currencies t) (currency (payment input)) &&
  amount_accepted (minimum_amount t) (maximum_amount t) (amount (payment input)).

(** The payment methods of an account that have types. *)
Definition enabled_types (mca : MCACGraphData) : list (PaymentMethod * list RequestPaymentMethodTypes) :=
  omap (λ e, match payment_method_types e with None | Some [] => None | Some ts => Some (enabled_pm e, ts) end)
    (default [] (payment_methods_enabled mca)).

Lemma verdicts_of_true c vs : any id (verdicts_of c vs) = true ↔ (c, true) ∈ vs.
Proof.
  rewrite any_true. unfold verdicts_of. split.
  - intros (v & ([c' v'] & Hin & Hv)%list_elem_of_omap & Ht). simpl in *. case_bool_decide; by simplify_eq.
  - intros Hin. exists true. split; [|done]. apply list_elem_of_omap. exists (c, true).
    split; [done|]. simpl. by rewrite bool_decide_eq_true_2.
Qed.

Lemma try_collect_elem {E A B} (f : A → result E B) l ys y :
  try_collect f l = Ok ys → y ∈ ys → ∃ x, x ∈ l ∧ f x = Ok y.
Proof.
  intros Hl%try_collect_Forall2 Hy. apply list_elem_of_lookup in Hy as [i Hi].
  destruct (Forall2_lookup_r _ _ _ _ _ Hl Hi) as (x & Hx & Heq). exists x. split; [|done].
  by eapply list_elem_of_lookup_2.
Qed.

Section kept.
Context (input : BackendInput) (vals : list DirValue) (Hvals : into_context input = Ok vals).

Abbreviation ctx := (checking_context (from_dir_values vals)).

Lemma enabled_offered e :
  enabled_holds ctx e = Ok (Some true) →
  ∃ ts t, payment_method_types e = Some ts ∧ t ∈ ts ∧
    payment_method (method input) = Some (enabled_pm e) ∧ offered input t = true.
Proof.
  unfold enabled_holds. destruct (payment_method_types e) as [[|t0 ts]|]; try done.
  destruct (try_collect _ (t0 :: ts)) as [hs|] eqn:Hhs; [|done]. simpl. intros [= [Hm Hany]%andb_true_iff].
  rewrite (method_reading input vals Hvals) in Hm. apply bool_decide_eq_true in Hm.
  apply any_true in Hany as (h & Hh & Ht). unfold id in Ht. subst h.
  destruct (try_collect_elem _ _ _ _ Hhs Hh) as (t & Hin & Ht).
  exists (t0 :: ts), t. split_and!; try done. rewrite (request_reading input vals Hvals) in Ht.
  destruct (into_dir_value _); simpl in Ht; [|done]. injection Ht as Ht. unfold offered.
  by destruct (value_holds _ _ _ _), (network_accepted _ _), (currency_accepted _ _).
Qed.

Lemma account_offered mca c :
  account_holds ctx config mca = Ok (c, true) →
  from_str (A := RoutableConnectors) (connector_name mca) = Some c ∧
  (enabled_types mca = [] ∨ ∃ pm ts t, (pm, ts) ∈ enabled_types mca ∧ t ∈ ts ∧
    payment_method (method input) = Some pm ∧ offered input t = true).
Proof.
  unfold account_holds. destruct (from_str (connector_name mca)) as [c'|]; [|done]. simpl.
  destruct (try_collect _ _) as [pms|] eqn:Hpms; [|done]. simpl.
  destruct (config_holds _ _ _) as [cfg|]; [|done]. simpl. intros [= -> [_ Hany]%andb_true_iff].
  split; [done|]. apply orb_true_iff in Hany as [Hany|Hnone].
  - right. apply any_true in Hany as (h & (o & Ho & Hh)%list_elem_of_omap & Ht). unfold id in Hh, Ht. subst o h.
    destruct (try_collect_elem _ _ _ _ Hpms Ho) as (e & He & Hok).
    destruct (enabled_offered e Hok) as (ts & t & Hts & Hin & Hpm & Hoff).
    exists (enabled_pm e), ts, t. split_and!; try done. apply list_elem_of_omap. exists e. split; [done|].
    rewrite Hts. by destruct ts; [set_solver|].
  - left. apply bool_decide_eq_true in Hnone. unfold enabled_types. apply try_collect_Forall2 in Hpms.
    revert Hnone. induction Hpms as [|e o l pms He Hl IH]; [done|]. simpl. unfold id at 1.
    unfold enabled_holds in He. destruct (payment_method_types e) as [[|t ts]|]; simplify_eq; [exact IH| |exact IH].
    destruct (try_collect _ (t :: ts)); simplify_eq. simpl in He. by injection He as <-.
Qed.

End kept.

(** [C12] A connector that filtering keeps was offered the payment: one of the
    merchant's accounts of this connector either names no payment method type at
    all, or enables the payment's method with a type whose card networks,
    currencies and amount limits take the payment's network, currency and amount.
    The choice was one of those to filter, is eligible, and its account is
    active. *)
Theorem kept_choice_offered accts input g eligible active chosen fuel kept choice :
  make_mca_graph accts config = Ok g → length (nodes g) < fuel →
  perform_cgraph_filtering fuel g chosen input eligible active = Some (Ok kept) → choice ∈ kept →
  choice ∈ chosen ∧ permitted eligible active choice = true ∧
  ∃ mca, mca ∈ accts ∧ from_str (A := RoutableConnectors) (connector_name mca) = Some (choice_connector choice) ∧
    (enabled_types mca = [] ∨ ∃ pm ts t, (pm, ts) ∈ enabled_types mca ∧ t ∈ ts ∧
      payment_method (method input) = Some pm ∧ offered input t = true).
Proof.
  intros Hg Hfuel Hrun Hin.
  destruct (into_context input) as [vals|e] eqn:Hvals; [|unfold perform_cgraph_filtering in Hrun; by rewrite Hvals in Hrun].
  destruct (filtering_run accts input g vals eligible active chosen fuel Hg Hvals Hfuel) as (vs & Hvs & Heq).
  rewrite Heq in Hrun. injection Hrun as <-. apply list_elem_of_In, filter_In in Hin as [Hch [Hv Hp]%andb_true_iff].
  split; [by apply list_elem_of_In|]. split; [done|]. apply verdicts_of_true in Hv.
  destruct (try_collect_elem _ _ _ _ Hvs Hv) as (mca & Hmca & Hacct). exists mca. split; [done|].
  by apply (account_offered input vals Hvals).
Qed.

End verdict.

(** ** The data of the tests of [mca.rs] *)

Section tests.

Definition test_type (t : PaymentMethodType) (networks : list CardNetwork) (c : Currency) : RequestPaymentMethodTypes := {|
  request_pm_type := t;
  card_networks := Some networks;
  accepted_currencies := Some (EnableOnly [c]);
  minimum_amount := Some 10%Z;
  maximum_amount := Some 1000%Z;
|}.

Definition test_account : MCACGraphData := {|
  connector_name := "stripe";
  payment_methods_enabled := Some [{|
    enabled_pm := PaymentMethod_Card;
    payment_method_types := Some [
      test_type PaymentMethodType_Credit [CardNetwork_Visa; CardNetwork_Mastercard] Currency_INR;
      test_type PaymentMethodType_Debit [CardNetwork_Maestro; CardNetwork_JCB] Currency_GBP];
  |}];
|}.

Definition test_filter (currencies : list Currency) : CurrencyCountryFlowFilter := {|
  filter_currency := Some currencies;
  filter_country := Some [CountryAlpha2_IN];
  not_available_flows := Some (Some CaptureMethod_Manual);
|}.

Definition test_config : CountryCurrencyFilter := {|
  connector_configs := {[RoutableConnectors_Stripe := [
    (FilterPaymentMethodType PaymentMethodType_Credit, test_filter [Currency_INR; Currency_USD]);
    (FilterPaymentMethodType PaymentMethodType_Debit, test_filter [Currency_GBP; Currency_PHP])]]};
  default_configs := None;
|}.

Definition test_graph : ConstraintGraph :=
  match make_mca_graph [test_account] test_config with Ok g => g | Err _ => build builder_new end.

Lemma test_graph_made : make_mca_graph [test_account] test_config = Ok test_graph.
Proof.
  assert (is_ok (make_mca_graph [test_account] test_config) = true) as Hok by (vm_compute; reflexivity).
  unfold test_graph. by destruct (make_mca_graph _ _).
Qed.

Definition stripe_value : DirValue := DirValue_Connector (mkConnectorChoice RoutableConnectors_Stripe).

(** Whether [key_value_analysis] of the connector is [Ok]. *)
Definition test_analysis (vals : list DirValue) : option bool :=
  '(res, _) ← key_value_analysis 500 test_graph None stripe_value (from_dir_values (stripe_value :: vals)) empty_state;
  Some (is_ok res).

Definition card (t : CardType) (n : option CardNetwork) (c : Currency) (a : Z) : list DirValue :=
  [DirValue_PaymentMethod PaymentMethod_Card; DirValue_CardType t] ++ option_list (DirValue_CardNetwork <$> n) ++
  [DirValue_PaymentCurrency c; DirValue_PaymentAmount (mkNumValue a None)].

(** The assertions of the tests. *)
Example mca_tests :
  test_analysis (card CardType_Credit (Some CardNetwork_Visa) Currency_INR 101) = Some true ∧
  test_analysis (card CardType_Debit (Some CardNetwork_Maestro) Currency_GBP 100) = Some true ∧
  test_analysis (card CardType_Debit (Some CardNetwork_Maestro) Currency_PHP 100) = Some false ∧
  test_analysis (card CardType_Debit (Some CardNetwork_Visa) Currency_GBP 7) = Some false ∧
  test_analysis (card CardType_Debit None Currency_GBP 7) = Some false ∧
  test_analysis (tail (card CardType_Debit (Some CardNetwork_Visa) Currency_GBP 100)) = Some false.
Proof. split_and!; vm_compute; reflexivity. Qed.

Definition test_payment (c : Currency) (a : Z) : BackendInput := {|
  input_metadata := None;
  payment := {| amount := a; currency := c; authentication_type := None; card_bin := None; extended_card_bin := None;
    capture_method := None; business_country := None; billing_country := Some Country_India; business_label := None;
    setup_future_usage := None; transaction_initiator := None; surcharge_amount := None |};
  method := {| payment_method := Some PaymentMethod_Card; payment_method_type := Some PaymentMethodType_Credit;
    card_network := Some CardNetwork_Visa; card_discovery := None |};
  acquirer_data := None;
  customer_device_data := None;
  issuer_data := None;
  mandate := {| mandate_acceptance_type := None; mandate_type := None; payment_type := None |};
|}.

Definition test_choice (c : RoutableConnectors) (id : string) : RoutableConnectorChoice := {|
  choice_kind := FullStruct;
  choice_connector := c;
  merchant_connector_id := Some id;
|}.

(** Stripe with an active and with an inactive account, and a connector without
    an account. *)
Definition test_chosen : list RoutableConnectorChoice :=
  [test_choice RoutableConnectors_Adyen "mca_1"; test_choice RoutableConnectors_Stripe "mca_1";
   test_choice RoutableConnectors_Stripe "mca_2"].

Definition test_filtering (input : BackendInput) : option (result RoutingError (list RoutableConnectorChoice)) :=
  perform_cgraph_filtering 500 test_graph test_chosen input None {["mca_1"%string]}.

Lemma test_graph_fuel : length (nodes test_graph) < 500.
Proof. apply Nat.ltb_lt. vm_compute. reflexivity. Qed.

(** Zero is within any limits. *)
Example test_filterings :
  test_filtering (test_payment Currency_INR 101) = Some (Ok [test_choice RoutableConnectors_Stripe "mca_1"]) ∧
  test_filtering (test_payment Currency_INR 0) = Some (Ok [test_choice RoutableConnectors_Stripe "mca_1"]) ∧
  test_filtering (test_payment Currency_INR 7) = Some (Ok []) ∧
  test_filtering (test_payment Currency_USD 101) = Some (Ok []).
Proof. split_and!; vm_compute; reflexivity. Qed.

Lemma mca_graph_verdict_witness :
  ∃ vs g, try_collect (account_holds (checking_context (from_dir_values [])) test_config) [test_account] = Ok vs ∧
    make_mca_graph [test_account] test_config = Ok g ∧
    fst <$> check_value_validity (S (length (nodes g))) g None stripe_value (from_dir_values []) empty_state =
      Some (Ok (any id (verdicts_of RoutableConnectors_Stripe vs))).
Proof.
  pose proof (mca_graph_verdict test_config [test_account] (from_dir_values [])) as H.
  destruct (try_collect _ _) as [vs|e] eqn:Hvs; [|rewrite test_graph_made in H; done].
  destruct H as (g & Hg & Hcheck). exists vs, g. split; [done|]. split; [done|].
  exact (Hcheck RoutableConnectors_Stripe (S (length (nodes g))) ltac:(lia)).
Defined.

Lemma cgraph_filtering_outcome_witness :
  make_mca_graph [test_account] test_config = Ok test_graph ∧
  (∃ vs, is_ok (into_context (test_payment Currency_INR 101)) = true ∧
    test_filtering (test_payment Currency_INR 101) =
      Some (Ok (List.filter (λ ch, any id (verdicts_of (choice_connector ch) vs) && permitted None {["mca_1"%string]} ch)
        test_chosen))).
Proof.
  split; [exact test_graph_made|].
  destruct (cgraph_filtering_outcome test_config [test_account] (test_payment Currency_INR 101) test_graph None
    {["mca_1"%string]} test_chosen 500 test_graph_made test_graph_fuel) as (vs & _ & Heq).
  exists vs. split; [reflexivity|exact Heq].
Defined.

Lemma kept_choice_offered_witness :
  test_filtering (test_payment Currency_INR 101) = Some (Ok [test_choice RoutableConnectors_Stripe "mca_1"]) ∧
  ∃ mca, mca ∈ [test_account] ∧ from_str (A := RoutableConnectors) (connector_name mca) = Some RoutableConnectors_Stripe.
Proof.
  assert (test_filtering (test_payment Currency_INR 101) = Some (Ok [test_choice RoutableConnectors_Stripe "mca_1"]))
    as Hrun by (vm_compute; reflexivity).
  split; [exact Hrun|]. unfold test_filtering in Hrun.
  destruct (kept_choice_offered test_config [test_account] (test_payment Currency_INR 101) test_graph None
    {["mca_1"%string]} test_chosen 500 [test_choice RoutableConnectors_Stripe "mca_1"]
    (test_choice RoutableConnectors_Stripe "mca_1") test_graph_made test_graph_fuel Hrun
    (proj2 (list_elem_of_singleton _ _) eq_refl)) as (_ & _ & mca & Hin & Hc & _).
  exists mca. split; [exact Hin|exact Hc].
Defined.

(** ** What the filters of the configuration do not restrict *)

(** A configuration with one filter on a payment method type. *)
Definition filter_config (t : PaymentMethodType) (c : Currency) : CountryCurrencyFilter := {|
  connector_configs := {[RoutableConnectors_Stripe := [(FilterPaymentMethodType t,
    {| filter_currency := Some [c]; filter_country := None; not_available_flows := None |})]]};
  default_configs := None;
|}.

Definition config_reading (t : PaymentMethodType) (c : Currency) (vals : list DirValue) : result KgraphError bool :=
  config_holds (checking_context (from_dir_values vals)) (filter_config t c) RoutableConnectors_Stripe.

(** A filter on ACH names the bank debit of that name: a bank transfer by ACH is
    not restricted by it. *)
Example ach_filter_skips_transfers :
  config_reading PaymentMethodType_Ach Currency_USD
    [DirValue_BankTransferType BankTransferType_Ach; DirValue_PaymentCurrency Currency_EUR] = Ok true ∧
  config_reading PaymentMethodType_Ach Currency_USD
    [DirValue_BankDebitType BankDebitType_Ach; DirValue_PaymentCurrency Currency_EUR] = Ok false.
Proof. split; vm_compute; reflexivity. Qed.

(** A filter on credit cards names the payment method card: it restricts debit
    cards too, and so does a filter on debit cards. *)
Example card_filters_share_cards :
  config_reading PaymentMethodType_Credit Currency_USD (card CardType_Debit None Currency_EUR 1) = Ok false ∧
  config_reading PaymentMethodType_Debit Currency_USD (card CardType_Credit None Currency_EUR 1) = Ok false ∧
  config_holds (checking_context (from_dir_values (card CardType_Credit None Currency_GBP 1))) test_config
    RoutableConnectors_Stripe = Ok true.
Proof. split_and!; vm_compute; reflexivity. Qed.

End tests.
