(* ===== verification/RoutingInput.v ===== *)
(** * The routing input of a payment

    [make_dsl_input] of [crates/router/src/core/payments/routing.rs] (version 1
    of the API): the [BackendInput] that rules are evaluated on and that the
    knowledge graph is asked about, from the rows and the data of a payment.

    The records have the fields that the function reads.  A JSON value that it
    looks into is given by what it finds there. *)

From S2P Require Import Prelude Country Currency PaymentEnums EuclidEnums EuclidTypes EuclidAst.

(** ** Payment method data *)

(** The fields of the card variants; a network token has the last two. *)
Record CardData := {
  card_number : string;
  card_issuing_country_code : option string;
  card_data_network : option CardNetwork;
  card_issuer : option string;
}.

Record TokenData := {
  token_network : option CardNetwork;
  token_issuer : option string;
}.

Inductive PaymentMethodData :=
| PMD_Card (card : CardData)
| PMD_CardWithOptionalCVC (card : CardData)
| PMD_CardWithNetworkTokenDetails (card_details : CardData)
| PMD_CardDetailsForNetworkTransactionId (card : CardData)
| PMD_CardWithLimitedDetails (card : CardData)
| PMD_NetworkTokenDetailsForNetworkTransactionId (token : TokenData)
| PMD_NetworkToken (token : TokenData)
| PMD_DecryptedWalletTokenDetailsForNetworkTransactionId
| PMD_CardRedirect | PMD_Wallet | PMD_PayLater | PMD_BankRedirect | PMD_BankDebit | PMD_BankTransfer
| PMD_Crypto | PMD_MandatePayment | PMD_Reward | PMD_RealTimePayment | PMD_Upi | PMD_Voucher
| PMD_GiftCard | PMD_CardToken | PMD_OpenBanking | PMD_MobilePayment.

(** ** Rows *)

Record NetAmount := {
  order_amount : Z;
  shipping_cost : option Z;
  order_tax_amount : option Z;
  net_surcharge_amount : option Z;
  tax_on_surcharge : option Z;
  installment_interest : option Z;
  offer_amount : option Z;
}.

(** [NetAmount::get_total_amount]. *)
Definition get_total_amount (self : NetAmount) : Z :=
  wrap_i64 (order_amount self + default 0 (shipping_cost self) + default 0 (order_tax_amount self) +
    default 0 (net_surcharge_amount self) + default 0 (tax_on_surcharge self) +
    default 0 (installment_interest self) - default 0 (offer_amount self))%Z.

(** [attempt_card_isin] and [attempt_card_extended_bin] are the strings at
    [card.card_isin] and [card.card_extended_bin] of the JSON
    [payment_method_data]. *)
Record DslAttempt := {
  attempt_payment_method : option PaymentMethod;
  attempt_payment_method_type : option PaymentMethodType;
  attempt_authentication_type : option AuthenticationType;
  attempt_capture_method : option CaptureMethod;
  net_amount : NetAmount;
  attempt_card_isin : option string;
  attempt_card_extended_bin : option string;
  external_surcharge_amount : option Z;
  attempt_has_installments : bool;
}.

(** [intent_routing_parameters] is the metadata, parsed as a map of strings. *)
Record DslIntent := {
  off_session : option bool;
  intent_business_country : option CountryAlpha2;
  intent_business_label : option string;
  intent_setup_future_usage : option FutureUsage;
  intent_routing_parameters : result unit (option (gmap string string));
  intent_profile_id : option string;
}.

Inductive AcceptanceType := AcceptanceOnline | AcceptanceOffline.
Inductive MandateDataType := MandateSingleUse | MandateMultiUse.

Record SetupMandate := {
  customer_acceptance : option AcceptanceType;
  setup_mandate_type : option MandateDataType;
}.

Inductive RecurringDetails :=
| MandateId (id : string)
| PaymentMethodId (id : string)
| ProcessorPaymentToken (token : string)
| OtherRecurringDetails.

Record PaymentsDslInput := {
  setup_mandate : option SetupMandate;
  dsl_attempt : DslAttempt;
  dsl_intent : DslIntent;
  dsl_payment_method_data : option PaymentMethodData;
  dsl_billing_country : option CountryAlpha2;
  recurring_details : option RecurringDetails;
  dsl_currency : Currency;
}.

(** ** The input *)

(** [ForeignFrom<storage_enums::CaptureMethod> for Option<dsl_enums::CaptureMethod>]. *)
Definition dsl_capture_method (value : CaptureMethod) : option CaptureMethod :=
  match value with
  | CaptureMethod_Automatic => Some CaptureMethod_Automatic
  | CaptureMethod_SequentialAutomatic => Some CaptureMethod_SequentialAutomatic
  | CaptureMethod_Manual => Some CaptureMethod_Manual
  | _ => None
  end.

Definition data_card_network (pm_data : PaymentMethodData) : option CardNetwork :=
  match pm_data with
  | PMD_Card card | PMD_CardWithOptionalCVC card | PMD_CardWithNetworkTokenDetails card
  | PMD_CardDetailsForNetworkTransactionId card | PMD_CardWithLimitedDetails card => card_data_network card
  | PMD_NetworkTokenDetailsForNetworkTransactionId token | PMD_NetworkToken token => token_network token
  | _ => None
  end.

Definition data_card_issuer (pm_data : PaymentMethodData) : option string :=
  match pm_data with
  | PMD_Card card | PMD_CardWithOptionalCVC card | PMD_CardWithNetworkTokenDetails card
  | PMD_CardDetailsForNetworkTransactionId card | PMD_CardWithLimitedDetails card => card_issuer card
  | PMD_NetworkTokenDetailsForNetworkTransactionId token | PMD_NetworkToken token => token_issuer token
  | _ => None
  end.

(** The card whose number and issuing country are read. *)
Definition data_card (pm_data : PaymentMethodData) : option CardData :=
  match pm_data with
  | PMD_Card card | PMD_CardDetailsForNetworkTransactionId card | PMD_CardWithLimitedDetails card => Some card
  | _ => None
  end.

Definition issuer_country_of (pm_data : PaymentMethodData) : option Country :=
  card ← data_card pm_data;
  code ← card_issuing_country_code card;
  from_alpha2 <$> from_str (A := CountryAlpha2) code.

(** The first digits of the number, when there are any. *)
Definition bin (digits : nat) (pm_data : PaymentMethodData) : option string :=
  card ← data_card pm_data;
  let bin := String.substring 0 digits (card_number card) in
  if bool_decide (bin = ""%string) then None else Some bin.

Definition first_some {A} (o o' : option A) : option A := match o with Some a => Some a | None => o' end.

Definition mandate_data_of (input : PaymentsDslInput) : MandateData := {|
  mandate_acceptance_type :=
    mandate_data ← setup_mandate input;
    (λ cat, match cat with
            | AcceptanceOnline => MandateAcceptanceType_Online
            | AcceptanceOffline => MandateAcceptanceType_Offline
            end) <$> customer_acceptance mandate_data;
  mandate_type :=
    mandate_data ← setup_mandate input;
    (λ mt, match mt with
           | MandateSingleUse => MandateType_SingleUse
           | MandateMultiUse => MandateType_MultiUse
           end) <$> setup_mandate_type mandate_data;
  payment_type := Some
    match recurring_details input with
    | Some (ProcessorPaymentToken _) => PaymentType_PptMandate
    | _ => match setup_mandate input with
           | None => PaymentType_NonMandate
           | Some _ => PaymentType_SetupMandate
           end
    end;
|}.

Definition payment_input_of (input : PaymentsDslInput) : PaymentInput :=
  let attempt := dsl_attempt input in
  let intent := dsl_intent input in
  {| amount := get_total_amount (net_amount attempt);
     currency := dsl_currency input;
     authentication_type := attempt_authentication_type attempt;
     card_bin := first_some (dsl_payment_method_data input ≫= bin 6) (attempt_card_isin attempt);
     extended_card_bin := first_some (dsl_payment_method_data input ≫= bin 8) (attempt_card_extended_bin attempt);
     capture_method := attempt_capture_method attempt ≫= dsl_capture_method;
     business_country := from_alpha2 <$> intent_business_country intent;
     billing_country := from_alpha2 <$> dsl_billing_country input;
     business_label := intent_business_label intent;
     setup_future_usage := intent_setup_future_usage intent;
     transaction_initiator := Some
       match off_session intent with
       | Some true => TransactionInitiator_Merchant
       | _ => TransactionInitiator_Customer
       end;
     surcharge_amount := external_surcharge_amount attempt |}.

Definition issuer_data_of (input : PaymentsDslInput) : option IssuerDataInput :=
  let name := dsl_payment_method_data input ≫= data_card_issuer in
  let country := dsl_payment_method_data input ≫= issuer_country_of in
  match name, country with
  | None, None => None
  | _, _ => Some {| issuer_name := name; issuer_country := country |}
  end.

Definition backend_input_of (input : PaymentsDslInput) : BackendInput :=
     {| input_metadata := match intent_routing_parameters (dsl_intent input) with Ok m => m | Err _ => None end;
        payment := payment_input_of input;
        method := {| payment_method := attempt_payment_method (dsl_attempt input);
                     payment_method_type := attempt_payment_method_type (dsl_attempt input);
                     card_network := dsl_payment_method_data input ≫= data_card_network;
                     card_discovery := None |};
        acquirer_data := None;
        customer_device_data := None;
        issuer_data := issuer_data_of input;
        mandate := mandate_data_of input |}.

(** [make_dsl_input]: it always returns [Ok]. *)
Definition make_dsl_input {E} (input : PaymentsDslInput) : result E BackendInput := Ok (backend_input_of input).
