(* ===== verification/Routing.v ===== *)
(** * Routing a payment to connectors

    The static routing stages and the eligibility analysis of
    [crates/router/src/core/payments/routing.rs], for payments in version 1 of
    the API: a cached algorithm, compiled when it is not cached, chooses
    connectors; the knowledge graph of the merchant's accounts, built when it is
    not cached, filters them; the merchant's default connectors are appended.

    The caches are state.  What the database answers is the record [Storage], an
    error where it can fail; the random index of a volume split and the answer
    of the decision engine are arguments. *)

From S2P Require Import Prelude GraphTypes GraphBuilder GraphCheck.
From S2P Require Import Country Currency PaymentEnums EuclidEnums EuclidTypes EuclidAst EuclidDir EuclidLowering EuclidVir.
From S2P Require Import KgraphValues Kgraph RoutingInput.

(** ** Algorithms *)

Abbreviation RuleProgram := (Program Metadata (Comparison Metadata) ConnectorSelection) (only parsing).
Abbreviation CompiledProgram := (Program Metadata (DirLowering.ValuedComparison Metadata) ConnectorSelection) (only parsing).

Inductive StaticRoutingAlgorithm :=
| Algorithm_Single (connector : RoutableConnectorChoice)
| Algorithm_Priority (connectors : list RoutableConnectorChoice)
| Algorithm_VolumeSplit (splits : list ConnectorVolumeSplit)
| Algorithm_Advanced (program : RuleProgram)
| Algorithm_ThreeDsDecisionRule.

Inductive CachedAlgorithm :=
| Cached_Single (connector : RoutableConnectorChoice)
| Cached_Priority (connectors : list RoutableConnectorChoice)
| Cached_VolumeSplit (splits : list ConnectorVolumeSplit)
| Cached_Advanced (interpreter : CompiledProgram).

Inductive StraightThroughAlgorithm :=
| StraightThrough_Single (connector : RoutableConnectorChoice)
| StraightThrough_Priority (connectors : list RoutableConnectorChoice)
| StraightThrough_VolumeSplit (splits : list ConnectorVolumeSplit).

Inductive RoutingApproach :=
| SuccessRateExploitation
| SuccessRateExploration
| ContractBasedRouting
| DebitRouting
| RuleBasedRouting
| VolumeBasedRouting
| StraightThroughRouting
| DefaultFallback
| OtherApproach (name : string).

Record RoutingConnectorOutcome := {
  connectors : list RoutableConnectorChoice;
  is_volume_split : bool;
}.

(** [impl PartialEq for RoutableConnectorChoice]: the kind does not count. *)
Definition same_choice (self other : RoutableConnectorChoice) : bool :=
  bool_decide (choice_connector self = choice_connector other) &&
  bool_decide (merchant_connector_id self = merchant_connector_id other).

(** ** Volume splits *)

(** [WeightedIndex::new] and one sample: the index, or [None] for weights that
    are no distribution. *)
Class Sampler : Type := weighted_index : list Z → option nat.

(** The index is that of a positive weight. *)
Class SamplerLaws `{Sampler} : Prop :=
  weighted_index_positive ws i : weighted_index ws = Some i → ∃ w, ws !! i = Some w ∧ (0 < w)%Z.

Section stages.
Context `{Sampler}.

Definition perform_volume_split (splits : list ConnectorVolumeSplit) :
    result RoutingError (list RoutableConnectorChoice) :=
  match weighted_index (split <$> splits) with
  | None => Err VolumeSplitFailed
  | Some idx =>
      match splits !! idx with
      | None => Err VolumeSplitFailed
      | Some removed => Ok (split_connector <$> removed :: delete idx splits)
      end
  end.

(** ** Static routing *)

(** [execute_dsl_v1] with the conversion of its output. *)
Definition execute_dsl_v1 (backend_input : BackendInput) (interpreter : CompiledProgram) : StaticRoutingAlgorithm :=
  match selection (Vir.execute interpreter backend_input) with
  | Priority connectors => Algorithm_Priority connectors
  | VolumeSplit splits => Algorithm_VolumeSplit splits
  end.

Definition dsl_output_to_connectors (routing_output : StaticRoutingAlgorithm) :
    result RoutingError (list RoutableConnectorChoice) :=
  match routing_output with
  | Algorithm_Priority plist => Ok plist
  | Algorithm_VolumeSplit splits => map_err (λ _, DslFinalConnectorSelectionFailed) (perform_volume_split splits)
  | _ => Err DslIncorrectSelectionAlgorithm
  end.

Definition static_routing_v1 (routing_algorithm : CachedAlgorithm) (backend_input : BackendInput) :
    result RoutingError RoutingConnectorOutcome :=
  match routing_algorithm with
  | Cached_Single conn => Ok {| connectors := [conn]; is_volume_split := false |}
  | Cached_Priority plist => Ok {| connectors := plist; is_volume_split := false |}
  | Cached_VolumeSplit splits =>
      connectors ← map_err (λ _, ConnectorSelectionFailed) (perform_volume_split splits);
      Ok {| connectors := connectors; is_volume_split := true |}
  | Cached_Advanced interpreter =>
      let dsl_output := execute_dsl_v1 backend_input interpreter in
      let is_volume_split := match dsl_output with Algorithm_VolumeSplit _ => true | _ => false end in
      connectors ← dsl_output_to_connectors dsl_output;
      Ok {| connectors := connectors; is_volume_split := is_volume_split |}
  end.

(** [perform_straight_through_routing]: the connectors, and whether their
    eligibility is checked. *)
Definition perform_straight_through_routing (algorithm : StraightThroughAlgorithm) (creds_identifier : option string) :
    result RoutingError (list RoutableConnectorChoice * bool) :=
  match algorithm with
  | StraightThrough_Single conn => Ok ([conn], bool_decide (creds_identifier = None))
  | StraightThrough_Priority conns => Ok (conns, true)
  | StraightThrough_VolumeSplit splits =>
      connectors ← map_err (λ _, ConnectorSelectionFailed) (perform_volume_split splits);
      Ok (connectors, true)
  end.

(** [RoutingConnectorOutcome::resolve_or_fallback_with_approach]. *)
Definition resolve_or_fallback_with_approach (self : RoutingConnectorOutcome) (fallback : list RoutableConnectorChoice)
    (success_approach fallback_approach : RoutingApproach) : list RoutableConnectorChoice * RoutingApproach :=
  match connectors self with
  | [] => (fallback, fallback_approach)
  | _ => (connectors self, success_approach)
  end.

(** [RoutingConnectorOutcomeWithApproach::resolve_or_fallback]. *)
Definition resolve_or_fallback (self : list RoutableConnectorChoice * RoutingApproach)
    (fallback_connectors : list RoutableConnectorChoice) (fallback_approach : RoutingApproach) :
    list RoutableConnectorChoice * RoutingApproach :=
  match self.1 with
  | [] => (fallback_connectors, fallback_approach)
  | _ => self
  end.

End stages.

(** ** The environment *)

Inductive ConnectorType :=
| PaymentProcessor | PaymentVas | FinOperations | FizOperations | Networks | BankingEntities | NonBankingFinance
| PayoutProcessor | PaymentMethodAuth | AuthenticationProcessor | TaxProcessor | SurchargeProcessor
| BillingProcessor | VaultProcessor.

#[export] Instance ConnectorType_eq_dec : EqDecision ConnectorType.
Proof. solve_decision. Defined.

(** [MerchantConnectorAccountWithoutEncrypted]; the enabled payment methods are
    parsed from JSON. *)
Record MerchantConnectorAccount := {
  mca_id : string;
  mca_connector_name : string;
  mca_connector_type : ConnectorType;
  mca_payment_methods_enabled : option (result unit (list PaymentMethodsEnabled));
}.

(** The answers of the database: the algorithm of a profile, parsed from JSON,
    the enabled accounts and the default connectors of a profile. *)
Record Storage := {
  find_routing_algorithm : string → string → result RoutingError StaticRoutingAlgorithm;
  list_enabled_accounts : string → string → result unit (list MerchantConnectorAccount);
  find_default_config : string → result unit (list RoutableConnectorChoice);
}.

(** The configuration, the tenant, the merchant and the profile.  The reference
    of the profile to its algorithm is parsed from JSON. *)
Record Env := {
  store : Storage;
  pm_filters : list (string * PaymentMethodFilters);
  installment_connectors : PaymentMethod → PaymentMethodType → option (list string);
  redis_key_prefix : string;
  env_merchant_id : string;
  env_profile_id : string;
  profile_routing_algorithm : option (result unit (option string));
}.

Record Caches := {
  routing_cache : gmap (string * string) CachedAlgorithm;
  cgraph_cache : gmap (string * string) ConstraintGraph;
}.

Section routing.
Context `{Sampler} (env : Env).

Definition routing_key : string * string :=
  (redis_key_prefix env, String.append "routing_config_"
    (String.append (env_merchant_id env) (String.append "_" (env_profile_id env)))).

Definition cgraph_key : string * string :=
  (redis_key_prefix env, String.append "cgraph_"
    (String.append (env_merchant_id env) (String.append "_" (env_profile_id env)))).

(** *** The algorithm of the profile *)

Definition compile_algorithm (algorithm : StaticRoutingAlgorithm) : result RoutingError CachedAlgorithm :=
  match algorithm with
  | Algorithm_Single conn => Ok (Cached_Single conn)
  | Algorithm_Priority plist => Ok (Cached_Priority plist)
  | Algorithm_VolumeSplit splits => Ok (Cached_VolumeSplit splits)
  | Algorithm_Advanced program =>
      interpreter ← map_err (λ _, DslBackendInitError) (Vir.with_program ∅ program);
      Ok (Cached_Advanced interpreter)
  | Algorithm_ThreeDsDecisionRule => Err InvalidRoutingAlgorithmStructure
  end.

Definition refresh_routing_cache_v1 (algorithm_id : string) : sr Caches RoutingError CachedAlgorithm :=
  (algorithm <- sr_lift (find_routing_algorithm (store env) (env_profile_id env) algorithm_id) ;;
   cached_algorithm <- sr_lift (compile_algorithm algorithm) ;;
   sr_modify (λ s, {| routing_cache := <[routing_key := cached_algorithm]> (routing_cache s);
                      cgraph_cache := cgraph_cache s |}) ;;;
   sr_ret cached_algorithm)%sr.

Definition ensure_algorithm_cached_v1 (algorithm_id : string) : sr Caches RoutingError CachedAlgorithm := λ s,
  match routing_cache s !! routing_key with
  | Some algo => (Ok algo, s)
  | None => refresh_routing_cache_v1 algorithm_id s
  end.

(** [.ok()] on what an operation returns. *)
Definition sr_ok {S E E' A} (c : sr S E A) : sr S E' (option A) := λ s,
  match c s with (Ok a, s) => (Ok (Some a), s) | (Err _, s) => (Ok None, s) end.

(** [perform_static_routing_locally]: its only error is a reference that does not
    parse. *)
Definition perform_static_routing_locally (backend_input : BackendInput)
    (fallback_config : list RoutableConnectorChoice) :
    sr Caches unit (list RoutableConnectorChoice * RoutingApproach * bool) :=
  (routing_algorithm_id <- sr_lift (match profile_routing_algorithm env with
                                    | None => Ok None
                                    | Some (Ok id) => Ok id
                                    | Some (Err e) => Err e
                                    end) ;;
   cached_algorithm <- match routing_algorithm_id with
                       | None => sr_ret None
                       | Some id => sr_ok (ensure_algorithm_cached_v1 id)
                       end ;;
   let outcome :=
     match cached_algorithm with
     | None => None
     | Some algo => match static_routing_v1 algo backend_input with Ok out => Some out | Err _ => None end
     end in
   let outcome := default {| connectors := []; is_volume_split := false |} outcome in
   let success_approach := match cached_algorithm with Some _ => RuleBasedRouting | None => DefaultFallback end in
   sr_ret (resolve_or_fallback_with_approach outcome fallback_config success_approach DefaultFallback,
           is_volume_split outcome))%sr.

(** *** The decision engine *)

(** [perform_hybrid_routing_if_enabled]: [stage] is what the stage returns. *)
Definition perform_hybrid_routing_if_enabled (cutover_enabled : bool)
    (stage : result RoutingError (list RoutableConnectorChoice * RoutingApproach))
    (static_connectors : list RoutableConnectorChoice) (static_approach : RoutingApproach) :
    list RoutableConnectorChoice * RoutingApproach :=
  let has_active_routing_algorithm :=
    match profile_routing_algorithm env with Some (Ok (Some _)) => true | _ => false end in
  if negb has_active_routing_algorithm then (static_connectors, static_approach)
  else if cutover_enabled then
    let hybrid_stage_outcome := match stage with Ok out => out | Err _ => ([], DefaultFallback) end in
    resolve_or_fallback hybrid_stage_outcome static_connectors static_approach
  else (static_connectors, static_approach).

Definition static_dynamic_routing_v1_for_payments (cutover_enabled : bool)
    (stage : list RoutableConnectorChoice → result RoutingError (list RoutableConnectorChoice * RoutingApproach))
    (backend_input : BackendInput) (fallback_config : list RoutableConnectorChoice) :
    sr Caches unit (list RoutableConnectorChoice * RoutingApproach * bool) :=
  (static <- perform_static_routing_locally backend_input fallback_config ;;
   sr_ret (perform_hybrid_routing_if_enabled cutover_enabled (stage static.1.1) static.1.1 static.1.2, true))%sr.

(** *** The knowledge graph of the merchant *)

(** [MCACGraphData::foreign_try_from]. *)
Definition graph_data (mca : MerchantConnectorAccount) : result RoutingError MCACGraphData :=
  match mca_payment_methods_enabled mca with
  | Some (Err _) => Err KgraphCacheRefreshFailed
  | Some (Ok l) => Ok {| connector_name := mca_connector_name mca; payment_methods_enabled := Some l |}
  | None => Ok {| connector_name := mca_connector_name mca; payment_methods_enabled := None |}
  end.

(** The accounts that the graph is built from. *)
Definition graph_accounts (accounts : list MerchantConnectorAccount) : list MerchantConnectorAccount :=
  List.filter (λ mca, bool_decide (mca_connector_type mca = PaymentProcessor))
    (List.filter (λ mca, bool_decide (mca_connector_type mca ∉
      [PaymentVas; PaymentMethodAuth; PayoutProcessor; AuthenticationProcessor])) accounts).

(** The filters of the configuration, by connector. *)
Definition config_pm_filters : result RoutingError CountryCurrencyFilter :=
  connector_configs ← try_collect (λ p,
    c ← ok_or (RoutingInvalidConnectorName p.1) (from_str (A := RoutableConnectors) p.1); Ok (c, p.2))
    (List.filter (λ p, negb (bool_decide (p.1 = "default"%string))) (pm_filters env));
  Ok {| connector_configs := list_to_map connector_configs;
        default_configs := snd <$> List.find (λ p, bool_decide (p.1 = "default"%string)) (pm_filters env) |}.

(** The graph of the accounts that the database lists. *)
Definition merchant_graph : result RoutingError ConstraintGraph :=
  accounts ← map_err (λ _, KgraphCacheRefreshFailed)
    (list_enabled_accounts (store env) (env_merchant_id env) (env_profile_id env));
  api_mcas ← try_collect graph_data (graph_accounts accounts);
  config ← config_pm_filters;
  map_err (λ _, KgraphCacheRefreshFailed) (make_mca_graph api_mcas config).

Definition refresh_cgraph_cache : sr Caches RoutingError ConstraintGraph :=
  (cgraph <- sr_lift merchant_graph ;;
   sr_modify (λ s, {| routing_cache := routing_cache s;
                      cgraph_cache := <[cgraph_key := cgraph]> (cgraph_cache s) |}) ;;;
   sr_ret cgraph)%sr.

Definition get_merchant_cgraph : sr Caches RoutingError ConstraintGraph := λ s,
  match cgraph_cache s !! cgraph_key with
  | Some graph => (Ok graph, s)
  | None => refresh_cgraph_cache s
  end.

(** *** Eligibility *)

(** [perform_cgraph_filtering] with the cached graph.  The fuel is enough for any
    graph ([filtering_returns]); the context is made first. *)
Definition cgraph_filtering (chosen : list RoutableConnectorChoice) (backend_input : BackendInput)
    (eligible_connectors : option (list RoutableConnectors)) (active_mca_ids : gset string) :
    sr Caches RoutingError (list RoutableConnectorChoice) :=
  (sr_lift (map_err (λ _, KgraphAnalysisError) (into_context backend_input)) ;;;
   cgraph <- get_merchant_cgraph ;;
   sr_lift (default (Err KgraphAnalysisError)
     (perform_cgraph_filtering (S (length (nodes cgraph))) cgraph chosen backend_input eligible_connectors
        active_mca_ids)))%sr.

Definition perform_eligibility_analysis (chosen : list RoutableConnectorChoice) (payment_data : PaymentsDslInput)
    (eligible_connectors : option (list RoutableConnectors)) (active_mca_ids : gset string) :
    sr Caches RoutingError (list RoutableConnectorChoice) :=
  (backend_input <- sr_lift (make_dsl_input payment_data) ;;
   cgraph_filtering chosen backend_input eligible_connectors active_mca_ids)%sr.

Definition get_fallback_config (payment_data : PaymentsDslInput) :
    result RoutingError (list RoutableConnectorChoice) :=
  profile_id ← ok_or ProfileIdMissing (intent_profile_id (dsl_intent payment_data));
  map_err (λ _, FallbackConfigFetchFailed) (find_default_config (store env) profile_id).

Definition perform_fallback_routing (payment_data : PaymentsDslInput)
    (eligible_connectors : option (list RoutableConnectors)) (active_mca_ids : gset string) :
    sr Caches RoutingError (list RoutableConnectorChoice) :=
  (fallback_config <- sr_lift (get_fallback_config payment_data) ;;
   backend_input <- sr_lift (make_dsl_input payment_data) ;;
   cgraph_filtering fallback_config backend_input eligible_connectors active_mca_ids)%sr.

(** *** Installments *)

(** [get_installment_supported_connectors]: [None] when the payment is not in
    installments. *)
Definition get_installment_supported_connectors (payment_data : PaymentsDslInput) :
    option (list RoutableConnectors) :=
  let attempt := dsl_attempt payment_data in
  if attempt_has_installments attempt then
    Some match attempt_payment_method attempt, attempt_payment_method_type attempt with
         | Some payment_method, Some payment_method_type =>
             match installment_connectors env payment_method payment_method_type with
             | Some names => omap (from_str (A := RoutableConnectors)) names
             | None => []
             end
         | _, _ => []
         end
  else None.

Definition update_eligible_connectors_for_installments (payment_data : PaymentsDslInput)
    (eligible_connectors : option (list RoutableConnectors)) : option (list RoutableConnectors) :=
  match eligible_connectors with
  | Some existing =>
      Some match get_installment_supported_connectors payment_data with
           | None => existing
           | Some supported => List.filter (λ c, bool_decide (c ∈ existing)) supported
           end
  | None => get_installment_supported_connectors payment_data
  end.

(** *** Eligibility with fallback *)

Definition active_ids (accounts : list MerchantConnectorAccount) : gset string :=
  list_to_set (mca_id <$> accounts).

(** The appended choices: those of the fallback that are not selected. *)
Definition append_fallback (final_selection fallback : list RoutableConnectorChoice) :
    list RoutableConnectorChoice :=
  final_selection ++ List.filter (λ c, negb (any (same_choice c) final_selection)) fallback.

Definition perform_eligibility_analysis_with_fallback (chosen : list RoutableConnectorChoice)
    (payment_data : PaymentsDslInput) (eligible_connectors : option (list RoutableConnectors)) :
    sr Caches RoutingError (list RoutableConnectorChoice) :=
  let eligible_connectors := update_eligible_connectors_for_installments payment_data eligible_connectors in
  match list_enabled_accounts (store env) (env_merchant_id env) (env_profile_id env) with
  | Err _ =>
      sr_lift (fallback_config ← get_fallback_config payment_data;
               Ok match eligible_connectors with
                  | None => fallback_config
                  | Some eligible => List.filter (λ c, bool_decide (choice_connector c ∈ eligible)) fallback_config
                  end)
  | Ok accounts =>
      (final_selection <- perform_eligibility_analysis chosen payment_data eligible_connectors (active_ids accounts) ;;
       fallback_selection <- sr_ok (perform_fallback_routing payment_data eligible_connectors (active_ids accounts)) ;;
       sr_ret (append_fallback final_selection (default [] fallback_selection)))%sr
  end.

End routing.
