(* ===== verification/RoutingFacts.v ===== *)
(** * Facts on routing

    Volume splits, the caches, and what the eligibility analysis keeps. *)

From S2P Require Import Prelude GraphTypes GraphBuilder GraphCheck GraphCheckFacts GraphSpec GraphTheorems.
From S2P Require Import Country Currency PaymentEnums EuclidEnums EuclidTypes EuclidAst EuclidDir EuclidVir Analyzer.
From S2P Require Import KgraphValues Kgraph KgraphFacts KgraphContext KgraphTheorems RoutingInput Routing.

Lemma filter_sublist {A} (p : A → bool) l : List.filter p l `sublist_of` l.
Proof. induction l as [|x l IH]; [done|]. simpl. destruct (p x); by constructor. Qed.

(** ** Volume splits *)

Lemma perform_volume_split_permutes `{Sampler} splits l :
  perform_volume_split splits = Ok l → l ≡ₚ split_connector <$> splits.
Proof.
  unfold perform_volume_split. destruct (weighted_index _) as [i|]; [|done].
  destruct (splits !! i) as [x|] eqn:Hx; [|done]. intros [= <-].
  change (split_connector <$> x :: delete i splits ≡ₚ split_connector <$> splits).
  apply fmap_Permutation. symmetry. by apply delete_Permutation.
Qed.

Lemma perform_volume_split_head `{SamplerLaws} splits l :
  perform_volume_split splits = Ok l →
  ∃ x, x ∈ splits ∧ head l = Some (split_connector x) ∧ (0 < split x)%Z.
Proof.
  unfold perform_volume_split. destruct (weighted_index _) as [i|] eqn:Hi; [|done].
  destruct (splits !! i) as [x|] eqn:Hx; [|done]. intros [= <-]. exists x.
  split; [by eapply list_elem_of_lookup_2|]. split; [done|].
  apply weighted_index_positive in Hi as (w & Hw & Hpos).
  rewrite list_lookup_fmap, Hx in Hw. by injection Hw as <-.
Qed.

(** ** Fuel *)

Lemma check_node_returns (g : ConstraintGraph) ctx n rel str domains st fuel :
  length (nodes g) < fuel → is_Some (check_node fuel g ctx n rel str domains st).
Proof.
  intros Hlt. unfold check_node. destruct (resolve_domains g domains) as [ds|e]; [|by eauto].
  destruct (check_node_inner_returns g ctx ds fuel n rel str st) as (res & st' & -> & _); [|by eauto].
  pose proof (pending_bound g st). lia.
Qed.

Lemma check_value_validity_returns fuel g v ctx :
  length (nodes g) < fuel → is_Some (check_value_validity fuel g None v ctx empty_state).
Proof.
  intros Hf. unfold check_value_validity. destruct (value_map g !! _) as [n|]; [|done].
  destruct (check_node_returns g (checking_context ctx) n Relation.Positive Weak None empty_state fuel Hf) as ([[u|e] st] & ->);
    simpl; eauto.
Qed.

Lemma filter_choices_returns fuel g ctx eligible active chosen :
  length (nodes g) < fuel → is_Some (filter_choices fuel g ctx eligible active chosen).
Proof.
  intros Hf. induction chosen as [|ch chosen [r IH]]; [by eexists|]. simpl.
  destruct (check_value_validity_returns fuel g (DirValue_Connector (mkConnectorChoice (choice_connector ch))) ctx Hf)
    as ([[b|e] st] & ->); simpl; [|by eexists]. rewrite IH. simpl. by eexists.
Qed.

(** The fuel of [cgraph_filtering] is enough, whatever the graph. *)
Lemma filtering_returns g chosen input eligible active :
  is_Some (perform_cgraph_filtering (S (length (nodes g))) g chosen input eligible active).
Proof.
  unfold perform_cgraph_filtering. destruct (into_context input); [|by eexists].
  apply filter_choices_returns. lia.
Qed.

(** ** The caches *)

Section caches.
Context `{Sampler} (env : Env).

(** The graph that is cached for the profile is that of the accounts the
    database lists. *)
Definition graph_fresh (s : Caches) : Prop :=
  match cgraph_cache s !! cgraph_key env with
  | None => True
  | Some g => merchant_graph env = Ok g
  end.

(** The algorithm that is cached for the profile is that of the database. *)
Definition algorithm_fresh (algorithm_id : string) (s : Caches) : Prop :=
  match routing_cache s !! routing_key env with
  | None => True
  | Some cached =>
      (algorithm ← find_routing_algorithm (store env) (env_profile_id env) algorithm_id; compile_algorithm algorithm) =
        Ok cached
  end.

Lemma get_merchant_cgraph_fresh s :
  graph_fresh s →
  ∃ s', get_merchant_cgraph env s = (merchant_graph env, s') ∧ graph_fresh s' ∧ routing_cache s' = routing_cache s.
Proof.
  unfold graph_fresh, get_merchant_cgraph. destruct (cgraph_cache s !! _) as [g|] eqn:Hg.
  - intros ->. exists s. by rewrite Hg.
  - intros _. unfold refresh_cgraph_cache, sr_bind, sr_lift. destruct (merchant_graph env) as [g|e].
    + eexists. split; [done|]. simpl. by rewrite lookup_insert_eq.
    + exists s. by rewrite Hg.
Qed.

Lemma ensure_algorithm_fresh id s :
  algorithm_fresh id s →
  ∃ s', ensure_algorithm_cached_v1 env id s =
      (algorithm ← find_routing_algorithm (store env) (env_profile_id env) id; compile_algorithm algorithm, s') ∧
    algorithm_fresh id s' ∧ cgraph_cache s' = cgraph_cache s.
Proof.
  unfold algorithm_fresh, ensure_algorithm_cached_v1. destruct (routing_cache s !! _) as [c|] eqn:Hc.
  - intros ->. exists s. by rewrite Hc.
  - intros _. unfold refresh_routing_cache_v1, sr_bind, sr_lift.
    destruct (find_routing_algorithm _ _ _) as [a|e]; simpl; [|exists s; by rewrite Hc].
    destruct (compile_algorithm a) as [c|e] eqn:Ha; simpl; [|exists s; by rewrite Hc].
    eexists. split; [done|]. simpl. by rewrite lookup_insert_eq.
Qed.

(** ** Eligibility *)

(** The accounts, the configuration and the graph that fresh caches give. *)
Lemma merchant_graph_inv g :
  merchant_graph env = Ok g →
  ∃ accounts mcas config, list_enabled_accounts (store env) (env_merchant_id env) (env_profile_id env) = Ok accounts ∧
    try_collect graph_data (graph_accounts accounts) = Ok mcas ∧ config_pm_filters env = Ok config ∧
    make_mca_graph mcas config = Ok g.
Proof.
  unfold merchant_graph. destruct (list_enabled_accounts _ _ _) as [accounts|]; [|done]. simpl.
  destruct (try_collect _ _) as [mcas|] eqn:Hm; [|done]. simpl.
  destruct (config_pm_filters env) as [config|] eqn:Hc; [|done]. simpl.
  destruct (make_mca_graph mcas config) as [g'|] eqn:Hg; [|done]. intros [= ->]. eauto 10.
Qed.

(** The payment passes the filters that are configured for the connector: one of them
    names its payment method type and admits its billing country, its currency and
    its capture method, or none of them names its payment method type. *)
Definition filters_pass (input : BackendInput) (c : RoutableConnectors) : Prop :=
  ∃ vals config, into_context input = Ok vals ∧ config_pm_filters env = Ok config ∧
    config_holds (checking_context (from_dir_values vals)) config c = Ok true.

(** An account that the graph was built from offers the payment. *)
Definition account_offers (input : BackendInput) (c : RoutableConnectors) (mca : MerchantConnectorAccount) : Prop :=
  from_str (A := RoutableConnectors) (mca_connector_name mca) = Some c ∧ mca_connector_type mca = PaymentProcessor ∧
  ∃ data, graph_data mca = Ok data ∧
    (enabled_types data = [] ∨ ∃ pm ts t, (pm, ts) ∈ enabled_types data ∧ t ∈ ts ∧
      payment_method (method input) = Some pm ∧ offered input t = true).

(** What is asked of a choice that the analysis keeps. *)
Definition choice_ok (input : BackendInput) (eligible : option (list RoutableConnectors))
    (accounts : list MerchantConnectorAccount) (choice : RoutableConnectorChoice) : Prop :=
  permitted eligible (active_ids accounts) choice = true ∧ filters_pass input (choice_connector choice) ∧
  ∃ mca, mca ∈ accounts ∧ account_offers input (choice_connector choice) mca.

Lemma account_passes_filters ctx config data c :
  account_holds ctx config data = Ok (c, true) → config_holds ctx config c = Ok true.
Proof.
  unfold account_holds. destruct (ok_or _ _) as [c'|]; [|done]. simpl. destruct (try_collect _ _); [|done]. simpl.
  destruct (config_holds ctx config c') as [[]|] eqn:Hc; simpl; intros [= <- Hv]; done.
Qed.

Lemma graph_accounts_elem mca accounts :
  mca ∈ graph_accounts accounts → mca ∈ accounts ∧ mca_connector_type mca = PaymentProcessor.
Proof.
  unfold graph_accounts. intros [[H1%list_elem_of_In _]%filter_In Ht]%list_elem_of_In%filter_In.
  by apply bool_decide_eq_true in Ht.
Qed.

(** What filtering with a fresh graph keeps. *)
Lemma cgraph_filtering_fresh chosen input eligible accounts s :
  graph_fresh s → list_enabled_accounts (store env) (env_merchant_id env) (env_profile_id env) = Ok accounts →
  ∃ s', graph_fresh s' ∧ routing_cache s' = routing_cache s ∧
    match cgraph_filtering env chosen input eligible (active_ids accounts) s with
    | (Ok kept, s1) => s1 = s' ∧ kept `sublist_of` chosen ∧ Forall (choice_ok input eligible accounts) kept
    | (Err _, s1) => s1 = s' ∧ (is_ok (into_context input) = false ∨ is_ok (merchant_graph env) = false)
    end.
Proof.
  intros Hf Hacc. unfold cgraph_filtering, sr_bind, sr_lift.
  destruct (into_context input) as [vals|e] eqn:Hvals; simpl; [|by eauto 10].
  destruct (get_merchant_cgraph_fresh s Hf) as (s' & -> & Hf' & Hr). exists s'. split; [done|]. split; [done|].
  destruct (merchant_graph env) as [g|e] eqn:Hg; [|by eauto].
  destruct (merchant_graph_inv g Hg) as (accounts' & mcas & config & Ha & Hm & Hc & Hmake).
  rewrite Hacc in Ha. injection Ha as <-.
  destruct (filtering_run config mcas input g vals eligible (active_ids accounts) chosen (S (length (nodes g)))
    Hmake Hvals ltac:(lia)) as (vs & Hvs & ->). simpl. split; [done|]. split; [apply filter_sublist|].
  apply Forall_forall. intros ch [_ [Hv Hp]%andb_true_iff]%list_elem_of_In%filter_In. split; [done|].
  apply verdicts_of_true in Hv. destruct (try_collect_elem _ _ _ _ Hvs Hv) as (data & Hdata & Hacct).
  destruct (try_collect_elem _ _ _ _ Hm Hdata) as (mca & Hmca & Hgd).
  split; [exists vals, config; split_and!; [done..|by eapply account_passes_filters]|].
  apply graph_accounts_elem in Hmca as [Hmca Hty]. exists mca. split; [done|].
  destruct (account_offered config input vals Hvals data _ Hacct) as [Hname Hoff].
  split; [|split; [done|by exists data]]. unfold graph_data in Hgd.
  destruct (mca_payment_methods_enabled mca) as [[]|]; simplify_eq; done.
Qed.

End caches.
