(* ===== verification/DecideConnector.v ===== *)
(** * The connectors of a payment

    [decide_connector] of [crates/router/src/core/payments.rs] (version 1 of the
    API, with retries): a connector that is known already, or else straight
    through routing, or static routing and the decision engine, then the
    eligibility analysis, and the plan of the calls.
    [perform_routing_for_connector_selection] records the choice in the attempt.

    Arguments: the table of connector integrations, which accounts have the
    simplified flow of Apple Pay, the actions of a stored payment method and the
    configuration that forbids saving wallets. *)

From S2P Require Import Prelude GraphTypes Country Currency PaymentEnums EuclidEnums EuclidTypes EuclidAst EuclidDir.
From S2P Require Import KgraphValues Kgraph RoutingInput Routing.

Inductive RouterError :=
| IncorrectPaymentMethodConfiguration
| MissingRequiredField
| RouterInternalServerError
| OtherRouterError (code : string).

Record ConnectorData := {
  connector_data_name : string;
  connector_data_mca : option string;
}.

Inductive MandateTransactionType := NewMandateTransaction | RecurringMandateTransaction.

Inductive PreRoutingConnectorChoice :=
| PreRouting_Single (c : RoutableConnectorChoice)
| PreRouting_Multiple (cs : list RoutableConnectorChoice).

(** The data of the payment: [attempt_connector] with its account, the connector
    of the mandate, whether there is token data, the credentials, whether the
    stored payment method is known, and what the input of the rules is made of. *)
Record PaymentData := {
  attempt_connector : option string;
  attempt_mca : option string;
  mandate_connector : option (string * option string);
  has_token_data : bool;
  creds_identifier : option string;
  has_payment_method_info : bool;
  dsl_input : PaymentsDslInput;
}.

(** [RoutingData] with the caches, the future usage of the intent and the
    approach of the attempt. *)
Record RoutingState := {
  caches : Caches;
  routed_through : option string;
  routed_mca : option string;
  future_usage : option FutureUsage;
  routing_approach : option RoutingApproach;
}.

Definition set_caches (c : Caches) (s : RoutingState) : RoutingState :=
  {| caches := c; routed_through := routed_through s; routed_mca := routed_mca s;
     future_usage := future_usage s; routing_approach := routing_approach s |}.

Definition set_routed_through (name : option string) (s : RoutingState) : RoutingState :=
  {| caches := caches s; routed_through := name; routed_mca := routed_mca s;
     future_usage := future_usage s; routing_approach := routing_approach s |}.

Definition set_routed (name : option string) (mca : option string) (s : RoutingState) : RoutingState :=
  {| caches := caches s; routed_through := name; routed_mca := mca;
     future_usage := future_usage s; routing_approach := routing_approach s |}.

Definition set_future_usage (usage : option FutureUsage) (s : RoutingState) : RoutingState :=
  {| caches := caches s; routed_through := routed_through s; routed_mca := routed_mca s;
     future_usage := usage; routing_approach := routing_approach s |}.

Definition set_approach (a : RoutingApproach) (s : RoutingState) : RoutingState :=
  {| caches := caches s; routed_through := routed_through s; routed_mca := routed_mca s;
     future_usage := future_usage s; routing_approach := Some a |}.

(** An operation on the caches. *)
Definition on_caches {E A} (c : sr Caches E A) : sr RoutingState E A := λ s,
  let '(r, c) := c (caches s) in (r, set_caches c s).

(** The input of the rules with the future usage of the intent as it is now. *)
Definition current_intent (intent : DslIntent) (usage : option FutureUsage) : DslIntent :=
  {| off_session := off_session intent; intent_business_country := intent_business_country intent;
     intent_business_label := intent_business_label intent; intent_setup_future_usage := usage;
     intent_routing_parameters := intent_routing_parameters intent;
     intent_profile_id := intent_profile_id intent |}.

Definition current_input (payment_data : PaymentData) (s : RoutingState) : PaymentsDslInput :=
  let input := dsl_input payment_data in
  {| setup_mandate := setup_mandate input; dsl_attempt := dsl_attempt input;
     dsl_intent := current_intent (dsl_intent input) (future_usage s);
     dsl_payment_method_data := dsl_payment_method_data input;
     dsl_billing_country := dsl_billing_country input;
     recurring_details := recurring_details input; dsl_currency := dsl_currency input |}.

Section decide.
Context `{Sampler} {ActionType : Type}.

Record ConnectorRoutingData := {
  connector_data : ConnectorData;
  network : option CardNetwork;
  action_type : option ActionType;
}.

(** [From<ConnectorData> for ConnectorRoutingData]. *)
Definition routing_data_of (c : ConnectorData) : ConnectorRoutingData :=
  {| connector_data := c; network := None; action_type := None |}.

Inductive ConnectorCallType :=
| PreDetermined (c : ConnectorRoutingData)
| Retryable (cs : list ConnectorRoutingData).

Record DecideEnv := {
  env : Env;
  integration : string → result unit string;
  pre_routing_results : option (gmap PaymentMethodType PreRoutingConnectorChoice);
  routing_info_algorithm : option StraightThroughAlgorithm;
  should_do_retry : bool;
  first_account_simplified : ConnectorRoutingData → result RouterError bool;
  account_simplified : MerchantConnectorAccount → result RouterError bool;
  skip_saving_wallet : result RouterError (option (list PaymentMethodType));
  cutover_enabled : bool;
  de_stage : list RoutableConnectorChoice → result RoutingError (list RoutableConnectorChoice * RoutingApproach);
  get_all_action_types : ConnectorData → list ActionType;
  get_mandate_reference_id : option ActionType → ConnectorRoutingData → result RouterError unit;
  is_payment_method_modular_allowed : bool;
}.

Variable denv : DecideEnv.
Variable payment_data : PaymentData.

Abbreviation decide A := (sr RoutingState RouterError A) (only parsing).

Definition get_connector_by_name (name : string) (mca : option string) : result unit ConnectorData :=
  connector_name ← integration denv name;
  Ok {| connector_data_name := connector_name; connector_data_mca := mca |}.

Definition result_ok {E A} (r : result E A) : option A := match r with Ok a => Some a | Err _ => None end.

(** ** A connector that is known already *)

Definition try_get_attempt_connector : decide (option ConnectorCallType) :=
  match attempt_connector payment_data with
  | None => sr_ret None
  | Some connector_name =>
      match get_connector_by_name connector_name (attempt_mca payment_data) with
      | Err _ => sr_ret None
      | Ok connector_data =>
          (sr_modify (set_routed_through (Some connector_name)) ;;;
           sr_ret (Some (PreDetermined (routing_data_of connector_data))))%sr
      end
  end.

Definition try_get_mandate_connector : decide (option ConnectorCallType) :=
  match mandate_connector payment_data with
  | None => sr_ret None
  | Some (connector, mca) =>
      match get_connector_by_name connector mca with
      | Err _ => sr_ret None
      | Ok connector_data =>
          (sr_modify (set_routed (Some connector) mca) ;;;
           sr_ret (Some (PreDetermined (routing_data_of connector_data))))%sr
      end
  end.

Definition try_get_pre_determined_connector : decide (option ConnectorCallType) :=
  (attempt <- try_get_attempt_connector ;;
   match attempt with
   | Some connector => sr_ret (Some connector)
   | None => try_get_mandate_connector
   end)%sr.

(** ** Connectors of an earlier session call *)

(** [resolve_pre_routed_connectors]: all its errors are dropped by the caller. *)
Definition resolve_pre_routed_connectors (payment_method_type : PaymentMethodType) :
    option (list ConnectorRoutingData) :=
  results ← pre_routing_results denv;
  choice ← results !! payment_method_type;
  let routable_connectors :=
    match choice with PreRouting_Single c => [c] | PreRouting_Multiple cs => cs end in
  result_ok (try_collect (λ c,
    d ← get_connector_by_name (to_string (choice_connector c)) (merchant_connector_id c);
    Ok (routing_data_of d)) routable_connectors).

(** The body of the loop of [get_apple_pay_retryable_connectors] over the
    accounts. *)
Definition add_apple_pay_account (connector_data_list : list ConnectorRoutingData) (account : MerchantConnectorAccount) :
    result RouterError (list ConnectorRoutingData) :=
  simplified ← account_simplified denv account;
  if simplified : bool then
    data ← map_err (λ _, RouterInternalServerError)
      (get_connector_by_name (mca_connector_name account) (Some (mca_id account)));
    Ok (if any (λ c, bool_decide (connector_data_mca (connector_data c) = connector_data_mca data)) connector_data_list
        then connector_data_list else connector_data_list ++ [routing_data_of data])
  else Ok connector_data_list.

Fixpoint add_apple_pay_accounts (connector_data_list : list ConnectorRoutingData)
    (accounts : list MerchantConnectorAccount) : result RouterError (list ConnectorRoutingData) :=
  match accounts with
  | [] => Ok connector_data_list
  | account :: accounts =>
      connector_data_list ← add_apple_pay_account connector_data_list account;
      add_apple_pay_accounts connector_data_list accounts
  end.

(** The accounts in the order of routing: those of the session, then the default
    ones. *)
Definition routing_order (connectors : list ConnectorRoutingData) (fallback : list RoutableConnectorChoice) :
    list (option string) :=
  foldl (λ ids c, if any (λ id, bool_decide (id = merchant_connector_id c)) ids then ids
                  else ids ++ [merchant_connector_id c])
    ((λ c, connector_data_mca (connector_data c)) <$> connectors) fallback.

Definition get_apple_pay_retryable_connectors (connectors : list ConnectorRoutingData) :
    result RouterError (option (list ConnectorRoutingData)) :=
  match connectors with
  | [] => Err IncorrectPaymentMethodConfiguration
  | first :: _ =>
      simplified ← first_account_simplified denv first;
      if simplified : bool then
        accounts ← map_err (λ _, RouterInternalServerError)
          (list_enabled_accounts (store (env denv)) (env_merchant_id (env denv)) (env_profile_id (env denv)));
        connector_data_list ← add_apple_pay_accounts [first]
          (List.filter (λ mca, bool_decide (mca_connector_type mca = PaymentProcessor)) accounts);
        fallback ← map_err (λ _, RouterInternalServerError)
          (find_default_config (store (env denv)) (env_profile_id (env denv)));
        Ok (Some (omap (λ id, List.find (λ c, bool_decide (id = connector_data_mca (connector_data c)))
          connector_data_list) (routing_order connectors fallback)))
      else Ok None
  end.

(** [override_setup_future_usage_to_on_session]. *)
Definition override_setup_future_usage_to_on_session : decide unit := λ s,
  if bool_decide (future_usage s = Some FutureUsage_OffSession) then
    match skip_saving_wallet denv with
    | Err e => (Err e, s)
    | Ok None => (Ok tt, s)
    | Ok (Some skipped) =>
        match attempt_payment_method_type (dsl_attempt (dsl_input payment_data)) with
        | Some payment_method_type =>
            if bool_decide (payment_method_type ∈ skipped) then (Ok tt, set_future_usage (Some FutureUsage_OnSession) s)
            else (Ok tt, s)
        | None => (Ok tt, s)
        end
    end
  else (Ok tt, s).

Definition try_pre_routing_connectors : decide (option ConnectorCallType) :=
  match has_token_data payment_data, attempt_payment_method_type (dsl_attempt (dsl_input payment_data)) with
  | false, Some payment_method_type =>
      match resolve_pre_routed_connectors payment_method_type with
      | None => sr_ret None
      | Some [] => sr_lift (Err IncorrectPaymentMethodConfiguration)
      | Some ((first_connector :: _) as connectors) =>
          (sr_modify (set_routed (Some (connector_data_name (connector_data first_connector)))
             (connector_data_mca (connector_data first_connector))) ;;;
           retryable <-
             (if bool_decide (payment_method_type = PaymentMethodType_ApplePay) && should_do_retry denv then
                connector_data_list <- sr_lift (get_apple_pay_retryable_connectors connectors) ;;
                sr_ret match connector_data_list with
                       | Some l => if bool_decide (1 < length l) then Some (Retryable l) else None
                       | None => None
                       end
              else sr_ret None) ;;
           match retryable with
           | Some call_type => sr_ret (Some call_type)
           | None =>
               override_setup_future_usage_to_on_session ;;;
               sr_ret (Some (PreDetermined first_connector))
           end)%sr
      end
  | _, _ => sr_ret None
  end.

(** ** The plan after routing *)

(** Which of the three branches of [plan_payment_execution_after_routing]. *)
Inductive Plan := PlanToken | PlanProcessorToken | PlanDefault.

Definition plan_of (usage : option FutureUsage) (mandate_type : option MandateTransactionType) : Plan :=
  let is_token_data_present := has_token_data payment_data || is_payment_method_modular_allowed denv in
  match usage, is_token_data_present, recurring_details (dsl_input payment_data),
        off_session (dsl_intent (dsl_input payment_data)), mandate_type with
  | Some FutureUsage_OffSession, true, None, None, Some RecurringMandateTransaction => PlanToken
  | None, _, Some (PaymentMethodId _), Some true, Some RecurringMandateTransaction => PlanToken
  | None, true, None, Some true, _ => PlanToken
  | None, _, Some (ProcessorPaymentToken _), Some true, Some RecurringMandateTransaction => PlanProcessorToken
  | _, _, _, _, _ => PlanDefault
  end.

(** The first connector is recorded. *)
Definition record_first (c : ConnectorRoutingData) : decide unit :=
  sr_modify (set_routed (Some (connector_data_name (connector_data c))) (connector_data_mca (connector_data c))).

Definition execute_plan (plan : Plan) (connectors : list ConnectorRoutingData) : decide ConnectorCallType :=
  match plan with
  | PlanToken =>
      (if has_payment_method_info payment_data then
         let retryable_connectors :=
           connectors ≫= λ c,
             (λ a, {| connector_data := connector_data c; network := network c; action_type := Some a |}) <$>
               get_all_action_types denv (connector_data c) in
         match retryable_connectors with
         | [] => sr_lift (Err IncorrectPaymentMethodConfiguration)
         | chosen :: _ =>
             sr_lift (get_mandate_reference_id denv (action_type chosen) chosen) ;;;
             record_first chosen ;;;
             sr_ret (Retryable retryable_connectors)
         end
       else sr_lift (Err MissingRequiredField))%sr
  | PlanProcessorToken =>
      match connectors with
      | connector :: _ =>
          (record_first connector ;;; sr_ret (PreDetermined (routing_data_of (connector_data connector))))%sr
      | [] => sr_lift (Err IncorrectPaymentMethodConfiguration)
      end
  | PlanDefault =>
      (override_setup_future_usage_to_on_session ;;;
       match connectors with
       | [] => sr_lift (Err IncorrectPaymentMethodConfiguration)
       | first_choice :: _ => record_first first_choice ;;; sr_ret (Retryable connectors)
       end)%sr
  end.

Definition plan_payment_execution_after_routing (connectors : list ConnectorRoutingData)
    (mandate_type : option MandateTransactionType) : decide ConnectorCallType := λ s,
  execute_plan (plan_of (future_usage s) mandate_type) connectors s.

(** ** Deciding *)

(** The stage that chooses: straight through, or static routing and the decision
    engine.  [None] when it fails. *)
Definition routing_stage (request_straight_through : option StraightThroughAlgorithm)
    (fallback_config : list RoutableConnectorChoice) (backend_input : BackendInput) :
    decide (option (list RoutableConnectorChoice * RoutingApproach * bool)) :=
  match first_some request_straight_through (routing_info_algorithm denv) with
  | Some algorithm =>
      sr_ret ((λ out : list RoutableConnectorChoice * bool, (out.1, StraightThroughRouting, out.2)) <$>
        result_ok (perform_straight_through_routing algorithm (creds_identifier payment_data)))
  | None =>
      sr_ok (on_caches (static_dynamic_routing_v1_for_payments (env denv) (cutover_enabled denv) (de_stage denv)
        backend_input fallback_config))
  end.

(** The connectors of a routed payment, before they are resolved. *)
Definition route (request_straight_through : option StraightThroughAlgorithm)
    (eligible_connectors : option (list RoutableConnectors)) (fallback_config : list RoutableConnectorChoice)
    (backend_input : BackendInput) : decide (list RoutableConnectorChoice * RoutingApproach) :=
  (routed <- routing_stage request_straight_through fallback_config backend_input ;;
   let '(connectors, approach, requires_eligibility) :=
     default (fallback_config, DefaultFallback, true) routed in
   if requires_eligibility : bool then
     final <- (λ s, sr_ok (on_caches (perform_eligibility_analysis_with_fallback (env denv) connectors
                 (current_input payment_data s) eligible_connectors)) s) ;;
     sr_ret (default fallback_config final, approach)
   else sr_ret (connectors, approach))%sr.

Definition decide_connector (request_straight_through : option StraightThroughAlgorithm)
    (eligible_connectors : option (list RoutableConnectors)) (mandate_type : option MandateTransactionType)
    (fallback_config : list RoutableConnectorChoice) (backend_input : BackendInput) : decide ConnectorCallType :=
  (pre_determined <- sr_ok try_get_pre_determined_connector ;;
   pre_routed <- sr_ok try_pre_routing_connectors ;;
   match first_some (mjoin pre_determined) (mjoin pre_routed) with
   | Some connector => sr_ret connector
   | None =>
       final <- route request_straight_through eligible_connectors fallback_config backend_input ;;
       connector_data <- sr_lift (map_err (λ _, RouterInternalServerError)
         (try_collect (λ c,
            d ← get_connector_by_name (to_string (choice_connector c)) (merchant_connector_id c);
            Ok (routing_data_of d)) final.1)) ;;
       sr_modify (set_approach final.2) ;;;
       plan_payment_execution_after_routing connector_data mandate_type
   end)%sr.

(** [perform_routing_for_connector_selection], after its JSON arguments are
    parsed: the call type, and the connector and account that are recorded in
    the attempt. *)
Definition perform_routing_for_connector_selection (c : Caches)
    (request_straight_through : option StraightThroughAlgorithm)
    (eligible_connectors : option (list RoutableConnectors)) (mandate_type : option MandateTransactionType)
    (fallback_config : list RoutableConnectorChoice) (backend_input : BackendInput) :
    result RouterError ConnectorCallType * RoutingState :=
  decide_connector request_straight_through eligible_connectors mandate_type fallback_config backend_input
    {| caches := c; routed_through := attempt_connector payment_data; routed_mca := attempt_mca payment_data;
       future_usage := intent_setup_future_usage (dsl_intent (dsl_input payment_data));
       routing_approach := None |}.

End decide.
