(* ===== verification/RoutingTheorems.v ===== *)
(** * Routing: the theorems

    What the connectors of a routed payment satisfy, what the attempt records,
    and that the caches do not show. *)

From S2P Require Import Prelude GraphTypes GraphBuilder GraphCheck.
From S2P Require Import Country Currency PaymentEnums EuclidEnums EuclidTypes EuclidAst EuclidDir EuclidVir.
From S2P Require Import KgraphValues Kgraph KgraphFacts KgraphContext KgraphTheorems RoutingInput Routing RoutingFacts DecideConnector.

Section routing.
Context `{Sampler}.

(** ** The selection *)

Lemma append_fallback_elem c sel fb : c ∈ append_fallback sel fb → c ∈ sel ∨ c ∈ fb.
Proof.
  unfold append_fallback. intros [Hc|Hc]%elem_of_app; [by left|right].
  by apply list_elem_of_In, filter_In in Hc as [Hc%list_elem_of_In _].
Qed.

Section env.
Context (env : Env).

(** The payment can be asked about: its context can be made and the graph of the
    merchant can be built. *)
Definition analysable (input : BackendInput) : Prop :=
  is_ok (into_context input) = true ∧ is_ok (merchant_graph env) = true.

(** The analysis with a fresh graph keeps good choices only, the chosen ones
    first. *)
Lemma eligibility_fresh chosen payment_data eligible accounts s :
  graph_fresh env s → list_enabled_accounts (store env) (env_merchant_id env) (env_profile_id env) = Ok accounts →
  analysable (backend_input_of payment_data) →
  ∃ sel fb s', perform_eligibility_analysis_with_fallback env chosen payment_data eligible s =
      (Ok (append_fallback sel fb), s') ∧ graph_fresh env s' ∧ sel `sublist_of` chosen ∧
    Forall (choice_ok env (backend_input_of payment_data) (update_eligible_connectors_for_installments env payment_data eligible) accounts)
      (append_fallback sel fb).
Proof.
  intros Hf Hacc [Hctx Hgraph]. unfold perform_eligibility_analysis_with_fallback. rewrite Hacc.
  set (elig := update_eligible_connectors_for_installments env payment_data eligible).
  unfold perform_eligibility_analysis, perform_fallback_routing, sr_bind, sr_lift, make_dsl_input.
  set (input := backend_input_of payment_data) in *.
  destruct (cgraph_filtering_fresh env chosen input elig accounts s Hf Hacc) as (s1 & Hf1 & _ & Hrun).
  destruct (cgraph_filtering env chosen input elig (active_ids accounts) s) as [[sel|e] s1'];
    destruct Hrun as [-> Hrun]; [|destruct Hrun; congruence].
  destruct Hrun as [Hsub Hsel]. unfold sr_ok at 1.
  destruct (get_fallback_config env payment_data) as [fbc|e]; simpl.
  - destruct (cgraph_filtering_fresh env fbc input elig accounts s1 Hf1 Hacc) as (s2 & Hf2 & _ & Hrun2).
    destruct (cgraph_filtering env fbc input elig (active_ids accounts) s1) as [[fb|e] s2'];
      destruct Hrun2 as [-> Hrun2]; [|destruct Hrun2; congruence].
    exists sel, fb, s2. split_and!; [done|done|done|]. apply Forall_forall.
    intros c [Hc|Hc]%append_fallback_elem; [by eapply Forall_forall in Hsel|].
    destruct Hrun2 as [_ Hfb]. by eapply Forall_forall in Hfb.
  - exists sel, [], s1. split_and!; [done|done|done|]. apply Forall_forall.
    intros c [Hc|Hc]%append_fallback_elem; [by eapply Forall_forall in Hsel|set_solver].
Qed.

(** A payment in installments goes to a connector that is configured for installments
    of its payment method and type. *)
Definition installments_permit (payment_data : PaymentsDslInput) (c : RoutableConnectors) : Prop :=
  attempt_has_installments (dsl_attempt payment_data) = true →
  ∃ pm pmt names name, attempt_payment_method (dsl_attempt payment_data) = Some pm ∧
    attempt_payment_method_type (dsl_attempt payment_data) = Some pmt ∧
    installment_connectors env pm pmt = Some names ∧ name ∈ names ∧ from_str (A := RoutableConnectors) name = Some c.

Lemma installment_supported_elem payment_data supported c :
  get_installment_supported_connectors env payment_data = Some supported → c ∈ supported →
  installments_permit payment_data c.
Proof.
  unfold get_installment_supported_connectors, installments_permit. destruct (attempt_has_installments _); [|done].
  destruct (attempt_payment_method _) as [pm|], (attempt_payment_method_type _) as [pmt|]; intros [= <-]; try set_solver.
  destruct (installment_connectors env pm pmt) as [names|] eqn:Hn; [|set_solver].
  intros (name & ? & ?)%list_elem_of_omap _. by exists pm, pmt, names, name.
Qed.

Lemma not_in_installments payment_data c :
  get_installment_supported_connectors env payment_data = None → installments_permit payment_data c.
Proof. unfold get_installment_supported_connectors, installments_permit. by destruct (attempt_has_installments _). Qed.

(** The connectors of the request and those of the installments both restrict. *)
Lemma eligible_for_installments payment_data eligible input accounts choice :
  choice_ok env input (update_eligible_connectors_for_installments env payment_data eligible) accounts choice →
  choice_ok env input eligible accounts choice ∧ installments_permit payment_data (choice_connector choice).
Proof.
  unfold choice_ok, permitted, update_eligible_connectors_for_installments.
  intros ([Hel Hact]%andb_true_iff & Hrest). rewrite Hact, andb_true_r.
  destruct (get_installment_supported_connectors env payment_data) as [supported|] eqn:Hs, eligible as [existing|].
  - apply bool_decide_eq_true, list_elem_of_In, filter_In in Hel as [Hin%list_elem_of_In Hel].
    split; [done|]. by eapply installment_supported_elem.
  - apply bool_decide_eq_true in Hel. split; [done|]. by eapply installment_supported_elem.
  - split; [done|]. by apply not_in_installments.
  - split; [done|]. by apply not_in_installments.
Qed.

(** Static routing leaves the graphs alone. *)
Lemma static_routing_graphs cutover stage bi fb c :
  cgraph_cache (static_dynamic_routing_v1_for_payments env cutover stage bi fb c).2 = cgraph_cache c.
Proof.
  unfold static_dynamic_routing_v1_for_payments, perform_static_routing_locally, sr_bind, sr_lift, sr_ret.
  destruct (profile_routing_algorithm env) as [[[id|]|]|]; simpl; try done.
  unfold sr_ok, ensure_algorithm_cached_v1. destruct (routing_cache c !! _); simpl; [done|].
  unfold refresh_routing_cache_v1, sr_bind, sr_lift. destruct (find_routing_algorithm _ _ _); simpl; [|done].
  by destruct (compile_algorithm _).
Qed.

End env.

(** ** Routing and deciding *)

Section decide.
Context {A : Type} (denv : DecideEnv (ActionType := A)) (payment_data : PaymentData).

Abbreviation env := (env denv).

Lemma set_caches_id s : set_caches (caches s) s = s.
Proof. by destruct s. Qed.

(** The stage never fails and changes the cache of algorithms only; without
    credentials of its own the payment's connectors are checked. *)
Lemma routing_stage_run rst fb bi s :
  ∃ o c, routing_stage denv payment_data rst fb bi s = (Ok o, set_caches c s) ∧
    cgraph_cache c = cgraph_cache (caches s) ∧
    (creds_identifier payment_data = None → ∀ l a b, o = Some (l, a, b) → b = true).
Proof.
  unfold routing_stage. destruct (first_some _ _) as [algorithm|].
  - eexists _, (caches s). rewrite set_caches_id. split; [done|]. split; [done|].
    intros Hcreds l a b. rewrite Hcreds. destruct algorithm; simpl; [naive_solver|naive_solver|].
    destruct (perform_volume_split _); simpl; naive_solver.
  - unfold sr_ok, on_caches.
    pose proof (static_routing_graphs env (cutover_enabled denv) (de_stage denv) bi fb (caches s)) as Hc.
    destruct (static_dynamic_routing_v1_for_payments _ _ _ _ _ _) as [r c] eqn:Hrun. simpl in Hc.
    destruct r as [[[l a] b]|e]; simpl; eexists _, c; (split; [done|]); (split; [done|]); intros _ l' a' b'; [|done].
    intros [= -> -> ->]. unfold static_dynamic_routing_v1_for_payments, sr_bind in Hrun.
    destruct (perform_static_routing_locally _ _ _ _) as [[static|?] ?]; [|done].
    unfold sr_ret in Hrun. by simplify_eq.
Qed.

(** The request asks for the credentials of the merchant's account, the graph that
    is cached is fresh, and the payment can be asked about. *)
Record routable (accounts : list MerchantConnectorAccount) (s : RoutingState) : Prop := {
  rt_creds : creds_identifier payment_data = None;
  rt_fresh : graph_fresh env (caches s);
  rt_accounts : list_enabled_accounts (store env) (env_merchant_id env) (env_profile_id env) = Ok accounts;
  rt_input : analysable env (backend_input_of (current_input payment_data s));
}.

Lemma route_run accounts rst eligible fb bi s :
  routable accounts s →
  ∃ l a c, route denv payment_data rst eligible fb bi s = (Ok (l, a), set_caches c s) ∧ graph_fresh env c ∧
    Forall (choice_ok env (backend_input_of (current_input payment_data s))
      (update_eligible_connectors_for_installments env (current_input payment_data s) eligible) accounts) l.
Proof.
  intros [Hcreds Hf Hacc Hin]. unfold route, sr_bind at 1.
  destruct (routing_stage_run rst fb bi s) as (o & c & -> & Hc & Hb).
  set (out := default (fb, DefaultFallback, true) o).
  assert (out.2 = true) as Hout.
  { unfold out. destruct o as [[[l a] b]|]; [|done]. by apply (Hb Hcreds l a b). }
  destruct out as [[l a] b]. simpl in Hout. subst b.
  assert (graph_fresh env c) as Hfc by (unfold graph_fresh in *; by rewrite Hc).
  destruct (eligibility_fresh env l (current_input payment_data s) eligible accounts c Hfc Hacc Hin)
    as (sel & fbs & c' & Heq & Hf' & _ & Hok).
  unfold sr_bind, sr_ok, on_caches. change (current_input payment_data (set_caches c s)) with (current_input payment_data s).
  simpl caches. rewrite Heq. simpl. eexists _, _, c'. split; [done|]. done.
Qed.

(** ** The plan *)

Definition call_connectors (call : ConnectorCallType (ActionType := A)) : list (ConnectorRoutingData (ActionType := A)) :=
  match call with PreDetermined c => [c] | Retryable cs => cs end.

(** The first connector of the call is the one that is recorded. *)
Definition first_recorded (call : ConnectorCallType (ActionType := A)) (s : RoutingState) : Prop :=
  ∃ first, head (call_connectors call) = Some first ∧
    routed_through s = Some (connector_data_name (connector_data first)) ∧
    routed_mca s = connector_data_mca (connector_data first).

Lemma override_run s r s' :
  override_setup_future_usage_to_on_session denv payment_data s = (r, s') →
  caches s' = caches s ∧ routed_through s' = routed_through s ∧ routed_mca s' = routed_mca s.
Proof. unfold override_setup_future_usage_to_on_session. intros Heq. repeat case_match; by simplify_eq. Qed.

(** The plan calls the connectors it is given and records the first. *)
Lemma plan_run cs mandate_type s call s' :
  plan_payment_execution_after_routing denv payment_data cs mandate_type s = (Ok call, s') →
  first_recorded call s' ∧
  ∀ c, c ∈ call_connectors call → ∃ c0, c0 ∈ cs ∧ connector_data c = connector_data c0.
Proof.
  unfold plan_payment_execution_after_routing, execute_plan. destruct (plan_of _ _ _ _).
  - destruct (has_payment_method_info payment_data); [|done].
    set (l := cs ≫= _). destruct l as [|chosen rest] eqn:Hl; [done|]. unfold sr_bind, sr_lift.
    destruct (get_mandate_reference_id _ _ _); [|done]. intros [= <- <-]. split; [by exists chosen|].
    simpl call_connectors. intros c Hc. rewrite <- Hl in Hc. unfold l in Hc.
    apply list_elem_of_bind in Hc as (c0 & Hc & Hin). apply list_elem_of_fmap in Hc as (act & -> & _). by exists c0.
  - destruct cs as [|c cs]; [done|]. intros [= <- <-]. split; [by exists (routing_data_of (connector_data c))|].
    intros c' ->%list_elem_of_singleton. exists c. set_solver.
  - unfold sr_bind at 1. destruct (override_setup_future_usage_to_on_session _ _ s) as [[u|e] s1]; [|done].
    destruct cs as [|c cs]; [done|]. intros [= <- <-]. split; [by exists c|]. eauto.
Qed.

(** The names of the choices are resolved one by one. *)
Definition resolve (c : RoutableConnectorChoice) : result unit (ConnectorRoutingData (ActionType := A)) :=
  d ← get_connector_by_name denv (to_string (choice_connector c)) (merchant_connector_id c);
  Ok (routing_data_of d).

Lemma resolve_inv c d :
  resolve c = Ok d →
  integration denv (to_string (choice_connector c)) = Ok (connector_data_name (connector_data d)) ∧
  connector_data_mca (connector_data d) = merchant_connector_id c.
Proof. unfold resolve, get_connector_by_name. destruct (integration _ _); simpl; [|done]. by intros [= <-]. Qed.

(** The connectors that a session call has left for the payment method type of the
    payment. *)
Definition session_connectors : list (ConnectorRoutingData (ActionType := A)) :=
  match has_token_data payment_data, attempt_payment_method_type (dsl_attempt (dsl_input payment_data)) with
  | false, Some pmt => default [] (resolve_pre_routed_connectors denv pmt)
  | _, _ => []
  end.

Lemma no_pre_routing s :
  session_connectors = [] →
  ∃ o, sr_ok (E' := RouterError) (try_pre_routing_connectors denv payment_data) s = (Ok o, s) ∧ mjoin o = None.
Proof.
  unfold session_connectors, try_pre_routing_connectors, sr_ok. destruct (has_token_data payment_data); [by eauto|].
  destruct (attempt_payment_method_type _) as [pmt|]; [|by eauto].
  destruct (resolve_pre_routed_connectors denv pmt) as [[]|]; simpl; [by eauto|done|by eauto].
Qed.

Lemma no_pre_determined s :
  attempt_connector payment_data = None → mandate_connector payment_data = None →
  try_get_pre_determined_connector denv payment_data s = (Ok None, s).
Proof.
  intros Ha Hm. unfold try_get_pre_determined_connector, try_get_attempt_connector, try_get_mandate_connector.
  by rewrite Ha, Hm.
Qed.

(** [C13] A payment that is routed is sent only to connectors that may take it.  Take
    a payment for which no connector is known already, neither of the attempt nor of
    the mandate nor of a session call for its payment method type, without a
    credentials identifier; the graph of the accounts can be built and the payment
    can be asked about; and the cached graph, when there is one, is that of the
    database.  Then each connector that [decide_connector] calls, the retries
    included, stems from a choice whose account is active, whose connector is among
    the eligible ones of the request, when it names any, and among those configured
    for installments of the payment method and type, when the payment is in
    installments, admits the payment under the configured filters, and has an enabled
    payment processor account that offers the payment.  When the graph cannot be built
    the default connectors are called unfiltered. *)
Theorem decided_connectors_offered accounts rst eligible mandate_type fb bi s call s' :
  routable accounts s →
  attempt_connector payment_data = None → mandate_connector payment_data = None → session_connectors = [] →
  decide_connector denv payment_data rst eligible mandate_type fb bi s = (Ok call, s') →
  ∀ c, c ∈ call_connectors call →
    ∃ choice, choice_ok env (backend_input_of (current_input payment_data s)) eligible accounts choice ∧
      installments_permit env (current_input payment_data s) (choice_connector choice) ∧
      integration denv (to_string (choice_connector choice)) = Ok (connector_data_name (connector_data c)) ∧
      connector_data_mca (connector_data c) = merchant_connector_id choice.
Proof.
  intros Hr Ha Hm Hp. unfold decide_connector, sr_bind at 1, sr_ok at 1. rewrite no_pre_determined by done.
  unfold sr_bind at 1. destruct (no_pre_routing s Hp) as (o & -> & ->). cbn [mjoin option_join first_some].
  destruct (route_run accounts rst eligible fb bi s Hr) as (l & a & c & Hroute & _ & Hok).
  unfold sr_bind at 1. rewrite Hroute. unfold sr_bind at 1, sr_lift at 1.
  destruct (try_collect _ _) as [ds|e] eqn:Hds; [|done]. cbn [map_err].
  unfold sr_bind at 1, sr_modify. intros [_ Hplan]%plan_run d Hd.
  destruct (Hplan d Hd) as (d0 & Hd0 & ->). destruct (try_collect_elem _ _ _ _ Hds Hd0) as (ch & Hch & Heq).
  eapply Forall_forall in Hok as [? ?]%eligible_for_installments; [|done].
  exists ch. split_and!; [done|done|..]; by apply resolve_inv.
Qed.

(** ** What is recorded *)

Lemma add_apple_pay_accounts_head accounts : ∀ l first rest,
  add_apple_pay_accounts denv (first :: rest) accounts = Ok l → ∃ rest', l = first :: rest'.
Proof.
  induction accounts as [|mca accounts IH]; intros l first rest; simpl; [intros [= <-]; eauto|].
  destruct (add_apple_pay_account denv (first :: rest) mca) as [l'|] eqn:Hl; [|done]. simpl. intros Hrun.
  assert (∃ rest', l' = first :: rest') as (rest' & ->); [|by eapply IH].
  unfold add_apple_pay_account in Hl. destruct (account_simplified denv mca) as [[]|]; simplify_eq/=; eauto.
  destruct (get_connector_by_name _ _ _); simplify_eq/=. case_match; simplify_eq/=; eauto.
Qed.

Lemma routing_order_head first rest fb :
  ∃ ids, routing_order (ActionType := A) (first :: rest) fb = connector_data_mca (connector_data first) :: ids.
Proof.
  unfold routing_order. csimpl.
  generalize ((λ c : ConnectorRoutingData, connector_data_mca (connector_data c)) <$> rest).
  induction fb as [|c fb IH]; intros ids; simpl; [eauto|]. case_match; apply IH.
Qed.

(** The list for retries of Apple Pay starts with the first connector. *)
Lemma apple_pay_head first rest l :
  get_apple_pay_retryable_connectors denv (first :: rest) = Ok (Some l) → head l = Some first.
Proof.
  unfold get_apple_pay_retryable_connectors. destruct (first_account_simplified denv first) as [[]|]; simpl; try done.
  destruct (list_enabled_accounts _ _ _) as [accounts|]; simpl; [|done].
  destruct (add_apple_pay_accounts _ _ _) as [datas|] eqn:Hd; simpl; [|done].
  apply add_apple_pay_accounts_head in Hd as (rest' & ->).
  destruct (find_default_config _ _) as [fb|]; simpl; [|done]. intros [= <-].
  destruct (routing_order_head first rest fb) as (ids & ->). simpl. by rewrite bool_decide_eq_true_2.
Qed.

Lemma pre_routing_recorded s call s' :
  try_pre_routing_connectors denv payment_data s = (Ok (Some call), s') → first_recorded call s'.
Proof.
  unfold try_pre_routing_connectors. destruct (has_token_data payment_data); [done|].
  destruct (attempt_payment_method_type _) as [pmt|]; [|done].
  destruct (resolve_pre_routed_connectors _ _) as [[|first rest]|]; [done| |done].
  unfold sr_bind at 1, sr_modify. set (s1 := set_routed _ _ s). unfold sr_bind at 1.
  set (retry := if bool_decide _ && _ then _ else _).
  assert (∀ r s2, retry s1 = (r, s2) → s2 = s1 ∧ ∀ c, r = Ok (Some c) → head (call_connectors c) = Some first) as Hretry.
  { unfold retry. destruct (bool_decide _ && _); [|by intros r s2 [= <- <-]]. unfold sr_bind, sr_lift, sr_ret.
    destruct (get_apple_pay_retryable_connectors denv (first :: rest)) as [o|e] eqn:Ho; intros r s2 [= <- <-];
      [|done]. split; [done|]. intros c. destruct o as [l|]; [|done]. apply apple_pay_head in Ho.
    case_bool_decide; [|done]. by intros [= <-]. }
  destruct (retry s1) as [[[c|]|e] s2] eqn:Hr; destruct (Hretry _ _ eq_refl) as [-> Hhead]; [| |done].
  - intros [= <- <-]. exists first. split; [by apply Hhead|done].
  - unfold sr_bind. destruct (override_setup_future_usage_to_on_session _ _ s1) as [[u|e] s2] eqn:Ho; [|done].
    apply override_run in Ho as (_ & H1 & H2). intros [= <- <-]. exists first. by rewrite H1, H2.
Qed.

(** The names of connectors are those of their integrations. *)
Definition names_kept : Prop := ∀ n m, integration denv n = Ok m → m = n.

Lemma known_recorded n mca d s :
  names_kept → get_connector_by_name denv n mca = Ok d → routed_through s = Some n → routed_mca s = mca →
  first_recorded (PreDetermined (routing_data_of d)) s.
Proof.
  intros Hn Hd Hs Hm. unfold get_connector_by_name in Hd. destruct (integration denv n) as [m|] eqn:Hi; simplify_eq/=.
  rewrite (Hn n m Hi). by eexists.
Qed.

Lemma pre_determined_recorded s :
  names_kept → routed_mca s = attempt_mca payment_data →
  match try_get_pre_determined_connector denv payment_data s with
  | (Ok (Some call), s') => first_recorded call s'
  | (Ok None, s') => s' = s
  | (Err _, _) => False
  end.
Proof.
  intros Hn Hs. unfold try_get_pre_determined_connector, sr_bind.
  assert (match try_get_mandate_connector denv payment_data s with
          | (Ok (Some call), s') => first_recorded call s'
          | (Ok None, s') => s' = s
          | (Err _, _) => False
          end) as Hmandate.
  { unfold try_get_mandate_connector, sr_bind. destruct (mandate_connector payment_data) as [[n mca]|]; [|done].
    destruct (get_connector_by_name denv n mca) as [d|] eqn:Hd; [|done]. by eapply known_recorded. }
  unfold try_get_attempt_connector, sr_bind. destruct (attempt_connector payment_data) as [n|]; [|done].
  destruct (get_connector_by_name denv n _) as [d|] eqn:Hd; [|done]. by eapply known_recorded.
Qed.

(** [C23] When connectors are registered under their own names, the connector and the
    account that are recorded in the attempt are those of the first call, whichever
    way they were decided, unless a connector is known already (of the attempt or of
    the mandate) and a session call has left connectors for the payment method type
    of the payment: then the connector of the session is recorded and the known one
    called. *)
Theorem decided_connector_recorded c rst eligible mandate_type fb bi call s :
  names_kept →
  attempt_connector payment_data = None ∧ mandate_connector payment_data = None ∨ session_connectors = [] →
  perform_routing_for_connector_selection denv payment_data c rst eligible mandate_type fb bi = (Ok call, s) →
  first_recorded call s.
Proof.
  intros Hn Hor. unfold perform_routing_for_connector_selection. set (s0 := Build_RoutingState _ _ _ _ _).
  unfold decide_connector, sr_bind at 1, sr_ok at 1.
  pose proof (pre_determined_recorded s0 Hn eq_refl) as Hpre.
  destruct (try_get_pre_determined_connector denv payment_data s0) as [[o|e] s1] eqn:Hp; [|done].
  unfold sr_bind at 1. destruct o as [call1|].
  - destruct Hor as [[Ha Hm]|Hor]; [by rewrite no_pre_determined in Hp|].
    destruct (no_pre_routing s1 Hor) as (o & -> & ->). by intros [= <- <-].
  - subst s1. unfold sr_ok. destruct (try_pre_routing_connectors denv payment_data s0) as [[[call1|]|e] s1] eqn:Hr.
    1: { apply pre_routing_recorded in Hr. by intros [= <- <-]. }
    all: cbn [mjoin option_join first_some]; unfold sr_bind at 1; destruct (route _ _ _ _ _ _ _) as [[[l a]|e'] s2]; [|done];
      unfold sr_bind at 1, sr_lift at 1; destruct (map_err _ _) as [ds|]; [|done];
      unfold sr_bind at 1, sr_modify; by intros [Hrec _]%plan_run.
Qed.

End decide.
End routing.
