(* ===== verification/RoutingCaches.v ===== *)
(** * The caches of routing do not show

    As long as the entries of a profile are those of the database, deciding the
    connectors of a payment has the same outcome whatever is cached, and leaves
    such entries.  The operations respect a relation on states that forgets the
    caches. *)

From S2P Require Import Prelude GraphTypes GraphBuilder GraphCheck.
From S2P Require Import Country Currency PaymentEnums EuclidEnums EuclidTypes EuclidAst EuclidDir EuclidVir.
From S2P Require Import KgraphValues Kgraph RoutingInput Routing RoutingFacts DecideConnector.

(** ** Operations on the caches *)

Section steady.
Context `{Sampler} (env : Env).

(** The entries of the profile are those of the database. *)
Definition fresh (c : Caches) : Prop :=
  graph_fresh env c ∧ ∀ id, profile_routing_algorithm env = Some (Ok (Some id)) → algorithm_fresh env id c.

(** From fresh caches the operation has one result and leaves fresh caches. *)
Definition steady {E A} (op : sr Caches E A) : Prop :=
  ∃ r, ∀ c, fresh c → ∃ c', op c = (r, c') ∧ fresh c'.

Lemma steady_lift {E A} (r : result E A) : steady (sr_lift r).
Proof. exists r. intros c Hc. by exists c. Qed.

Lemma steady_bind {E A B} (op : sr Caches E A) (k : A → sr Caches E B) :
  steady op → (∀ a, steady (k a)) → steady (sr_bind op k).
Proof.
  intros [r Hr] Hk. destruct r as [a|e].
  - destruct (Hk a) as [r' Hr']. exists r'. intros c Hc. destruct (Hr c Hc) as (c' & Heq & Hc').
    unfold sr_bind. rewrite Heq. by apply Hr'.
  - exists (Err e). intros c Hc. destruct (Hr c Hc) as (c' & Heq & Hc'). exists c'. unfold sr_bind. by rewrite Heq.
Qed.

Lemma steady_ok {E E' A} (op : sr Caches E A) : steady op → steady (E := E') (sr_ok op).
Proof.
  intros [r Hr]. exists (Ok (match r with Ok a => Some a | Err _ => None end)). intros c Hc.
  destruct (Hr c Hc) as (c' & Heq & Hc'). exists c'. unfold sr_ok. rewrite Heq. by destruct r.
Qed.

Lemma steady_graph : steady (get_merchant_cgraph env).
Proof.
  exists (merchant_graph env). intros c [Hg Ha]. destruct (get_merchant_cgraph_fresh env c Hg) as (c' & Heq & Hg' & Hr).
  exists c'. split; [done|]. split; [done|]. intros id Hid. specialize (Ha id Hid). unfold algorithm_fresh in *. by rewrite Hr.
Qed.

Lemma steady_algorithm id :
  profile_routing_algorithm env = Some (Ok (Some id)) → steady (ensure_algorithm_cached_v1 env id).
Proof.
  intros Hid. eexists. intros c [Hg Ha]. destruct (ensure_algorithm_fresh env id c (Ha id Hid)) as (c' & Heq & Ha' & Hr).
  exists c'. split; [exact Heq|]. split; [unfold graph_fresh in *; by rewrite Hr|].
  intros id' Hid'. by simplify_eq.
Qed.

Hint Resolve steady_lift steady_bind steady_ok steady_graph : steady.

Lemma steady_filtering chosen input eligible active : steady (cgraph_filtering env chosen input eligible active).
Proof. unfold cgraph_filtering. auto with steady. Qed.

Lemma steady_static bi fb : steady (perform_static_routing_locally env bi fb).
Proof.
  unfold perform_static_routing_locally. destruct (profile_routing_algorithm env) as [[[id|]|]|] eqn:Hid.
  - refine (steady_bind (sr_ok (ensure_algorithm_cached_v1 env id)) _ _ (λ a, steady_lift _)).
    by apply steady_ok, steady_algorithm.
  - refine (steady_lift (Ok _)).
  - refine (steady_lift (Err _)).
  - refine (steady_lift (Ok _)).
Qed.

Lemma steady_routing cutover stage bi fb : steady (static_dynamic_routing_v1_for_payments env cutover stage bi fb).
Proof. apply steady_bind; [apply steady_static|]. intros a. apply (steady_lift (Ok _)). Qed.

Lemma steady_eligibility chosen input eligible :
  steady (perform_eligibility_analysis_with_fallback env chosen input eligible).
Proof.
  unfold perform_eligibility_analysis_with_fallback. destruct (list_enabled_accounts _ _ _); [|apply steady_lift].
  apply steady_bind; [apply steady_bind; [apply steady_lift|intros; apply steady_filtering]|]. intros sel.
  apply steady_bind; [|intros fb; apply (steady_lift (Ok _))]. apply steady_ok.
  apply steady_bind; [apply steady_lift|intros fbc]. apply steady_bind; [apply steady_lift|intros; apply steady_filtering].
Qed.

End steady.

(** ** States up to the caches *)

Section blind.
Context `{Sampler} {A : Type} (denv : DecideEnv (ActionType := A)) (payment_data : PaymentData).

Definition no_caches : Caches := {| routing_cache := ∅; cgraph_cache := ∅ |}.

(** The same up to the caches, which are fresh. *)
Definition similar (s s' : RoutingState) : Prop :=
  set_caches no_caches s = set_caches no_caches s' ∧ fresh (env denv) (caches s) ∧ fresh (env denv) (caches s').

Definition blind {E B} (op : sr RoutingState E B) : Prop :=
  ∀ s s', similar s s' → (op s).1 = (op s').1 ∧ similar (op s).2 (op s').2.

Lemma blind_lift {E B} (r : result E B) : blind (sr_lift r).
Proof. by intros s s'. Qed.

Lemma blind_ret {E B} (b : B) : blind (sr_ret (E := E) b).
Proof. by intros s s'. Qed.

Lemma blind_bind {E B C} (op : sr RoutingState E B) (k : B → sr RoutingState E C) :
  blind op → (∀ b, blind (k b)) → blind (sr_bind op k).
Proof.
  intros Hop Hk s s' Hs. destruct (Hop s s' Hs) as [Heq Hs1]. unfold sr_bind.
  destruct (op s) as [[b|e] s1], (op s') as [r' s1']; simpl in Heq; subst r'; [|done]. by apply Hk.
Qed.

Lemma blind_ok {E E' B} (op : sr RoutingState E B) : blind op → blind (sr_ok (E' := E') op).
Proof.
  intros Hop s s' Hs. destruct (Hop s s' Hs) as [Heq Hs1]. unfold sr_ok.
  destruct (op s) as [[b|e] s1], (op s') as [r' s1']; simpl in Heq; by subst r'.
Qed.

(** A change outside the caches. *)
Lemma blind_modify {E} (f : RoutingState → RoutingState) :
  (∀ s, caches (f s) = caches s) → (∀ s c, f (set_caches c s) = set_caches c (f s)) → blind (sr_modify (E := E) f).
Proof.
  intros Hc Hf s s' (Heq & H1 & H2). split; [done|]. simpl. split; [|by rewrite !Hc].
  by rewrite <- !Hf, Heq.
Qed.

(** An operation that first reads the state outside the caches. *)
Lemma blind_read {E B C} (f : RoutingState → C) (op : C → sr RoutingState E B) :
  (∀ s c, f (set_caches c s) = f s) → (∀ x, blind (op x)) → blind (λ s, op (f s) s).
Proof.
  intros Hf Hop s s' Hs. assert (f s' = f s) as ->.
  { rewrite <- (Hf s no_caches), <- (Hf s' no_caches). by destruct Hs as [-> _]. }
  by apply Hop.
Qed.

Lemma blind_caches {E B} (op : sr Caches E B) : steady (env denv) op → blind (on_caches op).
Proof.
  intros [r Hr] s s' (Heq & H1 & H2). unfold on_caches.
  destruct (Hr _ H1) as (c & -> & Hc), (Hr _ H2) as (c' & -> & Hc'). split; [done|].
  split; [|done]. by destruct s, s'.
Qed.

Lemma blind_if {E B} (b : bool) (op op' : sr RoutingState E B) :
  blind op → blind op' → blind (if b then op else op').
Proof. by destruct b. Qed.

Hint Resolve blind_lift blind_ret blind_bind blind_ok blind_caches blind_if : blind.
Hint Extern 2 (blind (sr_modify _)) => (by apply blind_modify) : blind.
Hint Extern 1 (steady _ _) => (first [apply steady_routing | apply steady_eligibility]) : blind.

Lemma similar_usage s s' : similar s s' → future_usage s = future_usage s'.
Proof. intros [Heq _]. by injection Heq. Qed.

Lemma blind_override : blind (override_setup_future_usage_to_on_session denv payment_data).
Proof.
  intros s s' Hs. unfold override_setup_future_usage_to_on_session. rewrite (similar_usage s s' Hs).
  destruct (bool_decide _); [|done]. destruct (skip_saving_wallet denv) as [[skipped|]|]; [|done..].
  destruct (attempt_payment_method_type _) as [pmt|]; [|done]. destruct (bool_decide (pmt ∈ skipped)); [|done].
  by apply (blind_modify (E := RouterError) (set_future_usage (Some FutureUsage_OnSession))).
Qed.

Lemma blind_pre_determined : blind (try_get_pre_determined_connector denv payment_data).
Proof.
  unfold try_get_pre_determined_connector, try_get_attempt_connector, try_get_mandate_connector.
  repeat case_match; auto 10 with blind.
  all: apply blind_bind; auto with blind; intros [?|]; auto with blind.
Qed.

Lemma blind_pre_routing : blind (try_pre_routing_connectors denv payment_data).
Proof.
  unfold try_pre_routing_connectors. destruct (has_token_data payment_data); [auto with blind|].
  destruct (attempt_payment_method_type _) as [pmt|]; [|auto with blind].
  destruct (resolve_pre_routed_connectors _ _) as [[|first rest]|]; [auto with blind| |auto with blind].
  apply blind_bind; [auto with blind|]. intros _. apply blind_bind; [auto 6 with blind|].
  intros [call|]; auto using blind_override with blind.
Qed.

Lemma blind_route rst eligible fb bi : blind (route denv payment_data rst eligible fb bi).
Proof.
  apply blind_bind.
  - unfold routing_stage. case_match; auto with blind.
  - intros o. destruct (default _ o) as [[l a] []]; [|auto with blind]. apply blind_bind; [|auto with blind].
    apply (blind_read (current_input payment_data)
      (λ input, sr_ok (on_caches (perform_eligibility_analysis_with_fallback (env denv) l input eligible)))); [done|].
    auto with blind.
Qed.

Lemma blind_plan cs mandate_type : blind (plan_payment_execution_after_routing denv payment_data cs mandate_type).
Proof.
  apply (blind_read (λ s, plan_of denv payment_data (future_usage s) mandate_type)
    (λ plan, execute_plan denv payment_data plan cs)); [done|].
  intros []; unfold execute_plan, record_first.
  - apply blind_if; [|auto with blind]. destruct (cs ≫= _); auto 6 with blind.
  - destruct cs; auto with blind.
  - apply blind_bind; [apply blind_override|]. intros _. destruct cs; auto with blind.
Qed.

Lemma blind_decide rst eligible mandate_type fb bi :
  blind (decide_connector denv payment_data rst eligible mandate_type fb bi).
Proof.
  apply blind_bind; [apply blind_ok, blind_pre_determined|]. intros o.
  apply blind_bind; [apply blind_ok, blind_pre_routing|]. intros o'.
  destruct (first_some _ _); [auto with blind|]. apply blind_bind; [apply blind_route|].
  intros final. apply blind_bind; [auto with blind|]. intros ds. apply blind_bind; [auto with blind|].
  intros _. apply blind_plan.
Qed.

End blind.

(** [C24] The caches of algorithms and graphs do not show: from any two caches
    whose entries for the profile are those of the database, or absent, deciding
    the connectors of a payment returns the same, records the same, and leaves
    caches whose entries for the profile are those of the database. *)
Theorem caches_invisible `{Sampler} {A} (denv : DecideEnv (ActionType := A)) payment_data c c' rst eligible mandate_type fb bi :
  fresh (env denv) c → fresh (env denv) c' →
  let run c := perform_routing_for_connector_selection denv payment_data c rst eligible mandate_type fb bi in
  (run c).1 = (run c').1 ∧ similar denv (run c).2 (run c').2.
Proof. intros Hc Hc'. apply blind_decide. split; [done|]. done. Qed.
