(* ===== verification/RoutingExample.v ===== *)
(** * Routing: examples

    A merchant with one Stripe account, the account and the filters of the tests
    of [mca.rs]; the properties of routing at work on it, and runs in which their
    hypotheses matter. *)

From S2P Require Import Prelude GraphTypes GraphBuilder GraphCheck.
From S2P Require Import Country Currency PaymentEnums EuclidEnums EuclidTypes EuclidAst EuclidDir EuclidVir.
From S2P Require Import KgraphValues Kgraph KgraphFacts KgraphContext KgraphTheorems RoutingInput Routing RoutingFacts DecideConnector.
From S2P Require Import RoutingTheorems RoutingCaches.

(** The first positive weight. *)
Fixpoint first_positive (ws : list Z) : option nat :=
  match ws with
  | [] => None
  | w :: ws => if bool_decide (0 < w)%Z then Some 0 else S <$> first_positive ws
  end.

#[local] Instance first_sampler : Sampler := first_positive.

Lemma first_sampler_laws : SamplerLaws.
Proof.
  intros ws. induction ws as [|w ws IH]; intros i Hi; [done|]. unfold weighted_index, first_sampler in *. simpl in Hi.
  case_bool_decide as Hw; [injection Hi as <-; by exists w|].
  destruct (first_positive ws) as [j|]; simplify_eq/=. by apply IH.
Qed.

Definition stripe_mca : MerchantConnectorAccount := {|
  mca_id := "mca_1";
  mca_connector_name := "stripe";
  mca_connector_type := PaymentProcessor;
  mca_payment_methods_enabled := Ok <$> payment_methods_enabled test_account;
|}.

Definition stripe_choice : RoutableConnectorChoice := test_choice RoutableConnectors_Stripe "mca_1".
Definition adyen_choice : RoutableConnectorChoice := test_choice RoutableConnectors_Adyen "mca_2".

Definition merchant (accounts : list MerchantConnectorAccount) (filters : list (string * PaymentMethodFilters)) : Env := {|
  store := {| find_routing_algorithm := λ _ _, Ok (Algorithm_VolumeSplit
                [mkVolumeSplit adyen_choice 0; mkVolumeSplit stripe_choice 100]);
              list_enabled_accounts := λ _ _, Ok accounts;
              find_default_config := λ _, Ok [adyen_choice; stripe_choice] |};
  pm_filters := filters;
  installment_connectors := λ _ _, None;
  redis_key_prefix := "public";
  env_merchant_id := "merchant";
  env_profile_id := "profile";
  profile_routing_algorithm := Some (Ok (Some "routing_1"%string));
|}.

Definition stripe_filters : list (string * PaymentMethodFilters) :=
  [("stripe"%string, default [] (connector_configs test_config !! RoutableConnectors_Stripe))].

Definition decide_env (e : Env) (results : option (gmap PaymentMethodType PreRoutingConnectorChoice)) :
    DecideEnv (ActionType := unit) := {|
  env := e;
  integration := Ok;
  pre_routing_results := results;
  routing_info_algorithm := None;
  should_do_retry := false;
  first_account_simplified := λ _, Ok false;
  account_simplified := λ _, Ok false;
  skip_saving_wallet := Ok None;
  cutover_enabled := false;
  de_stage := λ _, Err DslExecutionError;
  get_all_action_types := λ _, [];
  get_mandate_reference_id := λ _ _, Ok tt;
  is_payment_method_modular_allowed := false;
|}.

(** A payment of 1.01 rupees with a Visa credit card. *)
Definition card_input : PaymentsDslInput := {|
  setup_mandate := None;
  dsl_attempt := {|
    attempt_payment_method := Some PaymentMethod_Card; attempt_payment_method_type := Some PaymentMethodType_Credit;
    attempt_authentication_type := None; attempt_capture_method := None;
    net_amount := {| order_amount := 101; shipping_cost := None; order_tax_amount := None; net_surcharge_amount := None;
      tax_on_surcharge := None; installment_interest := None; offer_amount := None |};
    attempt_card_isin := None; attempt_card_extended_bin := None; external_surcharge_amount := None;
    attempt_has_installments := false |};
  dsl_intent := {|
    off_session := None; intent_business_country := None; intent_business_label := None;
    intent_setup_future_usage := None; intent_routing_parameters := Ok None; intent_profile_id := Some "profile"%string |};
  dsl_payment_method_data := Some (PMD_Card {| card_number := "4242424242424242"; card_issuing_country_code := None;
    card_data_network := Some CardNetwork_Visa; card_issuer := None |});
  dsl_billing_country := Some CountryAlpha2_IN;
  recurring_details := None;
  dsl_currency := Currency_INR;
|}.

Definition card_payment (connector : option string) : PaymentData := {|
  attempt_connector := connector;
  attempt_mca := (λ _, "mca_2"%string) <$> connector;
  mandate_connector := None;
  has_token_data := false;
  creds_identifier := None;
  has_payment_method_info := false;
  dsl_input := card_input;
|}.

Definition select (denv : DecideEnv (ActionType := unit)) (payment : PaymentData) (eligible : option (list RoutableConnectors)) :
    result RouterError (ConnectorCallType (ActionType := unit)) * RoutingState :=
  perform_routing_for_connector_selection denv payment no_caches None eligible None [adyen_choice; stripe_choice]
    (backend_input_of card_input).

Definition stripe_env : DecideEnv (ActionType := unit) := decide_env (merchant [stripe_mca] stripe_filters) None.

Definition call_to (names : list (string * string)) : ConnectorCallType (ActionType := unit) :=
  Retryable ((λ p, routing_data_of {| connector_data_name := p.1; connector_data_mca := Some p.2 |}) <$> names).

(** The state before and after. *)
Definition before : RoutingState := {|
  caches := no_caches; routed_through := None; routed_mca := None; future_usage := None; routing_approach := None;
|}.

Lemma select_stripe : (select stripe_env (card_payment None) None).1 = Ok (call_to [("stripe", "mca_1")]%string).
Proof. vm_compute. reflexivity. Qed.

Lemma stripe_routable : routable stripe_env (card_payment None) [stripe_mca] before.
Proof. split; [reflexivity|exact I|reflexivity|]. split; vm_compute; reflexivity. Qed.

Lemma decided_connectors_offered_witness :
  (select stripe_env (card_payment None) None).1 = Ok (call_to [("stripe", "mca_1")]%string) ∧
  ∃ choice, permitted None (active_ids [stripe_mca]) choice = true ∧
    filters_pass (env stripe_env) (backend_input_of card_input) (choice_connector choice) ∧
    merchant_connector_id choice = Some "mca_1"%string.
Proof.
  split; [exact select_stripe|].
  destruct (select stripe_env (card_payment None) None) as [r s'] eqn:Hrun. pose proof select_stripe as Hr.
  rewrite Hrun in Hr. simpl in Hr. subst r. unfold select, perform_routing_for_connector_selection in Hrun.
  destruct (decided_connectors_offered stripe_env (card_payment None) [stripe_mca] None None None
    [adyen_choice; stripe_choice] (backend_input_of card_input) before _ s' stripe_routable eq_refl eq_refl eq_refl Hrun
    (routing_data_of {| connector_data_name := "stripe"; connector_data_mca := Some "mca_1"%string |}))
    as (choice & (Hp & Hf & _) & _ & _ & Hm); [left|].
  exists choice. split; [exact Hp|]. split; [exact Hf|]. symmetry. exact Hm.
Defined.

Lemma decided_connector_recorded_witness :
  (select stripe_env (card_payment None) None).1 = Ok (call_to [("stripe", "mca_1")]%string) ∧
  routed_mca (select stripe_env (card_payment None) None).2 = Some "mca_1"%string.
Proof.
  split; [exact select_stripe|].
  destruct (select stripe_env (card_payment None) None) as [r s'] eqn:Hrun. pose proof select_stripe as Hr.
  rewrite Hrun in Hr. simpl in Hr. subst r. unfold select in Hrun.
  destruct (decided_connector_recorded stripe_env (card_payment None) no_caches None None None
    [adyen_choice; stripe_choice] (backend_input_of card_input) (call_to [("stripe", "mca_1")]%string) s') as (first & Hfirst & _ & Hm).
  - intros n m [= <-]. reflexivity.
  - right. reflexivity.
  - exact Hrun.
  - simpl in Hfirst. injection Hfirst as <-. exact Hm.
Defined.

Lemma no_caches_fresh e : fresh e no_caches.
Proof. split; [exact I|]. intros id _. exact I. Qed.

(** What the first payment leaves in the caches. *)
Definition warm_caches : Caches := caches (select stripe_env (card_payment None) None).2.

Lemma warm_caches_fresh : fresh (env stripe_env) warm_caches.
Proof.
  destruct (blind_decide stripe_env (card_payment None) None None None [adyen_choice; stripe_choice]
    (backend_input_of card_input) before before) as [_ (_ & Hf & _)].
  - split; [reflexivity|]. split; apply no_caches_fresh.
  - exact Hf.
Qed.

Lemma caches_invisible_witness :
  (perform_routing_for_connector_selection stripe_env (card_payment None) warm_caches None None None
    [adyen_choice; stripe_choice] (backend_input_of card_input)).1 = Ok (call_to [("stripe", "mca_1")]%string).
Proof.
  destruct (caches_invisible stripe_env (card_payment None) warm_caches no_caches None None None
    [adyen_choice; stripe_choice] (backend_input_of card_input) warm_caches_fresh (no_caches_fresh _)) as [Heq _].
  etransitivity; [exact Heq|]. exact select_stripe.
Defined.

(** ** A connector that is known already *)

(** The attempt is with Adyen, and an earlier session call has left Stripe for
    the payment method type: Adyen is called, Stripe is recorded. *)
Example session_connector_recorded :
  let denv := decide_env (merchant [stripe_mca] stripe_filters)
    (Some {[PaymentMethodType_Credit := PreRouting_Single stripe_choice]}) in
  let res := select denv (card_payment (Some "adyen"%string)) None in
  res.1 = Ok (PreDetermined (routing_data_of {| connector_data_name := "adyen"; connector_data_mca := Some "mca_2"%string |})) ∧
  routed_through res.2 = Some "stripe"%string ∧ routed_mca res.2 = Some "mca_1"%string.
Proof. split_and!; vm_compute; reflexivity. Qed.

(** ** An eligibility analysis that fails *)

(** The request asks for Stripe; the graph of the merchant cannot be built, as the
    configuration names an unknown connector: the payment goes to Adyen. *)
Example failed_analysis_ignores_request :
  let denv := decide_env (merchant [stripe_mca] [("unknown"%string, [])]) None in
  (select denv (card_payment None) (Some [RoutableConnectors_Stripe])).1 =
    Ok (call_to [("adyen", "mca_2"); ("stripe", "mca_1")]%string).
Proof. vm_compute. reflexivity. Qed.
