(* ===== verification/PaymentStatus.v ===== *)
(** * Payment statuses

    The statuses of an attempt, an intent and a capture
    ([crates/common_enums/src/enums.rs]) with the predicates on them, the
    intent status of an attempt ([transformers.rs]) and the capture status of
    an attempt ([crates/router/src/types/transformers.rs]). *)

From S2P Require Import Prelude.

Inductive AttemptStatus : Set :=
  | AttemptStatus_Started | AttemptStatus_AuthenticationFailed | AttemptStatus_RouterDeclined
  | AttemptStatus_AuthenticationPending | AttemptStatus_AuthenticationSuccessful
  | AttemptStatus_Authorized | AttemptStatus_AuthorizationFailed | AttemptStatus_Charged
  | AttemptStatus_Authorizing | AttemptStatus_CodInitiated | AttemptStatus_Voided
  | AttemptStatus_VoidedPostCharge | AttemptStatus_VoidInitiated
  | AttemptStatus_CaptureInitiated | AttemptStatus_CaptureFailed | AttemptStatus_VoidFailed
  | AttemptStatus_AutoRefunded | AttemptStatus_PartialCharged
  | AttemptStatus_PartiallyAuthorized | AttemptStatus_PartialChargedAndChargeable
  | AttemptStatus_Unresolved | AttemptStatus_Pending | AttemptStatus_Failure
  | AttemptStatus_PaymentMethodAwaited | AttemptStatus_ConfirmationAwaited
  | AttemptStatus_DeviceDataCollectionPending | AttemptStatus_IntegrityFailure
  | AttemptStatus_Expired | AttemptStatus_CaptureReview.

#[export] Program Instance AttemptStatus_enumerated : Enumerated AttemptStatus := {|
  variants := [
    AttemptStatus_Started; AttemptStatus_AuthenticationFailed; AttemptStatus_RouterDeclined;
    AttemptStatus_AuthenticationPending; AttemptStatus_AuthenticationSuccessful;
    AttemptStatus_Authorized; AttemptStatus_AuthorizationFailed; AttemptStatus_Charged;
    AttemptStatus_Authorizing; AttemptStatus_CodInitiated; AttemptStatus_Voided;
    AttemptStatus_VoidedPostCharge; AttemptStatus_VoidInitiated;
    AttemptStatus_CaptureInitiated; AttemptStatus_CaptureFailed; AttemptStatus_VoidFailed;
    AttemptStatus_AutoRefunded; AttemptStatus_PartialCharged;
    AttemptStatus_PartiallyAuthorized; AttemptStatus_PartialChargedAndChargeable;
    AttemptStatus_Unresolved; AttemptStatus_Pending; AttemptStatus_Failure;
    AttemptStatus_PaymentMethodAwaited; AttemptStatus_ConfirmationAwaited;
    AttemptStatus_DeviceDataCollectionPending; AttemptStatus_IntegrityFailure;
    AttemptStatus_Expired; AttemptStatus_CaptureReview];
  discriminant x := match x with
    | AttemptStatus_Started => 0 | AttemptStatus_AuthenticationFailed => 1
    | AttemptStatus_RouterDeclined => 2 | AttemptStatus_AuthenticationPending => 3
    | AttemptStatus_AuthenticationSuccessful => 4 | AttemptStatus_Authorized => 5
    | AttemptStatus_AuthorizationFailed => 6 | AttemptStatus_Charged => 7
    | AttemptStatus_Authorizing => 8 | AttemptStatus_CodInitiated => 9
    | AttemptStatus_Voided => 10 | AttemptStatus_VoidedPostCharge => 11
    | AttemptStatus_VoidInitiated => 12 | AttemptStatus_CaptureInitiated => 13
    | AttemptStatus_CaptureFailed => 14 | AttemptStatus_VoidFailed => 15
    | AttemptStatus_AutoRefunded => 16 | AttemptStatus_PartialCharged => 17
    | AttemptStatus_PartiallyAuthorized => 18 | AttemptStatus_PartialChargedAndChargeable => 19
    | AttemptStatus_Unresolved => 20 | AttemptStatus_Pending => 21
    | AttemptStatus_Failure => 22 | AttemptStatus_PaymentMethodAwaited => 23
    | AttemptStatus_ConfirmationAwaited => 24 | AttemptStatus_DeviceDataCollectionPending => 25
    | AttemptStatus_IntegrityFailure => 26 | AttemptStatus_Expired => 27
    | AttemptStatus_CaptureReview => 28
    end;
|}.
Next Obligation. by intros []. Qed.

#[export] Instance AttemptStatus_strum : EnumString AttemptStatus := one_name (λ x, match x with
    | AttemptStatus_Started => "started"
    | AttemptStatus_AuthenticationFailed => "authentication_failed"
    | AttemptStatus_RouterDeclined => "router_declined"
    | AttemptStatus_AuthenticationPending => "authentication_pending"
    | AttemptStatus_AuthenticationSuccessful => "authentication_successful"
    | AttemptStatus_Authorized => "authorized"
    | AttemptStatus_AuthorizationFailed => "authorization_failed"
    | AttemptStatus_Charged => "charged" | AttemptStatus_Authorizing => "authorizing"
    | AttemptStatus_CodInitiated => "cod_initiated" | AttemptStatus_Voided => "voided"
    | AttemptStatus_VoidedPostCharge => "voided_post_charge"
    | AttemptStatus_VoidInitiated => "void_initiated"
    | AttemptStatus_CaptureInitiated => "capture_initiated"
    | AttemptStatus_CaptureFailed => "capture_failed"
    | AttemptStatus_VoidFailed => "void_failed" | AttemptStatus_AutoRefunded => "auto_refunded"
    | AttemptStatus_PartialCharged => "partial_charged"
    | AttemptStatus_PartiallyAuthorized => "partially_authorized"
    | AttemptStatus_PartialChargedAndChargeable => "partial_charged_and_chargeable"
    | AttemptStatus_Unresolved => "unresolved" | AttemptStatus_Pending => "pending"
    | AttemptStatus_Failure => "failure"
    | AttemptStatus_PaymentMethodAwaited => "payment_method_awaited"
    | AttemptStatus_ConfirmationAwaited => "confirmation_awaited"
    | AttemptStatus_DeviceDataCollectionPending => "device_data_collection_pending"
    | AttemptStatus_IntegrityFailure => "integrity_failure"
    | AttemptStatus_Expired => "expired" | AttemptStatus_CaptureReview => "capture_review"
    end).

Inductive IntentStatus : Set :=
  | IntentStatus_Succeeded | IntentStatus_Failed | IntentStatus_Cancelled
  | IntentStatus_CancelledPostCapture | IntentStatus_Processing
  | IntentStatus_RequiresCustomerAction | IntentStatus_RequiresMerchantAction
  | IntentStatus_RequiresPaymentMethod | IntentStatus_RequiresConfirmation
  | IntentStatus_RequiresCapture | IntentStatus_PartiallyCaptured
  | IntentStatus_PartiallyCapturedAndCapturable
  | IntentStatus_PartiallyAuthorizedAndRequiresCapture
  | IntentStatus_PartiallyCapturedAndProcessing | IntentStatus_Conflicted
  | IntentStatus_Expired | IntentStatus_Review.

#[export] Program Instance IntentStatus_enumerated : Enumerated IntentStatus := {|
  variants := [
    IntentStatus_Succeeded; IntentStatus_Failed; IntentStatus_Cancelled;
    IntentStatus_CancelledPostCapture; IntentStatus_Processing;
    IntentStatus_RequiresCustomerAction; IntentStatus_RequiresMerchantAction;
    IntentStatus_RequiresPaymentMethod; IntentStatus_RequiresConfirmation;
    IntentStatus_RequiresCapture; IntentStatus_PartiallyCaptured;
    IntentStatus_PartiallyCapturedAndCapturable;
    IntentStatus_PartiallyAuthorizedAndRequiresCapture;
    IntentStatus_PartiallyCapturedAndProcessing; IntentStatus_Conflicted; IntentStatus_Expired;
    IntentStatus_Review];
  discriminant x := match x with
    | IntentStatus_Succeeded => 0 | IntentStatus_Failed => 1 | IntentStatus_Cancelled => 2
    | IntentStatus_CancelledPostCapture => 3 | IntentStatus_Processing => 4
    | IntentStatus_RequiresCustomerAction => 5 | IntentStatus_RequiresMerchantAction => 6
    | IntentStatus_RequiresPaymentMethod => 7 | IntentStatus_RequiresConfirmation => 8
    | IntentStatus_RequiresCapture => 9 | IntentStatus_PartiallyCaptured => 10
    | IntentStatus_PartiallyCapturedAndCapturable => 11
    | IntentStatus_PartiallyAuthorizedAndRequiresCapture => 12
    | IntentStatus_PartiallyCapturedAndProcessing => 13 | IntentStatus_Conflicted => 14
    | IntentStatus_Expired => 15 | IntentStatus_Review => 16
    end;
|}.
Next Obligation. by intros []. Qed.

#[export] Instance IntentStatus_strum : EnumString IntentStatus := one_name (λ x, match x with
    | IntentStatus_Succeeded => "succeeded" | IntentStatus_Failed => "failed"
    | IntentStatus_Cancelled => "cancelled"
    | IntentStatus_CancelledPostCapture => "cancelled_post_capture"
    | IntentStatus_Processing => "processing"
    | IntentStatus_RequiresCustomerAction => "requires_customer_action"
    | IntentStatus_RequiresMerchantAction => "requires_merchant_action"
    | IntentStatus_RequiresPaymentMethod => "requires_payment_method"
    | IntentStatus_RequiresConfirmation => "requires_confirmation"
    | IntentStatus_RequiresCapture => "requires_capture"
    | IntentStatus_PartiallyCaptured => "partially_captured"
    | IntentStatus_PartiallyCapturedAndCapturable => "partially_captured_and_capturable"
    | IntentStatus_PartiallyAuthorizedAndRequiresCapture => "partially_authorized_and_requires_capture"
    | IntentStatus_PartiallyCapturedAndProcessing => "partially_captured_and_processing"
    | IntentStatus_Conflicted => "conflicted" | IntentStatus_Expired => "expired"
    | IntentStatus_Review => "review"
    end).

Inductive CaptureStatus : Set :=
  | CaptureStatus_Started | CaptureStatus_Charged | CaptureStatus_Pending
  | CaptureStatus_Failed.

#[export] Program Instance CaptureStatus_enumerated : Enumerated CaptureStatus := {|
  variants := [
    CaptureStatus_Started; CaptureStatus_Charged; CaptureStatus_Pending; CaptureStatus_Failed];
  discriminant x := match x with
    | CaptureStatus_Started => 0 | CaptureStatus_Charged => 1 | CaptureStatus_Pending => 2
    | CaptureStatus_Failed => 3
    end;
|}.
Next Obligation. by intros []. Qed.

#[export] Instance CaptureStatus_strum : EnumString CaptureStatus := one_name (λ x, match x with
    | CaptureStatus_Started => "started" | CaptureStatus_Charged => "charged"
    | CaptureStatus_Pending => "pending" | CaptureStatus_Failed => "failed"
    end).

(** [AttemptStatus::is_terminal_status]. *)
Definition is_terminal_status (x : AttemptStatus) : bool :=
  match x with
  | AttemptStatus_RouterDeclined | AttemptStatus_Charged | AttemptStatus_AutoRefunded
  | AttemptStatus_Voided | AttemptStatus_VoidFailed | AttemptStatus_CaptureFailed
  | AttemptStatus_Failure | AttemptStatus_PartialCharged | AttemptStatus_Expired => true
  | AttemptStatus_Started | AttemptStatus_AuthenticationFailed
  | AttemptStatus_AuthenticationPending | AttemptStatus_AuthenticationSuccessful
  | AttemptStatus_Authorized | AttemptStatus_PartiallyAuthorized
  | AttemptStatus_AuthorizationFailed | AttemptStatus_Authorizing | AttemptStatus_CodInitiated
  | AttemptStatus_VoidInitiated | AttemptStatus_CaptureInitiated
  | AttemptStatus_PartialChargedAndChargeable | AttemptStatus_Unresolved
  | AttemptStatus_Pending | AttemptStatus_PaymentMethodAwaited
  | AttemptStatus_ConfirmationAwaited | AttemptStatus_DeviceDataCollectionPending
  | AttemptStatus_IntegrityFailure | AttemptStatus_VoidedPostCharge
  | AttemptStatus_CaptureReview => false
  end.

(** [AttemptStatus::is_payment_terminal_failure]. *)
Definition is_payment_terminal_failure (x : AttemptStatus) : bool :=
  match x with
  | AttemptStatus_RouterDeclined | AttemptStatus_Failure | AttemptStatus_Expired
  | AttemptStatus_VoidFailed | AttemptStatus_CaptureFailed | AttemptStatus_AuthenticationFailed
  | AttemptStatus_AuthorizationFailed => true
  | AttemptStatus_Started | AttemptStatus_AuthenticationPending
  | AttemptStatus_AuthenticationSuccessful | AttemptStatus_Authorized | AttemptStatus_Charged
  | AttemptStatus_Authorizing | AttemptStatus_CodInitiated | AttemptStatus_Voided
  | AttemptStatus_VoidedPostCharge | AttemptStatus_VoidInitiated
  | AttemptStatus_CaptureInitiated | AttemptStatus_AutoRefunded | AttemptStatus_PartialCharged
  | AttemptStatus_PartiallyAuthorized | AttemptStatus_PartialChargedAndChargeable
  | AttemptStatus_Unresolved | AttemptStatus_Pending | AttemptStatus_PaymentMethodAwaited
  | AttemptStatus_ConfirmationAwaited | AttemptStatus_DeviceDataCollectionPending
  | AttemptStatus_IntegrityFailure | AttemptStatus_CaptureReview => false
  end.

(** [AttemptStatus::should_update_payment_method]. *)
Definition should_update_payment_method (x : AttemptStatus) : bool :=
  match x with
  | AttemptStatus_Charged | AttemptStatus_PartialCharged | AttemptStatus_Authorized
  | AttemptStatus_PartiallyAuthorized | AttemptStatus_AuthenticationSuccessful
  | AttemptStatus_PartialChargedAndChargeable => true
  | AttemptStatus_Started | AttemptStatus_AuthenticationFailed | AttemptStatus_RouterDeclined
  | AttemptStatus_AuthenticationPending | AttemptStatus_AuthorizationFailed
  | AttemptStatus_Authorizing | AttemptStatus_CodInitiated | AttemptStatus_Voided
  | AttemptStatus_VoidedPostCharge | AttemptStatus_VoidInitiated
  | AttemptStatus_CaptureInitiated | AttemptStatus_CaptureFailed | AttemptStatus_VoidFailed
  | AttemptStatus_AutoRefunded | AttemptStatus_Unresolved | AttemptStatus_Pending
  | AttemptStatus_Failure | AttemptStatus_PaymentMethodAwaited
  | AttemptStatus_ConfirmationAwaited | AttemptStatus_DeviceDataCollectionPending
  | AttemptStatus_IntegrityFailure | AttemptStatus_Expired
  | AttemptStatus_CaptureReview => false
  end.

(** [IntentStatus::is_in_terminal_state]. *)
Definition is_in_terminal_state (x : IntentStatus) : bool :=
  match x with
  | IntentStatus_Succeeded | IntentStatus_Failed | IntentStatus_Cancelled
  | IntentStatus_CancelledPostCapture | IntentStatus_PartiallyCaptured
  | IntentStatus_Expired => true
  | IntentStatus_Processing | IntentStatus_RequiresCustomerAction
  | IntentStatus_RequiresMerchantAction | IntentStatus_RequiresPaymentMethod
  | IntentStatus_RequiresConfirmation | IntentStatus_RequiresCapture
  | IntentStatus_PartiallyCapturedAndCapturable
  | IntentStatus_PartiallyAuthorizedAndRequiresCapture | IntentStatus_Conflicted
  | IntentStatus_PartiallyCapturedAndProcessing | IntentStatus_Review => false
  end.

(** [IntentStatus::should_force_sync_with_connector]. *)
Definition should_force_sync_with_connector (x : IntentStatus) : bool :=
  match x with
  | IntentStatus_RequiresConfirmation | IntentStatus_RequiresPaymentMethod
  | IntentStatus_Succeeded | IntentStatus_Failed | IntentStatus_Cancelled
  | IntentStatus_CancelledPostCapture | IntentStatus_PartiallyCaptured
  | IntentStatus_RequiresCapture | IntentStatus_Conflicted | IntentStatus_Expired
  | IntentStatus_Review => false
  | IntentStatus_Processing | IntentStatus_RequiresCustomerAction
  | IntentStatus_RequiresMerchantAction | IntentStatus_PartiallyCapturedAndCapturable
  | IntentStatus_PartiallyAuthorizedAndRequiresCapture
  | IntentStatus_PartiallyCapturedAndProcessing => true
  end.

(** [AttemptStatus::is_success]. *)
Definition is_success (x : AttemptStatus) : bool :=
  match x with
  | AttemptStatus_Charged | AttemptStatus_PartialCharged => true
  | _ => false
  end.

(** [AttemptStatus::is_authorization_success]. *)
Definition is_authorization_success (x : AttemptStatus) : bool :=
  match x with
  | AttemptStatus_Authorized | AttemptStatus_PartiallyAuthorized | AttemptStatus_Charged
  | AttemptStatus_PartialCharged | AttemptStatus_PartialChargedAndChargeable => true
  | _ => false
  end.

(** [IntentStatus::is_eligible_for_manual_retry]. *)
Definition is_eligible_for_manual_retry (x : IntentStatus) : bool :=
  match x with
  | IntentStatus_Failed => true
  | _ => false
  end.

(** [IntentStatus::from(AttemptStatus)]. *)
Definition intent_status_of (x : AttemptStatus) : IntentStatus :=
  match x with
  | AttemptStatus_Charged | AttemptStatus_AutoRefunded => IntentStatus_Succeeded
  | AttemptStatus_ConfirmationAwaited => IntentStatus_RequiresConfirmation
  | AttemptStatus_PaymentMethodAwaited => IntentStatus_RequiresPaymentMethod
  | AttemptStatus_Authorized => IntentStatus_RequiresCapture
  | AttemptStatus_AuthenticationPending
  | AttemptStatus_DeviceDataCollectionPending => IntentStatus_RequiresCustomerAction
  | AttemptStatus_Unresolved => IntentStatus_RequiresMerchantAction
  | AttemptStatus_IntegrityFailure => IntentStatus_Conflicted
  | AttemptStatus_PartialCharged => IntentStatus_PartiallyCaptured
  | AttemptStatus_PartialChargedAndChargeable => IntentStatus_PartiallyCapturedAndCapturable
  | AttemptStatus_Started | AttemptStatus_AuthenticationSuccessful | AttemptStatus_Authorizing
  | AttemptStatus_CodInitiated | AttemptStatus_VoidInitiated | AttemptStatus_CaptureInitiated
  | AttemptStatus_Pending => IntentStatus_Processing
  | AttemptStatus_AuthenticationFailed | AttemptStatus_AuthorizationFailed
  | AttemptStatus_VoidFailed | AttemptStatus_RouterDeclined | AttemptStatus_CaptureFailed
  | AttemptStatus_Failure => IntentStatus_Failed
  | AttemptStatus_Voided => IntentStatus_Cancelled
  | AttemptStatus_VoidedPostCharge => IntentStatus_CancelledPostCapture
  | AttemptStatus_Expired => IntentStatus_Expired
  | AttemptStatus_PartiallyAuthorized => IntentStatus_PartiallyAuthorizedAndRequiresCapture
  | AttemptStatus_CaptureReview => IntentStatus_Review
  end.

(** [CaptureStatus::foreign_try_from(AttemptStatus)]; [None] is the
    [PreconditionFailed] error. *)
Definition capture_status_of (x : AttemptStatus) : option CaptureStatus :=
  match x with
  | AttemptStatus_Charged | AttemptStatus_PartialCharged
  | AttemptStatus_IntegrityFailure => Some CaptureStatus_Charged
  | AttemptStatus_Pending | AttemptStatus_CaptureInitiated => Some CaptureStatus_Pending
  | AttemptStatus_Failure | AttemptStatus_CaptureFailed => Some CaptureStatus_Failed
  | AttemptStatus_Started | AttemptStatus_AuthenticationFailed | AttemptStatus_RouterDeclined
  | AttemptStatus_AuthenticationPending | AttemptStatus_AuthenticationSuccessful
  | AttemptStatus_Authorized | AttemptStatus_AuthorizationFailed | AttemptStatus_Authorizing
  | AttemptStatus_CodInitiated | AttemptStatus_Voided | AttemptStatus_VoidedPostCharge
  | AttemptStatus_VoidInitiated | AttemptStatus_VoidFailed | AttemptStatus_AutoRefunded
  | AttemptStatus_Unresolved | AttemptStatus_PaymentMethodAwaited
  | AttemptStatus_ConfirmationAwaited | AttemptStatus_DeviceDataCollectionPending
  | AttemptStatus_PartiallyAuthorized | AttemptStatus_PartialChargedAndChargeable
  | AttemptStatus_Expired | AttemptStatus_CaptureReview => None
  end.

#[export] Instance AttemptStatus_laws : EnumStringLaws AttemptStatus.
Proof. apply enum_string_laws_check. by_evaluation. Qed.
#[export] Instance IntentStatus_laws : EnumStringLaws IntentStatus.
Proof. apply enum_string_laws_check. by_evaluation. Qed.
#[export] Instance CaptureStatus_laws : EnumStringLaws CaptureStatus.
Proof. apply enum_string_laws_check. by_evaluation. Qed.

(** The status of the intent follows the status of the attempt: it is
    terminal when the attempt is, and else only for a failed authentication or
    authorization and a void after the charge; it is failed or expired exactly
    for a terminal failure; a terminal intent is not synchronised by force; and
    a successful attempt is authorized. *)
Theorem attempt_intent_agree (st : AttemptStatus) :
  is_in_terminal_state (intent_status_of st) =
    is_terminal_status st || bool_decide (st ∈ [AttemptStatus_AuthenticationFailed;
      AttemptStatus_AuthorizationFailed; AttemptStatus_VoidedPostCharge]) ∧
  is_payment_terminal_failure st =
    bool_decide (intent_status_of st ∈ [IntentStatus_Failed; IntentStatus_Expired]) ∧
  is_in_terminal_state (intent_status_of st) && should_force_sync_with_connector (intent_status_of st) = false ∧
  implb (is_eligible_for_manual_retry (intent_status_of st)) (is_payment_terminal_failure st) = true ∧
  implb (is_success st) (is_authorization_success st && should_update_payment_method st) = true ∧
  implb (bool_decide (capture_status_of st = Some CaptureStatus_Failed)) (is_payment_terminal_failure st) = true.
Proof. by destruct st. Qed.
