(* ===== verification/Captures.v ===== *)
(** * Multiple captures

    A payment with capture method [manual_multiple] is captured in parts.  The
    file models the capture rows and their updates
    ([crates/diesel_models/src/capture.rs]), the bookkeeping of
    [MultipleCaptureData] ([crates/router/src/core/payments/types.rs]), the
    handler of a capture request
    ([core/payments/operations/payment_capture.rs], [core/payments/helpers.rs])
    and the update after the connector answers
    ([core/payments/operations/payment_response.rs]).

    Amounts are [i64] and counts [i16]; an overflow, which panics in a build
    with overflow checks, is the error [Overflow].  The database is the
    [Store]; [now] is the clock and [blake3_hex] the hash of a long
    transaction id. *)

From stdpp Require Import pretty.
From S2P Require Import Prelude Currency PaymentEnums PaymentStatus.

(** ** Errors and checked arithmetic *)

(** The [ApiErrorResponse]s of the flow. *)
Inductive ApiError :=
| MissingRequiredField (field_name : string)
| PaymentUnexpectedState (field_name current_value : string)
| InvalidDataFormat (field_name : string)
| InvalidRequestData (message : string)
| PaymentNotFound
| PreconditionFailed
| InternalServerError
| CaptureIntegrityCheckFailed
| Overflow.

(** [impl Add for MinorUnit], [impl Sub for MinorUnit]. *)
Definition minor_add (a b : Z) : result ApiError Z := ok_or Overflow (checked_i64 (a + b)).
Definition minor_sub (a b : Z) : result ApiError Z := ok_or Overflow (checked_i64 (a - b)).

Definition i16_max : Z := 2 ^ 15 - 1.

(** [+ 1] on a count that is not negative. *)
Definition i16_succ (n : Z) : result ApiError Z :=
  if (n <? i16_max)%Z then Ok (n + 1)%Z else Err Overflow.

(** [NetAmount]. *)
Record NetAmount := mkNetAmount {
  order_amount : Z;
  shipping_cost : option Z;
  order_tax_amount : option Z;
  surcharge_amount : option Z;
  tax_on_surcharge : option Z;
  installment_interest : option Z;
  offer_amount : option Z;
}.

(** [NetAmount::get_total_amount]. *)
Definition get_total_amount (n : NetAmount) : result ApiError Z :=
  a ← minor_add (order_amount n) (default 0%Z (shipping_cost n));
  a ← minor_add a (default 0%Z (order_tax_amount n));
  a ← minor_add a (default 0%Z (surcharge_amount n));
  a ← minor_add a (default 0%Z (tax_on_surcharge n));
  a ← minor_add a (default 0%Z (installment_interest n));
  minor_sub a (default 0%Z (offer_amount n)).

(** ** Connector transaction ids *)

Inductive ConnectorTransactionId :=
| TxnId (id : string)
| HashedData (id : string).

#[export] Instance ConnectorTransactionId_eq_dec : EqDecision ConnectorTransactionId.
Proof. solve_decision. Defined.

Definition get_id (self : ConnectorTransactionId) : string :=
  match self with TxnId id | HashedData id => id end.

(** [get_txn_id]; [None] is the validation error. *)
Definition get_txn_id (self : ConnectorTransactionId) (txn_data : option string) : option string :=
  match self, txn_data with
  | TxnId id, _ => Some id
  | HashedData _, Some id => Some id
  | HashedData _, None => None
  end.

Section hash.
Variable blake3_hex : string → string.

(** [impl From<String> for ConnectorTransactionId]. *)
Definition txn_id_from (src : string) : ConnectorTransactionId :=
  if String.prefix "hs_hash_" src then HashedData src
  else if decide (128 < String.length src) then HashedData ("hs_hash_" +:+ blake3_hex src)
  else TxnId src.

Definition form_id_and_data (src : string) : ConnectorTransactionId * option string :=
  match txn_id_from src with
  | TxnId id => (TxnId id, None)
  | HashedData id => (HashedData id, Some src)
  end.

End hash.

(** ** Capture rows *)

Record Capture := mkCapture {
  capture_id : string;
  payment_id : string;
  merchant_id : string;
  status : CaptureStatus;
  amount : Z;
  capture_currency : option Currency;
  capture_connector : string;
  error_message : option string;
  error_code : option string;
  error_reason : option string;
  tax_amount : option Z;
  created_at : Z;
  modified_at : Z;
  authorized_attempt_id : string;
  connector_capture_id : option ConnectorTransactionId;
  capture_sequence : Z;
  connector_response_reference_id : option string;
  connector_capture_data : option string;
  processor_capture_data : option string;
}.

#[export] Instance Capture_eq_dec : EqDecision Capture.
Proof. solve_decision. Defined.

(** [impl ConnectorTransactionIdTrait for Capture]. *)
Definition get_optional_connector_transaction_id (c : Capture) : option string :=
  match connector_capture_id c with
  | None => None
  | Some id =>
      match get_txn_id id (processor_capture_data c) with
      | Some txn => Some txn
      | None => Some (get_id id)
      end
  end.

Inductive CaptureUpdate :=
| ResponseUpdate (status : CaptureStatus) (connector_capture_id : option ConnectorTransactionId)
    (connector_response_reference_id processor_capture_data : option string)
| ErrorUpdate (status : CaptureStatus) (error_code error_message error_reason : option string).

Definition update_status (u : CaptureUpdate) : CaptureStatus :=
  match u with ResponseUpdate s _ _ _ | ErrorUpdate s _ _ _ => s end.

Record CaptureUpdateInternal := mkCaptureUpdateInternal {
  u_status : option CaptureStatus;
  u_error_message : option string;
  u_error_code : option string;
  u_error_reason : option string;
  u_modified_at : option Z;
  u_connector_capture_id : option ConnectorTransactionId;
  u_connector_response_reference_id : option string;
  u_processor_capture_data : option string;
}.

(** [impl From<CaptureUpdate> for CaptureUpdateInternal]. *)
Definition update_internal (now : Z) (u : CaptureUpdate) : CaptureUpdateInternal :=
  match u with
  | ResponseUpdate s cid ref data => mkCaptureUpdateInternal (Some s) None None None (Some now) cid ref data
  | ErrorUpdate s code message reason =>
      mkCaptureUpdateInternal (Some s) message code reason (Some now) None None None
  end.

(** A field of the changeset replaces the field of the row when it is [Some]. *)
Definition or_keep {A} (new old : option A) : option A := match new with Some a => Some a | None => old end.

(** [apply_changeset], generated for [CaptureUpdateInternal]. *)
Definition apply_changeset (u : CaptureUpdateInternal) (c : Capture) : Capture :=
  mkCapture (capture_id c) (payment_id c) (merchant_id c)
    (default (status c) (u_status u)) (amount c) (capture_currency c) (capture_connector c)
    (or_keep (u_error_message u) (error_message c)) (or_keep (u_error_code u) (error_code c))
    (or_keep (u_error_reason u) (error_reason c)) (tax_amount c) (created_at c)
    (default (modified_at c) (u_modified_at u)) (authorized_attempt_id c)
    (or_keep (u_connector_capture_id u) (connector_capture_id c)) (capture_sequence c)
    (or_keep (u_connector_response_reference_id u) (connector_response_reference_id c))
    (connector_capture_data c) (or_keep (u_processor_capture_data u) (processor_capture_data c)).

(** ** [MultipleCaptureData] *)

Record MultipleCaptureData := mkMultipleCaptureData {
  all_captures : gmap string Capture;
  latest_capture : Capture;
  expand_captures : option bool;
}.

(** [into_iter().map(|c| (c.capture_id, c)).collect()]: a later row with the same
    id replaces an earlier one. *)
Definition by_capture_id (l : list Capture) : gmap string Capture :=
  foldl (λ m c, <[capture_id c := c]> m) ∅ l.

Definition new_for_sync (captures : list Capture) (expand : option bool) :
    result ApiError MultipleCaptureData :=
  latest ← ok_or InternalServerError (last captures);
  Ok (mkMultipleCaptureData (by_capture_id captures) latest expand).

Definition new_for_create (previous_captures : list Capture) (new_capture : Capture) :
    MultipleCaptureData :=
  mkMultipleCaptureData (by_capture_id (previous_captures ++ [new_capture])) new_capture None.

Definition update_capture (updated : Capture) (d : MultipleCaptureData) : MultipleCaptureData :=
  match all_captures d !! capture_id updated with
  | Some _ =>
      mkMultipleCaptureData (<[capture_id updated := updated]> (all_captures d))
        (latest_capture d) (expand_captures d)
  | None => d
  end.

Definition rows (d : MultipleCaptureData) : list Capture := (map_to_list (all_captures d)).*2.

(** [fold(MinorUnit::new(0), |acc, capture| acc + f(capture))]. *)
Fixpoint sum_amounts (f : Capture → Z) (acc : Z) (l : list Capture) : result ApiError Z :=
  match l with
  | [] => Ok acc
  | c :: l => acc ← minor_add acc (f c); sum_amounts f acc l
  end.

Definition blocked (c : Capture) : Z :=
  match status c with
  | CaptureStatus_Charged | CaptureStatus_Pending => amount c
  | CaptureStatus_Started | CaptureStatus_Failed => 0%Z
  end.

Definition charged (c : Capture) : Z :=
  match status c with
  | CaptureStatus_Charged => amount c
  | CaptureStatus_Pending | CaptureStatus_Started | CaptureStatus_Failed => 0%Z
  end.

Definition get_total_blocked_amount (d : MultipleCaptureData) : result ApiError Z :=
  sum_amounts blocked 0 (rows d).

Definition get_total_charged_amount (d : MultipleCaptureData) : result ApiError Z :=
  sum_amounts charged 0 (rows d).

Definition get_captures_count (d : MultipleCaptureData) : result ApiError Z :=
  let n := Z.of_nat (size (all_captures d)) in
  if (n <=? i16_max)%Z then Ok n else Err InternalServerError.

(** The loop of [get_status_count]. *)
Fixpoint count_statuses (l : list Capture) (m : gmap CaptureStatus Z) :
    result ApiError (gmap CaptureStatus Z) :=
  match l with
  | [] => Ok m
  | c :: l =>
      match m !! status c with
      | None => count_statuses l m
      | Some count => n ← i16_succ count; count_statuses l (<[status c := n]> m)
      end
  end.

Definition get_status_count (d : MultipleCaptureData) : result ApiError (gmap CaptureStatus Z) :=
  count_statuses (rows d)
    (list_to_map [(CaptureStatus_Charged, 0%Z); (CaptureStatus_Pending, 0%Z);
                  (CaptureStatus_Started, 0%Z); (CaptureStatus_Failed, 0%Z)]).

Definition get_attempt_status (authorized_amount : Z) (d : MultipleCaptureData) :
    result ApiError AttemptStatus :=
  total_captured_amount ← get_total_charged_amount d;
  if (authorized_amount =? total_captured_amount)%Z then Ok AttemptStatus_Charged
  else
    status_count_map ← get_status_count d;
    match status_count_map !! CaptureStatus_Charged with
    | Some n => if (0 <? n)%Z then Ok AttemptStatus_PartialChargedAndChargeable
                else Ok AttemptStatus_CaptureInitiated
    | None => Ok AttemptStatus_CaptureInitiated
    end.

Definition get_pending_captures (d : MultipleCaptureData) : list Capture :=
  List.filter (λ c, bool_decide (status c = CaptureStatus_Pending)) (rows d).

Definition get_capture_by_connector_capture_id (d : MultipleCaptureData) (id : string) : option Capture :=
  List.find (λ c, bool_decide (get_optional_connector_transaction_id c = Some id)) (rows d).

Definition get_all_captures (d : MultipleCaptureData) : list Capture := rows d.

Definition get_capture_by_capture_id (d : MultipleCaptureData) (id : string) : option Capture :=
  all_captures d !! id.

Definition get_pending_connector_capture_ids (d : MultipleCaptureData) : list string :=
  omap get_optional_connector_transaction_id (get_pending_captures d).

Definition get_pending_captures_without_connector_capture_id (d : MultipleCaptureData) : list Capture :=
  List.filter (λ c, bool_decide (get_optional_connector_transaction_id c = None)) (get_pending_captures d).

(** ** The stored payment *)

(** The fields of the attempt the flow reads or writes. *)
Record PaymentAttempt := mkPaymentAttempt {
  attempt_id : string;
  attempt_payment_id : string;
  attempt_merchant_id : string;
  attempt_status : AttemptStatus;
  net_amount : NetAmount;
  currency : option Currency;
  connector : option string;
  capture_method : option CaptureMethod;
  is_overcapture_enabled : option bool;
  amount_to_capture : option Z;
  amount_capturable : Z;
  multiple_capture_count : option Z;
  authorized_amount : option Z;
}.

Record Store := mkStore {
  attempt : PaymentAttempt;
  intent_status : IntentStatus;
  captures : list Capture;
}.

Abbreviation handler A := (sr Store ApiError A) (only parsing).

Definition set_captures (l : list Capture) (s : Store) : Store := mkStore (attempt s) (intent_status s) l.

(** [PaymentAttemptUpdate::CaptureUpdate]. *)
Definition set_capture_update (capture_amount count : option Z) (s : Store) : Store :=
  let a := attempt s in
  mkStore
    (mkPaymentAttempt (attempt_id a) (attempt_payment_id a) (attempt_merchant_id a) (attempt_status a)
       (net_amount a) (currency a) (connector a) (capture_method a) (is_overcapture_enabled a)
       (or_keep capture_amount (amount_to_capture a)) (amount_capturable a)
       (or_keep count (multiple_capture_count a)) (authorized_amount a))
    (intent_status s) (captures s).

(** [PaymentAttemptUpdate::AmountToCaptureUpdate] and the intent status that
    [get_payment_intent_update_data] derives from the new attempt status. *)
Definition set_amounts (st : AttemptStatus) (capturable : Z) (s : Store) : Store :=
  let a := attempt s in
  mkStore
    (mkPaymentAttempt (attempt_id a) (attempt_payment_id a) (attempt_merchant_id a) st
       (net_amount a) (currency a) (connector a) (capture_method a) (is_overcapture_enabled a)
       (amount_to_capture a) capturable (multiple_capture_count a) (authorized_amount a))
    (intent_status_of st) (captures s).

(** An answer that updates no capture sets at most the status of the attempt, and
    the intent follows. *)
Definition set_attempt_status (st : option AttemptStatus) (s : Store) : Store :=
  set_amounts (default (attempt_status (attempt s)) st) (amount_capturable (attempt s)) s.

(** ** Validation: [helpers.rs] *)

Definition validate_capture_method (m : CaptureMethod) : result ApiError unit :=
  if decide (m = CaptureMethod_Automatic)
  then Err (PaymentUnexpectedState "capture_method" (to_string m))
  else Ok tt.

Definition validate_status_with_capture_method (st : IntentStatus) (m : CaptureMethod) :
    result ApiError unit :=
  if decide (st = IntentStatus_Processing ∧ m ≠ CaptureMethod_ManualMultiple)
  then Err (PaymentUnexpectedState "capture_method" (to_string m))
  else if decide (st ≠ IntentStatus_RequiresCapture ∧ st ≠ IntentStatus_PartiallyCapturedAndCapturable ∧
                  st ≠ IntentStatus_PartiallyAuthorizedAndRequiresCapture ∧ st ≠ IntentStatus_Processing)
  then Err (PaymentUnexpectedState "payment.status" (to_string st))
  else Ok tt.

Definition validate_amount_to_capture (available : Z) (amount_to_capture : option Z) : result ApiError unit :=
  match amount_to_capture with
  | None => Ok tt
  | Some value =>
      if (value <=? 0)%Z then Err (InvalidDataFormat "amount")
      else if (available <? value)%Z then Err (InvalidRequestData "amount_to_capture is greater than amount")
      else Ok tt
  end.

(** ** A capture request: [PaymentCapture] *)

Definition get_next_capture_id (a : PaymentAttempt) : result ApiError string :=
  n ← i16_succ (default 0%Z (multiple_capture_count a));
  Ok (attempt_id a +:+ "_" +:+ pretty n).

(** [make_new_capture], and the row it becomes. *)
Definition make_new_capture (now : Z) (a : PaymentAttempt) (capture_amount : Z) (st : CaptureStatus) :
    result ApiError Capture :=
  seq ← i16_succ (default 0%Z (multiple_capture_count a));
  id ← get_next_capture_id a;
  conn ← ok_or InternalServerError (connector a);
  Ok (mkCapture id (attempt_payment_id a) (attempt_merchant_id a) st capture_amount (currency a) conn
        None None None None now now (attempt_id a) None seq None None None).

(** [insert_capture]: the id is the primary key.  The handler maps only a missing
    row to its error [DuplicatePayment], so that a row with the same id is an
    internal error. *)
Definition insert_capture (c : Capture) : handler Capture := λ s,
  if decide (capture_id c ∈ capture_id <$> captures s) then (Err InternalServerError, s)
  else (Ok c, set_captures (captures s ++ [c]) s).

(** [PaymentCapture::get_trackers]: with the capture method [manual_multiple] a row
    is inserted for the capture; the other methods have no capture rows. *)
Definition capture_get_trackers (now : Z) (request_amount : option Z) : handler (option MultipleCaptureData) :=
  (a <- sr_get attempt ;;
   intent <- sr_get intent_status ;;
   method <- sr_lift (ok_or (MissingRequiredField "capture_method") (capture_method a)) ;;
   sr_lift (validate_status_with_capture_method intent method) ;;;
   (if default false (is_overcapture_enabled a) then sr_ret tt
    else sr_lift (validate_amount_to_capture (amount_capturable a) request_amount)) ;;;
   sr_lift (validate_capture_method method) ;;;
   data <- (if decide (method = CaptureMethod_ManualMultiple) then
              (capture_amount <- sr_lift (ok_or (MissingRequiredField "amount_to_capture") request_amount) ;;
               sr_lift (validate_amount_to_capture (amount_capturable a) (Some capture_amount)) ;;;
               previous_captures <- sr_get captures ;;
               new_capture <- sr_lift (make_new_capture now a capture_amount CaptureStatus_Started) ;;
               new_capture <- insert_capture new_capture ;;
               sr_ret (Some (new_for_create previous_captures new_capture)))
            else sr_ret None) ;;
   sr_lift (ok_or (MissingRequiredField "currency") (currency a)) ;;;
   sr_lift (get_total_amount (net_amount a)) ;;;
   sr_ret data)%sr.

(** [PaymentCapture::update_trackers], which runs once the request to the connector
    is built. *)
Definition capture_update_trackers (request_amount : option Z) (data : option MultipleCaptureData) : handler unit :=
  (a <- sr_get attempt ;;
   let capture_amount := or_keep request_amount (amount_to_capture a) in
   match data, capture_amount with
   | None, None => sr_ret tt
   | Some d, _ =>
       (count <- sr_lift (get_captures_count d) ;;
        sr_modify (set_capture_update capture_amount (Some count)))
   | None, Some _ => sr_modify (set_capture_update capture_amount None)
   end)%sr.

(** A capture request up to the call of the connector. *)
Definition start_capture (now : Z) (request_amount : option Z) : handler (option MultipleCaptureData) :=
  (data <- capture_get_trackers now request_amount ;;
   capture_update_trackers request_amount data ;;;
   sr_ret data)%sr.

(** ** The connector's answer *)

Inductive ResponseId :=
| ResponseTransactionId (id : string)
| EncodedData (id : string)
| NoResponseId.

(** [500..=511 => Pending, _ => Failed]. *)
Definition error_capture_status (status_code : Z) : CaptureStatus :=
  if (500 <=? status_code)%Z && (status_code <=? 511)%Z then CaptureStatus_Pending else CaptureStatus_Failed.

(** [CaptureStatus::foreign_try_from]. *)
Definition capture_status_result (st : AttemptStatus) : result ApiError CaptureStatus :=
  ok_or PreconditionFailed (capture_status_of st).

Section answers.
Variable blake3_hex : string → string.

(** [CaptureSyncResponse]. *)
Inductive CaptureSyncResponse :=
| SyncSuccess (resource_id : ResponseId) (st : AttemptStatus) (reference : option string) (amt : option Z)
| SyncError (code message : string) (reason : option string) (status_code : Z) (amt : option Z).

Definition get_amount_captured (r : CaptureSyncResponse) : option Z :=
  match r with SyncSuccess _ _ _ amt | SyncError _ _ _ _ amt => amt end.

Definition get_connector_response_reference_id (r : CaptureSyncResponse) : option string :=
  match r with SyncSuccess _ _ reference _ => reference | SyncError _ _ _ _ _ => None end.

(** [CaptureUpdate::foreign_try_from(CaptureSyncResponse)]. *)
Definition sync_update (r : CaptureSyncResponse) : result ApiError CaptureUpdate :=
  match r with
  | SyncSuccess resource_id st reference _ =>
      let '(cid, data) :=
        match resource_id with
        | EncodedData _ | NoResponseId => (None, None)
        | ResponseTransactionId id =>
            let '(txn_id, txn_data) := form_id_and_data blake3_hex id in (Some txn_id, txn_data)
        end in
      st ← capture_status_result st;
      Ok (ResponseUpdate st cid reference data)
  | SyncError code message reason status_code _ =>
      Ok (ErrorUpdate (error_capture_status status_code) (Some code) (Some message) reason)
  end.

(** Whether an answer without a known transaction id is about a capture. *)
Definition unmapped_match (r : CaptureSyncResponse) (c : Capture) : bool :=
  bool_decide (get_connector_response_reference_id r = Some (capture_id c)) ||
  bool_decide (get_amount_captured r = Some (amount c)).

(** The loop of [get_capture_update_for_unmapped_capture_responses]. *)
Fixpoint unmapped_updates (candidates : list Capture) (responses : list CaptureSyncResponse) :
    result ApiError (list (Capture * CaptureUpdate)) :=
  match responses with
  | [] => Ok []
  | r :: responses =>
      match List.find (unmapped_match r) candidates with
      | None => unmapped_updates candidates responses
      | Some c => u ← sync_update r; rest ← unmapped_updates candidates responses; Ok ((c, u) :: rest)
      end
  end.

Definition get_capture_update_for_unmapped_capture_responses (responses : list CaptureSyncResponse)
    (d : MultipleCaptureData) : result ApiError (list (Capture * CaptureUpdate)) :=
  unmapped_updates (get_pending_captures_without_connector_capture_id d) responses.

(** The loop of [response_to_capture_update]: the updates of the captures with a
    known transaction id, and the answers that are left. *)
Fixpoint mapped_updates (d : MultipleCaptureData) (responses : list (string * CaptureSyncResponse)) :
    result ApiError (list (Capture * CaptureUpdate) * list CaptureSyncResponse) :=
  match responses with
  | [] => Ok ([], [])
  | (connector_capture_id, r) :: responses =>
      match get_capture_by_connector_capture_id d connector_capture_id with
      | Some c =>
          u ← sync_update r;
          '(updates, unmapped) ← mapped_updates d responses;
          Ok ((c, u) :: updates, unmapped)
      | None =>
          '(updates, unmapped) ← mapped_updates d responses;
          Ok (updates, r :: unmapped)
      end
  end.

Definition response_to_capture_update (d : MultipleCaptureData)
    (responses : list (string * CaptureSyncResponse)) : result ApiError (list (Capture * CaptureUpdate)) :=
  '(updates, unmapped) ← mapped_updates d responses;
  more ← get_capture_update_for_unmapped_capture_responses unmapped d;
  Ok (updates ++ more).

(** The answers of a connector to a capture or a synchronisation: a transaction, an
    error, a list of captures, or another answer, with the status that it gives the
    attempt. *)
Inductive CaptureAnswer :=
| CaptureAccepted (router_status : AttemptStatus) (resource_id : ResponseId) (reference : option string)
| CaptureRefused (status_code : Z) (code message : string) (reason : option string)
| CapturesListed (responses : list (string * CaptureSyncResponse))
| OtherAnswer (st : option AttemptStatus).

(** What the checks of an answer that is no error say: it passes, its data differ
    from the request ([integrity_check]), or its amounts are refused by
    [get_attempt_status_for_db_update]. *)
Inductive AnswerCheck := CheckPasses | IntegrityFails | AmountsRejected.

Definition answer_check (check : AnswerCheck) (answer : CaptureAnswer) : AnswerCheck :=
  match answer with CaptureRefused _ _ _ _ => CheckPasses | _ => check end.

(** The updates of the captures in [payment_response_update_tracker]: a transaction
    or an error is about the latest capture. *)
Definition answer_updates (d : MultipleCaptureData) (answer : CaptureAnswer) :
    result ApiError (option (list (Capture * CaptureUpdate))) :=
  match answer with
  | CaptureAccepted router_status resource_id reference =>
      let '(cid, data) :=
        match resource_id with
        | NoResponseId => (None, None)
        | ResponseTransactionId id | EncodedData id =>
            let '(txn_id, txn_data) := form_id_and_data blake3_hex id in (Some txn_id, txn_data)
        end in
      st ← capture_status_result router_status;
      Ok (Some [(latest_capture d, ResponseUpdate st cid reference data)])
  | CaptureRefused status_code code message reason =>
      Ok (Some [(latest_capture d, ErrorUpdate (error_capture_status status_code) (Some code) (Some message) reason)])
  | CapturesListed responses => updates ← response_to_capture_update d responses; Ok (Some updates)
  | OtherAnswer _ => Ok None
  end.

(** ** The update of the payment *)

(** [update_capture_with_capture_id]: the row with the id is changed. *)
Definition update_row (now : Z) (id : string) (u : CaptureUpdate) : handler Capture := λ s,
  match List.find (λ c, bool_decide (capture_id c = id)) (captures s) with
  | None => (Err PaymentNotFound, s)
  | Some row =>
      let row' := apply_changeset (update_internal now u) row in
      (Ok row', set_captures ((λ c, if decide (capture_id c = id) then row' else c) <$> captures s) s)
  end.

Fixpoint apply_updates (now : Z) (updates : list (Capture * CaptureUpdate)) (d : MultipleCaptureData) :
    handler MultipleCaptureData :=
  match updates with
  | [] => sr_ret d
  | (c, u) :: updates =>
      (row <- update_row now (capture_id c) u ;;
       apply_updates now updates (update_capture row d))%sr
  end.

(** [authorized_amount.unwrap_or_else(|| get_total_amount())]. *)
Definition authorized (a : PaymentAttempt) : result ApiError Z :=
  match authorized_amount a with Some z => Ok z | None => get_total_amount (net_amount a) end.

(** The end of [payment_response_update_tracker] for an attempt with captures. *)
Definition finish_capture (now : Z) (updates : list (Capture * CaptureUpdate)) (d : MultipleCaptureData) :
    handler MultipleCaptureData :=
  (d <- apply_updates now updates d ;;
   a <- sr_get attempt ;;
   total <- sr_lift (authorized a) ;;
   st <- sr_lift (get_attempt_status total d) ;;
   blocked_amount <- sr_lift (get_total_blocked_amount d) ;;
   capturable <- sr_lift (minor_sub total blocked_amount) ;;
   sr_modify (set_amounts st capturable) ;;;
   sr_ret d)%sr.

(** [payment_response_update_tracker] for an attempt with captures. *)
Definition update_tracker (now : Z) (check : AnswerCheck) (answer : CaptureAnswer) (d : MultipleCaptureData) :
    handler (option MultipleCaptureData) :=
  match answer_check check answer with
  | IntegrityFails =>
      (sr_modify (set_attempt_status (Some AttemptStatus_IntegrityFailure)) ;;;
       sr_err CaptureIntegrityCheckFailed)
  | AmountsRejected => sr_err CaptureIntegrityCheckFailed
  | CheckPasses =>
      (updates <- sr_lift (answer_updates d answer) ;;
       match updates with
       | Some updates => (d <- finish_capture now updates d ;; sr_ret (Some d))
       | None =>
           (sr_modify (set_attempt_status match answer with OtherAnswer st => st | _ => None end) ;;;
            sr_ret None)
       end)
  end%sr.

(** A capture request that the connector answers. *)
Definition capture_payment (now : Z) (request_amount : option Z) (check : AnswerCheck) (answer : CaptureAnswer) :
    handler (option MultipleCaptureData) :=
  (data <- start_capture now request_amount ;;
   match data with
   | None => sr_ret None
   | Some d => update_tracker now check answer d
   end)%sr.

(** A synchronisation of the payment: the captures are read only when the attempt
    counts some. *)
Definition sync_captures (now : Z) (check : AnswerCheck) (answer : CaptureAnswer) :
    handler (option MultipleCaptureData) :=
  (a <- sr_get attempt ;;
   if (0 <? default 0%Z (multiple_capture_count a))%Z then
     (rows <- sr_get captures ;;
      d <- sr_lift (new_for_sync rows None) ;;
      update_tracker now check answer d)
   else sr_ret None)%sr.

End answers.
