(* ===== verification/CaptureFacts.v ===== *)
(** * Facts on captures

    Sums over the rows of a payment, the agreement of the in-memory captures
    with the stored rows through a sequence of updates, and the invariant that
    the handlers keep. *)

From stdpp Require Import pretty.
From S2P Require Import Prelude Currency PaymentEnums PaymentStatus Captures.

(** ** Sums *)

Definition total (f : Capture → Z) (l : list Capture) : Z := foldr (λ c acc, f c + acc)%Z 0%Z l.

Lemma total_app f l k : total f (l ++ k) = (total f l + total f k)%Z.
Proof. induction l as [|c l IH]; simpl; [done|]. rewrite IH. lia. Qed.

Lemma total_snoc f l c : total f (l ++ [c]) = (total f l + f c)%Z.
Proof. rewrite total_app. simpl. lia. Qed.

#[export] Instance total_perm f : Proper ((≡ₚ) ==> (=)) (total f).
Proof. intros l k Hp. induction Hp; simpl; lia. Qed.

Lemma total_nonneg f l : Forall (λ c, 0 ≤ f c)%Z l → (0 ≤ total f l)%Z.
Proof. induction 1; simpl; lia. Qed.

Lemma total_le f g l : Forall (λ c, f c ≤ g c)%Z l → (total f l ≤ total g l)%Z.
Proof. induction 1; simpl; lia. Qed.

Lemma total_ext f g l : Forall (λ c, f c = g c) l → total f l = total g l.
Proof. induction 1; simpl; congruence. Qed.

(** The fold of the code neither overflows nor depends on the order, as long as
    the terms are not negative and their sum is an [i64]. *)
Lemma sum_amounts_total f l : ∀ acc,
  Forall (λ c, 0 ≤ f c)%Z l → (0 ≤ acc)%Z → (acc + total f l ≤ i64_max)%Z →
  sum_amounts f acc l = Ok (acc + total f l)%Z.
Proof.
  induction l as [|c l IH]; intros acc Hl Hacc Hmax; simpl in *; [f_equal; lia|].
  apply Forall_cons in Hl as [Hc Hl]. pose proof (total_nonneg f l Hl).
  unfold minor_add, checked_i64.
  assert (in_i64 (acc + f c) = true) as ->.
  { apply in_i64_spec. unfold i64_min in *. lia. }
  simpl. rewrite IH by (done || lia). f_equal. lia.
Qed.

Lemma charged_le_blocked c : (0 ≤ amount c)%Z → (0 ≤ charged c ≤ blocked c)%Z.
Proof. unfold charged, blocked. destruct (status c); lia. Qed.

(** ** Counts *)

Definition count (st : CaptureStatus) (l : list Capture) : Z :=
  Z.of_nat (length (List.filter (λ c, bool_decide (status c = st)) l)).

Lemma count_cons st c l :
  count st (c :: l) = ((if decide (status c = st) then 1 else 0) + count st l)%Z.
Proof. unfold count. simpl. case_decide; rewrite ?bool_decide_true, ?bool_decide_false by done; simpl; lia. Qed.

#[export] Instance count_perm st : Proper ((≡ₚ) ==> (=)) (count st).
Proof.
  intros l k Hp. induction Hp; rewrite ?count_cons; lia.
Qed.

Lemma count_statuses_total l : ∀ m,
  (∀ st, ∃ n, m !! st = Some n ∧ 0 ≤ n)%Z →
  (∀ st n, m !! st = Some n → n + Z.of_nat (length l) ≤ i16_max)%Z →
  ∃ m', count_statuses l m = Ok m' ∧
    ∀ st n, m !! st = Some n → m' !! st = Some (n + count st l)%Z.
Proof.
  induction l as [|c l IH]; intros m Hm Hmax; simpl.
  { exists m. split; [done|]. intros st n ->. unfold count. simpl. f_equal. lia. }
  destruct (Hm (status c)) as (n & Hn & Hn0). rewrite Hn. unfold i16_succ.
  pose proof (Hmax _ _ Hn) as Hle. simpl in Hle.
  destruct (n <? i16_max)%Z eqn:E; [|lia]. simpl.
  destruct (IH (<[status c := (n + 1)%Z]> m)) as (m' & -> & Hm').
  - intros st. destruct (decide (status c = st)) as [<-|Hne].
    + rewrite lookup_insert_eq. exists (n + 1)%Z. split; [done|lia].
    + rewrite lookup_insert_ne by done. apply Hm.
  - intros st k. rewrite lookup_insert_Some. intros [[_ <-]|[_ Hk]]; [lia|].
    specialize (Hmax _ _ Hk). simpl in Hmax. lia.
  - exists m'. split; [done|]. intros st k Hk. rewrite count_cons.
    destruct (decide (status c = st)) as [<-|Hne].
    + rewrite Hk in Hn. injection Hn as ->. rewrite (Hm' _ (n + 1)%Z) by by rewrite lookup_insert_eq.
      f_equal. lia.
    + rewrite (Hm' _ k) by by rewrite lookup_insert_ne. done.
Qed.

(** ** The in-memory captures and the stored rows *)

Lemma by_capture_id_snoc l c : by_capture_id (l ++ [c]) = <[capture_id c := c]> (by_capture_id l).
Proof. unfold by_capture_id. by rewrite foldl_app. Qed.

Lemma by_capture_id_list_to_map l :
  NoDup (capture_id <$> l) → by_capture_id l = list_to_map ((λ c, (capture_id c, c)) <$> l).
Proof.
  induction l as [|c l IH] using rev_ind; intros Hnd; [done|].
  rewrite by_capture_id_snoc, fmap_app. rewrite fmap_app in Hnd. apply NoDup_app in Hnd as (Hnd & Hdis & _).
  change ((λ c, (capture_id c, c)) <$> [c]) with [(capture_id c, c)]. rewrite list_to_map_snoc.
  - by rewrite IH.
  - rewrite <- list_fmap_compose. simpl. intros Hin. apply (Hdis _ Hin). simpl. set_solver.
Qed.

Lemma by_capture_id_lookup l k c :
  NoDup (capture_id <$> l) → by_capture_id l !! k = Some c ↔ c ∈ l ∧ capture_id c = k.
Proof.
  intros Hnd. rewrite by_capture_id_list_to_map by done.
  rewrite <- elem_of_list_to_map by by rewrite <- list_fmap_compose.
  rewrite list_elem_of_fmap. naive_solver.
Qed.

Lemma by_capture_id_inj l c c' :
  NoDup (capture_id <$> l) → c ∈ l → c' ∈ l → capture_id c = capture_id c' → c = c'.
Proof.
  intros Hnd Hc Hc' Heq.
  pose proof (proj2 (by_capture_id_lookup l _ c Hnd) (conj Hc eq_refl)) as H1.
  pose proof (proj2 (by_capture_id_lookup l _ c' Hnd) (conj Hc' eq_refl)) as H2. congruence.
Qed.

Lemma rows_perm l d :
  NoDup (capture_id <$> l) → all_captures d = by_capture_id l → rows d ≡ₚ l.
Proof.
  intros Hnd Heq. unfold rows. rewrite Heq, by_capture_id_list_to_map by done.
  rewrite map_to_list_to_map by by rewrite <- list_fmap_compose.
  rewrite <- list_fmap_compose. simpl. by rewrite list_fmap_id.
Qed.

Lemma size_by_capture_id l :
  NoDup (capture_id <$> l) → size (by_capture_id l) = length l.
Proof.
  intros Hnd. rewrite by_capture_id_list_to_map by done.
  rewrite map_size_list_to_map by by rewrite <- list_fmap_compose. by rewrite length_fmap.
Qed.

(** ** Applying updates *)

(** The in-memory captures are the stored rows. *)
Definition in_sync (d : MultipleCaptureData) (l : list Capture) : Prop := all_captures d = by_capture_id l.

(** An update changes neither the id nor the amount of a row. *)
Definition same_rows (l k : list Capture) : Prop :=
  Forall2 (λ c c', capture_id c' = capture_id c ∧ amount c' = amount c) l k.

Lemma same_rows_refl l : same_rows l l.
Proof. by apply Forall_Forall2_diag, Forall_true. Qed.

Lemma same_rows_trans l k m : same_rows l k → same_rows k m → same_rows l m.
Proof.
  intros Hlk. revert m. induction Hlk as [|c c' l k [Hid Ham] _ IH]; intros m Hkm; [done|].
  apply Forall2_cons_inv_l in Hkm as (c'' & m' & [Hid' Ham'] & Hkm & ->).
  constructor; [split; congruence|by apply IH].
Qed.

Lemma same_rows_ids l k : same_rows l k → capture_id <$> k = capture_id <$> l.
Proof. induction 1 as [|c c' l k [Hid _] _ IH]; [done|]. cbn. by rewrite Hid, IH. Qed.

Lemma same_rows_amounts (P : Z → Prop) l k :
  same_rows l k → Forall (λ c, P (amount c)) l → Forall (λ c, P (amount c)) k.
Proof.
  induction 1 as [|c c' l k [_ Ham] _ IH]; [done|]. intros [Hc Hl]%Forall_cons.
  constructor; [by rewrite Ham|by apply IH].
Qed.

(** What a row with the amount [a] blocks in a status. *)
Definition blocked_as (st : CaptureStatus) (a : Z) : Z :=
  match st with
  | CaptureStatus_Charged | CaptureStatus_Pending => a
  | CaptureStatus_Started | CaptureStatus_Failed => 0%Z
  end.

Lemma update_internal_status now u : u_status (update_internal now u) = Some (update_status u).
Proof. by destruct u. Qed.

Lemma changed_row now u c :
  let c' := apply_changeset (update_internal now u) c in
  capture_id c' = capture_id c ∧ amount c' = amount c ∧
  status c' = update_status u ∧ blocked c' = blocked_as (update_status u) (amount c).
Proof.
  simpl. unfold blocked. simpl. rewrite update_internal_status. simpl. by destruct (update_status u).
Qed.

(** One update: the row is there, and the store and the memory change alike. *)
Lemma update_row_spec now id u s d (P : Capture → Prop) :
  NoDup (capture_id <$> captures s) → id ∈ capture_id <$> captures s → in_sync d (captures s) →
  Forall P (captures s) →
  (∀ c, c ∈ captures s → capture_id c = id → P (apply_changeset (update_internal now u) c)) →
  ∃ row l, update_row now id u s = (Ok row, set_captures l s) ∧ capture_id row = id ∧
    same_rows (captures s) l ∧ Forall P l ∧ in_sync (update_capture row d) l.
Proof.
  intros Hnd Hid Hsync Hb Hu. unfold update_row.
  destruct (List.find _ (captures s)) as [row|] eqn:Hfind.
  2:{ exfalso. apply list_elem_of_fmap in Hid as (c & -> & Hc%list_elem_of_In).
      apply (List.find_none _ _ Hfind) in Hc. by rewrite bool_decide_true in Hc. }
  apply find_some in Hfind as [Hrow%list_elem_of_In Hrid%bool_decide_eq_true].
  destruct (changed_row now u row) as (Hid' & Ham & _).
  set (row' := apply_changeset (update_internal now u) row) in *.
  set (f := λ c, if decide (capture_id c = id) then row' else c).
  assert (∀ c, c ∈ captures s → capture_id c = id → c = row) as Huniq.
  { intros c Hc Hcid. apply (by_capture_id_inj (captures s)); congruence. }
  assert (same_rows (captures s) (f <$> captures s)) as Hsame.
  { apply Forall2_fmap_r. apply Forall_Forall2_diag, Forall_forall. intros c Hc. unfold compose, f.
    destruct (decide (capture_id c = id)) as [Hc'|Hc']; [|done]. rewrite (Huniq c Hc Hc'), Hid'. done. }
  exists row', (f <$> captures s). split_and!; [done|congruence|done| |].
  - apply Forall_fmap, Forall_forall. intros c Hc. unfold compose, f.
    destruct (decide (capture_id c = id)) as [Hc'|Hc'].
    + by apply Hu.
    + by apply (proj1 (Forall_forall _ _) Hb).
  - unfold in_sync, update_capture. rewrite Hsync, Hid', Hrid.
    rewrite (proj2 (by_capture_id_lookup _ id row Hnd) (conj Hrow Hrid)). simpl.
    assert (NoDup (capture_id <$> (f <$> captures s))) as Hnd' by by rewrite (same_rows_ids _ _ Hsame).
    apply map_eq. intros k. apply option_eq. intros c. rewrite by_capture_id_lookup by done.
    unfold in_sync in Hsync. rewrite Hsync, lookup_insert_Some, by_capture_id_lookup, list_elem_of_fmap by done. unfold f. split.
    + intros [[<- <-]|(Hne & Hc & Hk)]; [|split; [|done]; exists c; rewrite decide_False by congruence; done].
      split; [|congruence]. exists row. by rewrite decide_True.
    + intros [(c0 & -> & Hc0) Hk]. case_decide as Hd; [left; split; congruence|right; split; [congruence|done]].
Qed.

(** An update of the capture [c] is of a row that is there, and gives a row in
    [P] whatever the other fields of the row are. *)
Definition allowed (now : Z) (P : Capture → Prop) (l : list Capture) (c : Capture) (u : CaptureUpdate) : Prop :=
  capture_id c ∈ capture_id <$> l ∧
  ∀ row row', row ∈ l → capture_id row = capture_id c →
    capture_id row' = capture_id row → amount row' = amount row →
    P (apply_changeset (update_internal now u) row').

Lemma allowed_same_rows now P l k c u : same_rows l k → allowed now P l c u → allowed now P k c u.
Proof.
  intros Hsame [Hid Hu]. split; [by rewrite (same_rows_ids _ _ Hsame)|].
  intros r r' Hr Hrid Hid' Ham'. apply list_elem_of_lookup in Hr as [i Hi].
  destruct (Forall2_lookup_r _ _ _ _ _ Hsame Hi) as (r0 & Hi0 & Hr0 & Ha0).
  apply (Hu r0 r'); [by eapply list_elem_of_lookup_2|congruence..].
Qed.

Lemma apply_updates_spec now (P : Capture → Prop) updates : ∀ s d,
  NoDup (capture_id <$> captures s) → in_sync d (captures s) → Forall P (captures s) →
  (∀ c u, (c, u) ∈ updates → allowed now P (captures s) c u) →
  ∃ d' l, apply_updates now updates d s = (Ok d', set_captures l s) ∧
    same_rows (captures s) l ∧ Forall P l ∧ in_sync d' l.
Proof.
  induction updates as [|[c u] updates IH]; intros s d Hnd Hsync Hb Hu.
  { exists d, (captures s). split_and!; [by destruct s|apply same_rows_refl|done..]. }
  destruct (Hu c u) as [Hid HPu]; [set_solver|].
  destruct (update_row_spec now (capture_id c) u s d P Hnd Hid Hsync Hb)
    as (row & l & Hrow & _ & Hsame & Hb' & Hsync'); [intros r Hr Hrid; by apply (HPu r r)|].
  pose proof (same_rows_ids _ _ Hsame) as Hids.
  destruct (IH (set_captures l s) (update_capture row d)) as (d' & l' & Heq & Hsame' & Hb'' & Hsync'').
  - simpl. by rewrite Hids.
  - done.
  - done.
  - intros c0 u0 Hin. eapply allowed_same_rows; [exact Hsame|]. apply Hu. set_solver.
  - exists d', l'. split_and!; [|by eapply same_rows_trans|done..].
    cbn [apply_updates]. unfold sr_bind. rewrite Hrow. exact Heq.
Qed.

Lemma same_rows_total (g : string → Z) l k :
  same_rows l k → total (λ c, g (capture_id c)) k = total (λ c, g (capture_id c)) l.
Proof. induction 1 as [|c c' l k [Hid _] _ IH]; [done|]. simpl. by rewrite Hid, IH. Qed.

(** ** The status of the attempt *)

(** Charged when the charged captures sum to the authorized amount, partially
    charged when there is a charged capture. *)
Definition status_for (authorized_amount : Z) (l : list Capture) : AttemptStatus :=
  if (authorized_amount =? total charged l)%Z then AttemptStatus_Charged
  else if any (λ c, bool_decide (status c = CaptureStatus_Charged)) l
  then AttemptStatus_PartialChargedAndChargeable
  else AttemptStatus_CaptureInitiated.

Lemma count_positive st l :
  (0 <? count st l)%Z = any (λ c, bool_decide (status c = st)) l.
Proof.
  induction l as [|c l IH]; [done|]. rewrite count_cons. unfold any in *. simpl. rewrite <- IH.
  assert (0 ≤ count st l)%Z by (unfold count; lia).
  case_decide; rewrite ?bool_decide_true, ?bool_decide_false by done; simpl; [apply Z.ltb_lt; lia|done].
Qed.

Record rows_ok (l : list Capture) : Prop := {
  rows_nodup : NoDup (capture_id <$> l);
  rows_amounts : Forall (λ c, 0 ≤ amount c)%Z l;
  rows_few : (Z.of_nat (length l) ≤ i16_max)%Z;
}.

Lemma rows_charged l : Forall (λ c, 0 ≤ amount c)%Z l → Forall (λ c, 0 ≤ charged c)%Z l.
Proof. intros Hl. eapply Forall_impl; [exact Hl|]. intros c Hc. by apply charged_le_blocked. Qed.

Lemma rows_blocked l : Forall (λ c, 0 ≤ amount c)%Z l → Forall (λ c, 0 ≤ blocked c)%Z l.
Proof. intros Hl. eapply Forall_impl; [exact Hl|]. intros c Hc. pose proof (charged_le_blocked c Hc). lia. Qed.

Lemma charged_total l : Forall (λ c, 0 ≤ amount c)%Z l → (total charged l ≤ total blocked l)%Z.
Proof. intros Hl. apply total_le. eapply Forall_impl; [exact Hl|]. intros c Hc. by apply charged_le_blocked. Qed.

Lemma blocked_amount_spec l d :
  rows_ok l → in_sync d l → (total blocked l ≤ i64_max)%Z →
  get_total_blocked_amount d = Ok (total blocked l).
Proof.
  intros [Hnd Ham _] Hsync Hmax. unfold get_total_blocked_amount.
  pose proof (rows_perm l d Hnd Hsync) as Hp.
  rewrite sum_amounts_total; [by rewrite Hp|rewrite Hp; by apply rows_blocked|lia|rewrite Hp; lia].
Qed.

Lemma attempt_status_spec a l d :
  rows_ok l → in_sync d l → (total blocked l ≤ i64_max)%Z →
  get_attempt_status a d = Ok (status_for a l).
Proof.
  intros [Hnd Ham Hfew] Hsync Hmax. unfold get_attempt_status, get_total_charged_amount, status_for.
  pose proof (rows_perm l d Hnd Hsync) as Hp. pose proof (charged_total l Ham).
  rewrite sum_amounts_total; [|rewrite Hp; by apply rows_charged|lia|rewrite Hp; lia].
  rewrite Hp, Z.add_0_l. cbn [mbind result_bind]. destruct (a =? total charged l)%Z; [done|]. unfold get_status_count.
  destruct (count_statuses_total (rows d) (list_to_map [(CaptureStatus_Charged, 0%Z);
    (CaptureStatus_Pending, 0%Z); (CaptureStatus_Started, 0%Z); (CaptureStatus_Failed, 0%Z)]))
    as (m & -> & Hm).
  - intros st. exists 0%Z. split; [by destruct st|lia].
  - intros st n Hn. rewrite (Permutation_length Hp). enough (n = 0%Z) as -> by lia.
    apply elem_of_list_to_map_2 in Hn. set_solver.
  - cbn [mbind result_bind]. rewrite (Hm CaptureStatus_Charged 0%Z eq_refl), Z.add_0_l, Hp, count_positive.
    by destruct (any _ l).
Qed.

(** ** The update of the payment *)

Lemma same_rows_ok l k : same_rows l k → rows_ok l → rows_ok k.
Proof.
  intros Hs [Hnd Ham Hfew]. split.
  - by rewrite (same_rows_ids _ _ Hs).
  - by apply (same_rows_amounts (λ a, 0 ≤ a)%Z l).
  - by rewrite <- (Forall2_length _ _ _ Hs).
Qed.

(** Once the rows are updated, the attempt gets the status and the capturable
    amount of the new rows. *)
Lemma finish_capture_tail now updates a l s d d' :
  authorized (attempt s) = Ok a → (a ≤ i64_max)%Z →
  apply_updates now updates d s = (Ok d', set_captures l s) → in_sync d' l → rows_ok l →
  (total blocked l ≤ a)%Z →
  finish_capture now updates d s =
    (Ok d', set_amounts (status_for a l) (a - total blocked l) (set_captures l s)).
Proof.
  intros Ha Hmax Heq Hsync Hok Hl.
  pose proof (total_nonneg _ _ (rows_blocked _ (rows_amounts _ Hok))) as Hpos.
  unfold finish_capture, sr_bind. rewrite Heq. simpl. unfold sr_lift.
  rewrite Ha, (attempt_status_spec a l d'), (blocked_amount_spec l d') by (done || lia).
  unfold minor_sub, checked_i64. assert (in_i64 (a - total blocked l) = true) as ->; [|done].
  apply in_i64_spec. unfold i64_min. lia.
Qed.

Lemma finish_capture_spec now updates a (P : Capture → Prop) s d :
  authorized (attempt s) = Ok a → (a ≤ i64_max)%Z → rows_ok (captures s) → in_sync d (captures s) →
  Forall P (captures s) →
  (∀ l, same_rows (captures s) l → Forall P l → total blocked l ≤ a)%Z →
  (∀ c u, (c, u) ∈ updates → allowed now P (captures s) c u) →
  ∃ d' l, same_rows (captures s) l ∧ Forall P l ∧ (total blocked l ≤ a)%Z ∧
    finish_capture now updates d s =
      (Ok d', set_amounts (status_for a l) (a - total blocked l) (set_captures l s)).
Proof.
  intros Ha Hmax Hok Hsync Hb Hsum Hu.
  destruct (apply_updates_spec now P updates s d (rows_nodup _ Hok) Hsync Hb Hu)
    as (d' & l & Heq & Hsame & Hb' & Hsync').
  pose proof (same_rows_ok _ _ Hsame Hok) as Hok'.
  exists d', l. split_and!; [done..|by apply Hsum|].
  apply finish_capture_tail; [done..|by apply Hsum].
Qed.

(** The update of the last row. *)
Lemma update_last_row now u l row s :
  capture_id row ∉ capture_id <$> l → captures s = l ++ [row] →
  let row' := apply_changeset (update_internal now u) row in
  update_row now (capture_id row) u s = (Ok row', set_captures (l ++ [row']) s).
Proof.
  intros Hnew Hs row'. unfold update_row. rewrite Hs.
  assert (∀ c, c ∈ l → capture_id c ≠ capture_id row) as Hne.
  { intros c Hc Heq. apply Hnew. rewrite <- Heq. by apply list_elem_of_fmap_2. }
  rewrite (find_snoc _ l row).
  - f_equal. f_equal. rewrite fmap_app. f_equal.
    + rewrite <- (list_fmap_id l) at 2. apply list_fmap_ext. intros i c Hc. simpl.
      apply list_elem_of_lookup_2 in Hc. by rewrite decide_False by auto.
    + cbn. by rewrite decide_True.
  - intros c Hc. apply bool_decide_eq_false. auto.
  - by apply bool_decide_eq_true.
Qed.
