(* ===== verification/CaptureTheorems.v ===== *)
(** * Theorems on captures

    The invariant of a payment that is captured in parts: what the captures
    block never exceeds the authorized amount, through any sequence of capture
    requests, of requests that stop before the connector is called or whose
    answer is lost, and of synchronisations. *)

From stdpp Require Import pretty.
From S2P Require Import Prelude Currency PaymentEnums PaymentStatus Captures CaptureFacts.

(** ** The invariant *)

(** The id of the [n]-th capture of an attempt. *)
Definition nth_capture_id (attempt_id : string) (n : nat) : string :=
  attempt_id +:+ "_" +:+ pretty (Z.of_nat n).

(** The attempt counts all its captures, or all but the last one: a request that
    stops between the insertion of its row and the update of the count leaves a row
    that is not counted. *)
Definition counted (s : Store) : Prop :=
  default 0%Z (multiple_capture_count (attempt s)) = Z.of_nat (length (captures s)).
Definition uncounted (s : Store) : Prop :=
  captures s ≠ [] ∧
  (default 0%Z (multiple_capture_count (attempt s)) + 1)%Z = Z.of_nat (length (captures s)).

#[export] Instance counted_dec s : Decision (counted s) := _.

Record capture_inv (total_authorized : Z) (s : Store) : Prop := {
  inv_method : capture_method (attempt s) = Some CaptureMethod_ManualMultiple;
  inv_ids : capture_id <$> captures s = nth_capture_id (attempt_id (attempt s)) <$> seq 1 (length (captures s));
  inv_count : counted s ∨ uncounted s;
  inv_few : (Z.of_nat (length (captures s)) ≤ i16_max)%Z;
  inv_amounts : Forall (λ c, 0 < amount c)%Z (captures s);
  inv_started : Forall (λ c, status c = CaptureStatus_Started → connector_capture_id c = None) (captures s);
  inv_currency : is_Some (currency (attempt s));
  inv_total : is_ok (get_total_amount (net_amount (attempt s))) = true;
  inv_authorized : authorized (attempt s) = Ok total_authorized;
  inv_max : (total_authorized ≤ i64_max)%Z;
  inv_blocked : (total blocked (captures s) ≤ total_authorized)%Z;
  inv_capturable : (amount_capturable (attempt s) ≤ total_authorized - total blocked (captures s))%Z;
  inv_last : ∀ l c, captures s = l ++ [c] → (total blocked l + amount c ≤ total_authorized)%Z;
}.

#[export] Instance nth_capture_id_inj a : Inj (=) (=) (nth_capture_id a).
Proof. intros i j Heq. unfold nth_capture_id in Heq. simplify_eq. lia. Qed.

Lemma inv_rows_ok A s : capture_inv A s → rows_ok (captures s).
Proof.
  intros H. split.
  - rewrite (inv_ids _ _ H). apply NoDup_fmap_2; [apply _|apply NoDup_seq].
  - eapply Forall_impl; [exact (inv_amounts _ _ H)|]. simpl. lia.
  - apply (inv_few _ _ H).
Qed.

(** The id of the next capture is new. *)
Lemma next_id_fresh A s :
  capture_inv A s →
  nth_capture_id (attempt_id (attempt s)) (S (length (captures s))) ∉ capture_id <$> captures s.
Proof.
  intros H. rewrite (inv_ids _ _ H), list_elem_of_fmap. intros (i & Heq%(inj _) & Hi%elem_of_seq). lia.
Qed.

Lemma nodup_snoc A s c :
  capture_inv A s → capture_id c = nth_capture_id (attempt_id (attempt s)) (S (length (captures s))) →
  NoDup (capture_id <$> (captures s ++ [c])).
Proof.
  intros H Hc. rewrite fmap_app. apply NoDup_app.
  split_and!; [apply (inv_rows_ok _ _ H)| |apply NoDup_singleton].
  intros x Hx ->%list_elem_of_singleton. apply (next_id_fresh _ _ H). by rewrite <- Hc.
Qed.

(** ** A capture request *)

(** The row a request for [amt] inserts. *)
Definition new_row (now amt : Z) (conn : string) (s : Store) : Capture :=
  let a := attempt s in
  let n := S (length (captures s)) in
  mkCapture (nth_capture_id (attempt_id a) n) (attempt_payment_id a) (attempt_merchant_id a)
    CaptureStatus_Started amt (currency a) conn None None None None now now (attempt_id a) None
    (Z.of_nat n) None None None.

(** The payment accepts a request for [amt]. *)
Definition accepts (amt : Z) (conn : string) (s : Store) : Prop :=
  is_ok (validate_status_with_capture_method (intent_status s) CaptureMethod_ManualMultiple) = true ∧
  (0 < amt ≤ amount_capturable (attempt s))%Z ∧ connector (attempt s) = Some conn ∧
  (Z.of_nat (length (captures s)) < i16_max)%Z ∧ counted s.

Lemma validate_amount_ok available amt :
  validate_amount_to_capture available (Some amt) = Ok tt ↔ (0 < amt ≤ available)%Z.
Proof.
  unfold validate_amount_to_capture. destruct (amt <=? 0)%Z eqn:E1; [split; [done|lia]|].
  destruct (available <? amt)%Z eqn:E2; split; (done || lia).
Qed.

Lemma get_trackers_accepts A s now amt conn :
  capture_inv A s → accepts amt conn s →
  let row := new_row now amt conn s in
  capture_get_trackers now (Some amt) s =
    (Ok (Some (new_for_create (captures s) row)), set_captures (captures s ++ [row]) s).
Proof.
  intros H (Hst & Hamt & Hconn & Hn & Hall) row.
  apply validate_amount_ok in Hamt.
  assert (make_new_capture now (attempt s) amt CaptureStatus_Started = Ok row) as Hrow.
  { unfold make_new_capture, get_next_capture_id, i16_succ. rewrite Hall, Hconn.
    rewrite (proj2 (Z.ltb_lt _ _) Hn). unfold row, new_row, nth_capture_id. cbn.
    do 2 f_equal; [do 3 f_equal|]; lia. }
  unfold capture_get_trackers, sr_bind, sr_get, sr_lift, sr_ret, insert_capture.
  rewrite (inv_method _ _ H). cbn [ok_or]. rewrite Hamt.
  destruct (validate_status_with_capture_method _ _) as [[]|]; [|done].
  rewrite Tauto.if_same, (decide_True (P := CaptureMethod_ManualMultiple = _)), Hrow by done.
  rewrite (decide_False (P := capture_id row ∈ _)) by apply (next_id_fresh _ _ H).
  destruct (inv_currency _ _ H) as [? ->]. pose proof (inv_total _ _ H) as Htotal.
  by destruct (get_total_amount _).
Qed.

Lemma start_capture_accepts A s now amt conn :
  capture_inv A s → accepts amt conn s →
  let row := new_row now amt conn s in
  start_capture now (Some amt) s =
    (Ok (Some (new_for_create (captures s) row)),
     set_capture_update (Some amt) (Some (Z.of_nat (S (length (captures s)))))
       (set_captures (captures s ++ [row]) s)).
Proof.
  intros H Hacc row. unfold start_capture, sr_bind at 1.
  rewrite (get_trackers_accepts A s now amt conn H Hacc). fold row. destruct Hacc as (_ & _ & _ & Hn & _).
  unfold capture_update_trackers, sr_bind, sr_get, sr_lift, sr_ret, sr_modify.
  assert (get_captures_count (new_for_create (captures s) row) = Ok (Z.of_nat (S (length (captures s))))) as ->;
    [|done].
  unfold get_captures_count, new_for_create. cbn [all_captures].
  rewrite size_by_capture_id, length_app, Nat.add_1_r by by apply (nodup_snoc A).
  destruct (Z.leb_spec (Z.of_nat (S (length (captures s)))) i16_max); [done|lia].
Qed.

(** The id that the attempt gives its next capture is taken when a row is not
    counted. *)
Lemma uncounted_id_taken A s :
  capture_inv A s → uncounted s →
  attempt_id (attempt s) +:+ "_" +:+ pretty (default 0%Z (multiple_capture_count (attempt s)) + 1)%Z
    ∈ capture_id <$> captures s.
Proof.
  intros H [Hne Hun]. rewrite Hun, (inv_ids _ _ H). apply list_elem_of_fmap.
  exists (length (captures s)). split; [done|]. apply elem_of_seq.
  destruct (captures s) as [|c l]; [done|simpl; lia].
Qed.

(** A request that is not accepted is refused and changes nothing. *)
Lemma get_trackers_refuses A s now request_amount :
  capture_inv A s → (∀ amt conn, request_amount = Some amt → ¬ accepts amt conn s) →
  ∃ e, capture_get_trackers now request_amount s = (Err e, s).
Proof.
  intros H Hno. unfold capture_get_trackers, sr_bind, sr_get, sr_lift, sr_ret.
  rewrite (inv_method _ _ H). cbn [ok_or].
  destruct (validate_status_with_capture_method _ _) as [[]|e] eqn:Hst; [|by exists e].
  destruct (default _ _).
  all: try (destruct (validate_amount_to_capture (amount_capturable (attempt s)) request_amount) as [[]|e]; [|by exists e]).
  all: rewrite (eq_refl : validate_capture_method CaptureMethod_ManualMultiple = Ok tt).
  all: rewrite (decide_True (P := CaptureMethod_ManualMultiple = _)) by done.
  all: destruct request_amount as [amt|]; [|by eexists]; cbn [ok_or].
  all: destruct (validate_amount_to_capture _ (Some amt)) as [[]|e] eqn:Hamt; [|by exists e].
  all: apply validate_amount_ok in Hamt.
  all: unfold make_new_capture, get_next_capture_id, i16_succ.
  all: destruct (Z.ltb_spec (default 0%Z (multiple_capture_count (attempt s))) i16_max) as [Hlt|]; [|by eexists].
  all: cbn; destruct (connector (attempt s)) as [conn|] eqn:Hconn; [|by eexists].
  all: destruct (inv_count _ _ H) as [Hall|Hun].
  all: try (exfalso; apply (Hno amt conn eq_refl); unfold accepts; rewrite Hst; unfold counted in Hall;
            split_and!; (done || lia)).
  all: cbn; unfold insert_capture; rewrite decide_True by by eapply uncounted_id_taken.
  all: by eexists.
Qed.

Lemma start_capture_refuses A s now request_amount :
  capture_inv A s → (∀ amt conn, request_amount = Some amt → ¬ accepts amt conn s) →
  ∃ e, start_capture now request_amount s = (Err e, s).
Proof.
  intros H Hno. destruct (get_trackers_refuses A s now request_amount H Hno) as [e He].
  exists e. unfold start_capture, sr_bind. by rewrite He.
Qed.

Lemma accepts_dec request_amount s :
  (∃ amt conn, request_amount = Some amt ∧ accepts amt conn s) ∨
  (∀ amt conn, request_amount = Some amt → ¬ accepts amt conn s).
Proof.
  destruct request_amount as [amt|]; [|by right].
  destruct (connector (attempt s)) as [conn|] eqn:Hconn.
  2:{ right. intros ? ? _ (_ & _ & ? & _). congruence. }
  destruct (decide (accepts amt conn s)) as [Ha|Ha]; [left; by exists amt, conn|].
  right. intros ? ? [= <-] (H1 & H2 & H3 & H4 & H5). apply Ha. split_and!; try done; lia.
Qed.

Lemma accepts_bounds A s amt conn :
  capture_inv A s → accepts amt conn s →
  (0 < amt)%Z ∧ (amt ≤ A - total blocked (captures s))%Z ∧ (Z.of_nat (S (length (captures s))) ≤ i16_max)%Z.
Proof. intros H (_ & Hamt & _ & Hn & _). pose proof (inv_capturable _ _ H). lia. Qed.

(** The invariant once the row of a request is inserted, and once it is counted: the
    new row blocks nothing yet. *)
Lemma snoc_row_inv A s now amt conn :
  capture_inv A s → accepts amt conn s →
  capture_inv A (set_captures (captures s ++ [new_row now amt conn s]) s).
Proof.
  intros H Hacc. destruct (accepts_bounds _ _ _ _ H Hacc) as (Hpos & Hle & Hn).
  destruct Hacc as (_ & Hamt & _ & _ & Hall).
  destruct H as [H1 H2 H3 H4 H5 H6 H7 H8 H9 H10 H11 H12 H13].
  assert (blocked (new_row now amt conn s) = 0%Z) as Hnew by done.
  split; cbn -[seq total blocked]; rewrite ?total_snoc, ?length_app, ?Nat.add_1_r, ?Hnew; try (done || lia).
  - rewrite fmap_app, H2, seq_S, fmap_app. done.
  - right. split; [by destruct (captures s)|]. unfold counted in Hall. cbn. rewrite length_app. cbn. lia.
  - apply Forall_app; split; [done|]. constructor; [simpl; lia|done].
  - apply Forall_app; split; [done|]. by constructor.
  - intros l c [<- [= <-]]%app_inj_tail. simpl. lia.
Qed.

Lemma set_capture_update_inv A s capture_amount :
  capture_inv A s →
  capture_inv A (set_capture_update capture_amount (Some (Z.of_nat (length (captures s)))) s).
Proof. intros []. split; try done. by left. Qed.

Lemma get_trackers_inv A s now request_amount :
  capture_inv A s → capture_inv A (capture_get_trackers now request_amount s).2.
Proof.
  intros H. destruct (accepts_dec request_amount s) as [(amt & conn & -> & Hacc)|Hno].
  - rewrite (get_trackers_accepts A s now amt conn H Hacc). by apply snoc_row_inv.
  - destruct (get_trackers_refuses A s now request_amount H Hno) as [e ->]. done.
Qed.

Lemma start_capture_inv A s now request_amount :
  capture_inv A s → capture_inv A (start_capture now request_amount s).2.
Proof.
  intros H. destruct (accepts_dec request_amount s) as [(amt & conn & -> & Hacc)|Hno].
  - rewrite (start_capture_accepts A s now amt conn H Hacc).
    pose proof (set_capture_update_inv A _ (Some amt) (snoc_row_inv A s now amt conn H Hacc)) as H'.
    cbn [captures set_captures] in H'. by rewrite length_app, Nat.add_1_r in H'.
  - destruct (start_capture_refuses A s now request_amount H Hno) as [e ->]. done.
Qed.

(** ** The answer *)

Lemma capture_status_never_started st c : capture_status_result st = Ok c → c ≠ CaptureStatus_Started.
Proof. unfold capture_status_result. by destruct st; intros [= <-]. Qed.

Lemma error_status_never_started code : error_capture_status code ≠ CaptureStatus_Started.
Proof. unfold error_capture_status. by destruct (_ && _). Qed.

Section answers.
Variable blake3_hex : string → string.

Lemma sync_never_started r u :
  sync_update blake3_hex r = Ok u → update_status u ≠ CaptureStatus_Started.
Proof.
  destruct r as [id st ref amt|code m reason status amt]; simpl.
  - destruct (match id with NoResponseId => _ | _ => _ end) as [cid data].
    destruct (capture_status_result st) as [cs|] eqn:Hst; intros [= <-].
    by eapply capture_status_never_started.
  - intros [= <-]. apply error_status_never_started.
Qed.

(** A row blocks at most the bound of its id, and has no transaction id before
    the connector answered. *)
Definition row_within (bound : string → Z) (c : Capture) : Prop :=
  (blocked c ≤ bound (capture_id c))%Z ∧
  (status c = CaptureStatus_Started → connector_capture_id c = None).

Lemma allowed_within now bound l c u :
  capture_id c ∈ capture_id <$> l → update_status u ≠ CaptureStatus_Started →
  (∀ row, row ∈ l → capture_id row = capture_id c →
    blocked_as (update_status u) (amount row) ≤ bound (capture_id c))%Z →
  allowed now (row_within bound) l c u.
Proof.
  intros Hid Hst Hb. split; [done|]. intros row row' Hrow Hrid Hid' Ham.
  destruct (changed_row now u row') as (H1 & H2 & H3 & H4). split; [|congruence].
  rewrite H1, H4, Hid', Ham, Hrid. by apply Hb.
Qed.

(** What the row with an id blocks. *)
Definition blocked_by (l : list Capture) (id : string) : Z :=
  default 0%Z (blocked <$> by_capture_id l !! id).

Lemma blocked_by_row l c : NoDup (capture_id <$> l) → c ∈ l → blocked_by l (capture_id c) = blocked c.
Proof.
  intros Hnd Hc. unfold blocked_by.
  by rewrite (proj2 (by_capture_id_lookup l (capture_id c) c Hnd) (conj Hc eq_refl)).
Qed.

(** What the row with an id may come to block: its amount when it is the latest
    row, and else what it blocks. *)
Definition room (l : list Capture) (id : string) : Z :=
  match last l with
  | Some c => if decide (id = capture_id c) then amount c else blocked_by l id
  | None => 0%Z
  end.

Lemma nodup_snoc_other l c c' :
  NoDup (capture_id <$> (l ++ [c])) → c' ∈ l → capture_id c' ≠ capture_id c.
Proof.
  rewrite fmap_app. intros (_ & Hdis & _)%NoDup_app Hc Heq.
  apply (Hdis (capture_id c')); [by apply list_elem_of_fmap_2|]. rewrite Heq. by apply list_elem_of_singleton.
Qed.

Lemma room_last l c : room (l ++ [c]) (capture_id c) = amount c.
Proof. unfold room. by rewrite last_snoc, decide_True. Qed.

Lemma room_row l c c' :
  NoDup (capture_id <$> (l ++ [c])) → c' ∈ l → room (l ++ [c]) (capture_id c') = blocked c'.
Proof.
  intros Hnd Hc. unfold room. rewrite last_snoc, decide_False by by eapply nodup_snoc_other.
  apply blocked_by_row; [done|]. apply elem_of_app. by left.
Qed.

Lemma room_rest l c :
  NoDup (capture_id <$> (l ++ [c])) → total (λ c', room (l ++ [c]) (capture_id c')) l = total blocked l.
Proof. intros Hnd. apply total_ext, Forall_forall. intros c' Hc. by apply room_row. Qed.

Lemma blocked_le_amount c : (0 ≤ amount c)%Z → (blocked c ≤ amount c)%Z.
Proof. unfold blocked. destruct (status c); lia. Qed.

Lemma blocked_le_room l :
  rows_ok l → Forall (λ c, blocked c ≤ room l (capture_id c))%Z l.
Proof.
  intros [Hnd Ham _]. destruct l as [|c0 l0 _] using rev_ind; [done|]. apply Forall_app in Ham as [_ Ham].
  apply Forall_app. split; [apply Forall_forall; intros c Hc; rewrite room_row by done; lia|].
  constructor; [|done]. rewrite room_last. apply blocked_le_amount. by apply Forall_cons in Ham as [? _].
Qed.

Lemma room_within A s : capture_inv A s → (total (λ c, room (captures s) (capture_id c)) (captures s) ≤ A)%Z.
Proof.
  intros H. pose proof (rows_nodup _ (inv_rows_ok _ _ H)) as Hnd.
  pose proof (inv_last _ _ H) as Hlast. pose proof (inv_blocked _ _ H) as Hbl.
  destruct (captures s) as [|c l _] using rev_ind; [done|].
  rewrite total_snoc, room_last, room_rest by done. by apply Hlast.
Qed.

(** Rows within the room of the old ones: the latest still has room for its amount. *)
Lemma last_within A s l k c :
  capture_inv A s → same_rows (captures s) l → Forall (row_within (room (captures s))) l → l = k ++ [c] →
  (total blocked k + amount c ≤ A)%Z.
Proof.
  intros H Hsame HP ->. pose proof (rows_nodup _ (inv_rows_ok _ _ H)) as Hnd.
  apply Forall2_app_inv_r in Hsame as (k0 & c0l & Hk & Hc & Heq).
  apply Forall2_cons_inv_r in Hc as (c0 & ? & [_ Ham] & ->%Forall2_nil_inv_r & ->).
  pose proof (inv_last _ _ H _ _ Heq) as Hlast. rewrite Heq in Hnd, HP.
  apply Forall_app in HP as [HP _]. apply Forall_and in HP as [HP _]. apply total_le in HP.
  rewrite (same_rows_total (room (k0 ++ [c0])) _ _ Hk), room_rest in HP by done. lia.
Qed.

(** The update of the payment keeps the invariant when no row comes to block more
    than it may. *)
Lemma finish_capture_inv now A updates s d :
  capture_inv A s → in_sync d (captures s) →
  (∀ c u, (c, u) ∈ updates → allowed now (row_within (room (captures s))) (captures s) c u) →
  capture_inv A (finish_capture now updates d s).2.
Proof.
  intros H Hsync Hu. pose proof (inv_rows_ok _ _ H) as Hok.
  destruct (finish_capture_spec now updates A (row_within (room (captures s))) s d)
    as (d' & l & Hsame & HP & Hl & Heq); try done.
  - apply H.
  - apply H.
  - apply Forall_and. split; [by apply blocked_le_room|apply H].
  - intros l Hsame [Hbl _]%Forall_and. apply total_le in Hbl.
    rewrite (same_rows_total (room (captures s)) _ _ Hsame) in Hbl. pose proof (room_within _ _ H). lia.
  - rewrite Heq. pose proof (Forall2_length _ _ _ Hsame) as Hlen.
    pose proof (λ k c, last_within A s l k c H Hsame HP) as Hlast. apply Forall_and in HP as [_ HP].
    destruct H as [H1 H2 H3 H4 H5 H6 H7 H8 H9 H10 H11 H12 H13].
    split; cbn -[seq]; rewrite <- ?Hlen; try done.
    + by rewrite (same_rows_ids _ _ Hsame).
    + unfold counted, uncounted. cbn. rewrite <- Hlen. destruct H3 as [H3|[Hne H3]]; [by left|right].
      split; [|done]. intros ->. by destruct (captures s).
    + by apply (same_rows_amounts (λ a, 0 < a)%Z _ _ Hsame).
Qed.

(** ** Synchronisation *)

(** A list of captures does not revive a failed capture before the latest one. *)
Definition no_revival (answer : CaptureAnswer) (s : Store) : Prop :=
  match answer with
  | CapturesListed responses =>
      ∀ id r u c, (id, r) ∈ responses → c ∈ captures s → last (captures s) ≠ Some c →
        get_optional_connector_transaction_id c = Some id → status c = CaptureStatus_Failed →
        sync_update blake3_hex r = Ok u → update_status u = CaptureStatus_Failed
  | _ => True
  end.

Lemma mapped_updates_elem d responses : ∀ updates unmapped c u,
  mapped_updates blake3_hex d responses = Ok (updates, unmapped) → (c, u) ∈ updates →
  ∃ id r, (id, r) ∈ responses ∧ get_capture_by_connector_capture_id d id = Some c ∧
    sync_update blake3_hex r = Ok u.
Proof.
  induction responses as [|[id r] responses IH]; intros updates unmapped c u Heq Hin; simpl in Heq.
  { injection Heq as <- <-. by apply not_elem_of_nil in Hin. }
  destruct (get_capture_by_connector_capture_id d id) as [c0|] eqn:Hc.
  - destruct (sync_update blake3_hex r) as [u0|] eqn:Hu; [|done]. simpl in Heq.
    destruct (mapped_updates blake3_hex d responses) as [[us un]|]; [|done]. injection Heq as <- <-.
    apply elem_of_cons in Hin as [[= -> ->]|Hin]; [exists id, r; set_solver|].
    destruct (IH us un c u eq_refl Hin) as (id' & r' & ? & ?). exists id', r'. set_solver.
  - destruct (mapped_updates blake3_hex d responses) as [[us un]|]; [|done]. injection Heq as <- <-.
    destruct (IH us un c u eq_refl Hin) as (id' & r' & ? & ?). exists id', r'. set_solver.
Qed.

Lemma unmapped_updates_elem candidates responses : ∀ updates c u,
  unmapped_updates blake3_hex candidates responses = Ok updates → (c, u) ∈ updates →
  c ∈ candidates ∧ ∃ r, r ∈ responses ∧ sync_update blake3_hex r = Ok u.
Proof.
  induction responses as [|r responses IH]; intros updates c u Heq Hin; simpl in Heq.
  { injection Heq as <-. by apply not_elem_of_nil in Hin. }
  destruct (List.find (unmapped_match r) candidates) as [c0|] eqn:Hc.
  - destruct (sync_update blake3_hex r) as [u0|] eqn:Hu; [|done]. simpl in Heq.
    destruct (unmapped_updates blake3_hex candidates responses) as [us|]; [|done]. injection Heq as <-.
    apply elem_of_cons in Hin as [[= -> ->]|Hin].
    + apply find_some in Hc as [Hc%list_elem_of_In _]. split; [done|]. exists r. set_solver.
    + destruct (IH us c u eq_refl Hin) as (? & r' & ? & ?). split; [done|]. exists r'. set_solver.
  - destruct (IH updates c u Heq Hin) as (? & r' & ? & ?). split; [done|]. exists r'. set_solver.
Qed.

(** An update of a synchronisation is of a pending capture, or of the capture
    with the transaction id of the response. *)
Lemma sync_update_elem d responses updates c u :
  response_to_capture_update blake3_hex d responses = Ok updates → (c, u) ∈ updates →
  c ∈ rows d ∧ update_status u ≠ CaptureStatus_Started ∧
  (status c = CaptureStatus_Pending ∨
   ∃ id r, (id, r) ∈ responses ∧ get_optional_connector_transaction_id c = Some id ∧
     sync_update blake3_hex r = Ok u).
Proof.
  unfold response_to_capture_update.
  destruct (mapped_updates blake3_hex d responses) as [[us un]|] eqn:Hm; [|done]. simpl.
  unfold get_capture_update_for_unmapped_capture_responses.
  destruct (unmapped_updates blake3_hex _ un) as [more|] eqn:Hun; [|done]. simpl.
  intros [= <-] [Hin|Hin]%elem_of_app.
  - destruct (mapped_updates_elem _ _ _ _ _ _ Hm Hin) as (id & r & Hr & Hfind & Hu).
    apply find_some in Hfind as [Hc%list_elem_of_In Hid%bool_decide_eq_true].
    split_and!; [done|by eapply sync_never_started|]. right. by exists id, r.
  - destruct (unmapped_updates_elem _ _ _ _ _ Hun Hin) as (Hc & r & Hr & Hu).
    apply list_elem_of_In, filter_In in Hc as [Hc _]. apply filter_In in Hc as [Hc Hst].
    apply bool_decide_eq_true in Hst. split_and!; [by apply list_elem_of_In|by eapply sync_never_started|by left].
Qed.

(** An update of the latest row. *)
Lemma latest_allowed A s now c u :
  capture_inv A s → last (captures s) = Some c → update_status u ≠ CaptureStatus_Started →
  allowed now (row_within (room (captures s))) (captures s) c u.
Proof.
  intros H Hlast Hst. pose proof (rows_nodup _ (inv_rows_ok _ _ H)) as Hnd.
  pose proof (rows_amounts _ (inv_rows_ok _ _ H)) as Ham.
  apply last_Some in Hlast as [l Hl]. rewrite Hl in *.
  assert (c ∈ l ++ [c]) as Hc by (apply elem_of_app; right; by apply list_elem_of_singleton).
  apply allowed_within; [by apply list_elem_of_fmap_2|done|].
  intros row Hrow Hid. rewrite (by_capture_id_inj _ row c Hnd Hrow Hc Hid), room_last.
  pose proof (proj1 (Forall_forall _ _) Ham c Hc) as Hpos. simpl in Hpos.
  unfold blocked_as. destruct (update_status u); lia.
Qed.

(** An update of a listed row: it does not start to block, unless it is the latest. *)
Lemma sync_allowed A s now responses d updates c u :
  capture_inv A s → in_sync d (captures s) → no_revival (CapturesListed responses) s →
  response_to_capture_update blake3_hex d responses = Ok updates → (c, u) ∈ updates →
  allowed now (row_within (room (captures s))) (captures s) c u.
Proof.
  intros H Hsync Hrev Hup Hin. pose proof (rows_nodup _ (inv_rows_ok _ _ H)) as Hnd.
  destruct (sync_update_elem _ _ _ _ _ Hup Hin) as (Hc & Hst & Hwhy).
  rewrite (rows_perm _ _ Hnd Hsync) in Hc.
  destruct (decide (last (captures s) = Some c)) as [Hlast|Hlast]; [by eapply latest_allowed|].
  apply allowed_within; [by apply list_elem_of_fmap_2|done|].
  intros row Hrow Hid. rewrite (by_capture_id_inj _ row c Hnd Hrow Hc Hid).
  transitivity (blocked c).
  2:{ by apply (proj1 (Forall_forall _ _) (blocked_le_room _ (inv_rows_ok _ _ H))). }
  pose proof (proj1 (Forall_forall _ _) (inv_amounts _ _ H) c Hc) as Ham. simpl in Ham.
  pose proof (proj1 (Forall_forall _ _) (inv_started _ _ H) c Hc) as Hsta. simpl in Hsta.
  destruct Hwhy as [Hp|(id & r & Hr & Htxn & Hu)].
  { unfold blocked. rewrite Hp. unfold blocked_as. destruct (update_status u); lia. }
  destruct (status c) eqn:Hs; unfold blocked, blocked_as; rewrite Hs.
  all: try (destruct (update_status u); lia).
  - unfold get_optional_connector_transaction_id in Htxn. by rewrite Hsta in Htxn.
  - by rewrite (Hrev id r u c Hr Hc Hlast Htxn Hs Hu).
Qed.

(** The updates of an answer are of the listed rows, or of the latest one. *)
Lemma answer_updates_allowed A s now d answer updates c u :
  capture_inv A s → in_sync d (captures s) → last (captures s) = Some (latest_capture d) →
  no_revival answer s → answer_updates blake3_hex d answer = Ok (Some updates) → (c, u) ∈ updates →
  allowed now (row_within (room (captures s))) (captures s) c u.
Proof.
  intros H Hsync Hlast Hrev Hup Hin.
  destruct answer as [st id ref|code ec m r|responses|st]; cbn [answer_updates] in Hup.
  - destruct (match id with NoResponseId => _ | _ => _ end) as [cid data].
    destruct (capture_status_result st) as [cs|] eqn:Hst; [|done]. injection Hup as <-.
    apply list_elem_of_singleton in Hin as [= -> ->].
    eapply latest_allowed; [done..|]. by eapply capture_status_never_started.
  - injection Hup as <-. apply list_elem_of_singleton in Hin as [= -> ->].
    eapply latest_allowed; [done..|]. apply error_status_never_started.
  - destruct (response_to_capture_update _ _ _) as [us|] eqn:Hus; [|done]. injection Hup as <-.
    by eapply sync_allowed.
  - done.
Qed.

Lemma set_attempt_status_inv A s st : capture_inv A s → capture_inv A (set_attempt_status st s).
Proof. intros []. split; done. Qed.

(** Whatever the connector answers, the update of the payment keeps the invariant. *)
Lemma capture_tracker_inv A s now check answer d :
  capture_inv A s → in_sync d (captures s) → last (captures s) = Some (latest_capture d) →
  no_revival answer s → capture_inv A (update_tracker blake3_hex now check answer d s).2.
Proof.
  intros H Hsync Hlast Hrev. unfold update_tracker. destruct (answer_check check answer).
  - unfold sr_bind at 1, sr_lift. destruct (answer_updates blake3_hex d answer) as [[updates|]|e] eqn:Hup; [| |done].
    + rewrite sr_bind_ret_snd. apply finish_capture_inv; [done..|].
      intros c u Hin. by eapply answer_updates_allowed.
    + by apply set_attempt_status_inv.
  - by apply set_attempt_status_inv.
  - done.
Qed.

Lemma capture_payment_inv A s now request_amount check answer :
  capture_inv A s → no_revival answer (start_capture now request_amount s).2 →
  capture_inv A (capture_payment blake3_hex now request_amount check answer s).2.
Proof.
  intros H Hrev. pose proof (start_capture_inv A s now request_amount H) as Hs.
  unfold capture_payment. unfold sr_bind at 1.
  destruct (accepts_dec request_amount s) as [(amt & conn & -> & Hacc)|Hno].
  - rewrite (start_capture_accepts A s now amt conn H Hacc) in Hs, Hrev |- *.
    apply capture_tracker_inv; [done|done|apply last_snoc|done].
  - destruct (start_capture_refuses A s now request_amount H Hno) as [e ->]. done.
Qed.

Lemma sync_captures_inv A s now check answer :
  capture_inv A s → no_revival answer s →
  capture_inv A (sync_captures blake3_hex now check answer s).2.
Proof.
  intros H Hrev. unfold sync_captures. unfold sr_bind at 1, sr_get.
  destruct (0 <? _)%Z; [|done]. unfold sr_bind at 1 2, sr_lift, new_for_sync.
  destruct (last (captures s)) as [c|] eqn:Hlast; [|done]. cbn. by apply capture_tracker_inv.
Qed.

(** ** Any sequence of operations *)

(** A capture request that the connector answers, one whose answer is lost, one that
    ends before the connector is called, and a synchronisation.  A synchronisation
    before a capture is counted is not one of captures. *)
Inductive capture_step (s : Store) : Store → Prop :=
| step_capture now request_amount check answer :
    no_revival answer (start_capture now request_amount s).2 →
    capture_step s (capture_payment blake3_hex now request_amount check answer s).2
| step_answer_lost now request_amount : capture_step s (start_capture now request_amount s).2
| step_not_called now request_amount : capture_step s (capture_get_trackers now request_amount s).2
| step_sync now check answer :
    no_revival answer s → capture_step s (sync_captures blake3_hex now check answer s).2.

(** A payment that is authorized and has no capture yet. *)
Record authorized_payment (A : Z) (s : Store) : Prop := {
  fresh_method : capture_method (attempt s) = Some CaptureMethod_ManualMultiple;
  fresh_captures : captures s = [];
  fresh_count : default 0%Z (multiple_capture_count (attempt s)) = 0%Z;
  fresh_currency : is_Some (currency (attempt s));
  fresh_total : is_ok (get_total_amount (net_amount (attempt s))) = true;
  fresh_authorized : authorized (attempt s) = Ok A;
  fresh_range : (0 ≤ A ≤ i64_max)%Z;
  fresh_capturable : (amount_capturable (attempt s) ≤ A)%Z;
}.

Lemma authorized_payment_inv A s : authorized_payment A s → capture_inv A s.
Proof.
  intros [H1 H2 H3 H4 H5 H6 H7 H8]. split; rewrite ?H2; simpl; try done; try lia.
  - left. unfold counted. by rewrite H2, H3.
  - intros l c Heq. by destruct l.
Qed.

Lemma capture_step_inv A s s' : capture_inv A s → capture_step s s' → capture_inv A s'.
Proof.
  intros H [].
  - by apply capture_payment_inv.
  - by apply start_capture_inv.
  - by apply get_trackers_inv.
  - by apply sync_captures_inv.
Qed.

(** [C7] Take an authorized payment that is captured in parts ([manual_multiple]), with
    a currency, a total and an authorized amount within an [i64], no captures yet and
    at most the authorized amount capturable.
    Through any sequence of capture requests, requests that end before the connector
    is called, requests whose answer is lost, and synchronisations once a capture is
    counted, with any answer of the connector (a transaction, an error, a list of
    captures, a failed check of the amounts), as long as a list of captures does not
    report a failed capture before the latest one as alive again: the captures have
    distinct ids, all of them or all but one are counted by the attempt, what they
    charge and block stays within the authorized amount, and the amount the attempt
    still offers for capture is at most the rest. *)
Theorem captures_within_authorization A s0 s :
  authorized_payment A s0 → rtc capture_step s0 s →
  NoDup (capture_id <$> captures s) ∧
  (default 0 (multiple_capture_count (attempt s)) ≤ Z.of_nat (length (captures s))
     ≤ default 0 (multiple_capture_count (attempt s)) + 1)%Z ∧
  (0 ≤ total charged (captures s) ≤ total blocked (captures s))%Z ∧
  (total blocked (captures s) ≤ A)%Z ∧
  (amount_capturable (attempt s) ≤ A - total blocked (captures s))%Z.
Proof.
  intros H0%authorized_payment_inv Hsteps.
  assert (capture_inv A s) as H by (induction Hsteps; eauto using capture_step_inv).
  pose proof (inv_rows_ok _ _ H) as [Hnd Ham _]. split_and!; [done| | | | |apply H..].
  - destruct (inv_count _ _ H) as [Hall|[_ Hun]]; [rewrite <- Hall|rewrite <- Hun]; lia.
  - destruct (inv_count _ _ H) as [Hall|[_ Hun]]; [rewrite <- Hall|rewrite <- Hun]; lia.
  - by apply total_nonneg, rows_charged.
  - by apply charged_total.
Qed.

(** [C33] A capture request of a payment captured in parts ([manual_multiple]) is
    accepted exactly when the intent is in a capturable state, the amount is given,
    positive and within the capturable amount, a connector is known, the count of
    captures has room and no row was left uncounted by an earlier request; then one
    row is added in the status started and counted.  Any other request is refused
    with an error and leaves the payment as it was. *)
Theorem capture_request_outcome A s now request_amount :
  capture_inv A s →
  (∃ amt conn, request_amount = Some amt ∧ accepts amt conn s ∧
    let row := new_row now amt conn s in
    start_capture now request_amount s =
      (Ok (Some (new_for_create (captures s) row)),
       set_capture_update (Some amt) (Some (Z.of_nat (S (length (captures s)))))
         (set_captures (captures s ++ [row]) s))) ∨
  ((∀ amt conn, request_amount = Some amt → ¬ accepts amt conn s) ∧
   ∃ e, start_capture now request_amount s = (Err e, s)).
Proof.
  intros H. destruct (accepts_dec request_amount s) as [(amt & conn & -> & Hacc)|Hno].
  - left. exists amt, conn. split_and!; [done..|]. by eapply start_capture_accepts.
  - right. split; [done|]. by eapply start_capture_refuses.
Qed.

(** An accepted request that ends before the connector is called leaves its row
    uncounted, and from then on every capture request is refused: the next capture
    gets the id of that row. *)
Theorem uncounted_row_blocks_captures A s now amt conn now' request_amount :
  capture_inv A s → accepts amt conn s →
  let s' := (capture_get_trackers now (Some amt) s).2 in
  captures s' = captures s ++ [new_row now amt conn s] ∧
  ∃ e, start_capture now' request_amount s' = (Err e, s').
Proof.
  intros H Hacc s'. pose proof (get_trackers_inv A s now (Some amt) H) as H'. fold s' in H'.
  assert (s' = set_captures (captures s ++ [new_row now amt conn s]) s) as Hs'.
  { unfold s'. by rewrite (get_trackers_accepts A s now amt conn H Hacc). }
  split; [by rewrite Hs'|]. eapply start_capture_refuses; [exact H'|].
  intros amt' conn' _ (_ & _ & _ & _ & Hall). destruct Hacc as (_ & _ & _ & _ & Hold).
  rewrite Hs' in Hall. unfold counted in *. cbn in Hall. rewrite length_app in Hall. cbn in Hall. lia.
Qed.

(** The answer to an accepted request updates the new row only, and the
    attempt and the intent follow from the rows: the attempt is charged when
    the charged captures sum to the authorized amount, partially charged when
    there is a charged capture, and else has its capture initiated; what stays
    capturable is the authorized amount less all that is blocked. *)
Theorem capture_answer_effect A s now amt conn answer u :
  capture_inv A s → accepts amt conn s →
  let row := new_row now amt conn s in
  answer_updates blake3_hex (new_for_create (captures s) row) answer = Ok (Some [(row, u)]) →
  let l := captures s ++ [apply_changeset (update_internal now u) row] in
  (capture_payment blake3_hex now (Some amt) CheckPasses answer s).2 =
    set_amounts (status_for A l) (A - total blocked (captures s) - blocked_as (update_status u) amt)
      (set_capture_update (Some amt) (Some (Z.of_nat (S (length (captures s))))) (set_captures l s)).
Proof.
  intros H Hacc row Hu l. unfold capture_payment. unfold sr_bind at 1.
  rewrite (start_capture_accepts A s now amt conn H Hacc). fold row.
  unfold update_tracker. replace (answer_check CheckPasses answer) with CheckPasses by by destruct answer.
  unfold sr_bind at 1, sr_lift. rewrite Hu, sr_bind_ret_snd.
  set (s1 := set_capture_update _ _ (set_captures (_ ++ [row]) s)). set (row' := apply_changeset _ row) in l.
  destruct (changed_row now u row) as (Hid & Ham & _ & Hbl). fold row' in Hid, Ham, Hbl.
  pose proof (nodup_snoc A s row H eq_refl) as Hnd. pose proof (nodup_snoc A s row' H Hid) as Hnd'.
  assert (total blocked l = total blocked (captures s) + blocked_as (update_status u) amt)%Z as Htot.
  { unfold l. by rewrite total_snoc, Hbl. }
  destruct (accepts_bounds _ _ _ _ H Hacc) as (Hpos & Hle & Hn).
  rewrite (finish_capture_tail now _ A l s1 _ (update_capture row' (new_for_create (captures s) row))).
  - cbn [snd]. rewrite Htot, Z.sub_add_distr. done.
  - apply H.
  - apply H.
  - cbn [apply_updates]. unfold sr_bind.
    rewrite (update_last_row now u (captures s) row s1) by (done || apply (next_id_fresh _ _ H)). done.
  - unfold in_sync, update_capture, new_for_create. cbn [all_captures]. unfold l.
    rewrite !by_capture_id_snoc, Hid, lookup_insert_eq. cbn [all_captures]. by rewrite insert_insert_eq.
  - unfold l. split; [done| |rewrite length_app; simpl; lia].
    apply Forall_app. split; [apply (inv_rows_ok _ _ H)|]. constructor; [|done]. rewrite Ham. simpl. lia.
  - rewrite Htot. unfold blocked_as. pose proof (inv_capturable _ _ H). pose proof (inv_blocked _ _ H).
    destruct (update_status u); lia.
Qed.

End answers.

(** The answers of a synchronisation that name no known transaction are
    matched by amount against the pending captures, and a capture that was
    matched stays a candidate: answers for the same amount all update the same
    capture, however many captures of that amount are pending. *)
Theorem equal_amounts_update_one_capture blake3_hex candidates responses amt updates :
  (∀ r, r ∈ responses → get_connector_response_reference_id r = None ∧ get_amount_captured r = Some amt) →
  unmapped_updates blake3_hex candidates responses = Ok updates →
  ∀ c u, (c, u) ∈ updates → List.find (λ c', bool_decide (amount c' = amt)) candidates = Some c.
Proof.
  revert updates. induction responses as [|r responses IH]; intros updates Hr Heq c u Hin; simpl in Heq.
  { injection Heq as <-. by apply not_elem_of_nil in Hin. }
  destruct (Hr r) as [Href Ham]; [set_solver|].
  assert (∀ us, unmapped_updates blake3_hex candidates responses = Ok us → (c, u) ∈ us →
    List.find (λ c', bool_decide (amount c' = amt)) candidates = Some c) as IH'.
  { intros us Hus Hcu. eapply IH; [set_solver|done..]. }
  assert (List.find (unmapped_match r) candidates = List.find (λ c', bool_decide (amount c' = amt)) candidates) as Hfind.
  { apply find_ext. intros c'. unfold unmapped_match. rewrite Href, Ham.
    apply bool_decide_ext. naive_solver. }
  rewrite Hfind in Heq. destruct (List.find _ candidates) as [c0|]; [|by eapply IH'].
  destruct (sync_update blake3_hex r) as [u0|]; [|done]. simpl in Heq.
  destruct (unmapped_updates blake3_hex candidates responses) as [us|]; [|done]. injection Heq as <-.
  apply elem_of_cons in Hin as [[= -> ->]|Hin]; [done|by eapply IH'].
Qed.

(** ** Example: a payment of 100 captured in parts *)

Module CaptureExample.

Definition pending_attempt : PaymentAttempt :=
  mkPaymentAttempt "pay_1" "pay" "merchant" AttemptStatus_Authorized
    (mkNetAmount 90 (Some 10%Z) None None None None None) (Some Currency_USD) (Some "adyen"%string)
    (Some CaptureMethod_ManualMultiple) None None 100 None None.

Definition payment : Store := mkStore pending_attempt IntentStatus_RequiresCapture [].

(** The hash is not used: the transaction ids are short. *)
Definition no_hash (_ : string) : string := "".

Definition accepted (st : AttemptStatus) : CaptureAnswer := CaptureAccepted st NoResponseId None.

(** Two captures of 50 that the connector leaves pending. *)
Definition two_pending : Store :=
  (capture_payment no_hash 1 (Some 50%Z) CheckPasses (accepted AttemptStatus_Pending)
    (capture_payment no_hash 0 (Some 50%Z) CheckPasses (accepted AttemptStatus_Pending) payment).2).2.

(** A synchronisation that the connector cannot answer. *)
Definition synced : Store :=
  (sync_captures no_hash 2 CheckPasses (CaptureRefused 502 "502" "bad gateway" None) two_pending).2.

Definition both_charged : list (string * CaptureSyncResponse) :=
  [("txn_a"%string, SyncSuccess (ResponseTransactionId "txn_a") AttemptStatus_Charged None (Some 50%Z));
   ("txn_b"%string, SyncSuccess (ResponseTransactionId "txn_b") AttemptStatus_Charged None (Some 50%Z))].

Lemma payment_authorized : authorized_payment 100 payment.
Proof. split; vm_compute; (reflexivity || (split; discriminate) || discriminate || by eexists). Qed.

Lemma payment_inv : capture_inv 100 payment.
Proof. apply authorized_payment_inv, payment_authorized. Qed.

Lemma payment_accepts_40 : accepts 40 "adyen" payment.
Proof. split_and!; vm_compute; (reflexivity || discriminate). Qed.

Lemma captures_within_authorization_witness :
  rtc (capture_step no_hash) payment synced ∧
  NoDup (capture_id <$> captures synced) ∧
  total blocked (captures synced) = 100%Z ∧
  (amount_capturable (attempt synced) ≤ 100 - total blocked (captures synced))%Z.
Proof.
  assert (rtc (capture_step no_hash) payment synced) as Hsteps.
  { eapply rtc_l; [apply (step_capture no_hash payment 0 (Some 50%Z) CheckPasses (accepted AttemptStatus_Pending) I)|].
    eapply rtc_l; [apply (step_capture no_hash _ 1 (Some 50%Z) CheckPasses (accepted AttemptStatus_Pending) I)|].
    apply rtc_once. apply (step_sync no_hash two_pending 2 CheckPasses (CaptureRefused 502 "502" "bad gateway" None) I). }
  destruct (captures_within_authorization no_hash 100 payment synced payment_authorized Hsteps)
    as (Hnd & _ & _ & _ & Hcap).
  split_and!; [exact Hsteps|exact Hnd|vm_compute; reflexivity|exact Hcap].
Defined.

Lemma capture_request_outcome_witness :
  (∃ e, start_capture 0 (Some 101%Z) payment = (Err e, payment)) ∧
  (start_capture 0 (Some 40%Z) payment).1 = Ok (Some (new_for_create [] (new_row 0 40 "adyen" payment))).
Proof.
  split.
  - destruct (capture_request_outcome 100 payment 0 (Some 101%Z) payment_inv)
      as [(amt & conn & [= <-] & (_ & [_ Hle] & _) & _)|[_ He]]; [|exact He].
    exfalso. vm_compute in Hle. apply Hle. reflexivity.
  - destruct (capture_request_outcome 100 payment 0 (Some 40%Z) payment_inv)
      as [(amt & conn & [= <-] & (_ & _ & [= <-] & _) & ->)|[Hno _]]; [reflexivity|].
    destruct (Hno 40%Z "adyen"%string eq_refl payment_accepts_40).
Defined.

Lemma capture_answer_effect_witness :
  let s := (capture_payment no_hash 7 (Some 40%Z) CheckPasses (accepted AttemptStatus_Charged) payment).2 in
  amount_capturable (attempt s) = 60%Z ∧
  attempt_status (attempt s) = AttemptStatus_PartialChargedAndChargeable ∧
  intent_status s = IntentStatus_PartiallyCapturedAndCapturable.
Proof.
  cbv zeta.
  rewrite (capture_answer_effect no_hash 100 payment 7 40 "adyen" (accepted AttemptStatus_Charged)
    (ResponseUpdate CaptureStatus_Charged None None None) payment_inv payment_accepts_40 eq_refl).
  split_and!; vm_compute; reflexivity.
Defined.

Lemma uncounted_row_blocks_captures_witness :
  ∃ e, start_capture 1 (Some 10%Z) (capture_get_trackers 0 (Some 40%Z) payment).2 =
    (Err e, (capture_get_trackers 0 (Some 40%Z) payment).2).
Proof.
  apply (uncounted_row_blocks_captures 100 payment 0 40 "adyen" 1 (Some 10%Z) payment_inv payment_accepts_40).
Defined.

(** A synchronisation is answered with the transaction of the first capture, which
    was charged: the status goes to the latest capture, which is still pending. *)
Example sync_updates_latest :
  status <$> captures (sync_captures no_hash 2 CheckPasses
    (CaptureAccepted AttemptStatus_Charged (ResponseTransactionId "txn_a") None) two_pending).2 =
  [CaptureStatus_Pending; CaptureStatus_Charged].
Proof. vm_compute. reflexivity. Qed.

(** The connector charged both captures; one of them stays pending. *)
Lemma equal_amounts_update_one_capture_witness :
  (∀ updates, unmapped_updates no_hash (captures two_pending) (snd <$> both_charged) = Ok updates →
    ∀ c u, (c, u) ∈ updates → capture_id c = "pay_1_1"%string) ∧
  status <$> captures (sync_captures no_hash 2 CheckPasses (CapturesListed both_charged) two_pending).2 ≡ₚ
    [CaptureStatus_Charged; CaptureStatus_Pending].
Proof.
  split.
  - intros updates Hu c u Hin.
    assert (∀ r, r ∈ snd <$> both_charged →
      get_connector_response_reference_id r = None ∧ get_amount_captured r = Some 50%Z) as Hr.
    { intros r Hr. cbn in Hr. repeat (apply elem_of_cons in Hr as [->|Hr]; [split; reflexivity|]).
      destruct (not_elem_of_nil _ Hr). }
    pose proof (equal_amounts_update_one_capture no_hash (captures two_pending) (snd <$> both_charged)
      50 updates Hr Hu c u Hin) as Hc.
    vm_compute in Hc. injection Hc as <-. reflexivity.
  - apply (bool_decide_unpack _). vm_compute. exact I.
Defined.

End CaptureExample.
