(* ===== verification/Cards.v ===== *)
(** * Cards

    Card numbers, network tokens, security codes and expiry dates
    ([crates/cards/src/validate.rs], [crates/cards/src/lib.rs]).

    A string is the list of its Unicode scalar values.  [u8] arithmetic is
    checked: [None] stands for an overflow, which panics in a debug build.  What
    comes from other packages is a parameter: [WithType::fmt] of the masking
    crate, the regular expressions of the regex crate, the calendar of the time
    crate and the clock. *)

From stdpp Require Import pretty.
From S2P Require Import Prelude.

Abbreviation str := (list Z) (only parsing).

(** The characters of an ASCII literal. *)
Definition chars (s : string) : str := (λ a, Z.of_nat (Ascii.nat_of_ascii a)) <$> String.list_ascii_of_string s.

(** [char::is_whitespace]: the Unicode property White_Space. *)
Definition is_whitespace (c : Z) : bool :=
  ((9 <=? c) && (c <=? 13) || (c =? 32) || (c =? 133) || (c =? 160) || (c =? 5760) ||
   (8192 <=? c) && (c <=? 8202) || (c =? 8232) || (c =? 8233) || (c =? 8239) || (c =? 8287) || (c =? 12288))%Z.

(** [split_whitespace().collect::<String>()]. *)
Definition split_whitespace_collect (s : str) : str := List.filter (λ c, negb (is_whitespace c)) s.

(** [char::to_digit(10)]. *)
Definition to_digit (c : Z) : option Z := if ((48 <=? c) && (c <=? 57))%Z then Some (c - 48)%Z else None.

(** [str::len]: the bytes of the UTF-8 encoding. *)
Definition len_utf8 (c : Z) : nat :=
  if (c <? 128)%Z then 1 else if (c <? 2048)%Z then 2 else if (c <? 65536)%Z then 3 else 4.
Definition len (s : str) : nat := foldr (λ c n, len_utf8 c + n) 0 s.

(** [str::get(..n)]: [None] when [n] is past the end or inside a character. *)
Fixpoint get_prefix (n : nat) (s : str) : option str :=
  match n, s with
  | 0, _ => Some []
  | S _, [] => None
  | S _, c :: s => if decide (len_utf8 c ≤ n) then (c ::.) <$> get_prefix (n - len_utf8 c) s else None
  end.

(** ** Validation *)

Definition MIN_CARD_NUMBER_LENGTH : nat := 8.
Definition MAX_CARD_NUMBER_LENGTH : nat := 19.

Inductive CardNumberValidationErr :=
| InvalidCharacter | InvalidLength | CardNumberInvalid | NetworkTokenInvalid.

#[export] Instance CardNumberValidationErr_eq_dec : EqDecision CardNumberValidationErr.
Proof. solve_decision. Defined.

(** The message of an error. *)
Definition message (e : CardNumberValidationErr) : string :=
  match e with
  | InvalidCharacter => "invalid character found in card number"
  | InvalidLength => "invalid card number length"
  | CardNumberInvalid => "card number invalid"
  | NetworkTokenInvalid => "network token invalid"
  end.

Definition validate_card_number_chars (number : str) : result CardNumberValidationErr (list Z) :=
  try_collect (λ c, ok_or InvalidCharacter (to_digit c)) number.

Definition validate_card_number_length (number : list Z) : result CardNumberValidationErr (list Z) :=
  if decide (MIN_CARD_NUMBER_LENGTH ≤ length number ∧ length number ≤ MAX_CARD_NUMBER_LENGTH)
  then Ok number else Err InvalidLength.

(** [u8] arithmetic. *)
Definition u8 (z : Z) : option Z := if ((0 <=? z) && (z <? 256))%Z then Some z else None.

(** The closure of [luhn]: [idx as u8] truncates. *)
Definition luhn_term (idx : nat) (element : Z) : option Z :=
  twice ← u8 (element * 2);
  folded ← u8 (twice / 10 + twice `mod` 10);
  odd ← u8 (folded * ((Z.of_nat idx `mod` 256) `mod` 2));
  even ← u8 (element * ((Z.of_nat (idx + 1) `mod` 256) `mod` 2));
  u8 (odd + even).

(** [iter().rev().enumerate().map(..).sum::<u8>()] from a position on. *)
Fixpoint luhn_sum (idx : nat) (reversed : list Z) (acc : Z) : option Z :=
  match reversed with
  | [] => Some acc
  | element :: rest => t ← luhn_term idx element; acc ← u8 (acc + t); luhn_sum (S idx) rest acc
  end.

Definition luhn (number : list Z) : option bool :=
  s ← luhn_sum 0 (reverse number) 0; Some (s `mod` 10 =? 0)%Z.

(** [sanitize_card_number]; [None] is a panic. *)
Definition sanitize_card_number (card_number : str) : option (result CardNumberValidationErr bool) :=
  match validate_card_number_chars card_number ≫= validate_card_number_length with
  | Ok number => Ok <$> luhn number
  | Err e => Some (Err e)
  end.

(** [router_env::Env]. *)
Inductive Env := Development | Integ | Sandbox | Production.

#[export] Instance Env_eq_dec : EqDecision Env.
Proof. solve_decision. Defined.

Definition valid_test_cards : list str :=
  [chars "4000100511112003"; chars "6000100611111203"; chars "3000100811111072"; chars "9000100111111111"].

Definition test_cards_of (env : Env) : list str :=
  match env with
  | Development | Sandbox | Integ => valid_test_cards
  | Production => []
  end.

(** ** [CardNumber] and [NetworkToken] *)

Section accessors.
Variable number : str.
Definition get_card_isin : str := take 6 number.
Definition get_extended_card_bin : str := take 8 number.
Definition get_card_no : str := number.
Definition get_last4 : str := reverse (take 4 (reverse number)).
End accessors.

Module CardNumber.
Definition from_str (env : Env) (s : str) : option (result CardNumberValidationErr str) :=
  let card_number := split_whitespace_collect s in
  r ← sanitize_card_number card_number;
  Some (is_card_valid ← r;
        if bool_decide (card_number ∈ test_cards_of env) || is_card_valid
        then Ok card_number else Err CardNumberInvalid).
End CardNumber.

Module NetworkToken.
Definition from_str (env : Env) (s : str) : option (result CardNumberValidationErr str) :=
  let network_token := split_whitespace_collect s in
  r ← sanitize_card_number network_token;
  Some (is_network_token_valid ← r;
        if bool_decide (network_token ∈ test_cards_of env) || is_network_token_valid
        then Ok network_token else Err NetworkTokenInvalid).
End NetworkToken.

(** ** Masking *)

Section masking.
(** [WithType::fmt]. *)
Variable with_type_fmt : str → str.

(** [CardNumberStrategy::fmt]. *)
Definition strategy_fmt (val_str : str) : str :=
  if decide (len val_str < 15 ∨ 19 < len val_str) then with_type_fmt val_str
  else match get_prefix 6 val_str with
       | Some value => value ++ replicate (len val_str - 6) 42%Z
       | None => with_type_fmt val_str
       end.

End masking.

(** ** Co-badged cards *)

(** [CARD_NETWORK_REGEX]. *)
Definition card_network_regex : list (string * string) :=
  [("Mastercard", "^(222[1-9]|22[3-9][0-9]|2[3-6][0-9]{2}|27[0-1][0-9]|2720|5[1-5])");
   ("American Express", "^3[47]");
   ("Visa", "^4");
   ("Discover", "^(6011|64[4-9]|65|622126|622[1-9][0-9][0-9]|6229[0-1][0-9]|622925)");
   ("Maestro", "^(5018|5081|5044|504681|504993|5020|502260|5038|5893|603845|603123|6304|6759|676[1-3]|6220|504834|504817|504645|504775|600206|627741)");
   ("RuPay", "^(508227|508[5-9]|603741|60698[5-9]|60699|607[0-8]|6079[0-7]|60798[0-4]|60800[1-9]|6080[1-9]|608[1-4]|608500|6521[5-9]|652[2-9]|6530|6531[0-4]|817290|817368|817378|353800|82)");
   ("Diners Club", "^(36|38|39|30[0-5])");
   ("JCB", "^35(2[89]|[3-8][0-9])");
   ("CarteBlanche", "^389[0-9]{11}$");
   ("Sodex", "^(637513)");
   ("BAJAJ", "^(203040)");
   ("CartesBancaires", "^(401(005|006|581)|4021(01|02)|403550|405936|406572|41(3849|4819|50(56|59|62|71|74)|6286|65(37|79)|71[7])|420110|423460|43(47(21|22)|50(48|49|50|51|52)|7875|95(09|11|15|39|98)|96(03|18|19|20|22|72))|4424(48|49|50|51|52|57)|448412|4505(19|60)|45(33|56[6-8]|61|62[^3]|6955|7452|7717|93[02379])|46(099|54(76|77)|6258|6575|98[023])|47(4107|71(73|74|86)|72(65|93)|9619)|48(1091|3622|6519)|49(7|83[5-9]|90(0[1-6]|1[0-6]|2[0-3]|3[0-3]|4[0-3]|5[0-2]|68|9[256789]))|5075(89|90|93|94|97)|51(0726|3([0-7]|8[56]|9(00|38))|5214|62(07|36)|72(22|43)|73(65|66)|7502|7647|8101|9920)|52(0993|1662|3718|7429|9227|93(13|14|31)|94(14|21|30|40|47|55|56|[6-9])|9542)|53(0901|10(28|30)|1195|23(4[4-7])|2459|25(09|34|54|56)|3801|41(02|05|11)|50(29|66)|5324|61(07|15)|71(06|12)|8011)|54(2848|5157|9538|98(5[89]))|55(39(79|93)|42(05|60)|4965|7008|88(67|82)|89(29|4[23])|9618|98(09|10))|56(0408|12(0[2-6]|4[134]|5[04678]))|58(17(0[0-7]|15|2[14]|3[16789]|4[0-9]|5[016]|6[269]|7[3789]|8[0-7]|9[017])|55(0[2-5]|7[7-9]|8[0-2])))")]%string.

Section cobadged.
(** [Regex::new] and [Regex::is_match]; [None] is a pattern that does not compile. *)
Variable is_match : string → option (str → bool).

Inductive ValidationError :=
| InvalidValue (message : string).

(** The loop over the values of the map, in the order the map gives them. *)
Fixpoint count_networks (regexes : list string) (card_number : str) (no_of_supported_card_networks : nat) :
    result ValidationError nat :=
  match regexes with
  | [] => Ok no_of_supported_card_networks
  | regex :: rest =>
      match is_match regex with
      | None => Err (InvalidValue "Invalid regex expression")
      | Some card_regex =>
          if card_regex card_number then
            let n := S no_of_supported_card_networks in
            if decide (1 < n) then Ok n else count_networks rest card_number n
          else count_networks rest card_number no_of_supported_card_networks
      end
  end.

Definition is_cobadged_card (values : list string) (number : str) : result ValidationError bool :=
  n ← count_networks values (get_card_no number) 0; Ok (bool_decide (1 < n)).

End cobadged.

(** ** Security codes and expiry dates *)

(** [CardSecurityCode::try_from(u16)]. *)
Definition card_security_code (csc : Z) : result ValidationError Z :=
  if ((0 <=? csc) && (csc <=? 9999))%Z then Ok csc else Err (InvalidValue "invalid card security code").

(** [CardExpirationMonth::try_from(u8)]. *)
Definition card_expiration_month (month : Z) : result ValidationError Z :=
  if ((1 <=? month) && (month <=? 12))%Z then Ok month else Err (InvalidValue "invalid card expiration month").

(** [CardExpirationMonth::two_digits]: [{:02}]. *)
Definition month_two_digits (month : Z) : string :=
  if (month <? 10)%Z then "0" +:+ pretty month else pretty month.

Definition u16_max : Z := 65535.

(** [CardExpirationYear::try_from(u16)], with the year of the clock. *)
Definition card_expiration_year (clock_year year : Z) : result ValidationError Z :=
  if ((0 <=? clock_year) && (clock_year <=? u16_max))%Z then
    if (clock_year <=? year)%Z then Ok year else Err (InvalidValue "invalid card expiration year")
  else Err (InvalidValue "invalid year").

Definition four_digits (year : Z) : string := pretty year.
Definition year_two_digits (year : Z) : string := pretty (year `mod` 100)%Z.

Record CardExpiration := mkCardExpiration { exp_month : Z; exp_year : Z }.

(** [CardExpiration::try_from((u8, u16))]. *)
Definition card_expiration (clock_year month year : Z) : result ValidationError CardExpiration :=
  month ← card_expiration_month month;
  year ← card_expiration_year clock_year year;
  Ok (mkCardExpiration month year).

(** The calendar: the length of a month, the number of a day, which is [None]
    for a date out of range, and the last instant a date and time can have.
    An instant is a number of nanoseconds. *)
Class Calendar : Type := {
  month_length : Z → Z → Z;
  day_number : Z → Z → Z → option Z;
  last_instant : Z;
}.

Definition nanoseconds_per_day : Z := 86400 * 10 ^ 9.

Definition is_expired `{Calendar} (now : Z) (e : CardExpiration) : result ValidationError bool :=
  if ((1 <=? exp_month e) && (exp_month e <=? 12))%Z then
    let expiration_day := month_length (exp_year e) (exp_month e) in
    expiration_date ← ok_or (InvalidValue "error while constructing calendar date")
      (day_number (exp_year e) (exp_month e) expiration_day);
    let expiration_datetime_utc := (expiration_date * nanoseconds_per_day)%Z in
    let expiration_datetime_utc := Z.min (expiration_datetime_utc + nanoseconds_per_day) last_instant in
    Ok (expiration_datetime_utc <? now)%Z
  else Err (InvalidValue "invalid month").
