(* ===== verification/CardTheorems.v ===== *)
(** * Theorems on cards

    The checksum against its textbook definition, the errors it detects, the
    strings that are accepted as card numbers, what their masked form shows, and
    the instant a card expires. *)

From stdpp Require Import pretty.
From S2P Require Import Prelude Cards.

(** ** The checksum *)

Definition is_digit (d : Z) : Prop := (0 ≤ d ≤ 9)%Z.

(** The textbook definition: every second digit is doubled, and nine is
    subtracted from a double above nine. *)
Definition weight (double : bool) (d : Z) : Z :=
  if double then (if (9 <? 2 * d)%Z then 2 * d - 9 else 2 * d)%Z else d.

Fixpoint weighted_sum (double : bool) (reversed : list Z) : Z :=
  match reversed with
  | [] => 0%Z
  | d :: rest => (weight double d + weighted_sum (negb double) rest)%Z
  end.

Definition luhn_valid (number : list Z) : bool := (weighted_sum false (reverse number) `mod` 10 =? 0)%Z.

(** A statement on the ten digits is checked by evaluation. *)
Lemma digit_cases (P : Z → Prop) :
  P 0%Z → P 1%Z → P 2%Z → P 3%Z → P 4%Z → P 5%Z → P 6%Z → P 7%Z → P 8%Z → P 9%Z → ∀ d, is_digit d → P d.
Proof.
  intros. unfold is_digit in *.
  assert (d = 0 ∨ d = 1 ∨ d = 2 ∨ d = 3 ∨ d = 4 ∨ d = 5 ∨ d = 6 ∨ d = 7 ∨ d = 8 ∨ d = 9)%Z as Hd by lia.
  repeat destruct Hd as [->|Hd]; try done. by rewrite Hd.
Qed.

Ltac by_digits d Hd := revert d Hd; apply digit_cases; vm_compute; try reflexivity.

Lemma weight_range double d : is_digit d → (0 ≤ weight double d ≤ 9)%Z.
Proof. intros Hd. destruct double; [|exact Hd]. by_digits d Hd; split; discriminate. Qed.

Lemma weighted_sum_range double l :
  Forall is_digit l → (0 ≤ weighted_sum double l ≤ 9 * Z.of_nat (length l))%Z.
Proof.
  intros Hl. revert double. induction Hl as [|d l Hd _ IH]; intros double; cbn [weighted_sum length]; [lia|].
  pose proof (weight_range double d Hd). specialize (IH (negb double)). lia.
Qed.

Lemma luhn_parity idx :
  ((Z.of_nat idx `mod` 256) `mod` 2 = if Nat.odd idx then 1 else 0)%Z ∧
  ((Z.of_nat (idx + 1) `mod` 256) `mod` 2 = if Nat.odd idx then 0 else 1)%Z.
Proof.
  assert (∀ z, (z `mod` 256) `mod` 2 = z `mod` 2)%Z as Hmod.
  { intros z. symmetry. apply (Znumtheory.Zmod_div_mod 2 256 z); [lia..|]. by exists 128%Z. }
  rewrite !Hmod. destruct (Nat.odd idx) eqn:Hodd.
  - apply Nat.odd_spec in Hodd as [k ->]. split; symmetry;
      [apply (Z.mod_unique _ _ (Z.of_nat k))|apply (Z.mod_unique _ _ (Z.of_nat k + 1))]; lia.
  - assert (Nat.even idx = true) as Heven by by rewrite <- Nat.negb_odd, Hodd.
    apply Nat.even_spec in Heven as [k ->].
    split; symmetry; apply (Z.mod_unique _ _ (Z.of_nat k)); lia.
Qed.

Lemma luhn_term_weight idx d : is_digit d → luhn_term idx d = Some (weight (Nat.odd idx) d).
Proof.
  intros Hd. unfold luhn_term. destruct (luhn_parity idx) as [-> ->].
  destruct (Nat.odd idx); by_digits d Hd.
Qed.

Lemma luhn_sum_weighted l : ∀ idx acc,
  Forall is_digit l → (0 ≤ acc)%Z → (acc + 9 * Z.of_nat (length l) < 256)%Z →
  luhn_sum idx l acc = Some (acc + weighted_sum (Nat.odd idx) l)%Z.
Proof.
  induction l as [|d l IH]; intros idx acc Hl Hacc Hmax; cbn [luhn_sum weighted_sum length] in *; [f_equal; lia|].
  apply Forall_cons in Hl as [Hd Hl]. rewrite luhn_term_weight by done. cbn [mbind option_bind].
  pose proof (weight_range (Nat.odd idx) d Hd). unfold u8.
  assert ((0 <=? acc + weight (Nat.odd idx) d) && (acc + weight (Nat.odd idx) d <? 256) = true)%Z as ->.
  { apply andb_true_iff. rewrite Z.leb_le, Z.ltb_lt. lia. }
  cbn [mbind option_bind]. rewrite IH by (done || lia). rewrite Nat.odd_succ, <- Nat.negb_odd. f_equal. lia.
Qed.

Lemma luhn_is_valid number :
  Forall is_digit number → length number ≤ 28 → luhn number = Some (luhn_valid number).
Proof.
  intros Hd Hlen. unfold luhn. rewrite luhn_sum_weighted.
  - done.
  - by apply Forall_reverse.
  - lia.
  - rewrite length_reverse. lia.
Qed.

(** [C34] The checksum of a number of at most 28 digits, which covers every
    length that is accepted, is computed without overflow of the [u8] sum and
    is the textbook checksum. *)
Theorem luhn_exact number :
  Forall is_digit number → length number ≤ 28 → luhn number = Some (luhn_valid number).
Proof. apply luhn_is_valid. Qed.

(** *** Errors that are detected *)

Lemma weighted_sum_app double l k :
  weighted_sum double (l ++ k) =
    (weighted_sum double l + weighted_sum (xorb double (Nat.odd (length l))) k)%Z.
Proof.
  revert double. induction l as [|d l IH]; intros double; cbn [app weighted_sum length].
  - by rewrite xorb_false_r.
  - rewrite IH, Nat.odd_succ, <- Nat.negb_odd.
    replace (xorb (negb double) (Nat.odd (length l))) with (xorb double (negb (Nat.odd (length l))))
      by by destruct double, (Nat.odd (length l)). lia.
Qed.

(** The contribution of a digit in the middle of a number. *)
Lemma weighted_sum_middle (l1 d l2 : list Z) : ∃ before after double,
  ∀ d', length d = length d' →
    weighted_sum false (reverse (l1 ++ d' ++ l2)) =
      (before + weighted_sum double (reverse d') + after)%Z.
Proof.
  eexists (weighted_sum false (reverse l2)), _, (Nat.odd (length l2)). intros d' Hlen.
  rewrite app_assoc, reverse_app, weighted_sum_app, reverse_app, weighted_sum_app, !length_reverse, <- Hlen.
  by rewrite xorb_false_l, Z.add_assoc.
Qed.

(** Two sums that differ in the digit [d]. *)
Lemma middle_congruent x y v w :
  ((x + v + y) `mod` 10 = 0)%Z →
  ((x + w + y) `mod` 10 =? 0)%Z = ((w - v) `mod` 10 =? 0)%Z.
Proof.
  intros Hv. replace (x + w + y)%Z with ((x + v + y) + (w - v))%Z by lia.
  rewrite Z.add_mod, Hv, Z.add_0_l, Z.mod_mod by lia. done.
Qed.

Lemma single_error x y double a b :
  is_digit a → is_digit b → ((x + weighted_sum double (reverse [a]) + y) `mod` 10 = 0)%Z →
  ((x + weighted_sum double (reverse [b]) + y) `mod` 10 =? 0)%Z = bool_decide (a = b).
Proof.
  intros Ha Hb Hv. rewrite (middle_congruent _ _ _ _ Hv). cbn [reverse rev_append weighted_sum].
  clear Hv. destruct double; revert a Ha; apply digit_cases; by_digits b Hb.
Qed.

Lemma transposition x y double a b :
  is_digit a → is_digit b → ((x + weighted_sum double (reverse [a; b]) + y) `mod` 10 = 0)%Z →
  ((x + weighted_sum double (reverse [b; a]) + y) `mod` 10 =? 0)%Z =
    bool_decide (a = b ∨ (a = 0 ∧ b = 9) ∨ (a = 9 ∧ b = 0))%Z.
Proof.
  intros Ha Hb Hv. rewrite (middle_congruent _ _ _ _ Hv). cbn [reverse rev_append weighted_sum].
  clear Hv. destruct double; revert a Ha; apply digit_cases; by_digits b Hb.
Qed.

(** The checksum detects errors of typing: a valid number is no longer
    valid when one digit is replaced by another, and when two different adjacent
    digits are exchanged, except a zero and a nine. *)
Theorem luhn_detects_errors l1 a b l2 :
  Forall is_digit l1 → Forall is_digit l2 → is_digit a → is_digit b → length l1 + length l2 ≤ 26 →
  (luhn (l1 ++ [a] ++ l2) = Some true → luhn (l1 ++ [b] ++ l2) = Some (bool_decide (a = b))) ∧
  (luhn (l1 ++ [a; b] ++ l2) = Some true →
   luhn (l1 ++ [b; a] ++ l2) = Some (bool_decide (a = b ∨ (a = 0 ∧ b = 9) ∨ (a = 9 ∧ b = 0))%Z)).
Proof.
  intros H1 H2 Ha Hb Hlen.
  assert (∀ d, Forall is_digit d → length d ≤ 2 → luhn (l1 ++ d ++ l2) = Some (luhn_valid (l1 ++ d ++ l2))) as Hluhn.
  { intros d Hd Hl. apply luhn_is_valid; [by rewrite !Forall_app|rewrite !length_app; lia]. }
  rewrite !Hluhn by (auto using Forall_cons_2, Forall_nil_2 || (simpl; lia)). unfold luhn_valid.
  destruct (weighted_sum_middle l1 [a] l2) as (x & y & double & Hone).
  destruct (weighted_sum_middle l1 [a; b] l2) as (x' & y' & double' & Htwo).
  rewrite !Hone, !Htwo by done. split; intros [= Hv%Z.eqb_eq]; f_equal.
  - by apply (single_error x y double).
  - by apply (transposition x' y' double').
Qed.

(** ** Accepted card numbers *)

Definition digit_char (c : Z) : bool := ((48 <=? c) && (c <=? 57))%Z.
Definition digit_value (c : Z) : Z := (c - 48)%Z.

Lemma validate_chars_spec s :
  validate_card_number_chars s =
    if all digit_char s then Ok (digit_value <$> s) else Err InvalidCharacter.
Proof.
  unfold validate_card_number_chars, all. induction s as [|c s IH]; [done|].
  cbn [try_collect forallb]. rewrite IH.
  change (to_digit c) with (if digit_char c then Some (digit_value c) else None).
  destruct (digit_char c); [|done]. by destruct (forallb digit_char s).
Qed.

Lemma digit_values s : all digit_char s = true → Forall is_digit (digit_value <$> s).
Proof.
  rewrite all_true. intros Hall. apply Forall_fmap, Forall_forall. intros c Hc.
  specialize (Hall c Hc). unfold digit_char in Hall. apply andb_true_iff in Hall as [H1 H2].
  unfold compose, is_digit, digit_value. lia.
Qed.

(** The verdict on a string of digits without white space. *)
Definition verdict (refused : CardNumberValidationErr) (env : Env) (n : list Z) :
    result CardNumberValidationErr (list Z) :=
  if negb (all digit_char n) then Err InvalidCharacter
  else if negb (bool_decide (8 ≤ length n ≤ 19)) then Err InvalidLength
  else if luhn_valid (digit_value <$> n) || bool_decide (env ≠ Production ∧ n ∈ valid_test_cards)
  then Ok n else Err refused.

Lemma sanitize_spec n :
  sanitize_card_number n = Some
    (if negb (all digit_char n) then Err InvalidCharacter
     else if negb (bool_decide (8 ≤ length n ≤ 19)) then Err InvalidLength
     else Ok (luhn_valid (digit_value <$> n))).
Proof.
  unfold sanitize_card_number. rewrite validate_chars_spec.
  destruct (all digit_char n) eqn:Hall; [|done]. cbn [negb mbind result_bind].
  unfold validate_card_number_length, MIN_CARD_NUMBER_LENGTH, MAX_CARD_NUMBER_LENGTH. rewrite length_fmap.
  case_decide as Hlen; [|by rewrite bool_decide_false].
  rewrite bool_decide_true by done. cbn [negb]. rewrite luhn_is_valid; [done|by apply digit_values|].
  rewrite length_fmap. lia.
Qed.

Lemma test_cards_spec env n :
  bool_decide (n ∈ test_cards_of env) = bool_decide (env ≠ Production ∧ n ∈ valid_test_cards).
Proof. apply bool_decide_ext. destruct env; simpl; set_solver. Qed.

Lemma from_str_both env s :
  CardNumber.from_str env s = Some (verdict CardNumberInvalid env (split_whitespace_collect s)) ∧
  NetworkToken.from_str env s = Some (verdict NetworkTokenInvalid env (split_whitespace_collect s)).
Proof.
  unfold CardNumber.from_str, NetworkToken.from_str, verdict. rewrite sanitize_spec, test_cards_spec.
  cbn [mbind option_bind]. destruct (negb (all _ _)); [done|]. destruct (negb (bool_decide _)); [done|].
  cbn. split; rewrite orb_comm; by destruct (_ || _).
Qed.

Lemma strip_idempotent s :
  split_whitespace_collect (split_whitespace_collect s) = split_whitespace_collect s.
Proof.
  unfold split_whitespace_collect. induction s as [|c s IH]; [done|]. cbn [List.filter].
  destruct (negb (is_whitespace c)) eqn:Hc; [|done]. cbn [List.filter]. by rewrite Hc, IH.
Qed.

(** Parsing a card number or a network token never panics and gives one
    verdict: after white space is dropped, a character that is not an ASCII
    digit is refused first, then a length outside 8 to 19, and then a number
    that fails the checksum and is not, outside production, a test card.  What is
    accepted is accepted again as it is. *)
Theorem from_str_verdict env s :
  CardNumber.from_str env s = Some (verdict CardNumberInvalid env (split_whitespace_collect s)) ∧
  NetworkToken.from_str env s = Some (verdict NetworkTokenInvalid env (split_whitespace_collect s)) ∧
  CardNumber.from_str env (split_whitespace_collect s) = CardNumber.from_str env s.
Proof.
  destruct (from_str_both env s) as [-> ->].
  by rewrite (proj1 (from_str_both env (split_whitespace_collect s))), strip_idempotent.
Qed.

(** ** Masking *)

Lemma verdict_ok refused env s n :
  verdict refused env s = Ok n → n = s ∧ all digit_char n = true ∧ 8 ≤ length n ≤ 19.
Proof.
  unfold verdict. destruct (all digit_char s) eqn:Hall; [|done]. cbn [negb].
  case_bool_decide as Hlen; [|done]. cbn [negb]. destruct (luhn_valid _ || _); [|done]. by intros [= <-].
Qed.

Lemma digit_char_len c : digit_char c = true → len_utf8 c = 1.
Proof.
  unfold digit_char, len_utf8. intros [H1 H2]%andb_true_iff. destruct (Z.ltb_spec c 128); [done|lia].
Qed.

Lemma len_digits n : all digit_char n = true → len n = length n.
Proof.
  unfold all. induction n as [|c n IH]; [done|]. cbn [forallb]. intros [Hc Hn]%andb_true_iff.
  cbn [len foldr length]. unfold len in IH. rewrite IH, digit_char_len by done. lia.
Qed.

Lemma get_prefix_digits k n : all digit_char n = true → k ≤ length n → get_prefix k n = Some (take k n).
Proof.
  unfold all. revert n. induction k as [|k IH]; intros n Hn Hk; [by destruct n|].
  destruct n as [|c n]; cbn [length] in Hk; [lia|]. cbn [forallb] in Hn. apply andb_true_iff in Hn as [Hc Hn].
  cbn [get_prefix]. rewrite (digit_char_len c Hc). rewrite decide_True by lia.
  replace (S k - 1) with k by lia. rewrite IH by (done || lia). done.
Qed.

Section masking.
Variable with_type_fmt : list Z → list Z.
(** [WithType] prints the name of the type, not the value. *)
Hypothesis with_type_hides : ∀ v w, with_type_fmt v = with_type_fmt w.

(** [C35] The masked form of an accepted card number shows at most its first
    six digits and, from fifteen digits on, its length: numbers that agree on
    these are printed alike, and no later digit is printed. *)
Theorem masking_hides_digits env s s' n n' :
  CardNumber.from_str env s = Some (Ok n) → CardNumber.from_str env s' = Some (Ok n') →
  length n = length n' → get_card_isin n = get_card_isin n' →
  strategy_fmt with_type_fmt n = strategy_fmt with_type_fmt n' ∧
  (15 ≤ length n → strategy_fmt with_type_fmt n = get_card_isin n ++ replicate (length n - 6) 42%Z).
Proof.
  assert (∀ s n, CardNumber.from_str env s = Some (Ok n) → all digit_char n = true ∧ 8 ≤ length n ≤ 19) as Hok.
  { intros t m. rewrite (proj1 (from_str_both env t)). intros [= Hm]. by apply verdict_ok in Hm as [_ ?]. }
  assert (∀ s n, CardNumber.from_str env s = Some (Ok n) →
    strategy_fmt with_type_fmt n = if decide (length n < 15) then with_type_fmt n
      else get_card_isin n ++ replicate (length n - 6) 42%Z) as Hfmt.
  { intros t m (Hm & Hlen)%Hok. unfold strategy_fmt. rewrite (len_digits m Hm).
    case_decide as H1; case_decide as H2; try (exfalso; lia); [done|].
    by rewrite get_prefix_digits by (done || lia). }
  intros Hn Hn' Hlen Hisin. rewrite (Hfmt _ _ Hn), (Hfmt _ _ Hn'), <- Hlen, <- Hisin. split.
  - case_decide; [apply with_type_hides|done].
  - intros H15. rewrite decide_False by lia. done.
Qed.

End masking.

(** ** Co-badged cards *)

(** With patterns that compile, a card is co-badged exactly when two of them
    match, so that the order of the map does not matter. *)
Lemma count_networks_spec is_match regexes number : ∀ n,
  (∀ r, r ∈ regexes → is_Some (is_match r)) →
  ∃ k, count_networks is_match regexes number n = Ok k ∧
    (n ≤ 1 → (1 < k ↔ 1 < n + length (List.filter (λ r, default false ((.$ number) <$> is_match r)) regexes))).
Proof.
  induction regexes as [|r regexes IH]; intros n Hsome; cbn [count_networks].
  { exists n. split; [done|]. simpl. lia. }
  destruct (Hsome r) as [f Hf]; [set_solver|]. rewrite Hf. cbn [List.filter]. rewrite Hf. simpl.
  destruct (f number); [|apply IH; set_solver]. case_decide as Hn.
  - exists (S n). split; [done|]. simpl. lia.
  - destruct (IH (S n)) as (k & -> & Hk); [set_solver|]. exists k. split; [done|].
    intros _. rewrite Hk by lia. simpl. lia.
Qed.

Lemma is_cobadged_card_exact is_match values number :
  (∀ r, r ∈ values → is_Some (is_match r)) →
  is_cobadged_card is_match values number =
    Ok (bool_decide (1 < length (List.filter (λ r, default false ((.$ number) <$> is_match r)) values))).
Proof.
  intros Hsome. unfold is_cobadged_card, get_card_no.
  destruct (count_networks_spec is_match values number 0 Hsome) as (k & -> & Hk). simpl.
  f_equal. apply bool_decide_ext. apply Hk. lia.
Qed.

(** ** Expiry *)

Definition next_month (y m : Z) : Z * Z := if (m =? 12)%Z then ((y + 1)%Z, 1%Z) else (y, (m + 1)%Z).

(** What the code relies on of the calendar: the last day of a month that has
    a day in the calendar is the day before the first of the next month, and no
    date is later than the last instant. *)
Class CalendarLaws `{Calendar} : Prop := {
  month_end y m first :
    (1 ≤ m ≤ 12)%Z → day_number (next_month y m).1 (next_month y m).2 1 = Some first →
    day_number y m 1 ≠ None → day_number y m (month_length y m) = Some (first - 1)%Z;
  last_instant_late y m d k :
    day_number y m d = Some k → (k * nanoseconds_per_day ≤ last_instant)%Z;
}.

(** A card is expired from the first instant after its month, in UTC:
    the day that is added to midnight of the last day of the month only makes up
    for that day, and leaves nothing for time zones behind UTC. *)
Theorem is_expired_from_next_month `{CalendarLaws} now e first :
  (1 ≤ exp_month e ≤ 12)%Z → day_number (exp_year e) (exp_month e) 1 ≠ None →
  day_number (next_month (exp_year e) (exp_month e)).1 (next_month (exp_year e) (exp_month e)).2 1 = Some first →
  is_expired now e = Ok (first * nanoseconds_per_day <? now)%Z.
Proof.
  intros Hm Hsome Hfirst. pose proof (last_instant_late _ _ _ _ Hfirst) as Hlast. unfold is_expired.
  rewrite (proj2 (Z.leb_le _ _) (proj1 Hm)), (proj2 (Z.leb_le _ _) (proj2 Hm)). cbn [andb].
  rewrite (month_end _ _ _ Hm Hfirst Hsome). cbn [ok_or mbind result_bind].
  replace ((first - 1) * nanoseconds_per_day + nanoseconds_per_day)%Z
    with (first * nanoseconds_per_day)%Z by lia.
  by rewrite Z.min_l.
Qed.

(** The month is always printed with two digits; the year only when it does not
    end in a zero and a digit. *)
Lemma month_two_digits_length m : (1 ≤ m ≤ 12)%Z → String.length (month_two_digits m) = 2.
Proof.
  intros Hm. assert (∃ k, (m = 1 + Z.of_nat k)%Z ∧ k < 12) as (k & -> & Hk) by (exists (Z.to_nat (m - 1)); lia).
  do 12 (destruct k as [|k]; [vm_compute; reflexivity|]). lia.
Qed.

(** ** Examples *)

Module CardExample.

Definition visa : list Z := chars "4111 1111 1111 1111".
Definition other_visa : list Z := chars "4111111111111129".

Definition digits_of (s : string) : list Z := digit_value <$> chars s.

Lemma luhn_exact_witness : luhn (digits_of "4111111111111111") = Some true.
Proof.
  rewrite (luhn_exact (digits_of "4111111111111111")).
  - vm_compute. reflexivity.
  - vm_compute. repeat constructor; discriminate.
  - vm_compute. lia.
Defined.

Lemma luhn_detects_errors_witness :
  luhn (digits_of "4111111111111112") = Some false ∧
  luhn (digits_of "1411111111111111") = Some false.
Proof.
  assert (is_digit 4 ∧ is_digit 1 ∧ is_digit 2) as (H4 & H1 & H2)
    by (split_and!; vm_compute; split; discriminate).
  split.
  - apply (luhn_detects_errors (digits_of "411111111111111") 1 2 []); [..|vm_compute; reflexivity];
      [vm_compute; repeat constructor; discriminate|constructor|exact H1|exact H2|vm_compute; lia].
  - apply (luhn_detects_errors [] 4 1 (digits_of "11111111111111")); [..|vm_compute; reflexivity];
      [constructor|vm_compute; repeat constructor; discriminate|exact H4|exact H1|vm_compute; lia].
Defined.

(** The name of the type. *)
Definition type_name (_ : list Z) : list Z := chars "*** alloc::string::String ***".

Lemma masking_hides_digits_witness :
  strategy_fmt type_name (chars "4111111111111111") = strategy_fmt type_name (chars "4111110000000112") ∧
  strategy_fmt type_name (chars "4111111111111111") = chars "411111**********".
Proof.
  destruct (masking_hides_digits type_name (λ _ _, eq_refl) Production visa (chars "4111 1100 0000 0112")
    (chars "4111111111111111") (chars "4111110000000112")) as [H1 H2]; [vm_compute; reflexivity..|].
  split; [exact H1|]. rewrite H2; vm_compute; [reflexivity|lia].
Defined.

(** The Gregorian calendar from the year 0 to the year 9999. *)
Definition leap (y : Z) : bool := ((y `mod` 4 =? 0) && negb (y `mod` 100 =? 0) || (y `mod` 400 =? 0))%Z.

Definition days_in_month (y m : Z) : Z :=
  if (m =? 2)%Z then if leap y then 29 else 28
  else if (m =? 4)%Z || (m =? 6)%Z || (m =? 9)%Z || (m =? 11)%Z then 30 else 31.

Definition days_before_month (y m : Z) : Z :=
  foldr (λ k acc, (days_in_month y (Z.of_nat k) + acc)%Z) 0%Z (seq 1 (Z.to_nat m - 1)).

Definition days_before_year (y : Z) : Z := (365 * y + (y + 3) / 4 - (y + 99) / 100 + (y + 399) / 400)%Z.

#[export] Instance gregorian : Calendar := {|
  month_length := days_in_month;
  day_number y m d :=
    if ((0 <=? y) && (y <=? 9999) && (1 <=? m) && (m <=? 12) && (1 <=? d) && (d <=? days_in_month y m))%Z
    then Some (days_before_year y + days_before_month y m + d - 1)%Z else None;
  last_instant := (days_before_year 10000 * nanoseconds_per_day - 1)%Z;
|}.

Lemma leap_year_days y : days_before_year (y + 1) = (days_before_year y + if leap y then 366 else 365)%Z.
Proof.
  unfold days_before_year, leap.
  destruct (Z.eqb_spec (y `mod` 4) 0), (Z.eqb_spec (y `mod` 100) 0), (Z.eqb_spec (y `mod` 400) 0);
    cbn [negb andb orb]; Z.div_mod_to_equations; lia.
Qed.

Lemma month_cases (P : Z → Prop) : Forall P (Z.of_nat <$> seq 1 12) → ∀ m, (1 ≤ m ≤ 12)%Z → P m.
Proof.
  intros HP m Hm. apply (proj1 (Forall_forall _ _) HP). apply list_elem_of_fmap.
  exists (Z.to_nat m). split; [lia|]. apply elem_of_seq. lia.
Qed.

Lemma month_days y m :
  (1 ≤ m ≤ 12)%Z →
  (28 ≤ days_in_month y m)%Z ∧
  (days_before_month y m + days_in_month y m =
    if m =? 12 then if leap y then 366 else 365 else days_before_month y (m + 1))%Z ∧
  (0 ≤ days_before_month y m ∧ days_before_month y m + days_in_month y m ≤ if leap y then 366 else 365)%Z.
Proof.
  revert m. apply month_cases. unfold days_before_month, days_in_month. destruct (leap y).
  all: repeat constructor; vm_compute; (reflexivity || discriminate).
Qed.

#[export] Instance gregorian_laws : CalendarLaws.
Proof.
  split.
  - intros y m first Hm. unfold next_month. cbn [day_number month_length gregorian].
    destruct (month_days y m Hm) as (Hlen & Hnext & _). pose proof (leap_year_days y) as Hyear.
    repeat case_match; try done; intros [= <-] _; rewrite ?andb_true_iff, ?andb_false_iff, ?Z.leb_le, ?Z.leb_gt in *.
    all: try (f_equal; cbn [fst snd] in *; try change (days_before_month (y + 1) 1) with 0%Z; lia).
    all: lia.
  - intros y m d k. cbn [day_number gregorian last_instant]. case_match; [|done]. intros [= <-].
    rewrite !andb_true_iff, !Z.leb_le in *. destruct (month_days y m) as (_ & _ & H0 & H1); [lia|].
    pose proof (leap_year_days y) as Hyear.
    assert (days_before_year (y + 1) ≤ days_before_year 10000)%Z.
    { unfold days_before_year. Z.div_mod_to_equations. lia. }
    assert (days_before_year y + days_before_month y m + d ≤ days_before_year 10000)%Z as Hk by lia.
    apply (Z.mul_le_mono_nonneg_r _ _ nanoseconds_per_day) in Hk; unfold nanoseconds_per_day in *; lia.
Qed.

Definition day (y m d : Z) : Z := default 0%Z (day_number y m d).

(** A card that expires in January 2030 is refused from the first of February,
    00:00 UTC on, where it is still January in time zones behind UTC. *)
Lemma is_expired_from_next_month_witness :
  let first := (day 2030 2 1 * nanoseconds_per_day)%Z in
  is_expired first (mkCardExpiration 1 2030) = Ok false ∧
  is_expired (first + 1) (mkCardExpiration 1 2030) = Ok true.
Proof.
  cbv zeta. split.
  - rewrite (is_expired_from_next_month (day 2030 2 1 * nanoseconds_per_day) (mkCardExpiration 1 2030) (day 2030 2 1));
      [f_equal; apply Z.ltb_irrefl|vm_compute; split; discriminate|vm_compute; discriminate|vm_compute; reflexivity].
  - rewrite (is_expired_from_next_month (day 2030 2 1 * nanoseconds_per_day + 1) (mkCardExpiration 1 2030) (day 2030 2 1));
      [f_equal; apply Z.ltb_lt; lia|vm_compute; split; discriminate|vm_compute; discriminate|vm_compute; reflexivity].
Defined.


(** The year 2105 is printed with one digit. *)
Lemma year_2105 : (year_two_digits <$> card_expiration_year 2026 2105) = Ok "5"%string.
Proof. vm_compute. reflexivity. Qed.

End CardExample.
