(* ===== verification/Scheduler.v ===== *)
(** * The scheduler

    Tasks of the process tracker ([crates/diesel_models/src/process_tracker.rs],
    [crates/scheduler/src/db/process_tracker.rs]), the retry schedules
    ([crates/scheduler/src/utils.rs], [consumer/types/process_data.rs]), and the
    producer and consumer that move tasks through a Redis stream
    ([producer.rs], [consumer.rs]).

    The database table is a list of tasks and the stream a list of batches;
    whether an entry can be appended to the stream is an argument, and the
    database does not fail.  An instant is a number of nanoseconds; the range of
    the instants of the time crate is a parameter.  [i32] arithmetic wraps
    around, and the tracking data of a task is the value that was encoded in it. *)

From S2P Require Import Prelude PaymentEnums.

Inductive ProcessTrackerStatus : Set :=
  | ProcessTrackerStatus_Processing | ProcessTrackerStatus_New | ProcessTrackerStatus_Pending
  | ProcessTrackerStatus_ProcessStarted | ProcessTrackerStatus_Finish
  | ProcessTrackerStatus_Review.

#[export] Program Instance ProcessTrackerStatus_enumerated : Enumerated ProcessTrackerStatus := {|
  variants := [
    ProcessTrackerStatus_Processing; ProcessTrackerStatus_New; ProcessTrackerStatus_Pending;
    ProcessTrackerStatus_ProcessStarted; ProcessTrackerStatus_Finish;
    ProcessTrackerStatus_Review];
  discriminant x := match x with
    | ProcessTrackerStatus_Processing => 0 | ProcessTrackerStatus_New => 1
    | ProcessTrackerStatus_Pending => 2 | ProcessTrackerStatus_ProcessStarted => 3
    | ProcessTrackerStatus_Finish => 4 | ProcessTrackerStatus_Review => 5
    end;
|}.
Next Obligation. by intros []. Qed.

#[export] Instance ProcessTrackerStatus_strum : EnumString ProcessTrackerStatus := one_name (λ x, match x with
    | ProcessTrackerStatus_Processing => "processing" | ProcessTrackerStatus_New => "new"
    | ProcessTrackerStatus_Pending => "pending"
    | ProcessTrackerStatus_ProcessStarted => "process_started"
    | ProcessTrackerStatus_Finish => "finish" | ProcessTrackerStatus_Review => "review"
    end).

(** ** Tasks *)

(** [business_status]. *)
Definition COMPLETED_BY_PT : string := "COMPLETED_BY_PT".
Definition RETRIES_EXCEEDED : string := "RETRIES_EXCEEDED".
Definition GLOBAL_FAILURE : string := "GLOBAL_FAILURE".
Definition GLOBAL_ERROR : string := "GLOBAL_ERROR".
Definition PENDING : string := "Pending".

Inductive ApplicationSource := Main | Cug.

#[export] Instance ApplicationSource_eq_dec : EqDecision ApplicationSource.
Proof. solve_decision. Defined.

Record ProcessTracker (T : Type) := mkProcessTracker {
  pt_id : string;
  pt_name : option string;
  retry_count : Z;
  schedule_time : option Z;
  tracking_data : T;
  business_status : string;
  pt_status : ProcessTrackerStatus;
  pt_updated_at : Z;
  application_source : option ApplicationSource;
}.
Arguments mkProcessTracker {T}.
Arguments pt_id {T}.
Arguments pt_name {T}.
Arguments retry_count {T}.
Arguments schedule_time {T}.
Arguments tracking_data {T}.
Arguments business_status {T}.
Arguments pt_status {T}.
Arguments pt_updated_at {T}.
Arguments application_source {T}.

Section tracker.
Context {T : Type}.
Implicit Types p : ProcessTracker T.

Definition is_valid_business_status p (valid_statuses : list string) : bool :=
  any (λ x, bool_decide (x = business_status p)) valid_statuses.

(** [ProcessTrackerNew::new]. *)
Definition new_process (now : Z) (id task : string) (data : T) (retries : option Z) (at_ : Z)
    (source : ApplicationSource) : ProcessTracker T :=
  mkProcessTracker id (Some task) (default 0%Z retries) (Some at_) data PENDING ProcessTrackerStatus_New now
    (Some source).

Inductive ProcessTrackerUpdate :=
| PtUpdate (name : option string) (retries : option Z) (at_ : option Z) (data : option T)
    (business : option string) (status : option ProcessTrackerStatus) (updated_at : option Z)
| PtStatusUpdate (status : ProcessTrackerStatus) (business : option string)
| PtStatusRetryUpdate (status : ProcessTrackerStatus) (retries at_ : Z).

Record ProcessTrackerUpdateInternal := mkPtInternal {
  pu_name : option string;
  pu_retry_count : option Z;
  pu_schedule_time : option Z;
  pu_tracking_data : option T;
  pu_business_status : option string;
  pu_status : option ProcessTrackerStatus;
  pu_updated_at : option Z;
}.

Definition pt_update_internal (now : Z) (u : ProcessTrackerUpdate) : ProcessTrackerUpdateInternal :=
  match u with
  | PtUpdate name retries at_ data business st updated_at =>
      mkPtInternal name retries at_ data business st updated_at
  | PtStatusUpdate st business => mkPtInternal None None None None business (Some st) (Some now)
  | PtStatusRetryUpdate st retries at_ =>
      mkPtInternal None (Some retries) (Some at_) None None (Some st) (Some now)
  end.

(** The columns that are [Some] are written. *)
Definition pt_apply (u : ProcessTrackerUpdateInternal) p : ProcessTracker T :=
  mkProcessTracker (pt_id p)
    (match pu_name u with Some n => Some n | None => pt_name p end)
    (default (retry_count p) (pu_retry_count u))
    (match pu_schedule_time u with Some t => Some t | None => schedule_time p end)
    (default (tracking_data p) (pu_tracking_data u)) (default (business_status p) (pu_business_status u))
    (default (pt_status p) (pu_status u)) (default (pt_updated_at p) (pu_updated_at u))
    (application_source p).

Inductive StorageError := DuplicateValue | ValueNotFound.

Abbreviation table := (list (ProcessTracker T)) (only parsing).

(** [insert_process]: the id is the primary key. *)
Definition insert_process p : sr table StorageError (ProcessTracker T) := λ tasks,
  if decide (pt_id p ∈ pt_id <$> tasks) then (Err DuplicateValue, tasks) else (Ok p, tasks ++ [p]).

Definition find_process_by_id (id : string) (tasks : table) : option (ProcessTracker T) :=
  List.find (λ p, bool_decide (pt_id p = id)) tasks.

(** [update_process]: the row with the id of [p]. *)
Definition update_process (now : Z) p (u : ProcessTrackerUpdate) : sr table StorageError (ProcessTracker T) :=
  λ tasks,
  match find_process_by_id (pt_id p) tasks with
  | None => (Err ValueNotFound, tasks)
  | Some row =>
      let row' := pt_apply (pt_update_internal now u) row in
      (Ok row', (λ q, if decide (pt_id q = pt_id p) then row' else q) <$> tasks)
  end.

(** [update_process_status_by_ids]; the count of the rows is not used. *)
Definition update_process_status_by_ids (now : Z) (ids : list string) (u : ProcessTrackerUpdate) (tasks : table) :
    table :=
  (λ q, if decide (pt_id q ∈ ids) then pt_apply (pt_update_internal now u) q else q) <$> tasks.

(** *** [ProcessTrackerInterface for Store] *)

Definition reset_process (now : Z) p (at_ : Z) : sr table StorageError unit :=
  (_ <- update_process now p (PtStatusRetryUpdate ProcessTrackerStatus_New 0 at_) ;; sr_ret tt)%sr.

Definition retry_process (now : Z) p (at_ : Z) : sr table StorageError unit :=
  (_ <- update_process now p (PtStatusRetryUpdate ProcessTrackerStatus_Pending (wrap_i32 (retry_count p + 1)) at_) ;;
   sr_ret tt)%sr.

Definition finish_process_with_business_status (now : Z) p (business : string) : sr table StorageError unit :=
  (_ <- update_process now p (PtStatusUpdate ProcessTrackerStatus_Finish (Some business)) ;; sr_ret tt)%sr.

(** [consumer_error_handler], the error handler of most workflows. *)
Definition consumer_error_handler (now : Z) p (tasks : table) : table :=
  update_process_status_by_ids now [pt_id p] (PtStatusUpdate ProcessTrackerStatus_Finish (Some GLOBAL_ERROR)) tasks.

(** [schedule_time.between(lower, upper).and(status.eq(status))]; a null time
    is not between. *)
Definition find_processes_by_time_status (lower upper : Z) (st : ProcessTrackerStatus) (tasks : table) : table :=
  List.filter (λ p, match schedule_time p with
                    | Some t => (lower <=? t)%Z && (t <=? upper)%Z && bool_decide (pt_status p = st)
                    | None => false
                    end) tasks.

(** [reinitialize_limbo_processes]. *)
Definition reinitialize_limbo_processes (ids : list string) (at_ : Z) (tasks : table) : table :=
  (λ q, if decide (pt_status q = ProcessTrackerStatus_ProcessStarted ∧ pt_id q ∈ ids)
        then mkProcessTracker (pt_id q) (pt_name q) (retry_count q) (Some at_) (tracking_data q)
               (business_status q) ProcessTrackerStatus_Processing (pt_updated_at q) (application_source q)
        else q) <$> tasks.

End tracker.

Arguments ProcessTrackerUpdate : clear implicits.
Arguments ProcessTrackerUpdateInternal : clear implicits.

(** ** Retry schedules *)

Record RetryMapping := mkRetryMapping {
  start_after : Z;
  frequencies : list (Z * Z);
}.

Record ConnectorPTMapping := mkConnectorPTMapping {
  default_mapping : RetryMapping;
  max_retries_count : Z;
}.

Definition retry_mapping_default : RetryMapping := mkRetryMapping 60 [(300, 5)]%Z.

Definition connector_mapping_default : ConnectorPTMapping := mkConnectorPTMapping retry_mapping_default 5.

(** [ConnectorPTMapping::refund_default]. *)
Definition refund_default : ConnectorPTMapping :=
  mkConnectorPTMapping
    (mkRetryMapping 60 [(1800, 4); (7200, 2); (21600, 3); (43200, 4); (86400, 4)]%Z) 17.

(** [OutgoingWebhookRetryProcessTrackerMapping::default]. *)
Definition outgoing_webhook_default : RetryMapping :=
  mkRetryMapping 60 [(60 * 5, 2); (60 * 10, 5); (60 * 60, 5); (60 * 60 * 6, 3)]%Z.

(** [RevenueRecoveryPaymentProcessTrackerMapping::default]. *)
Definition revenue_recovery_default : RetryMapping :=
  mkRetryMapping 60
    [(60 * 60 * 3, 2); (60 * 60 * 6, 3); (60 * 60 * 9, 3); (60 * 60 * 12, 3); (60 * 60 * 18, 3)]%Z.

(** The loop of [get_delay]. *)
Fixpoint delay_from (cumulative_count retries : Z) (l : list (Z * Z)) : option Z :=
  match l with
  | [] => None
  | (frequency, count) :: l =>
      let cumulative_count := wrap_i32 (cumulative_count + count) in
      if (retries <=? cumulative_count)%Z then Some frequency else delay_from cumulative_count retries l
  end.

Definition get_delay (retries : Z) (l : list (Z * Z)) : option Z :=
  if (retries <=? 0)%Z then None else delay_from 0 retries l.

(** The body that the schedule functions share. *)
Definition mapping_time (mapping : RetryMapping) (retries : Z) : option Z :=
  if (retries =? 0)%Z then Some (start_after mapping) else get_delay retries (frequencies mapping).

Definition get_schedule_time (mapping : ConnectorPTMapping) (retries : Z) : option Z :=
  mapping_time (default_mapping mapping) retries.

Record PaymentMethodsPTMapping := mkPaymentMethodsPTMapping {
  pm_default_mapping : RetryMapping;
  custom_pm_mapping : gmap PaymentMethod RetryMapping;
  pm_max_retries_count : Z;
}.

Definition get_pm_schedule_time (mapping : PaymentMethodsPTMapping) (pm : PaymentMethod) (retries : Z) : option Z :=
  mapping_time (default (pm_default_mapping mapping) (custom_pm_mapping mapping !! pm)) retries.

Definition get_outgoing_webhook_retry_schedule_time (mapping : RetryMapping) (retries : Z) : option Z :=
  mapping_time mapping retries.

Definition get_pcr_payments_retry_schedule_time (mapping : RetryMapping) (retries : Z) : option Z :=
  mapping_time mapping retries.

Record SubscriptionInvoiceSyncPTMapping := mkSubscriptionInvoiceSyncPTMapping {
  inv_default_mapping : RetryMapping;
  custom_merchant_mapping : gmap string RetryMapping;
  inv_max_retries_count : Z;
}.

Definition get_subscription_invoice_sync_retry_schedule_time (mapping : SubscriptionInvoiceSyncPTMapping)
    (merchant_id : string) (retries : Z) : option Z :=
  mapping_time (default (inv_default_mapping mapping) (custom_merchant_mapping mapping !! merchant_id)) retries.

(** ** Instants *)

(** The range of [PrimitiveDateTime]. *)
Class TimeRange : Type := { first_time : Z; last_time : Z }.

(** [Duration::seconds]. *)
Definition seconds (n : Z) : Z := n * 10 ^ 9.

Section times.
Context `{TimeRange}.

Definition checked_add (t d : Z) : option Z :=
  if ((first_time <=? t + d) && (t + d <=? last_time))%Z then Some (t + d)%Z else None.

Definition checked_sub (t d : Z) : option Z := checked_add t (- d).

Definition saturating_add (t d : Z) : Z := Z.max first_time (Z.min last_time (t + d)).

(** [get_time_from_delta]. *)
Definition get_time_from_delta (now : Z) (delta : option Z) : option Z :=
  (λ t, saturating_add now (seconds t)) <$> delta.

End times.

(** ** Producer and consumer *)

Record SchedulerSettings := mkSchedulerSettings {
  stream : string;
  cug_stream : string;
  consumer_group : string;
  upper_fetch_limit : Z;
  lower_fetch_limit : Z;
  batch_size : nat;
}.

Inductive SchedulerFlow := Producer | Consumer | Cleaner.

(** [Panic] is a division into batches of size zero. *)
Inductive ProcessTrackerError :=
| ConfigurationError | UnexpectedFlow | BatchInsertionFailed | Panic.

(** [slice::chunks]. *)
Fixpoint chunks_of {A} (fuel n : nat) (l : list A) : list (list A) :=
  match fuel, l with
  | 0, _ | _, [] => []
  | S fuel, _ => take n l :: chunks_of fuel n (drop n l)
  end.

Definition chunks {A} (n : nat) (l : list A) : option (list (list A)) :=
  if decide (n = 0) then None else Some (chunks_of (length l) n l).

Section flows.
Context `{TimeRange} {T : Type}.

Record ProcessTrackerBatch := mkBatch {
  batch_id : string;
  group_name : string;
  stream_name : string;
  created_time : Z;
  trackers : list (ProcessTracker T);
}.

(** The tasks and the undelivered entries of the streams. *)
Record SchedulerState := mkSchedulerState {
  tasks : list (ProcessTracker T);
  entries : list ProcessTrackerBatch;
}.

Definition set_tasks (f : list (ProcessTracker T) → list (ProcessTracker T)) (s : SchedulerState) :
    SchedulerState := mkSchedulerState (f (tasks s)) (entries s).

Definition divide_into_batches (conf : SchedulerSettings) (id : string) (now : Z)
    (l : list (ProcessTracker T)) (source : ApplicationSource) : option (list ProcessTrackerBatch) :=
  let name := match source with Main => stream conf | Cug => cug_stream conf end in
  fmap (M := list) (mkBatch id (consumer_group conf) name now) <$> chunks (batch_size conf) l.

(** [update_status_and_append]; [append_ok] tells whether the stream takes the
    entry. *)
Definition update_status_and_append (now : Z) (append_ok : ProcessTrackerBatch → bool) (flow : SchedulerFlow)
    (batch : ProcessTrackerBatch) : sr SchedulerState ProcessTrackerError unit :=
  let process_ids := pt_id <$> trackers batch in
  let mark := update_process_status_by_ids now process_ids (PtStatusUpdate ProcessTrackerStatus_Processing None) in
  (match flow with
   | Producer => sr_modify (set_tasks mark)
   | Cleaner => sr_modify (set_tasks (reinitialize_limbo_processes process_ids now))
   | Consumer => sr_err UnexpectedFlow
   end ;;;
   if append_ok batch then sr_modify (λ s, mkSchedulerState (tasks s) (entries s ++ [batch]))
   else (sr_modify (set_tasks mark) ;;; sr_err BatchInsertionFailed))%sr.

(** The loop of [divide_and_append_tasks]: an error is logged. *)
Fixpoint append_batches (now : Z) (append_ok : ProcessTrackerBatch → bool) (flow : SchedulerFlow)
    (batches : list ProcessTrackerBatch) (s : SchedulerState) : SchedulerState :=
  match batches with
  | [] => s
  | b :: batches => append_batches now append_ok flow batches (update_status_and_append now append_ok flow b s).2
  end.

Definition divide_and_append_tasks (now : Z) (id : string) (append_ok : ProcessTrackerBatch → bool)
    (flow : SchedulerFlow) (l : list (ProcessTracker T)) (conf : SchedulerSettings) (source : ApplicationSource) :
    sr SchedulerState ProcessTrackerError unit :=
  (batches <- sr_lift (ok_or Panic (divide_into_batches conf id now l source)) ;;
   sr_modify (append_batches now append_ok flow batches))%sr.

Definition fetch_producer_tasks (now : Z) (conf : SchedulerSettings) :
    sr SchedulerState ProcessTrackerError (list (ProcessTracker T)) :=
  (time_upper_limit <- sr_lift (ok_or ConfigurationError (checked_add now (seconds (upper_fetch_limit conf)))) ;;
   time_lower_limit <- sr_lift (ok_or ConfigurationError (checked_sub now (seconds (lower_fetch_limit conf)))) ;;
   l <- sr_get tasks ;;
   sr_ret (find_processes_by_time_status time_lower_limit time_upper_limit ProcessTrackerStatus_New l ++
           find_processes_by_time_status time_lower_limit time_upper_limit ProcessTrackerStatus_Pending l))%sr.

Definition is_cug (p : ProcessTracker T) : bool := bool_decide (application_source p = Some Cug).

(** [run_producer_flow]; [locked] tells whether the lock was acquired. *)
Definition run_producer_flow (now : Z) (id : string) (append_ok : ProcessTrackerBatch → bool) (locked : bool)
    (conf : SchedulerSettings) : sr SchedulerState ProcessTrackerError unit :=
  if locked then
    (l <- fetch_producer_tasks now conf ;;
     divide_and_append_tasks now id append_ok Producer (List.filter (λ p, negb (is_cug p)) l) conf Main ;;;
     divide_and_append_tasks now id append_ok Producer (List.filter is_cug l) conf Cug)%sr
  else sr_ret tt.

(** [get_batches]: one undelivered entry of the stream, which is then deleted. *)
Fixpoint take_entry (name : string) (l : list ProcessTrackerBatch) :
    option (ProcessTrackerBatch * list ProcessTrackerBatch) :=
  match l with
  | [] => None
  | b :: l =>
      if decide (stream_name b = name) then Some (b, l)
      else '(b', l') ← take_entry name l; Some (b', b :: l')
  end.

(** [valid_business_statuses]. *)
Definition valid_business_statuses : list string := [PENDING].

Definition set_status (st : ProcessTrackerStatus) (p : ProcessTracker T) : ProcessTracker T :=
  mkProcessTracker (pt_id p) (pt_name p) (retry_count p) (schedule_time p) (tracking_data p)
    (business_status p) st (pt_updated_at p) (application_source p).

(** [fetch_consumer_tasks]: the tasks as they were put into the stream. *)
Definition fetch_consumer_tasks (now : Z) (name : string) (s : SchedulerState) :
    list (ProcessTracker T) * SchedulerState :=
  match take_entry name (entries s) with
  | None => ([], s)
  | Some (b, rest) =>
      let picked := List.filter (λ p, is_valid_business_status p valid_business_statuses) (trackers b) in
      let mark := update_process_status_by_ids now (pt_id <$> picked)
        (PtStatusUpdate ProcessTrackerStatus_ProcessStarted None) in
      (set_status ProcessTrackerStatus_ProcessStarted <$> picked, mkSchedulerState (mark (tasks s)) rest)
  end.

End flows.
Arguments ProcessTrackerBatch : clear implicits.
Arguments SchedulerState : clear implicits.
