(* ===== verification/SchedulerFacts.v ===== *)
(** * Facts on the scheduler

    How often a retry schedule allows a task to run, what an update of a task
    leaves in the table, and how the producer cuts tasks into batches. *)

From S2P Require Import Prelude PaymentEnums Scheduler.

(** ** Retry schedules *)

(** The retries that a schedule allows. *)
Definition retry_budget (l : list (Z * Z)) : Z := foldr (λ fc acc, (fc.2 + acc)%Z) 0%Z l.

(** The counts are not negative and their sum fits an [i32]. *)
Definition schedule_ok (l : list (Z * Z)) : Prop := Forall (λ fc, 0 ≤ fc.2)%Z l ∧ (retry_budget l < i32_max)%Z.

#[export] Instance schedule_ok_dec l : Decision (schedule_ok l).
Proof. unfold schedule_ok. apply _. Defined.

Lemma retry_budget_nonneg l : Forall (λ fc, 0 ≤ fc.2)%Z l → (0 ≤ retry_budget l)%Z.
Proof. induction 1; simpl; lia. Qed.

Lemma delay_from_exact l : ∀ acc retries,
  Forall (λ fc, 0 ≤ fc.2)%Z l → (0 ≤ acc)%Z → (acc + retry_budget l ≤ i32_max)%Z → (acc < retries)%Z →
  is_Some (delay_from acc retries l) ↔ (retries ≤ acc + retry_budget l)%Z.
Proof.
  induction l as [|[f c] l IH]; intros acc retries Hl Hacc Hmax Hr; simpl in *.
  - split; [by intros []|lia].
  - apply Forall_cons in Hl as [Hc Hl]. simpl in Hc. pose proof (retry_budget_nonneg l Hl).
    rewrite wrap_i32_id by (unfold i32_max in *; lia).
    destruct (Z.leb_spec retries (acc + c)); [split; [lia|by eexists]|].
    rewrite IH by (done || lia). by rewrite Z.add_assoc.
Qed.

(** A schedule gives a time for exactly as many retries as its counts allow. *)
Lemma mapping_time_exact m retries :
  schedule_ok (frequencies m) → (0 ≤ retries)%Z →
  is_Some (mapping_time m retries) ↔ (retries ≤ retry_budget (frequencies m))%Z.
Proof.
  intros [Hl Hmax] Hr. unfold mapping_time, get_delay. pose proof (retry_budget_nonneg _ Hl).
  destruct (Z.eqb_spec retries 0) as [->|]; [split; [lia|by eexists]|].
  destruct (Z.leb_spec retries 0); [lia|]. by apply (delay_from_exact _ 0); (done || lia).
Qed.

(** ** Updates of a task *)

Section updates.
Context {T : Type}.
Implicit Types (p : ProcessTracker T) (l : list (ProcessTracker T)).

Lemma update_process_found now p u row l :
  find_process_by_id (pt_id p) l = Some row →
  ∃ l', update_process now p u l = (Ok (pt_apply (pt_update_internal now u) row), l') ∧
    find_process_by_id (pt_id p) l' = Some (pt_apply (pt_update_internal now u) row).
Proof.
  intros Hfind. unfold update_process. rewrite Hfind. eexists. split; [done|]. unfold find_process_by_id in *.
  assert (pt_id row = pt_id p) as Hid by by apply find_some in Hfind as [_ ?%bool_decide_eq_true].
  rewrite find_fmap, Hfind; cbn; [by rewrite decide_True|]. intros q _.
  destruct (decide (pt_id q = pt_id p)) as [->|]; [cbn; by rewrite Hid|done].
Qed.

Lemma update_status_found now ids u id row l :
  id ∈ ids → find_process_by_id id l = Some row →
  find_process_by_id id (update_process_status_by_ids now ids u l) = Some (pt_apply (pt_update_internal now u) row).
Proof.
  intros Hin Hfind. unfold update_process_status_by_ids, find_process_by_id in *.
  assert (pt_id row = id) as Hid by by apply find_some in Hfind as [_ ?%bool_decide_eq_true].
  rewrite find_fmap, Hfind; cbn; [by rewrite decide_True by by rewrite Hid|]. intros q _. by case_decide.
Qed.

End updates.

(** ** Batches *)

Lemma chunks_of_concat {A} n (l : list A) : ∀ fuel, 0 < n → length l ≤ fuel → mjoin (chunks_of fuel n l) = l.
Proof.
  intros fuel Hn. revert l. induction fuel as [|fuel IH]; intros l Hlen; destruct l as [|a l]; cbn in *; [done|lia|done|].
  rewrite IH; [apply take_drop|]. rewrite length_drop. cbn. lia.
Qed.

Lemma chunks_of_size {A} n : ∀ fuel (l : list A),
  0 < n → Forall (λ b, 0 < length b ≤ n) (chunks_of fuel n l).
Proof.
  induction fuel as [|fuel IH]; intros [|a l] Hn; cbn; [constructor..|]. constructor; [|by apply IH].
  rewrite length_take. cbn. lia.
Qed.

Section batches.
Context {T : Type}.
Implicit Types (l : list (ProcessTracker T)) (b : ProcessTrackerBatch T).

(** What marking the tasks of some ids leaves. *)
Definition marked (ids : list string) l l' : Prop :=
  length l' = length l ∧
  ∀ i p, l !! i = Some p → ∃ p', l' !! i = Some p' ∧ pt_id p' = pt_id p ∧
    (pt_id p ∈ ids → pt_status p' = ProcessTrackerStatus_Processing) ∧ (pt_id p ∉ ids → p' = p).

Lemma marked_nil l : marked [] l l.
Proof. split; [done|]. intros i p Hp. exists p. set_solver. Qed.

Lemma marked_trans ids ids' l l' l'' : marked ids l l' → marked ids' l' l'' → marked (ids ++ ids') l l''.
Proof.
  intros [Hlen H1] [Hlen' H2]. split; [congruence|]. intros i p Hp.
  destruct (H1 i p Hp) as (p' & Hp' & Hid & Hin & Hout). destruct (H2 i p' Hp') as (p'' & Hp'' & Hid' & Hin' & Hout').
  exists p''. split; [done|]. split; [congruence|]. rewrite Hid in *.
  destruct (decide (pt_id p ∈ ids')) as [Hi|Hi]; [set_solver|]. rewrite (Hout' Hi). set_solver.
Qed.

Lemma marked_ext ids ids' l l' : (∀ x, x ∈ ids ↔ x ∈ ids') → marked ids l l' → marked ids' l l'.
Proof. intros Hids [Hlen H]. split; [done|]. intros i p Hp. destruct (H i p Hp) as (p' & ?). exists p'. by rewrite <- !Hids. Qed.

Lemma mark_marked now ids l :
  marked ids l (update_process_status_by_ids now ids (PtStatusUpdate ProcessTrackerStatus_Processing None) l).
Proof.
  unfold update_process_status_by_ids. split; [apply length_fmap|]. intros i p Hp.
  eexists. split; [by rewrite list_lookup_fmap, Hp|]. case_decide; (split_and!; [done|done|done]).
Qed.

Definition batch_ids (bs : list (ProcessTrackerBatch T)) : list string := bs ≫= λ b, pt_id <$> trackers b.

(** The producer marks the tasks of every batch and appends the entries that the
    stream takes. *)
Lemma append_batches_effect now append_ok bs : ∀ s,
  entries (append_batches now append_ok Producer bs s) = entries s ++ List.filter append_ok bs ∧
  marked (batch_ids bs) (tasks s) (tasks (append_batches now append_ok Producer bs s)).
Proof.
  induction bs as [|b bs IH]; intros s; [cbn; by rewrite app_nil_r; split; [|apply marked_nil]|].
  cbn [append_batches List.filter]. set (s1 := (update_status_and_append now append_ok Producer b s).2).
  destruct (IH s1) as [-> Hm]. split.
  - unfold s1, update_status_and_append, sr_bind, sr_modify. destruct (append_ok b); cbn; [by rewrite <- app_assoc|done].
  - apply (marked_trans (pt_id <$> trackers b) (batch_ids bs) _ (tasks s1)); [|exact Hm].
    unfold s1, update_status_and_append, sr_bind, sr_modify. destruct (append_ok b); cbn; [apply mark_marked|].
    apply (marked_ext ((pt_id <$> trackers b) ++ (pt_id <$> trackers b))); [set_solver|].
    eapply marked_trans; apply mark_marked.
Qed.

End batches.
