(* ===== verification/SchedulerTheorems.v ===== *)
(** * Theorems on the scheduler

    What the producer hands over to the stream, and what it does not pick again. *)

From S2P Require Import Prelude PaymentEnums Scheduler SchedulerFacts.

Section producer.
Context `{TimeRange} {T : Type}.
Implicit Types (s : SchedulerState T) (l : list (ProcessTracker T)).

(** A division into batches. *)
Definition cut (size : nat) l (bs : list (ProcessTrackerBatch T)) : Prop :=
  mjoin (trackers <$> bs) = l ∧ Forall (λ b, 0 < length (trackers b) ≤ size) bs.

Lemma batch_ids_cut size l bs : cut size l bs → batch_ids bs = pt_id <$> l.
Proof.
  intros [<- _]. induction bs as [|b bs IH]; [done|]. cbn. rewrite fmap_app. by f_equal.
Qed.

Lemma divide_cut conf id now l source :
  0 < batch_size conf →
  ∃ bs, divide_into_batches conf id now l source = Some bs ∧ cut (batch_size conf) l bs ∧
    Forall (λ b, stream_name b = match source with Main => stream conf | Cug => cug_stream conf end) bs.
Proof.
  intros Hsize. unfold divide_into_batches, chunks. rewrite decide_False by lia. eexists. split; [done|]. split.
  - split.
    + rewrite <- list_fmap_compose. erewrite list_fmap_ext; [rewrite list_fmap_id; by apply chunks_of_concat|done].
    + apply Forall_fmap. eapply Forall_impl; [by apply chunks_of_size|done].
  - apply Forall_fmap, Forall_true. done.
Qed.

Lemma divide_and_append_effect now id append_ok l conf source s :
  0 < batch_size conf →
  ∃ bs s', divide_and_append_tasks now id append_ok Producer l conf source s = (Ok tt, s') ∧
    cut (batch_size conf) l bs ∧
    Forall (λ b, stream_name b = match source with Main => stream conf | Cug => cug_stream conf end) bs ∧
    entries s' = entries s ++ List.filter append_ok bs ∧ marked (pt_id <$> l) (tasks s) (tasks s').
Proof.
  intros Hsize. destruct (divide_cut conf id now l source Hsize) as (bs & Hdiv & Hcut & Hname).
  destruct (append_batches_effect now append_ok bs s) as [He Hm].
  exists bs, (append_batches now append_ok Producer bs s). rewrite <- (batch_ids_cut _ _ _ Hcut).
  split; [|done]. unfold divide_and_append_tasks, sr_bind, sr_lift. by rewrite Hdiv.
Qed.

(** The tasks of the two streams are those that were fetched. *)
Lemma split_ids (f : ProcessTracker T → bool) l x :
  x ∈ (pt_id <$> List.filter (λ p, negb (f p)) l) ++ (pt_id <$> List.filter f l) ↔ x ∈ pt_id <$> l.
Proof.
  rewrite elem_of_app, !list_elem_of_fmap. setoid_rewrite list_elem_of_In. setoid_rewrite filter_In. split.
  - naive_solver.
  - intros (p & -> & Hp). destruct (f p) eqn:Hf; [right|left]; exists p; by rewrite ?Hf.
Qed.

(** A later producer picks no marked task. *)
Lemma marked_not_fetched ids l0 s now conf p l :
  marked ids l0 (tasks s) → (fetch_producer_tasks now conf s).1 = Ok l → p ∈ l → pt_id p ∉ ids.
Proof.
  intros [Hlen Hm] Hfetch Hp Hid.
  assert (p ∈ tasks s ∧ pt_status p ≠ ProcessTrackerStatus_Processing) as [Hin Hst].
  { unfold fetch_producer_tasks, sr_bind, sr_lift in Hfetch.
    destruct (checked_add _ _); [|done]. cbn in Hfetch. destruct (checked_sub _ _); [|done]. injection Hfetch as <-.
    apply elem_of_app in Hp as [Hp|Hp]; apply list_elem_of_In, filter_In in Hp as [Hp Hf];
      (split; [by apply list_elem_of_In|]); destruct (schedule_time p); try done;
      apply andb_true_iff in Hf as [_ Hf%bool_decide_eq_true]; by rewrite Hf. }
  apply Hst. apply list_elem_of_lookup in Hin as [i Hi]. destruct (l0 !! i) as [p0|] eqn:H0.
  - destruct (Hm i p0 H0) as (p' & Hp' & Hid' & Hproc & _). rewrite Hi in Hp'. injection Hp' as <-.
    apply Hproc. by rewrite <- Hid'.
  - apply lookup_ge_None in H0. apply lookup_lt_Some in Hi. lia.
Qed.

(** A run of the producer cuts the tasks that are due, in order, into
    batches of at most the configured size for the main stream and for the cug
    stream, and appends the batches that the stream takes.  It marks all of these
    tasks and no other as processing, also those of the batches that the stream
    does not take, so that no later run of the producer picks any of them. *)
Theorem producer_hands_over now id append_ok conf s fetched :
  0 < batch_size conf → fetch_producer_tasks now conf s = (Ok fetched, s) →
  ∃ s' main cug, run_producer_flow now id append_ok true conf s = (Ok tt, s') ∧
    cut (batch_size conf) (List.filter (λ p, negb (is_cug p)) fetched) main ∧
    Forall (λ b, stream_name b = stream conf) main ∧
    cut (batch_size conf) (List.filter is_cug fetched) cug ∧ Forall (λ b, stream_name b = cug_stream conf) cug ∧
    entries s' = entries s ++ List.filter append_ok (main ++ cug) ∧
    marked (pt_id <$> fetched) (tasks s) (tasks s') ∧
    (∀ now' conf' p l, (fetch_producer_tasks now' conf' s').1 = Ok l → p ∈ l → pt_id p ∉ pt_id <$> fetched).
Proof.
  intros Hsize Hfetch.
  destruct (divide_and_append_effect now id append_ok (List.filter (λ p, negb (is_cug p)) fetched) conf Main s Hsize)
    as (main & s1 & Hrun1 & Hcut1 & Hname1 & He1 & Hm1).
  destruct (divide_and_append_effect now id append_ok (List.filter is_cug fetched) conf Cug s1 Hsize)
    as (cug & s2 & Hrun2 & Hcut2 & Hname2 & He2 & Hm2).
  assert (marked (pt_id <$> fetched) (tasks s) (tasks s2)) as Hm.
  { eapply marked_ext; [intros x; apply (split_ids is_cug)|by eapply marked_trans]. }
  exists s2, main, cug. split_and!; try done.
  - unfold run_producer_flow. unfold sr_bind at 1. rewrite Hfetch. unfold sr_bind. by rewrite Hrun1, Hrun2.
  - rewrite He2, He1, List.filter_app, app_assoc. done.
  - intros now' conf' p l Hf Hp. by eapply marked_not_fetched.
Qed.

End producer.

(** ** Example: the stream refuses a batch *)

Module SchedulerExample.

#[export] Instance all_times : TimeRange := {| first_time := - 10 ^ 30; last_time := 10 ^ 30 |}.

Definition task (id : string) (source : ApplicationSource) : ProcessTracker unit :=
  new_process 0 id "TASK" () None 0 source.

Definition start : SchedulerState unit :=
  mkSchedulerState [task "a" Main; task "b" Cug; task "c" Main; task "d" Main] [].

Definition conf : SchedulerSettings := mkSchedulerSettings "main" "cug" "group" 60 60 2.

(** The stream does not take the batch of ["d"]. *)
Definition takes (b : ProcessTrackerBatch unit) : bool := bool_decide ((pt_id <$> trackers b) ≠ ["d"%string]).

Lemma producer_hands_over_witness :
  fetch_producer_tasks 0 conf start = (Ok (tasks start), start) ∧
  let s' := (run_producer_flow 0 "batch" takes true conf start).2 in
  (∀ now' conf' p l, (fetch_producer_tasks now' conf' s').1 = Ok l → p ∈ l → pt_id p ∉ pt_id <$> tasks start) ∧
  ((λ b, (stream_name b, pt_id <$> trackers b)) <$> entries s') =
    [("main", ["a"; "c"]); ("cug", ["b"])]%string ∧
  (pt_status <$> tasks s') = replicate 4 ProcessTrackerStatus_Processing.
Proof.
  assert (fetch_producer_tasks 0 conf start = (Ok (tasks start), start)) as Hfetch by (vm_compute; reflexivity).
  split; [exact Hfetch|]. cbv zeta. split; [|split; vm_compute; reflexivity].
  destruct (producer_hands_over 0 "batch" takes conf start (tasks start)
    (Nat.lt_0_succ 1) Hfetch) as (s' & main & cug & Hrun & _ & _ & _ & _ & _ & _ & Hnot).
  rewrite Hrun. exact Hnot.
Defined.

End SchedulerExample.
