(* ===== verification/Disputes.v ===== *)
(** * Disputes

    The stages and statuses of a dispute, the transitions that a webhook may
    make ([crates/router/src/core/utils.rs]) and the rows they update
    ([crates/diesel_models/src/dispute.rs]). *)

From S2P Require Import Prelude.

Inductive DisputeStage : Set :=
  | DisputeStage_PreDispute | DisputeStage_Dispute | DisputeStage_PreArbitration
  | DisputeStage_Arbitration | DisputeStage_DisputeReversal.

#[export] Program Instance DisputeStage_enumerated : Enumerated DisputeStage := {|
  variants := [
    DisputeStage_PreDispute; DisputeStage_Dispute; DisputeStage_PreArbitration;
    DisputeStage_Arbitration; DisputeStage_DisputeReversal];
  discriminant x := match x with
    | DisputeStage_PreDispute => 0 | DisputeStage_Dispute => 1
    | DisputeStage_PreArbitration => 2 | DisputeStage_Arbitration => 3
    | DisputeStage_DisputeReversal => 4
    end;
|}.
Next Obligation. by intros []. Qed.

#[export] Instance DisputeStage_strum : EnumString DisputeStage := one_name (λ x, match x with
    | DisputeStage_PreDispute => "pre_dispute" | DisputeStage_Dispute => "dispute"
    | DisputeStage_PreArbitration => "pre_arbitration"
    | DisputeStage_Arbitration => "arbitration"
    | DisputeStage_DisputeReversal => "dispute_reversal"
    end).

Inductive DisputeStatus : Set :=
  | DisputeStatus_DisputeOpened | DisputeStatus_DisputeExpired | DisputeStatus_DisputeAccepted
  | DisputeStatus_DisputeCancelled | DisputeStatus_DisputeChallenged | DisputeStatus_DisputeWon
  | DisputeStatus_DisputeLost.

#[export] Program Instance DisputeStatus_enumerated : Enumerated DisputeStatus := {|
  variants := [
    DisputeStatus_DisputeOpened; DisputeStatus_DisputeExpired; DisputeStatus_DisputeAccepted;
    DisputeStatus_DisputeCancelled; DisputeStatus_DisputeChallenged; DisputeStatus_DisputeWon;
    DisputeStatus_DisputeLost];
  discriminant x := match x with
    | DisputeStatus_DisputeOpened => 0 | DisputeStatus_DisputeExpired => 1
    | DisputeStatus_DisputeAccepted => 2 | DisputeStatus_DisputeCancelled => 3
    | DisputeStatus_DisputeChallenged => 4 | DisputeStatus_DisputeWon => 5
    | DisputeStatus_DisputeLost => 6
    end;
|}.
Next Obligation. by intros []. Qed.

#[export] Instance DisputeStatus_strum : EnumString DisputeStatus := one_name (λ x, match x with
    | DisputeStatus_DisputeOpened => "dispute_opened"
    | DisputeStatus_DisputeExpired => "dispute_expired"
    | DisputeStatus_DisputeAccepted => "dispute_accepted"
    | DisputeStatus_DisputeCancelled => "dispute_cancelled"
    | DisputeStatus_DisputeChallenged => "dispute_challenged"
    | DisputeStatus_DisputeWon => "dispute_won" | DisputeStatus_DisputeLost => "dispute_lost"
    end).

(** ** Transitions *)

Definition validate_dispute_stage (prev_dispute_stage dispute_stage : DisputeStage) : bool :=
  match prev_dispute_stage with
  | DisputeStage_PreDispute => true
  | DisputeStage_Dispute => negb (bool_decide (dispute_stage = DisputeStage_PreDispute))
  | DisputeStage_PreArbitration =>
      bool_decide (dispute_stage ∈ [DisputeStage_PreArbitration; DisputeStage_Arbitration;
                                    DisputeStage_DisputeReversal])
  | DisputeStage_Arbitration =>
      bool_decide (dispute_stage ∈ [DisputeStage_Arbitration; DisputeStage_DisputeReversal])
  | DisputeStage_DisputeReversal => bool_decide (dispute_stage = DisputeStage_DisputeReversal)
  end.

Definition validate_dispute_status (prev_dispute_status dispute_status : DisputeStatus) : bool :=
  match prev_dispute_status with
  | DisputeStatus_DisputeOpened => true
  | DisputeStatus_DisputeExpired => bool_decide (dispute_status = DisputeStatus_DisputeExpired)
  | DisputeStatus_DisputeAccepted =>
      bool_decide (dispute_status ∈ [DisputeStatus_DisputeAccepted; DisputeStatus_DisputeLost])
  | DisputeStatus_DisputeCancelled => bool_decide (dispute_status = DisputeStatus_DisputeCancelled)
  | DisputeStatus_DisputeChallenged =>
      bool_decide (dispute_status ∈ [DisputeStatus_DisputeChallenged; DisputeStatus_DisputeWon;
        DisputeStatus_DisputeLost; DisputeStatus_DisputeAccepted; DisputeStatus_DisputeCancelled;
        DisputeStatus_DisputeExpired])
  | DisputeStatus_DisputeWon => bool_decide (dispute_status = DisputeStatus_DisputeWon)
  | DisputeStatus_DisputeLost => bool_decide (dispute_status = DisputeStatus_DisputeLost)
  end.

(** [Err] is [DisputeWebhookValidationFailed]. *)
Definition validate_dispute_stage_and_dispute_status (prev_dispute_stage : DisputeStage)
    (prev_dispute_status : DisputeStatus) (dispute_stage : DisputeStage) (dispute_status : DisputeStatus) :
    result unit unit :=
  let dispute_stage_validation := validate_dispute_stage prev_dispute_stage dispute_stage in
  let dispute_status_validation :=
    if decide (dispute_stage = prev_dispute_stage)
    then validate_dispute_status prev_dispute_status dispute_status else true in
  if negb (dispute_stage_validation && dispute_status_validation) then Err tt else Ok tt.

(** ** Rows *)

(** The columns that the flows read or write. *)
Record Dispute := mkDispute {
  dispute_id : string;
  dispute_stage : DisputeStage;
  dispute_status : DisputeStatus;
  dispute_connector_status : string;
  connector_dispute_id : string;
  connector_reason : option string;
  connector_reason_code : option string;
  challenge_required_by : option Z;
  connector_updated_at : option Z;
  dispute_modified_at : Z;
  evidence : string;
  dispute_amount : Z;
}.

(** [Dispute::is_not_lost_or_none]. *)
Definition is_not_lost_or_none (o : option Dispute) : bool :=
  match o with
  | Some d => bool_decide (dispute_status d ≠ DisputeStatus_DisputeLost)
  | None => true
  end.

Inductive DisputeUpdate :=
| D_Update (stage : DisputeStage) (status : DisputeStatus) (connector_status : string)
    (reason reason_code : option string) (required_by updated_at : option Z)
| D_StatusUpdate (status : DisputeStatus) (connector_status : option string)
| D_EvidenceUpdate (evidence : string).

Record DisputeUpdateInternal := mkDisputeUpdateInternal {
  du_stage : option DisputeStage;
  du_status : option DisputeStatus;
  du_connector_status : option string;
  du_connector_reason : option string;
  du_connector_reason_code : option string;
  du_challenge_required_by : option Z;
  du_connector_updated_at : option Z;
  du_modified_at : Z;
  du_evidence : option string;
}.

(** [impl From<DisputeUpdate> for DisputeUpdateInternal]. *)
Definition dispute_update_internal (now : Z) (u : DisputeUpdate) : DisputeUpdateInternal :=
  match u with
  | D_Update stage st conn reason code required updated =>
      mkDisputeUpdateInternal (Some stage) (Some st) (Some conn) reason code required updated now None
  | D_StatusUpdate st conn => mkDisputeUpdateInternal None (Some st) conn None None None None now None
  | D_EvidenceUpdate ev => mkDisputeUpdateInternal None None None None None None None now (Some ev)
  end.

(** [DisputeUpdateInternal::apply_changeset]. *)
Definition dispute_apply (now : Z) (u : DisputeUpdateInternal) (d : Dispute) : Dispute :=
  let or {A} (a b : option A) := match a with Some x => Some x | None => b end in
  mkDispute (dispute_id d) (default (dispute_stage d) (du_stage u)) (default (dispute_status d) (du_status u))
    (default (dispute_connector_status d) (du_connector_status u)) (connector_dispute_id d)
    (or (du_connector_reason u) (connector_reason d)) (or (du_connector_reason_code u) (connector_reason_code d))
    (or (du_challenge_required_by u) (challenge_required_by d))
    (or (du_connector_updated_at u) (connector_updated_at d)) now
    (default (evidence d) (du_evidence u)) (dispute_amount d).
