(* ===== verification/Refunds.v ===== *)
(** * Refunds

    Refund rows and their updates ([crates/diesel_models/src/refund.rs]), the
    validations ([crates/router/src/core/utils/refunds_validator.rs],
    [crates/hyperswitch_domain_models/src/payments.rs]) and the handlers that
    create, synchronise and update the refunds of a payment
    ([crates/router/src/core/refunds.rs], [core/webhooks/incoming.rs]), with the
    totals that are kept in the state metadata of the intent
    ([core/payments.rs]).

    The store holds one payment without the key-value mode.  A task that a
    handler spawns is put into [spawned] with the values it captures, and runs
    later.  The answer of the connector or the error of its call, the support of
    refunds by the connector, the split of a refund and the unification of error
    codes are arguments.
    [i64] sums are checked: an overflow, which panics in a debug build, is the
    error [R_Overflow]. *)

From S2P Require Import Prelude Currency PaymentEnums PaymentStatus Captures Scheduler Disputes.

Inductive RefundStatus : Set :=
  | RefundStatus_Failure | RefundStatus_ManualReview | RefundStatus_Pending
  | RefundStatus_Success | RefundStatus_TransactionFailure.

#[export] Program Instance RefundStatus_enumerated : Enumerated RefundStatus := {|
  variants := [
    RefundStatus_Failure; RefundStatus_ManualReview; RefundStatus_Pending;
    RefundStatus_Success; RefundStatus_TransactionFailure];
  discriminant x := match x with
    | RefundStatus_Failure => 0 | RefundStatus_ManualReview => 1 | RefundStatus_Pending => 2
    | RefundStatus_Success => 3 | RefundStatus_TransactionFailure => 4
    end;
|}.
Next Obligation. by intros []. Qed.

#[export] Instance RefundStatus_strum : EnumString RefundStatus := one_name (λ x, match x with
    | RefundStatus_Failure => "failure" | RefundStatus_ManualReview => "manual_review"
    | RefundStatus_Pending => "pending" | RefundStatus_Success => "success"
    | RefundStatus_TransactionFailure => "transaction_failure"
    end).

Definition refund_is_success (s : RefundStatus) : bool := bool_decide (s = RefundStatus_Success).

Inductive RefundType := Scheduled | Instant.

(** ** Rows and updates *)

(** The columns that the flows read or write. *)
Record Refund := mkRefund {
  internal_reference_id : string;
  refund_id : string;
  r_transaction_id : ConnectorTransactionId;
  r_connector : string;
  connector_refund_id : option ConnectorTransactionId;
  refund_total_amount : Z;
  r_currency : Currency;
  refund_amount : Z;
  refund_status : RefundStatus;
  sent_to_gateway : bool;
  refund_error_message : option string;
  refund_metadata : option string;
  refund_arn : option string;
  r_created_at : Z;
  r_modified_at : Z;
  r_attempt_id : string;
  refund_reason : option string;
  refund_error_code : option string;
  updated_by : string;
  unified_code : option string;
  unified_message : option string;
  processor_refund_data : option string;
  processor_transaction_data : option string;
  issuer_error_code : option string;
  issuer_error_message : option string;
}.

Inductive RefundUpdate :=
| R_Update (connector_refund_id : ConnectorTransactionId) (status : RefundStatus) (sent : bool)
    (error_message : option string) (arn : string) (by_ : string) (refund_data : option string)
| R_MetadataAndReasonUpdate (metadata reason : option string) (by_ : string)
| R_StatusUpdate (connector_refund_id : option ConnectorTransactionId) (sent : bool) (status : RefundStatus)
    (by_ : string) (refund_data : option string)
| R_ErrorUpdate (status : option RefundStatus) (error_message error_code : option string) (by_ : string)
    (connector_refund_id : option ConnectorTransactionId) (refund_data unified_code unified_message : option string)
    (issuer_code issuer_message : option string)
| R_ManualUpdate (connector_refund_id : option ConnectorTransactionId) (status : option RefundStatus)
    (error_message error_code : option (option string)) (by_ : string).

Record RefundUpdateInternal := mkRefundUpdateInternal {
  ru_connector_refund_id : option ConnectorTransactionId;
  ru_status : option RefundStatus;
  ru_sent_to_gateway : option bool;
  ru_error_message : option (option string);
  ru_arn : option string;
  ru_metadata : option string;
  ru_reason : option string;
  ru_error_code : option (option string);
  ru_updated_by : string;
  ru_modified_at : Z;
  ru_refund_data : option string;
  ru_unified_code : option string;
  ru_unified_message : option string;
  ru_issuer_code : option string;
  ru_issuer_message : option string;
}.

(** [impl From<RefundUpdate> for RefundUpdateInternal]. *)
Definition refund_update_internal (now : Z) (u : RefundUpdate) : RefundUpdateInternal :=
  match u with
  | R_Update cid st sent msg arn by_ data =>
      mkRefundUpdateInternal (Some cid) (Some st) (Some sent) (Some <$> msg) (Some arn) None None None by_ now
        data None None None None
  | R_MetadataAndReasonUpdate metadata reason by_ =>
      mkRefundUpdateInternal None None None None None metadata reason None by_ now None None None None None
  | R_StatusUpdate cid sent st by_ data =>
      mkRefundUpdateInternal cid (Some st) (Some sent) None None None None None by_ now data None None None None
  | R_ErrorUpdate st msg code by_ cid data ucode umsg icode imsg =>
      mkRefundUpdateInternal cid st None (Some <$> msg) None None None (Some <$> code) by_ now data
        ucode umsg icode imsg
  | R_ManualUpdate cid st msg code by_ =>
      mkRefundUpdateInternal cid st None msg None None None code by_ now None None None None None
  end.

(** [apply_changeset], generated for [RefundUpdateInternal]. *)
Definition refund_apply (u : RefundUpdateInternal) (r : Refund) : Refund :=
  mkRefund (internal_reference_id r) (refund_id r) (r_transaction_id r) (r_connector r)
    (or_keep (ru_connector_refund_id u) (connector_refund_id r)) (refund_total_amount r) (r_currency r)
    (refund_amount r) (default (refund_status r) (ru_status u))
    (default (sent_to_gateway r) (ru_sent_to_gateway u))
    (default (refund_error_message r) (ru_error_message u)) (or_keep (ru_metadata u) (refund_metadata r))
    (or_keep (ru_arn u) (refund_arn r)) (r_created_at r) (ru_modified_at u) (r_attempt_id r)
    (or_keep (ru_reason u) (refund_reason r)) (default (refund_error_code r) (ru_error_code u))
    (ru_updated_by u) (or_keep (ru_unified_code u) (unified_code r))
    (or_keep (ru_unified_message u) (unified_message r))
    (or_keep (ru_refund_data u) (processor_refund_data r)) (processor_transaction_data r)
    (or_keep (ru_issuer_code u) (issuer_error_code r)) (or_keep (ru_issuer_message u) (issuer_error_message r)).

(** ** The store *)

Record PaymentIntentStateMetadata := mkStateMetadata {
  total_refunded_amount : option Z;
  total_disputed_amount : option Z;
  post_capture_void_issued : bool;
}.

Definition default_state_metadata : PaymentIntentStateMetadata := mkStateMetadata None None false.

Definition with_total_refunded_amount (a : Z) (m : PaymentIntentStateMetadata) : PaymentIntentStateMetadata :=
  mkStateMetadata (Some a) (total_disputed_amount m) (post_capture_void_issued m).

Definition with_total_disputed_amount (a : Z) (m : PaymentIntentStateMetadata) : PaymentIntentStateMetadata :=
  mkStateMetadata (total_refunded_amount m) (Some a) (post_capture_void_issued m).

(** The fields of the intent and of its last successful attempt. *)
Record PaymentIntent := mkPaymentIntent {
  pi_status : IntentStatus;
  amount_captured : option Z;
  state_metadata : option PaymentIntentStateMetadata;
  pi_created_at : Z;
}.

Record RefundableAttempt := mkRefundableAttempt {
  ra_attempt_id : string;
  connector_transaction_id : option string;
  ra_connector : option string;
  ra_currency : option Currency;
  ra_net_amount : NetAmount;
}.

(** [RefundCoreWorkflow]: the reference of the refund; the other fields are those
    of the payment. *)
Abbreviation RefundCoreWorkflow := string (only parsing).

(** A spawned update of the state metadata, with the metadata it captured. *)
Inductive SpawnedTask :=
| RefreshRefunded (captured : option PaymentIntentStateMetadata)
| AddDisputed (captured : option PaymentIntentStateMetadata) (dispute : Dispute).

Record RefundStore := mkRefundStore {
  intent : PaymentIntent;
  refundable : RefundableAttempt;
  refunds : list Refund;
  processes : list (ProcessTracker RefundCoreWorkflow);
  disputes : list Dispute;
  spawned : list SpawnedTask;
}.

Definition set_refunds (l : list Refund) (s : RefundStore) : RefundStore :=
  mkRefundStore (intent s) (refundable s) l (processes s) (disputes s) (spawned s).
Definition set_processes (l : list (ProcessTracker RefundCoreWorkflow)) (s : RefundStore) : RefundStore :=
  mkRefundStore (intent s) (refundable s) (refunds s) l (disputes s) (spawned s).
Definition set_disputes (l : list Dispute) (s : RefundStore) : RefundStore :=
  mkRefundStore (intent s) (refundable s) (refunds s) (processes s) l (spawned s).
Definition spawn (t : SpawnedTask) (s : RefundStore) : RefundStore :=
  mkRefundStore (intent s) (refundable s) (refunds s) (processes s) (disputes s) (spawned s ++ [t]).
Definition set_state_metadata (m : PaymentIntentStateMetadata) (s : RefundStore) : RefundStore :=
  let i := intent s in
  mkRefundStore (mkPaymentIntent (pi_status i) (amount_captured i) (Some m) (pi_created_at i)) (refundable s)
    (refunds s) (processes s) (disputes s) (spawned s).

Inductive RefundError :=
| R_PaymentUnexpectedState (current_value : string)
| R_AmountExceedsPaymentAmount
| R_PreconditionFailed
| R_InternalServerError
| R_InvalidDataFormat (field_name : string)
| R_MissingRequiredField (field_name : string)
| R_MaximumRefundCount
| R_NotSupported
| R_NotImplemented
| R_RefundFailed
| R_DuplicateRefundRequest
| R_RefundNotFound
| R_WebhookProcessingFailure
| R_WebhookResourceNotFound
| R_WebhookBadRequest
| R_WebhookAuthenticationFailed
| R_JobNotFound
| R_Overflow.

Abbreviation refund_handler A := (sr RefundStore RefundError A) (only parsing).

(** *** Queries *)

(** [insert_refund]: the refund id is the primary key; [None] is a duplicate. *)
Definition insert_refund (r : Refund) (s : RefundStore) : option RefundStore :=
  if decide (refund_id r ∈ refund_id <$> refunds s) then None else Some (set_refunds (refunds s ++ [r]) s).

(** [update_refund], by the refund id. *)
Definition update_refund (now : Z) (not_found : RefundError) (r : Refund) (u : RefundUpdate) : refund_handler Refund := λ s,
  match List.find (λ q, bool_decide (refund_id q = refund_id r)) (refunds s) with
  | None => (Err not_found, s)
  | Some row =>
      let row' := refund_apply (refund_update_internal now u) row in
      (Ok row', set_refunds ((λ q, if decide (refund_id q = refund_id r) then row' else q) <$> refunds s) s)
  end.

(** [find_by_processor_merchant_id_connector_transaction_id]: the column holds the
    id of the stored transaction id. *)
Definition find_refunds_by_transaction_id (id : string) (s : RefundStore) : list Refund :=
  List.filter (λ r, bool_decide (get_id (r_transaction_id r) = id)) (refunds s).

Definition find_refund_by_refund_id (id : string) (s : RefundStore) : option Refund :=
  List.find (λ r, bool_decide (refund_id r = id)) (refunds s).

Definition find_refund_by_internal_reference_id (id : string) (s : RefundStore) : option Refund :=
  List.find (λ r, bool_decide (internal_reference_id r = id)) (refunds s).

(** ** Validations *)

(** [iter().sum::<i64>()]. *)
Fixpoint sum_i64 (l : list Z) (acc : Z) : result RefundError Z :=
  match l with
  | [] => Ok acc
  | a :: l => acc ← ok_or R_Overflow (checked_i64 (acc + a)); sum_i64 l acc
  end.

Definition counts_as_refunded (r : Refund) : bool :=
  bool_decide (refund_status r ≠ RefundStatus_Failure) &&
  bool_decide (refund_status r ≠ RefundStatus_TransactionFailure).

Definition validate_refund_amount (captured : Z) (all_refunds : list Refund) (amount : Z) :
    result RefundError unit :=
  total_refunded_amount ← sum_i64 (refund_amount <$> List.filter counts_as_refunded all_refunds) 0;
  available ← ok_or R_Overflow (checked_i64 (captured - total_refunded_amount));
  if (available <? amount)%Z then Err R_AmountExceedsPaymentAmount else Ok tt.

Definition ns_per_day : Z := 86400 * 10 ^ 9.

(** [Duration::whole_days] rounds towards zero. *)
Definition validate_payment_order_age (now created_at refund_max_age : Z) : result RefundError unit :=
  if (refund_max_age <? Z.quot (now - created_at) ns_per_day)%Z
  then Err (R_InvalidDataFormat "created_at") else Ok tt.

Definition validate_maximum_refund_against_payment_attempt (all_refunds : list Refund)
    (refund_max_attempts : nat) : result RefundError unit :=
  if decide (refund_max_attempts < length all_refunds) then Err R_MaximumRefundCount else Ok tt.

(** [PaymentIntentStateMetadata::get_blocked_amount]. *)
Definition get_blocked_amount (m : PaymentIntentStateMetadata) : result RefundError Z :=
  ok_or R_Overflow (checked_i64 (default 0%Z (total_disputed_amount m) + default 0%Z (total_refunded_amount m))).

(** [PaymentIntent::validate_amount_against_intent_state_metadata]. *)
Definition validate_amount_against_intent_state_metadata (i : PaymentIntent) (requested_amount : option Z) :
    result RefundError unit :=
  let captured := default 0%Z (amount_captured i) in
  blocked_amount ← get_blocked_amount (default default_state_metadata (state_metadata i));
  total ← ok_or R_Overflow (checked_i64 (blocked_amount + default 0%Z requested_amount));
  if (captured <? total)%Z then Err R_AmountExceedsPaymentAmount else Ok tt.

(** [PaymentIntent::prevent_refund_after_post_capture_void]. *)
Definition prevent_refund_after_post_capture_void (i : PaymentIntent) : result RefundError unit :=
  if default false (post_capture_void_issued <$> state_metadata i) then Err R_PreconditionFailed else Ok tt.

(** [validate_refund_list]. *)
Definition validate_refund_list (limit : option Z) : option Z :=
  match limit with
  | Some limit_val => if ((1 <=? limit_val) && (limit_val <=? 100))%Z then Some limit_val else None
  | None => Some 10%Z
  end.

(** ** The connector's answer *)

Record ErrorResponse := mkErrorResponse {
  e_code : string;
  e_message : string;
  e_reason : option string;
  e_status_code : Z;
  e_network_decline_code : option string;
  e_network_error_message : option string;
}.

(** An answer is an error, or a refund whose data may differ from the request: the
    names of the fields and the transaction id of the integrity check. *)
Inductive RefundAnswer :=
| RefundRefused (err : ErrorResponse)
| RefundAccepted (connector_refund_id : string) (status : RefundStatus)
    (integrity_error : option (string * option string)).

(** The [ConnectorError]s of a call that the handlers tell apart; any other error
    comes with the response that it becomes. *)
Inductive ConnectorError :=
| NotImplemented (reason : string)
| FlowNotSupported (flow connector : string)
| NotSupported (message connector : string)
| OtherConnectorError (response : RefundError).

(** [to_refund_failed_response]. *)
Definition to_refund_failed_response (e : ConnectorError) : RefundError :=
  match e with
  | NotImplemented _ => R_NotImplemented
  | NotSupported _ _ => R_NotSupported
  | FlowNotSupported _ _ => R_RefundFailed
  | OtherConnectorError response => response
  end.

(** The outcome of a call of the connector. *)
Abbreviation gateway_result := (result ConnectorError RefundAnswer) (only parsing).

Definition REQUEST_TIMEOUT_ERROR_CODE : string := "TIMEOUT".
Definition DEFAULT_UNIFIED_ERROR_CODE : string := "UE_9000".
Definition DEFAULT_UNIFIED_ERROR_MESSAGE : string := "Something went wrong".

(** The error message and code that are stored. *)
Definition stored_error (err : ErrorResponse) : option string * option string :=
  if decide (e_code err = REQUEST_TIMEOUT_ERROR_CODE) then (None, None)
  else (or_keep (e_reason err) (Some (e_message err)), Some (e_code err)).

Section answers.
Variable blake3_hex : string → string.
(** [get_gsm_record] for the refund flow and for the authorize flow: the unified
    code and message of a record. *)
Variable gsm_refund gsm_authorize : ErrorResponse → option (option string * option string).
Variable storage_scheme : string.

(** The update for an answer that fails the integrity check or passes it. *)
Definition accepted_update (cid : string) (st : RefundStatus) (integrity_error : option (string * option string)) :
    RefundUpdate :=
  match integrity_error with
  | Some (field_names, txn_id) =>
      let '(id, data) :=
        match txn_id with
        | None => (None, None)
        | Some txn => let '(txn, data) := form_id_and_data blake3_hex txn in (Some txn, data)
        end in
      R_ErrorUpdate (Some RefundStatus_ManualReview)
        (Some ("Integrity Check Failed! as data mismatched for fields " +:+ field_names)) (Some "IE"%string)
        storage_scheme id data None None None None
  | None =>
      let '(id, data) := form_id_and_data blake3_hex cid in
      R_Update id st true None "" storage_scheme data
  end.

(** The update of [trigger_refund_to_gateway]. *)
Definition execute_update (answer : RefundAnswer) : RefundUpdate :=
  match answer with
  | RefundRefused err =>
      let option_gsm := or_keep (gsm_refund err) (gsm_authorize err) in
      let '(code, msg) :=
        match option_gsm with
        | Some (Some code, Some msg) => (code, msg)
        | _ => (DEFAULT_UNIFIED_ERROR_CODE, DEFAULT_UNIFIED_ERROR_MESSAGE)
        end in
      let st := if ((500 <=? e_status_code err) && (e_status_code err <=? 511))%Z then None
                else Some RefundStatus_Failure in
      let '(error_message, error_code) := stored_error err in
      R_ErrorUpdate st error_message error_code storage_scheme None None (Some code) (Some msg)
        (e_network_decline_code err) (e_network_error_message err)
  | RefundAccepted cid st integrity => accepted_update cid st integrity
  end.

(** [option_refund_error_update] of [execute_refund_execute_via_direct]: the call
    failed because the connector has no refunds. *)
Definition connector_error_update (e : ConnectorError) : option RefundUpdate :=
  let failed message code :=
    R_ErrorUpdate (Some RefundStatus_Failure) (Some message) (Some code) storage_scheme None None None None None None in
  match e with
  | NotImplemented reason =>
      Some (failed ("This step has not been implemented for: " +:+ reason) "NOT_IMPLEMENTED"%string)
  | FlowNotSupported flow connector =>
      Some (failed (flow +:+ " is not supported by " +:+ connector) "NOT_SUPPORTED"%string)
  | NotSupported message connector =>
      Some (failed (message +:+ " is not supported by " +:+ connector) "NOT_SUPPORTED"%string)
  | OtherConnectorError _ => None
  end.

(** The update of [sync_refund_with_gateway]. *)
Definition sync_refund_update (answer : RefundAnswer) : RefundUpdate :=
  match answer with
  | RefundRefused err =>
      let st := if ((200 <=? e_status_code err) && (e_status_code err <=? 299))%Z
                then Some RefundStatus_Failure else None in
      let '(error_message, error_code) := stored_error err in
      R_ErrorUpdate st error_message error_code storage_scheme None None None None
        (e_network_decline_code err) (e_network_error_message err)
  | RefundAccepted cid st integrity => accepted_update cid st integrity
  end.

(** ** Tasks *)

Section tasks.
Context `{TimeRange}.

Definition runner : string := "REFUND_WORKFLOW_ROUTER".
Definition task_id (task reference : string) : string := runner +:+ "_" +:+ task +:+ "_" +:+ reference.

(** An operation on the table of tasks; a duplicate is a duplicate refund request
    and a missing row an internal error. *)
Definition on_processes {A} (c : sr (list (ProcessTracker RefundCoreWorkflow)) StorageError A) : refund_handler A :=
  λ s, match c (processes s) with
       | (Ok a, l) => (Ok a, set_processes l s)
       | (Err DuplicateValue, l) => (Err R_DuplicateRefundRequest, set_processes l s)
       | (Err ValueNotFound, l) => (Err R_InternalServerError, set_processes l s)
       end.

Definition get_refund_sync_process_schedule_time (now : Z) (mapping : ConnectorPTMapping) (retries : Z) : option Z :=
  get_time_from_delta now (get_schedule_time mapping retries).

Definition add_refund_sync_task (now : Z) (mapping : ConnectorPTMapping) (source : ApplicationSource) (r : Refund) :
    refund_handler (ProcessTracker RefundCoreWorkflow) :=
  let at_ := default now (get_refund_sync_process_schedule_time now mapping 0) in
  on_processes (insert_process
    (new_process now (task_id "SYNC_REFUND" (internal_reference_id r)) "SYNC_REFUND"
       (internal_reference_id r) None at_ source)).

Definition add_refund_execute_task (now : Z) (source : ApplicationSource) (r : Refund) :
    refund_handler (ProcessTracker RefundCoreWorkflow) :=
  on_processes (insert_process
    (new_process now (task_id "EXECUTE_REFUND" (internal_reference_id r)) "EXECUTE_REFUND"
       (internal_reference_id r) None now source)).

(** ** Execution *)

(** [execute_refund_execute_via_direct]: an error of the call is answered once the
    refund is marked, when it is to be marked. *)
Definition execute_refund_execute_via_direct (now : Z) (call : gateway_result) (r : Refund) :
    refund_handler RefundAnswer :=
  match call with
  | Ok answer => sr_ret answer
  | Err e =>
      ((match connector_error_update e with
        | Some u => (_ <- update_refund now R_InternalServerError r u ;; sr_ret tt)
        | None => sr_ret tt
        end) ;;;
       sr_err (to_refund_failed_response e))
  end%sr.

Definition trigger_refund_to_gateway (now : Z) (call : gateway_result) (r : Refund) : refund_handler Refund :=
  (a <- sr_get refundable ;;
   _ <- sr_lift (ok_or R_InternalServerError (ra_connector a)) ;;
   _ <- sr_lift (ok_or R_InternalServerError (ra_currency a)) ;;
   answer <- execute_refund_execute_via_direct now call r ;;
   update_refund now R_InternalServerError r (execute_update answer))%sr.

Definition schedule_refund_execution (now : Z) (mapping : ConnectorPTMapping) (source : ApplicationSource)
    (refund_type : RefundType) (call : gateway_result) (r : Refund) : refund_handler Refund :=
  (refund_process <- sr_get (λ s, find_process_by_id (task_id "EXECUTE_REFUND" (internal_reference_id r)) (processes s)) ;;
   match refund_status r with
   | RefundStatus_Pending | RefundStatus_ManualReview =>
       match sent_to_gateway r, refund_process with
       | false, None =>
           match refund_type with
           | Scheduled => (_ <- add_refund_execute_task now source r ;; sr_ret r)
           | Instant =>
               (updated <- trigger_refund_to_gateway now call r ;;
                _ <- add_refund_sync_task now mapping source updated ;;
                sr_ret updated)
           end
       | _, _ =>
           match refund_type with
           | Scheduled => (_ <- add_refund_sync_task now mapping source r ;; sr_ret r)
           | Instant => sr_ret r
           end
       end
   | _ => sr_ret r
   end)%sr.

(** ** Creation *)

Record RefundRequest := mkRefundRequest {
  req_refund_id : option string;
  req_amount : option Z;
  req_refund_type : option RefundType;
  req_reason : option string;
  req_metadata : option string;
  req_other_merchant : bool;
}.

Record RefundSettings := mkRefundSettings {
  refund_max_age : Z;
  refund_max_attempts : nat;
  refund_mapping : ConnectorPTMapping;
  refund_source : ApplicationSource;
}.

Definition MAX_ID_LENGTH : nat := 64.

(** [get_or_generate_id], with the id that would be generated. *)
Definition get_or_generate_id (generated : string) (provided : option string) : result RefundError string :=
  match provided with
  | None => Ok generated
  | Some id => if decide (MAX_ID_LENGTH < String.length id) then Err (R_InvalidDataFormat "refund_id") else Ok id
  end.

(** What the world decides: the generated ids, the outcome of the split, the
    support of refunds by the connector and its answer. *)
Record RefundWorld := mkRefundWorld {
  generated_refund_id : string;
  generated_reference : string;
  split_outcome : result RefundError unit;
  refund_supported : bool;
  gateway_call : result ConnectorError RefundAnswer;
}.

(** The checks of [validate_and_create_refund] and the row that they lead to;
    nothing is written. *)
Definition validate_refund (now : Z) (conf : RefundSettings) (world : RefundWorld) (amount : Z)
    (req : RefundRequest) : refund_handler Refund :=
  (sr_lift (split_outcome world) ;;;
   id <- sr_lift (get_or_generate_id (generated_refund_id world) (req_refund_id req)) ;;
   (if req_other_merchant req then sr_err (R_InvalidDataFormat "merchant_id") else sr_ret tt) ;;;
   a <- sr_get refundable ;;
   i <- sr_get intent ;;
   txn <- sr_lift (ok_or R_InternalServerError (connector_transaction_id a)) ;;
   all_refunds <- sr_get (find_refunds_by_transaction_id txn) ;;
   cur <- sr_lift (ok_or (R_MissingRequiredField "currency") (ra_currency a)) ;;
   sr_lift (validate_payment_order_age now (pi_created_at i) (refund_max_age conf)) ;;;
   total <- sr_lift (map_err (λ _, R_Overflow) (get_total_amount (ra_net_amount a))) ;;
   sr_lift (validate_refund_amount (default total (amount_captured i)) all_refunds amount) ;;;
   sr_lift (validate_maximum_refund_against_payment_attempt all_refunds (refund_max_attempts conf)) ;;;
   conn <- sr_lift (ok_or R_InternalServerError (ra_connector a)) ;;
   (if refund_supported world then sr_ret tt else sr_err R_NotSupported) ;;;
   let '(txn_id, txn_data) := form_id_and_data blake3_hex txn in
   sr_ret (mkRefund (generated_reference world) id txn_id conn None total cur amount RefundStatus_Pending false
             None (req_metadata req) None now now (ra_attempt_id a) (req_reason req) None "" None None None
             txn_data None None))%sr.

(** The row is inserted. *)
Definition store_refund (r : Refund) : refund_handler unit := λ s,
  match insert_refund r s with
  | None => (Err R_DuplicateRefundRequest, s)
  | Some s' => (Ok tt, s')
  end.

(** The inserted row is executed; [i] is the intent that the request has read. *)
Definition execute_refund (now : Z) (conf : RefundSettings) (world : RefundWorld) (req : RefundRequest)
    (i : PaymentIntent) (r : Refund) : refund_handler Refund :=
  (updated <- schedule_refund_execution now (refund_mapping conf) (refund_source conf)
                (default Instant (req_refund_type req)) (gateway_call world) r ;;
   (if refund_is_success (refund_status updated)
    then sr_modify (spawn (RefreshRefunded (state_metadata i))) else sr_ret tt) ;;;
   sr_ret updated)%sr.

Definition validate_and_create_refund (now : Z) (conf : RefundSettings) (world : RefundWorld) (i : PaymentIntent)
    (amount : Z) (req : RefundRequest) : refund_handler Refund :=
  (r <- validate_refund now conf world amount req ;;
   store_refund r ;;;
   execute_refund now conf world req i r)%sr.

(** The checks of [refund_create_core]: the amount to refund. *)
Definition requested_refund_amount (req : RefundRequest) (i : PaymentIntent) : refund_handler Z :=
  ((if decide (pi_status i = IntentStatus_Succeeded ∨ pi_status i = IntentStatus_PartiallyCaptured)
    then sr_ret tt else sr_err (R_PaymentUnexpectedState (to_string (pi_status i)))) ;;;
   sr_lift (validate_amount_against_intent_state_metadata i (req_amount req)) ;;;
   sr_lift (prevent_refund_after_post_capture_void i) ;;;
   amount <- sr_lift (ok_or R_InternalServerError (or_keep (req_amount req) (amount_captured i))) ;;
   (if (amount <=? 0)%Z then sr_err (R_InvalidDataFormat "amount") else sr_ret tt) ;;;
   sr_ret amount)%sr.

Definition refund_create_core (now : Z) (conf : RefundSettings) (world : RefundWorld) (req : RefundRequest) :
    refund_handler Refund :=
  (i <- sr_get intent ;;
   amount <- requested_refund_amount req i ;;
   validate_and_create_refund now conf world i amount req)%sr.

(** A request up to the insertion of its row: the row that it is going to insert. *)
Definition admit_refund (now : Z) (conf : RefundSettings) (world : RefundWorld) (req : RefundRequest) :
    refund_handler Refund :=
  (i <- sr_get intent ;;
   amount <- requested_refund_amount req i ;;
   validate_refund now conf world amount req)%sr.

(** ** Synchronisation *)

Definition should_call_refund (r : Refund) (force_sync all_keys_required : bool) : bool :=
  all_keys_required ||
  force_sync && negb (bool_decide (refund_status r ∈ [RefundStatus_Failure; RefundStatus_Success])).

(** [sync_refund_with_gateway]: the update of the state metadata is spawned before
    the refund is updated. *)
Definition sync_refund_with_gateway (now : Z) (call : gateway_result) (r : Refund) : refund_handler Refund :=
  (a <- sr_get refundable ;;
   i <- sr_get intent ;;
   _ <- sr_lift (ok_or (R_MissingRequiredField "currency") (ra_currency a)) ;;
   answer <- sr_lift (map_err to_refund_failed_response call) ;;
   sr_modify (spawn (RefreshRefunded (state_metadata i))) ;;;
   update_refund now R_RefundNotFound r (sync_refund_update answer))%sr.

(** [refund_retrieve_core]; the translation of the unified message is not stored. *)
Definition refund_retrieve_core (now : Z) (force_sync all_keys_required : bool)
    (split_outcome : result RefundError unit) (call : gateway_result) (r : Refund) : refund_handler Refund :=
  (sr_lift split_outcome ;;;
   if should_call_refund r force_sync all_keys_required then sync_refund_with_gateway now call r
   else sr_ret r)%sr.

Definition refund_retrieve_core_with_refund_id (now : Z) (id : string) (force_sync all_keys_required : bool)
    (split_outcome : result RefundError unit) (call : gateway_result) : refund_handler Refund :=
  (found <- sr_get (find_refund_by_refund_id id) ;;
   r <- sr_lift (ok_or R_RefundNotFound found) ;;
   refund_retrieve_core now force_sync all_keys_required split_outcome call r)%sr.

Definition refund_retrieve_core_with_internal_reference_id (now : Z) (reference : string) (force_sync : bool)
    (split_outcome : result RefundError unit) (call : gateway_result) : refund_handler Refund :=
  (found <- sr_get (find_refund_by_internal_reference_id reference) ;;
   r <- sr_lift (ok_or R_RefundNotFound found) ;;
   refund_retrieve_core now force_sync false split_outcome call r)%sr.

(** ** Other updates *)

Definition refund_update_core (now : Z) (id : string) (metadata reason : option string) : refund_handler Refund :=
  (found <- sr_get (find_refund_by_refund_id id) ;;
   r <- sr_lift (ok_or R_RefundNotFound found) ;;
   update_refund now R_InternalServerError r (R_MetadataAndReasonUpdate metadata reason storage_scheme))%sr.

Definition refund_manual_update (now : Z) (id : string) (cid : option string) (st : option RefundStatus)
    (error_message error_code : option (option string)) : refund_handler unit :=
  (found <- sr_get (find_refund_by_refund_id id) ;;
   r <- sr_lift (ok_or R_RefundNotFound found) ;;
   _ <- update_refund now R_InternalServerError r
          (R_ManualUpdate (txn_id_from blake3_hex <$> cid) st error_message error_code storage_scheme) ;;
   sr_ret tt)%sr.

(** The refund status of an incoming webhook event. *)
Inductive RefundEvent := RefundSuccess | RefundFailure | OtherEvent.

Definition refund_status_of_event (e : RefundEvent) : result RefundError RefundStatus :=
  match e with
  | RefundSuccess => Ok RefundStatus_Success
  | RefundFailure => Ok RefundStatus_Failure
  | OtherEvent => Err R_WebhookProcessingFailure
  end.

(** [refunds_incoming_webhook_flow], up to the notification of the merchant. *)
Definition refunds_incoming_webhook_flow (now : Z) (source_verified : bool) (event : RefundEvent) (id : string)
    (split_outcome : result RefundError unit) (call : gateway_result) : refund_handler Refund :=
  (found <- sr_get (find_refund_by_refund_id id) ;;
   r <- sr_lift (ok_or R_WebhookResourceNotFound found) ;;
   updated <- (if source_verified then
                 (st <- sr_lift (refund_status_of_event event) ;;
                  update_refund now R_WebhookResourceNotFound r (R_StatusUpdate None true st storage_scheme None))
               else refund_retrieve_core_with_refund_id now (refund_id r) true false split_outcome call) ;;
   i <- sr_get intent ;;
   sr_modify (spawn (RefreshRefunded (state_metadata i))) ;;;
   sr_ret updated)%sr.

(** ** Workflows *)

(** [retry_refund_sync_task]: whether this was the last retry. *)
Definition retry_refund_sync_task (now : Z) (mapping : ConnectorPTMapping)
    (pt : ProcessTracker RefundCoreWorkflow) : refund_handler bool :=
  (match get_refund_sync_process_schedule_time now mapping (wrap_i32 (retry_count pt + 1)) with
   | Some s_time => (_ <- on_processes (retry_process now pt s_time) ;; sr_ret false)
   | None => (_ <- on_processes (finish_process_with_business_status now pt RETRIES_EXCEEDED) ;; sr_ret true)
   end)%sr.

Definition terminal_refund_statuses : list RefundStatus :=
  [RefundStatus_Success; RefundStatus_Failure; RefundStatus_TransactionFailure].

Definition sync_refund_with_gateway_workflow (now : Z) (mapping : ConnectorPTMapping)
    (split_outcome : result RefundError unit) (call : gateway_result)
    (pt : ProcessTracker RefundCoreWorkflow) : refund_handler unit :=
  (response <- refund_retrieve_core_with_internal_reference_id now (tracking_data pt) true split_outcome call ;;
   if bool_decide (refund_status response ∈ terminal_refund_statuses) then
     on_processes (finish_process_with_business_status now pt COMPLETED_BY_PT)
   else
     (is_last_retry <- retry_refund_sync_task now mapping pt ;;
      if is_last_retry && bool_decide (refund_status response = RefundStatus_Pending) &&
         bool_decide (connector_refund_id response = None) then
        (found <- sr_get (find_refund_by_internal_reference_id (tracking_data pt)) ;;
         r <- sr_lift (ok_or R_RefundNotFound found) ;;
         _ <- update_refund now R_InternalServerError r
                (R_StatusUpdate None (sent_to_gateway response) RefundStatus_ManualReview (updated_by r)
                   (processor_refund_data r)) ;;
         sr_ret tt)
      else sr_ret tt))%sr.

Definition trigger_refund_execute_workflow (now : Z) (mapping : ConnectorPTMapping) (source : ApplicationSource)
    (split_outcome : result RefundError unit) (call : gateway_result)
    (pt : ProcessTracker RefundCoreWorkflow) : refund_handler unit :=
  (found <- sr_get (find_refund_by_internal_reference_id (tracking_data pt)) ;;
   r <- sr_lift (ok_or R_RefundNotFound found) ;;
   match sent_to_gateway r, refund_status r with
   | false, RefundStatus_Pending =>
       (sr_lift split_outcome ;;;
        updated <- trigger_refund_to_gateway now call r ;;
        _ <- add_refund_sync_task now mapping source updated ;;
        sr_ret tt)
   | true, RefundStatus_Pending => (_ <- add_refund_sync_task now mapping source r ;; sr_ret tt)
   | _, _ => on_processes (finish_process_with_business_status now pt COMPLETED_BY_PT)
   end)%sr.

Definition start_refund_workflow (now : Z) (mapping : ConnectorPTMapping) (source : ApplicationSource)
    (split_outcome : result RefundError unit) (call : gateway_result)
    (pt : ProcessTracker RefundCoreWorkflow) : refund_handler unit :=
  match pt_name pt with
  | Some name =>
      if decide (name = "EXECUTE_REFUND"%string) then
        trigger_refund_execute_workflow now mapping source split_outcome call pt
      else if decide (name = "SYNC_REFUND"%string) then
        sync_refund_with_gateway_workflow now mapping split_outcome call pt
      else sr_err R_JobNotFound
  | None => sr_err R_JobNotFound
  end.

(** [RefundWorkflowRouter::error_handler] only logs. *)
Definition refund_error_handler (pt : ProcessTracker RefundCoreWorkflow) (e : RefundError) : refund_handler unit :=
  sr_ret tt.

(** [ProcessTrackerWorkflows::execute_workflow]. *)
Definition execute_workflow (now : Z) (execute : ProcessTracker RefundCoreWorkflow → refund_handler unit)
    (error_handler : ProcessTracker RefundCoreWorkflow → RefundError → refund_handler unit)
    (pt : ProcessTracker RefundCoreWorkflow) (s : RefundStore) : RefundStore :=
  match execute pt s with
  | (Ok _, s1) => s1
  | (Err e, s1) =>
      match error_handler pt e s1 with
      | (Ok _, s2) => s2
      | (Err _, s2) => (on_processes (finish_process_with_business_status now pt GLOBAL_FAILURE) s2).2
      end
  end.

(** The task [id] is due: the producer marks it and puts it into the stream, the
    consumer takes it out, marks it and starts the workflow. *)
Definition run_refund_task (now : Z) (mapping : ConnectorPTMapping) (source : ApplicationSource)
    (split_outcome : result RefundError unit) (call : gateway_result) (id : string) (s : RefundStore) :
    RefundStore :=
  match find_process_by_id id (processes s) with
  | Some pt =>
      if bool_decide (pt_status pt ∈ [ProcessTrackerStatus_New; ProcessTrackerStatus_Pending]) &&
         is_valid_business_status pt valid_business_statuses then
        let mark st := update_process_status_by_ids now [id] (PtStatusUpdate st None) in
        let s1 := set_processes (mark ProcessTrackerStatus_ProcessStarted
                    (mark ProcessTrackerStatus_Processing (processes s))) s in
        execute_workflow now (start_refund_workflow now mapping source split_outcome call) refund_error_handler
          (set_status ProcessTrackerStatus_ProcessStarted pt) s1
      else s
  | None => s
  end.

End tasks.
End answers.

(** ** State metadata *)

(** [update_intent_state_metadata_for_refund]. *)
Definition update_intent_state_metadata_for_refund (captured : option PaymentIntentStateMetadata) :
    refund_handler unit :=
  (l <- sr_get refunds ;;
   total <- sr_lift (sum_i64 (refund_amount <$> List.filter (λ r, refund_is_success (refund_status r)) l) 0) ;;
   sr_modify (set_state_metadata (with_total_refunded_amount total (default default_state_metadata captured))))%sr.

(** [update_intent_state_metadata_for_dispute]. *)
Definition update_intent_state_metadata_for_dispute (captured : option PaymentIntentStateMetadata) (d : Dispute) :
    refund_handler unit :=
  let m := default default_state_metadata captured in
  (total <- sr_lift (match total_disputed_amount m with
                     | Some a => ok_or R_Overflow (checked_i64 (a + dispute_amount d))
                     | None => Ok (dispute_amount d)
                     end) ;;
   sr_modify (set_state_metadata (with_total_disputed_amount total m)))%sr.

(** The oldest, or any other, spawned task runs. *)
Definition run_spawned (n : nat) : refund_handler unit := λ s,
  match spawned s !! n with
  | None => (Ok tt, s)
  | Some t =>
      let s' := mkRefundStore (intent s) (refundable s) (refunds s) (processes s) (disputes s)
                  (delete n (spawned s)) in
      match t with
      | RefreshRefunded captured => update_intent_state_metadata_for_refund captured s'
      | AddDisputed captured d => update_intent_state_metadata_for_dispute captured d s'
      end
  end.

(** ** Dispute webhooks *)

(** [DisputePayload], without the fields that are only stored once. *)
Record DisputePayload := mkDisputePayload {
  dp_amount : result RefundError Z;
  dp_stage : DisputeStage;
  dp_connector_status : string;
  dp_connector_dispute_id : string;
  dp_reason : option string;
  dp_reason_code : option string;
  dp_required_by : option Z;
  dp_updated_at : option Z;
}.

Definition update_dispute (now : Z) (d : Dispute) (u : DisputeUpdate) : refund_handler Dispute := λ s,
  match List.find (λ q, bool_decide (dispute_id q = dispute_id d)) (disputes s) with
  | None => (Err R_WebhookResourceNotFound, s)
  | Some row =>
      let row' := dispute_apply now (dispute_update_internal now u) row in
      (Ok row', set_disputes ((λ q, if decide (dispute_id q = dispute_id d) then row' else q) <$> disputes s) s)
  end.

(** [get_or_update_dispute_object], with the id that would be generated; the
    amount of the payload is converted from a string, which may fail. *)
Definition get_or_update_dispute_object (now : Z) (generated : string) (o : option Dispute) (p : DisputePayload)
    (st : DisputeStatus) : refund_handler Dispute :=
  match o with
  | None =>
      (amt <- sr_lift (dp_amount p) ;;
       let d := mkDispute generated (dp_stage p) st (dp_connector_status p) (dp_connector_dispute_id p)
                  (dp_reason p) (dp_reason_code p) (dp_required_by p) (dp_updated_at p) now "{}" amt in
       l <- sr_get disputes ;;
       if decide (generated ∈ dispute_id <$> l) then sr_err R_InternalServerError
       else (sr_modify (set_disputes (l ++ [d])) ;;; sr_ret d))%sr
  | Some d =>
      match validate_dispute_stage_and_dispute_status (dispute_stage d) (dispute_status d) (dp_stage p) st with
      | Err _ => sr_err R_WebhookBadRequest
      | Ok _ =>
          update_dispute now d (D_Update (dp_stage p) st (dp_connector_status p) (dp_reason p) (dp_reason_code p)
            (dp_required_by p) (dp_updated_at p))
      end
  end.

(** [disputes_incoming_webhook_flow], up to the notification of the merchant; the
    status is that of the event, when it is a dispute event. *)
Definition disputes_incoming_webhook_flow (now : Z) (source_verified : bool) (generated : string)
    (p : DisputePayload) (event : option DisputeStatus) : refund_handler Dispute :=
  if source_verified then
    (o <- sr_get (λ s, List.find (λ d, bool_decide (connector_dispute_id d = dp_connector_dispute_id p)) (disputes s)) ;;
     st <- sr_lift (ok_or R_WebhookProcessingFailure event) ;;
     d <- get_or_update_dispute_object now generated o p st ;;
     i <- sr_get intent ;;
     (if is_not_lost_or_none o && bool_decide (dispute_status d = DisputeStatus_DisputeLost)
      then sr_modify (spawn (AddDisputed (state_metadata i) d)) else sr_ret tt) ;;;
     sr_ret d)%sr
  else sr_err R_WebhookAuthenticationFailed.
