(* ===== verification/RefundFacts.v ===== *)
(** * Facts on refunds

    What the refunds of a payment take of the captured amount, and the invariant
    that every handler keeps. *)

From S2P Require Import Prelude Currency PaymentEnums PaymentStatus Captures Scheduler Disputes Refunds.

(** ** Sums *)

Definition sum (l : list Z) : Z := foldr Z.add 0%Z l.

Lemma sum_app l k : sum (l ++ k) = (sum l + sum k)%Z.
Proof. induction l as [|a l IH]; simpl; [done|]. rewrite IH. lia. Qed.

Lemma sum_nonneg l : Forall (λ a, 0 ≤ a)%Z l → (0 ≤ sum l)%Z.
Proof. induction 1; simpl; lia. Qed.

Lemma sum_le {A} (f g : A → Z) l : (∀ a, a ∈ l → f a ≤ g a)%Z → (sum (f <$> l) ≤ sum (g <$> l))%Z.
Proof.
  induction l as [|a l IH]; intros Hfg; [done|]. cbn. specialize (Hfg a) as Ha.
  assert (sum (f <$> l) ≤ sum (g <$> l))%Z by (apply IH; set_solver).
  assert (f a ≤ g a)%Z by (apply Ha; set_solver). unfold sum in *. cbn in *. lia.
Qed.

(** The checked sum of amounts that are not negative. *)
Lemma sum_i64_total l : ∀ acc,
  Forall (λ a, 0 ≤ a)%Z l → (0 ≤ acc)%Z → (acc + sum l ≤ i64_max)%Z → sum_i64 l acc = Ok (acc + sum l)%Z.
Proof.
  induction l as [|a l IH]; intros acc Hl Hacc Hmax; simpl in *; [f_equal; lia|].
  apply Forall_cons in Hl as [Ha Hl]. pose proof (sum_nonneg l Hl). unfold checked_i64.
  assert (in_i64 (acc + a) = true) as ->; [apply in_i64_spec; unfold i64_min; lia|].
  cbn [ok_or mbind result_bind]. rewrite IH by (done || lia). f_equal. lia.
Qed.

(** What a refund takes of the captured amount. *)
Definition taken (r : Refund) : Z := if counts_as_refunded r then refund_amount r else 0%Z.

Definition total_taken (l : list Refund) : Z := sum (taken <$> l).

Definition amounts_of (p : Refund → bool) (l : list Refund) : Z := sum (refund_amount <$> List.filter p l).

Lemma total_taken_filter l : amounts_of counts_as_refunded l = total_taken l.
Proof.
  unfold amounts_of, total_taken. induction l as [|r l IH]; [done|]. cbn [List.filter fmap list_fmap sum foldr].
  unfold taken at 1. destruct (counts_as_refunded r); cbn; unfold sum in *; rewrite IH; lia.
Qed.

Definition positive (l : list Refund) : Prop := Forall (λ r, 0 < refund_amount r)%Z l.

Lemma positive_amounts p l : positive l → Forall (λ a, 0 ≤ a)%Z (refund_amount <$> List.filter p l).
Proof.
  intros Hl. apply Forall_fmap, Forall_forall. intros r Hr. apply list_elem_of_In, filter_In in Hr as [Hr _].
  apply list_elem_of_In in Hr. unfold compose. pose proof (proj1 (Forall_forall _ _) Hl r Hr) as Hp. simpl in Hp. lia.
Qed.

(** Successful refunds are among the counted ones. *)
Lemma success_counts r : refund_is_success (refund_status r) = true → counts_as_refunded r = true.
Proof. unfold refund_is_success, counts_as_refunded. by destruct (refund_status r). Qed.

Lemma success_le_taken l : positive l →
  (amounts_of (λ r, refund_is_success (refund_status r)) l ≤ total_taken l)%Z.
Proof.
  unfold amounts_of, total_taken. induction 1 as [|r l Hr _ IH]; [simpl; lia|].
  cbn [List.filter]. rewrite fmap_cons. cbn [sum foldr]. fold (sum (taken <$> l)). unfold taken at 1.
  pose proof (success_counts r). destruct (refund_is_success (refund_status r)).
  - rewrite H by done. cbn. unfold sum in *. lia.
  - destruct (counts_as_refunded r); lia.
Qed.

(** ** Updates *)

Definition new_status (u : RefundUpdate) : option RefundStatus := ru_status (refund_update_internal 0 u).

Definition counted_status (s : RefundStatus) : bool :=
  bool_decide (s ≠ RefundStatus_Failure) && bool_decide (s ≠ RefundStatus_TransactionFailure).

(** The update does not count a refund again that had failed. *)
Definition no_revival (u : RefundUpdate) (r : Refund) : Prop :=
  counts_as_refunded r = false → from_option counted_status false (new_status u) = false.

Lemma counted_no_revival u r : counts_as_refunded r = true → no_revival u r.
Proof. intros Hr Hr'. congruence. Qed.

Lemma refund_apply_keeps now u r :
  let r' := refund_apply (refund_update_internal now u) r in
  refund_id r' = refund_id r ∧ internal_reference_id r' = internal_reference_id r ∧
  refund_amount r' = refund_amount r ∧ r_transaction_id r' = r_transaction_id r ∧
  refund_status r' = default (refund_status r) (new_status u).
Proof. by destruct u. Qed.

Lemma taken_apply now u r :
  (0 ≤ refund_amount r)%Z → no_revival u r →
  (taken (refund_apply (refund_update_internal now u) r) ≤ taken r)%Z.
Proof.
  intros Ha Hn. destruct (refund_apply_keeps now u r) as (_ & _ & Ham & _ & Hst).
  unfold taken, no_revival, counts_as_refunded in *. rewrite Ham, Hst.
  destruct (new_status u) as [st|]; simpl in *; [|lia].
  change (bool_decide (st ≠ RefundStatus_Failure) && bool_decide (st ≠ RefundStatus_TransactionFailure))
    with (counted_status st).
  destruct (bool_decide _ && bool_decide _); [destruct (counted_status st); lia|]. rewrite Hn by done. lia.
Qed.

Lemma update_refund_eq now e r u s :
  NoDup (refund_id <$> refunds s) → r ∈ refunds s →
  let r' := refund_apply (refund_update_internal now u) r in
  update_refund now e r u s =
    (Ok r', set_refunds ((λ q, if decide (refund_id q = refund_id r) then r' else q) <$> refunds s) s).
Proof. intros Hnd Hr. unfold update_refund. by rewrite (find_by_key refund_id _ r Hnd Hr). Qed.

(** ** The invariant *)

Section invariant.
(** The captured amount and the transaction id of the payment. *)
Variables (C : Z) (txn : string).

Definition metadata_ok (o : option PaymentIntentStateMetadata) : Prop :=
  (0 ≤ default 0 (o ≫= total_refunded_amount) ≤ C)%Z.

Definition spawned_ok (t : SpawnedTask) : Prop :=
  match t with RefreshRefunded o => metadata_ok o | AddDisputed o _ => metadata_ok o end.

Record refund_inv (s : RefundStore) : Prop := {
  ri_limit : ∀ total, get_total_amount (ra_net_amount (refundable s)) = Ok total →
               default total (amount_captured (intent s)) = C;
  ri_transaction : connector_transaction_id (refundable s) = Some txn;
  ri_refunds : Forall (λ r, r_transaction_id r = TxnId txn) (refunds s);
  ri_ids : NoDup (refund_id <$> refunds s);
  ri_positive : positive (refunds s);
  ri_taken : (total_taken (refunds s) ≤ C)%Z;
  ri_max : (C ≤ i64_max)%Z;
  ri_metadata : metadata_ok (state_metadata (intent s));
  ri_spawned : Forall spawned_ok (spawned s);
}.

(** The refunds may change to any list that takes no more. *)
Lemma refund_inv_refunds l s :
  refund_inv s → Forall (λ r, r_transaction_id r = TxnId txn) l → NoDup (refund_id <$> l) → positive l →
  (total_taken l ≤ C)%Z → refund_inv (set_refunds l s).
Proof. intros [] ????. by split. Qed.

Lemma refund_inv_processes l s : refund_inv s → refund_inv (set_processes l s).
Proof. intros []. by split. Qed.

Lemma refund_inv_disputes l s : refund_inv s → refund_inv (set_disputes l s).
Proof. intros []. by split. Qed.

Lemma refund_inv_spawn t s : refund_inv s → spawned_ok t → refund_inv (spawn t s).
Proof. intros [] Ht. split; try done. simpl. apply Forall_app. by split; [|constructor]. Qed.

Lemma refund_inv_metadata m s : refund_inv s → metadata_ok (Some m) → refund_inv (set_state_metadata m s).
Proof. intros [] Hm. by split. Qed.

Lemma refund_inv_amounts s r : refund_inv s → r ∈ refunds s → (0 ≤ refund_amount r)%Z.
Proof. intros H Hr. pose proof (proj1 (Forall_forall _ _) (ri_positive _ H) r Hr) as Hp. simpl in Hp. lia. Qed.

(** The update of a row that does not revive it; [r] is the refund as the handler
    has read it. *)
Lemma update_stored_safe now e r u s :
  refund_inv s → (∀ q, q ∈ refunds s → refund_id q = refund_id r → no_revival u q) →
  safe refund_inv (update_refund now e r u) s.
Proof.
  intros H Hu. unfold safe, update_refund.
  destruct (List.find _ (refunds s)) as [row|] eqn:Hfind; [|done]. cbn [snd].
  apply find_some in Hfind as [Hrow%list_elem_of_In Hrid%bool_decide_eq_true].
  destruct (refund_apply_keeps now u row) as (Hid & _ & Ham & Htxn & _).
  set (row' := refund_apply _ row) in *.
  assert (∀ q, q ∈ refunds s → refund_id q = refund_id r → q = row) as Huniq.
  { intros q Hq Heq. apply (key_inj refund_id (refunds s)); [apply H|done..|congruence]. }
  assert (∀ (P : Refund → Prop), Forall P (refunds s) → P row' →
    Forall P ((λ q, if decide (refund_id q = refund_id r) then row' else q) <$> refunds s)) as HP.
  { intros P Hall Hr'. apply Forall_fmap. eapply Forall_impl; [exact Hall|]. intros q Hq. unfold compose. by case_decide. }
  apply refund_inv_refunds; [done| | | |].
  - apply HP; [apply H|]. rewrite Htxn. by apply (proj1 (Forall_forall _ _) (ri_refunds _ H)).
  - rewrite <- list_fmap_compose. erewrite list_fmap_ext; [apply H|]. intros i q Hq. unfold compose.
    case_decide as Hd; [|done]. congruence.
  - apply HP; [apply H|]. rewrite Ham. by apply (proj1 (Forall_forall _ _) (ri_positive _ H)).
  - pose proof (ri_taken _ H) as Ht. unfold total_taken in *. rewrite <- list_fmap_compose.
    enough (sum (taken ∘ (λ q, if decide (refund_id q = refund_id r) then row' else q) <$> refunds s) ≤
      sum (taken <$> refunds s))%Z by lia.
    apply sum_le. intros q Hq. unfold compose. case_decide as Hd; [|lia].
    rewrite (Huniq q Hq Hd). apply taken_apply; [by apply (refund_inv_amounts s)|by apply Hu].
Qed.

Lemma update_refund_safe now e r u s :
  refund_inv s → r ∈ refunds s → no_revival u r → safe refund_inv (update_refund now e r u) s.
Proof.
  intros H Hr Hu. apply update_stored_safe; [done|]. intros q Hq Heq.
  by rewrite (key_inj refund_id (refunds s) q r) by (done || apply H).
Qed.

Lemma on_processes_safe {A} (c : sr (list (ProcessTracker string)) StorageError A) s :
  refund_inv s → safe refund_inv (on_processes c) s.
Proof.
  intros H. unfold safe, on_processes. destruct (c (processes s)) as [[a|[]] l]; by apply refund_inv_processes.
Qed.

(** ** The handlers *)

Section handlers.
Context `{TimeRange} (blake3_hex : string → string).
Context (gsm_refund gsm_authorize : ErrorResponse → option (option string * option string)) (scheme : string).

(** The answer to the execution of [r] does not count a stored refund again that had
    failed in the meantime. *)
Definition execution_honest (call : result ConnectorError RefundAnswer) (r : Refund) (s : RefundStore) : Prop :=
  ∀ q a, q ∈ refunds s → refund_id q = refund_id r → call = Ok a →
    no_revival (execute_update blake3_hex gsm_refund gsm_authorize scheme a) q.

Lemma counted_honest call r s :
  refund_inv s → r ∈ refunds s → counts_as_refunded r = true → execution_honest call r s.
Proof.
  intros Hs Hr Hc q a Hq Heq _. rewrite (key_inj refund_id (refunds s) q r) by (done || apply Hs).
  by apply counted_no_revival.
Qed.

Lemma trigger_refund_safe now call r s :
  refund_inv s → execution_honest call r s →
  safe refund_inv (trigger_refund_to_gateway blake3_hex gsm_refund gsm_authorize scheme now call r) s.
Proof.
  intros Hs Hh. unfold trigger_refund_to_gateway. apply safe_get_bind. do 2 (safe_step; [done|]).
  destruct call as [answer|e].
  - apply (update_stored_safe now R_InternalServerError r); [done|]. intros q Hq Heq. by apply Hh.
  - assert (safe refund_inv (execute_refund_execute_via_direct scheme now (Err e) r) s) as Hsafe.
    { cbn [execute_refund_execute_via_direct]. destruct (connector_error_update scheme e) as [u|] eqn:Hu; [|done].
      apply safe_bind; [|done]. apply safe_bind; [|done]. apply update_stored_safe; [done|].
      intros q _ _ _. by destruct e; simplify_eq/=. }
    apply safe_bind; [done|]. intros answer s1 Hrun. cbn [execute_refund_execute_via_direct] in Hrun.
    unfold sr_bind, sr_err in Hrun. by repeat case_match.
Qed.

Lemma add_sync_task_safe now mapping source r s :
  refund_inv s → safe refund_inv (add_refund_sync_task now mapping source r) s.
Proof. intros Hs. by apply on_processes_safe. Qed.

Lemma add_execute_task_safe now source r s :
  refund_inv s → safe refund_inv (add_refund_execute_task now source r) s.
Proof. intros Hs. by apply on_processes_safe. Qed.

Lemma schedule_execution_safe now mapping source refund_type call r s :
  refund_inv s → execution_honest call r s →
  safe refund_inv (schedule_refund_execution blake3_hex gsm_refund gsm_authorize scheme now mapping source
    refund_type call r) s.
Proof.
  intros Hs Hh. unfold schedule_refund_execution. apply safe_get_bind. cbv beta.
  repeat case_match; try by apply safe_ret.
  all: repeat safe_step; try done.
  all: eauto using add_sync_task_safe, add_execute_task_safe, trigger_refund_safe.
Qed.

(** *** Creation *)

Lemma found_refunds s : refund_inv s → find_refunds_by_transaction_id txn s = refunds s.
Proof.
  intros Hs. unfold find_refunds_by_transaction_id. apply filter_true. intros r Hr. apply bool_decide_eq_true.
  by rewrite (proj1 (Forall_forall _ _) (ri_refunds _ Hs) r Hr).
Qed.

Lemma captured_nonneg s : refund_inv s → (0 ≤ C)%Z.
Proof. intros Hs. pose proof (ri_metadata _ Hs) as Hm. unfold metadata_ok in Hm. lia. Qed.

(** The check of the amount compares with what the refunds leave. *)
Lemma refund_amount_check s amount :
  refund_inv s →
  validate_refund_amount C (refunds s) amount =
    if decide (total_taken (refunds s) + amount ≤ C)%Z then Ok tt else Err R_AmountExceedsPaymentAmount.
Proof.
  intros Hs. unfold validate_refund_amount.
  pose proof (positive_amounts counts_as_refunded _ (ri_positive _ Hs)) as Hpos.
  pose proof (sum_nonneg _ Hpos) as H0. pose proof (ri_taken _ Hs). pose proof (ri_max _ Hs).
  pose proof (captured_nonneg _ Hs). pose proof (total_taken_filter (refunds s)) as Hf. unfold amounts_of in Hf.
  rewrite sum_i64_total by (done || lia). simpl. unfold checked_i64.
  assert (in_i64 (C - (0 + sum (refund_amount <$> List.filter counts_as_refunded (refunds s)))) = true) as ->.
  { apply in_i64_spec. unfold i64_min, i64_max in *. lia. }
  simpl. case_match eqn:Hlt; case_decide; (done || lia).
Qed.

Lemma inserted_inv r s s' :
  refund_inv s → r_transaction_id r = TxnId txn → (0 < refund_amount r)%Z →
  (total_taken (refunds s) + refund_amount r ≤ C)%Z → insert_refund r s = Some s' →
  refund_inv s' ∧ r ∈ refunds s'.
Proof.
  intros Hs Htxn Hpos Hle. unfold insert_refund. case_decide as Hnew; [done|]. intros [= <-]. split.
  - apply refund_inv_refunds; [done| | | |].
    + apply Forall_app. split; [apply Hs|by constructor].
    + rewrite fmap_app. apply NoDup_app. split_and!; [apply Hs| |apply NoDup_singleton].
      intros x Hx ->%list_elem_of_singleton. done.
    + apply Forall_app. split; [apply Hs|by constructor].
    + unfold total_taken in *. rewrite fmap_app, sum_app. cbn. unfold taken at 2.
      destruct (counts_as_refunded r); lia.
  - simpl. apply elem_of_app. right. by apply list_elem_of_singleton.
Qed.

(** The transaction id is short enough to be stored as it is. *)
Hypothesis short_transaction_id : txn_id_from blake3_hex txn = TxnId txn.

(** A request is admitted for an amount that the refunds leave, and its row is new
    and pending; nothing is written yet. *)
Lemma validate_refund_ok now conf world amount req s r s' :
  refund_inv s → validate_refund blake3_hex now conf world amount req s = (Ok r, s') →
  s' = s ∧ r_transaction_id r = TxnId txn ∧ refund_amount r = amount ∧
  refund_status r = RefundStatus_Pending ∧ (total_taken (refunds s) + amount ≤ C)%Z.
Proof.
  intros Hs. pose proof (ri_limit _ Hs) as Hlimit. unfold validate_refund. unfold sr_bind, sr_get, sr_lift, sr_ret, sr_err.
  destruct (split_outcome world); [|done]. destruct (get_or_generate_id _ _); [|done].
  destruct (req_other_merchant req); [done|]. rewrite (ri_transaction _ Hs). cbn [ok_or]. rewrite found_refunds by done.
  destruct (ra_currency _); [|done]. cbn [ok_or]. destruct (validate_payment_order_age _ _ _); [|done].
  destruct (get_total_amount _) as [total|]; [|done]. cbn [map_err]. rewrite (Hlimit _ eq_refl), refund_amount_check by done.
  case_decide; [|done]. destruct (validate_maximum_refund_against_payment_attempt _ _); [|done].
  destruct (ra_connector _); [|done]. cbn [ok_or]. destruct (refund_supported world); [|done].
  unfold form_id_and_data. rewrite short_transaction_id. by intros [= <- <-].
Qed.

Lemma admit_refund_ok now conf world req s r s' :
  refund_inv s → admit_refund blake3_hex now conf world req s = (Ok r, s') →
  s' = s ∧ r_transaction_id r = TxnId txn ∧ (0 < refund_amount r)%Z ∧
  refund_status r = RefundStatus_Pending ∧ (total_taken (refunds s) + refund_amount r ≤ C)%Z.
Proof.
  intros Hs. unfold admit_refund, requested_refund_amount. unfold sr_bind, sr_get, sr_lift, sr_ret, sr_err.
  case_decide; [|done]. destruct (validate_amount_against_intent_state_metadata _ _); [|done].
  destruct (prevent_refund_after_post_capture_void _); [|done]. destruct (or_keep _ _) as [amount|]; [|done].
  cbn [ok_or]. destruct (amount <=? 0)%Z eqn:Hpos; [done|].
  intros (-> & ? & <- & ? & ?)%validate_refund_ok; [|done]. split_and!; (done || lia).
Qed.

(** The handler is the admission, the insertion and the execution. *)
Lemma refund_create_core_split now conf world req s :
  refund_create_core blake3_hex gsm_refund gsm_authorize scheme now conf world req s =
  (r <- admit_refund blake3_hex now conf world req ;;
   store_refund r ;;;
   execute_refund blake3_hex gsm_refund gsm_authorize scheme now conf world req (intent s) r)%sr s.
Proof.
  unfold refund_create_core, admit_refund, validate_and_create_refund, sr_bind, sr_get.
  by destruct (requested_refund_amount req (intent s) s) as [[]].
Qed.

Lemma admit_refund_reads now conf world req s : (admit_refund blake3_hex now conf world req s).2 = s.
Proof.
  enough (safe (λ s', s' = s) (admit_refund blake3_hex now conf world req) s) by done.
  unfold admit_refund. apply safe_get_bind. apply safe_bind.
  - unfold requested_refund_amount. case_decide; [|done]. by repeat (safe_step; try done).
  - intros amount s1 _ ->. unfold validate_refund. repeat (safe_step; try done).
    by destruct (form_id_and_data _ _).
Qed.

Lemma store_refund_safe r s :
  refund_inv s → r_transaction_id r = TxnId txn → (0 < refund_amount r)%Z →
  (total_taken (refunds s) + refund_amount r ≤ C)%Z → safe refund_inv (store_refund r) s.
Proof.
  intros Hs Htxn Hpos Hroom. unfold safe, store_refund.
  destruct (insert_refund r s) as [s'|] eqn:Hins; [|done]. by destruct (inserted_inv r s s').
Qed.

Lemma execute_refund_safe now conf world req i r s :
  refund_inv s → metadata_ok (state_metadata i) → execution_honest (gateway_call world) r s →
  safe refund_inv (execute_refund blake3_hex gsm_refund gsm_authorize scheme now conf world req i r) s.
Proof.
  intros Hs Hi Hh. unfold execute_refund. apply safe_bind; [by apply schedule_execution_safe|].
  intros updated s' _ Hs'. apply safe_bind; [|by intros]. case_match; [|done].
  by apply (refund_inv_spawn (RefreshRefunded _)).
Qed.

Lemma create_core_safe now conf world req s :
  refund_inv s →
  safe refund_inv (refund_create_core blake3_hex gsm_refund gsm_authorize scheme now conf world req) s.
Proof.
  intros Hs. unfold safe. rewrite refund_create_core_split.
  pose proof (admit_refund_reads now conf world req s) as Hreads. unfold sr_bind at 1.
  destruct (admit_refund _ _ _ _ _ s) as [[r|e] s1] eqn:Hadmit; cbn in Hreads; subst s1; [|done].
  destruct (admit_refund_ok _ _ _ _ _ _ _ Hs Hadmit) as (_ & Htxn & Hpos & Hst & Hroom).
  unfold sr_bind, store_refund. destruct (insert_refund r s) as [s'|] eqn:Hins; [|done].
  destruct (inserted_inv r s s') as [Hs' Hr]; [done..|]. apply execute_refund_safe; [done|apply Hs|].
  apply counted_honest; [done..|]. unfold counts_as_refunded. by rewrite Hst.
Qed.

(** *** Synchronisation *)

Lemma find_refund_elem p s r : List.find p (refunds s) = Some r → r ∈ refunds s ∧ p r = true.
Proof. intros [Hr Hp]%find_some. by apply list_elem_of_In in Hr. Qed.

Lemma sync_safe now call r s :
  refund_inv s → r ∈ refunds s → (∀ a, call = Ok a → no_revival (sync_refund_update blake3_hex scheme a) r) →
  safe refund_inv (sync_refund_with_gateway blake3_hex scheme now call r) s.
Proof.
  intros Hs Hr Hans. unfold sync_refund_with_gateway. repeat (safe_step; try done).
  destruct call as [answer|]; [|done].
  match goal with H : map_err _ (Ok _) = Ok _ |- _ => injection H as <- end.
  apply update_refund_safe; [|done|by apply Hans]. apply (refund_inv_spawn (RefreshRefunded _)); [done|apply Hs].
Qed.

Lemma retrieve_safe now force all_keys split call r s :
  refund_inv s → r ∈ refunds s → (∀ a, call = Ok a → no_revival (sync_refund_update blake3_hex scheme a) r) →
  safe refund_inv (refund_retrieve_core blake3_hex scheme now force all_keys split call r) s.
Proof.
  intros Hs Hr Hans. unfold refund_retrieve_core. repeat (safe_step; try done). case_match; [by apply sync_safe|done].
Qed.

(** What a handler that finds its refund needs of the refund. *)
Lemma found_safe {A} (p : Refund → bool) e (k : Refund → sr RefundStore RefundError A) s :
  refund_inv s → (∀ r, List.find p (refunds s) = Some r → r ∈ refunds s → p r = true → safe refund_inv (k r) s) →
  safe refund_inv (sr_bind (sr_get (λ s, List.find p (refunds s))) (λ found, sr_bind (sr_lift (ok_or e found)) k)) s.
Proof.
  intros Hs Hk. apply safe_get_bind, safe_lift_bind; [done|]. intros r Hr.
  destruct (List.find p (refunds s)) as [q|] eqn:Hfind; [|done]. injection Hr as <-.
  pose proof (find_refund_elem _ _ _ Hfind) as [??]. by apply Hk.
Qed.

(** An answer about the refunds that satisfy [p]. *)
Definition honest (p : Refund → bool) (call : result ConnectorError RefundAnswer) (s : RefundStore) : Prop :=
  ∀ r a, r ∈ refunds s → p r = true → call = Ok a → no_revival (sync_refund_update blake3_hex scheme a) r.

Lemma honest_answer p call s r :
  honest p call s → r ∈ refunds s → p r = true →
  ∀ a, call = Ok a → no_revival (sync_refund_update blake3_hex scheme a) r.
Proof. intros Hh Hr Hp a Ha. by apply (Hh r a). Qed.

Lemma retrieve_by_id_safe now id force all_keys split call s :
  refund_inv s → honest (λ r, bool_decide (refund_id r = id)) call s →
  safe refund_inv (refund_retrieve_core_with_refund_id blake3_hex scheme now id force all_keys split call) s.
Proof.
  intros Hs Hh. apply (found_safe (λ r, bool_decide (refund_id r = id))); [done|]. intros r _ Hr Hp.
  apply retrieve_safe; [done..|]. by eapply honest_answer.
Qed.

Lemma retrieve_by_reference_safe now reference force split call s :
  refund_inv s → honest (λ r, bool_decide (internal_reference_id r = reference)) call s →
  safe refund_inv
    (refund_retrieve_core_with_internal_reference_id blake3_hex scheme now reference force split call) s.
Proof.
  intros Hs Hh. apply (found_safe (λ r, bool_decide (internal_reference_id r = reference))); [done|]. intros r _ Hr Hp.
  apply retrieve_safe; [done..|]. by eapply honest_answer.
Qed.

Lemma update_core_safe now id metadata reason s :
  refund_inv s → safe refund_inv (refund_update_core scheme now id metadata reason) s.
Proof.
  intros Hs. apply (found_safe (λ r, bool_decide (refund_id r = id))); [done|]. intros r _ Hr _.
  by apply update_refund_safe.
Qed.

Lemma webhook_safe now (verified : bool) event id split call s :
  refund_inv s →
  (if verified then ∀ r st, r ∈ refunds s → refund_id r = id → refund_status_of_event event = Ok st →
     counts_as_refunded r = false → counted_status st = false
   else honest (λ r, bool_decide (refund_id r = id)) call s) →
  safe refund_inv (refunds_incoming_webhook_flow blake3_hex scheme now verified event id split call) s.
Proof.
  intros Hs Hh. apply (found_safe (λ r, bool_decide (refund_id r = id))); [done|].
  intros r _ Hr Hid%bool_decide_eq_true. apply safe_bind.
  - destruct verified.
    + repeat (safe_step; try done). apply update_refund_safe; [done..|]. intros Hc. by eapply Hh.
    + rewrite Hid. by apply retrieve_by_id_safe.
  - intros updated s' _ Hs'. repeat (safe_step; try done).
    apply (refund_inv_spawn (RefreshRefunded _)); [done|apply Hs'].
Qed.

(** *** Workflows *)

(** The refund that a retrieval returns is the one that is found again. *)
Lemma retrieve_found_again now reference force split call s response s' :
  NoDup (refund_id <$> refunds s) →
  refund_retrieve_core_with_internal_reference_id blake3_hex scheme now reference force split call s =
    (Ok response, s') →
  find_refund_by_internal_reference_id reference s' = Some response.
Proof.
  intros Hnd. unfold refund_retrieve_core_with_internal_reference_id, find_refund_by_internal_reference_id.
  unfold sr_bind at 1, sr_get. destruct (List.find _ (refunds s)) as [r|] eqn:Hfind; [|done].
  pose proof (find_refund_elem _ _ _ Hfind) as [Hr Hp].
  unfold sr_bind, sr_lift. cbn [ok_or]. unfold refund_retrieve_core, sr_bind, sr_lift.
  destruct split as [[]|]; [|done]. case_match; [|by intros [= <- <-]].
  unfold sync_refund_with_gateway, sr_bind, sr_get, sr_lift, sr_modify.
  destruct (ra_currency (refundable s)); [|done]. cbn [ok_or]. destruct call as [a|]; [|done]. cbn [map_err].
  rewrite update_refund_eq by done.
  intros [= <- <-]. cbn [set_refunds refunds spawn]. rewrite find_fmap.
  - rewrite Hfind. cbn. by rewrite decide_True.
  - intros q Hq. destruct (decide (refund_id q = refund_id r)); [|done]. rewrite (key_inj refund_id (refunds s) q r) by done.
    by destruct (refund_apply_keeps now (sync_refund_update blake3_hex scheme a) r) as (_ & -> & _).
Qed.

Lemma on_processes_refunds {A} (c : sr (list (ProcessTracker string)) StorageError A) s :
  refunds (on_processes c s).2 = refunds s.
Proof. unfold on_processes. by destruct (c (processes s)) as [[a|[]] l]. Qed.

Lemma retry_task_safe now mapping pt s : refund_inv s → safe refund_inv (retry_refund_sync_task now mapping pt) s.
Proof.
  intros Hs. unfold retry_refund_sync_task. case_match; repeat safe_step; try done; by apply on_processes_safe.
Qed.

Lemma retry_task_refunds now mapping pt s : refunds (retry_refund_sync_task now mapping pt s).2 = refunds s.
Proof.
  unfold retry_refund_sync_task. case_match; rewrite sr_bind_ret_snd; apply on_processes_refunds.
Qed.

Lemma sync_workflow_safe now mapping split call pt s :
  refund_inv s → honest (λ r, bool_decide (internal_reference_id r = tracking_data pt)) call s →
  safe refund_inv (sync_refund_with_gateway_workflow blake3_hex scheme now mapping split call pt) s.
Proof.
  intros Hs Hh. apply safe_bind; [by apply retrieve_by_reference_safe|]. intros response s1 Hresp Hs1.
  apply retrieve_found_again in Hresp; [|apply Hs]. case_match; [by apply on_processes_safe|].
  apply safe_bind; [by apply retry_task_safe|]. intros last s2 Hretry Hs2.
  assert (refunds s2 = refunds s1) as Hsame by (rewrite <- (retry_task_refunds now mapping pt s1); by rewrite Hretry).
  case_match eqn:Hlast; [|done]. apply andb_true_iff in Hlast as [[_ Hpend%bool_decide_eq_true]%andb_true_iff _].
  apply (found_safe (λ r, bool_decide (internal_reference_id r = tracking_data pt))); [done|].
  intros r Hfound Hr _. rewrite Hsame in Hfound. 
  assert (r = response) as -> by (unfold find_refund_by_internal_reference_id in *; congruence).
  apply safe_bind; [|by intros]. apply update_refund_safe; [done..|]. apply counted_no_revival.
  unfold counts_as_refunded. by rewrite Hpend.
Qed.

Lemma execute_workflow_safe now mapping source split call pt s :
  refund_inv s →
  safe refund_inv
    (trigger_refund_execute_workflow blake3_hex gsm_refund gsm_authorize scheme now mapping source split call pt) s.
Proof.
  intros Hs. apply (found_safe (λ r, bool_decide (internal_reference_id r = tracking_data pt))); [done|].
  intros r _ Hr _. repeat case_match; try by apply on_processes_safe.
  all: repeat safe_step; try done; try by apply on_processes_safe.
  apply trigger_refund_safe; [done|]. apply counted_honest; [done..|]. unfold counts_as_refunded.
  by match goal with H : refund_status r = _ |- _ => rewrite H end.
Qed.

Lemma start_workflow_safe now mapping source split call pt s :
  refund_inv s → honest (λ r, bool_decide (internal_reference_id r = tracking_data pt)) call s →
  safe refund_inv
    (start_refund_workflow blake3_hex gsm_refund gsm_authorize scheme now mapping source split call pt) s.
Proof.
  intros Hs Hh. unfold start_refund_workflow. repeat case_match; try done.
  - by apply execute_workflow_safe.
  - by apply sync_workflow_safe.
Qed.

End handlers.
(** *** Spawned tasks and disputes *)

Lemma metadata_default o : (0 ≤ C)%Z → metadata_ok o → metadata_ok (Some (default default_state_metadata o)).
Proof. intros HC. by destruct o. Qed.

Lemma refresh_safe o s :
  refund_inv s → metadata_ok o → safe refund_inv (update_intent_state_metadata_for_refund o) s.
Proof.
  intros Hs Ho. apply safe_get_bind, safe_lift_bind; [done|]. intros total Htotal.
  apply refund_inv_metadata; [done|]. unfold metadata_ok. cbn.
  set (p := λ r, refund_is_success (refund_status r)) in *. pose proof (success_le_taken _ (ri_positive _ Hs)) as Hle.
  pose proof (positive_amounts p _ (ri_positive _ Hs)) as Hpos. pose proof (sum_nonneg _ Hpos) as Hnn.
  pose proof (ri_taken _ Hs). pose proof (ri_max _ Hs). unfold amounts_of in Hle. fold p in Hle.
  rewrite sum_i64_total in Htotal by (done || lia). injection Htotal as <-. lia.
Qed.

Lemma add_disputed_safe o d s :
  refund_inv s → metadata_ok o → safe refund_inv (update_intent_state_metadata_for_dispute o d) s.
Proof.
  intros Hs Ho. apply safe_lift_bind; [done|]. intros total _. apply refund_inv_metadata; [done|].
  apply (metadata_default _ (captured_nonneg _ Hs)) in Ho. exact Ho.
Qed.

Lemma run_spawned_safe n s : refund_inv s → safe refund_inv (run_spawned n) s.
Proof.
  intros Hs. unfold safe, run_spawned. destruct (spawned s !! n) as [t|] eqn:Ht; [|done].
  pose proof (ri_spawned _ Hs) as Hall. pose proof (Forall_lookup_1 _ _ _ _ Hall Ht) as Hok.
  assert (refund_inv (mkRefundStore (intent s) (refundable s) (refunds s) (processes s) (disputes s)
    (delete n (spawned s)))) as Hs'.
  { destruct Hs. split; try done. by apply Forall_delete. }
  destruct t; [by apply refresh_safe|by apply add_disputed_safe].
Qed.

Lemma update_dispute_safe now d u s : refund_inv s → safe refund_inv (update_dispute now d u) s.
Proof. intros Hs. unfold safe, update_dispute. case_match; [by apply refund_inv_disputes|done]. Qed.

Lemma dispute_webhook_safe now verified generated p event s :
  refund_inv s → safe refund_inv (disputes_incoming_webhook_flow now verified generated p event) s.
Proof.
  intros Hs. unfold disputes_incoming_webhook_flow. case_match; [|done]. repeat (safe_step; try done).
  - unfold get_or_update_dispute_object. case_match; [case_match; [by apply update_dispute_safe|done]|].
    repeat (safe_step; try done). case_decide; [done|]. by apply refund_inv_disputes.
  - case_match; [|done]. apply (refund_inv_spawn (AddDisputed _ _)); [done|].
    match goal with H : refund_inv ?s' |- spawned_ok (AddDisputed (state_metadata (intent ?s')) _) => apply H end.
Qed.

End invariant.
