(* ===== verification/RefundTheorems.v ===== *)
(** * Theorems on refunds

    The refunds of a payment stay within its captured amount, through any
    sequence of requests, synchronisations, webhooks, workflows and delayed
    updates of the state metadata, as long as no two requests are checked before
    either is stored; what two such requests do; what a request is checked for;
    and where the checks can be passed by. *)

From stdpp Require Import relations.
From S2P Require Import Prelude Currency PaymentEnums PaymentStatus Captures Scheduler Disputes Refunds RefundFacts.

(** ** The limit *)

Section limit.
Context `{TimeRange} (blake3_hex : string → string).
Context (gsm_refund gsm_authorize : ErrorResponse → option (option string * option string)) (scheme : string).




(** A payment of which [C] was captured and nothing was refunded. *)
Record captured_payment (C : Z) (txn : string) (s : RefundStore) : Prop := {
  cp_captured : amount_captured (intent s) = Some C;
  cp_range : (0 ≤ C ≤ i64_max)%Z;
  cp_transaction : connector_transaction_id (refundable s) = Some txn;
  cp_refunds : refunds s = [];
  cp_metadata : state_metadata (intent s) ≫= total_refunded_amount = None;
  cp_spawned : spawned s = [];
}.

Lemma captured_payment_inv C txn s : captured_payment C txn s → refund_inv C txn s.
Proof.
  intros []. split; rewrite ?cp_refunds0, ?cp_spawned0, ?cp_captured0; try done; try lia.
  - constructor.
  - constructor.
  - unfold total_taken. simpl. lia.
  - unfold metadata_ok. rewrite cp_metadata0. simpl. lia.
Qed.






(** A pending row that is stored takes its amount. *)
Lemma pending_total r l :
  refund_status r = RefundStatus_Pending → total_taken (l ++ [r]) = (total_taken l + refund_amount r)%Z.
Proof.
  intros Hst. unfold total_taken. rewrite fmap_app, sum_app. cbn.
  assert (taken r = refund_amount r) as -> by (unfold taken, counts_as_refunded; by rewrite Hst). lia.
Qed.

Lemma store_refund_new r s :
  refund_id r ∉ refund_id <$> refunds s → store_refund r s = (Ok tt, set_refunds (refunds s ++ [r]) s).
Proof. intros Hnew. unfold store_refund, insert_refund. by rewrite decide_False. Qed.

(** The amount of an admitted request depends on the intent alone. *)
Lemma admitted_amount C txn now conf world req s r s1 r1 s1' :
  txn_id_from blake3_hex txn = TxnId txn → refund_inv C txn s → refund_inv C txn s1 → intent s1 = intent s →
  admit_refund blake3_hex now conf world req s = (Ok r, s) →
  admit_refund blake3_hex now conf world req s1 = (Ok r1, s1') → refund_amount r1 = refund_amount r.
Proof.
  intros Hshort Hs Hs1 Hi. unfold admit_refund, requested_refund_amount.
  unfold sr_bind, sr_get, sr_lift, sr_ret, sr_err. rewrite Hi.
  case_decide; [|done]. destruct (validate_amount_against_intent_state_metadata _ _); [|done].
  destruct (prevent_refund_after_post_capture_void _); [|done]. destruct (or_keep _ _) as [amount|]; [|done].
  cbn [ok_or]. destruct (amount <=? 0)%Z; [done|].
  intros (_ & _ & -> & _)%(validate_refund_ok C txn blake3_hex Hshort); [|done].
  by intros (_ & _ & -> & _)%(validate_refund_ok C txn blake3_hex Hshort).
Qed.

(** [C38] The refund routes take no lock.  Take two requests, with refund ids that are
    new and different, of a payment that satisfies the invariant of its refunds and
    whose transaction id is short enough to be stored as it is.  When both are checked
    before either is stored, each is within the captured amount on its own and both
    are stored, so that the refunds take the sum of both amounts.  When that sum is
    above the captured amount, a check of the second request after the first one is
    stored would have refused it. *)
Theorem concurrent_refunds_exceed C txn s now1 conf1 world1 req1 r1 now2 conf2 world2 req2 r2 :
  txn_id_from blake3_hex txn = TxnId txn → refund_inv C txn s →
  admit_refund blake3_hex now1 conf1 world1 req1 s = (Ok r1, s) →
  admit_refund blake3_hex now2 conf2 world2 req2 s = (Ok r2, s) →
  refund_id r1 ≠ refund_id r2 → refund_id r1 ∉ refund_id <$> refunds s → refund_id r2 ∉ refund_id <$> refunds s →
  let taken_by l := amounts_of counts_as_refunded l in
  ∃ s1 s2, store_refund r1 s = (Ok tt, s1) ∧ store_refund r2 s1 = (Ok tt, s2) ∧
    (taken_by (refunds s) + refund_amount r1 ≤ C)%Z ∧ (taken_by (refunds s) + refund_amount r2 ≤ C)%Z ∧
    taken_by (refunds s2) = (taken_by (refunds s) + refund_amount r1 + refund_amount r2)%Z ∧
    ((C < taken_by (refunds s2))%Z → is_ok (admit_refund blake3_hex now2 conf2 world2 req2 s1).1 = false).
Proof.
  intros Hshort Hs H1 H2 Hne Hnew1 Hnew2 taken_by. subst taken_by. cbn beta.
  destruct (admit_refund_ok C txn blake3_hex Hshort _ _ _ _ _ _ _ Hs H1) as (_ & Htxn1 & Hpos1 & Hst1 & Hroom1).
  destruct (admit_refund_ok C txn blake3_hex Hshort _ _ _ _ _ _ _ Hs H2) as (_ & _ & _ & Hst2 & Hroom2).
  pose proof (pending_total _ (refunds s) Hst1) as Hsum1.
  pose proof (pending_total _ (refunds s ++ [r1]) Hst2) as Hsum2.
  exists (set_refunds (refunds s ++ [r1]) s), (set_refunds ((refunds s ++ [r1]) ++ [r2]) s).
  rewrite !total_taken_filter. cbn [set_refunds refunds].
  split_and!; [by apply store_refund_new|rewrite store_refund_new; [done|]|done|done|lia|].
  { cbn. rewrite fmap_app. intros [?|Heq]%elem_of_app; [done|]. apply list_elem_of_singleton in Heq. by apply Hne. }
  intros Hover. destruct (admit_refund _ _ _ _ _ (set_refunds _ s)) as [[r|] s'] eqn:Hlate; [exfalso|done].
  assert (refund_inv C txn (set_refunds (refunds s ++ [r1]) s)) as Hs1.
  { pose proof (store_refund_safe C txn r1 s Hs Htxn1 Hpos1 Hroom1) as Hsafe. unfold safe in Hsafe.
    by rewrite store_refund_new in Hsafe. }
  pose proof (admitted_amount _ _ _ _ _ _ _ _ _ _ _ Hshort Hs Hs1 eq_refl H2 Hlate) as Ham.
  destruct (admit_refund_ok C txn blake3_hex Hshort _ _ _ _ _ _ _ Hs1 Hlate) as (_ & _ & _ & _ & Hroom).
  cbn [set_refunds refunds] in Hroom. lia.
Qed.

End limit.

(** ** What a request is checked for *)

Section creation.
Context `{TimeRange} (blake3_hex : string → string).
Context (gsm_refund gsm_authorize : ErrorResponse → option (option string * option string)) (scheme : string).
Context (C : Z) (txn : string).

Definition blocked_of (i : PaymentIntent) : Z :=
  let m := default default_state_metadata (state_metadata i) in
  (default 0 (total_disputed_amount m) + default 0 (total_refunded_amount m))%Z.

(** The request for [amount] under the id [id] is admissible. *)
Record admissible (now : Z) (conf : RefundSettings) (world : RefundWorld) (req : RefundRequest) (s : RefundStore)
    (amount : Z) (id : string) : Prop := {
  ad_status : pi_status (intent s) = IntentStatus_Succeeded ∨ pi_status (intent s) = IntentStatus_PartiallyCaptured;
  ad_blocked : (blocked_of (intent s) + default 0 (req_amount req) ≤ default 0 (amount_captured (intent s)))%Z;
  ad_not_voided : default false (post_capture_void_issued <$> state_metadata (intent s)) = false;
  ad_amount : or_keep (req_amount req) (amount_captured (intent s)) = Some amount;
  ad_positive : (0 < amount)%Z;
  ad_split : split_outcome world = Ok tt;
  ad_id : get_or_generate_id (generated_refund_id world) (req_refund_id req) = Ok id;
  ad_merchant : req_other_merchant req = false;
  ad_currency : is_Some (ra_currency (refundable s));
  ad_age : (Z.quot (now - pi_created_at (intent s)) ns_per_day ≤ refund_max_age conf)%Z;
  ad_total : ∃ total, get_total_amount (ra_net_amount (refundable s)) = Ok total;
  ad_room : (total_taken (refunds s) + amount ≤ C)%Z;
  ad_attempts : length (refunds s) ≤ refund_max_attempts conf;
  ad_connector : is_Some (ra_connector (refundable s));
  ad_supported : refund_supported world = true;
  ad_new : id ∉ refund_id <$> refunds s;
}.

(** The status of the row that an admitted request leaves. *)
Definition created_status (world : RefundWorld) (req : RefundRequest) : RefundStatus :=
  match default Instant (req_refund_type req), gateway_call world with
  | Instant, Ok answer =>
      default RefundStatus_Pending (new_status (execute_update blake3_hex gsm_refund gsm_authorize scheme answer))
  | Instant, Err (NotImplemented _ | FlowNotSupported _ _ | NotSupported _ _) => RefundStatus_Failure
  | Instant, Err (OtherConnectorError _) | Scheduled, _ => RefundStatus_Pending
  end.

(** The row that an admitted request inserts, and what its execution makes of it. *)
Lemma update_last l r r' :
  refund_id r ∉ refund_id <$> l →
  (λ q, if decide (refund_id q = refund_id r) then r' else q) <$> (l ++ [r]) = l ++ [r'].
Proof.
  intros Hr. rewrite fmap_app. cbn. rewrite decide_True by done. f_equal.
  rewrite <- (list_fmap_id l) at 2. apply list_fmap_ext. intros i q Hq. apply list_elem_of_lookup_2 in Hq.
  rewrite decide_False; [done|]. intros Heq. apply Hr. rewrite <- Heq. by apply list_elem_of_fmap_2.
Qed.

Lemma then_task {A B} (c : sr (list (ProcessTracker string)) StorageError A) (b : B) s res s' :
  sr_bind (on_processes c) (λ _, sr_ret b) s = (res, s') → refunds s' = refunds s ∧ ∀ q, res = Ok q → q = b.
Proof.
  pose proof (on_processes_refunds c s) as Hsame. unfold sr_bind, sr_ret.
  destruct (on_processes c s) as [[] ?]; intros [= <- <-]; naive_solver.
Qed.

(** What the call of the connector makes of the row [r], the last one. *)
Definition executed_row (now : Z) (call : result ConnectorError RefundAnswer) (r : Refund) : Refund :=
  match match call with
        | Ok a => Some (execute_update blake3_hex gsm_refund gsm_authorize scheme a)
        | Err e => connector_error_update scheme e
        end with
  | Some u => refund_apply (refund_update_internal now u) r
  | None => r
  end.

Lemma update_last_eq now e r u s l :
  refund_inv C txn s → refunds s = l ++ [r] →
  let r' := refund_apply (refund_update_internal now u) r in
  update_refund now e r u s = (Ok r', set_refunds (l ++ [r']) s).
Proof.
  intros Hs Hl r'. assert (refund_id r ∉ refund_id <$> l) as Hnew.
  { pose proof (ri_ids _ _ _ Hs) as Hnd. rewrite Hl, fmap_app in Hnd. apply NoDup_app in Hnd as (_ & Hnd & _).
    intros Hin. apply (Hnd _ Hin). by apply list_elem_of_singleton. }
  rewrite update_refund_eq by (apply Hs || (rewrite Hl; set_solver)). by rewrite Hl, update_last.
Qed.

Lemma trigger_refund_eq now call r s l :
  refund_inv C txn s → refunds s = l ++ [r] →
  is_Some (ra_connector (refundable s)) → is_Some (ra_currency (refundable s)) →
  trigger_refund_to_gateway blake3_hex gsm_refund gsm_authorize scheme now call r s =
    (match call with Ok _ => Ok (executed_row now call r) | Err e => Err (to_refund_failed_response e) end,
     set_refunds (l ++ [executed_row now call r]) s).
Proof.
  intros Hs Hl [conn Hconn] [cur Hcur]. unfold trigger_refund_to_gateway, sr_bind, sr_get, sr_lift.
  rewrite Hconn, Hcur. cbn [ok_or]. unfold executed_row. destruct call as [a|e]; cbn [execute_refund_execute_via_direct].
  - unfold sr_ret. by rewrite (update_last_eq _ _ _ _ s l).
  - unfold sr_bind, sr_ret, sr_err. destruct (connector_error_update scheme e) as [u|].
    + by rewrite (update_last_eq _ _ _ _ s l).
    + rewrite <- Hl. by destruct s.
Qed.

Lemma executed_row_status now call r :
  refund_status r = RefundStatus_Pending →
  refund_status (executed_row now call r) =
    match call with
    | Ok answer =>
        default RefundStatus_Pending (new_status (execute_update blake3_hex gsm_refund gsm_authorize scheme answer))
    | Err (OtherConnectorError _) => RefundStatus_Pending
    | Err _ => RefundStatus_Failure
    end.
Proof.
  intros Hr. unfold executed_row. destruct call as [a|[]]; [|done..].
  destruct (refund_apply_keeps now (execute_update blake3_hex gsm_refund gsm_authorize scheme a) r) as (_ & _ & _ & _ & Hst).
  by rewrite Hst, Hr.
Qed.

Lemma executed_row_keeps now call r :
  refund_id (executed_row now call r) = refund_id r ∧ refund_amount (executed_row now call r) = refund_amount r.
Proof.
  unfold executed_row. destruct (match call with Ok _ => _ | Err _ => _ end) as [u|]; [|done].
  by destruct (refund_apply_keeps now u r) as (? & _ & ? & _).
Qed.

Lemma schedule_execution_effect now world conf req r s res s' l :
  refund_inv C txn s → refunds s = l ++ [r] → is_Some (ra_connector (refundable s)) →
  is_Some (ra_currency (refundable s)) → refund_status r = RefundStatus_Pending → sent_to_gateway r = false →
  find_process_by_id (task_id "EXECUTE_REFUND" (internal_reference_id r)) (processes s) = None →
  schedule_refund_execution blake3_hex gsm_refund gsm_authorize scheme now (refund_mapping conf) (refund_source conf)
    (default Instant (req_refund_type req)) (gateway_call world) r s = (res, s') →
  ∃ row, refunds s' = l ++ [row] ∧ refund_id row = refund_id r ∧ refund_amount row = refund_amount r ∧
    refund_status row = created_status world req ∧ ∀ q, res = Ok q → q = row.
Proof.
  intros Hs Hl Hconn Hcur Hst Hsent Hproc. unfold schedule_refund_execution, created_status.
  unfold sr_bind at 1, sr_get. rewrite Hproc, Hst, Hsent.
  destruct (default Instant (req_refund_type req)).
  - intros [Hsame Hres]%then_task. exists r. by rewrite Hsame.
  - unfold sr_bind at 1. rewrite (trigger_refund_eq now _ r s l) by done.
    destruct (executed_row_keeps now (gateway_call world) r) as [Hid Ham].
    pose proof (executed_row_status now (gateway_call world) r Hst) as Hrow.
    set (row := executed_row now (gateway_call world) r) in *.
    destruct (gateway_call world) as [a|e].
    + intros [Hsame Hres]%then_task. exists row. by rewrite Hsame.
    + intros [= <- <-]. exists row. split_and!; done.
Qed.

Lemma insert_new r s : refund_id r ∉ refund_id <$> refunds s → insert_refund r s = Some (set_refunds (refunds s ++ [r]) s).
Proof. intros Hr. unfold insert_refund. by rewrite decide_False. Qed.

(** The inserted row is executed, and the update of the metadata is spawned. *)
Lemma inserted_execution_effect now world conf req i r s res s' :
  refund_inv C txn s → r_transaction_id r = TxnId txn → (0 < refund_amount r)%Z →
  (total_taken (refunds s) + refund_amount r ≤ C)%Z → refund_id r ∉ refund_id <$> refunds s →
  is_Some (ra_connector (refundable s)) → is_Some (ra_currency (refundable s)) →
  refund_status r = RefundStatus_Pending → sent_to_gateway r = false →
  find_process_by_id (task_id "EXECUTE_REFUND" (internal_reference_id r)) (processes s) = None →
  execute_refund blake3_hex gsm_refund gsm_authorize scheme now conf world req i r
    (set_refunds (refunds s ++ [r]) s) = (res, s') →
  ∃ row, refunds s' = refunds s ++ [row] ∧ refund_id row = refund_id r ∧ refund_amount row = refund_amount r ∧
    refund_status row = created_status world req ∧ ∀ q, res = Ok q → q = row.
Proof.
  intros Hs Htxn Hpos Hroom Hnew Hconn Hcur Hst Hsent Hproc.
  destruct (inserted_inv C txn r s (set_refunds (refunds s ++ [r]) s)) as [Hs1 _]; [by try apply insert_new..|].
  unfold execute_refund, sr_bind at 1. destruct (schedule_refund_execution _ _ _ _ _ _ _ _ _ _ _) as [res1 s1] eqn:Hrun.
  destruct (schedule_execution_effect now world conf req r _ res1 s1 (refunds s) Hs1)
    as (row & Hrows & Hid & Ham & Hstatus & Hres); [done..|].
  destruct res1 as [q|e]; [|intros [= <- <-]; exists row; naive_solver].
  rewrite (Hres q eq_refl). unfold sr_bind, sr_modify, sr_ret.
  destruct (refund_is_success _); intros [= <- <-]; exists row; naive_solver.
Qed.

Lemma intent_amount_check i requested :
  in_i64 (blocked_of i) = true → in_i64 (blocked_of i + default 0%Z requested) = true →
  validate_amount_against_intent_state_metadata i requested =
    if decide (blocked_of i + default 0 requested ≤ default 0 (amount_captured i))%Z then Ok tt
    else Err R_AmountExceedsPaymentAmount.
Proof.
  intros H1 H2. unfold validate_amount_against_intent_state_metadata, get_blocked_amount.
  fold (blocked_of i). unfold checked_i64. rewrite H1. cbn [ok_or mbind result_bind]. rewrite H2. simpl.
  case_match eqn:Hlt; case_decide; (done || lia).
Qed.

(** A request that fails a check. *)
Ltac refused :=
  let Hrun := fresh "Hrun" in
  intros Hrun; cbv [sr_bind sr_err sr_lift ok_or] in Hrun; injection Hrun as <- <-; right;
  split_and!; [done|done|intros ?? []];
  repeat match goal with H : is_Some _ |- _ => destruct H | H : ∃ _, _ |- _ => destruct H end; simplify_eq/=; (done || lia || tauto || congruence).

(** [C22] Take a payment that satisfies the invariant of its refunds, whose
    transaction id is short enough to be stored as it is and whose sums fit an [i64],
    and a generated reference that has no execution task yet.  A refund request is
    refused, leaving the store as it was, exactly when it is not admissible.
    Otherwise it adds exactly one refund for the amount, whose status follows from
    the answer of the connector or from the error of its call, and a returned refund
    is the stored one. *)
Theorem refund_create_outcome now conf world req s res s' :
  txn_id_from blake3_hex txn = TxnId txn → refund_inv C txn s →
  in_i64 (blocked_of (intent s)) = true → in_i64 (blocked_of (intent s) + default 0%Z (req_amount req)) = true →
  find_process_by_id (task_id "EXECUTE_REFUND" (generated_reference world)) (processes s) = None →
  refund_create_core blake3_hex gsm_refund gsm_authorize scheme now conf world req s = (res, s') →
  (∃ amount id row, admissible now conf world req s amount id ∧ refunds s' = refunds s ++ [row] ∧
     refund_id row = id ∧ refund_amount row = amount ∧ refund_status row = created_status world req ∧
     ∀ r, res = Ok r → r = row) ∨
  (is_ok res = false ∧ s' = s ∧ ∀ amount id, ¬ admissible now conf world req s amount id).
Proof.
  intros Hshort Hs Hb Hbr Hproc. rewrite refund_create_core_split.
  unfold admit_refund, requested_refund_amount, validate_refund. unfold sr_bind, sr_get, sr_lift, sr_ret, sr_err.
  case_decide; [|refused]. rewrite intent_amount_check by done.
  case_decide; [|refused]. cbn [ok_or]. unfold prevent_refund_after_post_capture_void.
  destruct (default false _) eqn:Hvoid; [refused|]. cbn [ok_or].
  destruct (or_keep _ _) as [amount|] eqn:Hamount; [|refused]. cbn [ok_or].
  destruct (amount <=? 0)%Z eqn:Hpos; [refused|].
  destruct (split_outcome world) as [[]|] eqn:Hsplit; [|refused]. cbn [ok_or].
  destruct (get_or_generate_id _ _) as [id|] eqn:Hid; [|refused]. cbn [ok_or].
  destruct (req_other_merchant req) eqn:Hother; [refused|]. cbn [ok_or].
  rewrite (ri_transaction _ _ _ Hs). cbn [ok_or]. rewrite (found_refunds C txn) by done.
  destruct (ra_currency (refundable s)) as [cur|] eqn:Hcur; [|refused]. cbn [ok_or].
  unfold validate_payment_order_age. destruct (_ <? _)%Z eqn:Hage; [refused|]. cbn [ok_or].
  destruct (get_total_amount _) as [total|] eqn:Htotal; [|refused]. cbn [map_err]. cbn [ok_or].
  rewrite (ri_limit _ _ _ Hs total) by done. rewrite (refund_amount_check C txn) by done.
  case_decide; [|refused]. cbn [ok_or]. unfold validate_maximum_refund_against_payment_attempt.
  case_decide; [refused|]. cbn [ok_or].
  destruct (ra_connector (refundable s)) as [conn|] eqn:Hconn; [|refused]. cbn [ok_or].
  destruct (refund_supported world) eqn:Hsupported; [|refused]. cbn [ok_or].
  assert (form_id_and_data blake3_hex txn = (TxnId txn, None)) as ->.
  { unfold form_id_and_data. by rewrite Hshort. }
  cbn [ok_or]. set (r := mkRefund _ _ _ _ _ _ _ _ _ _ _ _ _ _ _ _ _ _ _ _ _ _ _ _ _).
  destruct (decide (id ∈ refund_id <$> refunds s)) as [Hold|Hnew].
  { unfold store_refund, insert_refund. rewrite decide_True by done. refused. }
  unfold store_refund. rewrite insert_new by done. intros Hrun. left.
  destruct (inserted_execution_effect now world conf req (intent s) r s res s')
    as (row & Hrows); [try (done || (cbn; lia))..|].
  exists amount, id, row. split; [|done]. split; try (done || lia). by exists total.
Qed.

End creation.

(** ** Long transaction ids *)

(** The refunds of a payment whose transaction id is longer than 128
    characters are stored under the hash of the id but looked up by the id: a new
    request sees none of them, and the check of its amount only compares it with
    the captured amount. *)
Theorem long_transaction_ids_uncounted blake3_hex txn s captured amount :
  128 < String.length txn → String.prefix "hs_hash_" txn = false →
  Forall (λ r, r_transaction_id r = (form_id_and_data blake3_hex txn).1) (refunds s) → in_i64 captured = true →
  find_refunds_by_transaction_id txn s = [] ∧
  (validate_refund_amount captured (find_refunds_by_transaction_id txn s) amount = Ok tt ↔ (amount ≤ captured)%Z).
Proof.
  intros Hlong Hprefix Hrows Hin.
  assert (find_refunds_by_transaction_id txn s = []) as Hnone; [|rewrite Hnone; split; [done|]].
  - unfold find_refunds_by_transaction_id. induction Hrows as [|r l Hr _ IH]; [done|]. cbn [List.filter].
    rewrite bool_decide_false; [exact IH|]. rewrite Hr. unfold form_id_and_data, txn_id_from.
    rewrite Hprefix, decide_True by done. cbn. intros Heq. rewrite <- Heq in Hprefix. by destruct (blake3_hex txn).
  - unfold validate_refund_amount, checked_i64. cbn. rewrite Z.sub_0_r, Hin. cbn.
    destruct (captured <? amount)%Z eqn:Hlt; split; (done || lia).
Qed.

(** ** Example: a payment of 1000 *)

Module RefundExample.

#[export] Instance all_times : TimeRange := {| first_time := - 10 ^ 30; last_time := 10 ^ 30 |}.

Definition no_hash (_ : string) : string := "".
Definition no_gsm (_ : ErrorResponse) : option (option string * option string) := None.

Definition attempt_of (txn : string) : RefundableAttempt :=
  mkRefundableAttempt "pay_1" (Some txn) (Some "stripe"%string) (Some Currency_USD)
    (mkNetAmount 1000 None None None None None None).

Definition payment_of (txn : string) : RefundStore :=
  mkRefundStore (mkPaymentIntent IntentStatus_Succeeded (Some 1000%Z) None 0) (attempt_of txn) [] [] [] [].

Definition payment : RefundStore := payment_of "ch_1".

Definition settings : RefundSettings := mkRefundSettings 365 10 refund_default Main.

Definition world (id : string) (call : result ConnectorError RefundAnswer) : RefundWorld :=
  mkRefundWorld id ("ref_" +:+ id) (Ok tt) true call.

Definition request (amount : option Z) (kind : RefundType) : RefundRequest :=
  mkRefundRequest None amount (Some kind) None None false.

Definition create (id : string) (amount : option Z) (kind : RefundType) (call : result ConnectorError RefundAnswer) :=
  refund_create_core no_hash no_gsm no_gsm "postgres" 0 settings (world id call) (request amount kind).

Definition success : result ConnectorError RefundAnswer := Ok (RefundAccepted "re_1" RefundStatus_Success None).

Definition admission (id : string) (amount : option Z) (kind : RefundType) :=
  admit_refund no_hash 0 settings (world id success) (request amount kind).


Lemma payment_captured : captured_payment 1000 "ch_1" payment.
Proof. split; vm_compute; (reflexivity || (split; discriminate)). Qed.



(** Two requests for the whole captured amount, checked at the same time. *)
Definition full (id : string) : Refund :=
  mkRefund ("ref_" +:+ id) id (TxnId "ch_1") "stripe" None 1000 Currency_USD 1000 RefundStatus_Pending false None None None
    0 0 "pay_1" None None "" None None None None None None.

Lemma concurrent_refunds_exceed_witness :
  ∃ s1 s2, store_refund (full "a") payment = (Ok tt, s1) ∧ store_refund (full "b") s1 = (Ok tt, s2) ∧
    amounts_of counts_as_refunded (refunds s2) = 2000%Z ∧ amount_captured (intent payment) = Some 1000%Z ∧
    is_ok (admission "b" None Instant s1).1 = false.
Proof.
  assert (∀ id, id ∉ refund_id <$> refunds payment) as Hnew by (intros id; apply not_elem_of_nil).
  assert (admission "a" None Instant payment = (Ok (full "a"), payment)) as H1 by (vm_compute; reflexivity).
  assert (admission "b" None Instant payment = (Ok (full "b"), payment)) as H2 by (vm_compute; reflexivity).
  destruct (concurrent_refunds_exceed no_hash 1000 "ch_1" payment 0 settings (world "a" success) (request None Instant)
    (full "a") 0 settings (world "b" success) (request None Instant) (full "b") eq_refl
    (captured_payment_inv _ _ _ payment_captured) H1 H2 ltac:(discriminate) (Hnew _) (Hnew _))
    as (s1 & s2 & Hrun1 & Hrun2 & _ & _ & Hsum & Hlate).
  assert (amounts_of counts_as_refunded (refunds s2) = 2000%Z) as Htotal by (rewrite Hsum; vm_compute; reflexivity).
  exists s1, s2. split_and!; [exact Hrun1|exact Hrun2|exact Htotal|reflexivity|].
  unfold admission. apply Hlate. rewrite Htotal. reflexivity.
Defined.

(** A connector without refunds: the refund fails and the request is answered with an
    error. *)
Example refund_not_implemented :
  let run := create "a" (Some 600%Z) Instant (Err (NotImplemented "Refund")) payment in
  run.1 = Err R_NotImplemented ∧ refund_status <$> refunds run.2 = [RefundStatus_Failure] ∧ processes run.2 = [].
Proof. vm_compute. by split_and!. Qed.

(** The request for 600 is admissible, and one for 1001 is refused. *)
Lemma refund_create_outcome_witness :
  refund_amount <$> refunds (create "a" (Some 600%Z) Instant success payment).2 = [600%Z] ∧
  (create "a" (Some 1001%Z) Instant success payment).2 = payment.
Proof.
  pose proof (captured_payment_inv _ _ _ payment_captured) as Hinv. split.
  - destruct (refund_create_outcome no_hash no_gsm no_gsm "postgres" 1000 "ch_1" 0 settings (world "a" success)
      (request (Some 600%Z) Instant) payment _ _ eq_refl Hinv eq_refl eq_refl eq_refl (surjective_pairing _))
      as [(amount & id & row & Had & Hrows & _ & Ham & _)|(Hno & _)]; [|vm_compute in Hno; discriminate].
    unfold create. rewrite Hrows. cbn. rewrite Ham. destruct Had as [_ _ _ Hamount]. injection Hamount as <-. reflexivity.
  - destruct (refund_create_outcome no_hash no_gsm no_gsm "postgres" 1000 "ch_1" 0 settings (world "a" success)
      (request (Some 1001%Z) Instant) payment _ _ eq_refl Hinv eq_refl eq_refl eq_refl (surjective_pairing _))
      as [(amount & id & row & Had & _)|(_ & Hsame & _)]; [|exact Hsame].
    destruct Had as [_ Hblocked]. exfalso. vm_compute in Hblocked. apply Hblocked. reflexivity.
Defined.

(** *** A long transaction id *)

Definition long_id : string := String.concat "" (replicate 13 "0123456789"%string).

(** A full refund succeeds, the refunded total is refreshed, and a second full
    refund is accepted. *)
Definition twice : RefundStore :=
  (create "b" None Instant success (run_spawned 0 (create "a" None Instant success (payment_of long_id)).2).2).2.

Lemma long_transaction_ids_uncounted_witness :
  find_refunds_by_transaction_id long_id twice = [] ∧
  amounts_of (λ r, refund_is_success (refund_status r)) (refunds twice) = 2000%Z ∧
  amount_captured (intent twice) = Some 1000%Z.
Proof.
  split; [|split; vm_compute; reflexivity].
  refine (proj1 (long_transaction_ids_uncounted no_hash long_id twice 1000 0 _ eq_refl _ eq_refl)).
  - apply (bool_decide_unpack (128 < String.length long_id)). vm_compute. exact I.
  - vm_compute. repeat constructor.
Defined.

(** A lost dispute over the whole payment does not stop a request that names no
    amount. *)
Definition disputed_payment : RefundStore :=
  set_state_metadata (with_total_disputed_amount 1000 default_state_metadata) payment.

Example disputed_and_refunded :
  is_ok (create "a" (Some 1000%Z) Instant success disputed_payment).1 = false ∧
  is_ok (create "a" None Instant success disputed_payment).1 = true.
Proof. vm_compute. by split. Qed.

(** With [max_attempts] at 1, a second refund is accepted and a third refused. *)
Example attempts_exceed_setting :
  let create1 id := refund_create_core no_hash no_gsm no_gsm "postgres" 0 (mkRefundSettings 365 1 refund_default Main)
    (world id success) (request (Some 1%Z) Instant) in
  is_ok (create1 "b" (create1 "a" payment).2).1 = true ∧
  is_ok (create1 "c" (create1 "b" (create1 "a" payment).2).2).1 = false.
Proof. vm_compute. by split. Qed.

End RefundExample.
