(* ===== verification/RefundSync.v ===== *)
(** * The synchronisation of a refund ends

    A synchronisation task runs at most once more than its retry schedule allows
    retries, whatever the connector answers; when the call of the connector fails,
    the task is left started and never runs again. *)

From S2P Require Import Prelude Currency PaymentEnums PaymentStatus Captures Scheduler SchedulerFacts.
From S2P Require Import Disputes Refunds RefundFacts RefundTheorems.

Section sync.
Context `{TimeRange} (blake3_hex : string → string).
Context (gsm_refund gsm_authorize : ErrorResponse → option (option string * option string)) (scheme : string).
Context (mapping : ConnectorPTMapping) (source : ApplicationSource) (id reference : string).

(** The refund is in the store, as [r]. *)
Record synced (r : Refund) (s : RefundStore) : Prop := {
  sy_ids : NoDup (refund_id <$> refunds s);
  sy_refund : find_refund_by_internal_reference_id reference s = Some r;
  sy_currency : is_Some (ra_currency (refundable s));
}.

(** Only the tasks differ. *)
Lemma synced_processes r l s : synced r s → synced r (set_processes l s).
Proof. intros []. by split. Qed.

Lemma synced_in r s : synced r s → r ∈ refunds s ∧ internal_reference_id r = reference.
Proof.
  intros [_ Hfind _]. apply find_refund_elem in Hfind as [Hr Hp%bool_decide_eq_true]. done.
Qed.

(** An update of the refund leaves the updated refund in the store. *)
Lemma synced_update now e r u s :
  synced r s →
  ∃ s', update_refund now e r u s = (Ok (refund_apply (refund_update_internal now u) r), s') ∧
    synced (refund_apply (refund_update_internal now u) r) s' ∧ processes s' = processes s.
Proof.
  intros Hs. destruct (synced_in _ _ Hs) as [Hr Href]. destruct Hs as [Hnd Hfind Hcur].
  rewrite update_refund_eq by done. eexists. split; [done|]. split; [|done].
  destruct (refund_apply_keeps now u r) as (Hid & Hr' & _). set (r' := refund_apply _ r) in *. split; [| |done].
  - cbn. rewrite <- list_fmap_compose. erewrite list_fmap_ext; [exact Hnd|]. intros i q Hq. unfold compose.
    case_decide as Hd; [|done]. by rewrite Hid.
  - unfold find_refund_by_internal_reference_id in *. cbn. rewrite find_fmap, Hfind; [cbn; by rewrite decide_True|].
    intros q Hq. destruct (decide (refund_id q = refund_id r)) as [Heq|]; [|done].
    rewrite (key_inj refund_id (refunds s) q r) by done. by rewrite Hr'.
Qed.

(** A retrieval returns the refund that it leaves, or fails with the call. *)
Lemma synced_retrieve now call r s :
  synced r s →
  (∃ r' s', refund_retrieve_core_with_internal_reference_id blake3_hex scheme now reference true (Ok tt) call s =
              (Ok r', s') ∧ synced r' s' ∧ processes s' = processes s) ∨
  (is_ok call = false ∧
   ∃ e, refund_retrieve_core_with_internal_reference_id blake3_hex scheme now reference true (Ok tt) call s = (Err e, s)).
Proof.
  intros Hs. unfold refund_retrieve_core_with_internal_reference_id. unfold sr_bind at 1 3, sr_get.
  rewrite (sy_refund _ _ Hs). unfold sr_bind, sr_lift. cbn [ok_or]. unfold refund_retrieve_core, sr_bind, sr_lift.
  case_match; [|left; by exists r, s]. destruct (sy_currency _ _ Hs) as [cur Hcur].
  unfold sync_refund_with_gateway, sr_bind, sr_get, sr_lift, sr_modify. rewrite Hcur. cbn [ok_or].
  destruct call as [answer|e]; cbn [map_err]; [left|right; split; [done|by eexists]].
  destruct (synced_update now R_RefundNotFound r (sync_refund_update blake3_hex scheme answer)
    (spawn (RefreshRefunded (state_metadata (intent s))) s)) as (s' & Heq & Hs' & Hp); [by destruct Hs|].
  rewrite Heq. eauto.
Qed.

(** ** One execution of the task *)

Definition current (pt : ProcessTracker string) (s : RefundStore) : Prop :=
  find_process_by_id id (processes s) = Some pt.

Record runnable (pt : ProcessTracker string) : Prop := {
  ru_name : pt_name pt = Some "SYNC_REFUND"%string;
  ru_data : tracking_data pt = reference;
  ru_business : business_status pt = PENDING;
  ru_due : pt_status pt ∈ [ProcessTrackerStatus_New; ProcessTrackerStatus_Pending];
  ru_count : (0 ≤ retry_count pt ≤ retry_budget (frequencies (default_mapping mapping)))%Z;
}.

(** How a finished task leaves the refund: in a terminal status, or, after the
    last retry, not pending without an id of the connector. *)
Definition ended (pt : ProcessTracker string) (r : Refund) : Prop :=
  pt_status pt = ProcessTrackerStatus_Finish ∧
  (business_status pt = COMPLETED_BY_PT ∧ refund_status r ∈ terminal_refund_statuses ∨
   business_status pt = RETRIES_EXCEEDED ∧
     ¬ (refund_status r = RefundStatus_Pending ∧ connector_refund_id r = None)).

(** An update of the current task. *)
Lemma update_current now pt u row s :
  pt_id pt = id → current row s →
  ∃ l, on_processes (_ <- update_process now pt u ;; sr_ret tt)%sr s = (Ok tt, set_processes l s) ∧
    current (pt_apply (pt_update_internal now u) row) (set_processes l s).
Proof.
  intros Hid Hcur. unfold current in *. subst id.
  destruct (update_process_found now pt u row (processes s) Hcur) as (l & Heq & Hfind).
  exists l. split; [|done]. unfold on_processes, sr_bind. by rewrite Heq.
Qed.

(** A task whose execution failed: it is neither due nor finished. *)
Definition abandoned (pt : ProcessTracker string) : Prop := pt_status pt = ProcessTrackerStatus_ProcessStarted.

(** The state of the task and of the refund after one execution with a call of the
    connector. *)
Definition advanced (call : result ConnectorError RefundAnswer) (count : Z) (s : RefundStore) : Prop :=
  ∃ r pt, synced r s ∧ current pt s ∧
    (ended pt r ∨ abandoned pt ∧ is_ok call = false ∨ runnable pt ∧ retry_count pt = (count + 1)%Z).

Lemma manual_review_advanced now r e call count row s :
  synced r s → current row s → pt_status row = ProcessTrackerStatus_Finish →
  business_status row = RETRIES_EXCEEDED →
  advanced call count
    (update_refund now e r (R_StatusUpdate None (sent_to_gateway r) RefundStatus_ManualReview (updated_by r)
       (processor_refund_data r)) s).2.
Proof.
  intros Hs Hcur Hst Hb. destruct (synced_update now e r (R_StatusUpdate None (sent_to_gateway r)
    RefundStatus_ManualReview (updated_by r) (processor_refund_data r)) s Hs) as (s' & -> & Hs' & Hp).
  eexists _, row. split; [exact Hs'|]. split; [unfold current; cbn; by rewrite Hp|]. left. split; [done|]. right.
  split; [done|]. by intros [[=] _].
Qed.

Hypothesis schedule_fits : schedule_ok (frequencies (default_mapping mapping)).

Lemma schedule_time_exact now n :
  (0 ≤ n)%Z →
  match get_refund_sync_process_schedule_time now mapping n with
  | Some _ => (n ≤ retry_budget (frequencies (default_mapping mapping)))%Z
  | None => (retry_budget (frequencies (default_mapping mapping)) < n)%Z
  end.
Proof.
  intros Hn. unfold get_refund_sync_process_schedule_time, get_schedule_time, get_time_from_delta.
  pose proof (mapping_time_exact _ n schedule_fits Hn) as Hexact.
  destruct (mapping_time _ n); cbn; [by apply Hexact; eexists|].
  apply Z.lt_nge. intros Hle. by apply Hexact in Hle as [].
Qed.

Lemma sync_workflow_advances now call pt row r s :
  synced r s → pt_id pt = id → tracking_data pt = reference → current row s → pt_name row = Some "SYNC_REFUND"%string →
  tracking_data row = reference → business_status row = PENDING → abandoned row →
  (0 ≤ retry_count pt ≤ retry_budget (frequencies (default_mapping mapping)))%Z →
  advanced call (retry_count pt)
    (sync_refund_with_gateway_workflow blake3_hex scheme now mapping (Ok tt) call pt s).2.
Proof.
  intros Hs Hid Hdata Hcur Hname Hrow Hb Hstarted Hn. unfold sync_refund_with_gateway_workflow. unfold sr_bind at 1.
  rewrite Hdata.
  destruct (synced_retrieve now call r s Hs) as [(r1 & s1 & -> & Hs1 & Hp1)|[Hcall [e ->]]];
    [|exists r, row; tauto].
  assert (current row s1) as Hcur1 by (unfold current; by rewrite Hp1).
  destruct (bool_decide _) eqn:Hterm.
  - apply bool_decide_eq_true in Hterm. unfold finish_process_with_business_status.
    destruct (update_current now pt (PtStatusUpdate ProcessTrackerStatus_Finish (Some COMPLETED_BY_PT)) row s1 Hid Hcur1)
      as (l & -> & Hcur2).
    eexists r1, _. split; [by apply synced_processes|]. split; [exact Hcur2|]. left. split; [done|]. by left.
  - unfold retry_refund_sync_task. destruct schedule_fits as [_ Hmax].
    rewrite wrap_i32_id by (unfold i32_max in *; lia).
    pose proof (schedule_time_exact now (retry_count pt + 1)) as Htime.
    destruct (get_refund_sync_process_schedule_time _ _ _) as [at_|].
    + unfold retry_process.
      destruct (update_current now pt (PtStatusRetryUpdate ProcessTrackerStatus_Pending (wrap_i32 (retry_count pt + 1)) at_)
        row s1 Hid Hcur1) as (l & Heq & Hcur2).
      unfold sr_bind at 1 2. rewrite Heq. cbn [sr_ret andb]. eexists r1, _. split; [by apply synced_processes|].
      split; [exact Hcur2|]. right. right. rewrite wrap_i32_id by (unfold i32_max in *; lia).
      split; [|done]. split; try done; cbn; [set_solver|lia].
    + unfold finish_process_with_business_status.
      destruct (update_current now pt (PtStatusUpdate ProcessTrackerStatus_Finish (Some RETRIES_EXCEEDED)) row s1 Hid Hcur1)
        as (l & Heq & Hcur2).
      unfold sr_bind at 1 2. rewrite Heq. cbn [sr_ret andb]. apply (synced_processes _ l) in Hs1.
      destruct (bool_decide _ && bool_decide _) eqn:Hpending.
      * unfold sr_bind at 1 2, sr_get, sr_lift. rewrite (sy_refund _ _ Hs1). cbn [ok_or]. rewrite sr_bind_ret_snd.
        by apply (manual_review_advanced _ _ _ _ _ _ _ Hs1 Hcur2).
      * eexists r1, _. split; [exact Hs1|]. split; [exact Hcur2|]. left. split; [done|]. right. split; [done|].
        intros [Hp Hc]. by rewrite Hp, Hc in Hpending.
Qed.

(** An error of the workflow is logged. *)
Lemma execute_workflow_store now execute pt s :
  execute_workflow now execute refund_error_handler pt s = (execute pt s).2.
Proof. unfold execute_workflow. by destruct (execute pt s) as [[]]. Qed.

(** The task runs: it ends, it is abandoned, or it is due once more. *)
Lemma run_task_advances now call pt r s :
  synced r s → current pt s → runnable pt →
  advanced call (retry_count pt)
    (run_refund_task blake3_hex gsm_refund gsm_authorize scheme now mapping source (Ok tt) call id s).
Proof.
  intros Hs Hcur Hrun. unfold run_refund_task. unfold current in Hcur. rewrite Hcur.
  destruct Hrun as [Hname Hdata Hb Hdue Hn]. rewrite bool_decide_true by done.
  assert (is_valid_business_status pt valid_business_statuses = true) as ->.
  { unfold is_valid_business_status. by rewrite Hb. }
  cbn [andb]. rewrite execute_workflow_store. unfold start_refund_workflow. cbn [set_status pt_name].
  rewrite Hname. rewrite decide_False by done. rewrite decide_True by done.
  assert (pt_id pt = id) by by apply find_some in Hcur as [_ ?%bool_decide_eq_true].
  eapply (sync_workflow_advances now call (set_status _ pt) _ r).
  4: { unfold current. cbn [processes set_processes]. apply update_status_found; [set_solver|]. apply update_status_found; [set_solver|exact Hcur]. }
  all: try done. by apply synced_processes.
Qed.

(** ** The end of the task *)

(** The task runs with these calls of the connector, at these times. *)
Fixpoint run_rounds (rounds : list (Z * result ConnectorError RefundAnswer)) (s : RefundStore) : RefundStore :=
  match rounds with
  | [] => s
  | (now, call) :: rounds =>
      run_rounds rounds
        (run_refund_task blake3_hex gsm_refund gsm_authorize scheme now mapping source (Ok tt) call id s)
  end.

Lemma run_rounds_app l k s : run_rounds (l ++ k) s = run_rounds k (run_rounds l s).
Proof. revert s. by induction l as [|[] l IH]; intros s; cbn. Qed.

(** A task that is finished or abandoned is not picked up. *)
Definition at_rest (pt : ProcessTracker string) : Prop := pt_status pt = ProcessTrackerStatus_Finish ∨ abandoned pt.

Lemma rests rounds s pt : current pt s → at_rest pt → run_rounds rounds s = s.
Proof.
  intros Hcur Hst. induction rounds as [|[now answer] rounds IH]; [done|]. cbn. unfold run_refund_task at 1.
  unfold current in Hcur. rewrite Hcur. unfold at_rest, abandoned in Hst. by destruct Hst as [-> | ->].
Qed.

(** The task has ended, or one of the calls failed and the task is abandoned. *)
Definition settled (rounds : list (Z * result ConnectorError RefundAnswer)) (pt : ProcessTracker string) (r : Refund) :
    Prop :=
  ended pt r ∨ abandoned pt ∧ Exists (λ round, is_ok round.2 = false) rounds.

Lemma settled_rests rounds pt r : settled rounds pt r → at_rest pt.
Proof. intros [[? _]|[? _]]; [by left|by right]. Qed.

Lemma rounds_end rounds : ∀ s pt r,
  synced r s → current pt s → runnable pt →
  (retry_budget (frequencies (default_mapping mapping)) < retry_count pt + Z.of_nat (length rounds))%Z →
  ∃ r' pt', synced r' (run_rounds rounds s) ∧ current pt' (run_rounds rounds s) ∧ settled rounds pt' r'.
Proof.
  induction rounds as [|[now call] rounds IH]; intros s pt r Hs Hcur Hrun Hlen.
  - cbn in Hlen. pose proof (ru_count _ Hrun). lia.
  - destruct (run_task_advances now call pt r s Hs Hcur Hrun)
      as (r1 & pt1 & Hs1 & Hcur1 & [Hend|[[Hab Hcall]|[Hrun1 Hcount]]]); cbn.
    + rewrite (rests _ _ pt1) by (done || by left; apply Hend). exists r1, pt1. split_and!; [done..|by left].
    + rewrite (rests _ _ pt1) by (done || by right). exists r1, pt1. split_and!; [done..|]. right. split; [done|].
      by apply Exists_cons_hd.
    + destruct (IH _ pt1 r1 Hs1 Hcur1 Hrun1) as (r' & pt' & Hs' & Hcur' & Hset); [cbn in Hlen; lia|].
      exists r', pt'. split_and!; [done..|]. destruct Hset as [|[? ?]]; [by left|right]. split; [done|].
      by apply Exists_cons_tl.
Qed.

(** [C21] Take a synchronisation task that is due, with no more retries than its
    schedule allows, and a schedule whose retries fit an [i32].  After at most one
    execution more than the schedule allows retries the task is executed no more, and
    either it is finished, and the refund is in a terminal status, or the retries are
    exceeded and the refund is not left pending without an id of the connector; or
    the call of the connector failed in one of the executions, and the task is left
    started for good.  When every call is answered, with an error or not, the task
    finishes. *)
Theorem sync_task_ends rounds more s pt r :
  synced r s → current pt s → runnable pt →
  (retry_budget (frequencies (default_mapping mapping)) < retry_count pt + Z.of_nat (length rounds))%Z →
  run_rounds (rounds ++ more) s = run_rounds rounds s ∧
  ∃ r' pt', find_refund_by_internal_reference_id reference (run_rounds rounds s) = Some r' ∧
    find_process_by_id id (processes (run_rounds rounds s)) = Some pt' ∧
    (ended pt' r' ∨ pt_status pt' = ProcessTrackerStatus_ProcessStarted ∧ Exists (λ round, is_ok round.2 = false) rounds) ∧
    (Forall (λ round, is_ok round.2 = true) rounds → ended pt' r').
Proof.
  intros Hs Hcur Hrun Hlen.
  destruct (rounds_end rounds s pt r Hs Hcur Hrun Hlen) as (r' & pt' & Hs' & Hcur' & Hset). split.
  - rewrite run_rounds_app. by apply (rests _ _ pt'); [|eapply settled_rests].
  - exists r', pt'. split_and!; [apply Hs'|done|exact Hset|]. intros Hall. destruct Hset as [|[_ Hex]]; [done|].
    apply Exists_exists in Hex as (x & Hx & Hfail). apply (proj1 (Forall_forall _ _) Hall) in Hx. congruence.
Qed.

End sync.

(** ** Example: the connector is down *)

Module SyncExample.
Import RefundExample.

Definition down : RefundAnswer := RefundRefused (mkErrorResponse "503" "unavailable" None 503 None None).

(** The refund is sent, and the connector does not answer. *)
Definition sent : RefundStore := (create "a" (Some 600%Z) Instant (Ok down) payment).2.

Definition sync_task : string := task_id "SYNC_REFUND" "ref_a".

Definition rounds : list (Z * result ConnectorError RefundAnswer) := replicate 18 (0%Z, Ok down).

Definition run := run_rounds no_hash no_gsm no_gsm "postgres" refund_default Main sync_task rounds sent.

(** After the seventeen retries of the default schedule the refund is left for a
    manual review. *)
Lemma sync_task_ends_witness :
  (∃ r' pt', find_refund_by_internal_reference_id "ref_a" run = Some r' ∧
     find_process_by_id sync_task (processes run) = Some pt' ∧ ended pt' r') ∧
  (business_status <$> find_process_by_id sync_task (processes run)) = Some RETRIES_EXCEEDED ∧
  (refund_status <$> find_refund_by_internal_reference_id "ref_a" run) = Some RefundStatus_ManualReview.
Proof.
  split; [|split; vm_compute; reflexivity].
  destruct (find_refund_by_internal_reference_id "ref_a" sent) as [r|] eqn:Hr; [|vm_compute in Hr; discriminate].
  destruct (find_process_by_id sync_task (processes sent)) as [pt|] eqn:Hpt; [|vm_compute in Hpt; discriminate].
  destruct (sync_task_ends no_hash no_gsm no_gsm "postgres" refund_default Main sync_task "ref_a"
    ltac:(apply (bool_decide_unpack _); vm_compute; exact I) rounds [] sent pt r) as [_ (r' & pt' & Hr' & Hpt' & _ & Hend)].
  - split; [|exact Hr|vm_compute; eexists; reflexivity]. apply (bool_decide_unpack _). vm_compute. exact I.
  - exact Hpt.
  - vm_compute in Hpt. injection Hpt as <-. split; try reflexivity; vm_compute; [left|split; discriminate].
  - vm_compute in Hpt. injection Hpt as <-. reflexivity.
  - exists r', pt'. split_and!; [exact Hr'|exact Hpt'|apply Hend]. vm_compute. repeat constructor.
Defined.

(** One call that fails, with a response that cannot be read for example, and the task is
    never executed again: the refund stays pending. *)
Example failed_call_abandons :
  let s := run_rounds no_hash no_gsm no_gsm "postgres" refund_default Main sync_task
             ((0%Z, Err (OtherConnectorError R_RefundFailed)) :: replicate 18 (0%Z, success)) sent in
  (pt_status <$> find_process_by_id sync_task (processes s)) = Some ProcessTrackerStatus_ProcessStarted ∧
  (refund_status <$> find_refund_by_internal_reference_id "ref_a" s) = Some RefundStatus_Pending.
Proof. vm_compute. by split. Qed.

End SyncExample.
