(* ===== verification/DisputeTheorems.v ===== *)
(** * Theorems on disputes

    The webhooks about a dispute move it forward through the stages, and within a
    stage towards a final status, so that only finitely many of them change it. *)

From S2P Require Import Prelude Captures Scheduler Disputes Refunds RefundTheorems.

(** ** Progress *)

Definition stage_rank (g : DisputeStage) : nat :=
  match g with
  | DisputeStage_PreDispute => 0 | DisputeStage_Dispute => 1 | DisputeStage_PreArbitration => 2
  | DisputeStage_Arbitration => 3 | DisputeStage_DisputeReversal => 4
  end.

Definition status_rank (st : DisputeStatus) : nat :=
  match st with
  | DisputeStatus_DisputeOpened => 0 | DisputeStatus_DisputeChallenged => 1 | DisputeStatus_DisputeAccepted => 2
  | DisputeStatus_DisputeExpired | DisputeStatus_DisputeCancelled | DisputeStatus_DisputeWon
  | DisputeStatus_DisputeLost => 3
  end.

(** How far a dispute has come; zero before it is known. *)
Definition progress (o : option (DisputeStage * DisputeStatus)) : nat :=
  match o with
  | None => 0
  | Some (g, st) => S (4 * stage_rank g + status_rank st)
  end.

Lemma progress_bound o : progress o ≤ 20.
Proof. destruct o as [[[] []]|]; cbn; lia. Qed.

(** An accepted change moves forward. *)
Lemma accepted_progress g st g' st' :
  validate_dispute_stage_and_dispute_status g st g' st' = Ok tt → (g, st) ≠ (g', st') →
  progress (Some (g, st)) < progress (Some (g', st')).
Proof.
  intros Hok Hne. destruct (decide (g' = g)) as [->|Hg].
  - unfold validate_dispute_stage_and_dispute_status in Hok. rewrite decide_True in Hok by done.
    destruct (validate_dispute_status st st') eqn:Hst; [|by rewrite andb_false_r in Hok]. cbn.
    enough (status_rank st < status_rank st') by lia. destruct st, st'; cbn; (discriminate Hst || lia || by destruct Hne).
  - destruct (validate_dispute_stage g g') eqn:Hstage;
      [|by unfold validate_dispute_stage_and_dispute_status in Hok; rewrite Hstage in Hok].
    assert (stage_rank g < stage_rank g') by (destruct g, g'; cbn; (discriminate Hstage || lia || done)).
    cbn. assert (status_rank st ≤ 3) by (destruct st; cbn; lia). lia.
Qed.

(** ** Webhooks *)

Definition found_dispute (cid : string) (l : list Dispute) : option Dispute :=
  List.find (λ d, bool_decide (connector_dispute_id d = cid)) l.

Definition dispute_state (cid : string) (s : RefundStore) : option (DisputeStage * DisputeStatus) :=
  (λ d, (dispute_stage d, dispute_status d)) <$> found_dispute cid (disputes s).

(** The row that a webhook updates. *)
Lemma update_dispute_eq now d u s :
  NoDup (dispute_id <$> disputes s) → d ∈ disputes s →
  let d' := dispute_apply now (dispute_update_internal now u) d in
  update_dispute now d u s =
    (Ok d', set_disputes ((λ q, if decide (dispute_id q = dispute_id d) then d' else q) <$> disputes s) s).
Proof. intros Hnd Hd. unfold update_dispute. by rewrite (find_by_key dispute_id _ d Hnd Hd). Qed.

(** Rewriting one row keeps the ids, and the row that is found. *)
Lemma updated_rows l d d' cid :
  NoDup (dispute_id <$> l) → d ∈ l → dispute_id d' = dispute_id d → connector_dispute_id d' = connector_dispute_id d →
  let l' := (λ q, if decide (dispute_id q = dispute_id d) then d' else q) <$> l in
  NoDup (dispute_id <$> l') ∧
  found_dispute cid l' = (λ q, if decide (dispute_id q = dispute_id d) then d' else q) <$> found_dispute cid l.
Proof.
  intros Hnd Hd Hid Hcid. split.
  - rewrite <- list_fmap_compose. erewrite list_fmap_ext; [exact Hnd|]. intros i q Hq. unfold compose.
    case_decide as Heq; [|done]. by rewrite Hid.
  - unfold found_dispute. apply find_fmap. intros q Hq. destruct (decide (dispute_id q = dispute_id d)) as [Heq|]; [|done].
    rewrite (key_inj dispute_id l q d) by done. by rewrite Hcid.
Qed.

Lemma found_snoc cid l d :
  found_dispute cid (l ++ [d]) =
    match found_dispute cid l with
    | Some q => Some q
    | None => if bool_decide (connector_dispute_id d = cid) then Some d else None
    end.
Proof.
  unfold found_dispute. induction l as [|q l IH]; cbn; [done|].
  destruct (bool_decide (connector_dispute_id q = cid)); [done|exact IH].
Qed.

(** What a webhook may do to the dispute [cid]. *)
Definition moves (cid : string) (s s' : RefundStore) : Prop :=
  NoDup (dispute_id <$> disputes s') ∧
  (dispute_state cid s' = dispute_state cid s ∨ progress (dispute_state cid s) < progress (dispute_state cid s')).

Lemma get_or_update_moves cid now generated p st s :
  NoDup (dispute_id <$> disputes s) →
  moves cid s (get_or_update_dispute_object now generated (found_dispute (dp_connector_dispute_id p) (disputes s)) p st s).2.
Proof.
  intros Hnd. destruct (found_dispute _ _) as [d|] eqn:Hfind; cbn [get_or_update_dispute_object].
  - pose proof Hfind as [Hd%list_elem_of_In Hcid%bool_decide_eq_true]%find_some.
    destruct (validate_dispute_stage_and_dispute_status _ _ _ _) as [[]|] eqn:Hok; [|by split; [|left]].
    rewrite update_dispute_eq by done. set (u := D_Update _ _ _ _ _ _ _). set (d' := dispute_apply _ _ d).
    destruct (updated_rows (disputes s) d d' cid Hnd Hd eq_refl eq_refl) as [Hnd' Hfound]. split; [exact Hnd'|].
    unfold dispute_state. cbn [snd disputes set_disputes]. rewrite Hfound.
    destruct (found_dispute cid (disputes s)) as [q|] eqn:Hq; [|by left]. cbn.
    destruct (decide (dispute_id q = dispute_id d)) as [Heq|]; [|by left].
    apply find_some in Hq as [Hq%list_elem_of_In _]. rewrite (key_inj dispute_id (disputes s) q d) by done. cbn.
    destruct (decide ((dispute_stage d, dispute_status d) = (dp_stage p, st))) as [Hsame|Hne]; [left|right].
    + by rewrite Hsame.
    + by apply accepted_progress.
  - unfold sr_bind, sr_lift. destruct (dp_amount p) as [amt|]; [|by split; [|left]]. unfold sr_get.
    case_decide as Hin; [by split; [|left]|]. unfold sr_modify, sr_ret. cbn [snd].
    set (d := mkDispute _ _ _ _ _ _ _ _ _ _ _ _). split.
    + cbn [disputes set_disputes]. rewrite fmap_app. apply NoDup_app. split_and!; [done| |apply NoDup_singleton].
      intros x Hx ->%list_elem_of_singleton. done.
    + unfold dispute_state. cbn [disputes set_disputes]. rewrite found_snoc.
      destruct (found_dispute cid (disputes s)) as [q|]; [by left|].
      destruct (bool_decide _); [right; cbn; lia|by left].
Qed.

Lemma dispute_webhook_moves cid now verified generated p event s :
  NoDup (dispute_id <$> disputes s) → moves cid s (disputes_incoming_webhook_flow now verified generated p event s).2.
Proof.
  intros Hnd. unfold disputes_incoming_webhook_flow. destruct verified; [|by split; [|left]].
  unfold sr_bind at 1, sr_get. unfold sr_bind at 1, sr_lift. destruct event as [st|]; [|by split; [|left]]. cbn [ok_or].
  fold (found_dispute (dp_connector_dispute_id p) (disputes s)). unfold sr_bind at 1.
  pose proof (get_or_update_moves cid now generated p st s Hnd) as Hmoves.
  destruct (get_or_update_dispute_object _ _ _ _ _ s) as [[d|] s']; [|exact Hmoves]. cbn in *.
  by destruct (is_not_lost_or_none _ && bool_decide _).
Qed.

(** ** Termination *)

(** A webhook, with the time and the id that would be generated. *)
Definition Webhook : Type := Z * bool * string * DisputePayload * option DisputeStatus.

Definition receive (w : Webhook) (s : RefundStore) : RefundStore :=
  let '(now, verified, generated, p, event) := w in (disputes_incoming_webhook_flow now verified generated p event s).2.

(** How many of the webhooks change the stage or the status of [cid]. *)
Fixpoint changes (cid : string) (l : list Webhook) (s : RefundStore) : nat :=
  match l with
  | [] => 0
  | w :: l =>
      let s' := receive w s in
      (if decide (dispute_state cid s' = dispute_state cid s) then 0 else 1) + changes cid l s'
  end.

Lemma changes_bound cid l : ∀ s,
  NoDup (dispute_id <$> disputes s) → changes cid l s + progress (dispute_state cid s) ≤ 20.
Proof.
  induction l as [|[[[[now verified] generated] p] event] l IH]; intros s Hnd; [apply progress_bound|]. cbn.
  destruct (dispute_webhook_moves cid now verified generated p event s Hnd) as [Hnd' Hmoves].
  specialize (IH _ Hnd'). case_decide as Heq; [by rewrite Heq in IH|]. destruct Hmoves as [|Hlt]; [done|]. lia.
Qed.

(** [C36] Of all the webhooks that arrive, about whatever disputes, verified or
    not, at most twenty change the stage or the status of one dispute, the one
    that creates it included; once the dispute is reversed and final, none does. *)
Theorem dispute_settles cid l s :
  NoDup (dispute_id <$> disputes s) →
  changes cid l s ≤ 20 ∧
  (∀ st, dispute_state cid s = Some (DisputeStage_DisputeReversal, st) → status_rank st = 3 → changes cid l s = 0).
Proof.
  intros Hnd. pose proof (changes_bound cid l s Hnd) as Hle. split; [lia|]. intros st Hst Hrank.
  rewrite Hst in Hle. cbn in Hle. lia.
Qed.

(** ** Example: a dispute that is lost twice *)

Module DisputeExample.
Import RefundExample.

Definition webhook (g : DisputeStage) (st : DisputeStatus) : Webhook :=
  (0%Z, true, "dp_1"%string, mkDisputePayload (Ok 1000%Z) g "" "du_1" None None None None, Some st).

Definition first_instance : list Webhook :=
  [webhook DisputeStage_Dispute DisputeStatus_DisputeOpened; webhook DisputeStage_Dispute DisputeStatus_DisputeChallenged;
   webhook DisputeStage_Dispute DisputeStatus_DisputeOpened; webhook DisputeStage_Dispute DisputeStatus_DisputeLost].

Definition arbitration : list Webhook :=
  [webhook DisputeStage_Arbitration DisputeStatus_DisputeOpened; webhook DisputeStage_Arbitration DisputeStatus_DisputeLost].

(** The webhook that reopens the challenged dispute is refused. *)
Lemma dispute_settles_witness :
  NoDup (dispute_id <$> disputes payment) ∧ changes "du_1" (first_instance ++ arbitration) payment = 5 ∧
  changes "du_1" (first_instance ++ arbitration) payment ≤ 20.
Proof.
  split; [constructor|]. split; [vm_compute; reflexivity|].
  apply (dispute_settles "du_1" (first_instance ++ arbitration) payment). constructor.
Defined.

Definition receive_all (l : list Webhook) (s : RefundStore) : RefundStore := foldl (λ s w, receive w s) s l.

(** The amount of a dispute that is lost, reopened in a later stage and lost again
    is counted twice. *)
Example lost_twice_counted_twice :
  let s1 := (run_spawned 0 (receive_all first_instance payment)).2 in
  let s2 := (run_spawned 0 (receive_all arbitration s1)).2 in
  length (disputes s2) = 1 ∧ state_metadata (intent s1) ≫= total_disputed_amount = Some 1000%Z ∧
  state_metadata (intent s2) ≫= total_disputed_amount = Some 2000%Z.
Proof. vm_compute. by split_and!. Qed.

End DisputeExample.
