(* ===== verification/LockUtils.v ===== *)
(** * Flows and the identifiers their locks are kept under

    A route of the server has a [Flow] ([crates/router_env/src/logger/types.rs]);
    the locks of a flow are kept under its [ApiIdentifier]
    ([crates/router/src/routes/lock_utils.rs]). *)

From S2P Require Import Prelude.

Inductive Flow : Set :=
  | Flow_HealthCheck | Flow_DeepHealthCheck | Flow_OfferEngineConnectivityCheck
  | Flow_OidcDiscovery | Flow_OidcJwks | Flow_OidcAuthorize | Flow_OidcToken
  | Flow_OrganizationCreate | Flow_OrganizationRetrieve | Flow_OrganizationUpdate
  | Flow_MerchantsAccountCreate | Flow_MerchantsAccountRetrieve | Flow_MerchantsAccountUpdate
  | Flow_MerchantsAccountDelete | Flow_MerchantConnectorsCreate
  | Flow_MerchantConnectorsRetrieve | Flow_MerchantAccountList | Flow_MerchantConnectorsUpdate
  | Flow_MerchantConnectorsDelete | Flow_MerchantConnectorsList | Flow_MerchantTransferKey
  | Flow_MerchantConnectorWebhookRegister | Flow_MerchantConnectorWebhookList
  | Flow_MerchantConnectorWebhookGenerateSecret | Flow_ConfigKeyCreate | Flow_ConfigKeyFetch
  | Flow_EnablePlatformAccount | Flow_ConfigKeyUpdate | Flow_ConfigKeyDelete
  | Flow_CustomersCreate | Flow_CustomersRetrieve | Flow_CustomersRetrieveByReferenceId
  | Flow_CustomersUpdate | Flow_CustomersDelete | Flow_CustomersGetMandates
  | Flow_CustomersGlobalIdMigration | Flow_EphemeralKeyCreate | Flow_EphemeralKeyDelete
  | Flow_MandatesRetrieve | Flow_MandatesRevoke | Flow_MandatesList | Flow_PaymentMethodsCreate
  | Flow_PaymentMethodsMigrate | Flow_ModularPaymentMethodsMigrate
  | Flow_PaymentMethodsBatchUpdate | Flow_PaymentMethodsBatchRetrieve | Flow_PaymentMethodsList
  | Flow_PaymentMethodSave | Flow_PaymentMethodGetTokenDetails
  | Flow_CustomerPaymentMethodsList | Flow_GetPaymentMethodTokenData | Flow_CustomersList
  | Flow_CustomersListWithConstraints | Flow_ListCountriesCurrencies
  | Flow_PaymentMethodCollectLink | Flow_PaymentMethodsRetrieve
  | Flow_PaymentMethodsRetrieveOlap | Flow_PaymentMethodsUpdate | Flow_PaymentMethodsDelete
  | Flow_NetworkTokenStatusCheck | Flow_NetworkTokenEligibilityCheck
  | Flow_DefaultPaymentMethodsSet | Flow_PaymentsCreate | Flow_PaymentsRetrieve
  | Flow_PaymentsRetrieveForceSync | Flow_PaymentsRetrieveUsingMerchantReferenceId
  | Flow_PaymentsUpdate | Flow_PaymentsConfirm | Flow_PaymentsCapture | Flow_PaymentsCancel
  | Flow_PaymentsCancelPostCapture | Flow_PaymentsCancelPostCaptureSync | Flow_PaymentsApprove
  | Flow_PaymentsReject | Flow_PaymentsSessionToken | Flow_PaymentsStart | Flow_PaymentsList
  | Flow_PaymentsFilters | Flow_PaymentsAggregate | Flow_PaymentsCreateIntent
  | Flow_PaymentsGetIntent | Flow_PaymentsUpdateIntent | Flow_PaymentsConfirmIntent
  | Flow_PaymentsCreateAndConfirmIntent | Flow_PaymentAttemptsList | Flow_PayoutsCreate
  | Flow_PayoutsRetrieve | Flow_PayoutsUpdate | Flow_PayoutsConfirm | Flow_PayoutsCancel
  | Flow_PayoutsFulfill | Flow_PayoutsList | Flow_PayoutsFilter | Flow_PayoutsAccounts
  | Flow_PayoutLinkInitiate | Flow_PaymentsRedirect | Flow_PaymentsCompleteAuthorize
  | Flow_RefundsCreate | Flow_RefundsRetrieve | Flow_RefundsRetrieveForceSync
  | Flow_RefundsUpdate | Flow_RefundsList | Flow_RefundsFilters | Flow_RefundsAggregate
  | Flow_RetrieveForexFlow | Flow_RoutingCreateConfig | Flow_RoutingLinkConfig
  | Flow_RoutingUnlinkConfig | Flow_RoutingRetrieveConfig | Flow_DecisionEngineSsoRedirect
  | Flow_RoutingRetrieveActiveConfig | Flow_RoutingRetrieveDefaultConfig
  | Flow_RoutingRetrieveDictionary | Flow_DecisionEngineRuleMigration
  | Flow_DecisionEngineMigrationStatus | Flow_RoutingUpdateConfig
  | Flow_RoutingUpdateDefaultConfig | Flow_RoutingDeleteConfig | Flow_CreateSubscription
  | Flow_GetSubscriptionItemsForSubscription | Flow_ConfirmSubscription
  | Flow_CreateAndConfirmSubscription | Flow_GetSubscription | Flow_UpdateSubscription
  | Flow_GetSubscriptionEstimate | Flow_PauseSubscription | Flow_ResumeSubscription
  | Flow_CancelSubscription | Flow_CreateDynamicRoutingConfig | Flow_ToggleDynamicRouting
  | Flow_UpdateDynamicRoutingConfigs | Flow_AddCardIssuer | Flow_UpdateCardIssuer
  | Flow_DeleteCardIssuer | Flow_ListCardIssuers | Flow_AddToBlocklist
  | Flow_DeleteFromBlocklist | Flow_ListBlocklist | Flow_ToggleBlocklistGuard
  | Flow_BatchBlocklistUpload | Flow_GetBatchBlocklistJobStatus | Flow_ListBatchBlocklistJobs
  | Flow_IncomingWebhookReceive | Flow_RecoveryIncomingWebhookReceive
  | Flow_ValidatePaymentMethod | Flow_ApiKeyCreate | Flow_ApiKeyRetrieve | Flow_ApiKeyUpdate
  | Flow_ApiKeyRevoke | Flow_ApiKeyList | Flow_DisputesRetrieve | Flow_DisputesList
  | Flow_DisputesFilters | Flow_CardsInfo | Flow_CreateFile | Flow_DeleteFile
  | Flow_RetrieveFile | Flow_DisputesEvidenceSubmit | Flow_CreateConfigKey
  | Flow_AttachDisputeEvidence | Flow_DeleteDisputeEvidence | Flow_DisputesAggregate
  | Flow_RetrieveDisputeEvidence | Flow_CacheInvalidate | Flow_PaymentLinkRetrieve
  | Flow_PaymentLinkInitiate | Flow_PaymentSecureLinkInitiate | Flow_PaymentLinkList
  | Flow_PaymentLinkStatus | Flow_PaymentLinkCreate | Flow_ProfileCreate | Flow_ProfileUpdate
  | Flow_ProfileRetrieve | Flow_ProfileDelete | Flow_ProfileList | Flow_Verification
  | Flow_RustLockerMigration | Flow_GsmRuleCreate | Flow_GsmRuleRetrieve | Flow_GsmRuleUpdate
  | Flow_ApplePayCertificatesMigration | Flow_GsmRuleDelete | Flow_GetDataFromHyperswitchAiFlow
  | Flow_ListAllChatInteractions | Flow_LaunchSage | Flow_UserSignUp
  | Flow_UserSignUpWithMerchantId | Flow_ConvertOrganizationToPlatform | Flow_UserSignIn
  | Flow_UserTransferKey | Flow_UserConnectAccount | Flow_DecisionManagerUpsertConfig
  | Flow_DecisionManagerDeleteConfig | Flow_DecisionManagerRetrieveConfig | Flow_FrmFulfillment
  | Flow_FeatureMatrix | Flow_ChangePassword | Flow_Signout | Flow_SetDashboardMetadata
  | Flow_GetMultipleDashboardMetadata | Flow_VerifyPaymentConnector | Flow_InternalUserSignup
  | Flow_TenantUserCreate | Flow_SwitchOrg | Flow_SwitchMerchantV2 | Flow_SwitchProfile
  | Flow_GetAuthorizationInfo | Flow_GetRolesInfo | Flow_GetParentGroupInfo | Flow_ListRolesV2
  | Flow_ListInvitableRolesAtEntityLevel | Flow_ListUpdatableRolesAtEntityLevel | Flow_GetRole
  | Flow_GetRoleV2 | Flow_GetRoleFromToken | Flow_GetRoleFromTokenV2
  | Flow_GetParentGroupsInfoForRoleFromToken | Flow_UpdateUserRole
  | Flow_UserMerchantAccountCreate | Flow_CreatePlatformAccount | Flow_UserOrgMerchantCreate
  | Flow_GenerateSampleData | Flow_DeleteSampleData | Flow_GetUserDetails
  | Flow_GetUserRoleDetails | Flow_PmAuthLinkTokenCreate | Flow_PmAuthExchangeToken
  | Flow_ForgotPassword | Flow_ResetPassword | Flow_RotatePassword | Flow_InviteMultipleUser
  | Flow_ReInviteUser | Flow_AcceptInviteFromEmail | Flow_DeleteUserRole
  | Flow_PaymentsIncrementalAuthorization | Flow_PaymentsExtendAuthorization
  | Flow_GetActionUrl | Flow_SyncOnboardingStatus | Flow_ResetTrackingId | Flow_VerifyEmail
  | Flow_VerifyEmailRequest | Flow_UpdateUserAccountDetails | Flow_AcceptInvitationsV2
  | Flow_AcceptInvitationsPreAuth | Flow_PaymentsExternalAuthentication
  | Flow_PaymentsAuthorize | Flow_CreateRole | Flow_CreateRoleV2 | Flow_UpdateRole
  | Flow_UserFromEmail | Flow_TotpBegin | Flow_TotpReset | Flow_TotpVerify | Flow_TotpUpdate
  | Flow_RecoveryCodeVerify | Flow_RecoveryCodesGenerate | Flow_TerminateTwoFactorAuth
  | Flow_TwoFactorAuthStatus | Flow_CreateUserAuthenticationMethod
  | Flow_UpdateUserAuthenticationMethod | Flow_ListUserAuthenticationMethods
  | Flow_GetSsoAuthUrl | Flow_SignInWithSso | Flow_AuthSelect | Flow_ListOrgForUser
  | Flow_ListMerchantsForUserInOrg | Flow_GetUserMerchantDetails
  | Flow_ListProfileForUserInOrgAndMerchant | Flow_ListUsersInLineage
  | Flow_ListInvitationsForUser | Flow_GetThemeUsingLineage | Flow_GetThemeUsingThemeId
  | Flow_UploadFileToThemeStorage | Flow_CreateTheme | Flow_UpdateTheme | Flow_DeleteTheme
  | Flow_CreateUserTheme | Flow_UpdateUserTheme | Flow_DeleteUserTheme
  | Flow_UploadFileToUserThemeStorage | Flow_GetUserThemeUsingThemeId
  | Flow_ListAllThemesInLineage | Flow_GetUserThemeUsingLineage
  | Flow_GetUserThemeConfigVersion | Flow_WebhookEventInitialDeliveryAttemptList
  | Flow_WebhookEventDeliveryAttemptList | Flow_WebhookEventDeliveryRetry
  | Flow_RetrievePollStatus | Flow_ToggleExtendedCardInfo | Flow_ToggleConnectorAgnosticMit
  | Flow_GetExtendedCardInfo | Flow_RefundsManualUpdate | Flow_PaymentsManualUpdate
  | Flow_PaymentsManualStatusUpdate | Flow_PayoutsManualUpdate
  | Flow_SessionUpdateTaxCalculation | Flow_ProxyConfirmIntent | Flow_PaymentsPostSessionTokens
  | Flow_PaymentsUpdateMetadata | Flow_PaymentStartRedirection | Flow_VolumeSplitOnRoutingType
  | Flow_RoutingEvaluateRule | Flow_DecisionEngineDiffCounterReset
  | Flow_UnifiedConnectorServiceKillSwitchStatus | Flow_UnifiedConnectorServiceKillSwitchReset
  | Flow_Relay | Flow_RelayRetrieve | Flow_RelayUnreferencedRefund | Flow_TokenizeCard
  | Flow_TokenizeCardUsingPaymentMethodId | Flow_TokenizeCardBatch
  | Flow_IncomingRelayWebhookReceive | Flow_HypersenseTokenRequest | Flow_HypersenseVerifyToken
  | Flow_HypersenseSignoutToken | Flow_PaymentMethodSessionCreate
  | Flow_PaymentMethodSessionRetrieve | Flow_PaymentMethodSessionUpdate
  | Flow_PaymentMethodSessionUpdateSavedPaymentMethod
  | Flow_PaymentMethodSessionDeleteSavedPaymentMethod | Flow_PaymentMethodSessionConfirm
  | Flow_CardsInfoCreate | Flow_CardsInfoUpdate | Flow_CardsInfoMigrate
  | Flow_TotalPaymentMethodCount | Flow_RevenueRecoveryRetrieve | Flow_RevenueRecoveryResume
  | Flow_TokenizationCreate | Flow_TokenizationRetrieve | Flow_CloneConnector
  | Flow_AuthenticationCreate | Flow_AuthenticationEligibility | Flow_AuthenticationSync
  | Flow_AuthenticationSyncPostUpdate | Flow_AuthenticationAuthenticate
  | Flow_AuthenticationSessionToken | Flow_AuthenticationEligibilityCheck
  | Flow_AuthenticationRetrieveEligibilityCheck | Flow_Proxy | Flow_ProfileAcquirerCreate
  | Flow_ProfileAcquirerUpdate | Flow_ThreeDsDecisionRuleExecute
  | Flow_IncomingNetworkTokenWebhookReceive | Flow_DecisionEngineDecideGatewayCall
  | Flow_DecisionEngineGatewayFeedbackCall | Flow_RecoveryPaymentsCreate
  | Flow_TokenizationDelete | Flow_RecoveryDataBackfill | Flow_RevenueRecoveryRedis
  | Flow_PaymentMethodBalanceCheck | Flow_PaymentsSubmitCheckEligibility
  | Flow_PaymentsSubmitEligibility | Flow_ApplyPaymentMethodData | Flow_PayoutsAggregate
  | Flow_GetEmbeddedToken | Flow_EmbeddedTokenInfo | Flow_GetSuperpositionSdkConfig
  | Flow_SuperpositionListContexts | Flow_SuperpositionListDefaultConfigs
  | Flow_SuperpositionListDimensions | Flow_SuperpositionGetDimension
  | Flow_SuperpositionGetDefaultConfig | Flow_SuperpositionCreateContext
  | Flow_SuperpositionResolveDetailedConfig | Flow_SuperpositionResolveConfigExplanation
  | Flow_SuperpositionListAuditLogs | Flow_GetUserDetailsInternal | Flow_ListUsersInternal
  | Flow_ListMembersForEntity | Flow_AuthorizeUserToken.

Inductive ApiIdentifier : Set :=
  | ApiIdentifier_Payments | ApiIdentifier_Refunds | ApiIdentifier_Webhooks
  | ApiIdentifier_Organization | ApiIdentifier_MerchantAccount
  | ApiIdentifier_MerchantConnector | ApiIdentifier_MerchantConnectorWebhookManagement
  | ApiIdentifier_Configs | ApiIdentifier_Customers | ApiIdentifier_Ephemeral
  | ApiIdentifier_Health | ApiIdentifier_Mandates | ApiIdentifier_PaymentMethods
  | ApiIdentifier_PaymentMethodAuth | ApiIdentifier_Payouts | ApiIdentifier_Disputes
  | ApiIdentifier_CardsInfo | ApiIdentifier_Files | ApiIdentifier_Cache | ApiIdentifier_Profile
  | ApiIdentifier_Verification | ApiIdentifier_ApiKeys | ApiIdentifier_PaymentLink
  | ApiIdentifier_Routing | ApiIdentifier_Subscription | ApiIdentifier_Blocklist
  | ApiIdentifier_Forex | ApiIdentifier_RustLockerMigration | ApiIdentifier_Gsm
  | ApiIdentifier_Role | ApiIdentifier_User | ApiIdentifier_UserRole
  | ApiIdentifier_ConnectorOnboarding | ApiIdentifier_AiWorkflow | ApiIdentifier_Poll
  | ApiIdentifier_ApplePayCertificatesMigration | ApiIdentifier_Relay
  | ApiIdentifier_Documentation | ApiIdentifier_CardNetworkTokenization
  | ApiIdentifier_Hypersense | ApiIdentifier_PaymentMethodSession
  | ApiIdentifier_ProcessTracker | ApiIdentifier_Authentication | ApiIdentifier_Proxy
  | ApiIdentifier_ProfileAcquirer | ApiIdentifier_ThreeDsDecisionRule
  | ApiIdentifier_GenericTokenization | ApiIdentifier_RecoveryRecovery
  | ApiIdentifier_Superposition | ApiIdentifier_CardIssuers.

#[export] Program Instance ApiIdentifier_enumerated : Enumerated ApiIdentifier := {|
  variants := [
    ApiIdentifier_Payments; ApiIdentifier_Refunds; ApiIdentifier_Webhooks;
    ApiIdentifier_Organization; ApiIdentifier_MerchantAccount; ApiIdentifier_MerchantConnector;
    ApiIdentifier_MerchantConnectorWebhookManagement; ApiIdentifier_Configs;
    ApiIdentifier_Customers; ApiIdentifier_Ephemeral; ApiIdentifier_Health;
    ApiIdentifier_Mandates; ApiIdentifier_PaymentMethods; ApiIdentifier_PaymentMethodAuth;
    ApiIdentifier_Payouts; ApiIdentifier_Disputes; ApiIdentifier_CardsInfo;
    ApiIdentifier_Files; ApiIdentifier_Cache; ApiIdentifier_Profile;
    ApiIdentifier_Verification; ApiIdentifier_ApiKeys; ApiIdentifier_PaymentLink;
    ApiIdentifier_Routing; ApiIdentifier_Subscription; ApiIdentifier_Blocklist;
    ApiIdentifier_Forex; ApiIdentifier_RustLockerMigration; ApiIdentifier_Gsm;
    ApiIdentifier_Role; ApiIdentifier_User; ApiIdentifier_UserRole;
    ApiIdentifier_ConnectorOnboarding; ApiIdentifier_AiWorkflow; ApiIdentifier_Poll;
    ApiIdentifier_ApplePayCertificatesMigration; ApiIdentifier_Relay;
    ApiIdentifier_Documentation; ApiIdentifier_CardNetworkTokenization;
    ApiIdentifier_Hypersense; ApiIdentifier_PaymentMethodSession; ApiIdentifier_ProcessTracker;
    ApiIdentifier_Authentication; ApiIdentifier_Proxy; ApiIdentifier_ProfileAcquirer;
    ApiIdentifier_ThreeDsDecisionRule; ApiIdentifier_GenericTokenization;
    ApiIdentifier_RecoveryRecovery; ApiIdentifier_Superposition; ApiIdentifier_CardIssuers];
  discriminant x := match x with
    | ApiIdentifier_Payments => 0 | ApiIdentifier_Refunds => 1 | ApiIdentifier_Webhooks => 2
    | ApiIdentifier_Organization => 3 | ApiIdentifier_MerchantAccount => 4
    | ApiIdentifier_MerchantConnector => 5
    | ApiIdentifier_MerchantConnectorWebhookManagement => 6 | ApiIdentifier_Configs => 7
    | ApiIdentifier_Customers => 8 | ApiIdentifier_Ephemeral => 9 | ApiIdentifier_Health => 10
    | ApiIdentifier_Mandates => 11 | ApiIdentifier_PaymentMethods => 12
    | ApiIdentifier_PaymentMethodAuth => 13 | ApiIdentifier_Payouts => 14
    | ApiIdentifier_Disputes => 15 | ApiIdentifier_CardsInfo => 16 | ApiIdentifier_Files => 17
    | ApiIdentifier_Cache => 18 | ApiIdentifier_Profile => 19
    | ApiIdentifier_Verification => 20 | ApiIdentifier_ApiKeys => 21
    | ApiIdentifier_PaymentLink => 22 | ApiIdentifier_Routing => 23
    | ApiIdentifier_Subscription => 24 | ApiIdentifier_Blocklist => 25
    | ApiIdentifier_Forex => 26 | ApiIdentifier_RustLockerMigration => 27
    | ApiIdentifier_Gsm => 28 | ApiIdentifier_Role => 29 | ApiIdentifier_User => 30
    | ApiIdentifier_UserRole => 31 | ApiIdentifier_ConnectorOnboarding => 32
    | ApiIdentifier_AiWorkflow => 33 | ApiIdentifier_Poll => 34
    | ApiIdentifier_ApplePayCertificatesMigration => 35 | ApiIdentifier_Relay => 36
    | ApiIdentifier_Documentation => 37 | ApiIdentifier_CardNetworkTokenization => 38
    | ApiIdentifier_Hypersense => 39 | ApiIdentifier_PaymentMethodSession => 40
    | ApiIdentifier_ProcessTracker => 41 | ApiIdentifier_Authentication => 42
    | ApiIdentifier_Proxy => 43 | ApiIdentifier_ProfileAcquirer => 44
    | ApiIdentifier_ThreeDsDecisionRule => 45 | ApiIdentifier_GenericTokenization => 46
    | ApiIdentifier_RecoveryRecovery => 47 | ApiIdentifier_Superposition => 48
    | ApiIdentifier_CardIssuers => 49
    end;
|}.
Next Obligation. by intros []. Qed.

#[export] Instance ApiIdentifier_strum : EnumString ApiIdentifier := one_name (λ x, match x with
    | ApiIdentifier_Payments => "payments" | ApiIdentifier_Refunds => "refunds"
    | ApiIdentifier_Webhooks => "webhooks" | ApiIdentifier_Organization => "organization"
    | ApiIdentifier_MerchantAccount => "merchant_account"
    | ApiIdentifier_MerchantConnector => "merchant_connector"
    | ApiIdentifier_MerchantConnectorWebhookManagement => "merchant_connector_webhook_management"
    | ApiIdentifier_Configs => "configs" | ApiIdentifier_Customers => "customers"
    | ApiIdentifier_Ephemeral => "ephemeral" | ApiIdentifier_Health => "health"
    | ApiIdentifier_Mandates => "mandates" | ApiIdentifier_PaymentMethods => "payment_methods"
    | ApiIdentifier_PaymentMethodAuth => "payment_method_auth"
    | ApiIdentifier_Payouts => "payouts" | ApiIdentifier_Disputes => "disputes"
    | ApiIdentifier_CardsInfo => "cards_info" | ApiIdentifier_Files => "files"
    | ApiIdentifier_Cache => "cache" | ApiIdentifier_Profile => "profile"
    | ApiIdentifier_Verification => "verification" | ApiIdentifier_ApiKeys => "api_keys"
    | ApiIdentifier_PaymentLink => "payment_link" | ApiIdentifier_Routing => "routing"
    | ApiIdentifier_Subscription => "subscription" | ApiIdentifier_Blocklist => "blocklist"
    | ApiIdentifier_Forex => "forex"
    | ApiIdentifier_RustLockerMigration => "rust_locker_migration" | ApiIdentifier_Gsm => "gsm"
    | ApiIdentifier_Role => "role" | ApiIdentifier_User => "user"
    | ApiIdentifier_UserRole => "user_role"
    | ApiIdentifier_ConnectorOnboarding => "connector_onboarding"
    | ApiIdentifier_AiWorkflow => "ai_workflow" | ApiIdentifier_Poll => "poll"
    | ApiIdentifier_ApplePayCertificatesMigration => "apple_pay_certificates_migration"
    | ApiIdentifier_Relay => "relay" | ApiIdentifier_Documentation => "documentation"
    | ApiIdentifier_CardNetworkTokenization => "card_network_tokenization"
    | ApiIdentifier_Hypersense => "hypersense"
    | ApiIdentifier_PaymentMethodSession => "payment_method_session"
    | ApiIdentifier_ProcessTracker => "process_tracker"
    | ApiIdentifier_Authentication => "authentication" | ApiIdentifier_Proxy => "proxy"
    | ApiIdentifier_ProfileAcquirer => "profile_acquirer"
    | ApiIdentifier_ThreeDsDecisionRule => "three_ds_decision_rule"
    | ApiIdentifier_GenericTokenization => "generic_tokenization"
    | ApiIdentifier_RecoveryRecovery => "recovery_recovery"
    | ApiIdentifier_Superposition => "superposition"
    | ApiIdentifier_CardIssuers => "card_issuers"
    end).

(** [ApiIdentifier::from(Flow)]. *)
Definition api_identifier_from (x : Flow) : ApiIdentifier :=
  match x with
  | Flow_MerchantsAccountCreate | Flow_MerchantsAccountRetrieve | Flow_MerchantsAccountUpdate
  | Flow_MerchantsAccountDelete | Flow_MerchantTransferKey | Flow_MerchantAccountList
  | Flow_EnablePlatformAccount => ApiIdentifier_MerchantAccount
  | Flow_OrganizationCreate | Flow_OrganizationRetrieve | Flow_OrganizationUpdate
  | Flow_ConvertOrganizationToPlatform => ApiIdentifier_Organization
  | Flow_RoutingCreateConfig | Flow_RoutingLinkConfig | Flow_RoutingUnlinkConfig
  | Flow_RoutingRetrieveConfig | Flow_DecisionEngineSsoRedirect
  | Flow_RoutingRetrieveActiveConfig | Flow_RoutingRetrieveDefaultConfig
  | Flow_RoutingRetrieveDictionary | Flow_RoutingUpdateConfig | Flow_RoutingUpdateDefaultConfig
  | Flow_RoutingDeleteConfig | Flow_DecisionManagerDeleteConfig
  | Flow_DecisionManagerRetrieveConfig | Flow_ToggleDynamicRouting
  | Flow_CreateDynamicRoutingConfig | Flow_UpdateDynamicRoutingConfigs
  | Flow_DecisionManagerUpsertConfig | Flow_RoutingEvaluateRule
  | Flow_DecisionEngineDiffCounterReset | Flow_DecisionEngineRuleMigration
  | Flow_DecisionEngineMigrationStatus | Flow_VolumeSplitOnRoutingType
  | Flow_DecisionEngineDecideGatewayCall
  | Flow_DecisionEngineGatewayFeedbackCall => ApiIdentifier_Routing
  | Flow_CreateSubscription | Flow_ConfirmSubscription | Flow_CreateAndConfirmSubscription
  | Flow_GetSubscription | Flow_UpdateSubscription | Flow_GetSubscriptionEstimate
  | Flow_GetSubscriptionItemsForSubscription | Flow_PauseSubscription | Flow_ResumeSubscription
  | Flow_CancelSubscription => ApiIdentifier_Subscription
  | Flow_RetrieveForexFlow => ApiIdentifier_Forex
  | Flow_AddToBlocklist => ApiIdentifier_Blocklist
  | Flow_DeleteFromBlocklist => ApiIdentifier_Blocklist
  | Flow_ListBlocklist => ApiIdentifier_Blocklist
  | Flow_ToggleBlocklistGuard => ApiIdentifier_Blocklist
  | Flow_BatchBlocklistUpload => ApiIdentifier_Blocklist
  | Flow_GetBatchBlocklistJobStatus => ApiIdentifier_Blocklist
  | Flow_ListBatchBlocklistJobs => ApiIdentifier_Blocklist
  | Flow_MerchantConnectorsCreate | Flow_MerchantConnectorsRetrieve
  | Flow_MerchantConnectorsUpdate | Flow_MerchantConnectorsDelete
  | Flow_MerchantConnectorsList => ApiIdentifier_MerchantConnector
  | Flow_ConfigKeyCreate | Flow_ConfigKeyFetch | Flow_ConfigKeyUpdate | Flow_ConfigKeyDelete
  | Flow_CreateConfigKey | Flow_UnifiedConnectorServiceKillSwitchStatus
  | Flow_UnifiedConnectorServiceKillSwitchReset => ApiIdentifier_Configs
  | Flow_CustomersCreate | Flow_CustomersRetrieve | Flow_CustomersRetrieveByReferenceId
  | Flow_CustomersUpdate | Flow_CustomersDelete | Flow_CustomersGetMandates
  | Flow_CustomersGlobalIdMigration | Flow_CustomersList
  | Flow_CustomersListWithConstraints => ApiIdentifier_Customers
  | Flow_EphemeralKeyCreate | Flow_EphemeralKeyDelete => ApiIdentifier_Ephemeral
  | Flow_DeepHealthCheck | Flow_HealthCheck => ApiIdentifier_Health
  | Flow_OfferEngineConnectivityCheck => ApiIdentifier_Health
  | Flow_MandatesRetrieve | Flow_MandatesRevoke | Flow_MandatesList => ApiIdentifier_Mandates
  | Flow_PaymentMethodsCreate | Flow_PaymentMethodsMigrate | Flow_ModularPaymentMethodsMigrate
  | Flow_PaymentMethodsBatchUpdate | Flow_PaymentMethodsBatchRetrieve | Flow_PaymentMethodsList
  | Flow_CustomerPaymentMethodsList | Flow_GetPaymentMethodTokenData
  | Flow_PaymentMethodsRetrieve | Flow_PaymentMethodsRetrieveOlap | Flow_PaymentMethodsUpdate
  | Flow_PaymentMethodsDelete | Flow_NetworkTokenStatusCheck | Flow_PaymentMethodCollectLink
  | Flow_ValidatePaymentMethod | Flow_ListCountriesCurrencies | Flow_DefaultPaymentMethodsSet
  | Flow_PaymentMethodSave | Flow_TotalPaymentMethodCount
  | Flow_PaymentMethodGetTokenDetails => ApiIdentifier_PaymentMethods
  | Flow_PmAuthLinkTokenCreate | Flow_PmAuthExchangeToken => ApiIdentifier_PaymentMethodAuth
  | Flow_PaymentsCreate | Flow_PaymentsRetrieve | Flow_PaymentsRetrieveForceSync
  | Flow_PaymentsUpdate | Flow_PaymentsConfirm | Flow_PaymentsCapture | Flow_PaymentsCancel
  | Flow_PaymentsCancelPostCapture | Flow_PaymentsApprove | Flow_PaymentsReject
  | Flow_PaymentsSessionToken | Flow_PaymentsStart | Flow_PaymentsList | Flow_PaymentsFilters
  | Flow_PaymentsAggregate | Flow_PaymentsRedirect | Flow_PaymentsIncrementalAuthorization
  | Flow_PaymentsExtendAuthorization | Flow_PaymentsExternalAuthentication
  | Flow_PaymentsAuthorize | Flow_GetExtendedCardInfo | Flow_PaymentsCompleteAuthorize
  | Flow_PaymentsManualUpdate | Flow_PaymentsManualStatusUpdate
  | Flow_SessionUpdateTaxCalculation | Flow_PaymentsConfirmIntent | Flow_PaymentsCreateIntent
  | Flow_PaymentsGetIntent | Flow_PaymentMethodBalanceCheck | Flow_ApplyPaymentMethodData
  | Flow_PaymentsPostSessionTokens | Flow_PaymentsUpdateMetadata | Flow_PaymentsUpdateIntent
  | Flow_PaymentsCreateAndConfirmIntent | Flow_PaymentStartRedirection
  | Flow_ProxyConfirmIntent | Flow_PaymentsRetrieveUsingMerchantReferenceId
  | Flow_PaymentAttemptsList | Flow_RecoveryPaymentsCreate
  | Flow_PaymentsSubmitCheckEligibility | Flow_PaymentsSubmitEligibility
  | Flow_PaymentLinkCreate | Flow_PaymentsCancelPostCaptureSync => ApiIdentifier_Payments
  | Flow_PayoutsCreate | Flow_PayoutsRetrieve | Flow_PayoutsUpdate | Flow_PayoutsCancel
  | Flow_PayoutsFulfill | Flow_PayoutsList | Flow_PayoutsFilter | Flow_PayoutsAccounts
  | Flow_PayoutsConfirm | Flow_PayoutsManualUpdate | Flow_PayoutLinkInitiate
  | Flow_PayoutsAggregate => ApiIdentifier_Payouts
  | Flow_RefundsCreate | Flow_RefundsRetrieve | Flow_RefundsRetrieveForceSync
  | Flow_RefundsUpdate | Flow_RefundsList | Flow_RefundsFilters | Flow_RefundsAggregate
  | Flow_RefundsManualUpdate => ApiIdentifier_Refunds
  | Flow_Relay | Flow_RelayRetrieve | Flow_RelayUnreferencedRefund => ApiIdentifier_Relay
  | Flow_FrmFulfillment | Flow_IncomingWebhookReceive | Flow_IncomingRelayWebhookReceive
  | Flow_WebhookEventInitialDeliveryAttemptList | Flow_WebhookEventDeliveryAttemptList
  | Flow_WebhookEventDeliveryRetry | Flow_RecoveryIncomingWebhookReceive
  | Flow_IncomingNetworkTokenWebhookReceive => ApiIdentifier_Webhooks
  | Flow_ApiKeyCreate | Flow_ApiKeyRetrieve | Flow_ApiKeyUpdate | Flow_ApiKeyRevoke
  | Flow_ApiKeyList => ApiIdentifier_ApiKeys
  | Flow_DisputesRetrieve | Flow_DisputesList | Flow_DisputesFilters
  | Flow_DisputesEvidenceSubmit | Flow_AttachDisputeEvidence | Flow_RetrieveDisputeEvidence
  | Flow_DisputesAggregate | Flow_DeleteDisputeEvidence => ApiIdentifier_Disputes
  | Flow_CardsInfo | Flow_CardsInfoCreate | Flow_CardsInfoUpdate
  | Flow_CardsInfoMigrate => ApiIdentifier_CardsInfo
  | Flow_CreateFile | Flow_DeleteFile | Flow_RetrieveFile => ApiIdentifier_Files
  | Flow_CacheInvalidate => ApiIdentifier_Cache
  | Flow_ProfileCreate | Flow_ProfileUpdate | Flow_ProfileRetrieve | Flow_ProfileDelete
  | Flow_ProfileList | Flow_ToggleExtendedCardInfo
  | Flow_ToggleConnectorAgnosticMit => ApiIdentifier_Profile
  | Flow_PaymentLinkRetrieve | Flow_PaymentLinkInitiate | Flow_PaymentSecureLinkInitiate
  | Flow_PaymentLinkList | Flow_PaymentLinkStatus => ApiIdentifier_PaymentLink
  | Flow_Verification => ApiIdentifier_Verification
  | Flow_RustLockerMigration => ApiIdentifier_RustLockerMigration
  | Flow_GsmRuleCreate | Flow_GsmRuleRetrieve | Flow_GsmRuleUpdate
  | Flow_GsmRuleDelete => ApiIdentifier_Gsm
  | Flow_ApplePayCertificatesMigration => ApiIdentifier_ApplePayCertificatesMigration
  | Flow_UserConnectAccount | Flow_UserSignUp | Flow_UserSignIn | Flow_Signout
  | Flow_ChangePassword | Flow_SetDashboardMetadata | Flow_GetMultipleDashboardMetadata
  | Flow_VerifyPaymentConnector | Flow_InternalUserSignup | Flow_TenantUserCreate
  | Flow_SwitchOrg | Flow_SwitchMerchantV2 | Flow_SwitchProfile | Flow_CreatePlatformAccount
  | Flow_UserOrgMerchantCreate | Flow_UserMerchantAccountCreate | Flow_GenerateSampleData
  | Flow_DeleteSampleData | Flow_GetUserDetails | Flow_GetUserRoleDetails | Flow_ForgotPassword
  | Flow_ResetPassword | Flow_RotatePassword | Flow_InviteMultipleUser | Flow_ReInviteUser
  | Flow_UserSignUpWithMerchantId | Flow_VerifyEmail | Flow_AcceptInviteFromEmail
  | Flow_VerifyEmailRequest | Flow_UpdateUserAccountDetails | Flow_TotpBegin | Flow_TotpReset
  | Flow_TotpVerify | Flow_TotpUpdate | Flow_RecoveryCodeVerify | Flow_RecoveryCodesGenerate
  | Flow_TerminateTwoFactorAuth | Flow_TwoFactorAuthStatus
  | Flow_CreateUserAuthenticationMethod | Flow_UpdateUserAuthenticationMethod
  | Flow_ListUserAuthenticationMethods | Flow_UserTransferKey | Flow_GetSsoAuthUrl
  | Flow_SignInWithSso | Flow_OidcDiscovery | Flow_OidcJwks | Flow_OidcAuthorize
  | Flow_OidcToken | Flow_ListOrgForUser | Flow_ListMerchantsForUserInOrg
  | Flow_GetUserMerchantDetails | Flow_ListProfileForUserInOrgAndMerchant
  | Flow_ListInvitationsForUser | Flow_AuthSelect | Flow_GetThemeUsingLineage
  | Flow_GetThemeUsingThemeId | Flow_UploadFileToThemeStorage | Flow_CreateTheme
  | Flow_UpdateTheme | Flow_DeleteTheme | Flow_CreateUserTheme | Flow_UpdateUserTheme
  | Flow_DeleteUserTheme | Flow_GetUserThemeUsingThemeId | Flow_GetUserThemeConfigVersion
  | Flow_UploadFileToUserThemeStorage | Flow_GetUserThemeUsingLineage
  | Flow_ListAllThemesInLineage | Flow_CloneConnector | Flow_EmbeddedTokenInfo
  | Flow_GetEmbeddedToken | Flow_GetUserDetailsInternal | Flow_ListUsersInternal
  | Flow_ListMembersForEntity | Flow_LaunchSage => ApiIdentifier_User
  | Flow_GetDataFromHyperswitchAiFlow
  | Flow_ListAllChatInteractions => ApiIdentifier_AiWorkflow
  | Flow_ListRolesV2 | Flow_ListInvitableRolesAtEntityLevel
  | Flow_ListUpdatableRolesAtEntityLevel | Flow_GetRole | Flow_GetRoleV2
  | Flow_GetRoleFromToken | Flow_GetRoleFromTokenV2 | Flow_GetParentGroupsInfoForRoleFromToken
  | Flow_UpdateUserRole | Flow_GetAuthorizationInfo | Flow_GetRolesInfo
  | Flow_GetParentGroupInfo | Flow_AcceptInvitationsV2 | Flow_AcceptInvitationsPreAuth
  | Flow_DeleteUserRole | Flow_CreateRole | Flow_CreateRoleV2 | Flow_UpdateRole
  | Flow_UserFromEmail | Flow_ListUsersInLineage
  | Flow_AuthorizeUserToken => ApiIdentifier_UserRole
  | Flow_GetActionUrl | Flow_SyncOnboardingStatus
  | Flow_ResetTrackingId => ApiIdentifier_ConnectorOnboarding
  | Flow_RetrievePollStatus => ApiIdentifier_Poll
  | Flow_FeatureMatrix => ApiIdentifier_Documentation
  | Flow_TokenizeCard | Flow_TokenizeCardUsingPaymentMethodId
  | Flow_TokenizeCardBatch => ApiIdentifier_CardNetworkTokenization
  | Flow_HypersenseTokenRequest | Flow_HypersenseVerifyToken
  | Flow_HypersenseSignoutToken => ApiIdentifier_Hypersense
  | Flow_PaymentMethodSessionCreate | Flow_PaymentMethodSessionRetrieve
  | Flow_PaymentMethodSessionConfirm | Flow_PaymentMethodSessionUpdateSavedPaymentMethod
  | Flow_PaymentMethodSessionDeleteSavedPaymentMethod
  | Flow_PaymentMethodSessionUpdate => ApiIdentifier_PaymentMethodSession
  | Flow_RevenueRecoveryRetrieve | Flow_RevenueRecoveryResume => ApiIdentifier_ProcessTracker
  | Flow_AuthenticationCreate | Flow_AuthenticationEligibility | Flow_AuthenticationSync
  | Flow_AuthenticationSyncPostUpdate | Flow_AuthenticationAuthenticate
  | Flow_AuthenticationSessionToken | Flow_AuthenticationEligibilityCheck
  | Flow_AuthenticationRetrieveEligibilityCheck => ApiIdentifier_Authentication
  | Flow_Proxy => ApiIdentifier_Proxy
  | Flow_ProfileAcquirerCreate | Flow_ProfileAcquirerUpdate => ApiIdentifier_ProfileAcquirer
  | Flow_ThreeDsDecisionRuleExecute => ApiIdentifier_ThreeDsDecisionRule
  | Flow_TokenizationCreate | Flow_TokenizationRetrieve | Flow_TokenizationDelete
  | Flow_NetworkTokenEligibilityCheck => ApiIdentifier_GenericTokenization
  | Flow_RecoveryDataBackfill | Flow_RevenueRecoveryRedis => ApiIdentifier_RecoveryRecovery
  | Flow_GetSuperpositionSdkConfig | Flow_SuperpositionListContexts
  | Flow_SuperpositionListDefaultConfigs | Flow_SuperpositionListDimensions
  | Flow_SuperpositionGetDimension | Flow_SuperpositionGetDefaultConfig
  | Flow_SuperpositionCreateContext | Flow_SuperpositionResolveDetailedConfig
  | Flow_SuperpositionResolveConfigExplanation
  | Flow_SuperpositionListAuditLogs => ApiIdentifier_Superposition
  | Flow_MerchantConnectorWebhookRegister | Flow_MerchantConnectorWebhookList
  | Flow_MerchantConnectorWebhookGenerateSecret => ApiIdentifier_MerchantConnectorWebhookManagement
  | Flow_AddCardIssuer | Flow_UpdateCardIssuer | Flow_DeleteCardIssuer
  | Flow_ListCardIssuers => ApiIdentifier_CardIssuers
  end.

