(* ===== verification/ApiLocking.v ===== *)
(** * Locks of API requests

    A request that works on a payment first takes a lock in Redis and frees it
    when its handler has returned.  The file models the actions of
    [crates/router/src/core/api_locking.rs], the Redis commands they send
    ([crates/redis_interface/src/module/redis_rs/commands.rs]), the locks that
    requests ask for ([crates/router/src/routes/payments.rs]) and the use of the
    lock by the server ([crates/router/src/services/api.rs]).

    An action is a program: a tree of Redis commands, each sent when the reply of
    the one before has come, or several of them at once ([try_join_all]) whose
    replies come in any order.  The server is a system of requests that run their
    programs in any interleaving, while time passes and keys expire.  Redis
    itself is the class [Redis] with its laws. *)

From S2P Require Import Prelude LockUtils.

(** ** Replies *)

Inductive SetnxReply := KeySet | KeyNotSet.

Inductive DelReply := KeyDeleted | KeyNotDeleted.

Definition is_key_not_deleted (self : DelReply) : bool :=
  match self with KeyNotDeleted => true | KeyDeleted => false end.

Inductive SetGetReply :=
| ValueSet (value : string)
| ValueExists (value : string).

Definition get_value (self : SetGetReply) : string :=
  match self with ValueSet value | ValueExists value => value end.

(** The [RedisError]s of the commands below. *)
Inductive RedisError := SetFailed | GetFailed | DeleteFailed.

(** ** The Redis server

    Its state is abstract.  [get] is GET, [set_nx] is SET with NX and EX and says
    whether it set the key, [del] is DEL and says whether the key was there, and
    [elapse] lets time pass. *)
Class Redis : Type := {
  server : Type;
  get : string → server → option string;
  set_nx : string → string → Z → server → bool * server;
  del : string → server → bool * server;
  elapse : Z → server → server;
}.

(** What Redis documents of SET with NX and of DEL: a key that exists is not
    set, and a command changes no other key than its own. *)
Class RedisLaws `{Redis} : Prop := {
  set_nx_exists k v ttl s : (set_nx k v ttl s).1 = bool_decide (get k s = None);
  set_nx_get k v ttl s j :
    get j (set_nx k v ttl s).2 =
      if bool_decide (j = k ∧ get k s = None) then Some v else get j s;
  del_exists k s : (del k s).1 = bool_decide (is_Some (get k s));
  del_get k s j : get j (del k s).2 = if bool_decide (j = k) then None else get j s;
}.

(** ** Commands *)

Inductive command : Type → Type :=
| SetNx (key value : string) (seconds : Z) : command SetnxReply
| SetNxGet (key value : string) (seconds : Z) : command SetGetReply
| Get (key : string) : command (option string)
| MGet (keys : list string) : command (list (option string))
| Del (key : string) : command DelReply.

Section commands.
Context `{Redis}.

(** [set_key_if_not_exists_with_expiry]. *)
Definition set_key_if_not_exists_with_expiry (key value : string) (seconds : Z) (s : server) :
    result RedisError SetnxReply * server :=
  let '(set, s) := set_nx key value seconds s in
  (Ok (if set then KeySet else KeyNotSet), s).

(** [set_key_if_not_exists_and_get_value]: SET and GET in one transaction. *)
Definition set_key_if_not_exists_and_get_value (key value : string) (ttl : Z) (s : server) :
    result RedisError SetGetReply * server :=
  let '(set, s) := set_nx key value ttl s in
  match get key s with
  | None => (Err SetFailed, s)
  | Some actual_value => (Ok (if set then ValueSet actual_value else ValueExists actual_value), s)
  end.

(** [get_key::<Option<String>>]. *)
Definition get_key (key : string) (s : server) : result RedisError (option string) * server :=
  (Ok (get key s), s).

(** [get_multiple_keys_with_mget], for keys. *)
Definition mget (keys : list string) (s : server) : result RedisError (list (option string)) * server :=
  (Ok ((λ key, get key s) <$> keys), s).

(** [delete_key]. *)
Definition delete_key (key : string) (s : server) : result RedisError DelReply * server :=
  let '(deleted, s) := del key s in
  (Ok (if deleted then KeyDeleted else KeyNotDeleted), s).

Definition exec {T} (c : command T) : server → result RedisError T * server :=
  match c with
  | SetNx key value seconds => set_key_if_not_exists_with_expiry key value seconds
  | SetNxGet key value seconds => set_key_if_not_exists_and_get_value key value seconds
  | Get key => get_key key
  | MGet keys => mget keys
  | Del key => delete_key key
  end.

End commands.

(** The error of a command that fails on its way. *)
Definition command_error {T} (c : command T) : RedisError :=
  match c with
  | SetNx _ _ _ | SetNxGet _ _ _ => SetFailed
  | Get _ | MGet _ => GetFailed
  | Del _ => DeleteFailed
  end.

(** ** Programs

    [Join] is a [try_join_all]: a slot holds a command that has not been
    answered, or its reply.  The first error ends it and drops the commands
    that are left. *)
Inductive prog (A : Type) : Type :=
| Ret (a : A)
| Call {T : Type} (c : command T) (k : result RedisError T → prog A)
| Join {T : Type} (slots : list (command T + T)) (k : result RedisError (list T) → prog A).
Arguments Ret {A} a.
Arguments Call {A T} c k.
Arguments Join {A T} slots k.

Fixpoint prog_bind {A B} (p : prog A) (f : A → prog B) : prog B :=
  match p with
  | Ret a => f a
  | Call c k => Call c (λ r, prog_bind (k r) f)
  | Join slots k => Join slots (λ r, prog_bind (k r) f)
  end.

Declare Scope prog_scope.
Delimit Scope prog_scope with prog.
Notation "x <- c ;; k" := (prog_bind c (λ x, k))
  (at level 100, c at next level, right associativity) : prog_scope.

(** The replies of a join all of whose commands are answered. *)
Fixpoint replies {T} (slots : list (command T + T)) : option (list T) :=
  match slots with
  | [] => Some []
  | inl _ :: _ => None
  | inr t :: slots => ts ← replies slots; Some (t :: ts)
  end.

Definition join {A T} (slots : list (command T + T)) (k : result RedisError (list T) → prog A) : prog A :=
  match replies slots with
  | Some ts => k (Ok ts)
  | None => Join slots k
  end.

Definition call {T} (c : command T) : prog (result RedisError T) := Call c Ret.

Definition try_join_all {T} (cs : list (command T)) : prog (result RedisError (list T)) :=
  join (inl <$> cs) Ret.

(** [set_multiple_keys_if_not_exists_and_get_values]. *)
Definition set_multiple_keys_if_not_exists_and_get_values (keys : list (string * string)) (ttl : Z) :
    prog (result RedisError (list SetGetReply)) :=
  try_join_all ((λ kv, SetNxGet kv.1 kv.2 ttl) <$> keys).

(** [get_multiple_keys]: GETs in a cluster, one MGET otherwise. *)
Definition get_multiple_keys (cluster_enabled : bool) (keys : list string) :
    prog (result RedisError (list (option string))) :=
  match keys with
  | [] => Ret (Ok [])
  | _ => if cluster_enabled then try_join_all (Get <$> keys) else call (MGet keys)
  end.

(** [delete_multiple_keys]. *)
Definition delete_multiple_keys (keys : list string) : prog (result RedisError (list DelReply)) :=
  try_join_all (Del <$> keys).

(** ** Actions *)

Record LockSettings := {
  redis_lock_expiry_seconds : Z;
  delay_between_retries_in_milliseconds : Z;
  lock_retries : Z;
}.

(** [LockSettings::deserialize].  [None]: the product overflows or the delay is
    zero, which panics in a build with overflow checks. *)
Definition deserialize_lock_settings (expiry_seconds delay_milliseconds : Z) : option LockSettings :=
  let milliseconds := (expiry_seconds * 1000)%Z in
  if (u32_max <? milliseconds)%Z then None
  else if (delay_milliseconds =? 0)%Z then None
  else Some {|
    redis_lock_expiry_seconds := expiry_seconds;
    delay_between_retries_in_milliseconds := delay_milliseconds;
    lock_retries := (milliseconds / delay_milliseconds)%Z;
  |}.

(** The errors of the server that the locks give, and those of a handler. *)
Inductive ApiErrorResponse :=
| InternalServerError
| ResourceBusy
| HandlerError (message : string).

Record LockingInput := {
  unique_locking_key : string;
  api_identifier : ApiIdentifier;
  override_lock_retries : option Z;
}.

Inductive LockAction :=
| Hold (input : LockingInput)
| HoldMultiple (inputs : list LockingInput)
| QueueWithOk
| Drop
| NotApplicable.

Definition API_LOCK_PREFIX : string := "API_LOCK".

Definition get_redis_locking_key (merchant_id : string) (self : LockingInput) : string :=
  API_LOCK_PREFIX +:+ "_" +:+ merchant_id +:+ "_" +:+ to_string (api_identifier self)
    +:+ "_" +:+ unique_locking_key self.

(** What an action reads of the session. *)
Record Session := {
  request_id : option string;
  conf_lock_settings : LockSettings;
  get_redis_conn : result RedisError unit;
  cluster_enabled : bool;
}.


(** The attempts of a [Hold].  The sleep between two of them is time that
    passes. *)
Fixpoint hold_attempts (retries : nat) (key id : string) (ttl : Z) : prog (result ApiErrorResponse unit) :=
  match retries with
  | 0 => Ret (Err ResourceBusy)
  | S retries =>
      (redis_lock_result <- call (SetNx key id ttl) ;;
       match redis_lock_result with
       | Ok KeySet => Ret (Ok tt)
       | Ok KeyNotSet => hold_attempts retries key id ttl
       | Err _ => Ret (Err InternalServerError)
       end)%prog
  end.

(** The attempts of a [HoldMultiple]. *)
Fixpoint hold_multiple_attempts (retries : nat) (key_values : list (string * string)) (id : string)
    (ttl : Z) : prog (result ApiErrorResponse unit) :=
  match retries with
  | 0 => Ret (Err ResourceBusy)
  | S retries =>
      (results <- set_multiple_keys_if_not_exists_and_get_values key_values ttl ;;
       match results with
       | Err _ => Ret (Err InternalServerError)
       | Ok results =>
           if all (λ res, bool_decide (get_value res = id)) results then Ret (Ok tt)
           else hold_multiple_attempts retries key_values id ttl
       end)%prog
  end.

(** [perform_locking_action]. *)
Definition perform_locking_action (state : Session) (merchant_id : string) (self : LockAction) :
    prog (result ApiErrorResponse unit) :=
  let conf := conf_lock_settings state in
  match self with
  | HoldMultiple inputs =>
      let retries := default (lock_retries conf)
        (head (omap override_lock_retries inputs)) in
      match request_id state, get_redis_conn state with
      | None, _ => Ret (Err InternalServerError)
      | _, Err _ => Ret (Err InternalServerError)
      | Some id, Ok _ =>
          let redis_key_values := (λ input, (get_redis_locking_key merchant_id input, id)) <$> inputs in
          hold_multiple_attempts (Z.to_nat retries) redis_key_values id (redis_lock_expiry_seconds conf)
      end
  | Hold input =>
      let retries := default (lock_retries conf) (override_lock_retries input) in
      match get_redis_conn state, request_id state with
      | Err _, _ => Ret (Err InternalServerError)
      | _, None => Ret (Err InternalServerError)
      | Ok _, Some id =>
          hold_attempts (Z.to_nat retries) (get_redis_locking_key merchant_id input) id
            (redis_lock_expiry_seconds conf)
      end
  | QueueWithOk | Drop | NotApplicable => Ret (Ok tt)
  end.

(** [free_lock_action]. *)
Definition free_lock_action (state : Session) (merchant_id : string) (self : LockAction) :
    prog (result ApiErrorResponse unit) :=
  match self with
  | HoldMultiple inputs =>
      match get_redis_conn state with
      | Err _ => Ret (Err InternalServerError)
      | Ok _ =>
          let redis_locking_keys := get_redis_locking_key merchant_id <$> inputs in
          (values <- get_multiple_keys (cluster_enabled state) redis_locking_keys ;;
           match values with
           | Err _ => Ret (Err InternalServerError)
           | Ok values =>
               let invalid_request_id_list :=
                 omap id (List.filter (λ value, negb (bool_decide (value = request_id state))) values) in
               match invalid_request_id_list with
               | _ :: _ => Ret (Err InternalServerError)
               | [] =>
                   delete_result <- delete_multiple_keys redis_locking_keys ;;
                   match delete_result with
                   | Err _ => Ret (Err InternalServerError)
                   | Ok delete_result =>
                       if any is_key_not_deleted delete_result then Ret (Err InternalServerError)
                       else Ret (Ok tt)
                   end
               end
           end)%prog
      end
  | Hold input =>
      match get_redis_conn state with
      | Err _ => Ret (Err InternalServerError)
      | Ok _ =>
          let redis_locking_key := get_redis_locking_key merchant_id input in
          (val <- call (Get redis_locking_key) ;;
           match val with
           | Err _ => Ret (Err InternalServerError)
           | Ok val =>
               if bool_decide (val = request_id state) then
                 delete_result <- call (Del redis_locking_key) ;;
                 match delete_result with
                 | Ok KeyDeleted => Ret (Ok tt)
                 | Ok KeyNotDeleted => Ret (Err InternalServerError)
                 | Err _ => Ret (Err InternalServerError)
                 end
               else Ret (Err InternalServerError)
           end)%prog
      end
  | QueueWithOk | Drop | NotApplicable => Ret (Ok tt)
  end.

(** The inputs of an action, and their keys. *)
Definition inputs_of (self : LockAction) : list LockingInput :=
  match self with
  | Hold input => [input]
  | HoldMultiple inputs => inputs
  | QueueWithOk | Drop | NotApplicable => []
  end.

Definition lock_keys (merchant_id : string) (self : LockAction) : list string :=
  get_redis_locking_key merchant_id <$> inputs_of self.

(** ** The locks of payment requests *)

Inductive PaymentIdType :=
| PaymentIntentId (id : string)
| ConnectorTransactionId (id : string)
| PaymentAttemptId (id : string)
| PreprocessingId (id : string).

(** The requests on payments that implement [GetLockingInput], with what the
    implementation reads of them. *)
Inductive PaymentsApiRequest :=
| PaymentsRequest (payment_id : option PaymentIdType) (customer_id : option string)
    (customer : option (option string))
| PaymentsStartRequest (payment_id : string)
| PaymentsRetrieveRequest (resource_id : PaymentIdType) (force_sync : bool)
| PaymentsSessionRequest (payment_id : string)
| PaymentsDynamicTaxCalculationRequest (payment_id : string)
| PaymentsPostSessionTokensRequest (payment_id : string)
| PaymentsUpdateMetadataRequest (payment_id : string)
| PaymentsRedirectResponseData (resource_id : PaymentIdType)
| PaymentsCompleteAuthorizeRequest (payment_id : string)
| PaymentsCancelRequest (payment_id : string)
| PaymentsCancelPostCaptureRequest (payment_id : string)
| PaymentId (payment_id : string)
| PaymentsExtendAuthorizationRequest (payment_id : string)
| PaymentsCaptureRequest (payment_id : string)
| FPaymentsApproveRequest (payment_id : string)
| FPaymentsRejectRequest (payment_id : string)
| PaymentsIncrementalAuthorizationRequest (payment_id : string)
| PaymentsExternalAuthenticationRequest (payment_id : string)
| PaymentsManualUpdateRequest (payment_id : string).

Definition locking_input (flow : Flow) (key : string) : LockingInput := {|
  unique_locking_key := key;
  api_identifier := api_identifier_from flow;
  override_lock_retries := None;
|}.

(** [get_locking_input], for every request. *)
Definition get_locking_input (flow : Flow) (self : PaymentsApiRequest) : LockAction :=
  match self with
  | PaymentsRequest (Some (PaymentIntentId payment)) customer_id customer =>
      let intent_id_locking_input := locking_input flow payment in
      match (match customer_id with Some c => Some c | None => customer ≫= id end) with
      | Some customer_id => HoldMultiple [intent_id_locking_input; locking_input flow customer_id]
      | None => Hold intent_id_locking_input
      end
  | PaymentsRequest _ _ _ => NotApplicable
  | PaymentsRetrieveRequest (PaymentIntentId payment) true
  | PaymentsRedirectResponseData (PaymentIntentId payment) => Hold (locking_input flow payment)
  | PaymentsRetrieveRequest _ _ | PaymentsRedirectResponseData _ => NotApplicable
  | PaymentsStartRequest payment | PaymentsSessionRequest payment
  | PaymentsDynamicTaxCalculationRequest payment | PaymentsPostSessionTokensRequest payment
  | PaymentsUpdateMetadataRequest payment | PaymentsCompleteAuthorizeRequest payment
  | PaymentsCancelRequest payment | PaymentsCancelPostCaptureRequest payment
  | PaymentId payment | PaymentsExtendAuthorizationRequest payment
  | PaymentsCaptureRequest payment | FPaymentsApproveRequest payment
  | FPaymentsRejectRequest payment | PaymentsIncrementalAuthorizationRequest payment
  | PaymentsExternalAuthenticationRequest payment
  | PaymentsManualUpdateRequest payment => Hold (locking_input flow payment)
  end.

(** The flows under which the v1 routes of [routes/payments.rs] that take a lock ask
    for the lock of a request. *)
Definition route_flows (self : PaymentsApiRequest) : list Flow :=
  match self with
  | PaymentsRequest _ _ _ =>
      [Flow_PaymentsCreate; Flow_PaymentLinkCreate; Flow_PaymentsUpdate; Flow_PaymentsConfirm]
  | PaymentsStartRequest _ => [Flow_PaymentsStart]
  | PaymentsRetrieveRequest _ _ => [Flow_PaymentsRetrieveForceSync; Flow_PaymentsRetrieve]
  | PaymentsSessionRequest _ => [Flow_PaymentsSessionToken]
  | PaymentsDynamicTaxCalculationRequest _ => [Flow_SessionUpdateTaxCalculation]
  | PaymentsPostSessionTokensRequest _ => [Flow_PaymentsPostSessionTokens]
  | PaymentsUpdateMetadataRequest _ => [Flow_PaymentsUpdateMetadata]
  | PaymentsRedirectResponseData _ => [Flow_PaymentsRedirect; Flow_PaymentsAuthorize]
  | PaymentsCompleteAuthorizeRequest _ => [Flow_PaymentsCompleteAuthorize]
  | PaymentsCancelRequest _ => [Flow_PaymentsCancel]
  | PaymentsCancelPostCaptureRequest _ => [Flow_PaymentsCancelPostCapture]
  | PaymentId _ => [Flow_PaymentsCancelPostCaptureSync]
  | PaymentsExtendAuthorizationRequest _ => [Flow_PaymentsExtendAuthorization]
  | PaymentsCaptureRequest _ => [Flow_PaymentsCapture]
  | FPaymentsApproveRequest _ => [Flow_PaymentsApprove]
  | FPaymentsRejectRequest _ => [Flow_PaymentsReject]
  | PaymentsIncrementalAuthorizationRequest _ => [Flow_PaymentsIncrementalAuthorization]
  | PaymentsExternalAuthenticationRequest _ => [Flow_PaymentsExternalAuthentication]
  | PaymentsManualUpdateRequest _ => [Flow_PaymentsManualUpdate]
  end.

(** The lock of a webhook on a payment ([payments_incoming_webhook_flow]). *)
Definition webhook_lock_action (payment_id : string) : LockAction := Hold {|
  unique_locking_key := payment_id;
  api_identifier := ApiIdentifier_Payments;
  override_lock_retries := None;
|}.

(** The handlers that change a payment without its lock: the manual update of the
    status ([payments_manual_status_update]), the webhooks of an external
    authentication, of a fraud check and of a bank transfer, and the manual update
    ([payments_manual_update]), whose route asks for the lock before it puts the id of
    its path into the request, when the id there is a generated one. *)
Inductive UnlockedHandler : Set :=
| ManualStatusUpdate | ExternalAuthenticationWebhook | FraudCheckWebhook | BankTransferWebhook
| ManualUpdate (generated : string).

Definition unlocked_action (h : UnlockedHandler) : LockAction :=
  match h with
  | ManualStatusUpdate | ExternalAuthenticationWebhook | FraudCheckWebhook | BankTransferWebhook => NotApplicable
  | ManualUpdate generated => get_locking_input Flow_PaymentsManualUpdate (PaymentsManualUpdateRequest generated)
  end.

(** ** The server *)

Section system.
Context `{Redis} (conf : LockSettings) (cluster : bool).

Definition session (id : string) : Session := {|
  request_id := Some id;
  conf_lock_settings := conf;
  get_redis_conn := Ok tt;
  cluster_enabled := cluster;
|}.

(** A command can be lost before it reaches the server, or its reply after. *)
Inductive Fault := NoFault | LostCommand | LostReply.

Definition exec_faulty {T} (fault : Fault) (c : command T) (s : server) : result RedisError T * server :=
  match fault with
  | NoFault => exec c s
  | LostCommand => (Err (command_error c), s)
  | LostReply => (Err (command_error c), (exec c s).2)
  end.

(** One command of a program: the [i]th of a join. *)
Definition prog_step {A} (i : nat) (fault : Fault) (p : prog A) (s : server) : option (prog A * server) :=
  match p with
  | Ret _ => None
  | Call c k => let '(r, s) := exec_faulty fault c s in Some (k r, s)
  | Join slots k =>
      match slots !! i with
      | Some (inl c) =>
          match exec_faulty fault c s with
          | (Ok t, s) => Some (join (<[i := inr t]> slots) k, s)
          | (Err e, s) => Some (k (Err e), s)
          end
      | _ => None
      end
  end.

(** Where a request is in [server_wrap_util]: it takes the lock, its handler
    runs, it frees the lock with the result of the handler at hand, or it has
    been answered. *)
Inductive Phase :=
| Locking (p : prog (result ApiErrorResponse unit))
| Handling
| Freeing (res : result ApiErrorResponse string) (p : prog (result ApiErrorResponse unit))
| Answered (res : result ApiErrorResponse string).

(** [perform_locking_action(..)?; let res = func(..); free_lock_action(..)?; res]:
    where a program that has returned leaves the request. *)
Definition settle (ph : Phase) : Phase :=
  match ph with
  | Locking (Ret (Ok _)) => Handling
  | Locking (Ret (Err e)) => Answered (Err e)
  | Freeing res (Ret (Ok _)) => Answered res
  | Freeing _ (Ret (Err e)) => Answered (Err e)
  | _ => ph
  end.

Record Request := {
  merchant_id : string;
  lock_action : LockAction;
  phase : Phase;
}.

Definition set_phase (ph : Phase) (r : Request) : Request :=
  {| merchant_id := merchant_id r; lock_action := lock_action r; phase := ph |}.

Definition request_keys (r : Request) : list string := lock_keys (merchant_id r) (lock_action r).

(** The requests by their request ids, and Redis. *)
Record System := {
  redis : server;
  requests : gmap string Request;
}.

Inductive Event :=
| Arrive (id merchant : string) (action : LockAction)
| Command (id : string) (i : nat) (fault : Fault)
| Handled (id : string) (res : result ApiErrorResponse string)
| Elapse (seconds : Z).

(** A program's step, and what becomes of the request. *)
Definition phase_step (i : nat) (fault : Fault) (ph : Phase) (s : server) : option (Phase * server) :=
  match ph with
  | Locking p => '(p, s) ← prog_step i fault p s; Some (settle (Locking p), s)
  | Freeing res p => '(p, s) ← prog_step i fault p s; Some (settle (Freeing res p), s)
  | Handling | Answered _ => None
  end.

Definition arrive (id merchant : string) (action : LockAction) : Request := {|
  merchant_id := merchant;
  lock_action := action;
  phase := settle (Locking (perform_locking_action (session id) merchant action));
|}.

Definition handled (id : string) (res : result ApiErrorResponse string) (r : Request) : option Request :=
  match phase r with
  | Handling =>
      Some (set_phase (settle (Freeing res (free_lock_action (session id) (merchant_id r) (lock_action r)))) r)
  | _ => None
  end.

Definition system_step (e : Event) (s : System) : option System :=
  match e with
  | Arrive id merchant action =>
      match requests s !! id with
      | Some _ => None
      | None => Some {| redis := redis s; requests := <[id := arrive id merchant action]> (requests s) |}
      end
  | Command id i fault =>
      r ← requests s !! id;
      '(ph, srv) ← phase_step i fault (phase r) (redis s);
      Some {| redis := srv; requests := <[id := set_phase ph r]> (requests s) |}
  | Handled id res =>
      r ← requests s !! id;
      r ← handled id res r;
      Some {| redis := redis s; requests := <[id := r]> (requests s) |}
  | Elapse seconds => Some {| redis := elapse seconds (redis s); requests := requests s |}
  end.

Fixpoint run (es : list Event) (s : System) : option System :=
  match es with
  | [] => Some s
  | e :: es => s ← system_step e s; run es s
  end.

(** No key expires that an unanswered request holds or is about to hold. *)
Definition unanswered (ph : Phase) : bool :=
  match ph with Answered _ => false | _ => true end.

Definition timely (e : Event) (s : System) : Prop :=
  match e with
  | Elapse seconds =>
      map_Forall (λ id r, unanswered (phase r) = true →
        Forall (λ k, get k (redis s) = Some id → get k (elapse seconds (redis s)) = Some id)
          (request_keys r)) (requests s)
  | _ => True
  end.

(** The keys of an arriving request differ. *)
Definition distinct_keys (e : Event) : Prop :=
  match e with
  | Arrive _ merchant action => NoDup (lock_keys merchant action)
  | _ => True
  end.

(** A run all of whose events are timely and ask for different keys. *)
Fixpoint good_run (es : list Event) (s : System) : Prop :=
  match es with
  | [] => True
  | e :: es =>
      distinct_keys e ∧ timely e s ∧
      match system_step e s with Some s => good_run es s | None => True end
  end.

#[export] Instance timely_dec e s : Decision (timely e s).
Proof. destruct e; apply _. Defined.

#[export] Instance distinct_keys_dec e : Decision (distinct_keys e).
Proof. destruct e; apply _. Defined.

#[export] Instance good_run_dec es s : Decision (good_run es s).
Proof.
  revert s. induction es as [|e es IH]; intros s; simpl; [apply _|].
  apply and_dec; [apply _|]. apply and_dec; [apply _|]. destruct (system_step e s); [apply IH|apply _].
Defined.

End system.

#[export] Instance Fault_eq_dec : EqDecision Fault.
Proof. solve_decision. Defined.

Arguments run {_} conf cluster es s.
Arguments good_run {_} conf cluster es s.

(** ** One request alone

    The commands of a program in order, without faults and without another
    request in between. *)

Section alone.
Context `{Redis}.

Fixpoint run_slots {T} (slots : list (command T + T)) (s : server) : result RedisError (list T) * server :=
  match slots with
  | [] => (Ok [], s)
  | inl c :: slots =>
      match exec c s with
      | (Ok t, s) => let '(r, s) := run_slots slots s in ((t ::.) <$> r, s)
      | (Err e, s) => (Err e, s)
      end
  | inr t :: slots => let '(r, s) := run_slots slots s in ((t ::.) <$> r, s)
  end.

Fixpoint run_alone {A} (p : prog A) (s : server) : A * server :=
  match p with
  | Ret a => (a, s)
  | Call c k => let '(r, s) := exec c s in run_alone (k r) s
  | Join slots k => let '(r, s) := run_slots slots s in run_alone (k r) s
  end.

End alone.

(** ** A concrete server: values with the time at which they expire *)

Record Clocked := { clock : Z; entries : gmap string (string * Z) }.

Definition live (now : Z) (e : string * Z) : bool := (now <? e.2)%Z.

#[export] Instance clocked_redis : Redis := {|
  server := Clocked;
  get k s := e ← entries s !! k; if live (clock s) e then Some e.1 else None;
  set_nx k v ttl s :=
    match entries s !! k with
    | Some e =>
        if live (clock s) e then (false, s)
        else (true, {| clock := clock s; entries := <[k := (v, clock s + Z.max 1 ttl)%Z]> (entries s) |})
    | None => (true, {| clock := clock s; entries := <[k := (v, clock s + Z.max 1 ttl)%Z]> (entries s) |})
    end;
  del k s :=
    (match entries s !! k with Some e => live (clock s) e | None => false end,
     {| clock := clock s; entries := delete k (entries s) |});
  elapse d s := {| clock := (clock s + Z.max 0 d)%Z; entries := entries s |};
|}.

#[export] Instance clocked_redis_laws : RedisLaws.
Proof.
  split; simpl.
  - intros k v ttl s. destruct (entries s !! k) as [e|] eqn:Hk; simpl; [|done].
    by destruct (live (clock s) e).
  - intros k v ttl s j. destruct (entries s !! k) as [e|] eqn:Hk; simpl.
    + destruct (live (clock s) e) eqn:Hl; simpl.
      * rewrite bool_decide_eq_false_2; [done|]. by intros [_ ?].
      * destruct (decide (j = k)) as [->|Hj].
        -- rewrite lookup_insert_eq, bool_decide_eq_true_2 by done. simpl.
           unfold live. simpl. by rewrite (proj2 (Z.ltb_lt _ _)) by lia.
        -- rewrite lookup_insert_ne, bool_decide_eq_false_2 by naive_solver. done.
    + destruct (decide (j = k)) as [->|Hj].
      * rewrite lookup_insert_eq, bool_decide_eq_true_2 by done. simpl.
        unfold live. simpl. by rewrite (proj2 (Z.ltb_lt _ _)) by lia.
      * rewrite lookup_insert_ne, bool_decide_eq_false_2 by naive_solver. done.
  - intros k s. destruct (entries s !! k) as [e|]; simpl; [|done]. by destruct (live (clock s) e).
  - intros k s j. destruct (decide (j = k)) as [->|Hj].
    + by rewrite lookup_delete_eq, bool_decide_eq_true_2.
    + by rewrite lookup_delete_ne, bool_decide_eq_false_2.
Qed.
