(* ===== verification/ApiLockingFacts.v ===== *)
(** * Ownership of locks

    A small logic of ownership for the programs of [ApiLocking].  A request owns
    the keys whose value in Redis is its request id and that it has learnt to be
    so; [owns] says that a program sends only commands that its ownership
    allows, whatever the replies, and how the ownership changes.  Ownership is
    stable under the commands of other requests, from which the exclusion of
    requests follows. *)

From S2P Require Import Prelude LockUtils ApiLocking.

Create HintDb locks.

Section ownership.
Context (id : string) (keys : gset string).

(** What a reply gives, and what a command gives up. *)
Definition gains {T} (c : command T) : T → gset string :=
  match c in command T return T → gset string with
  | SetNx k _ _ => λ r, match r with KeySet => {[k]} | KeyNotSet => ∅ end
  | SetNxGet k _ _ => λ r, if bool_decide (get_value r = id) then {[k]} else ∅
  | Get _ | MGet _ | Del _ => λ _, ∅
  end.

Definition loses {T} (c : command T) : gset string :=
  match c with Del k => {[k]} | _ => ∅ end.

(** A request writes its own id, to its own keys, and deletes what it owns. *)
Definition allowed {T} (c : command T) (own : gset string) : Prop :=
  match c with
  | SetNx k v _ | SetNxGet k v _ => v = id ∧ k ∈ keys
  | Del k => k ∈ own
  | Get _ | MGet _ => True
  end.

Fixpoint join_gains {T} (slots : list (command T + T)) (ts : list T) : gset string :=
  match slots, ts with
  | inl c :: slots, t :: ts => gains c t ∪ join_gains slots ts
  | inr _ :: slots, _ :: ts => join_gains slots ts
  | _, _ => ∅
  end.

Fixpoint join_loses {T} (slots : list (command T + T)) : gset string :=
  match slots with
  | [] => ∅
  | inl c :: slots => loses c ∪ join_loses slots
  | inr _ :: slots => join_loses slots
  end.

(** The replies of a join agree with those that have come. *)
Definition agrees {T} (slot : command T + T) (t : T) : Prop :=
  match slot with inl _ => True | inr t' => t' = t end.

(** The commands of a join are allowed, and no two give up the same key. *)
Fixpoint join_allowed {T} (slots : list (command T + T)) (own : gset string) : Prop :=
  match slots with
  | [] => True
  | inl c :: slots => allowed c own ∧ loses c ## join_loses slots ∧ join_allowed slots own
  | inr _ :: slots => join_allowed slots own
  end.

Fixpoint owns {A} (p : prog A) (own : gset string) (Q : A → gset string → Prop) : Prop :=
  match p with
  | Ret a => Q a own
  | Call c k =>
      allowed c own ∧
      (∀ t, owns (k (Ok t)) ((own ∪ gains c t) ∖ loses c) Q) ∧
      (∀ e, owns (k (Err e)) (own ∖ loses c) Q)
  | Join slots k =>
      join_allowed slots own ∧
      (∀ ts, Forall2 agrees slots ts →
         owns (k (Ok ts)) ((own ∪ join_gains slots ts) ∖ join_loses slots) Q) ∧
      (∀ e, owns (k (Err e)) (own ∖ join_loses slots) Q)
  end.

(** ** Rules *)

Lemma allowed_mono {T} (c : command T) own own' : own ⊆ own' → allowed c own → allowed c own'.
Proof. destruct c; simpl; set_solver. Qed.

Lemma join_allowed_mono {T} (slots : list (command T + T)) own own' :
  own ⊆ own' → join_allowed slots own → join_allowed slots own'.
Proof.
  intros Hsub. induction slots as [|[c|t] slots IH]; simpl; [done| |done].
  intros (Hc & Hd & Hs). eauto using allowed_mono.
Qed.

Lemma owns_mono {A} (p : prog A) own own' (Q Q' : A → gset string → Prop) :
  own ⊆ own' → (∀ a o o', o ⊆ o' → Q a o → Q' a o') → owns p own Q → owns p own' Q'.
Proof.
  intros Hsub HQ. revert own own' Hsub.
  induction p as [a|T c k IH|T slots k IH]; intros own own' Hsub; simpl; [by eauto| |].
  - intros (Ha & Hok & Herr). split_and!; [by eapply allowed_mono|intros t|intros e];
      (eapply IH; [|by auto]; set_solver).
  - intros (Ha & Hok & Herr). split_and!; [by eapply join_allowed_mono|intros ts Hts|intros e].
    + eapply IH; [|by apply Hok]. set_solver.
    + eapply IH; [|by apply Herr]. set_solver.
Qed.

Lemma owns_bind {A B} (p : prog A) (f : A → prog B) own Q :
  owns p own (λ a own', owns (f a) own' Q) → owns (prog_bind p f) own Q.
Proof.
  revert own. induction p as [a|T c k IH|T slots k IH]; intros own; simpl; [done| |]; naive_solver.
Qed.

Lemma agrees_replies {T} (slots : list (command T + T)) ts :
  replies slots = Some ts → Forall2 agrees slots ts ∧ join_gains slots ts = ∅ ∧ join_loses slots = ∅.
Proof.
  revert ts. induction slots as [|[c|t] slots IH]; intros ts; simpl; [intros [= <-]|done|].
  - by split_and!.
  - destruct (replies slots) as [ts'|] eqn:Hr; [|done]. simpl. intros [= <-].
    destruct (IH ts') as (H1 & H2 & H3); [done|]. split_and!; [by constructor|done..].
Qed.

(** A join all of whose commands are answered goes on at once. *)
Lemma owns_join {A T} (slots : list (command T + T)) (k : result RedisError (list T) → prog A) own Q :
  (∀ o o' a, o ⊆ o' → Q a o → Q a o') →
  owns (Join slots k) own Q → owns (join slots k) own Q.
Proof.
  intros HQ. unfold join. destruct (replies slots) as [ts|] eqn:Hr; [|done].
  intros (_ & Hok & _). destruct (agrees_replies _ _ Hr) as (H1 & H2 & H3).
  eapply owns_mono; [| |by apply Hok]; [rewrite H2, H3; set_solver|eauto].
Qed.

(** A join that starts now. *)
Lemma owns_try_join_all {T} (cs : list (command T)) own Q :
  (∀ o o' a, o ⊆ o' → Q a o → Q a o') →
  join_allowed (inl <$> cs) own →
  (∀ ts, length ts = length cs →
     Q (Ok ts) ((own ∪ join_gains (inl <$> cs) ts) ∖ join_loses (inl <$> cs))) →
  (∀ e, Q (Err e) (own ∖ join_loses (inl <$> cs))) →
  owns (try_join_all cs) own Q.
Proof.
  intros HQ Ha Hok Herr. apply owns_join; [done|]. split_and!; [done| |done].
  intros ts Hts. apply Hok. apply Forall2_length in Hts. by rewrite length_fmap in Hts.
Qed.

(** One reply of a join. *)
Lemma join_allowed_lookup {T} (slots : list (command T + T)) i c own :
  slots !! i = Some (inl c) → join_allowed slots own → allowed c own.
Proof.
  revert i. induction slots as [|[c'|t] slots IH]; intros [|i]; simpl; try done; naive_solver.
Qed.

Lemma join_loses_insert {T} (slots : list (command T + T)) i c t :
  slots !! i = Some (inl c) →
  join_loses slots = loses c ∪ join_loses (<[i := inr t]> slots).
Proof.
  revert i. induction slots as [|[c'|t'] slots IH]; intros [|i]; simpl; try done.
  - by intros [= ->].
  - intros Hi. rewrite (IH i Hi). set_solver.
  - intros Hi. by rewrite (IH i Hi).
Qed.

Lemma join_loses_lookup {T} (slots : list (command T + T)) i c :
  slots !! i = Some (inl c) → loses c ⊆ join_loses slots.
Proof.
  revert i. induction slots as [|[c'|t'] slots IH]; intros [|i]; simpl; try done.
  - intros [= ->]. set_solver.
  - intros Hi%IH. set_solver.
  - apply IH.
Qed.

Lemma join_gains_insert {T} (slots : list (command T + T)) i c t ts :
  slots !! i = Some (inl c) → ts !! i = Some t →
  join_gains slots ts = gains c t ∪ join_gains (<[i := inr t]> slots) ts.
Proof.
  revert i ts. induction slots as [|[c'|t'] slots IH]; intros [|i] [|t0 ts]; simpl; try done.
  - by intros [= ->] [= ->].
  - intros Hi Ht. rewrite (IH i ts Hi Ht). set_solver.
  - intros Hi Ht. by rewrite (IH i ts Hi Ht).
Qed.

Lemma join_allowed_insert {T} (slots : list (command T + T)) i c t own :
  slots !! i = Some (inl c) → join_allowed slots own →
  join_allowed (<[i := inr t]> slots) ((own ∪ gains c t) ∖ loses c) ∧
  loses c ## join_loses (<[i := inr t]> slots).
Proof.
  assert (∀ (ss : list (command T + T)) (o : gset string),
    loses c ## join_loses ss → join_allowed ss o → join_allowed ss ((o ∪ gains c t) ∖ loses c)) as Hframe.
  { intros ss o. induction ss as [|[c'|t'] ss IH]; simpl; [done| |done].
    intros Hd (H1 & H2 & H3). split_and!; [|done|apply IH; set_solver].
    destruct c'; simpl in *; set_solver. }
  revert i. induction slots as [|[c'|t'] slots IH]; intros [|i]; simpl; try done.
  - intros [= ->] (H1 & H2 & H3). auto.
  - intros Hi (H1 & H2 & H3). destruct (IH i Hi H3) as [H4 H5].
    rewrite (join_loses_insert slots i c t Hi) in H2. split_and!; [|set_solver|done|set_solver].
    destruct c'; simpl in *; set_solver.
  - intros Hi Hs. auto.
Qed.

Lemma agrees_insert {T} (slots : list (command T + T)) i c t ts :
  slots !! i = Some (inl c) → Forall2 agrees (<[i := inr t]> slots) ts →
  Forall2 agrees slots ts ∧ ts !! i = Some t.
Proof.
  revert i ts. induction slots as [|s slots IH]; intros [|i] ts; simpl; try done.
  - intros [= ->] Hts. inversion Hts as [|? t0 ? ts' Ht Hts']; subst. simpl in Ht. subst. by repeat constructor.
  - intros Hi Hts. inversion Hts as [|? t0 ? ts' Ht Hts']; subst.
    destruct (IH i ts' Hi Hts') as [H1 H2]. split; [by constructor|done].
Qed.

Lemma owns_insert {A T} (slots : list (command T + T)) (k : result RedisError (list T) → prog A) i c t own Q :
  (∀ a o o', o ⊆ o' → Q a o → Q a o') →
  slots !! i = Some (inl c) → owns (Join slots k) own Q →
  owns (Join (<[i := inr t]> slots) k) ((own ∪ gains c t) ∖ loses c) Q.
Proof.
  intros HQ Hi (Ha & Hok & Herr). destruct (join_allowed_insert slots i c t own Hi Ha) as [Ha' Hd].
  split_and!; [done|intros ts Hts|intros e].
  - destruct (agrees_insert slots i c t ts Hi Hts) as [Hts' Ht].
    eapply owns_mono; [| |by apply Hok]; [|done].
    rewrite (join_loses_insert slots i c t Hi), (join_gains_insert slots i c t ts Hi Ht). set_solver.
  - eapply owns_mono; [| |by apply Herr]; [|done].
    rewrite (join_loses_insert slots i c t Hi). set_solver.
Qed.

End ownership.

(** ** Ownership is true of the server *)

Section server.
Context `{RedisLaws}.

(** The keys have the request's id as value. *)
Definition valid (id : string) (own : gset string) (s : server) : Prop :=
  ∀ k, k ∈ own → get k s = Some id.

(** A command of a request keeps what other requests own. *)
Definition frames (id : string) (s s' : server) : Prop :=
  ∀ id' own, id' ≠ id → valid id' own s → valid id' own s'.

Lemma valid_subseteq id own own' s : own' ⊆ own → valid id own s → valid id own' s.
Proof. unfold valid. set_solver. Qed.

Lemma frames_refl id s : frames id s s.
Proof. by intros id' own _. Qed.

Lemma set_nx_frames id k ttl s : frames id s (set_nx k id ttl s).2.
Proof.
  intros id' own _ Hv j Hj. rewrite set_nx_get. case_bool_decide as Hd; [|by apply Hv].
  destruct Hd as [-> Hn]. specialize (Hv k Hj). congruence.
Qed.

Lemma set_nx_valid id own k v ttl s : valid id own s → valid id own (set_nx k v ttl s).2.
Proof.
  intros Hv j Hj. rewrite set_nx_get. case_bool_decide as Hd; [|by apply Hv].
  destruct Hd as [-> Hn]. specialize (Hv k Hj). congruence.
Qed.

Lemma del_frames id k s : get k s = Some id → frames id s (del k s).2.
Proof.
  intros Hk id' own Hid Hv j Hj. rewrite del_get. case_bool_decide as Hd; [|by apply Hv].
  subst j. specialize (Hv k Hj). congruence.
Qed.

Lemma del_valid id own k s : valid id own s → valid id (own ∖ {[k]}) (del k s).2.
Proof.
  intros Hv j Hj. rewrite del_get, bool_decide_eq_false_2 by set_solver. apply Hv. set_solver.
Qed.

(** After a command the request owns what it owned, less what it gives up; with
    a reply, also what the reply gives. *)
Lemma exec_sound {T} id keys (c : command T) own s r s' :
  allowed id keys c own → valid id own s → exec c s = (r, s') →
  frames id s s' ∧ valid id (own ∖ loses c) s' ∧
  (∀ t, r = Ok t → valid id ((own ∪ gains id c t) ∖ loses c) s').
Proof.
  intros Ha Hv Hexec. destruct c as [k v ttl|k v ttl|k|ks|k]; simpl in *.
  - destruct Ha as [-> _]. unfold set_key_if_not_exists_with_expiry in Hexec.
    pose proof (set_nx_frames id k ttl s) as Hf. pose proof (set_nx_valid id own k id ttl s Hv) as Hv'.
    pose proof (set_nx_get k id ttl s k) as Hget. pose proof (set_nx_exists k id ttl s) as Hset.
    destruct (set_nx k id ttl s) as [set s1]. simpl in *. injection Hexec as <- <-. split_and!; [done| |].
    + eapply valid_subseteq; [|done]. set_solver.
    + intros t [= <-] j Hj. destruct (decide (j ∈ own)) as [Hin|Hnin]; [by apply Hv'|].
      destruct set; [|set_solver]. symmetry in Hset. apply bool_decide_eq_true in Hset.
      assert (j = k) as -> by set_solver. by rewrite Hget, bool_decide_eq_true_2.
  - destruct Ha as [-> _]. unfold set_key_if_not_exists_and_get_value in Hexec.
    pose proof (set_nx_frames id k ttl s) as Hf. pose proof (set_nx_valid id own k id ttl s Hv) as Hv'.
    destruct (set_nx k id ttl s) as [set s1]. simpl in *.
    destruct (get k s1) as [v|] eqn:Hget; injection Hexec as <- <-.
    + split_and!; [done|eapply valid_subseteq; [|done]; set_solver|].
      intros t [= <-] j Hj. destruct (decide (j ∈ own)) as [Hin|Hnin]; [by apply Hv'|].
      case_bool_decide as Hd; [|set_solver]. assert (j = k) as -> by set_solver. rewrite Hget. f_equal.
      by destruct set.
    + split_and!; [done|eapply valid_subseteq; [|done]; set_solver|done].
  - injection Hexec as <- <-. split_and!; [apply frames_refl| |intros t _];
      (eapply valid_subseteq; [|done]; set_solver).
  - injection Hexec as <- <-. split_and!; [apply frames_refl| |intros t _];
      (eapply valid_subseteq; [|done]; set_solver).
  - unfold delete_key in Hexec. pose proof (del_frames id k s (Hv k Ha)) as Hf.
    pose proof (del_valid id own k s Hv) as Hv'. destruct (del k s) as [b s1]. simpl in *.
    injection Hexec as <- <-. split_and!; [done|done|intros t _]. eapply valid_subseteq; [|done]. set_solver.
Qed.

Lemma exec_faulty_sound {T} id keys fault (c : command T) own s r s' :
  allowed id keys c own → valid id own s → exec_faulty fault c s = (r, s') →
  frames id s s' ∧ valid id (own ∖ loses c) s' ∧
  (∀ t, r = Ok t → valid id ((own ∪ gains id c t) ∖ loses c) s').
Proof.
  intros Ha Hv. destruct fault; simpl.
  - by eapply exec_sound.
  - intros [= <- <-]. split_and!; [apply frames_refl|eapply valid_subseteq; [|done]; set_solver|done].
  - intros [= <- <-]. destruct (exec c s) as [r' s''] eqn:Hexec.
    destruct (exec_sound id keys c own s r' s'' Ha Hv Hexec) as (H1 & H2 & _). by split_and!.
Qed.

Lemma gains_keys {T} id keys (c : command T) own t : allowed id keys c own → gains id c t ⊆ keys.
Proof. destruct c; simpl; try case_match; try case_bool_decide; set_solver. Qed.

(** A step of a program that owns. *)
Lemma prog_step_sound {A} id keys i fault (p p' : prog A) own s s' Q :
  (∀ a o o', o ⊆ o' → Q a o → Q a o') →
  owns id keys p own Q → own ⊆ keys → valid id own s → prog_step i fault p s = Some (p', s') →
  frames id s s' ∧ ∃ own', owns id keys p' own' Q ∧ own' ⊆ keys ∧ valid id own' s'.
Proof.
  intros HQ Hp Hk Hv Hstep. destruct p as [a|T c k|T slots k]; simpl in Hstep; [done| |].
  - destruct (exec_faulty fault c s) as [r s1] eqn:Hexec. injection Hstep as <- <-.
    destruct Hp as (Ha & Hok & Herr). pose proof (gains_keys id keys c own) as Hg.
    destruct (exec_faulty_sound id keys fault c own s r s1 Ha Hv Hexec) as (Hf & H1 & H2).
    split; [done|]. destruct r as [t|e].
    + exists ((own ∪ gains id c t) ∖ loses c). split_and!; [by apply Hok| |by apply H2].
      specialize (Hg t Ha). set_solver.
    + exists (own ∖ loses c). split_and!; [by apply Herr|set_solver|done].
  - destruct (slots !! i) as [[c|]|] eqn:Hi; [|done..].
    pose proof Hp as (Ha & _ & Herr). pose proof (join_allowed_lookup id keys slots i c own Hi Ha) as Hc.
    destruct (exec_faulty fault c s) as [r s1] eqn:Hexec.
    destruct (exec_faulty_sound id keys fault c own s r s1 Hc Hv Hexec) as (Hf & H1 & H2).
    pose proof (gains_keys id keys c own) as Hg.
    destruct r as [t|e]; injection Hstep as <- <-; (split; [done|]).
    + exists ((own ∪ gains id c t) ∖ loses c). split_and!; [| |by apply H2].
      * apply owns_join; [naive_solver|]. by apply owns_insert.
      * specialize (Hg t Hc). set_solver.
    + exists (own ∖ join_loses slots). split_and!; [by apply Herr|set_solver|].
      eapply valid_subseteq; [|exact H1].
      assert (loses c ⊆ join_loses slots) by (by eapply join_loses_lookup). set_solver.
Qed.

End server.

(** ** The actions own *)

Section actions.
Context (id : string).

Lemma owns_hold_attempts keys retries k ttl own :
  k ∈ keys →
  owns id keys (hold_attempts retries k id ttl) own (λ r o, r = Ok tt → k ∈ o).
Proof.
  intros Hk. revert own. induction retries as [|n IH]; intros own; simpl; [done|].
  split_and!; [done|done|intros [|]|done]; simpl; [set_solver|].
  apply IH.
Qed.

Lemma join_gains_all (kvs : list (string * string)) ttl ts :
  length ts = length kvs →
  all (λ res, bool_decide (get_value res = id)) ts = true →
  list_to_set kvs.*1 ⊆ join_gains id (inl <$> ((λ kv, SetNxGet kv.1 kv.2 ttl) <$> kvs)) ts.
Proof.
  revert ts. induction kvs as [|[k v] kvs IH]; intros [|t ts] Hl; csimpl; try done.
  intros [Ht Hts]%andb_true_iff. rewrite Ht. specialize (IH ts ltac:(simpl in Hl; lia) Hts). set_solver.
Qed.

Lemma join_sets (keys : gset string) own (kvs : list (string * string)) ttl :
  (∀ kv, kv ∈ kvs → kv.2 = id ∧ kv.1 ∈ keys) →
  join_allowed id keys (inl <$> ((λ kv, SetNxGet kv.1 kv.2 ttl) <$> kvs)) own ∧
  join_loses (inl <$> ((λ kv, SetNxGet kv.1 kv.2 ttl) <$> kvs)) = ∅.
Proof.
  intros Hkvs. induction kvs as [|[k v] kvs IH]; csimpl; [done|].
  destruct IH as [IH1 IH2]; [set_solver|]. destruct (Hkvs (k, v)) as [Hv Hk]; [set_solver|].
  simpl in *. rewrite IH2. split; [|set_solver]. split_and!; [done..|set_solver|done].
Qed.

Lemma owns_hold_multiple_attempts keys retries kvs ttl own :
  (∀ kv, kv ∈ kvs → kv.2 = id ∧ kv.1 ∈ keys) →
  owns id keys (hold_multiple_attempts retries kvs id ttl) own
    (λ r o, r = Ok tt → list_to_set kvs.*1 ⊆ o).
Proof.
  intros Hkvs. revert own. induction retries as [|n IH]; intros own; simpl; [done|].
  apply owns_bind. destruct (join_sets keys own kvs ttl Hkvs) as [H1 H2].
  apply owns_try_join_all; [|done| |done].
  - intros o o' [rs|e] Ho; [|done]. case_match; simpl; [set_solver|]. intros _. apply IH.
  - intros ts Hts. rewrite length_fmap in Hts. rewrite H2. case_match eqn:Hall; simpl; [|apply IH].
    intros _. pose proof (join_gains_all kvs ttl ts Hts Hall). set_solver.
Qed.

Lemma join_dels (keys : gset string) own (ks : list string) :
  NoDup ks → list_to_set ks ⊆ own →
  join_allowed id keys (inl <$> (Del <$> ks)) own ∧ join_loses (inl <$> (Del <$> ks)) = list_to_set ks.
Proof.
  induction 1 as [|k ks Hk Hnd IH]; csimpl; [done|]. intros Hsub.
  destruct IH as [H1 H2]; [set_solver|]. rewrite H2. split_and!; [set_solver..].
Qed.

(** A program that sends only reads keeps the ownership. *)
Lemma owns_get_multiple_keys keys cluster ks own (Q : _ → gset string → Prop) :
  (∀ a o o', o ⊆ o' → Q a o → Q a o') → (∀ r, Q r own) → owns id keys (get_multiple_keys cluster ks) own Q.
Proof.
  intros HQ Hall. unfold get_multiple_keys. destruct ks as [|k ks]; [apply Hall|]. destruct cluster.
  - assert (∀ l : list string, join_allowed id keys (inl <$> (Get <$> l)) own ∧
      join_loses (inl <$> (Get <$> l)) = ∅) as Hl.
    { intros l. induction l as [|k' l [IH1 IH2]]; csimpl; [done|]. rewrite IH2. split; [|set_solver].
      split_and!; [done|set_solver|done]. }
    destruct (Hl (k :: ks)) as [H1 H2].
    apply owns_try_join_all; [naive_solver|done| |].
    + intros ts _. rewrite H2. eapply HQ; [|apply Hall]. set_solver.
    + intros e. rewrite H2. eapply HQ; [|apply Hall]. set_solver.
  - split_and!; [done|intros t|intros e]; simpl; (eapply HQ; [|apply Hall]; set_solver).
Qed.

Context (conf : LockSettings) (cluster : bool) (merchant : string) (action : LockAction).

Definition key_set : gset string := list_to_set (lock_keys merchant action).

Lemma owns_perform own :
  owns id key_set (perform_locking_action (session conf cluster id) merchant action) own
    (λ r o, r = Ok tt → key_set ⊆ o).
Proof.
  unfold key_set. destruct action as [input|inputs| | |]; simpl; try set_solver.
  - eapply owns_mono; [done| |apply owns_hold_attempts; set_solver]. simpl. set_solver.
  - eapply owns_mono; [done| |apply owns_hold_multiple_attempts].
    + intros a o o' Ho Ha Heq. specialize (Ha Heq). rewrite <- list_fmap_compose in Ha. etrans; [|exact Ho]. done.
    + intros kv (input & -> & Hin)%list_elem_of_fmap. simpl. split; [done|].
      unfold lock_keys. simpl. apply elem_of_list_to_set, list_elem_of_fmap. eauto.
Qed.

Lemma owns_free :
  NoDup (lock_keys merchant action) →
  owns id key_set (free_lock_action (session conf cluster id) merchant action) key_set (λ _ _, True).
Proof.
  intros Hnd. unfold key_set. destruct action as [input|inputs| | |]; try done.
  - cbn [free_lock_action get_redis_conn session]. apply owns_bind. split_and!; [done|intros t|done]. simpl.
    case_bool_decide; [|done]. split_and!; [set_solver|intros [|]; done|done].
  - cbn [free_lock_action get_redis_conn session]. apply owns_bind.
    apply owns_get_multiple_keys.
    + intros [vs|e] o o' Ho; [|done]. apply owns_mono; [done|]. done.
    + intros [vs|e]; [|done]. destruct (omap _ _); [|done]. apply owns_bind.
      destruct (join_dels (list_to_set (lock_keys merchant (HoldMultiple inputs)))
        (list_to_set (lock_keys merchant (HoldMultiple inputs)))
        (lock_keys merchant (HoldMultiple inputs)) Hnd) as [H1 H2]; [done|].
      apply owns_try_join_all; [|exact H1| |done].
      * intros o o' [r|e]; simpl; [|done]. by destruct (any _ _).
      * intros ts _. by destruct (any _ _).
Qed.

End actions.

(** ** The invariant of the system *)

Section system.
Context `{RedisLaws} (conf : LockSettings) (cluster : bool).

Definition request_key_set (r : Request) : gset string := list_to_set (request_keys r).

Definition phase_ok (id : string) (keys own : gset string) (ph : Phase) : Prop :=
  match ph with
  | Locking p => owns id keys p own (λ res o, res = Ok tt → keys ⊆ o)
  | Handling => keys ⊆ own
  | Freeing _ p => owns id keys p own (λ _ _, True)
  | Answered _ => True
  end.

(** The request owns keys that it has and that its phase asks for. *)
Definition held (id : string) (keys : gset string) (ph : Phase) (s : server) : Prop :=
  ∃ own, phase_ok id keys own ph ∧ own ⊆ keys ∧ valid id own s.

Definition lock_inv (s : System) : Prop :=
  map_Forall (λ id r, NoDup (request_keys r) ∧ held id (request_key_set r) (phase r) (redis s)) (requests s).

Lemma phase_ok_settle id keys own ph : phase_ok id keys own ph → phase_ok id keys own (settle ph).
Proof. destruct ph as [[[[]|]| |]| |? [[|]| |]|]; naive_solver. Qed.

Lemma held_settle id keys ph s : held id keys ph s → held id keys (settle ph) s.
Proof. intros (own & Hok & Hsub & Hv). exists own. eauto using phase_ok_settle. Qed.

Lemma held_frames id id' keys ph s s' : id' ≠ id → frames id s s' → held id' keys ph s → held id' keys ph s'.
Proof. intros Hid Hf (own & Hok & Hsub & Hv). exists own. eauto. Qed.

Lemma phase_step_held id keys i fault ph ph' s s' :
  held id keys ph s → phase_step i fault ph s = Some (ph', s') → frames id s s' ∧ held id keys ph' s'.
Proof.
  intros (own & Hok & Hsub & Hv). destruct ph as [p| |res p|res]; cbn [phase_step]; [|done| |done];
    (destruct (prog_step i fault p s) as [[p1 s1]|] eqn:Hstep; [|done]); cbn [mbind option_bind]; intros [= <- <-];
    (eapply prog_step_sound in Hstep as (Hf & own' & H1 & H2 & H3); [| |exact Hok|done..]; [|set_solver]);
    (split; [done|]); [apply (held_settle _ _ (Locking p1))|apply (held_settle _ _ (Freeing res p1))]; by exists own'.
Qed.

(** What an event does to the other requests and to the one it is about. *)
Lemma lock_inv_update id r srv s :
  NoDup (request_keys r) → held id (request_key_set r) (phase r) srv → frames id (redis s) srv → lock_inv s →
  lock_inv {| redis := srv; requests := <[id := r]> (requests s) |}.
Proof.
  intros Hnd Hheld Hf Hinv id' r' Hl. cbn in Hl. apply lookup_insert_Some in Hl as [[<- <-]|[Hne Hr']]; [done|].
  destruct (Hinv id' r' Hr') as [Hnd' Hheld']. split; [done|]. simpl. by eapply held_frames.
Qed.

#[local] Arguments settle : simpl never.

Lemma lock_inv_step e s s' :
  distinct_keys e → timely e s → lock_inv s → system_step conf cluster e s = Some s' → lock_inv s'.
Proof.
  intros Hdist Htime Hinv. destruct e as [id m action|id i fault|id res|d]; simpl in *.
  - destruct (requests s !! id); [done|]. intros [= <-].
    apply lock_inv_update; [done| |apply frames_refl|done]. simpl. apply held_settle. exists ∅.
    split_and!; [|set_solver..]. apply owns_perform.
  - destruct (requests s !! id) as [r|] eqn:Hr; [|done]. simpl.
    destruct (phase_step i fault (phase r) (redis s)) as [[ph srv]|] eqn:Hstep; [|done].
    intros [= <-]. destruct (Hinv id r Hr) as [Hnd Hheld].
    destruct (phase_step_held _ _ _ _ _ _ _ _ Hheld Hstep) as [Hf Hheld'].
    by apply lock_inv_update.
  - destruct (requests s !! id) as [r|] eqn:Hr; [|done]. simpl. unfold handled.
    destruct (phase r) as [| | |] eqn:Hph; [done| |done..]. intros [= <-].
    destruct (Hinv id r Hr) as [Hnd Hheld]. rewrite Hph in Hheld. destruct Hheld as (own & Hok & Hsub & Hv).
    apply lock_inv_update; [done| |apply frames_refl|done]. simpl. apply held_settle. exists own.
    split_and!; [|done..]. simpl in *. assert (own = request_key_set r) as -> by set_solver.
    by apply owns_free.
  - intros [= <-] id r Hr. destruct (Hinv id r Hr) as [Hnd (own & Hok & Hsub & Hv)]. split; [done|].
    destruct (unanswered (phase r)) eqn:Hun; [|exists ∅; by destruct (phase r)].
    exists own. split_and!; [done..|]. intros k Hk. simpl.
    specialize (Htime id r Hr Hun). rewrite Forall_forall in Htime. apply Htime; [|by apply Hv].
    apply Hsub in Hk. by apply elem_of_list_to_set in Hk.
Qed.

Lemma lock_inv_run es s s' :
  good_run conf cluster es s → lock_inv s → run conf cluster es s = Some s' → lock_inv s'.
Proof.
  revert s. induction es as [|e es IH]; intros s Hgood Hinv; simpl in *; [by intros [= <-]|].
  destruct Hgood as (H1 & H2 & H3). destruct (system_step conf cluster e s) as [s1|] eqn:Hs; [|done].
  simpl. apply IH; [done|]. by eapply lock_inv_step.
Qed.

(** In a state of the invariant the handlers of two requests do not run at the
    same time when they hold a key in common. *)
Lemma lock_inv_exclusive s id id' r r' k :
  lock_inv s → id ≠ id' →
  requests s !! id = Some r → requests s !! id' = Some r' → phase r = Handling → phase r' = Handling →
  k ∈ request_keys r → k ∈ request_keys r' → False.
Proof.
  intros Hinv Hne Hr Hr' Hph Hph' Hk Hk'.
  destruct (Hinv id r Hr) as [_ (own & Hok & _ & Hv)]. destruct (Hinv id' r' Hr') as [_ (own' & Hok' & _ & Hv')].
  rewrite Hph in Hok. rewrite Hph' in Hok'. simpl in *.
  assert (get k (redis s) = Some id) by (apply Hv, Hok; by apply elem_of_list_to_set).
  assert (get k (redis s) = Some id') by (apply Hv', Hok'; by apply elem_of_list_to_set). congruence.
Qed.

End system.
