(* ===== verification/ApiLockingBounds.v ===== *)
(** * The commands of a request

    How many commands the programs of [ApiLocking] send, whatever the replies,
    and the commands of a request in a run of the system. *)

From S2P Require Import Prelude LockUtils ApiLocking.


(** The commands of a join that are not answered. *)
Fixpoint pending {T} (slots : list (command T + T)) : nat :=
  match slots with
  | [] => 0
  | inl _ :: slots => S (pending slots)
  | inr _ :: slots => pending slots
  end.

(** The program sends at most [n] commands, whatever the replies, and always has
    one to send until it returns. *)
Fixpoint bounded {A} (p : prog A) (n : nat) : Prop :=
  match p with
  | Ret _ => True
  | Call c k => 1 ≤ n ∧ ∀ r, bounded (k r) (n - 1)
  | Join slots k => 1 ≤ pending slots ≤ n ∧ ∀ r, bounded (k r) (n - pending slots)
  end.

Lemma bounded_mono {A} (p : prog A) n m : n ≤ m → bounded p n → bounded p m.
Proof.
  revert n m. induction p as [a|T c k IH|T slots k IH]; intros n m Hle; simpl; [done| |];
    intros [H1 H2]; (split; [lia|]); intros r; (eapply IH; [|apply H2]; lia).
Qed.

Lemma bounded_bind {A B} (p : prog A) (f : A → prog B) n m :
  bounded p n → (∀ a, bounded (f a) m) → bounded (prog_bind p f) (n + m).
Proof.
  intros Hp Hf. revert n Hp. induction p as [a|T c k IH|T slots k IH]; intros n; simpl.
  - intros _. eapply bounded_mono; [|apply Hf]. lia.
  - intros [H1 H2]. split; [lia|]. intros r. specialize (IH r _ (H2 r)).
    eapply bounded_mono; [|exact IH]. lia.
  - intros [H1 H2]. split; [lia|]. intros r. specialize (IH r _ (H2 r)).
    eapply bounded_mono; [|exact IH]. lia.
Qed.

Lemma replies_pending {T} (slots : list (command T + T)) : replies slots = None → 1 ≤ pending slots.
Proof.
  induction slots as [|[c|t] slots IH]; simpl; [done|lia|]. destruct (replies slots); simpl; [done|auto].
Qed.

Lemma bounded_join {A T} (slots : list (command T + T)) (k : result RedisError (list T) → prog A) n :
  pending slots ≤ n → (∀ r, bounded (k r) (n - pending slots)) → bounded (join slots k) n.
Proof.
  intros Hle Hk. unfold join. destruct (replies slots) as [ts|] eqn:Hr.
  - eapply bounded_mono; [|apply Hk]. lia.
  - split; [|done]. apply replies_pending in Hr. lia.
Qed.

Lemma pending_inl {T} (cs : list (command T)) : pending (inl <$> cs) = length cs.
Proof. induction cs; csimpl; congruence. Qed.

Lemma bounded_try_join_all {T} (cs : list (command T)) : bounded (try_join_all cs) (length cs).
Proof. apply bounded_join; rewrite pending_inl; [lia|done]. Qed.

Lemma pending_insert {T} (slots : list (command T + T)) i c t :
  slots !! i = Some (inl c) → pending slots = S (pending (<[i := inr t]> slots)).
Proof.
  revert i. induction slots as [|[c'|t'] slots IH]; intros [|i] Hi; simpl in *; try done.
  - by rewrite (IH i Hi).
  - by apply IH.
Qed.

Lemma pending_lookup {T} (slots : list (command T + T)) :
  1 ≤ pending slots → ∃ i c, slots !! i = Some (inl c).
Proof.
  induction slots as [|[c|t] slots IH]; simpl; [lia|by exists 0, c|].
  intros (i & c & Hi)%IH. by exists (S i), c.
Qed.

Lemma bounded_hold retries k id ttl : bounded (hold_attempts retries k id ttl) retries.
Proof.
  induction retries as [|n IH]; simpl; [done|]. split; [lia|]. rewrite Nat.sub_0_r. by intros [[|]|].
Qed.

Lemma bounded_hold_multiple retries kvs id ttl :
  bounded (hold_multiple_attempts retries kvs id ttl) (retries * length kvs).
Proof.
  induction retries as [|n IH]; [done|]. cbn [hold_multiple_attempts Nat.mul].
  apply bounded_bind.
  - unfold set_multiple_keys_if_not_exists_and_get_values.
    eapply bounded_mono; [|apply bounded_try_join_all]. by rewrite length_fmap.
  - intros [rs|e]; [|done]. by case_match.
Qed.

(** The retries of an action. *)
Definition retries_of (conf : LockSettings) (action : LockAction) : nat :=
  Z.to_nat (default (lock_retries conf) (head (omap override_lock_retries (inputs_of action)))).

Lemma bounded_perform conf cluster id merchant action :
  bounded (perform_locking_action (session conf cluster id) merchant action)
    (retries_of conf action * length (lock_keys merchant action)).
Proof.
  unfold retries_of. destruct action as [input|inputs| | |]; simpl; try done.
  - eapply bounded_mono; [|apply bounded_hold]. destruct (override_lock_retries input); simpl; lia.
  - eapply bounded_mono; [|apply bounded_hold_multiple]. unfold lock_keys. by rewrite !length_fmap.
Qed.

Lemma bounded_get_multiple_keys cluster keys : bounded (get_multiple_keys cluster keys) (length keys).
Proof.
  unfold get_multiple_keys. destruct keys as [|k keys]; [done|]. destruct cluster.
  - eapply bounded_mono; [|apply bounded_try_join_all]. by rewrite length_fmap.
  - split; [simpl; lia|done].
Qed.

Lemma bounded_free conf cluster id merchant action :
  bounded (free_lock_action (session conf cluster id) merchant action)
    (2 * length (lock_keys merchant action)).
Proof.
  destruct action as [input|inputs| | |]; try done.
  - simpl. split; [lia|]. intros [v|e]; [|done]. case_bool_decide; [|done]. simpl. split; [lia|].
    by intros [[|]|].
  - cbn [free_lock_action get_redis_conn session]. unfold lock_keys. simpl inputs_of.
    replace (2 * length (get_redis_locking_key merchant <$> inputs)) with
      (length (get_redis_locking_key merchant <$> inputs) + length (get_redis_locking_key merchant <$> inputs)) by lia.
    apply bounded_bind; [apply bounded_get_multiple_keys|]. intros [vs|e]; [|done].
    destruct (omap _ _); [|done]. rewrite <- (Nat.add_0_r (length _)). apply bounded_bind.
    + unfold delete_multiple_keys. eapply bounded_mono; [|apply bounded_try_join_all]. by rewrite length_fmap.
    + intros [rs|e']; [|done]. by case_match.
Qed.

Section ends.
Context `{Redis} (conf : LockSettings) (cluster : bool).

(** The commands a request in this phase still sends. *)
Definition phase_bounded (free : nat) (ph : Phase) (n : nat) : Prop :=
  match ph with
  | Locking p => ∃ m, bounded p m ∧ m + free ≤ n
  | Handling => free ≤ n
  | Freeing _ p => bounded p n
  | Answered _ => True
  end.

Lemma phase_bounded_settle free ph n : phase_bounded free ph n → phase_bounded free (settle ph) n.
Proof. destruct ph as [[[[]|]| |]| |? [[|]| |]|]; simpl; try done. intros (m & _ & ?). lia. Qed.

Lemma settle_idem ph : settle (settle ph) = settle ph.
Proof. by destruct ph as [[[[]|]| |]| |? [[|]| |]|]. Qed.

Lemma phase_step_settled i fault ph ph' s s' : phase_step i fault ph s = Some (ph', s') → settle ph' = ph'.
Proof.
  destruct ph as [p| |res p|res]; cbn [phase_step]; [|done| |done];
    (destruct (prog_step i fault p s) as [[p1 s1]|]; [|done]); cbn [mbind option_bind]; intros [= <- <-].
  - apply (settle_idem (Locking p1)).
  - apply (settle_idem (Freeing res p1)).
Qed.

Lemma prog_step_bounded {A} i fault (p p' : prog A) n s s' :
  bounded p n → prog_step i fault p s = Some (p', s') → 1 ≤ n ∧ bounded p' (n - 1).
Proof.
  destruct p as [a|T c k|T slots k]; simpl; [done| |].
  - intros [H1 H2]. destruct (exec_faulty fault c s) as [r s1]. intros [= <- <-]. auto.
  - intros [H1 H2]. destruct (slots !! i) as [[c|]|] eqn:Hi; [|done..].
    destruct (exec_faulty fault c s) as [[t|e] s1]; intros [= <- <-]; (split; [lia|]).
    + pose proof (pending_insert slots i c t Hi). apply bounded_join; [lia|]. intros r.
      eapply bounded_mono; [|apply H2]. lia.
    + eapply bounded_mono; [|apply H2]. lia.
Qed.

Lemma phase_step_bounded free i fault ph ph' n s s' :
  phase_bounded free ph n → phase_step i fault ph s = Some (ph', s') →
  1 ≤ n ∧ phase_bounded free ph' (n - 1).
Proof.
  destruct ph as [p| |res p|res]; cbn [phase_step]; [|done| |done]; intros Hb;
    (destruct (prog_step i fault p s) as [[p1 s1]|] eqn:Hs; [|done]); cbn [mbind option_bind]; intros [= <- <-].
  - destruct Hb as (m & Hb & Hle). destruct (prog_step_bounded _ _ _ _ _ _ _ Hb Hs) as [H1 H2].
    split; [lia|]. apply (phase_bounded_settle _ (Locking p1)). exists (m - 1). split; [done|lia].
  - destruct (prog_step_bounded _ _ _ _ _ _ _ Hb Hs) as [H1 H2]. split; [lia|].
    by apply (phase_bounded_settle _ (Freeing res p1)).
Qed.

(** The commands of a request in a run. *)
Definition commands (id : string) (es : list Event) : nat :=
  length (List.filter (λ e, match e with Command id' _ _ => bool_decide (id = id') | _ => false end) es).

Definition command_budget (r : Request) : nat :=
  (retries_of conf (lock_action r) + 2) * length (request_keys r).

Definition free_budget (r : Request) : nat := 2 * length (request_keys r).

Definition budget_inv (used : string → nat) (s : System) : Prop :=
  map_Forall (λ id r, settle (phase r) = phase r ∧
    ∃ n, phase_bounded (free_budget r) (phase r) n ∧ used id + n ≤ command_budget r) (requests s) ∧
  ∀ id, requests s !! id = None → used id = 0.

#[local] Arguments settle : simpl never.

Lemma budget_inv_step e used s s' :
  budget_inv used s → system_step conf cluster e s = Some s' →
  budget_inv (λ id, used id + commands id [e]) s'.
Proof.
  intros [Hinv Hnone]. destruct e as [id m action|id i fault|id res|d]; simpl.
  - destruct (requests s !! id) eqn:Hid; [done|]. intros [= <-]. split.
    + intros id' r' Hl. simpl in Hl. apply lookup_insert_Some in Hl as [[<- <-]|[Hne Hr']].
      * split; [apply settle_idem|]. exists (command_budget (arrive conf cluster id m action)). rewrite (Hnone id Hid). cbn. split; [|lia].
        apply phase_bounded_settle. eexists. split; [apply bounded_perform|].
        unfold command_budget, free_budget, request_keys. simpl. lia.
      * destruct (Hinv id' r' Hr') as (Hset & n & H1 & H2). split; [done|]. exists n. cbn. split; [done|lia].
    + intros id' Hid'. simpl in Hid'. apply lookup_insert_None in Hid' as [Hid' _]. cbn.
      rewrite (Hnone id' Hid'). lia.
  - destruct (requests s !! id) as [r|] eqn:Hr; [|done]. simpl.
    destruct (phase_step i fault (phase r) (redis s)) as [[ph srv]|] eqn:Hstep; [|done]. intros [= <-]. split.
    + intros id' r' Hl. simpl in Hl. apply lookup_insert_Some in Hl as [[<- <-]|[Hne Hr']].
      * destruct (Hinv id r Hr) as (Hset & n & H1 & H2).
        destruct (phase_step_bounded _ _ _ _ _ _ _ _ H1 Hstep) as [H3 H4]. split; [by eapply phase_step_settled|]. exists (n - 1). split; [done|].
        unfold commands. simpl. rewrite bool_decide_eq_true_2 by done. cbn.
        unfold command_budget, request_keys in *. simpl in *. lia.
      * destruct (Hinv id' r' Hr') as (Hset & n & H1 & H2). split; [done|]. exists n. split; [done|].
        unfold commands. simpl. rewrite bool_decide_eq_false_2 by congruence. cbn. lia.
    + intros id' Hid'. simpl in Hid'. apply lookup_insert_None in Hid' as [Hid' Hne].
      unfold commands. simpl. rewrite bool_decide_eq_false_2 by congruence. cbn. rewrite (Hnone id' Hid'). lia.
  - destruct (requests s !! id) as [r|] eqn:Hr; [|done]. simpl. unfold handled.
    destruct (phase r) as [| | |] eqn:Hph; [done| |done..]. intros [= <-]. split.
    + intros id' r' Hl. simpl in Hl. apply lookup_insert_Some in Hl as [[<- <-]|[Hne Hr']].
      * destruct (Hinv id r Hr) as (Hset & n & H1 & H2). rewrite Hph in H1. split; [apply settle_idem|]. exists (free_budget r). split.
        -- simpl. apply phase_bounded_settle. apply bounded_free.
        -- unfold commands, command_budget, free_budget, request_keys in *. cbn in *. lia.
      * destruct (Hinv id' r' Hr') as (Hset & n & H1 & H2). split; [done|]. exists n. cbn. split; [done|lia].
    + intros id' Hid'. simpl in Hid'. apply lookup_insert_None in Hid' as [Hid' _]. cbn.
      rewrite (Hnone id' Hid'). lia.
  - intros [= <-]. split.
    + intros id' r' Hr'. destruct (Hinv id' r' Hr') as (Hset & n & H1 & H2). split; [done|]. exists n. cbn. split; [done|lia].
    + intros id' Hid'. cbn. rewrite (Hnone id' Hid'). lia.
Qed.

Lemma commands_cons id e es : commands id (e :: es) = commands id [e] + commands id es.
Proof. unfold commands. simpl. destruct e; [done| |done..]. by case_bool_decide. Qed.

Lemma budget_inv_run es used s s' :
  budget_inv used s → run conf cluster es s = Some s' → budget_inv (λ id, used id + commands id es) s'.
Proof.
  revert used s. induction es as [|e es IH]; intros used s Hinv; simpl.
  - intros [= <-]. destruct Hinv as [H1 H2]. split.
    + intros id r Hr. destruct (H1 id r Hr) as (Hset & n & ? & ?). split; [done|]. exists n. cbn. split; [done|lia].
    + intros id Hid. cbn. rewrite (H2 id Hid). lia.
  - destruct (system_step conf cluster e s) as [s1|] eqn:Hs; [|done]. simpl. intros Hrun.
    eapply budget_inv_step in Hinv; [|done]. specialize (IH _ _ Hinv Hrun). destruct IH as [H1 H2]. split.
    + intros id r Hr. destruct (H1 id r Hr) as (Hset & n & ? & ?). split; [done|]. exists n. rewrite commands_cons. split; [done|lia].
    + intros id Hid. rewrite commands_cons. specialize (H2 id Hid). lia.
Qed.

Lemma bounded_can_step {A} (p : prog A) n s :
  bounded p n → (∃ a, p = Ret a) ∨ ∃ i p' s', prog_step i NoFault p s = Some (p', s').
Proof.
  destruct p as [a|T c k|T slots k]; simpl; intros Hb; [by eauto|right..].
  - exists 0. destruct (exec c s) as [r s']. eauto.
  - destruct Hb as [H1 _]. destruct (pending_lookup slots) as (i & c & Hi); [lia|]. exists i. rewrite Hi.
    destruct (exec c s) as [[t|e] s']; eauto.
Qed.

End ends.
