(* ===== verification/ApiLockingAlone.v ===== *)
(** * Taking and freeing a lock without interference

    What the programs of [ApiLocking] return and do to Redis when their commands
    run in order, without faults and without another request in between. *)

From S2P Require Import Prelude LockUtils ApiLocking ApiLockingBounds.

Section alone.
Context `{RedisLaws}.

(** What setting keys that do not exist does to Redis. *)
Definition locks_set (id : string) (keys : list string) (s s' : server) : Prop :=
  ∀ j, get j s' = if bool_decide (j ∈ keys ∧ get j s = None) then Some id else get j s.

(** The key is free, or the request holds it. *)
Definition available (id : string) (o : option string) : bool :=
  match o with None => true | Some v => bool_decide (v = id) end.

Lemma run_alone_bind {A B} (p : prog A) (f : A → prog B) s :
  run_alone (prog_bind p f) s = let '(a, s) := run_alone p s in run_alone (f a) s.
Proof.
  revert s. induction p as [a|T c k IH|T slots k IH]; intros s; simpl; [done| |].
  - destruct (exec c s). apply IH.
  - destruct (run_slots slots s). apply IH.
Qed.

Lemma run_slots_replies {T} (slots : list (command T + T)) ts s :
  replies slots = Some ts → run_slots slots s = (Ok ts, s).
Proof.
  revert ts. induction slots as [|[c|t] slots IH]; intros ts; simpl; [by intros [= <-]|done|].
  destruct (replies slots) as [ts'|]; [|done]. simpl. intros [= <-]. by rewrite (IH ts').
Qed.

Lemma run_alone_try_join_all {T} (cs : list (command T)) s :
  run_alone (try_join_all cs) s = run_slots (inl <$> cs) s.
Proof.
  unfold try_join_all, join. destruct (replies (inl <$> cs)) as [ts|] eqn:Hr; simpl.
  - by rewrite (run_slots_replies _ _ _ Hr).
  - by destruct (run_slots (inl <$> cs) s).
Qed.

Lemma locks_set_cons id k keys ttl s s' :
  locks_set id keys (set_nx k id ttl s).2 s' → locks_set id (k :: keys) s s'.
Proof.
  intros Hs j. rewrite (Hs j), !set_nx_get. repeat case_bool_decide; set_solver.
Qed.

Lemma locks_set_available id keys s s' k :
  locks_set id keys s s' → available id (get k s') = available id (get k s).
Proof. intros Hs. rewrite (Hs k). case_bool_decide as Hd; [|done]. destruct Hd as [_ ->]. simpl. by case_bool_decide. Qed.

(** One attempt of a [HoldMultiple]. *)
Lemma run_set_multiple id keys ttl s :
  ∃ rs s', run_slots (inl <$> ((λ kv, SetNxGet kv.1 kv.2 ttl) <$> ((., id) <$> keys))) s = (Ok rs, s') ∧
    locks_set id keys s s' ∧
    all (λ res, bool_decide (get_value res = id)) rs = all (λ k, available id (get k s)) keys.
Proof.
  revert s. induction keys as [|k keys IH]; intros s; csimpl.
  - exists [], s. split_and!; [done| |done]. intros j. by rewrite bool_decide_eq_false_2 by set_solver.
  - unfold set_key_if_not_exists_and_get_value. pose proof (set_nx_get k id ttl s) as Hget.
    destruct (IH (set_nx k id ttl s).2) as (rs & s' & Hrs & Hset & Hall).
    pose proof (locks_set_cons id k keys ttl s s' Hset) as Hset'.
    destruct (set_nx k id ttl s) as [set s1]. simpl in *. specialize (Hget k) as Hk.
    assert (∃ v, get k s1 = Some v ∧ bool_decide (v = id) = available id (get k s)) as (v & Hv & Hav).
    { rewrite Hk. destruct (get k s) as [v|].
      - rewrite bool_decide_eq_false_2 by naive_solver. eauto.
      - rewrite bool_decide_eq_true_2 by done. exists id. by rewrite bool_decide_eq_true_2. }
    rewrite Hv, Hrs. eexists _, s'. split_and!; [done|done|]. simpl. rewrite Hall. f_equal.
    + rewrite <- Hav. by destruct set.
    + apply all_ext. intros j _. rewrite Hget.
      destruct (bool_decide_reflect (j = k ∧ get k s = None)) as [[-> Hn]|]; [|done]. rewrite Hn. simpl. by rewrite bool_decide_eq_true_2.
Qed.

Lemma locks_set_trans id keys s s1 s2 :
  locks_set id keys s s1 → locks_set id keys s1 s2 → locks_set id keys s s2.
Proof. intros H1 H2 j. rewrite (H2 j), (H1 j). repeat case_bool_decide; naive_solver. Qed.

Lemma locks_set_all_available id keys s s' :
  locks_set id keys s s' → all (λ k, available id (get k s')) keys = all (λ k, available id (get k s)) keys.
Proof. intros Hs. apply all_ext. intros k _. by eapply locks_set_available. Qed.

Lemma run_hold_multiple id keys ttl n s :
  ∃ s', run_alone (hold_multiple_attempts (S n) ((., id) <$> keys) id ttl) s =
      (if all (λ k, available id (get k s)) keys then Ok tt else Err ResourceBusy, s') ∧
    locks_set id keys s s'.
Proof.
  revert s. induction n as [|n IH]; intros s; cbn [hold_multiple_attempts];
    rewrite run_alone_bind; unfold set_multiple_keys_if_not_exists_and_get_values;
    rewrite run_alone_try_join_all;
    destruct (run_set_multiple id keys ttl s) as (rs & s1 & -> & Hset & ->).
  - exists s1. split; [|done]. by case_match.
  - case_match eqn:Hall; [by exists s1|]. destruct (IH s1) as (s2 & Hrun & Hset').
    exists s2. rewrite (locks_set_all_available id keys s s1 Hset), Hall in Hrun.
    split; [exact Hrun|]. by eapply locks_set_trans.
Qed.

Lemma run_hold id k ttl n s :
  ∃ s', run_alone (hold_attempts (S n) k id ttl) s =
      (if bool_decide (get k s = None) then Ok tt else Err ResourceBusy, s') ∧ locks_set id [k] s s'.
Proof.
  revert s. induction n as [|n IH]; intros s; cbn [hold_attempts]; rewrite run_alone_bind; simpl;
    unfold set_key_if_not_exists_with_expiry;
    pose proof (set_nx_exists k id ttl s) as Hset; pose proof (set_nx_get k id ttl s) as Hget;
    (assert (locks_set id [k] s (set_nx k id ttl s).2) as Hl;
      [intros j; rewrite Hget; repeat case_bool_decide; set_solver|]);
    destruct (set_nx k id ttl s) as [set s1]; simpl in *; subst set.
  - exists s1. split; [|done]. by case_bool_decide.
  - case_bool_decide as Hk; [by exists s1|]. destruct (IH s1) as (s2 & Hrun & Hl').
    exists s2. split; [|by eapply locks_set_trans]. etrans; [exact Hrun|]. rewrite bool_decide_eq_false_2; [done|].
    rewrite Hget, bool_decide_eq_false_2 by naive_solver. done.
Qed.

(** The lock is available to an action: a [Hold] asks for a free key, a
    [HoldMultiple] for keys that are free or its own. *)
Definition lock_available (id merchant : string) (action : LockAction) (s : server) : bool :=
  match action with
  | Hold input => bool_decide (get (get_redis_locking_key merchant input) s = None)
  | _ => all (λ k, available id (get k s)) (lock_keys merchant action)
  end.

Lemma run_perform conf cluster id merchant action s :
  0 < retries_of conf action →
  ∃ s', run_alone (perform_locking_action (session conf cluster id) merchant action) s =
      (if lock_available id merchant action s then Ok tt else Err ResourceBusy, s') ∧
    locks_set id (lock_keys merchant action) s s'.
Proof.
  assert (locks_set id [] s s) as Hnil by (intros j; rewrite bool_decide_eq_false_2; set_solver).
  unfold retries_of. destruct action as [input|inputs| | |]; simpl; intros Hn; try by exists s.
  - destruct (Z.to_nat (default (lock_retries conf) (override_lock_retries input))) as [|n] eqn:Hr.
    { destruct (override_lock_retries input); simpl in *; lia. }
    apply run_hold.
  - destruct (Z.to_nat _) as [|n]; [lia|].
    replace ((λ input, (get_redis_locking_key merchant input, id)) <$> inputs) with
      ((., id) <$> (get_redis_locking_key merchant <$> inputs)) by (by rewrite <- list_fmap_compose).
    apply run_hold_multiple.
Qed.

(** *** Release *)

(** The request holds all keys. *)
Definition holds_all (id : string) (keys : list string) (s : server) : Prop :=
  ∀ k, k ∈ keys → get k s = Some id.

Definition keys_freed (keys : list string) (s s' : server) : Prop :=
  ∀ j, get j s' = if bool_decide (j ∈ keys) then None else get j s.

(** Deleting keys of which all those not deleted yet exist. *)
Lemma run_deletes keys s :
  ∃ rs s', run_slots (inl <$> (Del <$> keys)) s = (Ok rs, s') ∧ keys_freed keys s s' ∧
    ((∀ k, k ∈ keys → is_Some (get k s)) → any is_key_not_deleted rs = bool_decide (¬ NoDup keys)) ∧
    (∀ k, k ∈ keys → get k s = None → any is_key_not_deleted rs = true).
Proof.
  revert s. induction keys as [|k keys IH]; intros s.
  - exists [], s. split_and!; [done| | |set_solver].
    + intros j. by rewrite bool_decide_eq_false_2 by set_solver.
    + intros _. rewrite bool_decide_eq_false_2; [done|]. intros Hn. apply Hn. constructor.
  - csimpl. unfold delete_key. pose proof (del_exists k s) as Hex. pose proof (del_get k s) as Hget.
    destruct (IH (del k s).2) as (rs & s' & Hrs & Hfreed & Hdel & Hmiss).
    destruct (del k s) as [deleted s1]. simpl in *. rewrite Hrs. eexists _, s'. split_and!; [done|..].
    + intros j. rewrite (Hfreed j), Hget. repeat case_bool_decide; set_solver.
    + intros Hall. simpl. rewrite Hex, bool_decide_eq_true_2 by (apply Hall; set_solver). simpl.
      destruct (decide (k ∈ keys)) as [Hin|Hnin].
      * rewrite (Hmiss k Hin) by (by rewrite Hget, bool_decide_eq_true_2).
        rewrite bool_decide_eq_true_2; [done|]. by intros [Hn _]%NoDup_cons.
      * rewrite Hdel.
        -- apply bool_decide_ext. rewrite NoDup_cons. naive_solver.
        -- intros j Hj. rewrite Hget, bool_decide_eq_false_2 by set_solver. apply Hall. set_solver.
    + intros j Hj Hnone. simpl. destruct (decide (j = k)) as [->|Hne].
      * rewrite Hex, bool_decide_eq_false_2; [done|]. rewrite Hnone. by intros [].
      * rewrite (Hmiss j); [by rewrite orb_true_r|set_solver|].
        by rewrite Hget, bool_decide_eq_false_2.
Qed.

Lemma run_get_multiple_keys cluster keys s :
  run_alone (get_multiple_keys cluster keys) s = (Ok ((λ k, get k s) <$> keys), s).
Proof.
  unfold get_multiple_keys. destruct keys as [|k keys]; [done|]. destruct cluster; [|done].
  rewrite run_alone_try_join_all. generalize (k :: keys). intros l.
  induction l as [|j l IH]; csimpl; [done|]. by rewrite IH.
Qed.

Lemma run_free conf cluster id merchant action s :
  holds_all id (lock_keys merchant action) s →
  ∃ s', run_alone (free_lock_action (session conf cluster id) merchant action) s =
      (if bool_decide (NoDup (lock_keys merchant action)) then Ok tt else Err InternalServerError, s') ∧
    keys_freed (lock_keys merchant action) s s'.
Proof.
  intros Hheld.
  assert (keys_freed [] s s) as Hnil by (intros j; rewrite bool_decide_eq_false_2; set_solver).
  destruct action as [input|inputs| | |]; try (exists s; split; [|done]; by rewrite bool_decide_eq_true_2 by constructor).
  - cbn [free_lock_action get_redis_conn session run_alone call prog_bind exec get_key request_id].
    rewrite (Hheld (get_redis_locking_key merchant input)) by set_solver.
    rewrite (bool_decide_eq_true_2 (Some id = Some id)) by done. cbn [run_alone call prog_bind exec]. unfold delete_key.
    pose proof (del_exists (get_redis_locking_key merchant input) s) as Hex.
    pose proof (del_get (get_redis_locking_key merchant input) s) as Hget.
    destruct (del _ s) as [deleted s1]. cbn [fst snd] in *.
    rewrite (Hheld (get_redis_locking_key merchant input)), bool_decide_eq_true_2 in Hex by set_solver.
    subst deleted. exists s1. split.
    + rewrite bool_decide_eq_true_2; [done|]. apply NoDup_singleton.
    + intros j. rewrite Hget. by erewrite bool_decide_ext by (symmetry; apply list_elem_of_singleton).
  - cbn [free_lock_action get_redis_conn session]. change (get_redis_locking_key merchant <$> inputs) with
      (lock_keys merchant (HoldMultiple inputs)). set (keys := lock_keys _ _) in *.
    rewrite run_alone_bind, run_get_multiple_keys.
    replace (omap _ _) with ([] : list string).
    2:{ symmetry. clearbody keys. induction keys as [|k keys IH]; [done|]. csimpl.
        rewrite (Hheld k) by set_solver. simpl. rewrite bool_decide_eq_true_2 by done. simpl. apply IH.
        - intros j Hj. apply Hheld. set_solver. }
    rewrite run_alone_bind. unfold delete_multiple_keys. rewrite run_alone_try_join_all.
    destruct (run_deletes keys s) as (rs & s' & -> & Hfreed & Hdel & _). rewrite Hdel.
    2:{ intros k Hk. rewrite (Hheld k Hk). eauto. }
    exists s'. split; [|done]. by repeat case_bool_decide.
Qed.

End alone.
