(* ===== verification/ApiLockingTheorems.v ===== *)
(** * Locks of API requests: the theorems

    Exclusion of handlers, the end of a request's commands, the exact outcome of
    taking and freeing a lock without interference, and the runs in which the
    locks do not protect. *)

From S2P Require Import Prelude LockUtils ApiLocking ApiLockingFacts ApiLockingBounds ApiLockingAlone.

(** ** Exclusion *)

Section exclusion.
Context `{RedisLaws} (conf : LockSettings) (cluster : bool).

Definition initial (srv : server) : System := {| redis := srv; requests := ∅ |}.

Lemma initial_inv srv : lock_inv (initial srv).
Proof. apply map_Forall_empty. Qed.

(** [C5] Two requests whose locks share a key do not run their handlers at the
    same time, in any interleaving of any number of requests, with commands and
    replies lost anywhere, from any content of Redis, as long as no key expires
    that an unanswered request has set and the keys of each request differ. *)
Theorem handlers_exclude srv es s id id' r r' k :
  good_run conf cluster es (initial srv) → run conf cluster es (initial srv) = Some s →
  requests s !! id = Some r → requests s !! id' = Some r' →
  phase r = Handling → phase r' = Handling →
  k ∈ request_keys r → k ∈ request_keys r' → id = id'.
Proof.
  intros Hgood Hrun Hr Hr' Hph Hph' Hk Hk'. destruct (decide (id = id')) as [|Hne]; [done|exfalso].
  eapply (lock_inv_exclusive s id id' r r' k); try done. eapply lock_inv_run; [done| |done].
  apply initial_inv.
Qed.

(** The payment whose lock a request takes. *)
Definition intent_of (i : PaymentIdType) : option string :=
  match i with PaymentIntentId p => Some p | _ => None end.

Definition locked_payment (req : PaymentsApiRequest) : option string :=
  match req with
  | PaymentsRequest i _ _ => i ≫= intent_of
  | PaymentsRetrieveRequest i force_sync => if force_sync then intent_of i else None
  | PaymentsRedirectResponseData i => intent_of i
  | PaymentsStartRequest p | PaymentsSessionRequest p | PaymentsDynamicTaxCalculationRequest p
  | PaymentsPostSessionTokensRequest p | PaymentsUpdateMetadataRequest p
  | PaymentsCompleteAuthorizeRequest p | PaymentsCancelRequest p
  | PaymentsCancelPostCaptureRequest p | PaymentId p | PaymentsExtendAuthorizationRequest p
  | PaymentsCaptureRequest p | FPaymentsApproveRequest p | FPaymentsRejectRequest p
  | PaymentsIncrementalAuthorizationRequest p | PaymentsExternalAuthenticationRequest p => Some p
  | PaymentsManualUpdateRequest _ => None
  end.

(** The action is that of a route that takes the lock of the payment, or of a webhook
    on the payment that does. *)
Definition works_on (payment : string) (action : LockAction) : Prop :=
  (∃ flow req, flow ∈ route_flows req ∧ action = get_locking_input flow req ∧ locked_payment req = Some payment) ∨
  action = webhook_lock_action payment.

Definition payment_key (merchant payment : string) : string :=
  get_redis_locking_key merchant
    {| unique_locking_key := payment; api_identifier := ApiIdentifier_Payments; override_lock_retries := None |}.

Lemma works_on_key merchant payment action :
  works_on payment action → payment_key merchant payment ∈ lock_keys merchant action.
Proof.
  intros [(flow & req & Hflow & -> & Hp)| ->]; [|set_solver].
  assert (api_identifier_from flow = ApiIdentifier_Payments) as Hapi.
  { destruct req; simpl in Hflow; set_unfold in Hflow; naive_solver. }
  assert (∀ l, payment_key merchant payment ∈
    get_redis_locking_key merchant <$> (locking_input flow payment :: l)) as Hin.
  { intros l. apply list_elem_of_fmap. exists (locking_input flow payment). split; [|set_solver].
    unfold payment_key, locking_input, get_redis_locking_key. simpl. by rewrite Hapi. }
  destruct req as [[[p|p|p|p]|] c cd|p|[p|p|p|p] []| | | | |[p|p|p|p]| | | | | | | | | | |];
    simplify_eq/=; try apply Hin.
  destruct c; [|destruct cd as [[|]|]]; apply Hin.
Qed.

(** [C9] Two requests of a merchant that take the lock of the same payment, whatever
    routes they come by, and the payment webhooks among them, are not handled at the
    same time: the flows of all of them keep their locks under the same name.  As for
    [handlers_exclude], no key expires that an unanswered request has set and the keys
    of each request differ.  A retrieval takes the lock only when it forces a
    synchronisation, a create or update request only when it names its payment, and
    the handlers of [UnlockedHandler] never take it ([unlocked_handlers_overlap]). *)
Theorem payment_handlers_exclude srv es s id id' r r' payment :
  good_run conf cluster es (initial srv) → run conf cluster es (initial srv) = Some s →
  requests s !! id = Some r → requests s !! id' = Some r' →
  phase r = Handling → phase r' = Handling → merchant_id r = merchant_id r' →
  works_on payment (lock_action r) → works_on payment (lock_action r') → id = id'.
Proof.
  intros Hgood Hrun Hr Hr' Hph Hph' Hm Hw Hw'. destruct (decide (id = id')) as [|Hne]; [done|exfalso].
  eapply (lock_inv_exclusive s id id' r r' (payment_key (merchant_id r) payment)); try done.
  - eapply lock_inv_run; [done| |done]. apply initial_inv.
  - by apply works_on_key.
  - rewrite Hm. by apply works_on_key.
Qed.

End exclusion.

(** ** A concrete server *)

Definition settings : LockSettings := default {|
    redis_lock_expiry_seconds := 0; delay_between_retries_in_milliseconds := 0; lock_retries := 0 |}
  (deserialize_lock_settings 180 60000).

Definition empty_server : Clocked := {| clock := 0; entries := ∅ |}.

Definition start : System := initial (H := clocked_redis) empty_server.

Definition capture (payment : string) : LockAction :=
  get_locking_input Flow_PaymentsCapture (PaymentsCaptureRequest payment).

(** A capture runs while a webhook on the payment waits; then a create request
    arrives for the customer of another payment. *)
Definition a_run : list (Event) := [
  Arrive "req_1" "merchant" (capture "pay_1");
  Command "req_1" 0 NoFault;
  Arrive "req_2" "merchant" (webhook_lock_action "pay_1");
  Command "req_2" 0 NoFault;
  Elapse 60;
  Arrive "req_3" "merchant" (get_locking_input Flow_PaymentsCreate
    (PaymentsRequest (Some (PaymentIntentId "pay_3")) (Some "cus_3") None));
  Command "req_3" 1 NoFault;
  Command "req_3" 0 NoFault;
  Command "req_2" 0 NoFault]%string.

(** The state after a run, and a request in it. *)
Definition after (es : list Event) (s : System) : System := default s (run settings false es s).

Definition request (id : string) (s : System) : Request :=
  default {| merchant_id := EmptyString; lock_action := NotApplicable; phase := Handling |} (requests s !! id).

Definition after_a_run : System := after a_run start.

Lemma some_default {A} (d : A) (o : option A) :
  match o with Some _ => true | None => false end = true → o = Some (default d o).
Proof. by destruct o. Qed.

(** Evaluates that an option is [Some]. *)
Ltac by_some := apply some_default; vm_compute; reflexivity.

(** Evaluates a decidable hypothesis. *)
Ltac by_decision := apply (bool_decide_unpack _); vm_compute; exact I.

Lemma handlers_exclude_witness :
  map_Forall (λ id r, phase r = Handling → payment_key "merchant" "pay_1" ∈ request_keys r → "req_1"%string = id)
    (requests after_a_run).
Proof.
  intros id r Hr Hph Hk.
  apply (@handlers_exclude clocked_redis _ settings false empty_server a_run after_a_run "req_1" id
    (request "req_1" after_a_run) r (payment_key "merchant" "pay_1"));
    [by_decision|by_some|by_some|exact Hr|vm_compute; reflexivity|exact Hph|by_decision|exact Hk].
Defined.

Lemma payment_handlers_exclude_witness :
  map_Forall (λ id r, phase r = Handling → merchant_id r = "merchant"%string →
    lock_action r = webhook_lock_action "pay_1" → "req_1"%string = id) (requests after_a_run).
Proof.
  intros id r Hr Hph Hm Ha.
  apply (@payment_handlers_exclude clocked_redis _ settings false empty_server a_run after_a_run "req_1" id
    (request "req_1" after_a_run) r "pay_1");
    [by_decision|by_some|by_some|exact Hr|vm_compute; reflexivity|exact Hph| | |right; exact Ha].
  - rewrite Hm. vm_compute. reflexivity.
  - left. exists Flow_PaymentsCapture, (PaymentsCaptureRequest "pay_1").
    split; [left|split; vm_compute; reflexivity].
Defined.

(** While a capture is handled, the webhook of a fraud check, which captures or voids
    the payment, and the manual updates of the payment are handled as well. *)
Example unlocked_handlers_overlap :
  let s := after (a_run ++
    [Arrive "req_4" "merchant" (unlocked_action FraudCheckWebhook);
     Arrive "req_5" "merchant" (unlocked_action ManualStatusUpdate);
     Arrive "req_6" "merchant" (unlocked_action (ManualUpdate "pay_generated"));
     Command "req_6" 0 NoFault]%string) start in
  Forall (λ id, phase <$> requests s !! id = Some Handling) ["req_1"; "req_4"; "req_5"; "req_6"]%string.
Proof. vm_compute. repeat constructor. Qed.

(** ** Every request ends *)

(** A request sends at most the commands of its retries and of one release,
    whatever Redis answers and however requests interleave; and as long as it
    takes or frees its lock it has a command to send. *)
Theorem lock_request_ends `{Redis} conf cluster srv es s id r :
  run conf cluster es (initial srv) = Some s → requests s !! id = Some r →
  commands id es ≤ command_budget conf r ∧
  match phase r with
  | Locking _ | Freeing _ _ => ∃ i s', system_step conf cluster (Command id i NoFault) s = Some s'
  | Handling | Answered _ => True
  end.
Proof.
  intros Hrun Hr.
  assert (budget_inv conf (λ _, 0) (initial srv)) as Hinit by (split; [apply map_Forall_empty|done]).
  destruct (budget_inv_run _ _ _ _ _ _ Hinit Hrun) as [Hinv _].
  destruct (Hinv id r Hr) as (Hset & n & Hb & Hle). split; [lia|].
  assert (∀ i, is_Some (phase_step i NoFault (phase r) (redis s)) →
    ∃ i s', system_step conf cluster (Command id i NoFault) s = Some s') as Hstep.
  { intros i [[ph srv'] Hs]. exists i. simpl. rewrite Hr. simpl. rewrite Hs. simpl. eauto. }
  destruct (phase r) as [p| |res p|]; try done.
  - destruct Hb as (m & Hb & _). destruct (bounded_can_step p m (redis s) Hb) as [[[|] ->]|(i & p' & s' & Hs)];
      [done..|]. apply (Hstep i). simpl. rewrite Hs. simpl. eauto.
  - destruct (bounded_can_step p n (redis s) Hb) as [[[|] ->]|(i & p' & s' & Hs)]; [by destruct res|done|].
    apply (Hstep i). simpl. rewrite Hs. simpl. eauto.
Qed.

Lemma lock_request_ends_witness :
  commands "req_2" a_run ≤ command_budget settings (request "req_2" after_a_run).
Proof.
  apply (@lock_request_ends clocked_redis settings false empty_server a_run after_a_run "req_2"); by_some.
Defined.

(** ** Without interference *)

(** A request alone gets its lock at once exactly when its keys are
    available, and is answered that the resource is busy otherwise.  Either way
    the keys that were free are set to its id: a request that is answered busy
    leaves those of a [HoldMultiple] locked. *)
Theorem perform_alone_outcome `{RedisLaws} conf cluster id merchant action s :
  0 < retries_of conf action →
  ∃ s', run_alone (perform_locking_action (session conf cluster id) merchant action) s =
      (if lock_available id merchant action s then Ok tt else Err ResourceBusy, s') ∧
    ∀ k, get k s' =
      if bool_decide (k ∈ lock_keys merchant action ∧ get k s = None) then Some id else get k s.
Proof. apply run_perform. Qed.

Definition create (payment customer : string) : LockAction :=
  get_locking_input Flow_PaymentsCreate
    (PaymentsRequest (Some (PaymentIntentId payment)) (Some customer) None).

Lemma perform_alone_outcome_witness :
  ∃ s', run_alone (perform_locking_action (session settings false "req_9") "merchant" (create "pay_1" "cus_9"))
      (redis after_a_run) = (Err ResourceBusy, s') ∧
    get (payment_key "merchant" "cus_9") s' = Some "req_9"%string.
Proof.
  destruct (@perform_alone_outcome clocked_redis _ settings false "req_9" "merchant" (create "pay_1" "cus_9")
    (redis after_a_run)) as (s' & Hrun & Hget); [by_decision|].
  exists s'. split; [rewrite Hrun; vm_compute; reflexivity|]. rewrite Hget. vm_compute. reflexivity.
Defined.

(** [C37] Taking a free lock and freeing it gives Redis back as it was.  The
    release succeeds exactly when the keys of the request differ: a request
    whose customer id equals its payment id is answered with an internal error
    after its handler has run. *)
Theorem lock_roundtrip `{RedisLaws} conf cluster id merchant action s :
  0 < retries_of conf action → (∀ k, k ∈ lock_keys merchant action → get k s = None) →
  ∃ s1 s2,
    run_alone (perform_locking_action (session conf cluster id) merchant action) s = (Ok tt, s1) ∧
    run_alone (free_lock_action (session conf cluster id) merchant action) s1 =
      (if bool_decide (NoDup (lock_keys merchant action)) then Ok tt else Err InternalServerError, s2) ∧
    ∀ k, get k s2 = get k s.
Proof.
  intros Hn Hfree. destruct (run_perform conf cluster id merchant action s Hn) as (s1 & Hp & Hs1).
  destruct (run_free conf cluster id merchant action s1) as (s2 & Hf & Hs2).
  { intros k Hk. rewrite (Hs1 k), bool_decide_eq_true_2; [done|]. split; auto. }
  exists s1, s2. split_and!; [|done|].
  - rewrite Hp. replace (lock_available id merchant action s) with true; [done|]. symmetry.
    destruct action as [input| | | |]; simpl; try done.
    + apply bool_decide_eq_true_2, Hfree. set_solver.
    + apply all_true. intros k Hk. by rewrite (Hfree k Hk).
  - clear Hf. intros k. rewrite (Hs2 k). case_bool_decide as Hk; [by rewrite Hfree|].
    rewrite (Hs1 k), bool_decide_eq_false_2 by naive_solver. done.
Qed.

Lemma lock_roundtrip_witness :
  ∃ s1 s2,
    run_alone (perform_locking_action (session settings true "req_1") "merchant" (create "same" "same"))
      empty_server = (Ok tt, s1) ∧
    run_alone (free_lock_action (session settings true "req_1") "merchant" (create "same" "same")) s1 =
      (Err InternalServerError, s2).
Proof.
  destruct (@lock_roundtrip clocked_redis _ settings true "req_1" "merchant" (create "same" "same") empty_server)
    as (s1 & s2 & H1 & H2 & _); [by_decision|reflexivity|].
  exists s1, s2. split; [exact H1|]. rewrite H2. vm_compute. reflexivity.
Defined.

(** ** Runs in which the locks do not protect *)

(** No key expires while the handler of the request that holds it runs. *)
Definition handler_timely (e : Event) (s : System) : Prop :=
  match e with
  | Elapse seconds =>
      map_Forall (λ id r,
        match phase r with
        | Handling =>
            Forall (λ k, get k (redis s) = Some id → get k (elapse seconds (redis s)) = Some id) (request_keys r)
        | _ => True
        end) (requests s)
  | _ => True
  end.

Fixpoint handler_timely_run (es : list Event) (s : System) : Prop :=
  match es with
  | [] => True
  | e :: es =>
      handler_timely e s ∧
      match system_step settings false e s with Some s => handler_timely_run es s | None => True end
  end.

#[export] Instance handler_timely_dec e s : Decision (handler_timely e s).
Proof.
  destruct e; try apply _. apply map_Forall_dec. intros id r. destruct (phase r); apply _.
Defined.

#[export] Instance handler_timely_run_dec es s : Decision (handler_timely_run es s).
Proof.
  revert s. induction es as [|e es IH]; intros s; simpl; [apply _|]. apply and_dec; [apply _|].
  destruct (system_step settings false e s); [apply IH|apply _].
Defined.

(** The handlers of two requests that share a key run at the same time. *)
Definition both_handled (id id' : string) (s : System) : Prop :=
  ∃ r r' k, requests s !! id = Some r ∧ requests s !! id' = Some r' ∧
    phase r = Handling ∧ phase r' = Handling ∧ k ∈ request_keys r ∧ k ∈ request_keys r'.

(** The same, by evaluation. *)
Definition handles_key (k id : string) (s : System) : bool :=
  match requests s !! id with
  | Some r => match phase r with Handling => bool_decide (k ∈ request_keys r) | _ => false end
  | None => false
  end.

Lemma both_handled_intro k id id' s :
  handles_key k id s && handles_key k id' s = true → both_handled id id' s.
Proof.
  intros [H1 H2]%andb_true_iff. unfold handles_key in *.
  destruct (requests s !! id) as [r|] eqn:Hr; [|done]. destruct (requests s !! id') as [r'|] eqn:Hr'; [|done].
  exists r, r', k. destruct (phase r), (phase r'); try done.
  apply bool_decide_eq_true in H1, H2. done.
Qed.

(** The release compares and deletes in two commands.  The lock of [req_1]
    expires between them, [req_2] takes it, the delete of [req_1] frees the lock
    of [req_2], and [req_3] takes it. *)
Definition race : list Event := [
  Arrive "req_1" "merchant" (capture "pay_1");
  Command "req_1" 0 NoFault;
  Elapse 100;
  Handled "req_1" (Ok "captured");
  Command "req_1" 0 NoFault;
  Elapse 80;
  Arrive "req_2" "merchant" (capture "pay_1");
  Command "req_2" 0 NoFault;
  Command "req_1" 0 NoFault;
  Arrive "req_3" "merchant" (capture "pay_1");
  Command "req_3" 0 NoFault]%string.

(** Exclusion needs the locks to outlive the releases, not only the
    handlers: there is a run in which every handler ends before its lock
    expires and two captures of one payment are handled at the same time. *)
Theorem release_race :
  ∃ es s, run settings false es start = Some s ∧ handler_timely_run es start ∧
    "req_2"%string ≠ "req_3"%string ∧ both_handled "req_2" "req_3" s.
Proof.
  exists race, (after race start). split_and!; [by_some|by_decision|done|].
  apply (both_handled_intro (payment_key "merchant" "pay_1")). vm_compute. reflexivity.
Qed.

(** Two requests with the same two keys, each of which gets one of them. *)
Definition crossing : list Event :=
  [Arrive "req_1" "merchant" (create "pay_1" "cus_1"); Arrive "req_2" "merchant" (create "pay_1" "cus_1");
   Command "req_1" 0 NoFault; Command "req_2" 1 NoFault; Command "req_1" 1 NoFault; Command "req_2" 0 NoFault;
   Elapse 60;
   Command "req_1" 0 NoFault; Command "req_1" 1 NoFault; Command "req_2" 0 NoFault; Command "req_2" 1 NoFault;
   Elapse 60;
   Command "req_1" 0 NoFault; Command "req_1" 1 NoFault; Command "req_2" 0 NoFault; Command "req_2" 1 NoFault]%string.

(** A [HoldMultiple] keeps the keys it got when it misses others, so two of them
    can block each other until both are answered busy, and then still hold the
    keys. *)
Theorem crossing_holds_both_busy :
  ∃ s, run settings false crossing start = Some s ∧
    (phase <$> requests s !! "req_1"%string) = Some (Answered (Err ResourceBusy)) ∧
    (phase <$> requests s !! "req_2"%string) = Some (Answered (Err ResourceBusy)) ∧
    get (payment_key "merchant" "pay_1") (redis s) = Some "req_1"%string ∧
    get (payment_key "merchant" "cus_1") (redis s) = Some "req_2"%string.
Proof. exists (after crossing start). split; [by_some|]. split_and!; vm_compute; reflexivity. Qed.

(** [req_2] holds the key of the customer from its first attempt on, and gets
    that of the payment 120 seconds later. *)
Definition waiting : list Event := [
  Arrive "req_1" "merchant" (capture "pay_1"); Command "req_1" 0 NoFault;
  Arrive "req_2" "merchant" (create "pay_1" "cus_1"); Command "req_2" 0 NoFault; Command "req_2" 1 NoFault;
  Elapse 60; Command "req_2" 0 NoFault; Command "req_2" 1 NoFault;
  Elapse 60; Handled "req_1" (Ok "captured"); Command "req_1" 0 NoFault; Command "req_1" 0 NoFault;
  Command "req_2" 0 NoFault; Command "req_2" 1 NoFault]%string.

Definition then_another : list Event := [
  Elapse 60; Arrive "req_3" "merchant" (create "pay_3" "cus_1");
  Command "req_3" 0 NoFault; Command "req_3" 1 NoFault]%string.

(** A [HoldMultiple] does not renew the keys it got in an earlier attempt: 60
    seconds after its handler has started, of the 180 of the settings, another
    request takes the lock of the customer. *)
Theorem lease_not_renewed :
  ∃ s s', run settings false waiting start = Some s ∧
    (phase <$> requests s !! "req_2"%string) = Some Handling ∧
    run settings false then_another s = Some s' ∧
    both_handled "req_2" "req_3" s' ∧ redis_lock_expiry_seconds settings = 180%Z.
Proof.
  exists (after waiting start), (after then_another (after waiting start)).
  split_and!; [by_some|vm_compute; reflexivity|by_some| |reflexivity].
  apply (both_handled_intro (payment_key "merchant" "cus_1")). vm_compute. reflexivity.
Qed.
