(* ===== verification/Gsm.v ===== *)
(** * Gateway status mapping

    What to do about an error of a connector: the rules of
    [crates/hyperswitch_domain_models/src/gsm.rs], their rows
    ([crates/diesel_models/src/gsm.rs] and [query/gsm.rs]), the handlers of
    [crates/router/src/core/gsm.rs] with the conversions of
    [types/transformers.rs], and the lookup of
    [crates/router/src/core/payments/helpers.rs].

    The table is a map from the primary key to the row.  Of the columns, the
    times of creation and modification are left out.  The database answers. *)

From S2P Require Import Prelude PaymentEnums.
From stdpp Require Import gmap strings pretty.

(** ** Rules *)

Inductive GsmDecision : Set := GsmDecision_Retry | GsmDecision_DoDefault.

Inductive GsmFeature : Set := GsmFeature_Retry.

Inductive ErrorCategory : Set := | ErrorCategory_FrmDecline | ErrorCategory_ProcessorDowntime |
  ErrorCategory_ProcessorDeclineUnauthorized | ErrorCategory_IssueWithPaymentMethod |
  ErrorCategory_ProcessorDeclineIncorrectData | ErrorCategory_HardDecline | ErrorCategory_SoftDecline.

Inductive StandardisedCode : Set :=
  | StandardisedCode_AccountClosedOrInvalid | StandardisedCode_AuthenticationFailed
  | StandardisedCode_AuthenticationRequired | StandardisedCode_AuthorizationMissingOrRevoked
  | StandardisedCode_CardLostOrStolen | StandardisedCode_CardNotSupportedRestricted
  | StandardisedCode_CfgPmNotEnabledOrMisconfigured | StandardisedCode_ComplianceOrSanctionsRestriction
  | StandardisedCode_ConfigurationIssue | StandardisedCode_CreditLimitExceeded
  | StandardisedCode_CurrencyOrCorridorNotEnabled | StandardisedCode_DoNotHonor
  | StandardisedCode_DownstreamTechnicalIssue | StandardisedCode_DuplicateRequest
  | StandardisedCode_GenericUnknownError | StandardisedCode_IncorrectAuthenticationCode
  | StandardisedCode_InsufficientFunds | StandardisedCode_IntegCryptographicIssue
  | StandardisedCode_IntegrationIssue | StandardisedCode_InvalidCardNumber
  | StandardisedCode_InvalidCredentials | StandardisedCode_InvalidCvv | StandardisedCode_InvalidExpiryDate
  | StandardisedCode_InvalidState | StandardisedCode_IssuerUnavailable | StandardisedCode_MerchantInactive
  | StandardisedCode_MissingOrInvalidParam | StandardisedCode_OperationNotAllowed
  | StandardisedCode_PaymentCancelledByUser | StandardisedCode_PaymentMethodIssue
  | StandardisedCode_PaymentSessionTimeout | StandardisedCode_PmAddressMismatch
  | StandardisedCode_PspAcquirerError | StandardisedCode_PspFraudEngineDecline | StandardisedCode_RateLimit
  | StandardisedCode_StoredCredentialOrMitNotEnabled | StandardisedCode_SubscriptionPlanInactive
  | StandardisedCode_SuspectedFraud | StandardisedCode_ThreeDsAuthenticationServiceIssue
  | StandardisedCode_ThreeDsConfigurationIssue | StandardisedCode_ThreeDsDataOrProtocolInvalid
  | StandardisedCode_TransactionNotPermitted | StandardisedCode_TransactionTimedOut
  | StandardisedCode_VelocityLimitExceeded | StandardisedCode_WalletOrTokenConfigIssue.

Record RetryFeatureData := mkRetryFeatureData {
  step_up_possible : bool;
  clear_pan_possible : bool;
  alternate_network_possible : bool;
  retry_decision : GsmDecision;
}.

Inductive GsmFeatureData := GsmFeatureData_Retry (data : RetryFeatureData).

Definition get_retry_feature_data (self : GsmFeatureData) : option RetryFeatureData :=
  match self with GsmFeatureData_Retry data => Some data end.

Definition get_decision (self : GsmFeatureData) : GsmDecision :=
  match self with GsmFeatureData_Retry data => retry_decision data end.

(** The primary key: connector, flow, sub flow, code and message. *)
Record GsmKey := mkGsmKey {
  key_connector : string;
  key_flow : string;
  key_sub_flow : string;
  key_code : string;
  key_message : string;
}.

#[export] Instance GsmKey_eq_dec : EqDecision GsmKey.
Proof. solve_decision. Defined.

#[export] Program Instance GsmKey_countable : Countable GsmKey :=
  inj_countable' (λ k, (key_connector k, key_flow k, key_sub_flow k, key_code k, key_message k))
    (λ '(c, f, sf, cd, m), mkGsmKey c f sf cd m) _.
Next Obligation. by intros []. Qed.

(** [GatewayStatusMap] of the domain. *)
Record GatewayStatusMap := mkGatewayStatusMap {
  gsm_key : GsmKey;
  gsm_status : string;
  gsm_router_error : option string;
  gsm_unified_code : option string;
  gsm_unified_message : option string;
  gsm_error_category : option ErrorCategory;
  gsm_feature_data : GsmFeatureData;
  gsm_feature : GsmFeature;
  gsm_standardised_code : option StandardisedCode;
  gsm_description : option string;
  gsm_user_guidance_message : option string;
}.

(** ** Rows *)

Record GsmRow := mkGsmRow {
  row_key : GsmKey;
  row_status : string;
  row_router_error : option string;
  row_decision : string;
  row_step_up_possible : bool;
  row_unified_code : option string;
  row_unified_message : option string;
  row_error_category : option ErrorCategory;
  row_clear_pan_possible : bool;
  row_feature_data : option GsmFeatureData;
  row_feature : option GsmFeature;
  row_standardised_code : option StandardisedCode;
  row_description : option string;
  row_user_guidance_message : option string;
}.

Definition GsmDecision_to_string (d : GsmDecision) : string :=
  match d with GsmDecision_Retry => "retry" | GsmDecision_DoDefault => "do_default" end.

Definition GsmDecision_from_str (s : string) : option GsmDecision :=
  if bool_decide (s = "retry"%string) then Some GsmDecision_Retry
  else if bool_decide (s = "do_default"%string) then Some GsmDecision_DoDefault
  else None.

Definition step_up_of (d : GsmFeatureData) : bool :=
  default false (step_up_possible <$> get_retry_feature_data d).

Definition clear_pan_of (d : GsmFeatureData) : bool :=
  default false (clear_pan_possible <$> get_retry_feature_data d).

(** [TryFrom<GatewayStatusMap> for GatewayStatusMappingNew]. *)
Definition gsm_to_row (value : GatewayStatusMap) : GsmRow := {|
  row_key := gsm_key value;
  row_status := gsm_status value;
  row_router_error := gsm_router_error value;
  row_decision := GsmDecision_to_string (get_decision (gsm_feature_data value));
  row_step_up_possible := step_up_of (gsm_feature_data value);
  row_unified_code := gsm_unified_code value;
  row_unified_message := gsm_unified_message value;
  row_error_category := gsm_error_category value;
  row_clear_pan_possible := clear_pan_of (gsm_feature_data value);
  row_feature_data := Some (gsm_feature_data value);
  row_feature := Some (gsm_feature value);
  row_standardised_code := gsm_standardised_code value;
  row_description := gsm_description value;
  row_user_guidance_message := gsm_user_guidance_message value;
|}.

Inductive StorageError := ValueNotFound | DuplicateValue | DeserializationFailed.

(** [TryFrom] from the row: rows without feature data are from before it existed. *)
Definition gsm_from_row (item : GsmRow) : result StorageError GatewayStatusMap :=
  decision ← ok_or DeserializationFailed (GsmDecision_from_str (row_decision item));
  Ok {|
    gsm_key := row_key item;
    gsm_status := row_status item;
    gsm_router_error := row_router_error item;
    gsm_unified_code := row_unified_code item;
    gsm_unified_message := row_unified_message item;
    gsm_error_category := row_error_category item;
    gsm_feature_data :=
      match row_feature_data item with
      | Some (GsmFeatureData_Retry data) => GsmFeatureData_Retry data
      | None => GsmFeatureData_Retry
          (mkRetryFeatureData (row_step_up_possible item) (row_clear_pan_possible item) false decision)
      end;
    gsm_feature := default GsmFeature_Retry (row_feature item);
    gsm_standardised_code := row_standardised_code item;
    gsm_description := row_description item;
    gsm_user_guidance_message := row_user_guidance_message item;
  |}.

(** [GatewayStatusMappingUpdate] of the domain: [None] leaves a column. *)
Record GatewayStatusMappingUpdate := {
  up_status : option string;
  up_router_error : option (option string);
  up_decision : option GsmDecision;
  up_step_up_possible : option bool;
  up_unified_code : option string;
  up_unified_message : option string;
  up_error_category : option ErrorCategory;
  up_clear_pan_possible : option bool;
  up_feature_data : option GsmFeatureData;
  up_feature : option GsmFeature;
  up_standardised_code : option StandardisedCode;
  up_description : option string;
  up_user_guidance_message : option string;
}.

(** A column that may be null: the update sets it or leaves it. *)
Definition set_nullable {A} (update column : option A) : option A :=
  match update with Some a => Some a | None => column end.

(** The row after the update, which sets the columns the update gives
    ([GatewayStatusMapperUpdateInternal]). *)
Definition update_row (u : GatewayStatusMappingUpdate) (r : GsmRow) : GsmRow := {|
  row_key := row_key r;
  row_status := default (row_status r) (up_status u);
  row_router_error := default (row_router_error r) (up_router_error u);
  row_decision := default (row_decision r) (GsmDecision_to_string <$> up_decision u);
  row_step_up_possible := default (row_step_up_possible r) (up_step_up_possible u);
  row_unified_code := set_nullable (up_unified_code u) (row_unified_code r);
  row_unified_message := set_nullable (up_unified_message u) (row_unified_message r);
  row_error_category := set_nullable (up_error_category u) (row_error_category r);
  row_clear_pan_possible := default (row_clear_pan_possible r) (up_clear_pan_possible u);
  row_feature_data := set_nullable (up_feature_data u) (row_feature_data r);
  row_feature := set_nullable (up_feature u) (row_feature r);
  row_standardised_code := set_nullable (up_standardised_code u) (row_standardised_code r);
  row_description := set_nullable (up_description u) (row_description r);
  row_user_guidance_message := set_nullable (up_user_guidance_message u) (row_user_guidance_message r);
|}.

(** ** The table *)

Abbreviation GsmTable := (gmap GsmKey GsmRow) (only parsing).
Abbreviation storage A := (sr (gmap GsmKey GsmRow) StorageError A) (only parsing).

Definition add_gsm_rule (rule : GatewayStatusMap) : storage GatewayStatusMap := λ t,
  match t !! gsm_key rule with
  | Some _ => (Err DuplicateValue, t)
  | None => let row := gsm_to_row rule in (gsm_from_row row, <[gsm_key rule := row]> t)
  end.

Definition find_gsm_rule (k : GsmKey) : storage GatewayStatusMap := λ t,
  (row ← ok_or ValueNotFound (t !! k); gsm_from_row row, t).

Definition db_update_gsm_rule (k : GsmKey) (data : GatewayStatusMappingUpdate) : storage GatewayStatusMap := λ t,
  match t !! k with
  | None => (Err ValueNotFound, t)
  | Some row => let row := update_row data row in (gsm_from_row row, <[k := row]> t)
  end.

Definition db_delete_gsm_rule (k : GsmKey) : storage bool := λ t,
  match t !! k with
  | None => (Err ValueNotFound, t)
  | Some _ => (Ok true, delete k t)
  end.

(** ** Requests *)

Record GsmCreateRequest := {
  cr_key : GsmKey;
  cr_status : string;
  cr_router_error : option string;
  cr_decision : GsmDecision;
  cr_step_up_possible : bool;
  cr_unified_code : option string;
  cr_unified_message : option string;
  cr_error_category : option ErrorCategory;
  cr_clear_pan_possible : bool;
  cr_feature : option GsmFeature;
  cr_feature_data : option GsmFeatureData;
  cr_standardised_code : option StandardisedCode;
  cr_description : option string;
  cr_user_guidance_message : option string;
}.

Record GsmUpdateRequest := {
  ur_key : GsmKey;
  ur_status : option string;
  ur_router_error : option string;
  ur_decision : option GsmDecision;
  ur_step_up_possible : option bool;
  ur_unified_code : option string;
  ur_unified_message : option string;
  ur_error_category : option ErrorCategory;
  ur_clear_pan_possible : option bool;
  ur_feature : option GsmFeature;
  ur_feature_data : option GsmFeatureData;
  ur_standardised_code : option StandardisedCode;
  ur_description : option string;
  ur_user_guidance_message : option string;
}.

(** [ForeignFrom<&GsmCreateRequest> for GsmFeatureData]. *)
Definition create_feature_data (value : GsmCreateRequest) : GsmFeatureData :=
  match cr_feature value with
  | Some GsmFeature_Retry | None =>
      GsmFeatureData_Retry
        (mkRetryFeatureData (cr_step_up_possible value) (cr_clear_pan_possible value) false (cr_decision value))
  end.

(** [ForeignFrom<GsmCreateRequest> for GatewayStatusMap]. *)
Definition create_rule (value : GsmCreateRequest) : GatewayStatusMap := {|
  gsm_key := cr_key value;
  gsm_status := cr_status value;
  gsm_router_error := cr_router_error value;
  gsm_unified_code := cr_unified_code value;
  gsm_unified_message := cr_unified_message value;
  gsm_error_category := cr_error_category value;
  gsm_feature_data := default (create_feature_data value) (cr_feature_data value);
  gsm_feature := default GsmFeature_Retry (cr_feature value);
  gsm_standardised_code := cr_standardised_code value;
  gsm_description := cr_description value;
  gsm_user_guidance_message := cr_user_guidance_message value;
|}.

(** The feature and its data after an update, from the request and the rule. *)
Definition inferred_feature_info (request : GsmUpdateRequest) (rule : GatewayStatusMap) : GsmFeature * GsmFeatureData :=
  let gsm_db_record_inferred_feature :=
    match get_decision (gsm_feature_data rule) with
    | GsmDecision_Retry | GsmDecision_DoDefault => GsmFeature_Retry
    end in
  match default gsm_db_record_inferred_feature (ur_feature request) with
  | GsmFeature_Retry =>
      let retry_data := get_retry_feature_data (gsm_feature_data rule) in
      (GsmFeature_Retry, GsmFeatureData_Retry {|
        step_up_possible := default false (set_nullable (ur_step_up_possible request) (step_up_possible <$> retry_data));
        clear_pan_possible := default false (set_nullable (ur_clear_pan_possible request) (clear_pan_possible <$> retry_data));
        alternate_network_possible := default false (alternate_network_possible <$> retry_data);
        retry_decision := default GsmDecision_DoDefault
          (set_nullable (ur_decision request) (Some (get_decision (gsm_feature_data rule))));
      |})
  end.

Definition mapping_update (request : GsmUpdateRequest) (inferred : GsmFeature * GsmFeatureData) :
    GatewayStatusMappingUpdate := {|
  up_status := ur_status request;
  up_router_error := Some (ur_router_error request);
  up_decision := ur_decision request;
  up_step_up_possible :=
    set_nullable (step_up_possible <$> (ur_feature_data request ≫= get_retry_feature_data)) (ur_step_up_possible request);
  up_unified_code := ur_unified_code request;
  up_unified_message := ur_unified_message request;
  up_error_category := ur_error_category request;
  up_clear_pan_possible :=
    set_nullable (clear_pan_possible <$> (ur_feature_data request ≫= get_retry_feature_data)) (ur_clear_pan_possible request);
  up_feature_data := set_nullable (ur_feature_data request) (Some inferred.2);
  up_feature := set_nullable (ur_feature request) (Some inferred.1);
  up_standardised_code := ur_standardised_code request;
  up_description := ur_description request;
  up_user_guidance_message := ur_user_guidance_message request;
|}.

(** ** Handlers

    A response carries the rule; its deprecated fields repeat those of the
    feature data. *)

Inductive GsmApiError := GenericNotFoundError | GenericDuplicateError | GsmInternalServerError.

Definition not_found_response (e : StorageError) : GsmApiError :=
  match e with ValueNotFound => GenericNotFoundError | _ => GsmInternalServerError end.

Definition duplicate_response (e : StorageError) : GsmApiError :=
  match e with DuplicateValue => GenericDuplicateError | _ => GsmInternalServerError end.

(** The errors of the storage as those of the API. *)
Definition sr_map_err {S E E' A} (f : E → E') (c : sr S E A) : sr S E' A := λ s,
  let '(r, s) := c s in (map_err f r, s).

Abbreviation gsm_handler A := (sr (gmap GsmKey GsmRow) GsmApiError A) (only parsing).

Definition create_gsm_rule (gsm_rule : GsmCreateRequest) : gsm_handler GatewayStatusMap :=
  sr_map_err duplicate_response (add_gsm_rule (create_rule gsm_rule)).

Definition retrieve_gsm_rule (k : GsmKey) : gsm_handler GatewayStatusMap :=
  sr_map_err not_found_response (find_gsm_rule k).

Definition update_gsm_rule (gsm_request : GsmUpdateRequest) : gsm_handler GatewayStatusMap :=
  (gsm_db_record <- sr_map_err not_found_response (find_gsm_rule (ur_key gsm_request)) ;;
   sr_map_err not_found_response (db_update_gsm_rule (ur_key gsm_request)
     (mapping_update gsm_request (inferred_feature_info gsm_request gsm_db_record))))%sr.

Definition delete_gsm_rule (k : GsmKey) : gsm_handler bool :=
  (is_deleted <- sr_map_err not_found_response (db_delete_gsm_rule k) ;;
   if is_deleted : bool then sr_ret true else sr_err GsmInternalServerError)%sr.

(** ** Lookup of an error *)

(** [{code:0>2}]: padded to the left with zeros. *)
Definition pad2 (code : string) : string :=
  match String.length code with
  | 0 => "00" +:+ code
  | 1 => "0" +:+ code
  | _ => code
  end%string.

Definition create_issuer_code_lookup_key (network : CardNetwork) (issuer_code : string) : string :=
  "Network:" +:+ to_string network +:+ "|IssuerCode:" +:+ pad2 issuer_code.

Section lookup.
Context (t : gmap GsmKey GsmRow).

(** [perform_gsm_lookup]: errors are dropped. *)
Definition perform_gsm_lookup (error_code error_message : option string) (connector_name flow sub_flow : string) :
    option GatewayStatusMap :=
  match (find_gsm_rule (mkGsmKey connector_name flow sub_flow (default ""%string error_code)
           (default ""%string error_message)) t).1 with
  | Ok rule => Some rule
  | Err _ => None
  end.

Definition get_gsm_record (connector_name flow sub_flow : string) (connector_error_code connector_error_message
    issuer_error_code : option string) (card_network : option CardNetwork) : option GatewayStatusMap :=
  let issuer_result :=
    match card_network, issuer_error_code with
    | Some network, Some issuer_code =>
        let issuer_lookup_key := create_issuer_code_lookup_key network issuer_code in
        perform_gsm_lookup (Some issuer_lookup_key) (Some issuer_lookup_key) connector_name flow sub_flow
    | _, _ => None
    end in
  match issuer_result with
  | Some result => Some result
  | None => perform_gsm_lookup connector_error_code connector_error_message connector_name flow sub_flow
  end.

End lookup.
