(* ===== verification/GsmTheorems.v ===== *)
(** * Gateway status mapping: the handlers refine a map of rules

    The rows repeat parts of the feature data in columns of their own, and rows
    from before the feature data have only those columns.  Through the handlers
    the table is a map from keys to rules, with the rules of a request merged into
    the rule that is there. *)

From S2P Require Import Prelude PaymentEnums Gsm.
From stdpp Require Import gmap strings.

(** ** The specification *)

(** The rule after an update. *)
Definition merged (request : GsmUpdateRequest) (rule : GatewayStatusMap) : GatewayStatusMap :=
  let '(GsmFeatureData_Retry data) := gsm_feature_data rule in
  {| gsm_key := gsm_key rule;
     gsm_status := default (gsm_status rule) (ur_status request);
     gsm_router_error := ur_router_error request;
     gsm_unified_code := set_nullable (ur_unified_code request) (gsm_unified_code rule);
     gsm_unified_message := set_nullable (ur_unified_message request) (gsm_unified_message rule);
     gsm_error_category := set_nullable (ur_error_category request) (gsm_error_category rule);
     gsm_feature_data :=
       default (GsmFeatureData_Retry {|
         step_up_possible := default (step_up_possible data) (ur_step_up_possible request);
         clear_pan_possible := default (clear_pan_possible data) (ur_clear_pan_possible request);
         alternate_network_possible := alternate_network_possible data;
         retry_decision := default (retry_decision data) (ur_decision request) |}) (ur_feature_data request);
     gsm_feature := GsmFeature_Retry;
     gsm_standardised_code := set_nullable (ur_standardised_code request) (gsm_standardised_code rule);
     gsm_description := set_nullable (ur_description request) (gsm_description rule);
     gsm_user_guidance_message := set_nullable (ur_user_guidance_message request) (gsm_user_guidance_message rule) |}.

Inductive GsmRequest :=
| CreateRule (r : GsmCreateRequest)
| RetrieveRule (k : GsmKey)
| UpdateRule (r : GsmUpdateRequest)
| DeleteRule (k : GsmKey).

Inductive GsmReply := RuleReply (rule : GatewayStatusMap) | DeletedReply.

Definition spec_handle (q : GsmRequest) (m : gmap GsmKey GatewayStatusMap) :
    result GsmApiError GsmReply * gmap GsmKey GatewayStatusMap :=
  match q with
  | CreateRule r =>
      match m !! cr_key r with
      | Some _ => (Err GenericDuplicateError, m)
      | None => (Ok (RuleReply (create_rule r)), <[cr_key r := create_rule r]> m)
      end
  | RetrieveRule k => (RuleReply <$> ok_or GenericNotFoundError (m !! k), m)
  | UpdateRule r =>
      match m !! ur_key r with
      | None => (Err GenericNotFoundError, m)
      | Some rule => (Ok (RuleReply (merged r rule)), <[ur_key r := merged r rule]> m)
      end
  | DeleteRule k =>
      match m !! k with
      | None => (Err GenericNotFoundError, m)
      | Some _ => (Ok DeletedReply, delete k m)
      end
  end.

(** The handlers. *)
Definition handle (q : GsmRequest) : sr (gmap GsmKey GsmRow) GsmApiError GsmReply :=
  (match q with
   | CreateRule r => rule <- create_gsm_rule r ;; sr_ret (RuleReply rule)
   | RetrieveRule k => rule <- retrieve_gsm_rule k ;; sr_ret (RuleReply rule)
   | UpdateRule r => rule <- update_gsm_rule r ;; sr_ret (RuleReply rule)
   | DeleteRule k => delete_gsm_rule k ;;; sr_ret DeletedReply
   end)%sr.

Fixpoint replies {S} (step : GsmRequest → S → result GsmApiError GsmReply * S) (qs : list GsmRequest) (s : S) :
    list (result GsmApiError GsmReply) :=
  match qs with
  | [] => []
  | q :: qs => let '(r, s) := step q s in r :: replies step qs s
  end.

(** ** Representation *)

(** The row is read as the rule. *)
Definition represents (t : gmap GsmKey GsmRow) (m : gmap GsmKey GatewayStatusMap) : Prop :=
  ∀ k, match t !! k, m !! k with
       | Some row, Some rule => gsm_from_row row = Ok rule ∧ row_key row = k
       | None, None => True
       | _, _ => False
       end.

Lemma decision_roundtrip d : GsmDecision_from_str (GsmDecision_to_string d) = Some d.
Proof. by destruct d. Qed.

Lemma row_roundtrip rule : gsm_from_row (gsm_to_row rule) = Ok rule.
Proof.
  destruct rule as [k s re uc um ec [data] [] sc d ug]. unfold gsm_from_row, gsm_to_row. simpl.
  by rewrite decision_roundtrip.
Qed.

Lemma feature_unique (f : GsmFeature) : f = GsmFeature_Retry.
Proof. by destruct f. Qed.

Lemma update_merges request row rule :
  gsm_from_row row = Ok rule →
  gsm_from_row (update_row (mapping_update request (inferred_feature_info request rule)) row) = Ok (merged request rule).
Proof.
  unfold gsm_from_row. destruct (GsmDecision_from_str (row_decision row)) as [d|] eqn:Hd; [|done]. simpl. intros [= <-].
  assert (GsmDecision_from_str (default (row_decision row) (GsmDecision_to_string <$> ur_decision request)) =
    Some (default d (ur_decision request))) as ->.
  { destruct (ur_decision request); simpl; [apply decision_roundtrip|done]. }
  simpl. f_equal. unfold merged. simpl.
  destruct (match row_feature_data row with Some (GsmFeatureData_Retry data) => _ | None => _ end) as [data'] eqn:Hdata.
  f_equal; [|apply feature_unique]. unfold inferred_feature_info, set_nullable. simpl.
  destruct (default _ (ur_feature request)). simpl.
  destruct (ur_feature_data request) as [[data2]|]; simpl; [done|].
  by destruct (ur_step_up_possible request), (ur_clear_pan_possible request), (ur_decision request).
Qed.

(** ** Refinement *)

Lemma represents_lookup t m k :
  represents t m →
  (t !! k = None ∧ m !! k = None) ∨
  ∃ row rule, t !! k = Some row ∧ m !! k = Some rule ∧ gsm_from_row row = Ok rule ∧ row_key row = k.
Proof. intros Hr. specialize (Hr k). destruct (t !! k), (m !! k); try done; [right|by left]. naive_solver. Qed.

Lemma represents_insert t m k row rule :
  represents t m → gsm_from_row row = Ok rule → row_key row = k → represents (<[k := row]> t) (<[k := rule]> m).
Proof.
  intros Hr Hrow Hk k'. destruct (decide (k = k')) as [<-|Hne]; [by rewrite !lookup_insert_eq|].
  rewrite !lookup_insert_ne by done. apply Hr.
Qed.

Lemma represents_delete t m k : represents t m → represents (delete k t) (delete k m).
Proof.
  intros Hr k'. destruct (decide (k = k')) as [<-|Hne]; [by rewrite !lookup_delete_eq|].
  rewrite !lookup_delete_ne by done. apply Hr.
Qed.

Lemma handle_refines q t m :
  represents t m → (handle q t).1 = (spec_handle q m).1 ∧ represents (handle q t).2 (spec_handle q m).2.
Proof.
  intros Hr. destruct q as [r|k|r|k]; simpl.
  - unfold create_gsm_rule, sr_map_err, add_gsm_rule, sr_bind. simpl.
    destruct (represents_lookup t m (cr_key r) Hr) as [[-> ->]|(row & rule & -> & -> & _)]; simpl; [|done].
    rewrite row_roundtrip. split; [done|]. by apply represents_insert; [|apply row_roundtrip|].
  - unfold retrieve_gsm_rule, sr_map_err, find_gsm_rule, sr_bind.
    destruct (represents_lookup t m k Hr) as [[-> ->]|(row & rule & -> & -> & Hrow & _)]; simpl; [done|].
    by rewrite Hrow.
  - unfold update_gsm_rule, sr_map_err, find_gsm_rule, db_update_gsm_rule, sr_bind.
    destruct (represents_lookup t m (ur_key r) Hr) as [[-> ->]|(row & rule & Ht & -> & Hrow & Hk)]; simpl; [by simplify_option_eq|].
    rewrite Ht. simpl. rewrite Hrow. simpl. rewrite ?Ht, (update_merges r row rule Hrow). split; [done|].
    by apply represents_insert; [|apply update_merges|].
  - unfold delete_gsm_rule, sr_map_err, db_delete_gsm_rule, sr_bind.
    destruct (represents_lookup t m k Hr) as [[-> ->]|(row & rule & -> & -> & _)]; simpl; [done|].
    split; [done|]. by apply represents_delete.
Qed.

(** [C40] Through the handlers the table of rules is a map from keys to rules: on
    any sequence of requests the replies are those of the map, in which a creation
    adds the rule unless there is one, an update merges the request into the rule
    field by field, the feature data of the request taking precedence over its
    deprecated fields, and a deletion removes it.  Rules that were stored before
    the feature data existed are included. *)
Theorem gsm_requests_refine t m qs : represents t m → replies handle qs t = replies spec_handle qs m.
Proof.
  revert t m. induction qs as [|q qs IH]; intros t m Hr; [done|]. cbn [replies].
  destruct (handle_refines q t m Hr) as [H1 H2].
  destruct (handle q t) as [r t'], (spec_handle q m) as [r' m']. simpl in *. subst r'. f_equal. by apply IH.
Qed.

(** ** A rule and its lookup *)

Module GsmExample.

Definition key (code message : string) : GsmKey := mkGsmKey "stripe" "Payment" "Authorize" code message.

(** A rule from before the feature data existed. *)
Definition legacy_row : GsmRow :=
  mkGsmRow (key "card_declined" "Declined") "failure" None "retry" true None None None false None None None None None.

Definition legacy_rule : GatewayStatusMap :=
  mkGatewayStatusMap (key "card_declined" "Declined") "failure" None None None None
    (GsmFeatureData_Retry (mkRetryFeatureData true false false GsmDecision_Retry)) GsmFeature_Retry None None None.

(** An update that only changes the decision. *)
Definition stop_retrying : GsmUpdateRequest := {|
  ur_key := key "card_declined" "Declined"; ur_status := None; ur_router_error := None;
  ur_decision := Some GsmDecision_DoDefault; ur_step_up_possible := None; ur_unified_code := None;
  ur_unified_message := None; ur_error_category := None; ur_clear_pan_possible := None; ur_feature := None;
  ur_feature_data := None; ur_standardised_code := None; ur_description := None; ur_user_guidance_message := None |}.

Definition requests : list GsmRequest :=
  [UpdateRule stop_retrying; RetrieveRule (key "card_declined" "Declined"); DeleteRule (key "card_declined" "Declined");
   RetrieveRule (key "card_declined" "Declined")].

Lemma legacy_represents : represents {[key "card_declined" "Declined" := legacy_row]} {[key "card_declined" "Declined" := legacy_rule]}.
Proof.
  intros k. destruct (decide (key "card_declined" "Declined" = k)) as [<-|Hne].
  - rewrite !lookup_singleton_eq. by split.
  - by rewrite !lookup_singleton_ne.
Qed.

Lemma gsm_requests_refine_witness :
  replies handle requests {[key "card_declined" "Declined" := legacy_row]} =
    [Ok (RuleReply (merged stop_retrying legacy_rule)); Ok (RuleReply (merged stop_retrying legacy_rule));
     Ok DeletedReply; Err GenericNotFoundError].
Proof.
  rewrite (gsm_requests_refine _ _ requests legacy_represents). vm_compute. reflexivity.
Defined.

End GsmExample.
