(* ===== verification/AutoRetry.v ===== *)
(** * Automatic retries

    [crates/router/src/core/payments/retry.rs] (version 1 of the API), with the
    branch of [payments_operation_core] that calls the connectors of a routed
    payment: the first connector is called; when the payment fails, the rules of
    the gateway status mapping say whether it is retried, once more with the
    same connector and 3DS, or with the next connectors.  Each retry stores the
    answer in the attempt and starts a new attempt.

    The call of a connector, from its prerequisites to its completion, is an
    argument that answers a call and may change the attempt it is made for, but
    not its id ([ConnectorServiceLaws]).  Of an attempt the fields that a retry
    reads or writes are modelled, without the additional data of the payment
    method.  A log of the calls is kept for the properties. *)

From S2P Require Import Prelude Country Currency PaymentEnums EuclidEnums EuclidTypes PaymentStatus.
From S2P Require Import RoutingInput Routing DecideConnector Gsm.
From stdpp Require Import gmap strings pretty.

(** ** Answers of connectors *)

Record ErrorResponse := mkErrorResponse {
  err_code : string;
  err_message : string;
  err_reason : option string;
  err_transaction_id : option string;
  err_network_decline_code : option string;
}.

(** [Result<PaymentsResponseData, ErrorResponse>]: a transaction with its id, one
    of the other responses, or an error. *)
Inductive PaymentsResponse :=
| TransactionResponse (resource_id : option string)
| OtherResponse
| ResponseErr (e : ErrorResponse).

Record RouterData := mkRouterData {
  rd_connector : string;
  rd_status : AttemptStatus;
  rd_auth_type : AuthenticationType;
  rd_response : PaymentsResponse;
}.

Definition response_error (rd : RouterData) : option ErrorResponse :=
  match rd_response rd with ResponseErr e => Some e | _ => None end.

(** [GsmValidation::should_call_gsm]. *)
Definition should_call_gsm (self : RouterData) : bool :=
  match rd_response self with
  | ResponseErr _ => true
  | _ =>
      match rd_status self with
      | AttemptStatus_AuthenticationFailed | AttemptStatus_AuthorizationFailed | AttemptStatus_Failure => true
      | _ => false
      end
  end.

(** ** Attempts *)

Inductive RetryType : Set := RetryType_ManualRetry | RetryType_AutoRetry.

Record Attempt := mkAttempt {
  at_id : string;
  at_payment_id : string;
  at_connector : option string;
  at_mca : option string;
  at_status : AttemptStatus;
  at_net_amount : NetAmount;
  at_amount_capturable : Z;
  at_auth_type : option AuthenticationType;
  at_error_code : option string;
  at_error_message : option string;
  at_error_reason : option string;
  at_unified_code : option string;
  at_unified_message : option string;
  at_transaction_id : option string;
  at_future_usage_applied : option FutureUsage;
  at_retry_type : option RetryType;
}.

(** Integers of 16 bits wrap around. *)
Definition wrap_i16 (z : Z) : Z := (z + 2 ^ 15) `mod` 2 ^ 16 - 2 ^ 15.

(** [PaymentId::get_attempt_id]. *)
Definition get_attempt_id (payment_id : string) (attempt_count : Z) : string :=
  (payment_id +:+ "_" +:+ pretty attempt_count)%string.

Definition make_new_auto_retry_payment_attempt (connector : string) (old : Attempt) (new_attempt_count : Z)
    (is_step_up : bool) (setup_future_usage_intent : option FutureUsage) : Attempt := {|
  at_id := get_attempt_id (at_payment_id old) new_attempt_count;
  at_payment_id := at_payment_id old;
  at_connector := Some connector;
  at_mca := None;
  at_status := at_status old;
  at_net_amount := at_net_amount old;
  at_amount_capturable := 0;
  at_auth_type := if is_step_up then Some AuthenticationType_ThreeDs else at_auth_type old;
  at_error_code := None;
  at_error_message := None;
  at_error_reason := None;
  at_unified_code := None;
  at_unified_message := None;
  at_transaction_id := None;
  at_future_usage_applied := setup_future_usage_intent;
  at_retry_type := Some RetryType_AutoRetry;
|}.

(** [PaymentAttemptUpdate::ResponseUpdate] of [modify_trackers]. *)
Definition response_update (status : AttemptStatus) (resource_id : option string) (a : Attempt) : Attempt := {|
  at_id := at_id a; at_payment_id := at_payment_id a; at_connector := at_connector a; at_mca := at_mca a;
  at_status := status;
  at_net_amount := at_net_amount a;
  at_amount_capturable := if is_terminal_status status then 0 else at_amount_capturable a;
  at_auth_type := at_auth_type a;
  at_error_code := at_error_code a; at_error_message := at_error_message a; at_error_reason := at_error_reason a;
  at_unified_code := at_unified_code a; at_unified_message := at_unified_message a;
  at_transaction_id := set_nullable resource_id (at_transaction_id a);
  at_future_usage_applied := at_future_usage_applied a;
  at_retry_type := at_retry_type a;
|}.

(** [PaymentAttemptUpdate::ErrorUpdate] of [modify_trackers]; [current] is the
    attempt of the payment data. *)
Definition error_update (auth_type : AuthenticationType) (e : ErrorResponse) (gsm : option GatewayStatusMap)
    (current a : Attempt) : Attempt := {|
  at_id := at_id a; at_payment_id := at_payment_id a; at_connector := at_connector a; at_mca := at_mca a;
  at_status := AttemptStatus_Failure;
  at_net_amount := at_net_amount a;
  at_amount_capturable := 0;
  at_auth_type := if bool_decide (Some auth_type ≠ at_auth_type current) then Some auth_type else at_auth_type a;
  at_error_code := Some (err_code e);
  at_error_message := Some (err_message e);
  at_error_reason := err_reason e;
  at_unified_code := default (at_unified_code a) (gsm_unified_code <$> gsm);
  at_unified_message := default (at_unified_message a) (gsm_unified_message <$> gsm);
  at_transaction_id := set_nullable (err_transaction_id e) (at_transaction_id a);
  at_future_usage_applied := at_future_usage_applied a;
  at_retry_type := at_retry_type a;
|}.

(** ** State *)

Section retry.
Context {ActionType : Type}.
Abbreviation RoutingChoice := (ConnectorRoutingData (ActionType := ActionType)) (only parsing).

Record Call := mkCall {
  call_attempt : string;
  call_connector : ConnectorData;
  call_result : result RouterError RouterData;
}.

(** The rows of the attempts of the payment by id, the attempt and the count in
    the payment data, the active attempt of the intent, and the log. *)
Record RetryState := mkRetryState {
  rs_rows : gmap string Attempt;
  rs_active : Attempt;
  rs_count : Z;
  rs_active_id : string;
  rs_calls : list Call;
}.

Abbreviation retry A := (sr RetryState RouterError A) (only parsing).

(** What a retry reads: the rules, the flow, the limits of the merchant and of
    the profile, whether the merchant or the profile enables retries, the
    connectors with step up (unless they cannot be read), and the data of the
    payment. *)
Record RetryConfig := {
  gsm_table : gmap GsmKey GsmRow;
  flow_name : string;
  merchant_max_auto_retries : option Z;
  profile_max_auto_retries : option Z;
  merchant_config_gsm : bool;
  is_auto_retries_enabled : bool;
  is_clear_pan_retries_enabled : bool;
  step_up_connectors : option (list string);
  is_debit_routing : bool;
  is_network_token : bool;
  intent_off_session : option bool;
  payment_method_info : bool;
  mandate_reference : RoutingChoice → result RouterError unit;
  intent_future_usage : option FutureUsage;
  attempt_card_network : option CardNetwork;
}.

(** The call of a connector: after that many calls, for this connector, with the
    card number instead of the network token, over this network. *)
Class ConnectorService :=
  connector_service : nat → ConnectorData → bool → option CardNetwork → Attempt → result RouterError RouterData * Attempt.

Class ConnectorServiceLaws `{ConnectorService} : Prop := {
  service_keeps_id : ∀ n c pan net a, at_id (connector_service n c pan net a).2 = at_id a;
  service_keeps_payment : ∀ n c pan net a, at_payment_id (connector_service n c pan net a).2 = at_payment_id a;
}.

Context `{ConnectorService} (cfg : RetryConfig).

Definition call_connector_service (c : ConnectorData) (should_retry_with_pan : bool) (routing_decision : option CardNetwork) :
    retry RouterData := λ s,
  let '(r, a) := connector_service (length (rs_calls s)) c should_retry_with_pan routing_decision (rs_active s) in
  (r, {| rs_rows := <[at_id a := a]> (rs_rows s); rs_active := a; rs_count := rs_count s;
         rs_active_id := rs_active_id s; rs_calls := rs_calls s ++ [mkCall (at_id (rs_active s)) c r] |}).

(** ** Rules and limits *)

Definition PAYMENT_FLOW_STR : string := "Payment".

Definition get_gsm (router_data : RouterData) (card_network : option CardNetwork) : option GatewayStatusMap :=
  let error_response := response_error router_data in
  get_gsm_record (gsm_table cfg) (rd_connector router_data) PAYMENT_FLOW_STR (flow_name cfg)
    (err_code <$> error_response) (err_message <$> error_response)
    (error_response ≫= err_network_decline_code) card_network.

Definition get_gsm_decision (option_gsm : option GatewayStatusMap) : GsmDecision :=
  default GsmDecision_DoDefault ((λ gsm, get_decision (gsm_feature_data gsm)) <$> option_gsm).

Definition get_retries (retries : option Z) : option Z :=
  match retries with
  | Some retries => Some retries
  | None => first_some (merchant_max_auto_retries cfg) (profile_max_auto_retries cfg)
  end.

(** A configuration that cannot be read enables nothing. *)
Definition is_step_up_enabled_for_merchant_connector (connector_name : string) : bool :=
  default false ((λ connectors_enabled, bool_decide (connector_name ∈ connectors_enabled)) <$> step_up_connectors cfg).

Definition config_should_call_gsm : bool := merchant_config_gsm cfg || is_auto_retries_enabled cfg.

(** ** Retries *)

(** An update of the row of the attempt of the payment data. *)
Definition update_attempt (f : Attempt → Attempt) : retry unit := λ s,
  match rs_rows s !! at_id (rs_active s) with
  | None => (Err (OtherRouterError "PaymentNotFound"), s)
  | Some a => (Ok tt, mkRetryState (<[at_id (rs_active s) := f a]> (rs_rows s)) (rs_active s) (rs_count s)
                (rs_active_id s) (rs_calls s))
  end.

(** The new attempt is inserted and becomes that of the payment. *)
Definition insert_attempt (a : Attempt) (new_attempt_count : Z) : retry unit := λ s,
  match rs_rows s !! at_id a with
  | Some _ => (Err RouterInternalServerError, s)
  | None => (Ok tt, mkRetryState (<[at_id a := a]> (rs_rows s)) a new_attempt_count (at_id a) (rs_calls s))
  end.

Definition modify_trackers (connector : string) (router_data : RouterData) (is_step_up : bool)
    (initial_gsm : option GatewayStatusMap) : retry unit := λ s,
  let new_attempt_count := wrap_i16 (rs_count s + 1) in
  let new_payment_attempt := make_new_auto_retry_payment_attempt connector (rs_active s) new_attempt_count is_step_up
    (intent_future_usage cfg) in
  match rd_response router_data with
  | TransactionResponse resource_id =>
      (update_attempt (response_update (rd_status router_data) resource_id) ;;;
       insert_attempt new_payment_attempt new_attempt_count)%sr s
  | OtherResponse => (Ok tt, s)
  | ResponseErr e =>
      (update_attempt (error_update (rd_auth_type router_data) e initial_gsm (rs_active s)) ;;;
       insert_attempt new_payment_attempt new_attempt_count)%sr s
  end.

Definition do_retry (connector : ConnectorData) (router_data : RouterData) (is_step_up should_retry_with_pan : bool)
    (routing_decision : option CardNetwork) (initial_gsm : option GatewayStatusMap) : retry RouterData :=
  (modify_trackers (connector_data_name connector) router_data is_step_up initial_gsm ;;;
   call_connector_service connector should_retry_with_pan routing_decision)%sr.

(** The connector of a retry, its network, and the connectors that remain. *)
Definition next_connector (original : ConnectorData) (should_retry_with_pan : bool) (first : RoutingChoice)
    (rest : list RoutingChoice) : retry (ConnectorData * option CardNetwork * list RoutingChoice) :=
  (if default false (intent_off_session cfg) then
     if payment_method_info cfg then
       sr_lift (mandate_reference cfg first) ;;;
       sr_ret (connector_data first, None, rest)
     else sr_err MissingRequiredField
   else if should_retry_with_pan then sr_ret (original, None, first :: rest)
   else sr_ret (connector_data first, network first, rest))%sr.

(** The loop of [do_gsm_actions]; [None] when the fuel is spent. *)
Fixpoint retry_loop (fuel : nat) (original : ConnectorData) (retries : option Z) (initial_gsm : option GatewayStatusMap)
    (connectors : list RoutingChoice) (router_data : RouterData) : retry (option RouterData) :=
  match fuel with
  | 0 => sr_ret None
  | S fuel =>
      let gsm := match initial_gsm with Some gsm => Some gsm | None => get_gsm router_data (attempt_card_network cfg) end in
      match get_gsm_decision gsm with
      | GsmDecision_DoDefault => sr_ret (Some router_data)
      | GsmDecision_Retry =>
          match get_retries retries with
          | None => sr_ret (Some router_data)
          | Some retries =>
              if bool_decide (retries = 0%Z) then sr_ret (Some router_data)
              else
                match connectors with
                | [] => sr_ret (Some router_data)
                | first :: rest =>
                    let clear_pan_possible := default false ((λ data, clear_pan_of (gsm_feature_data data)) <$> initial_gsm) in
                    let should_retry_with_pan :=
                      is_network_token cfg && clear_pan_possible && is_clear_pan_retries_enabled cfg in
                    (next <- next_connector original should_retry_with_pan first rest ;;
                     router_data <- do_retry next.1.1 router_data false should_retry_with_pan next.1.2 gsm ;;
                     retry_loop fuel original (Some (wrap_i32 (retries - 1))) None next.2 router_data)%sr
                end
          end
      end
  end.

(** Enough for the connectors and a retry with the card number. *)
Definition retry_fuel (connectors : list RoutingChoice) : nat := length connectors + 2.

Definition do_gsm_actions (connectors : list RoutingChoice) (original_connector_data : ConnectorData)
    (router_data : RouterData) : retry (option RouterData) :=
  let initial_gsm := get_gsm router_data (attempt_card_network cfg) in
  let step_up_possible := default false ((λ data, step_up_of (gsm_feature_data data)) <$> initial_gsm) in
  let is_no_three_ds_payment := bool_decide (rd_auth_type router_data = AuthenticationType_NoThreeDs) in
  let should_step_up := step_up_possible && is_no_three_ds_payment &&
    is_step_up_enabled_for_merchant_connector (connector_data_name original_connector_data) in
  (if should_step_up then
     router_data <- do_retry original_connector_data router_data true false None initial_gsm ;;
     sr_ret (Some router_data)
   else retry_loop (retry_fuel connectors) original_connector_data None initial_gsm connectors router_data)%sr.

(** ** The connectors of a payment *)

(** [get_connector_with_networks]: the first connector with a network, and the
    connectors after it. *)
Fixpoint get_connector_with_networks (connectors : list RoutingChoice) :
    option (ConnectorData * CardNetwork * list RoutingChoice) :=
  match connectors with
  | [] => None
  | c :: rest =>
      match network c with
      | Some card_network => Some (connector_data c, card_network, rest)
      | None => get_connector_with_networks rest
      end
  end.

(** [get_connector_data_with_routing_decision]: when no connector has a network,
    the search has used up the connectors. *)
Definition get_connector_data_with_routing_decision (connectors : list RoutingChoice) :
    result RouterError (ConnectorData * option CardNetwork * list RoutingChoice) :=
  if is_debit_routing cfg then
    match get_connector_with_networks connectors with
    | Some (c, card_network, rest) => Ok (c, Some card_network, rest)
    | None => Err RouterInternalServerError
    end
  else
    match connectors with
    | [] => Err RouterInternalServerError
    | c :: rest => Ok (connector_data c, None, rest)
    end.

(** The [ConnectorCallType::Retryable] branch of [payments_operation_core], to the
    answer that is recorded at last. *)
Definition call_retryable_connectors (connectors : list RoutingChoice) : retry (option RouterData) :=
  (first <- sr_lift (get_connector_data_with_routing_decision connectors) ;;
   router_data <- call_connector_service first.1.1 false first.1.2 ;;
   if config_should_call_gsm && should_call_gsm router_data
   then do_gsm_actions first.2 first.1.1 router_data
   else sr_ret (Some router_data))%sr.

End retry.
