(* ===== verification/AutoRetryTheorems.v ===== *)
(** * Automatic retries: properties

    The calls that are made for one payment: how many there are, that each but
    the last has failed, and what the attempts record of them. *)

From S2P Require Import Prelude Country Currency PaymentEnums EuclidEnums EuclidTypes PaymentStatus.
From S2P Require Import RoutingInput Routing DecideConnector Gsm AutoRetry.
From stdpp Require Import gmap strings pretty.

Section retry.
Context {ActionType : Type} `{ConnectorService} (cfg : RetryConfig (ActionType := ActionType)).

(** ** The log *)

(** Each call of [more] follows an answer with [P], the first one after [rd]. *)
Fixpoint follows (P : RouterData → Prop) (rd : RouterData) (more : list Call) : Prop :=
  match more with
  | [] => True
  | c :: rest =>
      P rd ∧ match call_result c with Ok rd => follows P rd rest | Err _ => rest = [] end
  end.

Lemma modify_trackers_calls c rd su gsm s r s' : modify_trackers cfg c rd su gsm s = (r, s') → rs_calls s' = rs_calls s.
Proof.
  unfold modify_trackers, sr_bind, update_attempt, insert_attempt.
  destruct (rd_response rd); [| by intros [= <- <-] |];
    (destruct (rs_rows s !! _); [|by intros [= <- <-]]; cbn [rs_rows rs_calls];
     case_match; by intros [= <- <-]).
Qed.

(** A retry makes one call, or none when it fails before. *)
Lemma do_retry_calls c rd su pan net gsm s r s' :
  do_retry cfg c rd su pan net gsm s = (r, s') →
  (∃ id, rs_calls s' = rs_calls s ++ [mkCall id c r]) ∨ rs_calls s' = rs_calls s ∧ ∃ e, r = Err e.
Proof.
  unfold do_retry, sr_bind. destruct (modify_trackers _ _ _ _ _ s) as [[[]|e] s1] eqn:Hm; apply modify_trackers_calls in Hm.
  - unfold call_connector_service. destruct (connector_service _ _ _ _ _) as [r1 a]. intros [= <- <-]. left.
    eexists. cbn. by rewrite Hm.
  - intros [= <- <-]. right. eauto.
Qed.

Lemma next_connector_run original pan first rest s :
  (∃ n, next_connector cfg original pan first rest s = (Ok n, s) ∧ (n.2 = rest ∨ pan = true ∧ n.2 = first :: rest)) ∨
  ∃ e, next_connector cfg original pan first rest s = (Err e, s).
Proof.
  unfold next_connector, sr_bind, sr_lift. destruct (default false _).
  - destruct (payment_method_info cfg); [|eauto]. destruct (mandate_reference cfg first); [|eauto]. left. eexists. eauto.
  - left. destruct pan; eexists; (split; [reflexivity|]); simpl; auto.
Qed.

(** How many calls the loop may make: one for each connector, and one more with
    the card number, as long as the rule of the first answer is at hand. *)
Definition spare (initial_gsm : option GatewayStatusMap) : nat := if initial_gsm then 1 else 0.

(** The rule of an answer, as the loop finds it. *)
Definition rule_of (initial_gsm : option GatewayStatusMap) (rd : RouterData) : option GatewayStatusMap :=
  match initial_gsm with Some gsm => Some gsm | None => get_gsm cfg rd (attempt_card_network cfg) end.

Definition retried (rd : RouterData) : Prop := get_gsm_decision (get_gsm cfg rd (attempt_card_network cfg)) = GsmDecision_Retry.

(** The calls of the loop: not more than there are connectors and retries, each
    after an answer that a rule retries. *)
Definition loop_shape (retries : option Z) (initial_gsm : option GatewayStatusMap)
    (connectors : list (ConnectorRoutingData (ActionType := ActionType))) (rd : RouterData) (more : list Call) : Prop :=
  length more ≤ length connectors + spare initial_gsm ∧
  match get_retries cfg retries with
  | None => more = []
  | Some n => (0 ≤ n ≤ i32_max)%Z → (Z.of_nat (length more) ≤ n)%Z
  end ∧ follows retried rd more.

Lemma retry_loop_calls fuel : ∀ original retries initial_gsm connectors rd s r s',
  length connectors + spare initial_gsm < fuel →
  rule_of initial_gsm rd = get_gsm cfg rd (attempt_card_network cfg) →
  retry_loop cfg fuel original retries initial_gsm connectors rd s = (r, s') →
  r ≠ Ok None ∧ ∃ more, rs_calls s' = rs_calls s ++ more ∧ loop_shape retries initial_gsm connectors rd more.
Proof.
  induction fuel as [|fuel IH]; intros original retries initial_gsm connectors rd s r s' Hfuel Hrule; [lia|].
  cbn [retry_loop]. fold (rule_of initial_gsm rd). rewrite Hrule.
  assert (∀ o : option RouterData, sr_ret o s = (r, s') → o ≠ None →
    r ≠ Ok None ∧ ∃ more, rs_calls s' = rs_calls s ++ more ∧ loop_shape retries initial_gsm connectors rd more) as Hstop.
  { unfold loop_shape. intros o [= <- <-] Ho. split; [congruence|]. exists []. rewrite app_nil_r. split_and!; [done|simpl; lia| |done].
    destruct (get_retries cfg retries); simpl; [lia|done]. }
  unfold loop_shape in *.
  destruct (get_gsm_decision _) eqn:Hd; [|intros Hr; by apply (Hstop _ Hr)].
  destruct (get_retries cfg retries) as [n|] eqn:Hret; [|intros Hr; by apply (Hstop _ Hr)].
  case_bool_decide as Hn; [intros Hr; by apply (Hstop _ Hr)|].
  destruct connectors as [|first rest]; [intros Hr; by apply (Hstop _ Hr)|]. clear Hstop.
  set (pan := _ && _ && _). unfold sr_bind at 1.
  destruct (next_connector_run original pan first rest s) as [(nx & -> & Hnx)|[e ->]].
  2: { intros [= <- <-]. split; [done|]. exists []. rewrite app_nil_r. split_and!; [done|simpl; lia|simpl; lia|done]. }
  assert (length nx.2 < length (first :: rest) + spare initial_gsm) as Hlen.
  { destruct Hnx as [->|[Hpan ->]]; [simpl; lia|]. destruct initial_gsm; simpl; [lia|].
    unfold pan in Hpan. simpl in Hpan. by rewrite andb_false_r in Hpan. }
  unfold sr_bind at 1. destruct (do_retry cfg _ _ _ _ _ _ s) as [r1 s1] eqn:Hdo.
  apply do_retry_calls in Hdo as [[id Hcalls]|[Hcalls [e ->]]].
  2: { intros [= <- <-]. split; [done|]. exists []. rewrite app_nil_r. split_and!; [done|simpl; lia|simpl; lia|done]. }
  destruct r1 as [rd1|e].
  - intros Hloop. apply IH in Hloop as (Hr & more & Hmore & Hle & Hn1 & Hf); [|simpl in *; lia|done]. split; [done|].
    exists (mkCall id nx.1.1 (Ok rd1) :: more). rewrite Hmore, Hcalls, <- app_assoc. split; [done|]. simpl in *.
    split_and!; [lia| |done|exact Hf].
    intros Hrange. rewrite wrap_i32_id in Hn1 by lia. unfold i32_max in *. lia.
  - intros [= <- <-]. split; [done|]. exists [mkCall id nx.1.1 (Err e)]. split; [done|]. simpl in *. split_and!; [lia|lia|done|done].
Qed.

(** The retries after an answer, with the same connector or with the next ones. *)
Lemma do_gsm_actions_calls connectors original rd s r s' :
  do_gsm_actions cfg connectors original rd s = (r, s') →
  r ≠ Ok None ∧ ∃ more, rs_calls s' = rs_calls s ++ more ∧
    length more ≤ length connectors + 1 ∧
    (length more ≤ 1 ∨ ∃ n, get_retries cfg None = Some n ∧ ((0 ≤ n ≤ i32_max)%Z → (Z.of_nat (length more) ≤ n)%Z)) ∧
    (follows retried rd more ∨ ∃ c, more = [c]).
Proof.
  unfold do_gsm_actions. set (step_up := _ && _ && _). destruct step_up.
  - unfold sr_bind. destruct (do_retry cfg _ _ _ _ _ _ s) as [r1 s1] eqn:Hdo.
    apply do_retry_calls in Hdo as [[id Hcalls]|[Hcalls [e ->]]].
    + intros Hr. assert (s1 = s' ∧ r ≠ Ok None) as [<- Hr'] by (destruct r1; injection Hr as <- <-; done). split; [done|].
      exists [mkCall id original r1]. split_and!; [done|simpl; lia|simpl; lia|eauto].
    + intros [= <- <-]. split; [done|]. exists []. rewrite app_nil_r. split_and!; [done|simpl; lia|simpl; lia|by left].
  - intros Hloop. apply retry_loop_calls in Hloop as (Hr & more & Hmore & Hle & Hn & Hf).
    + split; [done|]. exists more. split_and!; [done|by destruct (get_gsm cfg rd _); simpl in *; lia| |by left].
      destruct (get_retries cfg None) as [n|]; [right; eauto|]. subst more. left. simpl. lia.
    + unfold retry_fuel. destruct (get_gsm cfg rd _); simpl; lia.
    + unfold rule_of. by destruct (get_gsm cfg rd _).
Qed.

Lemma first_connector_rest connectors c net rest :
  get_connector_data_with_routing_decision cfg connectors = Ok (c, net, rest) → length rest < length connectors.
Proof.
  unfold get_connector_data_with_routing_decision. destruct (is_debit_routing cfg).
  - destruct (get_connector_with_networks connectors) as [[[c' net'] rest']|] eqn:Hc; [|done]. intros [= <- <- <-].
    revert Hc. induction connectors as [|d connectors IH]; simpl; [done|].
    destruct (network d); [intros [= <- <- <-]; lia|]. intros Hc. specialize (IH Hc). lia.
  - destruct connectors; [done|]. intros [= <- <- <-]. simpl. lia.
Qed.

(** One call, and retries if it failed. *)
Definition call_shape (more : list Call) : Prop :=
  match more with
  | [] => True
  | c :: retries =>
      (length retries ≤ 1 ∨
       ∃ n, get_retries cfg None = Some n ∧ ((0 ≤ n ≤ i32_max)%Z → (Z.of_nat (length retries) ≤ n)%Z)) ∧
      match retries with
      | [] => True
      | _ => ∃ rd, call_result c = Ok rd ∧ should_call_gsm rd = true ∧
               (follows retried rd retries ∨ ∃ c', retries = [c'])
      end
  end.

(** The calls of a payment: one, and the retries after it if it failed. *)
Lemma call_retryable_calls connectors s r s' :
  call_retryable_connectors cfg connectors s = (r, s') →
  r ≠ Ok None ∧ ∃ more, rs_calls s' = rs_calls s ++ more ∧ length more ≤ length connectors + 1 ∧
    call_shape more.
Proof.
  unfold call_retryable_connectors, sr_bind at 1, sr_lift.
  destruct (get_connector_data_with_routing_decision cfg connectors) as [[[c net] rest]|e] eqn:Hfirst.
  2: { intros [= <- <-]. split; [done|]. exists []. rewrite app_nil_r. split_and!; [done|simpl; lia|done]. }
  apply first_connector_rest in Hfirst. cbn [fst snd]. unfold sr_bind at 1, call_connector_service.
  destruct (connector_service _ c false net _) as [r1 a]. set (s1 := mkRetryState _ _ _ _ _).
  set (c1 := mkCall _ c r1) in *. assert (rs_calls s1 = rs_calls s ++ [c1]) as Hs1 by done.
  assert (∀ r : result RouterError (option RouterData), r ≠ Ok None → s1 = s' → r ≠ Ok None ∧ ∃ more, rs_calls s' = rs_calls s ++ more ∧ length more ≤ length connectors + 1 ∧
    call_shape more) as Hone.
  { intros r0 Hr0 <-. split; [done|]. exists [c1]. split_and!; [done|simpl; lia|]. split; [left; simpl; lia|done]. }
  destruct r1 as [rd|e]; [|intros [= <- <-]; by apply Hone].
  destruct (config_should_call_gsm cfg && should_call_gsm rd) eqn:Hcall; [|intros [= <- <-]; by apply Hone].
  apply andb_true_iff in Hcall as [_ Hcall]. clear Hone.
  intros Hact. apply do_gsm_actions_calls in Hact as (Hr & more & Hmore & Hle & Hn & Hf). split; [done|].
  exists (c1 :: more). rewrite Hmore, Hs1, <- app_assoc. split_and!; [done|simpl; lia|]. split; [done|].
  destruct more; [done|]. eauto.
Qed.

(** [C39] Calling the connectors of a payment ends: at most one call for each
    connector and one more, with the card number or with 3DS, is made, and as
    many retries as the merchant, or else the profile, allows; a single retry
    with 3DS is not counted. *)
Theorem retries_bounded connectors s :
  let '(r, s') := call_retryable_connectors cfg connectors s in
  r ≠ Ok None ∧ ∃ calls, rs_calls s' = rs_calls s ++ calls ∧ length calls ≤ length connectors + 1 ∧
    match get_retries cfg None with
    | None => length calls ≤ 2
    | Some n => (0 ≤ n ≤ i32_max)%Z → (Z.of_nat (length calls) ≤ 1 + 1 `max` n)%Z
    end.
Proof.
  destruct (call_retryable_connectors cfg connectors s) as [r s'] eqn:Hrun.
  apply call_retryable_calls in Hrun as (Hr & more & Hmore & Hle & Hn). split; [done|]. exists more.
  split_and!; [done..|]. destruct more as [|c more]; [destruct (get_retries cfg None); simpl; lia|].
  destruct Hn as [[Hn|(n & -> & Hn)] _]; [destruct (get_retries cfg None); simpl; lia|]. simpl. lia.
Qed.

(** No connector has a rule to retry an answer without an error code. *)
Definition errors_only : Prop :=
  ∀ connector, get_gsm_decision (perform_gsm_lookup (gsm_table cfg) None None connector PAYMENT_FLOW_STR (flow_name cfg)) =
    GsmDecision_DoDefault.

Lemma get_gsm_no_error rd net :
  response_error rd = None →
  get_gsm cfg rd net = perform_gsm_lookup (gsm_table cfg) None None (rd_connector rd) PAYMENT_FLOW_STR (flow_name cfg).
Proof. intros Hrd. unfold get_gsm, get_gsm_record. rewrite Hrd. by destruct net. Qed.

Lemma retried_failed rd : errors_only → retried rd → should_call_gsm rd = true.
Proof.
  intros Hq Hd. destruct (response_error rd) as [e|] eqn:Hrd.
  - unfold should_call_gsm, response_error in *. by destruct (rd_response rd).
  - unfold retried in Hd. by rewrite get_gsm_no_error, Hq in Hd.
Qed.

(** The calls that have another call after them. *)
Definition all_but_last (P : Call → Prop) (calls : list Call) : Prop :=
  ∀ i c, calls !! i = Some c → is_Some (calls !! S i) → P c.

Definition call_failed (c : Call) : Prop := ∃ rd, call_result c = Ok rd ∧ should_call_gsm rd = true.

Lemma follows_failed rd c more :
  errors_only → call_result c = Ok rd → follows retried rd more → all_but_last call_failed (c :: more).
Proof.
  intros Hq. revert rd c. induction more as [|c' more IH]; intros rd c Hc; simpl.
  - intros _ [|i] c'; [by intros _ [? ?]|done].
  - intros [Hrd Hrest] [|i] c'' Hi Hnext; simpl in Hi.
    + simplify_eq. exists rd. by split; [|apply retried_failed].
    + destruct (call_result c') as [rd'|e] eqn:Hc'; [by apply (IH rd' c' Hc' Hrest i c'')|]. subst more.
      destruct i; [|done]. by destruct Hnext.
Qed.

(** [C14] A payment is only retried after an answer that the code takes for a failure:
    when the rules of the flow retry no answer without an error code and message, each
    call but the last one was answered with an error of the connector, errors of its
    server and timeouts included, or with a status that says that the authentication,
    the authorization or the payment failed. *)
Theorem only_failures_retried connectors s r s' :
  errors_only → rs_calls s = [] → call_retryable_connectors cfg connectors s = (r, s') →
  all_but_last call_failed (rs_calls s').
Proof.
  intros Hq Hs Hrun. apply call_retryable_calls in Hrun as (_ & more & -> & _ & Hmore). rewrite Hs. simpl.
  destruct more as [|c more]; [by intros i c|]. destruct Hmore as [_ Hmore].
  destruct more as [|c' more]; [intros [|i] c'; [by intros _ [? ?]|done]|].
  destruct Hmore as (rd & Hc & Hfail & [Hf|[c1 [= -> ->]]]); [by eapply follows_failed|].
  intros [|[|i]] c''; simpl; [intros [= <-] _; by exists rd|by intros _ [? ?]|done].
Qed.

End retry.
