(* ===== verification/AutoRetryAttempts.v ===== *)
(** * Automatic retries: the attempts

    Each call of a connector has an attempt of its own, which records its answer
    once the payment is retried. *)

From S2P Require Import Prelude Country Currency PaymentEnums EuclidEnums EuclidTypes PaymentStatus.
From S2P Require Import RoutingInput Routing DecideConnector Gsm AutoRetry AutoRetryTheorems.
From stdpp Require Import gmap strings pretty.

Lemma get_attempt_id_inj pid k k' : get_attempt_id pid k = get_attempt_id pid k' → k = k'.
Proof.
  unfold get_attempt_id. intros Heq. apply (inj (String.append pid)), (inj (String.append "_")) in Heq.
  by apply (inj pretty).
Qed.

Lemma wrap_i16_id z : (- 2 ^ 15 ≤ z < 2 ^ 15)%Z → wrap_i16 z = z.
Proof. unfold wrap_i16. intros Hz. rewrite Z.mod_small; lia. Qed.

(** The attempt records the answer. *)
Definition recorded (rd : RouterData) (a : Attempt) : Prop :=
  match rd_response rd with
  | TransactionResponse resource_id =>
      at_status a = rd_status rd ∧ ∀ id, resource_id = Some id → at_transaction_id a = Some id
  | OtherResponse => False
  | ResponseErr e =>
      at_status a = AttemptStatus_Failure ∧ at_error_code a = Some (err_code e) ∧
      at_error_message a = Some (err_message e) ∧ at_amount_capturable a = 0%Z
  end.

Definition call_recorded (rows : gmap string Attempt) (c : Call) : Prop :=
  ∃ rd a, call_result c = Ok rd ∧ rows !! call_attempt c = Some a ∧ recorded rd a.

(** The attempts of the payment [pid] have numbers up to the count of the intent,
    and the last one is the active one. *)
Record numbered (pid : string) (s : RetryState) : Prop := {
  num_payment : at_payment_id (rs_active s) = pid;
  num_active : at_id (rs_active s) = get_attempt_id pid (rs_count s);
  num_intent : rs_active_id s = at_id (rs_active s);
  num_row : rs_rows s !! at_id (rs_active s) = Some (rs_active s);
  num_rows : ∀ id a, rs_rows s !! id = Some a → ∃ k, (k ≤ rs_count s)%Z ∧ id = get_attempt_id pid k;
}.

(** The calls since the count was [first]: each is for the attempt with the next
    number, and all but the last are recorded. *)
Record ledger (pid : string) (first : Z) (s : RetryState) : Prop := {
  led_numbered : numbered pid s;
  led_count : (rs_count s + 1 = first + Z.of_nat (length (rs_calls s)))%Z;
  led_attempts : ∀ i c, rs_calls s !! i = Some c → call_attempt c = get_attempt_id pid (first + Z.of_nat i)%Z;
  led_recorded : all_but_last (call_recorded (rs_rows s)) (rs_calls s);
}.

Section attempts.
Context {ActionType : Type} `{ConnectorServiceLaws} (cfg : RetryConfig (ActionType := ActionType)) (pid : string).

(** Connectors answer a payment with a transaction or an error. *)
Definition expected : Prop :=
  ∀ n c pan net a rd, (connector_service n c pan net a).1 = Ok rd → rd_response rd ≠ OtherResponse.

Lemma insert_active_rows s (a : Attempt) :
  numbered pid s → at_id a = at_id (rs_active s) → at_payment_id a = at_payment_id (rs_active s) →
  ∀ calls, numbered pid (mkRetryState (<[at_id a := a]> (rs_rows s)) a (rs_count s) (rs_active_id s) calls).
Proof.
  intros [Hp Ha Hi Hr Hrs] Hid Hpid calls. constructor; cbn.
  - congruence.
  - congruence.
  - congruence.
  - by rewrite lookup_insert_eq.
  - intros id a'. rewrite lookup_insert_Some. intros [[<- <-]|[_ Hl]]; [|by eapply Hrs].
    exists (rs_count s). split; [lia|congruence].
Qed.

(** The first call. *)
Lemma first_call_ledger c pan net s r s' :
  numbered pid s → rs_calls s = [] → call_connector_service c pan net s = (r, s') →
  ledger pid (rs_count s) s' ∧ rs_calls s' = [mkCall (at_id (rs_active s)) c r] ∧ rs_count s' = rs_count s.
Proof.
  intros Hn Hc. unfold call_connector_service. rewrite Hc.
  destruct (connector_service _ c pan net (rs_active s)) as [r1 a] eqn:Hs. intros [= <- <-].
  pose proof (service_keeps_id (length (@nil Call)) c pan net (rs_active s)) as Hid.
  pose proof (service_keeps_payment (length (@nil Call)) c pan net (rs_active s)) as Hpid.
  rewrite Hs in Hid, Hpid. simpl in Hid, Hpid.
  split; [|done]. constructor; cbn.
  - by apply insert_active_rows.
  - lia.
  - intros [|i] c'; [|done]. intros [= <-]. cbn. rewrite (num_active _ _ Hn). f_equal. lia.
  - intros [|i] c'; [by intros _ [? ?]|done].
Qed.

(** The answer is recorded in the row of the active attempt and a new attempt is
    started. *)
Lemma modify_trackers_run connector rd su gsm s :
  numbered pid s → rd_response rd ≠ OtherResponse → (0 ≤ rs_count s < 2 ^ 15 - 1)%Z →
  ∃ a new, modify_trackers cfg connector rd su gsm s =
    (Ok tt, mkRetryState (<[at_id new := new]> (<[at_id (rs_active s) := a]> (rs_rows s))) new (rs_count s + 1)
       (at_id new) (rs_calls s)) ∧
    recorded rd a ∧ at_id new = get_attempt_id pid (rs_count s + 1) ∧ at_payment_id new = pid.
Proof.
  intros [Hp Ha Hi Hr Hrs] Hrd Hrange. unfold modify_trackers. rewrite wrap_i16_id by lia.
  set (new := make_new_auto_retry_payment_attempt _ _ _ _ _).
  assert (at_id new = get_attempt_id pid (rs_count s + 1)) as Hnew by (simpl; by rewrite Hp).
  assert (∀ a, <[at_id (rs_active s) := a]> (rs_rows s) !! at_id new = None) as Hfree.
  { intros a. apply eq_None_not_Some. intros [a' Hl]. rewrite lookup_insert_Some in Hl.
    assert (∃ k, (k ≤ rs_count s)%Z ∧ at_id new = get_attempt_id pid k) as (k & Hk & Hid).
    { destruct Hl as [[<- _]|[_ Hl]]; [exists (rs_count s); split; [lia|done]|by eapply Hrs]. }
    rewrite Hnew in Hid. apply get_attempt_id_inj in Hid. lia. }
  destruct (rd_response rd) as [resource_id| |e] eqn:Hresp; [|done|];
    unfold sr_bind, update_attempt; rewrite Hr; unfold insert_attempt; cbn [rs_rows rs_active rs_count rs_active_id rs_calls];
    rewrite Hfree; do 2 eexists; (split; [reflexivity|]); unfold recorded; rewrite Hresp; split_and!; try done.
  cbn. intros id ->. done.
Qed.

(** A retry. *)
Lemma do_retry_ledger first connector rd su pan net gsm s r s' :
  ledger pid first s → (∃ c, last (rs_calls s) = Some c ∧ call_result c = Ok rd) → rd_response rd ≠ OtherResponse →
  (0 ≤ rs_count s < 2 ^ 15 - 1)%Z → do_retry cfg connector rd su pan net gsm s = (r, s') →
  ledger pid first s' ∧ (∃ c, last (rs_calls s') = Some c ∧ call_result c = r) ∧ rs_count s' = (rs_count s + 1)%Z.
Proof.
  intros [Hn Hcount Hatt Hrec] (c0 & Hlast & Hc0) Hrd Hrange. unfold do_retry, sr_bind.
  destruct (modify_trackers_run (connector_data_name connector) rd su gsm s Hn Hrd Hrange)
    as (a & new & -> & Hreca & Hid & Hpid).
  set (s1 := mkRetryState _ _ _ _ _). unfold call_connector_service.
  destruct (connector_service (length (rs_calls s1)) connector pan net (rs_active s1)) as [r1 b] eqn:Hs. intros [= <- <-].
  pose proof (service_keeps_id (length (rs_calls s1)) connector pan net (rs_active s1)) as Hidb.
  pose proof (service_keeps_payment (length (rs_calls s1)) connector pan net (rs_active s1)) as Hpidb.
  rewrite Hs in Hidb, Hpidb. simpl in Hidb, Hpidb.
  assert (numbered pid s1) as Hn1.
  { constructor; cbn; [done|done|done|by rewrite lookup_insert_eq|].
    intros id a'. rewrite !lookup_insert_Some. intros [[<- _]|[_ [[<- _]|[_ Hl]]]].
    - eexists. split; [|exact Hid]. lia.
    - exists (rs_count s). split; [lia|apply (num_active _ _ Hn)].
    - destruct (num_rows _ _ Hn _ _ Hl) as (k & Hk & ->). exists k. split; [lia|done]. }
  split; [|split; [|done]].
  2: { cbn. rewrite last_snoc. eexists. done. }
  constructor.
  - exact (insert_active_rows s1 b Hn1 Hidb Hpidb _).
  - cbn. rewrite length_app. simpl. lia.
  - cbn. intros i c. rewrite lookup_snoc_Some. intros [[_ Hc]|[-> <-]]; [by apply Hatt|]. cbn. rewrite Hid. f_equal. lia.
  - cbn. rewrite Hidb.
    assert (∀ i c, rs_calls s !! i = Some c → call_attempt c ≠ at_id new) as Hne.
    { intros i c Hc. rewrite (Hatt i c Hc), Hid. intros Heq%get_attempt_id_inj. apply lookup_lt_Some in Hc. lia. }
    intros i c Hc [c' Hc']. rewrite lookup_snoc_Some in Hc. destruct Hc as [[_ Hc]|[-> _]].
    2: { apply lookup_lt_Some in Hc'. rewrite length_app in Hc'. simpl in Hc'. lia. }
    unfold call_recorded. rewrite !lookup_insert_ne by (symmetry; by eapply Hne).
    destruct (decide (S i = length (rs_calls s))) as [Hi|Hi].
    + rewrite last_lookup in Hlast. rewrite <- Hi in Hlast. simpl in Hlast. rewrite Hc in Hlast. injection Hlast as ->.
      exists rd, a. split_and!; [done| |done]. rewrite (Hatt i c0 Hc), (num_active _ _ Hn).
      assert ((first + Z.of_nat i)%Z = rs_count s) as -> by lia. by rewrite lookup_insert_eq.
    + destruct (Hrec i c Hc) as (rd' & a' & H1 & H2 & H3).
      { apply lookup_lt_is_Some. apply lookup_lt_Some in Hc. lia. }
      exists rd', a'. split_and!; [done| |done]. rewrite lookup_insert_ne; [done|].
      rewrite (Hatt i c Hc), (num_active _ _ Hn). intros Heq%get_attempt_id_inj. lia.
Qed.

Lemma do_retry_expected connector rd su pan net gsm s rd' s' :
  expected → do_retry cfg connector rd su pan net gsm s = (Ok rd', s') → rd_response rd' ≠ OtherResponse.
Proof.
  intros He. unfold do_retry, sr_bind. destruct (modify_trackers _ _ _ _ _ s) as [[[]|e] s1]; [|done].
  unfold call_connector_service. destruct (connector_service _ _ _ _ _) as [r1 a] eqn:Hs. intros [= -> <-].
  eapply He. by rewrite Hs.
Qed.

(** The last call had this answer. *)
Definition answered (s : RetryState) (rd : RouterData) : Prop :=
  ∃ c, last (rs_calls s) = Some c ∧ call_result c = Ok rd.

Lemma retry_loop_ledger first fuel : ∀ original retries initial_gsm connectors rd s r s',
  expected → ledger pid first s → answered s rd → rd_response rd ≠ OtherResponse →
  (0 ≤ rs_count s)%Z → (rs_count s + Z.of_nat (length connectors + spare initial_gsm) < 2 ^ 15)%Z →
  retry_loop cfg fuel original retries initial_gsm connectors rd s = (r, s') → ledger pid first s'.
Proof.
  induction fuel as [|fuel IH]; intros original retries initial_gsm connectors rd s r s' He Hl Ha Hrd H0c Hc;
    cbn [retry_loop]; [by intros [= <- <-]|].
  destruct (get_gsm_decision _); [|by intros [= <- <-]].
  destruct (get_retries cfg retries) as [n|]; [|by intros [= <- <-]].
  case_bool_decide; [by intros [= <- <-]|]. destruct connectors as [|c rest]; [by intros [= <- <-]|].
  set (pan := _ && _ && _). unfold sr_bind at 1.
  destruct (next_connector_run cfg original pan c rest s) as [(nx & -> & Hnx)|[e ->]]; [|by intros [= <- <-]].
  assert (length nx.2 < length (c :: rest) + spare initial_gsm) as Hlen.
  { destruct Hnx as [->|[Hpan ->]]; [simpl; lia|]. destruct initial_gsm; simpl; [lia|].
    unfold pan in Hpan. simpl in Hpan. by rewrite andb_false_r in Hpan. }
  unfold sr_bind at 1. destruct (do_retry cfg _ _ _ _ _ _ s) as [r1 s1] eqn:Hdo.
  pose proof Hdo as Hdo'. eapply do_retry_ledger in Hdo' as (Hl1 & Ha1 & Hc1); [|done..|simpl in *; lia].
  destruct r1 as [rd1|e]; [|by intros [= <- <-]].
  apply IH; [done|done|done|by eapply do_retry_expected|lia|simpl in *; lia].
Qed.

Lemma do_gsm_actions_ledger first connectors original rd s r s' :
  expected → ledger pid first s → answered s rd → rd_response rd ≠ OtherResponse →
  (0 ≤ rs_count s)%Z → (rs_count s + Z.of_nat (length connectors + 1) < 2 ^ 15)%Z →
  do_gsm_actions cfg connectors original rd s = (r, s') → ledger pid first s'.
Proof.
  intros He Hl Ha Hrd H0c Hc. unfold do_gsm_actions. set (step_up := _ && _ && _). destruct step_up.
  - unfold sr_bind. destruct (do_retry cfg _ _ _ _ _ _ s) as [r1 s1] eqn:Hdo.
    eapply do_retry_ledger in Hdo as (Hl1 & _); [|done..|lia]. destruct r1; by intros [= <- <-].
  - apply retry_loop_ledger; try done. destruct (get_gsm cfg rd _); simpl; lia.
Qed.

(** [C15] Take a payment whose stored attempts are numbered up to its count, of which
    none has been called yet, fewer than 2^15 attempts with those to come, and
    connectors that answer each call with a transaction or an error; on any other
    answer the next connector is called for the old attempt.  Each call of the payment
    has an attempt of its own, the next number of the payment, and all but the last
    are recorded: the row of the attempt has the
    status and the transaction of the answer, or has failed with the error of
    the answer.  The last attempt is the active one of the intent, whose count is
    increased by the number of retries, and the insertions of new attempts never
    conflict. *)
Theorem attempts_record_calls connectors s r s' :
  expected → numbered pid s → rs_calls s = [] → (0 ≤ rs_count s)%Z →
  (rs_count s + Z.of_nat (length connectors) < 2 ^ 15)%Z →
  call_retryable_connectors cfg connectors s = (r, s') →
  s' = s ∨ ledger pid (rs_count s) s'.
Proof.
  intros He Hn Hcalls H0c Hc. unfold call_retryable_connectors, sr_bind at 1, sr_lift.
  destruct (get_connector_data_with_routing_decision cfg connectors) as [[[c net] rest]|e] eqn:Hfirst;
    [|intros [= <- <-]; by left].
  apply first_connector_rest in Hfirst. cbn [fst snd]. unfold sr_bind at 1.
  destruct (call_connector_service c false net s) as [r1 s1] eqn:Hcall. pose proof Hcall as Hcall'.
  apply first_call_ledger in Hcall' as (Hl & Hlog & Hcount); [|done|done].
  intros Hrun. right. destruct r1 as [rd|e]; [|by simplify_eq].
  destruct (config_should_call_gsm cfg && should_call_gsm rd); [|by injection Hrun as <- <-].
  eapply do_gsm_actions_ledger; [done|done| | | | |exact Hrun]; [|.. |lia|lia].
  - eexists. by rewrite Hlog.
  - unfold call_connector_service in Hcall. destruct (connector_service _ _ _ _ _) as [r2 a] eqn:Hs.
    injection Hcall as -> _. eapply He. by rewrite Hs.
Qed.

End attempts.
