(* ===== verification/AutoRetryExample.v ===== *)
(** * Automatic retries: examples

    A payment that Stripe declines and Adyen charges, and the same payment with a
    rule that retries answers without an error code. *)

From S2P Require Import Prelude Country Currency PaymentEnums EuclidEnums EuclidTypes PaymentStatus.
From S2P Require Import RoutingInput Routing DecideConnector Gsm AutoRetry AutoRetryTheorems AutoRetryAttempts.
From stdpp Require Import gmap strings pretty.

Definition declined : ErrorResponse := mkErrorResponse "card_declined" "Declined" None None None.

Definition answer (connector : string) : RouterData :=
  if bool_decide (connector = "stripe"%string)
  then mkRouterData connector AttemptStatus_Failure AuthenticationType_NoThreeDs (ResponseErr declined)
  else mkRouterData connector AttemptStatus_Charged AuthenticationType_NoThreeDs
         (TransactionResponse (Some ("txn_" +:+ connector)%string)).

#[local] Instance example_service : ConnectorService := λ _ c _ _ a, (Ok (answer (connector_data_name c)), a).

#[local] Instance example_service_laws : ConnectorServiceLaws.
Proof. by split. Qed.

Lemma example_expected : expected.
Proof. intros n c pan net a rd [= <-]. unfold answer. by case_bool_decide. Qed.

(** A rule to retry the error of a connector. *)
Definition retry_rule (connector code message : string) : GsmKey * GsmRow :=
  let k := mkGsmKey connector "Payment" "Authorize" code message in
  (k, gsm_to_row (mkGatewayStatusMap k "failure" None None None None
    (GsmFeatureData_Retry (mkRetryFeatureData false false false GsmDecision_Retry)) GsmFeature_Retry None None None)).

Definition config (rules : list (GsmKey * GsmRow)) : RetryConfig (ActionType := unit) := {|
  gsm_table := list_to_map rules;
  flow_name := "Authorize";
  merchant_max_auto_retries := None;
  profile_max_auto_retries := Some 5%Z;
  merchant_config_gsm := false;
  is_auto_retries_enabled := true;
  is_clear_pan_retries_enabled := false;
  step_up_connectors := None;
  is_debit_routing := false;
  is_network_token := false;
  intent_off_session := None;
  payment_method_info := false;
  mandate_reference := λ _, Ok tt;
  intent_future_usage := None;
  attempt_card_network := Some CardNetwork_Visa;
|}.

Definition declines_retried : RetryConfig := config [retry_rule "stripe" "card_declined" "Declined"].

Definition first_attempt : Attempt := {|
  at_id := "pay_1"; at_payment_id := "pay"; at_connector := Some "stripe"%string; at_mca := Some "mca_1"%string;
  at_status := AttemptStatus_Started;
  at_net_amount := {| order_amount := 100; shipping_cost := None; order_tax_amount := None; net_surcharge_amount := None;
    tax_on_surcharge := None; installment_interest := None; offer_amount := None |};
  at_amount_capturable := 100; at_auth_type := Some AuthenticationType_NoThreeDs;
  at_error_code := None; at_error_message := None; at_error_reason := None;
  at_unified_code := None; at_unified_message := None; at_transaction_id := None;
  at_future_usage_applied := None; at_retry_type := None;
|}.

Definition start : RetryState := mkRetryState {["pay_1"%string := first_attempt]} first_attempt 1 "pay_1" [].

Definition choices (names : list string) : list (ConnectorRoutingData (ActionType := unit)) :=
  (λ n, routing_data_of {| connector_data_name := n; connector_data_mca := None |}) <$> names.

Definition pay (cfg : RetryConfig) (names : list string) : result RouterError (option RouterData) * RetryState :=
  call_retryable_connectors cfg (choices names) start.

(** What was called, and with which status the connector answered. *)
Definition statuses (s : RetryState) : list (string * option AttemptStatus) :=
  (λ c, (connector_data_name (call_connector c),
         match call_result c with Ok rd => Some (rd_status rd) | Err _ => None end)) <$> rs_calls s.

Lemma start_numbered : numbered "pay" start.
Proof.
  split; [done..|]. cbn. intros id a. rewrite lookup_singleton_Some. intros [<- _]. exists 1%Z. split; [lia|done].
Qed.

Lemma declines_retried_errors_only : errors_only declines_retried.
Proof.
  intros connector. unfold perform_gsm_lookup, find_gsm_rule, declines_retried, config. cbn [gsm_table list_to_map retry_rule foldr].
  rewrite lookup_insert_ne; [by rewrite lookup_empty|]. intros [=].
Qed.

Lemma pay_statuses :
  statuses (pay declines_retried ["stripe"; "adyen"; "checkout"]%string).2 =
    [("stripe"%string, Some AttemptStatus_Failure); ("adyen"%string, Some AttemptStatus_Charged)].
Proof. vm_compute. reflexivity. Qed.

Lemma only_failures_retried_witness :
  all_but_last call_failed (rs_calls (pay declines_retried ["stripe"; "adyen"; "checkout"]%string).2).
Proof.
  apply (only_failures_retried declines_retried (choices ["stripe"; "adyen"; "checkout"]%string) start
    (pay declines_retried ["stripe"; "adyen"; "checkout"]%string).1).
  - exact declines_retried_errors_only.
  - reflexivity.
  - unfold pay. apply surjective_pairing.
Defined.

Lemma attempts_record_calls_witness :
  ledger "pay" 1 (pay declines_retried ["stripe"; "adyen"; "checkout"]%string).2.
Proof.
  destruct (attempts_record_calls declines_retried "pay" (choices ["stripe"; "adyen"; "checkout"]%string) start
    (pay declines_retried ["stripe"; "adyen"; "checkout"]%string).1 (pay declines_retried ["stripe"; "adyen"; "checkout"]%string).2)
    as [Hs|Hl].
  - exact example_expected.
  - exact start_numbered.
  - reflexivity.
  - simpl. lia.
  - simpl. lia.
  - apply surjective_pairing.
  - exfalso. pose proof pay_statuses as Hp. rewrite Hs in Hp. discriminate Hp.
  - exact Hl.
Defined.

(** The loop looks at the rule of an answer, not at whether the payment failed: a
    rule for answers without an error code, which is what a declined payment
    without an error has, retries a payment that Adyen has charged. *)
Theorem success_retried :
  statuses (pay (config [retry_rule "stripe" "card_declined" "Declined"; retry_rule "adyen" "" ""])
    ["stripe"; "adyen"; "checkout"]%string).2 =
    [("stripe"%string, Some AttemptStatus_Failure); ("adyen"%string, Some AttemptStatus_Charged);
     ("checkout"%string, Some AttemptStatus_Charged)].
Proof. vm_compute. reflexivity. Qed.
