(* ===== verification/PaymentRows.v ===== *)
(** * Payments: intents, attempts and their updates

    The rows that the payment operations of version 1 of the API read and
    change: the intent ([diesel_models/src/payment_intent.rs]), its attempts
    ([diesel_models/src/payment_attempt.rs]) and the records of incremental
    authorizations ([diesel_models/src/authorization.rs]).  Of each row the
    columns are modelled that an operation of [PaymentFlows] decides on or
    changes; an update is a change set in which [None] keeps a column.  The store
    holds the rows of one payment, without the key-value mode; its refunds are the
    rows of [Refunds]. *)

From S2P Require Import Prelude Currency PaymentEnums PaymentStatus.
From S2P Require Import Disputes Refunds.
From S2P Require Import Captures.
From stdpp Require Import gmap strings pretty.

(** ** Errors *)

(** The [ApiErrorResponse]s of the operations: those shared with captures, the
    failed preconditions and integrity checks, and a call of a connector that
    returns no answer. *)
Inductive PaymentError :=
| ApiErrorResponse (e : ApiError)
| Precondition (message : string)
| IntegrityCheckFailed (reason : string)
| DuplicatePayment
| GenericDuplicateError (message : string)
| ConnectorCallFailed.

(** ** Enumerations *)

Inductive PostCaptureVoidStatus : Set :=
| PostCaptureVoidStatus_Succeeded | PostCaptureVoidStatus_Pending | PostCaptureVoidStatus_Failed.

Inductive FraudCheckStatus : Set :=
| FraudCheckStatus_Fraud | FraudCheckStatus_ManualReview | FraudCheckStatus_Pending | FraudCheckStatus_Legit
| FraudCheckStatus_TransactionFailure.

Inductive AuthorizationStatus : Set :=
| AuthorizationStatus_Success | AuthorizationStatus_Failure | AuthorizationStatus_Processing
| AuthorizationStatus_Unresolved.

Inductive RequestIncrementalAuthorization : Set :=
| RequestIncrementalAuthorization_True | RequestIncrementalAuthorization_False
| RequestIncrementalAuthorization_Default.

#[export] Instance PostCaptureVoidStatus_eq_dec : EqDecision PostCaptureVoidStatus.
Proof. solve_decision. Defined.
#[export] Instance FraudCheckStatus_eq_dec : EqDecision FraudCheckStatus.
Proof. solve_decision. Defined.
#[export] Instance AuthorizationStatus_eq_dec : EqDecision AuthorizationStatus.
Proof. solve_decision. Defined.
#[export] Instance RequestIncrementalAuthorization_eq_dec : EqDecision RequestIncrementalAuthorization.
Proof. solve_decision. Defined.

(** ** Rows *)

Record PaymentIntent := mkPaymentIntent {
  pin_status : IntentStatus;
  pin_amount : Z;
  pin_amount_captured : option Z;
  (** Times are nanoseconds. *)
  pin_created_at : Z;
  pin_session_expiry : option Z;
  pin_attempt_count : Z;
  pin_active_attempt : string;
  pin_incremental_authorization_allowed : option bool;
  pin_request_incremental_authorization : option RequestIncrementalAuthorization;
  pin_authorization_count : option Z;
  pin_enable_partial_authorization : option bool;
  pin_enable_overcapture : option bool;
  (** The status of [state_metadata.post_capture_void]. *)
  pin_post_capture_void : option PostCaptureVoidStatus;
}.

Record PaymentAttempt := mkPaymentAttempt {
  pat_id : string;
  pat_payment_id : string;
  pat_status : AttemptStatus;
  pat_net_amount : NetAmount;
  pat_amount_to_capture : option Z;
  pat_amount_capturable : Z;
  pat_authorized_amount : option Z;
  pat_capture_method : option CaptureMethod;
  pat_is_overcapture_enabled : option bool;
  pat_request_extended_authorization : option bool;
  pat_transaction_id : option string;
  pat_authentication_data : option string;
  pat_cancellation_reason : option string;
  pat_error_code : option string;
  pat_error_message : option string;
  pat_error_reason : option string;
}.

Record Authorization := mkAuthorization {
  auth_id : string;
  auth_amount : Z;
  auth_status : AuthorizationStatus;
  auth_error_code : option string;
  auth_error_message : option string;
  auth_connector_authorization_id : option string;
  auth_previously_authorized_amount : Z;
}.

Record PaymentStore := mkPaymentStore {
  ps_intent : PaymentIntent;
  ps_attempts : gmap string PaymentAttempt;
  ps_authorizations : list Authorization;
  ps_refunds : list Refund;
}.

Definition set_intent (i : PaymentIntent) (s : PaymentStore) : PaymentStore :=
  mkPaymentStore i (ps_attempts s) (ps_authorizations s) (ps_refunds s).
Definition set_attempts (m : gmap string PaymentAttempt) (s : PaymentStore) : PaymentStore :=
  mkPaymentStore (ps_intent s) m (ps_authorizations s) (ps_refunds s).
Definition set_authorizations (l : list Authorization) (s : PaymentStore) : PaymentStore :=
  mkPaymentStore (ps_intent s) (ps_attempts s) l (ps_refunds s).

Abbreviation payment A := (sr PaymentStore PaymentError A) (only parsing).

Definition api {A} (r : result ApiError A) : payment A := sr_lift (map_err ApiErrorResponse r).

(** [PaymentAttempt::get_total_amount]. *)
Definition attempt_total (a : PaymentAttempt) : result ApiError Z := get_total_amount (pat_net_amount a).

(** [NetAmount::get_additional_amount]. *)
Definition get_additional_amount (n : NetAmount) : result ApiError Z :=
  total ← get_total_amount n;
  minor_sub total (order_amount n).

(** ** Updates of an attempt *)

Inductive PaymentAttemptUpdate :=
| ConfirmUpdate (status : AttemptStatus) (capture_method : option CaptureMethod) (net_amount : NetAmount)
    (installment_interest : option (option Z)) (applied_offer : option Z)
    (error_code error_message : option (option string))
| VoidUpdate (status : AttemptStatus) (cancellation_reason : option string)
| RejectUpdate (status : AttemptStatus) (error_code error_message : option (option string))
| CaptureUpdate (amount_to_capture : option Z)
| ResponseUpdate (status : AttemptStatus) (connector_transaction_id : option string)
    (amount_capturable : option Z) (authentication_data : option string)
    (error_status : option (option string)) (is_overcapture_enabled : option bool)
    (authorized_amount : option Z)
| ErrorUpdate (status : AttemptStatus) (error_code error_message error_reason : option (option string))
    (amount_capturable : option Z) (connector_transaction_id : option string)
| UnresolvedResponseUpdate (status : AttemptStatus) (connector_transaction_id : option string)
    (error_code error_message error_reason : option (option string))
| PreprocessingUpdate (status : AttemptStatus) (connector_transaction_id : option string)
| StatusUpdate (status : AttemptStatus)
| IncrementalAuthorizationAmountUpdate (net_amount : NetAmount) (amount_capturable : Z).

(** [PaymentAttemptUpdateInternal]: the columns to set.  The interest is that of
    the installment data, the offer that of the applied offer. *)
Record PaymentAttemptUpdateInternal := mkAttemptUpdate {
  pu_status : option AttemptStatus;
  pu_amount : option Z;
  pu_shipping_cost : option Z;
  pu_order_tax_amount : option Z;
  pu_surcharge_amount : option Z;
  pu_tax_amount : option Z;
  pu_installment_interest : option (option Z);
  pu_offer_amount : option Z;
  pu_amount_to_capture : option Z;
  pu_amount_capturable : option Z;
  pu_authorized_amount : option Z;
  pu_capture_method : option CaptureMethod;
  pu_is_overcapture_enabled : option bool;
  pu_transaction_id : option string;
  pu_authentication_data : option string;
  pu_cancellation_reason : option string;
  pu_error_code : option (option string);
  pu_error_message : option (option string);
  pu_error_reason : option (option string);
}.

(** The change set of an update that sets no amount but what can be captured. *)
Definition answer_changes (status : option AttemptStatus) (capturable authorized : option Z)
    (overcapture : option bool) (transaction_id authentication_data : option string)
    (error_code error_message error_reason : option (option string)) : PaymentAttemptUpdateInternal :=
  mkAttemptUpdate status None None None None None None None None capturable authorized None overcapture
    transaction_id authentication_data None error_code error_message error_reason.

Definition update_internal (u : PaymentAttemptUpdate) : PaymentAttemptUpdateInternal :=
  match u with
  | ConfirmUpdate status capture_method n interest offer code message =>
      mkAttemptUpdate (Some status) (Some (order_amount n)) (shipping_cost n) (order_tax_amount n)
        (surcharge_amount n) (tax_on_surcharge n) interest offer None None None capture_method None None None
        None code message None
  | VoidUpdate status reason =>
      mkAttemptUpdate (Some status) None None None None None None None None None None None None None None
        reason None None None
  | RejectUpdate status code message =>
      answer_changes (Some status) None None None None None code message None
  | CaptureUpdate amount =>
      mkAttemptUpdate None None None None None None None None amount None None None None None None
        None None None None
  | ResponseUpdate status transaction_id capturable authentication_data error_status overcapture authorized =>
      answer_changes (Some status) capturable authorized overcapture transaction_id authentication_data
        error_status error_status error_status
  | ErrorUpdate status code message reason capturable transaction_id =>
      answer_changes (Some status) capturable None None transaction_id None code message reason
  | UnresolvedResponseUpdate status transaction_id code message reason =>
      answer_changes (Some status) None None None transaction_id None code message reason
  | PreprocessingUpdate status transaction_id =>
      answer_changes (Some status) None None None transaction_id None None None None
  | StatusUpdate status => answer_changes (Some status) None None None None None None None None
  | IncrementalAuthorizationAmountUpdate n capturable =>
      mkAttemptUpdate None (Some (order_amount n)) None None None None None None None (Some capturable)
        None None None None None None None None None
  end.

(** The net amount of the row, from its columns. *)
Definition updated_net_amount (u : PaymentAttemptUpdateInternal) (n : NetAmount) : NetAmount := {|
  order_amount := default (order_amount n) (pu_amount u);
  shipping_cost := or_keep (pu_shipping_cost u) (shipping_cost n);
  order_tax_amount := or_keep (pu_order_tax_amount u) (order_tax_amount n);
  surcharge_amount := or_keep (pu_surcharge_amount u) (surcharge_amount n);
  tax_on_surcharge := or_keep (pu_tax_amount u) (tax_on_surcharge n);
  installment_interest := default (installment_interest n) (pu_installment_interest u);
  offer_amount := or_keep (pu_offer_amount u) (offer_amount n);
|}.

(** [apply_changeset] of the attempt. *)
Definition apply_attempt_changeset (u : PaymentAttemptUpdateInternal) (a : PaymentAttempt) : PaymentAttempt := {|
  pat_id := pat_id a;
  pat_payment_id := pat_payment_id a;
  pat_status := default (pat_status a) (pu_status u);
  pat_net_amount := updated_net_amount u (pat_net_amount a);
  pat_amount_to_capture := or_keep (pu_amount_to_capture u) (pat_amount_to_capture a);
  pat_amount_capturable := default (pat_amount_capturable a) (pu_amount_capturable u);
  pat_authorized_amount := or_keep (pu_authorized_amount u) (pat_authorized_amount a);
  pat_capture_method := or_keep (pu_capture_method u) (pat_capture_method a);
  pat_is_overcapture_enabled := or_keep (pu_is_overcapture_enabled u) (pat_is_overcapture_enabled a);
  pat_request_extended_authorization := pat_request_extended_authorization a;
  pat_transaction_id := or_keep (pu_transaction_id u) (pat_transaction_id a);
  pat_authentication_data := or_keep (pu_authentication_data u) (pat_authentication_data a);
  pat_cancellation_reason := or_keep (pu_cancellation_reason u) (pat_cancellation_reason a);
  pat_error_code := default (pat_error_code a) (pu_error_code u);
  pat_error_message := default (pat_error_message a) (pu_error_message u);
  pat_error_reason := default (pat_error_reason a) (pu_error_reason u);
|}.

Definition update_attempt_row (u : PaymentAttemptUpdate) : PaymentAttempt → PaymentAttempt :=
  apply_attempt_changeset (update_internal u).

(** ** Updates of an intent *)

Inductive PaymentIntentUpdate :=
| Update (status : IntentStatus) (amount : Z)
| PGStatusUpdate (status : IntentStatus) (incremental_authorization_allowed : option bool)
| IntentResponseUpdate (status : IntentStatus) (amount_captured : option Z)
    (incremental_authorization_allowed : option bool)
| StateMetadataUpdate (post_capture_void : PostCaptureVoidStatus)
| StatusAndAttemptUpdate (status : IntentStatus) (active_attempt_id : string) (attempt_count : Z)
| IncrementalAmountUpdate (amount : Z)
| AuthorizationCountUpdate (authorization_count : Z)
| ApproveUpdate (status : IntentStatus)
| IntentRejectUpdate (status : IntentStatus)
| CompleteAuthorizeUpdate.

(** [PaymentIntentUpdateInternal]. *)
Record PaymentIntentUpdateInternal := mkIntentUpdate {
  iu_status : option IntentStatus;
  iu_amount : option Z;
  iu_amount_captured : option Z;
  iu_incremental_authorization_allowed : option bool;
  iu_post_capture_void : option PostCaptureVoidStatus;
  iu_active_attempt : option string;
  iu_attempt_count : option Z;
  iu_authorization_count : option Z;
}.

Definition intent_update_internal (u : PaymentIntentUpdate) : PaymentIntentUpdateInternal :=
  match u with
  | Update status amount => mkIntentUpdate (Some status) (Some amount) None None None None None None
  | PGStatusUpdate status allowed => mkIntentUpdate (Some status) None None allowed None None None None
  | IntentResponseUpdate status captured allowed =>
      mkIntentUpdate (Some status) None captured allowed None None None None
  | StateMetadataUpdate void => mkIntentUpdate None None None None (Some void) None None None
  | StatusAndAttemptUpdate status id count =>
      mkIntentUpdate (Some status) None None None None (Some id) (Some count) None
  | IncrementalAmountUpdate amount => mkIntentUpdate None (Some amount) None None None None None None
  | AuthorizationCountUpdate count => mkIntentUpdate None None None None None None None (Some count)
  | ApproveUpdate status | IntentRejectUpdate status =>
      mkIntentUpdate (Some status) None None None None None None None
  | CompleteAuthorizeUpdate => mkIntentUpdate None None None None None None None None
  end.

(** The columns of the change set replace those of the row. *)
Definition apply_intent_changeset (u : PaymentIntentUpdateInternal) (i : PaymentIntent) : PaymentIntent := {|
  pin_status := default (pin_status i) (iu_status u);
  pin_amount := default (pin_amount i) (iu_amount u);
  pin_amount_captured := or_keep (iu_amount_captured u) (pin_amount_captured i);
  pin_created_at := pin_created_at i;
  pin_session_expiry := pin_session_expiry i;
  pin_attempt_count := default (pin_attempt_count i) (iu_attempt_count u);
  pin_active_attempt := default (pin_active_attempt i) (iu_active_attempt u);
  pin_incremental_authorization_allowed :=
    or_keep (iu_incremental_authorization_allowed u) (pin_incremental_authorization_allowed i);
  pin_request_incremental_authorization := pin_request_incremental_authorization i;
  pin_authorization_count := or_keep (iu_authorization_count u) (pin_authorization_count i);
  pin_enable_partial_authorization := pin_enable_partial_authorization i;
  pin_enable_overcapture := pin_enable_overcapture i;
  pin_post_capture_void := or_keep (iu_post_capture_void u) (pin_post_capture_void i);
|}.

Definition update_intent_row (u : PaymentIntentUpdate) : PaymentIntent → PaymentIntent :=
  apply_intent_changeset (intent_update_internal u).

(** ** The store *)

Definition not_found : PaymentError := ApiErrorResponse PaymentNotFound.
Definition internal_error : PaymentError := ApiErrorResponse InternalServerError.

(** [update_payment_intent]: the row after the update. *)
Definition update_payment_intent (u : PaymentIntentUpdate) : payment PaymentIntent := λ s,
  let i := update_intent_row u (ps_intent s) in
  (Ok i, set_intent i s).

(** [find_payment_attempt_by_payment_id_processor_merchant_id_attempt_id]. *)
Definition find_attempt (id : string) : payment PaymentAttempt := λ s,
  (ok_or not_found (ps_attempts s !! id), s).

(** [update_payment_attempt_with_attempt_id]: the stored row with the columns of
    the update. *)
Definition update_payment_attempt_with_attempt_id (this : PaymentAttempt) (u : PaymentAttemptUpdate) :
    payment PaymentAttempt := λ s,
  match ps_attempts s !! pat_id this with
  | Some row =>
      let a := update_attempt_row u row in
      (Ok a, set_attempts (<[pat_id this := a]> (ps_attempts s)) s)
  | None => (Err not_found, s)
  end.

(** [insert_payment_attempt]. *)
Definition insert_payment_attempt (a : PaymentAttempt) : payment PaymentAttempt := λ s,
  match ps_attempts s !! pat_id a with
  | Some _ => (Err DuplicatePayment, s)
  | None => (Ok a, set_attempts (<[pat_id a := a]> (ps_attempts s)) s)
  end.
