(* ===== verification/PaymentGates.v ===== *)
(** * Payments: which operations a payment admits

    The statuses in which each operation of [router/src/core/payments/operations]
    may start, the decision whether it calls the connector
    ([should_call_connector] of [core/payments.rs]), and manual retries: whether a
    failed payment may be confirmed again with a new attempt
    ([core/payments/helpers.rs]). *)

From S2P Require Import Prelude Currency PaymentEnums PaymentStatus.
From S2P Require Import Captures PaymentRows.
From stdpp Require Import gmap strings pretty.

#[local] Open Scope sr_scope.

(** ** Statuses *)

Definition status_message (action : string) (st : IntentStatus) : string :=
  ("You cannot " +:+ action +:+ " this payment because it has status " +:+ to_string st)%string.

Definition validate_payment_status_against_allowed_statuses (st : IntentStatus) (allowed : list IntentStatus)
    (action : string) : result PaymentError unit :=
  if decide (st ∈ allowed) then Ok tt else Err (Precondition (status_message action st)).

Definition validate_payment_status_against_not_allowed_statuses (st : IntentStatus)
    (not_allowed : list IntentStatus) (action : string) : result PaymentError unit :=
  if decide (st ∈ not_allowed) then Err (Precondition (status_message action st)) else Ok tt.

(** The operations by their [Debug] names. *)
Inductive OperationName : Set :=
| PaymentConfirm | PaymentExternalVaultProxyConfirm | PaymentStart | PaymentStatusOp | PaymentCancel
| PaymentCancelPostCapture | PaymentCancelPostCaptureSync | PaymentCapture | CompleteAuthorize
| PaymentApprove | PaymentReject | PaymentSession | PaymentSessionUpdate | PaymentPostSessionTokens
| PaymentUpdateMetadata | PaymentUpdate | PaymentExtendAuthorization | PaymentIncrementalAuthorization
| PaymentRecurrence | OtherOperation.

(** [PaymentConfirm::get_trackers]; a confirmation from a webhook or an external
    authenticator may arrive while the customer is asked to act. *)
Definition validate_confirm_status (from_webhook_or_authenticator : bool) (st : IntentStatus) :
    result PaymentError unit :=
  validate_payment_status_against_not_allowed_statuses st
    (if from_webhook_or_authenticator
     then [IntentStatus_Cancelled; IntentStatus_Succeeded; IntentStatus_Processing;
           IntentStatus_RequiresCapture; IntentStatus_RequiresMerchantAction; IntentStatus_Review]
     else [IntentStatus_Cancelled; IntentStatus_Succeeded; IntentStatus_Processing;
           IntentStatus_RequiresCapture; IntentStatus_RequiresMerchantAction;
           IntentStatus_RequiresCustomerAction; IntentStatus_Review])
    "confirm".

(** [PaymentCancel::get_trackers]. *)
Definition validate_cancel_status (st : IntentStatus) : result PaymentError unit :=
  validate_payment_status_against_not_allowed_statuses st
    [IntentStatus_Failed; IntentStatus_Succeeded; IntentStatus_Cancelled; IntentStatus_Processing;
     IntentStatus_RequiresMerchantAction; IntentStatus_Review]
    "cancel".

(** [CompleteAuthorize::get_trackers]. *)
Definition validate_complete_authorize_status (st : IntentStatus) : result PaymentError unit :=
  validate_payment_status_against_not_allowed_statuses st
    [IntentStatus_Failed; IntentStatus_Succeeded; IntentStatus_Review]
    "confirm".

(** [PaymentCancelPostCapture::get_trackers]. *)
Definition validate_cancel_post_capture_status (st : IntentStatus) : result PaymentError unit :=
  validate_payment_status_against_allowed_statuses st
    [IntentStatus_Succeeded; IntentStatus_PartiallyCaptured]
    "cancel_post_capture".

(** [PaymentCancelPostCaptureSync::get_trackers]. *)
Definition validate_cancel_post_capture_sync_status (st : IntentStatus) : result PaymentError unit :=
  validate_payment_status_against_allowed_statuses st
    [IntentStatus_Succeeded; IntentStatus_PartiallyCaptured; IntentStatus_PartiallyCapturedAndCapturable]
    "cancel_post_capture".

(** [PaymentExtendAuthorization::get_trackers]. *)
Definition validate_extend_authorization_status (st : IntentStatus) : result PaymentError unit :=
  validate_payment_status_against_allowed_statuses st
    [IntentStatus_RequiresCapture; IntentStatus_PartiallyAuthorizedAndRequiresCapture]
    "extend authorization".

(** [PaymentIncrementalAuthorization::get_trackers]. *)
Definition validate_incremental_authorization_status (st : IntentStatus) : result PaymentError unit :=
  validate_payment_status_against_allowed_statuses st [IntentStatus_RequiresCapture] "increment authorization".

(** [PaymentApprove::get_trackers]. *)
Definition validate_approve_status (st : IntentStatus) : result PaymentError unit :=
  validate_payment_status_against_not_allowed_statuses st
    [IntentStatus_Failed; IntentStatus_Succeeded; IntentStatus_Review]
    "approve".

(** [PaymentReject::get_trackers]. *)
Definition validate_reject_status (st : IntentStatus) : result PaymentError unit :=
  validate_payment_status_against_not_allowed_statuses st
    [IntentStatus_Cancelled; IntentStatus_Failed; IntentStatus_Succeeded; IntentStatus_Processing;
     IntentStatus_Review]
    "reject".

(** ** Calling the connector *)

(** What [should_call_connector] reads of the payment and of the call. *)
Record CallContext := mkCallContext {
  cc_status : IntentStatus;
  cc_capture_method : option CaptureMethod;
  cc_authentication_data : option string;
  cc_post_capture_void_pending : bool;
  cc_force_sync : option bool;
  cc_all_keys_required : option bool;
  (** The action handles a webhook of the event [PaymentIntentCaptureFailure]. *)
  cc_capture_failure_webhook : bool;
  cc_flow_name : string;
}.

Definition is_one_of (st : IntentStatus) (l : list IntentStatus) : bool := bool_decide (st ∈ l).

Definition should_call_connector (operation : OperationName) (c : CallContext) : bool :=
  let st := cc_status c in
  match operation with
  | PaymentConfirm | PaymentExternalVaultProxyConfirm => true
  | PaymentStart =>
      negb (is_one_of st [IntentStatus_Failed; IntentStatus_Succeeded]) &&
      bool_decide (cc_authentication_data c = None)
  | PaymentStatusOp =>
      let in_progress :=
        is_one_of st [IntentStatus_Processing; IntentStatus_RequiresCustomerAction;
                      IntentStatus_RequiresMerchantAction; IntentStatus_RequiresCapture;
                      IntentStatus_PartiallyCapturedAndCapturable] in
      let capture_failure := is_one_of st [IntentStatus_Succeeded] && cc_capture_failure_webhook c in
      default false (cc_all_keys_required c) ||
      (in_progress && default false (cc_force_sync c)) || capture_failure
  | PaymentCancel =>
      if String.eqb (cc_flow_name c) "Void"
      then is_one_of st [IntentStatus_RequiresCapture; IntentStatus_PartiallyCapturedAndCapturable]
      else if String.eqb (cc_flow_name c) "PreAuthorizeVoid"
      then is_one_of st [IntentStatus_RequiresCustomerAction]
      else false
  | PaymentCancelPostCapture =>
      is_one_of st [IntentStatus_Succeeded; IntentStatus_PartiallyCaptured;
                    IntentStatus_PartiallyCapturedAndCapturable]
  | PaymentCancelPostCaptureSync => cc_post_capture_void_pending c
  | PaymentCapture =>
      is_one_of st [IntentStatus_RequiresCapture; IntentStatus_PartiallyAuthorizedAndRequiresCapture;
                    IntentStatus_PartiallyCapturedAndCapturable] ||
      (is_one_of st [IntentStatus_Processing] &&
       bool_decide (cc_capture_method c = Some CaptureMethod_ManualMultiple))
  | CompleteAuthorize | PaymentApprove | PaymentReject | PaymentSession | PaymentSessionUpdate
  | PaymentPostSessionTokens | PaymentUpdateMetadata => true
  | PaymentUpdate | PaymentRecurrence => is_one_of st [IntentStatus_RequiresCustomerAction]
  | PaymentExtendAuthorization =>
      is_one_of st [IntentStatus_RequiresCapture; IntentStatus_PartiallyAuthorizedAndRequiresCapture]
  | PaymentIncrementalAuthorization => is_one_of st [IntentStatus_RequiresCapture]
  | OtherOperation => false
  end.

(** [check_force_psync_precondition]. *)
Definition check_force_psync_precondition (st : AttemptStatus) : bool :=
  match st with
  | AttemptStatus_Charged | AttemptStatus_AutoRefunded | AttemptStatus_Voided | AttemptStatus_CodInitiated
  | AttemptStatus_Started | AttemptStatus_Failure => false
  | _ => true
  end.

(** ** Manual retries *)

Definition whole_seconds (duration : Z) : Z := Z.quot duration (10 ^ 9).

Definition DEFAULT_SESSION_EXPIRY : Z := 15 * 60.
Definition DEFAULT_INTENT_FULFILLMENT_TIME : Z := 15 * 60.

Definition validate_manual_retry_cutoff (now created_at : Z) (session_expiry : option Z)
    (intent_fulfillment_time : option Z) (is_token_based_retry : bool) : bool :=
  let time_difference_from_creation := (now - created_at)%Z in
  let cutoff_limit :=
    if is_token_based_retry
    then default DEFAULT_INTENT_FULFILLMENT_TIME intent_fulfillment_time
    else match session_expiry with
         | Some expiry => Z.quot (whole_seconds (expiry - created_at)) 2
         | None => Z.quot DEFAULT_SESSION_EXPIRY 2
         end in
  (whole_seconds time_difference_from_creation <=? cutoff_limit)%Z.

Inductive AttemptType : Set := AttemptType_New | AttemptType_SameOld.

Definition get_attempt_type (now : Z) (i : PaymentIntent) (a : PaymentAttempt)
    (is_manual_retry_enabled : option bool) (intent_fulfillment_time : option Z)
    (is_token_based_retry : bool) (action : string) : result PaymentError AttemptType :=
  match pin_status i with
  | IntentStatus_Failed =>
      if decide (is_manual_retry_enabled = Some true) then
        if validate_manual_retry_cutoff now (pin_created_at i) (pin_session_expiry i) intent_fulfillment_time
             is_token_based_retry
        then match pat_status a with
             | AttemptStatus_Started | AttemptStatus_AuthenticationPending | AttemptStatus_AuthenticationSuccessful
             | AttemptStatus_Authorized | AttemptStatus_Charged | AttemptStatus_Authorizing | AttemptStatus_CodInitiated
             | AttemptStatus_VoidInitiated | AttemptStatus_CaptureInitiated | AttemptStatus_Unresolved
             | AttemptStatus_Pending | AttemptStatus_ConfirmationAwaited | AttemptStatus_PartialCharged
             | AttemptStatus_PartialChargedAndChargeable | AttemptStatus_Voided | AttemptStatus_VoidedPostCharge
             | AttemptStatus_AutoRefunded | AttemptStatus_PaymentMethodAwaited
             | AttemptStatus_DeviceDataCollectionPending | AttemptStatus_IntegrityFailure | AttemptStatus_Expired
             | AttemptStatus_PartiallyAuthorized | AttemptStatus_CaptureReview => Err internal_error
             | AttemptStatus_VoidFailed | AttemptStatus_RouterDeclined | AttemptStatus_CaptureFailed =>
                 Err (Precondition (status_message action (pin_status i) +:+
                                    ", and the previous attempt has the status " +:+
                                    to_string (pat_status a))%string)
             | AttemptStatus_AuthenticationFailed | AttemptStatus_AuthorizationFailed | AttemptStatus_Failure =>
                 Ok AttemptType_New
             end
        else Err (Precondition ("You cannot " +:+ action +:+
               " this payment using `manual_retry` because the allowed duration has expired")%string)
      else Err (Precondition (status_message action (pin_status i) +:+
                  ", you can enable `manual_retry` in profile to try this payment again")%string)
  | IntentStatus_Cancelled | IntentStatus_CancelledPostCapture | IntentStatus_RequiresCapture
  | IntentStatus_PartiallyCaptured | IntentStatus_PartiallyCapturedAndCapturable | IntentStatus_Processing
  | IntentStatus_PartiallyCapturedAndProcessing | IntentStatus_Succeeded | IntentStatus_Conflicted
  | IntentStatus_Expired | IntentStatus_PartiallyAuthorizedAndRequiresCapture | IntentStatus_Review =>
      Err (Precondition (status_message action (pin_status i)))
  | IntentStatus_RequiresCustomerAction | IntentStatus_RequiresMerchantAction
  | IntentStatus_RequiresPaymentMethod | IntentStatus_RequiresConfirmation => Ok AttemptType_SameOld
  end.

(** [is_manual_retry_allowed], what the answer of the API tells the merchant;
    [listed]: the merchant sends payment ids as reference ids. *)
Definition is_manual_retry_allowed (intent_status : IntentStatus) (attempt_status : AttemptStatus)
    (listed : bool) : option bool :=
  let is_payment_status_eligible_for_retry :=
    match intent_status with
    | IntentStatus_Failed =>
        match attempt_status with
        | AttemptStatus_Started | AttemptStatus_AuthenticationPending | AttemptStatus_AuthenticationSuccessful
        | AttemptStatus_Authorized | AttemptStatus_Charged | AttemptStatus_Authorizing | AttemptStatus_CodInitiated
        | AttemptStatus_VoidInitiated | AttemptStatus_CaptureInitiated | AttemptStatus_Unresolved
        | AttemptStatus_Pending | AttemptStatus_ConfirmationAwaited | AttemptStatus_PartialCharged
        | AttemptStatus_PartialChargedAndChargeable | AttemptStatus_Voided | AttemptStatus_VoidedPostCharge
        | AttemptStatus_AutoRefunded | AttemptStatus_PaymentMethodAwaited
        | AttemptStatus_DeviceDataCollectionPending | AttemptStatus_IntegrityFailure | AttemptStatus_Expired
        | AttemptStatus_PartiallyAuthorized | AttemptStatus_CaptureReview => None
        | AttemptStatus_VoidFailed | AttemptStatus_RouterDeclined | AttemptStatus_CaptureFailed => Some false
        | AttemptStatus_AuthenticationFailed | AttemptStatus_AuthorizationFailed | AttemptStatus_Failure => Some true
        end
    | IntentStatus_Cancelled | IntentStatus_CancelledPostCapture | IntentStatus_RequiresCapture
    | IntentStatus_PartiallyCaptured | IntentStatus_PartiallyCapturedAndCapturable | IntentStatus_Processing
    | IntentStatus_PartiallyCapturedAndProcessing | IntentStatus_Succeeded | IntentStatus_Conflicted
    | IntentStatus_Expired | IntentStatus_PartiallyAuthorizedAndRequiresCapture | IntentStatus_Review =>
        Some false
    | IntentStatus_RequiresCustomerAction | IntentStatus_RequiresMerchantAction
    | IntentStatus_RequiresPaymentMethod | IntentStatus_RequiresConfirmation => None
    end in
  (λ eligible, eligible && negb listed) <$> is_payment_status_eligible_for_retry.

(** [payment_attempt_status_fsm], [payment_intent_status_fsm]; of the payment
    method data only the presence matters. *)
Definition payment_attempt_status_fsm (has_payment_method_data : bool) (confirm : option bool) : AttemptStatus :=
  if has_payment_method_data
  then match confirm with Some true => AttemptStatus_PaymentMethodAwaited | _ => AttemptStatus_ConfirmationAwaited end
  else AttemptStatus_PaymentMethodAwaited.

Definition payment_intent_status_fsm (has_payment_method_data : bool) (confirm : option bool) : IntentStatus :=
  if has_payment_method_data
  then match confirm with Some true => IntentStatus_RequiresPaymentMethod | _ => IntentStatus_RequiresConfirmation end
  else IntentStatus_RequiresPaymentMethod.

(** [PaymentId::get_attempt_id]. *)
Definition attempt_id_of (payment_id : string) (attempt_count : Z) : string :=
  (payment_id +:+ "_" +:+ pretty attempt_count)%string.

(** The net amount of the row: the new attempt has no installment data and no
    applied offer, from which the stored interest and offer are read. *)
Definition without_offer (n : NetAmount) : NetAmount := {|
  order_amount := order_amount n;
  shipping_cost := shipping_cost n;
  order_tax_amount := order_tax_amount n;
  surcharge_amount := surcharge_amount n;
  tax_on_surcharge := tax_on_surcharge n;
  installment_interest := None;
  offer_amount := None;
|}.

(** The row of the new attempt as it is stored. *)
Definition make_new_manual_retry_payment_attempt (has_payment_method_data : bool) (old : PaymentAttempt)
    (new_attempt_count : Z) : result ApiError PaymentAttempt :=
  total ← attempt_total old;
  Ok {|
    pat_id := attempt_id_of (pat_payment_id old) new_attempt_count;
    pat_payment_id := pat_payment_id old;
    pat_status := payment_attempt_status_fsm has_payment_method_data (Some true);
    pat_net_amount := without_offer (pat_net_amount old);
    pat_amount_to_capture := pat_amount_to_capture old;
    pat_amount_capturable := total;
    pat_authorized_amount := pat_authorized_amount old;
    pat_capture_method := pat_capture_method old;
    pat_is_overcapture_enabled := None;
    pat_request_extended_authorization := None;
    pat_transaction_id := None;
    pat_authentication_data := None;
    pat_cancellation_reason := None;
    pat_error_code := None;
    pat_error_message := None;
    pat_error_reason := None;
  |}.

(** [AttemptType::modify_payment_intent_and_payment_attempt]. *)
Definition modify_payment_intent_and_payment_attempt (self : AttemptType) (has_payment_method_data : bool)
    (fetched_payment_intent : PaymentIntent) (fetched_payment_attempt : PaymentAttempt) :
    payment (PaymentIntent * PaymentAttempt) :=
  match self with
  | AttemptType_SameOld => sr_ret (fetched_payment_intent, fetched_payment_attempt)
  | AttemptType_New =>
      new_attempt_count <- api (i16_succ (pin_attempt_count fetched_payment_intent)) ;;
      new_attempt <- api (make_new_manual_retry_payment_attempt has_payment_method_data
                            fetched_payment_attempt new_attempt_count) ;;
      new_payment_attempt <- insert_payment_attempt new_attempt ;;
      updated_payment_intent <- update_payment_intent
        (StatusAndAttemptUpdate (payment_intent_status_fsm has_payment_method_data (Some true))
           (pat_id new_payment_attempt) new_attempt_count) ;;
      sr_ret (updated_payment_intent, new_payment_attempt)
  end.
