(* ===== verification/PaymentResponse.v ===== *)
(** * Payments: the answers of connectors

    What [PaymentResponse] records of an answer
    ([router/src/core/payments/operations/payment_response.rs]): the amounts a
    request captures and leaves to capture ([Capturable], [router/src/types.rs]),
    the status of the attempt after the answer
    ([get_attempt_status_for_db_update], [router/src/connector/utils.rs]), and the
    updates of the attempt and of the intent.  The payment is not captured in
    parts ([multiple_capture_data] is [None]; [Captures] models that branch), and
    the columns that describe the payment method, mandates, and the unified
    errors of the gateway status mapping ([Gsm]) are left out. *)

From S2P Require Import Prelude Currency PaymentEnums PaymentStatus.
From S2P Require Import Disputes Refunds.
From S2P Require Import Captures PaymentRows PaymentGates.
From stdpp Require Import gmap strings.

#[local] Open Scope sr_scope.

(** ** Answers *)

Record ErrorResponse := mkErrorResponse {
  er_code : string;
  er_message : string;
  er_reason : option string;
  er_status_code : Z;
  er_attempt_status : option AttemptStatus;
  er_transaction_id : option string;
}.

(** [PaymentsResponseData]; [resource_id] is the id of a [ResponseId] that has
    one. *)
Inductive PaymentsResponseData :=
| PreProcessingResponse (connector_transaction_id : option string)
| TransactionResponse (resource_id redirection_data : option string)
    (incremental_authorization_allowed : option bool)
| TransactionUnresolvedResponse (resource_id : option string) (reason : option (string * string))
| IncrementalAuthorizationResponse (status : AuthorizationStatus)
    (error_code error_message connector_authorization_id : option string)
| PaymentsCreateOrderResponse
| PostCaptureVoidResponse (post_capture_void_status : PostCaptureVoidStatus)
| MultipleCaptureResponse
| SessionResponse | SessionTokenResponse | TokenizationResponse | ConnectorCustomerResponse
| ThreeDSEnrollmentResponse | PostProcessingResponse | PaymentResourceUpdateResponse.

(** [RouterData] after the call.  A failed integrity check names the fields that
    differ and a transaction. *)
Record RouterData := mkRouterData {
  rd_status : AttemptStatus;
  rd_response : result ErrorResponse PaymentsResponseData;
  rd_amount_captured : option Z;
  rd_minor_amount_capturable : option Z;
  rd_authorized_amount : option Z;
  rd_is_overcapture_enabled : option bool;
  rd_integrity_check : result (string * option string) unit;
}.

(** [IncrementalAuthorizationDetails]. *)
Record IncrementalAuthorizationDetails := mkIncrementalDetails {
  iad_total_amount : Z;
  iad_authorization_id : option string;
}.

(** [PaymentData]: the rows as the operation holds them, the status of the fraud
    check, the details of an incremental authorization, and the refunds that the
    operation has read. *)
Record PaymentData := mkPaymentData {
  pd_intent : PaymentIntent;
  pd_attempt : PaymentAttempt;
  pd_frm_status : option FraudCheckStatus;
  pd_incremental : option IncrementalAuthorizationDetails;
  pd_refunds : list Refund;
}.

Definition with_intent (i : PaymentIntent) (d : PaymentData) : PaymentData :=
  mkPaymentData i (pd_attempt d) (pd_frm_status d) (pd_incremental d) (pd_refunds d).

Definition with_attempt (a : PaymentAttempt) (d : PaymentData) : PaymentData :=
  mkPaymentData (pd_intent d) a (pd_frm_status d) (pd_incremental d) (pd_refunds d).

Definition pd_total (d : PaymentData) : result ApiError Z := attempt_total (pd_attempt d).

(** ** The requests *)

(** [Capturable]: the amount a request captures, and what is left to capture
    after it, in the status the attempt gets. *)
Class Capturable (T : Type) := {
  get_captured_amount : T → option Z → PaymentData → result ApiError (option Z);
  get_amount_capturable : T → PaymentData → option Z → AttemptStatus → result ApiError (option Z);
}.

(** The default methods of the trait. *)
Definition no_amounts T : Capturable T := {|
  get_captured_amount := λ _ _ _, Ok None;
  get_amount_capturable := λ _ _ _ _, Ok None;
|}.

Inductive PaymentsAuthorizeData := mkAuthorizeData.
Inductive CompleteAuthorizeData := mkCompleteAuthorizeData.
Record PaymentsCaptureData := mkCaptureData { amount_to_capture_requested : Z }.
Inductive PaymentsCancelData := mkCancelData.
Inductive PaymentsPreAuthorizeCancelData := mkPreAuthorizeCancelData.
Inductive PaymentsCancelPostCaptureData := mkCancelPostCaptureData.
Inductive PaymentsCancelPostCaptureSyncData := mkCancelPostCaptureSyncData.
Inductive PaymentsSyncData := mkSyncData.
Inductive PaymentsExtendAuthorizationData := mkExtendAuthorizationData.
Record PaymentsIncrementalAuthorizationData := mkIncrementalData { total_amount : Z }.

(** [amount.or(Some(total))]; the total is computed in any case. *)
Definition or_total (amount : option Z) (d : PaymentData) : result ApiError (option Z) :=
  total ← pd_total d;
  Ok (or_keep amount (Some total)).

(** [get_amount_capturable] of an authorization. *)
Definition authorized_capturable (d : PaymentData) (amount_capturable : option Z) (attempt_status : AttemptStatus) :
    result ApiError (option Z) :=
  from_intent_status ←
    match default CaptureMethod_Automatic (pat_capture_method (pd_attempt d)) with
    | CaptureMethod_Automatic | CaptureMethod_SequentialAutomatic =>
        Ok match intent_status_of attempt_status with
           | IntentStatus_Succeeded | IntentStatus_Failed | IntentStatus_Conflicted | IntentStatus_Expired =>
               Some 0%Z
           | _ => None
           end
    | CaptureMethod_Manual => total ← pd_total d; Ok (Some total)
    | CaptureMethod_ManualMultiple | CaptureMethod_Scheduled => Ok None
    end;
  or_total (or_keep amount_capturable from_intent_status) d.

#[export] Instance authorize_capturable : Capturable PaymentsAuthorizeData := {|
  get_captured_amount := λ _ amount_captured d, or_total amount_captured d;
  get_amount_capturable := λ _, authorized_capturable;
|}.

#[export] Instance complete_authorize_capturable : Capturable CompleteAuthorizeData := {|
  get_captured_amount := λ _ amount_captured d, or_total amount_captured d;
  get_amount_capturable := λ _, authorized_capturable;
|}.

#[export] Instance capture_capturable : Capturable PaymentsCaptureData := {|
  get_captured_amount := λ self _ _, Ok (Some (amount_to_capture_requested self));
  get_amount_capturable := λ _ _ _ attempt_status, Ok
    match intent_status_of attempt_status with
    | IntentStatus_Succeeded | IntentStatus_PartiallyCaptured | IntentStatus_Conflicted | IntentStatus_Expired =>
        Some 0%Z
    | _ => None
    end;
|}.

#[export] Instance cancel_capturable : Capturable PaymentsCancelData := {|
  get_captured_amount := λ _ _ d, Ok (pin_amount_captured (pd_intent d));
  get_amount_capturable := λ _ _ _ attempt_status, Ok
    match intent_status_of attempt_status with
    | IntentStatus_Cancelled | IntentStatus_CancelledPostCapture | IntentStatus_Processing
    | IntentStatus_PartiallyCaptured | IntentStatus_Conflicted | IntentStatus_Expired => Some 0%Z
    | _ => None
    end;
|}.

#[export] Instance pre_authorize_cancel_capturable : Capturable PaymentsPreAuthorizeCancelData :=
  no_amounts _.
#[export] Instance cancel_post_capture_sync_capturable : Capturable PaymentsCancelPostCaptureSyncData :=
  no_amounts _.

#[export] Instance cancel_post_capture_capturable : Capturable PaymentsCancelPostCaptureData := {|
  get_captured_amount := λ _ _ d, Ok (pin_amount_captured (pd_intent d));
  get_amount_capturable := λ _ _ _ _, Ok (Some 0%Z);
|}.

#[export] Instance sync_capturable : Capturable PaymentsSyncData := {|
  get_captured_amount := λ _ amount_captured d,
    match or_keep (or_keep (pat_amount_to_capture (pd_attempt d)) (pin_amount_captured (pd_intent d)))
            amount_captured with
    | Some amount => Ok (Some amount)
    | None => total ← pd_total d; Ok (Some total)
    end;
  get_amount_capturable := λ _ d amount_capturable attempt_status, Ok
    (if is_terminal_status attempt_status then Some 0%Z
     else or_keep amount_capturable (Some (pat_amount_capturable (pd_attempt d))));
|}.

#[export] Instance extend_authorization_capturable : Capturable PaymentsExtendAuthorizationData := {|
  get_captured_amount := λ _ _ d, Ok (pin_amount_captured (pd_intent d));
  get_amount_capturable := λ _ _ _ attempt_status, Ok
    match intent_status_of attempt_status with
    | IntentStatus_Cancelled | IntentStatus_CancelledPostCapture | IntentStatus_PartiallyCaptured
    | IntentStatus_Conflicted | IntentStatus_Failed | IntentStatus_Expired | IntentStatus_Succeeded => Some 0%Z
    | _ => None
    end;
|}.

#[export] Instance incremental_capturable : Capturable PaymentsIncrementalAuthorizationData := {|
  get_captured_amount := λ _ _ _, Ok None;
  get_amount_capturable := λ self _ amount_capturable _,
    Ok (or_keep amount_capturable (Some (total_amount self)));
|}.

(** ** The status of the attempt *)

Section response.
Context {T : Type} `{Capturable T}.

Definition lift {A} (r : result ApiError A) : result PaymentError A := map_err ApiErrorResponse r.

(** [amount_captured > Some(0)]. *)
Definition captured_something (amount_captured : option Z) : bool :=
  match amount_captured with Some captured => (0 <? captured)%Z | None => false end.

Definition get_attempt_status_for_db_update (d : PaymentData) (request : T) (rd : RouterData)
    (amount_captured amount_capturable : option Z) : result PaymentError AttemptStatus :=
  match rd_status rd with
  | AttemptStatus_Voided =>
      if captured_something (pin_amount_captured (pd_intent d))
      then Ok AttemptStatus_PartialCharged else Ok (rd_status rd)
  | AttemptStatus_Charged =>
      captured ← lift (get_captured_amount request amount_captured d);
      total ← lift (pd_total d);
      match captured with
      | Some captured =>
          if (total <=? captured)%Z then Ok AttemptStatus_Charged else Ok AttemptStatus_PartialCharged
      | None => Ok (rd_status rd)
      end
  | AttemptStatus_Authorized =>
      capturable ← lift (get_amount_capturable request d amount_capturable (pat_status (pd_attempt d)));
      total ← lift (pd_total d);
      let is_overcapture_enabled := default false (pat_is_overcapture_enabled (pd_attempt d)) in
      let partial_allowed := bool_decide (pin_enable_partial_authorization (pd_intent d) = Some true) in
      match capturable with
      | Some capturable =>
          if (capturable =? total)%Z || ((total <? capturable)%Z && is_overcapture_enabled)
          then Ok AttemptStatus_Authorized
          else if (capturable <? total)%Z then
            if partial_allowed then Ok AttemptStatus_PartiallyAuthorized
            else Err (IntegrityCheckFailed "capturable_amount is less than the total attempt amount")
          else Err (IntegrityCheckFailed "capturable_amount is greater than the total attempt amount")
      | None => Ok (rd_status rd)
      end
  | AttemptStatus_CaptureFailed =>
      if decide (pin_status (pd_intent d) = IntentStatus_Succeeded)
      then Ok AttemptStatus_CaptureReview else Ok (rd_status rd)
  | st => Ok st
  end.

(** The status of an attempt whose connector answers an error. *)
Definition error_attempt_status (sub_flow : string) (err : ErrorResponse) (rd : RouterData) : AttemptStatus :=
  let within lo hi := (lo <=? er_status_code err)%Z && (er_status_code err <=? hi)%Z in
  match er_attempt_status err with
  | Some status => status
  | None =>
      if String.eqb sub_flow "PSync" || String.eqb sub_flow "ExtendAuthorization" then
        if within 200 299 then AttemptStatus_Failure else rd_status rd
      else if String.eqb sub_flow "Capture" then
        if within 500 511 then AttemptStatus_Pending
        else if (er_status_code err =? 429)%Z then rd_status rd
        else AttemptStatus_Failure
      else if String.eqb sub_flow "CancelPostCapture" then rd_status rd
      else if within 500 511 then AttemptStatus_Pending else AttemptStatus_Failure
  end%Z.

(** The status after an answer that passes the integrity check: a payment that
    the fraud check holds for review is not authorized. *)
Definition updated_attempt_status (d : PaymentData) (request : T) (rd : RouterData) :
    result PaymentError AttemptStatus :=
  let from_answer :=
    get_attempt_status_for_db_update d request rd (rd_amount_captured rd) (rd_minor_amount_capturable rd) in
  match rd_status rd, pat_status (pd_attempt d), pd_frm_status d with
  | AttemptStatus_Authorized, AttemptStatus_Unresolved,
    Some (FraudCheckStatus_Fraud | FraudCheckStatus_ManualReview) => Ok (pat_status (pd_attempt d))
  | _, _, _ => from_answer
  end.

(** [get_incremental_authorization_allowed_value]. *)
Definition get_incremental_authorization_allowed_value (allowed : option bool)
    (requested : option RequestIncrementalAuthorization) : option bool :=
  if decide (requested = Some RequestIncrementalAuthorization_False) then Some false else allowed.

Definition allow_incremental (allowed : option bool) (i : PaymentIntent) : PaymentIntent := {|
  pin_status := pin_status i;
  pin_amount := pin_amount i;
  pin_amount_captured := pin_amount_captured i;
  pin_created_at := pin_created_at i;
  pin_session_expiry := pin_session_expiry i;
  pin_attempt_count := pin_attempt_count i;
  pin_active_attempt := pin_active_attempt i;
  pin_incremental_authorization_allowed :=
    get_incremental_authorization_allowed_value allowed (pin_request_incremental_authorization i);
  pin_request_incremental_authorization := pin_request_incremental_authorization i;
  pin_authorization_count := pin_authorization_count i;
  pin_enable_partial_authorization := pin_enable_partial_authorization i;
  pin_enable_overcapture := pin_enable_overcapture i;
  pin_post_capture_void := pin_post_capture_void i;
|}.

(** The update of the attempt for an answer, with the payment data, in which a
    transaction sets whether the authorization may be incremented. *)
Definition attempt_update (sub_flow : string) (d : PaymentData) (request : T) (rd : RouterData) :
    result PaymentError (PaymentData * option PaymentAttemptUpdate) :=
  match rd_response rd with
  | Err err =>
      let status := error_attempt_status sub_flow err rd in
      capturable ← lift (get_amount_capturable request d (rd_minor_amount_capturable rd) status);
      Ok (d, Some (ErrorUpdate status (Some (Some (er_code err))) (Some (Some (er_message err)))
                     (Some (er_reason err)) capturable (er_transaction_id err)))
  | Ok response =>
      match rd_integrity_check rd with
      | Err (field_names, transaction_id) =>
          Ok (d, Some (ErrorUpdate AttemptStatus_IntegrityFailure (Some (Some "IE"%string))
                         (Some (Some "Integrity Check Failed!"%string))
                         (Some (Some ("Integrity Check Failed! Value mismatched for fields " +:+ field_names)%string))
                         None transaction_id))
      | Ok _ =>
          status ← updated_attempt_status d request rd;
          match response with
          | PreProcessingResponse transaction_id => Ok (d, Some (PreprocessingUpdate status transaction_id))
          | TransactionResponse resource_id redirection_data allowed =>
              let d := with_intent (allow_incremental allowed (pd_intent d)) d in
              let error_status := if decide (rd_status rd = AttemptStatus_Charged) then Some None else None in
              let overcapture := or_keep (rd_is_overcapture_enabled rd) (pin_enable_overcapture (pd_intent d)) in
              capturable ← lift (get_amount_capturable request d (rd_minor_amount_capturable rd) status);
              Ok (d, Some (ResponseUpdate status resource_id capturable redirection_data error_status overcapture
                             (rd_authorized_amount rd)))
          | TransactionUnresolvedResponse resource_id reason =>
              Ok (d, Some (UnresolvedResponseUpdate status resource_id (Some (fst <$> reason))
                             (Some (snd <$> reason)) (Some (snd <$> reason))))
          | PaymentsCreateOrderResponse => Ok (d, Some (StatusUpdate status))
          | _ => Ok (d, None)
          end
      end
  end.

(** [get_total_amount_captured]. *)
Definition get_total_amount_captured (request : T) (rd : RouterData) (d : PaymentData) :
    result ApiError (option Z) :=
  amount ← get_captured_amount request (rd_amount_captured rd) d;
  Ok (or_keep (rd_amount_captured rd)
        (if decide (rd_status rd = AttemptStatus_Charged) then amount else None)).

(** [get_payment_intent_update_data]. *)
Definition get_payment_intent_update_data (d : PaymentData) (rd : RouterData) (amount_captured : option Z) :
    PaymentIntentUpdate :=
  match rd_response rd with
  | Err _ => PGStatusUpdate (intent_status_of (pat_status (pd_attempt d))) (Some false)
  | Ok (PostCaptureVoidResponse void) => StateMetadataUpdate void
  | Ok _ =>
      IntentResponseUpdate (intent_status_of (pat_status (pd_attempt d))) amount_captured
        (pin_incremental_authorization_allowed (pd_intent d))
  end.

(** [payment_response_update_tracker]: the answer is recorded in the attempt and
    in the intent, whose status follows that of the attempt.  A failed integrity
    check is recorded and then reported.  The updates are spawned, and run
    together once both are known. *)
Definition payment_response_update_tracker (sub_flow : string) (d : PaymentData) (request : T) (rd : RouterData) :
    payment PaymentData :=
  updated <- sr_lift (attempt_update sub_flow d request rd) ;;
  let '(d, update) := updated in
  let in_memory := match update with Some u => update_attempt_row u (pd_attempt d) | None => pd_attempt d end in
  amount_captured <- api (get_total_amount_captured request rd (with_attempt in_memory d)) ;;
  row <- match update with
         | Some u => update_payment_attempt_with_attempt_id (pd_attempt d) u
         | None => sr_ret (pd_attempt d)
         end ;;
  intent <- update_payment_intent
    (get_payment_intent_update_data (with_attempt in_memory d) rd amount_captured) ;;
  match rd_integrity_check rd with
  | Ok _ => sr_ret (with_intent intent (with_attempt row d))
  | Err (field_names, _) => sr_err (IntegrityCheckFailed field_names)
  end.

End response.
