(* ===== verification/PaymentFlows.v ===== *)
(** * Payments: the operations

    The operations on a confirmed payment ([router/src/core/payments/operations]):
    confirmation with manual retries, completion of an authorization, capture,
    cancellation before and after the capture, synchronisation, extended and
    incremental authorizations, approval and rejection.  Each follows [payments_operation_core] of
    [core/payments.rs]: [get_trackers] reads the rows and refuses the operation or
    not, [should_call_connector] decides whether the connector is called,
    [update_trackers] changes the rows before the call, and [PaymentResponse]
    records the answer.  The payment is not captured in parts, and the data that
    routes to a connector can be built.

    A call may fail before [update_trackers], when its request cannot be built, or
    after it, without an answer.  The fraud check intervenes in confirmations, where
    its outcome is an argument, and in approvals and rejections; other operations
    are modelled without it. *)

From S2P Require Import Prelude Currency PaymentEnums PaymentStatus.
From S2P Require Import Disputes Refunds.
From S2P Require Import Captures PaymentRows PaymentGates PaymentResponse.
From stdpp Require Import gmap strings pretty.

#[local] Open Scope sr_scope.

(** ** Calls *)

Inductive ConnectorCall :=
| RequestFails
| CallFails
| Answers (rd : RouterData).

(** Only authorizations, captures and synchronisations compare their answer with
    the request; the others pass the check. *)
Definition unchecked (rd : RouterData) : RouterData :=
  mkRouterData (rd_status rd) (rd_response rd) (rd_amount_captured rd) (rd_minor_amount_capturable rd)
    (rd_authorized_amount rd) (rd_is_overcapture_enabled rd) (Ok tt).

(** The last steps of [payments_operation_core]: [update_trackers], then, when
    the connector is called, the call and the record of its answer. *)
Definition complete_operation (calls_connector : bool) (call : ConnectorCall) (d : PaymentData)
    (update_trackers : PaymentData → payment PaymentData)
    (record_answer : PaymentData → RouterData → payment PaymentData) : payment PaymentData :=
  if calls_connector then
    match call with
    | RequestFails => sr_err ConnectorCallFailed
    | CallFails => d <- update_trackers d ;; sr_err ConnectorCallFailed
    | Answers rd => d <- update_trackers d ;; record_answer d rd
    end
  else update_trackers d.

Definition call_context (d : PaymentData) (flow_name : string) (force_sync all_keys_required : option bool)
    (capture_failure_webhook : bool) : CallContext := {|
  cc_status := pin_status (pd_intent d);
  cc_capture_method := pat_capture_method (pd_attempt d);
  cc_authentication_data := pat_authentication_data (pd_attempt d);
  cc_post_capture_void_pending :=
    bool_decide (pin_post_capture_void (pd_intent d) = Some PostCaptureVoidStatus_Pending);
  cc_force_sync := force_sync;
  cc_all_keys_required := all_keys_required;
  cc_capture_failure_webhook := capture_failure_webhook;
  cc_flow_name := flow_name;
|}.

Definition calls (operation : OperationName) (d : PaymentData) (flow_name : string) : bool :=
  should_call_connector operation (call_context d flow_name None None false).

(** The rows of the payment, once its status admits the operation. *)
Definition find_rows (gate : IntentStatus → result PaymentError unit) : payment PaymentData :=
  i <- sr_get ps_intent ;;
  sr_lift (gate (pin_status i)) ;;;
  a <- find_attempt (pin_active_attempt i) ;;
  sr_ret (mkPaymentData i a None None []).

Definition with_cancellation_reason (reason : option string) (a : PaymentAttempt) : PaymentAttempt :=
  mkPaymentAttempt (pat_id a) (pat_payment_id a) (pat_status a) (pat_net_amount a) (pat_amount_to_capture a)
    (pat_amount_capturable a) (pat_authorized_amount a) (pat_capture_method a) (pat_is_overcapture_enabled a)
    (pat_request_extended_authorization a) (pat_transaction_id a) (pat_authentication_data a) reason
    (pat_error_code a) (pat_error_message a) (pat_error_reason a).

Definition with_amount_to_capture (amount : option Z) (a : PaymentAttempt) : PaymentAttempt :=
  mkPaymentAttempt (pat_id a) (pat_payment_id a) (pat_status a) (pat_net_amount a) amount
    (pat_amount_capturable a) (pat_authorized_amount a) (pat_capture_method a) (pat_is_overcapture_enabled a)
    (pat_request_extended_authorization a) (pat_transaction_id a) (pat_authentication_data a)
    (pat_cancellation_reason a) (pat_error_code a) (pat_error_message a) (pat_error_reason a).

(** ** Cancellation *)

(** [PaymentCancel::update_trackers]; the attempt of the payment data stays as it
    was. *)
Definition cancel_update_trackers (d : PaymentData) : payment PaymentData :=
  let '(intent_status_update, attempt_status_update) :=
    if decide (pin_status (pd_intent d) = IntentStatus_RequiresCapture)
    then (None, AttemptStatus_VoidInitiated)
    else (Some (PGStatusUpdate IntentStatus_Cancelled None), AttemptStatus_Voided) in
  d <- match intent_status_update with
       | Some u => i <- update_payment_intent u ;; sr_ret (with_intent i d)
       | None => sr_ret d
       end ;;
  update_payment_attempt_with_attempt_id (pd_attempt d)
    (VoidUpdate attempt_status_update (pat_cancellation_reason (pd_attempt d))) ;;;
  sr_ret d.

(** The request of [payments_cancel]: a payment that waits for the customer is
    cancelled at a connector that supports it. *)
Definition cancel_flow_name (supports_pre_authorize_cancel : bool) (st : IntentStatus) : string :=
  if decide (st = IntentStatus_RequiresCustomerAction) then
    if supports_pre_authorize_cancel then "PreAuthorizeVoid" else "Void"
  else "Void".

Definition payments_cancel (supports_pre_authorize_cancel : bool) (cancellation_reason : option string)
    (call : ConnectorCall) : payment PaymentData :=
  d <- find_rows validate_cancel_status ;;
  api (pd_total d) ;;;
  let d := with_attempt (with_cancellation_reason cancellation_reason (pd_attempt d)) d in
  let flow := cancel_flow_name supports_pre_authorize_cancel (pin_status (pd_intent d)) in
  complete_operation (calls PaymentCancel d flow) call d cancel_update_trackers
    (λ d rd, if String.eqb flow "Void"
             then payment_response_update_tracker flow d mkCancelData (unchecked rd)
             else payment_response_update_tracker flow d mkPreAuthorizeCancelData (unchecked rd)).

(** ** Void after the capture *)

(** [Refund::is_refund_applied]. *)
Definition is_refund_applied (r : Refund) : bool :=
  match refund_status r with
  | RefundStatus_ManualReview | RefundStatus_Pending | RefundStatus_Success => true
  | _ => false
  end.

(** [validate_request_with_state] of [PaymentCancelPostCapture]. *)
Definition validate_no_refunds (d : PaymentData) : result PaymentError unit :=
  if existsb is_refund_applied (pd_refunds d)
  then Err (Precondition "Post-capture void cannot be performed after a refund has been issued")
  else Ok tt.

(** [get_trackers] builds the payment data with [refunds: vec![]]. *)
Definition payments_cancel_post_capture (cancellation_reason : option string) (call : ConnectorCall) :
    payment PaymentData :=
  d <- find_rows validate_cancel_post_capture_status ;;
  api (pd_total d) ;;;
  let d := with_attempt (with_cancellation_reason cancellation_reason (pd_attempt d)) d in
  sr_lift (validate_no_refunds d) ;;;
  complete_operation (calls PaymentCancelPostCapture d "PostCaptureVoid") call d sr_ret
    (λ d rd, payment_response_update_tracker "PostCaptureVoid" d mkCancelPostCaptureData (unchecked rd)).

(** [validate_request_with_state] of [PaymentCancelPostCaptureSync]. *)
Definition validate_void_initiated (d : PaymentData) : result PaymentError unit :=
  if decide (is_Some (pin_post_capture_void (pd_intent d))) then Ok tt
  else Err (Precondition "Post-capture sync is allowed only after a post-capture void has been initiated").

Definition payments_cancel_post_capture_sync (call : ConnectorCall) : payment PaymentData :=
  d <- find_rows validate_cancel_post_capture_sync_status ;;
  api (pd_total d) ;;;
  sr_lift (validate_void_initiated d) ;;;
  complete_operation (calls PaymentCancelPostCaptureSync d "PostCaptureVoidSync") call d sr_ret
    (λ d rd, payment_response_update_tracker "PostCaptureVoidSync" d mkCancelPostCaptureSyncData (unchecked rd)).

(** ** Capture *)

(** [PaymentCapture::get_trackers] without the branch of captures in parts. *)
Definition capture_get_trackers (requested : option Z) : payment PaymentData :=
  i <- sr_get ps_intent ;;
  a <- find_attempt (pin_active_attempt i) ;;
  let a := with_amount_to_capture (or_keep requested (pat_amount_to_capture a)) a in
  capture_method <- api (ok_or (MissingRequiredField "capture_method") (pat_capture_method a)) ;;
  api (validate_status_with_capture_method (pin_status i) capture_method) ;;;
  api (if default false (pat_is_overcapture_enabled a) then Ok tt
       else validate_amount_to_capture (pat_amount_capturable a) requested) ;;;
  api (validate_capture_method capture_method) ;;;
  api (attempt_total a) ;;;
  sr_ret (mkPaymentData i a None None []).

(** [PaymentCapture::update_trackers]. *)
Definition capture_update_trackers (d : PaymentData) : payment PaymentData :=
  match pat_amount_to_capture (pd_attempt d) with
  | Some amount =>
      a <- update_payment_attempt_with_attempt_id (pd_attempt d) (CaptureUpdate (Some amount)) ;;
      sr_ret (with_attempt a d)
  | None => sr_ret d
  end.

(** [PaymentsCaptureData::try_from]. *)
Definition capture_request (d : PaymentData) : result ApiError PaymentsCaptureData :=
  total ← pd_total d;
  Ok (mkCaptureData (default total (pat_amount_to_capture (pd_attempt d)))).

Definition payments_capture (requested : option Z) (call : ConnectorCall) : payment PaymentData :=
  d <- capture_get_trackers requested ;;
  request <- api (capture_request d) ;;
  complete_operation (calls PaymentCapture d "Capture") call d capture_update_trackers
    (λ d rd, payment_response_update_tracker "Capture" d request rd).

(** ** Completion of an authorization *)

Definition complete_authorize_update_trackers (d : PaymentData) : payment PaymentData :=
  i <- update_payment_intent CompleteAuthorizeUpdate ;;
  sr_ret (with_intent i d).

Definition payments_complete_authorize (call : ConnectorCall) : payment PaymentData :=
  d <- find_rows validate_complete_authorize_status ;;
  api (pd_total d) ;;;
  complete_operation (calls CompleteAuthorize d "CompleteAuthorize") call d complete_authorize_update_trackers
    (λ d rd, payment_response_update_tracker "CompleteAuthorize" d mkCompleteAuthorizeData (unchecked rd)).

(** ** Synchronisation *)

(** A request to retrieve the payment, or a webhook of the connector. *)
Record SyncRequest := mkSyncRequest {
  sy_force_sync : bool;
  sy_all_keys_required : option bool;
  (** [param], the data of a redirection. *)
  sy_param : option string;
  sy_capture_failure_webhook : bool;
  sy_frm_status : option FraudCheckStatus;
}.

(** [get_tracker_for_sync]. *)
Definition sync_force_sync (r : SyncRequest) (a : PaymentAttempt) : bool :=
  sy_force_sync r && (check_force_psync_precondition (pat_status a) || bool_decide (is_Some (sy_param r))).

Definition payments_sync (r : SyncRequest) (call : ConnectorCall) : payment PaymentData :=
  d <- find_rows (λ _, Ok tt) ;;
  api (pd_total d) ;;;
  refunds <- sr_get ps_refunds ;;
  let d := mkPaymentData (pd_intent d) (pd_attempt d) (sy_frm_status r) None refunds in
  let context := call_context d "PSync" (Some (sync_force_sync r (pd_attempt d))) (sy_all_keys_required r)
                   (sy_capture_failure_webhook r) in
  complete_operation (should_call_connector PaymentStatusOp context) call d sr_ret
    (λ d rd, payment_response_update_tracker "PSync" d mkSyncData rd).

(** ** Extended authorization *)

Definition payments_extend_authorization (call : ConnectorCall) : payment PaymentData :=
  d <- find_rows validate_extend_authorization_status ;;
  (if decide (pat_request_extended_authorization (pd_attempt d) = Some true) then sr_ret tt
   else sr_err (Precondition "You cannot extend the authorization for this payment because authorization extension is not enabled.")) ;;;
  api (pd_total d) ;;;
  complete_operation (calls PaymentExtendAuthorization d "ExtendAuthorization") call d sr_ret
    (λ d rd, payment_response_update_tracker "ExtendAuthorization" d mkExtendAuthorizationData (unchecked rd)).

(** ** Incremental authorization *)

(** [PaymentIncrementalAuthorization::get_trackers]. *)
Definition incremental_get_trackers (amount : Z) : payment PaymentData :=
  i <- sr_get ps_intent ;;
  sr_lift (validate_incremental_authorization_status (pin_status i)) ;;;
  (if decide (pin_incremental_authorization_allowed i = Some true) then sr_ret tt
   else sr_err (Precondition "You cannot increment authorization this payment because it is not allowed for incremental_authorization")) ;;;
  a <- find_attempt (pin_active_attempt i) ;;
  total <- api (attempt_total a) ;;
  (if (amount <=? total)%Z
   then sr_err (Precondition "Amount should be greater than original authorized amount")
   else sr_ret tt) ;;;
  sr_ret (mkPaymentData i a None (Some (mkIncrementalDetails amount None)) []).

Definition i32_succ (n : Z) : result ApiError Z := if (n <? i32_max)%Z then Ok (n + 1)%Z else Err Overflow.

Definition insert_authorization (x : Authorization) : payment Authorization := λ s,
  if existsb (λ y, String.eqb (auth_id y) (auth_id x)) (ps_authorizations s)
  then (Err (GenericDuplicateError ("Authorization with authorization_id " +:+ auth_id x +:+ " already exists")%string), s)
  else (Ok x, set_authorizations (ps_authorizations s ++ [x]) s).

(** [AuthorizationUpdate::StatusUpdate] on a row. *)
Definition update_authorization_row (status : AuthorizationStatus) (code message connector_id : option string)
    (x : Authorization) : Authorization := {|
  auth_id := auth_id x;
  auth_amount := auth_amount x;
  auth_status := status;
  auth_error_code := or_keep code (auth_error_code x);
  auth_error_message := or_keep message (auth_error_message x);
  auth_connector_authorization_id := or_keep connector_id (auth_connector_authorization_id x);
  auth_previously_authorized_amount := auth_previously_authorized_amount x;
|}.

Definition update_authorization (id : string) (f : Authorization → Authorization) : payment unit := λ s,
  if existsb (λ y, String.eqb (auth_id y) id) (ps_authorizations s)
  then (Ok tt, set_authorizations ((λ y, if String.eqb (auth_id y) id then f y else y) <$> ps_authorizations s) s)
  else (Err internal_error, s).

(** [PaymentIncrementalAuthorization::update_trackers]; [generated] is the random
    part of the id. *)
Definition incremental_update_trackers (generated : string) (d : PaymentData) : payment PaymentData :=
  new_authorization_count <-
    match pin_authorization_count (pd_intent d) with
    | Some count => api (i32_succ count)
    | None => sr_ret 1%Z
    end ;;
  match pd_incremental d with
  | None => sr_err internal_error
  | Some details =>
      total <- api (pd_total d) ;;
      authorization <- insert_authorization {|
        auth_id := (generated +:+ "_" +:+ pretty new_authorization_count)%string;
        auth_amount := iad_total_amount details;
        auth_status := AuthorizationStatus_Processing;
        auth_error_code := None;
        auth_error_message := None;
        auth_connector_authorization_id := None;
        auth_previously_authorized_amount := total;
      |} ;;
      i <- update_payment_intent (AuthorizationCountUpdate new_authorization_count) ;;
      sr_ret (mkPaymentData i (pd_attempt d) (pd_frm_status d)
                (Some (mkIncrementalDetails (iad_total_amount details) (Some (auth_id authorization))))
                (pd_refunds d))
  end.

(** [update_tracker] of [PaymentsIncrementalAuthorizationData]: an authorization
    that succeeds sets the amounts, and the record gets the answer in any case. *)
Definition incremental_update_tracker (d : PaymentData) (rd : RouterData) : payment PaymentData :=
  match pd_incremental d with
  | None => sr_err internal_error
  | Some details =>
      succeeds <- match rd_response rd with
                  | Err _ => sr_ret false
                  | Ok (IncrementalAuthorizationResponse status _ _ _) =>
                      sr_ret (bool_decide (status = AuthorizationStatus_Success))
                  | Ok _ => sr_err internal_error
                  end ;;
      d <- (if (succeeds : bool) then
              additional <- api (get_additional_amount (pat_net_amount (pd_attempt d))) ;;
              order <- api (minor_sub (iad_total_amount details) additional) ;;
              a <- update_payment_attempt_with_attempt_id (pd_attempt d)
                     (IncrementalAuthorizationAmountUpdate (mkNetAmount order None None None None None None)
                        (iad_total_amount details)) ;;
              i <- update_payment_intent (IncrementalAmountUpdate order) ;;
              sr_ret (with_intent i (with_attempt a d))
            else sr_ret d) ;;
      match iad_authorization_id details with
      | None => sr_err internal_error
      | Some id =>
          update_authorization id
            match rd_response rd with
            | Err err =>
                update_authorization_row AuthorizationStatus_Failure (Some (er_code err)) (Some (er_message err)) None
            | Ok (IncrementalAuthorizationResponse status code message connector_id) =>
                update_authorization_row status code message connector_id
            | Ok _ => λ x, x
            end ;;;
          sr_ret d
      end
  end.

Definition payments_incremental_authorization (amount : Z) (generated : string) (call : ConnectorCall) :
    payment PaymentData :=
  d <- incremental_get_trackers amount ;;
  complete_operation (calls PaymentIncrementalAuthorization d "IncrementalAuthorization") call d
    (incremental_update_trackers generated) incremental_update_tracker.

(** ** Confirmation *)

Inductive FrmSuggestion : Set := FrmCancelTransaction | FrmManualReview | FrmAuthorizeTransaction.

(** What the authentication of the customer outside the connector has given. *)
Record AuthenticationState := mkAuthenticationState {
  as_failed : bool;
  as_separate_authn_required : bool;
}.

Definition fraud_check_status_name (st : FraudCheckStatus) : string :=
  match st with
  | FraudCheckStatus_Fraud => "fraud"
  | FraudCheckStatus_ManualReview => "manual_review"
  | FraudCheckStatus_Pending => "pending"
  | FraudCheckStatus_Legit => "legit"
  | FraudCheckStatus_TransactionFailure => "transaction_failure"
  end.

(** The error that a fraud check leaves in the attempt. *)
Definition fraud_check_error (message : option (FraudCheckStatus * option string)) :
    option (option string) * option (option string) :=
  match message with
  | Some (status, reason) => (Some (Some (fraud_check_status_name status)), Some reason)
  | None => (None, None)
  end.

(** A confirmation: its source and what the request and the profile say, the
    outcome of the fraud check and of the authentication, which also decide
    whether the transaction goes on, and the amounts that the attempt gets. *)
Record ConfirmInput := mkConfirmInput {
  ci_now : Z;
  ci_from_webhook_or_authenticator : bool;
  ci_has_payment_method_data : bool;
  ci_has_payment_token : bool;
  ci_capture_method : option CaptureMethod;
  ci_is_manual_retry_enabled : option bool;
  ci_intent_fulfillment_time : option Z;
  ci_frm_message : option (FraudCheckStatus * option string);
  ci_frm_suggestion : option FrmSuggestion;
  ci_authentication : option AuthenticationState;
  ci_should_continue_transaction : bool;
  ci_net_amount : NetAmount;
  ci_installment_interest : option (option Z);
  ci_applied_offer : option Z;
}.

Definition with_capture_method (m : option CaptureMethod) (a : PaymentAttempt) : PaymentAttempt :=
  mkPaymentAttempt (pat_id a) (pat_payment_id a) (pat_status a) (pat_net_amount a) (pat_amount_to_capture a)
    (pat_amount_capturable a) (pat_authorized_amount a) m (pat_is_overcapture_enabled a)
    (pat_request_extended_authorization a) (pat_transaction_id a) (pat_authentication_data a)
    (pat_cancellation_reason a) (pat_error_code a) (pat_error_message a) (pat_error_reason a).

(** The rows of [PaymentConfirm::get_trackers]: a payment that cannot be confirmed
    as it is may be retried with a new attempt. *)
Definition confirm_rows (c : ConfirmInput) : payment PaymentData :=
  i <- sr_get ps_intent ;;
  sr_lift (validate_confirm_status (ci_from_webhook_or_authenticator c) (pin_status i)) ;;;
  a <- find_attempt (pin_active_attempt i) ;;
  rows <- match pin_status i with
          | IntentStatus_RequiresCustomerAction | IntentStatus_RequiresMerchantAction
          | IntentStatus_RequiresPaymentMethod | IntentStatus_RequiresConfirmation => sr_ret (i, a)
          | _ =>
              attempt_type <- sr_lift (get_attempt_type (ci_now c) i a (ci_is_manual_retry_enabled c)
                (ci_intent_fulfillment_time c) (ci_has_payment_token c) "confirm") ;;
              modify_payment_intent_and_payment_attempt attempt_type (ci_has_payment_method_data c) i a
          end ;;
  let a := with_capture_method (or_keep (ci_capture_method c) (pat_capture_method rows.2)) rows.2 in
  sr_ret (mkPaymentData rows.1 a (fst <$> ci_frm_message c) None []).

(** The statuses and the error of [PaymentConfirm::update_trackers]. *)
Definition confirm_statuses (c : ConfirmInput) :
    IntentStatus * AttemptStatus * (option (option string) * option (option string)) :=
  let default_status_result := (IntentStatus_Processing, AttemptStatus_Pending, (None, None)) in
  match ci_frm_suggestion c, ci_authentication c with
  | Some FrmCancelTransaction, _ =>
      (IntentStatus_Failed, AttemptStatus_Failure, fraud_check_error (ci_frm_message c))
  | Some FrmManualReview, _ => (IntentStatus_RequiresMerchantAction, AttemptStatus_Unresolved, (None, None))
  | Some FrmAuthorizeTransaction, _ => (IntentStatus_RequiresCapture, AttemptStatus_Authorized, (None, None))
  | None, Some authentication =>
      if as_failed authentication then
        (IntentStatus_Failed, AttemptStatus_Failure,
         (Some (Some "EXTERNAL_AUTHENTICATION_FAILURE"%string),
          Some (Some "external authentication failure"%string)))
      else if as_separate_authn_required authentication then
        (IntentStatus_RequiresCustomerAction, AttemptStatus_AuthenticationPending, (None, None))
      else default_status_result
  | None, None => default_status_result
  end.

Definition confirm_update_trackers (c : ConfirmInput) (d : PaymentData) : payment PaymentData :=
  let '(intent_status, attempt_status, (error_code, error_message)) := confirm_statuses c in
  a <- update_payment_attempt_with_attempt_id (pd_attempt d)
         (ConfirmUpdate attempt_status (pat_capture_method (pd_attempt d)) (ci_net_amount c)
            (ci_installment_interest c) (ci_applied_offer c) error_code error_message) ;;
  i <- update_payment_intent (Update intent_status (pin_amount (pd_intent d))) ;;
  sr_ret (with_intent i (with_attempt a d)).

Definition payments_confirm (c : ConfirmInput) (call : ConnectorCall) : payment PaymentData :=
  d <- confirm_rows c ;;
  complete_operation (ci_should_continue_transaction c) call d (confirm_update_trackers c)
    (λ d rd, payment_response_update_tracker "Authorize" d mkAuthorizeData rd).

(** ** Approval and rejection *)

(** The fraud check of the payment, and whether the check keeps the payment for a
    manual capture. *)
Record FraudCheck := mkFraudCheck {
  fc_message : option (FraudCheckStatus * option string);
  fc_manual_capture : bool;
}.

(** The end of [call_frm_before_connector_call]: a payment that waits for its review
    is settled without the connector. *)
Definition skips_connector (fc : FraudCheck) (a : PaymentAttempt) : bool :=
  fc_manual_capture fc && bool_decide (pat_status a = AttemptStatus_Unresolved).

Definition review_get_trackers (gate : IntentStatus → result PaymentError unit) (fc : FraudCheck) :
    payment PaymentData :=
  d <- find_rows gate ;;
  api (pd_total d) ;;;
  sr_ret (mkPaymentData (pd_intent d) (pd_attempt d) (fst <$> fc_message fc) None []).

(** [PaymentApprove::update_trackers]; the assignments to the statuses are written
    as updates of the rows. *)
Definition approve_update_trackers (frm_suggestion : option FrmSuggestion) (d : PaymentData) : payment PaymentData :=
  let d :=
    match frm_suggestion with
    | Some FrmAuthorizeTransaction =>
        with_intent (update_intent_row (ApproveUpdate IntentStatus_RequiresCapture) (pd_intent d))
          (with_attempt (update_attempt_row (StatusUpdate AttemptStatus_Authorized) (pd_attempt d)) d)
    | _ => d
    end in
  i <- update_payment_intent (ApproveUpdate (pin_status (pd_intent d))) ;;
  update_payment_attempt_with_attempt_id (pd_attempt d) (StatusUpdate (pat_status (pd_attempt d))) ;;;
  sr_ret (with_intent i d).

(** An approval asks the connector for a capture. *)
Definition payments_approve (fc : FraudCheck) (call : ConnectorCall) : payment PaymentData :=
  d <- review_get_trackers validate_approve_status fc ;;
  request <- api (capture_request d) ;;
  let skips := skips_connector fc (pd_attempt d) in
  complete_operation (calls PaymentApprove d "Capture" && negb skips) call d
    (approve_update_trackers (if skips then Some FrmAuthorizeTransaction else None))
    (λ d rd, payment_response_update_tracker "Capture" d request rd).

(** [PaymentReject::update_trackers]. *)
Definition reject_update_trackers (fc : FraudCheck) (d : PaymentData) : payment PaymentData :=
  i <- update_payment_intent (IntentRejectUpdate IntentStatus_Failed) ;;
  let '(error_code, error_message) := fraud_check_error (fc_message fc) in
  a <- update_payment_attempt_with_attempt_id (pd_attempt d)
         (RejectUpdate AttemptStatus_Failure error_code error_message) ;;
  sr_ret (with_intent i (with_attempt a d)).

(** A rejection asks the connector for a void. *)
Definition payments_reject (fc : FraudCheck) (call : ConnectorCall) : payment PaymentData :=
  d <- review_get_trackers validate_reject_status fc ;;
  complete_operation (calls PaymentReject d "Void" && negb (skips_connector fc (pd_attempt d))) call d
    (reject_update_trackers fc)
    (λ d rd, payment_response_update_tracker "Void" d mkCancelData (unchecked rd)).

(** ** Requests *)

Inductive PaymentRequest :=
| ConfirmRequest (c : ConfirmInput)
| CompleteAuthorizeRequest
| CaptureRequest (amount : option Z)
| CancelRequest (supports_pre_authorize_cancel : bool) (reason : option string)
| CancelPostCaptureRequest (reason : option string)
| CancelPostCaptureSyncRequest
| RetrieveRequest (r : SyncRequest)
| ExtendAuthorizationRequest
| IncrementalAuthorizationRequest (amount : Z) (generated : string)
| ApproveRequest (fc : FraudCheck)
| RejectRequest (fc : FraudCheck).

Definition payments_core (request : PaymentRequest) (call : ConnectorCall) : payment PaymentData :=
  match request with
  | ConfirmRequest c => payments_confirm c call
  | CompleteAuthorizeRequest => payments_complete_authorize call
  | CaptureRequest amount => payments_capture amount call
  | CancelRequest pre_authorize reason => payments_cancel pre_authorize reason call
  | CancelPostCaptureRequest reason => payments_cancel_post_capture reason call
  | CancelPostCaptureSyncRequest => payments_cancel_post_capture_sync call
  | RetrieveRequest r => payments_sync r call
  | ExtendAuthorizationRequest => payments_extend_authorization call
  | IncrementalAuthorizationRequest amount generated =>
      payments_incremental_authorization amount generated call
  | ApproveRequest fc => payments_approve fc call
  | RejectRequest fc => payments_reject fc call
  end.
