(* ===== verification/PaymentFlowFacts.v ===== *)
(** * Payments: the status of the intent follows that of the attempt

    The invariant of the rows of a payment, that the record of an answer keeps it
    whatever the connector answers, and that every operation does. *)

From S2P Require Import Prelude Currency PaymentEnums PaymentStatus.
From S2P Require Import Disputes Refunds.
From S2P Require Import Captures PaymentRows PaymentGates PaymentResponse PaymentFlows.
From stdpp Require Import gmap strings.

#[local] Open Scope sr_scope.

(** ** The invariant *)

(** Attempts are stored under their ids. *)
Definition attempts_keyed (s : PaymentStore) : Prop := map_Forall (λ id a, pat_id a = id) (ps_attempts s).

Definition active_attempt (s : PaymentStore) : option PaymentAttempt :=
  ps_attempts s !! pin_active_attempt (ps_intent s).

Definition follows (i : PaymentIntent) (a : PaymentAttempt) : Prop :=
  pin_status i = intent_status_of (pat_status a).

(** A void that has been sent and not been answered. *)
Definition void_unanswered (i : PaymentIntent) (a : PaymentAttempt) : Prop :=
  pin_status i = IntentStatus_RequiresCapture ∧ pat_status a = AttemptStatus_VoidInitiated.

Definition payment_inv (s : PaymentStore) : Prop :=
  attempts_keyed s ∧
  ∃ a, active_attempt s = Some a ∧ (follows (ps_intent s) a ∨ void_unanswered (ps_intent s) a).

(** Which answers a request can get: only a void after the capture is answered
    with its status, and a void before it with a transaction or an error. *)
Definition sets_status (response : result ErrorResponse PaymentsResponseData) : bool :=
  match response with
  | Err _ => true
  | Ok (PreProcessingResponse _ | TransactionResponse _ _ _ | TransactionUnresolvedResponse _ _
       | PaymentsCreateOrderResponse) => true
  | Ok _ => false
  end.

Definition is_void_status (response : result ErrorResponse PaymentsResponseData) : bool :=
  match response with Ok (PostCaptureVoidResponse _) => true | _ => false end.

Definition answer_fits (request : PaymentRequest) (call : ConnectorCall) : bool :=
  match call with
  | Answers rd =>
      match request with
      | CancelRequest _ _ => sets_status (rd_response rd)
      | CancelPostCaptureRequest _ | CancelPostCaptureSyncRequest => true
      | _ => negb (is_void_status (rd_response rd))
      end
  | _ => true
  end.

(** ** Updates of the rows *)

Lemma update_attempt_row_id u a : pat_id (update_attempt_row u a) = pat_id a.
Proof. done. Qed.

Lemma active_id s a : attempts_keyed s → active_attempt s = Some a → pat_id a = pin_active_attempt (ps_intent s).
Proof. intros Hk Ha. exact (Hk _ _ Ha). Qed.

Lemma keyed_insert s id a : attempts_keyed s → pat_id a = id →
  attempts_keyed (set_attempts (<[id := a]> (ps_attempts s)) s).
Proof. intros Hk Hid. by apply map_Forall_insert_2. Qed.

Lemma update_attempt_run s a this u : active_attempt s = Some a → pat_id this = pin_active_attempt (ps_intent s) →
  update_payment_attempt_with_attempt_id this u s =
    (Ok (update_attempt_row u a),
     set_attempts (<[pin_active_attempt (ps_intent s) := update_attempt_row u a]> (ps_attempts s)) s).
Proof. unfold active_attempt, update_payment_attempt_with_attempt_id. by intros Ha ->; rewrite Ha. Qed.

(** The update of the active attempt and then of the intent, which keeps the
    active attempt. *)
Definition updated_rows (u : PaymentAttemptUpdate) (v : PaymentIntentUpdate) (a : PaymentAttempt) (s : PaymentStore) :
    PaymentStore :=
  set_intent (update_intent_row v (ps_intent s))
    (set_attempts (<[pin_active_attempt (ps_intent s) := update_attempt_row u a]> (ps_attempts s)) s).

Lemma updated_rows_inv u v a s :
  attempts_keyed s → active_attempt s = Some a →
  iu_active_attempt (intent_update_internal v) = None →
  follows (update_intent_row v (ps_intent s)) (update_attempt_row u a) →
  payment_inv (updated_rows u v a s).
Proof.
  intros Hk Ha Hv Hf. split.
  { apply (keyed_insert s); [done|]. rewrite update_attempt_row_id. by apply active_id. }
  exists (update_attempt_row u a). split; [|by left].
  unfold active_attempt, updated_rows. simpl. rewrite Hv. simpl. apply lookup_insert_eq.
Qed.

(** An update of the intent that keeps its status and its attempt. *)
Lemma intent_kept_inv v s :
  payment_inv s → iu_active_attempt (intent_update_internal v) = None →
  iu_status (intent_update_internal v) = None →
  payment_inv (set_intent (update_intent_row v (ps_intent s)) s).
Proof.
  intros [Hk (a & Ha & Hf)] Hact Hst. split; [done|]. exists a.
  unfold active_attempt, follows, void_unanswered, update_intent_row in *. simpl. by rewrite Hact, Hst.
Qed.

Lemma intent_status_inv v a s :
  attempts_keyed s → active_attempt s = Some a → iu_active_attempt (intent_update_internal v) = None →
  follows (update_intent_row v (ps_intent s)) a →
  payment_inv (set_intent (update_intent_row v (ps_intent s)) s).
Proof.
  intros Hk Ha Hv Hf. split; [done|]. exists a. split; [|by left].
  unfold active_attempt in *. simpl. by rewrite Hv.
Qed.

Lemma result_bind_ok {E A B} (r : result E A) (k : A → result E B) b :
  r ≫= k = Ok b → ∃ a, r = Ok a ∧ k a = Ok b.
Proof. destruct r as [a|e]; [|done]. intros Hk. by exists a. Qed.

(** ** Answers *)

Section answers.
Context {T : Type} `{Capturable T}.

(** An update for an answer sets the status; without an update the answer is
    none that has a status. *)
Lemma attempt_update_facts flow d (request : T) rd d' update :
  attempt_update flow d request rd = Ok (d', update) →
  pd_attempt d' = pd_attempt d ∧
  match update with
  | Some u => is_Some (pu_status (update_internal u))
  | None => sets_status (rd_response rd) = false
  end.
Proof.
  unfold attempt_update. destruct (rd_response rd) as [response|err].
  - destruct (rd_integrity_check rd) as [?|[? ?]]; [|by intros ?; simplify_eq/=].
    intros (st & _ & Hu)%result_bind_ok. destruct response; simplify_eq/=; try done.
    by apply result_bind_ok in Hu as (? & _ & ?); simplify_eq/=.
  - intros (c & _ & ?)%result_bind_ok. by simplify_eq/=.
Qed.

Lemma follows_updated v u i a st :
  pu_status (update_internal u) = Some st → iu_status (intent_update_internal v) = Some (intent_status_of st) →
  follows (update_intent_row v i) (update_attempt_row u a).
Proof.
  unfold follows, update_intent_row, update_attempt_row, apply_intent_changeset, apply_attempt_changeset.
  simpl. by intros -> ->.
Qed.

Lemma intent_update_data_facts d rd amount_captured :
  let v := get_payment_intent_update_data d rd amount_captured in
  iu_active_attempt (intent_update_internal v) = None ∧
  iu_status (intent_update_internal v) =
    if is_void_status (rd_response rd) then None else Some (intent_status_of (pat_status (pd_attempt d))).
Proof. unfold get_payment_intent_update_data. destruct (rd_response rd) as [[]|]; done. Qed.

(** The record of an answer for the active attempt keeps the invariant: the
    attempt of the payment data has the status of the row, or the answer sets it. *)
Lemma update_tracker_inv flow d (request : T) rd s a :
  payment_inv s → active_attempt s = Some a → pat_id (pd_attempt d) = pin_active_attempt (ps_intent s) →
  pat_status (pd_attempt d) = pat_status a ∨ sets_status (rd_response rd) = true →
  (is_void_status (rd_response rd) = true → rd_integrity_check rd = Ok tt) →
  safe payment_inv (payment_response_update_tracker flow d request rd) s.
Proof.
  intros Hinv Ha Hid Hst Hvoid. pose proof Hinv as [Hk _].
  unfold payment_response_update_tracker. apply safe_lift_bind; [done|]. intros [d' update] Hu.
  pose proof (attempt_update_facts _ _ _ _ _ _ Hu) as [Hd Hup].
  unfold api. apply safe_lift_bind; [done|]. intros amount_captured _.
  set (v := get_payment_intent_update_data _ rd amount_captured).
  pose proof (intent_update_data_facts
    (with_attempt match update with Some u => update_attempt_row u (pd_attempt d') | None => pd_attempt d' end d')
    rd amount_captured) as [Hact Hs]. fold v in Hact, Hs. simpl in Hs.
  assert (∀ s', payment_inv s' → ∀ i row,
    safe payment_inv (match rd_integrity_check rd with
                      | Ok _ => sr_ret (with_intent i (with_attempt row d'))
                      | Err (field_names, _) => sr_err (IntegrityCheckFailed field_names)
                      end) s') as Hend by (intros; by destruct (rd_integrity_check rd) as [|[]]).
  destruct update as [u|].
  - destruct Hup as [st Hust].
    destruct (is_void_status (rd_response rd)) eqn:Hv.
    { exfalso. unfold attempt_update in Hu. rewrite (Hvoid eq_refl) in Hu.
      destruct (rd_response rd) as [[]|]; try done.
      by apply result_bind_ok in Hu as (? & _ & ?). }
    unfold safe, sr_bind at 1.
    rewrite (update_attempt_run s a) by (by rewrite ?Hd). simpl.
    apply Hend, (updated_rows_inv u v a s); try done.
    apply (follows_updated v u _ _ st Hust). rewrite Hs.
    by unfold update_attempt_row, apply_attempt_changeset; simpl; rewrite Hust.
  - simpl. unfold safe, sr_bind, sr_ret. simpl. apply Hend.
    destruct (is_void_status (rd_response rd)) eqn:Hv; [by apply intent_kept_inv|].
    destruct Hst as [Hst|Hst]; [|congruence].
    apply (intent_status_inv v a s); try done.
    unfold follows, update_intent_row, apply_intent_changeset. simpl. by rewrite Hs, Hd, Hst.
Qed.

End answers.

(** ** Operations *)

Lemma find_rows_facts gate s d s' :
  find_rows gate s = (Ok d, s') →
  s' = s ∧ gate (pin_status (ps_intent s)) = Ok tt ∧
  active_attempt s = Some (pd_attempt d) ∧ d = mkPaymentData (ps_intent s) (pd_attempt d) None None [].
Proof.
  unfold find_rows, sr_bind, sr_get, sr_lift, find_attempt, active_attempt. simpl.
  destruct (gate _) as [[]|e]; [|done]. destruct (_ !! _) as [a|]; simpl; [|done]. by intros [= <- <-].
Qed.

Lemma find_rows_store gate s : (find_rows gate s).2 = s.
Proof.
  unfold find_rows, sr_bind, sr_get, sr_lift, find_attempt. simpl.
  destruct (gate _) as [[]|e]; [|done]. by destruct (_ !! _).
Qed.

Lemma complete_operation_inv calls call d trackers record s :
  safe payment_inv (trackers d) s → payment_inv s →
  (∀ rd d' s', call = Answers rd → trackers d s = (Ok d', s') → payment_inv s' →
     safe payment_inv (record d' rd) s') →
  safe payment_inv (complete_operation calls call d trackers record) s.
Proof.
  intros Ht Hs Hr. unfold complete_operation. destruct calls; [|done].
  destruct call as [| |rd]; [done| |]; apply safe_bind; try done.
  intros d' s' Hd' Hs'. by eapply Hr.
Qed.

(** An operation that reads the rows, computes the total and completes. *)
Lemma rows_operation_inv gate s (k : PaymentData → payment PaymentData) :
  payment_inv s →
  (∀ a, active_attempt s = Some a → pat_id a = pin_active_attempt (ps_intent s) →
     gate (pin_status (ps_intent s)) = Ok tt →
     safe payment_inv (k (mkPaymentData (ps_intent s) a None None [])) s) →
  safe payment_inv (d <- find_rows gate ;; k d) s.
Proof.
  intros Hinv Hk. apply safe_bind; [unfold safe; by rewrite find_rows_store|].
  intros d s' Hd Hs'. apply find_rows_facts in Hd as (-> & Hg & Ha & Hd).
  rewrite Hd. apply Hk; [done| |done]. eapply active_id; [by destruct Hinv|done].
Qed.

Lemma safe_api_bind {A B} I (r : result ApiError A) (k : A → payment B) s :
  I s → (∀ a, r = Ok a → safe I (k a) s) → safe I (sr_bind (api r) k) s.
Proof.
  intros Hs Hk. apply safe_lift_bind; [done|]. intros a Ha. apply Hk. destruct r; by inversion Ha.
Qed.

Lemma cancel_update_trackers_inv d s a :
  payment_inv s → active_attempt s = Some a → pat_id (pd_attempt d) = pin_active_attempt (ps_intent s) →
  pd_intent d = ps_intent s →
  ∃ d' a' s', cancel_update_trackers d s = (Ok d', s') ∧ payment_inv s' ∧ active_attempt s' = Some a' ∧
    pd_attempt d' = pd_attempt d ∧ pin_active_attempt (ps_intent s') = pin_active_attempt (ps_intent s).
Proof.
  intros [Hk _] Ha Hid Hd. unfold cancel_update_trackers. rewrite Hd.
  destruct (decide (pin_status (ps_intent s) = IntentStatus_RequiresCapture)) as [Hst|Hst];
    unfold sr_bind, sr_ret.
  - rewrite (update_attempt_run s a) by done.
    eexists _, (update_attempt_row _ a), _. split; [done|].
    split_and!; [|unfold active_attempt; simpl; apply lookup_insert_eq|done|done].
    split; [apply keyed_insert; [done|]; exact (active_id s a Hk Ha)|].
    eexists. split; [unfold active_attempt; simpl; apply lookup_insert_eq|]. by right.
  - simpl. erewrite (update_attempt_run _ a) by done. simpl.
    eexists _, (update_attempt_row _ a), _. split; [done|].
    split_and!; [|unfold active_attempt; simpl; apply lookup_insert_eq|done|done].
    split; [apply (keyed_insert s); [done|]; exact (active_id s a Hk Ha)|].
    eexists. split; [unfold active_attempt; simpl; apply lookup_insert_eq|]. by left.
Qed.

Lemma payments_cancel_inv pre_authorize reason call s :
  answer_fits (CancelRequest pre_authorize reason) call = true → payment_inv s →
  safe payment_inv (payments_cancel pre_authorize reason call) s.
Proof.
  intros Hfit Hinv. apply rows_operation_inv; [done|]. intros a Ha Hid _.
  apply safe_api_bind; [done|]. intros _ _. simpl.
  set (d := with_attempt _ _).
  destruct (cancel_update_trackers_inv d s a) as (d' & a' & s' & Hrun & Hinv' & Ha' & Hd' & Hact); try done.
  apply complete_operation_inv; [by unfold safe; rewrite Hrun|done|].
  intros rd d1 s1 -> Hrun' _. rewrite Hrun in Hrun'. simplify_eq.
  assert (pat_id (pd_attempt d1) = pin_active_attempt (ps_intent s1)) by (by rewrite Hact, Hd').
  case_match; (eapply update_tracker_inv; [done|done|done|by right|done]).
Qed.

(** An operation that changes no row before the call. *)
Lemma direct_operation_inv {T} `{Capturable T} calls call d s a flow (request : T) (check : RouterData → RouterData) :
  payment_inv s → active_attempt s = Some a → pat_id (pd_attempt d) = pin_active_attempt (ps_intent s) →
  pat_status (pd_attempt d) = pat_status a →
  (∀ rd, call = Answers rd → is_void_status (rd_response (check rd)) = true → rd_integrity_check (check rd) = Ok tt) →
  safe payment_inv
    (complete_operation calls call d sr_ret (λ d rd, payment_response_update_tracker flow d request (check rd))) s.
Proof.
  intros Hinv Ha Hid Hst Hcheck. apply complete_operation_inv; [done|done|].
  intros rd d' s' Hcall [= <- <-] _. eapply update_tracker_inv; [done|done|done|by left|by apply Hcheck].
Qed.

Lemma payments_cancel_post_capture_inv reason call s :
  payment_inv s → safe payment_inv (payments_cancel_post_capture reason call) s.
Proof.
  intros Hinv. apply rows_operation_inv; [done|]. intros a Ha Hid _.
  apply safe_api_bind; [done|]. intros _ _. cbv zeta.
  apply safe_lift_bind; [done|]. intros _ _.
  by eapply (direct_operation_inv _ _ _ _ _ _ _ unchecked).
Qed.

Lemma payments_cancel_post_capture_sync_inv call s :
  payment_inv s → safe payment_inv (payments_cancel_post_capture_sync call) s.
Proof.
  intros Hinv. apply rows_operation_inv; [done|]. intros a Ha Hid _.
  apply safe_api_bind; [done|]. intros _ _. apply safe_lift_bind; [done|]. intros _ _.
  by eapply (direct_operation_inv _ _ _ _ _ _ _ unchecked).
Qed.

Lemma payments_extend_authorization_inv call s :
  payment_inv s → safe payment_inv (payments_extend_authorization call) s.
Proof.
  intros Hinv. apply rows_operation_inv; [done|]. intros a Ha Hid _.
  apply safe_bind; [by case_decide|]. intros u s' Hs' _.
  assert (s' = s) as -> by (revert Hs'; case_decide; [by intros [= <-]|done]).
  apply safe_api_bind; [done|]. intros _ _. by eapply (direct_operation_inv _ _ _ _ _ _ _ unchecked).
Qed.

Lemma void_status_refused rd : negb (is_void_status (rd_response rd)) = true →
  is_void_status (rd_response rd) = true → rd_integrity_check rd = Ok tt.
Proof. by intros ->%negb_true_iff. Qed.

Lemma payments_sync_inv r call s :
  answer_fits (RetrieveRequest r) call = true → payment_inv s → safe payment_inv (payments_sync r call) s.
Proof.
  intros Hfit Hinv. apply rows_operation_inv; [done|]. intros a Ha Hid _.
  apply safe_api_bind; [done|]. intros _ _. apply safe_get_bind.
  eapply (direct_operation_inv _ _ _ _ _ _ _ (λ rd, rd)); try done.
  intros rd ->. by apply void_status_refused.
Qed.

(** Updates before the call that set no status. *)
Lemma attempt_kept_inv s a u :
  payment_inv s → active_attempt s = Some a → pu_status (update_internal u) = None →
  let s' := set_attempts (<[pin_active_attempt (ps_intent s) := update_attempt_row u a]> (ps_attempts s)) s in
  payment_inv s' ∧ active_attempt s' = Some (update_attempt_row u a) ∧
  pat_status (update_attempt_row u a) = pat_status a.
Proof.
  intros [Hk (b & Hb & Hf)] Ha Hu s'. rewrite Ha in Hb. simplify_eq.
  assert (pat_status (update_attempt_row u b) = pat_status b) as Hst.
  { unfold update_attempt_row, apply_attempt_changeset. simpl. by rewrite Hu. }
  assert (active_attempt s' = Some (update_attempt_row u b)) as Ha'.
  { unfold active_attempt. simpl. apply lookup_insert_eq. }
  split_and!; [|done|done]. split; [apply keyed_insert; [done|exact (active_id s b Hk Ha)]|].
  exists (update_attempt_row u b). split; [done|]. unfold follows, void_unanswered in *. by rewrite Hst.
Qed.

Lemma capture_get_trackers_facts requested s d s' :
  capture_get_trackers requested s = (Ok d, s') →
  s' = s ∧ ∃ a, active_attempt s = Some a ∧ pd_intent d = ps_intent s ∧
    pd_attempt d = with_amount_to_capture (or_keep requested (pat_amount_to_capture a)) a.
Proof.
  unfold capture_get_trackers, sr_bind, sr_get, find_attempt, api, sr_lift, active_attempt, map_err. simpl.
  destruct (_ !! _) as [a|]; simpl; [|done]. destruct (pat_capture_method a); simpl; [|done].
  repeat (case_match; simpl; try done).
  all: intros [= <- <-]; split; [done|]; by exists a.
Qed.

Lemma capture_get_trackers_store requested s : (capture_get_trackers requested s).2 = s.
Proof.
  unfold capture_get_trackers, sr_bind, sr_get, find_attempt, api, sr_lift, map_err. simpl.
  destruct (_ !! _) as [a|]; simpl; [|done]. destruct (pat_capture_method a); simpl; [|done].
  repeat (case_match; simpl; try done).
Qed.

Lemma payments_capture_inv requested call s :
  answer_fits (CaptureRequest requested) call = true → payment_inv s →
  safe payment_inv (payments_capture requested call) s.
Proof.
  intros Hfit Hinv. apply safe_bind; [unfold safe; by rewrite capture_get_trackers_store|].
  intros d s' Hd _. apply capture_get_trackers_facts in Hd as (-> & a & Ha & Hi & Hat).
  pose proof (active_id s a (proj1 Hinv) Ha) as Hid.
  apply safe_api_bind; [done|]. intros request _.
  assert (∃ d' a' s', capture_update_trackers d s = (Ok d', s') ∧ payment_inv s' ∧ active_attempt s' = Some a' ∧
    pat_id (pd_attempt d') = pin_active_attempt (ps_intent s') ∧ pat_status (pd_attempt d') = pat_status a')
    as (d' & a' & s' & Hrun & Hinv' & Ha' & Hid' & Hst').
  { unfold capture_update_trackers. destruct (pat_amount_to_capture (pd_attempt d)) as [amount|] eqn:Hamount.
    - unfold sr_bind. rewrite (update_attempt_run s a) by (by rewrite ?Hat). unfold sr_ret.
      destruct (attempt_kept_inv s a (CaptureUpdate (Some amount)) Hinv Ha eq_refl) as (? & ? & _).
      eexists _, _, _. split; [done|]. split_and!; try done.
    - exists d, a, s. split_and!; try done; by rewrite Hat. }
  apply complete_operation_inv; [by unfold safe; rewrite Hrun|done|].
  intros rd d1 s1 -> Hrun' _. rewrite Hrun in Hrun'. simplify_eq.
  eapply update_tracker_inv; [done|done|done|by left|by apply void_status_refused].
Qed.

Lemma payments_complete_authorize_inv call s :
  answer_fits CompleteAuthorizeRequest call = true → payment_inv s →
  safe payment_inv (payments_complete_authorize call) s.
Proof.
  intros Hfit Hinv. apply rows_operation_inv; [done|]. intros a Ha Hid _.
  apply safe_api_bind; [done|]. intros _ _.
  apply complete_operation_inv; [by apply intent_kept_inv|done|].
  intros rd d' s' -> [= <- <-] Hinv'.
  by eapply update_tracker_inv; [done|done|done|by left|].
Qed.

(** *** Incremental authorization *)

Lemma intent_kept_preserves v :
  iu_active_attempt (intent_update_internal v) = None → iu_status (intent_update_internal v) = None →
  sr_preserves payment_inv (update_payment_intent v).
Proof. intros Hact Hst. apply sr_preserves_intro. intros s Hs. by apply intent_kept_inv. Qed.

Lemma attempt_kept_preserves this u :
  pu_status (update_internal u) = None →
  sr_preserves payment_inv (update_payment_attempt_with_attempt_id this u).
Proof.
  intros Hu. apply sr_preserves_intro. intros s Hinv. pose proof Hinv as [Hk (a & Ha & Hf)].
  destruct (decide (pat_id this = pin_active_attempt (ps_intent s))) as [Hid|Hid].
  { rewrite (update_attempt_run s a) by done. by apply attempt_kept_inv. }
  unfold update_payment_attempt_with_attempt_id. destruct (ps_attempts s !! pat_id this) as [row|] eqn:Hrow; [|done].
  split; [apply keyed_insert; [done|exact (Hk _ _ Hrow)]|]. exists a. split; [|done].
  unfold active_attempt. simpl. by rewrite lookup_insert_ne.
Qed.

Lemma insert_authorization_preserves x : sr_preserves payment_inv (insert_authorization x).
Proof. apply sr_preserves_intro. intros s Hs. unfold insert_authorization. by case_match. Qed.

Lemma update_authorization_preserves id f : sr_preserves payment_inv (update_authorization id f).
Proof. apply sr_preserves_intro. intros s Hs. unfold update_authorization. by case_match. Qed.

Lemma lift_preserves {A} (r : result PaymentError A) : sr_preserves payment_inv (sr_lift r).
Proof. by apply sr_preserves_intro. Qed.

Lemma err_preserves {A} (e : PaymentError) : sr_preserves payment_inv (sr_err (A := A) e).
Proof. by apply sr_preserves_intro. Qed.

#[local] Hint Resolve insert_authorization_preserves update_authorization_preserves lift_preserves err_preserves : sr.
#[local] Hint Extern 1 (sr_preserves _ (update_payment_intent _)) => by apply intent_kept_preserves : sr.
#[local] Hint Extern 1 (sr_preserves _ (update_payment_attempt_with_attempt_id _ _)) =>
  by apply attempt_kept_preserves : sr.
#[local] Hint Extern 1 (sr_preserves _ (api _)) => apply lift_preserves : sr.

Lemma incremental_update_trackers_preserves generated d :
  sr_preserves payment_inv (incremental_update_trackers generated d).
Proof. unfold incremental_update_trackers. repeat (case_match || eapply sr_preserves_bind || intros); eauto with sr. Qed.

Lemma incremental_update_tracker_preserves d rd :
  sr_preserves payment_inv (incremental_update_tracker d rd).
Proof.
  unfold incremental_update_tracker. destruct (pd_incremental d) as [details|]; [|auto with sr].
  apply sr_preserves_bind; [by repeat case_match; auto with sr|]. intros succeeds.
  apply sr_preserves_bind.
  - destruct succeeds; [|auto with sr]. repeat (apply sr_preserves_bind; [auto with sr|]; intros ?). auto with sr.
  - intros d'. destruct (iad_authorization_id details); auto with sr.
Qed.

Lemma incremental_get_trackers_store amount s : (incremental_get_trackers amount s).2 = s.
Proof.
  unfold incremental_get_trackers, sr_bind, sr_get, find_attempt, api, sr_lift, map_err. simpl.
  destruct (validate_incremental_authorization_status _); [|done]. case_decide; simpl; [|done].
  destruct (_ !! _) as [row|]; simpl; [|done]. destruct (attempt_total row) as [total|]; simpl; [|done].
  by destruct (amount <=? total)%Z.
Qed.

Lemma payments_incremental_authorization_inv amount generated call s :
  payment_inv s → safe payment_inv (payments_incremental_authorization amount generated call) s.
Proof.
  intros Hinv. unfold payments_incremental_authorization. apply safe_bind.
  { unfold safe. by rewrite incremental_get_trackers_store. }
  intros d s' _ Hs'. apply complete_operation_inv; [|done|].
  - apply safe_preserves; [apply incremental_update_trackers_preserves|done].
  - intros rd d' s1 _ _ Hs1. apply safe_preserves; [apply incremental_update_tracker_preserves|done].
Qed.

(** *** Confirmation *)

Lemma confirm_statuses_follow c : (confirm_statuses c).1.1 = intent_status_of (confirm_statuses c).1.2.
Proof. unfold confirm_statuses. by repeat case_match. Qed.

Lemma retry_statuses_follow has_data :
  payment_intent_status_fsm has_data (Some true) =
  intent_status_of (payment_attempt_status_fsm has_data (Some true)).
Proof. by destruct has_data. Qed.

(** The rows that a confirmation or a retry continues with. *)
Definition holds_active (s : PaymentStore) (i : PaymentIntent) (a : PaymentAttempt) : Prop :=
  i = ps_intent s ∧ active_attempt s = Some a.

Lemma modify_rows_inv t has_data s a :
  payment_inv s → active_attempt s = Some a →
  match modify_payment_intent_and_payment_attempt t has_data (ps_intent s) a s with
  | (Ok (i', a'), s') => payment_inv s' ∧ holds_active s' i' a'
  | (Err _, s') => s' = s
  end.
Proof.
  intros Hinv Ha. destruct t; simpl; [|done].
  unfold sr_bind, api, sr_lift, map_err. destruct (i16_succ _) as [n|]; [|done].
  unfold make_new_manual_retry_payment_attempt. destruct (attempt_total a) as [total|]; simpl; [|done].
  unfold insert_payment_attempt. simpl.
  destruct (ps_attempts s !! attempt_id_of (pat_payment_id a) n) eqn:Hnew; simpl; [done|].
  split; [|split; [done|apply lookup_insert_eq]].
  split; [by apply (keyed_insert s); [destruct Hinv|]|].
  eexists. split; [apply lookup_insert_eq|]. left. apply retry_statuses_follow.
Qed.

Lemma confirm_rows_inv c :
  sr_triple payment_inv (confirm_rows c)
    (λ d s, payment_inv s ∧ ∃ a, holds_active s (pd_intent d) a ∧
       pat_id (pd_attempt d) = pat_id a ∧ pat_status (pd_attempt d) = pat_status a)
    (λ _, payment_inv).
Proof.
  unfold confirm_rows.
  apply (triple_bind _ _ _ (λ i s, payment_inv s ∧ i = ps_intent s)); [by intros s Hs|]. intros i.
  apply (triple_bind _ _ _ (λ _ s, payment_inv s ∧ i = ps_intent s)).
  { intros s [Hs Hi]. unfold sr_lift. by destruct (validate_confirm_status _ _). }
  intros _. apply (triple_bind _ _ _ (λ a s, payment_inv s ∧ holds_active s i a)).
  { intros s [Hs ->]. unfold find_attempt, holds_active, active_attempt. by destruct (_ !! _). }
  intros a. apply (triple_bind _ _ _ (λ rows s, payment_inv s ∧ holds_active s rows.1 rows.2)).
  { assert (sr_triple (λ s, payment_inv s ∧ holds_active s i a)
      (attempt_type <- sr_lift (get_attempt_type (ci_now c) i a (ci_is_manual_retry_enabled c)
         (ci_intent_fulfillment_time c) (ci_has_payment_token c) "confirm") ;;
       modify_payment_intent_and_payment_attempt attempt_type (ci_has_payment_method_data c) i a)
      (λ rows s, payment_inv s ∧ holds_active s rows.1 rows.2) (λ _, payment_inv)) as Hretry.
    { intros s [Hs [-> Ha]]. unfold sr_bind, sr_lift. destruct (get_attempt_type _ _ _ _ _ _ _) as [t|]; [|done].
      pose proof (modify_rows_inv t (ci_has_payment_method_data c) s a Hs Ha) as Hm.
      destruct (modify_payment_intent_and_payment_attempt _ _ _ _ s) as [[[i' a']|e] s']; [done|by subst]. }
    destruct (pin_status i); try exact Hretry; by apply triple_ret. }
  intros rows. apply triple_ret. intros s [Hs Ha]. split; [done|]. by exists (rows.2).
Qed.

Lemma confirm_update_trackers_inv c d s a :
  payment_inv s → holds_active s (pd_intent d) a → pat_id (pd_attempt d) = pat_id a →
  ∃ d' a' s', confirm_update_trackers c d s = (Ok d', s') ∧ payment_inv s' ∧ holds_active s' (pd_intent d') a' ∧
    pd_attempt d' = a'.
Proof.
  intros Hinv [Hi Ha] Hid. pose proof Hinv as [Hk _].
  unfold confirm_update_trackers. pose proof (confirm_statuses_follow c) as Hf.
  destruct (confirm_statuses c) as [[st ast] [code message]]. simpl in Hf.
  unfold sr_bind, sr_ret. rewrite (update_attempt_run s a) by (rewrite ?Hid; auto using active_id). simpl.
  eexists _, (update_attempt_row _ a), _. split; [done|]. split_and!; [|split; [done|]|done].
  - apply (updated_rows_inv _ (Update st (pin_amount (pd_intent d))) a s); try done.
  - unfold active_attempt. simpl. apply lookup_insert_eq.
Qed.

Lemma payments_confirm_inv c call s :
  answer_fits (ConfirmRequest c) call = true → payment_inv s → safe payment_inv (payments_confirm c call) s.
Proof.
  intros Hfit Hinv. pose proof (confirm_rows_inv c s Hinv) as Hrows. apply safe_bind.
  { unfold safe. by destruct (confirm_rows c s) as [[]]; simpl; [destruct Hrows|]. }
  intros d s' Hd _. rewrite Hd in Hrows. destruct Hrows as (Hinv' & a & Hact & Hid & Hst).
  destruct (confirm_update_trackers_inv c d s' a) as (d1 & a1 & s1 & Hrun & Hinv1 & [_ Ha1] & Hd1); try done.
  apply complete_operation_inv; [by unfold safe; rewrite Hrun|done|].
  intros rd d2 s2 -> Hrun' _. rewrite Hrun in Hrun'. simplify_eq.
  eapply update_tracker_inv; [done|done| |by left|by apply void_status_refused].
  exact (active_id _ _ (proj1 Hinv1) Ha1).
Qed.

(** *** Approval and rejection *)

(** The intent and then the active attempt are set to statuses that belong
    together, or to those they have. *)
Lemma statuses_set_inv s a v u :
  payment_inv s → active_attempt s = Some a → iu_active_attempt (intent_update_internal v) = None →
  let i' := update_intent_row v (ps_intent s) in
  follows i' (update_attempt_row u a) ∨
    (pin_status i' = pin_status (ps_intent s) ∧ pat_status (update_attempt_row u a) = pat_status a) →
  let s' := set_attempts (<[pin_active_attempt (ps_intent s) := update_attempt_row u a]> (ps_attempts s))
              (set_intent i' s) in
  payment_inv s' ∧ active_attempt s' = Some (update_attempt_row u a).
Proof.
  intros [Hk (b & Hb & Hf)] Ha Hv i' Hst s'. rewrite Ha in Hb. simplify_eq.
  assert (active_attempt s' = Some (update_attempt_row u b)) as Ha'.
  { unfold active_attempt. simpl. rewrite Hv. simpl. apply lookup_insert_eq. }
  split; [|done]. split; [apply (keyed_insert s); [done|exact (active_id s b Hk Ha)]|].
  exists (update_attempt_row u b). split; [done|]. destruct Hst as [Hst|[Hi Hst]]; [by left|].
  unfold follows, void_unanswered in *. change (ps_intent s') with i'. by rewrite Hi, Hst.
Qed.

Lemma review_operation_inv gate fc s (k : PaymentData → payment PaymentData) :
  payment_inv s →
  (∀ a, active_attempt s = Some a → pat_id a = pin_active_attempt (ps_intent s) →
     safe payment_inv (k (mkPaymentData (ps_intent s) a (fst <$> fc_message fc) None [])) s) →
  safe payment_inv (d <- review_get_trackers gate fc ;; k d) s.
Proof.
  intros Hinv Hk. apply safe_bind.
  { apply rows_operation_inv; [done|]. intros a _ _ _. by apply safe_api_bind. }
  intros d s' Hd _. unfold review_get_trackers, sr_bind at 1 in Hd.
  destruct (find_rows gate s) as [[d0|e] s0] eqn:Hrows; [|done].
  apply find_rows_facts in Hrows as (-> & _ & Ha & Hd0).
  unfold sr_bind, api, sr_lift, sr_ret, map_err in Hd. destruct (pd_total d0); [|done]. simplify_eq.
  rewrite Hd0. simpl. apply Hk; [done|]. exact (active_id s' _ (proj1 Hinv) Ha).
Qed.

Lemma payments_approve_inv fc call s :
  answer_fits (ApproveRequest fc) call = true → payment_inv s → safe payment_inv (payments_approve fc call) s.
Proof.
  intros Hfit Hinv. apply review_operation_inv; [done|]. intros a Ha Hid.
  apply safe_api_bind; [done|]. intros request _. cbv zeta.
  set (d := mkPaymentData _ a _ _ _). set (frm := if skips_connector _ _ then _ else _).
  assert (∃ d' a' s', approve_update_trackers frm d s = (Ok d', s') ∧ payment_inv s' ∧ active_attempt s' = Some a' ∧
    pat_id (pd_attempt d') = pin_active_attempt (ps_intent s') ∧ pat_status (pd_attempt d') = pat_status a')
    as (d' & a' & s' & Hrun & Hinv' & Ha' & Hid' & Hst').
  { unfold approve_update_trackers, sr_bind, sr_ret, frm. destruct (skips_connector _ _); simpl;
      (erewrite (update_attempt_run _ a) by done; eexists _, _, _; split; [done|]).
    - destruct (statuses_set_inv s a (ApproveUpdate IntentStatus_RequiresCapture)
        (StatusUpdate AttemptStatus_Authorized)) as [? ?]; [done|done|done|by left|]. split_and!; done.
    - destruct (statuses_set_inv s a (ApproveUpdate (pin_status (ps_intent s))) (StatusUpdate (pat_status a)))
        as [? ?]; [done|done|done|by right|]. split_and!; done. }
  apply complete_operation_inv; [by unfold safe; rewrite Hrun|done|].
  intros rd d1 s1 -> Hrun' _. rewrite Hrun in Hrun'. simplify_eq.
  eapply update_tracker_inv; [done|done|done|by left|by apply void_status_refused].
Qed.

Lemma reject_update_trackers_run fc d s a :
  active_attempt s = Some a → pat_id (pd_attempt d) = pin_active_attempt (ps_intent s) →
  let u := RejectUpdate AttemptStatus_Failure (fraud_check_error (fc_message fc)).1
             (fraud_check_error (fc_message fc)).2 in
  let i' := update_intent_row (IntentRejectUpdate IntentStatus_Failed) (ps_intent s) in
  reject_update_trackers fc d s =
    (Ok (with_intent i' (with_attempt (update_attempt_row u a) d)),
     set_attempts (<[pin_active_attempt (ps_intent s) := update_attempt_row u a]> (ps_attempts s)) (set_intent i' s)).
Proof.
  intros Ha Hid. unfold reject_update_trackers, sr_bind, sr_ret. simpl.
  destruct (fraud_check_error (fc_message fc)) as [code message].
  by erewrite (update_attempt_run _ a) by done.
Qed.

Lemma payments_reject_inv fc call s :
  payment_inv s → safe payment_inv (payments_reject fc call) s.
Proof.
  intros Hinv. apply review_operation_inv; [done|]. intros a Ha Hid.
  set (d := mkPaymentData _ a _ _ _).
  pose proof (reject_update_trackers_run fc d s a Ha Hid) as Hrun. cbv zeta in Hrun.
  destruct (statuses_set_inv s a (IntentRejectUpdate IntentStatus_Failed)
    (RejectUpdate AttemptStatus_Failure (fraud_check_error (fc_message fc)).1 (fraud_check_error (fc_message fc)).2))
    as [Hinv' Ha']; [done|done|done|by left|].
  apply complete_operation_inv; [by unfold safe; rewrite Hrun|done|].
  intros rd d1 s1 -> Hrun' _. rewrite Hrun in Hrun'. simplify_eq.
  by eapply update_tracker_inv; [done|done|done|by left|].
Qed.

(** Every request keeps the invariant. *)
Lemma payments_core_inv request call s :
  answer_fits request call = true → payment_inv s → payment_inv (payments_core request call s).2.
Proof.
  intros Hfit Hinv. destruct request; simpl.
  - by apply payments_confirm_inv.
  - by apply payments_complete_authorize_inv.
  - by apply payments_capture_inv.
  - by eapply payments_cancel_inv.
  - by apply payments_cancel_post_capture_inv.
  - by apply payments_cancel_post_capture_sync_inv.
  - by apply payments_sync_inv.
  - by apply payments_extend_authorization_inv.
  - by apply payments_incremental_authorization_inv.
  - by apply payments_approve_inv.
  - by apply payments_reject_inv.
Qed.
