(* ===== verification/PaymentFlowTheorems.v ===== *)
(** * Payments: the theorems about the operations

    The status of the intent follows that of the attempt through any operations;
    a settled payment stays settled; when a failed payment can be retried; what a
    capture, a cancellation, an incremental authorization and a void after the
    capture leave behind. *)

From S2P Require Import Prelude Currency PaymentEnums PaymentStatus.
From S2P Require Import Scheduler Disputes Refunds.
From S2P Require Import Captures PaymentRows PaymentGates PaymentResponse PaymentFlows PaymentFlowFacts.
From stdpp Require Import gmap strings.

#[local] Open Scope sr_scope.

(** ** Any operations *)

(** The store after requests, each with the outcome of its call. *)
Definition run_payment (l : list (PaymentRequest * ConnectorCall)) (s : PaymentStore) : PaymentStore :=
  foldl (λ s rc, (payments_core rc.1 rc.2 s).2) s l.

(** [C3] Through any sequence of confirmations, retries, completions, captures,
    cancellations, voids, synchronisations, authorizations, approvals and rejections,
    with answers of the
    shape of their requests, errors and lost calls, the payment has an active attempt and the status of the intent
    is the one that belongs to the status of that attempt, except while a void that
    has been sent is not answered. *)
Theorem intent_follows_attempt (l : list (PaymentRequest * ConnectorCall)) (s : PaymentStore) :
  payment_inv s → Forall (λ rc, answer_fits rc.1 rc.2 = true) l →
  ∃ a, active_attempt (run_payment l s) = Some a ∧
    (pin_status (ps_intent (run_payment l s)) = intent_status_of (pat_status a) ∨
     (pin_status (ps_intent (run_payment l s)) = IntentStatus_RequiresCapture ∧
      pat_status a = AttemptStatus_VoidInitiated)).
Proof.
  intros Hinv Hl. assert (payment_inv (run_payment l s)) as [_ Hr]; [|done].
  revert s Hinv. induction Hl as [|[request call] l Hfit _ IH]; intros s Hinv; [done|].
  apply IH. by apply payments_core_inv.
Qed.

(** ** Settled payments *)

(** The requests that may change a payment that has succeeded. *)
Definition touches_settled (request : PaymentRequest) : bool :=
  match request with
  | CancelPostCaptureRequest _ | CancelPostCaptureSyncRequest => true
  | RetrieveRequest r => default false (sy_all_keys_required r) || sy_capture_failure_webhook r
  | _ => false
  end.

(** [C4] A payment that has succeeded is changed by no confirmation, completion,
    capture, cancellation, authorization, approval or rejection, and by a retrieval only when it asks for
    all keys or carries the webhook of a failed capture: whatever the connector
    would answer, the rows stay as they are. *)
Theorem settled_payment_kept (request : PaymentRequest) (call : ConnectorCall) (s : PaymentStore) :
  pin_status (ps_intent s) = IntentStatus_Succeeded → touches_settled request = false →
  (payments_core request call s).2 = s.
Proof.
  intros Hst Ht. destruct request as [c| |amount|pre reason|reason| |r| |amount generated|fc|fc]; try done; simpl.
  - unfold payments_confirm, confirm_rows, sr_bind, sr_get, sr_lift, validate_confirm_status. simpl. rewrite Hst.
    by destruct (ci_from_webhook_or_authenticator c).
  - unfold payments_complete_authorize, find_rows, sr_bind, sr_get, sr_lift. simpl. by rewrite Hst.
  - unfold payments_capture, capture_get_trackers, sr_bind, sr_get, sr_lift, find_attempt, api, map_err.
    simpl. destruct (_ !! _) as [a|]; [|done]. simpl. destruct (pat_capture_method a) as [m|]; [|done]. simpl.
    rewrite Hst. by destruct m.
  - unfold payments_cancel, find_rows, sr_bind, sr_get, sr_lift. simpl. by rewrite Hst.
  - simpl in Ht. apply orb_false_iff in Ht as [Hall Hwebhook].
    unfold payments_sync, sr_bind at 1. destruct (find_rows (λ _, Ok tt) s) as [[d|e] s'] eqn:Hd;
      pose proof (find_rows_store (λ _, Ok tt) s) as Hs'; rewrite Hd in Hs'; simpl in Hs'; subst s'; [|done].
    apply find_rows_facts in Hd as (_ & _ & _ & ->). unfold sr_bind, api, sr_lift, map_err, sr_get. simpl.
    destruct (pd_total _); [|done]. unfold complete_operation, should_call_connector, call_context. simpl.
    by rewrite Hall, Hwebhook, Hst.
  - unfold payments_extend_authorization, find_rows, sr_bind, sr_get, sr_lift. simpl. by rewrite Hst.
  - unfold payments_incremental_authorization, incremental_get_trackers, sr_bind, sr_get, sr_lift. simpl.
    by rewrite Hst.
  - unfold payments_approve, review_get_trackers, find_rows, sr_bind, sr_get, sr_lift. simpl. by rewrite Hst.
  - unfold payments_reject, review_get_trackers, find_rows, sr_bind, sr_get, sr_lift. simpl. by rewrite Hst.
Qed.

(** ** Manual retries *)

(** The rows of a confirmation that starts a new attempt. *)
Lemma confirm_new_attempt c s a total :
  active_attempt s = Some a → attempt_total a = Ok total →
  pin_status (ps_intent s) = IntentStatus_Failed →
  get_attempt_type (ci_now c) (ps_intent s) a (ci_is_manual_retry_enabled c) (ci_intent_fulfillment_time c)
    (ci_has_payment_token c) "confirm" = Ok AttemptType_New →
  (pin_attempt_count (ps_intent s) < i16_max)%Z →
  let id := attempt_id_of (pat_payment_id a) (pin_attempt_count (ps_intent s) + 1) in
  ps_attempts s !! id = None →
  let (rows, s') := confirm_rows c s in
  (∃ d, rows = Ok d ∧ pat_id (pd_attempt d) = id) ∧ pin_active_attempt (ps_intent s') = id ∧
  pin_attempt_count (ps_intent s') = (pin_attempt_count (ps_intent s) + 1)%Z ∧
  ps_attempts s' !! pin_active_attempt (ps_intent s) = Some a.
Proof.
  intros Ha Htotal Hst Htype Hcount id Hfresh.
  unfold active_attempt in Ha. unfold confirm_rows. unfold sr_bind, sr_get, sr_lift, find_attempt. cbv beta iota.
  assert (validate_confirm_status (ci_from_webhook_or_authenticator c) (pin_status (ps_intent s)) = Ok tt) as ->.
  { rewrite Hst. by destruct (ci_from_webhook_or_authenticator c). }
  rewrite Ha. cbn [ok_or]. rewrite Hst. rewrite Htype.
  unfold modify_payment_intent_and_payment_attempt, i16_succ, make_new_manual_retry_payment_attempt.
  unfold sr_bind, api, sr_lift, insert_payment_attempt. cbv beta iota.
  rewrite (proj2 (Z.ltb_lt _ _) Hcount), Htotal. cbn [map_err mbind result_bind pat_id]. fold id. rewrite Hfresh.
  unfold sr_bind, update_payment_intent, sr_ret. cbn -[attempt_id_of]. split_and!; [by eexists|done|done|].
  rewrite lookup_insert_ne; [done|]. intros Heq. rewrite Heq in Hfresh. congruence.
Qed.

Lemma confirm_refused c s a e :
  active_attempt s = Some a → pin_status (ps_intent s) = IntentStatus_Failed →
  get_attempt_type (ci_now c) (ps_intent s) a (ci_is_manual_retry_enabled c) (ci_intent_fulfillment_time c)
    (ci_has_payment_token c) "confirm" = Err e →
  confirm_rows c s = (Err e, s).
Proof.
  intros Ha Hst Htype. unfold active_attempt in Ha. unfold confirm_rows.
  unfold sr_bind, sr_get, sr_lift, find_attempt. cbv beta iota.
  assert (validate_confirm_status (ci_from_webhook_or_authenticator c) (pin_status (ps_intent s)) = Ok tt) as ->.
  { rewrite Hst. by destruct (ci_from_webhook_or_authenticator c). }
  rewrite Ha. cbn [ok_or]. by rewrite Hst, Htype.
Qed.

(** [C19] What the API tells the merchant about a retry is what a confirmation does,
    when the profile allows manual retries, the time for them has not passed and the
    merchant is not one of those that send payment ids as reference ids.  Take a
    payment whose intent follows its attempt and whose next attempt can be numbered
    and stored.  When it is advertised as retryable the confirmation starts a new,
    active attempt, the next one, and keeps the old one; when it is advertised as not
    retryable the confirmation is refused with a precondition and nothing changes;
    when nothing is advertised nothing changes: a payment that waits for its payment
    method or its confirmation goes on with the attempt it has, one that waits for the
    customer goes on only from a webhook or an authenticator, and one that waits for
    the merchant is refused with a precondition. *)
Theorem manual_retry_advertised (c : ConfirmInput) (s : PaymentStore) (a : PaymentAttempt) (total : Z) :
  payment_inv s → active_attempt s = Some a → attempt_total a = Ok total →
  (pin_attempt_count (ps_intent s) < i16_max)%Z →
  ps_attempts s !! attempt_id_of (pat_payment_id a) (pin_attempt_count (ps_intent s) + 1) = None →
  ci_is_manual_retry_enabled c = Some true →
  validate_manual_retry_cutoff (ci_now c) (pin_created_at (ps_intent s)) (pin_session_expiry (ps_intent s))
    (ci_intent_fulfillment_time c) (ci_has_payment_token c) = true →
  let (rows, s') := confirm_rows c s in
  match is_manual_retry_allowed (pin_status (ps_intent s)) (pat_status a) false with
  | Some true =>
      let id := attempt_id_of (pat_payment_id a) (pin_attempt_count (ps_intent s) + 1) in
      (∃ d, rows = Ok d ∧ pat_id (pd_attempt d) = id) ∧ pin_active_attempt (ps_intent s') = id ∧
      pin_attempt_count (ps_intent s') = (pin_attempt_count (ps_intent s) + 1)%Z ∧
      ps_attempts s' !! pin_active_attempt (ps_intent s) = Some a
  | Some false => (∃ message, rows = Err (Precondition message)) ∧ s' = s
  | None =>
      let goes_on := ∃ d, rows = Ok d ∧ pd_intent d = ps_intent s ∧ pat_id (pd_attempt d) = pat_id a in
      let refused := ∃ message, rows = Err (Precondition message) in
      s' = s ∧
      match pin_status (ps_intent s) with
      | IntentStatus_RequiresPaymentMethod | IntentStatus_RequiresConfirmation => goes_on
      | IntentStatus_RequiresCustomerAction => if ci_from_webhook_or_authenticator c then goes_on else refused
      | IntentStatus_RequiresMerchantAction => refused
      | _ => False
      end
  end.
Proof.
  intros [_ (b & Hb & Hf)] Ha Htotal Hcount Hfresh Henabled Hcut. rewrite Ha in Hb. injection Hb as <-.
  destruct (decide (pin_status (ps_intent s) = IntentStatus_Failed)) as [Hst|Hst].
  - assert (∀ st, pat_status a = st → intent_status_of st = IntentStatus_Failed) as Hat.
    { intros st <-. destruct Hf as [Hf|[? _]]; [by rewrite <- Hf|congruence]. }
    pose proof (confirm_new_attempt c s a total Ha Htotal Hst) as Hnew.
    pose proof (λ e, confirm_refused c s a e Ha Hst) as Hno.
    unfold get_attempt_type in Hnew, Hno. rewrite Hst, Henabled, Hcut in Hnew, Hno.
    rewrite decide_True in Hnew, Hno by done. rewrite Hst.
    destruct (pat_status a); try (by specialize (Hat _ eq_refl));
      cbn [is_manual_retry_allowed fmap option_fmap option_map andb negb].
    all: first [by apply Hnew | rewrite (Hno _ eq_refl); by split; [eexists|]].
  - unfold confirm_rows. unfold sr_bind, sr_get, sr_lift, find_attempt. cbv beta iota.
    unfold active_attempt in Ha. rewrite Ha. cbn [ok_or].
    unfold get_attempt_type, sr_ret, validate_confirm_status, validate_payment_status_against_not_allowed_statuses.
    destruct (pin_status (ps_intent s)) eqn:Hi, (ci_from_webhook_or_authenticator c); try done; cbv -[status_message].
    all: first [split; [by eexists|done] | split; [done|by eexists]].
Qed.

(** ** One operation on a payment *)

(** Every request to refund a payment in this status is refused. *)
Definition refunds_refused (st : IntentStatus) : Prop :=
  ∀ blake3_hex gsm_refund gsm_authorize scheme `{TimeRange} now conf world req t,
    pi_status (intent t) = st →
    refund_create_core blake3_hex gsm_refund gsm_authorize scheme now conf world req t =
      (Err (R_PaymentUnexpectedState (to_string st)), t).

Lemma refund_refused st :
  st ≠ IntentStatus_Succeeded → st ≠ IntentStatus_PartiallyCaptured → refunds_refused st.
Proof.
  intros Hs Hp ? ? ? ? ? ? ? ? ? t <-. unfold refund_create_core, requested_refund_amount, sr_bind, sr_get. simpl.
  rewrite decide_False; [done|]. by intros [?|?].
Qed.

Section one_payment.
Context (s : PaymentStore) (a : PaymentAttempt) (total : Z).
Hypothesis keyed : attempts_keyed s.
Hypothesis active : active_attempt s = Some a.
Hypothesis total_ok : attempt_total a = Ok total.

Lemma find_rows_run gate : gate (pin_status (ps_intent s)) = Ok tt →
  find_rows gate s = (Ok (mkPaymentData (ps_intent s) a None None []), s).
Proof.
  intros Hg. unfold find_rows, sr_bind, sr_get, sr_lift, find_attempt. rewrite Hg.
  unfold active_attempt in active. by rewrite active.
Qed.

(** A cancellation that does not call the connector. *)
Lemma cancel_uncalled_run pre reason :
  validate_cancel_status (pin_status (ps_intent s)) = Ok tt →
  pin_status (ps_intent s) ≠ IntentStatus_RequiresCapture →
  calls PaymentCancel (mkPaymentData (ps_intent s) a None None [])
    (cancel_flow_name pre (pin_status (ps_intent s))) = false →
  ∃ d, ∀ call, payments_core (CancelRequest pre reason) call s =
    (Ok d, updated_rows (VoidUpdate AttemptStatus_Voided reason) (PGStatusUpdate IntentStatus_Cancelled None) a s).
Proof.
  intros Hg Hst Hcalls. eexists. intros call. simpl. unfold payments_cancel, sr_bind at 1. rewrite find_rows_run by done.
  unfold sr_bind at 1, api, sr_lift, pd_total. simpl. rewrite total_ok. simpl.
  unfold complete_operation. unfold calls, call_context in Hcalls |- *. simpl in Hcalls |- *. rewrite Hcalls.
  unfold cancel_update_trackers. simpl. rewrite decide_False by done. unfold sr_bind, sr_ret. simpl.
  rewrite (update_attempt_run _ a) by (done || exact (active_id s a keyed active)). done.
Qed.
End one_payment.

(** ** Reviews *)

(** A payment that the fraud check holds for review is settled without the
    connector: approved it is authorized and waits for its capture, rejected it has
    failed with the verdict of the check; no amount changes. *)
Theorem review_decided (fc : FraudCheck) (call : ConnectorCall) (s : PaymentStore) (a : PaymentAttempt) (total : Z) :
  payment_inv s → active_attempt s = Some a → attempt_total a = Ok total →
  pat_status a = AttemptStatus_Unresolved → fc_manual_capture fc = true →
  let approved := payments_core (ApproveRequest fc) call s in
  let rejected := payments_core (RejectRequest fc) call s in
  is_ok approved.1 = true ∧ is_ok rejected.1 = true ∧
  pin_status (ps_intent approved.2) = IntentStatus_RequiresCapture ∧
  active_attempt approved.2 = Some (update_attempt_row (StatusUpdate AttemptStatus_Authorized) a) ∧
  pin_status (ps_intent rejected.2) = IntentStatus_Failed ∧
  active_attempt rejected.2 =
    Some (update_attempt_row (RejectUpdate AttemptStatus_Failure (fraud_check_error (fc_message fc)).1
                                (fraud_check_error (fc_message fc)).2) a).
Proof.
  intros Hinv Ha Htotal Hst Hfc approved rejected.
  pose proof (active_id s a (proj1 Hinv) Ha) as Hid.
  assert (pin_status (ps_intent s) = IntentStatus_RequiresMerchantAction) as Hi.
  { destruct Hinv as [_ (b & Hb & [Hf|[_ Hf]])]; rewrite Ha in Hb; simplify_eq; [by rewrite Hf, Hst|congruence]. }
  assert (∀ gate, gate IntentStatus_RequiresMerchantAction = Ok tt →
    review_get_trackers gate fc s = (Ok (mkPaymentData (ps_intent s) a (fst <$> fc_message fc) None []), s)) as Hrows.
  { intros gate Hg. unfold review_get_trackers, sr_bind at 1. rewrite (find_rows_run s a) by (by rewrite ?Hi).
    unfold sr_bind, api, sr_lift, sr_ret, pd_total. simpl. by rewrite Htotal. }
  assert (skips_connector fc a = true) as Hskip by (unfold skips_connector; by rewrite Hfc, Hst).
  assert (approved = (approve_update_trackers (Some FrmAuthorizeTransaction)
    (mkPaymentData (ps_intent s) a (fst <$> fc_message fc) None [])) s) as ->.
  { subst approved. simpl. unfold payments_approve, sr_bind at 1. rewrite Hrows by done.
    unfold sr_bind at 1, api, sr_lift, capture_request, pd_total. simpl. rewrite Htotal. simpl.
    by rewrite Hskip. }
  assert (rejected = reject_update_trackers fc (mkPaymentData (ps_intent s) a (fst <$> fc_message fc) None []) s) as ->.
  { subst rejected. simpl. unfold payments_reject, sr_bind at 1. rewrite Hrows by done. simpl.
    by rewrite Hskip. }
  rewrite (reject_update_trackers_run fc _ s a) by done.
  unfold approve_update_trackers, sr_bind, sr_ret. simpl. erewrite (update_attempt_run _ a) by done.
  split_and!; try done; unfold active_attempt; simpl; apply lookup_insert_eq.
Qed.

(** The statuses in which a cancellation is accepted and the connector is not
    called. *)
Definition cancelled_alone : list IntentStatus :=
  [IntentStatus_RequiresPaymentMethod; IntentStatus_RequiresConfirmation; IntentStatus_PartiallyCaptured;
   IntentStatus_PartiallyAuthorizedAndRequiresCapture; IntentStatus_PartiallyCapturedAndProcessing;
   IntentStatus_CancelledPostCapture; IntentStatus_Conflicted; IntentStatus_Expired].

Lemma cancelled_alone_facts st : st ∈ cancelled_alone →
  validate_cancel_status st = Ok tt ∧ st ≠ IntentStatus_RequiresCapture ∧
  ∀ pre d, pin_status (pd_intent d) = st → calls PaymentCancel d (cancel_flow_name pre st) = false.
Proof.
  intros Hin. apply (bool_decide_pack _) in Hin.
  destruct st; try (by vm_compute in Hin); (split_and!; [done|done|]; intros pre d Hd; unfold calls, call_context, should_call_connector, cancel_flow_name; simpl; by rewrite Hd).
Qed.

(** [C20] In each of these eight statuses a cancellation is accepted and the connector
    is not called: requires payment method, requires confirmation, partially captured,
    partially authorized, partially captured and processing, cancelled after the
    capture, conflicted and expired.  Only the first two of them are among the four
    that the API reference allows.  The intent becomes cancelled and the attempt
    voided; what is authorized stays at the connector, what has been captured stays
    recorded, and a refund of it is refused. *)
Theorem cancelled_without_connector (pre : bool) (reason : option string) (call : ConnectorCall)
    (s : PaymentStore) (a : PaymentAttempt) (total : Z) :
  payment_inv s → active_attempt s = Some a → attempt_total a = Ok total →
  pin_status (ps_intent s) ∈ cancelled_alone →
  let (answer, s') := payments_core (CancelRequest pre reason) call s in
  is_ok answer = true ∧
  pin_status (ps_intent s') = IntentStatus_Cancelled ∧
  pin_amount_captured (ps_intent s') = pin_amount_captured (ps_intent s) ∧
  (∃ a', active_attempt s' = Some a' ∧ pat_status a' = AttemptStatus_Voided ∧
     pat_amount_capturable a' = pat_amount_capturable a) ∧
  (∀ call', payments_core (CancelRequest pre reason) call' s = (answer, s')) ∧
  refunds_refused (pin_status (ps_intent s')).
Proof.
  intros [Hk _] Ha Htotal (Hg & Hne & Hcalls)%cancelled_alone_facts.
  destruct (cancel_uncalled_run s a total Hk Ha Htotal pre reason Hg Hne) as [d Hrun]; [by apply Hcalls|].
  rewrite Hrun. split_and!; [done|done|done| |by intros call'; rewrite Hrun|].
  - eexists. split; [unfold active_attempt; simpl; apply lookup_insert_eq|done].
  - by apply refund_refused.
Qed.

(** The record of an answer that updates the attempt. *)
Lemma update_tracker_run {T} `{Capturable T} flow d (request : T) rd d' u amount s a :
  attempt_update flow d request rd = Ok (d', Some u) →
  let d1 := with_attempt (update_attempt_row u (pd_attempt d')) d' in
  get_total_amount_captured request rd d1 = Ok amount →
  active_attempt s = Some a → pat_id (pd_attempt d) = pin_active_attempt (ps_intent s) →
  rd_integrity_check rd = Ok tt →
  let v := get_payment_intent_update_data d1 rd amount in
  payment_response_update_tracker flow d request rd s =
    (Ok (with_intent (update_intent_row v (ps_intent s)) (with_attempt (update_attempt_row u a) d')),
     updated_rows u v a s).
Proof.
  intros Hu d1 Hamount Ha Hid Hcheck v. pose proof (attempt_update_facts _ _ _ _ _ _ Hu) as [Hd _].
  unfold payment_response_update_tracker, sr_bind at 1, sr_lift. rewrite Hu.
  unfold sr_bind at 1, api, sr_lift. fold d1. rewrite Hamount. simpl.
  unfold sr_bind. rewrite (update_attempt_run s a) by (by rewrite ?Hd). simpl. by rewrite Hcheck.
Qed.

(** ** Void after the capture *)

Lemma void_statuses st : st = IntentStatus_Succeeded ∨ st = IntentStatus_PartiallyCaptured →
  validate_cancel_post_capture_status st = Ok tt ∧
  ∀ d, pin_status (pd_intent d) = st → calls PaymentCancelPostCapture d "PostCaptureVoid" = true.
Proof.
  intros [-> | ->]; (split; [done|]); intros d Hd; unfold calls, call_context, should_call_connector; simpl;
    by rewrite Hd.
Qed.

(** A void after the capture reaches the connector whatever refunds the payment
    has. *)
Lemma void_run reason rd s a total :
  payment_inv s → active_attempt s = Some a → attempt_total a = Ok total →
  pin_status (ps_intent s) = IntentStatus_Succeeded ∨ pin_status (ps_intent s) = IntentStatus_PartiallyCaptured →
  payments_core (CancelPostCaptureRequest reason) (Answers rd) s =
  payment_response_update_tracker "PostCaptureVoid"
    (mkPaymentData (ps_intent s) (with_cancellation_reason reason a) None None []) mkCancelPostCaptureData
    (unchecked rd) s.
Proof.
  intros [Hk _] Ha Htotal (Hg & Hcalls)%void_statuses. simpl.
  unfold payments_cancel_post_capture, sr_bind at 1. rewrite (find_rows_run s a) by done.
  unfold sr_bind at 1, api, sr_lift, pd_total. simpl. rewrite Htotal. simpl.
  unfold sr_bind at 1. simpl. unfold complete_operation.
  specialize (Hcalls (mkPaymentData (ps_intent s) (with_cancellation_reason reason a) None None []) eq_refl).
  simpl in Hcalls. by rewrite Hcalls.
Qed.

(** [C16] A void after the capture that the connector refuses turns a captured
    payment into a failed one: with an error that is no server error and names no
    status, the intent of a payment that has succeeded or been captured in part
    becomes failed while the captured amount stays recorded, refunds are refused,
    and a profile with manual retries starts a new attempt on confirmation. *)
Theorem refused_void_fails_payment (reason : option string) (rd : RouterData) (err : ErrorResponse)
    (s : PaymentStore) (a : PaymentAttempt) (total : Z) :
  payment_inv s → active_attempt s = Some a → attempt_total a = Ok total →
  pin_status (ps_intent s) = IntentStatus_Succeeded ∨ pin_status (ps_intent s) = IntentStatus_PartiallyCaptured →
  rd_response rd = Err err → er_attempt_status err = None →
  ¬ (500 <= er_status_code err <= 511)%Z →
  let s' := (payments_core (CancelPostCaptureRequest reason) (Answers rd) s).2 in
  pin_status (ps_intent s') = IntentStatus_Failed ∧
  pin_amount_captured (ps_intent s') = pin_amount_captured (ps_intent s) ∧
  refunds_refused (pin_status (ps_intent s')) ∧
  ∃ a', active_attempt s' = Some a' ∧ pat_status a' = AttemptStatus_Failure ∧
    ∀ now fulfillment_time token_based,
      validate_manual_retry_cutoff now (pin_created_at (ps_intent s')) (pin_session_expiry (ps_intent s'))
        fulfillment_time token_based = true →
      get_attempt_type now (ps_intent s') a' (Some true) fulfillment_time token_based "confirm" =
        Ok AttemptType_New.
Proof.
  intros Hinv Ha Htotal Hst Hresp Hnone Hcode s'. subst s'.
  rewrite (void_run reason rd s a total) by done.
  assert (error_attempt_status "PostCaptureVoid" err (unchecked rd) = AttemptStatus_Failure) as Hes.
  { unfold error_attempt_status. rewrite Hnone. simpl. case_match eqn:Hc; [|done].
    apply andb_true_iff in Hc as [?%Z.leb_le ?%Z.leb_le]. lia. }
  erewrite update_tracker_run; [|unfold attempt_update; simpl; rewrite Hresp, Hes; done|done|done| |done].
  2: exact (active_id s a (proj1 Hinv) Ha).
  unfold get_payment_intent_update_data. simpl. rewrite Hresp. simpl.
  split_and!; [done|done|by apply refund_refused|].
  eexists. split; [unfold active_attempt; simpl; apply lookup_insert_eq|]. split; [done|].
  intros now ft tb Hcut. unfold get_attempt_type. simpl. simpl in Hcut. by rewrite Hcut.
Qed.

(** A void after the capture is sent and recorded although refunds of the payment
    are pending or done: the guard against it looks at no refunds. *)
Theorem void_after_refund (reason : option string) (rd : RouterData) (void : PostCaptureVoidStatus)
    (s : PaymentStore) (a : PaymentAttempt) (total : Z) :
  payment_inv s → active_attempt s = Some a → attempt_total a = Ok total →
  pin_status (ps_intent s) = IntentStatus_Succeeded →
  rd_response rd = Ok (PostCaptureVoidResponse void) → rd_status rd = AttemptStatus_Charged →
  existsb is_refund_applied (ps_refunds s) = true →
  let (answer, s') := payments_core (CancelPostCaptureRequest reason) (Answers rd) s in
  is_ok answer = true ∧ pin_post_capture_void (ps_intent s') = Some void ∧
  pin_status (ps_intent s') = IntentStatus_Succeeded.
Proof.
  intros Hinv Ha Htotal Hst Hresp Hrd _.
  rewrite (void_run reason rd s a total) by auto.
  assert (∃ st, updated_attempt_status (mkPaymentData (ps_intent s) (with_cancellation_reason reason a) None None [])
    mkCancelPostCaptureData (unchecked rd) = Ok st) as [st Hstatus].
  { unfold updated_attempt_status, get_attempt_status_for_db_update, pd_total, attempt_total in *. simpl.
    rewrite Hrd, Htotal. simpl. destruct (pin_amount_captured (ps_intent s)); simpl; [case_match|]; by eexists. }
  unfold payment_response_update_tracker, attempt_update, sr_bind, sr_lift, api. simpl.
  rewrite Hresp, Hstatus. simpl.
  unfold get_payment_intent_update_data. simpl. rewrite Hresp. simpl. done.
Qed.
