(* ===== verification/PaymentAmounts.v ===== *)
(** * Payments: the amounts that captures and authorizations leave behind

    What the rows of a payment hold after a capture and after an incremental
    authorization, and which requests are refused. *)

From S2P Require Import Prelude Currency PaymentEnums PaymentStatus.
From S2P Require Import Scheduler Disputes Refunds.
From S2P Require Import Captures PaymentRows PaymentGates PaymentResponse PaymentFlows PaymentFlowFacts PaymentFlowTheorems.
From stdpp Require Import gmap strings pretty.

#[local] Open Scope sr_scope.

(** ** Captures *)

(** A payment whose status admits no capture refuses every request. *)
Lemma capture_refused_by_status requested call s :
  pin_status (ps_intent s) = IntentStatus_Succeeded ∨ pin_status (ps_intent s) = IntentStatus_PartiallyCaptured →
  is_ok (payments_core (CaptureRequest requested) call s).1 = false ∧
  (payments_core (CaptureRequest requested) call s).2 = s.
Proof.
  intros Hst. simpl. unfold payments_capture, capture_get_trackers, sr_bind, sr_get, sr_lift, find_attempt, api, map_err.
  simpl. destruct (_ !! _) as [a|]; [|done]. simpl. destruct (pat_capture_method a) as [m|]; [|done]. simpl.
  destruct Hst as [-> | ->]; by destruct m.
Qed.

Section capture.
Context (s : PaymentStore) (a : PaymentAttempt) (total amount : Z).
Hypothesis inv : payment_inv s.
Hypothesis active : active_attempt s = Some a.
Hypothesis total_ok : attempt_total a = Ok total.
Hypothesis awaits_capture : pin_status (ps_intent s) = IntentStatus_RequiresCapture.
Hypothesis manual : pat_capture_method a = Some CaptureMethod_Manual.
Hypothesis no_overcapture : default false (pat_is_overcapture_enabled a) = false.

(** The rows and the request of the capture. *)
Lemma capture_get_trackers_run : (0 < amount <= pat_amount_capturable a)%Z →
  capture_get_trackers (Some amount) s =
    (Ok (mkPaymentData (ps_intent s) (with_amount_to_capture (Some amount) a) None None []), s).
Proof using active total_ok awaits_capture manual no_overcapture.
  intros [Hpos Hle]. unfold capture_get_trackers, sr_bind, sr_get, sr_lift, find_attempt, api, map_err.
  unfold active_attempt in active. rewrite active. simpl. rewrite manual, awaits_capture, no_overcapture. simpl.
  rewrite (proj2 (Z.leb_gt _ _) Hpos), (proj2 (Z.ltb_ge _ _) Hle). simpl.
  unfold attempt_total in *. simpl. by rewrite total_ok.
Qed.

Lemma capture_refused_by_amount call : ¬ (0 < amount <= pat_amount_capturable a)%Z →
  is_ok (payments_core (CaptureRequest (Some amount)) call s).1 = false ∧
  (payments_core (CaptureRequest (Some amount)) call s).2 = s.
Proof using active awaits_capture manual no_overcapture.
  intros Hn. simpl. unfold payments_capture, capture_get_trackers, sr_bind, sr_get, sr_lift, find_attempt, api, map_err.
  unfold active_attempt in active. rewrite active. simpl. rewrite manual, awaits_capture, no_overcapture. simpl.
  destruct (amount <=? 0)%Z eqn:H0; [done|]. destruct (pat_amount_capturable a <? amount)%Z eqn:H1; [done|].
  bool_facts. lia.
Qed.

(** The store while the connector is called. *)
Definition capturing : PaymentStore :=
  set_attempts (<[pin_active_attempt (ps_intent s) := update_attempt_row (CaptureUpdate (Some amount)) a]>
                  (ps_attempts s)) s.

Lemma capture_run rd : (0 < amount <= pat_amount_capturable a)%Z →
  payments_core (CaptureRequest (Some amount)) (Answers rd) s =
  payment_response_update_tracker "Capture"
    (mkPaymentData (ps_intent s) (update_attempt_row (CaptureUpdate (Some amount)) a) None None [])
    (mkCaptureData amount) rd capturing.
Proof using active total_ok awaits_capture manual no_overcapture inv.
  intros Hamount. simpl. unfold payments_capture, sr_bind at 1. rewrite capture_get_trackers_run by done.
  unfold sr_bind at 1, api, sr_lift, capture_request, pd_total. simpl.
  change (attempt_total (with_amount_to_capture (Some amount) a)) with (attempt_total a). rewrite total_ok. simpl.
  unfold complete_operation, calls, call_context, should_call_connector. simpl. rewrite awaits_capture. simpl.
  unfold sr_bind at 1, capture_update_trackers. simpl. unfold sr_bind at 1.
  by rewrite (update_attempt_run s a) by (done || exact (active_id s a (proj1 inv) active)).
Qed.
End capture.

(** [C17] Take a payment that awaits its capture, with a single manual capture
    (the capture method [manual]) and without overcapture.  A capture request for an
    amount is refused, leaving the rows, exactly when the amount is not positive or
    above what can be captured.  Otherwise a charge that the connector answers, whose
    data pass the integrity check, makes the payment succeeded when the amount reaches
    the total and partially captured when it is below, records the captured amount,
    leaves nothing to capture, clears the error, and every later capture is refused. *)
Theorem capture_recorded (s : PaymentStore) (a : PaymentAttempt) (total amount : Z) (rd : RouterData)
    (resource_id redirection : option string) (allowed : option bool) :
  payment_inv s → active_attempt s = Some a → attempt_total a = Ok total →
  pin_status (ps_intent s) = IntentStatus_RequiresCapture → pat_capture_method a = Some CaptureMethod_Manual →
  default false (pat_is_overcapture_enabled a) = false →
  rd_status rd = AttemptStatus_Charged → rd_response rd = Ok (TransactionResponse resource_id redirection allowed) →
  rd_integrity_check rd = Ok tt →
  let (answer, s') := payments_core (CaptureRequest (Some amount)) (Answers rd) s in
  if decide (0 < amount <= pat_amount_capturable a)%Z then
    is_ok answer = true ∧
    pin_status (ps_intent s') =
      (if (total <=? amount)%Z then IntentStatus_Succeeded else IntentStatus_PartiallyCaptured) ∧
    pin_amount_captured (ps_intent s') = Some (default amount (rd_amount_captured rd)) ∧
    (∃ a', active_attempt s' = Some a' ∧ pat_amount_capturable a' = 0%Z ∧ pat_amount_to_capture a' = Some amount ∧
       pat_error_code a' = None ∧ attempt_total a' = Ok total) ∧
    ∀ requested call, is_ok (payments_core (CaptureRequest requested) call s').1 = false ∧
      (payments_core (CaptureRequest requested) call s').2 = s'
  else is_ok answer = false ∧ s' = s.
Proof.
  intros Hinv Ha Htotal Hst Hm Ho Hcharged Hresp Hcheck.
  case_decide as Hamount.
  2: { destruct (capture_refused_by_amount s a amount Ha Hst Hm Ho (Answers rd) Hamount) as [Hres Hs'].
       by destruct (payments_core _ _ s) as [answer s']. }
  rewrite (capture_run s a total amount) by done.
  set (a1 := update_attempt_row (CaptureUpdate (Some amount)) a).
  set (st := if (total <=? amount)%Z then AttemptStatus_Charged else AttemptStatus_PartialCharged).
  assert (attempt_total a1 = Ok total) as Htotal1 by done.
  assert (active_attempt (capturing s a amount) = Some a1) as Ha1.
  { unfold active_attempt, capturing. simpl. apply lookup_insert_eq. }
  set (d := mkPaymentData (ps_intent s) a1 None None []).
  assert (updated_attempt_status d (mkCaptureData amount) rd = Ok st) as Hstatus.
  { unfold updated_attempt_status, get_attempt_status_for_db_update. rewrite Hcharged. simpl.
    unfold pd_total. simpl. rewrite Htotal1. simpl. unfold st. by case_match. }
  assert (∃ d' u, attempt_update "Capture" d (mkCaptureData amount) rd = Ok (d', Some u) ∧
    u = ResponseUpdate st resource_id (Some 0%Z) redirection (Some None)
          (or_keep (rd_is_overcapture_enabled rd) (pin_enable_overcapture (ps_intent s))) (rd_authorized_amount rd))
    as (d' & u & Hu & Hu').
  { unfold attempt_update. rewrite Hresp, Hcheck, Hstatus. simpl. rewrite decide_True by done.
    unfold st. case_match; by eexists _, _. }
  erewrite update_tracker_run;
    [|exact Hu|done|exact Ha1|exact (active_id s a (proj1 Hinv) Ha)|done].
  unfold get_payment_intent_update_data. rewrite Hresp, Hu'. simpl.
  rewrite decide_True by done.
  assert (intent_status_of st =
    if (total <=? amount)%Z then IntentStatus_Succeeded else IntentStatus_PartiallyCaptured) as Hfinal
    by (unfold st; by case_match).
  split_and!; [done|done|by destruct (rd_amount_captured rd)| |].
  - eexists. split; [unfold active_attempt; simpl; apply lookup_insert_eq|]. done.
  - intros requested call. apply capture_refused_by_status. simpl. rewrite Hfinal. case_match; auto.
Qed.

(** ** Incremental authorizations *)

Definition amounts_nonneg (n : NetAmount) : Prop :=
  (0 <= order_amount n ∧ 0 <= default 0 (shipping_cost n) ∧ 0 <= default 0 (order_tax_amount n) ∧
   0 <= default 0 (surcharge_amount n) ∧ 0 <= default 0 (tax_on_surcharge n) ∧
   0 <= default 0 (installment_interest n) ∧ 0 <= default 0 (offer_amount n))%Z.

(** What is added to the order, without the offer. *)
Definition additions (n : NetAmount) : Z :=
  (default 0 (shipping_cost n) + default 0 (order_tax_amount n) + default 0 (surcharge_amount n) +
   default 0 (tax_on_surcharge n) + default 0 (installment_interest n))%Z.

Lemma checked_i64_ok z : (i64_min <= z <= i64_max)%Z → checked_i64 z = Some z.
Proof.
  intros Hz. unfold checked_i64, in_i64.
  by rewrite (proj2 (Z.leb_le _ _) (proj1 Hz)), (proj2 (Z.leb_le _ _) (proj2 Hz)).
Qed.

Lemma checked_i64_value z z' : checked_i64 z = Some z' → z' = z ∧ (i64_min <= z <= i64_max)%Z.
Proof. unfold checked_i64, in_i64. case_match eqn:Hz; [|done]. intros [= <-]. bool_facts. lia. Qed.

Lemma minor_add_ok x y : (i64_min <= x + y <= i64_max)%Z → minor_add x y = Ok (x + y)%Z.
Proof. intros Hz. unfold minor_add. by rewrite checked_i64_ok. Qed.

Lemma minor_sub_ok x y : (i64_min <= x - y <= i64_max)%Z → minor_sub x y = Ok (x - y)%Z.
Proof. intros Hz. unfold minor_sub. by rewrite checked_i64_ok. Qed.

Lemma minor_add_value x y z : minor_add x y = Ok z → z = (x + y)%Z.
Proof.
  unfold minor_add, ok_or. destruct (checked_i64 _) eqn:Hz; [|done]. intros [= <-].
  by apply checked_i64_value in Hz as [-> _].
Qed.

Lemma minor_sub_value x y z : minor_sub x y = Ok z → z = (x - y)%Z ∧ (i64_min <= z <= i64_max)%Z.
Proof.
  unfold minor_sub, ok_or. destruct (checked_i64 _) eqn:Hz; [|done]. intros [= <-].
  by apply checked_i64_value in Hz as [-> Hz].
Qed.

Lemma total_value n total : get_total_amount n = Ok total →
  total = (order_amount n + additions n - default 0 (offer_amount n))%Z ∧ (i64_min <= total <= i64_max)%Z.
Proof.
  unfold get_total_amount. intros (x1 & H1%minor_add_value & H)%result_bind_ok.
  do 4 (apply result_bind_ok in H as (? & ?%minor_add_value & H)). apply minor_sub_value in H.
  unfold additions. lia.
Qed.

Lemma total_in_range n : amounts_nonneg n → (order_amount n + additions n <= i64_max)%Z →
  (default 0 (offer_amount n) <= i64_max)%Z →
  get_total_amount n = Ok (order_amount n + additions n - default 0 (offer_amount n))%Z.
Proof.
  unfold amounts_nonneg, additions. intros Hn Hmax Ho.
  assert (i64_min <= - i64_max)%Z by done.
  unfold get_total_amount.
  rewrite minor_add_ok by lia. simpl. rewrite minor_add_ok by lia. simpl. rewrite minor_add_ok by lia. simpl.
  rewrite minor_add_ok by lia. simpl. rewrite minor_add_ok by lia. simpl. rewrite minor_sub_ok by lia.
  f_equal. lia.
Qed.

Lemma update_absent {A} (p : A → bool) (f : A → A) l : existsb p l = false →
  (λ y, if p y then f y else y) <$> l = l.
Proof.
  induction l as [|y l IH]; [done|]. simpl. intros [Hy Hl]%orb_false_iff. rewrite Hy. f_equal. by apply IH.
Qed.

Section incremental.
Context (s : PaymentStore) (a : PaymentAttempt) (total amount count : Z) (generated : string).
Hypothesis inv : payment_inv s.
Hypothesis active : active_attempt s = Some a.
Hypothesis total_ok : attempt_total a = Ok total.
Hypothesis total_nonneg : (0 <= total)%Z.
Hypothesis nonneg : amounts_nonneg (pat_net_amount a).
Hypothesis awaits_capture : pin_status (ps_intent s) = IntentStatus_RequiresCapture.
Hypothesis is_allowed : pin_incremental_authorization_allowed (ps_intent s) = Some true.
Hypothesis more : (total < amount)%Z.
Hypothesis bounded : (amount + default 0 (offer_amount (pat_net_amount a)) <= i64_max)%Z.
Hypothesis counted : default 0%Z (pin_authorization_count (ps_intent s)) = count.
Hypothesis count_bounded : (count < i32_max)%Z.

Definition record_id : string := (generated +:+ "_" +:+ pretty (count + 1)%Z)%string.

Hypothesis fresh : existsb (λ y, String.eqb (auth_id y) record_id) (ps_authorizations s) = false.

Definition new_record : Authorization :=
  mkAuthorization record_id amount AuthorizationStatus_Processing None None None total.

(** The store while the connector is called. *)
Definition incrementing : PaymentStore :=
  set_intent (update_intent_row (AuthorizationCountUpdate (count + 1)) (ps_intent s))
    (set_authorizations (ps_authorizations s ++ [new_record]) s).

Lemma incremental_run rd :
  payments_core (IncrementalAuthorizationRequest amount generated) (Answers rd) s =
  incremental_update_tracker
    (mkPaymentData (update_intent_row (AuthorizationCountUpdate (count + 1)) (ps_intent s)) a None
       (Some (mkIncrementalDetails amount (Some record_id))) []) rd incrementing.
Proof using active total_ok awaits_capture is_allowed more counted count_bounded fresh.
  simpl. unfold payments_incremental_authorization, incremental_get_trackers.
  unfold sr_bind at 1 2, sr_get. unfold sr_bind at 1, sr_lift at 1. rewrite awaits_capture. simpl.
  unfold sr_bind at 1. rewrite is_allowed. simpl.
  unfold sr_bind at 1, find_attempt. unfold active_attempt in active. rewrite active. simpl.
  unfold sr_bind at 1, api, sr_lift. rewrite total_ok. simpl.
  unfold sr_bind at 1. rewrite (proj2 (Z.leb_gt _ _) more). simpl.
  unfold complete_operation, calls, call_context, should_call_connector. simpl. rewrite awaits_capture. simpl.
  unfold sr_bind at 1, incremental_update_trackers. simpl.
  assert (∀ t, match pin_authorization_count (ps_intent s) with
               | Some count => api (i32_succ count) | None => sr_ret 1%Z end t =
               (Ok (count + 1)%Z, t) :> result PaymentError Z * PaymentStore) as Hnext.
  { intros t. destruct (pin_authorization_count (ps_intent s)) as [k|]; simpl in counted; [|by rewrite <- counted].
    rewrite counted. unfold api, sr_lift, i32_succ. by rewrite (proj2 (Z.ltb_lt _ _) count_bounded). }
  unfold sr_bind at 1. rewrite Hnext. unfold api, sr_lift. simpl.
  unfold sr_bind at 1, pd_total, map_err. simpl. rewrite total_ok.
  unfold sr_bind at 1, insert_authorization. simpl. fold record_id. by rewrite fresh.
Qed.

(** The order that, with the additions and the offer, makes the amount. *)
Definition new_order : Z := (amount - total + order_amount (pat_net_amount a))%Z.

Lemma new_order_computed :
  get_additional_amount (pat_net_amount a) = Ok (total - order_amount (pat_net_amount a))%Z ∧
  minor_sub amount (total - order_amount (pat_net_amount a)) = Ok new_order.
Proof using total_ok total_nonneg nonneg more bounded.
  pose proof (total_value _ _ total_ok) as [Hvalue Hrange].
  destruct nonneg as (Ho & H1 & H2 & H3 & H4 & H5 & H6).
  assert (i64_min <= - i64_max)%Z by done.
  unfold new_order, get_additional_amount. unfold attempt_total in total_ok. rewrite total_ok. simpl.
  assert (Hadd : (0 <= additions (pat_net_amount a))%Z) by (unfold additions; lia).
  rewrite minor_sub_ok by lia. rewrite minor_sub_ok by lia. split; [done|f_equal; lia].
Qed.

Lemma new_total :
  get_total_amount (updated_net_amount
    (update_internal (IncrementalAuthorizationAmountUpdate (mkNetAmount new_order None None None None None None) amount))
    (pat_net_amount a)) = Ok amount.
Proof using total_ok total_nonneg nonneg more bounded.
  pose proof (total_value _ _ total_ok) as [Hvalue Hrange].
  destruct nonneg as (Ho & H1 & H2 & H3 & H4 & H5 & H6).
  rewrite total_in_range.
  - f_equal. unfold updated_net_amount, additions, new_order in *. simpl in *. lia.
  - unfold amounts_nonneg, updated_net_amount, new_order. simpl. lia.
  - unfold updated_net_amount, additions, new_order in *. simpl in *. lia.
  - unfold updated_net_amount. simpl. lia.
Qed.

(** The record of the authorization gets the answer, the others stay. *)
Lemma record_updated f t :
  ps_authorizations t = ps_authorizations s ++ [new_record] →
  update_authorization record_id f t = (Ok tt, set_authorizations (ps_authorizations s ++ [f new_record]) t).
Proof using fresh.
  intros Ht. unfold update_authorization. rewrite Ht, existsb_app. simpl. rewrite String.eqb_refl, orb_true_r.
  rewrite fmap_app, update_absent by done. simpl. by rewrite String.eqb_refl.
Qed.
End incremental.

(** What the record of an authorization gets from an answer: an error is a failure. *)
Definition authorization_answer (response : result ErrorResponse PaymentsResponseData) :
    option (AuthorizationStatus * option string * option string * option string) :=
  match response with
  | Err err => Some (AuthorizationStatus_Failure, Some (er_code err), Some (er_message err), None)
  | Ok (IncrementalAuthorizationResponse status code message connector_id) => Some (status, code, message, connector_id)
  | Ok _ => None
  end.

(** [C18] An incremental authorization, the first or a later one, of a payment that
    allows it, awaits its capture and has amounts that are not negative, for more
    than what is authorized and within an [i64], is answered by the connector, with
    an error or not: it ends with one more record, of that answer.  When the
    connector grants it, the total of the attempt, with its taxes, costs and offer,
    and the amount that can be captured are the requested amount, and the amount of
    the intent is the part of the order; otherwise no amount changes. *)
Theorem incremental_authorization_outcome (s : PaymentStore) (a : PaymentAttempt) (total amount count : Z)
    (generated : string) (rd : RouterData) (status : AuthorizationStatus) (code message connector_id : option string) :
  payment_inv s → active_attempt s = Some a → attempt_total a = Ok total → (0 <= total)%Z →
  amounts_nonneg (pat_net_amount a) →
  pin_status (ps_intent s) = IntentStatus_RequiresCapture →
  pin_incremental_authorization_allowed (ps_intent s) = Some true → (total < amount)%Z →
  (amount + default 0 (offer_amount (pat_net_amount a)) <= i64_max)%Z →
  default 0%Z (pin_authorization_count (ps_intent s)) = count → (count < i32_max)%Z →
  existsb (λ y, String.eqb (auth_id y) (record_id count generated)) (ps_authorizations s) = false →
  authorization_answer (rd_response rd) = Some (status, code, message, connector_id) →
  let (answer, s') := payments_core (IncrementalAuthorizationRequest amount generated) (Answers rd) s in
  is_ok answer = true ∧
  pin_status (ps_intent s') = IntentStatus_RequiresCapture ∧
  pin_authorization_count (ps_intent s') = Some (count + 1)%Z ∧
  ps_authorizations s' = ps_authorizations s ++
    [mkAuthorization (record_id count generated) amount status code message connector_id total] ∧
  ∃ a', active_attempt s' = Some a' ∧
    if decide (status = AuthorizationStatus_Success) then
      attempt_total a' = Ok amount ∧ pat_amount_capturable a' = amount ∧
      pin_amount (ps_intent s') = (amount - (total - order_amount (pat_net_amount a)))%Z
    else a' = a ∧ pin_amount (ps_intent s') = pin_amount (ps_intent s).
Proof.
  intros Hinv Ha Htotal Hpos Hn Hst Hallowed Hmore Hbound Hcount Hmax Hfresh Hresp.
  rewrite (incremental_run s a total amount count generated) by done.
  unfold incremental_update_tracker. simpl.
  set (s1 := incrementing s total amount count generated).
  assert (active_attempt s1 = Some a) as Ha1 by done.
  destruct (new_order_computed a total amount Htotal Hpos Hn Hmore Hbound) as [Hadd Horder].
  destruct (rd_response rd) as [[]|err]; try done; cbn in Hresp.
  2:{ injection Hresp as <- <- <- <-. unfold sr_bind, sr_ret. cbn [negb]. rewrite (record_updated s total amount count generated) by done.
      split_and!; try done. by exists a. }
  injection Hresp as -> -> -> ->. unfold sr_bind at 1, sr_ret at 1. case_decide as Hsucc.
  - rewrite bool_decide_true by done. unfold sr_bind at 1 2, api at 1, sr_lift at 1. rewrite Hadd. simpl.
    unfold sr_bind at 1, api, sr_lift. rewrite Horder. simpl.
    unfold sr_bind at 1. rewrite (update_attempt_run s1 a) by (done || exact (active_id s a (proj1 Hinv) Ha)).
    unfold sr_bind, update_payment_intent, sr_ret.
    rewrite (record_updated s total amount count generated) by done.
    split_and!; [done|done|done|by destruct code, message, connector_id|]. eexists.
    split; [unfold active_attempt; simpl; apply lookup_insert_eq|]. split_and!; [|done|].
    + by apply (new_total a total amount).
    + simpl. unfold new_order. lia.
  - rewrite bool_decide_false by done. unfold sr_bind, sr_ret.
    rewrite (record_updated s total amount count generated) by done.
    split_and!; [done|done|done|by destruct code, message, connector_id|]. by exists a.
Qed.
