(* ===== verification/PaymentExample.v ===== *)
(** * Payments: a payment and its operations

    A payment of 1100 with a single manual capture, the theorems of
    [PaymentFlowTheorems] and [PaymentAmounts] on it, and what two orders of
    operations lead to: a void whose answer is lost, and a payment that is
    cancelled while the customer authenticates. *)

From S2P Require Import Prelude Currency PaymentEnums PaymentStatus.
From S2P Require Import Scheduler Disputes Refunds.
From S2P Require Import Captures PaymentRows PaymentGates PaymentResponse PaymentFlows PaymentFlowFacts PaymentFlowTheorems PaymentAmounts.
From stdpp Require Import gmap strings.

Definition attempt_in (st : AttemptStatus) : PaymentAttempt := {|
  pat_id := "pay_1_1"; pat_payment_id := "pay_1"; pat_status := st;
  pat_net_amount := mkNetAmount 1000 (Some 100%Z) None None None None None;
  pat_amount_to_capture := None; pat_amount_capturable := 1100; pat_authorized_amount := None;
  pat_capture_method := Some CaptureMethod_Manual; pat_is_overcapture_enabled := None;
  pat_request_extended_authorization := None; pat_transaction_id := Some "txn"%string;
  pat_authentication_data := None; pat_cancellation_reason := None;
  pat_error_code := None; pat_error_message := None; pat_error_reason := None;
|}.

Definition intent_in (st : IntentStatus) (captured : option Z) : PaymentIntent := {|
  pin_status := st; pin_amount := 1000; pin_amount_captured := captured; pin_created_at := 0;
  pin_session_expiry := None; pin_attempt_count := 1; pin_active_attempt := "pay_1_1";
  pin_incremental_authorization_allowed := Some true; pin_request_incremental_authorization := None;
  pin_authorization_count := None; pin_enable_partial_authorization := None;
  pin_enable_overcapture := None; pin_post_capture_void := None;
|}.

Definition payment_in (st : AttemptStatus) (captured : option Z) : PaymentStore :=
  mkPaymentStore (intent_in (intent_status_of st) captured) {[ "pay_1_1"%string := attempt_in st ]} [] [].

Lemma payment_in_inv st captured : payment_inv (payment_in st captured).
Proof.
  split; [by apply map_Forall_singleton|]. exists (attempt_in st). split; [apply lookup_singleton_eq|by left].
Qed.

Definition answer (st : AttemptStatus) (response : result ErrorResponse PaymentsResponseData) : RouterData :=
  mkRouterData st response None None None None (Ok tt).

Definition transaction (st : AttemptStatus) : ConnectorCall :=
  Answers (answer st (Ok (TransactionResponse (Some "txn"%string) None None))).

Definition refusal : ErrorResponse := mkErrorResponse "400" "not voidable" None 400 None None.

(** ** The theorems on this payment *)

Lemma intent_follows_attempt_witness :
  let l := [(CancelRequest false None, CallFails); (CaptureRequest (Some 600%Z), transaction AttemptStatus_Charged);
            (CancelPostCaptureRequest None, Answers (answer AttemptStatus_PartialCharged (Err refusal)))] in
  ∃ a, active_attempt (run_payment l (payment_in AttemptStatus_Authorized None)) = Some a ∧
    (pin_status (ps_intent (run_payment l (payment_in AttemptStatus_Authorized None))) = intent_status_of (pat_status a) ∨
     (pin_status (ps_intent (run_payment l (payment_in AttemptStatus_Authorized None))) = IntentStatus_RequiresCapture ∧
      pat_status a = AttemptStatus_VoidInitiated)).
Proof. apply intent_follows_attempt; [apply payment_in_inv|repeat constructor]. Defined.

Lemma settled_payment_kept_witness :
  (payments_core (CaptureRequest (Some 100%Z)) (transaction AttemptStatus_Charged)
     (payment_in AttemptStatus_Charged (Some 1100%Z))).2 = payment_in AttemptStatus_Charged (Some 1100%Z).
Proof. apply settled_payment_kept; reflexivity. Defined.

Definition retry : ConfirmInput :=
  mkConfirmInput (60 * 10 ^ 9) false true true None (Some true) None None None None true
    (mkNetAmount 1000 (Some 100%Z) None None None None None) None None.

Lemma manual_retry_advertised_witness :
  let s := payment_in AttemptStatus_Failure None in
  is_manual_retry_allowed (pin_status (ps_intent s)) AttemptStatus_Failure false = Some true ∧
  pin_active_attempt (ps_intent (confirm_rows retry s).2) = "pay_1_2"%string ∧
  pin_attempt_count (ps_intent (confirm_rows retry s).2) = 2%Z.
Proof.
  cbv zeta.
  pose proof (manual_retry_advertised retry (payment_in AttemptStatus_Failure None) (attempt_in AttemptStatus_Failure) 1100
    (payment_in_inv _ _) eq_refl eq_refl eq_refl eq_refl eq_refl eq_refl) as H.
  split; [reflexivity|]. destruct (confirm_rows retry _) as [rows s'].
  destruct H as (_ & Hactive & Hcount & _). split; [exact Hactive|exact Hcount].
Defined.

Lemma cancelled_without_connector_witness :
  let s := payment_in AttemptStatus_PartialCharged (Some 600%Z) in
  let s' := (payments_core (CancelRequest false None) RequestFails s).2 in
  pin_status (ps_intent s') = IntentStatus_Cancelled ∧ pin_amount_captured (ps_intent s') = Some 600%Z ∧
  refunds_refused (pin_status (ps_intent s')).
Proof.
  pose proof (cancelled_without_connector false None RequestFails (payment_in AttemptStatus_PartialCharged (Some 600%Z))
    (attempt_in AttemptStatus_PartialCharged) 1100 (payment_in_inv _ _) eq_refl eq_refl) as H.
  simpl in H |- *. destruct H as (_ & ? & ? & _ & _ & ?); [|done].
  apply (bool_decide_unpack _). vm_compute. exact I.
Defined.

Lemma refused_void_fails_payment_witness :
  let s' := (payments_core (CancelPostCaptureRequest None) (Answers (answer AttemptStatus_Charged (Err refusal)))
               (payment_in AttemptStatus_Charged (Some 1100%Z))).2 in
  pin_status (ps_intent s') = IntentStatus_Failed ∧ pin_amount_captured (ps_intent s') = Some 1100%Z ∧
  refunds_refused (pin_status (ps_intent s')).
Proof.
  destruct (refused_void_fails_payment None (answer AttemptStatus_Charged (Err refusal)) refusal
    (payment_in AttemptStatus_Charged (Some 1100%Z)) (attempt_in AttemptStatus_Charged) 1100 (payment_in_inv _ _)
    eq_refl eq_refl (or_introl eq_refl) eq_refl eq_refl) as (? & ? & ? & _); [simpl; lia|done].
Defined.

Lemma capture_recorded_witness :
  let (res, s') := payments_core (CaptureRequest (Some 600%Z)) (transaction AttemptStatus_Charged)
                     (payment_in AttemptStatus_Authorized None) in
  is_ok res = true ∧ pin_status (ps_intent s') = IntentStatus_PartiallyCaptured ∧
  pin_amount_captured (ps_intent s') = Some 600%Z.
Proof.
  pose proof (capture_recorded (payment_in AttemptStatus_Authorized None) (attempt_in AttemptStatus_Authorized)
    1100 600 (answer AttemptStatus_Charged (Ok (TransactionResponse (Some "txn"%string) None None)))
    (Some "txn"%string) None None (payment_in_inv _ _) eq_refl eq_refl eq_refl eq_refl eq_refl eq_refl eq_refl eq_refl) as H.
  unfold transaction. destruct (payments_core _ _ _) as [res s'].
  rewrite decide_True in H by (simpl; lia). destruct H as (? & ? & ? & _). done.
Defined.

Lemma incremental_authorization_outcome_witness :
  let (res, s') := payments_core (IncrementalAuthorizationRequest 1500 "auth")
                     (Answers (answer AttemptStatus_Authorized
                        (Ok (IncrementalAuthorizationResponse AuthorizationStatus_Success None None None))))
                     (payment_in AttemptStatus_Authorized None) in
  is_ok res = true ∧ ∃ a', active_attempt s' = Some a' ∧ attempt_total a' = Ok 1500%Z ∧
    pat_amount_capturable a' = 1500%Z ∧ pin_amount (ps_intent s') = 1400%Z.
Proof.
  pose proof (incremental_authorization_outcome (payment_in AttemptStatus_Authorized None)
    (attempt_in AttemptStatus_Authorized) 1100 1500 0 "auth"
    (answer AttemptStatus_Authorized (Ok (IncrementalAuthorizationResponse AuthorizationStatus_Success None None None)))
    AuthorizationStatus_Success None None None (payment_in_inv _ _) eq_refl eq_refl ltac:(lia)
    ltac:(unfold amounts_nonneg; simpl; lia) eq_refl eq_refl ltac:(lia) ltac:(vm_compute; discriminate) eq_refl
    ltac:(vm_compute; reflexivity) eq_refl eq_refl) as H.
  destruct (payments_core _ _ _) as [res s']. destruct H as (? & _ & _ & _ & a' & Ha' & H).
  rewrite decide_True in H by done. split; [done|]. exists a'. destruct H as (? & ? & ?). done.
Defined.

(** ** Orders of operations *)

(** A void whose answer is lost leaves the authorization capturable, with an
    attempt that waits for the void. *)
Example void_answer_lost :
  let s := (payments_core (CancelRequest false None) CallFails (payment_in AttemptStatus_Authorized None)).2 in
  pin_status (ps_intent s) = IntentStatus_RequiresCapture ∧
  option_map pat_status (active_attempt s) = Some AttemptStatus_VoidInitiated ∧
  is_ok (payments_core (CaptureRequest None) (transaction AttemptStatus_Charged) s).1 = true.
Proof. split_and!; by_evaluation. Qed.

(** A payment that the merchant cancels while the customer authenticates is
    charged when the customer comes back. *)
Example cancelled_payment_charged :
  let s := (payments_core (CancelRequest false None) RequestFails (payment_in AttemptStatus_AuthenticationPending None)).2 in
  pin_status (ps_intent s) = IntentStatus_Cancelled ∧
  pin_status (ps_intent (payments_core CompleteAuthorizeRequest (transaction AttemptStatus_Charged) s).2) =
    IntentStatus_Succeeded.
Proof. split_and!; by_evaluation. Qed.

Definition no_check : FraudCheck := mkFraudCheck None false.

(** An approval is not limited to payments under review: a payment with a single
    manual capture that has been captured in part admits no other capture, and an
    approval asks the connector for one. *)
Example approval_captures_again :
  let s := (payments_core (CaptureRequest (Some 600%Z)) (transaction AttemptStatus_Charged)
              (payment_in AttemptStatus_Authorized None)).2 in
  (payments_core (CaptureRequest (Some 100%Z)) CallFails s).2 = s ∧
  is_ok (payments_core (CaptureRequest (Some 100%Z)) (transaction AttemptStatus_Charged) s).1 = false ∧
  (payments_core (ApproveRequest no_check) CallFails s).1 = Err ConnectorCallFailed ∧
  is_ok (payments_core (ApproveRequest no_check) (transaction AttemptStatus_Charged) s).1 = true.
Proof. split_and!; by_evaluation. Qed.

(** A payment under review that is approved and then captured. *)
Example reviewed_payment_captured :
  let s := (payments_core (ApproveRequest (mkFraudCheck (Some (FraudCheckStatus_ManualReview, None)) true)) CallFails
              (payment_in AttemptStatus_Unresolved None)).2 in
  pin_status (ps_intent s) = IntentStatus_RequiresCapture ∧
  pin_status (ps_intent (payments_core (CaptureRequest None) (transaction AttemptStatus_Charged) s).2) =
    IntentStatus_Succeeded.
Proof. split_and!; by_evaluation. Qed.
